(* ===== verification/_CoqProject ===== *)
-Q . S2P
Prelude.v
Bytes.v
DB.v
InMemoryDB.v
Spec.v
Types.v
Hex.v
Census.v
StorageTypes.v
StorageBase.v
Process.v
VoteStatus.v
Stats.v
Ballots.v
Batches.v
Cleanup.v
Recovery.v
Pipeline.v
Typed.v
Voters.v
Workers.v
Curve.v
ElGamal.v
Dkg.v
StateTree.v
StateVote.v
StateBatch.v
Tally.v
StateRun.v
Blobs.v
Omega.v
Gnark.v
TransitionCircuit.v
StateApply.v
CircuitSound.v
CircuitExample.v
Signatures.v
VoteCircuits.v
Finalizer.v
ResultsCircuit.v
SequencerBase.v
SequencerBallots.v
SequencerOnchain.v
SequencerTransitions.v
InFlight.v
SequencerAggregate.v
AuthToken.v
Runtime.v
Csp.v
BallotInputs.v
Api.v
ApiWorkers.v
Censusdb.v
CensusImport.v
EndpointPool.v
TxGas.v
TxManager.v
CensusDownloader.v
ProcessMonitor.v
ContractEvents.v
StateSync.v
