(* ===== verification/Prelude.v ===== *)
(** * Verification of the Davinci sequencer node

    The node is a sequencer of encrypted votes. Ballots arrive over an HTTP API
    ([src/api]) and enter the storage ([src/storage]), a set of queues over a
    key-value database ([src/db]); the sequencer ([src/sequencer]) and remote
    workers ([src/workers]) take ballots from one queue, prove them, and put the
    result into the next: pending ballots, verified ballots, aggregated batches,
    state transitions. Each transition is sent to a contract ([src/web3]) and,
    once confirmed, its votes are settled. [src/spec] fixes the key space of the
    state, the identifiers and the hashes that the circuits ([src/circuits])
    check; [src/state] holds the Merkle tree of a process; [src/types] the shared
    records.

    The services ([src/service]) follow the contracts: the monitor stores what the chain says of
    the processes, the downloader imports their censuses ([src/census]), and the synchronization
    rebuilds the states that other sequencers moved.

    The development models the storage, the state and the sequencer with their operations, the
    circuits as constraints, the cryptography above the curves, the handlers of votes and of
    workers, the transaction manager, the censuses and the services.

    ** Files

    Foundations.
    - [Prelude]: Go errors and results, the state and error monad in which every method of a shared
      receiver is written (the state is observable on error branches too), the frame calculus
      [moves R m] ("every run of [m] stays within [R]") with its tactic, and one-step run lemmas.
    - [Bytes]: byte strings, prefixes, the order of [bytes.Compare], fixed-width integers in both
      byte orders, and [uint64] as a bounded integer.
    - [DB]: the contract of [db.Database] as a finite map ([src/db/interface.go]), the two ways a
      backend hands keys to an iteration (Pebble strips the iterated prefix, the others do not),
      Pebble's iteration bounds, and the prefixing wrapper ([src/db/prefixeddb]).
    - [InMemoryDB]: [src/db/inmemory], versioned entries and optimistic transactions, with interleaved
      commits of other transactions as steps.
    - [Spec]: [src/spec] with its hashes, and [src/crypto/hash/poseidon]. Poseidon is a parameter.
    - [Types]: process and vote identifiers, process records, encrypted ballots; [Hex]: their texts and
      JSON; [Census]: origins and proofs of censuses, and the lookup of a census.

    Storage, [src/storage].
    - [StorageTypes]: the artifacts, and the interfaces of what the storage relies on: a codec per
      artifact ([Codec]), the store of process states ([StateStore]), hashing and the backend
      ([StorageEnv]); and a concrete environment on which the theorems are instantiated.
    - [StorageBase]: [storage.go]: key prefixes, the state of the storage, artifacts, reservations,
      locks, recovery. [Process]: [process.go], [process_updates.go], [keys.go]. [VoteStatus], [Stats],
      [Ballots], [Cleanup]: the files of these names. [Batches]: [ballots_batches.go], [tx.go],
      [state_transition_artifact.go], [results.go].
    - [Recovery]: stale reservations and restarts. [Pipeline]: every exported operation as a step of the
      storage, two classes of relations that the steps respect ([BatchRel] for the operations that leave
      ballots and voters' locks alone, [StepRel] for all), and what holds over all sequences of steps.
      [Typed]: every stored record decodes. [Voters]: the abstract queue of voters' ballots that the
      storage implements.
    - [Workers]: [src/workers], the registry of workers and of their jobs.

    Cryptography and state.
    - [Curve], [ElGamal], [Dkg]: the group, encrypted ballots, proofs of decryption, distributed keys
      ([src/crypto/elgamal]). [Signatures]: votes' signatures. [Csp]: census service providers.
    - [StateTree], [StateVote], [StateBatch]: [src/state]; [Tally]: the results leaf is the sum of the
      ballots; [StateRun]: over all batches; [StateApply]: a node that follows another's batches.
    - [Blobs], [Omega]: the evaluation of a blob, natively and in the circuit, and its domain.

    Circuits, [src/circuits].
    - [Gnark]: fields, gadgets, assertions. [TransitionCircuit], [VoteCircuits], [ResultsCircuit]: the
      circuits; [CircuitSound]: what the transition circuit enforces; [CircuitExample]: a small field in
      which it is satisfied. [BallotInputs]: the inputs of the ballot proof.

    Sequencer, [src/sequencer].
    - [SequencerBase], [SequencerBallots], [SequencerAggregate], [SequencerTransitions], [SequencerOnchain],
      [Finalizer]: the registration of processes and the stages from a pending ballot to the results.
      [InFlight]: how the marks of pending transactions and the queues go together.
    - [Runtime]: [src/web3/runtime.go], the networks that a process can belong to.

    API, chain and services.
    - [Api]: [src/api], the votes, processes and participants; [ApiWorkers]: the endpoints of the workers;
      [AuthToken]: their tokens.
    - [EndpointPool]: [src/web3/rpc], the endpoints of a chain. [TxGas], [TxManager]: [src/web3/txmanager].
    - [Censusdb], [CensusImport]: [src/census], the database of censuses and the importers.
      [CensusDownloader], [ProcessMonitor], [StateSync]: the services of these names in [src/service].

    ** Modelling choices

    - A method that holds a lock for its whole body is one atomic step on a record; the loops of
      goroutines are step relations or functions that take one element at a time, and one handler runs at
      a time. The storage's record has the database, the three lock tables, the clock, and the outcome of
      the commits to come. A commit fails or applies as a whole; the head of [faults] says which, and an
      exhausted list means that no further commit fails ([quiet] states). Theorems without [quiet] hold
      under every pattern of failures.
    - Database keys and values are byte strings as in the program; the key prefixes are the program's,
      and that their spaces do not overlap is a theorem.
    - Reads of the wall clock within one call return the same time, except in the pool of endpoints and in
      the transaction manager, whose world has a clock that calls may move. Times are nanoseconds; the
      codec of the storage keeps seconds, as CBOR does.
    - Counters and versions are unbounded; where the width matters (identifiers, packed ballot modes,
      status records, the cooldown shift, gas limits and their sums) integers are kept at their width.
    - Go's map iteration order, which the program does not control, is replaced by the order of first
      appearance, or is a parameter that permutes the entries.
    - Nil pointers are [None]; a dereference of one, and the other panics that inputs can reach, are
      errors, so that a theorem about an answer covers them. Records that the program shares and
      writes in place (censuses, pending transactions, references of the census database) live on a
      heap. Not covered are the panic of [MustFromBig] above 2^256 and nil fields of a transaction.
    - What is third-party is a parameter with the laws that the code relies on: curves, Poseidon, the
      Merkle trees (arbo, lean-imt), CBOR and gob, KZG, the proof systems (a theorem that needs their
      soundness has it as a named hypothesis), the Ethereum node and the contracts. The answers of the
      chain are arguments of a step or come from a world that each call may change. Each group of theorems
      is instantiated on a concrete environment.
    - Recursion that is not structural carries fuel, and that the fuel is enough is proved: the recursive
      Poseidon hash has the length of its input, since every level shrinks the list sixteenfold; the
      reference Merkle root has one unit per level; the loop over pending ballots ends when each ballot was
      taken once ([processAvailableBallots_drains]); the loop over results ends unless one result cannot be
      resolved ([processResultsOnChain_ends]); the search for gas has 64 units for limits below 2^63
      ([search_ends]); trimming spaces has the length of the text; the pages of a query have one unit per
      page that the server fills. The resend of a transaction makes ten attempts and each census download
      the configured number, as in the program.

    ** What the theorems show

    - Votes: what a transition counts was signed by its address, and the results that a contract
      accepts are the sums of the votes ([counted_votes_are_signed], [circuit_keeps_tally],
      [accepted_results_are_votes], [results_are_tally], [finalize_publishes_tally]). A done vote stays done.
    - Queues: between restarts and while no commit fails, the pending and verified ballots with the
      voters' locks refine an abstract queue in which every entry holds its own lock, so a voter has at
      most one ballot in them; a pending ballot is not handed to two workers; a pull returns distinct voters
      and is maximal. Every stored record decodes over every sequence of operations and failures.
    - API: a vote is queued only after all checks and as what was checked; a worker's proof is taken only
      for the ballot assigned to it.
    - Sequencer: each loop ends; a process that waits for a transaction has one in the queue while no
      commit fails, and the callback frees it; aggregation settles every ballot that it pulled.
    - Batches: retries are bounded and never resubmit a settled vote; a batch published in a blob can be
      read back, and a node that applies it gets the same state or keeps its own.
    - Cryptography: decryption, proofs of decryption, threshold decryption; the domain of the circuit's
      blob check is that of the node.
    - Chain: what the transaction manager follows was accepted by the node; a call through the pool of
      endpoints is a call on each endpoint in turn; the search finds a gas limit that works.
    - Services: the monitor changes the storage by its operations only; a download makes a bounded number
      of attempts; updates of a state are applied in order, each as a whole. Proofs of membership made by
      the census database verify; what is loaded there is stored.
    - Errors: where an operation fails, what it leaves; and runs on which restarts, failing commits, the
      recovery of nonces, late events and imports leave the node apart from what it means to do.

    ** Not modelled

    The decoding of requests, routing and limits of the HTTP server, and its metadata and info endpoints
    ([src/api], [src/metadata]): glue over net/http, chi and IPFS. The bindings of the contracts, the
    filters of events, the blob fetchers and the loops that wait for a transaction ([src/web3],
    [src/solidity]): glue over go-ethereum. The LevelDB and MongoDB drivers. The artifact cache, the
    tickers and the wiring of the services. Dummy witnesses, the artifacts of circuits, their compilation and
    the provers ([src/circuits], [src/prover]): calls of gnark and files. Logging, configuration, commands,
    the web application and tests. *)

From stdpp Require Export prelude gmap strings list pretty sorting.
From Stdlib Require Export Lia.

Declare Scope go_scope.
Delimit Scope go_scope with go.

#[global] Open Scope Z_scope.
#[global] Open Scope list_scope.

(** ** Go errors

    An error value is a sentinel (a package level [errors.New] variable) or a
    wrapped message [fmt.Errorf("msg: %w", err)]; a bare [fmt.Errorf("msg")] is
    [ErrMsg]. *)

Inductive sentinel :=
  (* storage/storage.go, storage/ballots.go *)
  | ErrKeyAlreadyExists | ErrNotFound | ErrNoMoreElements
  | ErrNullifierProcessing | ErrAddressProcessing | ErroBallotAlreadyExists
  (* db/interface.go *)
  | ErrKeyNotFound | ErrConflict
  (* workers/jobs_manager.go *)
  | ErrWorkerNotFound | ErrWorkerBanned | ErrWorkerBusy | ErrWorkerJobMismatch
  | ErrJobNotFound
  (* state/state.go, state/vote.go, arbo *)
  | ErrStateAlreadyInitialized | ErrStateKeyNotFound | ErrArboKeyNotFound
  (* go-ethereum *)
  | EthNotFound
  (* census/censusdb/censusdb.go *)
  | ErrCensusNotFound | ErrCensusAlreadyExists.

#[export] Instance sentinel_eq_dec : EqDecision sentinel.
Proof. solve_decision. Defined.

Inductive error :=
  | Sentinel (e : sentinel)
  | ErrMsg (msg : string)
  | Wrap (msg : string) (e : error).

#[export] Instance error_eq_dec : EqDecision error.
Proof. solve_decision. Defined.

Coercion Sentinel : sentinel >-> error.

(** [errors.Is]: walk the [%w] chain looking for a sentinel. *)
Fixpoint errors_Is (e : error) (target : sentinel) : bool :=
  match e with
  | Sentinel s => bool_decide (s = target)
  | ErrMsg _ => false
  | Wrap _ e' => errors_Is e' target
  end.

(** What [errors.New] was given for each sentinel. *)
Definition sentinel_text (s : sentinel) : string :=
  match s with
  | ErrKeyAlreadyExists => "key already exists" | ErrNotFound | EthNotFound | ErrStateKeyNotFound => "not found"
  | ErrNoMoreElements => "no more elements" | ErrNullifierProcessing => "nullifier is being processed"
  | ErrAddressProcessing => "address is already processing a vote" | ErroBallotAlreadyExists => "ballot already exists"
  | ErrKeyNotFound | ErrArboKeyNotFound => "key not found" | ErrConflict => "txn conflict"
  | ErrWorkerNotFound => "worker not found" | ErrWorkerBanned => "worker is banned" | ErrWorkerBusy => "worker is busy"
  | ErrWorkerJobMismatch => "worker job mismatch" | ErrJobNotFound => "job not found"
  | ErrStateAlreadyInitialized => "state already initialized"
  | ErrCensusNotFound => "census not found in the local database"
  | ErrCensusAlreadyExists => "census already exists in the local database"
  end.

(** [err.Error()] *)
Fixpoint error_Error (e : error) : string :=
  match e with
  | Sentinel s => sentinel_text s
  | ErrMsg msg => msg
  | Wrap msg e' => msg +:+ ": " +:+ error_Error e'
  end.

(** [strings.Contains], and [strings.ToLower] on ASCII. *)
Definition strings_Contains (s sub : string) : bool := bool_decide (is_Some (String.index 0 sub s)).
Definition ascii_ToLower (c : Ascii.ascii) : Ascii.ascii :=
  let n := Ascii.nat_of_ascii c in if (65 <=? n)%nat && (n <=? 90)%nat then Ascii.ascii_of_nat (n + 32) else c.
Fixpoint strings_ToLower (s : string) : string :=
  match s with EmptyString => EmptyString | String c s' => String (ascii_ToLower c) (strings_ToLower s') end.

Inductive result (A : Type) :=
  | Ok (a : A)
  | Err (e : error).
Arguments Ok {_} _.
Arguments Err {_} _.

Definition is_Ok {A} (r : result A) : bool := match r with Ok _ => true | Err _ => false end.

#[export] Instance result_eq_dec {A} `{EqDecision A} : EqDecision (result A).
Proof. solve_decision. Defined.

(** ** The state and error monad

    A Go method on a shared receiver returning [(A, error)] is a function of
    the receiver's state: the state it leaves is observable on the error
    branches too. *)

Definition SE (S A : Type) : Type := S → result A * S.

#[export] Instance SE_ret {S} : MRet (SE S) := λ A a s, (Ok a, s).
#[export] Instance SE_bind {S} : MBind (SE S) := λ A B f m s,
  match m s with
  | (Ok a, s') => f a s'
  | (Err e, s') => (Err e, s')
  end.

Section SE_ops.
Context {S : Type}.

Definition raise {A} (e : error) : SE S A := λ s, (Err e, s).
Definition get_state : SE S S := λ s, (Ok s, s).
Definition gets {A} (f : S → A) : SE S A := λ s, (Ok (f s), s).
Definition modify (f : S → S) : SE S () := λ s, (Ok (), f s).

(** Run [m] and hand its outcome, error or not, to the continuation. *)
Definition attempt {A} (m : SE S A) : SE S (result A) := λ s,
  let '(r, s') := m s in (Ok r, s').

Definition lift {A} (r : result A) : SE S A := λ s, (r, s).

(** [if err != nil { return fmt.Errorf("msg: %w", err) }] *)
Definition wrapping {A} (msg : string) (m : SE S A) : SE S A := λ s,
  match m s with
  | (Err e, s') => (Err (Wrap msg e), s')
  | r => r
  end.

(** [if err := m; err != nil { log.Warnw(...) }] *)
Definition warn {A} (m : SE S A) : SE S () := λ s, (Ok (), (m s).2).

(** [if err := m; err != nil && !errors.Is(err, target) { return err }] *)
Definition ignoring (target : sentinel) (m : SE S ()) : SE S () := λ s,
  match m s with
  | (Err e, s') => if errors_Is e target then (Ok (), s') else (Err e, s')
  | r => r
  end.

Fixpoint forM_ {A} (f : A → SE S ()) (l : list A) : SE S () :=
  match l with
  | [] => mret ()
  | x :: l' => f x ≫= λ _, forM_ f l'
  end.

Fixpoint foldM {A B} (f : B → A → SE S B) (acc : B) (l : list A) : SE S B :=
  match l with
  | [] => mret acc
  | x :: l' => f acc x ≫= λ acc', foldM f acc' l'
  end.

Definition run {A} (m : SE S A) (s : S) : result A * S := m s.
Definition exec {A} (m : SE S A) (s : S) : S := (m s).2.
Definition eval {A} (m : SE S A) (s : S) : result A := (m s).1.

End SE_ops.

(** ** Frame reasoning: every run of [m] moves the state along [R] *)

Definition moves {S A} (R : relation S) (m : SE S A) : Prop := ∀ s, R s (m s).2.

Create HintDb moves discriminated.

Section moves.
Context {S : Type} (R : relation S) `{!PreOrder R}.

Lemma moves_ret {A} (a : A) : moves R (mret a).
Proof. intros s. reflexivity. Qed.
Lemma moves_bind {A B} (m : SE S A) (f : A → SE S B) :
  moves R m → (∀ a, moves R (f a)) → moves R (m ≫= f).
Proof.
  intros Hm Hf s. unfold mbind, SE_bind. specialize (Hm s).
  destruct (m s) as [[a|e] s']; simpl in *; [|done]. etrans; [done|]. apply Hf.
Qed.
Lemma moves_raise {A} e : moves R (raise (A:=A) e).
Proof. intros s. reflexivity. Qed.
Lemma moves_gets {A} (f : S → A) : moves R (gets f).
Proof. intros s. reflexivity. Qed.
Lemma moves_get_state : moves R get_state.
Proof. intros s. reflexivity. Qed.
Lemma moves_lift {A} (r : result A) : moves R (lift r).
Proof. intros s. reflexivity. Qed.
Lemma moves_bind_lift {A B} msg (r : result A) (f : A → SE S B) :
  (∀ a, r = Ok a → moves R (f a)) → moves R (wrapping msg (lift r) ≫= f).
Proof.
  intros Hf s. unfold mbind, SE_bind, wrapping, lift. destruct r as [a|e]; [by apply Hf|reflexivity].
Qed.
Lemma moves_modify f : (∀ s, R s (f s)) → moves R (modify f).
Proof. intros Hf s. apply Hf. Qed.
Lemma moves_attempt {A} (m : SE S A) : moves R m → moves R (attempt m).
Proof. intros Hm s. unfold attempt. specialize (Hm s). by destruct (m s). Qed.
Lemma moves_wrapping {A} msg (m : SE S A) : moves R m → moves R (wrapping msg m).
Proof. intros Hm s. unfold wrapping. specialize (Hm s). by destruct (m s) as [[]]. Qed.
Lemma moves_warn {A} (m : SE S A) : moves R m → moves R (warn m).
Proof. intros Hm s. apply Hm. Qed.
Lemma moves_ignoring t m : moves R m → moves R (ignoring t m).
Proof.
  intros Hm s. unfold ignoring. specialize (Hm s).
  destruct (m s) as [[|e] s']; simpl in *; [done|]. by destruct (errors_Is e t).
Qed.
Lemma moves_forM_ {A} (f : A → SE S ()) l :
  (∀ x, x ∈ l → moves R (f x)) → moves R (forM_ f l).
Proof.
  induction l as [|x l IH]; intros Hf; simpl; [apply moves_ret|].
  apply moves_bind; [apply Hf; set_solver|]. intros _. apply IH. set_solver.
Qed.
Lemma moves_foldM {A B} (f : B → A → SE S B) l b :
  (∀ b x, x ∈ l → moves R (f b x)) → moves R (foldM f b l).
Proof.
  revert b. induction l as [|x l IH]; intros b Hf; simpl; [apply moves_ret|].
  apply moves_bind; [apply Hf; set_solver|]. intros b'. apply IH. set_solver.
Qed.
End moves.

(** A relation that only compares an observation of the state. *)
Definition same {S T} (obs : S → T) : relation S := λ s s', obs s' = obs s.
#[export] Instance same_preorder {S T} (obs : S → T) : PreOrder (same obs).
Proof. split; [done|]. intros x y z. unfold same. congruence. Qed.

(** Structural frame rules; the leaves are closed by the [moves] database. *)
Ltac moves_step :=
  lazymatch goal with
  | |- moves _ (mret _) => apply moves_ret; apply _
  | |- moves _ (_ ≫= _) => apply moves_bind; [apply _| |intros ?]
  | |- moves _ (raise _) => apply moves_raise; apply _
  | |- moves _ (gets _) => apply moves_gets; apply _
  | |- moves _ get_state => apply moves_get_state; apply _
  | |- moves _ (lift _) => apply moves_lift; apply _
  | |- moves _ (attempt _) => apply moves_attempt
  | |- moves _ (wrapping _ _) => apply moves_wrapping
  | |- moves _ (warn _) => apply moves_warn
  | |- moves _ (ignoring _ _) => apply moves_ignoring
  | |- moves _ (forM_ _ _) => apply moves_forM_; [apply _|intros ? ?]
  | |- moves _ (foldM _ _ _) => apply moves_foldM; [apply _|intros ? ? ?]
  | |- moves _ (match ?x with _ => _ end) => destruct x
  | |- moves _ (modify _) => apply moves_modify; intros ?
  end.
Ltac moves := repeat (first [solve [eauto 3 with moves] | moves_step]); try done.

(** From a run to the frame of the code that is run. *)
Ltac to_moves :=
  lazymatch goal with
  | |- ?R ?s (?m ?s).2 => cut (moves R m); [intros Hmoves; exact (Hmoves s)|]
  end.

(** ** Running monadic code

    One-step equations, used to push a concrete run through a handler. *)

Lemma bind_Ok {S A B} (m : SE S A) (f : A → SE S B) s a s' :
  m s = (Ok a, s') → (m ≫= f) s = f a s'.
Proof. intros H. unfold mbind, SE_bind. by rewrite H. Qed.
Lemma bind_Err {S A B} (m : SE S A) (f : A → SE S B) s e s' :
  m s = (Err e, s') → (m ≫= f) s = (Err e, s').
Proof. intros H. unfold mbind, SE_bind. by rewrite H. Qed.
Lemma bind_inv_Ok {S A B} (m : SE S A) (f : A → SE S B) s b s'' :
  (m ≫= f) s = (Ok b, s'') → ∃ a s', m s = (Ok a, s') ∧ f a s' = (Ok b, s'').
Proof.
  unfold mbind, SE_bind. destruct (m s) as [[a|e] s'] eqn:E; intros H; [eauto|done].
Qed.
Lemma bind_inv_Err {S A B} (m : SE S A) (f : A → SE S B) s e s'' :
  (m ≫= f) s = (Err e, s'') → m s = (Err e, s'') ∨ ∃ a s', m s = (Ok a, s') ∧ f a s' = (Err e, s'').
Proof.
  unfold mbind, SE_bind. destruct (m s) as [[a|e'] s'] eqn:E; intros H; [eauto|left; congruence].
Qed.
Lemma wrapping_Ok {S A} msg (m : SE S A) s a s' : wrapping msg m s = (Ok a, s') → m s = (Ok a, s').
Proof. unfold wrapping. by destruct (m s) as [[]]. Qed.
Lemma run_eq {S A} (m : SE S A) s r : eval m s = r → m s = (r, exec m s).
Proof. intros <-. unfold eval, exec. by destruct (m s). Qed.
Lemma attempt_eq {S A} (m : SE S A) s : attempt m s = (Ok (m s).1, (m s).2).
Proof. unfold attempt. by destruct (m s). Qed.
Lemma warn_eq {S A} (m : SE S A) s : warn m s = (Ok (), (m s).2).
Proof. done. Qed.

Lemma forM_app {S A} (f : A → SE S ()) l1 l2 s :
  forM_ f (l1 ++ l2) s = (forM_ f l1 ≫= λ _, forM_ f l2) s.
Proof.
  revert s. induction l1 as [|x l1 IH]; intros s; simpl; [done|].
  unfold mbind, SE_bind. destruct (f x s) as [[[]|] s']; simpl; [|done].
  rewrite IH. done.
Qed.

(** Case analysis on every computation blocking the goal. *)
Ltac run_simpl := unfold mbind, SE_bind, mret, SE_ret in *; simpl in *.

(** ** Lists *)

Lemma list_find_app_None {A} (P : A → Prop) `{∀ x, Decision (P x)} l :
  list_find P l = None ↔ Forall (λ x, ¬ P x) l.
Proof. apply list_find_None. Qed.

Lemma take_prefix_length {A} (l k : list A) : l `prefix_of` k → take (length l) k = l.
Proof. intros [r ->]. by rewrite take_app_length. Qed.
