(* ===== verification/Bytes.v ===== *)
(** * Byte strings, fixed-width integers and big-endian numbers

    Go's [[]byte] as a list of 8-bit characters, [bytes.HasPrefix],
    [bytes.TrimPrefix], the lexicographic order of [bytes.Compare],
    [encoding/binary]'s [PutUint64] in both byte orders, [big.Int]'s
    [Bytes]/[SetBytes], and the [uint64] type that carries its own bound. *)

From S2P Require Import Prelude.
From Stdlib Require Import Ascii Eqdep_dec.

Abbreviation byte := ascii.
Abbreviation bytes := (list ascii).

(** ** Bytes as numbers *)

Definition byte_to_Z (b : byte) : Z := Z.of_N (N_of_ascii b).
Definition byte_of_Z (z : Z) : byte := ascii_of_N (Z.to_N (z mod 256)).

Definition bytes_of_string (s : string) : bytes := String.list_ascii_of_string s.

(** ** Little and big endian splitting *)

Fixpoint le_split (n : nat) (z : Z) : bytes :=
  match n with
  | O => []
  | S n' => byte_of_Z z :: le_split n' (z / 256)
  end.
Fixpoint le_combine (l : bytes) : Z :=
  match l with
  | [] => 0
  | b :: l' => byte_to_Z b + 256 * le_combine l'
  end.
Definition be_split (n : nat) (z : Z) : bytes := reverse (le_split n z).

(** [new(big.Int).SetBytes(b)]. *)
Definition be_combine (l : bytes) : Z := le_combine (reverse l).

(** [big.Int.Bytes] of a non-negative number: big-endian, no leading zero. *)
Definition byte_len (z : Z) : nat :=
  if bool_decide (z ≤ 0) then 0%nat else Z.to_nat (Z.log2 z / 8 + 1).
Definition big_Bytes (z : Z) : bytes := be_split (byte_len z) z.

(** ** Prefixes *)

(** [bytes.HasPrefix(k, p)]. *)
Definition HasPrefix (k p : bytes) : bool := bool_decide (p `prefix_of` k).
(** [bytes.TrimPrefix(k, p)]. *)
Definition TrimPrefix (k p : bytes) : bytes :=
  if HasPrefix k p then drop (length p) k else k.

(** ** The order of [bytes.Compare] *)

Fixpoint bytes_leb (a b : bytes) : bool :=
  match a, b with
  | [], _ => true
  | _ :: _, [] => false
  | x :: a', y :: b' =>
      if byte_to_Z x <? byte_to_Z y then true
      else if byte_to_Z y <? byte_to_Z x then false else bytes_leb a' b'
  end.
Definition bytes_le : relation bytes := λ a b, bytes_leb a b = true.
#[export] Instance bytes_le_dec a b : Decision (bytes_le a b).
Proof. unfold bytes_le. apply _. Defined.
Definition bytes_ltb (a b : bytes) : bool := negb (bytes_leb b a).

(** ** uint64 *)

Definition two64 : Z := 18446744073709551616.
Definition u64_ok (z : Z) : bool := (0 <=? z) && (z <? two64).

Record uint64 := MkU64 { u64Z : Z; u64_bound : u64_ok u64Z = true }.
Add Printing Constructor uint64.

Lemma u64_ok_mod z : u64_ok (z mod two64) = true.
Proof.
  unfold u64_ok. pose proof (Z.mod_pos_bound z two64 ltac:(done)).
  apply andb_true_iff. lia.
Qed.
(** Conversion to [uint64]: reduction modulo 2^64. *)
Definition U64 (z : Z) : uint64 := MkU64 (z mod two64) (u64_ok_mod z).

Lemma u64_eq (a b : uint64) : u64Z a = u64Z b → a = b.
Proof.
  destruct a as [x Hx], b as [y Hy]; simpl; intros ->. f_equal. apply UIP_dec, bool_dec.
Qed.
Lemma u64Z_range (a : uint64) : 0 ≤ u64Z a < two64.
Proof. destruct a as [x Hx]; simpl. unfold u64_ok in Hx. apply andb_true_iff in Hx. lia. Qed.
Lemma U64_u64Z (a : uint64) : U64 (u64Z a) = a.
Proof. apply u64_eq. simpl. apply Z.mod_small, u64Z_range. Qed.
Lemma u64Z_U64 z : 0 ≤ z < two64 → u64Z (U64 z) = z.
Proof. intros. simpl. by apply Z.mod_small. Qed.

#[export] Instance uint64_eq_dec : EqDecision uint64.
Proof.
  intros a b. destruct (decide (u64Z a = u64Z b)) as [H|H].
  - left. by apply u64_eq.
  - right. congruence.
Defined.
#[export] Program Instance uint64_countable : Countable uint64 :=
  inj_countable' u64Z U64 _.
Next Obligation. apply U64_u64Z. Qed.

(** ** Facts about bytes *)

Create HintDb bytes.

Lemma byte_to_Z_range b : 0 ≤ byte_to_Z b < 256.
Proof. unfold byte_to_Z. pose proof (N_ascii_bounded b). lia. Qed.
Lemma byte_of_to_Z b : byte_of_Z (byte_to_Z b) = b.
Proof.
  unfold byte_of_Z. rewrite Z.mod_small by apply byte_to_Z_range.
  unfold byte_to_Z. rewrite N2Z.id. apply ascii_N_embedding.
Qed.
Lemma byte_to_of_Z z : byte_to_Z (byte_of_Z z) = z mod 256.
Proof.
  unfold byte_to_Z, byte_of_Z. pose proof (Z.mod_pos_bound z 256 ltac:(done)).
  rewrite N_ascii_embedding by lia. lia.
Qed.
#[export] Instance byte_to_Z_inj : Inj (=) (=) byte_to_Z.
Proof. intros a b H. by rewrite <-(byte_of_to_Z a), H, byte_of_to_Z. Qed.

Lemma length_le_split n z : length (le_split n z) = n.
Proof. revert z. induction n; intros; simpl; auto. Qed.
Lemma length_be_split n z : length (be_split n z) = n.
Proof. unfold be_split. by rewrite length_reverse, length_le_split. Qed.
#[export] Hint Rewrite length_le_split length_be_split : bytes.

Lemma le_combine_split n z : le_combine (le_split n z) = z mod 256 ^ Z.of_nat n.
Proof.
  revert z. induction n as [|n IH]; intros z.
  { by rewrite Z.mod_1_r. }
  cbn [le_split le_combine]. rewrite IH, byte_to_of_Z, Nat2Z.inj_succ, Z.pow_succ_r by lia.
  rewrite Z.rem_mul_r by lia. lia.
Qed.
Lemma le_combine_range l : 0 ≤ le_combine l < 256 ^ Z.of_nat (length l).
Proof.
  induction l as [|b l IH]; cbn [le_combine length]; [lia|].
  rewrite Nat2Z.inj_succ, Z.pow_succ_r by lia. pose proof (byte_to_Z_range b). lia.
Qed.
Lemma le_split_combine l : le_split (length l) (le_combine l) = l.
Proof.
  induction l as [|b l IH]; cbn [le_combine length le_split]; [done|].
  pose proof (byte_to_Z_range b).
  assert (Hq : (byte_to_Z b + 256 * le_combine l) / 256 = le_combine l).
  { symmetry. apply Z.div_unique with (byte_to_Z b); lia. }
  assert (Hb : byte_of_Z (byte_to_Z b + 256 * le_combine l) = b).
  { apply (inj byte_to_Z). rewrite byte_to_of_Z. symmetry.
    apply Z.mod_unique with (le_combine l); lia. }
  by rewrite Hb, Hq, IH.
Qed.
Lemma le_combine_inj a b : length a = length b → le_combine a = le_combine b → a = b.
Proof. intros Hl H. by rewrite <-(le_split_combine a), H, Hl, le_split_combine. Qed.
Lemma be_combine_split n z : be_combine (be_split n z) = z mod 256 ^ Z.of_nat n.
Proof. unfold be_combine, be_split. by rewrite reverse_involutive, le_combine_split. Qed.
Lemma be_split_combine l : be_split (length l) (be_combine l) = l.
Proof.
  unfold be_split, be_combine. rewrite <-(length_reverse l).
  by rewrite le_split_combine, reverse_involutive.
Qed.
Lemma be_combine_range l : 0 ≤ be_combine l < 256 ^ Z.of_nat (length l).
Proof. unfold be_combine. rewrite <-(length_reverse l). apply le_combine_range. Qed.
Lemma be_split_inj n x y :
  0 ≤ x < 256 ^ Z.of_nat n → 0 ≤ y < 256 ^ Z.of_nat n → be_split n x = be_split n y → x = y.
Proof.
  intros Hx Hy H. apply (f_equal be_combine) in H.
  by rewrite !be_combine_split, !Z.mod_small in H.
Qed.

Lemma byte_len_bound z : 0 ≤ z → z < 256 ^ Z.of_nat (byte_len z).
Proof.
  intros Hz. unfold byte_len. case_bool_decide; [lia|].
  pose proof (Z.log2_spec z ltac:(lia)) as [_ Hlt].
  eapply Z.lt_le_trans; [exact Hlt|]. change 256 with (2 ^ 8).
  assert (0 ≤ Z.log2 z / 8) by (apply Z.div_pos; [apply Z.log2_nonneg|lia]).
  rewrite <-Z.pow_mul_r by lia. apply Z.pow_le_mono_r; [lia|].
  rewrite Z2Nat.id by lia. pose proof (Z.mod_pos_bound (Z.log2 z) 8 ltac:(lia)).
  pose proof (Z_div_mod_eq_full (Z.log2 z) 8). lia.
Qed.
Lemma big_Bytes_SetBytes z : 0 ≤ z → be_combine (big_Bytes z) = z.
Proof.
  intros Hz. unfold big_Bytes. rewrite be_combine_split.
  apply Z.mod_small. split; [done|]. by apply byte_len_bound.
Qed.
#[export] Hint Resolve byte_to_Z_range be_combine_range : bytes.

(** ** Facts about prefixes *)

Lemma HasPrefix_app p k : HasPrefix (p ++ k) p = true.
Proof. apply bool_decide_eq_true. by eexists. Qed.
Lemma HasPrefix_spec k p : HasPrefix k p = true ↔ ∃ r, k = p ++ r.
Proof. apply bool_decide_eq_true. Qed.
Lemma TrimPrefix_app p k : TrimPrefix (p ++ k) p = k.
Proof. unfold TrimPrefix. by rewrite HasPrefix_app, drop_app_length. Qed.
Lemma TrimPrefix_nil k : TrimPrefix k [] = k.
Proof. unfold TrimPrefix. by destruct (HasPrefix k []). Qed.
Lemma TrimPrefix_no k p : HasPrefix k p = false → TrimPrefix k p = k.
Proof. unfold TrimPrefix. by intros ->. Qed.

(** ** Facts about the order *)

Lemma bytes_leb_refl a : bytes_leb a a = true.
Proof. induction a as [|x a IH]; simpl; [done|]. by rewrite !Z.ltb_irrefl. Qed.
Lemma bytes_leb_trans a b c :
  bytes_leb a b = true → bytes_leb b c = true → bytes_leb a c = true.
Proof.
  revert b c. induction a as [|x a IH]; intros [|y b] [|z c]; simpl; try done.
  repeat case_match; try done; try lia; intros; eauto.
Qed.
Lemma bytes_leb_total a b : bytes_leb a b = true ∨ bytes_leb b a = true.
Proof.
  revert b. induction a as [|x a IH]; intros [|y b]; simpl; auto.
  repeat case_match; auto; lia.
Qed.
Lemma bytes_leb_antisym a b : bytes_leb a b = true → bytes_leb b a = true → a = b.
Proof.
  revert b. induction a as [|x a IH]; intros [|y b]; simpl; try done.
  repeat case_match; try done; intros; try lia.
  f_equal; [apply (inj byte_to_Z); lia|auto].
Qed.
#[export] Instance bytes_le_total : Total bytes_le.
Proof. intros a b. apply bytes_leb_total. Qed.
#[export] Instance bytes_le_trans : Transitive bytes_le.
Proof. intros a b c. apply bytes_leb_trans. Qed.
#[export] Instance bytes_le_antisymm : AntiSymm (=) bytes_le.
Proof. intros a b. apply bytes_leb_antisym. Qed.

Lemma bytes_leb_app p a b : bytes_leb (p ++ a) (p ++ b) = bytes_leb a b.
Proof. induction p as [|x p IH]; simpl; [done|]. by rewrite Z.ltb_irrefl. Qed.
Lemma bytes_leb_prefix p a : bytes_leb p (p ++ a) = true.
Proof. rewrite <-(app_nil_r p) at 1. by rewrite bytes_leb_app. Qed.
