(* ===== verification/DB.v ===== *)
(** * Key-value databases

    The contract of [db.Database] (src/db/interface.go) as a finite map from
    byte strings to byte strings, the two shapes of keys an iteration hands to
    its callback (Pebble strips the iterated prefix, the in-memory, LevelDB and
    MongoDB backends do not), the prefixing wrapper src/db/prefixeddb, and
    the optimistic transactions of src/db/inmemory with the refinement of the
    contract by them. *)

From S2P Require Import Prelude Bytes.

(** ** The contract *)

Abbreviation kv := (gmap bytes bytes).
(** The buffered writes of a transaction: [None] is a deletion. *)
Abbreviation writes := (gmap bytes (option bytes)).

Definition entry_le (a b : bytes * bytes) : Prop := bytes_le a.1 b.1.
#[export] Instance entry_le_dec a b : Decision (entry_le a b).
Proof. unfold entry_le. apply _. Defined.
#[export] Instance entry_le_total : Total entry_le.
Proof. intros a b. apply (total bytes_le). Qed.
#[export] Instance entry_le_trans : Transitive entry_le.
Proof. intros a b c. unfold entry_le. apply transitivity. Qed.

(** The pairs whose key starts with [p], in the order of [bytes.Compare]. *)
Definition entries (p : bytes) (d : kv) : list (bytes * bytes) :=
  merge_sort entry_le (filter (λ kv, HasPrefix kv.1 p = true) (map_to_list d)).

(** What committing a batch does to the store. *)
Definition apply_writes (w : writes) (d : kv) : kv :=
  merge (λ o v, match o with Some o' => o' | None => v end) w d.

(** ** Pebble's iteration bounds *)

(** [keyUpperBound], the loop from the last byte down: on the reversed key,
    drop the bytes 0xff (their successor wraps to 0) and bump the first other. *)
Fixpoint bump_rev (l : bytes) : option bytes :=
  match l with
  | [] => None
  | b :: l' =>
      let b' := byte_of_Z (byte_to_Z b + 1) in
      if byte_to_Z b' =? 0 then bump_rev l' else Some (b' :: l')
  end.
(** [src/db/pebbledb/pebledb.go:174-184] keyUpperBound *)
Definition keyUpperBound (b : bytes) : option bytes := reverse <$> bump_rev (reverse b).

(** [src/db/pebbledb/pebledb.go:44-50] iterate: the key range of the iterator *)
Definition in_bounds (p k : bytes) : bool :=
  bytes_leb p k && match keyUpperBound p with None => true | Some u => bytes_ltb k u end.

(** ** The key an iteration passes to its callback *)

Inductive backend := Pebble | InMemory.
(** [src/db/pebbledb/pebledb.go:62-67] iterate: the callback's key. Pebble
    slices the iterated prefix off; the in-memory backend passes the whole key. *)
Definition backend_key (bk : backend) (p k : bytes) : bytes :=
  match bk with Pebble => drop (length p) k | InMemory => k end.
Definition Iterate (bk : backend) (p : bytes) (d : kv) : list (bytes * bytes) :=
  (λ '(k, v), (backend_key bk p k, v)) <$> entries p d.

(** ** src/db/prefixeddb *)

(** [src/db/prefixeddb/prefixeddb.go:19-26] prefixSlice *)
Definition prefixSlice (p v : bytes) : bytes := p ++ v.
(** [src/db/prefixeddb/prefixeddb.go:55-57] PrefixedDatabase.Get *)
Definition prefixed_Get (p : bytes) (d : kv) (k : bytes) : option bytes := d !! prefixSlice p k.
(** [src/db/prefixeddb/prefixeddb.go:60-64] PrefixedDatabase.Iterate *)
Definition prefixed_Iterate (bk : backend) (p : bytes) (pre : bytes) (d : kv) : list (bytes * bytes) :=
  (λ '(k, v), (TrimPrefix k p, v)) <$> Iterate bk (prefixSlice p pre) d.
(** [src/db/prefixeddb/prefixeddb.go:138-140] PrefixedWriteTx.Set *)
Definition prefixed_Set (p k v : bytes) (w : writes) : writes := <[prefixSlice p k := Some v]> w.
(** [src/db/prefixeddb/prefixeddb.go:143-145] PrefixedWriteTx.Delete *)
Definition prefixed_Delete (p k : bytes) (w : writes) : writes := <[prefixSlice p k := None]> w.
(** [src/db/prefixeddb/prefixeddb.go:121-123] PrefixedWriteTx.Get: own writes first *)
Definition prefixed_tx_Get (p : bytes) (w : writes) (d : kv) (k : bytes) : option bytes :=
  match w !! prefixSlice p k with Some o => o | None => d !! prefixSlice p k end.
(** [src/db/prefixeddb/prefixeddb.go:125-129] PrefixedWriteTx.Iterate *)
Definition prefixed_tx_Iterate (bk : backend) (p pre : bytes) (w : writes) (d : kv) : list (bytes * bytes) :=
  prefixed_Iterate bk p pre (apply_writes w d).

(** ** Facts about the contract *)

Lemma lookup_apply_writes w d k :
  apply_writes w d !! k = match w !! k with Some o => o | None => d !! k end.
Proof. unfold apply_writes. rewrite lookup_merge. by destruct (w !! k), (d !! k). Qed.
Lemma apply_writes_empty d : apply_writes ∅ d = d.
Proof. apply map_eq. intros k. by rewrite lookup_apply_writes, lookup_empty. Qed.
Lemma apply_writes_insert w d k v :
  apply_writes (<[k := Some v]> w) d = <[k := v]> (apply_writes w d).
Proof.
  apply map_eq. intros i. rewrite lookup_apply_writes.
  destruct (decide (i = k)) as [->|]; simplify_map_eq; [done|]. by rewrite lookup_apply_writes.
Qed.
Lemma apply_writes_delete w d k :
  apply_writes (<[k := None]> w) d = delete k (apply_writes w d).
Proof.
  apply map_eq. intros i. rewrite lookup_apply_writes.
  destruct (decide (i = k)) as [->|]; simplify_map_eq; [done|]. by rewrite lookup_apply_writes.
Qed.

Lemma entries_perm p d :
  entries p d ≡ₚ filter (λ kv, HasPrefix kv.1 p = true) (map_to_list d).
Proof. apply merge_sort_Permutation. Qed.
Lemma elem_of_entries p d k v :
  (k, v) ∈ entries p d ↔ d !! k = Some v ∧ HasPrefix k p = true.
Proof.
  rewrite (entries_perm p d), list_elem_of_filter, elem_of_map_to_list. simpl. tauto.
Qed.
Lemma NoDup_fst_filter {A B} (P : A * B → Prop) `{∀ x, Decision (P x)} (l : list (A * B)) :
  NoDup l.*1 → NoDup (filter P l).*1.
Proof.
  induction l as [|x l IH]; csimpl; [done|]. rewrite NoDup_cons. intros [Hx Hl].
  rewrite filter_cons. case_decide; [|auto]. csimpl. rewrite NoDup_cons. split; [|auto].
  intros (y & Hy & Hin)%list_elem_of_fmap. apply Hx. apply list_elem_of_fmap.
  apply list_elem_of_filter in Hin as [_ Hin]. eauto.
Qed.
Lemma entries_NoDup_keys p d : NoDup (entries p d).*1.
Proof. rewrite (entries_perm p d). apply NoDup_fst_filter, NoDup_fst_map_to_list. Qed.
Lemma entries_sorted p d : StronglySorted bytes_le (entries p d).*1.
Proof.
  assert (H : StronglySorted entry_le (entries p d)) by apply (StronglySorted_merge_sort _).
  induction H as [|a l _ IH Ha]; csimpl; constructor; [done|].
  by apply Forall_fmap.
Qed.

(** ** Facts about prefixing *)

Lemma prefixSlice_inj p a b : prefixSlice p a = prefixSlice p b → a = b.
Proof. apply (inj (app p)). Qed.
Lemma prefixed_Get_apply_Set p k v w d k' :
  prefixed_Get p (apply_writes (prefixed_Set p k v w) d) k' =
  if decide (k = k') then Some v else prefixed_Get p (apply_writes w d) k'.
Proof.
  unfold prefixed_Get, prefixed_Set. rewrite apply_writes_insert.
  case_decide as Hk; [subst; by rewrite lookup_insert_eq|].
  rewrite lookup_insert_ne; [done|]. intros H%prefixSlice_inj. done.
Qed.

Lemma elem_of_Iterate bk p d k v :
  (k, v) ∈ Iterate bk p d ↔
  ∃ r, d !! (p ++ r) = Some v ∧ k = backend_key bk p (p ++ r).
Proof.
  unfold Iterate. rewrite list_elem_of_fmap. split.
  - intros ([k' v'] & [= -> ->] & Hin). apply elem_of_entries in Hin as [Hl Hp].
    apply HasPrefix_spec in Hp as [r ->]. eauto.
  - intros (r & Hl & ->). exists (p ++ r, v). split; [done|].
    apply elem_of_entries. split; [done|]. apply HasPrefix_app.
Qed.
Lemma backend_key_app bk p r :
  backend_key bk p (p ++ r) = match bk with Pebble => r | InMemory => p ++ r end.
Proof. destruct bk; simpl; [|done]. apply drop_app_length. Qed.

(** The key handed to the callback of a prefixed iteration. *)
Definition local_key (bk : backend) (p pre r : bytes) : bytes :=
  match bk with Pebble => TrimPrefix r p | InMemory => pre ++ r end.
Lemma elem_of_prefixed_Iterate bk p pre d k v :
  (k, v) ∈ prefixed_Iterate bk p pre d ↔
  ∃ r, d !! (p ++ pre ++ r) = Some v ∧ k = local_key bk p pre r.
Proof.
  unfold prefixed_Iterate, prefixSlice. rewrite list_elem_of_fmap. split.
  - intros ([k' v'] & [= -> ->] & Hin). apply elem_of_Iterate in Hin as (r & Hl & ->).
    exists r. rewrite app_assoc. split; [done|]. rewrite backend_key_app.
    destruct bk; simpl; [done|]. by rewrite <-app_assoc, TrimPrefix_app.
  - intros (r & Hl & ->). exists (backend_key bk (p ++ pre) ((p ++ pre) ++ r), v).
    split.
    + rewrite backend_key_app. destruct bk; simpl; [done|].
      by rewrite <-app_assoc, TrimPrefix_app.
    + apply elem_of_Iterate. exists r. by rewrite <-app_assoc.
Qed.

(** ** keyUpperBound bounds exactly the prefixed keys *)

Lemma bytes_ltb_app p a b : bytes_ltb (p ++ a) (p ++ b) = bytes_ltb a b.
Proof. unfold bytes_ltb. by rewrite bytes_leb_app. Qed.
Lemma bytes_leb_cons x a y b :
  bytes_leb (x :: a) (y :: b) = true ↔
  byte_to_Z x < byte_to_Z y ∨ (x = y ∧ bytes_leb a b = true).
Proof.
  simpl. destruct (Z.ltb_spec (byte_to_Z x) (byte_to_Z y)) as [Hxy|Hxy]; [tauto|].
  destruct (Z.ltb_spec (byte_to_Z y) (byte_to_Z x)) as [Hyx|Hyx].
  - split; [done|]. intros [|[-> _]]; lia.
  - assert (x = y) as -> by (apply (inj byte_to_Z); lia). split; [by right|].
    intros [|[_ ?]]; [lia|done].
Qed.
Lemma bytes_ltb_cons x a y b :
  bytes_ltb (x :: a) (y :: b) = true ↔
  byte_to_Z x < byte_to_Z y ∨ (x = y ∧ bytes_ltb a b = true).
Proof.
  unfold bytes_ltb. rewrite !negb_true_iff, <-!not_true_iff_false, bytes_leb_cons.
  destruct (decide (byte_to_Z x = byte_to_Z y)) as [E|E].
  - apply (inj byte_to_Z) in E as ->. split; [|intros [|[_ ?]]; [lia|]]; intuition lia.
  - split; [|intros [|[-> _]]; [|lia]]; [left|intros [|[-> _]]]; intuition lia.
Qed.

Definition xff : byte := byte_of_Z 255.
Lemma byte_succ_zero b : byte_to_Z (byte_of_Z (byte_to_Z b + 1)) = 0 ↔ b = xff.
Proof.
  rewrite byte_to_of_Z. pose proof (byte_to_Z_range b). split.
  - intros H0. apply (inj byte_to_Z). unfold xff. rewrite byte_to_of_Z.
    destruct (decide (byte_to_Z b = 255)) as [->|]; [done|].
    rewrite Z.mod_small in H0; lia.
  - intros ->. done.
Qed.

(** The shape of a bumped key: [q ++ b :: 0xff...] becomes [q ++ [b+1]]. *)
Lemma keyUpperBound_shape p :
  match keyUpperBound p with
  | None => ∃ n, p = replicate n xff
  | Some u => ∃ q b c n, p = q ++ b :: replicate n xff ∧ u = q ++ [c] ∧
      byte_to_Z c = byte_to_Z b + 1
  end.
Proof.
  unfold keyUpperBound. induction p as [|b p IH] using rev_ind; [by exists 0%nat|].
  rewrite reverse_snoc. cbn [bump_rev].
  destruct (byte_to_Z (byte_of_Z (byte_to_Z b + 1)) =? 0) eqn:E.
  - apply Z.eqb_eq, byte_succ_zero in E as ->.
    destruct (bump_rev (reverse p)) as [u|] eqn:Eu; simpl in *.
    + destruct IH as (q & b & c & n & -> & Hu & Hc). exists q, b, c, (S n).
      rewrite Hu. split; [|done]. by rewrite replicate_S_end, <-app_assoc.
    + destruct IH as [n ->]. exists (S n). by rewrite replicate_S_end.
  - cbn [fmap option_fmap option_map]. rewrite reverse_cons, reverse_involutive.
    exists p, b, (byte_of_Z (byte_to_Z b + 1)), 0%nat. split; [done|]. split; [done|].
    rewrite byte_to_of_Z in *. pose proof (byte_to_Z_range b).
    destruct (decide (byte_to_Z b = 255)) as [Hb|]; [by rewrite Hb in E|].
    rewrite Z.mod_small; lia.
Qed.
Lemma xff_max b : byte_to_Z b ≤ byte_to_Z xff.
Proof. pose proof (byte_to_Z_range b). assert (byte_to_Z xff = 255) by done. lia. Qed.
Lemma replicate_xff_leb n k :
  bytes_leb (replicate n xff) k = true → replicate n xff `prefix_of` k.
Proof.
  revert k. induction n as [|n IH]; intros k; [intros; apply prefix_nil|].
  destruct k as [|y k]; [done|]. cbn [replicate]. rewrite bytes_leb_cons.
  pose proof (xff_max y). intros [?|[<- ?]]; [lia|]. by apply prefix_cons, IH.
Qed.

(** Between [q ++ b :: ff..] and [q ++ [b+1]] lie only extensions of the former. *)
Lemma between_bounds q b c n k :
  byte_to_Z c = byte_to_Z b + 1 →
  bytes_leb (q ++ b :: replicate n xff) k = true → bytes_ltb k (q ++ [c]) = true →
  (q ++ b :: replicate n xff) `prefix_of` k.
Proof.
  intros Hc. revert k. induction q as [|x q IH]; intros [|y k]; cbn [app]; try done.
  - rewrite bytes_leb_cons, bytes_ltb_cons. intros [H1|[-> H1]] [H2|[-> H2]]; try lia.
    + by destruct k.
    + by apply prefix_cons, replicate_xff_leb.
  - rewrite bytes_leb_cons, bytes_ltb_cons. intros [H1|[E1 H1]] [H2|[E2 H2]]; subst; try lia.
    by apply prefix_cons, IH.
Qed.

(** The range Pebble's iterator is given contains exactly the keys with the
    prefix, for every prefix (an all-0xff prefix has no upper bound). *)
Theorem keyUpperBound_correct (p k : bytes) : in_bounds p k = HasPrefix k p.
Proof.
  apply eq_true_iff_eq. unfold in_bounds. rewrite andb_true_iff, HasPrefix_spec.
  pose proof (keyUpperBound_shape p) as Hshape. split.
  - intros [Hlo Hhi]. destruct (keyUpperBound p) as [u|].
    + destruct Hshape as (q & b & c & n & -> & -> & Hc). by eapply between_bounds.
    + destruct Hshape as [n ->]. by apply replicate_xff_leb.
  - intros [r ->]. split; [apply bytes_leb_prefix|].
    destruct (keyUpperBound p) as [u|]; [|done].
    destruct Hshape as (q & b & c & n & -> & -> & Hc). rewrite <-app_assoc.
    rewrite bytes_ltb_app. cbn [app]. apply bytes_ltb_cons. left. lia.
Qed.

(** ** Iterating through a prefixing wrapper *)

(** Over both backends an iteration of a prefixed view yields exactly its
    pairs, as long as no local key itself starts with the view's prefix. *)
Lemma prefixed_Iterate_local bk p d k v :
  (∀ r, is_Some (d !! (p ++ r)) → HasPrefix r p = false) →
  (k, v) ∈ prefixed_Iterate bk p [] d ↔ d !! (p ++ k) = Some v.
Proof.
  intros Hlocal. rewrite elem_of_prefixed_Iterate. split.
  - intros (r & Hr & ->). destruct bk; simpl in *; [|done].
    rewrite TrimPrefix_no; [done|]. apply Hlocal. eauto.
  - intros Hk. exists k. split; [done|]. destruct bk; simpl; [|done].
    symmetry. apply TrimPrefix_no, Hlocal. eauto.
Qed.

(** Pebble has already stripped the iterated prefix when the wrapper strips its
    own once more: a local key that starts with the prefix reaches the callback
    shortened, and looking it up again finds nothing. *)
Theorem prefixed_Iterate_strips_twice p r v :
  r ≠ [] → p ≠ [] →
  let d : kv := {[ prefixSlice p (p ++ r) := v ]} in
  prefixed_Iterate Pebble p [] d = [(r, v)] ∧ prefixed_Get p d r = None.
Proof.
  intros Hr Hp d. unfold prefixSlice in *. split.
  - unfold prefixed_Iterate, Iterate, entries, prefixSlice, d.
    rewrite app_nil_r, map_to_list_singleton, filter_cons_True by apply HasPrefix_app.
    rewrite filter_nil. cbn. by rewrite drop_app_length, TrimPrefix_app.
  - unfold prefixed_Get, prefixSlice, d. apply lookup_singleton_None.
    intros Heq%(inj (app p)). apply (f_equal length) in Heq. rewrite length_app in Heq.
    by destruct p, r; simpl in *; try lia.
Qed.

Lemma prefixed_Iterate_strips_twice_witness :
  let p := bytes_of_string "b/" in let r := bytes_of_string "x" in
  prefixed_Iterate Pebble p [] {[ prefixSlice p (p ++ r) := r ]} = [(r, r)].
Proof. by apply (prefixed_Iterate_strips_twice (bytes_of_string "b/") (bytes_of_string "x") (bytes_of_string "x")). Defined.

(** A property of every entry under a prefix, by evaluation. *)
Lemma under_forallb (p : bytes) (P : bytes → bytes → bool) (d : kv) :
  forallb (λ kv, if HasPrefix kv.1 p then P (drop (length p) kv.1) kv.2 else true) (map_to_list d) = true →
  ∀ k v, d !! (p ++ k) = Some v → P k v = true.
Proof.
  rewrite forallb_forall. intros H k v Hk. specialize (H (p ++ k, v)).
  rewrite <-list_elem_of_In, elem_of_map_to_list in H. specialize (H Hk). simpl in H.
  by rewrite HasPrefix_app, drop_app_length in H.
Qed.
