(* ===== verification/InMemoryDB.v ===== *)
(** * The in-memory database and its optimistic transactions

    [src/db/inmemory/inmemory.go]: versioned entries with tombstones, write
    transactions that buffer their writes and record the version of every key
    they touch, and a commit that refuses with [ErrConflict] when a recorded
    version moved. [abs] is the finite map of the [db.Database] contract that a
    database represents. Versions are unbounded here; the Go counter is a
    [uint64] incremented once per committed write. *)

From S2P Require Import Prelude Bytes DB.

(** ** State *)

(** [src/db/inmemory/inmemory.go:12-16] entry *)
Record entry := Entry { value : bytes; version : Z; deleted : bool }.
(** [src/db/inmemory/inmemory.go:19-23] InMemoryDB (without its mutex) *)
Record InMemoryDB := MemDB { data : gmap bytes entry; nextVersion : Z }.
(** [src/db/inmemory/inmemory.go:102-109] WriteTx (without the database pointer) *)
Record WriteTx := Tx {
  tx_writes : writes; tx_reads : gmap bytes Z; baseVer : Z;
  committed : bool; discarded : bool }.

(** [src/db/inmemory/inmemory.go:29-33] New *)
Definition New : InMemoryDB := MemDB ∅ 0.
(** [src/db/inmemory/inmemory.go:43-53] InMemoryDB.WriteTx *)
Definition begin_tx (d : InMemoryDB) : WriteTx := Tx ∅ ∅ (nextVersion d) false false.

(** ** Reads *)

Definition live (e : entry) : option bytes := if deleted e then None else Some (value e).
(** [src/db/inmemory/inmemory.go:55-63] InMemoryDB.Get *)
Definition Get (d : InMemoryDB) (k : bytes) : result bytes :=
  match data d !! k with
  | Some e => if deleted e then Err ErrKeyNotFound else Ok (value e)
  | None => Err ErrKeyNotFound
  end.
(** [src/db/inmemory/inmemory.go:65-79] InMemoryDB.Iterate: the live pairs with
    the prefix, handed to [iterateEntries] *)
Definition live_entries (p : bytes) (d : InMemoryDB) : kv :=
  filter (λ kv : bytes * bytes, HasPrefix kv.1 p = true) (omap live (data d)).
(** [src/db/inmemory/inmemory.go:242-255] iterateEntries: the callback order *)
Definition iterateEntries (es : kv) : list (bytes * bytes) :=
  (λ k, (k, default [] (es !! k))) <$> merge_sort bytes_le (map_to_list es).*1.
Definition MemIterate (d : InMemoryDB) (p : bytes) : list (bytes * bytes) :=
  iterateEntries (live_entries p d).
(** [src/db/inmemory/inmemory.go:81-87] currentVersion *)
Definition currentVersion (d : InMemoryDB) (k : bytes) : Z :=
  match data d !! k with Some e => version e | None => 0 end.

(** ** Writes *)

(** [src/db/inmemory/inmemory.go:89-100] applyWrite *)
Definition applyWrite (d : InMemoryDB) (k : bytes) (v : option bytes) : InMemoryDB :=
  let n := nextVersion d + 1 in
  MemDB (<[k := match v with
                | None => Entry [] n true
                | Some v => Entry v n false
                end]> (data d)) n.

(** [src/db/inmemory/inmemory.go:114-119] recordRead *)
Definition recordRead (tx : WriteTx) (k : bytes) (ver : Z) : WriteTx :=
  match tx_reads tx !! k with
  | Some _ => tx
  | None => Tx (tx_writes tx) (<[k := ver]> (tx_reads tx)) (baseVer tx) (committed tx) (discarded tx)
  end.
(** [src/db/inmemory/inmemory.go:121-140] WriteTx.Get *)
Definition tx_Get (d : InMemoryDB) (tx : WriteTx) (k : bytes) : result bytes * WriteTx :=
  match tx_writes tx !! k with
  | Some None => (Err ErrKeyNotFound, tx)
  | Some (Some v) => (Ok v, tx)
  | None => (Get d k, recordRead tx k (currentVersion d k))
  end.
Definition set_write (tx : WriteTx) (k : bytes) (v : option bytes) : WriteTx :=
  Tx (<[k := v]> (tx_writes tx)) (tx_reads tx) (baseVer tx) (committed tx) (discarded tx).
(** [src/db/inmemory/inmemory.go:176-187] WriteTx.Set *)
Definition tx_Set (d : InMemoryDB) (tx : WriteTx) (k v : bytes) : WriteTx :=
  set_write (recordRead tx k (currentVersion d k)) k (Some v).
(** [src/db/inmemory/inmemory.go:189-199] WriteTx.Delete *)
Definition tx_Delete (d : InMemoryDB) (tx : WriteTx) (k : bytes) : WriteTx :=
  set_write (recordRead tx k (currentVersion d k)) k None.
(** [src/db/inmemory/inmemory.go:142-174] WriteTx.Iterate *)
Definition tx_Iterate (d : InMemoryDB) (tx : WriteTx) (p : bytes) : list (bytes * bytes) * WriteTx :=
  let es := live_entries p d in
  let own := filter (λ kv : bytes * option bytes, HasPrefix kv.1 p = true) (tx_writes tx) in
  (iterateEntries (apply_writes own es),
   foldr (λ kv tx, recordRead tx kv.1 (currentVersion d kv.1)) tx (map_to_list es)).
(** [src/db/inmemory/inmemory.go:236-240] WriteTx.Discard *)
Definition tx_Discard (tx : WriteTx) : WriteTx := Tx ∅ ∅ (baseVer tx) (committed tx) true.

(** [src/db/inmemory/inmemory.go:218-223] WriteTx.Commit: the validation loop, every recorded version is not newer than the
    transaction and is still current. *)
Definition validate (d : InMemoryDB) (tx : WriteTx) : bool :=
  forallb (λ '(k, ver), (ver <=? baseVer tx) && (currentVersion d k =? ver))
    (map_to_list (tx_reads tx)).
Definition apply_all (d : InMemoryDB) (ws : list (bytes * option bytes)) : InMemoryDB :=
  foldl (λ d '(k, v), applyWrite d k v) d ws.
(** [src/db/inmemory/inmemory.go:210-234] WriteTx.Commit; the Go map is ranged
    over in some order, here the order of [map_to_list] *)
Definition Commit (d : InMemoryDB) (tx : WriteTx) : result () * (InMemoryDB * WriteTx) :=
  if committed tx || discarded tx
  then (Err (ErrMsg "cannot commit inmemory tx: already committed or discarded"), (d, tx))
  else if validate d tx
  then (Ok (), (apply_all d (map_to_list (tx_writes tx)),
                Tx (tx_writes tx) (tx_reads tx) (baseVer tx) true (discarded tx)))
  else (Err ErrConflict, (d, tx)).

(** ** The contract the database implements *)

(** The finite map a database represents. *)
Definition abs (d : InMemoryDB) : kv := omap live (data d).
Definition wf (d : InMemoryDB) : Prop :=
  ∀ k e, data d !! k = Some e → 0 < version e ≤ nextVersion d.

Lemma lookup_abs d k : abs d !! k = data d !! k ≫= live.
Proof. unfold abs. by rewrite lookup_omap. Qed.
Lemma Get_abs d k :
  Get d k = match abs d !! k with Some v => Ok v | None => Err ErrKeyNotFound end.
Proof. unfold Get. rewrite lookup_abs. by destruct (data d !! k) as [[? ? []]|]. Qed.
Lemma abs_applyWrite d k v : abs (applyWrite d k v) = apply_writes {[k := v]} (abs d).
Proof.
  apply map_eq. intros i. rewrite lookup_apply_writes, !lookup_abs. simpl.
  destruct (decide (k = i)) as [->|]; simplify_map_eq; [by destruct v|done].
Qed.
Lemma wf_New : wf New.
Proof. intros k e. simpl. by rewrite lookup_empty. Qed.
Lemma wf_nonneg d : wf d → 0 ≤ nextVersion d → ∀ k, 0 ≤ currentVersion d k ≤ nextVersion d.
Proof.
  intros Hd Hn k. unfold currentVersion. destruct (data d !! k) as [e|] eqn:E; [|lia].
  apply Hd in E. lia.
Qed.
Lemma wf_applyWrite d k v : wf d → 0 ≤ nextVersion d → wf (applyWrite d k v).
Proof.
  intros Hd Hn i e. simpl. rewrite lookup_insert_Some.
  intros [[<- <-]|[Hne He]]; [destruct v; simpl; lia|]. apply Hd in He. lia.
Qed.

Lemma iterateEntries_perm es : iterateEntries es ≡ₚ map_to_list es.
Proof.
  unfold iterateEntries. rewrite merge_sort_Permutation, <-list_fmap_compose.
  assert (H : (λ kv : bytes * bytes, (kv.1, default [] (es !! kv.1))) <$> map_to_list es =
              map_to_list es); [|by rewrite <-H at 2].
  rewrite <-(list_fmap_id (map_to_list es)) at 2. apply list_fmap_ext.
  intros i [k v] Hi. apply list_elem_of_lookup_2, elem_of_map_to_list in Hi. cbn. by rewrite Hi.
Qed.

(** Reads and iteration agree with the contract. *)
Lemma elem_of_MemIterate d p k v :
  (k, v) ∈ MemIterate d p ↔ (k, v) ∈ Iterate InMemory p (abs d).
Proof.
  unfold MemIterate. rewrite iterateEntries_perm, elem_of_map_to_list.
  unfold live_entries. rewrite map_lookup_filter_Some, elem_of_Iterate. fold (abs d). simpl.
  rewrite HasPrefix_spec. naive_solver.
Qed.

(** ** Interleavings

    One transaction observed while other transactions commit around it. *)

Inductive event :=
  | EGet (k : bytes) (r : result bytes)
  | ESet (k v : bytes)
  | EDelete (k : bytes)
  | EOther (ws : list (bytes * option bytes)).

Inductive step : InMemoryDB * WriteTx → event → InMemoryDB * WriteTx → Prop :=
  | step_get d tx k r tx' : tx_Get d tx k = (r, tx') → step (d, tx) (EGet k r) (d, tx')
  | step_set d tx k v : step (d, tx) (ESet k v) (d, tx_Set d tx k v)
  | step_delete d tx k : step (d, tx) (EDelete k) (d, tx_Delete d tx k)
  | step_other d tx ws : step (d, tx) (EOther ws) (apply_all d ws, tx).

Inductive steps : InMemoryDB * WriteTx → list event → InMemoryDB * WriteTx → Prop :=
  | steps_nil c : steps c [] c
  | steps_cons c1 ev c2 evs c3 : step c1 ev c2 → steps c2 evs c3 → steps c1 (ev :: evs) c3.

(** The transaction's own operations run alone against [d], every read
    returning what it returned in the interleaving. *)
Fixpoint replay (d : InMemoryDB) (tx : WriteTx) (evs : list event) : option WriteTx :=
  match evs with
  | [] => Some tx
  | EGet k r :: evs =>
      let '(r', tx') := tx_Get d tx k in
      if decide (r' = r) then replay d tx' evs else None
  | ESet k v :: evs => replay d (tx_Set d tx k v) evs
  | EDelete k :: evs => replay d (tx_Delete d tx k) evs
  | EOther _ :: evs => replay d tx evs
  end.

(** How a database evolves: a key keeps its entry or gets a newer version. *)
Definition evolves (d d' : InMemoryDB) : Prop :=
  nextVersion d ≤ nextVersion d' ∧
  ∀ k, data d' !! k = data d !! k ∨ nextVersion d < currentVersion d' k.

#[export] Instance evolves_refl : Reflexive evolves.
Proof. split; [done|]. by left. Qed.
#[export] Instance evolves_trans : Transitive evolves.
Proof.
  intros d1 d2 d3 [H1 H1'] [H2 H2']. split; [lia|]. intros k.
  destruct (H2' k) as [E|]; [|right; lia]. destruct (H1' k) as [E'|]; [left; congruence|].
  right. unfold currentVersion in *. by rewrite E.
Qed.
Lemma evolves_applyWrite d k v : evolves d (applyWrite d k v).
Proof.
  split; simpl; [lia|]. intros i. unfold currentVersion. simpl.
  destruct (decide (k = i)) as [->|]; simplify_map_eq; [right; destruct v; simpl; lia|by left].
Qed.

Definition good (d : InMemoryDB) : Prop := wf d ∧ 0 ≤ nextVersion d.
Lemma good_New : good New.
Proof. split; [apply wf_New|done]. Qed.
Lemma apply_all_evolves d ws : good d → good (apply_all d ws) ∧ evolves d (apply_all d ws).
Proof.
  unfold apply_all. revert d. induction ws as [|[k v] ws IH]; intros d Hd; simpl; [done|].
  destruct Hd as [Hwf Hn]. destruct (IH (applyWrite d k v)) as [Hg He].
  - split; [by apply wf_applyWrite|simpl; lia].
  - split; [done|]. etrans; [apply evolves_applyWrite|done].
Qed.
Lemma evolves_version d d' k :
  good d → evolves d d' → currentVersion d k ≤ currentVersion d' k.
Proof.
  intros [Hd Hn] [_ He]. pose proof (wf_nonneg d Hd Hn k).
  destruct (He k) as [E|]; [|lia]. unfold currentVersion. by rewrite E.
Qed.
Lemma evolves_same d d' k :
  good d → evolves d d' → currentVersion d' k = currentVersion d k → data d' !! k = data d !! k.
Proof.
  intros [Hd Hn] [_ He] E. pose proof (wf_nonneg d Hd Hn k). destruct (He k); [done|lia].
Qed.

Lemma recordRead_writes tx k ver : tx_writes (recordRead tx k ver) = tx_writes tx.
Proof. unfold recordRead. by destruct (tx_reads tx !! k). Qed.
Lemma recordRead_reads tx k ver : tx_reads tx ⊆ tx_reads (recordRead tx k ver).
Proof.
  unfold recordRead. destruct (tx_reads tx !! k) eqn:E; [done|]. by apply insert_subseteq.
Qed.
Lemma recordRead_mono tx k ver i w :
  tx_reads (recordRead tx k ver) !! i = Some w → tx_reads tx !! i = Some w ∨ (i = k ∧ w = ver).
Proof.
  unfold recordRead. destruct (tx_reads tx !! k) eqn:E; [by left|].
  simpl. rewrite lookup_insert_Some. naive_solver.
Qed.
Lemma recordRead_has tx k ver : is_Some (tx_reads (recordRead tx k ver) !! k).
Proof.
  unfold recordRead. destruct (tx_reads tx !! k) eqn:E; [by rewrite E|].
  simpl. by rewrite lookup_insert_eq.
Qed.

(** Recorded versions are never ahead of the database. *)
Definition reads_ok (d : InMemoryDB) (tx : WriteTx) : Prop :=
  ∀ k ver, tx_reads tx !! k = Some ver → ver ≤ currentVersion d k.

Lemma recordRead_ok d tx k : reads_ok d tx → reads_ok d (recordRead tx k (currentVersion d k)).
Proof. intros H i w [Hi|[-> ->]]%recordRead_mono; [by apply H|done]. Qed.

(** What a step keeps: the invariants and the reads recorded so far. *)
Definition flags (tx : WriteTx) : Z * bool * bool := (baseVer tx, committed tx, discarded tx).
Lemma flags_recordRead tx k ver : flags (recordRead tx k ver) = flags tx.
Proof. unfold recordRead. by destruct (tx_reads tx !! k). Qed.

Lemma step_inv d tx ev d' tx' :
  good d → reads_ok d tx → step (d, tx) ev (d', tx') →
  good d' ∧ evolves d d' ∧ reads_ok d' tx' ∧ tx_reads tx ⊆ tx_reads tx' ∧ flags tx' = flags tx.
Proof.
  intros Hg Hr Hs. inversion Hs as [? ? k r ? E|? ? k v|? ? k|? ? ws]; subst.
  - unfold tx_Get in E. destruct (tx_writes tx !! k) as [[]|]; simplify_eq;
      split_and!; try done; eauto using recordRead_ok, recordRead_reads, flags_recordRead.
  - split_and!; [done..| | |apply flags_recordRead];
      [by apply (recordRead_ok _ _ k)|apply recordRead_reads].
  - split_and!; [done..| | |apply flags_recordRead];
      [by apply (recordRead_ok _ _ k)|apply recordRead_reads].
  - destruct (apply_all_evolves d ws Hg) as [Hg' He]. split_and!; try done.
    intros k ver Hk. specialize (Hr k ver Hk). pose proof (evolves_version d _ k Hg He). lia.
Qed.
Lemma steps_inv d tx evs d' tx' :
  good d → reads_ok d tx → steps (d, tx) evs (d', tx') →
  good d' ∧ evolves d d' ∧ tx_reads tx ⊆ tx_reads tx' ∧ flags tx' = flags tx.
Proof.
  intros Hg Hr Hs. remember (d, tx) as c eqn:Ec. remember (d', tx') as c' eqn:Ec'.
  revert d tx d' tx' Ec Ec' Hg Hr. induction Hs as [|c1 ev [d2 tx2] evs c3 Hstep _ IH];
    intros d tx d' tx' -> ?; simplify_eq; [done|]. intros Hg Hr.
  destruct (step_inv _ _ _ _ _ Hg Hr Hstep) as (Hg2 & He2 & Hr2 & Hsub & Hfl).
  destruct (IH d2 tx2 d' tx') as (? & ? & ? & ?); try done.
  split_and!; [done|by etrans|by etrans|congruence].
Qed.

(** ** Serializability *)

Lemma validate_spec d tx :
  validate d tx = true ↔
  ∀ k ver, tx_reads tx !! k = Some ver → ver ≤ baseVer tx ∧ currentVersion d k = ver.
Proof.
  unfold validate. rewrite forallb_forall. split.
  - intros H k ver Hk. specialize (H (k, ver)). rewrite <-list_elem_of_In in H.
    rewrite elem_of_map_to_list in H. specialize (H Hk). simpl in H. lia.
  - intros H [k ver]. rewrite <-list_elem_of_In, elem_of_map_to_list.
    intros [??]%H. lia.
Qed.

(** The rest of an interleaving, replayed at the commit point [df]: the writes
    agree along the way because the reads do. *)
Lemma steps_replay d tx evs df txf txr :
  good d → reads_ok d tx → steps (d, tx) evs (df, txf) → validate df txf = true →
  tx_writes txr = tx_writes tx →
  ∃ txr', replay df txr evs = Some txr' ∧ tx_writes txr' = tx_writes txf.
Proof.
  intros Hg Hr Hs Hval. remember (d, tx) as c eqn:Ec. remember (df, txf) as c' eqn:Ec'.
  revert d tx txr Ec Hg Hr. induction Hs as [|c1 ev [d2 tx2] evs c3 Hstep Hsteps IH];
    intros d tx txr -> Hg Hr Hw; simplify_eq; [by exists txr|].
  destruct (step_inv _ _ _ _ _ Hg Hr Hstep) as (Hg2 & He2 & Hr2 & Hsub & _).
  destruct (steps_inv _ _ _ _ _ Hg2 Hr2 Hsteps) as (_ & He & Hsub' & _).
  specialize (IH eq_refl d2 tx2). inversion Hstep as [? ? k r ? E|? ? k v|? ? k|? ? ws]; subst; simpl.
  - unfold tx_Get in *. rewrite Hw. destruct (tx_writes tx !! k) as [[v|]|] eqn:Ek; simplify_eq;
      try (rewrite decide_True; [by apply IH|done]).
    assert (Hdk : data df !! k = data d2 !! k).
    { destruct (recordRead_has tx k (currentVersion d2 k)) as [ver Hver].
      pose proof (Hr2 k ver Hver) as Hle.
      pose proof (lookup_weaken _ _ _ _ Hver Hsub') as Hver'.
      apply (proj1 (validate_spec _ _) Hval) in Hver' as [_ Hcur].
      apply evolves_same; [done|done|]. pose proof (evolves_version _ _ k Hg2 He). lia. }
    rewrite decide_True by (unfold Get; by rewrite Hdk).
    apply IH; [done..|]. by rewrite !recordRead_writes.
  - apply IH; [done..|]. unfold tx_Set, set_write. simpl. by rewrite !recordRead_writes, Hw.
  - apply IH; [done..|]. unfold tx_Delete, set_write. simpl. by rewrite !recordRead_writes, Hw.
  - by apply IH.
Qed.

Lemma abs_apply_all d ws :
  NoDup ws.*1 → abs (apply_all d ws) = apply_writes (list_to_map ws) (abs d).
Proof.
  unfold apply_all. revert d. induction ws as [|[k v] ws IH]; intros d; csimpl.
  { intros _. by rewrite apply_writes_empty. }
  rewrite NoDup_cons. intros [Hk Hnd]. rewrite (IH _ Hnd), abs_applyWrite.
  apply map_eq. intros i. rewrite !lookup_apply_writes.
  destruct (decide (k = i)) as [->|]; simplify_map_eq; [|done].
  by rewrite (not_elem_of_list_to_map_1 ws i) by done.
Qed.

Lemma Commit_Ok d tx d' tx' :
  Commit d tx = (Ok (), (d', tx')) →
  validate d tx = true ∧ d' = apply_all d (map_to_list (tx_writes tx)).
Proof.
  unfold Commit. destruct (committed tx || discarded tx); [done|].
  destruct (validate d tx); [|done]. intros. by simplify_eq.
Qed.


(** An uncontended transaction always commits. *)
Lemma begin_reads_ok d : reads_ok d (begin_tx d).
Proof. intros k ver. simpl. by rewrite lookup_empty. Qed.

Lemma commit_needs_current d tx k ver :
  tx_reads tx !! k = Some ver → currentVersion d k ≠ ver → validate d tx = false.
Proof.
  intros Hk Hne. apply not_true_iff_false. rewrite validate_spec. naive_solver.
Qed.

(** The keys an operation of the transaction names are among its recorded reads. *)
Definition names (k : bytes) (ev : event) : Prop :=
  match ev with EGet k' _ | ESet k' _ | EDelete k' => k' = k | EOther _ => False end.
Definition writes_recorded (tx : WriteTx) : Prop :=
  ∀ k, is_Some (tx_writes tx !! k) → is_Some (tx_reads tx !! k).
Lemma set_write_recorded tx k ver v :
  writes_recorded tx → writes_recorded (set_write (recordRead tx k ver) k v).
Proof.
  intros Hw i. simpl. rewrite recordRead_writes. intros [<-|[_ Hi]]%lookup_insert_is_Some;
    [apply recordRead_has|]. destruct (Hw i Hi) as [w Hi'].
  exists w. eapply lookup_weaken; [done|apply recordRead_reads].
Qed.
Lemma step_names d tx ev d' tx' k :
  writes_recorded tx → step (d, tx) ev (d', tx') →
  writes_recorded tx' ∧ (names k ev → is_Some (tx_reads tx' !! k)).
Proof.
  intros Hw Hs. inversion Hs as [? ? i r ? E|? ? i v|? ? i|? ? ws]; subst; simpl.
  - unfold tx_Get in E. destruct (tx_writes tx !! i) as [[]|] eqn:Ei; simplify_eq.
    + split; [done|]. intros <-. by apply Hw; rewrite Ei.
    + split; [done|]. intros <-. by apply Hw; rewrite Ei.
    + split; [|intros <-; apply recordRead_has]. intros j. rewrite recordRead_writes. intros [w Hj]%Hw.
      exists w. eapply lookup_weaken; [done|apply recordRead_reads].
  - split; [by apply set_write_recorded|]. intros <-. apply recordRead_has.
  - split; [by apply set_write_recorded|]. intros <-. apply recordRead_has.
  - done.
Qed.
Lemma steps_names d tx evs d' tx' k :
  good d → reads_ok d tx → writes_recorded tx → steps (d, tx) evs (d', tx') →
  (is_Some (tx_reads tx !! k) ∨ Exists (names k) evs) → is_Some (tx_reads tx' !! k) ∧ reads_ok d' tx'.
Proof.
  intros Hg Hr Hw Hs. remember (d, tx) as c eqn:Ec. remember (d', tx') as c' eqn:Ec'.
  revert d tx d' tx' Ec Ec' Hg Hr Hw. induction Hs as [|c1 ev [d2 tx2] evs c3 Hstep _ IH];
    intros d tx d' tx' -> ?; simplify_eq; intros Hg Hr Hw Hk.
  { destruct Hk as [|Hk]; [done|by inversion Hk]. }
  destruct (step_inv _ _ _ _ _ Hg Hr Hstep) as (Hg2 & _ & Hr2 & Hsub & _).
  destruct (step_names _ _ _ _ _ k Hw Hstep) as [Hw2 Hn].
  eapply IH; [done..|]. rewrite Exists_cons in Hk. destruct Hk as [[w Hk]|[Hk|Hk]]; [|auto..].
  left. exists w. by eapply lookup_weaken.
Qed.
Lemma apply_all_version d ws k : good d → k ∈ ws.*1 → nextVersion d < currentVersion (apply_all d ws) k.
Proof.
  unfold apply_all. revert d. induction ws as [|[i v] ws IH]; intros d Hd; csimpl; [by intros ?%not_elem_of_nil|].
  assert (Hg : good (applyWrite d i v)) by (destruct Hd; split; [by apply wf_applyWrite|simpl; lia]).
  destruct (decide (k ∈ ws.*1)) as [Hk|Hk].
  { intros _. specialize (IH _ Hg Hk). simpl in *. lia. }
  intros [->|?]%elem_of_cons; [|done].
  pose proof (evolves_version _ _ i Hg (proj2 (apply_all_evolves _ ws Hg))) as Hle.
  unfold apply_all in Hle. unfold currentVersion at 1 in Hle. simpl in Hle. rewrite lookup_insert_eq in Hle.
  destruct v; simpl in *; lia.
Qed.
Lemma version_le_next d k : good d → currentVersion d k ≤ nextVersion d.
Proof.
  intros [Hwf Hn]. unfold currentVersion. destruct (data d !! k) as [e|] eqn:E; [|done].
  specialize (Hwf k e E). lia.
Qed.

(** No lost update. If another transaction commits a write to a key after
    this transaction has read, written or deleted it, then this transaction's
    commit fails with [ErrConflict] and changes nothing, whatever it did before,
    in between and afterwards. *)
Theorem commit_conflict d0 evs1 d1 tx1 ws evs2 d2 tx2 k :
  good d0 → steps (d0, begin_tx d0) evs1 (d1, tx1) → Exists (names k) evs1 →
  k ∈ ws.*1 → steps (apply_all d1 ws, tx1) evs2 (d2, tx2) →
  Commit d2 tx2 = (Err ErrConflict, (d2, tx2)).
Proof.
  intros Hg0 Hs1 Hk Hws Hs2.
  destruct (steps_inv _ _ _ _ _ Hg0 (begin_reads_ok d0) Hs1) as (Hg1 & _ & _ & Hf1).
  destruct (steps_names _ _ _ _ _ k Hg0 (begin_reads_ok d0) ltac:(by intros i [? Hi])
    Hs1 (or_intror Hk)) as [[ver Hver] Hr1].
  destruct (apply_all_evolves d1 ws Hg1) as [Hg He].
  assert (Hr : reads_ok (apply_all d1 ws) tx1).
  { intros i w Hi. specialize (Hr1 i w Hi). pose proof (evolves_version _ _ i Hg1 He). lia. }
  destruct (steps_inv _ _ _ _ _ Hg Hr Hs2) as (_ & He2 & Hsub & Hf2).
  unfold Commit. rewrite Hf1 in Hf2. injection Hf2 as _ -> ->. simpl.
  rewrite (commit_needs_current _ _ k ver); [done|by eapply lookup_weaken|].
  pose proof (Hr1 k ver Hver). pose proof (version_le_next d1 k Hg1). pose proof (apply_all_version d1 ws k Hg1 Hws).
  pose proof (evolves_version _ _ k Hg He2). lia.
Qed.

(** A transaction is used at most once. *)
Lemma commit_once d tx d' tx' :
  Commit d tx = (Ok (), (d', tx')) → (Commit d' tx').1 ≠ Ok ().
Proof.
  unfold Commit. destruct (committed tx || discarded tx); [done|].
  destruct (validate d tx); [|done]. intros [= <- <-]. done.
Qed.

(** ** The theorems at a concrete interleaving *)

Definition key_a : bytes := bytes_of_string "a".
Definition key_b : bytes := bytes_of_string "b".
Definition key_c : bytes := bytes_of_string "c".
(** Read [a] and write [b]. *)
Definition own_events : list event := [EGet key_a (Err ErrKeyNotFound); ESet key_b key_a].
Definition tx_ab : WriteTx := tx_Set New (tx_Get New (begin_tx New) key_a).2 key_b key_a.
Lemma own_steps : steps (New, begin_tx New) own_events (New, tx_ab).
Proof. econstructor; [by apply step_get|]. econstructor; [apply step_set|constructor]. Qed.

(** Another transaction wrote [c] in the meantime. *)
Definition after_c : InMemoryDB := apply_all New [(key_c, Some key_b)].
Lemma own_steps_c : steps (New, begin_tx New) (own_events ++ [EOther [(key_c, Some key_b)]]) (after_c, tx_ab).
Proof.
  econstructor; [by apply step_get|]. econstructor; [apply step_set|]. econstructor; [apply step_other|constructor].
Qed.
Lemma commit_conflict_witness :
  let d := apply_all New [(key_a, Some key_b)] in Commit d tx_ab = (Err ErrConflict, (d, tx_ab)).
Proof.
  apply (commit_conflict New own_events New tx_ab [(key_a, Some key_b)] [] _ _ key_a).
  - apply good_New.
  - apply own_steps.
  - by constructor.
  - left.
  - constructor.
Defined.
