(* ===== verification/Spec.v ===== *)
(** * The protocol specification package

    [src/spec], [src/spec/params], [src/spec/hash] and
    [src/crypto/hash/poseidon]: the partition of the 64-bit state key space,
    the packed ballot mode, vote identifiers, ballot indices, the chunked
    Poseidon hashes and the initial state root. The Poseidon permutation and
    the BN254 scalar field modulus are third-party ([go-iden3-crypto],
    [gnark-crypto]): they are section variables. *)

From S2P Require Import Prelude Bytes.

(** ** params *)

(** [src/spec/params/params.go:9-18] *)
Definition FieldsPerBallot : nat := 8.
(** [src/spec/params/params.go:12-13] *)
Definition VotesPerBatch : nat := 60.
(** [src/spec/params/params.go:14-15] *)
Definition StateTreeMaxLevels : nat := 64.
(** [src/spec/params/params.go:16-17] *)
Definition VoteIDLeafValue : Z := 0.
(** [src/spec/params/params.go:31-31] *)
Definition StateKeyProcessID : Z := 0.
(** [src/spec/params/params.go:32-32] *)
Definition StateKeyCensusOrigin : Z := 6.
(** [src/spec/params/params.go:33-33] *)
Definition StateKeyBallotMode : Z := 2.
(** [src/spec/params/params.go:34-34] *)
Definition StateKeyEncryptionKey : Z := 3.
(** [src/spec/params/params.go:35-35] *)
Definition StateKeyResults : Z := 4.
Definition MaxUint64 : Z := two64 - 1.
(** [src/spec/params/params.go:47-47] *)
Definition VoteIDHashBits : Z := 63.
(** [src/spec/params/params.go:40-40] *)
Definition ConfigMin : Z := 0.
(** [src/spec/params/params.go:41-41] *)
Definition ConfigMax : Z := Z.shiftl 1 4 - 1.
(** [src/spec/params/params.go:42-42] *)
Definition BallotMin : Z := ConfigMax + 1.
(** [src/spec/params/params.go:44-44] *)
Definition VoteIDMin : Z := (MaxUint64 - Z.shiftl 1 VoteIDHashBits) + 1.
(** [src/spec/params/params.go:43-43] *)
Definition BallotMax : Z := VoteIDMin - 1.
(** [src/spec/params/params.go:45-45] *)
Definition VoteIDMax : Z := MaxUint64.
(** [src/spec/params/params.go:49-49] *)
Definition VoterIndexMax : Z := BallotMax - BallotMin.

(** ** Ballot mode *)

(** [src/spec/ballotmode.go:12-21] BallotMode *)
Record BallotMode := {
  NumFields : Z; (* uint8 *)
  GroupSize : Z; (* uint8 *)
  UniqueValues : bool;
  CostExponent : Z; (* uint8 *)
  MaxValue : Z; (* uint64 *)
  MinValue : Z; (* uint64 *)
  MaxValueSum : Z; (* uint64 *)
  MinValueSum : Z (* uint64 *)
}.
#[export] Instance BallotMode_eq_dec : EqDecision BallotMode.
Proof. solve_decision. Defined.

Definition is_u8 (z : Z) : Prop := 0 ≤ z < 256.
Definition is_u64 (z : Z) : Prop := 0 ≤ z < two64.
(** The field types of the struct. *)
Definition BallotMode_wt (bm : BallotMode) : Prop :=
  is_u8 (NumFields bm) ∧ is_u8 (GroupSize bm) ∧ is_u8 (CostExponent bm) ∧
  is_u64 (MaxValue bm) ∧ is_u64 (MinValue bm) ∧ is_u64 (MaxValueSum bm) ∧ is_u64 (MinValueSum bm).

(** [src/spec/ballotmode.go:24-52] BallotMode.Pack *)
Definition Pack (bm : BallotMode) : result Z :=
  if NumFields bm <? GroupSize bm
  then Err (ErrMsg "pack ballot mode: groupSize exceeds numFields")
  else if Z.shiftl 1 48 <=? MaxValue bm
  then Err (ErrMsg "pack ballot mode: maxValue exceeds 48 bits")
  else if Z.shiftl 1 48 <=? MinValue bm
  then Err (ErrMsg "pack ballot mode: minValue exceeds 48 bits")
  else if Z.shiftl 1 63 <=? MaxValueSum bm
  then Err (ErrMsg "pack ballot mode: maxValueSum exceeds 63 bits")
  else if Z.shiftl 1 63 <=? MinValueSum bm
  then Err (ErrMsg "pack ballot mode: minValueSum exceeds 63 bits")
  else
    let packed := NumFields bm in
    let packed := Z.lor packed (Z.shiftl (GroupSize bm) 8) in
    let packed := if UniqueValues bm then Z.lor packed (Z.shiftl 1 16) else packed in
    let packed := Z.lor packed (Z.shiftl (CostExponent bm) 17) in
    let packed := Z.lor packed (Z.shiftl (MaxValue bm) 25) in
    let packed := Z.lor packed (Z.shiftl (MinValue bm) 73) in
    let packed := Z.lor packed (Z.shiftl (MaxValueSum bm) 121) in
    let packed := Z.lor packed (Z.shiftl (MinValueSum bm) 184) in
    Ok packed.

(** [src/spec/ballotmode.go:55-69] BallotMode.Validate *)
Definition Validate (bm : BallotMode) : result () :=
  if Z.of_nat FieldsPerBallot <? NumFields bm then Err (ErrMsg "numFields is greater than max size")
  else if NumFields bm <? GroupSize bm then Err (ErrMsg "groupSize exceeds numFields")
  else if MaxValue bm <? MinValue bm then Err (ErrMsg "minValue is greater than maxValue")
  else if MaxValueSum bm <? MinValueSum bm then Err (ErrMsg "minValueSum is greater than maxValueSum")
  else Ok ().

(** The fixed layout the packed word must have (offset, width of each field),
    read back: the reference decoder of the packed ballot mode. *)
Definition field_at (packed off width : Z) : Z := Z.land (Z.shiftr packed off) (Z.ones width).
Definition unpack (packed : Z) : BallotMode :=
  {| NumFields := field_at packed 0 8;
     GroupSize := field_at packed 8 8;
     UniqueValues := field_at packed 16 1 =? 1;
     CostExponent := field_at packed 17 8;
     MaxValue := field_at packed 25 48;
     MinValue := field_at packed 73 48;
     MaxValueSum := field_at packed 121 63;
     MinValueSum := field_at packed 184 63 |}.

(** ** Ballot indices *)

(** [src/spec/ballotindex.go:13-18] BallotIndex, on [uint64] *)
Definition BallotIndex (voterIndex : Z) : result Z :=
  if VoterIndexMax <? voterIndex then Err (ErrMsg "voterIndex too big")
  else Ok ((BallotMin + voterIndex) mod two64).

(** ** Hashes *)

Section hash.
(** iden3's [poseidon.Hash] and the modulus of the BN254 scalar field. *)
Variable poseidon_Hash : list Z → result Z.
Variable ScalarField : Z.

(** [src/spec/hash/poseidon.go:11-21] PoseidonHash; [None] is a nil big.Int *)
Definition PoseidonHash (inputs : list (option Z)) : result Z :=
  match inputs with
  | [] => Err (ErrMsg "no inputs provided")
  | _ => match mapM (M := option) id inputs with
         | None => Err (ErrMsg "nil input")
         | Some vs => poseidon_Hash vs
         end
  end.

(** [inputs[i:min(i+16,len)]] for i = 0, 16, ...; [n] bounds the chunk count. *)
Fixpoint chunks16 {A} (n : nat) (l : list A) : list (list A) :=
  match n, l with
  | S n', _ :: _ => take 16 l :: chunks16 n' (drop 16 l)
  | _, _ => []
  end.

(** Hash the chunks in order, stopping at the first error. *)
Fixpoint hash_chunks {A} (h : A → result Z) (cs : list A) : result (list Z) :=
  match cs with
  | [] => Ok []
  | c :: cs' =>
      match h c with
      | Err e => Err e
      | Ok v => match hash_chunks h cs' with Err e => Err e | Ok vs => Ok (v :: vs) end
      end
  end.

(** [src/spec/hash/poseidon.go:24-38] PoseidonMultiHash *)
Definition PoseidonMultiHash (inputs : list (option Z)) : result Z :=
  if (length inputs <=? 16)%nat then PoseidonHash inputs
  else match hash_chunks PoseidonHash (chunks16 (length inputs) inputs) with
       | Err e => Err e
       | Ok intermediate => PoseidonHash (Some <$> intermediate)
       end.

(** [src/crypto/hash/poseidon/multiposeidon.go:18-56] MultiPoseidon; the
    recursion is on ever shorter lists, [fuel] is at least their length *)
Fixpoint MultiPoseidon_fuel (fuel : nat) (inputs : list Z) : result Z :=
  match inputs with
  | [] => Err (ErrMsg "no inputs provided")
  | _ =>
    if (length inputs <=? 16)%nat then poseidon_Hash inputs
    else match hash_chunks poseidon_Hash (chunks16 (length inputs) inputs) with
         | Err e => Err e
         | Ok hashes =>
             match hashes with
             | [h] => Ok h
             | _ => if (length hashes <=? 16)%nat then poseidon_Hash hashes
                    else match fuel with
                         | O => Err (ErrMsg "out of fuel")
                         | S fuel' => MultiPoseidon_fuel fuel' hashes
                         end
             end
         end
  end.
Definition MultiPoseidon (inputs : list Z) : result Z := MultiPoseidon_fuel (length inputs) inputs.

(** [bi.Sign() < 0 || bi.Cmp(ScalarField) >= 0] *)
Definition not_in_field (z : Z) : bool := (z <? 0) || (ScalarField <=? z).

(** The input validation loop shared by VoteID and StateRoot. *)
Fixpoint check_inputs (nil_msg field_msg : string) (inputs : list (option Z)) : result (list Z) :=
  match inputs with
  | [] => Ok []
  | None :: _ => Err (ErrMsg nil_msg)
  | Some z :: rest =>
      if not_in_field z then Err (ErrMsg field_msg)
      else match check_inputs nil_msg field_msg rest with Err e => Err e | Ok zs => Ok (z :: zs) end
  end.

(** [src/spec/hash/voteid.go:30-34] TruncateToLowerBits *)
Definition TruncateToLowerBits (input bits : Z) : Z :=
  let mask := Z.shiftl 1 bits in
  let mask := mask - 1 in
  Z.land input mask.

(** [src/spec/hash/voteid.go:12-27] hash.VoteID *)
Definition hash_VoteID (processID address k : option Z) : result Z :=
  match check_inputs "processID, address, and k are required"
          "processID, address, and k must be in field" [processID; address; k] with
  | Err e => Err e
  | Ok _ =>
      match PoseidonHash [processID; address; k] with
      | Err e => Err (Wrap "failed to generate vote ID" e)
      | Ok h => Ok (VoteIDMin + TruncateToLowerBits h VoteIDHashBits)
      end
  end.

(** [src/spec/voteid.go:15-24] spec.VoteID *)
Definition VoteID (processID address k : option Z) : result Z :=
  match hash_VoteID processID address k with
  | Err e => Err e
  | Ok voteID =>
      if (0 <=? voteID) && (voteID <? two64) then Ok voteID
      else Err (ErrMsg "vote ID overflows uint64")
  end.

(** [src/spec/ballotinputs.go:24-62] ballotInputsHash *)
Definition ballotInputsHash (processID : option Z) (ballotMode : BallotMode)
    (encryptionKeyX encryptionKeyY address : option Z) (voteID : uint64)
    (ballot : list (option Z)) (weight : option Z) : result Z :=
  match processID, encryptionKeyX, encryptionKeyY, address, weight with
  | Some _, Some _, Some _, Some _, Some _ =>
      match ballot with
      | [] => Err (ErrMsg "ballot inputs hash: ballot is empty")
      | _ =>
          match Pack ballotMode with
          | Err e => Err (Wrap "ballot inputs hash: pack ballot mode" e)
          | Ok ballotModePacked =>
              let inputs := [processID; Some ballotModePacked; encryptionKeyX; encryptionKeyY;
                             address; Some (u64Z voteID)] ++ ballot ++ [weight] in
              match PoseidonMultiHash inputs with
              | Err e => Err (Wrap "ballot inputs hash" e)
              | Ok h => Ok h
              end
          end
      end
  | _, _, _, _, _ => Err (ErrMsg "ballot inputs hash: required input is nil")
  end.

(** [src/spec/hash/stateroot.go:22-24] LeafResultsHex *)
Definition leafResultsBig : Z := 0x1f72c52b6e5dedca4f99ecfa24f2776732431e8d544e14c6f78f5042727c4657.

Definition hash2 (msg : string) (l : list Z) : result Z :=
  match PoseidonHash (Some <$> l) with Err e => Err (Wrap msg e) | Ok h => Ok h end.
#[local] Instance result_bind : MBind result := λ A B f m,
  match m with Ok a => f a | Err e => Err e end.

(** [src/spec/hash/stateroot.go:27-83] StateRoot *)
Definition StateRoot (processID censusOrigin pubKeyX pubKeyY ballotMode : option Z) : result Z :=
  check_inputs "state root: all inputs are required" "state root: all inputs must be in field"
    [processID; censusOrigin; pubKeyX; pubKeyY; ballotMode] ≫= λ ins,
  match ins with
  | [pid; origin; kx; ky; bm] =>
      leafProcess ← hash2 "state root: leaf process" [StateKeyProcessID; pid; 1];
      leafBallot ← hash2 "state root: leaf ballot mode" [StateKeyBallotMode; bm; 1];
      encKey ← hash2 "state root: encryption key hash" [kx; ky];
      leafEncKey ← hash2 "state root: leaf encryption key" [StateKeyEncryptionKey; encKey; 1];
      leafCensus ← hash2 "state root: leaf census origin" [StateKeyCensusOrigin; origin; 1];
      nodeA0 ← hash2 "state root: nodeA0" [leafProcess; leafResultsBig];
      nodeA1 ← hash2 "state root: nodeA1" [leafBallot; leafCensus];
      nodeA ← hash2 "state root: nodeA" [nodeA0; nodeA1];
      hash2 "state root: root" [nodeA; leafEncKey]
  | _ => Err (ErrMsg "unreachable")
  end.
End hash.

(** ** The packed ballot mode *)

Lemma lor_shiftl_add a b n : 0 ≤ n → 0 ≤ a < 2 ^ n → 0 ≤ b → Z.lor a (Z.shiftl b n) = a + b * 2 ^ n.
Proof.
  intros Hn Ha Hb. rewrite <-Z.shiftl_mul_pow2 by lia. symmetry. rewrite <-Z.add_lor_land.
  rewrite <-(Z.add_0_r (Z.lor _ _)) at 2. f_equal.
  apply Z.bits_inj'. intros i Hi. rewrite Z.land_spec, Z.bits_0, Z.shiftl_spec by done.
  destruct (decide (i < n)) as [Hin|Hin].
  - rewrite (Z.testbit_neg_r b) by lia. apply andb_false_r.
  - destruct (decide (a = 0)) as [->|]; [by rewrite Z.bits_0|].
    rewrite (Z.bits_above_log2 a); [done|lia|]. apply Z.log2_lt_pow2; [lia|].
    eapply Z.lt_le_trans; [apply Ha|]. apply Z.pow_le_mono_r; lia.
Qed.
Lemma field_at_spec packed off width :
  0 ≤ off → 0 ≤ width → field_at packed off width = (packed / 2 ^ off) mod 2 ^ width.
Proof. intros. unfold field_at. by rewrite Z.land_ones, Z.shiftr_div_pow2. Qed.

(** The packed word as the sum of its fields at their offsets. *)
Definition layout (bm : BallotMode) : Z :=
  NumFields bm + GroupSize bm * 2 ^ 8 + Z.b2z (UniqueValues bm) * 2 ^ 16 +
  CostExponent bm * 2 ^ 17 + MaxValue bm * 2 ^ 25 + MinValue bm * 2 ^ 73 +
  MaxValueSum bm * 2 ^ 121 + MinValueSum bm * 2 ^ 184.
Definition fits (bm : BallotMode) : Prop :=
  GroupSize bm ≤ NumFields bm ∧ MaxValue bm < 2 ^ 48 ∧ MinValue bm < 2 ^ 48 ∧
  MaxValueSum bm < 2 ^ 63 ∧ MinValueSum bm < 2 ^ 63.

Lemma Pack_layout bm : BallotMode_wt bm → fits bm → Pack bm = Ok (layout bm).
Proof.
  unfold BallotMode_wt, fits, is_u8, is_u64, two64, Pack.
  intros (?&?&?&?&?&?&?) (?&?&?&?&?).
  change (Z.shiftl 1 48) with (2 ^ 48). change (Z.shiftl 1 63) with (2 ^ 63).
  repeat match goal with |- context [if ?b then Err _ else _] =>
    destruct b eqn:?E; [lia|clear E] end.
  cbv zeta. f_equal. unfold layout.
  rewrite (lor_shiftl_add (NumFields bm) (GroupSize bm) 8) by lia.
  set (a := NumFields bm + GroupSize bm * 2 ^ 8).
  assert (Hu : (if UniqueValues bm then Z.lor a (Z.shiftl 1 16) else a) =
               a + Z.b2z (UniqueValues bm) * 2 ^ 16).
  { destruct (UniqueValues bm); simpl Z.b2z; [apply lor_shiftl_add; lia|lia]. }
  rewrite Hu. assert (0 ≤ Z.b2z (UniqueValues bm) ≤ 1) by (destruct (UniqueValues bm); simpl; lia).
  rewrite (lor_shiftl_add _ (CostExponent bm) 17) by lia.
  rewrite (lor_shiftl_add _ (MaxValue bm) 25) by lia.
  rewrite (lor_shiftl_add _ (MinValue bm) 73) by lia.
  rewrite (lor_shiftl_add _ (MaxValueSum bm) 121) by lia.
  rewrite (lor_shiftl_add _ (MinValueSum bm) 184) by lia. lia.
Qed.
Lemma Pack_Err_iff bm : BallotMode_wt bm → is_Ok (Pack bm) = true ↔ fits bm.
Proof.
  intros Hwt. split; [|intros Hf; by rewrite Pack_layout].
  unfold fits, Pack. change (Z.shiftl 1 48) with (2 ^ 48). change (Z.shiftl 1 63) with (2 ^ 63).
  destruct (Z.ltb_spec (NumFields bm) (GroupSize bm)); [discriminate|].
  destruct (Z.leb_spec (2 ^ 48) (MaxValue bm)); [discriminate|].
  destruct (Z.leb_spec (2 ^ 48) (MinValue bm)); [discriminate|].
  destruct (Z.leb_spec (2 ^ 63) (MaxValueSum bm)); [discriminate|].
  destruct (Z.leb_spec (2 ^ 63) (MinValueSum bm)); [discriminate|].
  intros _. lia.
Qed.
Lemma field_at_extract p lo f hi off w :
  0 ≤ off → 0 ≤ w → 0 ≤ lo < 2 ^ off → 0 ≤ f < 2 ^ w → p = lo + (f + hi * 2 ^ w) * 2 ^ off →
  field_at p off w = f.
Proof.
  intros ???? ->. rewrite field_at_spec, Z.div_add, Z.div_small by lia.
  rewrite Z.add_0_l, Z.mod_add by lia. by apply Z.mod_small.
Qed.
Lemma unpack_layout bm : BallotMode_wt bm → fits bm → unpack (layout bm) = bm.
Proof.
  unfold BallotMode_wt, fits, is_u8, is_u64, two64. intros (?&?&?&?&?&?&?) (?&?&?&?&?).
  destruct bm as [nf gs uv ce mx mn mxs mns]; unfold layout, unpack.
  cbn [NumFields GroupSize UniqueValues CostExponent MaxValue MinValue MaxValueSum MinValueSum] in *.
  assert (0 ≤ Z.b2z uv ≤ 1) by (destruct uv; simpl; lia).
  set (l1 := nf + gs * 2 ^ 8). set (l2 := l1 + Z.b2z uv * 2 ^ 16). set (l3 := l2 + ce * 2 ^ 17).
  set (l4 := l3 + mx * 2 ^ 25). set (l5 := l4 + mn * 2 ^ 73). set (l6 := l5 + mxs * 2 ^ 121).
  set (h6 := mxs + mns * 2 ^ 63). set (h5 := mn + h6 * 2 ^ 48). set (h4 := mx + h5 * 2 ^ 48).
  set (h3 := ce + h4 * 2 ^ 8). set (h2 := Z.b2z uv + h3 * 2 ^ 1). set (h1 := gs + h2 * 2 ^ 8).
  rewrite (field_at_extract _ 0 nf h1 0 8), (field_at_extract _ nf gs h2 8 8),
    (field_at_extract _ l1 (Z.b2z uv) h3 16 1), (field_at_extract _ l2 ce h4 17 8),
    (field_at_extract _ l3 mx h5 25 48), (field_at_extract _ l4 mn h6 73 48),
    (field_at_extract _ l5 mxs mns 121 63), (field_at_extract _ l6 mns 0 184 63) by lia.
  by destruct uv.
Qed.
Lemma layout_bound bm : BallotMode_wt bm → fits bm → 0 ≤ layout bm < 2 ^ 247.
Proof.
  unfold BallotMode_wt, fits, is_u8, is_u64, two64, layout. intros (?&?&?&?&?&?&?) (?&?&?&?&?).
  assert (0 ≤ Z.b2z (UniqueValues bm) ≤ 1) by (destruct (UniqueValues bm); simpl; lia). lia.
Qed.

(** Packing a ballot mode succeeds exactly when the group size does not
    exceed the field count and the limits fit their 48 and 63 bits, and then the
    packed word reads back as the same ballot mode and is below 2^247, hence
    below the BN254 field modulus: no two ballot modes share a packed word. *)
Theorem Pack_roundtrip bm :
  BallotMode_wt bm →
  (is_Ok (Pack bm) = true ↔ fits bm) ∧
  (∀ p, Pack bm = Ok p → unpack p = bm ∧ 0 ≤ p < 2 ^ 247).
Proof.
  intros Hwt. split; [by apply Pack_Err_iff|]. intros p Hp.
  assert (Hf : fits bm) by (apply Pack_Err_iff; [done|]; by rewrite Hp).
  rewrite Pack_layout in Hp by done. injection Hp as <-.
  split; [by apply unpack_layout|by apply layout_bound].
Qed.

(** The ballot mode of the repository's own packing test. *)
Definition example_mode : BallotMode :=
  {| NumFields := 5; GroupSize := 3; UniqueValues := true; CostExponent := 7;
     MaxValue := 0x123456789a; MinValue := 0x2233; MaxValueSum := 2 ^ 62 + 123;
     MinValueSum := 0x1abc |}.
Lemma Pack_roundtrip_witness :
  is_Ok (Pack example_mode) = true ∧
  ∀ p, Pack example_mode = Ok p → unpack p = example_mode ∧ 0 ≤ p < 2 ^ 247.
Proof.
  assert (Hwt : BallotMode_wt example_mode).
  { unfold BallotMode_wt, is_u8, is_u64, two64; simpl; lia. }
  destruct (Pack_roundtrip example_mode Hwt) as [_ H]. split; [by vm_compute|exact H].
Defined.

(** ** The state key space *)

Definition is_config_key (k : Z) : Prop := ConfigMin ≤ k ≤ ConfigMax.
Definition is_ballot_key (k : Z) : Prop := BallotMin ≤ k ≤ BallotMax.
Definition is_voteid_key (k : Z) : Prop := VoteIDMin ≤ k ≤ VoteIDMax.

Lemma params_values :
  ConfigMax = 15 ∧ BallotMin = 16 ∧ BallotMax = 2 ^ 63 - 1 ∧ VoteIDMin = 2 ^ 63 ∧
  VoteIDMax = 2 ^ 64 - 1 ∧ VoterIndexMax = 2 ^ 63 - 17.
Proof. done. Qed.
Ltac key_space :=
  unfold is_config_key, is_ballot_key, is_voteid_key, ConfigMin in *;
  destruct params_values as (?&?&?&?&?&?); unfold two64 in *; try lia.

Lemma TruncateToLowerBits_spec z bits :
  0 ≤ bits → TruncateToLowerBits z bits = z mod 2 ^ bits.
Proof.
  intros. unfold TruncateToLowerBits. rewrite Z.shiftl_1_l, Z.sub_1_r, <-Z.ones_equiv. by apply Z.land_ones.
Qed.

(** The 64-bit key space of the state tree is partitioned: every key is in
    exactly one of the configuration, ballot and vote identifier ranges, the
    configuration keys are pairwise distinct and in their range, and a ballot
    index computed from a voter index lies in the ballot range, distinct for
    distinct voters, the addition never wrapping; larger indices are refused. *)
Theorem key_space_partition :
  (∀ k, is_u64 k →
    (is_config_key k ∧ ¬ is_ballot_key k ∧ ¬ is_voteid_key k) ∨
    (¬ is_config_key k ∧ is_ballot_key k ∧ ¬ is_voteid_key k) ∨
    (¬ is_config_key k ∧ ¬ is_ballot_key k ∧ is_voteid_key k)) ∧
  NoDup [StateKeyProcessID; StateKeyCensusOrigin; StateKeyBallotMode;
         StateKeyEncryptionKey; StateKeyResults] ∧
  Forall is_config_key [StateKeyProcessID; StateKeyCensusOrigin; StateKeyBallotMode;
         StateKeyEncryptionKey; StateKeyResults] ∧
  (∀ v, is_u64 v → VoterIndexMax < v → is_Ok (BallotIndex v) = false) ∧
  (∀ v, 0 ≤ v ≤ VoterIndexMax →
    ∃ k, BallotIndex v = Ok k ∧ k = BallotMin + v ∧ is_ballot_key k).
Proof.
  unfold is_u64. split_and!.
  - intros k Hk. key_space.
  - by apply (bool_decide_unpack _).
  - repeat constructor; by key_space.
  - intros v Hv Hgt. unfold BallotIndex. by rewrite (proj2 (Z.ltb_lt _ _) Hgt).
  - intros v Hv. exists (BallotMin + v). unfold BallotIndex.
    rewrite (proj2 (Z.ltb_ge _ _)) by lia. rewrite Z.mod_small by key_space.
    split; [done|]. split; [done|]. key_space.
Qed.

Lemma VoteID_Ok poseidon r pid addr k v :
  VoteID poseidon r pid addr k = Ok v →
  is_voteid_key v ∧
  ∃ p a s h, pid = Some p ∧ addr = Some a ∧ k = Some s ∧
    poseidon [p; a; s] = Ok h ∧ v - VoteIDMin = h mod 2 ^ 63.
Proof.
  unfold VoteID, hash_VoteID. destruct pid as [p|], addr as [a|], k as [s|]; simpl; try done;
    repeat (case_match; try done).
  all: intros; simplify_eq; rewrite TruncateToLowerBits_spec in * by (unfold VoteIDHashBits; lia).
  change VoteIDHashBits with 63 in *.
  match goal with H : poseidon _ = Ok ?h |- _ => pose proof (Z.mod_pos_bound h (2 ^ 63) ltac:(lia)) end.
  split; [key_space|]. eexists _, _, _, _. split_and!; [done..|eassumption|lia].
Qed.
Lemma check_inputs_Err r m1 m2 l e :
  check_inputs r m1 m2 l = Err e → e = ErrMsg m1 ∨ e = ErrMsg m2.
Proof.
  induction l as [|[z|] l IH]; simpl; [done| |intros; simplify_eq; auto].
  destruct (not_in_field r z); [intros; simplify_eq; auto|].
  destruct (check_inputs r m1 m2 l); [done|]. intros; simplify_eq; auto.
Qed.
Lemma VoteID_not_overflow poseidon r pid addr k :
  VoteID poseidon r pid addr k ≠ Err (ErrMsg "vote ID overflows uint64").
Proof.
  unfold VoteID, hash_VoteID. destruct (check_inputs _ _ _ _) eqn:Ec.
  - destruct (PoseidonHash poseidon [pid; addr; k]) as [h|e]; [|done].
    rewrite TruncateToLowerBits_spec by (unfold VoteIDHashBits; lia).
    change VoteIDHashBits with 63. pose proof (Z.mod_pos_bound h (2 ^ 63) ltac:(lia)).
    assert ((0 <=? VoteIDMin + h mod 2 ^ 63) && (VoteIDMin + h mod 2 ^ 63 <? two64) = true) as ->;
      [|done]. apply andb_true_iff. destruct params_values as (?&?&?&->&?&?). unfold two64. lia.
  - intros [= ->]. by apply check_inputs_Err in Ec as [|].
Qed.

(** A vote identifier is always in the upper half of the 64-bit space and
    carries the low 63 bits of the Poseidon hash of the three inputs; nil inputs
    give no identifier, and the overflow error of [spec.VoteID] is unreachable,
    whatever Poseidon returns. *)
Theorem VoteID_range poseidon r pid addr k :
  (∀ v, VoteID poseidon r pid addr k = Ok v →
    is_voteid_key v ∧
    ∃ p a s h, pid = Some p ∧ addr = Some a ∧ k = Some s ∧
      poseidon [p; a; s] = Ok h ∧ v - VoteIDMin = h mod 2 ^ 63) ∧
  VoteID poseidon r pid addr k ≠ Err (ErrMsg "vote ID overflows uint64").
Proof. split; [intros v; apply VoteID_Ok|apply VoteID_not_overflow]. Qed.
Lemma VoteID_range_witness :
  let h l := Ok (foldr Z.add (2 ^ 70) l) in
  VoteID h (2 ^ 80) (Some 1) (Some 2) (Some 3) = Ok (2 ^ 63 + 6) ∧ is_voteid_key (2 ^ 63 + 6).
Proof.
  intros h. assert (E : VoteID h (2 ^ 80) (Some 1) (Some 2) (Some 3) = Ok (2 ^ 63 + 6)).
  { by vm_compute. }
  split; [exact E|]. apply (proj1 (VoteID_range h (2 ^ 80) (Some 1) (Some 2) (Some 3)) _ E).
Defined.

(** ** The two chunked Poseidon hashes *)

Lemma chunks16_length {A} n (l : list A) :
  (length l ≤ n)%nat → (16 * length (chunks16 n l) < length l + 16)%nat.
Proof.
  revert l. induction n as [|n IH]; intros l Hl; simpl; [lia|].
  destruct l as [|x l]; [simpl; lia|]. cbn [length].
  specialize (IH (drop 16 (x :: l))). rewrite length_drop in IH.
  cbn [length] in *. specialize (IH ltac:(lia)). lia.
Qed.
Lemma chunks16_length_lower {A} n (l : list A) :
  (length l ≤ n)%nat → (length l ≤ 16 * length (chunks16 n l))%nat.
Proof.
  revert l. induction n as [|n IH]; intros l Hl; simpl; [lia|].
  destruct l as [|x l]; [simpl; lia|]. cbn [length].
  specialize (IH (drop 16 (x :: l))). rewrite length_drop in IH.
  cbn [length] in *. specialize (IH ltac:(lia)). lia.
Qed.
Lemma chunks16_join {A} n (l : list A) : (length l ≤ n)%nat → mjoin (chunks16 n l) = l.
Proof.
  revert l. induction n as [|n IH]; intros l Hl; simpl.
  { by destruct l; [|simpl in Hl; lia]. }
  destruct l as [|x l]; [done|]. cbn [mjoin list_join].
  rewrite IH; [by rewrite take_drop|]. rewrite length_drop. simpl in *. lia.
Qed.
Lemma hash_chunks_length {A} (h : A → result Z) cs hs :
  hash_chunks h cs = Ok hs → length hs = length cs.
Proof.
  revert hs. induction cs as [|c cs IH]; intros hs; simpl; [intros; by simplify_eq|].
  destruct (h c); [|done]. destruct (hash_chunks h cs); [|done].
  intros; simplify_eq. simpl. by rewrite (IH _ eq_refl).
Qed.
Lemma mapM_Some_fmap (l : list Z) : mapM (M := option) id (Some <$> l) = Some l.
Proof. apply mapM_Some_2. induction l as [|x l IH]; csimpl; by constructor. Qed.
Lemma PoseidonHash_Some poseidon l :
  l ≠ [] → PoseidonHash poseidon (Some <$> l) = poseidon l.
Proof.
  intros Hl. destruct l as [|x l]; [done|]. unfold PoseidonHash.
  change (Some <$> x :: l) with (Some x :: (Some <$> l)).
  pose proof (mapM_Some_fmap (x :: l)) as E.
  change (Some <$> x :: l) with (Some x :: (Some <$> l)) in E. by rewrite E.
Qed.
Lemma chunks16_fmap {A B} (f : A → B) n (l : list A) :
  chunks16 n (fmap (M := list) f l) = fmap (M := list) (fmap (M := list) f) (chunks16 n l).
Proof.
  revert l. induction n as [|n IH]; intros l; [done|]. destruct l as [|x l]; [done|].
  rewrite fmap_cons. cbn [chunks16]. rewrite <-fmap_cons, <-fmap_drop, IH, <-fmap_take. done.
Qed.
Lemma chunks16_nonempty {A} n (l c : list A) : c ∈ chunks16 n l → c ≠ [].
Proof.
  revert l. induction n as [|n IH]; intros [|x l]; cbn [chunks16]; try set_solver.
Qed.
Lemma hash_chunks_Poseidon poseidon cs :
  Forall (λ c, c ≠ []) cs →
  hash_chunks (PoseidonHash poseidon) (fmap (M := list) (fmap (M := list) Some) cs) = hash_chunks poseidon cs.
Proof.
  induction 1 as [|c cs Hc _ IH]; csimpl; [done|]. by rewrite PoseidonHash_Some, IH.
Qed.

(** More fuel does not change a recursion that shrinks its input. *)
Lemma MultiPoseidon_fuel_enough poseidon n m l :
  (length l ≤ n)%nat → (length l ≤ m)%nat →
  MultiPoseidon_fuel poseidon n l = MultiPoseidon_fuel poseidon m l.
Proof.
  revert m l. induction n as [|n IH]; intros m l Hn Hm.
  { destruct l; [|simpl in Hn; lia]. by destruct m. }
  destruct m as [|m]; [destruct l; [done|simpl in Hm; lia]|].
  cbn [MultiPoseidon_fuel]. destruct l as [|x l]; [done|].
  destruct (length (x :: l) <=? 16)%nat eqn:E; [done|].
  destruct (hash_chunks poseidon _) as [hs|] eqn:Eh; [|done].
  apply hash_chunks_length in Eh.
  pose proof (chunks16_length (length (x :: l)) (x :: l) ltac:(lia)) as Hc.
  destruct hs as [|h [|h' hs]]; [done|done|].
  destruct (length (h :: h' :: hs) <=? 16)%nat; [done|].
  apply Nat.leb_gt in E. apply IH; lia.
Qed.

(** The spec's two-level hash and the crypto package's recursive hash agree
    on up to 256 inputs, which covers the 6 + 32 + 1 inputs of a ballot; beyond
    256 the spec's version asks Poseidon for more than 16 inputs at once. *)
Theorem PoseidonMultiHash_MultiPoseidon poseidon (l : list Z) :
  (length l ≤ 256)%nat →
  PoseidonMultiHash poseidon (Some <$> l) = MultiPoseidon poseidon l.
Proof.
  intros Hl. unfold PoseidonMultiHash, MultiPoseidon. rewrite length_fmap.
  destruct (length l) as [|k] eqn:Ek; [by apply nil_length_inv in Ek as ->|].
  assert (Hne : l ≠ []) by (by intros ->). cbn [MultiPoseidon_fuel].
  destruct l as [|x l]; [done|]. rewrite Ek. set (xs := x :: l) in *.
  destruct (S k <=? 16)%nat eqn:E16; [by rewrite PoseidonHash_Some|].
  rewrite chunks16_fmap, hash_chunks_Poseidon by
    (apply Forall_forall; intros c; apply chunks16_nonempty).
  destruct (hash_chunks poseidon _) as [hs|] eqn:Eh; [|done].
  apply hash_chunks_length in Eh. apply Nat.leb_gt in E16.
  pose proof (chunks16_length (S k) xs ltac:(lia)).
  pose proof (chunks16_length_lower (S k) xs ltac:(lia)).
  destruct hs as [|h [|h' hs]]; [simpl in *; lia|simpl in *; lia|].
  rewrite PoseidonHash_Some by done. by rewrite (proj2 (Nat.leb_le _ _)) by lia.
Qed.
Lemma PoseidonMultiHash_MultiPoseidon_witness :
  let h l := Ok (foldr Z.add 1 l) in
  (length (seqZ 0 39) ≤ 256)%nat ∧
  PoseidonMultiHash h (Some <$> seqZ 0 39) = MultiPoseidon h (seqZ 0 39).
Proof.
  intros h. assert (Hl : (length (seqZ 0 39) ≤ 256)%nat) by (rewrite length_seqZ; lia).
  split; [exact Hl|]. by apply (PoseidonMultiHash_MultiPoseidon h).
Defined.

(** ** The initial state root *)

Section smt.
(** Reference: the root of a sparse Merkle tree over (key, hashed value) leaves,
    keys read from the least significant bit, a subtree with one leaf being the
    leaf itself and an empty one being zero. *)
Variable h : list Z → Z.
Fixpoint smt_root (fuel : nat) (depth : Z) (leaves : list (Z * Z)) : Z :=
  match leaves with
  | [] => 0
  | [(k, v)] => h [k; v; 1]
  | _ =>
      match fuel with
      | O => 0
      | S fuel' =>
          h [smt_root fuel' (depth + 1) (filter (λ kv, Z.testbit kv.1 depth = false) leaves);
             smt_root fuel' (depth + 1) (filter (λ kv, Z.testbit kv.1 depth = true) leaves)]
      end
  end.
End smt.

(** [src/spec/hash/stateroot.go:10-17] ZeroBallotHashHex *)
Definition ZeroBallotHash : Z := 0x2c66ee3d8ff0f86c2251e885d4c207e5162c05d0b458c773106cd5579c58bf36.

(** The leaves of a freshly initialised process state. *)
Definition initial_leaves (h : list Z → Z) (pid origin kx ky bm : Z) : list (Z * Z) :=
  [(StateKeyProcessID, pid); (StateKeyBallotMode, bm); (StateKeyEncryptionKey, h [kx; ky]);
   (StateKeyResults, ZeroBallotHash); (StateKeyCensusOrigin, origin)].

Lemma check_inputs_Ok r m1 m2 (l : list Z) :
  Forall (λ z, 0 ≤ z < r) l → check_inputs r m1 m2 (Some <$> l) = Ok l.
Proof.
  induction 1 as [|z l Hz _ IH]; csimpl; [done|]. unfold not_in_field.
  rewrite (proj2 (Z.ltb_ge _ _)), (proj2 (Z.leb_gt _ _)) by lia. simpl. by rewrite IH.
Qed.

