(* ===== verification/Types.v ===== *)
(** * Shared types of the node

    [src/types]: process identifiers and their layout, the 64-bit state keys
    (vote identifiers and ballot indices), process status, sequencer statistics
    and the process record. A [ProcessID] is Go's [[31]byte]: a byte list that
    carries the proof of its length. A nil pointer is [None]. *)

From S2P Require Import Prelude Bytes Spec.
From Stdlib Require Import Ascii Eqdep_dec.

(** ** Hexadecimal ([encoding/hex.EncodeToString]) *)

Definition hex_digit (n : Z) : ascii :=
  if n <? 10 then byte_of_Z (48 + n) else byte_of_Z (87 + n).
Fixpoint hex_EncodeToString (l : bytes) : string :=
  match l with
  | [] => EmptyString
  | b :: l' =>
      String (hex_digit (byte_to_Z b / 16)) (String (hex_digit (byte_to_Z b mod 16))
        (hex_EncodeToString l'))
  end.

(** ** ProcessID *)

(** [src/types/process_id.go:20-21] *)
Definition ProcessIDLen : nat := 31.
(** [src/types/process_id.go:14-18] ProcessID *)
Record ProcessID := MkPID { pid_bytes : bytes; pid_len : (length pid_bytes =? ProcessIDLen)%nat = true }.
Add Printing Constructor ProcessID.

Lemma pid_eq (p q : ProcessID) : pid_bytes p = pid_bytes q → p = q.
Proof. destruct p, q; simpl; intros ->. f_equal. apply UIP_dec, bool_dec. Qed.
#[export] Instance pid_bytes_inj : Inj (=) (=) pid_bytes.
Proof. intros p q. apply pid_eq. Qed.
#[export] Instance ProcessID_eq_dec : EqDecision ProcessID.
Proof.
  intros p q. destruct (decide (pid_bytes p = pid_bytes q)) as [H|H].
  - left. by apply pid_eq.
  - right. congruence.
Defined.
Lemma length_pid_bytes p : length (pid_bytes p) = ProcessIDLen.
Proof. destruct p as [l Hl]; simpl. by apply Nat.eqb_eq. Qed.

(** The Go array conversion: exactly [ProcessIDLen] bytes, zero filled. *)
Definition fit (n : nat) (l : bytes) : bytes := take n (l ++ replicate n (byte_of_Z 0)).
Lemma length_fit n l : length (fit n l) = n.
Proof. unfold fit. rewrite length_take, length_app, length_replicate. lia. Qed.
Lemma pid_fit_ok l : (length (fit ProcessIDLen l) =? ProcessIDLen)%nat = true.
Proof. rewrite length_fit. apply Nat.eqb_refl. Qed.
Definition pid_of_bytes (l : bytes) : ProcessID := MkPID (fit ProcessIDLen l) (pid_fit_ok l).
#[export] Program Instance ProcessID_countable : Countable ProcessID :=
  inj_countable' pid_bytes pid_of_bytes _.
Next Obligation.
  intros p. apply pid_eq. cbn [pid_of_bytes pid_bytes]. unfold fit.
  rewrite <-(length_pid_bytes p). apply take_app_length.
Qed.

(** [src/types/process_id.go:24-32] NewProcessID: address, version, then the
    seven low bytes of the big-endian nonce *)
Definition NewProcessID (addr version : bytes) (nonce : uint64) : ProcessID :=
  pid_of_bytes (fit 20 addr ++ fit 4 version ++ drop 1 (be_split 8 (u64Z nonce))).
(** [src/types/process_id.go:112-118] UnmarshalBinary *)
Definition UnmarshalBinary (data : bytes) : result ProcessID :=
  if decide (length data = ProcessIDLen) then Ok (pid_of_bytes data)
  else Err (ErrMsg "invalid ProcessID length").
(** [src/types/process_id.go:55-61] BytesToProcessID *)
Definition BytesToProcessID (data : bytes) : result ProcessID := UnmarshalBinary data.
(** [src/types/process_id.go:72-72] Address *)
Definition pid_Address (p : ProcessID) : bytes := take 20 (pid_bytes p).
(** [src/types/process_id.go:73-73] Version *)
Definition pid_Version (p : ProcessID) : bytes := take 4 (drop 20 (pid_bytes p)).
(** [src/types/process_id.go:74-78] Nonce *)
Definition pid_Nonce (p : ProcessID) : uint64 := U64 (be_combine (take 7 (drop 24 (pid_bytes p)))).
(** [src/types/process_id.go:82-88] IsValid *)
Definition pid_IsValid (p : ProcessID) : bool :=
  negb (bool_decide (pid_Address p = replicate 20 (byte_of_Z 0))
        || bool_decide (pid_Version p = replicate 4 (byte_of_Z 0))).
(** [src/types/process_id.go:91-91] MathBigInt *)
Definition pid_MathBigInt (p : ProcessID) : Z := be_combine (pid_bytes p).
(** [src/types/process_id.go:100-100] String *)
Definition pid_String (p : ProcessID) : string := hex_EncodeToString (pid_bytes p).

(** ** State keys *)

(** [src/types/state.go:86-90] StateKey.Bytes *)
Definition StateKey_Bytes (k : uint64) : bytes := be_split 8 (u64Z k).
(** [src/types/state.go:107-116] VoteID: methods by conversion to StateKey *)
Definition VoteID_Bytes (v : uint64) : bytes := StateKey_Bytes v.
(** [src/types/state.go:108-110] VoteID.Valid *)
Definition VoteID_Valid (v : uint64) : bool := (VoteIDMin <=? u64Z v) && (u64Z v <=? VoteIDMax).
(** [src/types/state.go:132-134] BallotIndex.Valid *)
Definition BallotIndex_Valid (b : uint64) : bool := (BallotMin <=? u64Z b) && (u64Z b <=? BallotMax).
(** [src/types/state.go:187-198] bigIntToStateKey *)
Definition bigIntToStateKey (x : option Z) : result uint64 :=
  match x with
  | None => Err (ErrMsg "nil big.Int")
  | Some x =>
      if x <? 0 then Err (ErrMsg "negative value")
      else if negb (x <? two64) then Err (ErrMsg "overflows uint64")
      else Ok (U64 x)
  end.
(** [src/types/state.go:33-43] BigIntToVoteID *)
Definition BigIntToVoteID (x : option Z) : result uint64 :=
  match bigIntToStateKey x with
  | Err e => Err e
  | Ok k => if VoteID_Valid k then Ok k else Err (ErrMsg "out of range")
  end.
(** [src/types/state.go:69-79] BigIntToBallotIndex *)
Definition BigIntToBallotIndex (x : option Z) : result uint64 :=
  match bigIntToStateKey x with
  | Err e => Err e
  | Ok k => if BallotIndex_Valid k then Ok k else Err (ErrMsg "out of range")
  end.

(** ** Process status and statistics *)

(** [src/types/process.go:14-21] ProcessStatus *)
Inductive ProcessStatus :=
  | ProcessStatusReady | ProcessStatusEnded | ProcessStatusCanceled
  | ProcessStatusPaused | ProcessStatusResults.
#[export] Instance ProcessStatus_eq_dec : EqDecision ProcessStatus.
Proof. solve_decision. Defined.

(** [src/types/process.go:202-213] TypeStats *)
Inductive TypeStats :=
  | TypeStatsStateTransitions | TypeStatsSettledStateTransitions
  | TypeStatsAggregatedVotes | TypeStatsVerifiedVotes | TypeStatsPendingVotes
  | TypeStatsCurrentBatchSize | TypeStatsLastBatchSize | TypeStatsLastTransitionDate.

(** Times are nanoseconds since the Unix epoch; Go's zero time is year 1. *)
Abbreviation Time := Z.
Definition second : Z := 1000000000.
Definition zeroTime : Time := -62135596800 * second.
Definition Unix (t : Time) : Z := t / second.

(** [src/types/process.go:190-199] SequencerProcessStats *)
Record SequencerProcessStats := {
  StateTransitionCount : Z; LastStateTransitionDate : Time; SettledStateTransitionCount : Z;
  AggregatedVotesCount : Z; VerifiedVotesCount : Z; PendingVotesCount : Z;
  CurrentBatchSize : Z; LastBatchSize : Z }.
Definition zeroSequencerStats : SequencerProcessStats :=
  {| StateTransitionCount := 0; LastStateTransitionDate := zeroTime;
     SettledStateTransitionCount := 0; AggregatedVotesCount := 0; VerifiedVotesCount := 0;
     PendingVotesCount := 0; CurrentBatchSize := 0; LastBatchSize := 0 |}.

(** [src/types/census.go:116-140] Census: the fields the node's core reads or
    writes; the rest (contract address) is the payload *)
Record Census := { c_CensusOrigin : Z; c_CensusRoot : bytes; c_CensusURI : string; c_Payload : bytes }.

(** [src/types/process.go:160-178] Process; the fields no operation of the node's
    core reads (organization, metadata and its URI) are one opaque payload *)
Record Process := {
  p_ID : option ProcessID; p_Status : ProcessStatus; p_EncryptionKey : option (Z * Z);
  p_StateRoot : option Z; p_Result : list Z; p_StartTime : Time; p_Duration : Z;
  p_BallotMode : BallotMode; p_Census : option Census; p_VotersCount : option Z;
  p_OverwrittenVotesCount : option Z; p_MaxVoters : option Z;
  p_SequencerStats : SequencerProcessStats; p_RegisteredForSequencing : bool;
  p_Payload : bytes }.

Definition set_p_SequencerStats (f : SequencerProcessStats → SequencerProcessStats) (p : Process) : Process :=
  {| p_ID := p_ID p; p_Status := p_Status p; p_EncryptionKey := p_EncryptionKey p;
     p_StateRoot := p_StateRoot p; p_Result := p_Result p; p_StartTime := p_StartTime p;
     p_Duration := p_Duration p; p_BallotMode := p_BallotMode p;
     p_Census := p_Census p; p_VotersCount := p_VotersCount p;
     p_OverwrittenVotesCount := p_OverwrittenVotesCount p; p_MaxVoters := p_MaxVoters p;
     p_SequencerStats := f (p_SequencerStats p);
     p_RegisteredForSequencing := p_RegisteredForSequencing p; p_Payload := p_Payload p |}.
Definition set_p_Status (st : ProcessStatus) (p : Process) : Process :=
  {| p_ID := p_ID p; p_Status := st; p_EncryptionKey := p_EncryptionKey p;
     p_StateRoot := p_StateRoot p; p_Result := p_Result p; p_StartTime := p_StartTime p;
     p_Duration := p_Duration p; p_BallotMode := p_BallotMode p;
     p_Census := p_Census p; p_VotersCount := p_VotersCount p;
     p_OverwrittenVotesCount := p_OverwrittenVotesCount p; p_MaxVoters := p_MaxVoters p;
     p_SequencerStats := p_SequencerStats p;
     p_RegisteredForSequencing := p_RegisteredForSequencing p; p_Payload := p_Payload p |}.

(** [src/types/process.go:182-188] IsActive *)
Definition Process_IsActive (now : Time) (p : option Process) : bool :=
  match p with
  | None => false
  | Some p =>
      bool_decide (p_Status p = ProcessStatusReady) && (now <? p_StartTime p + p_Duration p)
  end.

(** [src/types/big.go:143-148] BigInt.Equal: on nil only nil is equal *)
Definition BigInt_Equal (i j : option Z) : bool := bool_decide (i = j).

(** An encrypted ballot: the coordinates of the two points of each ciphertext
    (src/crypto/elgamal/ballot.go). *)
Abbreviation Point := (Z * Z)%type.
(** [src/crypto/elgamal/ciphertext.go:30-33] Ciphertext *)
Record Ciphertext := { C1 : Point; C2 : Point }.
(** [src/crypto/elgamal/ballot.go:21-24] Ballot *)
Record EncryptedBallot := { CurveType : string; Ciphertexts : list Ciphertext }.

(** ** Facts *)

Lemma length_VoteID_Bytes v : length (VoteID_Bytes v) = 8%nat.
Proof. apply length_be_split. Qed.
#[export] Instance VoteID_Bytes_inj : Inj (=) (=) VoteID_Bytes.
Proof.
  intros a b H. apply u64_eq. pose proof (u64Z_range a). pose proof (u64Z_range b).
  unfold two64 in *. eapply (be_split_inj 8); [..|exact H]; simpl; lia.
Qed.

Lemma fit_exact n l : length l = n → fit n l = l.
Proof. intros <-. unfold fit. apply take_app_length. Qed.
Lemma pid_of_bytes_exact l : length l = ProcessIDLen → pid_bytes (pid_of_bytes l) = l.
Proof. apply fit_exact. Qed.
Lemma BytesToProcessID_bytes p : BytesToProcessID (pid_bytes p) = Ok p.
Proof.
  unfold BytesToProcessID, UnmarshalBinary. rewrite decide_True by apply length_pid_bytes.
  f_equal. apply pid_eq, pid_of_bytes_exact, length_pid_bytes.
Qed.

Lemma be_split_S n z : be_split (S n) z = byte_of_Z (z / 256 ^ Z.of_nat n) :: be_split n z.
Proof.
  unfold be_split. assert (H : le_split (S n) z = le_split n z ++ [byte_of_Z (z / 256 ^ Z.of_nat n)]).
  { revert z. induction n as [|n IH]; intros z; [by rewrite Z.div_1_r|].
    cbn [le_split] in *. rewrite (IH (z / 256)). cbn [app]. do 3 f_equal.
    rewrite Z.div_div by lia. by rewrite Nat2Z.inj_succ, Z.pow_succ_r by lia. }
  by rewrite H, reverse_snoc.
Qed.
Lemma be_split_drop1 n z : drop 1 (be_split (S n) z) = be_split n z.
Proof. by rewrite be_split_S. Qed.
(** A vote identifier's key starts with a byte that is no ASCII character. *)
Lemma VoteID_Bytes_high v : VoteID_Valid v = true →
  ∃ b t, VoteID_Bytes v = b :: t ∧ 128 ≤ byte_to_Z b.
Proof.
  intros [Hmin _]%andb_prop. unfold VoteID_Bytes, StateKey_Bytes. rewrite be_split_S.
  eexists _, _. split; [done|]. rewrite byte_to_of_Z. apply Z.leb_le in Hmin.
  change VoteIDMin with (128 * 72057594037927936) in Hmin.
  change (256 ^ Z.of_nat 7) with 72057594037927936. pose proof (u64Z_range v) as Hr.
  unfold two64 in Hr. rewrite Z.mod_small; [apply Z.div_le_lower_bound; lia|].
  split; [apply Z.div_pos; lia|apply Z.div_lt_upper_bound; lia].
Qed.
Lemma VoteID_Bytes_no_ascii v c p t :
  VoteID_Valid v = true → byte_to_Z c < 128 → HasPrefix (VoteID_Bytes v ++ t) (c :: p) = false.
Proof.
  intros (b & r & -> & Hb)%VoteID_Bytes_high Hc. apply bool_decide_eq_false.
  intros [x [= -> _]]. lia.
Qed.

(** The fields of a process identifier read back as the ones it was built
    from; of the nonce only the low 56 bits survive. Binary decoding accepts
    exactly 31 bytes and inverts encoding. *)
Theorem NewProcessID_fields addr version nonce :
  length addr = 20%nat → length version = 4%nat →
  let p := NewProcessID addr version nonce in
  pid_Address p = addr ∧ pid_Version p = version ∧
  u64Z (pid_Nonce p) = u64Z nonce mod 2 ^ 56 ∧
  (∀ q, BytesToProcessID (pid_bytes q) = Ok q) ∧
  (∀ data q, BytesToProcessID data = Ok q → pid_bytes q = data).
Proof.
  intros Ha Hv p. assert (Hb : pid_bytes p = addr ++ version ++ be_split 7 (u64Z nonce)).
  { unfold p, NewProcessID. rewrite (fit_exact 20), (fit_exact 4), be_split_drop1 by done.
    apply pid_of_bytes_exact. rewrite !length_app, length_be_split. unfold ProcessIDLen. lia. }
  assert (Hn : 0 ≤ u64Z nonce mod 2 ^ 56 < two64).
  { pose proof (Z.mod_pos_bound (u64Z nonce) (2 ^ 56) eq_refl) as Hm.
    split; [lia|]. eapply Z.lt_trans; [apply Hm|reflexivity]. }
  unfold pid_Address, pid_Version, pid_Nonce. rewrite Hb. split_and!.
  - by rewrite <-Ha, take_app_length.
  - by rewrite <-Ha, drop_app_length, <-Hv, take_app_length.
  - rewrite app_assoc. replace 24%nat with (length (addr ++ version)) by (rewrite length_app; lia).
    rewrite drop_app_length, take_ge by (by rewrite length_be_split).
    rewrite be_combine_split. by apply u64Z_U64.
  - apply BytesToProcessID_bytes.
  - intros data q. unfold BytesToProcessID, UnmarshalBinary. case_decide; [|done].
    intros [= <-]. by apply pid_of_bytes_exact.
Qed.
Lemma NewProcessID_fields_witness :
  let a := replicate 20 (byte_of_Z 171) in let v := replicate 4 (byte_of_Z 9) in
  let p := NewProcessID a v (U64 (2 ^ 56 + 5)) in
  pid_Address p = a ∧ pid_Version p = v ∧ u64Z (pid_Nonce p) = 5.
Proof.
  intros a v p.
  destruct (NewProcessID_fields a v (U64 (2 ^ 56 + 5)) eq_refl eq_refl) as (H1 & H2 & H3 & _).
  split; [exact H1|]. split; [exact H2|exact H3].
Defined.

(** Prefix-freeness of hexadecimal process identifiers is length based. *)
Lemma hex_digit_inj n m : 0 ≤ n < 16 → 0 ≤ m < 16 → hex_digit n = hex_digit m → n = m.
Proof.
  intros Hn Hm H. apply (f_equal byte_to_Z) in H. unfold hex_digit in H.
  destruct (Z.ltb_spec n 10), (Z.ltb_spec m 10); rewrite !byte_to_of_Z, !Z.mod_small in H; lia.
Qed.
Lemma hex_app_inj l1 l2 s1 s2 :
  length l1 = length l2 →
  String.append (hex_EncodeToString l1) s1 = String.append (hex_EncodeToString l2) s2 →
  l1 = l2 ∧ s1 = s2.
Proof.
  revert l2. induction l1 as [|b l1 IH]; intros [|c l2]; simpl; try done.
  intros [= Hl] [= Hhi Hlo Hs]. destruct (IH _ Hl Hs) as [-> ->]. split; [|done]. f_equal.
  apply (inj byte_to_Z). pose proof (byte_to_Z_range b). pose proof (byte_to_Z_range c).
  apply hex_digit_inj in Hlo; [|apply Z.mod_pos_bound; lia..].
  apply hex_digit_inj in Hhi; [|split; [apply Z.div_pos; lia|apply Z.div_lt_upper_bound; lia]..].
  rewrite (Z.div_mod (byte_to_Z b) 16), (Z.div_mod (byte_to_Z c) 16) by lia. lia.
Qed.
