(* ===== verification/Hex.v ===== *)
(** * Texts of identifiers

    [src/types/hexbytes.go], the texts and the JSON of the identifiers of [src/types/process_id.go]
    and [src/types/state.go]. Strings are lists of bytes here; [encoding/hex], [strconv.ParseUint]
    and [strings.TrimSpace] are written out. *)

From S2P Require Import Prelude Bytes Spec Types.
From Stdlib Require Import Ascii.

(** Decimal digits, and the number that some of them are. *)
Definition decimal_value (c : byte) : option Z :=
  let n := byte_to_Z c in if (48 <=? n) && (n <=? 57) then Some (n - 48) else None.
Definition parse_decimal (s : bytes) : option Z :=
  match s with
  | [] => None
  | _ => foldl (λ acc c, v ← acc; d ← decimal_value c; Some (10 * v + d)) (Some 0) s
  end.

(** ** The standard library *)

(** The value of a hexadecimal digit. *)
Definition hex_value (c : byte) : option Z :=
  let n := byte_to_Z c in
  if (48 <=? n) && (n <=? 57) then Some (n - 48)
  else if (97 <=? n) && (n <=? 102) then Some (n - 87)
  else if (65 <=? n) && (n <=? 70) then Some (n - 55) else None.
(** [hex.DecodeString] *)
Fixpoint hex_DecodeString (s : bytes) : result bytes :=
  match s with
  | [] => Ok []
  | [_] => Err (ErrMsg "encoding/hex: odd length hex string")
  | c :: d :: s =>
      match hex_value c, hex_value d with
      | Some x, Some y =>
          match hex_DecodeString s with Err e => Err e | Ok l => Ok (byte_of_Z (16 * x + y) :: l) end
      | _, _ => Err (ErrMsg "encoding/hex: invalid byte")
      end
  end.
(** [hex.EncodeToString], as bytes. *)
Definition hex_text (l : bytes) : bytes := bytes_of_string (hex_EncodeToString l).
(** [strconv.ParseUint(s, 16, 64)] *)
Definition ParseUint16 (s : bytes) : result uint64 :=
  match s with
  | [] => Err (ErrMsg "invalid syntax")
  | _ =>
      match foldl (λ acc c, v ← acc; d ← hex_value c; Some (16 * v + d)) (Some 0) s with
      | None => Err (ErrMsg "invalid syntax")
      | Some v => if two64 <=? v then Err (ErrMsg "value out of range") else Ok (U64 v)
      end
  end.
(** The encodings of Unicode's white space. *)
Definition spaces : list bytes := (λ c, [byte_of_Z c]) <$> [9; 10; 11; 12; 13; 32].
Definition wide_space_codes : list (list Z) :=
  [[194; 133]; [194; 160]; [225; 154; 128]; [226; 128; 168]; [226; 128; 169]; [226; 128; 175]; [226; 129; 159]; [227; 128; 128]] ++
  ((λ n, [226; 128; 128 + Z.of_nat n]) <$> seq 0 11).
Definition wide_spaces : list bytes := (λ l : list Z, byte_of_Z <$> l) <$> wide_space_codes.
Definition space_prefix (s : bytes) : option bytes :=
  match List.find (λ w, HasPrefix s w) (spaces ++ wide_spaces) with
  | Some w => Some (drop (length w) s) | None => None end.
Fixpoint trim_left (fuel : nat) (s : bytes) : bytes :=
  match fuel with
  | O => s
  | S fuel => match space_prefix s with Some s' => trim_left fuel s' | None => s end
  end.
Definition space_suffix (s : bytes) : option bytes :=
  match List.find (λ w, HasPrefix (reverse s) (reverse w)) (spaces ++ wide_spaces) with
  | Some w => Some (take (length s - length w) s) | None => None end.
Fixpoint trim_right (fuel : nat) (s : bytes) : bytes :=
  match fuel with
  | O => s
  | S fuel => match space_suffix s with Some s' => trim_right fuel s' | None => s end
  end.
(** [strings.TrimSpace]: every step takes a byte at least *)
Definition TrimSpace (s : bytes) : bytes :=
  let s := trim_left (length s) s in trim_right (length s) s.

(** ** HexBytes *)

(** [src/util/utils.go:39-44] *)
Definition TrimHex (s : bytes) : bytes :=
  match s with
  | "0"%char :: "x"%char :: s => s
  | "0"%char :: "X"%char :: s => s
  | s => s
  end.
(** [src/types/hexbytes.go:23-25] HexBytes.Hex *)
Definition HexBytes_Hex (b : bytes) : bytes := hex_text b.
(** [src/types/hexbytes.go:29-31] HexBytes.String *)
Definition HexBytes_String (b : bytes) : bytes := bytes_of_string "0x" ++ HexBytes_Hex b.
(** [src/types/hexbytes.go:34-36] HexBytes.BigInt *)
Definition HexBytes_BigInt (b : bytes) : Z := be_combine b.
(** [src/types/hexbytes.go:41-50] HexBytes.LeftPad *)
Definition LeftPad (n : nat) (b : bytes) : bytes :=
  if (n <=? length b)%nat then b else replicate (n - length b) zero ++ b.
(** [src/types/hexbytes.go:54-62] HexBytes.LeftTrim *)
Fixpoint LeftTrim (b : bytes) : bytes :=
  match b with
  | [] => []
  | c :: b' => if byte_to_Z c =? 0 then LeftTrim b' else b
  end.
(** [src/types/hexbytes.go:66-74] HexBytes.RightTrim *)
Definition RightTrim (b : bytes) : bytes := reverse (LeftTrim (reverse b)).
(** The byte around a JSON string. *)
Definition quote : byte := byte_of_Z 34.
(** [src/types/hexbytes.go:92-100] HexBytes.MarshalJSON *)
Definition HexBytes_MarshalJSON (b : bytes) : bytes := quote :: HexBytes_String b ++ [quote].
(** [src/types/hexbytes.go:105-126] HexBytes.UnmarshalJSON *)
Definition HexBytes_UnmarshalJSON (data : bytes) : result bytes :=
  if (length data <? 2)%nat || negb (bool_decide (head data = Some quote)) || negb (bool_decide (last data = Some quote))
  then Err (ErrMsg "invalid JSON string")
  else hex_DecodeString (TrimHex (take (length data - 2) (drop 1 data))).
(** [src/types/hexbytes.go:144-154] *)
Definition HexStringToHexBytes (hexString : bytes) : result bytes :=
  match hex_DecodeString (TrimHex hexString) with
  | Err e => Err (Wrap "invalid hex string" e)
  | Ok b => Ok b
  end.

(** ** Identifiers *)

(** [src/types/process_id.go:36-53] *)
Definition HexStringToProcessID (s : bytes) : result ProcessID :=
  let s := TrimHex s in
  if negb (length s =? ProcessIDLen * 2)%nat then Err (ErrMsg "invalid process ID hex length")
  else match hex_DecodeString s with
       | Err e => Err (Wrap "could not decode hex string" e)
       | Ok b => UnmarshalBinary b
       end.
(** [src/types/process_id.go:109-109] ProcessID.MarshalJSON *)
Definition pid_MarshalJSON (p : ProcessID) : bytes := HexBytes_MarshalJSON (pid_bytes p).
(** [src/types/process_id.go:121-127] ProcessID.UnmarshalJSON *)
Definition pid_UnmarshalJSON (data : bytes) : result ProcessID :=
  match HexBytes_UnmarshalJSON data with Err e => Err e | Ok hb => UnmarshalBinary hb end.
(** [src/types/state.go:85-85] StateKey.String *)
Definition StateKey_String (k : uint64) : bytes := bytes_of_string "0x" ++ hex_text (StateKey_Bytes k).
(** [src/types/state.go:92-96] StateKey.MarshalJSON *)
Definition StateKey_MarshalJSON (k : uint64) : bytes := HexBytes_MarshalJSON (be_split 8 (u64Z k)).
(** [src/types/state.go:155-170] *)
Definition stateKeyUnmarshalJSON (data : bytes) : result uint64 :=
  match HexBytes_UnmarshalJSON data with
  | Err e => Err e
  | Ok hb =>
      if (length hb =? 0)%nat then Err (ErrMsg "empty")
      else if (8 <? length hb)%nat then Err (ErrMsg "too many bytes")
      else Ok (U64 (be_combine (replicate (8 - length hb) zero ++ hb)))
  end.
(** [src/types/state.go:172-185] *)
Definition hexStringToStateKey (s : bytes) : result uint64 :=
  let s := TrimHex (TrimSpace s) in
  match s with
  | [] => Err (ErrMsg "empty")
  | _ => match ParseUint16 s with Err e => Err (Wrap "invalid hex" e) | Ok u => Ok u end
  end.
Definition in_range (valid : uint64 → bool) (r : result uint64) : result uint64 :=
  match r with Err e => Err e | Ok k => if negb (valid k) then Err (ErrMsg "out of range") else Ok k end.
(** [src/types/state.go:21-31] *)
Definition HexStringToVoteID (s : bytes) : result uint64 := in_range VoteID_Valid (hexStringToStateKey s).
(** [src/types/state.go:57-67] *)
Definition HexStringToBallotIndex (s : bytes) : result uint64 := in_range BallotIndex_Valid (hexStringToStateKey s).
(** [src/types/state.go:118-129] VoteID.UnmarshalJSON *)
Definition VoteID_UnmarshalJSON (data : bytes) : result uint64 := in_range VoteID_Valid (stateKeyUnmarshalJSON data).
(** [src/types/state.go:142-153] BallotIndex.UnmarshalJSON *)
Definition BallotIndex_UnmarshalJSON (data : bytes) : result uint64 := in_range BallotIndex_Valid (stateKeyUnmarshalJSON data).

(** ** Round trips *)

(** The digits of the texts that the node writes: what [hex_EncodeToString] gives. *)
Definition plain_digit (c : byte) : Prop := (48 ≤ byte_to_Z c ≤ 57 ∨ 97 ≤ byte_to_Z c ≤ 102).
Lemma hex_value_digit n : 0 ≤ n < 16 → hex_value (hex_digit n) = Some n ∧ plain_digit (hex_digit n).
Proof.
  intros Hn. assert (Hd : ∀ n : nat, (n < 16)%nat →
    hex_value (hex_digit (Z.of_nat n)) = Some (Z.of_nat n) ∧
    ((48 <=? byte_to_Z (hex_digit (Z.of_nat n))) && (byte_to_Z (hex_digit (Z.of_nat n)) <=? 57) ||
     (97 <=? byte_to_Z (hex_digit (Z.of_nat n))) && (byte_to_Z (hex_digit (Z.of_nat n)) <=? 102)) = true).
  { clear. intros n Hn. do 16 (destruct n as [|n]; [by vm_compute|]). lia. }
  specialize (Hd (Z.to_nat n)). rewrite Z2Nat.id in Hd by lia. destruct Hd as [H1 H2]; [lia|].
  split; [done|]. unfold plain_digit. lia.
Qed.
Lemma nibbles b : 0 ≤ byte_to_Z b / 16 < 16 ∧ 0 ≤ byte_to_Z b mod 16 < 16.
Proof.
  pose proof (byte_to_Z_range b). split; [|by apply Z.mod_pos_bound].
  split; [apply Z.div_pos; lia|apply Z.div_lt_upper_bound; lia].
Qed.
Lemma hex_text_cons b l : hex_text (b :: l) = hex_digit (byte_to_Z b / 16) :: hex_digit (byte_to_Z b mod 16) :: hex_text l.
Proof. done. Qed.
Lemma length_hex_text l : length (hex_text l) = (2 * length l)%nat.
Proof. induction l as [|b l IH]; [done|]. rewrite hex_text_cons. cbn [length]. rewrite IH. lia. Qed.
Lemma hex_text_plain l : Forall plain_digit (hex_text l).
Proof.
  induction l as [|b l IH]; [constructor|]. rewrite hex_text_cons. destruct (nibbles b).
  constructor; [by apply hex_value_digit|]. constructor; [by apply hex_value_digit|done].
Qed.
Lemma hex_Decode_text l : hex_DecodeString (hex_text l) = Ok l.
Proof.
  induction l as [|b l IH]; [done|]. rewrite hex_text_cons. cbn [hex_DecodeString]. destruct (nibbles b) as [H1 H2].
  rewrite (proj1 (hex_value_digit _ H1)), (proj1 (hex_value_digit _ H2)), IH. do 2 f_equal.
  rewrite <-Z.div_mod by done. apply byte_of_to_Z.
Qed.
Lemma plain_no_x c : plain_digit c → c ≠ "x"%char ∧ c ≠ "X"%char ∧ c ≠ quote.
Proof. unfold plain_digit. intros Hc. split_and!; intros ->; revert Hc; vm_compute; intuition congruence. Qed.
Lemma TrimHex_plain s : Forall plain_digit s → TrimHex s = s.
Proof.
  intros Hs. destruct s as [|a [|b s]]; [done| |].
  - by destruct a as [[] [] [] [] [] [] [] []].
  - apply Forall_cons in Hs as [_ [Hb _]%Forall_cons]. apply plain_no_x in Hb as (Hx & HX & _).
    destruct a as [[] [] [] [] [] [] [] []]; try done. destruct b as [[] [] [] [] [] [] [] []]; done.
Qed.
Lemma TrimHex_0x s : TrimHex (bytes_of_string "0x" ++ s) = s.
Proof. done. Qed.
Lemma HexBytes_JSON_roundtrip b : HexBytes_UnmarshalJSON (HexBytes_MarshalJSON b) = Ok b.
Proof.
  unfold HexBytes_UnmarshalJSON, HexBytes_MarshalJSON. rewrite last_cons, last_snoc. cbn [length head].
  rewrite length_app. cbn [length]. rewrite !bool_decide_true by done.
  destruct (Nat.ltb_spec (S (length (HexBytes_String b) + 1)) 2); [lia|]. cbn [orb negb drop].
  replace (S (length (HexBytes_String b) + 1) - 2)%nat with (length (HexBytes_String b)) by lia.
  rewrite drop_0, take_app_length. apply hex_Decode_text.
Qed.

(** Texts without white space at their ends. *)
Definition visible (c : byte) : bool := (33 <=? byte_to_Z c) && (byte_to_Z c <=? 126).
Lemma space_ends w : w ∈ spaces ++ wide_spaces →
  ∃ c d, head w = Some c ∧ last w = Some d ∧ visible c = false ∧ visible d = false.
Proof.
  assert (H : forallb (λ w, match head w, last w with Some c, Some d => negb (visible c) && negb (visible d) | _, _ => false end)
    (spaces ++ wide_spaces) = true) by by vm_compute.
  rewrite forallb_forall in H. intros Hw%list_elem_of_In%H. destruct (head w) as [c|]; [|done]. destruct (last w) as [d|]; [|done].
  apply andb_prop in Hw as [Hc%negb_true_iff Hd%negb_true_iff]. eauto 10.
Qed.
Lemma space_prefix_visible c s : visible c = true → space_prefix (c :: s) = None.
Proof.
  intros Hc. unfold space_prefix. destruct (List.find _ _) as [w|] eqn:E; [|done].
  apply find_some in E as [Hw Hp]. apply list_elem_of_In, space_ends in Hw as (a & _ & Ha & _ & Hv & _).
  apply HasPrefix_spec in Hp as [r Hr]. destruct w as [|a' w]; [done|]. cbn in Ha, Hr. congruence.
Qed.
Lemma space_suffix_visible c s : visible c = true → space_suffix (s ++ [c]) = None.
Proof.
  intros Hc. unfold space_suffix. destruct (List.find _ _) as [w|] eqn:E; [|done].
  apply find_some in E as [Hw Hp]. apply list_elem_of_In, space_ends in Hw as (_ & d & _ & Hd & _ & Hv).
  apply HasPrefix_spec in Hp as [r Hr]. apply last_Some in Hd as [w' ->]. rewrite !reverse_snoc in Hr. cbn in Hr. congruence.
Qed.
Lemma TrimSpace_visible s : Forall (λ c, visible c = true) s → TrimSpace s = s.
Proof.
  intros Hs. unfold TrimSpace. assert (E : trim_left (length s) s = s).
  { destruct s as [|c s]; [done|]. cbn. apply Forall_cons in Hs as [Hc _]. by rewrite space_prefix_visible. }
  rewrite E. destruct s as [|c s] using rev_ind; [done|]. rewrite length_app, Nat.add_comm. cbn [Nat.add length trim_right].
  apply Forall_app in Hs as [_ [Hc _]%Forall_cons]. by rewrite space_suffix_visible.
Qed.

Lemma le_combine_snoc l b : le_combine (l ++ [b]) = le_combine l + byte_to_Z b * 256 ^ Z.of_nat (length l).
Proof.
  induction l as [|c l IH]; cbn [app le_combine length]; [rewrite Z.pow_0_r; lia|].
  rewrite IH, Nat2Z.inj_succ, Z.pow_succ_r by lia. ring.
Qed.
Lemma be_combine_cons b l : be_combine (b :: l) = byte_to_Z b * 256 ^ Z.of_nat (length l) + be_combine l.
Proof. unfold be_combine. rewrite reverse_cons, le_combine_snoc, length_reverse. lia. Qed.
Lemma parse_hex_text l a :
  foldl (λ acc c, v ← acc; d ← hex_value c; Some (16 * v + d)) (Some a) (hex_text l) = Some (a * 256 ^ Z.of_nat (length l) + be_combine l).
Proof.
  revert a. induction l as [|b l IH]; intros a; [cbn; f_equal; unfold be_combine; cbn; lia|].
  rewrite hex_text_cons. cbn [foldl mbind option_bind]. destruct (nibbles b) as [H1 H2].
  rewrite (proj1 (hex_value_digit _ H1)). cbn [mbind option_bind]. rewrite (proj1 (hex_value_digit _ H2)). cbn [mbind option_bind].
  rewrite IH. f_equal. rewrite be_combine_cons. cbn [length]. rewrite Nat2Z.inj_succ, Z.pow_succ_r by lia.
  rewrite (Z.div_mod (byte_to_Z b) 16) at 3 by done. ring.
Qed.
Lemma ParseUint16_text l : l ≠ [] → (length l ≤ 8)%nat → ParseUint16 (hex_text l) = Ok (U64 (be_combine l)).
Proof.
  intros Hne Hl. unfold ParseUint16. rewrite parse_hex_text, Z.mul_0_l, Z.add_0_l.
  destruct (hex_text l) eqn:E; [destruct l; [done|by rewrite hex_text_cons in E]|].
  pose proof (be_combine_range l) as Hr. assert (256 ^ Z.of_nat (length l) ≤ 256 ^ 8) by (apply Z.pow_le_mono_r; lia).
  destruct (Z.leb_spec two64 (be_combine l)); [|done]. change (256 ^ 8) with two64 in *. lia.
Qed.
Lemma text_visible l : Forall (λ c, visible c = true) (bytes_of_string "0x" ++ hex_text l).
Proof.
  apply Forall_app. split; [by repeat constructor|]. eapply Forall_impl; [apply hex_text_plain|].
  intros c Hc. unfold visible, plain_digit in *. lia.
Qed.
Lemma hexStringToStateKey_String k : hexStringToStateKey (StateKey_String k) = Ok k.
Proof.
  unfold hexStringToStateKey, StateKey_String. rewrite TrimSpace_visible by apply text_visible. rewrite TrimHex_0x.
  assert (Hl : length (StateKey_Bytes k) = 8%nat) by apply length_be_split.
  rewrite ParseUint16_text; [|intros E; by rewrite E in Hl|by rewrite Hl].
  destruct (hex_text (StateKey_Bytes k)) eqn:E; [apply (f_equal length) in E; rewrite length_hex_text, Hl in E; done|].
  f_equal. apply u64_eq. unfold StateKey_Bytes. rewrite be_combine_split. pose proof (u64Z_range k) as Hr.
  change (256 ^ Z.of_nat 8) with two64. rewrite Z.mod_small by done. by rewrite U64_u64Z.
Qed.
Lemma stateKey_JSON_roundtrip k : stateKeyUnmarshalJSON (StateKey_MarshalJSON k) = Ok k.
Proof.
  unfold stateKeyUnmarshalJSON, StateKey_MarshalJSON. rewrite HexBytes_JSON_roundtrip, length_be_split. cbn [Nat.eqb Nat.ltb Nat.leb Nat.sub replicate app].
  f_equal. apply u64_eq. rewrite be_combine_split. pose proof (u64Z_range k) as Hr.
  change (256 ^ Z.of_nat 8) with two64. rewrite Z.mod_small by done. by rewrite U64_u64Z.
Qed.

(** The texts of identifiers are read back, in the URL and in JSON: of a process, and of a vote
    exactly when it is in its range, in which case it is of no ballot. *)
Theorem identifier_texts_roundtrip p k :
  HexStringToProcessID (hex_text (pid_bytes p)) = Ok p ∧
  HexStringToProcessID (bytes_of_string "0x" ++ hex_text (pid_bytes p)) = Ok p ∧
  pid_UnmarshalJSON (pid_MarshalJSON p) = Ok p ∧
  (HexStringToVoteID (StateKey_String k) = Ok k ↔ VoteID_Valid k = true) ∧
  (VoteID_UnmarshalJSON (StateKey_MarshalJSON k) = Ok k ↔ VoteID_Valid k = true) ∧
  (HexStringToBallotIndex (StateKey_String k) = Ok k ↔ BallotIndex_Valid k = true) ∧
  (is_Ok (HexStringToVoteID (StateKey_String k)) = true → is_Ok (HexStringToBallotIndex (StateKey_String k)) = false).
Proof.
  assert (Hp : TrimHex (hex_text (pid_bytes p)) = hex_text (pid_bytes p)) by apply TrimHex_plain, hex_text_plain.
  assert (Hu : UnmarshalBinary (pid_bytes p) = Ok p) by apply BytesToProcessID_bytes.
  unfold HexStringToProcessID. rewrite TrimHex_0x, Hp, length_hex_text, length_pid_bytes, hex_Decode_text, Hu.
  unfold pid_UnmarshalJSON, pid_MarshalJSON. rewrite HexBytes_JSON_roundtrip, Hu.
  unfold HexStringToVoteID, HexStringToBallotIndex, VoteID_UnmarshalJSON, in_range.
  rewrite hexStringToStateKey_String, stateKey_JSON_roundtrip. split_and!; try done.
  - by destruct (VoteID_Valid k).
  - by destruct (VoteID_Valid k).
  - by destruct (BallotIndex_Valid k).
  - unfold VoteID_Valid, BallotIndex_Valid. pose proof (eq_refl : VoteIDMin = BallotMax + 1).
    destruct (Z.leb_spec VoteIDMin (u64Z k)); [|done]. destruct (Z.leb_spec (u64Z k) BallotMax); [lia|]. by rewrite andb_false_r.
Qed.
