(* ===== verification/Census.v ===== *)
(** * Censuses

    [src/types/census.go]: the origins of a census and the proofs of membership, and [LoadCensus] of
    [src/storage/census.go], over the database of censuses, which is an interface. *)

From S2P Require Import Prelude Bytes Spec Types Hex.

(** ** src/types/census.go *)

(** [src/types/census.go:17-17] CensusOriginUnknown *)
Definition CensusOriginUnknown : Z := 0.
(** [src/types/census.go:18-18] CensusOriginMerkleTreeOffchainStaticV1 *)
Definition CensusOriginMerkleTreeOffchainStaticV1 : Z := 1.
(** [src/types/census.go:19-19] CensusOriginMerkleTreeOffchainDynamicV1 *)
Definition CensusOriginMerkleTreeOffchainDynamicV1 : Z := 2.
(** [src/types/census.go:20-20] CensusOriginMerkleTreeOnchainDynamicV1 *)
Definition CensusOriginMerkleTreeOnchainDynamicV1 : Z := 3.
(** [src/types/census.go:21-21] CensusOriginCSPEdDSABabyJubJubV1 *)
Definition CensusOriginCSPEdDSABabyJubJubV1 : Z := 4.
(** [src/types/census.go:30-30] CensusRootLength *)
Definition CensusRootLength : nat := 32.
(** [src/types/census.go:33-38] *)
Definition supportedCensusOrigins : gmap Z string := list_to_map
  [(CensusOriginMerkleTreeOffchainStaticV1, "merkle_tree_offchain_static_v1");
   (CensusOriginMerkleTreeOffchainDynamicV1, "merkle_tree_offchain_dynamic_v1");
   (CensusOriginMerkleTreeOnchainDynamicV1, "merkle_tree_onchain_dynamic_v1");
   (CensusOriginCSPEdDSABabyJubJubV1, "csp_eddsa_babyjubjub_v1")]%string.
(** [src/types/census.go:52-55] CensusOrigin.Valid *)
Definition CensusOrigin_Valid (co : Z) : bool := bool_decide (is_Some (supportedCensusOrigins !! co)).
(** [src/types/census.go:58-63] CensusOrigin.String *)
Definition CensusOrigin_String (co : Z) : string := default "unknown"%string (supportedCensusOrigins !! co).
(** [src/types/census.go:66-71] CensusOrigin.BigInt *)
Definition CensusOrigin_BigInt (co : Z) : option Z := if CensusOrigin_Valid co then Some co else None.
(** [src/types/census.go:74-83] *)
Definition IsMerkleTree (co : Z) : bool :=
  (co =? CensusOriginMerkleTreeOffchainStaticV1) || (co =? CensusOriginMerkleTreeOffchainDynamicV1) ||
  (co =? CensusOriginMerkleTreeOnchainDynamicV1).
(** [src/types/census.go:86-93] *)
Definition IsCSP (co : Z) : bool := co =? CensusOriginCSPEdDSABabyJubJubV1.
(** [src/types/census.go:98-105] CensusOriginFromString: over the names in any order, which are distinct *)
Definition CensusOriginFromString (name : string) : Z :=
  match List.find (λ kv, bool_decide (kv.2 = name)) (map_to_list supportedCensusOrigins) with
  | Some (co, _) => co | None => CensusOriginUnknown end.
(** [src/types/census.go:110-112] *)
Definition NormalizedCensusRoot (original : bytes) : bytes := LeftPad CensusRootLength original.

(** [src/types/census.go:153-169] CensusProof: nil slices and pointers are [None] *)
Record CensusProof := {
  pf_CensusOrigin : Z; pf_Root : option bytes; pf_Address : option bytes; pf_Weight : option Z;
  pf_VoterIndex : uint64; pf_Siblings : bytes; pf_Value : bytes; pf_PathBits : uint64;
  pf_ProcessID : ProcessID; pf_PublicKey : option bytes; pf_Signature : option bytes }.
(** [src/types/census.go:186-186] VoterIndex.Valid *)
Definition VoterIndex_Valid (v : uint64) : bool := u64Z v <=? VoterIndexMax.
(** [src/types/census.go:215-230] CensusProof.Valid *)
Definition CensusProof_Valid (cp : CensusProof) : bool :=
  if negb (CensusOrigin_Valid (pf_CensusOrigin cp)) then false
  else if IsMerkleTree (pf_CensusOrigin cp) then true
  else if IsCSP (pf_CensusOrigin cp) then
    bool_decide (is_Some (pf_Root cp)) && bool_decide (is_Some (pf_Address cp)) && pid_IsValid (pf_ProcessID cp) &&
    bool_decide (is_Some (pf_PublicKey cp)) && bool_decide (is_Some (pf_Signature cp)) && VoterIndex_Valid (pf_VoterIndex cp)
  else false.

(** go-ethereum's [common.BytesToAddress]: the last twenty bytes. *)
Definition BytesToAddress (b : bytes) : bytes := LeftPad 20 (drop (length b - 20) b).
Definition zeroAddress : bytes := replicate 20 (byte_of_Z 0).
(** [src/types/state.go:49-55] CalculateBallotIndex; the panic is an error *)
Definition CalculateBallotIndex (voterIndex : uint64) : result uint64 :=
  match BallotIndex (u64Z voterIndex) with Err e => Err e | Ok i => Ok (U64 i) end.

(** ** Stored censuses *)

(** [src/census/censusdb]: the Merkle tree of a census, by its root or by its contract. *)
Class CensusDB := {
  CensusTree : Type;
  LoadByScopedAddress : Z → Census → result CensusTree;
  LoadByRoot : Census → result CensusTree }.
(** [src/storage/census.go:14-38] *)
Definition LoadCensus `{CensusDB} (chainID : Z) (censusInfo : option Census) : result (option CensusTree) :=
  match censusInfo with
  | None => Err (ErrMsg "no census info provided")
  | Some censusInfo =>
      if IsCSP (c_CensusOrigin censusInfo) then Ok None
      else if c_CensusOrigin censusInfo =? CensusOriginMerkleTreeOnchainDynamicV1 then
        if chainID =? 0 then Err (ErrMsg "chain ID is required for dynamic on-chain census lookup")
        else match LoadByScopedAddress chainID censusInfo with Err e => Err e | Ok t => Ok (Some t) end
      else match LoadByRoot censusInfo with Err e => Err e | Ok t => Ok (Some t) end
  end.
