(* ===== verification/StorageTypes.v ===== *)
(** * Artifacts of the storage and their encoding

    The records of [src/storage/types.go] (proofs, sidecars and other fields the
    storage only carries are opaque byte strings), the interface of the codec the
    storage calls ([EncodeArtifact]/[DecodeArtifact] are CBOR, a third-party
    library, so their round trip is a law of the interface and not a definition),
    and one concrete codec, on which the handlers can be evaluated. *)

From S2P Require Import Prelude Bytes DB Spec Types.
From Stdlib Require Import Ascii.

(** ** src/storage/types.go *)

(** [src/storage/types.go:44-48] EncryptionKeys *)
Record EncryptionKeys := { ek_X : option Z; ek_Y : option Z; ek_PrivateKey : option Z }.
(** [src/storage/types.go:60-69] VerifiedBallot *)
Record VerifiedBallot := {
  vb_VoteID : uint64; vb_ProcessID : ProcessID; vb_VoterWeight : option Z;
  vb_EncryptedBallot : option EncryptedBallot; vb_Address : option Z; vb_InputsHash : option Z;
  vb_Proofs : bytes }.
(** [src/storage/types.go:78-89] Ballot *)
Record Ballot := {
  b_ProcessID : ProcessID; b_VoterWeight : option Z; b_EncryptedBallot : option EncryptedBallot;
  b_Address : option Z; b_BallotInputsHash : option Z; b_Proofs : bytes;
  b_Signature : option bytes; b_PubKey : option bytes; b_VoteID : uint64 }.
(** [src/storage/types.go:148-154] AggregatorBallot *)
Record AggregatorBallot := {
  ab_VoteID : uint64; ab_Address : option Z; ab_Weight : option Z;
  ab_EncryptedBallot : option EncryptedBallot; ab_CensusProof : bytes }.
(** [src/storage/types.go:161-167] AggregatorBallotBatch *)
Record AggregatorBallotBatch := {
  abb_ProcessID : ProcessID; abb_Proof : bytes; abb_Ballots : list AggregatorBallot;
  abb_Attempts : Z; abb_LastAttemptTime : Time }.
(** [src/storage/types.go:188-195] StateTransitionBatchProofInputs *)
Record StateTransitionBatchProofInputs := {
  RootHashBefore : option Z; RootHashAfter : option Z; VotersCount : Z;
  OverwrittenVotesCount : Z; in_CensusRoot : option Z; BlobCommitmentLimbs : list (option Z) }.
(** [src/storage/types.go:174-182] StateTransitionBatch *)
Record StateTransitionBatch := {
  stb_ProcessID : ProcessID; stb_Proof : bytes; stb_Ballots : list AggregatorBallot;
  stb_Inputs : StateTransitionBatchProofInputs; stb_Blob : bytes; stb_BatchID : bytes }.
(** [src/storage/types.go:251-254] ResultsVerifierProofInputs *)
Record ResultsVerifierProofInputs := { rv_StateRoot : option Z; rv_Results : list (option Z) }.
(** [src/storage/types.go:242-246] VerifiedResults *)
Record VerifiedResults := {
  vr_ProcessID : ProcessID; vr_Proof : bytes; vr_Inputs : ResultsVerifierProofInputs }.
(** [src/storage/types.go:285-288] ProcessStatsUpdate *)
Record ProcessStatsUpdate := { upd_TypeStats : TypeStats; upd_Delta : Z }.
(** [src/storage/types.go:291-297] Stats *)
Record Stats := {
  st_VerifiedVotesCount : Z; st_AggregatedVotesCount : Z; st_StateTransitionCount : Z;
  st_SettledStateTransitionCount : Z; st_LastStateTransitionDate : Time }.
(** [src/storage/types.go:301-304] StatsPendingBallots *)
Record StatsPendingBallots := { TotalPendingBallots : Z; LastUpdateDate : Time }.
(** [src/storage/worker_stats.go:12-15] WorkerStats *)
Record WorkerStats := { SuccessCount : Z; FailedCount : Z }.
(** [src/storage/storage.go:105-107] reservationRecord *)
Record reservationRecord := { Timestamp : Z }.
(** [src/state/transition_artifact.go:15-23] TransitionArtifact *)
Record TransitionArtifact := {
  ta_ProcessID : ProcessID; ta_RootHashBefore : option Z; ta_RootHashAfter : option Z;
  ta_Payload : bytes }.

(** Go's zero values. *)
Definition zeroProcessID : ProcessID := pid_of_bytes [].
Definition zeroInputs : StateTransitionBatchProofInputs :=
  {| RootHashBefore := None; RootHashAfter := None; VotersCount := 0; OverwrittenVotesCount := 0;
     in_CensusRoot := None; BlobCommitmentLimbs := replicate 3 None |}.
Definition zeroStats : Stats :=
  {| st_VerifiedVotesCount := 0; st_AggregatedVotesCount := 0; st_StateTransitionCount := 0;
     st_SettledStateTransitionCount := 0; st_LastStateTransitionDate := zeroTime |}.
Definition zeroStatsPendingBallots : StatsPendingBallots :=
  {| TotalPendingBallots := 0; LastUpdateDate := zeroTime |}.
Definition zeroWorkerStats : WorkerStats := {| SuccessCount := 0; FailedCount := 0 |}.

(** ** The codec interface *)

(** CBOR keeps times to the second ([TimeUnix], the default of
    [CoreDetEncOptions]); every other field comes back as it was written. *)
Class Normal (A : Type) := norm : A → A.
Definition trunc (t : Time) : Time := Unix t * second.

Class Codec (A : Type) `{Normal A} := {
  EncodeArtifact : A → result bytes;
  DecodeArtifact : bytes → result A;
  codec_roundtrip a v : EncodeArtifact a = Ok v → DecodeArtifact v = Ok (norm a)
}.

#[export] Instance norm_reservationRecord : Normal reservationRecord := λ a, a.
#[export] Instance norm_Ballot : Normal Ballot := λ a, a.
#[export] Instance norm_VerifiedBallot : Normal VerifiedBallot := λ a, a.
#[export] Instance norm_StateTransitionBatch : Normal StateTransitionBatch := λ a, a.
#[export] Instance norm_TransitionArtifact : Normal TransitionArtifact := λ a, a.
#[export] Instance norm_EncryptionKeys : Normal EncryptionKeys := λ a, a.
#[export] Instance norm_VerifiedResults : Normal VerifiedResults := λ a, a.
#[export] Instance norm_WorkerStats : Normal WorkerStats := λ a, a.
#[export] Instance norm_bool : Normal bool := λ a, a.
#[export] Instance norm_AggregatorBallotBatch : Normal AggregatorBallotBatch := λ b,
  {| abb_ProcessID := abb_ProcessID b; abb_Proof := abb_Proof b; abb_Ballots := abb_Ballots b;
     abb_Attempts := abb_Attempts b; abb_LastAttemptTime := trunc (abb_LastAttemptTime b) |}.
#[export] Instance norm_Stats : Normal Stats := λ st,
  {| st_VerifiedVotesCount := st_VerifiedVotesCount st;
     st_AggregatedVotesCount := st_AggregatedVotesCount st;
     st_StateTransitionCount := st_StateTransitionCount st;
     st_SettledStateTransitionCount := st_SettledStateTransitionCount st;
     st_LastStateTransitionDate := trunc (st_LastStateTransitionDate st) |}.
#[export] Instance norm_StatsPendingBallots : Normal StatsPendingBallots := λ st,
  {| TotalPendingBallots := TotalPendingBallots st; LastUpdateDate := trunc (LastUpdateDate st) |}.
#[export] Instance norm_SequencerStats : Normal SequencerProcessStats := λ st,
  {| StateTransitionCount := StateTransitionCount st;
     LastStateTransitionDate := trunc (LastStateTransitionDate st);
     SettledStateTransitionCount := SettledStateTransitionCount st;
     AggregatedVotesCount := AggregatedVotesCount st; VerifiedVotesCount := VerifiedVotesCount st;
     PendingVotesCount := PendingVotesCount st; CurrentBatchSize := CurrentBatchSize st;
     LastBatchSize := LastBatchSize st |}.
#[export] Instance norm_Process : Normal Process := λ p,
  {| p_ID := p_ID p; p_Status := p_Status p; p_EncryptionKey := p_EncryptionKey p;
     p_StateRoot := p_StateRoot p; p_Result := p_Result p; p_StartTime := trunc (p_StartTime p);
     p_Duration := p_Duration p; p_BallotMode := p_BallotMode p;
     p_Census := p_Census p; p_VotersCount := p_VotersCount p;
     p_OverwrittenVotesCount := p_OverwrittenVotesCount p; p_MaxVoters := p_MaxVoters p;
     p_SequencerStats := norm (p_SequencerStats p);
     p_RegisteredForSequencing := p_RegisteredForSequencing p; p_Payload := p_Payload p |}.

Lemma trunc_trunc t : trunc (trunc t) = trunc t.
Proof. unfold trunc, Unix, second. by rewrite Z.div_mul. Qed.
Lemma Unix_trunc t : Unix (trunc t) = Unix t.
Proof. unfold trunc, Unix, second. by rewrite Z.div_mul. Qed.

(** ** What the storage is given *)

(** The keys of the state trees, [stateDBprefix] of [src/storage/storage.go]. *)
Definition state_keys (k : bytes) : Prop := HasPrefix k (bytes_of_string "st_") = true.

(** What [src/state] promises to the storage: opening, initializing and moving
    the root of a process state works on the state trees' keys only, and a
    snapshot at a root answers whether a vote identifier is in it. *)
Class StateStore := {
  state_New : ProcessID → kv → result () * kv;
  state_Initialize : ProcessID → Z → Z → Z * Z → kv → result () * kv;
  state_SetRootAsBigInt : ProcessID → Z → kv → result () * kv;
  LoadSnapshotOnRoot : kv → ProcessID → option Z → option (uint64 → bool);
  state_New_frame pid d k : ¬ state_keys k → (state_New pid d).2 !! k = d !! k;
  state_Initialize_frame pid o bm ek d k :
    ¬ state_keys k → (state_Initialize pid o bm ek d).2 !! k = d !! k;
  state_SetRoot_frame pid r d k :
    ¬ state_keys k → (state_SetRootAsBigInt pid r d).2 !! k = d !! k
}.

(** The backend's iteration, SHA-256, the compressed form of a curve point, the
    codec of every artifact, the value a failed decode of a state transition
    batch leaves behind, and the process states. *)
Class StorageEnv := {
  bk : backend;
  Sum256 : bytes → bytes;
  Point_Marshal : Z * Z → bytes;
  codec_reservation :: Codec reservationRecord;
  codec_Ballot :: Codec Ballot;
  codec_VerifiedBallot :: Codec VerifiedBallot;
  codec_AggregatorBallotBatch :: Codec AggregatorBallotBatch;
  codec_StateTransitionBatch :: Codec StateTransitionBatch;
  codec_TransitionArtifact :: Codec TransitionArtifact;
  codec_EncryptionKeys :: Codec EncryptionKeys;
  codec_VerifiedResults :: Codec VerifiedResults;
  codec_WorkerStats :: Codec WorkerStats;
  codec_bool :: Codec bool;
  codec_Stats :: Codec Stats;
  codec_StatsPendingBallots :: Codec StatsPendingBallots;
  codec_Process :: Codec Process;
  PartialStateTransitionBatch : bytes → StateTransitionBatch;
  stateStore :: StateStore
}.

(** ** A concrete codec

    A self-delimiting serialization: integers as sign and bits, lists and byte
    strings length first, records field by field. *)

Class Serial (A : Type) := {
  put : A → bytes;
  get : bytes → option (A * bytes);
  get_put a r : get (put a ++ r) = Some (a, r)
}.

Fixpoint put_pos (p : positive) : bytes :=
  match p with xH => ["."%char] | xO p => "0"%char :: put_pos p | xI p => "1"%char :: put_pos p end.
Fixpoint get_pos (l : bytes) : option (positive * bytes) :=
  match l with
  | "."%char :: l => Some (xH, l)
  | "0"%char :: l => '(p, r) ← get_pos l; Some (xO p, r)
  | "1"%char :: l => '(p, r) ← get_pos l; Some (xI p, r)
  | _ => None
  end.
Lemma get_put_pos p r : get_pos (put_pos p ++ r) = Some (p, r).
Proof. induction p as [p IH|p IH|]; cbn; by rewrite ?IH. Qed.

Definition put_Z (z : Z) : bytes :=
  match z with
  | Z0 => ["z"%char] | Zpos p => "+"%char :: put_pos p | Zneg p => "-"%char :: put_pos p
  end.
Definition get_Z (l : bytes) : option (Z * bytes) :=
  match l with
  | "z"%char :: l => Some (Z0, l)
  | "+"%char :: l => '(p, r) ← get_pos l; Some (Zpos p, r)
  | "-"%char :: l => '(p, r) ← get_pos l; Some (Zneg p, r)
  | _ => None
  end.
Lemma get_put_Z z r : get_Z (put_Z z ++ r) = Some (z, r).
Proof. destruct z as [|p|p]; cbn; by rewrite ?get_put_pos. Qed.
#[export] Instance serial_Z : Serial Z := {| put := put_Z; get := get_Z; get_put := get_put_Z |}.

Definition put_bytes (l : bytes) : bytes := put (Z.of_nat (length l)) ++ l.
Definition get_bytes (l : bytes) : option (bytes * bytes) :=
  '(n, r) ← get l; Some (take (Z.to_nat n) r, drop (Z.to_nat n) r).
Lemma get_put_bytes l r : get_bytes (put_bytes l ++ r) = Some (l, r).
Proof.
  unfold get_bytes, put_bytes. rewrite <-app_assoc, get_put. cbn.
  by rewrite Nat2Z.id, take_app_length, drop_app_length.
Qed.
#[export] Instance serial_bytes : Serial bytes :=
  {| put := put_bytes; get := get_bytes; get_put := get_put_bytes |}.

Section serial_derived.
Context {A B : Type} `{Serial A, Serial B}.

Definition put_prod (ab : A * B) : bytes := put ab.1 ++ put ab.2.
Definition get_prod (l : bytes) : option ((A * B) * bytes) :=
  '(a, r) ← get l; '(b, r) ← get r; Some ((a, b), r).
Lemma get_put_prod ab r : get_prod (put_prod ab ++ r) = Some (ab, r).
Proof.
  destruct ab as [a b]. unfold get_prod, put_prod. rewrite <-app_assoc, get_put. cbn.
  by rewrite get_put.
Qed.
#[export] Instance serial_prod : Serial (A * B) :=
  {| put := put_prod; get := get_prod; get_put := get_put_prod |}.

Definition put_option (o : option A) : bytes :=
  match o with None => ["N"%char] | Some a => "S"%char :: put a end.
Definition get_option (l : bytes) : option (option A * bytes) :=
  match l with
  | "N"%char :: l => Some (None, l)
  | "S"%char :: l => '(a, r) ← get l; Some (Some a, r)
  | _ => None
  end.
Lemma get_put_option o r : get_option (put_option o ++ r) = Some (o, r).
Proof. destruct o; cbn; by rewrite ?get_put. Qed.
#[export] Instance serial_option : Serial (option A) :=
  {| put := put_option; get := get_option; get_put := get_put_option |}.

Fixpoint get_n (n : nat) (l : bytes) : option (list A * bytes) :=
  match n with
  | O => Some ([], l)
  | S n => '(a, r) ← get l; '(t, r) ← get_n n r; Some (a :: t, r)
  end.
Definition put_list (l : list A) : bytes := put (Z.of_nat (length l)) ++ concat (put <$> l).
Definition get_list (l : bytes) : option (list A * bytes) :=
  '(n, r) ← get l; get_n (Z.to_nat n) r.
Lemma get_put_list l r : get_list (put_list l ++ r) = Some (l, r).
Proof.
  unfold get_list, put_list. rewrite <-app_assoc, get_put. cbn. rewrite Nat2Z.id.
  induction l as [|a l IH]; cbn; [done|]. rewrite <-app_assoc, get_put. cbn. by rewrite IH.
Qed.
#[export] Instance serial_list : Serial (list A) | 10 :=
  {| put := put_list; get := get_list; get_put := get_put_list |}.

(** Records are serialized as the tuple of their fields. *)
Definition get_iso (g : A → B) (l : bytes) : option (B * bytes) :=
  '(a, r) ← get l; Some (g a, r).
Lemma get_put_iso (f : B → A) (g : A → B) (Hgf : ∀ b, g (f b) = b) b r :
  get_iso g (put (f b) ++ r) = Some (b, r).
Proof. unfold get_iso. rewrite get_put. cbn. by rewrite Hgf. Qed.
Definition serial_iso (f : B → A) (g : A → B) (Hgf : ∀ b, g (f b) = b) : Serial B :=
  {| put b := put (f b); get := get_iso g; get_put := get_put_iso f g Hgf |}.
End serial_derived.

(** The codec of a type from the serialization of its fields; [g ∘ f] may
  normalise. *)
Section codec_iso.
Context {A B : Type} `{Serial A, Normal B}.

Definition decode_iso (g : A → B) (v : bytes) : result B :=
  match get v with Some (a, []) => Ok (g a) | _ => Err (ErrMsg "malformed") end.
Lemma codec_iso_roundtrip (f : B → A) (g : A → B) (Hgf : ∀ b, g (f b) = norm b) b v :
  Ok (put (f b)) = Ok v → decode_iso g v = Ok (norm b).
Proof.
  intros [= <-]. unfold decode_iso. rewrite <-(app_nil_r (put (f b))), get_put. by rewrite Hgf.
Qed.
Definition codec_iso (f : B → A) (g : A → B) (Hgf : ∀ b, g (f b) = norm b) : Codec B :=
  {| EncodeArtifact b := Ok (put (f b)); DecodeArtifact := decode_iso g;
     codec_roundtrip := codec_iso_roundtrip f g Hgf |}.
End codec_iso.

#[export] Instance serial_bool : Serial bool :=
  serial_iso (λ b : bool, if b then 1 else 0) (λ z, negb (z =? 0)) ltac:(by intros []).
#[export] Instance serial_uint64 : Serial uint64 := serial_iso u64Z U64 U64_u64Z.
#[export] Instance serial_string : Serial string :=
  serial_iso String.list_ascii_of_string String.string_of_list_ascii
    String.string_of_list_ascii_of_string.
Lemma pid_of_bytes_bytes p : pid_of_bytes (pid_bytes p) = p.
Proof. apply pid_eq, pid_of_bytes_exact, length_pid_bytes. Qed.
#[export] Instance serial_pid : Serial ProcessID := serial_iso pid_bytes pid_of_bytes pid_of_bytes_bytes.
#[export] Instance serial_Ciphertext : Serial Ciphertext :=
  serial_iso (λ c, (C1 c, C2 c)) (λ p, {| C1 := p.1; C2 := p.2 |}) ltac:(by intros []).
#[export] Instance serial_EncryptedBallot : Serial EncryptedBallot :=
  serial_iso (λ c, (CurveType c, Ciphertexts c))
    (λ p, {| CurveType := p.1; Ciphertexts := p.2 |}) ltac:(by intros []).
#[export] Instance serial_AggregatorBallot : Serial AggregatorBallot :=
  serial_iso
    (λ a, (ab_VoteID a, ab_Address a, ab_Weight a, ab_EncryptedBallot a, ab_CensusProof a))
    (λ '(a, b, c, d, e), {| ab_VoteID := a; ab_Address := b; ab_Weight := c;
       ab_EncryptedBallot := d; ab_CensusProof := e |}) ltac:(by intros []).
#[export] Instance serial_Inputs : Serial StateTransitionBatchProofInputs :=
  serial_iso
    (λ i, (RootHashBefore i, RootHashAfter i, VotersCount i, OverwrittenVotesCount i,
           in_CensusRoot i, BlobCommitmentLimbs i))
    (λ '(a, b, c, d, e, f), {| RootHashBefore := a; RootHashAfter := b; VotersCount := c;
       OverwrittenVotesCount := d; in_CensusRoot := e; BlobCommitmentLimbs := f |})
    ltac:(by intros []).
#[export] Instance serial_BallotMode : Serial BallotMode :=
  serial_iso
    (λ b, (NumFields b, GroupSize b, UniqueValues b, CostExponent b,
           (MaxValue b, MinValue b, MaxValueSum b, MinValueSum b)))
    (λ '(a, b, c, d, (e, f, g, h)), {| NumFields := a; GroupSize := b; UniqueValues := c;
       CostExponent := d; MaxValue := e; MinValue := f; MaxValueSum := g; MinValueSum := h |})
    ltac:(by intros []).
#[export] Instance serial_Census : Serial Census :=
  serial_iso (λ c, (c_CensusOrigin c, c_CensusRoot c, c_CensusURI c, c_Payload c))
    (λ '(a, b, c, d), {| c_CensusOrigin := a; c_CensusRoot := b; c_CensusURI := c; c_Payload := d |})
    ltac:(by intros []).
Definition status_code (s : ProcessStatus) : Z :=
  match s with
  | ProcessStatusReady => 0 | ProcessStatusEnded => 1 | ProcessStatusCanceled => 2
  | ProcessStatusPaused => 3 | ProcessStatusResults => 4 end.
Definition status_of_code (z : Z) : ProcessStatus :=
  if z =? 0 then ProcessStatusReady else if z =? 1 then ProcessStatusEnded
  else if z =? 2 then ProcessStatusCanceled else if z =? 3 then ProcessStatusPaused
  else ProcessStatusResults.
#[export] Instance serial_ProcessStatus : Serial ProcessStatus :=
  serial_iso status_code status_of_code ltac:(by intros []).

(** ** The codec of each artifact *)

Module Concrete.

Definition codec_reservation : Codec reservationRecord :=
  codec_iso Timestamp Build_reservationRecord ltac:(by intros []).
Definition codec_Ballot : Codec Ballot :=
  codec_iso
    (λ b, (b_ProcessID b, b_VoterWeight b, b_EncryptedBallot b, b_Address b,
           (b_BallotInputsHash b, b_Proofs b, b_Signature b, b_PubKey b, b_VoteID b)))
    (λ '(a, b, c, d, (e, f, g, h, i)), Build_Ballot a b c d e f g h i) ltac:(by intros []).
Definition codec_VerifiedBallot : Codec VerifiedBallot :=
  codec_iso
    (λ b, (vb_VoteID b, vb_ProcessID b, vb_VoterWeight b, vb_EncryptedBallot b, vb_Address b,
           vb_InputsHash b, vb_Proofs b))
    (λ '(a, b, c, d, e, f, g), Build_VerifiedBallot a b c d e f g) ltac:(by intros []).
Definition codec_AggregatorBallotBatch : Codec AggregatorBallotBatch :=
  codec_iso
    (λ b, (abb_ProcessID b, abb_Proof b, abb_Ballots b, abb_Attempts b, Unix (abb_LastAttemptTime b)))
    (λ '(a, b, c, d, e), Build_AggregatorBallotBatch a b c d (e * second)) ltac:(by intros []).
Definition codec_StateTransitionBatch : Codec StateTransitionBatch :=
  codec_iso
    (λ b, (stb_ProcessID b, stb_Proof b, stb_Ballots b, stb_Inputs b, stb_Blob b, stb_BatchID b))
    (λ '(a, b, c, d, e, f), Build_StateTransitionBatch a b c d e f) ltac:(by intros []).
Definition codec_TransitionArtifact : Codec TransitionArtifact :=
  codec_iso
    (λ b, (ta_ProcessID b, ta_RootHashBefore b, ta_RootHashAfter b, ta_Payload b))
    (λ '(a, b, c, d), Build_TransitionArtifact a b c d) ltac:(by intros []).
Definition codec_EncryptionKeys : Codec EncryptionKeys :=
  codec_iso (λ k, (ek_X k, ek_Y k, ek_PrivateKey k))
    (λ '(a, b, c), Build_EncryptionKeys a b c) ltac:(by intros []).
Definition codec_VerifiedResults : Codec VerifiedResults :=
  codec_iso (λ r, (vr_ProcessID r, vr_Proof r, rv_StateRoot (vr_Inputs r), rv_Results (vr_Inputs r)))
    (λ '(a, b, c, d), Build_VerifiedResults a b (Build_ResultsVerifierProofInputs c d))
    ltac:(by intros [? ? []]).
Definition codec_WorkerStats : Codec WorkerStats :=
  codec_iso (λ w, (SuccessCount w, FailedCount w)) (λ '(a, b), Build_WorkerStats a b)
    ltac:(by intros []).
Definition codec_bool : Codec bool := codec_iso (A:=bool) (B:=bool) (λ b, b) (λ b, b) (λ b, eq_refl).
Definition codec_Stats : Codec Stats :=
  codec_iso
    (λ st, (st_VerifiedVotesCount st, st_AggregatedVotesCount st, st_StateTransitionCount st,
            st_SettledStateTransitionCount st, Unix (st_LastStateTransitionDate st)))
    (λ '(a, b, c, d, e), Build_Stats a b c d (e * second)) ltac:(by intros []).
Definition codec_StatsPendingBallots : Codec StatsPendingBallots :=
  codec_iso (λ st, (TotalPendingBallots st, Unix (LastUpdateDate st)))
    (λ '(a, b), Build_StatsPendingBallots a (b * second)) ltac:(by intros []).
Definition seq_fields (s : SequencerProcessStats) :=
  (StateTransitionCount s, Unix (LastStateTransitionDate s), SettledStateTransitionCount s,
   AggregatedVotesCount s, (VerifiedVotesCount s, PendingVotesCount s, CurrentBatchSize s, LastBatchSize s)).
Definition seq_of_fields '(a, b, c, d, (e, f, g, h)) : SequencerProcessStats :=
  Build_SequencerProcessStats a (b * second) c d e f g h.
Definition codec_Process : Codec Process :=
  codec_iso
    (λ p, (p_ID p, p_Status p, p_EncryptionKey p, p_StateRoot p, p_Result p,
           (Unix (p_StartTime p), p_Duration p, p_BallotMode p, p_Census p, p_VotersCount p),
           (p_OverwrittenVotesCount p, p_MaxVoters p, seq_fields (p_SequencerStats p),
            p_RegisteredForSequencing p, p_Payload p)))
    (λ '(a, b, c, d, e, (f, g, h, i, j), (k, l, m, n, o)),
       Build_Process a b c d e (f * second) g h i j k l (seq_of_fields m) n o)
    ltac:(by intros [? ? ? ? ? ? ? ? ? ? ? ? [] ? ?]).

(** A hash for examples: the bytes' sum, and the length, in 32 bytes. *)
Definition sum256 (l : bytes) : bytes :=
  be_split 32 (Z.shiftl (foldr (λ b acc, byte_to_Z b + 257 * acc) 0 l) 160 + Z.of_nat (length l)).

(** A state store that keeps the root of each process and answers membership
    by [inState]. *)
Definition root_key (pid : ProcessID) : bytes := bytes_of_string "st_" ++ pid_bytes pid.
Definition put_root (pid : ProcessID) (v : bytes) (d : kv) : result () * kv :=
  (Ok (), <[root_key pid := v]> d).
Lemma put_root_frame pid v d k : ¬ state_keys k → (put_root pid v d).2 !! k = d !! k.
Proof.
  intros Hk. simpl. apply lookup_insert_ne. intros <-. apply Hk. apply HasPrefix_app.
Qed.
Definition store (inState : ProcessID → uint64 → bool) : StateStore := {|
  state_New pid d := (Ok (), d);
  state_Initialize pid _ _ _ d := put_root pid [] d;
  state_SetRootAsBigInt pid r d := put_root pid (put r) d;
  LoadSnapshotOnRoot _ pid root := (λ _, inState pid) <$> root;
  state_New_frame _ _ _ _ := eq_refl;
  state_Initialize_frame pid _ _ _ d k := put_root_frame pid [] d k;
  state_SetRoot_frame pid r d k := put_root_frame pid (put r) d k |}.

(** An environment over the in-memory database or Pebble in which [inState]
    says which votes the snapshot of a process holds. *)
Definition env (b : backend) (inState : ProcessID → uint64 → bool) : StorageEnv := {|
  bk := b; Sum256 := sum256; Point_Marshal := λ p, put p;
  StorageTypes.codec_reservation := codec_reservation;
  StorageTypes.codec_Ballot := codec_Ballot;
  StorageTypes.codec_VerifiedBallot := codec_VerifiedBallot;
  StorageTypes.codec_AggregatorBallotBatch := codec_AggregatorBallotBatch;
  StorageTypes.codec_StateTransitionBatch := codec_StateTransitionBatch;
  StorageTypes.codec_TransitionArtifact := codec_TransitionArtifact;
  StorageTypes.codec_EncryptionKeys := codec_EncryptionKeys;
  StorageTypes.codec_VerifiedResults := codec_VerifiedResults;
  StorageTypes.codec_WorkerStats := codec_WorkerStats;
  StorageTypes.codec_bool := codec_bool;
  StorageTypes.codec_Stats := codec_Stats;
  StorageTypes.codec_StatsPendingBallots := codec_StatsPendingBallots;
  StorageTypes.codec_Process := codec_Process;
  PartialStateTransitionBatch _ :=
    Build_StateTransitionBatch zeroProcessID [] [] zeroInputs [] [];
  stateStore := store inState |}.

(** No vote is in the state yet. *)
Definition env_mem : StorageEnv := env InMemory (λ _ _, false).
Definition env_pebble : StorageEnv := env Pebble (λ _ _, false).

(** Identifiers for examples. *)
Definition pid1 : ProcessID :=
  NewProcessID (replicate 20 (byte_of_Z 161)) (replicate 4 (byte_of_Z 2)) (U64 7).
Definition pid2 : ProcessID :=
  NewProcessID (replicate 20 (byte_of_Z 161)) (replicate 4 (byte_of_Z 2)) (U64 8).
Definition vote (n : Z) : uint64 := U64 (VoteIDMin + n).

(** A process that accepts votes, and a vote of address [a] in each stage. *)
Definition process1 : Process :=
  {| p_ID := Some pid1; p_Status := ProcessStatusReady; p_EncryptionKey := Some (3, 4);
     p_StateRoot := Some 11; p_Result := []; p_StartTime := 0; p_Duration := 1000 * second;
     p_BallotMode := Build_BallotMode 5 5 false 2 16 0 1280 5; p_Census := None; p_VotersCount := None;
     p_OverwrittenVotesCount := None; p_MaxVoters := Some 10;
     p_SequencerStats := zeroSequencerStats; p_RegisteredForSequencing := true; p_Payload := [] |}.
Definition ballot (pid : ProcessID) (n a : Z) : Ballot :=
  {| b_ProcessID := pid; b_VoterWeight := Some 1; b_EncryptedBallot := None; b_Address := Some a;
     b_BallotInputsHash := None; b_Proofs := []; b_Signature := None; b_PubKey := None; b_VoteID := vote n |}.
Definition verified (pid : ProcessID) (n a : Z) : VerifiedBallot :=
  {| vb_VoteID := vote n; vb_ProcessID := pid; vb_VoterWeight := Some 1; vb_EncryptedBallot := None;
     vb_Address := Some a; vb_InputsHash := None; vb_Proofs := [] |}.
Definition aggregated (n a : Z) : AggregatorBallot :=
  {| ab_VoteID := vote n; ab_Address := Some a; ab_Weight := Some 1; ab_EncryptedBallot := None;
     ab_CensusProof := [] |}.
Definition batch (pid : ProcessID) (bs : list AggregatorBallot) (attempts : Z) (t : Time) : AggregatorBallotBatch :=
  {| abb_ProcessID := pid; abb_Proof := []; abb_Ballots := bs; abb_Attempts := attempts; abb_LastAttemptTime := t |}.
Definition transition (pid : ProcessID) (bs : list AggregatorBallot) : StateTransitionBatch :=
  {| stb_ProcessID := pid; stb_Proof := []; stb_Ballots := bs; stb_Inputs := zeroInputs; stb_Blob := []; stb_BatchID := [] |}.
(** The encoding of an artifact. *)
Definition enc {A} `{Codec A} (a : A) : bytes := match EncodeArtifact a with Ok v => v | Err _ => [] end.

End Concrete.
