(* ===== verification/StorageBase.v ===== *)
(** * The storage: state, key spaces, reservations and locks

    [src/storage/storage.go] and [src/storage/encode.go]. The state is the
    database, the in-memory lock tables, the wall clock and the outcome of the
    commits to come: the head of [faults] says whether the next [Commit] of the
    database fails (an exhausted list means that none does). Every exported
    method holds [globalLock] for its whole body, so one call is one atomic step
    of this state. *)

From S2P Require Import Prelude Bytes DB Spec Types StorageTypes.

(** ** Key prefixes *)

(** [src/storage/storage.go:85-85] *)
Definition reservationPrefixRoot : bytes := bytes_of_string "r/".
(** [src/storage/storage.go:86-86] *)
Definition ballotPrefix : bytes := bytes_of_string "b/".
(** [src/storage/storage.go:87-87] *)
Definition voteIDStatusPrefix : bytes := bytes_of_string "vs/".
(** [src/storage/storage.go:88-88] *)
Definition verifiedBallotPrefix : bytes := bytes_of_string "vb/".
(** [src/storage/storage.go:89-89] *)
Definition aggregBatchPrefix : bytes := bytes_of_string "ag/".
(** [src/storage/storage.go:90-90] *)
Definition pendingAggregBatchPrefix : bytes := bytes_of_string "pag/".
(** [src/storage/storage.go:91-91] *)
Definition stateTransitionPrefix : bytes := bytes_of_string "st/".
(** [src/storage/storage.go:92-92] *)
Definition stateTransitionArtifactPrefix : bytes := bytes_of_string "sta/".
(** [src/storage/storage.go:93-93] *)
Definition verifiedResultPrefix : bytes := bytes_of_string "vr/".
(** [src/storage/storage.go:94-94] *)
Definition encryptionKeyPrefix : bytes := bytes_of_string "ek/".
(** [src/storage/storage.go:95-95] *)
Definition processPrefix : bytes := bytes_of_string "p/".
(** [src/storage/storage.go:96-96] *)
Definition statsPrefix : bytes := bytes_of_string "s/".
(** [src/storage/storage.go:97-97] *)
Definition censusDBprefix : bytes := bytes_of_string "cs_".
(** [src/storage/storage.go:98-98] *)
Definition stateDBprefix : bytes := bytes_of_string "st_".
(** [src/storage/storage.go:99-99] *)
Definition pendingTxPrefix : bytes := bytes_of_string "ptx/".
(** [src/storage/worker_stats.go:9-9] *)
Definition workerStatsPrefix : bytes := bytes_of_string "ws/".
(** [src/storage/storage.go:101-101] *)
Definition maxKeySize : nat := 12.

(** [src/storage/storage.go:109-116] *)
Definition reservationBasePrefixes : list bytes :=
  [ballotPrefix; verifiedBallotPrefix; aggregBatchPrefix; stateTransitionPrefix].
(** [src/storage/storage.go:303-308] reservationDB: the two wrappers are merged
    into one by NewPrefixedDatabase *)
Definition reservationDB (prefix : bytes) : bytes := prefixSlice reservationPrefixRoot prefix.

(** Prefixes stay folded in goals; [vm_compute] still evaluates them. *)
#[global] Opaque
  reservationPrefixRoot ballotPrefix voteIDStatusPrefix verifiedBallotPrefix
  aggregBatchPrefix pendingAggregBatchPrefix stateTransitionPrefix
  stateTransitionArtifactPrefix verifiedResultPrefix encryptionKeyPrefix processPrefix
  statsPrefix censusDBprefix stateDBprefix pendingTxPrefix workerStatsPrefix reservationDB.

(** ** State *)

(** [src/storage/storage.go:119-122] addressInfo *)
Record addressInfo := { ai_ProcessID : ProcessID; ai_Address : option Z }.

(** [src/storage/storage.go:125-137] Storage *)
Record Storage := MkStorage {
  db : kv;
  processingVoteIDs : gset uint64;
  processingAddresses : gset string;
  voteIDToAddress : gmap uint64 addressInfo;
  now : Time;
  faults : list bool }.

Abbreviation M := (SE Storage).

Definition set_db (d : kv) (s : Storage) : Storage :=
  MkStorage d (processingVoteIDs s) (processingAddresses s) (voteIDToAddress s) (now s) (faults s).
Definition set_processingVoteIDs (f : gset uint64 → gset uint64) (s : Storage) : Storage :=
  MkStorage (db s) (f (processingVoteIDs s)) (processingAddresses s) (voteIDToAddress s) (now s) (faults s).
Definition set_processingAddresses (f : gset string → gset string) (s : Storage) : Storage :=
  MkStorage (db s) (processingVoteIDs s) (f (processingAddresses s)) (voteIDToAddress s) (now s) (faults s).
Definition set_voteIDToAddress (f : gmap uint64 addressInfo → gmap uint64 addressInfo) (s : Storage) : Storage :=
  MkStorage (db s) (processingVoteIDs s) (processingAddresses s) (f (voteIDToAddress s)) (now s) (faults s).

(** The commit of a transaction: it fails as a whole or writes as a whole. *)
Definition commit (w : writes) : M () := λ s,
  match faults s with
  | true :: fs =>
      (Err (ErrMsg "commit failed"),
       MkStorage (db s) (processingVoteIDs s) (processingAddresses s) (voteIDToAddress s) (now s) fs)
  | fs =>
      (Ok (), MkStorage (apply_writes w (db s)) (processingVoteIDs s) (processingAddresses s)
                (voteIDToAddress s) (now s) (tail fs))
  end.

(** [Get] of a reader or of a transaction without writes. *)
Definition rd_Get (prefix key : bytes) : M bytes := λ s,
  match prefixed_Get prefix (db s) key with
  | Some v => (Ok v, s) | None => (Err ErrKeyNotFound, s) end.

(** ** Locks *)

(** [src/storage/storage.go:493-495] *)
Definition lockVoteID (v : uint64) : M () := modify (set_processingVoteIDs (λ S, {[v]} ∪ S)).
(** [src/storage/storage.go:498-503] *)
Definition IsVoteIDProcessing (v : uint64) : M bool := gets (λ s, bool_decide (v ∈ processingVoteIDs s)).
(** [src/storage/storage.go:506-508] *)
Definition releaseVoteID (v : uint64) : M () := modify (set_processingVoteIDs (λ S, S ∖ {[v]})).

(** [big.Int.String]: decimal, "<nil>" for a nil pointer. *)
Definition address_String (a : option Z) : string :=
  match a with Some z => pretty z | None => "<nil>" end.
(** [src/storage/storage.go:513-517] lockAddress: the key scopes the lock by process *)
Definition lock_key (pid : ProcessID) (a : option Z) : string :=
  String.append (pid_String pid) (String.append ":" (address_String a)).
(** [src/storage/storage.go:513-517] *)
Definition lockAddress (pid : ProcessID) (a : option Z) : M bool :=
  let key := lock_key pid a in
  loaded ← gets (λ s, bool_decide (key ∈ processingAddresses s));
  _ ← modify (set_processingAddresses (λ S, {[key]} ∪ S));
  mret (negb loaded).
(** [src/storage/storage.go:520-523] *)
Definition releaseAddress (pid : ProcessID) (a : option Z) : M () :=
  modify (set_processingAddresses (λ S, S ∖ {[lock_key pid a]})).
Definition storeAddressInfo (v : uint64) (pid : ProcessID) (a : option Z) : M () :=
  modify (set_voteIDToAddress (λ m, <[v := {| ai_ProcessID := pid; ai_Address := a |}]> m)).
Definition deleteAddressInfo (v : uint64) : M () := modify (set_voteIDToAddress (λ m, delete v m)).

(** The three lock releases that end a ballot's processing. *)
Definition releaseLocks (v : uint64) (pid : ProcessID) (a : option Z) : M () :=
  _ ← releaseVoteID v; _ ← releaseAddress pid a; deleteAddressInfo v.

Section storage.
Context `{Env : StorageEnv}.

(** ** Artifacts *)

(** [src/storage/storage.go:332-354] setArtifact: the key of an artifact stored
    without one; also [hashKey] (src/storage/helpers.go) *)
Definition artifact_hash (data : bytes) : bytes := take maxKeySize (Sum256 data).
(** [src/storage/helpers.go:5-8] *)
Definition hashKey (data : bytes) : bytes := take maxKeySize (Sum256 data).

(** [src/storage/storage.go:332-354] *)
Definition setArtifact `{Codec A} (prefix : bytes) (key : option bytes) (artifact : A) : M () :=
  data ← lift (EncodeArtifact artifact);
  let key := match key with None => artifact_hash data | Some k => k end in
  commit (prefixed_Set prefix key data ∅).

(** [src/storage/storage.go:362-388] *)
Definition getArtifact `{Codec A} (prefix : bytes) (key : option bytes) : M A :=
  data ← match key with
         | Some k =>
             r ← attempt (rd_Get prefix k);
             match r with Ok data => mret data | Err _ => raise ErrNotFound end
         | None =>
             l ← gets (λ s, prefixed_Iterate bk prefix [] (db s));
             match l with (_, value) :: _ => mret value | [] => raise ErrNotFound end
         end;
  match DecodeArtifact data with
  | Ok a => mret a
  | Err e => raise (Wrap "could not decode artifact" e)
  end.

(** [src/storage/storage.go:317-325] *)
Definition deleteArtifact (prefix key : bytes) : M () := commit (prefixed_Delete prefix key ∅).
(** [src/storage/storage.go:391-402] *)
Definition listArtifacts (prefix : bytes) : M (list bytes) :=
  gets (λ s, (prefixed_Iterate bk prefix [] (db s)).*1).

(** ** Reservations *)

(** [src/storage/storage.go:273-287] *)
Definition setReservation (prefix key : bytes) : M () :=
  t ← gets now;
  val ← lift (EncodeArtifact {| Timestamp := Unix t |});
  d ← gets db;
  match prefixed_tx_Get (reservationDB prefix) ∅ d key with
  | Some _ => raise ErrKeyAlreadyExists
  | None => commit (prefixed_Set (reservationDB prefix) key val ∅)
  end.
(** [src/storage/storage.go:289-292] *)
Definition isReserved (d : kv) (prefix key : bytes) : bool :=
  bool_decide (is_Some (prefixed_Get (reservationDB prefix) d key)).
(** [src/storage/storage.go:294-301] *)
Definition deleteReservation (prefix key : bytes) : M () :=
  commit (prefixed_Delete (reservationDB prefix) key ∅).

(** Deleting several keys in one transaction. *)
Definition delete_all (prefix : bytes) (keys : list bytes) : writes :=
  foldr (prefixed_Delete prefix) ∅ keys.

(** [src/storage/storage.go:233-271] releaseStaleInPrefix: the callback *)
Definition is_stale (nowS maxAge : Z) (v : bytes) : bool :=
  match DecodeArtifact (A:=reservationRecord) v with
  | Err _ => true
  | Ok r => maxAge <? nowS - Timestamp r
  end.
(** [src/storage/storage.go:233-271] *)
Definition releaseStaleInPrefix (prefix : bytes) (nowS maxAge : Z) : M () :=
  d ← gets db;
  let staleKeys :=
    (filter (λ kv, is_stale nowS maxAge kv.2 = true)
       (prefixed_tx_Iterate bk (reservationDB prefix) [] ∅ d)).*1 in
  match staleKeys with
  | [] => mret ()
  | _ => wrapping "commit stale deletion" (commit (delete_all (reservationDB prefix) staleKeys))
  end.
(** [src/storage/storage.go:218-231] *)
Definition releaseStaleReservations (maxAge : Z) : M () :=
  t ← gets now;
  forM_ (λ prefix, releaseStaleInPrefix prefix (Unix t) maxAge) reservationBasePrefixes.

(** [src/storage/cleanup.go:686-712] *)
Definition cleanAllReservations (prefix : bytes) : M () :=
  d ← gets db;
  let keysToDelete := (prefixed_tx_Iterate bk (reservationDB prefix) [] ∅ d).*1 in
  match keysToDelete with
  | [] => mret ()
  | _ => wrapping "failed to commit reservation deletion"
           (commit (delete_all (reservationDB prefix) keysToDelete))
  end.

(** ** Recovery *)

Fixpoint decode_all `{Codec A} (msg : string) (f : A → M ()) (l : list bytes) : M () :=
  match l with
  | [] => mret ()
  | v :: l =>
      match DecodeArtifact v with
      | Err e => raise (Wrap msg e)
      | Ok a => _ ← f a; decode_all msg f l
      end
  end.
(** [src/storage/storage.go:441-490] recoverNullifiers: the locks of one ballot *)
Definition recoverBallot (pid : ProcessID) (v : uint64) (a : option Z) : M () :=
  _ ← lockVoteID v; _ ← lockAddress pid a; storeAddressInfo v pid a.
(** [src/storage/storage.go:441-490] *)
Definition recoverNullifiers : M () :=
  vbs ← gets (λ s, prefixed_Iterate bk verifiedBallotPrefix [] (db s));
  _ ← decode_all "failed to decode verified ballot"
        (λ vb, recoverBallot (vb_ProcessID vb) (vb_VoteID vb) (vb_Address vb)) vbs.*2;
  abbs ← gets (λ s, prefixed_Iterate bk aggregBatchPrefix [] (db s));
  decode_all "failed to decode aggregated ballot batch"
    (λ abb, forM_ (λ b, recoverBallot (abb_ProcessID abb) (ab_VoteID b) (ab_Address b))
              (abb_Ballots abb)) abbs.*2.
(** [src/storage/storage.go:177-197] recover *)
Definition recover : M () :=
  _ ← forM_ (λ prefix, wrapping "failed to clear reservations" (cleanAllReservations prefix))
        reservationBasePrefixes;
  recoverNullifiers.
(** [src/storage/storage.go:140-167] New: a restart opens the database with empty
    lock tables and recovers; a failed recovery is only logged *)
Definition New (d : kv) (t : Time) (fs : list bool) : Storage :=
  exec (warn recover) (MkStorage d ∅ ∅ ∅ t fs).
End storage.

(** ** Key spaces *)

Definition incompatible (p q : bytes) : bool := negb (HasPrefix p q) && negb (HasPrefix q p).
Lemma incompatible_app p q a b : incompatible p q = true → p ++ a ≠ q ++ b.
Proof.
  unfold incompatible. intros [Hp Hq]%andb_prop Heq. apply negb_true_iff in Hp, Hq.
  unfold HasPrefix in *. apply bool_decide_eq_false in Hp, Hq.
  destruct (prefix_weak_total p q (p ++ a)); [by eexists|by eexists; rewrite Heq|done..].
Qed.
Lemma incompatible_no p q a : incompatible p q = true → HasPrefix (p ++ a) q = false.
Proof.
  intros H. destruct (HasPrefix (p ++ a) q) eqn:E; [|done].
  apply HasPrefix_spec in E as [r E]. by apply incompatible_app in E.
Qed.

(** Every space of keys the storage writes: an artifact prefix, the reservations
    of a queue, the pending transactions of a type, the two embedded databases. *)
Definition key_spaces : list bytes :=
  (reservationDB <$> reservationBasePrefixes) ++
  [ballotPrefix; voteIDStatusPrefix; verifiedBallotPrefix; aggregBatchPrefix;
   pendingAggregBatchPrefix; stateTransitionPrefix; stateTransitionArtifactPrefix;
   verifiedResultPrefix; encryptionKeyPrefix; processPrefix; statsPrefix; censusDBprefix;
   stateDBprefix; pendingTxPrefix; workerStatsPrefix].

(** Keys of different spaces never coincide, whatever the keys within each
    space are, so an operation on one queue cannot read or overwrite an entry of
    another; in particular no entry can collide with a reservation. *)
Theorem key_spaces_disjoint i j p q a b :
  key_spaces !! i = Some p → key_spaces !! j = Some q → p ++ a = q ++ b → i = j.
Proof.
  intros Hi Hj Heq. destruct (decide (i = j)) as [|Hne]; [done|exfalso].
  revert Heq. apply incompatible_app.
  assert (Hall : forallb (λ i, forallb (λ j,
    (i =? j)%nat || incompatible (key_spaces !!! i) (key_spaces !!! j)) (seq 0 19)) (seq 0 19) = true)
    by by vm_compute.
  assert (Hb : ∀ n r, key_spaces !! n = Some r → (n < 19)%nat).
  { intros n r Hn. apply lookup_lt_Some in Hn. exact Hn. }
  rewrite forallb_forall in Hall. specialize (Hall i). rewrite forallb_forall in Hall.
  specialize (Hall ltac:(apply in_seq; split; [lia|by eapply Hb]) j
                   ltac:(apply in_seq; split; [lia|by eapply Hb])).
  apply list_lookup_total_correct in Hi, Hj. rewrite Hi, Hj in Hall.
  apply orb_prop in Hall as [H%Nat.eqb_eq|H]; done.
Qed.
Lemma key_spaces_disjoint_witness :
  voteIDStatusPrefix ++ [] ≠ verifiedBallotPrefix ++ [] ∧ 5%nat = 5%nat.
Proof.
  split; [by vm_compute|].
  exact (key_spaces_disjoint 5 5 voteIDStatusPrefix voteIDStatusPrefix [] [] eq_refl eq_refl eq_refl).
Defined.

(** ** Frames *)

(** Only keys in [K] may change. *)
Definition touches (K : bytes → Prop) : relation Storage :=
  λ s s', ∀ k, ¬ K k → db s' !! k = db s !! k.
#[export] Instance touches_preorder K : PreOrder (touches K).
Proof. split; [done|]. intros a b c Hab Hbc k Hk. by rewrite Hbc, Hab. Qed.
Definition locks (s : Storage) := (processingVoteIDs s, processingAddresses s, voteIDToAddress s).
(** The key spaces of a list of prefixes. *)
Definition spaces (ps : list bytes) (k : bytes) : Prop := ∃ p, p ∈ ps ∧ HasPrefix k p = true.
Lemma spaces_no ps q a : forallb (incompatible q) ps = true → ¬ spaces ps (q ++ a).
Proof.
  rewrite forallb_forall. intros H (p & Hp & Hk). apply list_elem_of_In in Hp.
  specialize (H _ Hp). by rewrite incompatible_no in Hk.
Qed.
Lemma moves_weaken {A} (R1 R2 : relation Storage) (m : M A) :
  (∀ s s', R1 s s' → R2 s s') → moves R1 m → moves R2 m.
Proof. intros H Hm s. apply H, Hm. Qed.
Lemma touches_weaken {A} (K1 K2 : bytes → Prop) (m : M A) :
  (∀ k, K1 k → K2 k) → moves (touches K1) m → moves (touches K2) m.
Proof. intros H. apply moves_weaken. intros s s' Hs k Hk. apply Hs. naive_solver. Qed.

Lemma moves_commit_touches K w : (∀ k, is_Some (w !! k) → K k) → moves (touches K) (commit w).
Proof.
  intros HK s k Hk. assert (Hw : w !! k = None).
  { apply eq_None_not_Some. intros H. by apply Hk, HK. }
  unfold commit. destruct (faults s) as [|[] fs]; simpl; rewrite ?lookup_apply_writes, ?Hw; done.
Qed.
Lemma moves_commit_locks w : moves (same locks) (commit w).
Proof. intros s. unfold commit, same. by destruct (faults s) as [|[] fs]. Qed.
Lemma moves_commit_now w : moves (same now) (commit w).
Proof. intros s. unfold commit, same. by destruct (faults s) as [|[] fs]. Qed.

(** No failing commit ahead. *)
Definition quiet (s : Storage) : Prop := faults s = [].
Definition keeps_quiet : relation Storage := λ s s', quiet s → quiet s'.
#[export] Instance keeps_quiet_preorder : PreOrder keeps_quiet.
Proof. split; [intros s Hs; exact Hs|]. intros a b c Hab Hbc Ha. apply Hbc, Hab, Ha. Qed.
Lemma moves_commit_quiet w : moves keeps_quiet (commit w).
Proof. intros s Hs. unfold commit. by rewrite Hs. Qed.
Lemma commit_quiet w s : quiet s → commit w s = (Ok (), set_db (apply_writes w (db s)) s).
Proof. intros Hs. unfold commit, set_db. by rewrite Hs. Qed.
#[export] Hint Resolve moves_commit_locks moves_commit_now moves_commit_quiet : moves.

Lemma set_db_set_db d d' s : set_db d (set_db d' s) = set_db d s.
Proof. done. Qed.
Lemma db_set_db d s : db (set_db d s) = d.
Proof. done. Qed.
Lemma quiet_set_db d s : quiet s → quiet (set_db d s).
Proof. done. Qed.
#[export] Hint Resolve quiet_set_db : core.

(** ** The database operations: what they touch, and their runs *)

Lemma under_app p k : HasPrefix (p ++ k) p = true.
Proof. apply HasPrefix_app. Qed.
Lemma spaces_in ps p k : p ∈ ps → spaces ps (p ++ k).
Proof. intros Hp. exists p. split; [done|apply HasPrefix_app]. Qed.
Ltac in_list := repeat first [apply list_elem_of_here | apply list_elem_of_further].
#[export] Hint Extern 1 (_ ∈ _ :: _) => solve [in_list] : moves.

Section facts.
Context `{Env : StorageEnv}.

Lemma commit_Set_touches ps p k v : p ∈ ps → moves (touches (spaces ps)) (commit (prefixed_Set p k v ∅)).
Proof.
  intros Hp. apply moves_commit_touches. intros k' Hk'. unfold prefixed_Set, prefixSlice in Hk'.
  apply lookup_insert_is_Some in Hk' as [<-|[_ Hk']]; [by apply spaces_in|].
  by rewrite lookup_empty in Hk'; destruct Hk'.
Qed.
Lemma delete_all_touches ps p ks : p ∈ ps → moves (touches (spaces ps)) (commit (delete_all p ks)).
Proof.
  intros Hp. apply moves_commit_touches. intros k' Hk'. induction ks as [|k ks IH]; cbn in Hk'; unfold prefixed_Delete, prefixSlice in Hk'.
  - by rewrite lookup_empty in Hk'; destruct Hk'.
  - apply lookup_insert_is_Some in Hk' as [<-|[_ Hk']]; [by apply spaces_in|auto].
Qed.
Lemma commit_Delete_touches ps p k : p ∈ ps → moves (touches (spaces ps)) (commit (prefixed_Delete p k ∅)).
Proof. apply (delete_all_touches ps p [k]). Qed.
Hint Resolve commit_Set_touches commit_Delete_touches delete_all_touches : moves.

Lemma moves_rd_Get (R : relation Storage) `{!PreOrder R} p k : moves R (rd_Get p k).
Proof. intros s. unfold rd_Get. by destruct (prefixed_Get p (db s) k). Qed.
Hint Resolve moves_rd_Get : moves.

(** A read never moves the state. *)
Lemma moves_getArtifact (R : relation Storage) `{!PreOrder R} `{Codec A} p k : moves R (getArtifact p k).
Proof. unfold getArtifact. moves. Qed.
Lemma moves_listArtifacts (R : relation Storage) `{!PreOrder R} p : moves R (listArtifacts p).
Proof. unfold listArtifacts. moves. Qed.
Hint Resolve moves_getArtifact moves_listArtifacts : moves.

(** A relation closed under commits to [ps] is closed under the writers. *)
Lemma moves_setArtifact_touches `{Codec A} ps p k (a : A) :
  p ∈ ps → moves (touches (spaces ps)) (setArtifact p k a).
Proof. intros Hp. unfold setArtifact. moves. Qed.
Lemma moves_deleteArtifact_touches ps p k : p ∈ ps → moves (touches (spaces ps)) (deleteArtifact p k).
Proof. intros Hp. unfold deleteArtifact. moves. Qed.
Lemma moves_setReservation_touches ps p k :
  reservationDB p ∈ ps → moves (touches (spaces ps)) (setReservation p k).
Proof. intros Hp. unfold setReservation. moves. Qed.
Lemma moves_deleteReservation_touches ps p k :
  reservationDB p ∈ ps → moves (touches (spaces ps)) (deleteReservation p k).
Proof. intros Hp. unfold deleteReservation. moves. Qed.

(** Relations that every commit respects. *)
Class Committal (R : relation Storage) := {
  committal_pre :: PreOrder R;
  committal w : moves R (commit w)
}.
#[local] Instance Committal_locks : Committal (same locks).
Proof. split; [apply _|]. eauto with moves. Qed.
#[local] Instance Committal_now : Committal (same now).
Proof. split; [apply _|]. eauto with moves. Qed.
#[local] Instance Committal_quiet : Committal keeps_quiet.
Proof. split; [apply _|]. eauto with moves. Qed.

Section committal.
Context (R : relation Storage) `{!Committal R}.
#[local] Hint Resolve committal : moves.
Lemma moves_setArtifact `{Codec A} p k (a : A) : moves R (setArtifact p k a).
Proof. unfold setArtifact. moves. Qed.
Lemma moves_deleteArtifact p k : moves R (deleteArtifact p k).
Proof. unfold deleteArtifact. moves. Qed.
Lemma moves_setReservation p k : moves R (setReservation p k).
Proof. unfold setReservation. moves. Qed.
Lemma moves_deleteReservation p k : moves R (deleteReservation p k).
Proof. unfold deleteReservation. moves. Qed.
End committal.

(** Runs without failing commits. *)
Lemma apply_Set p k v d : apply_writes (prefixed_Set p k v ∅) d = <[p ++ k := v]> d.
Proof. unfold prefixed_Set, prefixSlice. by rewrite apply_writes_insert, apply_writes_empty. Qed.
Lemma apply_Delete p k d : apply_writes (prefixed_Delete p k ∅) d = delete (p ++ k) d.
Proof. unfold prefixed_Delete, prefixSlice. by rewrite apply_writes_delete, apply_writes_empty. Qed.

Lemma getArtifact_eq `{Codec A} p k s :
  getArtifact (A:=A) p (Some k) s =
  (match db s !! (p ++ k) with
   | None => Err ErrNotFound
   | Some v => match DecodeArtifact v with
               | Ok a => Ok a | Err e => Err (Wrap "could not decode artifact" e) end
   end, s).
Proof.
  unfold getArtifact, rd_Get, prefixed_Get, prefixSlice, attempt, raise. run_simpl.
  destruct (db s !! (p ++ k)) as [v|]; [|done]. by destruct (DecodeArtifact v).
Qed.
Lemma attempt_rd_Get p k s :
  attempt (rd_Get p k) s =
  (Ok match db s !! (p ++ k) with Some v => Ok v | None => Err ErrKeyNotFound end, s).
Proof. unfold attempt, rd_Get, prefixed_Get, prefixSlice. by destruct (db s !! (p ++ k)). Qed.
Lemma setArtifact_quiet `{Codec A} p k (a : A) v s :
  quiet s → EncodeArtifact a = Ok v →
  setArtifact p (Some k) a s = (Ok (), set_db (<[p ++ k := v]> (db s)) s).
Proof.
  intros Hs Hv. unfold setArtifact, lift. rewrite Hv. run_simpl.
  by rewrite commit_quiet, apply_Set.
Qed.
Lemma deleteArtifact_quiet p k s :
  quiet s → deleteArtifact p k s = (Ok (), set_db (delete (p ++ k) (db s)) s).
Proof. intros Hs. unfold deleteArtifact. by rewrite commit_quiet, apply_Delete. Qed.
Lemma deleteReservation_quiet p k s :
  quiet s → deleteReservation p k s = (Ok (), set_db (delete (reservationDB p ++ k) (db s)) s).
Proof. intros Hs. unfold deleteReservation. by rewrite commit_quiet, apply_Delete. Qed.
Lemma setReservation_quiet p k v s :
  quiet s → EncodeArtifact {| Timestamp := Unix (now s) |} = Ok v → isReserved (db s) p k = false →
  setReservation p k s = (Ok (), set_db (<[reservationDB p ++ k := v]> (db s)) s).
Proof.
  intros Hs Hv Hr. apply bool_decide_eq_false, eq_None_not_Some in Hr.
  unfold setReservation, lift, gets, prefixed_tx_Get. run_simpl. rewrite Hv, lookup_empty.
  unfold prefixed_Get, prefixSlice in *. rewrite Hr. by rewrite commit_quiet, apply_Set.
Qed.

(** A commit changes nothing but the oracle, or writes its batch. *)
Definition unmoved (s s' : Storage) : Prop := db s' = db s ∧ locks s' = locks s ∧ now s' = now s.
Lemma commit_cases w s :
  (∃ e s', commit w s = (Err e, s') ∧ unmoved s s') ∨
  (∃ s', commit w s = (Ok (), s') ∧ db s' = apply_writes w (db s) ∧ locks s' = locks s ∧ now s' = now s).
Proof.
  unfold commit, unmoved. destruct (faults s) as [|[] fs]; [right|left|right]; eauto 10.
Qed.
Lemma commit_Set_cases p k v s :
  (∃ e s', commit (prefixed_Set p k v ∅) s = (Err e, s') ∧ unmoved s s') ∨
  (∃ s', commit (prefixed_Set p k v ∅) s = (Ok (), s') ∧ db s' = <[p ++ k := v]> (db s) ∧
     locks s' = locks s ∧ now s' = now s).
Proof. rewrite <-apply_Set. apply commit_cases. Qed.
Lemma commit_Delete_cases p k s :
  (∃ e s', commit (prefixed_Delete p k ∅) s = (Err e, s') ∧ unmoved s s') ∨
  (∃ s', commit (prefixed_Delete p k ∅) s = (Ok (), s') ∧ db s' = delete (p ++ k) (db s) ∧
     locks s' = locks s ∧ now s' = now s).
Proof. rewrite <-apply_Delete. apply commit_cases. Qed.
End facts.
