(* ===== verification/Process.v ===== *)
(** * Processes and encryption keys

    [src/storage/process.go], [src/storage/process_updates.go] and
    [src/storage/keys.go] (the cleanup of ended processes is in [Cleanup.v]). *)

From S2P Require Import Prelude Bytes DB Spec Types StorageTypes StorageBase.

Section process.
Context `{Env : StorageEnv}.

(** ** Encryption keys *)

(** [src/storage/keys.go:45-53] *)
Definition setEncryptionKeysUnsafe (publicKey : Z * Z) (privateKey : option Z) : M () :=
  setArtifact encryptionKeyPrefix (Some (Point_Marshal publicKey))
    {| ek_X := Some publicKey.1; ek_Y := Some publicKey.2; ek_PrivateKey := privateKey |}.
(** [src/storage/keys.go:69-78] *)
Definition encryptionKeysUnsafe (publicKey : Z * Z) : M (Z * Z * option Z) :=
  eks ← getArtifact encryptionKeyPrefix (Some (Point_Marshal publicKey));
  match ek_X eks, ek_Y eks with
  | Some x, Some y => mret ((x, y), ek_PrivateKey eks)
  | _, _ => raise (ErrMsg "not found or malformed encryption keys")
  end.
(** [src/storage/keys.go:58-65] *)
Definition setEncryptionPubKeyUnsafe (publicKey : Z * Z) : M () :=
  r ← attempt (encryptionKeysUnsafe publicKey);
  match r with
  | Ok _ => mret ()
  | Err _ => setEncryptionKeysUnsafe publicKey None
  end.
(** [src/storage/keys.go:84-93] generateEncryptionKeysUnsafe: [generated] is what
    elgamal.GenerateKey drew *)
Definition generateEncryptionKeysUnsafe (generated : result (Z * Z * Z)) : M (Z * Z * Z) :=
  k ← wrapping "could not generate elgamal key" (lift generated);
  let '(x, y, priv) := k in
  _ ← wrapping "could not store encryption keys" (setEncryptionKeysUnsafe (x, y) (Some priv));
  mret (x, y, priv).
(** [src/storage/keys.go:37-41] *)
Definition GenerateProcessEncryptionKeys := generateEncryptionKeysUnsafe.

(** ** Processes *)

(** [src/storage/process.go:23-29] *)
Definition process (pid : ProcessID) : M Process := getArtifact processPrefix (Some (pid_bytes pid)).
(** [src/storage/process.go:14-19] Process *)
Definition Storage_Process (pid : ProcessID) : M Process := process pid.
(** [src/storage/process.go:41-50] *)
Definition processExists (pid : ProcessID) : M bool :=
  r ← attempt (getArtifact (A:=Process) processPrefix (Some (pid_bytes pid)));
  match r with
  | Ok _ => mret true
  | Err e => if bool_decide (e = ErrNotFound) then mret false else raise e
  end.
(** [src/storage/keys.go:19-33] *)
Definition ProcessEncryptionKeys (pid : ProcessID) : M (Z * Z * option Z) :=
  p ← process pid;
  match p_EncryptionKey p with
  | None => raise ErrNotFound
  | Some ek => encryptionKeysUnsafe ek
  end.

(** A call of the state store on the shared database. *)
Definition on_state (f : kv → result () * kv) : M () := λ s,
  let '(r, d) := f (db s) in (r, set_db d s).

(** [src/storage/process.go:55-109]; a nil process is [None]. The source
    dereferences [process.ID] and the census without a nil check for the former *)
Definition NewProcess (proc : option Process) : M () :=
  match proc with
  | None => raise (ErrMsg "nil process data")
  | Some p =>
      match p_ID p with
      | None => raise (ErrMsg "nil pointer dereference")
      | Some pid =>
          existing ← attempt (getArtifact (A:=Process) processPrefix (Some (pid_bytes pid)));
          match existing with
          | Ok _ => raise (ErrMsg "process already exists")
          | Err e =>
              if negb (bool_decide (e = ErrNotFound))
              then raise (Wrap "failed to check process existence" e)
              else
                _ ← wrapping "failed to create process state" (on_state (state_New pid));
                match p_EncryptionKey p, p_Census p with
                | None, _ => raise (ErrMsg "invalid process: no encryption keys provided")
                | _, None => raise (ErrMsg "invalid process: no census provided")
                | Some ek, Some census =>
                    _ ← warn (setEncryptionPubKeyUnsafe ek);
                    packed ← wrapping "failed to pack ballot mode" (lift (Pack (p_BallotMode p)));
                    _ ← wrapping "failed to initialize process state"
                          (on_state (state_Initialize pid (c_CensusOrigin census) packed ek));
                    match p_StateRoot p with
                    | None => raise (ErrMsg "invalid process: no initial state root provided")
                    | Some root =>
                        _ ← wrapping "failed to set process state root"
                              (on_state (state_SetRootAsBigInt pid root));
                        setArtifact processPrefix (Some (pid_bytes pid)) p
                    end
                end
          end
      end
  end.

(** The update functions of [UpdateProcess] in order, stopping at an error. *)
Fixpoint apply_updates (fs : list (Process → result Process)) (p : Process) : result Process :=
  match fs with
  | [] => Ok p
  | f :: fs => match f p with Ok p' => apply_updates fs p' | Err e => Err (Wrap "update function failed" e) end
  end.
(** [src/storage/process.go:114-144] *)
Definition UpdateProcess (pid : ProcessID) (updateFunc : list (Process → result Process)) : M () :=
  if negb (pid_IsValid pid) then raise (ErrMsg "invalid process ID")
  else match updateFunc with
  | [] => raise (ErrMsg "no update function provided")
  | _ =>
      p ← wrapping "failed to get process for update" (process pid);
      p' ← lift (apply_updates updateFunc p);
      wrapping "failed to save updated process" (setArtifact processPrefix (Some (pid_bytes pid)) p')
  end.

Fixpoint all_pids (l : list bytes) : result (list ProcessID) :=
  match l with
  | [] => Ok []
  | b :: l =>
      match BytesToProcessID b with
      | Err e => Err e
      | Ok pid => match all_pids l with Ok pids => Ok (pid :: pids) | Err e => Err e end
      end
  end.
(** [src/storage/process.go:148-165] *)
Definition ListProcesses : M (list ProcessID) :=
  keys ← listArtifacts processPrefix; lift (all_pids keys).

(** [src/storage/process.go:194-208] *)
Definition processIsOnChainAlive (p : Process) : M bool :=
  t ← gets now;
  match p_StateRoot p with
  | None => raise (ErrMsg "process has no state root")
  | Some _ =>
      if p_StartTime p + p_Duration p <? t then raise (ErrMsg "process has expired")
      else if bool_decide (p_Status p ≠ ProcessStatusReady) then raise (ErrMsg "process status")
      else mret true
  end.
(** [src/storage/process.go:213-222] *)
Definition processIsAcceptingVotes (p : Process) : M bool :=
  ok ← processIsOnChainAlive p;
  if negb ok then mret ok
  else if negb (p_RegisteredForSequencing p)
  then raise (ErrMsg "process is not registered for sequencing")
  else mret true.
(** [src/storage/process.go:170-176] *)
Definition ProcessIsOnChainAlive (pid : ProcessID) : M bool :=
  p ← wrapping "failed to get process" (process pid); processIsOnChainAlive p.
(** [src/storage/process.go:180-187] *)
Definition ProcessIsAcceptingVotes (pid : ProcessID) : M bool :=
  p ← wrapping "failed to get process" (process pid); processIsAcceptingVotes p.

(** [src/storage/process.go:238-248] processMaxVotersReached: [Uint64] of a nil
    [MaxVoters] panics in the source (the getter of math/big dereferences) *)
Definition processMaxVotersReached (p : Process) : result bool :=
  match p_MaxVoters p with
  | None => Err (ErrMsg "nil pointer dereference")
  | Some m =>
      let maxVoters := u64Z (U64 m) in
      if maxVoters =? 0 then Err (ErrMsg "process has no max voters set")
      else match p_VotersCount p with
           | None => Ok false
           | Some c => Ok (maxVoters <=? u64Z (U64 c))
           end
  end.
(** [src/storage/process.go:226-233] *)
Definition ProcessMaxVotersReached (pid : ProcessID) : M bool :=
  p ← wrapping "failed to get process" (process pid); lift (processMaxVotersReached p).

(** [src/storage/process.go:314-343] listProcessesWithEncryptionKeys: the loop over the stored processes *)
Fixpoint with_keys (keys : list bytes) : M (list ProcessID) :=
  match keys with
  | [] => mret []
  | b :: keys =>
      pid ← lift (BytesToProcessID b);
      r ← attempt (process pid);
      match r with
      | Err e =>
          if bool_decide (e = ErrNotFound) then with_keys keys
          else raise (Wrap "error retrieving process" e)
      | Ok p =>
          match p_EncryptionKey p with
          | None => with_keys keys
          | Some ek =>
              k ← attempt (encryptionKeysUnsafe ek);
              match k with
              | Err _ => with_keys keys
              | Ok _ => rest ← with_keys keys; mret (pid :: rest)
              end
          end
      end
  end.
(** [src/storage/process.go:314-343] *)
Definition listProcessesWithEncryptionKeys : M (list ProcessID) :=
  keys ← listArtifacts processPrefix; with_keys keys.
(** [src/storage/process.go:261-287] ListEndedProcessWithEncryptionKeys: the filter on the status *)
Fixpoint ended_only (pids : list ProcessID) : M (list ProcessID) :=
  match pids with
  | [] => mret []
  | pid :: pids =>
      r ← attempt (process pid);
      match r with
      | Err e =>
          if bool_decide (e = ErrNotFound) then ended_only pids
          else raise (Wrap "error retrieving process" e)
      | Ok p =>
          if bool_decide (p_Status p ≠ ProcessStatusEnded) then ended_only pids
          else rest ← ended_only pids; mret (pid :: rest)
      end
  end.
(** [src/storage/process.go:261-287] *)
Definition ListEndedProcessWithEncryptionKeys : M (list ProcessID) :=
  pids ← listProcessesWithEncryptionKeys; ended_only pids.
End process.

(** ** Update functions *)

(** [src/storage/process_updates.go:9-15] *)
Definition ProcessUpdateCallbackFinalization (results : list Z) (p : Process) : result Process :=
  Ok {| p_ID := p_ID p; p_Status := ProcessStatusResults; p_EncryptionKey := p_EncryptionKey p;
        p_StateRoot := p_StateRoot p; p_Result := results; p_StartTime := p_StartTime p;
        p_Duration := p_Duration p; p_BallotMode := p_BallotMode p; p_Census := p_Census p;
        p_VotersCount := p_VotersCount p; p_OverwrittenVotesCount := p_OverwrittenVotesCount p;
        p_MaxVoters := p_MaxVoters p; p_SequencerStats := p_SequencerStats p;
        p_RegisteredForSequencing := p_RegisteredForSequencing p; p_Payload := p_Payload p |}.
(** [src/storage/process_updates.go:20-25] *)
Definition ProcessUpdateCallbackSetStatus (status : ProcessStatus) (p : Process) : result Process :=
  Ok (set_p_Status status p).
Definition set_root_and_counts (root voters overwritten : option Z) (p : Process) : Process :=
  {| p_ID := p_ID p; p_Status := p_Status p; p_EncryptionKey := p_EncryptionKey p;
     p_StateRoot := root; p_Result := p_Result p; p_StartTime := p_StartTime p;
     p_Duration := p_Duration p; p_BallotMode := p_BallotMode p; p_Census := p_Census p;
     p_VotersCount := voters; p_OverwrittenVotesCount := overwritten;
     p_MaxVoters := p_MaxVoters p; p_SequencerStats := p_SequencerStats p;
     p_RegisteredForSequencing := p_RegisteredForSequencing p; p_Payload := p_Payload p |}.
(** [src/storage/process_updates.go:30-47] *)
Definition ProcessUpdateCallbackSetStateRoot (stateRoot votersCount overwrittenVotesCount : option Z)
    (p : Process) : result Process :=
  let p := match p_StateRoot p with
           | None => set_root_and_counts stateRoot (p_VotersCount p) (p_OverwrittenVotesCount p) p
           | Some _ => p end in
  if negb (BigInt_Equal (p_StateRoot p) stateRoot) then
    Ok (set_root_and_counts stateRoot
          (match votersCount with Some _ => votersCount | None => p_VotersCount p end)
          (match overwrittenVotesCount with
           | Some _ => overwrittenVotesCount | None => p_OverwrittenVotesCount p end) p)
  else Ok p.
(** [src/storage/process_updates.go:51-58] *)
Definition ProcessUpdateCallbackSetMaxVoters (maxVoters : option Z) (p : Process) : result Process :=
  match maxVoters with
  | None => Ok p
  | Some _ =>
      Ok {| p_ID := p_ID p; p_Status := p_Status p; p_EncryptionKey := p_EncryptionKey p;
            p_StateRoot := p_StateRoot p; p_Result := p_Result p; p_StartTime := p_StartTime p;
            p_Duration := p_Duration p; p_BallotMode := p_BallotMode p; p_Census := p_Census p;
            p_VotersCount := p_VotersCount p; p_OverwrittenVotesCount := p_OverwrittenVotesCount p;
            p_MaxVoters := maxVoters; p_SequencerStats := p_SequencerStats p;
            p_RegisteredForSequencing := p_RegisteredForSequencing p; p_Payload := p_Payload p |}
  end.
(** [src/storage/process_updates.go:63-69] ProcessUpdateCallbackSetCensusRoot: a
    process without census is a nil dereference *)
Definition ProcessUpdateCallbackSetCensusRoot (censusRoot : bytes) (censusURI : string)
    (p : Process) : result Process :=
  match p_Census p with
  | None => Err (ErrMsg "nil pointer dereference")
  | Some c =>
      Ok {| p_ID := p_ID p; p_Status := p_Status p; p_EncryptionKey := p_EncryptionKey p;
            p_StateRoot := p_StateRoot p; p_Result := p_Result p; p_StartTime := p_StartTime p;
            p_Duration := p_Duration p; p_BallotMode := p_BallotMode p;
            p_Census := Some {| c_CensusOrigin := c_CensusOrigin c; c_CensusRoot := censusRoot;
                                c_CensusURI := censusURI; c_Payload := c_Payload c |};
            p_VotersCount := p_VotersCount p; p_OverwrittenVotesCount := p_OverwrittenVotesCount p;
            p_MaxVoters := p_MaxVoters p; p_SequencerStats := p_SequencerStats p;
            p_RegisteredForSequencing := p_RegisteredForSequencing p; p_Payload := p_Payload p |}
  end.

(** ** Facts *)

Section facts.
Context `{Env : StorageEnv}.

Lemma process_eq pid s :
  process pid s =
  (match db s !! (processPrefix ++ pid_bytes pid) with
   | None => Err ErrNotFound
   | Some v => match DecodeArtifact v with
               | Ok a => Ok a | Err e => Err (Wrap "could not decode artifact" e) end
   end, s).
Proof. apply getArtifact_eq. Qed.

(** A single commit changes nothing, or one key. *)
Lemma setArtifact_cases `{Codec A} p k (a : A) s :
  (∃ e s', setArtifact p (Some k) a s = (Err e, s') ∧ unmoved s s') ∨
  (∃ v s', EncodeArtifact a = Ok v ∧ setArtifact p (Some k) a s = (Ok (), s') ∧
     db s' = <[p ++ k := v]> (db s) ∧ locks s' = locks s ∧ now s' = now s).
Proof.
  unfold setArtifact, lift. run_simpl.
  destruct (EncodeArtifact a) as [v|e] eqn:Hv; [|left; unfold unmoved; eauto 10].
  destruct (commit_Set_cases p k v s) as [(e & s' & -> & Hs)|(s' & -> & Hs)]; eauto 10.
Qed.

(** An update of a process is atomic: it stores the result of applying every
    update function, in order, to the stored process, or it leaves the database
    as it was; the locks are never touched. *)
Theorem UpdateProcess_atomic pid fs s :
  let '(r, s') := UpdateProcess pid fs s in
  locks s' = locks s ∧
  match r with
  | Err _ => db s' = db s
  | Ok _ => ∃ p p' v, (process pid s).1 = Ok p ∧ apply_updates fs p = Ok p' ∧
              EncodeArtifact p' = Ok v ∧
              db s' = <[processPrefix ++ pid_bytes pid := v]> (db s) ∧
              (process pid s').1 = Ok (norm p')
  end.
Proof.
  unfold UpdateProcess. destruct (pid_IsValid pid); [|done]. cbn [negb].
  destruct fs as [|f fs]; [done|]. unfold wrapping, lift, mbind, SE_bind. rewrite process_eq.
  cbn [fst]. destruct (db s !! _) as [v0|] eqn:Hv0; [|done].
  destruct (DecodeArtifact v0) as [p|e] eqn:Hp; [|done].
  destruct (apply_updates (f :: fs) p) as [p'|e] eqn:Hp'; [|done].
  destruct (setArtifact_cases processPrefix (pid_bytes pid) p' s)
    as [(e & s' & -> & Hdb & Hl & _)|(v & s' & Hv & -> & Hdb & Hl & _)]; [done|].
  split; [done|]. eexists p, p', v. split_and!; [done..|].
  rewrite process_eq, Hdb, lookup_insert_eq. cbn [fst]. by rewrite (codec_roundtrip p' v Hv).
Qed.

(** A process accepts votes exactly when it has a state root, its end is not
    past, it is ready and the sequencer registered it; the check never changes
    the storage. *)
Theorem processIsAcceptingVotes_spec p s :
  (processIsAcceptingVotes p s).2 = s ∧
  ((processIsAcceptingVotes p s).1 = Ok true ↔
   is_Some (p_StateRoot p) ∧ now s ≤ p_StartTime p + p_Duration p ∧
   p_Status p = ProcessStatusReady ∧ p_RegisteredForSequencing p = true) ∧
  (processIsAcceptingVotes p s).1 ≠ Ok false.
Proof.
  unfold processIsAcceptingVotes, processIsOnChainAlive, gets, raise. run_simpl.
  destruct (p_StateRoot p) as [r|]; [|naive_solver].
  destruct (Z.ltb_spec (p_StartTime p + p_Duration p) (now s));
    [split_and!; simpl; [done| |done]; split; [done|]; lia|].
  case_bool_decide; [split_and!; simpl; [done| |done]; split; [done|]; naive_solver|].
  destruct (p_RegisteredForSequencing p); simpl; split_and!; try done; split; try done; try naive_solver.
Qed.

(** A state root update with the current root changes nothing, and one with
    a new root stores the root and every count that came with it; when the
    process had no root at all, the root is stored but the counts are not. *)
Theorem SetStateRoot_spec root voters overwritten p :
  ∃ p', ProcessUpdateCallbackSetStateRoot (Some root) voters overwritten p = Ok p' ∧
    p_StateRoot p' = Some root ∧
    (p_StateRoot p = Some root → p' = p) ∧
    (p_StateRoot p = None → p_VotersCount p' = p_VotersCount p ∧
       p_OverwrittenVotesCount p' = p_OverwrittenVotesCount p) ∧
    (∀ old, p_StateRoot p = Some old → old ≠ root →
       p_VotersCount p' = from_option Some (p_VotersCount p) voters ∧
       p_OverwrittenVotesCount p' = from_option Some (p_OverwrittenVotesCount p) overwritten).
Proof.
  unfold ProcessUpdateCallbackSetStateRoot, BigInt_Equal.
  destruct (p_StateRoot p) as [old|] eqn:Hold; simpl.
  - rewrite Hold. case_bool_decide as H; simpl; eexists; (split; [done|]); simpl.
    + simplify_eq. naive_solver.
    + split_and!; [done|naive_solver..|]. intros ? [= <-] _. by destruct voters, overwritten.
  - rewrite bool_decide_true by done. eexists. split; [done|]. simpl. naive_solver.
Qed.
End facts.
