(* ===== verification/VoteStatus.v ===== *)
(** * The status of a vote

    [src/storage/vote_id_status.go]: the status record of every vote, the rules
    its transitions follow, and the marking of a whole process. *)

From S2P Require Import Prelude Bytes DB Spec Types StorageTypes StorageBase Process.

(** [src/storage/vote_id_status.go:17-17] *)
Definition VoteIDStatusPending : Z := 0.
(** [src/storage/vote_id_status.go:18-18] *)
Definition VoteIDStatusVerified : Z := 1.
(** [src/storage/vote_id_status.go:19-19] *)
Definition VoteIDStatusAggregated : Z := 2.
(** [src/storage/vote_id_status.go:20-20] *)
Definition VoteIDStatusProcessed : Z := 3.
(** [src/storage/vote_id_status.go:21-21] *)
Definition VoteIDStatusDone : Z := 4.
(** [src/storage/vote_id_status.go:22-22] *)
Definition VoteIDStatusError : Z := 5.
(** [src/storage/vote_id_status.go:23-23] *)
Definition VoteIDStatusTimeout : Z := 6.
(** [src/storage/vote_id_status.go:24-24] *)
Definition VoteIDStatusSettled : Z := 7.

(** [src/storage/vote_id_status.go:28-37] voteIDStatusNames *)
Definition voteIDStatusNames : gmap Z string :=
  list_to_map [(VoteIDStatusPending, "pending"); (VoteIDStatusVerified, "verified");
    (VoteIDStatusAggregated, "aggregated"); (VoteIDStatusProcessed, "processed");
    (VoteIDStatusDone, "done"); (VoteIDStatusError, "error");
    (VoteIDStatusTimeout, "timeout"); (VoteIDStatusSettled, "settled")].
(** [src/storage/vote_id_status.go:92-97] *)
Definition VoteIDStatusName (status : Z) : string :=
  match voteIDStatusNames !! status with
  | Some name => name
  | None => String.append "unknown_status_" (pretty status)
  end.

(** [src/storage/vote_id_status.go:267-269] *)
Definition createVoteIDStatusKey (pid : ProcessID) (v : uint64) : bytes := pid_bytes pid ++ VoteID_Bytes v.

(** A 64-bit word read as a Go [int]. *)
Definition int64_of_word (z : Z) : Z := if z <? 2 ^ 63 then z else z - two64.
(** [src/storage/vote_id_status.go:272-276] *)
Definition intToBytes (i : Z) : bytes := le_split 8 i.
(** [src/storage/vote_id_status.go:279-284] *)
Definition bytesToInt (b : bytes) : result Z :=
  if negb (length b =? 8)%nat then Err (ErrMsg "invalid byte length for int conversion")
  else Ok (int64_of_word (le_combine b)).

(** [src/storage/vote_id_status.go:234-264] isValidStatusTransition: the forward
    progressions *)
Definition validTransitions : gmap Z (list Z) :=
  list_to_map [(VoteIDStatusPending, [VoteIDStatusVerified]);
    (VoteIDStatusVerified, [VoteIDStatusAggregated]);
    (VoteIDStatusAggregated, [VoteIDStatusProcessed]);
    (VoteIDStatusProcessed, [VoteIDStatusDone; VoteIDStatusAggregated])].
(** [src/storage/vote_id_status.go:234-264] *)
Definition isValidStatusTransition (from to : Z) : bool :=
  if from =? VoteIDStatusDone then false
  else if (to =? VoteIDStatusError) || (to =? VoteIDStatusTimeout) then true
  else if to =? VoteIDStatusDone then from =? VoteIDStatusProcessed
  else match validTransitions !! from with
       | None => false
       | Some allowedNext => bool_decide (to ∈ allowedNext)
       end.

Section status.
Context `{Env : StorageEnv}.

(** [src/storage/vote_id_status.go:49-89] *)
Definition voteIDStatus (pid : ProcessID) (v : uint64) : M Z :=
  let key := createVoteIDStatusKey pid v in
  r ← attempt (rd_Get voteIDStatusPrefix key);
  match r with
  | Err _ => raise ErrNotFound
  | Ok statusBytes =>
      status ← wrapping "invalid vote ID status format" (lift (bytesToInt statusBytes));
      if status =? VoteIDStatusDone then
        p ← process pid;
        d ← gets db;
        match LoadSnapshotOnRoot d pid (p_StateRoot p) with
        | None => mret status
        | Some containsVoteID => if containsVoteID v then mret VoteIDStatusSettled else mret status
        end
      else mret status
  end.
(** [src/storage/vote_id_status.go:41-45] *)
Definition VoteIDStatus := voteIDStatus.

(** [src/storage/vote_id_status.go:188-228] setVoteIDStatus: is the current
    status final? *)
Definition is_done (cur : option bytes) : bool :=
  match cur with
  | None => false
  | Some b => match bytesToInt b with Ok c => c =? VoteIDStatusDone | Err _ => false end
  end.
(** [src/storage/vote_id_status.go:188-228] setVoteIDStatus: an invalid transition
    is logged and carried out *)
Definition setVoteIDStatus (pid : ProcessID) (v : uint64) (status : Z) : M () :=
  let key := createVoteIDStatusKey pid v in
  d ← gets db;
  if is_done (prefixed_tx_Get voteIDStatusPrefix ∅ d key) then mret ()
  else commit (prefixed_Set voteIDStatusPrefix key (intToBytes status) ∅).

(** [src/storage/vote_id_status.go:110-128] *)
Definition markVoteIDsDone (pid : ProcessID) (voteIDs : list uint64) : M () :=
  commit (foldl (λ w v, prefixed_Set voteIDStatusPrefix (createVoteIDStatusKey pid v)
                          (intToBytes VoteIDStatusDone) w) ∅ voteIDs).
(** [src/storage/vote_id_status.go:102-106] *)
Definition MarkVoteIDsDone := markVoteIDsDone.

(** [src/storage/vote_id_status.go:141-182] markProcessVoteIDsTimeout: the
    callback of the iteration *)
Definition timeout_step (pid : ProcessID) (acc : writes * Z) (kv : bytes * bytes) : writes * Z :=
  let fullKey := pid_bytes pid ++ kv.1 in
  match bytesToInt kv.2 with
  | Err _ => acc
  | Ok currentStatus =>
      if negb (currentStatus =? VoteIDStatusDone)
      then (prefixed_Set voteIDStatusPrefix fullKey (intToBytes VoteIDStatusTimeout) acc.1, acc.2 + 1)
      else acc
  end.
(** [src/storage/vote_id_status.go:141-182] *)
Definition markProcessVoteIDsTimeout (pid : ProcessID) : M Z :=
  l ← gets (λ s, prefixed_Iterate bk voteIDStatusPrefix (pid_bytes pid) (db s));
  let '(w, updatedCount) := foldl (timeout_step pid) (∅, 0) l in
  _ ← wrapping "error committing timeout status updates" (commit w);
  mret updatedCount.
(** [src/storage/vote_id_status.go:133-137] *)
Definition MarkProcessVoteIDsTimeout := markProcessVoteIDsTimeout.
End status.

(** ** The status record *)

Definition status_key (pid : ProcessID) (v : uint64) : bytes :=
  voteIDStatusPrefix ++ createVoteIDStatusKey pid v.
(** The status byte record of a vote. *)
Definition stored_status (d : kv) (pid : ProcessID) (v : uint64) : option bytes :=
  d !! status_key pid v.

Lemma status_key_inj pid v pid' v' : status_key pid v = status_key pid' v' → pid = pid' ∧ v = v'.
Proof.
  unfold status_key, createVoteIDStatusKey. intros H%(inj (app _)).
  apply app_inj_1 in H as [Hp Hv]; [|by rewrite !length_pid_bytes].
  split; [by apply pid_eq|by apply (inj VoteID_Bytes)].
Qed.

Lemma status_bytes_inv b j : bytesToInt b = Ok j → intToBytes j = b ∧ - 2 ^ 63 ≤ j < 2 ^ 63.
Proof.
  unfold bytesToInt, intToBytes, int64_of_word.
  destruct (length b =? 8)%nat eqn:Hb; [|done]. apply Nat.eqb_eq in Hb. cbn [negb].
  intros [= <-]. pose proof (le_combine_range b) as Hr. rewrite Hb in Hr.
  change (256 ^ Z.of_nat 8) with two64 in Hr.
  assert (Hs : le_split 8 (le_combine b) = b) by (rewrite <-Hb; apply le_split_combine).
  destruct (Z.ltb_spec (le_combine b) (2 ^ 63)); [split; [done|lia]|].
  split; [|unfold two64 in *; lia]. apply le_combine_inj; [by rewrite length_le_split|].
  rewrite le_combine_split. change (256 ^ Z.of_nat 8) with two64.
  replace (le_combine b - two64) with (le_combine b + (-1) * two64) by lia.
  by rewrite Z_mod_plus_full, Z.mod_small.
Qed.

Lemma bytesToInt_intToBytes i : - 2 ^ 63 ≤ i < 2 ^ 63 → bytesToInt (intToBytes i) = Ok i.
Proof.
  intros Hi. unfold bytesToInt, intToBytes, int64_of_word. rewrite length_le_split, le_combine_split.
  cbn [negb Nat.eqb]. change (256 ^ Z.of_nat 8) with two64. f_equal. unfold two64.
  destruct (Z.ltb_spec (i mod 18446744073709551616) (2 ^ 63)) as [H|H];
    destruct (Z.leb_spec 0 i).
  - rewrite Z.mod_small; lia.
  - rewrite <-(Z.mod_unique i _ (-1) (i + 18446744073709551616)) in H; lia.
  - rewrite Z.mod_small in *; lia.
  - rewrite <-(Z.mod_unique i _ (-1) (i + 18446744073709551616)); lia.
Qed.

(** The status codec loses nothing: every 64-bit [int] comes back from its
    eight bytes, and only eight-byte records are accepted. *)
Theorem status_bytes_roundtrip i b :
  - 2 ^ 63 ≤ i < 2 ^ 63 →
  bytesToInt (intToBytes i) = Ok i ∧
  (∀ j, bytesToInt b = Ok j → intToBytes j = b ∧ - 2 ^ 63 ≤ j < 2 ^ 63).
Proof. intros Hi. split; [by apply bytesToInt_intToBytes|by apply status_bytes_inv]. Qed.
Lemma status_bytes_roundtrip_witness : bytesToInt (intToBytes (-5)) = Ok (-5).
Proof. apply (status_bytes_roundtrip (-5) []). lia. Defined.

(** ** Transitions *)

(** The progression of a vote, as the comments of the source state it: forward
    step by step, back from processed to aggregated for a retry, and to error or
    timeout from anywhere except the final status. *)
Inductive status_step : Z → Z → Prop :=
  | step_verify : status_step VoteIDStatusPending VoteIDStatusVerified
  | step_aggregate : status_step VoteIDStatusVerified VoteIDStatusAggregated
  | step_process : status_step VoteIDStatusAggregated VoteIDStatusProcessed
  | step_done : status_step VoteIDStatusProcessed VoteIDStatusDone
  | step_retry : status_step VoteIDStatusProcessed VoteIDStatusAggregated
  | step_error from : from ≠ VoteIDStatusDone → status_step from VoteIDStatusError
  | step_timeout from : from ≠ VoteIDStatusDone → status_step from VoteIDStatusTimeout.

(** The validity check accepts exactly the documented transitions, whatever
    integers it is asked about; so nothing leaves the final status, and only a
    processed vote becomes final. *)
Theorem isValidStatusTransition_spec from to :
  isValidStatusTransition from to = true ↔ status_step from to.
Proof.
  unfold isValidStatusTransition. split.
  - destruct (Z.eqb_spec from VoteIDStatusDone) as [|Hd]; [done|].
    destruct (Z.eqb_spec to VoteIDStatusError) as [->|]; [by constructor|].
    destruct (Z.eqb_spec to VoteIDStatusTimeout) as [->|]; [by constructor|]. simpl.
    destruct (Z.eqb_spec to VoteIDStatusDone) as [->|].
    { intros ->%Z.eqb_eq. constructor. }
    destruct (validTransitions !! from) as [l|] eqn:Hl; [|done].
    intros Hin%bool_decide_eq_true. apply elem_of_list_to_map_2 in Hl.
    set_unfold in Hl. destruct_or?; simplify_eq; set_unfold in Hin; destruct_or?; simplify_eq;
      done || constructor.
  - intros H. destruct H as [| | | | |from Hf|from Hf]; try (by vm_compute);
      apply Z.eqb_neq in Hf; by rewrite Hf.
Qed.

Section facts.
Context `{Env : StorageEnv}.

Lemma setVoteIDStatus_touches pid v st : moves (touches (λ k, k = status_key pid v)) (setVoteIDStatus pid v st).
Proof.
  unfold setVoteIDStatus. moves. apply moves_commit_touches. intros k Hk.
  unfold prefixed_Set, prefixSlice in Hk. apply lookup_insert_is_Some in Hk as [<-|[_ Hk]]; [done|].
  rewrite lookup_empty in Hk. by destruct Hk.
Qed.

Lemma setVoteIDStatus_run pid v st s :
  let '(r, s') := setVoteIDStatus pid v st s in
  if is_done (stored_status (db s) pid v) then r = Ok () ∧ s' = s
  else locks s' = locks s ∧
       (∀ pid' v', (pid', v') ≠ (pid, v) → stored_status (db s') pid' v' = stored_status (db s) pid' v') ∧
       match r with
       | Ok _ => db s' = <[status_key pid v := intToBytes st]> (db s)
       | Err _ => db s' = db s
       end.
Proof.
  unfold setVoteIDStatus, gets, prefixed_tx_Get. run_simpl. rewrite lookup_empty.
  unfold prefixSlice. fold (status_key pid v). fold (stored_status (db s) pid v).
  destruct (is_done (stored_status (db s) pid v)); [done|].
  destruct (commit _ s) as [r s'] eqn:Hc.
  pose proof (moves_commit_locks (prefixed_Set voteIDStatusPrefix (createVoteIDStatusKey pid v)
    (intToBytes st) ∅) s) as Hl. rewrite Hc in Hl. split; [exact Hl|].
  assert (Hd : match r with Ok _ => db s' = <[status_key pid v := intToBytes st]> (db s)
               | Err _ => db s' = db s end).
  { unfold commit in Hc. destruct (faults s) as [|[] fs]; injection Hc as <- <-; simpl;
      rewrite ?apply_Set; done. }
  split; [|done]. intros pid' v' Hne. unfold stored_status. destruct r as [[]|e]; rewrite Hd; [|done].
  apply lookup_insert_ne. intros [-> ->]%status_key_inj. done.
Qed.

(** A status update writes the status of that vote and nothing else, and it
    is a no-op on a final status: whatever status is asked for, the vote stays
    done. On any other status the request is carried out whether or not the
    transition is a valid one: after a successful update the vote reads back with
    the status that was asked for. A failing commit leaves the database alone. *)
Theorem setVoteIDStatus_spec pid v st s :
  - 2 ^ 63 ≤ st < 2 ^ 63 →
  let '(r, s') := setVoteIDStatus pid v st s in
  if is_done (stored_status (db s) pid v) then r = Ok () ∧ s' = s
  else locks s' = locks s ∧
       (∀ pid' v', (pid', v') ≠ (pid, v) → stored_status (db s') pid' v' = stored_status (db s) pid' v') ∧
       match r with
       | Ok _ => bytesToInt <$> stored_status (db s') pid v = Some (Ok st)
       | Err _ => db s' = db s
       end.
Proof.
  intros Hst. pose proof (setVoteIDStatus_run pid v st s) as H.
  destruct (setVoteIDStatus pid v st s) as [r s']. destruct (is_done _); [done|].
  destruct H as (Hl & Hf & Hr). split_and!; [done..|]. destruct r as [|]; [|done].
  unfold stored_status. rewrite Hr, lookup_insert_eq. simpl. f_equal. by apply bytesToInt_intToBytes.
Qed.

(** ** A final status stays *)

Definition keeps_done : relation Storage := λ s s', ∀ pid v,
  is_done (stored_status (db s) pid v) = true →
  stored_status (db s') pid v = stored_status (db s) pid v.
#[export] Instance keeps_done_preorder : PreOrder keeps_done.
Proof.
  split; [done|]. intros a b c Hab Hbc pid v Hd. specialize (Hab pid v Hd).
  rewrite Hbc; [done|by rewrite Hab].
Qed.
Lemma moves_setVoteIDStatus_done pid v st : moves keeps_done (setVoteIDStatus pid v st).
Proof.
  intros s pid' v' Hd. pose proof (setVoteIDStatus_run pid v st s) as H.
  destruct (setVoteIDStatus pid v st s) as [r s']. simpl.
  destruct (decide ((pid', v') = (pid, v))) as [[= -> ->]|Hne].
  - rewrite Hd in H. by destruct H as [_ ->].
  - destruct (is_done (stored_status (db s) pid v)); [by destruct H as [_ ->]|].
    by apply H.
Qed.
Lemma keeps_done_touches {A} (K : bytes → Prop) (m : M A) :
  (∀ pid v, ¬ K (status_key pid v)) → moves (touches K) m → moves keeps_done m.
Proof. intros HK Hm s pid v _. by apply Hm. Qed.

Lemma moves_markVoteIDsDone_done pid vs : moves keeps_done (markVoteIDsDone pid vs).
Proof.
  assert (Hw : ∀ (w : writes) k x,
    (∀ k x, w !! k = Some x → x = Some (intToBytes VoteIDStatusDone)) →
    foldl (λ w v, prefixed_Set voteIDStatusPrefix (createVoteIDStatusKey pid v)
                    (intToBytes VoteIDStatusDone) w) w vs !! k = Some x →
    x = Some (intToBytes VoteIDStatusDone)).
  { induction vs as [|v vs IH]; intros w k x Hall; simpl; [apply Hall|]. apply IH.
    intros k' x'. unfold prefixed_Set. rewrite lookup_insert_Some. naive_solver. }
  intros s pid' v' Hd. unfold markVoteIDsDone, commit.
  set (w := foldl _ _ _). assert (Hcommit : apply_writes w (db s) !! status_key pid' v' = db s !! status_key pid' v').
  { rewrite lookup_apply_writes. destruct (w !! _) as [x|] eqn:Hx; [|done].
    apply Hw in Hx as ->; [|intros ? ? H; by rewrite lookup_empty in H].
    unfold stored_status in Hd. destruct (db s !! status_key pid' v') as [b|]; [|done]. simpl in Hd.
    destruct (bytesToInt b) as [c|] eqn:Hc; [|done]. apply Z.eqb_eq in Hd as ->.
    destruct (status_bytes_inv b _ Hc) as [<- _]. done. }
  unfold stored_status in *. destruct (faults s) as [|[] fs]; done.
Qed.

(** What a timeout transaction writes: the timeout status under the process and
    the callback's key, for every record that is not final. *)
Definition unfinished (kv : bytes * bytes) : bool :=
  match bytesToInt kv.2 with Ok c => negb (c =? VoteIDStatusDone) | Err _ => false end.
Definition times_out (pid : ProcessID) (k : bytes) (kv : bytes * bytes) : bool :=
  unfinished kv && bool_decide (k = voteIDStatusPrefix ++ pid_bytes pid ++ kv.1).
Lemma timeout_writes pid l k :
  (foldl (timeout_step pid) (∅, 0) l).1 !! k =
  if existsb (times_out pid k) l then Some (Some (intToBytes VoteIDStatusTimeout)) else None.
Proof.
  induction l as [|kv l IH] using rev_ind; [apply lookup_empty|].
  rewrite foldl_app, existsb_app. simpl. rewrite orb_false_r.
  unfold timeout_step at 1, times_out at 2, unfinished.
  destruct (bytesToInt kv.2) as [c|e]; [|by rewrite orb_false_r].
  destruct (negb (c =? VoteIDStatusDone)); [|by rewrite orb_false_r]. simpl.
  unfold prefixed_Set, prefixSlice. case_bool_decide as Hk.
  - subst k. by rewrite lookup_insert_eq, orb_true_r.
  - by rewrite lookup_insert_ne, orb_false_r.
Qed.
Lemma timeout_count pid l :
  (foldl (timeout_step pid) (∅, 0) l).2 = Z.of_nat (length (List.filter unfinished l)).
Proof.
  induction l as [|kv l IH] using rev_ind; [done|].
  rewrite foldl_app, List.filter_app, length_app. simpl. unfold timeout_step at 1, unfinished at 2.
  destruct (bytesToInt kv.2) as [c|e]; [|simpl; lia].
  destruct (negb (c =? VoteIDStatusDone)); simpl; lia.
Qed.
Lemma existsb_times_out pid k l :
  existsb (times_out pid k) l = true ↔
  ∃ k' v, (k', v) ∈ l ∧ unfinished (k', v) = true ∧ k = voteIDStatusPrefix ++ pid_bytes pid ++ k'.
Proof.
  rewrite existsb_exists. unfold times_out. split.
  - intros ([k' v] & Hin%list_elem_of_In & [Hu Hk%bool_decide_eq_true]%andb_prop). eauto.
  - intros (k' & v & Hin & Hu & Hk). exists (k', v). rewrite <-list_elem_of_In, Hu.
    split; [done|]. by apply bool_decide_eq_true.
Qed.

Lemma markProcessVoteIDsTimeout_touches pid :
  moves (touches (spaces [voteIDStatusPrefix])) (markProcessVoteIDsTimeout pid).
Proof.
  unfold markProcessVoteIDsTimeout. apply moves_bind; [apply _|moves|intros l].
  destruct (foldl (timeout_step pid) (∅, 0) l) as [w n] eqn:Hf.
  apply moves_bind; [apply _| |moves]. apply moves_wrapping, moves_commit_touches. intros k Hk.
  replace w with (foldl (timeout_step pid) (∅, 0) l).1 in Hk by by rewrite Hf.
  rewrite timeout_writes in Hk. destruct (existsb _ l) eqn:He; [|by destruct Hk].
  apply existsb_times_out in He as (k' & v & _ & _ & ->). apply spaces_in. left.
Qed.

(** The records of a process are status records of valid votes. *)
Definition valid_records (d : kv) (pid : ProcessID) : Prop := ∀ r b,
  d !! (voteIDStatusPrefix ++ pid_bytes pid ++ r) = Some b →
  ∃ v, r = VoteID_Bytes v ∧ VoteID_Valid v = true.

Lemma TrimPrefix_VoteID v : VoteID_Valid v = true → TrimPrefix (VoteID_Bytes v) voteIDStatusPrefix = VoteID_Bytes v.
Proof.
  intros Hv. apply TrimPrefix_no. rewrite <-(app_nil_r (VoteID_Bytes v)).
  by apply VoteID_Bytes_no_ascii.
Qed.

(** Over Pebble, marking a process turns every status record of the process
    that is not final into the timeout status, keeps the final ones, leaves every
    other process alone, and reports how many records it turned. *)
Theorem markProcessVoteIDsTimeout_Pebble pid s :
  bk = Pebble → quiet s → valid_records (db s) pid →
  let '(r, s') := markProcessVoteIDsTimeout pid s in
  r = Ok (Z.of_nat (length (List.filter unfinished
            (prefixed_Iterate bk voteIDStatusPrefix (pid_bytes pid) (db s))))) ∧
  locks s' = locks s ∧
  (∀ v, stored_status (db s') pid v =
        (λ b, if unfinished ([], b) then intToBytes VoteIDStatusTimeout else b)
          <$> stored_status (db s) pid v) ∧
  (∀ pid' v, pid' ≠ pid → stored_status (db s') pid' v = stored_status (db s) pid' v).
Proof.
  intros Hbk Hq Hvalid. unfold markProcessVoteIDsTimeout, gets, wrapping. run_simpl.
  set (l := prefixed_Iterate _ _ _ _).
  destruct (foldl (timeout_step pid) (∅, 0) l) as [w n] eqn:Hf.
  pose proof (timeout_count pid l) as Hn. rewrite Hf in Hn. simpl in Hn.
  assert (Hw : ∀ k, w !! k = if existsb (times_out pid k) l then _ else None)
    by (intros k; by rewrite <-timeout_writes, Hf).
  rewrite commit_quiet by done. simpl. rewrite Hn. split; [done|]. split; [done|].
  assert (Hl : ∀ k b, (k, b) ∈ l ↔ ∃ v, VoteID_Valid v = true ∧ k = VoteID_Bytes v ∧
    stored_status (db s) pid v = Some b).
  { intros k b. unfold l. rewrite elem_of_prefixed_Iterate, Hbk. simpl. split.
    - intros (r & Hr & ->). destruct (Hvalid r b Hr) as (v & -> & Hv). exists v.
      by rewrite TrimPrefix_VoteID.
    - intros (v & Hv & -> & Hb). exists (VoteID_Bytes v). by rewrite TrimPrefix_VoteID. }
  split.
  - intros v. unfold stored_status at 1. rewrite lookup_apply_writes, Hw. unfold stored_status.
    destruct (existsb (times_out pid (status_key pid v)) l) eqn:He.
    + apply existsb_times_out in He as (k & b & (v' & Hv' & -> & Hb)%Hl & Hu & Hk).
      apply (status_key_inj pid v pid v') in Hk as [_ <-]. unfold stored_status in Hb. rewrite Hb. simpl.
      unfold unfinished in *. simpl in *. by rewrite Hu.
    + destruct (db s !! status_key pid v) as [b|] eqn:Hb; [|done]. simpl. f_equal.
      destruct (unfinished ([], b)) eqn:Hu; [|done]. exfalso.
      apply not_true_iff_false in He. apply He, existsb_times_out.
      destruct (Hvalid (VoteID_Bytes v) b Hb) as (v' & ->%(inj _) & Hv).
      exists (VoteID_Bytes v'), b. split; [apply Hl; eauto|done].
  - intros pid' v Hne. unfold stored_status. rewrite lookup_apply_writes, Hw.
    destruct (existsb (times_out pid (status_key pid' v)) l) eqn:He; [|done].
    apply existsb_times_out in He as (k & b & (v' & Hv' & -> & Hb)%Hl & Hu & Hk).
    by apply (status_key_inj pid' v pid v') in Hk as [-> _].
Qed.

Lemma markProcessVoteIDsTimeout_longkeys pid s :
  bk = InMemory →
  ∀ pid' v, stored_status (db (markProcessVoteIDsTimeout pid s).2) pid' v = stored_status (db s) pid' v.
Proof.
  intros Hbk pid' v. unfold markProcessVoteIDsTimeout, gets, wrapping. run_simpl.
  set (l := prefixed_Iterate _ _ _ _).
  destruct (foldl (timeout_step pid) (∅, 0) l) as [w n] eqn:Hf.
  assert (Hw : w !! status_key pid' v = None).
  { replace w with (foldl (timeout_step pid) (∅, 0) l).1 by by rewrite Hf.
    rewrite timeout_writes. destruct (existsb _ l) eqn:He; [|done]. exfalso.
    apply existsb_times_out in He as (k & b & Hin & _ & Hk).
    unfold l in Hin. rewrite elem_of_prefixed_Iterate, Hbk in Hin. destruct Hin as (r & _ & ->).
    simpl in Hk. unfold status_key, createVoteIDStatusKey in Hk.
    apply (inj (app _)) in Hk. apply (f_equal length) in Hk.
    rewrite !length_app, !length_pid_bytes, length_VoteID_Bytes in Hk. unfold ProcessIDLen in Hk. lia. }
  unfold commit, stored_status. destruct (faults s) as [|[] fs]; simpl; [|done|];
    rewrite lookup_apply_writes, Hw; done.
Qed.

(** Over a backend that hands the whole key to the callback (in-memory,
    LevelDB, MongoDB), the key is prefixed by the process a second time, so no
    status record of any vote changes: nothing is marked as timed out, although
    the count that is returned is the number of unfinished votes. *)
Theorem markProcessVoteIDsTimeout_InMemory pid s :
  bk = InMemory → quiet s →
  eval (markProcessVoteIDsTimeout pid) s = Ok (Z.of_nat (length (List.filter unfinished
    (prefixed_Iterate bk voteIDStatusPrefix (pid_bytes pid) (db s))))) ∧
  ∀ pid' v, stored_status (db (exec (markProcessVoteIDsTimeout pid) s)) pid' v = stored_status (db s) pid' v.
Proof.
  intros Hbk Hq. split; [|by apply markProcessVoteIDsTimeout_longkeys].
  unfold eval, markProcessVoteIDsTimeout, gets, wrapping. run_simpl.
  set (l := prefixed_Iterate _ _ _ _). pose proof (timeout_count pid l) as Hn.
  destruct (foldl (timeout_step pid) (∅, 0) l) as [w n]. rewrite commit_quiet by done. by rewrite <-Hn.
Qed.
End facts.

(** ** The theorems at concrete stores *)

Import Concrete.
Definition one_vote : Storage :=
  MkStorage {[ status_key pid1 (vote 5) := intToBytes VoteIDStatusPending ]} ∅ ∅ ∅ 0 [].

Lemma one_vote_valid : valid_records (db one_vote) pid1.
Proof.
  intros r b H. cbn [db one_vote] in H. apply lookup_singleton_Some in H as [H _]. exists (vote 5). split; [|by vm_compute].
  unfold status_key, createVoteIDStatusKey in H. by apply (inj (app _)), (inj (app _)) in H.
Qed.
Lemma markProcessVoteIDsTimeout_Pebble_witness :
  stored_status (db (markProcessVoteIDsTimeout (Env:=env Pebble (λ _ _, false)) pid1 one_vote).2)
    pid1 (vote 5) = Some (intToBytes VoteIDStatusTimeout).
Proof.
  pose proof (markProcessVoteIDsTimeout_Pebble (Env:=env Pebble (λ _ _, false)) pid1 one_vote
    eq_refl eq_refl one_vote_valid) as H.
  destruct (markProcessVoteIDsTimeout pid1 one_vote) as [r s']. destruct H as (_ & _ & H & _).
  refine (eq_trans (H (vote 5)) _). by vm_compute.
Defined.
Lemma setVoteIDStatus_spec_witness :
  let m := setVoteIDStatus pid1 (vote 5) VoteIDStatusDone in
  is_done (stored_status (db one_vote) pid1 (vote 5)) = false ∧
  isValidStatusTransition VoteIDStatusPending VoteIDStatusDone = false ∧
  bytesToInt <$> stored_status (db (exec m one_vote)) pid1 (vote 5) = Some (Ok VoteIDStatusDone).
Proof.
  assert (Hd : is_done (stored_status (db one_vote) pid1 (vote 5)) = false) by by vm_compute.
  assert (Hok : is_Ok (eval (setVoteIDStatus pid1 (vote 5) VoteIDStatusDone) one_vote) = true) by by vm_compute.
  split; [exact Hd|]. split; [by vm_compute|].
  pose proof (setVoteIDStatus_spec pid1 (vote 5) VoteIDStatusDone one_vote ltac:(unfold VoteIDStatusDone; lia)) as H.
  unfold exec. unfold eval in Hok. destruct (setVoteIDStatus pid1 (vote 5) VoteIDStatusDone one_vote) as [[r|] s'];
    [|done]. rewrite Hd in H. apply H.
Defined.
Lemma markProcessVoteIDsTimeout_InMemory_witness :
  let m := markProcessVoteIDsTimeout (Env:=env InMemory (λ _ _, false)) pid1 in
  eval m one_vote = Ok 1 ∧
  stored_status (db (exec m one_vote)) pid1 (vote 5) = Some (intToBytes VoteIDStatusPending).
Proof.
  destruct (markProcessVoteIDsTimeout_InMemory (Env:=env InMemory (λ _ _, false)) pid1 one_vote
    eq_refl eq_refl) as [Hr Hs]. split.
  - refine (eq_trans Hr _). by vm_compute.
  - refine (eq_trans (Hs pid1 (vote 5)) _). by vm_compute.
Defined.
