(* ===== verification/Stats.v ===== *)
(** * Statistics

    [src/storage/process_stats.go] and [src/storage/worker_stats.go]: the
    counters of every process, their totals over all processes, and the job
    counts of the workers. Counters are unbounded integers here; in the program
    they are 64-bit and count votes. *)

From S2P Require Import Prelude Bytes DB Spec Types StorageTypes StorageBase Process.

(** [src/storage/process_stats.go:12-12] *)
Definition totalStatsStorageKey : bytes := bytes_of_string "totalStatsStorageKey".
(** [src/storage/process_stats.go:15-15] *)
Definition totalPendingBallotsKey : bytes := bytes_of_string "totalPendingBallotsKey".
#[global] Opaque totalStatsStorageKey totalPendingBallotsKey.

(** The three records an update works on. *)
Record counters := { c_seq : SequencerProcessStats; c_total : Stats; c_pending : StatsPendingBallots }.

(** [src/storage/process_stats.go:46-104] updateProcessStats: one update of the
    loop, at time [t]; the default branch of the switch (an unknown kind) has no
    counterpart, the kinds are an inductive type *)
Definition apply_stats_update (t : Time) (c : counters) (u : ProcessStatsUpdate) : counters :=
  let s := c_seq c in let tot := c_total c in let pen := c_pending c in
  let delta := upd_Delta u in
  match upd_TypeStats u with
  | TypeStatsStateTransitions =>
      {| c_seq := Build_SequencerProcessStats (StateTransitionCount s + delta)
           (LastStateTransitionDate s) (SettledStateTransitionCount s) (AggregatedVotesCount s)
           (VerifiedVotesCount s) (PendingVotesCount s) (CurrentBatchSize s) (LastBatchSize s);
         c_total := Build_Stats (st_VerifiedVotesCount tot) (st_AggregatedVotesCount tot)
           (st_StateTransitionCount tot + delta) (st_SettledStateTransitionCount tot)
           (st_LastStateTransitionDate tot);
         c_pending := pen |}
  | TypeStatsSettledStateTransitions =>
      {| c_seq := Build_SequencerProcessStats (StateTransitionCount s)
           (LastStateTransitionDate s) (SettledStateTransitionCount s + delta) (AggregatedVotesCount s)
           (VerifiedVotesCount s) (PendingVotesCount s) (CurrentBatchSize s) (LastBatchSize s);
         c_total := Build_Stats (st_VerifiedVotesCount tot) (st_AggregatedVotesCount tot)
           (st_StateTransitionCount tot) (st_SettledStateTransitionCount tot + delta)
           (st_LastStateTransitionDate tot);
         c_pending := pen |}
  | TypeStatsAggregatedVotes =>
      {| c_seq := Build_SequencerProcessStats (StateTransitionCount s)
           (LastStateTransitionDate s) (SettledStateTransitionCount s) (AggregatedVotesCount s + delta)
           (VerifiedVotesCount s) (PendingVotesCount s) (CurrentBatchSize s) (LastBatchSize s);
         c_total := Build_Stats (st_VerifiedVotesCount tot) (st_AggregatedVotesCount tot + delta)
           (st_StateTransitionCount tot) (st_SettledStateTransitionCount tot)
           (st_LastStateTransitionDate tot);
         c_pending := pen |}
  | TypeStatsVerifiedVotes =>
      {| c_seq := Build_SequencerProcessStats (StateTransitionCount s)
           (LastStateTransitionDate s) (SettledStateTransitionCount s) (AggregatedVotesCount s)
           (VerifiedVotesCount s + delta) (PendingVotesCount s) (CurrentBatchSize s) (LastBatchSize s);
         c_total := Build_Stats (st_VerifiedVotesCount tot + delta) (st_AggregatedVotesCount tot)
           (st_StateTransitionCount tot) (st_SettledStateTransitionCount tot)
           (st_LastStateTransitionDate tot);
         c_pending := pen |}
  | TypeStatsPendingVotes =>
      let newValue := PendingVotesCount s + delta in
      let set_pending n := Build_SequencerProcessStats (StateTransitionCount s)
           (LastStateTransitionDate s) (SettledStateTransitionCount s) (AggregatedVotesCount s)
           (VerifiedVotesCount s) n (CurrentBatchSize s) (LastBatchSize s) in
      if newValue <? 0 then
        {| c_seq := set_pending 0; c_total := tot;
           c_pending := Build_StatsPendingBallots (TotalPendingBallots pen - PendingVotesCount s) t |}
      else
        {| c_seq := set_pending newValue; c_total := tot;
           c_pending := Build_StatsPendingBallots (TotalPendingBallots pen + delta) t |}
  | TypeStatsLastBatchSize =>
      {| c_seq := Build_SequencerProcessStats (StateTransitionCount s)
           (LastStateTransitionDate s) (SettledStateTransitionCount s) (AggregatedVotesCount s)
           (VerifiedVotesCount s) (PendingVotesCount s) (CurrentBatchSize s)
           (if delta <? 0 then 0 else delta);
         c_total := tot; c_pending := pen |}
  | TypeStatsCurrentBatchSize =>
      let newValue := CurrentBatchSize s + delta in
      {| c_seq := Build_SequencerProcessStats (StateTransitionCount s)
           (LastStateTransitionDate s) (SettledStateTransitionCount s) (AggregatedVotesCount s)
           (VerifiedVotesCount s) (PendingVotesCount s) (if newValue <? 0 then 0 else newValue)
           (LastBatchSize s);
         c_total := tot; c_pending := pen |}
  | TypeStatsLastTransitionDate =>
      {| c_seq := Build_SequencerProcessStats (StateTransitionCount s)
           t (SettledStateTransitionCount s) (AggregatedVotesCount s)
           (VerifiedVotesCount s) (PendingVotesCount s) (CurrentBatchSize s) (LastBatchSize s);
         c_total := Build_Stats (st_VerifiedVotesCount tot) (st_AggregatedVotesCount tot)
           (st_StateTransitionCount tot) (st_SettledStateTransitionCount tot) t;
         c_pending := pen |}
  end.

Section stats.
Context `{Env : StorageEnv}.

(** A missing or undecodable total counts as zero. *)
Definition getArtifact_or `{Codec A} (z : A) (prefix key : bytes) : M A :=
  r ← attempt (getArtifact prefix (Some key));
  mret (match r with Ok a => a | Err _ => z end).

(** [src/storage/process_stats.go:20-117] *)
Definition updateProcessStats (pid : ProcessID) (updates : list ProcessStatsUpdate) : M () :=
  if negb (pid_IsValid pid) then raise (ErrMsg "invalid process ID")
  else match updates with
  | [] => mret ()
  | _ =>
      p ← wrapping "failed to get process for stats update" (process pid);
      totalStats ← getArtifact_or zeroStats statsPrefix totalStatsStorageKey;
      totalPending ← getArtifact_or zeroStatsPendingBallots statsPrefix totalPendingBallotsKey;
      t ← gets now;
      let c := foldl (apply_stats_update t)
                 {| c_seq := p_SequencerStats p; c_total := totalStats; c_pending := totalPending |}
                 updates in
      _ ← wrapping "failed to save process after stats update"
            (setArtifact processPrefix (Some (pid_bytes pid)) (set_p_SequencerStats (λ _, c_seq c) p));
      _ ← wrapping "failed to save total stats after process stats update"
            (setArtifact statsPrefix (Some totalStatsStorageKey) (c_total c));
      wrapping "failed to save total pending ballots after process stats update"
        (setArtifact statsPrefix (Some totalPendingBallotsKey) (c_pending c))
  end.

(** [src/storage/process_stats.go:120-129] TotalPendingBallots *)
Definition Storage_TotalPendingBallots : M Z :=
  p ← getArtifact_or zeroStatsPendingBallots statsPrefix totalPendingBallotsKey;
  mret (TotalPendingBallots p).
(** [src/storage/process_stats.go:132-142] *)
Definition TotalStats : M Stats := getArtifact_or zeroStats statsPrefix totalStatsStorageKey.

(** ** Workers *)

(** [src/storage/worker_stats.go:86-99] *)
Definition getWorkerStatsUnsafe (address : string) : M WorkerStats :=
  getArtifact_or zeroWorkerStats workerStatsPrefix (bytes_of_string address).
(** [src/storage/worker_stats.go:102-105] *)
Definition setWorkerStatsUnsafe (address : string) (stats : WorkerStats) : M () :=
  setArtifact workerStatsPrefix (Some (bytes_of_string address)) stats.
(** [src/storage/worker_stats.go:18-26] *)
Definition IncreaseWorkerJobCount (address : string) (delta : Z) : M () :=
  stats ← getWorkerStatsUnsafe address;
  setWorkerStatsUnsafe address
    {| SuccessCount := SuccessCount stats + delta; FailedCount := FailedCount stats |}.
(** [src/storage/worker_stats.go:29-37] *)
Definition IncreaseWorkerFailedJobCount (address : string) (delta : Z) : M () :=
  stats ← getWorkerStatsUnsafe address;
  setWorkerStatsUnsafe address
    {| SuccessCount := SuccessCount stats; FailedCount := FailedCount stats + delta |}.
(** [src/storage/worker_stats.go:40-46] *)
Definition WorkerJobCount (address : string) : M (Z * Z) :=
  stats ← getWorkerStatsUnsafe address; mret (SuccessCount stats, FailedCount stats).
(** [src/storage/worker_stats.go:51-56] WorkerStats *)
Definition Storage_WorkerStats (address : string) : M WorkerStats := getWorkerStatsUnsafe address.
(** [src/storage/worker_stats.go:60-83] ListWorkerJobCount: the map of the decodable
    records *)
Definition ListWorkerJobCount : M (gmap string WorkerStats) :=
  l ← gets (λ s, prefixed_Iterate bk workerStatsPrefix [] (db s));
  mret (foldl (λ m kv, match DecodeArtifact kv.2 with
                       | Ok stats => <[String.string_of_list_ascii kv.1 := stats]> m
                       | Err _ => m end) ∅ l).
End stats.

(** ** Sums over the stored processes *)

Section sums.
Context `{Env : StorageEnv}.

(** The pending votes a stored process record counts. *)
Definition pending_of (v : bytes) : Z :=
  match DecodeArtifact (A:=Process) v with
  | Ok p => PendingVotesCount (p_SequencerStats p) | Err _ => 0 end.
Definition pending_at (k v : bytes) : Z := if HasPrefix k processPrefix then pending_of v else 0.
(** The sum of the pending votes over every stored process. *)
Definition sum_pending (d : kv) : Z := map_fold (λ k v acc, pending_at k v + acc) 0 d.
(** The stored total, zero when missing. *)
Definition total_pending (d : kv) : Z :=
  match d !! (statsPrefix ++ totalPendingBallotsKey) with
  | None => 0
  | Some v => match DecodeArtifact v with Ok t => TotalPendingBallots t | Err _ => 0 end
  end.

Lemma sum_pending_insert_new d k v :
  d !! k = None → sum_pending (<[k := v]> d) = pending_at k v + sum_pending d.
Proof.
  intros Hk. unfold sum_pending. rewrite map_fold_insert_L; [done| |done].
  intros; lia.
Qed.
Lemma sum_pending_insert d k v :
  sum_pending (<[k := v]> d) =
  sum_pending d + pending_at k v - from_option (pending_at k) 0 (d !! k).
Proof.
  destruct (d !! k) as [w|] eqn:Hk; cbn [from_option].
  - rewrite <-(insert_id d k w Hk) at 2.
    rewrite <-(insert_delete_eq d k v), <-(insert_delete_eq d k w).
    rewrite !sum_pending_insert_new by apply lookup_delete_eq. lia.
  - rewrite sum_pending_insert_new by done. lia.
Qed.
Lemma sum_pending_insert_other d p k v :
  incompatible p processPrefix = true → sum_pending (<[p ++ k := v]> d) = sum_pending d.
Proof.
  intros Hp. rewrite sum_pending_insert. unfold pending_at. rewrite incompatible_no by done.
  destruct (d !! (p ++ k)); simpl; lia.
Qed.
End sums.

Section facts.
Context `{Env : StorageEnv}.

(** ** One update *)

Definition nonneg (s : SequencerProcessStats) : Prop :=
  0 ≤ PendingVotesCount s ∧ 0 ≤ CurrentBatchSize s ∧ 0 ≤ LastBatchSize s.
Lemma apply_stats_nonneg t us c : nonneg (c_seq c) → nonneg (c_seq (foldl (apply_stats_update t) c us)).
Proof.
  revert c. induction us as [|u us IH]; intros c Hc; simpl; [done|]. apply IH.
  unfold apply_stats_update, nonneg in *. destruct (upd_TypeStats u); simpl; try (split_and!; tauto);
    repeat match goal with |- context [?x <? 0] => destruct (Z.ltb_spec x 0) end; simpl; lia.
Qed.
(** The total moves exactly as the process's own count does. *)
Lemma apply_stats_pending t us c :
  let c' := foldl (apply_stats_update t) c us in
  TotalPendingBallots (c_pending c') - PendingVotesCount (c_seq c') =
  TotalPendingBallots (c_pending c) - PendingVotesCount (c_seq c).
Proof.
  revert c. induction us as [|u us IH]; intros c; simpl; [done|]. rewrite IH.
  unfold apply_stats_update. destruct (upd_TypeStats u); simpl; try done;
    destruct (Z.ltb_spec (PendingVotesCount (c_seq c) + upd_Delta u) 0); simpl; lia.
Qed.

(** ** A whole update *)

Lemma getArtifact_or_eq `{Codec A} (z : A) p k s :
  getArtifact_or z p k s =
  (Ok match db s !! (p ++ k) with
      | Some v => match DecodeArtifact v with Ok a => a | Err _ => z end
      | None => z end, s).
Proof.
  unfold getArtifact_or, attempt. run_simpl. rewrite getArtifact_eq.
  destruct (db s !! (p ++ k)) as [v|]; [|done]. by destruct (DecodeArtifact v).
Qed.

Definition stats_spaces : list bytes := [processPrefix; statsPrefix].
Lemma updateProcessStats_touches ps pid us :
  processPrefix ∈ ps → statsPrefix ∈ ps → moves (touches (spaces ps)) (updateProcessStats pid us).
Proof.
  intros Hp Hs. unfold updateProcessStats, getArtifact_or, process.
  pose proof (λ p k, moves_getArtifact (touches (spaces ps)) (A:=Process) p k).
  pose proof (λ p k, moves_getArtifact (touches (spaces ps)) (A:=Stats) p k).
  pose proof (λ p k, moves_getArtifact (touches (spaces ps)) (A:=StatsPendingBallots) p k).
  repeat first [progress moves | by auto | by apply moves_setArtifact_touches].
Qed.
Lemma updateProcessStats_committal R `{!Committal R} pid us : moves R (updateProcessStats pid us).
Proof.
  unfold updateProcessStats, getArtifact_or, process.
  repeat first [progress moves | by apply moves_getArtifact; apply _ | by apply moves_setArtifact].
Qed.

(** What a successful update stored. *)
Lemma updateProcessStats_Ok pid u us s s' :
  updateProcessStats pid (u :: us) s = (Ok (), s') →
  ∃ p v1 v2 v3,
    (process pid s).1 = Ok p ∧ pid_IsValid pid = true ∧
    let tot := match db s !! (statsPrefix ++ totalStatsStorageKey) with
               | Some v => match DecodeArtifact v with Ok a => a | Err _ => zeroStats end
               | None => zeroStats end in
    let pen := match db s !! (statsPrefix ++ totalPendingBallotsKey) with
               | Some v => match DecodeArtifact v with Ok a => a | Err _ => zeroStatsPendingBallots end
               | None => zeroStatsPendingBallots end in
    let c := foldl (apply_stats_update (now s))
               {| c_seq := p_SequencerStats p; c_total := tot; c_pending := pen |} (u :: us) in
    EncodeArtifact (set_p_SequencerStats (λ _, c_seq c) p) = Ok v1 ∧
    EncodeArtifact (c_total c) = Ok v2 ∧ EncodeArtifact (c_pending c) = Ok v3 ∧
    locks s' = locks s ∧ now s' = now s ∧
    db s' = <[statsPrefix ++ totalPendingBallotsKey := v3]>
              (<[statsPrefix ++ totalStatsStorageKey := v2]>
                (<[processPrefix ++ pid_bytes pid := v1]> (db s))).
Proof.
  unfold updateProcessStats. destruct (pid_IsValid pid); [|done]. cbn [negb].
  unfold wrapping, gets, mbind, SE_bind. destruct (process pid s) as [[p|e] s0] eqn:Hp; [|done].
  assert (s0 = s) as -> by (rewrite process_eq in Hp; congruence). rewrite !getArtifact_or_eq.
  set (c := foldl _ _ _).
  destruct (setArtifact_cases processPrefix (pid_bytes pid) (set_p_SequencerStats (λ _, c_seq c) p) s)
    as [(e & s1 & -> & _)|(v1 & s1 & Hv1 & -> & Hd1 & Hl1 & Hn1)]; [done|].
  destruct (setArtifact_cases statsPrefix totalStatsStorageKey (c_total c) s1)
    as [(e & s2 & -> & _)|(v2 & s2 & Hv2 & -> & Hd2 & Hl2 & Hn2)]; [done|].
  destruct (setArtifact_cases statsPrefix totalPendingBallotsKey (c_pending c) s2)
    as [(e & s3 & -> & _)|(v3 & s3 & Hv3 & -> & Hd3 & Hl3 & Hn3)]; [done|].
  intros [= <-]. exists p, v1, v2, v3. cbn [fst]. split; [done|]. split; [done|]. fold c.
  split_and!; try done; congruence.
Qed.

(** Statistics are conserved: whenever an update succeeds, the total of
    pending ballots minus the sum of the pending counts of all stored processes
    is what it was, clamping included, so the two agree for ever once they agree;
    and a process whose counters were not negative keeps them so. *)
Theorem updateProcessStats_conserved pid us s s' :
  updateProcessStats pid us s = (Ok (), s') →
  total_pending (db s') - sum_pending (db s') = total_pending (db s) - sum_pending (db s) ∧
  (∀ p, (process pid s).1 = Ok p → nonneg (p_SequencerStats p) →
     ∃ p', (process pid s').1 = Ok p' ∧ nonneg (p_SequencerStats p')).
Proof.
  destruct us as [|u us].
  { unfold updateProcessStats. destruct (pid_IsValid pid); [|done]. intros [= <-]. eauto. }
  intros (p & v1 & v2 & v3 & Hp & _ & Hv1 & Hv2 & Hv3 & _ & _ & Hd)%updateProcessStats_Ok.
  set (c := foldl _ _ _) in *. pose proof (codec_roundtrip _ _ Hv1) as Hr1.
  pose proof (codec_roundtrip _ _ Hv3) as Hr3. rewrite process_eq in Hp. cbn [fst] in Hp.
  destruct (db s !! (processPrefix ++ pid_bytes pid)) as [v0|] eqn:Hv0; [|done].
  destruct (DecodeArtifact v0) as [p0|] eqn:Hp0; [|done]. injection Hp as ->. split.
  - rewrite Hd. rewrite !sum_pending_insert_other by by vm_compute.
    rewrite sum_pending_insert, Hv0. cbn [from_option]. unfold pending_at at 1 2.
    rewrite HasPrefix_app. unfold pending_of. rewrite Hr1, Hp0. unfold total_pending at 1.
    rewrite lookup_insert_eq, Hr3. cbn.
    pose proof (apply_stats_pending (now s) (u :: us) {| c_seq := p_SequencerStats p;
      c_total := match db s !! (statsPrefix ++ totalStatsStorageKey) with
               | Some v => match DecodeArtifact v with Ok a => a | Err _ => zeroStats end
               | None => zeroStats end;
      c_pending := match db s !! (statsPrefix ++ totalPendingBallotsKey) with
               | Some v => match DecodeArtifact v with Ok a => a | Err _ => zeroStatsPendingBallots end
               | None => zeroStatsPendingBallots end |}) as Hc.
    cbv zeta in Hc. fold c in Hc. cbn [c_seq c_pending] in Hc. unfold total_pending.
    destruct (db s !! (statsPrefix ++ totalPendingBallotsKey)) as [w|]; [destruct (DecodeArtifact w)|];
      cbn in Hc |- *; lia.
  - intros p' Hp' Hn. rewrite process_eq, Hv0, Hp0 in Hp'. injection Hp' as <-.
    rewrite process_eq, Hd. rewrite lookup_insert_ne, lookup_insert_ne, lookup_insert_eq, Hr1
      by (apply incompatible_app; by vm_compute).
    eexists. split; [done|]. assert (H : nonneg (c_seq c)) by (by apply apply_stats_nonneg). exact H.
Qed.
End facts.

(** ** At a concrete store *)

Import Concrete.
#[local] Existing Instance env_mem.
Definition one_process : Storage :=
  MkStorage {[ processPrefix ++ pid_bytes pid1 := enc process1 ]} ∅ ∅ ∅ (70 * second) [].
Definition pending_votes (n : Z) : list ProcessStatsUpdate :=
  [{| upd_TypeStats := TypeStatsPendingVotes; upd_Delta := n |}].
Lemma updateProcessStats_conserved_witness :
  let s' := exec (updateProcessStats pid1 (pending_votes 3)) one_process in
  total_pending (db s') = 3 ∧ total_pending (db s') - sum_pending (db s') = 0.
Proof.
  cbv zeta. split; [by vm_compute|].
  destruct (updateProcessStats_conserved pid1 (pending_votes 3) one_process
    (exec (updateProcessStats pid1 (pending_votes 3)) one_process)) as [H _].
  - apply run_eq. by vm_compute.
  - refine (eq_trans H _). by vm_compute.
Defined.
