(* ===== verification/Ballots.v ===== *)
(** * The ballot queues

    [src/storage/ballots.go]: the queue of pending ballots (key: vote
    identifier) and the queue of verified ballots (key: process and vote
    identifier), their reservations, and the locks on votes and addresses. *)

From S2P Require Import Prelude Bytes DB Spec Types StorageTypes StorageBase Process VoteStatus Stats.

(** The key an iteration under a process yields, with the process in front
    whatever the backend does. *)
(** [src/storage/ballots.go:333-336] PullVerifiedBallots: append the prefix if missing *)
Definition fix_key (pid : ProcessID) (k : bytes) : bytes :=
  if HasPrefix k (pid_bytes pid) then k else pid_bytes pid ++ k.

Section ballots.
Context `{Env : StorageEnv}.

(** ** Pending ballots *)

(** [src/storage/ballots.go:23-42] Ballot *)
Definition Storage_Ballot (v : uint64) : M Ballot :=
  r ← attempt (rd_Get ballotPrefix (VoteID_Bytes v));
  match r with
  | Err e =>
      if errors_Is e ErrKeyNotFound then raise ErrNotFound else raise (Wrap "get ballot" e)
  | Ok val => wrapping "decode ballot" (lift (DecodeArtifact (A:=Ballot) val))
  end.

(** [src/storage/ballots.go:45-113] *)
Definition PushPendingBallot (b : Ballot) : M () :=
  let v := b_VoteID b in
  let releaseOnError :=
    _ ← releaseVoteID v; releaseAddress (b_ProcessID b) (b_Address b) in
  processing ← IsVoteIDProcessing v;
  if (processing : bool) then raise ErrNullifierProcessing
  else
    acquired ← lockAddress (b_ProcessID b) (b_Address b);
    if negb acquired then raise ErrAddressProcessing
    else
      _ ← lockVoteID v;
      match EncodeArtifact b with
      | Err e => _ ← releaseOnError; raise (Wrap "encode ballot" e)
      | Ok val =>
          existing ← attempt (rd_Get ballotPrefix (VoteID_Bytes v));
          match existing with
          | Ok _ => _ ← releaseOnError; raise ErroBallotAlreadyExists
          | Err _ =>
              committed ← attempt (commit (prefixed_Set ballotPrefix (VoteID_Bytes v) val ∅));
              match committed with
              | Err e => _ ← releaseOnError; raise e
              | Ok _ =>
                  _ ← warn (updateProcessStats (b_ProcessID b)
                        [{| upd_TypeStats := TypeStatsPendingVotes; upd_Delta := 1 |}]);
                  _ ← storeAddressInfo v (b_ProcessID b) (b_Address b);
                  setVoteIDStatus (b_ProcessID b) v VoteIDStatusPending
              end
          end
      end.

(** [src/storage/ballots.go:603-642] *)
Definition nextPendingBallot : M (Ballot * uint64) :=
  d ← gets db;
  match List.find (λ kv, negb (isReserved d ballotPrefix kv.1)) (prefixed_Iterate bk ballotPrefix [] d) with
  | None => raise ErrNoMoreElements
  | Some (chosenKey, chosenVal) =>
      b ← wrapping "decode ballot" (lift (DecodeArtifact (A:=Ballot) chosenVal));
      r ← attempt (setReservation ballotPrefix (VoteID_Bytes (b_VoteID b)));
      match r with
      | Err _ => raise ErrNoMoreElements
      | Ok _ => mret (b, b_VoteID b)
      end
  end.
(** [src/storage/ballots.go:119-125] *)
Definition NextPendingBallot := nextPendingBallot.

(** [src/storage/ballots.go:646-666] *)
Definition removePendingBallot (pid : ProcessID) (v : uint64) : M () :=
  _ ← wrapping "error deleting reservation"
        (ignoring ErrNotFound (deleteReservation ballotPrefix (VoteID_Bytes v)));
  _ ← wrapping "error deleting ballot"
        (ignoring ErrNotFound (deleteArtifact ballotPrefix (VoteID_Bytes v)));
  warn (updateProcessStats pid [{| upd_TypeStats := TypeStatsPendingVotes; upd_Delta := -1 |}]).

(** [src/storage/ballots.go:128-160] *)
Definition RemovePendingBallot (pid : ProcessID) (v : uint64) : M () :=
  r ← attempt (rd_Get ballotPrefix (VoteID_Bytes v));
  let ballot := match r with
                | Err _ => None
                | Ok val => match DecodeArtifact (A:=Ballot) val with Ok b => Some b | Err _ => None end
                end in
  _ ← removePendingBallot pid v;
  _ ← match ballot with
      | None => mret ()
      | Some b => releaseLocks (b_VoteID b) (b_ProcessID b) (b_Address b)
      end;
  setVoteIDStatus pid v VoteIDStatusError.

(** The decodable ballots of a process among the pending ones. *)
Definition ballots_of (pid : ProcessID) (l : list (bytes * bytes)) : list Ballot :=
  omap (λ kv, match DecodeArtifact (A:=Ballot) kv.2 with
              | Ok b => if decide (b_ProcessID b = pid) then Some b else None
              | Err _ => None end) l.
(** [src/storage/ballots.go:163-201] *)
Definition RemovePendingBallotsByProcess (pid : ProcessID) : M () :=
  l ← gets (λ s, prefixed_Iterate bk ballotPrefix [] (db s));
  forM_ (λ b, _ ← removePendingBallot pid (b_VoteID b);
              releaseLocks (b_VoteID b) (b_ProcessID b) (b_Address b)) (ballots_of pid l).

(** [src/storage/ballots.go:206-223] *)
Definition CountPendingBallots : M nat :=
  d ← gets db;
  mret (length (List.filter (λ kv, negb (isReserved d ballotPrefix kv.1))
                  (prefixed_Iterate bk ballotPrefix [] d))).

(** [src/storage/ballots.go:226-236] *)
Definition ReleasePendingBallotReservation (v : uint64) : M () :=
  wrapping "delete reservation" (ignoring ErrNotFound (deleteReservation ballotPrefix (VoteID_Bytes v))).

(** ** Verified ballots *)

Definition set_vb_ProcessID (pid : ProcessID) (vb : VerifiedBallot) : VerifiedBallot :=
  {| vb_VoteID := vb_VoteID vb; vb_ProcessID := pid; vb_VoterWeight := vb_VoterWeight vb;
     vb_EncryptedBallot := vb_EncryptedBallot vb; vb_Address := vb_Address vb;
     vb_InputsHash := vb_InputsHash vb; vb_Proofs := vb_Proofs vb |}.

(** [src/storage/ballots.go:241-306] *)
Definition MarkBallotVerified (v : uint64) (vb : option VerifiedBallot) : M () :=
  match vb with
  | None => raise (ErrMsg "verified ballot is nil")
  | Some vb =>
      r ← attempt (getArtifact (A:=Ballot) ballotPrefix (Some (VoteID_Bytes v)));
      found ← match r with
              | Err e =>
                  if negb (errors_Is e ErrNotFound) then raise (Wrap "get pending ballot" e)
                  else if negb (pid_IsValid (vb_ProcessID vb))
                  then raise (ErrMsg "pending ballot not found and process ID is invalid")
                  else mret None
              | Ok pendingBallot => mret (Some pendingBallot)
              end;
      let pid := match found with None => vb_ProcessID vb | Some b => b_ProcessID b end in
      val ← wrapping "encode verified ballot" (lift (EncodeArtifact (set_vb_ProcessID pid vb)));
      let combKey := pid_bytes pid ++ VoteID_Bytes v in
      _ ← commit (prefixed_Set verifiedBallotPrefix combKey val ∅);
      _ ← wrapping "delete reservation"
            (ignoring ErrNotFound (deleteReservation ballotPrefix (VoteID_Bytes v)));
      let updates := [{| upd_TypeStats := TypeStatsVerifiedVotes; upd_Delta := 1 |};
                      {| upd_TypeStats := TypeStatsCurrentBatchSize; upd_Delta := 1 |}] in
      updates ← match found with
                | None => mret updates
                | Some _ =>
                    _ ← wrapping "delete pending ballot"
                          (ignoring ErrNotFound (deleteArtifact ballotPrefix (VoteID_Bytes v)));
                    mret (updates ++ [{| upd_TypeStats := TypeStatsPendingVotes; upd_Delta := -1 |}])
                end;
      _ ← wrapping "failed to update process stats" (updateProcessStats pid updates);
      setVoteIDStatus pid v VoteIDStatusVerified
  end.

(** [src/storage/ballots.go:327-361] PullVerifiedBallots: the callback of the
    iteration, with the unique addresses and the results so far *)
Fixpoint pull_select (d : kv) (pid : ProcessID) (numFields : Z) (l : list (bytes * bytes))
    (addrMap : gset string) (res : list (bytes * VerifiedBallot)) : list (bytes * VerifiedBallot) :=
  match l with
  | [] => res
  | (k, v) :: l =>
      if numFields <=? Z.of_nat (length res) then res
      else
        let k := fix_key pid k in
        if isReserved d verifiedBallotPrefix k then pull_select d pid numFields l addrMap res
        else match DecodeArtifact (A:=VerifiedBallot) v with
        | Err _ => pull_select d pid numFields l addrMap res
        | Ok vb =>
            if decide (address_String (vb_Address vb) ∈ addrMap)
            then pull_select d pid numFields l addrMap res
            else pull_select d pid numFields l ({[address_String (vb_Address vb)]} ∪ addrMap)
                   (res ++ [(k, vb)])
        end
  end.

(** [slices.Delete(keys, i, i+1)] seen through the array under the slice: the
    tail moves down and the freed slot, [m - 1], becomes nil. *)
Definition delete_shift (i m : nat) (arr : list bytes) : list bytes :=
  take i arr ++ drop (S i) (take m arr) ++ [[]] ++ drop m arr.
(** [src/storage/ballots.go:365-376] PullVerifiedBallots: the loop that reserves
    the keys; [range] keeps the length and the array of the slice it started
    with while the body deletes from it. [n] iterations remain. *)
Fixpoint reserve_loop (n i : nat) (arr : list bytes) (res : list VerifiedBallot) :
    M (list VerifiedBallot * list bytes) :=
  match n with
  | O => mret (res, take (length res) arr)
  | S n =>
      r ← attempt (setReservation verifiedBallotPrefix (arr !!! i));
      match r with
      | Ok _ => reserve_loop n (S i) arr res
      | Err _ =>
          if (i <? length res)%nat
          then reserve_loop n (S i) (delete_shift i (length res) arr) (delete i res)
          else reserve_loop n (S i) arr res
      end
  end.
(** [src/storage/ballots.go:312-385] *)
Definition PullVerifiedBallots (pid : ProcessID) (numFields : Z) : M (list VerifiedBallot * list bytes) :=
  if numFields =? 0 then mret ([], [])
  else
    d ← gets db;
    let sel := pull_select d pid numFields
                 (prefixed_Iterate bk verifiedBallotPrefix (pid_bytes pid) d) ∅ [] in
    r ← reserve_loop (length sel) 0 sel.*1 sel.*2;
    match r.1 with
    | [] => raise ErrNotFound
    | _ => mret r
    end.

(** [src/storage/ballots.go:389-399] *)
Definition ReleaseVerifiedBallotReservations (keys : list bytes) : M () :=
  forM_ (λ key, wrapping "delete reservation"
                  (ignoring ErrNotFound (deleteReservation verifiedBallotPrefix key))) keys.
(** [src/storage/ballots.go:403-424] *)
Definition CountVerifiedBallots (pid : ProcessID) : M nat :=
  d ← gets db;
  mret (length (List.filter (λ kv, negb (isReserved d verifiedBallotPrefix (fix_key pid kv.1)))
                  (prefixed_Iterate bk verifiedBallotPrefix (pid_bytes pid) d))).

(** [src/storage/ballots.go:671-681] *)
Definition removeVerifiedBallot (key : bytes) : M () :=
  _ ← wrapping "delete verified ballot reservation"
        (ignoring ErrNotFound (deleteReservation verifiedBallotPrefix key));
  wrapping "delete verified ballot" (ignoring ErrNotFound (deleteArtifact verifiedBallotPrefix key)).

(** Release the locks of a ballot that could be decoded. *)
Definition releaseVerified (ballot : option VerifiedBallot) : M () :=
  match ballot with
  | None => mret ()
  | Some vb => releaseLocks (vb_VoteID vb) (vb_ProcessID vb) (vb_Address vb)
  end.
Definition decode_option `{Codec A} (v : bytes) : option A :=
  match DecodeArtifact v with Ok a => Some a | Err _ => None end.

(** [src/storage/ballots.go:428-479] *)
Definition RemoveVerifiedBallotsByProcess (pid : ProcessID) : M () :=
  l ← gets (λ s, prefixed_Iterate bk verifiedBallotPrefix (pid_bytes pid) (db s));
  forM_ (λ kv, _ ← removeVerifiedBallot (fix_key pid kv.1);
               releaseVerified (decode_option kv.2)) l.

(** [src/storage/ballots.go:486-517] *)
Definition MarkVerifiedBallotsDone (keys : list bytes) : M () :=
  forM_ (λ k,
    r ← attempt (getArtifact (A:=VerifiedBallot) verifiedBallotPrefix (Some k));
    _ ← releaseVerified (match r with Ok b => Some b | Err _ => None end);
    removeVerifiedBallot k) keys.

(** Counting by process, in the order of first appearance. *)
Fixpoint count_for (pid : ProcessID) (m : list (ProcessID * Z)) : list (ProcessID * Z) :=
  match m with
  | [] => [(pid, 1)]
  | (p, n) :: m => if decide (p = pid) then (p, n + 1) :: m else (p, n) :: count_for pid m
  end.
(** [src/storage/ballots.go:531-578] MarkVerifiedBallotsFailed: one key *)
Definition failVerifiedBallot (processBallots : list (ProcessID * Z)) (k : bytes) :
    M (list (ProcessID * Z)) :=
  r ← attempt (getArtifact (A:=VerifiedBallot) verifiedBallotPrefix (Some k));
  match r with
  | Err e => if errors_Is e ErrNotFound then mret processBallots else raise (Wrap "get verified ballot" e)
  | Ok ballot =>
      let pid := vb_ProcessID ballot in let v := vb_VoteID ballot in
      currentStatus ← attempt (voteIDStatus pid v);
      let processBallots' :=
        match currentStatus with
        | Err _ => processBallots
        | Ok st => if negb (st =? VoteIDStatusVerified) then processBallots else count_for pid processBallots
        end in
      _ ← wrapping "set vote ID status to error" (setVoteIDStatus pid v VoteIDStatusError);
      _ ← wrapping "remove verified ballot" (removeVerifiedBallot k);
      _ ← releaseLocks v pid (vb_Address ballot);
      mret processBallots'
  end.
(** [src/storage/ballots.go:523-601] MarkVerifiedBallotsFailed: the source updates
    the statistics in Go's map order; here in the order of first appearance *)
Definition MarkVerifiedBallotsFailed (keys : list bytes) : M () :=
  processBallots ← foldM failVerifiedBallot [] keys;
  forM_ (λ pn, warn (updateProcessStats pn.1
           [{| upd_TypeStats := TypeStatsVerifiedVotes; upd_Delta := - pn.2 |};
            {| upd_TypeStats := TypeStatsCurrentBatchSize; upd_Delta := - pn.2 |}]))
    processBallots.
End ballots.

(** ** Pushing *)

Section push.
Context `{Env : StorageEnv}.

Lemma moves_updateProcessStats_locks pid us : moves (same locks) (updateProcessStats pid us).
Proof. apply updateProcessStats_committal. apply Committal_locks. Qed.
Lemma moves_updateProcessStats_quiet pid us : moves keeps_quiet (updateProcessStats pid us).
Proof. apply updateProcessStats_committal. apply Committal_quiet. Qed.

Lemma union_self `{Countable A} (x : A) (S : gset A) : x ∈ S → {[x]} ∪ S = S.
Proof. set_solver. Qed.
Lemma union_difference_self `{Countable A} (x : A) (S : gset A) : x ∉ S → ({[x]} ∪ S) ∖ {[x]} = S.
Proof. set_solver. Qed.

(** What an accepted ballot leaves behind. *)
Definition accepted (b : Ballot) (s s' : Storage) : Prop :=
  (∃ val, EncodeArtifact b = Ok val ∧ db s' !! (ballotPrefix ++ VoteID_Bytes (b_VoteID b)) = Some val) ∧
  processingVoteIDs s' = {[b_VoteID b]} ∪ processingVoteIDs s ∧
  processingAddresses s' = {[lock_key (b_ProcessID b) (b_Address b)]} ∪ processingAddresses s ∧
  voteIDToAddress s' = <[b_VoteID b := {| ai_ProcessID := b_ProcessID b; ai_Address := b_Address b |}]>
                         (voteIDToAddress s).

(** The tail of a push, once the ballot is stored. *)
Lemma push_tail b st s :
  let '(r, s') := (_ ← warn (updateProcessStats (b_ProcessID b) st);
                   _ ← storeAddressInfo (b_VoteID b) (b_ProcessID b) (b_Address b);
                   setVoteIDStatus (b_ProcessID b) (b_VoteID b) VoteIDStatusPending) s in
  processingVoteIDs s' = processingVoteIDs s ∧ processingAddresses s' = processingAddresses s ∧
  voteIDToAddress s' = <[b_VoteID b := {| ai_ProcessID := b_ProcessID b; ai_Address := b_Address b |}]>
                         (voteIDToAddress s) ∧
  touches (spaces [voteIDStatusPrefix; processPrefix; statsPrefix]) s s'.
Proof.
  unfold warn, storeAddressInfo, modify. run_simpl.
  pose proof (moves_updateProcessStats_locks (b_ProcessID b) st s) as Hl.
  pose proof (updateProcessStats_touches [voteIDStatusPrefix; processPrefix; statsPrefix]
    (b_ProcessID b) st ltac:(in_list) ltac:(in_list) s) as Ht.
  destruct (updateProcessStats (b_ProcessID b) st s) as [r1 s1]. cbn [snd] in *.
  unfold same, locks in Hl. injection Hl as Hl1 Hl2 Hl3.
  set (s2 := set_voteIDToAddress _ s1). assert (Hs2 : db s2 = db s1) by done.
  pose proof (setVoteIDStatus_run (b_ProcessID b) (b_VoteID b) VoteIDStatusPending s2) as Hs.
  destruct (setVoteIDStatus (b_ProcessID b) (b_VoteID b) VoteIDStatusPending s2) as [r s'] eqn:E.
  assert (Hl : locks s' = locks s2).
  { destruct (is_done _); [by destruct Hs as [_ ->]|apply Hs]. }
  unfold locks in Hl. injection Hl as -> -> ->. unfold s2; cbn.
  rewrite Hl1, Hl2, Hl3. split_and!; try done.
  intros k Hk. rewrite <-(Ht k Hk), <-Hs2.
  pose proof (setVoteIDStatus_touches (b_ProcessID b) (b_VoteID b) VoteIDStatusPending s2 k) as Hf.
  rewrite E in Hf. apply Hf. intros ->. apply Hk. unfold status_key. apply spaces_in. in_list.
Qed.

(** The queue key a push writes, and the spaces of its bookkeeping. *)
Definition pushed_keys (b : Ballot) (k : bytes) : Prop :=
  k = ballotPrefix ++ VoteID_Bytes (b_VoteID b) ∨ spaces [voteIDStatusPrefix; processPrefix; statsPrefix] k.
Lemma PushPendingBallot_cases b s :
  let '(r, s') := PushPendingBallot b s in
  let free := b_VoteID b ∉ processingVoteIDs s ∧
              lock_key (b_ProcessID b) (b_Address b) ∉ processingAddresses s ∧
              db s !! (ballotPrefix ++ VoteID_Bytes (b_VoteID b)) = None in
  (free ∧ accepted b s s' ∨ (∃ e, r = Err e) ∧ db s' = db s ∧ locks s' = locks s) ∧
  touches (pushed_keys b) s s'.
Proof.
  unfold PushPendingBallot, IsVoteIDProcessing, lockAddress, gets, modify, raise, lockVoteID. run_simpl.
  case_bool_decide as Hv; [split; [eauto|done]|].
  case_bool_decide as Ha; cbn [negb].
  { split; [|done]. right. split; [eauto|]. split; [done|]. unfold locks; cbn.
    by rewrite union_self. }
  destruct (EncodeArtifact b) as [val|e] eqn:Hval.
  2:{ split; [|done]. right. split; [eauto|]. split; [done|]. unfold locks; cbn.
      by rewrite !union_difference_self. }
  unfold attempt, rd_Get. cbn [db set_processingVoteIDs set_processingAddresses].
  unfold prefixed_Get, prefixSlice.
  destruct (db s !! (ballotPrefix ++ VoteID_Bytes (b_VoteID b))) as [old|] eqn:Hold.
  { split; [|done]. right. split; [eauto|]. split; [done|]. unfold locks; cbn.
    by rewrite !union_difference_self. }
  set (s1 := set_processingVoteIDs _ _).
  destruct (commit_Set_cases ballotPrefix (VoteID_Bytes (b_VoteID b)) val s1)
    as [(e & s2 & -> & Hd & Hl & _)|(s2 & -> & Hd & Hl & _)];
    unfold locks in Hl; cbn in Hl; injection Hl as Hl1 Hl2 Hl3.
  { split; [|intros k _; exact (f_equal (lookup k) Hd)]. right. split; [eauto|]. split; [done|]. unfold locks; cbn. rewrite Hl1, Hl2, Hl3.
    by rewrite !union_difference_self. }
  pose proof (push_tail b [{| upd_TypeStats := TypeStatsPendingVotes; upd_Delta := 1 |}] s2) as Hp.
  unfold mbind, SE_bind in Hp. cbn in Hp |- *.
  destruct (setVoteIDStatus (b_ProcessID b) (b_VoteID b) VoteIDStatusPending _) as [r s'].
  destruct Hp as (Hp1 & Hp2 & Hp3 & Ht). split.
  - left. split; [done|]. unfold accepted. split_and!; try done.
    + exists val. split; [done|]. rewrite (Ht _) by (apply spaces_no; by vm_compute).
      rewrite Hd. apply lookup_insert_eq.
    + by rewrite Hp1, Hl1.
    + by rewrite Hp2, Hl2.
    + by rewrite Hp3, Hl3.
  - intros k Hk. rewrite (Ht k), Hd, lookup_insert_ne; [done| |].
    + intros <-. apply Hk. by left.
    + intros Hs. apply Hk. by right.
Qed.

(** Pushing a ballot is all or nothing. Either it is refused - its vote is in
    process, its address has a vote in process, it cannot be encoded, its key is
    taken, or the commit fails - and then the database and every lock are exactly
    as before; or the ballot is stored and its vote and address, both free
    before, are locked. Of the queues only the ballot's own key is written. *)
Theorem PushPendingBallot_all_or_nothing b s :
  let '(r, s') := PushPendingBallot b s in
  let free := b_VoteID b ∉ processingVoteIDs s ∧
              lock_key (b_ProcessID b) (b_Address b) ∉ processingAddresses s ∧
              db s !! (ballotPrefix ++ VoteID_Bytes (b_VoteID b)) = None in
  (b_VoteID b ∈ processingVoteIDs s → r = Err ErrNullifierProcessing) ∧
  (b_VoteID b ∉ processingVoteIDs s → lock_key (b_ProcessID b) (b_Address b) ∈ processingAddresses s →
     r = Err ErrAddressProcessing) ∧
  (free ∧ accepted b s s' ∨ (∃ e, r = Err e) ∧ db s' = db s ∧ locks s' = locks s) ∧
  touches (pushed_keys b) s s'.
Proof.
  pose proof (PushPendingBallot_cases b s) as H. destruct (PushPendingBallot b s) as [r s'] eqn:E.
  destruct H as [H Ht]. split_and!; [| |done|done]; revert E;
    unfold PushPendingBallot, IsVoteIDProcessing, lockAddress, gets, modify, raise; run_simpl.
  - intros E Hv. rewrite bool_decide_true in E by done. by injection E.
  - intros E Hv Ha. rewrite bool_decide_false in E by done. cbn in E. rewrite bool_decide_true in E by done.
    by injection E.
Qed.
End push.

(** ** Handing out pending ballots *)

Section next.
Context `{Env : StorageEnv}.

(** [b] waits in the pending queue under [v]. *)
Definition pending (d : kv) (v : uint64) (b : Ballot) : Prop :=
  ∃ val, d !! (ballotPrefix ++ VoteID_Bytes v) = Some val ∧ DecodeArtifact val = Ok b.
(** Every entry of the queue is a ballot under its own, valid vote identifier. *)
Definition pending_wf (d : kv) : Prop := ∀ k val,
  d !! (ballotPrefix ++ k) = Some val →
  ∃ b, DecodeArtifact val = Ok b ∧ k = VoteID_Bytes (b_VoteID b) ∧ VoteID_Valid (b_VoteID b) = true.
(** Reservation records can be encoded. *)
Definition reservations_encode : Prop := ∀ t, ∃ v, EncodeArtifact {| Timestamp := t |} = Ok v.

Lemma elem_of_pending d k val :
  pending_wf d →
  (k, val) ∈ prefixed_Iterate bk ballotPrefix [] d ↔ d !! (ballotPrefix ++ k) = Some val.
Proof.
  intros Hwf. apply prefixed_Iterate_local. intros r [w Hr].
  destruct (Hwf r w Hr) as (b & _ & -> & Hv).
  rewrite <-(app_nil_r (VoteID_Bytes _)). by apply VoteID_Bytes_no_ascii.
Qed.

Lemma setReservation_cases p k s :
  (∃ e s', setReservation p k s = (Err e, s') ∧ unmoved s s') ∨
  (∃ v s', setReservation p k s = (Ok (), s') ∧ isReserved (db s) p k = false ∧
     db s' = <[reservationDB p ++ k := v]> (db s) ∧ locks s' = locks s ∧ now s' = now s).
Proof.
  unfold setReservation, gets, lift, prefixed_tx_Get, isReserved, prefixed_Get, prefixSlice. run_simpl.
  destruct (EncodeArtifact _) as [v|e]; [|left; unfold unmoved; eauto 10].
  rewrite lookup_empty. destruct (db s !! (reservationDB p ++ k)) eqn:Hk; [left; unfold raise, unmoved; eauto 10|].
  destruct (commit_Set_cases (reservationDB p) k v s) as [(e & s' & -> & H1)|(s' & -> & H1)];
    [eauto 10|right]. exists v, s'. rewrite bool_decide_false; [done|]. by intros [? ?].
Qed.
Lemma isReserved_insert d p k v : isReserved (<[reservationDB p ++ k := v]> d) p k = true.
Proof. apply bool_decide_eq_true. unfold prefixed_Get, prefixSlice. rewrite lookup_insert_eq. eauto. Qed.

(** What a call hands out was not reserved and is now. *)
Lemma NextPendingBallot_reserves s b v s' :
  NextPendingBallot s = (Ok (b, v), s') →
  isReserved (db s) ballotPrefix (VoteID_Bytes v) = false ∧
  ∃ w, db s' = <[reservationDB ballotPrefix ++ VoteID_Bytes v := w]> (db s) ∧ locks s' = locks s ∧
       v = b_VoteID b ∧ ∃ k val, (k, val) ∈ prefixed_Iterate bk ballotPrefix [] (db s) ∧
         isReserved (db s) ballotPrefix k = false ∧ DecodeArtifact val = Ok b.
Proof.
  unfold NextPendingBallot, nextPendingBallot, gets, wrapping, lift, attempt. run_simpl.
  destruct (List.find _ _) as [[k val]|] eqn:Hf; [|done].
  apply find_some in Hf as [Hin%list_elem_of_In Hr%negb_true_iff].
  destruct (DecodeArtifact val) as [b'|e] eqn:Hb; [|done].
  destruct (setReservation_cases ballotPrefix (VoteID_Bytes (b_VoteID b')) s)
    as [(e & s1 & -> & _)|(w & s1 & -> & Hr' & Hd & Hl & _)]; [done|].
  intros [= <- <- <-]. eauto 12.
Qed.

(** In a well-formed queue, when no commit fails, the next pending ballot is
    a stored ballot that nobody had reserved; it is handed out reserved, nothing
    else changes, and "no more elements" is answered exactly when every stored
    ballot is reserved. *)
Theorem NextPendingBallot_spec s :
  pending_wf (db s) → quiet s → reservations_encode →
  match NextPendingBallot s with
  | (Ok (b, v), s') =>
      v = b_VoteID b ∧ pending (db s) v b ∧
      isReserved (db s) ballotPrefix (VoteID_Bytes v) = false ∧
      isReserved (db s') ballotPrefix (VoteID_Bytes v) = true ∧ locks s' = locks s ∧
      ∀ k, k ≠ reservationDB ballotPrefix ++ VoteID_Bytes v → db s' !! k = db s !! k
  | (Err e, s') =>
      e = ErrNoMoreElements ∧ s' = s ∧
      ∀ v b, pending (db s) v b → isReserved (db s) ballotPrefix (VoteID_Bytes v) = true
  end.
Proof.
  intros Hwf Hq Henc. destruct (NextPendingBallot s) as [[[b v]|e] s'] eqn:Hn.
  - destruct (NextPendingBallot_reserves s b v s' Hn)
      as (Hr & w & Hd & Hl & -> & k & val & Hin & Hk & Hb).
    apply elem_of_pending in Hin; [|done]. destruct (Hwf k val Hin) as (b' & Hb' & -> & _).
    assert (b' = b) as -> by congruence.
    split_and!; [done|by exists val|done| |done|].
    + rewrite Hd. apply isReserved_insert.
    + intros k Hne. by rewrite Hd, lookup_insert_ne.
  - revert Hn. unfold NextPendingBallot, nextPendingBallot, gets, wrapping, lift, attempt, raise. run_simpl.
    destruct (List.find _ _) as [[k val]|] eqn:Hf.
    + apply find_some in Hf as [Hin%list_elem_of_In Hr%negb_true_iff].
      apply elem_of_pending in Hin; [|done]. cbn [fst] in Hr.
      destruct (Hwf k val Hin) as (b & -> & -> & _). destruct (Henc (Unix (now s))) as [w Hw].
      by rewrite (setReservation_quiet _ _ w s Hq Hw Hr).
    + intros [= <- <-]. split_and!; [done..|]. intros v b (val & Hval & _).
      apply (elem_of_pending _ _ _ Hwf), list_elem_of_In in Hval.
      by apply (find_none _ _ Hf), negb_false_iff in Hval.
Qed.

(** ** Exclusivity *)

(** No reservation of a pending ballot is dropped between the two states. *)
Definition keeps_reserved (s s' : Storage) : Prop := ∀ v,
  isReserved (db s) ballotPrefix (VoteID_Bytes v) = true →
  isReserved (db s') ballotPrefix (VoteID_Bytes v) = true.
(** The votes handed out along a run in which calls of [NextPendingBallot]
    alternate with anything that drops no reservation. *)
Inductive handed : Storage → list uint64 → Storage → Prop :=
  | handed_nil s : handed s [] s
  | handed_other s1 s2 l s3 : keeps_reserved s1 s2 → handed s2 l s3 → handed s1 l s3
  | handed_next s1 b v s2 l s3 :
      NextPendingBallot s1 = (Ok (b, v), s2) → handed s2 l s3 → handed s1 (v :: l) s3.

(** As long as no reservation is released, no pending ballot is handed to two
    workers, whatever else happens to the storage in between and whichever
    commits fail. *)
Theorem NextPendingBallot_exclusive s l s' : handed s l s' → NoDup l.
Proof.
  intros H. cut (NoDup l ∧ ∀ v, v ∈ l → isReserved (db s) ballotPrefix (VoteID_Bytes v) = false).
  { by intros [? _]. }
  induction H as [s|s1 s2 l s3 Hk _ [IH1 IH2]|s1 b v s2 l s3 Hn _ [IH1 IH2]].
  - split; [constructor|]. by intros v ?%not_elem_of_nil.
  - split; [done|]. intros v Hv. specialize (IH2 v Hv). specialize (Hk v).
    destruct (isReserved (db s1) _ _); [|done]. by rewrite Hk in IH2.
  - destruct (NextPendingBallot_reserves s1 b v s2 Hn) as (Hr & w & Hd & _). split.
    + constructor; [|done]. intros Hin. specialize (IH2 v Hin). rewrite Hd in IH2.
      by rewrite isReserved_insert in IH2.
    + intros v' [->|Hin]%elem_of_cons; [done|]. specialize (IH2 v' Hin). rewrite Hd in IH2.
      apply bool_decide_eq_false in IH2. apply bool_decide_eq_false. intros Hx. apply IH2.
      unfold prefixed_Get, prefixSlice in *.
      destruct (decide (VoteID_Bytes v' = VoteID_Bytes v)) as [->|Hne];
        [rewrite lookup_insert_eq; eauto|]. rewrite lookup_insert_ne; [done|].
      intros Heq%(inj (app _)). by apply Hne.
Qed.
End next.

(** ** The entries of a process in a queue *)

Section view.
Context `{Env : StorageEnv}.

(** The keys under [p] and the process are short and do not start with [p]. *)
Definition local_keys (p : bytes) (pid : ProcessID) (d : kv) : Prop := ∀ r,
  is_Some (d !! (p ++ pid_bytes pid ++ r)) → HasPrefix r p = false ∧ (length r < ProcessIDLen)%nat.
(** An iteration under the process, keys completed. *)
Definition view (p : bytes) (pid : ProcessID) (d : kv) : list (bytes * bytes) :=
  (λ kv, (fix_key pid kv.1, kv.2)) <$> prefixed_Iterate bk p (pid_bytes pid) d.

Lemma fix_key_local_key p pid r :
  HasPrefix r p = false → (length r < ProcessIDLen)%nat →
  fix_key pid (local_key bk p (pid_bytes pid) r) = pid_bytes pid ++ r.
Proof.
  intros Hr Hl. unfold fix_key, local_key. destruct bk.
  - rewrite TrimPrefix_no by done. destruct (HasPrefix r (pid_bytes pid)) eqn:H; [|done].
    apply HasPrefix_spec in H as [t ->]. rewrite length_app, length_pid_bytes in Hl. lia.
  - by rewrite HasPrefix_app.
Qed.
Lemma view_entries p pid d :
  local_keys p pid d →
  view p pid d = (λ kv, (drop (length p) kv.1, kv.2)) <$> entries (p ++ pid_bytes pid) d.
Proof.
  intros Hloc. unfold view, prefixed_Iterate, Iterate, prefixSlice. rewrite <-!list_fmap_compose.
  apply list_fmap_ext. intros i [k v] Hi%list_elem_of_lookup_2. cbn.
  apply elem_of_entries in Hi as [Hk (r & ->)%HasPrefix_spec].
  rewrite <-app_assoc in Hk. destruct (Hloc r) as [Hr Hl]; [eauto|].
  cbn [fst]. rewrite backend_key_app. rewrite <-(app_assoc p), drop_app_length.
  rewrite <-(fix_key_local_key p pid r Hr Hl). unfold local_key. f_equal. f_equal.
  destruct bk; [done|]. rewrite TrimPrefix_app. unfold fix_key. by rewrite HasPrefix_app.
Qed.
Lemma elem_of_view p pid d k v :
  local_keys p pid d →
  (k, v) ∈ view p pid d ↔ d !! (p ++ k) = Some v ∧ HasPrefix k (pid_bytes pid) = true.
Proof.
  intros Hloc. rewrite view_entries by done. rewrite list_elem_of_fmap. split.
  - intros ([k' v'] & [= -> ->] & Hin). apply elem_of_entries in Hin as [Hk (r & ->)%HasPrefix_spec].
    cbn [fst]. rewrite <-app_assoc in *. rewrite drop_app_length. split; [done|apply HasPrefix_app].
  - intros [Hk (r & ->)%HasPrefix_spec]. exists (p ++ pid_bytes pid ++ r, v).
    split; [cbn [fst snd]; by rewrite drop_app_length|]. apply elem_of_entries. split; [done|].
    rewrite app_assoc. apply HasPrefix_app.
Qed.
Lemma NoDup_view p pid d : local_keys p pid d → NoDup (view p pid d).*1.
Proof.
  intros Hloc. rewrite view_entries by done. rewrite <-list_fmap_compose.
  assert (H : (fst ∘ (λ kv : bytes * bytes, (drop (length p) kv.1, kv.2))) <$> entries (p ++ pid_bytes pid) d
              = drop (length p) <$> (entries (p ++ pid_bytes pid) d).*1)
    by (rewrite <-list_fmap_compose; done).
  rewrite H. apply NoDup_fmap_2_strong; [|apply entries_NoDup_keys].
  intros k1 k2 ([? v1] & -> & H1)%list_elem_of_fmap ([? v2] & -> & H2)%list_elem_of_fmap. cbn.
  apply elem_of_entries in H1 as [_ (r1 & ->)%HasPrefix_spec], H2 as [_ (r2 & ->)%HasPrefix_spec].
  rewrite <-!app_assoc, !drop_app_length. by intros ->.
Qed.
End view.

(** ** Pulling verified ballots *)

Section pull.
Context `{Env : StorageEnv}.

Definition addr_of (kvb : bytes * VerifiedBallot) : string := address_String (vb_Address kvb.2).

(** What the selection has collected, over the entries [seen] so far. *)
Record selected (d : kv) (n : Z) (seen : list (bytes * bytes)) (addrMap : gset string)
    (res : list (bytes * VerifiedBallot)) : Prop := {
  sel_len : Z.of_nat (length res) ≤ Z.max 0 n;
  sel_addr : NoDup (addr_of <$> res);
  sel_map : ∀ a, a ∈ addrMap ↔ a ∈ addr_of <$> res;
  sel_keys : NoDup res.*1;
  sel_from : ∀ k vb, (k, vb) ∈ res → isReserved d verifiedBallotPrefix k = false ∧
     ∃ v, (k, v) ∈ seen ∧ DecodeArtifact v = Ok vb;
  sel_max : ∀ k v vb, (k, v) ∈ seen → isReserved d verifiedBallotPrefix k = false →
     DecodeArtifact v = Ok vb → n ≤ Z.of_nat (length res) ∨ address_String (vb_Address vb) ∈ addr_of <$> res
}.

Lemma selected_seen_full d n seen seen' am res :
  selected d n seen am res → n ≤ Z.of_nat (length res) → selected d n (seen ++ seen') am res.
Proof.
  intros [H1 H2 H3 H4 H5 H6] Hn. split; try done; [|intros; by left].
  intros k vb Hin. destruct (H5 k vb Hin) as (? & v & ? & ?). split; [done|]. exists v. set_solver.
Qed.
Lemma selected_skip d n seen am res k v :
  selected d n seen am res →
  (∀ vb, isReserved d verifiedBallotPrefix k = false → DecodeArtifact v = Ok vb →
     address_String (vb_Address vb) ∈ addr_of <$> res) →
  selected d n (seen ++ [(k, v)]) am res.
Proof.
  intros [H1 H2 H3 H4 H5 H6] Hskip. split; try done.
  - intros k' vb Hin. destruct (H5 k' vb Hin) as (? & v' & ? & ?). split; [done|]. exists v'. set_solver.
  - intros k' v' vb [Hin|[= -> ->]%list_elem_of_singleton]%elem_of_app Hr Hd; [by eapply H6|].
    right. by apply Hskip.
Qed.
Lemma selected_take d n seen am res k v vb :
  selected d n seen am res → Z.of_nat (length res) < n → k ∉ seen.*1 →
  isReserved d verifiedBallotPrefix k = false → DecodeArtifact v = Ok vb →
  address_String (vb_Address vb) ∉ am →
  selected d n (seen ++ [(k, v)]) ({[address_String (vb_Address vb)]} ∪ am) (res ++ [(k, vb)]).
Proof.
  intros [H1 H2 H3 H4 H5 H6] Hn Hk Hr Hd Ha. rewrite H3 in Ha.
  assert (Hkr : k ∉ res.*1).
  { intros ([k' vb'] & -> & Hin)%list_elem_of_fmap. destruct (H5 _ _ Hin) as (_ & v' & Hin' & _).
    apply Hk. apply list_elem_of_fmap. by exists (k', v'). }
  split.
  - rewrite length_app. cbn. lia.
  - rewrite fmap_app. apply NoDup_app. split_and!; [done|set_solver|apply NoDup_singleton].
  - intros a. rewrite fmap_app, elem_of_app, <-H3. cbn. set_solver.
  - rewrite fmap_app. apply NoDup_app. split_and!; [done|set_solver|apply NoDup_singleton].
  - intros k' vb' [Hin|[= -> ->]%list_elem_of_singleton]%elem_of_app.
    + destruct (H5 _ _ Hin) as (? & v' & ? & ?). split; [done|]. exists v'. set_solver.
    + split; [done|]. exists v. set_solver.
  - intros k' v' vb' [Hin|[= -> ->]%list_elem_of_singleton]%elem_of_app Hr' Hd'.
    + destruct (H6 _ _ _ Hin Hr' Hd') as [?|?]; [lia|]. right. rewrite fmap_app. set_solver.
    + right. assert (vb' = vb) as -> by congruence. rewrite fmap_app. set_solver.
Qed.

Lemma pull_select_spec d pid n l seen am res :
  NoDup ((seen ++ ((λ kv, (fix_key pid kv.1, kv.2)) <$> l)).*1) →
  selected d n seen am res →
  ∃ am', selected d n (seen ++ ((λ kv, (fix_key pid kv.1, kv.2)) <$> l)) am' (pull_select d pid n l am res).
Proof.
  revert seen am res. induction l as [|[k v] l IH]; intros seen am res Hnd Hsel; cbn [pull_select].
  { exists am. by rewrite app_nil_r. }
  destruct (Z.leb_spec n (Z.of_nat (length res))) as [Hn|Hn].
  { exists am. by apply selected_seen_full. }
  cbn [fmap list_fmap fst snd] in Hnd |- *. rewrite cons_middle, app_assoc in Hnd.
  rewrite cons_middle, app_assoc.
  assert (Hk : fix_key pid k ∉ seen.*1).
  { rewrite !fmap_app in Hnd. apply NoDup_app in Hnd as [(_ & Hd & _)%NoDup_app _]. cbn in Hd. set_solver. }
  destruct (isReserved d verifiedBallotPrefix (fix_key pid k)) eqn:Hr.
  { apply IH; [done|]. apply selected_skip; [done|]. intros vb. by rewrite Hr. }
  destruct (DecodeArtifact v) as [vb|e] eqn:Hd.
  2:{ apply IH; [done|]. apply selected_skip; [done|]. intros vb _. by rewrite Hd. }
  case_decide as Ha.
  - apply IH; [done|]. apply selected_skip; [done|]. intros vb' _ Hvb'.
    assert (vb' = vb) as -> by congruence. by apply (sel_map _ _ _ _ _ Hsel).
  - apply IH; [done|]. by apply selected_take.
Qed.
Lemma selected_nil d n : selected d n [] ∅ [].
Proof. split; cbn; [lia|constructor|set_solver|constructor|set_solver|set_solver]. Qed.

(** ** Reserving what was selected *)

Lemma isReserved_insert_ne d p k k' v :
  k ≠ k' → isReserved (<[reservationDB p ++ k' := v]> d) p k = isReserved d p k.
Proof.
  intros Hne. unfold isReserved, prefixed_Get, prefixSlice. rewrite lookup_insert_ne; [done|].
  intros ->%(inj (app _)). done.
Qed.

(** Without failing commits the loop reserves every key, in order. *)
Lemma reserve_loop_quiet n i arr res s :
  quiet s → reservations_encode → (i + n = length arr)%nat → length res = length arr →
  NoDup (drop i arr) → (∀ k, k ∈ drop i arr → isReserved (db s) verifiedBallotPrefix k = false) →
  ∃ s', reserve_loop n i arr res s = (Ok (res, arr), s') ∧ locks s' = locks s ∧
    (∀ k, k ∈ drop i arr → isReserved (db s') verifiedBallotPrefix k = true) ∧
    touches (λ k, ∃ k', k' ∈ drop i arr ∧ k = reservationDB verifiedBallotPrefix ++ k') s s'.
Proof.
  intros Hq Henc. revert i s Hq. induction n as [|n IH]; intros i s Hq Hi Hres Hnd Hfree; cbn [reserve_loop].
  - exists s. rewrite Hres, take_ge by lia. rewrite drop_ge by lia. split_and!; try done. set_solver.
  - destruct (lookup_lt_is_Some_2 arr i) as [k Hk]; [lia|].
    rewrite (drop_S arr k i Hk) in Hnd, Hfree |- *. apply NoDup_cons in Hnd as [Hknew Hnd].
    destruct (Henc (Unix (now s))) as [v Hv]. rewrite (list_lookup_total_correct _ _ _ Hk).
    unfold attempt. run_simpl.
    rewrite (setReservation_quiet _ k v s Hq Hv) by (apply Hfree; left).
    destruct (IH (S i) (set_db (<[reservationDB verifiedBallotPrefix ++ k := v]> (db s)) s))
      as (s' & -> & Hl & Hr & Ht); [done|lia|done|done| |].
    { intros k' Hk'. cbn [db set_db]. rewrite isReserved_insert_ne by (by intros ->).
      apply Hfree. by right. }
    exists s'. split; [done|]. split; [done|]. split.
    + intros k' [->|Hk']%elem_of_cons; [|by apply Hr]. apply bool_decide_eq_true.
      unfold prefixed_Get, prefixSlice. rewrite (Ht _).
      * cbn. rewrite lookup_insert_eq. eauto.
      * intros (k'' & Hin & ->%(inj (app _))). done.
    + intros k' Hk'. rewrite (Ht k'); [cbn; apply lookup_insert_ne|]; [intros <-|intros (k'' & ? & ->)];
        apply Hk'; eexists; (split; [|done]); by constructor.
Qed.

(** What a pull hands out is the selection, and its reservations are written. *)
Definition selection (pid : ProcessID) (n : Z) (d : kv) : list (bytes * VerifiedBallot) :=
  pull_select d pid n (prefixed_Iterate bk verifiedBallotPrefix (pid_bytes pid) d) ∅ [].
Lemma selection_spec pid n d :
  local_keys verifiedBallotPrefix pid d → ∃ am, selected d n (view verifiedBallotPrefix pid d) am (selection pid n d).
Proof.
  intros Hloc. destruct (pull_select_spec d pid n (prefixed_Iterate bk verifiedBallotPrefix (pid_bytes pid) d)
    [] ∅ [] (NoDup_view _ _ _ Hloc) (selected_nil _ _)) as [am Ham]. by exists am.
Qed.
Lemma PullVerifiedBallots_run pid n s :
  quiet s → reservations_encode → local_keys verifiedBallotPrefix pid (db s) → 0 < n →
  let sel := selection pid n (db s) in
  if decide (sel = []) then PullVerifiedBallots pid n s = (Err ErrNotFound, s)
  else ∃ s', PullVerifiedBallots pid n s = (Ok (sel.*2, sel.*1), s') ∧ locks s' = locks s ∧
    (∀ k, k ∈ sel.*1 → isReserved (db s') verifiedBallotPrefix k = true) ∧
    touches (λ k, ∃ k', k' ∈ sel.*1 ∧ k = reservationDB verifiedBallotPrefix ++ k') s s'.
Proof.
  intros Hq Henc Hloc Hn sel. unfold PullVerifiedBallots, gets. destruct (Z.eqb_spec n 0) as [|_]; [lia|]. run_simpl.
  fold (selection pid n (db s)). fold sel. destruct (selection_spec pid n (db s) Hloc) as [am [_ _ _ H4 H5 _]]. fold sel in H4, H5.
  destruct (decide (sel = [])) as [->|Hsel]; [done|].
  assert (Hkeys : ∀ k, k ∈ sel.*1 → isReserved (db s) verifiedBallotPrefix k = false).
  { intros k ([k' vb] & -> & Hin)%list_elem_of_fmap. by apply (H5 k' vb). }
  destruct (reserve_loop_quiet (length sel) 0 sel.*1 sel.*2 s) as (s' & -> & Hl & Hr & Ht);
    rewrite ?drop_0, ?length_fmap; try done.
  rewrite drop_0 in Hr, Ht. exists s'. split; [|done].
  cbn [fst]. destruct (sel.*2) as [|x l] eqn:Esel; [by apply fmap_nil_inv in Esel|done].
Qed.

(** When no commit fails, pulling verified ballots returns at most the number
    asked for, all of the process, under distinct keys and with pairwise distinct
    addresses, none of which was reserved and all of which are now; it is
    maximal: it stops short of the number only when every unreserved ballot left
    has an address already taken. Nothing but those reservations is written. *)
Theorem PullVerifiedBallots_spec pid n s :
  quiet s → reservations_encode → local_keys verifiedBallotPrefix pid (db s) → 0 < n →
  match PullVerifiedBallots pid n s with
  | (Ok (res, keys), s') =>
      Z.of_nat (length res) ≤ n ∧ NoDup keys ∧ NoDup (address_String ∘ vb_Address <$> res) ∧
      Forall2 (λ k vb, HasPrefix k (pid_bytes pid) = true ∧
        isReserved (db s) verifiedBallotPrefix k = false ∧
        isReserved (db s') verifiedBallotPrefix k = true ∧
        ∃ v, db s !! (verifiedBallotPrefix ++ k) = Some v ∧ DecodeArtifact v = Ok vb) keys res ∧
      (∀ k v vb, db s !! (verifiedBallotPrefix ++ k) = Some v → HasPrefix k (pid_bytes pid) = true →
         isReserved (db s) verifiedBallotPrefix k = false → DecodeArtifact v = Ok vb →
         Z.of_nat (length res) = n ∨ address_String (vb_Address vb) ∈ address_String ∘ vb_Address <$> res) ∧
      locks s' = locks s ∧ touches (λ k, ∃ k', k' ∈ keys ∧ k = reservationDB verifiedBallotPrefix ++ k') s s'
  | (Err e, s') =>
      e = ErrNotFound ∧ unmoved s s' ∧
      ∀ k v vb, db s !! (verifiedBallotPrefix ++ k) = Some v → HasPrefix k (pid_bytes pid) = true →
        isReserved (db s) verifiedBallotPrefix k = false → DecodeArtifact (A:=VerifiedBallot) v = Ok vb → False
  end.
Proof.
  intros Hq Henc Hloc Hn. pose proof (PullVerifiedBallots_run pid n s Hq Henc Hloc Hn) as Hrun. cbv zeta in Hrun.
  destruct (selection_spec pid n (db s) Hloc) as [am [H1 H2 _ H4 H5 H6]].
  set (sel := selection pid n (db s)) in *.
  assert (Haddr : address_String ∘ vb_Address <$> sel.*2 = addr_of <$> sel) by (by rewrite <-list_fmap_compose).
  assert (Hmax : ∀ k v vb, db s !! (verifiedBallotPrefix ++ k) = Some v →
    HasPrefix k (pid_bytes pid) = true → isReserved (db s) verifiedBallotPrefix k = false →
    DecodeArtifact v = Ok vb → n ≤ Z.of_nat (length sel) ∨ address_String (vb_Address vb) ∈ addr_of <$> sel).
  { intros k v vb Hk Hp. apply H6. by apply elem_of_view. }
  destruct (decide (sel = [])) as [Hsel|Hsel].
  { rewrite Hrun, Hsel in *. split_and!; [done..|]. intros k v vb Hk Hp Hu Hd.
    destruct (Hmax k v vb Hk Hp Hu Hd) as [?|?%not_elem_of_nil]; [cbn in *; lia|done]. }
  destruct Hrun as (s' & -> & Hl & Hr & Ht). rewrite Haddr. split_and!; try done.
  - rewrite length_fmap. lia.
  - apply Forall2_fmap, Forall_Forall2_diag, Forall_forall. intros [k vb] Hin. cbn.
    destruct (H5 k vb Hin) as (Hu & v & Hv & Hd). apply elem_of_view in Hv as [Hv Hp]; [|done].
    split_and!; [done|done| |by exists v]. apply Hr, list_elem_of_fmap. by exists (k, vb).
  - intros k v vb Hk Hp Hu Hd. rewrite length_fmap. destruct (Hmax k v vb Hk Hp Hu Hd); [left; lia|by right].
Qed.
End pull.

(** ** Checking the hypotheses on a concrete database *)

Section checks.
Context `{Env : StorageEnv}.
Definition pending_check (k val : bytes) : bool :=
  match DecodeArtifact (A:=Ballot) val with
  | Ok b => bool_decide (k = VoteID_Bytes (b_VoteID b)) && VoteID_Valid (b_VoteID b)
  | Err _ => false
  end.
Lemma pending_wf_by d :
  forallb (λ kv, if HasPrefix kv.1 ballotPrefix then pending_check (drop (length ballotPrefix) kv.1) kv.2 else true)
    (map_to_list d) = true → pending_wf d.
Proof.
  intros H k val Hk. apply (under_forallb _ _ _ H) in Hk. unfold pending_check in Hk.
  destruct (DecodeArtifact val) as [b|]; [|done]. apply andb_prop in Hk as [Hk Hv].
  apply bool_decide_eq_true in Hk. eauto.
Qed.
Definition local_check (p k : bytes) : bool :=
  negb (HasPrefix k p) && (length k <? ProcessIDLen)%nat.
Lemma local_keys_by p pid d :
  forallb (λ kv, if HasPrefix kv.1 (p ++ pid_bytes pid)
                 then local_check p (drop (length (p ++ pid_bytes pid)) kv.1) else true) (map_to_list d) = true →
  local_keys p pid d.
Proof.
  intros H r [v Hr]. rewrite app_assoc in Hr.
  apply (under_forallb _ (λ k _, local_check p k) _ H), andb_prop in Hr as [H1 H2].
  by apply negb_true_iff in H1; apply Nat.ltb_lt in H2.
Qed.
End checks.

(** ** At a concrete store *)

Import Concrete.
#[local] Existing Instance env_pebble.
Lemma reservations_encode_concrete : reservations_encode.
Proof. intros t. by eexists. Qed.
(** Two pending ballots of a process. *)
Definition two_pending : Storage := MkStorage
  (<[ballotPrefix ++ VoteID_Bytes (vote 5) := enc (ballot pid1 5 100)]>
   {[ballotPrefix ++ VoteID_Bytes (vote 6) := enc (ballot pid1 6 101)]}) ∅ ∅ ∅ (70 * second) [].
Lemma NextPendingBallot_spec_witness :
  let s' := exec NextPendingBallot two_pending in
  isReserved (db two_pending) ballotPrefix (VoteID_Bytes (vote 5)) = false ∧
  isReserved (db s') ballotPrefix (VoteID_Bytes (vote 5)) = true.
Proof.
  pose proof (NextPendingBallot_spec two_pending ltac:(apply pending_wf_by; by vm_compute)
    eq_refl reservations_encode_concrete) as H.
  rewrite (run_eq NextPendingBallot two_pending (Ok (ballot pid1 5 100, vote 5))) in H by by vm_compute.
  destruct H as (_ & _ & H1 & H2 & _). exact (conj H1 H2).
Defined.
Lemma NextPendingBallot_exclusive_witness :
  let s1 := exec NextPendingBallot two_pending in
  handed two_pending [vote 5; vote 6] (exec NextPendingBallot s1) ∧ NoDup [vote 5; vote 6].
Proof.
  cbv zeta. set (s1 := exec NextPendingBallot two_pending).
  assert (H : handed two_pending [vote 5; vote 6] (exec NextPendingBallot s1)).
  { eapply handed_next; [apply (run_eq _ _ (Ok (ballot pid1 5 100, vote 5))); by vm_compute|].
    eapply handed_next; [apply (run_eq _ _ (Ok (ballot pid1 6 101, vote 6))); by vm_compute|]. constructor. }
  exact (conj H (NextPendingBallot_exclusive _ _ _ H)).
Defined.

(** Three verified ballots, two of them of the same address. *)
Definition three_verified : Storage := MkStorage
  (<[verifiedBallotPrefix ++ pid_bytes pid1 ++ VoteID_Bytes (vote 5) := enc (verified pid1 5 100)]>
   (<[verifiedBallotPrefix ++ pid_bytes pid1 ++ VoteID_Bytes (vote 6) := enc (verified pid1 6 100)]>
    {[verifiedBallotPrefix ++ pid_bytes pid1 ++ VoteID_Bytes (vote 7) := enc (verified pid1 7 101)]}))
  ∅ ∅ ∅ (70 * second) [].
Definition pulled : list VerifiedBallot * list bytes :=
  ([verified pid1 5 100; verified pid1 7 101],
   [pid_bytes pid1 ++ VoteID_Bytes (vote 5); pid_bytes pid1 ++ VoteID_Bytes (vote 7)]).
Lemma PullVerifiedBallots_spec_witness :
  eval (PullVerifiedBallots pid1 3) three_verified = Ok pulled ∧
  NoDup (address_String ∘ vb_Address <$> pulled.1).
Proof.
  assert (He : eval (PullVerifiedBallots pid1 3) three_verified = Ok pulled) by by vm_compute.
  split; [exact He|].
  pose proof (PullVerifiedBallots_spec pid1 3 three_verified eq_refl reservations_encode_concrete
    ltac:(apply local_keys_by; by vm_compute) ltac:(lia)) as H.
  rewrite (run_eq _ _ _ He) in H. unfold pulled in H. by destruct H as (_ & _ & H & _).
Defined.
