(* ===== verification/Batches.v ===== *)
(** * Aggregated batches and state transitions

    [src/storage/ballots_batches.go], [src/storage/tx.go],
    [src/storage/state_transition_artifact.go] and [src/storage/results.go]: the
    queues of aggregated batches and of state transitions, the batch kept aside
    while its transition is on its way, retries and their cooldown, pending
    transactions, transition artifacts and results. *)

From S2P Require Import Prelude Bytes DB Spec Types StorageTypes StorageBase Process VoteStatus Stats Ballots.

(** [src/storage/ballots_batches.go:20-20] *)
Definition MaxStateTransitionAttempts : Z := 5.

(** [1<<uint(k)] on a 64-bit [int]; the shift count is the unsigned word. *)
Definition shl1_int64 (k : Z) : Z :=
  let k := k mod two64 in if 64 <=? k then 0 else int64_of_word (2 ^ k).
Definition wrap_int64 (z : Z) : Z := int64_of_word (z mod two64).
(** [src/storage/ballots_batches.go:202-204] NextAggregatorBatch: the backoff *)
Definition cooldownSeconds (attempts : Z) : Z := Z.min (wrap_int64 (30 * shl1_int64 (attempts - 1))) 300.

(** [src/storage/state_transition_artifact.go:71-77] *)
Definition stateTransitionArtifactKey (pid : ProcessID) (rootAfter : option Z) : bytes :=
  pid_bytes pid ++ match rootAfter with Some r => big_Bytes r | None => [] end.

(** [src/storage/tx.go:8-8] *)
Definition StateTransitionTx : bytes := bytes_of_string "st/".
#[global] Opaque StateTransitionTx.

Definition set_abb_retry (attempts : Z) (ballots : list AggregatorBallot) (t : Time)
    (b : AggregatorBallotBatch) : AggregatorBallotBatch :=
  {| abb_ProcessID := abb_ProcessID b; abb_Proof := abb_Proof b; abb_Ballots := ballots;
     abb_Attempts := attempts; abb_LastAttemptTime := t |}.

Section batches.
Context `{Env : StorageEnv}.

(** ** Pending transactions *)

(** [src/storage/tx.go:16-28] *)
Definition pendingTxs (txType : bytes) (pid : ProcessID) : M bool :=
  r ← attempt (getArtifact (pendingTxPrefix ++ txType) (Some (pid_bytes pid)));
  match r with
  | Ok pendingTx => mret pendingTx
  | Err e => if bool_decide (e = ErrNotFound) then mret false else raise e
  end.
(** [src/storage/tx.go:33-47] *)
Definition SetPendingTx (txType : bytes) (pid : ProcessID) : M () :=
  currentTx ← pendingTxs txType pid;
  if (currentTx : bool) then mret ()
  else setArtifact (pendingTxPrefix ++ txType) (Some (pid_bytes pid)) true.
(** [src/storage/tx.go:50-55] *)
Definition HasPendingTx (txType : bytes) (pid : ProcessID) : M bool :=
  r ← attempt (pendingTxs txType pid);
  mret (match r with Ok pending => pending | Err _ => false end).
(** [src/storage/tx.go:66-69] *)
Definition prunePendingTx (txType : bytes) (pid : ProcessID) : M () :=
  deleteArtifact (pendingTxPrefix ++ txType) (pid_bytes pid).
(** [src/storage/tx.go:58-62] *)
Definition PrunePendingTx := prunePendingTx.

(** ** Transition artifacts *)

(** [src/storage/state_transition_artifact.go:24-36] *)
Definition pushStateTransitionArtifact (artifact : option TransitionArtifact) : M () :=
  match artifact with
  | None => raise (ErrMsg "nil state transition artifact")
  | Some a =>
      match ta_RootHashAfter a with
      | None => raise (ErrMsg "state transition artifact has no rootAfter")
      | Some _ =>
          if decide (ta_ProcessID a = zeroProcessID)
          then raise (ErrMsg "state transition artifact has no processID")
          else setArtifact stateTransitionArtifactPrefix
                 (Some (stateTransitionArtifactKey (ta_ProcessID a) (ta_RootHashAfter a))) a
      end
  end.
(** [src/storage/state_transition_artifact.go:15-20] *)
Definition PushStateTransitionArtifact := pushStateTransitionArtifact.
(** [src/storage/state_transition_artifact.go:49-59] *)
Definition getStateTransitionArtifact (pid : ProcessID) (rootAfter : option Z) : M TransitionArtifact :=
  match rootAfter with
  | None => raise (ErrMsg "nil rootAfter")
  | Some _ => getArtifact stateTransitionArtifactPrefix (Some (stateTransitionArtifactKey pid rootAfter))
  end.
(** [src/storage/state_transition_artifact.go:40-45] *)
Definition GetStateTransitionArtifact := getStateTransitionArtifact.
(** [src/storage/state_transition_artifact.go:63-69] *)
Definition removeStateTransitionArtifact (pid : ProcessID) (rootAfter : option Z) : M () :=
  match rootAfter with
  | None => raise (ErrMsg "nil rootAfter")
  | Some _ => deleteArtifact stateTransitionArtifactPrefix (stateTransitionArtifactKey pid rootAfter)
  end.

(** ** Aggregated batches *)

(** [src/storage/ballots_batches.go:31-64] *)
Definition pushAggregatorBatch (abb : AggregatorBallotBatch) : M () :=
  val ← wrapping "encode batch" (lift (EncodeArtifact abb));
  let key := hashKey val in
  _ ← commit (prefixed_Set aggregBatchPrefix (pid_bytes (abb_ProcessID abb) ++ key) val ∅);
  let n := Z.of_nat (length (abb_Ballots abb)) in
  _ ← wrapping "failed to update process stats" (updateProcessStats (abb_ProcessID abb)
        [{| upd_TypeStats := TypeStatsAggregatedVotes; upd_Delta := n |};
         {| upd_TypeStats := TypeStatsLastBatchSize; upd_Delta := n |};
         {| upd_TypeStats := TypeStatsCurrentBatchSize; upd_Delta := - n |}]);
  forM_ (λ b, warn (setVoteIDStatus (abb_ProcessID abb) (ab_VoteID b) VoteIDStatusAggregated))
    (abb_Ballots abb).
(** [src/storage/ballots_batches.go:23-27] *)
Definition PushAggregatorBatch := pushAggregatorBatch.

(** The reservation and the entry of a queue. *)
Definition removeEntry (prefix key : bytes) : M () :=
  _ ← ignoring ErrNotFound (deleteReservation prefix key);
  ignoring ErrNotFound (deleteArtifact prefix key).
(** [src/storage/ballots_batches.go:307-317] *)
Definition MarkAggregatorBatchDone (k : bytes) : M () := removeEntry aggregBatchPrefix k.

(** [src/storage/ballots_batches.go:67-95] *)
Definition RemoveAggregatorBatchesByProcess (pid : ProcessID) : M () :=
  l ← gets (λ s, prefixed_Iterate bk aggregBatchPrefix (pid_bytes pid) (db s));
  forM_ (λ kv, let k := fix_key pid kv.1 in
               _ ← wrapping "delete batch reservation"
                     (ignoring ErrNotFound (deleteReservation aggregBatchPrefix k));
               wrapping "delete aggregator batch"
                     (ignoring ErrNotFound (deleteArtifact aggregBatchPrefix k))) l.

(** [src/storage/ballots_batches.go:119-146] MarkAggregatorBatchFailed: one ballot *)
Definition failAggregated (pid : ProcessID) (validAggregatedCount : Z) (b : AggregatorBallot) : M Z :=
  currentStatus ← attempt (voteIDStatus pid (ab_VoteID b));
  let n := match currentStatus with
           | Err _ => validAggregatedCount + 1
           | Ok st => if st =? VoteIDStatusAggregated then validAggregatedCount + 1 else validAggregatedCount
           end in
  _ ← releaseVoteID (ab_VoteID b);
  _ ← warn (setVoteIDStatus pid (ab_VoteID b) VoteIDStatusError);
  mret n.
(** [src/storage/ballots_batches.go:101-173] *)
Definition MarkAggregatorBatchFailed (key : bytes) : M () :=
  val ← wrapping "get batch" (rd_Get aggregBatchPrefix key);
  agg ← wrapping "decode batch" (lift (DecodeArtifact (A:=AggregatorBallotBatch) val));
  n ← foldM (failAggregated (abb_ProcessID agg)) 0 (abb_Ballots agg);
  _ ← (if 0 <? n then
         warn (updateProcessStats (abb_ProcessID agg)
           [{| upd_TypeStats := TypeStatsAggregatedVotes; upd_Delta := - n |};
            {| upd_TypeStats := TypeStatsCurrentBatchSize; upd_Delta := n |}])
       else mret ());
  _ ← wrapping "delete reservation" (ignoring ErrNotFound (deleteReservation aggregBatchPrefix key));
  wrapping "delete aggregator batch" (ignoring ErrNotFound (deleteArtifact aggregBatchPrefix key)).

(** [src/storage/ballots_batches.go:178-234] NextAggregatorBatch: the test of the
    callback; [t] is the time of the call *)
Definition batch_ready (d : kv) (t : Time) (pid : ProcessID) (kv : bytes * bytes) : bool :=
  if isReserved d aggregBatchPrefix (fix_key pid kv.1) then false
  else match DecodeArtifact (A:=AggregatorBallotBatch) kv.2 with
  | Err _ => false
  | Ok tempBatch =>
      if negb (abb_LastAttemptTime tempBatch =? zeroTime)
      then negb (t - abb_LastAttemptTime tempBatch <? cooldownSeconds (abb_Attempts tempBatch) * second)
      else true
  end.
(** [src/storage/ballots_batches.go:178-234] *)
Definition NextAggregatorBatch (pid : ProcessID) : M (AggregatorBallotBatch * bytes) :=
  d ← gets db; t ← gets now;
  match List.find (batch_ready d t pid) (prefixed_Iterate bk aggregBatchPrefix (pid_bytes pid) d) with
  | None => raise ErrNoMoreElements
  | Some (k, chosenVal) =>
      let chosenKey := fix_key pid k in
      abb ← wrapping "decode agg batch" (lift (DecodeArtifact (A:=AggregatorBallotBatch) chosenVal));
      r ← attempt (setReservation aggregBatchPrefix chosenKey);
      match r with
      | Err _ => raise ErrNoMoreElements
      | Ok _ => mret (abb, chosenKey)
      end
  end.

(** [src/storage/ballots_batches.go:242-263] *)
Definition MarkAggregatorBatchPending (batch : AggregatorBallotBatch) : M () :=
  val ← wrapping "encode batch" (lift (EncodeArtifact batch));
  let key := pid_bytes (abb_ProcessID batch) in
  r ← attempt (rd_Get pendingAggregBatchPrefix key);
  match r with
  | Ok _ => raise ErrKeyAlreadyExists
  | Err _ => commit (prefixed_Set pendingAggregBatchPrefix key val ∅)
  end.
(** [src/storage/ballots_batches.go:277-292] *)
Definition pendingAggregatorBatch (pid : ProcessID) : M AggregatorBallotBatch :=
  r ← attempt (rd_Get pendingAggregBatchPrefix (pid_bytes pid));
  match r with
  | Err e => if errors_Is e ErrKeyNotFound then raise ErrNotFound else raise (Wrap "get pending agg batch" e)
  | Ok chosenVal => wrapping "decode pending agg batch" (lift (DecodeArtifact (A:=AggregatorBallotBatch) chosenVal))
  end.
(** [src/storage/ballots_batches.go:267-272] *)
Definition PendingAggregatorBatch := pendingAggregatorBatch.
(** [src/storage/ballots_batches.go:297-303] *)
Definition releasePendingAggregatorBatch (pid : ProcessID) : M () :=
  commit (prefixed_Delete pendingAggregBatchPrefix (pid_bytes pid) ∅).
(** [src/storage/ballots_batches.go:737-742] *)
Definition releaseAggregatorBatchReservation (k : bytes) : M () :=
  ignoring ErrNotFound (deleteReservation aggregBatchPrefix k).

(** ** State transitions *)

(** [src/storage/ballots_batches.go:320-361] *)
Definition PushStateTransitionBatch (stb : StateTransitionBatch) : M () :=
  val ← wrapping "encode state transition batch" (lift (EncodeArtifact stb));
  let key := hashKey val in
  _ ← commit (prefixed_Set stateTransitionPrefix (pid_bytes (stb_ProcessID stb) ++ key) val ∅);
  _ ← wrapping "failed to update process stats" (updateProcessStats (stb_ProcessID stb)
        [{| upd_TypeStats := TypeStatsStateTransitions; upd_Delta := 1 |}]);
  forM_ (λ b, warn (setVoteIDStatus (stb_ProcessID stb) (ab_VoteID b) VoteIDStatusProcessed))
    (stb_Ballots stb).

(** [src/storage/ballots_batches.go:363-402] *)
Definition NextStateTransitionBatch (pid : ProcessID) : M (StateTransitionBatch * bytes) :=
  d ← gets db;
  match List.find (λ kv, negb (isReserved d stateTransitionPrefix (fix_key pid kv.1)))
          (prefixed_Iterate bk stateTransitionPrefix (pid_bytes pid) d) with
  | None => raise ErrNoMoreElements
  | Some (k, chosenVal) =>
      let chosenKey := fix_key pid k in
      stb ← wrapping "decode state transition batch" (lift (DecodeArtifact (A:=StateTransitionBatch) chosenVal));
      r ← attempt (setReservation stateTransitionPrefix chosenKey);
      match r with
      | Err _ => raise ErrNoMoreElements
      | Ok _ => mret (stb, chosenKey)
      end
  end.

(** [src/storage/ballots_batches.go:747-757] *)
Definition removeStateTransitionBatch (key : bytes) : M () :=
  _ ← wrapping "delete state transition reservation"
        (ignoring ErrNotFound (deleteReservation stateTransitionPrefix key));
  wrapping "delete state transition batch" (ignoring ErrNotFound (deleteArtifact stateTransitionPrefix key)).

(** [src/storage/ballots_batches.go:404-471] *)
Definition MarkStateTransitionBatchDone (k : bytes) (pid : ProcessID) : M () :=
  r ← attempt (rd_Get stateTransitionPrefix k);
  _ ← match r with
      | Err e => if negb (errors_Is e ErrKeyNotFound) then raise (Wrap "get state transition batch" e) else mret ()
      | Ok val =>
          match DecodeArtifact (A:=StateTransitionBatch) val with
          | Err _ => mret ()
          | Ok stb =>
              let voteIDs := ab_VoteID <$> stb_Ballots stb in
              _ ← forM_ releaseVoteID voteIDs;
              warn (markVoteIDsDone pid voteIDs)
          end
      end;
  _ ← removeStateTransitionBatch k;
  _ ← wrapping "delete pending aggregator batch"
        (ignoring ErrKeyNotFound (releasePendingAggregatorBatch pid));
  warn (updateProcessStats pid
    [{| upd_TypeStats := TypeStatsSettledStateTransitions; upd_Delta := 1 |};
     {| upd_TypeStats := TypeStatsLastTransitionDate; upd_Delta := 0 |}]).

(** [src/storage/ballots_batches.go:475-500] *)
Definition RemoveStateTransitionBatchesByProcess (pid : ProcessID) : M () :=
  l ← gets (λ s, prefixed_Iterate bk stateTransitionPrefix (pid_bytes pid) (db s));
  forM_ (λ kv, removeStateTransitionBatch (fix_key pid kv.1)) l.

(** [src/storage/ballots_batches.go:508-593] *)
Definition MarkStateTransitionBatchOutdated (key : bytes) : M () :=
  r ← attempt (rd_Get stateTransitionPrefix key);
  match r with
  | Err e =>
      if errors_Is e ErrKeyNotFound then
        wrapping "delete state transition reservation"
          (ignoring ErrNotFound (deleteReservation stateTransitionPrefix key))
      else raise (Wrap "get state transition batch" e)
  | Ok val =>
      let stb := match DecodeArtifact val with Ok stb => stb | Err _ => PartialStateTransitionBatch val end in
      _ ← match RootHashAfter (stb_Inputs stb) with
          | None => mret ()
          | Some root =>
              wrapping "delete state transition artifact"
                (ignoring ErrNotFound (removeStateTransitionArtifact (stb_ProcessID stb) (Some root)))
          end;
      _ ← wrapping "delete state transition reservation"
            (ignoring ErrNotFound (deleteReservation stateTransitionPrefix key));
      _ ← wrapping "delete state transition batch"
            (ignoring ErrNotFound (deleteArtifact stateTransitionPrefix key));
      _ ← (if pid_IsValid (stb_ProcessID stb) then
             _ ← wrapping "prune pending state transition tx"
                   (ignoring ErrNotFound (prunePendingTx StateTransitionTx (stb_ProcessID stb)));
             p ← attempt (pendingAggregatorBatch (stb_ProcessID stb));
             match p with
             | Ok pendingBatch =>
                 _ ← wrapping "release pending aggregator batch"
                       (ignoring ErrKeyNotFound (releasePendingAggregatorBatch (stb_ProcessID stb)));
                 wrapping "requeue pending aggregator batch"
                   (ignoring ErrKeyAlreadyExists (pushAggregatorBatch pendingBatch))
             | Err e =>
                 if negb (errors_Is e ErrNotFound) then raise (Wrap "get pending aggregator batch" e)
                 else mret ()
             end
           else mret ());
      match stb_BatchID stb with
      | [] => mret ()
      | batchID => warn (releaseAggregatorBatchReservation batchID)
      end
  end.

(** [src/storage/ballots_batches.go:725-729] MarkStateTransitionBatchFailed: mark
    the ballots as failed *)
Definition markBallotsError (pid : ProcessID) (ballots : list AggregatorBallot) : M () :=
  forM_ (λ b, warn (setVoteIDStatus pid (ab_VoteID b) VoteIDStatusError)) ballots.
(** [src/storage/ballots_batches.go:685-699] MarkStateTransitionBatchFailed: the
    votes the state already holds are failed, the others kept *)
Fixpoint filterSettled (pid : ProcessID) (containsVoteID : uint64 → bool)
    (ballots : list AggregatorBallot) : M (list AggregatorBallot) :=
  match ballots with
  | [] => mret []
  | v :: ballots =>
      if containsVoteID (ab_VoteID v) then
        _ ← warn (setVoteIDStatus pid (ab_VoteID v) VoteIDStatusError);
        filterSettled pid containsVoteID ballots
      else
        rest ← filterSettled pid containsVoteID ballots; mret (v :: rest)
  end.
(** [src/storage/ballots_batches.go:637-722] MarkStateTransitionBatchFailed: retry
    the batch that was kept aside *)
Definition retryPendingBatch (stb : StateTransitionBatch) (pid : ProcessID)
    (pendingBatch : AggregatorBallotBatch) : M () :=
  _ ← wrapping "failed to release pending aggregator batch" (releasePendingAggregatorBatch pid);
  let attempts := abb_Attempts pendingBatch + 1 in
  if MaxStateTransitionAttempts <=? attempts then markBallotsError pid (stb_Ballots stb)
  else
    p ← wrapping "failed to get process for validation" (process (stb_ProcessID stb));
    isAccepting ← attempt (processIsAcceptingVotes p);
    match isAccepting with
    | Err _ | Ok false => markBallotsError (stb_ProcessID stb) (stb_Ballots stb)
    | Ok true =>
        match p_StateRoot p with
        | None => raise (ErrMsg "process has no state root")
        | Some _ =>
            d ← gets db;
            match LoadSnapshotOnRoot d (stb_ProcessID stb) (p_StateRoot p) with
            | None => raise (ErrMsg "failed to load state for process")
            | Some containsVoteID =>
                validBallots ← filterSettled (stb_ProcessID stb) containsVoteID (stb_Ballots stb);
                match validBallots with
                | [] => mret ()
                | _ =>
                    t ← gets now;
                    wrapping "failed to recover pending aggregator batch"
                      (pushAggregatorBatch (set_abb_retry attempts validBallots t pendingBatch))
                end
            end
        end
    end.
(** [src/storage/ballots_batches.go:599-734] MarkStateTransitionBatchFailed; the
    deferred removal runs on every return after the artifact's *)
Definition MarkStateTransitionBatchFailed (key : bytes) (pid : ProcessID) : M () :=
  r ← attempt (rd_Get stateTransitionPrefix key);
  match r with
  | Err e => if errors_Is e ErrKeyNotFound then mret () else raise (Wrap "get state transition batch" e)
  | Ok rawBatch =>
      stb ← wrapping "decode state transition batch" (lift (DecodeArtifact (A:=StateTransitionBatch) rawBatch));
      _ ← match RootHashAfter (stb_Inputs stb) with
          | None => mret ()
          | Some root =>
              wrapping "delete state transition artifact"
                (ignoring ErrNotFound (removeStateTransitionArtifact (stb_ProcessID stb) (Some root)))
          end;
      result ← attempt (
        p ← attempt (pendingAggregatorBatch pid);
        match p with
        | Err e =>
            if negb (errors_Is e ErrNotFound) then raise (Wrap "failed to get pending aggregator batch" e)
            else markBallotsError pid (stb_Ballots stb)
        | Ok pendingBatch => retryPendingBatch stb pid pendingBatch
        end);
      _ ← warn (removeStateTransitionBatch key);
      _ ← warn (prunePendingTx StateTransitionTx pid);
      lift result
  end.

(** ** Results *)

(** [src/storage/results.go:22-49] *)
Definition PushVerifiedResults (res : VerifiedResults) : M () :=
  val ← wrapping "encode state transition batch" (lift (EncodeArtifact res));
  r ← attempt (rd_Get verifiedResultPrefix (pid_bytes (vr_ProcessID res)));
  match r with
  | Ok _ => raise (ErrMsg "verified results already exists")
  | Err _ => commit (prefixed_Set verifiedResultPrefix (pid_bytes (vr_ProcessID res)) val ∅)
  end.
(** [src/storage/results.go:56-82] *)
Definition NextVerifiedResults : M VerifiedResults :=
  l ← gets (λ s, prefixed_Iterate bk verifiedResultPrefix [] (db s));
  match l with
  | [] => raise ErrNoMoreElements
  | (_, chosenVal) :: _ => wrapping "decode verified results" (lift (DecodeArtifact (A:=VerifiedResults) chosenVal))
  end.
(** [src/storage/results.go:85-101] *)
Definition MarkVerifiedResultsDone (pid : ProcessID) : M () :=
  commit (prefixed_Delete verifiedResultPrefix (pid_bytes pid) ∅).
(** [src/storage/results.go:106-113] *)
Definition HasVerifiedResults (pid : ProcessID) : M bool :=
  r ← attempt (rd_Get verifiedResultPrefix (pid_bytes pid)); mret (is_Ok r).
End batches.

(** ** Cooldown *)

(** The cooldown of a batch never exceeds five minutes, and for every number
    of attempts from 1 to 59 it is 30 seconds doubled per attempt, capped at
    five minutes; the 64-bit arithmetic does not wrap there. *)
Theorem cooldownSeconds_spec a :
  cooldownSeconds a ≤ 300 ∧
  (1 ≤ a ≤ 59 → cooldownSeconds a = Z.min (30 * 2 ^ (a - 1)) 300 ∧ 30 ≤ cooldownSeconds a).
Proof.
  split; [apply Z.le_min_r|]. intros Ha.
  assert (Hk : 0 < 2 ^ (a - 1) ≤ 2 ^ 58) by (split; [apply Z.pow_pos_nonneg|apply Z.pow_le_mono_r]; lia).
  assert (H30 : 30 * 2 ^ (a - 1) < 2 ^ 63) by lia.
  unfold cooldownSeconds, shl1_int64, wrap_int64, int64_of_word, two64 in *.
  rewrite (Z.mod_small (a - 1)) by lia. destruct (Z.leb_spec 64 (a - 1)); [lia|].
  destruct (Z.ltb_spec (2 ^ (a - 1)) (2 ^ 63)); [|lia].
  rewrite Z.mod_small by lia. destruct (Z.ltb_spec (30 * 2 ^ (a - 1)) (2 ^ 63)); [|lia]. lia.
Qed.
Lemma cooldownSeconds_spec_witness : cooldownSeconds 3 = Z.min (30 * 2 ^ (3 - 1)) 300 ∧ cooldownSeconds 3 = 120.
Proof. split; [apply (cooldownSeconds_spec 3); lia|by vm_compute]. Defined.

(** ** Runs of the building blocks *)

Section facts.
Context `{Env : StorageEnv}.

(** Every value added under the aggregated batches satisfies [Q]. *)
Definition adds_batches (Q : bytes → Prop) : relation Storage := λ s s', ∀ k v,
  db s' !! (aggregBatchPrefix ++ k) = Some v → db s !! (aggregBatchPrefix ++ k) = Some v ∨ Q v.
#[export] Instance adds_batches_preorder Q : PreOrder (adds_batches Q).
Proof.
  split; [by left|]. intros a b c Hab Hbc k v Hc. destruct (Hbc k v Hc) as [Hb|]; [|by right]. by apply Hab.
Qed.
Lemma adds_batches_touches {A} Q ps (m : M A) :
  forallb (incompatible aggregBatchPrefix) ps = true → moves (touches (spaces ps)) m → moves (adds_batches Q) m.
Proof. intros Hps Hm s k v. rewrite (Hm s _ (spaces_no _ _ k Hps)). by left. Qed.
Lemma adds_batches_delete Q p k : moves (adds_batches Q) (commit (prefixed_Delete p k ∅)).
Proof.
  intros s k' v. destruct (commit_Delete_cases p k s) as [(e & s' & -> & Hd & _)|(s' & -> & Hd & _)];
    cbn [snd]; rewrite Hd; [by left|]. intros [_ ?]%lookup_delete_Some. by left.
Qed.

Lemma moves_setVoteIDStatus_touches ps pid v st :
  voteIDStatusPrefix ∈ ps → moves (touches (spaces ps)) (setVoteIDStatus pid v st).
Proof.
  intros Hp. eapply touches_weaken; [|apply setVoteIDStatus_touches].
  intros k ->. unfold status_key. by apply spaces_in.
Qed.
Lemma moves_pendingAggregatorBatch (R : relation Storage) `{!PreOrder R} pid : moves R (pendingAggregatorBatch pid).
Proof. unfold pendingAggregatorBatch. repeat first [progress moves | by apply moves_rd_Get; apply _]. Qed.
Lemma moves_process (R : relation Storage) `{!PreOrder R} pid : moves R (process pid).
Proof. unfold process. apply moves_getArtifact. apply _. Qed.
Lemma moves_processIsAcceptingVotes (R : relation Storage) `{!PreOrder R} p : moves R (processIsAcceptingVotes p).
Proof. unfold processIsAcceptingVotes, processIsOnChainAlive. moves. Qed.

Lemma adds_batches_status Q pid v st : moves (adds_batches Q) (setVoteIDStatus pid v st).
Proof.
  apply (adds_batches_touches _ [voteIDStatusPrefix]); [by vm_compute|].
  apply moves_setVoteIDStatus_touches. in_list.
Qed.
Lemma adds_batches_stats Q pid us : moves (adds_batches Q) (updateProcessStats pid us).
Proof.
  apply (adds_batches_touches _ [processPrefix; statsPrefix]); [by vm_compute|].
  apply updateProcessStats_touches; in_list.
Qed.
Lemma adds_batches_commit (Q : bytes → Prop) k v :
  Q v → moves (adds_batches Q) (commit (prefixed_Set aggregBatchPrefix k v ∅)).
Proof.
  intros HQ s k' v'. destruct (commit_Set_cases aggregBatchPrefix k v s)
    as [(e & s' & -> & Hd & _)|(s' & -> & Hd & _)]; cbn [snd]; rewrite Hd; [by left|].
  intros [[_ ->]|[_ ?]]%lookup_insert_Some; auto.
Qed.
Lemma adds_batches_push (Q : bytes → Prop) abb :
  (∀ v, EncodeArtifact abb = Ok v → Q v) → moves (adds_batches Q) (pushAggregatorBatch abb).
Proof.
  intros HQ. unfold pushAggregatorBatch. apply moves_bind_lift; [apply _|]. intros val Hval.
  repeat first [progress moves | by apply adds_batches_commit, HQ | apply adds_batches_stats
               | apply adds_batches_status].
Qed.
Lemma adds_batches_errors Q pid bs : moves (adds_batches Q) (markBallotsError pid bs).
Proof. unfold markBallotsError. repeat first [progress moves | apply adds_batches_status]. Qed.

(** The votes kept are the ones the state does not hold, in order. *)
Lemma filterSettled_eq pid f bs s :
  (filterSettled pid f bs s).1 = Ok (List.filter (λ b, negb (f (ab_VoteID b))) bs).
Proof.
  revert s. induction bs as [|b bs IH]; intros s; [done|]. cbn [filterSettled List.filter].
  destruct (f (ab_VoteID b)); cbn [negb]; [apply (IH _)|].
  unfold mbind, SE_bind, mret, SE_ret. specialize (IH s).
  destruct (filterSettled pid f bs s) as [r s']. cbn in IH. by rewrite IH.
Qed.
Lemma adds_batches_filter Q pid f bs : moves (adds_batches Q) (filterSettled pid f bs).
Proof.
  induction bs as [|b bs IH]; cbn [filterSettled]; [moves|].
  destruct (f (ab_VoteID b)); repeat first [progress moves | apply adds_batches_status | apply IH].
Qed.
Lemma filterSettled_now pid f bs : moves (same now) (filterSettled pid f bs).
Proof.
  induction bs as [|b bs IH]; cbn [filterSettled]; [moves|].
  destruct (f (ab_VoteID b)); unfold setVoteIDStatus; repeat first [progress moves | apply IH].
Qed.

(** A batch requeued for retry: one more attempt, under the maximum, and only
    the ballots the confirmed state does not hold, at least one. *)
Definition retried (stb : StateTransitionBatch) (pb : AggregatorBallotBatch) (v : bytes) : Prop :=
  ∃ t d root contains,
    LoadSnapshotOnRoot d (stb_ProcessID stb) (Some root) = Some contains ∧
    let kept := List.filter (λ b, negb (contains (ab_VoteID b))) (stb_Ballots stb) in
    kept ≠ [] ∧ abb_Attempts pb + 1 < MaxStateTransitionAttempts ∧
    EncodeArtifact (set_abb_retry (abb_Attempts pb + 1) kept t pb) = Ok v.

Lemma adds_batches_retry stb pid pb : moves (adds_batches (retried stb pb)) (retryPendingBatch stb pid pb).
Proof.
  unfold retryPendingBatch, releasePendingAggregatorBatch.
  apply moves_bind; [apply _|apply moves_wrapping, adds_batches_delete|intros _].
  destruct (Z.leb_spec MaxStateTransitionAttempts (abb_Attempts pb + 1)) as [|Hmax];
    [apply adds_batches_errors|].
  apply moves_bind; [apply _|apply moves_wrapping, moves_process; apply _|intros p].
  apply moves_bind; [apply _|apply moves_attempt, moves_processIsAcceptingVotes; apply _|intros acc].
  destruct acc as [[]|]; [|apply adds_batches_errors..].
  destruct (p_StateRoot p) as [root|]; [|moves].
  apply moves_bind; [apply _|moves|intros d].
  destruct (LoadSnapshotOnRoot d (stb_ProcessID stb) (Some root)) as [f|] eqn:Hf; [|moves].
  intros s. pose proof (filterSettled_eq (stb_ProcessID stb) f (stb_Ballots stb) s) as He.
  pose proof (adds_batches_filter (retried stb pb) (stb_ProcessID stb) f (stb_Ballots stb) s) as Ha.
  unfold mbind, SE_bind at 1. destruct (filterSettled _ f (stb_Ballots stb) s) as [r s1].
  cbn in He, Ha. rewrite He. set (kept := List.filter _ _). etrans; [exact Ha|].
  destruct kept as [|b l] eqn:Hk; [reflexivity|]. rewrite <-Hk.
  to_moves. apply moves_bind; [apply _|moves|intros t].
  apply moves_wrapping, adds_batches_push. intros v Hv. exists t, d, root, f.
  split; [done|]. cbv zeta. fold kept. by rewrite Hk in Hv |- *.
Qed.


(** ** A settled transition *)

Lemma forM_releaseVoteID vs s :
  forM_ releaseVoteID vs s = (Ok (), set_processingVoteIDs (λ S, S ∖ list_to_set vs) s).
Proof.
  revert s. induction vs as [|v vs IH]; intros s; cbn [forM_].
  - destruct s. unfold mret, SE_ret, set_processingVoteIDs. cbn. do 2 f_equal. set_solver.
  - unfold mbind, SE_bind. cbn. rewrite IH. unfold set_processingVoteIDs. cbn. do 2 f_equal. set_solver.
Qed.
Lemma done_writes (pid : ProcessID) (vs : list uint64) (w : writes) (k : bytes) :
  foldl (λ w v, prefixed_Set voteIDStatusPrefix (createVoteIDStatusKey pid v)
                  (intToBytes VoteIDStatusDone) w) w vs !! k =
  if decide (k ∈ status_key pid <$> vs) then Some (Some (intToBytes VoteIDStatusDone)) else w !! k.
Proof.
  revert w. induction vs as [|v vs IH]; intros w; cbn [foldl fmap list_fmap]; [done|].
  rewrite IH. unfold prefixed_Set, prefixSlice. fold (status_key pid v).
  destruct (decide (k ∈ status_key pid <$> vs)), (decide (k ∈ status_key pid v :: (status_key pid <$> vs)));
    try done; [set_solver| |].
  - assert (k = status_key pid v) as -> by set_solver. by rewrite lookup_insert_eq.
  - rewrite lookup_insert_ne; [done|]. set_solver.
Qed.
Lemma removeStateTransitionBatch_quiet key s :
  quiet s → removeStateTransitionBatch key s =
  (Ok (), set_db (delete (stateTransitionPrefix ++ key)
                    (delete (reservationDB stateTransitionPrefix ++ key) (db s))) s).
Proof.
  intros Hq. unfold removeStateTransitionBatch, wrapping, ignoring, mbind, SE_bind.
  rewrite deleteReservation_quiet by done. by rewrite deleteArtifact_quiet.
Qed.

(** Settling a state transition, when no commit fails: every vote of the
    batch becomes done and is unlocked, the batch, its reservation and the batch
    kept aside for the process are gone, and no other vote's status changes. The
    address locks are left as they are. *)
Theorem MarkStateTransitionBatchDone_spec key pid s raw stb :
  quiet s → db s !! (stateTransitionPrefix ++ key) = Some raw → DecodeArtifact raw = Ok stb →
  let '(r, s') := MarkStateTransitionBatchDone key pid s in
  let votes := ab_VoteID <$> stb_Ballots stb in
  r = Ok () ∧
  (∀ v, v ∈ votes → stored_status (db s') pid v = Some (intToBytes VoteIDStatusDone)) ∧
  (∀ pid' v, pid' ≠ pid ∨ v ∉ votes → stored_status (db s') pid' v = stored_status (db s) pid' v) ∧
  processingVoteIDs s' = processingVoteIDs s ∖ list_to_set votes ∧
  processingAddresses s' = processingAddresses s ∧
  db s' !! (stateTransitionPrefix ++ key) = None ∧ isReserved (db s') stateTransitionPrefix key = false ∧
  db s' !! (pendingAggregBatchPrefix ++ pid_bytes pid) = None.
Proof.
  intros Hq Hraw Hstb. set (votes := ab_VoteID <$> stb_Ballots stb).
  unfold MarkStateTransitionBatchDone.
  rewrite (bind_Ok _ _ s (Ok raw) s) by (by rewrite attempt_rd_Get, Hraw). cbv beta iota. rewrite Hstb.
  fold votes. set (s1 := set_processingVoteIDs (λ S, S ∖ list_to_set votes) s).
  set (w := foldl (λ w v, prefixed_Set voteIDStatusPrefix (createVoteIDStatusKey pid v)
                            (intToBytes VoteIDStatusDone) w) ∅ votes).
  rewrite (bind_Ok _ _ s () (set_db (apply_writes w (db s)) s1)).
  2:{ rewrite (bind_Ok _ _ s () s1 (forM_releaseVoteID _ _)). rewrite warn_eq.
      unfold markVoteIDsDone. fold w. by rewrite commit_quiet. }
  rewrite (bind_Ok _ _ _ _ _ (removeStateTransitionBatch_quiet key (set_db (apply_writes w (db s)) s1) Hq)).
  cbn [db set_db].
  set (d1 := delete _ (delete _ _)).
  erewrite bind_Ok; [|unfold wrapping, ignoring, releasePendingAggregatorBatch; by rewrite commit_quiet, apply_Delete].
  rewrite warn_eq. set (s2 := set_db (delete _ _) _).
  pose proof (moves_updateProcessStats_locks pid
    [{| upd_TypeStats := TypeStatsSettledStateTransitions; upd_Delta := 1 |};
     {| upd_TypeStats := TypeStatsLastTransitionDate; upd_Delta := 0 |}] s2) as Hl.
  pose proof (updateProcessStats_touches stats_spaces pid
    [{| upd_TypeStats := TypeStatsSettledStateTransitions; upd_Delta := 1 |};
     {| upd_TypeStats := TypeStatsLastTransitionDate; upd_Delta := 0 |}]
    ltac:(unfold stats_spaces; in_list) ltac:(unfold stats_spaces; in_list) s2) as Ht.
  set (s3 := (updateProcessStats pid _ s2).2) in *. clearbody s3.
  unfold same, locks in Hl. injection Hl as Hl1 Hl2 _.
  assert (Hk : ∀ q k, forallb (incompatible q) stats_spaces = true → db s3 !! (q ++ k) = db s2 !! (q ++ k))
    by (intros q k Hqk; apply Ht; by apply spaces_no).
  assert (Hst : ∀ pid' v, stored_status (db s3) pid' v = apply_writes w (db s) !! status_key pid' v).
  { intros pid' v. unfold stored_status, status_key. rewrite Hk by by vm_compute. unfold s2, d1. cbn.
    rewrite !lookup_delete_ne by (apply incompatible_app; by vm_compute). done. }
  split_and!; [done| | |done|done| | |].
  - intros v Hv. rewrite Hst, lookup_apply_writes. unfold w. rewrite done_writes, decide_True; [done|].
    by apply list_elem_of_fmap_2.
  - intros pid' v Hne. rewrite Hst, lookup_apply_writes. unfold w.
    rewrite done_writes, decide_False; [by rewrite lookup_empty|].
    intros (v' & [-> ->]%status_key_inj & Hv')%list_elem_of_fmap. naive_solver.
  - rewrite Hk by by vm_compute. unfold s2, d1. cbn.
    rewrite lookup_delete_ne by (apply incompatible_app; by vm_compute). apply lookup_delete_eq.
  - apply bool_decide_eq_false. unfold prefixed_Get, prefixSlice. rewrite Hk by by vm_compute.
    unfold s2, d1. cbn. rewrite !lookup_delete_ne by (apply incompatible_app; by vm_compute).
    rewrite lookup_delete_eq. by intros [? ?].
  - rewrite Hk by by vm_compute. unfold s2. cbn. apply lookup_delete_eq.
Qed.

(** ** The slot for a batch on its way, and the results *)

(** A process has one slot for the batch whose transition is on its way: it
    is filled only when empty and gives back the batch it was filled with;
    filling it again is refused with "key already exists" and, like every
    refused call, changes nothing. *)
Theorem MarkAggregatorBatchPending_slot batch s :
  let '(r, s') := MarkAggregatorBatchPending batch s in
  let slot := pendingAggregBatchPrefix ++ pid_bytes (abb_ProcessID batch) in
  match r with
  | Ok _ => db s !! slot = None ∧ touches (λ k, k = slot) s s' ∧ locks s' = locks s ∧
            PendingAggregatorBatch (abb_ProcessID batch) s' = (Ok (norm batch), s') ∧
            (MarkAggregatorBatchPending batch s').1 = Err ErrKeyAlreadyExists
  | Err e => unmoved s s' ∧
            (is_Some (db s !! slot) → is_Ok (EncodeArtifact batch) = true → e = ErrKeyAlreadyExists)
  end.
Proof.
  unfold MarkAggregatorBatchPending, wrapping, lift. run_simpl.
  destruct (EncodeArtifact batch) as [val|e] eqn:Hval; [|done].
  rewrite attempt_rd_Get. set (slot := pendingAggregBatchPrefix ++ _).
  destruct (db s !! slot) as [old|] eqn:Hold; [done|].
  destruct (commit_Set_cases pendingAggregBatchPrefix (pid_bytes (abb_ProcessID batch)) val s)
    as [(e & s' & -> & Hu)|(s' & -> & Hd & Hl & _)]; [by split; [|intros [? ?]]|].
  fold slot in Hd. split_and!; [done| |done| |].
  - intros k Hk. by rewrite Hd, lookup_insert_ne.
  - unfold PendingAggregatorBatch, pendingAggregatorBatch. rewrite (bind_Ok _ _ s' (Ok val) s').
    + unfold wrapping, lift. by rewrite (codec_roundtrip _ _ Hval).
    + rewrite attempt_rd_Get. fold slot. by rewrite Hd, lookup_insert_eq.
  - rewrite attempt_rd_Get. fold slot. by rewrite Hd, lookup_insert_eq.
Qed.

(** The verified results of a process are stored once: a first push stores
    them and they are then reported; until they are marked done every further
    push is refused and changes nothing; marking them done, when the commit does
    not fail, frees the process again. *)
Theorem PushVerifiedResults_once res s :
  let '(r, s') := PushVerifiedResults res s in
  let pid := vr_ProcessID res in
  match r with
  | Err _ => unmoved s s'
  | Ok _ => (HasVerifiedResults pid s).1 = Ok false ∧ (HasVerifiedResults pid s').1 = Ok true ∧
            (∀ res', vr_ProcessID res' = pid → is_Ok (PushVerifiedResults res' s').1 = false) ∧
            (quiet s' → (HasVerifiedResults pid (MarkVerifiedResultsDone pid s').2).1 = Ok false)
  end.
Proof.
  assert (Hhas : ∀ pid s, (HasVerifiedResults pid s).1 =
    Ok (is_Ok match db s !! (verifiedResultPrefix ++ pid_bytes pid) with
              | Some v => Ok v | None => Err ErrKeyNotFound end)).
  { intros pid s0. unfold HasVerifiedResults. run_simpl. by rewrite attempt_rd_Get. }
  destruct (PushVerifiedResults res s) as [r s'] eqn:Hrun. cbv zeta. revert Hrun.
  unfold PushVerifiedResults at 1, wrapping, lift. run_simpl.
  destruct (EncodeArtifact res) as [val|e] eqn:Hval; [|by intros [= <- <-]].
  rewrite attempt_rd_Get. set (slot := verifiedResultPrefix ++ pid_bytes (vr_ProcessID res)).
  destruct (db s !! slot) as [old|] eqn:Hold; [by intros [= <- <-]|].
  destruct (commit_Set_cases verifiedResultPrefix (pid_bytes (vr_ProcessID res)) val s)
    as [(e & s1 & -> & Hu)|(s1 & -> & Hd & Hl & _)]; intros [= <- <-]; [done|]. fold slot in Hd.
  rewrite !Hhas. fold slot. rewrite Hold, Hd, lookup_insert_eq. split_and!; [done..| |].
  - intros res' Hpid. unfold PushVerifiedResults, wrapping, lift. run_simpl.
    destruct (EncodeArtifact res') as [val'|]; [|done]. rewrite attempt_rd_Get, Hpid. fold slot.
    by rewrite Hd, lookup_insert_eq.
  - intros Hq. unfold MarkVerifiedResultsDone. rewrite commit_quiet, apply_Delete by done. cbn [snd db set_db].
    fold slot. by rewrite lookup_delete_eq.
Qed.

(** ** Handing out aggregated batches *)

(** In a queue of well-formed keys, when no commit fails, the next aggregated
    batch of a process is one of its stored batches that nobody had reserved and
    whose cooldown is over; it is handed out reserved and nothing else changes.
    "No more elements" means that each of its batches is reserved, unreadable
    or cooling down. *)
Theorem NextAggregatorBatch_spec pid s :
  quiet s → reservations_encode → local_keys aggregBatchPrefix pid (db s) →
  let cooling abb := abb_LastAttemptTime abb ≠ zeroTime ∧
        now s - abb_LastAttemptTime abb < cooldownSeconds (abb_Attempts abb) * second in
  match NextAggregatorBatch pid s with
  | (Ok (abb, k), s') =>
      HasPrefix k (pid_bytes pid) = true ∧
      (∃ v, db s !! (aggregBatchPrefix ++ k) = Some v ∧ DecodeArtifact v = Ok abb) ∧ ¬ cooling abb ∧
      isReserved (db s) aggregBatchPrefix k = false ∧ isReserved (db s') aggregBatchPrefix k = true ∧
      locks s' = locks s ∧ touches (λ k', k' = reservationDB aggregBatchPrefix ++ k) s s'
  | (Err e, s') =>
      e = ErrNoMoreElements ∧ s' = s ∧
      ∀ k v abb, db s !! (aggregBatchPrefix ++ k) = Some v → HasPrefix k (pid_bytes pid) = true →
        DecodeArtifact v = Ok abb → isReserved (db s) aggregBatchPrefix k = false → cooling abb
  end.
Proof.
  intros Hq Henc Hloc cooling.
  set (l := prefixed_Iterate bk aggregBatchPrefix (pid_bytes pid) (db s)).
  assert (Hl : ∀ k v, (k, v) ∈ l → (fix_key pid k, v) ∈ view aggregBatchPrefix pid (db s)).
  { intros k v Hin. unfold view. apply list_elem_of_fmap. by exists (k, v). }
  unfold NextAggregatorBatch, gets, wrapping, lift. run_simpl. fold l.
  destruct (List.find _ l) as [[k v]|] eqn:Hf.
  - apply find_some in Hf as [Hin%list_elem_of_In Hready]. unfold batch_ready in Hready. cbn in Hready.
    destruct (isReserved (db s) aggregBatchPrefix (fix_key pid k)) eqn:Hr; [done|].
    destruct (DecodeArtifact v) as [abb|] eqn:Hd; [|done].
    destruct (Henc (Unix (now s))) as [w Hw]. unfold attempt.
    rewrite (setReservation_quiet _ _ w s Hq Hw Hr).
    apply Hl, elem_of_view in Hin as [Hin Hp]; [|done].
    split_and!; [done|eauto| |done|apply isReserved_insert|done|].
    + unfold cooling. intros [Hz Hc]. destruct (Z.eqb_spec (abb_LastAttemptTime abb) zeroTime); [done|].
      cbn in Hready. apply Z.ltb_lt in Hc. by rewrite Hc in Hready.
    + intros k' Hk'. cbn. by rewrite lookup_insert_ne.
  - split_and!; [done..|]. intros k v abb Hk Hp Hd Hr.
    assert (Hin : (k, v) ∈ view aggregBatchPrefix pid (db s)) by (by apply elem_of_view).
    apply list_elem_of_fmap in Hin as ([k' v'] & [= -> ->] & Hin). apply list_elem_of_In in Hin.
    apply (find_none _ _ Hf) in Hin. unfold batch_ready in Hin. cbn in Hin. rewrite Hr, Hd in Hin.
    destruct (Z.eqb_spec (abb_LastAttemptTime abb) zeroTime); [done|]. cbn in Hin.
    split; [done|]. by apply negb_false_iff, Z.ltb_lt in Hin.
Qed.
End facts.

(** ** At a concrete store *)

Import Concrete.
Lemma reservations_encode_mem : reservations_encode (Env:=env_mem).
Proof. intros t. by eexists. Qed.
(** One aggregated batch, tried once, and a transition of a batch kept aside. *)
Definition in_batches : Storage := MkStorage
  (<[processPrefix ++ pid_bytes pid1 := enc (H0:=codec_Process) process1]>
   (<[stateTransitionPrefix ++ pid_bytes pid1 ++ [byte_of_Z 1] :=
       enc (H0:=codec_StateTransitionBatch) (transition pid1 [aggregated 5 100; aggregated 6 101])]>
   (<[pendingAggregBatchPrefix ++ pid_bytes pid1 :=
       enc (H0:=codec_AggregatorBallotBatch) (batch pid1 [aggregated 5 100; aggregated 6 101] 1 0)]>
    {[aggregBatchPrefix ++ pid_bytes pid1 ++ [byte_of_Z 9] :=
       enc (H0:=codec_AggregatorBallotBatch) (batch pid1 [aggregated 7 102] 1 (10 * second))]})))
  {[vote 5; vote 6; vote 7]} ∅ ∅ (70 * second) [].
Definition key1 : bytes := pid_bytes pid1 ++ [byte_of_Z 1].
(** The state holds vote 5. *)
Definition env_settled : StorageEnv := env InMemory (λ _ v, bool_decide (v = vote 5)).
Definition requeued : AggregatorBallotBatch := batch pid1 [aggregated 6 101] 2 (70 * second).

Lemma MarkStateTransitionBatchDone_spec_witness :
  let s' := exec (MarkStateTransitionBatchDone (Env:=env_mem) key1 pid1) in_batches in
  stored_status (db s') pid1 (vote 6) = Some (intToBytes VoteIDStatusDone) ∧
  processingVoteIDs s' = {[vote 5; vote 6; vote 7]} ∖ list_to_set [vote 5; vote 6].
Proof.
  pose proof (MarkStateTransitionBatchDone_spec (Env:=env_mem) key1 pid1 in_batches
    (enc (H0:=codec_StateTransitionBatch) (transition pid1 [aggregated 5 100; aggregated 6 101]))
    (transition pid1 [aggregated 5 100; aggregated 6 101]) eq_refl ltac:(by vm_compute) ltac:(by vm_compute)) as H.
  rewrite (run_eq _ _ (Ok ())) in H by by vm_compute. cbv zeta in H. destruct H as (_ & Hd & _ & Hl & _).
  split; [|exact Hl]. apply Hd. right. left.
Defined.
Lemma NextAggregatorBatch_spec_witness :
  let s' := exec (NextAggregatorBatch (Env:=env_mem) pid1) in_batches in
  isReserved (db in_batches) aggregBatchPrefix (pid_bytes pid1 ++ [byte_of_Z 9]) = false ∧
  isReserved (db s') aggregBatchPrefix (pid_bytes pid1 ++ [byte_of_Z 9]) = true.
Proof.
  pose proof (NextAggregatorBatch_spec (Env:=env_mem) pid1 in_batches eq_refl reservations_encode_mem
    ltac:(apply local_keys_by; by vm_compute)) as H.
  rewrite (run_eq _ _ (Ok (batch pid1 [aggregated 7 102] 1 (10 * second), pid_bytes pid1 ++ [byte_of_Z 9]))) in H by by vm_compute.
  destruct H as (_ & _ & _ & H1 & H2 & _). exact (conj H1 H2).
Defined.
