(* ===== verification/Cleanup.v ===== *)
(** * Cleanup

    [src/storage/cleanup.go] and the parts of [src/storage/process.go] that call
    it: what happens to the queues of a process that ended, and the global
    cleanup. *)

From S2P Require Import Prelude Bytes DB Spec Types StorageTypes StorageBase Process VoteStatus Stats Ballots Batches.

(** Keys and valid counts by process, in the order of first appearance (the
    source iterates a Go map). *)
Abbreviation cleanups := (list (ProcessID * (list bytes * Z))).
Fixpoint add_cleanup (pid : ProcessID) (key : bytes) (n : Z) (m : cleanups) : cleanups :=
  match m with
  | [] => [(pid, ([key], n))]
  | (p, (keys, c)) :: m =>
      if decide (p = pid) then (p, (keys ++ [key], c + n)) :: m
      else (p, (keys, c)) :: add_cleanup pid key n m
  end.
(** The value [voteIDStatus] returns next to an error is 0. *)
Definition status_value (r : result Z) : Z := match r with Ok st => st | Err _ => 0 end.
Definition counts_as (status : Z) (r : result Z) : Z :=
  match r with Err _ => 1 | Ok st => if st =? status then 1 else 0 end.

(** [fmt.Errorf("cleanup errors: %v", errs)] when a part failed. *)
Definition collect_errors (rs : list (result ())) : result () :=
  if forallb is_Ok rs then Ok () else Err (ErrMsg "cleanup errors").

Section cleanup.
Context `{Env : StorageEnv}.

(** Best-effort removal of an entry: failures are logged. *)
Definition dropEntry (prefix key : bytes) : M () :=
  _ ← warn (ignoring ErrNotFound (deleteReservation prefix key));
  warn (ignoring ErrNotFound (deleteArtifact prefix key)).

(** ** Everything pending, over all processes *)

(** [src/storage/cleanup.go:121-178] cleanAllVerifiedBallots: the callback *)
Definition cleanVerified (acc : cleanups) (kv : bytes * bytes) : M cleanups :=
  match DecodeArtifact (A:=VerifiedBallot) kv.2 with
  | Err _ => mret acc
  | Ok b =>
      let pid := vb_ProcessID b in let v := vb_VoteID b in
      currentStatus ← attempt (voteIDStatus pid v);
      _ ← (if negb (status_value currentStatus =? VoteIDStatusSettled)
           then warn (setVoteIDStatus pid v VoteIDStatusError) else mret ());
      _ ← releaseLocks v pid (vb_Address b);
      mret (add_cleanup pid kv.1 (counts_as VoteIDStatusVerified currentStatus) acc)
  end.
(** [src/storage/cleanup.go:110-222] *)
Definition cleanAllVerifiedBallots : M () :=
  l ← gets (λ s, prefixed_Iterate bk verifiedBallotPrefix [] (db s));
  processBallots ← foldM cleanVerified [] l;
  forM_ (λ '(pid, (keys, n)),
    _ ← forM_ (dropEntry verifiedBallotPrefix) keys;
    if 0 <? n then
      warn (updateProcessStats pid
        [{| upd_TypeStats := TypeStatsVerifiedVotes; upd_Delta := - n |};
         {| upd_TypeStats := TypeStatsCurrentBatchSize; upd_Delta := - n |}])
    else mret ()) processBallots.

(** [src/storage/cleanup.go:258-288] cleanAllAggregatedBatches: one ballot *)
Definition cleanAggregatedBallot (pid : ProcessID) (n : Z) (b : AggregatorBallot) : M Z :=
  currentStatus ← attempt (voteIDStatus pid (ab_VoteID b));
  _ ← (if negb (status_value currentStatus =? VoteIDStatusDone)
       then warn (setVoteIDStatus pid (ab_VoteID b) VoteIDStatusError) else mret ());
  _ ← releaseVoteID (ab_VoteID b);
  mret (n + counts_as VoteIDStatusAggregated currentStatus).
(** [src/storage/cleanup.go:237-291] cleanAllAggregatedBatches: the callback *)
Definition cleanAggregated (acc : cleanups) (kv : bytes * bytes) : M cleanups :=
  match DecodeArtifact (A:=AggregatorBallotBatch) kv.2 with
  | Err _ => mret acc
  | Ok batch =>
      n ← foldM (cleanAggregatedBallot (abb_ProcessID batch)) 0 (abb_Ballots batch);
      mret (add_cleanup (abb_ProcessID batch) kv.1 n acc)
  end.
(** [src/storage/cleanup.go:226-336] *)
Definition cleanAllAggregatedBatches : M () :=
  l ← gets (λ s, prefixed_Iterate bk aggregBatchPrefix [] (db s));
  processBatches ← foldM cleanAggregated [] l;
  forM_ (λ '(pid, (keys, n)),
    _ ← forM_ (dropEntry aggregBatchPrefix) keys;
    if 0 <? n then
      warn (updateProcessStats pid
        [{| upd_TypeStats := TypeStatsAggregatedVotes; upd_Delta := - n |};
         {| upd_TypeStats := TypeStatsCurrentBatchSize; upd_Delta := - n |}])
    else mret ()) processBatches.

(** [src/storage/cleanup.go:398-427] cleanAllStateTransitions: one ballot *)
Definition cleanTransitionBallot (pid : ProcessID) (b : AggregatorBallot) : M () :=
  r ← attempt (voteIDStatus pid (ab_VoteID b));
  let currentStatus := status_value r in
  _ ← (if negb (currentStatus =? VoteIDStatusProcessed) && negb (currentStatus =? VoteIDStatusDone)
            && negb (currentStatus =? VoteIDStatusSettled)
       then warn (setVoteIDStatus pid (ab_VoteID b) VoteIDStatusError) else mret ());
  releaseVoteID (ab_VoteID b).
(** [src/storage/cleanup.go:351-430] cleanAllStateTransitions: the callback; a
    batch counts by the status of its first ballot *)
Definition cleanTransition (acc : cleanups) (kv : bytes * bytes) : M cleanups :=
  match DecodeArtifact (A:=StateTransitionBatch) kv.2 with
  | Err _ => mret acc
  | Ok stb =>
      let pid := stb_ProcessID stb in
      valid ← match stb_Ballots stb with
              | [] => mret 0
              | b :: _ =>
                  r ← attempt (voteIDStatus pid (ab_VoteID b));
                  mret (counts_as VoteIDStatusProcessed r)
              end;
      _ ← forM_ (cleanTransitionBallot pid) (stb_Ballots stb);
      mret (add_cleanup pid kv.1 valid acc)
  end.
(** [src/storage/cleanup.go:340-468] *)
Definition cleanAllStateTransitions : M () :=
  l ← gets (λ s, prefixed_Iterate bk stateTransitionPrefix [] (db s));
  processTransitions ← foldM cleanTransition [] l;
  forM_ (λ '(pid, (keys, n)),
    _ ← forM_ (dropEntry stateTransitionPrefix) keys;
    if 0 <? n then
      warn (updateProcessStats pid [{| upd_TypeStats := TypeStatsStateTransitions; upd_Delta := - n |}])
    else mret ()) processTransitions.

(** [src/storage/cleanup.go:80-106] *)
Definition CleanAllPending : M () :=
  r1 ← attempt cleanAllVerifiedBallots;
  r2 ← attempt cleanAllAggregatedBatches;
  r3 ← attempt cleanAllStateTransitions;
  lift (collect_errors [r1; r2; r3]).

(** ** A process that ended *)

(** [src/storage/cleanup.go:473-514] *)
Definition cleanPendingBallotsForProcess (pid : ProcessID) : M () :=
  l ← gets (λ s, prefixed_Iterate bk ballotPrefix [] (db s));
  forM_ (λ b, _ ← dropEntry ballotPrefix (VoteID_Bytes (b_VoteID b));
              releaseLocks (b_VoteID b) (b_ProcessID b) (b_Address b)) (ballots_of pid l).
(** [src/storage/cleanup.go:518-578] *)
Definition cleanVerifiedBallotsForProcess (pid : ProcessID) : M () :=
  l ← gets (λ s, prefixed_Iterate bk verifiedBallotPrefix (pid_bytes pid) (db s));
  forM_ (λ kv, _ ← dropEntry verifiedBallotPrefix (fix_key pid kv.1);
               releaseVerified (decode_option kv.2)) l.
(** [src/storage/cleanup.go:581-616] *)
Definition cleanAggregatorBatchesForProcess (pid : ProcessID) : M () :=
  l ← gets (λ s, prefixed_Iterate bk aggregBatchPrefix (pid_bytes pid) (db s));
  forM_ (λ kv, dropEntry aggregBatchPrefix (fix_key pid kv.1)) l.
(** [src/storage/cleanup.go:619-654] *)
Definition cleanStateTransitionsForProcess (pid : ProcessID) : M () :=
  l ← gets (λ s, prefixed_Iterate bk stateTransitionPrefix (pid_bytes pid) (db s));
  forM_ (λ kv, dropEntry stateTransitionPrefix (fix_key pid kv.1)) l.
(** [src/storage/cleanup.go:658-681] cleanStateTransitionArtifactsForProcess: the
    callback's key is read as the root *)
Definition cleanStateTransitionArtifactsForProcess (pid : ProcessID) : M () :=
  l ← gets (λ s, prefixed_Iterate bk stateTransitionArtifactPrefix (pid_bytes pid) (db s));
  forM_ (λ kv, warn (ignoring ErrNotFound
    (deleteArtifact stateTransitionArtifactPrefix
       (stateTransitionArtifactKey pid (Some (be_combine kv.1)))))) l.
(** [src/storage/cleanup.go:30-74] *)
Definition cleanupEndedProcess (pid : ProcessID) : M () :=
  r1 ← attempt (cleanPendingBallotsForProcess pid);
  r2 ← attempt (cleanVerifiedBallotsForProcess pid);
  r3 ← attempt (cleanAggregatorBatchesForProcess pid);
  r4 ← attempt (cleanStateTransitionsForProcess pid);
  r5 ← attempt (cleanStateTransitionArtifactsForProcess pid);
  r6 ← attempt (_ ← markProcessVoteIDsTimeout pid; mret ());
  lift (collect_errors [r1; r2; r3; r4; r5; r6]).

(** [src/storage/process.go:292-310] CleanProcessStaleVotes: four calls that each
    take the lock *)
Definition CleanProcessStaleVotes (pid : ProcessID) : M () :=
  _ ← wrapping "error removing pending ballots" (RemovePendingBallotsByProcess pid);
  _ ← wrapping "error removing verified ballots" (RemoveVerifiedBallotsByProcess pid);
  _ ← wrapping "error removing ballot batches" (RemoveAggregatorBatchesByProcess pid);
  wrapping "error removing state transition batches" (RemoveStateTransitionBatchesByProcess pid).

(** [src/storage/process.go:374-400] checkAndUpdateEndedProcesses: one process *)
Definition checkEnded (pid : ProcessID) : M () :=
  r ← attempt (process pid);
  match r with
  | Err _ => mret ()
  | Ok p =>
      t ← gets now;
      if bool_decide (p_Status p ≠ ProcessStatusEnded) && bool_decide (p_Status p ≠ ProcessStatusResults)
         && bool_decide (p_Status p ≠ ProcessStatusCanceled)
         && (p_StartTime p + p_Duration p <? t)
      then
        u ← attempt (UpdateProcess pid [ProcessUpdateCallbackSetStatus ProcessStatusEnded]);
        match u with
        | Err _ => mret ()
        | Ok _ => warn (cleanupEndedProcess pid)
        end
      else mret ()
  end.
(** [src/storage/process.go:367-401] *)
Definition checkAndUpdateEndedProcesses : M () :=
  r ← attempt ListProcesses;
  match r with
  | Err _ => mret ()
  | Ok pids => forM_ checkEnded pids
  end.
End cleanup.

(** ** Removal loops *)

Section drops.
Context `{Env : StorageEnv}.

(** When no commit fails, [m] removes the entry [key] of the queue [p] and its
    reservation from the database, and nothing else. *)
Definition drops (p key : bytes) (m : M ()) : Prop := ∀ s, quiet s →
  ∃ s', m s = (Ok (), s') ∧ quiet s' ∧
    db s' = delete (p ++ key) (delete (reservationDB p ++ key) (db s)).

Lemma releaseLocks_db v pid a s :
  ∃ s', releaseLocks v pid a s = (Ok (), s') ∧ db s' = db s ∧ faults s' = faults s.
Proof. eexists. split; [done|]. done. Qed.
Lemma releaseVerified_db o s :
  ∃ s', releaseVerified o s = (Ok (), s') ∧ db s' = db s ∧ faults s' = faults s.
Proof. destruct o as [vb|]; cbn; eexists; (split; [done|]); done. Qed.

Lemma drops_bind p key (m : M ()) (f : () → M ()) :
  drops p key m → (∀ s, ∃ s', f () s = (Ok (), s') ∧ db s' = db s ∧ faults s' = faults s) →
  drops p key (m ≫= f).
Proof.
  intros Hm Hf s Hq. destruct (Hm s Hq) as (s1 & H1 & Hq1 & Hd1).
  destruct (Hf s1) as (s2 & H2 & Hd2 & Hq2). exists s2. split; [by rewrite (bind_Ok _ _ _ _ _ H1)|].
  split; [unfold quiet in *; congruence|congruence].
Qed.
Lemma drops_dropEntry p key : drops p key (dropEntry p key).
Proof.
  intros s Hq. unfold dropEntry, warn, ignoring, mbind, SE_bind.
  rewrite deleteReservation_quiet by done. cbn. rewrite deleteArtifact_quiet by done. cbn. eauto.
Qed.
Lemma drops_removeVerifiedBallot key : drops verifiedBallotPrefix key (removeVerifiedBallot key).
Proof.
  intros s Hq. unfold removeVerifiedBallot, wrapping, ignoring, mbind, SE_bind.
  rewrite deleteReservation_quiet by done. cbn. rewrite deleteArtifact_quiet by done. eauto.
Qed.

(** Only entries of the queue [p] under [keys], and their reservations. *)
Definition entry_keys (p : bytes) (keys : list bytes) (j : bytes) : Prop :=
  ∃ k, k ∈ keys ∧ (j = p ++ k ∨ j = reservationDB p ++ k).

Lemma drops_loop {A} p (key : A → bytes) (f : A → M ()) l s :
  (∀ x, x ∈ l → drops p (key x) (f x)) → quiet s →
  ∃ s', forM_ f l s = (Ok (), s') ∧ quiet s' ∧
    (∀ j, entry_keys p (key <$> l) j → db s' !! j = None) ∧
    (∀ j, db s !! j = None → db s' !! j = None) ∧
    touches (entry_keys p (key <$> l)) s s'.
Proof.
  intros Hf. revert s. induction l as [|x l IH]; intros s Hq; cbn [forM_].
  { exists s. split_and!; [done|done| |done|done]. intros j (k & Hk & _). by apply not_elem_of_nil in Hk. }
  destruct (Hf x ltac:(left) s Hq) as (s1 & H1 & Hq1 & Hd1).
  destruct (IH (λ y Hy, Hf y (list_elem_of_further _ _ _ Hy)) s1 Hq1) as (s2 & H2 & Hq2 & Hn & Hm & Ht).
  assert (Hx : ∀ j, j = p ++ key x ∨ j = reservationDB p ++ key x → db s1 !! j = None).
  { intros j [-> | ->]; rewrite Hd1; [apply lookup_delete_eq|].
    destruct (decide (p ++ key x = reservationDB p ++ key x)) as [->|Hne];
      [apply lookup_delete_eq|]. rewrite lookup_delete_ne by done. apply lookup_delete_eq. }
  exists s2. split; [by rewrite (bind_Ok _ _ _ _ _ H1)|]. split; [done|]. split_and!.
  - intros j (k & [->|Hk]%elem_of_cons & Hj); [by apply Hm, Hx|]. apply Hn. by exists k.
  - intros j Hj. apply Hm. rewrite Hd1, !lookup_delete_None. auto.
  - intros j Hj. rewrite (Ht j).
    + rewrite Hd1, !lookup_delete_ne; [done|..]; intros <-; apply Hj; exists (key x); (split; [left|auto]).
    + intros (k & Hk & Hj'). apply Hj. exists k. split; [by right|done].
Qed.

(** A loop over the entries of a process empties its part of the queue. *)
Lemma drops_view_loop p pid (f : bytes * bytes → M ()) s :
  (∀ kv, drops p (fix_key pid kv.1) (f kv)) → quiet s → local_keys p pid (db s) →
  ∃ s', (l ← gets (λ s, prefixed_Iterate bk p (pid_bytes pid) (db s)); forM_ f l) s = (Ok (), s') ∧ quiet s' ∧
    (∀ k, HasPrefix k (pid_bytes pid) = true → db s' !! (p ++ k) = None) ∧
    (∀ k v, HasPrefix k (pid_bytes pid) = true → db s !! (p ++ k) = Some v → isReserved (db s') p k = false) ∧
    touches (λ j, ∃ k, HasPrefix k (pid_bytes pid) = true ∧ (j = p ++ k ∨ j = reservationDB p ++ k)) s s'.
Proof.
  intros Hf Hq Hloc. set (l := prefixed_Iterate bk p (pid_bytes pid) (db s)).
  destruct (drops_loop p (λ kv, fix_key pid kv.1) f l s (λ kv _, Hf kv) Hq) as (s' & Hrun & Hq' & Hn & Hm & Ht).
  assert (Hk : ∀ k, k ∈ (λ kv : bytes * bytes, fix_key pid kv.1) <$> l ↔
    HasPrefix k (pid_bytes pid) = true ∧ is_Some (db s !! (p ++ k))).
  { intros k. assert (Hv : (λ kv : bytes * bytes, fix_key pid kv.1) <$> l = (view p pid (db s)).*1)
      by (unfold view; by rewrite <-list_fmap_compose).
    rewrite Hv. split.
    - intros ([k' v] & -> & Hin)%list_elem_of_fmap. apply elem_of_view in Hin as [? ?]; [|done]. eauto.
    - intros (Hp & v & Hin). apply list_elem_of_fmap. exists (k, v). split; [done|]. by apply elem_of_view. }
  exists s'. split; [exact Hrun|]. split; [done|]. split_and!.
  - intros k Hp. destruct (db s !! (p ++ k)) eqn:E; [|by apply Hm]. apply Hn. exists k.
    rewrite Hk. eauto.
  - intros k v Hp Hv. apply bool_decide_eq_false. unfold prefixed_Get, prefixSlice.
    rewrite (Hn (reservationDB p ++ k)); [by intros [? ?]|]. exists k. rewrite Hk. eauto.
  - intros j Hj. apply Ht. intros (k & (Hp & _)%Hk & Hj'). apply Hj. by exists k.
Qed.
End drops.

(** ** The end of a process *)

Section ended.
Context `{Env : StorageEnv}.

Lemma entry_keys_spaces p keys j : entry_keys p keys j → spaces [p; reservationDB p] j.
Proof.
  intros (k & _ & [-> | ->]); apply spaces_in; [left|right; left].
Qed.

Lemma cleanPending_run pid s :
  quiet s → pending_wf (db s) →
  ∃ s', cleanPendingBallotsForProcess pid s = (Ok (), s') ∧ quiet s' ∧
    (∀ v b, pending (db s') v b ↔ pending (db s) v b ∧ b_ProcessID b ≠ pid) ∧
    touches (spaces [ballotPrefix; reservationDB ballotPrefix]) s s'.
Proof.
  intros Hq Hwf. unfold cleanPendingBallotsForProcess.
  set (l := prefixed_Iterate bk ballotPrefix [] (db s)).
  destruct (drops_loop ballotPrefix (λ b, VoteID_Bytes (b_VoteID b))
    (λ b, _ ← dropEntry ballotPrefix (VoteID_Bytes (b_VoteID b));
          releaseLocks (b_VoteID b) (b_ProcessID b) (b_Address b)) (ballots_of pid l) s)
    as (s' & Hrun & Hq' & Hn & Hm & Ht); [|done|].
  { intros b _. apply drops_bind; [apply drops_dropEntry|intros s0; apply releaseLocks_db]. }
  exists s'. split; [exact Hrun|]. split; [done|].
  assert (Hin : ∀ b, b ∈ ballots_of pid l ↔ pending (db s) (b_VoteID b) b ∧ b_ProcessID b = pid).
  { intros b. unfold ballots_of. rewrite list_elem_of_omap. split.
    - intros ([k val] & Hkv & Hb). apply (elem_of_pending _ _ _ Hwf) in Hkv. cbn in Hb.
      destruct (DecodeArtifact val) as [b'|] eqn:Hd; [|done]. case_decide; [|done]. injection Hb as ->.
      destruct (Hwf k val Hkv) as (b' & Hd' & -> & _). assert (b' = b) as -> by congruence.
      split; [by exists val|done].
    - intros [(val & Hv & Hd) Hp]. exists (VoteID_Bytes (b_VoteID b), val).
      split; [by apply (elem_of_pending _ _ _ Hwf)|]. cbn. by rewrite Hd, decide_True. }
  assert (Hkey : ∀ v b, pending (db s) v b → b_VoteID b = v).
  { intros v b (val & Hv & Hd). destruct (Hwf _ _ Hv) as (b' & Hd' & Heq & _).
    apply (inj VoteID_Bytes) in Heq. congruence. }
  split.
  2:{ intros j Hj. apply Ht. intros He. by apply Hj, (entry_keys_spaces _ _ _ He). }
  intros v b. split.
  - intros (val & Hv & Hd). destruct (db s !! (ballotPrefix ++ VoteID_Bytes v)) as [val'|] eqn:Hv';
      [|by rewrite (Hm _ Hv') in Hv].
    destruct (decide (VoteID_Bytes v ∈ (λ b, VoteID_Bytes (b_VoteID b)) <$> ballots_of pid l)) as [He|He].
    { rewrite Hn in Hv; [done|]. exists (VoteID_Bytes v). auto. }
    rewrite (Ht _), Hv' in Hv.
    2:{ intros (k & Hk & [Heq|Heq]); [by apply (inj (app _)) in Heq as <-|].
        by apply incompatible_app in Heq; [|by vm_compute]. }
    injection Hv as ->. split; [by exists val|]. intros Hp. apply He.
    apply list_elem_of_fmap. exists b. assert (pending (db s) v b) as Hpd by (by exists val).
    rewrite (Hkey v b Hpd). split; [done|]. apply Hin. by rewrite (Hkey v b Hpd).
  - intros [Hpd Hp]. destruct Hpd as (val & Hv & Hd). exists val. split; [|done]. rewrite (Ht _); [done|].
    intros (k & (b' & -> & [Hpd' Hp']%Hin)%list_elem_of_fmap & [Heq|Heq]).
    + apply (inj (app _)) in Heq. destruct Hpd' as (val' & Hv' & Hd'). rewrite <-Heq in Hv'.
      rewrite Hv in Hv'. injection Hv' as <-. congruence.
    + by apply incompatible_app in Heq; [|by vm_compute].
Qed.

(** One queue keyed by process is emptied for it. *)
Lemma cleanQueue_run p pid (f : bytes * bytes → M ()) s :
  incompatible (reservationDB p) p = true →
  (∀ kv, drops p (fix_key pid kv.1) (f kv)) → quiet s → local_keys p pid (db s) →
  ∃ s', (l ← gets (λ s, prefixed_Iterate bk p (pid_bytes pid) (db s)); forM_ f l) s = (Ok (), s') ∧ quiet s' ∧
    (∀ k, HasPrefix k (pid_bytes pid) = true → db s' !! (p ++ k) = None) ∧
    (∀ k, HasPrefix k (pid_bytes pid) = false → db s' !! (p ++ k) = db s !! (p ++ k)) ∧
    touches (spaces [p; reservationDB p]) s s'.
Proof.
  intros Hinc Hf Hq Hloc.
  destruct (drops_view_loop p pid f s Hf Hq Hloc) as (s' & Hrun & Hq' & Hn & _ & Ht).
  exists s'. split_and!; [done..| |].
  - intros k Hk. apply Ht. intros (k' & Hk' & [Heq|Heq]).
    + apply (inj (app _)) in Heq as <-. congruence.
    + symmetry in Heq. by apply incompatible_app in Heq.
  - intros j Hj. apply Ht. intros (k & _ & [-> | ->]); apply Hj, spaces_in; [left|right; left].
Qed.

Lemma artifacts_touches pid : moves (touches (spaces [stateTransitionArtifactPrefix]))
  (cleanStateTransitionArtifactsForProcess pid).
Proof.
  unfold cleanStateTransitionArtifactsForProcess.
  repeat first [progress moves | apply moves_deleteArtifact_touches; in_list].
Qed.
Lemma artifacts_quiet pid : moves keeps_quiet (cleanStateTransitionArtifactsForProcess pid).
Proof.
  unfold cleanStateTransitionArtifactsForProcess, deleteArtifact. moves.
Qed.
Lemma artifacts_Ok pid s : (cleanStateTransitionArtifactsForProcess pid s).1 = Ok ().
Proof.
  unfold cleanStateTransitionArtifactsForProcess, gets. run_simpl. set (l := prefixed_Iterate _ _ _ _).
  clearbody l. revert s. induction l as [|kv l IH]; intros s; cbn [forM_]; [done|].
  by rewrite (bind_Ok _ _ _ _ _ (warn_eq _ _)).
Qed.

(** Keys of the queues [qs] are the same. *)
Lemma touches_space q k ps s s' :
  touches (spaces ps) s s' → forallb (incompatible q) ps = true → db s' !! (q ++ k) = db s !! (q ++ k).
Proof. intros Ht Hps. by apply Ht, spaces_no. Qed.

(** The queues keyed by process. *)
Definition process_queues : list bytes := [verifiedBallotPrefix; aggregBatchPrefix; stateTransitionPrefix].
Definition all_local (pid : ProcessID) (d : kv) : Prop := ∀ q, q ∈ process_queues → local_keys q pid d.

Lemma cleanQueues_run pid s :
  quiet s → all_local pid (db s) →
  ∃ s2 s3 s4, cleanVerifiedBallotsForProcess pid s = (Ok (), s2) ∧
    cleanAggregatorBatchesForProcess pid s2 = (Ok (), s3) ∧
    cleanStateTransitionsForProcess pid s3 = (Ok (), s4) ∧ quiet s4 ∧
    (∀ q k, q ∈ process_queues → db s4 !! (q ++ k) =
       if HasPrefix k (pid_bytes pid) then None else db s !! (q ++ k)) ∧
    touches (spaces (process_queues ++ (reservationDB <$> process_queues))) s s4.
Proof.
  intros Hq Hloc. unfold cleanVerifiedBallotsForProcess, cleanAggregatorBatchesForProcess, cleanStateTransitionsForProcess.
  destruct (cleanQueue_run verifiedBallotPrefix pid
    (λ kv, _ ← dropEntry verifiedBallotPrefix (fix_key pid kv.1); releaseVerified (decode_option kv.2)) s)
    as (s2 & H2 & Hq2 & Hn2 & Hs2 & Ht2); [by vm_compute| |done|by apply Hloc; left|].
  { intros kv. apply drops_bind; [apply drops_dropEntry|intros; apply releaseVerified_db]. }
  assert (E2 : ∀ q k, forallb (incompatible q) [verifiedBallotPrefix; reservationDB verifiedBallotPrefix] = true →
    db s2 !! (q ++ k) = db s !! (q ++ k)) by (intros; by eapply touches_space).
  destruct (cleanQueue_run aggregBatchPrefix pid (λ kv, dropEntry aggregBatchPrefix (fix_key pid kv.1)) s2)
    as (s3 & H3 & Hq3 & Hn3 & Hs3 & Ht3); [by vm_compute|intros; apply drops_dropEntry|done| |].
  { intros r. rewrite E2 by by vm_compute. apply Hloc. right. left. }
  assert (E3 : ∀ q k, forallb (incompatible q) [aggregBatchPrefix; reservationDB aggregBatchPrefix] = true →
    db s3 !! (q ++ k) = db s2 !! (q ++ k)) by (intros; by eapply touches_space).
  destruct (cleanQueue_run stateTransitionPrefix pid (λ kv, dropEntry stateTransitionPrefix (fix_key pid kv.1)) s3)
    as (s4 & H4 & Hq4 & Hn4 & Hs4 & Ht4); [by vm_compute|intros; apply drops_dropEntry|done| |].
  { intros r. rewrite E3, E2 by by vm_compute. apply Hloc. right. right. left. }
  assert (E4 : ∀ q k, forallb (incompatible q) [stateTransitionPrefix; reservationDB stateTransitionPrefix] = true →
    db s4 !! (q ++ k) = db s3 !! (q ++ k)) by (intros; by eapply touches_space).
  exists s2, s3, s4. split_and!; [done..| |].
  - intros q k Hin. unfold process_queues in Hin.
    apply elem_of_cons in Hin as [->|[->|[->|[]%not_elem_of_nil]%elem_of_cons]%elem_of_cons];
      destruct (HasPrefix k (pid_bytes pid)) eqn:Hk.
    + rewrite E4, E3 by by vm_compute. by apply Hn2.
    + rewrite E4, E3 by by vm_compute. by apply Hs2.
    + rewrite E4 by by vm_compute. by apply Hn3.
    + rewrite E4, Hs3, E2 by (done || by vm_compute). done.
    + by apply Hn4.
    + by rewrite Hs4, E3, E2 by (done || by vm_compute).
  - intros j Hj. rewrite (Ht4 j), (Ht3 j), (Ht2 j); [done|..]; intros (p & Hp & Hk); apply Hj; exists p;
      (split; [|done]); unfold process_queues; clear -Hp; set_solver.
Qed.

(** C36: cleaning up an ended process, over Pebble and when no commit fails: no
    pending or verified ballot, batch or state transition of it remains, each of
    its status records is final or becomes timed out, and every ballot, batch,
    transition and status of other processes, and every process record, stays
    as it was. *)
Theorem cleanupEndedProcess_spec pid s :
  bk = Pebble → quiet s → pending_wf (db s) → all_local pid (db s) → valid_records (db s) pid →
  let '(r, s') := cleanupEndedProcess pid s in
  r = Ok () ∧
  (∀ v b, pending (db s') v b ↔ pending (db s) v b ∧ b_ProcessID b ≠ pid) ∧
  (∀ q k, q ∈ process_queues → db s' !! (q ++ k) =
     if HasPrefix k (pid_bytes pid) then None else db s !! (q ++ k)) ∧
  (∀ v, stored_status (db s') pid v =
        (λ b, if unfinished ([], b) then intToBytes VoteIDStatusTimeout else b)
          <$> stored_status (db s) pid v) ∧
  (∀ pid' v, pid' ≠ pid → stored_status (db s') pid' v = stored_status (db s) pid' v) ∧
  (∀ k, db s' !! (processPrefix ++ k) = db s !! (processPrefix ++ k)).
Proof.
  intros Hbk Hq Hwf Hloc Hvalid. unfold cleanupEndedProcess.
  destruct (cleanPending_run pid s Hq Hwf) as (s1 & H1 & Hq1 & Hp1 & Ht1).
  assert (E1 : ∀ q k, forallb (incompatible q) [ballotPrefix; reservationDB ballotPrefix] = true →
    db s1 !! (q ++ k) = db s !! (q ++ k)) by (intros; by eapply touches_space).
  destruct (cleanQueues_run pid s1 Hq1) as (s2 & s3 & s4 & H2 & H3 & H4 & Hq4 & Hn4 & Ht4).
  { intros q Hin r. specialize (Hloc q Hin r). unfold process_queues in Hin.
    apply elem_of_cons in Hin as [->|[->|[->|[]%not_elem_of_nil]%elem_of_cons]%elem_of_cons];
      by rewrite E1 by by vm_compute. }
  assert (E4 : ∀ q k, forallb (incompatible q) (process_queues ++ (reservationDB <$> process_queues)) = true →
    db s4 !! (q ++ k) = db s1 !! (q ++ k)) by (intros; by eapply touches_space).
  pose proof (artifacts_Ok pid s4) as H5. pose proof (artifacts_quiet pid s4 Hq4) as Hq5.
  pose proof (artifacts_touches pid s4) as Ht5.
  destruct (cleanStateTransitionArtifactsForProcess pid s4) as [r5 s5] eqn:E5run. cbn in H5, Hq5, Ht5. subst r5.
  assert (E5 : ∀ q k, forallb (incompatible q) [stateTransitionArtifactPrefix] = true →
    db s5 !! (q ++ k) = db s4 !! (q ++ k)) by (intros; by eapply touches_space).
  assert (Hst : ∀ pid' v, stored_status (db s5) pid' v = stored_status (db s) pid' v).
  { intros. unfold stored_status, status_key. by rewrite E5, E4, E1 by by vm_compute. }
  pose proof (markProcessVoteIDsTimeout_Pebble pid s5 Hbk Hq5) as Ht.
  specialize (Ht ltac:(intros r b; rewrite E5, E4, E1 by (by vm_compute); apply Hvalid)).
  pose proof (markProcessVoteIDsTimeout_touches pid s5) as Htt.
  destruct (markProcessVoteIDsTimeout pid s5) as [r6 s6] eqn:E6run. destruct Ht as (-> & _ & Hs6 & Ho6). cbn in Htt.
  assert (E6 : ∀ q k, forallb (incompatible q) [voteIDStatusPrefix] = true →
    db s6 !! (q ++ k) = db s5 !! (q ++ k)) by (intros; by eapply touches_space).
  unfold attempt. run_simpl. rewrite H1, H2, H3, H4, E5run, E6run. cbn. split_and!; [done|..].
  - intros v b. rewrite <-Hp1. unfold pending. by rewrite E6, E5, E4 by by vm_compute.
  - intros q k Hin. pose proof (Hn4 q k Hin) as Hk.
    unfold process_queues in Hin.
    apply elem_of_cons in Hin as [->|[->|[->|[]%not_elem_of_nil]%elem_of_cons]%elem_of_cons];
      rewrite E6, E5 by (by vm_compute); rewrite Hk, E1 by (by vm_compute); done.
  - intros v. by rewrite Hs6, Hst.
  - intros pid' v Hne. by rewrite Ho6, Hst.
  - intros k. by rewrite E6, E5, E4, E1 by by vm_compute.
Qed.
End ended.

(** ** At a concrete store *)

Import Concrete.
#[local] Existing Instance env_pebble.
(** A pending ballot of each of two processes and a verified ballot of the first. *)
Definition ending : Storage := MkStorage
  (<[ballotPrefix ++ VoteID_Bytes (vote 5) := enc (ballot pid1 5 100)]>
   (<[ballotPrefix ++ VoteID_Bytes (vote 6) := enc (ballot pid2 6 100)]>
   (<[verifiedBallotPrefix ++ pid_bytes pid1 ++ VoteID_Bytes (vote 7) := enc (verified pid1 7 101)]>
    {[status_key pid1 (vote 5) := intToBytes VoteIDStatusPending]}))) ∅ ∅ ∅ (70 * second) [].
Lemma ending_records : valid_records (db ending) pid1.
Proof.
  intros r b H. rewrite app_assoc in H.
  apply (under_forallb _ (λ k _, bool_decide (k = VoteID_Bytes (vote 5)))) in H; [|by vm_compute].
  exists (vote 5). split; [by apply bool_decide_eq_true in H|by vm_compute].
Qed.
Lemma ending_local : all_local pid1 (db ending).
Proof.
  intros q Hq. unfold process_queues in Hq. rewrite !elem_of_cons, elem_of_nil in Hq.
  destruct Hq as [-> | [-> | [-> | []]]]; apply local_keys_by; by vm_compute.
Qed.
Lemma cleanupEndedProcess_spec_witness :
  let s' := exec (cleanupEndedProcess pid1) ending in
  stored_status (db s') pid1 (vote 5) = Some (intToBytes VoteIDStatusTimeout) ∧
  db s' !! (verifiedBallotPrefix ++ pid_bytes pid1 ++ VoteID_Bytes (vote 7)) = None.
Proof.
  assert (Hp : pending_wf (db ending)) by (apply pending_wf_by; by vm_compute).
  pose proof (cleanupEndedProcess_spec pid1 ending eq_refl eq_refl Hp ending_local ending_records) as H.
  rewrite (run_eq _ _ (Ok ())) in H by by vm_compute. destruct H as (_ & _ & Hq & Hs & _). split.
  - rewrite Hs. by vm_compute.
  - rewrite Hq by left. by rewrite HasPrefix_app.
Defined.
