(* ===== verification/Recovery.v ===== *)
(** * Reservations over time

    What the periodic release of stale reservations and the recovery at a restart
    ([src/storage/storage.go]) do to reservations and locks, in general and on the
    concrete runs where the locks and the queues part. *)

From S2P Require Import Prelude Bytes DB Spec Types StorageTypes StorageBase Process VoteStatus Stats Ballots Batches.

Section recovery.
Context `{Env : StorageEnv}.

(** No reserved key repeats the prefix of its reservation space. *)
Definition local_reservations (d : kv) : Prop := ∀ p r, p ∈ reservationBasePrefixes →
  is_Some (d !! (reservationDB p ++ r)) → HasPrefix r (reservationDB p) = false.

Lemma lookup_delete_all p ks k : delete_all p ks !! (p ++ k) = if decide (k ∈ ks) then Some None else None.
Proof.
  induction ks as [|x ks IH]; [done|]. change (delete_all p (x :: ks)) with (<[p ++ x := None]> (delete_all p ks)).
  destruct (decide (k = x)) as [->|Hne].
  - by rewrite lookup_insert_eq, decide_True by left.
  - rewrite lookup_insert_ne by (by intros ?%(inj (app _))). rewrite IH.
    destruct (decide (k ∈ ks)), (decide (k ∈ x :: ks)); set_solver.
Qed.
Lemma delete_all_other p q ks k : incompatible q p = true → delete_all p ks !! (q ++ k) = None.
Proof.
  intros Hq. induction ks as [|x ks IH]; [done|]. change (delete_all p (x :: ks)) with (<[p ++ x := None]> (delete_all p ks)).
  rewrite lookup_insert_ne; [done|]. intros H. symmetry in H. revert H. by apply incompatible_app.
Qed.
Lemma tx_Iterate_local p d k v :
  (∀ r, is_Some (d !! (p ++ r)) → HasPrefix r p = false) →
  (k, v) ∈ prefixed_tx_Iterate bk p [] ∅ d ↔ d !! (p ++ k) = Some v.
Proof. intros Hl. unfold prefixed_tx_Iterate. rewrite apply_writes_empty. by apply prefixed_Iterate_local. Qed.

(** ** Stale reservations *)

(** Dropping, in one commit, the reservations of [p] that satisfy [f]. *)
Definition dropped (f : bytes → bool) (p : bytes) (d d' : kv) : Prop :=
  (∀ k, d' !! (reservationDB p ++ k) =
        match d !! (reservationDB p ++ k) with Some v => if f v then None else Some v | None => None end) ∧
  (∀ q k, incompatible q (reservationDB p) = true → d' !! (q ++ k) = d !! (q ++ k)).
Lemma commit_dropped f p d (l : list (bytes * bytes)) :
  (∀ k v, (k, v) ∈ l ↔ d !! (reservationDB p ++ k) = Some v) →
  dropped f p d (apply_writes (delete_all (reservationDB p) (filter (λ kv, f kv.2 = true) l).*1) d).
Proof.
  intros Hl. split.
  - intros k. rewrite lookup_apply_writes, lookup_delete_all. case_decide as Hk.
    + apply list_elem_of_fmap in Hk as ([k' v] & -> & Hk). apply list_elem_of_filter in Hk as [Hf Hk].
      apply Hl in Hk. cbn in *. by rewrite Hk, Hf.
    + destruct (d !! _) as [v|] eqn:Hv; [|done]. destruct (f v) eqn:Hf; [|done]. exfalso. apply Hk.
      apply list_elem_of_fmap. exists (k, v). split; [done|]. apply list_elem_of_filter.
      split; [done|]. by apply Hl.
  - intros q k Hq. by rewrite lookup_apply_writes, delete_all_other.
Qed.
Lemma dropped_none f p d (l : list (bytes * bytes)) :
  (∀ k v, (k, v) ∈ l ↔ d !! (reservationDB p ++ k) = Some v) → filter (λ kv, f kv.2 = true) l = [] →
  dropped f p d d.
Proof. intros Hl Hn. pose proof (commit_dropped f p d l Hl) as H. rewrite Hn in H. by rewrite apply_writes_empty in H. Qed.

Definition local_reservation (p : bytes) (d : kv) : Prop := ∀ r,
  is_Some (d !! (reservationDB p ++ r)) → HasPrefix r (reservationDB p) = false.
(** [m] drops those reservations of [p], when no commit fails. *)
Definition drops_reservations (f : bytes → bool) (p : bytes) (m : M ()) : Prop := ∀ s,
  quiet s → local_reservation p (db s) →
  ∃ s', m s = (Ok (), s') ∧ quiet s' ∧ locks s' = locks s ∧ dropped f p (db s) (db s').
Lemma releaseStaleInPrefix_drops p n a : drops_reservations (is_stale n a) p (releaseStaleInPrefix p n a).
Proof.
  intros s Hq Hl. unfold releaseStaleInPrefix, gets. run_simpl.
  pose proof (λ k v, tx_Iterate_local _ (db s) k v Hl) as Hit.
  destruct (filter _ (prefixed_tx_Iterate _ _ _ _ _)) as [|x l] eqn:Hf.
  - exists s. split_and!; [done..|]. by eapply dropped_none.
  - rewrite <-Hf. cbn [fmap list_fmap]. unfold wrapping. rewrite Hf. cbn [fmap list_fmap].
    rewrite commit_quiet by done. eexists. split_and!; [done..|].
    change (x.1 :: l.*1) with (x :: l).*1. rewrite <-Hf. by apply commit_dropped.
Qed.
Lemma filter_all {A} (l : list A) : filter (λ _, true = true) l = l.
Proof. induction l as [|x l IH]; [done|]. rewrite filter_cons, decide_True by done. by rewrite IH. Qed.
Lemma cleanAllReservations_drops p : drops_reservations (λ _, true) p (cleanAllReservations p).
Proof.
  intros s Hq Hl. unfold cleanAllReservations, gets. run_simpl.
  pose proof (λ k v, tx_Iterate_local _ (db s) k v Hl) as Hit.
  set (l := prefixed_tx_Iterate _ _ _ _ _) in *. pose proof (filter_all l) as Hf.
  destruct l as [|x l'] eqn:El.
  - exists s. split_and!; [done..|]. by apply (dropped_none _ _ _ []).
  - unfold wrapping. cbn [fmap list_fmap]. rewrite commit_quiet by done. eexists. split_and!; [done..|].
    change (x.1 :: l'.*1) with (x :: l').*1. rewrite <-Hf. by apply commit_dropped.
Qed.

Lemma reservations_incompatible p q :
  p ∈ reservationBasePrefixes → q ∈ reservationBasePrefixes → p ≠ q →
  incompatible (reservationDB p) (reservationDB q) = true.
Proof.
  assert (H : forallb (λ p, forallb (λ q, bool_decide (p = q) || incompatible (reservationDB p) (reservationDB q))
    reservationBasePrefixes) reservationBasePrefixes = true) by by vm_compute.
  intros Hp%list_elem_of_In Hq%list_elem_of_In Hne. rewrite forallb_forall in H. specialize (H p Hp).
  rewrite forallb_forall in H. specialize (H q Hq). by rewrite bool_decide_eq_false_2 in H.
Qed.
Lemma dropped_local f p q d d' :
  p ∈ reservationBasePrefixes → q ∈ reservationBasePrefixes →
  dropped f p d d' → local_reservation q d → local_reservation q d'.
Proof.
  intros Hp Hq [H1 H2] Hl r Hr. apply Hl. destruct (decide (q = p)) as [->|Hne].
  - rewrite H1 in Hr. by destruct (d !! _).
  - by rewrite H2 in Hr by by apply reservations_incompatible.
Qed.
Lemma drop_loop f ps (m : bytes → M ()) s :
  NoDup ps → (∀ p, p ∈ ps → p ∈ reservationBasePrefixes) → (∀ p, p ∈ ps → drops_reservations f p (m p)) →
  quiet s → (∀ p, p ∈ ps → local_reservation p (db s)) →
  ∃ s', forM_ m ps s = (Ok (), s') ∧ quiet s' ∧ locks s' = locks s ∧
    (∀ p k, p ∈ ps → db s' !! (reservationDB p ++ k) =
       match db s !! (reservationDB p ++ k) with Some v => if f v then None else Some v | None => None end) ∧
    (∀ q k, forallb (λ p, incompatible q (reservationDB p)) ps = true → db s' !! (q ++ k) = db s !! (q ++ k)).
Proof.
  revert s. induction ps as [|p ps IH]; intros s Hnd Hps Hm Hq Hl.
  { exists s. split_and!; [done..| |done]. intros p k ?%not_elem_of_nil. done. }
  apply NoDup_cons in Hnd as [Hp Hnd].
  destruct (Hm p ltac:(left) s Hq (Hl p ltac:(left))) as (s1 & E1 & Hq1 & Hl1 & Hd1).
  destruct (IH s1 Hnd) as (s2 & E2 & Hq2 & Hl2 & H2 & H2'); [by intros; apply Hps; right|by intros; apply Hm; right|done| |].
  { intros q Hin. eapply dropped_local; [..|done|]; [apply Hps; left|by apply Hps; right|by apply Hl; right]. }
  exists s2. cbn [forM_]. rewrite (bind_Ok _ _ _ _ _ E1). split_and!; [done..|by rewrite Hl2| |].
  - intros q k [-> | Hin]%elem_of_cons; [|].
    + rewrite H2'; [apply Hd1|]. apply forallb_forall. intros q Hin%list_elem_of_In.
      apply reservations_incompatible; [apply Hps; left|by apply Hps; right|by intros ->].
    + rewrite H2 by done. rewrite (proj2 Hd1); [done|].
      apply reservations_incompatible; [by apply Hps; right|apply Hps; left|by intros ->].
  - intros q k [Ha Hb]%andb_prop. rewrite H2' by done. by apply Hd1.
Qed.
Lemma NoDup_reservationBasePrefixes : NoDup reservationBasePrefixes.
Proof. apply (bool_decide_unpack _). by vm_compute. Qed.

(** Releasing stale reservations, when no commit fails: a reservation
    survives exactly if its record can be read and is not older than the limit;
    nothing else in the database and no lock changes. *)
Theorem releaseStaleReservations_spec maxAge s :
  quiet s → (∀ p, p ∈ reservationBasePrefixes → local_reservation p (db s)) →
  let '(r, s') := releaseStaleReservations maxAge s in
  r = Ok () ∧ locks s' = locks s ∧
  (∀ p k, p ∈ reservationBasePrefixes →
     isReserved (db s') p k = true ↔
     ∃ v rec, db s !! (reservationDB p ++ k) = Some v ∧ DecodeArtifact v = Ok rec ∧
       Unix (now s) - Timestamp rec ≤ maxAge) ∧
  (∀ q k, forallb (λ p, incompatible q (reservationDB p)) reservationBasePrefixes = true →
     db s' !! (q ++ k) = db s !! (q ++ k)).
Proof.
  intros Hq Hl. destruct (drop_loop (is_stale (Unix (now s)) maxAge) reservationBasePrefixes
    (λ p, releaseStaleInPrefix p (Unix (now s)) maxAge) s NoDup_reservationBasePrefixes)
    as (s' & E & _ & Hlk & H1 & H2); [done|intros; apply releaseStaleInPrefix_drops|done|done|].
  assert (Hr : releaseStaleReservations maxAge s = (Ok (), s')) by exact E. rewrite Hr.
  split_and!; [done..| |done].
  intros p k Hp. unfold isReserved, prefixed_Get, prefixSlice. rewrite bool_decide_eq_true, H1 by done.
  destruct (db s !! _) as [v|]; [|split; [by intros [? ?]|by intros (? & ? & ? & ?)]].
  unfold is_stale. destruct (DecodeArtifact v) as [rec|] eqn:Hv; [|split; [by intros [? ?]|intros (? & ? & ? & ? & ?); congruence]].
  destruct (Z.ltb_spec maxAge (Unix (now s) - Timestamp rec)).
  - split; [by intros [? ?]|]. intros (v' & rec' & [= <-] & Hv' & Hle). rewrite Hv in Hv'. simplify_eq. lia.
  - split; [eauto 10|]. by eexists.
Qed.

(** ** Restart *)

(** Locks are added and nothing else changes. *)
Definition adds (V : gset uint64) (L : gset string) (s s' : Storage) : Prop :=
  db s' = db s ∧ quiet s' ∧ processingVoteIDs s' = V ∪ processingVoteIDs s ∧
  processingAddresses s' = L ∪ processingAddresses s.
Lemma adds_nil s : quiet s → adds ∅ ∅ s s.
Proof. intros Hq. unfold adds. split_and!; [done..|set_solver|set_solver]. Qed.
Lemma adds_trans V1 L1 V2 L2 s1 s2 s3 :
  adds V1 L1 s1 s2 → adds V2 L2 s2 s3 → adds (V1 ∪ V2) (L1 ∪ L2) s1 s3.
Proof.
  unfold adds. intros (D1 & Q1 & A1 & B1) (D2 & Q2 & A2 & B2). rewrite D2, D1, A2, A1, B2, B1.
  split_and!; [done..|set_solver|set_solver].
Qed.
Lemma recoverBallot_adds pid v a s :
  quiet s → ∃ s', recoverBallot pid v a s = (Ok (), s') ∧ adds {[v]} {[lock_key pid a]} s s'.
Proof. intros Hq. eexists. split; [done|]. done. Qed.
Lemma forM_adds {A} (f : A → M ()) (V : A → gset uint64) (L : A → gset string) l :
  (∀ a s, quiet s → ∃ s', f a s = (Ok (), s') ∧ adds (V a) (L a) s s') →
  ∀ s, quiet s → ∃ s', forM_ f l s = (Ok (), s') ∧ adds (⋃ (V <$> l)) (⋃ (L <$> l)) s s'.
Proof.
  intros Hf. induction l as [|a l IH]; intros s Hq; [exists s; split; [done|by apply adds_nil]|].
  destruct (Hf a s Hq) as (s1 & E1 & H1). destruct (IH s1) as (s2 & E2 & H2); [apply H1|].
  exists s2. cbn [forM_ fmap list_fmap]. rewrite (bind_Ok _ _ _ _ _ E1). split; [done|].
  by eapply adds_trans.
Qed.
Lemma decode_all_adds `{Codec A} msg (f : A → M ()) (V : A → gset uint64) (L : A → gset string) l :
  (∀ a s, quiet s → ∃ s', f a s = (Ok (), s') ∧ adds (V a) (L a) s s') →
  (∀ v, v ∈ l → is_Ok (DecodeArtifact (A:=A) v) = true) →
  ∀ s, quiet s → ∃ s' as_, decode_all msg f l s = (Ok (), s') ∧
    adds (⋃ (V <$> as_)) (⋃ (L <$> as_)) s s' ∧
    (∀ a, a ∈ as_ ↔ ∃ v, v ∈ l ∧ DecodeArtifact v = Ok a).
Proof.
  intros Hf Hl s Hq.
  assert (Has : ∃ as_, decode_all msg f l = forM_ f as_ ∧ (∀ a, a ∈ as_ ↔ ∃ v, v ∈ l ∧ DecodeArtifact v = Ok a)).
  { induction l as [|v l IH]; [exists []; split; [done|set_solver]|].
    destruct IH as (as_ & E & Has); [set_solver|].
    specialize (Hl v ltac:(left)). destruct (DecodeArtifact v) as [a|] eqn:Hv; [|done].
    exists (a :: as_). split; [cbn [decode_all forM_]; by rewrite Hv, E|].
    intros a'. rewrite elem_of_cons, Has. setoid_rewrite elem_of_cons. split.
    - intros [-> | (w & Hw & Ha)]; eauto.
    - intros (w & [-> | Hw] & Ha); [left; congruence|eauto]. }
  destruct Has as (as_ & -> & Has). destruct (forM_adds f V L as_ Hf s Hq) as (s' & E & Hadds). eauto.
Qed.

(** The values stored under a prefix. *)
Definition stored_values (p : bytes) (d : kv) : list bytes := (prefixed_Iterate bk p [] d).*2.
Lemma elem_of_stored_values p d v : v ∈ stored_values p d ↔ ∃ k, d !! (p ++ k) = Some v.
Proof.
  unfold stored_values. rewrite list_elem_of_fmap. split.
  - intros ([k w] & -> & (r & Hr & _)%elem_of_prefixed_Iterate). by exists r.
  - intros (k & Hk). exists (local_key bk p [] k, v). split; [done|]. apply elem_of_prefixed_Iterate. by exists k.
Qed.

(** An artifact stored under [p]. *)
Definition stored `{Codec A} (p : bytes) (d : kv) (a : A) : Prop :=
  ∃ k v, d !! (p ++ k) = Some v ∧ DecodeArtifact v = Ok a.
Definition readable `{Codec A} (p : bytes) (d : kv) : Prop :=
  ∀ k v, d !! (p ++ k) = Some v → is_Ok (DecodeArtifact (A:=A) v) = true.
Lemma elem_of_unions {A} `{Countable B} (f : A → gset B) l x : x ∈ ⋃ (f <$> l) ↔ ∃ a, a ∈ l ∧ x ∈ f a.
Proof.
  rewrite elem_of_union_list. setoid_rewrite list_elem_of_fmap. naive_solver.
Qed.
Lemma elem_of_recovered `{Countable B} (f : VerifiedBallot → B) (g : AggregatorBallotBatch → AggregatorBallot → B)
    d vbs abbs x :
  (∀ vb, vb ∈ vbs ↔ stored verifiedBallotPrefix d vb) → (∀ abb, abb ∈ abbs ↔ stored aggregBatchPrefix d abb) →
  x ∈ ⋃ ((λ vb, {[f vb]} : gset B) <$> vbs) ∪ ⋃ ((λ abb, ⋃ ((λ b, {[g abb b]}) <$> abb_Ballots abb)) <$> abbs) ∪ ∅ ↔
  (∃ vb, stored verifiedBallotPrefix d vb ∧ x = f vb) ∨
  (∃ abb b, stored aggregBatchPrefix d abb ∧ b ∈ abb_Ballots abb ∧ x = g abb b).
Proof.
  intros H1 H2. rewrite !elem_of_union, !elem_of_unions. setoid_rewrite elem_of_unions.
  setoid_rewrite elem_of_singleton. setoid_rewrite H1. setoid_rewrite H2. set_solver.
Qed.
(** The second half of recovery: the locks. *)
Lemma recoverNullifiers_adds s :
  quiet s → readable (A:=VerifiedBallot) verifiedBallotPrefix (db s) →
  readable (A:=AggregatorBallotBatch) aggregBatchPrefix (db s) →
  ∃ s' vbs abbs, recoverNullifiers s = (Ok (), s') ∧
    adds (⋃ ((λ vb, {[vb_VoteID vb]}) <$> vbs) ∪ ⋃ ((λ abb, ⋃ ((λ b, {[ab_VoteID b]}) <$> abb_Ballots abb)) <$> abbs))
         (⋃ ((λ vb, {[lock_key (vb_ProcessID vb) (vb_Address vb)]}) <$> vbs) ∪
          ⋃ ((λ abb, ⋃ ((λ b, {[lock_key (abb_ProcessID abb) (ab_Address b)]}) <$> abb_Ballots abb)) <$> abbs)) s s' ∧
    (∀ vb, vb ∈ vbs ↔ stored verifiedBallotPrefix (db s) vb) ∧
    (∀ abb, abb ∈ abbs ↔ stored aggregBatchPrefix (db s) abb).
Proof.
  intros Hq Hvb Habb. unfold recoverNullifiers, gets. run_simpl.
  fold (stored_values verifiedBallotPrefix (db s)).
  destruct (decode_all_adds "failed to decode verified ballot"
    (λ vb, recoverBallot (vb_ProcessID vb) (vb_VoteID vb) (vb_Address vb))
    (λ vb, {[vb_VoteID vb]}) (λ vb, {[lock_key (vb_ProcessID vb) (vb_Address vb)]})
    (stored_values verifiedBallotPrefix (db s)) (λ _ _, recoverBallot_adds _ _ _ _)) with (s := s)
    as (s1 & vbs & E1 & H1 & Hin1); [|done|].
  { intros v [k Hk]%elem_of_stored_values. by eapply Hvb. }
  rewrite E1. destruct H1 as (Hd1 & Hq1 & H1). rewrite Hd1. fold (stored_values aggregBatchPrefix (db s)).
  destruct (decode_all_adds "failed to decode aggregated ballot batch"
    (λ abb, forM_ (λ b, recoverBallot (abb_ProcessID abb) (ab_VoteID b) (ab_Address b)) (abb_Ballots abb))
    (λ abb, ⋃ ((λ b, {[ab_VoteID b]}) <$> abb_Ballots abb))
    (λ abb, ⋃ ((λ b, {[lock_key (abb_ProcessID abb) (ab_Address b)]}) <$> abb_Ballots abb))
    (stored_values aggregBatchPrefix (db s))) with (s := s1)
    as (s2 & abbs & E2 & H2 & Hin2); [|..].
  { intros abb s0 Hq0. apply forM_adds; [|done]. intros b s3 Hq3. by apply recoverBallot_adds. }
  { intros v [k Hk]%elem_of_stored_values. by eapply Habb. }
  { done. }
  rewrite E2. exists s2, vbs, abbs. split; [done|]. split; [by eapply adds_trans|].
  unfold stored. setoid_rewrite elem_of_stored_values in Hin1. setoid_rewrite elem_of_stored_values in Hin2.
  split; [intros vb; rewrite Hin1|intros abb; rewrite Hin2]; naive_solver.
Qed.
(** Recovery at a restart, when no commit fails and every verified ballot and
    aggregated batch can be read: every reservation is gone, everything else
    in the database is as it was, and the votes and addresses that are locked are
    exactly those of the verified ballots and of the aggregated batches. The
    pending ballots are not among them. *)
Theorem recover_spec s :
  quiet s → (∀ p, p ∈ reservationBasePrefixes → local_reservation p (db s)) →
  processingVoteIDs s = ∅ → processingAddresses s = ∅ →
  readable (A:=VerifiedBallot) verifiedBallotPrefix (db s) →
  readable (A:=AggregatorBallotBatch) aggregBatchPrefix (db s) →
  let '(r, s') := recover s in
  r = Ok () ∧
  (∀ p k, p ∈ reservationBasePrefixes → isReserved (db s') p k = false) ∧
  (∀ q k, forallb (λ p, incompatible q (reservationDB p)) reservationBasePrefixes = true →
     db s' !! (q ++ k) = db s !! (q ++ k)) ∧
  (∀ v, v ∈ processingVoteIDs s' ↔
     (∃ vb, stored verifiedBallotPrefix (db s) vb ∧ v = vb_VoteID vb) ∨
     (∃ abb b, stored aggregBatchPrefix (db s) abb ∧ b ∈ abb_Ballots abb ∧ v = ab_VoteID b)) ∧
  (∀ l, l ∈ processingAddresses s' ↔
     (∃ vb, stored verifiedBallotPrefix (db s) vb ∧ l = lock_key (vb_ProcessID vb) (vb_Address vb)) ∨
     (∃ abb b, stored aggregBatchPrefix (db s) abb ∧ b ∈ abb_Ballots abb ∧
        l = lock_key (abb_ProcessID abb) (ab_Address b))).
Proof.
  intros Hq Hl Hv0 Ha0 Hvb Habb.
  destruct (drop_loop (λ _, true) reservationBasePrefixes
    (λ p, wrapping "failed to clear reservations" (cleanAllReservations p)) s NoDup_reservationBasePrefixes)
    as (s1 & E1 & Hq1 & Hl1 & H1 & H1'); [done| |done|done|].
  { intros p _ s0 Hq0 Hl0. destruct (cleanAllReservations_drops p s0 Hq0 Hl0) as (s1 & E & H).
    exists s1. split; [|done]. unfold wrapping. by rewrite E. }
  injection Hl1 as Hv1 Ha1 _.
  assert (Ev : ∀ k, db s1 !! (verifiedBallotPrefix ++ k) = db s !! (verifiedBallotPrefix ++ k))
    by (intros k; apply H1'; by vm_compute).
  assert (Ea : ∀ k, db s1 !! (aggregBatchPrefix ++ k) = db s !! (aggregBatchPrefix ++ k))
    by (intros k; apply H1'; by vm_compute).
  destruct (recoverNullifiers_adds s1) as (s2 & vbs & abbs & E2 & (Hd & _ & HV & HL) & Hin1 & Hin2); [done| | |].
  { intros k v. rewrite Ev. apply Hvb. }
  { intros k v. rewrite Ea. apply Habb. }
  unfold recover. rewrite (bind_Ok _ _ _ _ _ E1), E2. unfold stored in Hin1, Hin2.
  setoid_rewrite Ev in Hin1. setoid_rewrite Ea in Hin2. rewrite Hd. split_and!; [done|..].
  - intros p k Hp. apply bool_decide_eq_false. unfold prefixed_Get, prefixSlice. rewrite H1 by done.
    destruct (db s !! _); by intros [? ?].
  - done.
  - intros v. rewrite HV, Hv1, Hv0. by apply elem_of_recovered.
  - intros l. rewrite HL, Ha1, Ha0. by apply elem_of_recovered.
Qed.
End recovery.

(** ** At concrete stores *)

Section checks.
Context `{Env : StorageEnv}.
Lemma local_reservation_by d :
  forallb (λ p, forallb (λ kv, if HasPrefix kv.1 (reservationDB p)
      then negb (HasPrefix (drop (length (reservationDB p)) kv.1) (reservationDB p)) else true) (map_to_list d))
    reservationBasePrefixes = true →
  ∀ p, p ∈ reservationBasePrefixes → local_reservation p d.
Proof.
  rewrite forallb_forall. intros H p Hp%list_elem_of_In r [v Hr]. specialize (H p Hp).
  apply (under_forallb _ (λ k _, negb (HasPrefix k (reservationDB p))) _ H) in Hr. by apply negb_true_iff.
Qed.
End checks.

Import Concrete.
#[local] Existing Instance env_pebble.
(** Two reservations of pending ballots: one of ten seconds ago, one fresh. *)
Definition two_reserved : Storage := MkStorage
  (<[reservationDB ballotPrefix ++ VoteID_Bytes (vote 5) := enc {| Timestamp := 60 |}]>
   {[reservationDB ballotPrefix ++ VoteID_Bytes (vote 6) := enc {| Timestamp := 69 |}]}) ∅ ∅ ∅ (70 * second) [].
Lemma releaseStaleReservations_spec_witness :
  let s' := exec (releaseStaleReservations 5) two_reserved in
  isReserved (db s') ballotPrefix (VoteID_Bytes (vote 5)) = false ∧
  isReserved (db s') ballotPrefix (VoteID_Bytes (vote 6)) = true.
Proof.
  pose proof (releaseStaleReservations_spec 5 two_reserved eq_refl ltac:(apply local_reservation_by; by vm_compute)) as H.
  rewrite (run_eq _ _ (Ok ())) in H by by vm_compute. destruct H as (_ & _ & H & _). split; [by vm_compute|].
  apply H; [left|]. exists (enc {| Timestamp := 69 |}), {| Timestamp := 69 |}. split; [by vm_compute|]. split; [by vm_compute|].
  assert (Ht : Unix (now two_reserved) = 70) by by vm_compute. rewrite Ht. cbn [Timestamp]. lia.
Defined.

(** A reserved verified ballot and an aggregated batch. *)
Definition interrupted : Storage := MkStorage
  (<[verifiedBallotPrefix ++ pid_bytes pid1 ++ VoteID_Bytes (vote 5) := enc (verified pid1 5 100)]>
   (<[reservationDB verifiedBallotPrefix ++ pid_bytes pid1 ++ VoteID_Bytes (vote 5) := enc {| Timestamp := 60 |}]>
    {[aggregBatchPrefix ++ pid_bytes pid1 ++ [byte_of_Z 9] := enc (batch pid1 [aggregated 7 102] 0 zeroTime)]}))
  ∅ ∅ ∅ (70 * second) [].
Lemma interrupted_readable :
  readable (A:=VerifiedBallot) verifiedBallotPrefix (db interrupted) ∧
  readable (A:=AggregatorBallotBatch) aggregBatchPrefix (db interrupted).
Proof.
  split; intros k v H.
  - apply (under_forallb _ (λ _ v, is_Ok (DecodeArtifact (A:=VerifiedBallot) v))) in H; [done|by vm_compute].
  - apply (under_forallb _ (λ _ v, is_Ok (DecodeArtifact (A:=AggregatorBallotBatch) v))) in H; [done|by vm_compute].
Qed.
Lemma recover_spec_witness :
  let s' := exec recover interrupted in
  isReserved (db s') verifiedBallotPrefix (pid_bytes pid1 ++ VoteID_Bytes (vote 5)) = false ∧
  vote 5 ∈ processingVoteIDs s'.
Proof.
  pose proof (recover_spec interrupted eq_refl ltac:(apply local_reservation_by; by vm_compute) eq_refl eq_refl
    (proj1 interrupted_readable) (proj2 interrupted_readable)) as H.
  rewrite (run_eq _ _ (Ok ())) in H by by vm_compute. destruct H as (_ & Hr & _ & Hv & _). split.
  - apply Hr. right. left.
  - apply Hv. left. exists (verified pid1 5 100). split; [|done].
    exists (pid_bytes pid1 ++ VoteID_Bytes (vote 5)), (enc (verified pid1 5 100)). split; vm_compute; reflexivity.
Defined.

Definition fresh_store : Storage := MkStorage ∅ ∅ ∅ ∅ (70 * second) [].
(** A restart forgets pending voters. A second ballot of a voter is refused while the first is pending; after a
    restart it is accepted, and the voter has two ballots in the queue. *)
Lemma restart_forgets_pending_voters :
  let s1 := exec (PushPendingBallot (ballot pid1 5 100)) fresh_store in
  let s2 := New (db s1) (80 * second) [] in
  eval (PushPendingBallot (ballot pid1 6 100)) s1 = Err ErrAddressProcessing ∧
  eval (PushPendingBallot (ballot pid1 6 100)) s2 = Ok () ∧
  eval CountPendingBallots (exec (PushPendingBallot (ballot pid1 6 100)) s2) = Ok 2%nat.
Proof. by vm_compute. Qed.

(** The path of an aggregated batch from the queue to the settled state. *)
Definition settle : M () :=
  r ← NextAggregatorBatch pid1;
  _ ← MarkAggregatorBatchPending r.1;
  _ ← PushStateTransitionBatch (transition pid1 (abb_Ballots r.1));
  _ ← MarkAggregatorBatchDone r.2;
  r ← NextStateTransitionBatch pid1;
  MarkStateTransitionBatchDone r.2 pid1.
Definition with_process (s : Storage) : Storage :=
  set_db (<[processPrefix ++ pid_bytes pid1 := enc process1]> (db s)) s.

Definition verified_key (n : Z) : bytes := pid_bytes pid1 ++ VoteID_Bytes (vote n).
(** Two verified ballots; the next commit fails. *)
Definition pull_store : Storage := MkStorage
  (<[verifiedBallotPrefix ++ verified_key 5 := enc (verified pid1 5 100)]>
    {[verifiedBallotPrefix ++ verified_key 7 := enc (verified pid1 7 101)]}) ∅ ∅ ∅ (70 * second) [true].
(** A pull after a failed reservation. When the first of two reservations fails, the loop over the keys skips the
    second: it is returned without a reservation, and the empty key is reserved. *)
Lemma pull_skips_after_failure :
  let s' := exec (PullVerifiedBallots pid1 3) pull_store in
  eval (PullVerifiedBallots pid1 3) pull_store = Ok ([verified pid1 7 101], [verified_key 7]) ∧
  isReserved (db s') verifiedBallotPrefix (verified_key 7) = false ∧
  isReserved (db s') verifiedBallotPrefix [] = true.
Proof. by vm_compute. Qed.
