(* ===== verification/Pipeline.v ===== *)
(** * The storage as a whole

    Every exported operation as one step of the storage, and what no sequence of
    steps can do: a vote that is done stays done, and two ballots of the same
    voter are never in the queues of a process at the same time. The second is
    proved on an abstract model of the queues and their locks, which the ballot
    operations implement. *)

From S2P Require Import Prelude Bytes DB Spec Types StorageTypes StorageBase Process VoteStatus Stats Ballots Batches Cleanup.

Section ops.
Context `{Env : StorageEnv}.

(** ** Operations *)

Inductive op :=
  | OpNewProcess (p : option Process) | OpUpdateProcess (pid : ProcessID) (fs : list (Process → result Process))
  | OpGenerateKeys (k : result (Z * Z * Z))
  | OpPushPendingBallot (b : Ballot) | OpNextPendingBallot
  | OpRemovePendingBallot (pid : ProcessID) (v : uint64) | OpRemovePendingBallotsByProcess (pid : ProcessID)
  | OpReleasePendingBallotReservation (v : uint64)
  | OpMarkBallotVerified (v : uint64) (vb : option VerifiedBallot)
  | OpPullVerifiedBallots (pid : ProcessID) (n : Z) | OpReleaseVerifiedBallotReservations (keys : list bytes)
  | OpRemoveVerifiedBallotsByProcess (pid : ProcessID)
  | OpMarkVerifiedBallotsDone (keys : list bytes) | OpMarkVerifiedBallotsFailed (keys : list bytes)
  | OpPushAggregatorBatch (abb : AggregatorBallotBatch) | OpRemoveAggregatorBatchesByProcess (pid : ProcessID)
  | OpMarkAggregatorBatchFailed (k : bytes) | OpNextAggregatorBatch (pid : ProcessID)
  | OpMarkAggregatorBatchPending (abb : AggregatorBallotBatch) | OpMarkAggregatorBatchDone (k : bytes)
  | OpPushStateTransitionBatch (stb : StateTransitionBatch) | OpNextStateTransitionBatch (pid : ProcessID)
  | OpMarkStateTransitionBatchDone (k : bytes) (pid : ProcessID)
  | OpRemoveStateTransitionBatchesByProcess (pid : ProcessID)
  | OpMarkStateTransitionBatchOutdated (k : bytes) | OpMarkStateTransitionBatchFailed (k : bytes) (pid : ProcessID)
  | OpSetPendingTx (pid : ProcessID) | OpPrunePendingTx (pid : ProcessID)
  | OpPushStateTransitionArtifact (a : option TransitionArtifact)
  | OpPushVerifiedResults (r : VerifiedResults) | OpMarkVerifiedResultsDone (pid : ProcessID)
  | OpMarkVoteIDsDone (pid : ProcessID) (vs : list uint64) | OpMarkProcessVoteIDsTimeout (pid : ProcessID)
  | OpIncreaseWorkerJobCount (a : string) (n : Z) | OpIncreaseWorkerFailedJobCount (a : string) (n : Z)
  | OpCleanAllPending | OpCheckAndUpdateEndedProcesses | OpCleanProcessStaleVotes (pid : ProcessID)
  | OpReleaseStaleReservations (maxAge : Z)
  | OpRestart (t : Time) (fs : list bool) | OpTick (t : Time).

(** The state after a call, whatever it returns. [OpRestart] opens the database
    again with empty lock tables; [OpTick] is the passing of time. *)
Definition run_op (o : op) (s : Storage) : Storage :=
  match o with
  | OpNewProcess p => exec (NewProcess p) s
  | OpUpdateProcess pid fs => exec (UpdateProcess pid fs) s
  | OpGenerateKeys k => exec (GenerateProcessEncryptionKeys k) s
  | OpPushPendingBallot b => exec (PushPendingBallot b) s
  | OpNextPendingBallot => exec NextPendingBallot s
  | OpRemovePendingBallot pid v => exec (RemovePendingBallot pid v) s
  | OpRemovePendingBallotsByProcess pid => exec (RemovePendingBallotsByProcess pid) s
  | OpReleasePendingBallotReservation v => exec (ReleasePendingBallotReservation v) s
  | OpMarkBallotVerified v vb => exec (MarkBallotVerified v vb) s
  | OpPullVerifiedBallots pid n => exec (PullVerifiedBallots pid n) s
  | OpReleaseVerifiedBallotReservations keys => exec (ReleaseVerifiedBallotReservations keys) s
  | OpRemoveVerifiedBallotsByProcess pid => exec (RemoveVerifiedBallotsByProcess pid) s
  | OpMarkVerifiedBallotsDone keys => exec (MarkVerifiedBallotsDone keys) s
  | OpMarkVerifiedBallotsFailed keys => exec (MarkVerifiedBallotsFailed keys) s
  | OpPushAggregatorBatch abb => exec (PushAggregatorBatch abb) s
  | OpRemoveAggregatorBatchesByProcess pid => exec (RemoveAggregatorBatchesByProcess pid) s
  | OpMarkAggregatorBatchFailed k => exec (MarkAggregatorBatchFailed k) s
  | OpNextAggregatorBatch pid => exec (NextAggregatorBatch pid) s
  | OpMarkAggregatorBatchPending abb => exec (MarkAggregatorBatchPending abb) s
  | OpMarkAggregatorBatchDone k => exec (MarkAggregatorBatchDone k) s
  | OpPushStateTransitionBatch stb => exec (PushStateTransitionBatch stb) s
  | OpNextStateTransitionBatch pid => exec (NextStateTransitionBatch pid) s
  | OpMarkStateTransitionBatchDone k pid => exec (MarkStateTransitionBatchDone k pid) s
  | OpRemoveStateTransitionBatchesByProcess pid => exec (RemoveStateTransitionBatchesByProcess pid) s
  | OpMarkStateTransitionBatchOutdated k => exec (MarkStateTransitionBatchOutdated k) s
  | OpMarkStateTransitionBatchFailed k pid => exec (MarkStateTransitionBatchFailed k pid) s
  | OpSetPendingTx pid => exec (SetPendingTx StateTransitionTx pid) s
  | OpPrunePendingTx pid => exec (PrunePendingTx StateTransitionTx pid) s
  | OpPushStateTransitionArtifact a => exec (PushStateTransitionArtifact a) s
  | OpPushVerifiedResults r => exec (PushVerifiedResults r) s
  | OpMarkVerifiedResultsDone pid => exec (MarkVerifiedResultsDone pid) s
  | OpMarkVoteIDsDone pid vs => exec (MarkVoteIDsDone pid vs) s
  | OpMarkProcessVoteIDsTimeout pid => exec (MarkProcessVoteIDsTimeout pid) s
  | OpIncreaseWorkerJobCount a n => exec (IncreaseWorkerJobCount a n) s
  | OpIncreaseWorkerFailedJobCount a n => exec (IncreaseWorkerFailedJobCount a n) s
  | OpCleanAllPending => exec CleanAllPending s
  | OpCheckAndUpdateEndedProcesses => exec checkAndUpdateEndedProcesses s
  | OpCleanProcessStaleVotes pid => exec (CleanProcessStaleVotes pid) s
  | OpReleaseStaleReservations maxAge => exec (releaseStaleReservations maxAge) s
  | OpRestart t fs => New (db s) t fs
  | OpTick t => MkStorage (db s) (processingVoteIDs s) (processingAddresses s) (voteIDToAddress s) t (faults s)
  end.
Definition run_ops (os : list op) (s : Storage) : Storage := foldl (λ s o, run_op o s) s os.

(** ** Relations that every operation respects *)

(** The key spaces of the batches, all reservations, the counters and the process
    states; and with the ballots: everything but processes, encryption keys and
    vote statuses. *)
Definition batch_spaces : list bytes :=
  (reservationDB <$> reservationBasePrefixes) ++
  [aggregBatchPrefix; pendingAggregBatchPrefix; stateTransitionPrefix; stateTransitionArtifactPrefix;
   verifiedResultPrefix; statsPrefix; stateDBprefix; pendingTxPrefix ++ StateTransitionTx; workerStatsPrefix].
Definition queue_spaces : list bytes := ballotPrefix :: verifiedBallotPrefix :: batch_spaces.

Definition batch_space (p : bytes) : bool := bool_decide (p ∈ batch_spaces).
Definition queue_space (p : bytes) : bool := bool_decide (p ∈ queue_spaces).

(** The types of the records of the storage, and the record type of a key space; the two totals share
    a space and are told apart by their keys. *)
Inductive record_type :=
  | TReservation | TBallot | TVerifiedBallot | TAggregatorBatch | TTransitionBatch | TArtifact | TResults | TMark
  | TWorkerStats | TKeys | TProcess | TStats | TPendingStats.
#[export] Instance record_type_eq_dec : EqDecision record_type.
Proof. solve_decision. Defined.
Definition decodes_as (t : record_type) (v : bytes) : bool :=
  match t with
  | TReservation => is_Ok (DecodeArtifact (A:=reservationRecord) v) | TBallot => is_Ok (DecodeArtifact (A:=Ballot) v)
  | TVerifiedBallot => is_Ok (DecodeArtifact (A:=VerifiedBallot) v)
  | TAggregatorBatch => is_Ok (DecodeArtifact (A:=AggregatorBallotBatch) v)
  | TTransitionBatch => is_Ok (DecodeArtifact (A:=StateTransitionBatch) v)
  | TArtifact => is_Ok (DecodeArtifact (A:=TransitionArtifact) v) | TResults => is_Ok (DecodeArtifact (A:=VerifiedResults) v)
  | TMark => is_Ok (DecodeArtifact (A:=bool) v) | TWorkerStats => is_Ok (DecodeArtifact (A:=WorkerStats) v)
  | TKeys => is_Ok (DecodeArtifact (A:=EncryptionKeys) v) | TProcess => is_Ok (DecodeArtifact (A:=Process) v)
  | TStats => is_Ok (DecodeArtifact (A:=Stats) v) | TPendingStats => is_Ok (DecodeArtifact (A:=StatsPendingBallots) v)
  end.
Definition record_types : list (bytes * record_type) :=
  ((λ p, (reservationDB p, TReservation)) <$> reservationBasePrefixes) ++
  [(ballotPrefix, TBallot); (verifiedBallotPrefix, TVerifiedBallot); (aggregBatchPrefix, TAggregatorBatch);
   (pendingAggregBatchPrefix, TAggregatorBatch); (stateTransitionPrefix, TTransitionBatch);
   (stateTransitionArtifactPrefix, TArtifact); (verifiedResultPrefix, TResults); (pendingTxPrefix ++ StateTransitionTx, TMark);
   (workerStatsPrefix, TWorkerStats); (encryptionKeyPrefix, TKeys); (processPrefix, TProcess);
   (statsPrefix ++ totalStatsStorageKey, TStats); (statsPrefix ++ totalPendingBallotsKey, TPendingStats)].
(** A value that may be written under a key. *)
Definition typed_write (key v : bytes) : Prop := ∀ p t, (p, t) ∈ record_types → HasPrefix key p = true → decodes_as t v = true.
(** Under [p] only records of type [t] are expected. *)
Definition only_type (t : record_type) (p : bytes) : bool :=
  forallb (λ pt, incompatible p pt.1 || bool_decide (pt.2 = t)) record_types.
Lemma typed_write_only t p k v : only_type t p = true → decodes_as t v = true → typed_write (p ++ k) v.
Proof.
  unfold only_type. intros Ho Hv q t' Hin Hk. rewrite forallb_forall in Ho. apply list_elem_of_In in Hin.
  apply Ho in Hin. cbn in Hin. apply orb_prop in Hin as [Hi|Ht%bool_decide_eq_true]; [by rewrite incompatible_no in Hk|congruence].
Qed.
(** What an encoder writes is typed. *)
Class RecordType (A : Type) `{Codec A} := {
  record_type_of : record_type;
  record_type_decodes v : decodes_as record_type_of v = is_Ok (DecodeArtifact (A:=A) v) }.
#[export] Instance type_reservation : RecordType reservationRecord := {| record_type_of := TReservation; record_type_decodes _ := eq_refl |}.
#[export] Instance type_Ballot : RecordType Ballot := {| record_type_of := TBallot; record_type_decodes _ := eq_refl |}.
#[export] Instance type_VerifiedBallot : RecordType VerifiedBallot := {| record_type_of := TVerifiedBallot; record_type_decodes _ := eq_refl |}.
#[export] Instance type_Aggregator : RecordType AggregatorBallotBatch := {| record_type_of := TAggregatorBatch; record_type_decodes _ := eq_refl |}.
#[export] Instance type_Transition : RecordType StateTransitionBatch := {| record_type_of := TTransitionBatch; record_type_decodes _ := eq_refl |}.
#[export] Instance type_Artifact : RecordType TransitionArtifact := {| record_type_of := TArtifact; record_type_decodes _ := eq_refl |}.
#[export] Instance type_Results : RecordType VerifiedResults := {| record_type_of := TResults; record_type_decodes _ := eq_refl |}.
#[export] Instance type_Mark : RecordType bool := {| record_type_of := TMark; record_type_decodes _ := eq_refl |}.
#[export] Instance type_WorkerStats : RecordType WorkerStats := {| record_type_of := TWorkerStats; record_type_decodes _ := eq_refl |}.
#[export] Instance type_Keys : RecordType EncryptionKeys := {| record_type_of := TKeys; record_type_decodes _ := eq_refl |}.
#[export] Instance type_Process : RecordType Process := {| record_type_of := TProcess; record_type_decodes _ := eq_refl |}.
#[export] Instance type_Stats : RecordType Stats := {| record_type_of := TStats; record_type_decodes _ := eq_refl |}.
#[export] Instance type_PendingStats : RecordType StatsPendingBallots := {| record_type_of := TPendingStats; record_type_decodes _ := eq_refl |}.
Lemma encoded_decodes `{RecordType A} (a : A) v : EncodeArtifact a = Ok v → decodes_as record_type_of v = true.
Proof. intros Hv. by rewrite record_type_decodes, (codec_roundtrip a v Hv). Qed.
Lemma typed_encode `{RecordType A} (a : A) p k v : EncodeArtifact a = Ok v → only_type record_type_of p = true → typed_write (p ++ k) v.
Proof. intros Hv Ho. by eapply typed_write_only, encoded_decodes. Qed.

(** What a relation on states has to allow for the operations that leave the ballots
    and the voters' locks alone to stay within it: the writing of well-typed records of the batches, their
    removal, what the process states write (none of it invents failing commits), a new version of
    a process record, a public key, and the three ways to write statuses. *)
Class BatchRel (R : relation Storage) := {
  br_pre :: PreOrder R;
  br_modify f :
    (∀ s, db (f s) = db s ∧ processingAddresses (f s) = processingAddresses s ∧ faults (f s) = faults s) → moves R (modify f);
  br_commit_Set p k v : batch_space p = true → typed_write (p ++ k) v → moves R (commit (prefixed_Set p k v ∅));
  br_commit_Delete p k : batch_space p = true → moves R (commit (prefixed_Delete p k ∅));
  br_delete_all p ks : batch_space p = true → moves R (commit (delete_all p ks));
  sr_on_state f : (∀ d k, ¬ state_keys k → (f d).2 !! k = d !! k) → moves R (on_state f);
  sr_process pid p : moves R (setArtifact processPrefix (Some (pid_bytes pid)) p);
  sr_pubkey k : moves R (setEncryptionPubKeyUnsafe k);
  sr_setVoteIDStatus pid v st : moves R (setVoteIDStatus pid v st);
  sr_markVoteIDsDone pid vs : moves R (markVoteIDsDone pid vs);
  sr_timeout pid : moves R (markProcessVoteIDsTimeout pid)
}.
(** For all operations: also any change of the ballots and of the locks. *)
Class StepRel (R : relation Storage) := {
  sr_batchrel :: BatchRel R;
  sr_modify f : (∀ s, db (f s) = db s) → moves R (modify f);
  sr_commit_Set p k v : queue_space p = true → typed_write (p ++ k) v → moves R (commit (prefixed_Set p k v ∅));
  sr_deleteArtifact p k : queue_space p = true → moves R (deleteArtifact p k)
}.

#[local] Instance Committal_addresses : Committal (same processingAddresses).
Proof. split; [apply _|]. intros w s. unfold commit, same. by destruct (faults s) as [|[] fs]. Qed.
#[local] Existing Instance Committal_quiet.
Lemma reservation_space p : p ∈ reservationBasePrefixes → batch_space (reservationDB p) = true.
Proof.
  intros Hp. unfold batch_space, batch_spaces. apply bool_decide_eq_true, elem_of_app. left.
  by apply list_elem_of_fmap_2.
Qed.

(** Relations that only depend on frames: every change of the batches, of the ballots. *)
Section frames.
Context (R : relation Storage) `{!PreOrder R}.
Definition batch_frame : Prop := ∀ A (m : M A),
  moves (touches (spaces batch_spaces)) m → moves (same processingAddresses) m → moves keeps_quiet m → moves R m.
Lemma frame_modify f : batch_frame →
  (∀ s, db (f s) = db s ∧ processingAddresses (f s) = processingAddresses s ∧ faults (f s) = faults s) → moves R (modify f).
Proof.
  intros HR Hf. apply HR; intros s; destruct (Hf s) as (H1 & H2 & H3).
  - intros k _. cbn. by rewrite H1.
  - exact H2.
  - unfold keeps_quiet, quiet. cbn. by rewrite H3.
Qed.
Lemma frame_state f : batch_frame → (∀ d k, ¬ state_keys k → (f d).2 !! k = d !! k) → moves R (on_state f).
Proof.
  intros HR Hf. apply HR; intros s.
  - intros k Hk. unfold on_state. specialize (Hf (db s) k). destruct (f (db s)) as [r d].
    apply Hf. intros Hs. apply Hk. exists stateDBprefix. split; [by apply (bool_decide_unpack _)|exact Hs].
  - unfold on_state, same. by destruct (f (db s)).
  - unfold on_state, keeps_quiet. by destruct (f (db s)).
Qed.
Lemma BatchRel_frame : batch_frame →
  (∀ pid p, moves R (setArtifact processPrefix (Some (pid_bytes pid)) p)) →
  (∀ k, moves R (setEncryptionPubKeyUnsafe k)) → (∀ pid v st, moves R (setVoteIDStatus pid v st)) →
  (∀ pid vs, moves R (markVoteIDsDone pid vs)) → (∀ pid, moves R (markProcessVoteIDsTimeout pid)) → BatchRel R.
Proof.
  intros HR. split; [apply _| | | | | |done..].
  - intros f. by apply frame_modify.
  - intros p k v Hp%bool_decide_eq_true _. apply HR; [by apply commit_Set_touches|apply committal..].
  - intros p k Hp%bool_decide_eq_true. apply HR; [by apply commit_Delete_touches|apply committal..].
  - intros p ks Hp%bool_decide_eq_true. apply HR; [by apply delete_all_touches|apply committal..].
  - intros f. by apply frame_state.
Qed.
Lemma StepRel_frame `{!BatchRel R} : (∀ A (m : M A), moves (touches (spaces queue_spaces)) m → moves R m) → StepRel R.
Proof.
  intros HR. split; [apply _|..].
  - intros f Hf. apply HR. intros s k _. cbn. by rewrite Hf.
  - intros p k v Hp%bool_decide_eq_true _. by apply HR, commit_Set_touches.
  - intros p k Hp%bool_decide_eq_true. by apply HR, moves_deleteArtifact_touches.
Qed.
End frames.

(** Frame rules that remember what was encoded. *)
Ltac typed := match goal with H : EncodeArtifact ?a = Ok ?v |- typed_write _ ?v => apply (typed_encode a _ _ _ H); try done end.
Lemma moves_lift_bind (R : relation Storage) `{!PreOrder R} {A B} (r : result A) (f : A → M B) :
  (∀ a, r = Ok a → moves R (f a)) → moves R (lift r ≫= f).
Proof. intros Hf s. unfold mbind, SE_bind, lift. destruct r as [a|e]; [by apply Hf|reflexivity]. Qed.
Ltac tmoves_step := first
  [ simple apply moves_bind_lift; [apply _|intros ? ?]
  | simple apply moves_lift_bind; [apply _|intros ? ?]
  | lazymatch goal with |- moves _ (match ?x with _ => _ end) => destruct x eqn:? end
  | moves_step ].
Ltac tmoves := repeat (first [solve [eauto 3 with moves] | tmoves_step]); try done.

Section batch_steps.
Context (R : relation Storage) `{!BatchRel R}.

Lemma br_setArtifact_key `{RecordType A} p k (a : A) :
  batch_space p = true → only_type record_type_of (p ++ k) = true → moves R (setArtifact p (Some k) a).
Proof.
  intros Hp Ht. unfold setArtifact. apply moves_lift_bind; [apply _|]. intros v Hv. apply br_commit_Set; [done|].
  rewrite <-(app_nil_r (p ++ k)). typed.
Qed.
Lemma br_setArtifact `{RecordType A} p k (a : A) : batch_space p = true → only_type record_type_of p = true → moves R (setArtifact p k a).
Proof.
  intros Hp Ht. unfold setArtifact. apply moves_lift_bind; [apply _|]. intros v Hv. apply br_commit_Set; [done|]. typed.
Qed.
Lemma br_deleteArtifact p k : batch_space p = true → moves R (deleteArtifact p k).
Proof. apply br_commit_Delete. Qed.
Lemma br_setReservation p k : batch_space (reservationDB p) = true → only_type TReservation (reservationDB p) = true → moves R (setReservation p k).
Proof.
  intros Hp Ht. unfold setReservation. apply moves_bind; [apply _|apply moves_gets; apply _|]. intros t.
  apply moves_lift_bind; [apply _|]. intros v Hv. apply moves_bind; [apply _|apply moves_gets; apply _|]. intros d.
  destruct (prefixed_tx_Get _ _ _ _); [apply moves_raise; apply _|]. apply br_commit_Set; [done|]. typed.
Qed.
Lemma br_deleteReservation p k : batch_space (reservationDB p) = true → moves R (deleteReservation p k).
Proof. apply br_commit_Delete. Qed.

(** The leaves of an operation, and then the operations by the structure of their code. *)
Ltac br_leaf := solve
  [ apply br_modify; intros; done
  | first [apply moves_rd_Get | apply moves_getArtifact | apply moves_listArtifacts]; apply _
  | apply br_commit_Set; [by vm_compute|typed; by vm_compute]
  | apply br_setArtifact; by vm_compute
  | apply br_setArtifact_key; by vm_compute
  | first [apply br_commit_Delete | apply br_deleteArtifact | apply br_setReservation | apply br_deleteReservation]; by vm_compute ].
#[local] Hint Extern 2 (moves R _) => br_leaf : moves.
#[local] Hint Resolve sr_process sr_pubkey sr_setVoteIDStatus sr_markVoteIDsDone sr_timeout : moves.

Lemma sr_NewProcess p : moves R (NewProcess p).
Proof.
  unfold NewProcess. tmoves; apply sr_on_state;
    [apply state_New_frame|apply state_Initialize_frame|apply state_SetRoot_frame].
Qed.
Lemma sr_UpdateProcess pid fs : moves R (UpdateProcess pid fs).
Proof. unfold UpdateProcess, process. tmoves. Qed.
Lemma sr_updateProcessStats pid us : moves R (updateProcessStats pid us).
Proof. unfold updateProcessStats, getArtifact_or, process. tmoves. Qed.
Lemma sr_voteIDStatus pid v : moves R (voteIDStatus pid v).
Proof. unfold voteIDStatus, process. tmoves. Qed.
#[local] Hint Resolve sr_updateProcessStats sr_UpdateProcess sr_voteIDStatus : moves.
Lemma sr_nextPendingBallot : moves R nextPendingBallot.
Proof. unfold nextPendingBallot. tmoves. Qed.
Lemma sr_ReleasePendingBallotReservation v : moves R (ReleasePendingBallotReservation v).
Proof. unfold ReleasePendingBallotReservation. tmoves. Qed.
Lemma sr_reserve_loop n i arr res : moves R (reserve_loop n i arr res).
Proof. revert i arr res. induction n as [|n IH]; intros i arr res; simpl; tmoves. Qed.
#[local] Hint Resolve sr_reserve_loop : moves.
Lemma sr_PullVerifiedBallots pid n : moves R (PullVerifiedBallots pid n).
Proof. unfold PullVerifiedBallots. tmoves. Qed.
Lemma sr_ReleaseVerifiedBallotReservations ks : moves R (ReleaseVerifiedBallotReservations ks).
Proof. unfold ReleaseVerifiedBallotReservations. tmoves. Qed.
Lemma sr_pushAggregatorBatch abb : moves R (pushAggregatorBatch abb).
Proof. unfold pushAggregatorBatch. tmoves. Qed.
#[local] Hint Resolve sr_pushAggregatorBatch : moves.
Lemma sr_RemoveAggregatorBatchesByProcess pid : moves R (RemoveAggregatorBatchesByProcess pid).
Proof. unfold RemoveAggregatorBatchesByProcess. tmoves. Qed.
Lemma sr_MarkAggregatorBatchFailed k : moves R (MarkAggregatorBatchFailed k).
Proof. unfold MarkAggregatorBatchFailed, failAggregated, releaseVoteID. tmoves. Qed.
Lemma sr_NextAggregatorBatch pid : moves R (NextAggregatorBatch pid).
Proof. unfold NextAggregatorBatch. tmoves. Qed.
Lemma sr_MarkAggregatorBatchPending abb : moves R (MarkAggregatorBatchPending abb).
Proof. unfold MarkAggregatorBatchPending. tmoves. Qed.
Lemma sr_MarkAggregatorBatchDone k : moves R (MarkAggregatorBatchDone k).
Proof. unfold MarkAggregatorBatchDone, removeEntry. tmoves. Qed.
Lemma sr_PushStateTransitionBatch stb : moves R (PushStateTransitionBatch stb).
Proof. unfold PushStateTransitionBatch. tmoves. Qed.
Lemma sr_NextStateTransitionBatch pid : moves R (NextStateTransitionBatch pid).
Proof. unfold NextStateTransitionBatch. tmoves. Qed.
Lemma sr_removeStateTransitionBatch k : moves R (removeStateTransitionBatch k).
Proof. unfold removeStateTransitionBatch. tmoves. Qed.
#[local] Hint Resolve sr_removeStateTransitionBatch : moves.
Lemma sr_MarkStateTransitionBatchDone k pid : moves R (MarkStateTransitionBatchDone k pid).
Proof. unfold MarkStateTransitionBatchDone, releasePendingAggregatorBatch, releaseVoteID. tmoves. Qed.
Lemma sr_RemoveStateTransitionBatchesByProcess pid : moves R (RemoveStateTransitionBatchesByProcess pid).
Proof. unfold RemoveStateTransitionBatchesByProcess. tmoves. Qed.
Lemma sr_prunePendingTx pid : moves R (prunePendingTx StateTransitionTx pid).
Proof. unfold prunePendingTx. tmoves. Qed.
Lemma sr_SetPendingTx pid : moves R (SetPendingTx StateTransitionTx pid).
Proof. unfold SetPendingTx, pendingTxs. tmoves. Qed.
Lemma sr_removeStateTransitionArtifact pid r : moves R (removeStateTransitionArtifact pid r).
Proof. unfold removeStateTransitionArtifact. tmoves. Qed.
#[local] Hint Resolve sr_prunePendingTx sr_removeStateTransitionArtifact : moves.
Lemma sr_MarkStateTransitionBatchOutdated k : moves R (MarkStateTransitionBatchOutdated k).
Proof.
  unfold MarkStateTransitionBatchOutdated, pendingAggregatorBatch, releasePendingAggregatorBatch,
    releaseAggregatorBatchReservation. tmoves.
Qed.
Lemma sr_filterSettled pid c bs : moves R (filterSettled pid c bs).
Proof. induction bs as [|b bs IH]; simpl; tmoves. Qed.
#[local] Hint Resolve sr_filterSettled : moves.
Lemma sr_MarkStateTransitionBatchFailed k pid : moves R (MarkStateTransitionBatchFailed k pid).
Proof.
  unfold MarkStateTransitionBatchFailed, retryPendingBatch, markBallotsError, pendingAggregatorBatch,
    releasePendingAggregatorBatch, processIsAcceptingVotes, processIsOnChainAlive, process. tmoves.
Qed.
Lemma sr_pushStateTransitionArtifact a : moves R (pushStateTransitionArtifact a).
Proof. unfold pushStateTransitionArtifact. tmoves. Qed.
Lemma sr_PushVerifiedResults r : moves R (PushVerifiedResults r).
Proof. unfold PushVerifiedResults. tmoves. Qed.
Lemma sr_MarkVerifiedResultsDone pid : moves R (MarkVerifiedResultsDone pid).
Proof. unfold MarkVerifiedResultsDone. tmoves. Qed.
Lemma sr_IncreaseWorkerJobCount a n : moves R (IncreaseWorkerJobCount a n).
Proof. unfold IncreaseWorkerJobCount, getWorkerStatsUnsafe, setWorkerStatsUnsafe, getArtifact_or. tmoves. Qed.
Lemma sr_IncreaseWorkerFailedJobCount a n : moves R (IncreaseWorkerFailedJobCount a n).
Proof. unfold IncreaseWorkerFailedJobCount, getWorkerStatsUnsafe, setWorkerStatsUnsafe, getArtifact_or. tmoves. Qed.
Lemma sr_cleanAggregated acc kv : moves R (cleanAggregated acc kv).
Proof. unfold cleanAggregated, cleanAggregatedBallot, releaseVoteID. tmoves. Qed.
Lemma sr_cleanTransition acc kv : moves R (cleanTransition acc kv).
Proof. unfold cleanTransition, cleanTransitionBallot, releaseVoteID. tmoves. Qed.
Lemma sr_releaseStaleReservations maxAge : moves R (releaseStaleReservations maxAge).
Proof.
  unfold releaseStaleReservations, releaseStaleInPrefix. tmoves.
  all: by apply br_delete_all, reservation_space.
Qed.

Create HintDb batch_ops discriminated.
#[local] Hint Resolve sr_NewProcess sr_UpdateProcess sr_nextPendingBallot sr_ReleasePendingBallotReservation
  sr_PullVerifiedBallots sr_ReleaseVerifiedBallotReservations sr_pushAggregatorBatch
  sr_RemoveAggregatorBatchesByProcess sr_MarkAggregatorBatchFailed sr_NextAggregatorBatch
  sr_MarkAggregatorBatchPending sr_MarkAggregatorBatchDone sr_PushStateTransitionBatch
  sr_NextStateTransitionBatch sr_MarkStateTransitionBatchDone sr_RemoveStateTransitionBatchesByProcess
  sr_MarkStateTransitionBatchOutdated sr_MarkStateTransitionBatchFailed sr_SetPendingTx sr_prunePendingTx
  sr_pushStateTransitionArtifact sr_PushVerifiedResults sr_MarkVerifiedResultsDone sr_markVoteIDsDone
  sr_timeout sr_IncreaseWorkerJobCount sr_IncreaseWorkerFailedJobCount sr_releaseStaleReservations : batch_ops.

(** The operations that work on the ballots or on the voters' locks. *)
Definition ballot_op (o : op) : bool :=
  match o with
  | OpPushPendingBallot _ | OpRemovePendingBallot _ _ | OpRemovePendingBallotsByProcess _
  | OpMarkBallotVerified _ _ | OpRemoveVerifiedBallotsByProcess _ | OpMarkVerifiedBallotsDone _
  | OpMarkVerifiedBallotsFailed _ | OpCleanAllPending | OpCheckAndUpdateEndedProcesses
  | OpCleanProcessStaleVotes _ | OpRestart _ _ => true
  | _ => false
  end.
(** The others, but for the generation of a key. *)
Lemma run_op_BatchRel o s :
  ballot_op o = false → (∀ k, o = OpGenerateKeys k → R s (run_op o s)) → R s (run_op o s).
Proof.
  intros Ho Hk. destruct o; try done; try (by eapply Hk); unfold run_op, exec, NextPendingBallot,
    PushAggregatorBatch, PrunePendingTx, PushStateTransitionArtifact, MarkVoteIDsDone, MarkProcessVoteIDsTimeout;
    try (to_moves; solve [auto with batch_ops]).
  pose proof (br_modify (λ s, MkStorage (db s) (processingVoteIDs s) (processingAddresses s) (voteIDToAddress s) t
    (faults s)) (λ s, conj eq_refl (conj eq_refl eq_refl)) s) as H. exact H.
Qed.
End batch_steps.

Section steps.
Context (R : relation Storage) `{!StepRel R}.

Ltac sr_leaf := solve
  [ apply sr_modify; done
  | first [apply moves_rd_Get | apply moves_getArtifact | apply moves_listArtifacts]; apply _
  | apply sr_commit_Set; [by vm_compute|typed; by vm_compute]
  | first [apply sr_deleteArtifact | apply br_deleteReservation]; by vm_compute ].
#[local] Hint Extern 2 (moves R _) => sr_leaf : moves.
Ltac sr_known := solve [first
  [ simple eapply sr_timeout | simple eapply sr_setVoteIDStatus | simple eapply sr_updateProcessStats | simple eapply sr_UpdateProcess
  | simple eapply sr_voteIDStatus | simple eapply sr_cleanAggregated | simple eapply sr_cleanTransition
  | simple eapply sr_RemoveAggregatorBatchesByProcess | simple eapply sr_RemoveStateTransitionBatchesByProcess ]; apply _].
#[local] Hint Extern 1 (moves R _) => sr_known : moves.

Lemma sr_releaseLocks v pid a : moves R (releaseLocks v pid a).
Proof. unfold releaseLocks, releaseVoteID, releaseAddress, deleteAddressInfo. tmoves. Qed.
#[local] Hint Resolve sr_releaseLocks : moves.
Lemma sr_PushPendingBallot b : moves R (PushPendingBallot b).
Proof. unfold PushPendingBallot, IsVoteIDProcessing, lockAddress, lockVoteID, releaseVoteID,
  releaseAddress, storeAddressInfo. tmoves. Qed.
Lemma sr_removePendingBallot pid v : moves R (removePendingBallot pid v).
Proof. unfold removePendingBallot. tmoves. Qed.
#[local] Hint Resolve sr_removePendingBallot : moves.
Lemma sr_RemovePendingBallot pid v : moves R (RemovePendingBallot pid v).
Proof. unfold RemovePendingBallot. tmoves. Qed.
Lemma sr_RemovePendingBallotsByProcess pid : moves R (RemovePendingBallotsByProcess pid).
Proof. unfold RemovePendingBallotsByProcess. tmoves. Qed.
Lemma sr_MarkBallotVerified v vb : moves R (MarkBallotVerified v vb).
Proof. unfold MarkBallotVerified. tmoves. Qed.
Lemma sr_removeVerifiedBallot k : moves R (removeVerifiedBallot k).
Proof. unfold removeVerifiedBallot. tmoves. Qed.
Lemma sr_releaseVerified o : moves R (releaseVerified o).
Proof. unfold releaseVerified. tmoves. Qed.
#[local] Hint Resolve sr_removeVerifiedBallot sr_releaseVerified : moves.
Lemma sr_RemoveVerifiedBallotsByProcess pid : moves R (RemoveVerifiedBallotsByProcess pid).
Proof. unfold RemoveVerifiedBallotsByProcess. tmoves. Qed.
Lemma sr_MarkVerifiedBallotsDone ks : moves R (MarkVerifiedBallotsDone ks).
Proof. unfold MarkVerifiedBallotsDone. tmoves. Qed.
Lemma sr_failVerifiedBallot acc k : moves R (failVerifiedBallot acc k).
Proof. unfold failVerifiedBallot. tmoves. Qed.
#[local] Hint Resolve sr_failVerifiedBallot : moves.
Lemma sr_MarkVerifiedBallotsFailed ks : moves R (MarkVerifiedBallotsFailed ks).
Proof. unfold MarkVerifiedBallotsFailed. tmoves. Qed.
Lemma sr_dropEntry p k :
  batch_space (reservationDB p) = true → queue_space p = true → moves R (dropEntry p k).
Proof. intros H1 H2. unfold dropEntry. tmoves. apply br_deleteReservation; [apply _|done]. Qed.
Lemma sr_dropEntries p ks :
  batch_space (reservationDB p) = true → queue_space p = true → moves R (forM_ (dropEntry p) ks).
Proof. intros H1 H2. apply moves_forM_; [apply _|]. intros k _. by apply sr_dropEntry. Qed.
#[local] Hint Extern 2 (moves R (dropEntry _ _)) => apply sr_dropEntry; by vm_compute : moves.
#[local] Hint Extern 2 (moves R (forM_ (dropEntry _) _)) => apply sr_dropEntries; by vm_compute : moves.
Lemma sr_cleanVerified acc kv : moves R (cleanVerified acc kv).
Proof. unfold cleanVerified. tmoves. Qed.
#[local] Hint Resolve sr_cleanVerified : moves.
Lemma sr_CleanAllPending : moves R CleanAllPending.
Proof.
  unfold CleanAllPending, cleanAllVerifiedBallots, cleanAllAggregatedBatches, cleanAllStateTransitions. tmoves.
Qed.
Lemma sr_cleanupEndedProcess pid : moves R (cleanupEndedProcess pid).
Proof.
  unfold cleanupEndedProcess, cleanPendingBallotsForProcess, cleanVerifiedBallotsForProcess,
    cleanAggregatorBatchesForProcess, cleanStateTransitionsForProcess,
    cleanStateTransitionArtifactsForProcess. tmoves.
Qed.
#[local] Hint Resolve sr_cleanupEndedProcess : moves.
Lemma sr_checkAndUpdateEndedProcesses : moves R checkAndUpdateEndedProcesses.
Proof. unfold checkAndUpdateEndedProcesses, ListProcesses, checkEnded, process. tmoves. Qed.
#[local] Hint Resolve sr_RemovePendingBallotsByProcess sr_RemoveVerifiedBallotsByProcess : moves.
Lemma sr_CleanProcessStaleVotes pid : moves R (CleanProcessStaleVotes pid).
Proof. unfold CleanProcessStaleVotes. tmoves. Qed.
Lemma sr_decode_all `{Codec A} msg (f : A → M ()) l : (∀ a, moves R (f a)) → moves R (decode_all msg f l).
Proof. intros Hf. induction l as [|v l IH]; simpl; tmoves. Qed.
Lemma sr_recover : moves R recover.
Proof.
  assert (Hb : ∀ pid v a, moves R (recoverBallot pid v a)).
  { intros. unfold recoverBallot, lockVoteID, lockAddress, storeAddressInfo. tmoves. }
  unfold recover, recoverNullifiers, cleanAllReservations. tmoves; try (by apply br_delete_all, reservation_space).
  all: apply sr_decode_all; intros; tmoves.
Qed.

Lemma sr_same_db s s' : db s' = db s → R s s'.
Proof.
  intros Hd. pose proof (sr_modify (λ s, MkStorage (db s) (processingVoteIDs s') (processingAddresses s')
    (voteIDToAddress s') (now s') (faults s')) (λ s, eq_refl) s) as H.
  cbn in H. rewrite <-Hd in H. by destruct s'.
Qed.

Create HintDb ops discriminated.
#[local] Hint Resolve sr_PushPendingBallot sr_RemovePendingBallot sr_RemovePendingBallotsByProcess
  sr_MarkBallotVerified sr_RemoveVerifiedBallotsByProcess sr_MarkVerifiedBallotsDone
  sr_MarkVerifiedBallotsFailed sr_CleanAllPending sr_checkAndUpdateEndedProcesses
  sr_CleanProcessStaleVotes sr_recover : ops.

(** Every operation but the generation of a key, whatever it returns. *)
Lemma run_op_StepRel o s : (∀ k, o = OpGenerateKeys k → R s (run_op o s)) → R s (run_op o s).
Proof.
  intros Hk. destruct (ballot_op o) eqn:Ho; [|by apply run_op_BatchRel; [apply _|..]].
  destruct o; try done; unfold run_op, exec; try (to_moves; solve [auto with ops]).
  unfold New, exec. cbn [warn snd]. etrans; [|apply sr_recover]. by apply sr_same_db.
Qed.
Lemma run_ops_StepRel os s :
  (∀ k s, OpGenerateKeys k ∈ os → R s (run_op (OpGenerateKeys k) s)) → R s (run_ops os s).
Proof.
  revert s. induction os as [|o os IH]; intros s Hk; [reflexivity|].
  etrans; [|apply (IH (run_op o s)); intros k s' Hin; apply Hk; by right].
  apply run_op_StepRel. intros k ->. apply Hk. left.
Qed.
End steps.
(** ** Done is final *)

(** Over Pebble, no status record has a key longer than a process and a vote
    identifier (over the other backends the timeout marking also writes longer
    keys, which no operation reads back as the status of a vote). *)
Definition status_wf (d : kv) : Prop := bk = Pebble → ∀ k,
  is_Some (d !! (voteIDStatusPrefix ++ k)) → (length k ≤ ProcessIDLen + 8)%nat.
Definition final : relation Storage := λ s s',
  status_wf (db s) → status_wf (db s') ∧ keeps_done s s'.
#[export] Instance final_preorder : PreOrder final.
Proof.
  split; [intros s H; by split|]. intros a b c Hab Hbc Ha. destruct (Hab Ha) as [Hb H1].
  destruct (Hbc Hb) as [Hc H2]. split; [done|]. by etrans.
Qed.

Lemma final_touches {A} ps (m : M A) :
  forallb (incompatible voteIDStatusPrefix) ps = true → moves (touches (spaces ps)) m → moves final m.
Proof.
  intros Hps Hm s Hwf.
  assert (E : ∀ k, db (m s).2 !! (voteIDStatusPrefix ++ k) = db s !! (voteIDStatusPrefix ++ k)).
  { intros k. apply Hm. by apply spaces_no. }
  split; [intros Hb k; rewrite E; by apply Hwf|]. intros pid v _. unfold stored_status, status_key. apply E.
Qed.
Lemma final_same_db {A} (m : M A) : moves (same db) m → moves final m.
Proof.
  intros Hm s Hwf. specialize (Hm s). unfold same in Hm. unfold keeps_done. rewrite Hm.
  split; [exact Hwf|done].
Qed.

Lemma length_status_key pid v : length (createVoteIDStatusKey pid v) = (ProcessIDLen + 8)%nat.
Proof. unfold createVoteIDStatusKey. by rewrite length_app, length_pid_bytes, length_VoteID_Bytes. Qed.

Lemma TrimPrefix_length k p : (length (TrimPrefix k p) ≤ length k)%nat.
Proof. unfold TrimPrefix. destruct (HasPrefix k p); [rewrite length_drop|]; lia. Qed.
Lemma TrimPrefix_same_length k p : length (TrimPrefix k p) = length k → TrimPrefix k p = k.
Proof.
  unfold TrimPrefix. destruct (HasPrefix k p) eqn:E; [|done].
  apply HasPrefix_spec in E as [r ->]. rewrite length_drop, length_app. intros H.
  destruct p; [done|simpl in H; lia].
Qed.

(** A commit that writes status records, and does not undo a final one. *)
Lemma final_commit (w : writes) s :
  (∀ k x, w !! k = Some x → ∃ k' b, k = voteIDStatusPrefix ++ k' ∧ x = Some b ∧
     (bk = Pebble → (length k' ≤ ProcessIDLen + 8)%nat) ∧
     (∀ pid v, k = status_key pid v → is_done (stored_status (db s) pid v) = true →
        stored_status (db s) pid v = Some b)) →
  final s (commit w s).2.
Proof.
  intros Hw Hwf. destruct (commit_cases w s) as [(e & s' & -> & Hd & _)|(s' & -> & Hd & _)]; cbn [snd].
  { unfold keeps_done. rewrite Hd. split; [exact Hwf|done]. }
  split.
  - intros Hb k. rewrite Hd, lookup_apply_writes. destruct (w !! _) as [x|] eqn:Hx; [|by apply Hwf].
    intros _. destruct (Hw _ _ Hx) as (k' & b & Hk & _ & Hlen & _).
    apply (inj (app _)) in Hk as ->. by apply Hlen.
  - intros pid v Hdone. unfold stored_status in *. rewrite Hd, lookup_apply_writes.
    destruct (w !! status_key pid v) as [x|] eqn:Hx; [|done].
    destruct (Hw _ _ Hx) as (k' & b & _ & -> & _ & Hb). symmetry. by apply Hb.
Qed.
Lemma final_setVoteIDStatus pid v st : moves final (setVoteIDStatus pid v st).
Proof.
  intros s. unfold setVoteIDStatus, gets, prefixed_tx_Get. run_simpl. rewrite lookup_empty.
  unfold prefixSlice. fold (status_key pid v). destruct (is_done _) eqn:Hd; [reflexivity|].
  apply final_commit. intros k x. unfold prefixed_Set, prefixSlice.
  intros [[<- <-]|[_ H]]%lookup_insert_Some; [|by rewrite lookup_empty in H].
  eexists _, _. split_and!; [done..|by rewrite length_status_key|].
  intros pid' v' [<- <-]%(status_key_inj pid v pid' v'). unfold stored_status. by rewrite Hd.
Qed.
Lemma final_markVoteIDsDone pid vs : moves final (markVoteIDsDone pid vs).
Proof.
  intros s. unfold markVoteIDsDone. apply final_commit. intros k x. rewrite done_writes.
  case_decide as Hk; [|by rewrite lookup_empty]. apply list_elem_of_fmap in Hk as (v & -> & _). intros [= <-].
  eexists _, _. split_and!; [done..|by rewrite length_status_key|]. intros pid' v' [<- <-]%status_key_inj.
  unfold is_done. destruct (stored_status (db s) pid v) as [b|]; [|done].
  destruct (bytesToInt b) as [c|] eqn:Hc; [|done]. intros ->%Z.eqb_eq.
  by destruct (status_bytes_inv b _ Hc) as [<- _].
Qed.
Lemma final_timeout pid : moves final (markProcessVoteIDsTimeout pid).
Proof.
  intros s. destruct bk eqn:Hbk.
  2:{ intros _. split; [by intros ?%(eq_trans (eq_sym Hbk))|]. intros pid' v _.
      by apply markProcessVoteIDsTimeout_longkeys. }
  unfold markProcessVoteIDsTimeout, gets, wrapping. run_simpl.
  set (l := prefixed_Iterate _ _ _ _).
  destruct (foldl (timeout_step pid) (∅, 0) l) as [w n] eqn:Hf. intros Hwf.
  assert (Hc : final s (commit w s).2).
  { apply final_commit. intros k x. replace w with (foldl (timeout_step pid) (∅, 0) l).1 by by rewrite Hf.
    rewrite timeout_writes. destruct (existsb _ l) eqn:He; [|done]. intros [= <-].
    apply existsb_times_out in He as (k' & b & Hin & Hu & ->).
    unfold l in Hin. rewrite elem_of_prefixed_Iterate, Hbk in Hin. destruct Hin as (r & Hr & ->).
    simpl in *. pose proof (Hwf Hbk _ (mk_is_Some _ _ Hr)) as Hlen. pose proof (TrimPrefix_length r voteIDStatusPrefix).
    rewrite length_app, length_pid_bytes in Hlen.
    eexists _, _. split_and!; [done..| |].
    - intros _. rewrite length_app, length_pid_bytes. unfold ProcessIDLen in *. lia.
    - intros pid' v Hk Hd. exfalso. assert (Hk' := Hk). unfold status_key, createVoteIDStatusKey in Hk.
      apply (inj (app _)), (f_equal length) in Hk.
      rewrite !length_app, !length_pid_bytes, length_VoteID_Bytes in Hk.
      rewrite TrimPrefix_same_length in Hk' by lia.
      unfold stored_status in Hd. rewrite <-Hk', Hr in Hd. unfold is_done, unfinished in *. simpl in Hu.
      destruct (bytesToInt b); [|done]. by rewrite Hd in Hu. }
  specialize (Hc Hwf). by destruct (commit w s) as [[|] s'].
Qed.
Lemma generate_touches k : moves (touches (spaces [encryptionKeyPrefix])) (GenerateProcessEncryptionKeys k).
Proof.
  unfold GenerateProcessEncryptionKeys, generateEncryptionKeysUnsafe, setEncryptionKeysUnsafe.
  repeat first [progress moves | apply moves_setArtifact_touches; left].
Qed.
Lemma pubkey_touches k : moves (touches (spaces [encryptionKeyPrefix])) (setEncryptionPubKeyUnsafe k).
Proof.
  unfold setEncryptionPubKeyUnsafe, encryptionKeysUnsafe, setEncryptionKeysUnsafe.
  repeat first [progress moves | apply moves_getArtifact; apply _ | apply moves_setArtifact_touches; left].
Qed.
#[local] Instance final_BatchRel : BatchRel final.
Proof.
  apply (BatchRel_frame _).
  - intros A m Hm _ _. revert Hm. apply final_touches. by vm_compute.
  - intros. eapply (final_touches [processPrefix]); [by vm_compute|]. apply moves_setArtifact_touches. left.
  - intros k. apply (final_touches [encryptionKeyPrefix]); [by vm_compute|]. apply pubkey_touches.
  - apply final_setVoteIDStatus.
  - apply final_markVoteIDsDone.
  - apply final_timeout.
Qed.
#[local] Instance final_StepRel : StepRel final.
Proof. apply (StepRel_frame _). intros A m. apply final_touches. by vm_compute. Qed.
(** C8: a vote that is done stays done. Over any sequence of operations of the
    storage, with failing commits, restarts and cleanups anywhere in it, the
    status record of a done vote never changes again. *)
Theorem done_is_final os s pid v :
  status_wf (db s) → is_done (stored_status (db s) pid v) = true →
  stored_status (db (run_ops os s)) pid v = stored_status (db s) pid v.
Proof.
  intros Hwf Hd. apply (run_ops_StepRel final os s); [|done..].
  intros k s' _. unfold run_op, exec. eapply final_touches; [|apply generate_touches]. by vm_compute.
Qed.
(** ** Keys and processes are never lost *)

(** A readable key record, in the database, for the marshalled public key [k]. *)
Definition readable_keys (d : kv) (k : bytes) : bool :=
  match d !! (encryptionKeyPrefix ++ k) with
  | None => false
  | Some v => match DecodeArtifact (A:=EncryptionKeys) v with
              | Err _ => false
              | Ok eks => match ek_X eks, ek_Y eks with Some _, Some _ => true | _, _ => false end
              end
  end.
Definition keeps_keys (k : bytes) : relation Storage := λ s s',
  readable_keys (db s) k = true → db s' !! (encryptionKeyPrefix ++ k) = db s !! (encryptionKeyPrefix ++ k).
Lemma encryptionKeysUnsafe_eq pk s :
  encryptionKeysUnsafe pk s =
  (eval (encryptionKeysUnsafe pk) s, s) ∧
  is_Ok (eval (encryptionKeysUnsafe pk) s) = readable_keys (db s) (Point_Marshal pk).
Proof.
  unfold eval, encryptionKeysUnsafe, readable_keys, raise. run_simpl. rewrite getArtifact_eq.
  destruct (db s !! _) as [v|]; [|done]. destruct (DecodeArtifact v) as [eks|]; [|done].
  by destruct (ek_X eks), (ek_Y eks).
Qed.
#[local] Instance keeps_keys_preorder k : PreOrder (keeps_keys k).
Proof.
  split; [done|]. intros a b c Hab Hbc Hk. specialize (Hab Hk). rewrite Hbc; [done|].
  unfold readable_keys in *. by rewrite Hab.
Qed.
Lemma keeps_keys_touches {A} ps k (m : M A) :
  forallb (incompatible encryptionKeyPrefix) ps = true → moves (touches (spaces ps)) m → moves (keeps_keys k) m.
Proof. intros Hps Hm s _. apply Hm. by apply spaces_no. Qed.
Lemma status_touches pid v st : moves (touches (spaces [voteIDStatusPrefix])) (setVoteIDStatus pid v st).
Proof. eapply touches_weaken, setVoteIDStatus_touches. intros ? ->. by apply spaces_in; left. Qed.
Lemma done_touches pid vs : moves (touches (spaces [voteIDStatusPrefix])) (markVoteIDsDone pid vs).
Proof.
  unfold markVoteIDsDone. apply moves_commit_touches. intros x. rewrite done_writes.
  case_decide as Hx; [|rewrite lookup_empty; by intros [? ?]]. intros _.
  apply list_elem_of_fmap in Hx as (v & -> & _). by apply spaces_in; left.
Qed.
#[local] Instance keeps_keys_BatchRel k : BatchRel (keeps_keys k).
Proof.
  apply (BatchRel_frame _).
  - intros A m Hm _ _. revert Hm. apply keeps_keys_touches. by vm_compute.
  - intros. apply (keeps_keys_touches [processPrefix]); [by vm_compute|]. apply moves_setArtifact_touches. left.
  - intros pk s. unfold setEncryptionPubKeyUnsafe, attempt. run_simpl.
    destruct (encryptionKeysUnsafe_eq pk s) as [-> Hok].
    destruct (eval _ s) as [r|e]; [reflexivity|]. intros Hk.
    unfold setEncryptionKeysUnsafe.
    destruct (setArtifact_cases encryptionKeyPrefix (Point_Marshal pk)
      {| ek_X := Some pk.1; ek_Y := Some pk.2; ek_PrivateKey := None |} s)
      as [(e' & s' & -> & Hd & _)|(v & s' & _ & -> & Hd & _)]; cbn; rewrite Hd; [done|].
    apply lookup_insert_ne. intros <-%(inj (app _)). by rewrite Hk in Hok.
  - intros pid v st. apply (keeps_keys_touches [voteIDStatusPrefix]); [by vm_compute|]. apply status_touches.
  - intros pid vs. apply (keeps_keys_touches [voteIDStatusPrefix]); [by vm_compute|]. apply done_touches.
  - intros pid. apply (keeps_keys_touches [voteIDStatusPrefix]); [by vm_compute|].
    apply markProcessVoteIDsTimeout_touches.
Qed.
#[local] Instance keeps_keys_StepRel k : StepRel (keeps_keys k).
Proof. apply (StepRel_frame _). intros A m. apply keeps_keys_touches. by vm_compute. Qed.

(** The keys of a process are never lost. Once the key pair of a public key
    can be read, it reads the same after any sequence of operations (with failing
    commits, restarts, cleanups and processes announced again with the same
    public key), unless that very key is generated again; so the private key of a
    process is there when its results have to be decrypted. *)
Theorem encryption_keys_kept os s pk r :
  eval (encryptionKeysUnsafe pk) s = Ok r →
  (∀ x y priv, OpGenerateKeys (Ok (x, y, priv)) ∈ os → Point_Marshal (x, y) ≠ Point_Marshal pk) →
  eval (encryptionKeysUnsafe pk) (run_ops os s) = Ok r.
Proof.
  intros Hr Hgen. destruct (encryptionKeysUnsafe_eq pk s) as [_ Hok]. rewrite Hr in Hok.
  assert (Hd : keeps_keys (Point_Marshal pk) s (run_ops os s)).
  { apply run_ops_StepRel; [apply _|]. intros [[[x y] priv]|e] s' Hin _; cbn; [|done].
    specialize (Hgen _ _ _ Hin). unfold exec, GenerateProcessEncryptionKeys, generateEncryptionKeysUnsafe,
      setEncryptionKeysUnsafe, wrapping, lift. run_simpl.
    destruct (setArtifact_cases encryptionKeyPrefix (Point_Marshal (x, y))
      {| ek_X := Some x; ek_Y := Some y; ek_PrivateKey := Some priv |} s')
      as [(e' & s'' & -> & Hd & _)|(v & s'' & _ & -> & Hd & _)]; cbn; rewrite Hd; [done|].
    by apply lookup_insert_ne; intros ?%(inj (app _)). }
  specialize (Hd (eq_sym Hok)). revert Hr. unfold eval, encryptionKeysUnsafe. run_simpl.
  rewrite !getArtifact_eq, Hd. destruct (db s !! _) as [v|]; [|done].
  destruct (DecodeArtifact v) as [eks|]; [|done]. by destruct (ek_X eks), (ek_Y eks).
Qed.

Definition readable_process (d : kv) (k : bytes) : bool :=
  match d !! (processPrefix ++ k) with
  | None => false | Some v => is_Ok (DecodeArtifact (A:=Process) v) end.
Definition keeps_process (k : bytes) : relation Storage := λ s s',
  readable_process (db s) k = true → readable_process (db s') k = true.
#[local] Instance keeps_process_preorder k : PreOrder (keeps_process k).
Proof. split; [intros s H; exact H|]. intros a b c Hab Hbc Hk. by apply Hbc, Hab. Qed.
Lemma keeps_process_touches {A} ps k (m : M A) :
  forallb (incompatible processPrefix) ps = true → moves (touches (spaces ps)) m → moves (keeps_process k) m.
Proof. intros Hps Hm s. unfold keeps_process, readable_process. rewrite (Hm s); [done|]. by apply spaces_no. Qed.
#[local] Instance keeps_process_BatchRel k : BatchRel (keeps_process k).
Proof.
  apply (BatchRel_frame _).
  - intros A m Hm _ _. revert Hm. apply keeps_process_touches. by vm_compute.
  - intros pid p s. unfold keeps_process, readable_process.
    destruct (setArtifact_cases processPrefix (pid_bytes pid) p s)
      as [(e' & s' & -> & Hd & _)|(v & s' & Hv & -> & Hd & _)]; cbn; rewrite Hd; [done|].
    destruct (decide (k = pid_bytes pid)) as [->|Hne].
    + by rewrite lookup_insert_eq, (codec_roundtrip p v Hv).
    + by rewrite lookup_insert_ne by (by intros ?%(inj (app _))).
  - intros pk. apply (keeps_process_touches [encryptionKeyPrefix]); [by vm_compute|]. apply pubkey_touches.
  - intros pid v st. apply (keeps_process_touches [voteIDStatusPrefix]); [by vm_compute|]. apply status_touches.
  - intros pid vs. apply (keeps_process_touches [voteIDStatusPrefix]); [by vm_compute|]. apply done_touches.
  - intros pid. apply (keeps_process_touches [voteIDStatusPrefix]); [by vm_compute|].
    apply markProcessVoteIDsTimeout_touches.
Qed.
#[local] Instance keeps_process_StepRel k : StepRel (keeps_process k).
Proof. apply (StepRel_frame _). intros A m. apply keeps_process_touches. by vm_compute. Qed.
Lemma process_readable pid s : is_Ok (eval (process pid) s) = readable_process (db s) (pid_bytes pid).
Proof.
  unfold eval, readable_process. rewrite process_eq. destruct (db s !! _) as [v|]; [|done]. cbn.
  by destruct (DecodeArtifact v).
Qed.

(** A stored process stays readable over any sequence of operations: no
    cleanup, failed commit or restart removes or garbles its record, whatever the
    update functions make of it. *)
Theorem process_kept os s pid p :
  eval (process pid) s = Ok p → ∃ p', eval (process pid) (run_ops os s) = Ok p'.
Proof.
  intros Hp. pose proof (process_readable pid s) as Hr. rewrite Hp in Hr.
  assert (Hk : keeps_process (pid_bytes pid) s (run_ops os s)).
  { apply run_ops_StepRel; [apply _|]. intros k s' _. unfold run_op, exec.
    apply (keeps_process_touches [encryptionKeyPrefix]); [by vm_compute|]. apply generate_touches. }
  specialize (Hk (eq_sym Hr)). rewrite <-process_readable in Hk.
  destruct (eval (process pid) (run_ops os s)); [eauto|done].
Qed.
End ops.

(** ** At a concrete store *)

Import Concrete.
#[local] Existing Instance env_pebble.
(** A process with its keys, and one of its votes done. *)
Definition settled : Storage := MkStorage
  (<[processPrefix ++ pid_bytes pid1 := enc process1]>
   (<[encryptionKeyPrefix ++ Point_Marshal (3, 4) :=
       enc {| ek_X := Some 3; ek_Y := Some 4; ek_PrivateKey := Some 8 |}]>
    {[status_key pid1 (vote 5) := intToBytes VoteIDStatusDone]})) ∅ ∅ ∅ (70 * second) [].
(** The vote is pushed again, a worker fails, the process times out and the node
    restarts while a commit fails. *)
Definition hostile : list op :=
  [OpPushPendingBallot (ballot pid1 5 100); OpRemovePendingBallot pid1 (vote 5);
   OpMarkProcessVoteIDsTimeout pid1; OpRestart (2000 * second) [true]; OpCheckAndUpdateEndedProcesses].
Lemma settled_wf : status_wf (db settled).
Proof.
  intros _ k [v Hk]. apply (under_forallb _ (λ k _, (length k <=? ProcessIDLen + 8)%nat)) in Hk.
  - by apply Nat.leb_le.
  - by vm_compute.
Qed.
Lemma done_is_final_witness :
  stored_status (db (run_ops hostile settled)) pid1 (vote 5) = Some (intToBytes VoteIDStatusDone).
Proof.
  rewrite (done_is_final hostile settled pid1 (vote 5) settled_wf ltac:(by vm_compute)). by vm_compute.
Defined.
Lemma encryption_keys_kept_witness :
  eval (encryptionKeysUnsafe (3, 4)) (run_ops (OpGenerateKeys (Ok (6, 7, 9)) :: hostile) settled) = Ok ((3, 4), Some 8).
Proof.
  apply (encryption_keys_kept (OpGenerateKeys (Ok (6, 7, 9)) :: hostile) settled (3, 4) ((3, 4), Some 8)).
  - by vm_compute.
  - intros x y priv H. unfold hostile in H. rewrite !elem_of_cons, elem_of_nil in H.
    destruct_or! H; simplify_eq. by vm_compute.
Defined.
Lemma process_kept_witness : ∃ p', eval (process pid1) (run_ops hostile settled) = Ok p'.
Proof. apply (process_kept hostile settled pid1 process1). by vm_compute. Defined.
