(* ===== verification/Typed.v ===== *)
(** * The types of the stored records

    Every record that the storage keeps under the prefix of a type is the encoding of that type: no
    operation, failed commit, cleanup or restart leaves a record that cannot be decoded, so the
    errors of decoding in the operations are not met. *)

From S2P Require Import Prelude Bytes DB Spec Types StorageTypes StorageBase Process VoteStatus Stats Ballots Batches Cleanup Pipeline.

Section typed.
Context `{Env : StorageEnv}.

(** Every record decodes as the type of its key space. *)
Definition typed_db (d : kv) : Prop := ∀ k v, d !! k = Some v → typed_write k v.
Definition keeps_typed : relation Storage := λ s s', typed_db (db s) → typed_db (db s').
#[export] Instance keeps_typed_preorder : PreOrder keeps_typed.
Proof. split; [intros s Hs; exact Hs|]. intros a b c Hab Hbc Ha. by apply Hbc, Hab. Qed.

(** A space in which no records are expected. *)
Definition untyped (p : bytes) : bool := forallb (λ pt, incompatible p pt.1) record_types.
Lemma typed_untyped p k v : untyped p = true → typed_write (p ++ k) v.
Proof.
  unfold untyped. intros Hp q t Hin Hk. rewrite forallb_forall in Hp. apply list_elem_of_In, Hp in Hin.
  cbn in Hin. by rewrite incompatible_no in Hk.
Qed.
Lemma typed_insert k v d : typed_write k v → typed_db d → typed_db (<[k := v]> d).
Proof. intros Hv Hd k' v' [[<- <-]|[_ Hk]]%lookup_insert_Some; [done|by apply Hd]. Qed.
Lemma typed_subset d d' : d' ⊆ d → typed_db d → typed_db d'.
Proof. intros Hs Hd k v Hk. by eapply Hd, lookup_weaken. Qed.
Lemma typed_touches {A} p (m : M A) : untyped p = true → moves (touches (spaces [p])) m → moves keeps_typed m.
Proof.
  intros Hp Hm s Hd k v Hk. destruct (HasPrefix k p) eqn:E.
  - apply HasPrefix_spec in E as [r ->]. by apply typed_untyped.
  - apply Hd. rewrite <-(Hm s k); [done|]. intros (q & ->%list_elem_of_singleton & Hq). congruence.
Qed.
Lemma typed_set p k v : typed_write (p ++ k) v → moves keeps_typed (commit (prefixed_Set p k v ∅)).
Proof.
  intros Hv s Hd. destruct (commit_Set_cases p k v s) as [(e & s' & -> & H)|(s' & -> & H & _)]; cbn.
  - destruct H as [-> _]. done.
  - rewrite H. by apply typed_insert.
Qed.
Lemma typed_delete p k : moves keeps_typed (commit (prefixed_Delete p k ∅)).
Proof.
  intros s Hd. destruct (commit_Delete_cases p k s) as [(e & s' & -> & H)|(s' & -> & H & _)]; cbn.
  - destruct H as [-> _]. done.
  - rewrite H. eapply typed_subset; [apply delete_subseteq|done].
Qed.
Lemma typed_artifact `{!Normal A, !Codec A, !RecordType A} p k (a : A) : only_type record_type_of p = true → moves keeps_typed (setArtifact p k a).
Proof.
  intros Ho. unfold setArtifact. apply moves_lift_bind; [apply _|]. intros v Hv. apply typed_set. by apply (typed_encode a).
Qed.
Lemma typed_delete_all p ks : moves keeps_typed (commit (delete_all p ks)).
Proof.
  intros s Hd. destruct (commit_cases (delete_all p ks) s) as [(e & s' & -> & H)|(s' & -> & H & _)]; cbn.
  - destruct H as [-> _]. done.
  - rewrite H. clear -Hd. revert Hd. generalize (db s). unfold delete_all. induction ks as [|k ks IH]; intros d Hd; cbn.
    + by rewrite apply_writes_empty.
    + unfold prefixed_Delete at 1, prefixSlice. rewrite apply_writes_delete. eapply typed_subset; [apply delete_subseteq|by apply IH].
Qed.
#[export] Instance typed_BatchRel : BatchRel keeps_typed.
Proof.
  split; [apply _|..].
  - intros f Hf s. unfold keeps_typed. cbn. destruct (Hf s) as [-> _]. done.
  - intros p k v _. apply typed_set.
  - intros p k _. apply typed_delete.
  - intros p ks _. apply typed_delete_all.
  - intros f Hf. apply (typed_touches (bytes_of_string "st_")); [by vm_compute|]. intros s k Hk. unfold on_state.
    specialize (Hf (db s) k). destruct (f (db s)) as [r d]. apply Hf. intros Hs. apply Hk. exists (bytes_of_string "st_"). split; [left|exact Hs].
  - intros pid p. by apply typed_artifact.
  - intros pk. unfold setEncryptionPubKeyUnsafe, encryptionKeysUnsafe, setEncryptionKeysUnsafe.
    repeat first [progress moves | apply moves_getArtifact; apply _ | by apply typed_artifact].
  - intros pid v st. apply (typed_touches voteIDStatusPrefix); [by vm_compute|]. apply status_touches.
  - intros pid vs. apply (typed_touches voteIDStatusPrefix); [by vm_compute|]. apply done_touches.
  - intros pid. apply (typed_touches voteIDStatusPrefix); [by vm_compute|]. apply markProcessVoteIDsTimeout_touches.
Qed.
#[export] Instance typed_StepRel : StepRel keeps_typed.
Proof.
  split; [apply _|..].
  - intros f Hf s. unfold keeps_typed. cbn. by rewrite Hf.
  - intros p k v _. apply typed_set.
  - intros p k _. apply typed_delete.
Qed.

(** C9: The storage is well-typed. From a database in which every record decodes as the type of its key
    space - the empty one, say - any sequence of operations, with failing commits, cleanups and
    restarts anywhere in it, leaves such a database; and there, reading a record of a type under
    the prefix of that type fails only when there is none. *)
Theorem stored_records_decode os s : typed_db (db s) →
  typed_db (db (run_ops os s)) ∧
  ∀ A (n : Normal A) (c : @Codec A n) (r : RecordType A) p k e, (p, record_type_of) ∈ record_types →
    eval (getArtifact (A:=A) p (Some k)) (run_ops os s) = Err e → e = ErrNotFound ∧ db (run_ops os s) !! (p ++ k) = None.
Proof.
  intros Hd. assert (H : typed_db (db (run_ops os s))).
  { apply (run_ops_StepRel keeps_typed os s); [|done]. intros k s' _. unfold run_op, exec, GenerateProcessEncryptionKeys,
      generateEncryptionKeysUnsafe, setEncryptionKeysUnsafe. to_moves. repeat first [progress moves | by apply typed_artifact]. }
  split; [exact H|]. intros A n c r p k e Hin. unfold eval. rewrite getArtifact_eq.
  destruct (db _ !! (p ++ k)) as [v|] eqn:Hv; [|by intros [= <-]].
  specialize (H _ _ Hv _ _ Hin (HasPrefix_app p k)). rewrite record_type_decodes in H. by destruct (DecodeArtifact v).
Qed.
Lemma typed_db_by d : forallb (λ kv, forallb (λ pt, negb (HasPrefix kv.1 pt.1) || decodes_as pt.2 kv.2) record_types) (map_to_list d) = true → typed_db d.
Proof.
  intros H k v Hk p t Hin Hp. rewrite forallb_forall in H. apply elem_of_map_to_list, list_elem_of_In, H in Hk.
  rewrite forallb_forall in Hk. apply list_elem_of_In, Hk in Hin. cbn in Hin. by rewrite Hp in Hin.
Qed.
End typed.

Import Concrete.
#[local] Existing Instance env_pebble.
Lemma stored_records_decode_witness : typed_db (db settled) ∧ typed_db (db (run_ops hostile settled)) ∧
  ∀ e, eval (getArtifact (A:=Process) processPrefix (Some (pid_bytes pid2))) (run_ops hostile settled) = Err e → e = ErrNotFound.
Proof.
  assert (Hd : typed_db (db settled)) by (apply typed_db_by; by vm_compute).
  destruct (stored_records_decode hostile settled Hd) as [H1 H2]. split; [exact Hd|]. split; [exact H1|].
  intros e He. apply (H2 Process _ _ type_Process processPrefix (pid_bytes pid2) e); [|exact He].
  apply (bool_decide_unpack _). by vm_compute.
Defined.
