(* ===== verification/Voters.v ===== *)
(** * One ballot per voter

    The pending and the verified queue seen together: which voters (process and
    address) have a ballot in them. The abstract specification is a queue whose
    entries carry the lock they hold; the ballot operations of the storage
    implement it, and between restarts no voter has two ballots in the queues. *)

From S2P Require Import Prelude Bytes DB Spec Types StorageTypes StorageBase Process VoteStatus Stats Ballots Batches Cleanup Pipeline.

(** ** The abstract queue *)

(** Entries (by key) with the lock each holds, and the locks that are held. *)
Record queue := Queue { waiting : gmap bytes string; held : gset string }.
Inductive qstep : relation queue :=
  | q_accept Q H e l : Q !! e = None → l ∉ H → qstep (Queue Q H) (Queue (<[e := l]> Q) ({[l]} ∪ H))
  | q_verify Q H e e' l : Q !! e = Some l → e' ≠ e → qstep (Queue Q H) (Queue (<[e' := l]> (delete e Q)) H)
  | q_remove Q H e l : Q !! e = Some l → qstep (Queue Q H) (Queue (delete e Q) (H ∖ {[l]})).

(** Every entry holds its lock, and no two entries hold the same. *)
Definition exclusive (q : queue) : Prop :=
  (∀ e l, waiting q !! e = Some l → l ∈ held q) ∧
  (∀ e e' l, waiting q !! e = Some l → waiting q !! e' = Some l → e = e').
Lemma qstep_exclusive q q' : qstep q q' → exclusive q → exclusive q'.
Proof.
  intros Hs [Hh Hu]. destruct Hs as [Q H e l He Hl|Q H e e' l He Hne|Q H e l He]; cbn in *; split; cbn.
  - intros i m [[<- <-]|[_ Hi]]%lookup_insert_Some; [set_solver|]. apply Hh in Hi. set_solver.
  - intros i j m Hi Hj. apply lookup_insert_Some in Hi as [[<- <-]|[Hi1 Hi]];
      apply lookup_insert_Some in Hj as [[<- Hj]|[Hj1 Hj]]; try done.
    + by apply Hh in Hj.
    + subst m. by apply Hh in Hi.
    + by eapply Hu.
  - intros i m [[<- <-]|[_ [_ Hi]%lookup_delete_Some]]%lookup_insert_Some; by eapply Hh.
  - intros i j m Hi Hj. apply lookup_insert_Some in Hi as [[<- <-]|[Hi1 [Hi2 Hi]%lookup_delete_Some]];
      apply lookup_insert_Some in Hj as [[<- Hj]|[Hj1 [Hj2 Hj]%lookup_delete_Some]]; try done.
    + exfalso. apply Hj2. by eapply Hu.
    + subst m. exfalso. apply Hi2. by eapply Hu.
    + by eapply Hu.
  - intros i m [Hi1 Hi]%lookup_delete_Some. apply elem_of_difference. split; [by eapply Hh|].
    intros ->%elem_of_singleton. apply Hi1. by eapply Hu.
  - intros i j m [_ Hi]%lookup_delete_Some [_ Hj]%lookup_delete_Some. by eapply Hu.
Qed.
Lemma qsteps_exclusive q q' : rtc qstep q q' → exclusive q → exclusive q'.
Proof. induction 1; eauto using qstep_exclusive. Qed.

Section voters.
Context `{Env : StorageEnv}.

(** ** The queue of a storage *)

(** The lock of an entry of the two queues, by its key in the database. *)
Definition entry_lock (k v : bytes) : option string :=
  if HasPrefix k ballotPrefix then
    match DecodeArtifact (A:=Ballot) v with
    | Ok b => Some (lock_key (b_ProcessID b) (b_Address b)) | Err _ => None end
  else if HasPrefix k verifiedBallotPrefix then
    match DecodeArtifact (A:=VerifiedBallot) v with
    | Ok b => Some (lock_key (vb_ProcessID b) (vb_Address b)) | Err _ => None end
  else None.
Definition queued (d : kv) : gmap bytes string := map_imap entry_lock d.
Definition abs (s : Storage) : queue := Queue (queued (db s)) (processingAddresses s).
Definition queues : list bytes := [ballotPrefix; verifiedBallotPrefix].

(** The keys of the verified queue. *)
Definition verified_wf (d : kv) : Prop := ∀ k, is_Some (d !! (verifiedBallotPrefix ++ k)) →
  HasPrefix k verifiedBallotPrefix = false ∧
  ∃ pid v, k = pid_bytes pid ++ VoteID_Bytes v ∧ VoteID_Valid v = true.
Definition wf (d : kv) : Prop := pending_wf d ∧ verified_wf d.
Definition good (s : Storage) : Prop := quiet s ∧ wf (db s).

Lemma lookup_queued d k : queued d !! k = d !! k ≫= entry_lock k.
Proof. apply map_lookup_imap. Qed.
Lemma entry_lock_other k v : (∀ p r, p ∈ queues → k ≠ p ++ r) → entry_lock k v = None.
Proof.
  intros Hk. unfold entry_lock.
  destruct (HasPrefix k ballotPrefix) eqn:E1.
  { apply HasPrefix_spec in E1 as [r ->]. by destruct (Hk ballotPrefix r ltac:(left)). }
  destruct (HasPrefix k verifiedBallotPrefix) eqn:E2; [|done].
  apply HasPrefix_spec in E2 as [r ->]. by destruct (Hk verifiedBallotPrefix r ltac:(right; left)).
Qed.
Lemma entry_lock_pending k v : entry_lock (ballotPrefix ++ k) v =
  match DecodeArtifact (A:=Ballot) v with
  | Ok b => Some (lock_key (b_ProcessID b) (b_Address b)) | Err _ => None end.
Proof. unfold entry_lock. by rewrite HasPrefix_app. Qed.
Lemma entry_lock_verified k v : entry_lock (verifiedBallotPrefix ++ k) v =
  match DecodeArtifact (A:=VerifiedBallot) v with
  | Ok b => Some (lock_key (vb_ProcessID b) (vb_Address b)) | Err _ => None end.
Proof. unfold entry_lock. rewrite incompatible_no by by vm_compute. by rewrite HasPrefix_app. Qed.

(** What the queue depends on. *)
Definition same_queues (d d' : kv) : Prop := ∀ p k, p ∈ queues → d' !! (p ++ k) = d !! (p ++ k).
(** All queue keys but [e]. *)
Definition same_but (e : bytes) (d d' : kv) : Prop := ∀ p k, p ∈ queues → p ++ k ≠ e → d' !! (p ++ k) = d !! (p ++ k).
Lemma in_queue_dec k : (∃ p r, p ∈ queues ∧ k = p ++ r) ∨ (∀ p r, p ∈ queues → k ≠ p ++ r).
Proof.
  destruct (HasPrefix k ballotPrefix) eqn:E1.
  { apply HasPrefix_spec in E1 as [r ->]. left. exists ballotPrefix, r. split; [left|done]. }
  destruct (HasPrefix k verifiedBallotPrefix) eqn:E2.
  { apply HasPrefix_spec in E2 as [r ->]. left. exists verifiedBallotPrefix, r. split; [right; left|done]. }
  right. intros p r Hp ->. unfold queues in Hp. rewrite !elem_of_cons, elem_of_nil in Hp.
  destruct Hp as [-> | [-> | []]]; by rewrite HasPrefix_app in *.
Qed.
Lemma queued_other d k : (∀ p r, p ∈ queues → k ≠ p ++ r) → queued d !! k = None.
Proof. intros Hk. rewrite lookup_queued. destruct (d !! k); [|done]. by apply entry_lock_other. Qed.
Lemma queued_same d d' : same_queues d d' → queued d' = queued d.
Proof.
  intros H. apply map_eq. intros k. destruct (in_queue_dec k) as [(p & r & Hp & ->)|Hk].
  - by rewrite !lookup_queued, H.
  - by rewrite !queued_other.
Qed.
Lemma queued_same_but e d d' : same_but e d d' → delete e (queued d') = delete e (queued d).
Proof.
  intros H. apply map_eq. intros k. destruct (decide (k = e)) as [->|Hne]; [by rewrite !lookup_delete_eq|].
  rewrite !lookup_delete_ne by done. destruct (in_queue_dec k) as [(p & r & Hp & ->)|Hk].
  - by rewrite !lookup_queued, H.
  - by rewrite !queued_other.
Qed.
Lemma wf_same d d' : same_queues d d' → wf d → wf d'.
Proof.
  intros H [Hp Hv]. split.
  - intros k val. rewrite H by left. apply Hp.
  - intros k. rewrite H by (right; left). apply Hv.
Qed.
(** Removing an entry keeps the queues well-formed. *)
Lemma wf_removed e d d' : same_but e d d' → d' !! e = None → wf d → wf d'.
Proof.
  intros H He [Hp Hv]. split.
  - intros k val Hk. apply Hp. rewrite <-H; [done|left|]. intros E. by rewrite E, He in Hk.
  - intros k [v Hk]. apply Hv. exists v. rewrite <-H; [done|right; left|]. intros E. by rewrite E, He in Hk.
Qed.

(** ** Operations that leave the queue alone *)

#[local] Existing Instances Committal_addresses Committal_quiet.
Definition keeps : relation Storage := λ s s', quiet s →
  quiet s' ∧ same_queues (db s) (db s') ∧ processingAddresses s' = processingAddresses s.
#[export] Instance keeps_preorder : PreOrder keeps.
Proof.
  split; [by intros s Hs|]. intros a b c Hab Hbc Ha. destruct (Hab Ha) as (Hb & H1 & H2).
  destruct (Hbc Hb) as (Hc & H3 & H4). split_and!; [done| |congruence].
  intros p k Hp. by rewrite H3, H1.
Qed.
Lemma keeps_frame {A} ps (m : M A) :
  forallb (λ q, forallb (incompatible q) ps) queues = true →
  moves (touches (spaces ps)) m → moves (same processingAddresses) m → moves keeps_quiet m → moves keeps m.
Proof.
  intros Hps Ht Hl Hq s Hs. split_and!; [by apply Hq| |by apply Hl].
  intros p k Hp. apply Ht, spaces_no. rewrite forallb_forall in Hps. apply Hps. by apply list_elem_of_In.
Qed.
Lemma keeps_committal {A} ps (m : M A) :
  forallb (λ q, forallb (incompatible q) ps) queues = true →
  moves (touches (spaces ps)) m → (∀ R, Committal R → moves R m) → moves keeps m.
Proof.
  intros Hps Ht Hm. apply (keeps_frame ps); [done..| |]; apply Hm; apply _.
Qed.
#[export] Instance keeps_BatchRel : BatchRel keeps.
Proof.
  apply (BatchRel_frame _).
  - intros A m. apply keeps_frame. by vm_compute.
  - intros pid p. apply (keeps_committal [processPrefix]); [by vm_compute| |].
    + apply moves_setArtifact_touches. left.
    + intros R HR. apply moves_setArtifact. apply _.
  - intros k. apply (keeps_committal [encryptionKeyPrefix]); [by vm_compute|apply pubkey_touches|].
    intros R HR. unfold setEncryptionPubKeyUnsafe, encryptionKeysUnsafe, setEncryptionKeysUnsafe.
    pose proof (committal_pre (R:=R)).
    repeat first [progress moves | apply moves_getArtifact; apply _ | apply moves_setArtifact; apply _].
  - intros pid v st. apply (keeps_committal [voteIDStatusPrefix]); [by vm_compute|apply status_touches|].
    intros R HR. unfold setVoteIDStatus. pose proof (committal_pre (R:=R)).
    repeat first [progress moves | apply committal].
  - intros pid vs. apply (keeps_committal [voteIDStatusPrefix]); [by vm_compute|apply done_touches|].
    intros R HR. apply committal.
  - intros pid. apply (keeps_committal [voteIDStatusPrefix]); [by vm_compute|apply markProcessVoteIDsTimeout_touches|].
    intros R HR. unfold markProcessVoteIDsTimeout. pose proof (committal_pre (R:=R)).
    repeat first [progress moves | apply committal].
Qed.

(** ** The simulation *)

(** From well-formed queues and without failing commits: the queues stay
    well-formed and the abstract queue takes steps. *)
Definition sim : relation Storage := λ s s', good s → good s' ∧ rtc qstep (abs s) (abs s').
#[export] Instance sim_preorder : PreOrder sim.
Proof.
  split; [intros s Hs; by split|]. intros a b c Hab Hbc Ha. destruct (Hab Ha) as [Hb H1].
  destruct (Hbc Hb) as [Hc H2]. split; [done|]. by etrans.
Qed.
Lemma keeps_abs s s' : keeps s s' → good s → good s' ∧ abs s' = abs s.
Proof.
  intros Hk [Hq Hwf]. destruct (Hk Hq) as (Hq' & Hs & Ha). split; [split; [done|by eapply wf_same]|].
  unfold abs. by rewrite Ha, (queued_same _ _ Hs).
Qed.
Lemma keeps_sim s s' : keeps s s' → sim s s'.
Proof. intros Hk Hg. destruct (keeps_abs _ _ Hk Hg) as [Hg' ->]. by split. Qed.
Lemma moves_keeps_sim {A} (m : M A) : moves keeps m → moves sim m.
Proof. intros Hm s. apply keeps_sim, Hm. Qed.

(** The entry [e] is gone, with the lock [lo] if any; the rest of the queue is as
    it was. *)
Definition cleared (e : bytes) (lo : option string) (s s' : Storage) : Prop :=
  quiet s' ∧ same_but e (db s) (db s') ∧ db s' !! e = None ∧
  processingAddresses s' =
    match lo with Some l => processingAddresses s ∖ {[l]} | None => processingAddresses s end.
Lemma cleared_sim e lo s s' :
  good s → queued (db s) !! e = lo → cleared e lo s s' →
  good s' ∧ rtc qstep (abs s) (abs s') ∧ ∀ e', e' ≠ e → queued (db s') !! e' = queued (db s) !! e'.
Proof.
  intros [Hq Hwf] He (Hq' & Hb & Hd & Ha).
  assert (Hdel : queued (db s') = delete e (queued (db s))).
  { rewrite <-(queued_same_but e _ _ Hb). symmetry. apply delete_id. by rewrite lookup_queued, Hd. }
  split; [split; [done|by eapply wf_removed]|]. split.
  - unfold abs. rewrite Hdel, Ha. destruct lo as [l|]; [by apply rtc_once; constructor|].
    by rewrite delete_id.
  - intros e' Hne. by rewrite Hdel, lookup_delete_ne.
Qed.
Lemma cleared_keeps q j lo s1 s2 s3 : q ∈ queues → cleared (q ++ j) lo s1 s2 → keeps s2 s3 → cleared (q ++ j) lo s1 s3.
Proof.
  intros Hq0 (Hq & Hb & Hd & Ha) Hk. destruct (Hk Hq) as (Hq3 & Hs & Ha3).
  split_and!; [done| |by rewrite Hs|congruence].
  intros p k Hp Hne. by rewrite Hs, Hb.
Qed.
Lemma releaseLocks_eq v pid a s : releaseLocks v pid a s =
  (Ok (), set_voteIDToAddress (delete v) (set_processingAddresses (λ S, S ∖ {[lock_key pid a]})
            (set_processingVoteIDs (λ S, S ∖ {[v]}) s))).
Proof. done. Qed.
Lemma cleared_release e s s' v pid a :
  cleared e None s s' → cleared e (Some (lock_key pid a)) s (releaseLocks v pid a s').2.
Proof.
  intros (Hq & Hb & Hd & Ha). rewrite releaseLocks_eq. unfold cleared, quiet in *. cbn. rewrite Ha. done.
Qed.

(** The same before: nothing of the queue changes, then the entry goes. *)
Lemma keeps_cleared e lo s1 s2 s3 : quiet s1 → keeps s1 s2 → cleared e lo s2 s3 → cleared e lo s1 s3.
Proof.
  intros Hq1 Hk (Hq & Hb & Hd & Ha). destruct (Hk Hq1) as (Hq3 & Hs & Ha3).
  split_and!; [done| |done|by rewrite Ha, Ha3]. intros p k Hp Hne. by rewrite Hb, Hs.
Qed.

(** [m] removes the entry [k] of the queue [p]. *)
Definition clears (p k : bytes) (m : M ()) : Prop := ∀ s, quiet s →
  ∃ s', m s = (Ok (), s') ∧ cleared (p ++ k) None s s'.
Lemma queues_reservations q p : q ∈ queues → p ∈ queues → incompatible q (reservationDB p) = true.
Proof.
  assert (H : forallb (λ q, forallb (λ p, incompatible q (reservationDB p)) queues) queues = true) by by vm_compute.
  intros Hq%list_elem_of_In Hp%list_elem_of_In. rewrite forallb_forall in H. specialize (H q Hq).
  rewrite forallb_forall in H. by apply H.
Qed.
Definition after_delete (p k : bytes) (s : Storage) : Storage :=
  set_db (delete (p ++ k) (delete (reservationDB p ++ k) (db s))) s.
Lemma cleared_delete p k s : p ∈ queues → quiet s → cleared (p ++ k) None s (after_delete p k s).
Proof.
  intros Hp Hq. split_and!; [done| | |done]; cbn.
  - intros q j Hin Hne. rewrite !lookup_delete_ne; [done| |done]. intros E. symmetry in E. revert E.
    apply incompatible_app. by apply queues_reservations.
  - apply lookup_delete_eq.
Qed.
Lemma clears_dropEntry p k : p ∈ queues → clears p k (dropEntry p k).
Proof.
  intros Hp s Hq. unfold dropEntry, warn, ignoring, mbind, SE_bind.
  rewrite deleteReservation_quiet by done. cbn. rewrite deleteArtifact_quiet by done.
  exists (after_delete p k s). split; [done|]. by apply cleared_delete.
Qed.
Lemma clears_removeVerifiedBallot k : clears verifiedBallotPrefix k (removeVerifiedBallot k).
Proof.
  intros s Hq. unfold removeVerifiedBallot, wrapping, ignoring, mbind, SE_bind.
  rewrite deleteReservation_quiet by done. cbn. rewrite deleteArtifact_quiet by done.
  exists (after_delete verifiedBallotPrefix k s). split; [done|]. apply cleared_delete; [right; left|done].
Qed.
Lemma clears_removePendingBallot pid v : clears ballotPrefix (VoteID_Bytes v) (removePendingBallot pid v).
Proof.
  intros s Hq. unfold removePendingBallot, wrapping, ignoring, mbind, SE_bind, warn.
  rewrite deleteReservation_quiet by done. cbn. rewrite deleteArtifact_quiet by done.
  eexists. split; [done|].
  apply (cleared_keeps _ _ _ _ (after_delete ballotPrefix (VoteID_Bytes v) s)); [left| |].
  - apply cleared_delete; [left|done].
  - apply (sr_updateProcessStats keeps pid _ (after_delete ballotPrefix (VoteID_Bytes v) s)).
Qed.
Lemma clears_release p k m v pid a s :
  clears p k m → quiet s → cleared (p ++ k) (Some (lock_key pid a)) s ((_ ← m; releaseLocks v pid a) s).2.
Proof.
  intros Hm Hq. destruct (Hm s Hq) as (s1 & E & Hc). rewrite (bind_Ok _ _ _ _ _ E). by apply cleared_release.
Qed.
Definition verified_lock (o : option VerifiedBallot) : option string :=
  (λ vb, lock_key (vb_ProcessID vb) (vb_Address vb)) <$> o.
Lemma clears_releaseVerified p k m o s :
  clears p k m → quiet s → cleared (p ++ k) (verified_lock o) s ((_ ← m; releaseVerified o) s).2.
Proof.
  intros Hm Hq. destruct (Hm s Hq) as (s1 & E & Hc). rewrite (bind_Ok _ _ _ _ _ E).
  destruct o as [vb|]; [by apply cleared_release|done].
Qed.
Lemma releaseVerified_clears p k m o s :
  clears p k m → quiet s → cleared (p ++ k) (verified_lock o) s ((_ ← releaseVerified o; m) s).2.
Proof.
  intros Hm Hq. destruct o as [vb|]; cbn [releaseVerified].
  - rewrite (bind_Ok _ _ _ _ _ (releaseLocks_eq _ _ _ s)). set (s1 := set_voteIDToAddress _ _).
    destruct (Hm s1 Hq) as (s2 & -> & Hq2 & Hb & Hd & Ha). split_and!; done.
  - unfold mbind, SE_bind, mret, SE_ret. by destruct (Hm s Hq) as (s2 & -> & Hc).
Qed.

(** A loop that removes entries, each of them once. *)
Lemma removal_loop {A} (f : A → M ()) (key : A → bytes) (lock : A → option string) l s :
  (∀ a s, a ∈ l → quiet s → cleared (key a) (lock a) s (f a s).2) →
  good s → NoDup (key <$> l) → (∀ a, a ∈ l → queued (db s) !! key a = lock a) →
  good (forM_ f l s).2 ∧ rtc qstep (abs s) (abs (forM_ f l s).2).
Proof.
  revert s. induction l as [|a l IH]; intros s Hf Hg Hnd Hl; [by split|]. cbn [forM_].
  apply NoDup_cons in Hnd as [Ha Hnd].
  pose proof (Hf a s ltac:(left) (proj1 Hg)) as Hc.
  destruct (cleared_sim _ _ _ _ Hg (Hl a ltac:(left)) Hc) as (Hg1 & H1 & Hother).
  unfold mbind, SE_bind. destruct (f a s) as [[[]|e] s1]; cbn [snd] in *; [|done].
  destruct (IH s1) as [Hg2 H2]; [by intros; apply Hf; [right|]|done|done| |].
  - intros b Hb. rewrite Hother; [by apply Hl; right|]. intros E. apply Ha. rewrite <-E. by apply list_elem_of_fmap_2.
  - split; [done|]. by etrans.
Qed.

(** ** The loops over the queues *)

Lemma NoDup_local p d :
  (∀ r, is_Some (d !! (p ++ r)) → HasPrefix r p = false) → NoDup (prefixed_Iterate bk p [] d).*1.
Proof.
  intros Hl. assert (E : (prefixed_Iterate bk p [] d).*1 = drop (length p) <$> (entries p d).*1).
  { unfold prefixed_Iterate, Iterate, prefixSlice. rewrite app_nil_r, <-!list_fmap_compose.
    apply list_fmap_ext. intros i [k v] Hi%list_elem_of_lookup_2. cbn.
    apply elem_of_entries in Hi as [Hk (r & ->)%HasPrefix_spec]. rewrite backend_key_app, drop_app_length.
    destruct bk; [|apply TrimPrefix_app]. apply TrimPrefix_no, Hl. eauto. }
  rewrite E. apply NoDup_fmap_2_strong; [|apply entries_NoDup_keys].
  intros k1 k2 ([? v1] & -> & H1)%list_elem_of_fmap ([? v2] & -> & H2)%list_elem_of_fmap. cbn.
  apply elem_of_entries in H1 as [_ (r1 & ->)%HasPrefix_spec], H2 as [_ (r2 & ->)%HasPrefix_spec].
  rewrite !drop_app_length. by intros ->.
Qed.
Lemma pending_local d : pending_wf d → ∀ r, is_Some (d !! (ballotPrefix ++ r)) → HasPrefix r ballotPrefix = false.
Proof.
  intros Hwf r [val Hr]. destruct (Hwf r val Hr) as (b & _ & -> & Hv).
  rewrite <-(app_nil_r (VoteID_Bytes _)). by apply VoteID_Bytes_no_ascii.
Qed.
Lemma verified_local_keys pid d : verified_wf d → local_keys verifiedBallotPrefix pid d.
Proof.
  intros Hwf r Hr. destruct (Hwf _ Hr) as (_ & pid' & v & E & Hv).
  apply app_inj_1 in E as [_ ->]; [|by rewrite !length_pid_bytes]. split.
  - rewrite <-(app_nil_r (VoteID_Bytes _)). by apply VoteID_Bytes_no_ascii.
  - rewrite length_VoteID_Bytes. unfold ProcessIDLen. lia.
Qed.

(** The ballots of a process in the pending queue. *)
Lemma elem_of_ballots_of pid d b :
  pending_wf d →
  b ∈ ballots_of pid (prefixed_Iterate bk ballotPrefix [] d) →
  queued d !! (ballotPrefix ++ VoteID_Bytes (b_VoteID b)) = Some (lock_key (b_ProcessID b) (b_Address b)).
Proof.
  intros Hwf ([k val] & Hkv & Hb)%list_elem_of_omap. apply (elem_of_pending _ _ _ Hwf) in Hkv. cbn in Hb.
  destruct (Hwf k val Hkv) as (b' & Hd & -> & _). rewrite Hd in Hb. case_decide; [|done]. injection Hb as ->.
  rewrite lookup_queued, Hkv. cbn. by rewrite entry_lock_pending, Hd.
Qed.
Lemma NoDup_ballots_of pid (l : list (bytes * bytes)) :
  (∀ k val b, (k, val) ∈ l → DecodeArtifact val = Ok b → k = VoteID_Bytes (b_VoteID b)) →
  NoDup l.*1 → NoDup ((λ b, ballotPrefix ++ VoteID_Bytes (b_VoteID b)) <$> ballots_of pid l).
Proof.
  intros Hk. induction l as [|[k val] l IH]; [intros; constructor|]. csimpl. intros [Hx Hnd]%NoDup_cons.
  assert (IH' := IH (λ k val b H, Hk k val b (list_elem_of_further _ _ _ H)) Hnd).
  unfold ballots_of in *. cbn. destruct (DecodeArtifact val) as [b|] eqn:Hd; [|done].
  case_decide; [|done]. csimpl. apply NoDup_cons. split; [|done].
  intros (b' & E & Hb')%list_elem_of_fmap. apply (inj (app _)) in E. apply Hx.
  apply list_elem_of_omap in Hb' as ([k' val'] & Hin & Hb'). cbn in Hb'.
  destruct (DecodeArtifact val') as [b2|] eqn:Hd'; [|done]. case_decide; [|done]. injection Hb' as ->.
  assert (k' = VoteID_Bytes (b_VoteID b')) by (eapply Hk; [right|]; done).
  assert (k = VoteID_Bytes (b_VoteID b)) by (eapply Hk; [left|]; done).
  apply list_elem_of_fmap. exists (k', val'). split; [|done]. cbn. rewrite H1, H2. exact E.
Qed.
(** Removing them, each with its locks. *)
Lemma pending_loop_sim pid (m : Ballot → M ()) :
  (∀ b, clears ballotPrefix (VoteID_Bytes (b_VoteID b)) (m b)) →
  moves sim (l ← gets (λ s, prefixed_Iterate bk ballotPrefix [] (db s));
             forM_ (λ b, _ ← m b; releaseLocks (b_VoteID b) (b_ProcessID b) (b_Address b)) (ballots_of pid l)).
Proof.
  intros Hm s Hg. pose proof Hg as [_ [Hwf _]].
  apply (removal_loop (λ b, _ ← m b; releaseLocks (b_VoteID b) (b_ProcessID b) (b_Address b))
    (λ b, ballotPrefix ++ VoteID_Bytes (b_VoteID b)) (λ b, Some (lock_key (b_ProcessID b) (b_Address b)))); [|done|..].
  - intros b s' _ Hq. by apply clears_release.
  - apply NoDup_ballots_of; [|by apply NoDup_local, pending_local]. intros k val b Hin Hd.
    apply (elem_of_pending _ _ _ Hwf) in Hin. destruct (Hwf _ _ Hin) as (b' & Hd' & -> & _). congruence.
  - intros b. by apply elem_of_ballots_of.
Qed.

(** The verified ballots of a process. *)
Lemma verified_loop_sim pid (m : bytes → M ()) :
  (∀ k, clears verifiedBallotPrefix k (m k)) →
  moves sim (l ← gets (λ s, prefixed_Iterate bk verifiedBallotPrefix (pid_bytes pid) (db s));
             forM_ (λ kv, _ ← m (fix_key pid kv.1); releaseVerified (decode_option kv.2)) l).
Proof.
  intros Hm s Hg. pose proof Hg as [_ [_ Hwf]]. pose proof (verified_local_keys pid _ Hwf) as Hloc.
  apply (removal_loop (λ kv, _ ← m (fix_key pid kv.1); releaseVerified (decode_option kv.2))
    (λ kv, verifiedBallotPrefix ++ fix_key pid kv.1) (λ kv, verified_lock (decode_option kv.2))); [|done|..].
  - intros kv s' _ Hq. by apply clears_releaseVerified.
  - assert (E : ∀ l, (λ kv : bytes * bytes, verifiedBallotPrefix ++ fix_key pid kv.1) <$> l =
      app verifiedBallotPrefix <$> ((λ kv, (fix_key pid kv.1, kv.2)) <$> l : list (bytes * bytes)).*1)
      by (intros l; by rewrite <-!list_fmap_compose).
    rewrite E. apply NoDup_fmap_2; [apply _|]. by apply NoDup_view.
  - intros [k v] Hin. assert (Hv : (fix_key pid k, v) ∈ view verifiedBallotPrefix pid (db s))
      by (apply list_elem_of_fmap; by exists (k, v)).
    apply elem_of_view in Hv as [Hv _]; [|done]. cbn. rewrite lookup_queued, Hv. cbn.
    rewrite entry_lock_verified. unfold decode_option. by destruct (DecodeArtifact v).
Qed.

(** ** The operations *)

Lemma cleared_then_keeps {A} p k lo (m : M A) s s1 :
  p ∈ queues → good s → queued (db s) !! (p ++ k) = lo → cleared (p ++ k) lo s s1 → moves keeps m →
  good (m s1).2 ∧ rtc qstep (abs s) (abs (m s1).2).
Proof.
  intros Hp Hg Hq Hc Hm. destruct (cleared_sim _ _ _ _ Hg Hq Hc) as (Hg1 & H1 & _).
  destruct (keeps_abs _ _ (Hm s1) Hg1) as [Hg2 ->]. done.
Qed.

Lemma sim_RemovePendingBallot pid v : moves sim (RemovePendingBallot pid v).
Proof.
  intros s Hg. pose proof Hg as [Hq [Hwf _]]. unfold RemovePendingBallot.
  rewrite (bind_Ok _ _ _ _ _ (attempt_rd_Get ballotPrefix (VoteID_Bytes v) s)).
  destruct (clears_removePendingBallot pid v s Hq) as (s1 & E & Hc). rewrite (bind_Ok _ _ _ _ _ E).
  destruct (db s !! (ballotPrefix ++ VoteID_Bytes v)) as [val|] eqn:Hv.
  - destruct (Hwf _ _ Hv) as (b & Hd & Hb%(inj _) & _). rewrite Hd.
    rewrite (bind_Ok _ _ _ _ _ (releaseLocks_eq _ _ _ s1)).
    eapply (cleared_then_keeps ballotPrefix (VoteID_Bytes v) (Some (lock_key (b_ProcessID b) (b_Address b))));
      [left|done| |exact (cleared_release _ _ _ _ _ _ Hc)|apply (sr_setVoteIDStatus (R:=keeps))].
    by rewrite lookup_queued, Hv; cbn; rewrite entry_lock_pending, Hd.
  - unfold mbind, SE_bind, mret, SE_ret.
    eapply (cleared_then_keeps ballotPrefix (VoteID_Bytes v) None); [left|done| |done|apply (sr_setVoteIDStatus (R:=keeps))].
    by rewrite lookup_queued, Hv.
Qed.
Lemma sim_RemovePendingBallotsByProcess pid : moves sim (RemovePendingBallotsByProcess pid).
Proof. apply (pending_loop_sim pid (λ b, removePendingBallot pid (b_VoteID b))). intros b. apply clears_removePendingBallot. Qed.
Lemma sim_cleanPendingBallotsForProcess pid : moves sim (cleanPendingBallotsForProcess pid).
Proof.
  apply (pending_loop_sim pid (λ b, dropEntry ballotPrefix (VoteID_Bytes (b_VoteID b)))). intros b.
  apply clears_dropEntry. left.
Qed.
Lemma sim_RemoveVerifiedBallotsByProcess pid : moves sim (RemoveVerifiedBallotsByProcess pid).
Proof. apply (verified_loop_sim pid removeVerifiedBallot). apply clears_removeVerifiedBallot. Qed.
Lemma sim_cleanVerifiedBallotsForProcess pid : moves sim (cleanVerifiedBallotsForProcess pid).
Proof. apply (verified_loop_sim pid (dropEntry verifiedBallotPrefix)). intros k. apply clears_dropEntry. right; left. Qed.

(** The stored verified ballot, as the handlers read it. *)
Lemma verified_read k s :
  attempt (getArtifact (A:=VerifiedBallot) verifiedBallotPrefix (Some k)) s =
    (Ok (eval (getArtifact verifiedBallotPrefix (Some k)) s), s) ∧
  queued (db s) !! (verifiedBallotPrefix ++ k) =
    verified_lock (match eval (getArtifact (A:=VerifiedBallot) verifiedBallotPrefix (Some k)) s with
                   | Ok b => Some b | Err _ => None end).
Proof.
  unfold eval, attempt. rewrite getArtifact_eq, lookup_queued. split; [done|].
  destruct (db s !! _) as [v|]; [|done]. cbn. rewrite entry_lock_verified. by destruct (DecodeArtifact v).
Qed.
Lemma sim_MarkVerifiedBallotsDone keys : moves sim (MarkVerifiedBallotsDone keys).
Proof.
  apply moves_forM_; [apply _|]. intros k _ s Hg. destruct (verified_read k s) as [E Hl].
  rewrite (bind_Ok _ _ _ _ _ E).
  destruct (cleared_sim _ _ _ _ Hg Hl (releaseVerified_clears _ _ _ _ _ (clears_removeVerifiedBallot k) (proj1 Hg)))
    as (H1 & H2 & _). done.
Qed.
Lemma sim_failVerifiedBallot acc k : moves sim (failVerifiedBallot acc k).
Proof.
  intros s Hg. destruct (verified_read k s) as [E Hl]. unfold failVerifiedBallot.
  rewrite (bind_Ok _ _ _ _ _ E). destruct (eval _ s) as [b|e].
  2:{ destruct (errors_Is e ErrNotFound); by split. }
  pose proof (moves_attempt keeps _ (sr_voteIDStatus keeps (vb_ProcessID b) (vb_VoteID b)) s) as K1.
  destruct (attempt (voteIDStatus (vb_ProcessID b) (vb_VoteID b)) s) as [[c|e] s1] eqn:E1;
    [rewrite (bind_Ok _ _ _ _ _ E1)|rewrite (bind_Err _ _ _ _ _ E1); by apply keeps_sim].
  pose proof (moves_wrapping keeps "set vote ID status to error" _
    (sr_setVoteIDStatus (R:=keeps) (vb_ProcessID b) (vb_VoteID b) VoteIDStatusError) s1) as K2.
  destruct (wrapping "set vote ID status to error" _ s1) as [[[]|e] s2] eqn:E2;
    [rewrite (bind_Ok _ _ _ _ _ E2)|rewrite (bind_Err _ _ _ _ _ E2); by apply keeps_sim; [etrans|]].
  assert (K : keeps s s2) by by etrans. destruct (K (proj1 Hg)) as (Hq2 & _).
  destruct (clears_removeVerifiedBallot k s2 Hq2) as (s3 & E3 & Hc).
  assert (E3' : wrapping "remove verified ballot" (removeVerifiedBallot k) s2 = (Ok (), s3)) by (unfold wrapping; by rewrite E3).
  rewrite (bind_Ok _ _ _ _ _ E3'), (bind_Ok _ _ _ _ _ (releaseLocks_eq _ _ _ s3)).
  apply (cleared_release _ _ _ (vb_VoteID b) (vb_ProcessID b) (vb_Address b)) in Hc.
  apply (keeps_cleared _ _ _ _ _ (proj1 Hg) K) in Hc.
  destruct (cleared_sim _ _ _ _ Hg Hl Hc) as (H1 & H2 & _). done.
Qed.
Lemma sim_MarkVerifiedBallotsFailed keys : moves sim (MarkVerifiedBallotsFailed keys).
Proof.
  unfold MarkVerifiedBallotsFailed. apply moves_bind; [apply _| |intros l].
  - apply moves_foldM; [apply _|]. intros acc k _. apply sim_failVerifiedBallot.
  - apply moves_keeps_sim, moves_forM_; [apply _|]. intros pn _. apply moves_warn, sr_updateProcessStats. apply _.
Qed.

(** ** The cleanups *)

Lemma keeps_dropEntries p ks :
  batch_space (reservationDB p) = true → batch_space p = true → moves keeps (forM_ (dropEntry p) ks).
Proof.
  intros H1 H2. apply moves_forM_; [apply _|]. intros k _. unfold dropEntry. apply moves_bind; [apply _| |intros _].
  - apply moves_warn, moves_ignoring, br_deleteReservation; [apply _|done].
  - apply moves_warn, moves_ignoring, br_deleteArtifact; [apply _|done].
Qed.
Lemma keeps_cleanQueue p pid :
  batch_space (reservationDB p) = true → batch_space p = true →
  moves keeps (l ← gets (λ s, prefixed_Iterate bk p (pid_bytes pid) (db s));
               forM_ (λ kv, dropEntry p (fix_key pid kv.1)) l).
Proof.
  intros H1 H2. apply moves_bind; [apply _|apply moves_gets; apply _|intros l].
  apply moves_forM_; [apply _|]. intros kv _.
  pose proof (keeps_dropEntries p [fix_key pid kv.1] H1 H2) as H. intros s. specialize (H s). cbn [forM_] in H.
  unfold mbind, SE_bind in H. by destruct (dropEntry p (fix_key pid kv.1) s) as [[[]|] s'].
Qed.
Lemma keeps_cleanArtifacts pid : moves keeps (cleanStateTransitionArtifactsForProcess pid).
Proof.
  unfold cleanStateTransitionArtifactsForProcess. apply moves_bind; [apply _|apply moves_gets; apply _|intros l].
  apply moves_forM_; [apply _|]. intros kv _. apply moves_warn, moves_ignoring, br_deleteArtifact; [apply _|by vm_compute].
Qed.
Lemma sim_cleanupEndedProcess pid : moves sim (cleanupEndedProcess pid).
Proof.
  unfold cleanupEndedProcess. repeat (apply moves_bind; [apply _|apply moves_attempt|intros ?]); [..|apply moves_lift; apply _].
  - apply sim_cleanPendingBallotsForProcess.
  - apply sim_cleanVerifiedBallotsForProcess.
  - apply moves_keeps_sim, keeps_cleanQueue; by vm_compute.
  - apply moves_keeps_sim, keeps_cleanQueue; by vm_compute.
  - apply moves_keeps_sim, keeps_cleanArtifacts.
  - apply moves_keeps_sim, moves_bind; [apply _|apply sr_timeout|intros _; apply moves_ret; apply _].
Qed.
Lemma sim_checkAndUpdateEndedProcesses : moves sim checkAndUpdateEndedProcesses.
Proof.
  unfold checkAndUpdateEndedProcesses, ListProcesses. apply moves_bind; [apply _| |].
  { apply moves_attempt, moves_bind; [apply _|apply moves_listArtifacts; apply _|intros l; apply moves_lift; apply _]. }
  intros [pids|e]; [|apply moves_ret; apply _]. apply moves_forM_; [apply _|]. intros pid _. unfold checkEnded.
  apply moves_bind; [apply _|apply moves_attempt, moves_getArtifact; apply _|]. intros [p|e]; [|apply moves_ret; apply _].
  apply moves_bind; [apply _|apply moves_gets; apply _|intros t]. destruct (_ && _); [|apply moves_ret; apply _].
  apply moves_bind; [apply _|apply moves_attempt, moves_keeps_sim, sr_UpdateProcess; apply _|].
  intros [[]|e]; [apply moves_warn, sim_cleanupEndedProcess|apply moves_ret; apply _].
Qed.
Lemma sim_CleanProcessStaleVotes pid : moves sim (CleanProcessStaleVotes pid).
Proof.
  unfold CleanProcessStaleVotes. repeat (apply moves_bind; [apply _|apply moves_wrapping|intros _]); [..|apply moves_wrapping].
  - apply sim_RemovePendingBallotsByProcess.
  - apply sim_RemoveVerifiedBallotsByProcess.
  - apply moves_keeps_sim, sr_RemoveAggregatorBatchesByProcess. apply _.
  - apply moves_keeps_sim, sr_RemoveStateTransitionBatchesByProcess. apply _.
Qed.

(** Many entries at once. *)
Lemma qsteps_remove (items : list (bytes * string)) Q Q' H :
  NoDup items.*1 → (∀ e l, (e, l) ∈ items → Q !! e = Some l) →
  (∀ e, Q' !! e = if decide (e ∈ items.*1) then None else Q !! e) →
  rtc qstep (Queue Q H) (Queue Q' (H ∖ list_to_set items.*2)).
Proof.
  revert Q H. induction items as [|[e l] items IH]; intros Q H; csimpl; intros Hnd Hin HQ.
  { rewrite difference_empty_L. replace Q' with Q; [done|]. apply map_eq. intros k. by rewrite HQ. }
  apply NoDup_cons in Hnd as [He Hnd].
  eapply rtc_l; [apply (q_remove _ _ e l); apply Hin; left|].
  rewrite <-difference_difference_l_L. apply IH; [done| |].
  - intros e' l' Hin'. rewrite lookup_delete_ne; [apply Hin; by right|]. intros <-. apply He.
    by apply (list_elem_of_fmap_2 fst) in Hin'.
  - intros k. rewrite HQ. destruct (decide (k = e)) as [->|Hne].
    + rewrite lookup_delete_eq, decide_True by left. by destruct (decide _).
    + rewrite lookup_delete_ne by done. destruct (decide (k ∈ e :: items.*1)) as [Hk|Hk], (decide (k ∈ items.*1)); set_solver.
Qed.

(** The verified entries of [ks] are gone, the locks stay. *)
Definition purged (ks : list bytes) (s s' : Storage) : Prop :=
  quiet s' ∧ processingAddresses s' = processingAddresses s ∧
  ∀ p k, p ∈ queues →
    db s' !! (p ++ k) = if decide (p ++ k ∈ app verifiedBallotPrefix <$> ks) then None else db s !! (p ++ k).
Lemma purged_nil s s' : quiet s → keeps s s' → purged [] s s'.
Proof.
  intros Hq Hk. destruct (Hk Hq) as (Hq' & Hs & Ha). split_and!; [done..|]. intros p k Hp.
  rewrite decide_False by apply not_elem_of_nil. by apply Hs.
Qed.
Lemma purged_trans ks1 ks2 s1 s2 s3 : purged ks1 s1 s2 → purged ks2 s2 s3 → purged (ks1 ++ ks2) s1 s3.
Proof.
  intros (Hq2 & Ha2 & H2) (Hq3 & Ha3 & H3). split_and!; [done|congruence|]. intros p k Hp.
  rewrite H3, H2 by done.
  destruct (decide (p ++ k ∈ app verifiedBallotPrefix <$> ks1)) as [Hin1|Hin1],
    (decide (p ++ k ∈ app verifiedBallotPrefix <$> ks2)) as [Hin2|Hin2],
    (decide (p ++ k ∈ app verifiedBallotPrefix <$> (ks1 ++ ks2))) as [Hin|Hin];
    rewrite fmap_app, elem_of_app in Hin; tauto || done.
Qed.
Lemma purged_cleared k s s' : cleared (verifiedBallotPrefix ++ k) None s s' → purged [k] s s'.
Proof.
  intros (Hq & Hb & Hd & Ha). split_and!; [done..|]. intros p j Hp. cbn [fmap list_fmap].
  destruct (decide (p ++ j = verifiedBallotPrefix ++ k)) as [E|Hne].
  - rewrite decide_True by (rewrite E; left). by rewrite E.
  - rewrite decide_False by (by intros ?%list_elem_of_singleton). by apply Hb.
Qed.
Lemma purged_loop {A} (f : A → M ()) (keys : A → list bytes) l s :
  (∀ a s, quiet s → ∃ s', f a s = (Ok (), s') ∧ purged (keys a) s s') → quiet s →
  ∃ s', forM_ f l s = (Ok (), s') ∧ purged (concat (keys <$> l)) s s'.
Proof.
  intros Hf. revert s. induction l as [|a l IH]; intros s Hq.
  { exists s. split; [done|]. by apply purged_nil. }
  destruct (Hf a s Hq) as (s1 & E1 & H1). destruct (IH s1) as (s2 & E2 & H2); [apply H1|].
  exists s2. cbn [forM_]. rewrite (bind_Ok _ _ _ _ _ E1). split; [done|]. by eapply purged_trans.
Qed.
Lemma purged_drops ks s :
  quiet s → ∃ s', forM_ (dropEntry verifiedBallotPrefix) ks s = (Ok (), s') ∧ purged ks s s'.
Proof.
  intros Hq. destruct (purged_loop (dropEntry verifiedBallotPrefix) (λ k, [k]) ks s) as (s' & E & H); [|done|].
  { intros k s0 Hq0. destruct (clears_dropEntry verifiedBallotPrefix k ltac:(right; left) s0 Hq0) as (s' & E & H).
    exists s'. split; [done|]. by apply purged_cleared. }
  exists s'. split; [done|]. revert H. clear. replace (concat ((λ k, [k]) <$> ks)) with ks; [done|].
  induction ks as [|k ks IH]; [done|]. cbn. by rewrite <-IH.
Qed.

(** The first pass of the global cleanup over the verified ballots: it releases
    the locks of the readable ones and collects their keys. *)
Definition readables (l : list (bytes * bytes)) : list (bytes * VerifiedBallot) :=
  omap (λ kv, match DecodeArtifact (A:=VerifiedBallot) kv.2 with Ok b => Some (kv.1, b) | Err _ => None end) l.
Definition keys_of (acc : cleanups) : list bytes := concat ((λ x, x.2.1) <$> acc).
Lemma keys_of_add pid k n acc : keys_of (add_cleanup pid k n acc) ≡ₚ k :: keys_of acc.
Proof.
  unfold keys_of. induction acc as [|[p [ks c]] acc IH]; cbn; [done|]. case_decide; cbn.
  - rewrite <-app_assoc. cbn. by rewrite Permutation_middle.
  - rewrite IH. by rewrite Permutation_middle.
Qed.
Definition ballot_lock (b : VerifiedBallot) : string := lock_key (vb_ProcessID b) (vb_Address b).
Definition released (bs : list VerifiedBallot) (s s' : Storage) : Prop :=
  quiet s' ∧ same_queues (db s) (db s') ∧
  processingAddresses s' = processingAddresses s ∖ list_to_set (ballot_lock <$> bs).
Lemma cleanVerified_released acc k v b s :
  quiet s → DecodeArtifact v = Ok b →
  ∃ acc' s', cleanVerified acc (k, v) s = (Ok acc', s') ∧ keys_of acc' ≡ₚ k :: keys_of acc ∧ released [b] s s'.
Proof.
  intros Hq Hd. unfold cleanVerified. cbn [snd fst]. rewrite Hd.
  pose proof (moves_attempt keeps _ (sr_voteIDStatus keeps (vb_ProcessID b) (vb_VoteID b)) s) as K1.
  unfold attempt in *. unfold mbind at 1, SE_bind at 1. destruct (voteIDStatus _ _ s) as [r s1]. cbn [snd] in K1.
  set (st := if negb _ then _ else _). assert (K2 : ∃ s2, st s1 = (Ok (), s2) ∧ keeps s1 s2).
  { unfold st. destruct (negb _); [|by exists s1]. eexists. split; [done|]. apply (sr_setVoteIDStatus (R:=keeps)). }
  destruct K2 as (s2 & E2 & K2). rewrite (bind_Ok _ _ _ _ _ E2), (bind_Ok _ _ _ _ _ (releaseLocks_eq _ _ _ s2)).
  eexists _, _. split; [done|]. split; [apply keys_of_add|].
  destruct ((transitivity K1 K2) Hq) as (Hq2 & Hs & Ha). split_and!; [done|done|].
  cbn. unfold ballot_lock. rewrite Ha. set_solver.
Qed.
Lemma cleanVerified_loop acc l s :
  quiet s →
  ∃ acc' s', foldM cleanVerified acc l s = (Ok acc', s') ∧
    keys_of acc' ≡ₚ (readables l).*1 ++ keys_of acc ∧ released (readables l).*2 s s'.
Proof.
  revert acc s. induction l as [|[k v] l IH]; intros acc s Hq.
  { exists acc, s. split_and!; [done..|]. split_and!; [done..|]. cbn. set_solver. }
  cbn [foldM]. destruct (DecodeArtifact (A:=VerifiedBallot) v) as [b|e] eqn:Hd.
  - destruct (cleanVerified_released acc k v b s Hq Hd) as (acc1 & s1 & E1 & P1 & Hq1 & S1 & A1).
    destruct (IH acc1 s1 Hq1) as (acc2 & s2 & E2 & P2 & Hq2 & S2 & A2).
    exists acc2, s2. rewrite (bind_Ok _ _ _ _ _ E1). split; [done|].
    assert (Hr : readables ((k, v) :: l) = (k, b) :: readables l) by (unfold readables; cbn; by rewrite Hd).
    rewrite Hr. cbn [fmap list_fmap fst snd]. split.
    + rewrite P2, P1. cbn. by rewrite Permutation_middle.
    + split_and!; [done|intros p j Hp; by rewrite S2, S1|]. rewrite A2, A1. cbn [fmap list_fmap]. set_solver.
  - assert (Hr : readables ((k, v) :: l) = readables l) by (unfold readables; cbn; by rewrite Hd).
    rewrite Hr. assert (E : cleanVerified acc (k, v) s = (Ok acc, s)) by (unfold cleanVerified; cbn; by rewrite Hd).
    rewrite (bind_Ok _ _ _ _ _ E). by apply IH.
Qed.
Lemma verified_local d : verified_wf d → ∀ r, is_Some (d !! (verifiedBallotPrefix ++ r)) → HasPrefix r verifiedBallotPrefix = false.
Proof. intros Hwf r Hr. apply (Hwf r Hr). Qed.
Lemma readables_sublist l : (readables l).*1 `sublist_of` l.*1.
Proof.
  induction l as [|[k v] l IH]; [done|]. unfold readables in *. cbn.
  destruct (DecodeArtifact v); cbn; by constructor.
Qed.
Lemma elem_of_readables d k b :
  verified_wf d → (k, b) ∈ readables (prefixed_Iterate bk verifiedBallotPrefix [] d) →
  queued d !! (verifiedBallotPrefix ++ k) = Some (ballot_lock b).
Proof.
  intros Hwf ([k' v] & Hin & Hb)%list_elem_of_omap. cbn in Hb.
  destruct (DecodeArtifact v) as [b'|] eqn:Hd; [|done]. injection Hb as -> ->.
  apply prefixed_Iterate_local in Hin; [|by apply verified_local].
  rewrite lookup_queued, Hin. cbn. by rewrite entry_lock_verified, Hd.
Qed.
Lemma purged_queued ks s s' e :
  purged ks s s' → queued (db s') !! e = if decide (e ∈ app verifiedBallotPrefix <$> ks) then None else queued (db s) !! e.
Proof.
  intros (_ & _ & H). destruct (in_queue_dec e) as [(p & k & Hp & ->)|Hk].
  - rewrite !lookup_queued, H by done. by destruct (decide _).
  - rewrite !queued_other by done. by destruct (decide _).
Qed.
Lemma purged_wf ks s s' : purged ks s s' → wf (db s) → wf (db s').
Proof.
  intros (_ & _ & H) [Hp Hv]. split.
  - intros k val Hk. rewrite H in Hk by left. destruct (decide _); [done|by apply Hp].
  - intros k [v Hk]. rewrite H in Hk by (right; left). destruct (decide _); [done|]. apply Hv. eauto.
Qed.
Lemma sim_cleanAllVerifiedBallots : moves sim cleanAllVerifiedBallots.
Proof.
  intros s [Hq Hwf]. unfold cleanAllVerifiedBallots. set (l := prefixed_Iterate bk verifiedBallotPrefix [] (db s)).
  rewrite (bind_Ok (gets (λ s, prefixed_Iterate bk verifiedBallotPrefix [] (db s))) _ s l s eq_refl).
  destruct (cleanVerified_loop [] l s Hq) as (acc & s1 & E1 & P1 & Hq1 & S1 & A1).
  rewrite (bind_Ok _ _ _ _ _ E1).
  match goal with |- context [forM_ ?f acc s1] => destruct (purged_loop f (λ x, x.2.1) acc s1) as (s2 & -> & H2) end;
    [|done|].
  { intros [pid [ks n]] s0 Hq0. destruct (purged_drops ks s0 Hq0) as (s3 & E3 & H3).
    rewrite (bind_Ok _ _ _ _ _ E3). cbn [snd fst]. destruct (0 <? n).
    - eexists. split; [done|]. rewrite <-(app_nil_r ks). eapply purged_trans; [done|].
      apply purged_nil; [apply H3|apply (sr_updateProcessStats keeps)].
    - by exists s3. }
  cbn [snd]. fold (keys_of acc) in H2. unfold keys_of in P1 at 2. cbn [fmap list_fmap concat] in P1. rewrite app_nil_r in P1.
  split; [split; [apply H2|by eapply purged_wf, wf_same]|].
  unfold abs. pose proof (proj1 (proj2 H2)) as Ha2. rewrite Ha2, A1.
  set (items := (λ kb : bytes * VerifiedBallot, (verifiedBallotPrefix ++ kb.1, ballot_lock kb.2)) <$> readables l).
  assert (I1 : items.*1 = app verifiedBallotPrefix <$> (readables l).*1) by (unfold items; by rewrite <-!list_fmap_compose).
  assert (I2 : items.*2 = ballot_lock <$> (readables l).*2) by (unfold items; by rewrite <-!list_fmap_compose).
  rewrite <-I2. apply qsteps_remove.
  - rewrite I1. apply NoDup_fmap_2; [apply _|]. apply (sublist_NoDup _ l.*1); [|apply readables_sublist].
    apply NoDup_local, verified_local, Hwf.
  - intros e lk ([k b] & [= -> ->] & Hin)%list_elem_of_fmap. by apply elem_of_readables; [apply Hwf|].
  - intros e. rewrite (purged_queued (keys_of acc) s1 s2) by done. rewrite (queued_same _ _ S1), I1.
    assert (Hiff : e ∈ app verifiedBallotPrefix <$> keys_of acc ↔ e ∈ app verifiedBallotPrefix <$> (readables l).*1)
      by by rewrite P1.
    destruct (decide (e ∈ _ <$> keys_of acc)), (decide (e ∈ _ <$> (readables l).*1)); tauto || done.
Qed.
Lemma sim_CleanAllPending : moves sim CleanAllPending.
Proof.
  assert (Hd : ∀ p acc us, batch_space (reservationDB p) = true → batch_space p = true →
    moves keeps (forM_ (λ '(pid, (keys, n)), _ ← forM_ (dropEntry p) keys;
      if 0 <? n then warn (updateProcessStats pid (us n)) else mret ()) (acc : cleanups))).
  { intros p acc us H1 H2. apply moves_forM_; [apply _|]. intros [pid [ks n]] _.
    apply moves_bind; [apply _|by apply keeps_dropEntries|intros _].
    destruct (0 <? n); [apply moves_warn, sr_updateProcessStats; apply _|apply moves_ret; apply _]. }
  unfold CleanAllPending. repeat (apply moves_bind; [apply _|apply moves_attempt|intros ?]); [..|apply moves_lift; apply _].
  - apply sim_cleanAllVerifiedBallots.
  - apply moves_keeps_sim. unfold cleanAllAggregatedBatches. apply moves_bind; [apply _|apply moves_gets; apply _|intros l].
    apply moves_bind; [apply _| |intros acc; apply (Hd _ acc (λ n, [_; _])); by vm_compute].
    apply moves_foldM; [apply _|]. intros acc kv _. apply sr_cleanAggregated. apply _.
  - apply moves_keeps_sim. unfold cleanAllStateTransitions. apply moves_bind; [apply _|apply moves_gets; apply _|intros l].
    apply moves_bind; [apply _| |intros acc; apply (Hd _ acc (λ n, [_])); by vm_compute].
    apply moves_foldM; [apply _|]. intros acc kv _. apply sr_cleanTransition. apply _.
Qed.

(** ** Accepting and verifying *)

Lemma quiet_PushPendingBallot b : moves keeps_quiet (PushPendingBallot b).
Proof.
  unfold PushPendingBallot, IsVoteIDProcessing, lockAddress, lockVoteID, releaseVoteID, releaseAddress, storeAddressInfo.
  pose proof moves_updateProcessStats_quiet.
  assert (∀ pid v st, moves keeps_quiet (setVoteIDStatus pid v st)) by (intros; unfold setVoteIDStatus; moves).
  repeat first [progress moves | apply moves_rd_Get; apply _ | apply moves_commit_quiet | done].
  all: intros Hs; exact Hs.
Qed.
Lemma same_but_lookup e d d' k :
  same_but e d d' → k ≠ e → queued d' !! k = queued d !! k.
Proof.
  intros Hb Hne. pose proof (queued_same_but e d d' Hb) as H. apply (f_equal (lookup k)) in H.
  by rewrite !lookup_delete_ne in H.
Qed.
Lemma sim_PushPendingBallot b : VoteID_Valid (b_VoteID b) = true → moves sim (PushPendingBallot b).
Proof.
  intros Hvalid s Hg. pose proof Hg as [Hq [Hp Hv]]. pose proof (quiet_PushPendingBallot b s Hq) as Hq'.
  pose proof (PushPendingBallot_cases b s) as H. destruct (PushPendingBallot b s) as [r s']. cbn [snd] in *.
  destruct H as [[[(Hv1 & Ha1 & Hd1) (Hval & _ & Ha & _)]|(_ & Hd & Hl)] Ht].
  2:{ apply keeps_sim; [|done]. intros _. injection Hl as _ Ha _. rewrite Hd. split_and!; done. }
  set (e := ballotPrefix ++ VoteID_Bytes (b_VoteID b)) in *. destruct Hval as (val & Henc & Hval).
  apply codec_roundtrip in Henc. change (norm b) with b in Henc.
  assert (Hb : same_but e (db s) (db s')).
  { intros p k Hin Hne. apply Ht. intros [E|Hs]; [done|]. revert Hs. apply spaces_no.
    unfold queues in Hin. rewrite !elem_of_cons, elem_of_nil in Hin. destruct Hin as [-> | [-> | []]]; by vm_compute. }
  split; [split; [done|split]|].
  - intros k w Hk. destruct (decide (ballotPrefix ++ k = e)) as [E|Hne].
    + rewrite E, Hval in Hk. injection Hk as <-. apply (inj (app _)) in E as ->. eauto.
    + rewrite Hb in Hk; [by apply Hp|left|done].
  - intros k [w Hk]. rewrite Hb in Hk; [by apply Hv; exists w|right; left|]. apply incompatible_app. by vm_compute.
  - apply rtc_once. unfold abs. rewrite Ha.
    replace (queued (db s')) with (<[e := lock_key (b_ProcessID b) (b_Address b)]> (queued (db s))).
    + constructor; [by rewrite lookup_queued, Hd1|done].
    + apply map_eq. intros k. destruct (decide (k = e)) as [->|Hne].
      * rewrite lookup_insert_eq, lookup_queued, Hval. cbn. unfold e. by rewrite entry_lock_pending, Henc.
      * rewrite lookup_insert_ne by done. symmetry. by apply (same_but_lookup e).
Qed.

(** The state when a ballot has moved from the pending to the verified queue. *)
Definition moved (pid : ProcessID) (v : uint64) (val : bytes) (d : kv) : kv :=
  delete (ballotPrefix ++ VoteID_Bytes v) (delete (reservationDB ballotPrefix ++ VoteID_Bytes v)
    (<[verifiedBallotPrefix ++ pid_bytes pid ++ VoteID_Bytes v := val]> d)).
Lemma lookup_moved pid v val d p k :
  p ∈ queues → moved pid v val d !! (p ++ k) =
  if decide (p ++ k = ballotPrefix ++ VoteID_Bytes v) then None
  else if decide (p ++ k = verifiedBallotPrefix ++ pid_bytes pid ++ VoteID_Bytes v) then Some val else d !! (p ++ k).
Proof.
  intros Hp. unfold moved. destruct (decide (p ++ k = _)) as [->|H1]; [apply lookup_delete_eq|].
  rewrite lookup_delete_ne by done. rewrite lookup_delete_ne.
  2:{ intros E. symmetry in E. revert E. apply incompatible_app. apply queues_reservations; [done|left]. }
  destruct (decide (p ++ k = _)) as [->|H2]; [apply lookup_insert_eq|]. by rewrite lookup_insert_ne.
Qed.
Lemma pid_prefix pid r :
  HasPrefix (pid_bytes pid) verifiedBallotPrefix = false → HasPrefix (pid_bytes pid ++ r) verifiedBallotPrefix = false.
Proof.
  unfold HasPrefix. intros Hpid%bool_decide_eq_false. apply bool_decide_eq_false. intros Hpre.
  destruct (prefix_weak_total verifiedBallotPrefix (pid_bytes pid) (pid_bytes pid ++ r)) as [H|H];
    [done|by eexists|done|].
  apply prefix_length in H. rewrite length_pid_bytes in H.
  assert (E : length verifiedBallotPrefix = 3%nat) by by vm_compute. rewrite E in H. unfold ProcessIDLen in H. lia.
Qed.
Lemma moved_sim pid v val vb b s s' :
  good s → pending (db s) v b → pid = b_ProcessID b → HasPrefix (pid_bytes pid) verifiedBallotPrefix = false →
  DecodeArtifact val = Ok vb → vb_ProcessID vb = pid → vb_Address vb = b_Address b →
  quiet s' → db s' = moved pid v val (db s) → processingAddresses s' = processingAddresses s → 
  good s' ∧ rtc qstep (abs s) (abs s').
Proof.
  intros [Hq [Hp Hv]] (old & Hold & Hb) -> Hpid Hd Hpv Hav Hq' Hdb Ha.
  set (e := ballotPrefix ++ VoteID_Bytes v). set (e' := verifiedBallotPrefix ++ pid_bytes (b_ProcessID b) ++ VoteID_Bytes v).
  assert (Hne : e' ≠ e) by (apply incompatible_app; by vm_compute).
  split; [split; [done|]; rewrite Hdb; split|].
  - intros k w. rewrite lookup_moved by left. case_decide; [done|]. case_decide as E; [|apply Hp].
    exfalso. revert E. apply incompatible_app. by vm_compute.
  - intros k [w Hk]. rewrite lookup_moved in Hk by (right; left). case_decide; [done|]. case_decide as E; [|apply Hv; eauto].
    apply (inj (app _)) in E as ->. destruct (Hp _ _ Hold) as (b' & _ & Hk'%(inj _) & Hvalid). subst v.
    split; [by apply pid_prefix|eauto].
  - apply rtc_once. unfold abs. rewrite Ha.
    replace (queued (db s')) with (<[e' := lock_key (b_ProcessID b) (b_Address b)]> (delete e (queued (db s)))).
    { constructor; [|done]. unfold e. rewrite lookup_queued, Hold. cbn. by rewrite entry_lock_pending, Hb. }
    apply map_eq. intros k. destruct (decide (k = e')) as [->|Hk'].
    { rewrite lookup_insert_eq, lookup_queued, Hdb. unfold e'. rewrite lookup_moved by (right; left).
      rewrite decide_False by done. rewrite decide_True by done. cbn. rewrite entry_lock_verified, Hd. by rewrite Hpv, Hav. }
    rewrite lookup_insert_ne by done. destruct (decide (k = e)) as [->|Hk].
    { rewrite lookup_delete_eq, lookup_queued, Hdb. unfold e. rewrite lookup_moved by left. by rewrite decide_True. }
    rewrite lookup_delete_ne by done. destruct (in_queue_dec k) as [(p & r & Hin & ->)|Hno].
    + rewrite !lookup_queued, Hdb, lookup_moved by done. by rewrite !decide_False.
    + by rewrite !queued_other.
Qed.

(** What the caller of [MarkBallotVerified] has to respect: the ballot is pending
    and the verified ballot has its address. A process identifier that spells the
    queue's own prefix is excluded (see [DB.prefixed_Iterate_strips_twice]). *)
Definition verifies (d : kv) (v : uint64) (vb : VerifiedBallot) : Prop :=
  ∃ b, pending d v b ∧ vb_Address vb = b_Address b ∧ HasPrefix (pid_bytes (b_ProcessID b)) verifiedBallotPrefix = false.
Definition verified_updates : list ProcessStatsUpdate :=
  [{| upd_TypeStats := TypeStatsVerifiedVotes; upd_Delta := 1 |};
   {| upd_TypeStats := TypeStatsCurrentBatchSize; upd_Delta := 1 |};
   {| upd_TypeStats := TypeStatsPendingVotes; upd_Delta := -1 |}].
Lemma MarkBallotVerified_quiet v vb b s :
  quiet s → pending (db s) v b →
  MarkBallotVerified v (Some vb) s =
  match EncodeArtifact (set_vb_ProcessID (b_ProcessID b) vb) with
  | Err e => (Err (Wrap "encode verified ballot" e), s)
  | Ok val =>
      (_ ← wrapping "failed to update process stats" (updateProcessStats (b_ProcessID b) verified_updates);
       setVoteIDStatus (b_ProcessID b) v VoteIDStatusVerified) (set_db (moved (b_ProcessID b) v val (db s)) s)
  end.
Proof.
  intros Hq (old & Hold & Hd). unfold MarkBallotVerified, attempt, mbind, SE_bind.
  rewrite getArtifact_eq, Hold, Hd. unfold mret, SE_ret, wrapping, lift, ignoring.
  destruct (EncodeArtifact _) as [val|e]; [|done]. rewrite commit_quiet by done.
  rewrite deleteReservation_quiet by done. rewrite deleteArtifact_quiet by done.
  unfold moved. rewrite apply_Set, !db_set_db, !set_db_set_db. done.
Qed.
Lemma sim_MarkBallotVerified v vb s :
  (∀ w, vb = Some w → verifies (db s) v w) → sim s (MarkBallotVerified v vb s).2.
Proof.
  intros Hvb Hg. destruct vb as [vb|]; [|by split].
  destruct (Hvb vb eq_refl) as (b & Hb & Ha & Hpid). rewrite (MarkBallotVerified_quiet v vb b) by (done || apply Hg).
  destruct (EncodeArtifact _) as [val|e] eqn:Henc; [|by split]. apply codec_roundtrip in Henc.
  set (s1 := set_db _ s). destruct (moved_sim (b_ProcessID b) v val (set_vb_ProcessID (b_ProcessID b) vb) b s s1)
    as [Hg1 H1]; try done; [apply Hg|].
  destruct (moves_keeps_sim (_ ← wrapping "failed to update process stats" (updateProcessStats (b_ProcessID b) verified_updates);
       setVoteIDStatus (b_ProcessID b) v VoteIDStatusVerified)) with (s := s1) as [Hg2 H2]; [|done|].
  { apply moves_bind; [apply _|apply moves_wrapping, sr_updateProcessStats; apply _|intros _; apply sr_setVoteIDStatus]. }
  split; [done|]. by etrans.
Qed.

(** ** All operations *)

(** What the callers respect: ballots have valid vote identifiers, verified ballots
    belong to pending ones, and the node does not restart. *)
Definition disciplined (o : op) (s : Storage) : Prop :=
  match o with
  | OpPushPendingBallot b => VoteID_Valid (b_VoteID b) = true
  | OpMarkBallotVerified v (Some vb) => verifies (db s) v vb
  | OpRestart _ _ => False
  | _ => True
  end.
Fixpoint disciplined_run (os : list op) (s : Storage) : Prop :=
  match os with [] => True | o :: os => disciplined o s ∧ disciplined_run os (run_op o s) end.
Lemma keeps_generate k : moves keeps (GenerateProcessEncryptionKeys k).
Proof.
  apply (keeps_committal [encryptionKeyPrefix]); [by vm_compute|apply generate_touches|].
  intros R HR. unfold GenerateProcessEncryptionKeys, generateEncryptionKeysUnsafe, setEncryptionKeysUnsafe.
  pose proof (committal_pre (R:=R)). repeat first [progress moves | apply moves_setArtifact; apply _].
Qed.
Lemma sim_run_op o s : disciplined o s → sim s (run_op o s).
Proof.
  intros Ho. destruct (ballot_op o) eqn:Hb.
  2:{ apply keeps_sim, run_op_BatchRel; [apply _|done|]. intros k ->. apply keeps_generate. }
  destruct o; try done; unfold run_op, exec.
  - by apply sim_PushPendingBallot.
  - apply sim_RemovePendingBallot.
  - apply sim_RemovePendingBallotsByProcess.
  - apply sim_MarkBallotVerified. by intros w ->.
  - apply sim_RemoveVerifiedBallotsByProcess.
  - apply sim_MarkVerifiedBallotsDone.
  - apply sim_MarkVerifiedBallotsFailed.
  - apply sim_CleanAllPending.
  - apply sim_checkAndUpdateEndedProcesses.
  - apply sim_CleanProcessStaleVotes.
Qed.

Lemma sim_run_ops os s : good s → disciplined_run os s → good (run_ops os s) ∧ rtc qstep (abs s) (abs (run_ops os s)).
Proof.
  revert s. induction os as [|o os IH]; intros s Hg; [by split|]. intros [Ho Hd].
  destruct (sim_run_op o s Ho Hg) as [Hg1 H1]. destruct (IH _ Hg1 Hd) as [Hg2 H2].
  split; [done|]. by etrans.
Qed.

(** C6: the storage implements the abstract queue. Over every run without failing
    commits and restarts in which verified ballots belong to pending ones, the
    pending and verified ballots with the voters' locks take only the steps of the
    abstract queue: a ballot is accepted with a free lock, moves with its lock from
    one queue to the other, or leaves and frees its lock. *)
Theorem queue_refinement os s :
  good s → disciplined_run os s → rtc qstep (abs s) (abs (run_ops os s)).
Proof. intros Hg Hd. apply sim_run_ops; done. Qed.

(** A voter's ballot in one of the queues, by its key in the database. *)
Definition voter_entry (d : kv) (pid : ProcessID) (a : option Z) (e : bytes) : Prop :=
  (∃ v b, e = ballotPrefix ++ VoteID_Bytes v ∧ pending d v b ∧ b_ProcessID b = pid ∧ b_Address b = a) ∨
  (∃ k v vb, e = verifiedBallotPrefix ++ k ∧ d !! e = Some v ∧ DecodeArtifact v = Ok vb ∧
     vb_ProcessID vb = pid ∧ vb_Address vb = a).
Lemma voter_entry_queued d pid a e : voter_entry d pid a e → queued d !! e = Some (lock_key pid a).
Proof.
  rewrite lookup_queued. intros [(v & b & -> & (val & Hv & Hd) & <- & <-)|(k & v & vb & -> & Hv & Hd & <- & <-)];
    rewrite Hv; cbn; rewrite ?entry_lock_pending, ?entry_lock_verified; by rewrite Hd.
Qed.
Lemma push_refused b s :
  lock_key (b_ProcessID b) (b_Address b) ∈ processingAddresses s →
  eval (PushPendingBallot b) s = Err ErrNullifierProcessing ∨ eval (PushPendingBallot b) s = Err ErrAddressProcessing.
Proof.
  intros Ha. unfold eval, PushPendingBallot, IsVoteIDProcessing, lockAddress, gets, modify, raise. run_simpl.
  case_bool_decide; [by left|]. right. cbn. by rewrite bool_decide_true.
Qed.

End voters.

(** ** At a concrete store *)

Import Concrete.
#[local] Existing Instance env_pebble.
Definition empty_store : Storage := MkStorage ∅ ∅ ∅ ∅ (70 * second) [].
Lemma good_empty : good empty_store ∧ exclusive (abs empty_store).
Proof.
  split; [split; [done|split]|split].
  - intros k v H. done.
  - intros k [v H]. done.
  - intros e l H. cbn in H. by rewrite lookup_queued in H.
  - intros e e' l H. cbn in H. by rewrite lookup_queued in H.
Qed.
(** Two voters push; the first tries again, is verified, and tries again. *)
Definition voting : list op :=
  [OpPushPendingBallot (ballot pid1 5 100); OpPushPendingBallot (ballot pid1 6 101);
   OpPushPendingBallot (ballot pid1 7 100); OpMarkBallotVerified (vote 5) (Some (verified pid1 5 100));
   OpPushPendingBallot (ballot pid1 8 100)].
Lemma voting_disciplined : disciplined_run voting empty_store.
Proof.
  cbn [disciplined_run voting disciplined]. split_and!; [by vm_compute..| |by vm_compute|done].
  exists (ballot pid1 5 100). split; [|split; [done|by vm_compute]].
  exists (enc (ballot pid1 5 100)). split; vm_compute; reflexivity.
Qed.
Lemma queue_refinement_witness : rtc qstep (abs empty_store) (abs (run_ops voting empty_store)).
Proof. apply (queue_refinement voting empty_store (proj1 good_empty) voting_disciplined). Defined.
