(* ===== verification/Workers.v ===== *)
(** * The worker pool

    [src/workers/worker_manager.go], [src/workers/jobs_manager.go] and
    [src/workers/helpers.go]. Remote workers take pending ballots and prove them.
    The worker manager counts each worker's consecutive failures and bans it; the
    jobs manager remembers which worker has which vote and until when. Both work on
    one state, the record [Pool], that contains the storage they count results in;
    its clock is the pool's clock.

    The jobs manager holds [pendingMtx] for the whole body of each method, so a
    method is one step. The worker manager's methods are small reads and updates of
    one entry and are one step each as well. The channel of failed jobs is
    unbuffered; here it is the list of the jobs that were sent and not yet handled,
    and to send on it after it was closed is the error "send on closed channel",
    which is a panic in the program. *)

From S2P Require Import Prelude Bytes DB Spec Types StorageTypes StorageBase VoteStatus Stats Ballots.
From Stdlib Require Import Ascii.

(** ** State *)

(** [src/workers/worker_manager.go:14-19] WorkerInfo *)
Record WorkerInfo := { wi_Address : string; wi_Name : string; wi_SuccessCount : Z; wi_FailedCount : Z }.
(** [src/workers/worker_manager.go:24-27] WorkerBanRules *)
Record WorkerBanRules := { BanTimeout : Z; FailuresToGetBanned : Z }.
(** [src/workers/worker_manager.go:30-33] DefaultWorkerBanRules *)
Definition DefaultWorkerBanRules : WorkerBanRules :=
  {| BanTimeout := 30 * 60 * second; FailuresToGetBanned := 3 |}.
(** [src/workers/worker_manager.go:36-41] Worker *)
Record Worker := { w_Address : string; w_Name : string; consecutiveFails : Z; bannedUntilNanos : Z }.
(** [src/workers/jobs_manager.go:29-34] WorkerJob *)
Record WorkerJob := { j_VoteID : uint64; j_Address : string; j_Timestamp : Time; j_Expiration : Time }.
#[export] Instance WorkerJob_eq_dec : EqDecision WorkerJob.
Proof. solve_decision. Defined.

(** [src/workers/jobs_manager.go:39-50] JobsManager, with the maps of its
    WorkerManager (src/workers/worker_manager.go) and the storage; the fields that
    never change are in [PoolConf] *)
Record Pool := MkPool {
  workers : gmap string Worker;
  jobs : gmap uint64 WorkerJob;
  FailedJobs : list WorkerJob;
  closed : bool;
  stg : Storage }.
(** The pool's configuration: the rules given to [NewWorkerManager], nil for the
    default ones, and the time a worker has for a job. *)
Class PoolConf := { conf_rules : option WorkerBanRules; JobTimeout : Z }.
(** [src/workers/worker_manager.go:98-113] NewWorkerManager: the rules in force *)
Definition rules `{PoolConf} : WorkerBanRules := default DefaultWorkerBanRules conf_rules.
(** [src/workers/jobs_manager.go:55-67] NewJobsManager *)
Definition NewJobsManager (s : Storage) : Pool := MkPool ∅ ∅ [] false s.

Abbreviation P := (SE Pool).
Definition set_workers (f : gmap string Worker → gmap string Worker) (p : Pool) : Pool :=
  MkPool (f (workers p)) (jobs p) (FailedJobs p) (closed p) (stg p).
Definition set_jobs (f : gmap uint64 WorkerJob → gmap uint64 WorkerJob) (p : Pool) : Pool :=
  MkPool (workers p) (f (jobs p)) (FailedJobs p) (closed p) (stg p).
Definition set_FailedJobs (f : list WorkerJob → list WorkerJob) (p : Pool) : Pool :=
  MkPool (workers p) (jobs p) (f (FailedJobs p)) (closed p) (stg p).
Definition set_closed (b : bool) (p : Pool) : Pool :=
  MkPool (workers p) (jobs p) (FailedJobs p) b (stg p).
Definition set_stg (s : Storage) (p : Pool) : Pool :=
  MkPool (workers p) (jobs p) (FailedJobs p) (closed p) s.
(** A call into the storage. *)
Definition on_stg {A} (m : M A) : P A := λ p, let '(r, s) := m (stg p) in (r, set_stg s p).
(** [time.Now] *)
Definition time_Now : P Time := gets (λ p, now (stg p)).

(** ** Workers and bans *)

(** [src/workers/worker_manager.go:44-59] *)
Definition IsBanned (rules : option WorkerBanRules) (t : Time) (w : Worker) : bool :=
  match rules with
  | None => false
  | Some rules =>
      if FailuresToGetBanned rules <? consecutiveFails w then true
      else if bannedUntilNanos w =? 0 then false
      else t <? bannedUntilNanos w
  end.
(** [src/workers/worker_manager.go:62-68] *)
Definition GetBannedUntil (w : Worker) : Time :=
  if bannedUntilNanos w =? 0 then zeroTime else bannedUntilNanos w.
(** [src/workers/worker_manager.go:71-77] *)
Definition SetBannedUntil (t : Time) (w : Worker) : Worker :=
  {| w_Address := w_Address w; w_Name := w_Name w; consecutiveFails := consecutiveFails w;
     bannedUntilNanos := if bool_decide (t = zeroTime) then 0 else t |}.
(** [atomic.StoreInt64] and [atomic.AddInt64] on [consecutiveFails]. *)
Definition set_consecutiveFails (f : Z → Z) (w : Worker) : Worker :=
  {| w_Address := w_Address w; w_Name := w_Name w; consecutiveFails := f (consecutiveFails w);
     bannedUntilNanos := bannedUntilNanos w |}.
Definition set_Name (name : string) (w : Worker) : Worker :=
  {| w_Address := w_Address w; w_Name := name; consecutiveFails := consecutiveFails w;
     bannedUntilNanos := bannedUntilNanos w |}.
(** [&Worker{Address: address, Name: name}] *)
Definition new_worker (address name : string) : Worker :=
  {| w_Address := address; w_Name := name; consecutiveFails := 0; bannedUntilNanos := 0 |}.

(** What the code uses of go-ethereum's [common.Address]: twenty bytes, their
    checksummed text, and the reading of any text as an address. *)
Class EthAddress := {
  IsHexAddress : string → bool;
  HexToAddress : string → bytes;
  Hex : bytes → string;
  length_HexToAddress s : length (HexToAddress s) = 20%nat;
  HexToAddress_Hex a : length a = 20%nat → HexToAddress (Hex a) = a
}.

Section pool.
Context `{Env : StorageEnv} `{Conf : PoolConf} `{Addr : EthAddress}.

(** [src/workers/helpers.go:26-31] *)
Definition ValidWorkerAddress (address : string) : result bytes :=
  if IsHexAddress address then Ok (HexToAddress address)
  else Err (ErrMsg (String.append "invalid Ethereum address: " address)).
(** [src/workers/helpers.go:35-42] *)
Definition WorkerNameFromAddress (address : string) : result string :=
  match ValidWorkerAddress address with
  | Err e => Err e
  | Ok addr =>
      Ok (String.append (String.string_of_list_ascii (replicate (length addr - 4) "*"%char))
            (hex_EncodeToString (drop (length addr - 4) addr)))
  end.

(** [src/workers/worker_manager.go:193-198] *)
Definition GetWorker (address : string) : P (option Worker) := gets (λ p, workers p !! address).
(** [src/workers/worker_manager.go:170-188] *)
Definition AddWorker (address name : string) : P Worker :=
  w ← GetWorker address;
  match w with
  | Some w =>
      if bool_decide (name ≠ "") && bool_decide (w_Name w = "") then
        let w := set_Name name w in
        _ ← modify (set_workers <[address := w]>); mret w
      else mret w
  | None =>
      let w := new_worker address name in
      _ ← modify (set_workers <[address := w]>); mret w
  end.
(** [src/workers/worker_manager.go:203-212] *)
Definition BannedWorkers : P (list Worker) :=
  gets (λ p, List.filter (IsBanned (Some rules) (now (stg p))) (map_to_list (workers p)).*2).
(** [src/workers/worker_manager.go:220-225] *)
Definition ResetWorker (address : string) : P () :=
  w ← GetWorker address;
  match w with
  | None => mret ()
  | Some _ => modify (set_workers <[address := new_worker address ""]>)
  end.
(** [src/workers/worker_manager.go:231-237] *)
Definition SetBanDuration (address : string) : P () :=
  w ← GetWorker address;
  match w with
  | None => mret ()
  | Some w => t ← time_Now;
              modify (set_workers <[address := SetBannedUntil (t + BanTimeout rules) w]>)
  end.
(** [src/workers/worker_manager.go:118-149] Start: one tick, for one banned worker *)
Definition ban_step (w : Worker) : P () :=
  let bannedUntil := GetBannedUntil w in
  if bool_decide (bannedUntil = zeroTime) then SetBanDuration (w_Address w)
  else t ← time_Now; if bannedUntil <? t then ResetWorker (w_Address w) else mret ().
(** [src/workers/worker_manager.go:118-149] Start: one tick *)
Definition ban_tick : P () := banned ← BannedWorkers; forM_ ban_step banned.
(** [src/workers/worker_manager.go:155-164] Stop *)
Definition WorkerManager_Stop : P () := modify (set_workers (λ _, ∅)).

(** [src/workers/worker_manager.go:243-257] *)
Definition WorkerResult (address : string) (success : bool) : P () :=
  w ← GetWorker address;
  _ ← match w with
      | Some _ => mret ()
      | None => modify (set_workers <[address := new_worker address ""]>)
      end;
  if success then
    _ ← modify (set_workers (alter (set_consecutiveFails (λ _, 0)) address));
    on_stg (IncreaseWorkerJobCount address 1)
  else
    _ ← modify (set_workers (alter (set_consecutiveFails (λ n, n + 1)) address));
    on_stg (IncreaseWorkerFailedJobCount address 1).

(** The name shown for a worker: its own, or its address obfuscated. *)
Definition shown_name (w : Worker) (address : string) : string :=
  if bool_decide (w_Name w = "") then
    match WorkerNameFromAddress address with Ok hiddenAddr => hiddenAddr | Err _ => "" end
  else w_Name w.
(** [src/workers/worker_manager.go:263-281] WorkerStats *)
Definition WorkerManager_WorkerStats (address : string) : P WorkerInfo :=
  w ← GetWorker address;
  match w with
  | None => raise (ErrMsg (String.append "worker " (String.append address " not found")))
  | Some w =>
      stats ← on_stg (Storage_WorkerStats address);
      mret {| wi_Address := address; wi_Name := shown_name w address;
              wi_SuccessCount := SuccessCount stats; wi_FailedCount := FailedCount stats |}
  end.
(** [src/workers/worker_manager.go:287-322] *)
Definition ListWorkerStats : P (list WorkerInfo) :=
  workerStats ← wrapping "failed to list worker stats" (on_stg ListWorkerJobCount);
  ws ← gets (λ p, (map_to_list (workers p)).*2);
  mret ((λ worker,
    let stats := default zeroWorkerStats (workerStats !! w_Address worker) in
    {| wi_Address := w_Address worker; wi_Name := shown_name worker (w_Address worker);
       wi_SuccessCount := SuccessCount stats; wi_FailedCount := FailedCount stats |}) <$> ws).

(** ** Jobs *)

(** [jm.FailedJobs <- job] *)
Definition send (job : WorkerJob) : P () :=
  c ← gets closed;
  if c : bool then raise (ErrMsg "send on closed channel")
  else modify (set_FailedJobs (λ l, l ++ [job])).

(** [src/workers/jobs_manager.go:100-113] Stop *)
Definition JobsManager_Stop : P () :=
  _ ← modify (set_jobs (λ _, ∅));
  _ ← WorkerManager_Stop;
  modify (set_closed true).

(** [src/workers/jobs_manager.go:120-137] checkTimeouts: one pending job *)
Definition timeout_job (t : Time) (kj : uint64 * WorkerJob) : P () :=
  let '(key, job) := kj in
  if j_Expiration job <? t then
    _ ← warn (WorkerResult (j_Address job) false);
    _ ← send job;
    modify (set_jobs (delete key))
  else mret ().
(** [src/workers/jobs_manager.go:120-137] *)
Definition checkTimeouts : P () :=
  t ← time_Now;
  pending ← gets (λ p, map_to_list (jobs p));
  forM_ (timeout_job t) pending.

(** [src/workers/jobs_manager.go:141-159] *)
Definition IsWorkerAvailable (workerAddr : string) : P bool :=
  w ← GetWorker workerAddr;
  match w with
  | None => mret true
  | Some worker =>
      t ← time_Now;
      if IsBanned (Some rules) t worker then raise ErrWorkerBanned
      else
        pending ← gets (λ p, map_to_list (jobs p));
        if existsb (λ kj, bool_decide (j_Address kj.2 = w_Address worker)) pending
        then raise ErrWorkerBusy else mret true
  end.
(** [src/workers/jobs_manager.go:166-186] *)
Definition RegisterJob (workerAddr : string) (voteID : uint64) : P WorkerJob :=
  w ← GetWorker workerAddr;
  match w with
  | None => raise ErrWorkerNotFound
  | Some worker =>
      t ← time_Now;
      if IsBanned (Some rules) t worker then raise ErrWorkerBanned
      else
        let job := {| j_VoteID := voteID; j_Address := w_Address worker; j_Timestamp := t;
                      j_Expiration := t + JobTimeout |} in
        _ ← modify (set_jobs <[voteID := job]>); mret job
  end.
(** [src/workers/jobs_manager.go:190-201] *)
Definition Job (workerAddr : string) (voteID : uint64) : P WorkerJob :=
  job ← gets (λ p, jobs p !! voteID);
  match job with
  | None => raise ErrJobNotFound
  | Some job => if bool_decide (j_Address job ≠ workerAddr) then raise ErrWorkerJobMismatch
                else mret job
  end.
(** [src/workers/jobs_manager.go:210-227] *)
Definition CompleteJob (voteID : uint64) (success : bool) : P (option WorkerJob) :=
  job ← gets (λ p, jobs p !! voteID);
  match job with
  | None => mret None
  | Some job =>
      _ ← if success then mret () else send job;
      _ ← warn (WorkerResult (j_Address job) success);
      _ ← modify (set_jobs (delete voteID));
      mret (Some job)
  end.
End pool.

(** ** Steps of the pool, and frames *)

Section steps.
#[local] Existing Instances Committal_now Committal_quiet.
Context `{Env : StorageEnv} `{Conf : PoolConf} `{Addr : EthAddress}.

(** The calls that change a running pool; [PStorage] is any change of the storage
    by somebody else, the passing of time included. *)
Inductive pool_op :=
  | PAddWorker (address name : string) | PWorkerResult (address : string) (success : bool)
  | PBanTick | PCheckTimeouts | PRegisterJob (address : string) (v : uint64)
  | PCompleteJob (v : uint64) (success : bool) | PStorage (s : Storage).
Definition run_pool_op (p : Pool) (o : pool_op) : Pool :=
  match o with
  | PAddWorker a n => exec (AddWorker a n) p
  | PWorkerResult a b => exec (WorkerResult a b) p
  | PBanTick => exec ban_tick p
  | PCheckTimeouts => exec checkTimeouts p
  | PRegisterJob a v => exec (RegisterJob a v) p
  | PCompleteJob v b => exec (CompleteJob v b) p
  | PStorage s => set_stg s p
  end.
Definition run_pool_ops (os : list pool_op) (p : Pool) : Pool := foldl run_pool_op p os.

(** Every worker is stored under its address. *)
Definition pool_wf (p : Pool) : Prop := map_Forall (λ a w, w_Address w = a) (workers p).

Lemma moves_on_stg {A} (R : relation Pool) (m : M A) :
  (∀ p, R p (set_stg (exec m (stg p)) p)) → moves R (on_stg m).
Proof. intros H p. unfold on_stg. specialize (H p). unfold exec in H. by destruct (m (stg p)). Qed.

(** The count of a result in the storage: only worker statistics may change. *)
Definition worker_count (success : bool) (a : string) : M () :=
  if success then IncreaseWorkerJobCount a 1 else IncreaseWorkerFailedJobCount a 1.
Arguments worker_count : simpl never.
Lemma worker_count_moves R `{!PreOrder R} b a :
  (∀ k st, moves R (setArtifact (A:=WorkerStats) workerStatsPrefix k st)) → moves R (worker_count b a).
Proof.
  intros H. unfold worker_count, IncreaseWorkerJobCount, IncreaseWorkerFailedJobCount,
    getWorkerStatsUnsafe, setWorkerStatsUnsafe, getArtifact_or.
  pose proof (moves_getArtifact R (A:=WorkerStats)). destruct b; repeat first [progress moves | by auto].
Qed.
Lemma worker_count_touches b a : moves (touches (spaces [workerStatsPrefix])) (worker_count b a).
Proof. apply worker_count_moves; [apply _|]. intros k st. apply moves_setArtifact_touches. set_solver. Qed.
Lemma worker_count_committal R `{!Committal R} b a : moves R (worker_count b a).
Proof. apply worker_count_moves; [apply committal_pre|]. intros k st. by apply moves_setArtifact. Qed.

(** What [WorkerResult] does to the pool, whatever the storage answers. *)
Definition counted (success : bool) (w : Worker) : Worker :=
  set_consecutiveFails (λ n, if success then 0 else n + 1) w.
Lemma WorkerResult_eq a b p :
  ∃ r s, WorkerResult a b p =
    (r, set_stg s (set_workers <[a := counted b (default (new_worker a "") (workers p !! a))]> p)) ∧
    (r, s) = worker_count b a (stg p).
Proof.
  assert (H : ∀ (m : M ()) (p : Pool), ∃ r s, on_stg m p = (r, set_stg s p) ∧ (r, s) = m (stg p)).
  { intros m q. unfold on_stg. destruct (m (stg q)) as [r s]. eauto. }
  unfold WorkerResult, GetWorker, gets. run_simpl.
  destruct (workers p !! a) as [w|] eqn:Hw; cbn; destruct b;
    (edestruct H as (r & s & Hm & Hr); exists r, s; split; [etrans; [exact Hm|]|exact Hr]);
    unfold set_workers, set_stg, counted; cbn; do 2 f_equal; apply map_eq; intros i;
    destruct (decide (i = a)) as [->|Hi];
    rewrite ?lookup_alter_eq, ?lookup_insert_eq, ?lookup_alter_ne, ?lookup_insert_ne, ?Hw by done; done.
Qed.

(** ** Timeouts *)

(** The consecutive failures of [a], none for a worker that is not known. *)
Definition fails (p : Pool) (a : string) : Z := from_option consecutiveFails 0 (workers p !! a).
Definition expired (t : Time) (job : WorkerJob) : bool := j_Expiration job <? t.
(** The expired jobs of a list, and those of one worker. *)
Definition expired_in (t : Time) (l : list (uint64 * WorkerJob)) : list WorkerJob :=
  (List.filter (λ kj, expired t kj.2) l).*2.
Definition count_of (a : string) (l : list WorkerJob) : Z :=
  Z.of_nat (length (List.filter (λ j, bool_decide (j_Address j = a)) l)).

Lemma fails_counted b a a' p s :
  fails (set_stg s (set_workers <[a := counted b (default (new_worker a "") (workers p !! a))]> p)) a' =
  if decide (a' = a) then if b then 0 else fails p a + 1 else fails p a'.
Proof.
  unfold fails. cbn. destruct (decide (a' = a)) as [->|Hne].
  - rewrite lookup_insert_eq. cbn. destruct b; [done|]. by destruct (workers p !! a).
  - by rewrite lookup_insert_ne.
Qed.

Lemma timeout_job_eq t k j p :
  closed p = false →
  ∃ p', timeout_job t (k, j) p = (Ok (), p') ∧ closed p' = false ∧
    touches (spaces [workerStatsPrefix]) (stg p) (stg p') ∧ now (stg p') = now (stg p) ∧
    jobs p' = (if expired t j then delete k (jobs p) else jobs p) ∧
    FailedJobs p' = FailedJobs p ++ expired_in t [(k, j)] ∧
    ∀ a, fails p' a = fails p a + count_of a (expired_in t [(k, j)]).
Proof.
  intros Hc. unfold timeout_job, expired_in. cbn. fold (expired t j).
  destruct (expired t j) eqn:He; cbn; cycle 1.
  { exists p. rewrite app_nil_r. split_and!; try done. intros a. unfold count_of. cbn. lia. }
  destruct (WorkerResult_eq (j_Address j) false p) as (r & s & Hw & Hs).
  unfold warn, send, gets, modify. run_simpl. rewrite Hw. cbn. rewrite Hc. eexists. split; [done|].
  cbn. split_and!; try done.
  - pose proof (worker_count_touches false (j_Address j) (stg p)) as H. by rewrite <-Hs in H.
  - pose proof (worker_count_committal (same now) false (j_Address j) (stg p)) as H. by rewrite <-Hs in H.
  - intros a. pose proof (fails_counted false (j_Address j) a p s) as H. unfold fails in *. cbn in *.
    rewrite H. unfold count_of. cbn. destruct (decide (a = j_Address j)) as [->|Hne].
    + rewrite bool_decide_true by done. cbn. done.
    + rewrite bool_decide_false by done. cbn. lia.
Qed.

Lemma expired_in_cons t kj l : expired_in t (kj :: l) = expired_in t [kj] ++ expired_in t l.
Proof. unfold expired_in. cbn. by destruct (expired t kj.2). Qed.
Lemma count_of_app a l1 l2 : count_of a (l1 ++ l2) = count_of a l1 + count_of a l2.
Proof. unfold count_of. rewrite List.filter_app, length_app. lia. Qed.

Lemma timeout_loop t l p :
  closed p = false →
  ∃ p', forM_ (timeout_job t) l p = (Ok (), p') ∧ closed p' = false ∧
    touches (spaces [workerStatsPrefix]) (stg p) (stg p') ∧ now (stg p') = now (stg p) ∧
    jobs p' = foldr delete (jobs p) (reverse (List.filter (λ kj, expired t kj.2) l).*1) ∧
    FailedJobs p' = FailedJobs p ++ expired_in t l ∧
    ∀ a, fails p' a = fails p a + count_of a (expired_in t l).
Proof.
  revert p. induction l as [|[k j] l IH]; intros p Hc; cbn [forM_].
  { exists p. rewrite app_nil_r. split_and!; try done. intros a. unfold count_of. cbn. lia. }
  destruct (timeout_job_eq t k j p Hc) as (p1 & H1 & Hc1 & Ht1 & Hn1 & Hj1 & Hf1 & Ha1).
  destruct (IH p1 Hc1) as (p2 & H2 & Hc2 & Ht2 & Hn2 & Hj2 & Hf2 & Ha2).
  exists p2. rewrite (bind_Ok _ _ _ _ _ H1). split_and!; try done.
  - by etrans.
  - congruence.
  - rewrite Hj2, Hj1. simpl List.filter. destruct (expired t j); [|done].
    rewrite fmap_cons, reverse_cons, foldr_app. done.
  - rewrite expired_in_cons, Hf2, Hf1. by rewrite app_assoc.
  - intros a. rewrite expired_in_cons, count_of_app, Ha2, Ha1. lia.
Qed.
Lemma lookup_foldr_delete {A} (m : gmap uint64 A) ks k :
  foldr delete m ks !! k = if decide (k ∈ ks) then None else m !! k.
Proof.
  induction ks as [|k' ks IH]; cbn; [done|]. destruct (decide (k = k')) as [->|Hne].
  - rewrite lookup_delete_eq, decide_True; [done|set_solver].
  - rewrite lookup_delete_ne, IH by done. destruct (decide (k ∈ ks)).
    + rewrite decide_True; set_solver.
    + rewrite decide_False; set_solver.
Qed.

(** A timeout check of an open pool always finishes; it removes exactly the
    pending jobs past their expiration, hands each of them once to the monitor of
    failed jobs, and adds to every worker's consecutive failures the number of its
    jobs that expired; of the storage only worker statistics change. *)
Theorem checkTimeouts_spec p :
  closed p = false →
  let t := now (stg p) in
  ∃ p' l, checkTimeouts p = (Ok (), p') ∧
    (∀ v j, jobs p' !! v = Some j ↔ jobs p !! v = Some j ∧ t ≤ j_Expiration j) ∧
    FailedJobs p' = FailedJobs p ++ l ∧
    l ≡ₚ (map_to_list (filter (λ kj, j_Expiration kj.2 < t) (jobs p))).*2 ∧
    (∀ a, fails p' a = fails p a + count_of a l) ∧
    touches (spaces [workerStatsPrefix]) (stg p) (stg p').
Proof.
  intros Hc t. destruct (timeout_loop t (map_to_list (jobs p)) p Hc)
    as (p' & Hr & _ & Ht & _ & Hj & Hf & Ha).
  exists p', (expired_in t (map_to_list (jobs p))). split; [exact Hr|]. split_and!; try done.
  - intros v j. rewrite Hj, lookup_foldr_delete. destruct (decide _) as [Hin|Hin].
    + split; [done|]. intros [Hv Hle]. exfalso. rewrite elem_of_reverse in Hin.
      apply list_elem_of_fmap in Hin as ([v' j'] & -> & [Hin He]%list_elem_of_In%filter_In).
      apply list_elem_of_In, elem_of_map_to_list in Hin. cbn in *. unfold expired in He.
      assert (j' = j) as -> by congruence. lia.
    + split; [|by intros [??]]. intros Hv. split; [done|]. apply Z.nlt_ge. intros Hlt. apply Hin.
      apply elem_of_reverse, list_elem_of_fmap. exists (v, j). split; [done|].
      apply list_elem_of_In, filter_In. split; [by apply list_elem_of_In, elem_of_map_to_list|].
      by apply Z.ltb_lt.
  - unfold expired_in. apply fmap_Permutation, NoDup_Permutation.
    + apply NoDup_ListNoDup, List.NoDup_filter, NoDup_ListNoDup, NoDup_map_to_list.
    + apply NoDup_map_to_list.
    + intros [v j]. rewrite elem_of_map_to_list, map_lookup_filter_Some, list_elem_of_In, filter_In,
        <-list_elem_of_In, elem_of_map_to_list. unfold expired. cbn. by rewrite Z.ltb_lt.
Qed.

(** ** Bans *)

(** Worker [a] is banned until [T]. *)
Definition banned_until (a : string) (T : Time) (p : Pool) : Prop :=
  pool_wf p ∧ ∃ w, workers p !! a = Some w ∧ bannedUntilNanos w = T.
(** The clock stands still, and before [T] is over the ban stays. *)
Definition keeps_ban (a : string) (T : Time) : relation Pool := λ p p',
  now (stg p') = now (stg p) ∧
  (now (stg p) ≤ T → banned_until a T p → banned_until a T p').
#[local] Instance keeps_ban_preorder a T : PreOrder (keeps_ban a T).
Proof.
  split; [done|]. intros p q r [Hpq1 Hpq2] [Hqr1 Hqr2]. split; [congruence|].
  intros Hn Hb. apply Hqr2; [by rewrite Hpq1|auto].
Qed.

(** Storing a worker under its address, its ban unchanged. *)
Lemma banned_until_store a T a' w p :
  banned_until a T p → w_Address w = a' →
  (a' = a → bannedUntilNanos w = bannedUntilNanos (default w (workers p !! a))) →
  banned_until a T (set_workers <[a' := w]> p).
Proof.
  intros [Hwf (w0 & Hw0 & HT)] Hw Hb. split.
  - by apply map_Forall_insert_2.
  - cbn. destruct (decide (a' = a)) as [->|Hne].
    + rewrite lookup_insert_eq. eexists. split; [done|]. rewrite Hb, Hw0 by done. done.
    + rewrite lookup_insert_ne by done. eauto.
Qed.
Lemma banned_until_worker a T p a' w :
  banned_until a T p → workers p !! a' = Some w → w_Address w = a'.
Proof. intros [Hwf _] Hw. exact (Hwf _ _ Hw). Qed.
Lemma moves_ban_modify a T f :
  (∀ p, now (stg (f p)) = now (stg p)) → (∀ p, workers (f p) = workers p) →
  moves (keeps_ban a T) (modify f).
Proof.
  intros Hn Hw. apply moves_modify. intros p. split; [apply Hn|]. intros _ [Hwf Hb].
  unfold banned_until, pool_wf. by rewrite Hw.
Qed.
Lemma keeps_ban_AddWorker a T a' n : moves (keeps_ban a T) (AddWorker a' n).
Proof.
  intros p. unfold AddWorker, GetWorker, gets. run_simpl.
  destruct (workers p !! a') as [w|] eqn:Hw; cbn.
  - destruct (_ && _); [|done]. split; [done|]. intros _ Hb. apply banned_until_store; [done| |].
    + exact (banned_until_worker _ _ _ _ _ Hb Hw).
    + intros ->. by rewrite Hw.
  - split; [done|]. intros _ Hb. apply banned_until_store; [done..|]. intros ->. by rewrite Hw.
Qed.
Lemma keeps_ban_WorkerResult a T a' b : moves (keeps_ban a T) (WorkerResult a' b).
Proof.
  intros p. destruct (WorkerResult_eq a' b p) as (r & s & -> & Hs). split.
  - pose proof (worker_count_committal (same now) b a' (stg p)) as H. by rewrite <-Hs in H.
  - intros _ Hb. destruct (banned_until_store a T a'
      (counted b (default (new_worker a' "") (workers p !! a'))) p) as [H1 H2]; [done| | |by split].
    + destruct (workers p !! a') eqn:Hw; [|done]. exact (banned_until_worker _ _ _ _ _ Hb Hw).
    + intros ->. by destruct (workers p !! a).
Qed.
#[local] Hint Resolve keeps_ban_WorkerResult keeps_ban_AddWorker : moves.
Lemma keeps_ban_send a T j : moves (keeps_ban a T) (send j).
Proof. unfold send. repeat first [progress moves | by apply moves_ban_modify]. Qed.
#[local] Hint Resolve keeps_ban_send : moves.
Lemma keeps_ban_checkTimeouts a T : moves (keeps_ban a T) checkTimeouts.
Proof.
  unfold checkTimeouts, timeout_job, time_Now.
  repeat first [progress moves | by apply moves_ban_modify].
Qed.
Lemma keeps_ban_RegisterJob a T a' v : moves (keeps_ban a T) (RegisterJob a' v).
Proof.
  unfold RegisterJob, GetWorker, time_Now. repeat first [progress moves | by apply moves_ban_modify].
Qed.
Lemma keeps_ban_CompleteJob a T v b : moves (keeps_ban a T) (CompleteJob v b).
Proof. unfold CompleteJob. repeat first [progress moves | by apply moves_ban_modify]. Qed.

(** One banned worker in a tick, as it was when the tick began. *)
Lemma keeps_ban_step a T w :
  0 < T → (w_Address w = a → bannedUntilNanos w = T) → moves (keeps_ban a T) (ban_step w).
Proof.
  intros HT Hw p. unfold ban_step, SetBanDuration, ResetWorker, GetWorker, time_Now, gets. run_simpl.
  assert (Ha : w_Address w = a → GetBannedUntil w = T ∧ GetBannedUntil w ≠ zeroTime).
  { intros H. unfold GetBannedUntil. rewrite (Hw H), (proj2 (Z.eqb_neq _ _)) by lia.
    split; [done|]. unfold zeroTime, second. lia. }
  case_bool_decide as Hz.
  - cbn. destruct (workers p !! w_Address w) as [w'|] eqn:Hw'; [|done]. cbn.
    split; [done|]. intros _ Hb. apply banned_until_store; [done| |].
    + exact (banned_until_worker _ _ _ _ _ Hb Hw').
    + intros H. by destruct (Ha H).
  - cbn. destruct (Z.ltb_spec (GetBannedUntil w) (now (stg p))) as [Hlt|]; [|done].
    cbn. destruct (workers p !! w_Address w) as [w'|] eqn:Hw'; [|done]. split; [done|].
    intros Hn Hb. apply banned_until_store; [done..|]. intros H. destruct (Ha H). lia.
Qed.
Lemma keeps_ban_tick a T p : 0 < T → banned_until a T p → keeps_ban a T p (exec ban_tick p).
Proof.
  intros HT [Hwf (w & Hw & HwT)]. unfold exec, ban_tick, BannedWorkers, gets. run_simpl. to_moves.
  apply moves_forM_; [apply _|]. intros w' [Hin _]%list_elem_of_In%filter_In.
  apply keeps_ban_step; [done|]. intros Ha.
  apply list_elem_of_In, list_elem_of_fmap in Hin as ([a' w''] & -> & Hin%elem_of_map_to_list). cbn in *.
  pose proof (Hwf _ _ Hin) as Heq. cbn in Heq. congruence.
Qed.

(** What a tick at time [t] does to a banned worker. *)
Definition ticked (t : Time) (w : Worker) : Worker :=
  if bool_decide (GetBannedUntil w = zeroTime) then SetBannedUntil (t + BanTimeout rules) w
  else if GetBannedUntil w <? t then new_worker (w_Address w) "" else w.
Lemma ban_step_eq w p :
  workers p !! w_Address w = Some w →
  ∃ p', ban_step w p = (Ok (), p') ∧ stg p' = stg p ∧
    workers p' = <[w_Address w := ticked (now (stg p)) w]> (workers p).
Proof.
  intros Hw. unfold ban_step, ticked, SetBanDuration, ResetWorker, GetWorker, time_Now, gets. run_simpl.
  case_bool_decide; [|destruct (_ <? _)]; cbn; rewrite ?Hw; cbn; eexists; split_and!; try done.
  cbn. by rewrite insert_id.
Qed.
Lemma ban_loop_at l p a w :
  (∀ w', w' ∈ l → workers p !! w_Address w' = Some w') → NoDup (w_Address <$> l) →
  w ∈ l → w_Address w = a →
  workers (forM_ ban_step l p).2 !! a = Some (ticked (now (stg p)) w).
Proof.
  intros Hl Hnd Hw Ha. revert p Hl Hnd Hw. induction l as [|x l IH]; intros p Hl Hnd Hw; [set_solver|].
  destruct (ban_step_eq x p) as (p' & Hp' & Hs & Hws); [set_solver|]. cbn [forM_].
  rewrite (bind_Ok _ _ _ _ _ Hp'). apply NoDup_cons in Hnd as [Hx Hnd].
  assert (Hl' : ∀ w', w' ∈ l → workers p' !! w_Address w' = Some w').
  { intros w' Hw'. rewrite Hws, lookup_insert_ne; [set_solver|]. intros Heq. apply Hx. rewrite Heq.
    by apply list_elem_of_fmap_2. }
  apply elem_of_cons in Hw as [->|Hw]; [|rewrite <-Hs; by apply IH].
  clear IH. rewrite <-Hs. assert (H : ∀ p, workers p !! a = Some (ticked (now (stg p')) x) →
    (∀ w', w' ∈ l → workers p !! w_Address w' = Some w') → a ∉ w_Address <$> l →
    workers (forM_ ban_step l p).2 !! a = Some (ticked (now (stg p')) x)).
  { clear -Hnd. intros p Hp Hl Hx. revert p Hp Hl. induction l as [|y l IH]; intros p Hp Hl; [done|].
    destruct (ban_step_eq y p) as (p2 & Hp2 & _ & Hws); [set_solver|]. cbn [forM_].
    rewrite (bind_Ok _ _ _ _ _ Hp2). apply NoDup_cons in Hnd as [Hy Hnd]. rewrite fmap_cons in Hx.
    apply IH; [done|set_solver| |].
    - rewrite Hws, lookup_insert_ne; [done|set_solver].
    - intros w' Hw'. rewrite Hws, lookup_insert_ne; [set_solver|]. intros Heq. apply Hy. rewrite Heq.
      by apply list_elem_of_fmap_2. }
  apply H; [|done|by rewrite <-Ha]. by rewrite Hws, <-Ha, lookup_insert_eq, Hs.
Qed.
Lemma NoDup_fmap_filter {A B} (f : A → B) (P : A → bool) l :
  NoDup (f <$> l) → NoDup (f <$> List.filter P l).
Proof.
  induction l as [|x l IH]; [done|]. rewrite fmap_cons, NoDup_cons. intros [Hx Hl]. cbn.
  destruct (P x); [|auto]. rewrite fmap_cons. apply NoDup_cons. split; [|auto]. intros Hin. apply Hx.
  apply list_elem_of_fmap in Hin as (y & -> & [Hy _]%list_elem_of_In%filter_In).
  by apply list_elem_of_fmap_2, list_elem_of_In.
Qed.
(** A tick in a well-formed pool sees every banned worker once. *)
Lemma ban_tick_at p a w :
  pool_wf p → workers p !! a = Some w → IsBanned (Some rules) (now (stg p)) w = true →
  workers (exec ban_tick p) !! a = Some (ticked (now (stg p)) w).
Proof.
  intros Hwf Hw Hb. unfold exec, ban_tick, BannedWorkers, gets. run_simpl.
  assert (Hin : ∀ w', w' ∈ (map_to_list (workers p)).*2 → workers p !! w_Address w' = Some w').
  { intros w' ([a' w''] & -> & H%elem_of_map_to_list)%list_elem_of_fmap. cbn in *. by rewrite (Hwf _ _ H). }
  apply ban_loop_at.
  - intros w' [H _]%list_elem_of_In%filter_In. apply Hin. by apply list_elem_of_In.
  - assert (Hnd : NoDup (w_Address <$> (map_to_list (workers p)).*2)).
    { rewrite <-list_fmap_compose. replace (_ <$> map_to_list (workers p)) with (map_to_list (workers p)).*1;
        [apply NoDup_fst_map_to_list|]. apply list_fmap_ext. intros i [a' w'] Hi. cbn. symmetry.
      apply (Hwf a' w'). apply elem_of_map_to_list. by apply list_elem_of_lookup_2 in Hi. }
    by apply NoDup_fmap_filter.
  - apply list_elem_of_In, filter_In. split; [|done]. apply list_elem_of_In, list_elem_of_fmap.
    exists (a, w). split; [done|]. by apply elem_of_map_to_list.
  - exact (Hwf _ _ Hw).
Qed.

Definition keeps_wf : relation Pool := λ p p', stg p' = stg p ∧ (pool_wf p → pool_wf p').
#[local] Instance keeps_wf_preorder : PreOrder keeps_wf.
Proof. split; [done|]. intros p q r [? ?] [? ?]. split; [congruence|auto]. Qed.
Lemma keeps_wf_tick : moves keeps_wf ban_tick.
Proof.
  unfold ban_tick, BannedWorkers, ban_step, time_Now.
  assert (H : ∀ a, moves keeps_wf (ResetWorker a) ∧ moves keeps_wf (SetBanDuration a)).
  { intros a. split; intros p; unfold ResetWorker, SetBanDuration, GetWorker, time_Now, gets; run_simpl;
      destruct (workers p !! a) as [w|] eqn:Hw; try done; (split; [done|]); intros Hwf;
      apply map_Forall_insert_2; try done. exact (Hwf _ _ Hw). }
  repeat first [progress moves | apply H].
Qed.
(** The step leaves the clock before [T]. *)
Definition before (T : Time) (o : pool_op) : Prop :=
  match o with PStorage s => now s < T | _ => True end.
Lemma run_pool_op_ban a T o p :
  0 < T → before T o → now (stg p) < T → banned_until a T p →
  now (stg (run_pool_op p o)) < T ∧ banned_until a T (run_pool_op p o).
Proof.
  intros HT Ho Hn Hb.
  assert (Hk : keeps_ban a T p (run_pool_op p o) →
    now (stg (run_pool_op p o)) < T ∧ banned_until a T (run_pool_op p o)).
  { intros [H1 H2]. split; [by rewrite H1|apply H2; [lia|done]]. }
  destruct o; cbn in *; [apply Hk..|done].
  - apply keeps_ban_AddWorker.
  - apply keeps_ban_WorkerResult.
  - by apply keeps_ban_tick.
  - apply keeps_ban_checkTimeouts.
  - apply keeps_ban_RegisterJob.
  - apply keeps_ban_CompleteJob.
Qed.
Lemma run_pool_ops_ban a T os p :
  0 < T → Forall (before T) os → now (stg p) < T → banned_until a T p →
  now (stg (run_pool_ops os p)) < T ∧ banned_until a T (run_pool_ops os p).
Proof.
  intros HT Hos. revert p. induction Hos as [|o os Ho _ IH]; intros p Hn Hb; [done|]. cbn.
  destruct (run_pool_op_ban a T o p HT Ho Hn Hb). by apply IH.
Qed.

(** A worker with too many failures in a row that the tick finds is out for
    [BanTimeout]: until that time is over, whatever is called in between (results,
    successes included, further ticks, timeouts, registrations), it is told that it
    is banned and gets no job; and the first tick after that time forgets its
    failures if there are still too many. *)
Theorem ban_lasts p a w os :
  pool_wf p → workers p !! a = Some w → bannedUntilNanos w = 0 →
  FailuresToGetBanned rules < consecutiveFails w →
  0 ≤ now (stg p) → 0 < BanTimeout rules →
  let T := now (stg p) + BanTimeout rules in
  Forall (before T) os →
  let p' := run_pool_ops os (exec ban_tick p) in
  IsWorkerAvailable a p' = (Err ErrWorkerBanned, p') ∧
  (∀ v, RegisterJob a v p' = (Err ErrWorkerBanned, p')) ∧
  ∀ s, T < now s → (∀ w', workers p' !! a = Some w' → FailuresToGetBanned rules < consecutiveFails w') →
    workers (exec ban_tick (set_stg s p')) !! a = Some (new_worker a "").
Proof.
  intros Hwf Hw Hz Hf Hn HB T Hos p'.
  destruct (keeps_wf_tick p) as [Hs1 Hwf1]. fold (exec ban_tick p) in Hs1, Hwf1.
  assert (Hz1 : bool_decide (GetBannedUntil w = zeroTime) = true).
  { apply bool_decide_eq_true. unfold GetBannedUntil. by rewrite Hz. }
  assert (HT : T ≠ zeroTime) by (unfold zeroTime, second; lia).
  destruct (run_pool_ops_ban a T os (exec ban_tick p)) as [Hn' [Hwf' (w' & Hw' & HT')]];
    [lia|done|rewrite Hs1; lia| |].
  { split; [auto|]. eexists. split; [apply ban_tick_at; [done..|]|].
    - unfold IsBanned. by rewrite (proj2 (Z.ltb_lt _ _) Hf).
    - unfold ticked. rewrite Hz1. cbn. by rewrite bool_decide_false. }
  fold p' in Hn', Hwf', Hw'. assert (Hban : IsBanned (Some rules) (now (stg p')) w' = true).
  { unfold IsBanned. destruct (_ <? _); [done|]. rewrite HT', (proj2 (Z.eqb_neq _ _)) by lia.
    by apply Z.ltb_lt. }
  split_and!.
  - unfold IsWorkerAvailable, GetWorker, time_Now, gets. run_simpl. by rewrite Hw', Hban.
  - intros v. unfold RegisterJob, GetWorker, time_Now, gets. run_simpl. by rewrite Hw', Hban.
  - intros s Hlt Hover. specialize (Hover w' Hw').
    rewrite (ban_tick_at (set_stg s p') a w'); [|exact Hwf'|exact Hw'|].
    + unfold ticked, GetBannedUntil. rewrite HT', (proj2 (Z.eqb_neq _ _)) by lia.
      rewrite bool_decide_false by done. cbn. rewrite (proj2 (Z.ltb_lt _ _) Hlt).
      by rewrite (Hwf' _ _ Hw').
    + unfold IsBanned. by rewrite (proj2 (Z.ltb_lt _ _) Hover).
Qed.
End steps.

(** ** Concrete addresses and a concrete pool *)

Module ConcreteAddr.
(** The text of an address is "0x" and its upper-case hexadecimal digits (the real
    one mixes cases by a hash); reading accepts both cases. *)
Definition upper_digit (n : Z) : ascii := if n <? 10 then byte_of_Z (48 + n) else byte_of_Z (55 + n).
Definition digit_of (c : ascii) : option Z :=
  let n := byte_to_Z c in
  if (48 <=? n) && (n <=? 57) then Some (n - 48)
  else if (65 <=? n) && (n <=? 70) then Some (n - 55)
  else if (97 <=? n) && (n <=? 102) then Some (n - 87) else None.
Fixpoint upper_hex (l : bytes) : string :=
  match l with
  | [] => EmptyString
  | b :: l => String (upper_digit (byte_to_Z b / 16)) (String (upper_digit (byte_to_Z b mod 16)) (upper_hex l))
  end.
Fixpoint read_hex (s : string) : bytes :=
  match s with
  | String c (String d s) =>
      match digit_of c, digit_of d with
      | Some x, Some y => byte_of_Z (16 * x + y) :: read_hex s
      | _, _ => []
      end
  | _ => []
  end.
Definition strip_0x (s : string) : string :=
  match s with String "0"%char (String "x"%char s) => s | _ => s end.
Definition to_address (s : string) : bytes := fit 20 (read_hex (strip_0x s)).
Definition to_text (a : bytes) : string := String.append "0x" (upper_hex a).
Lemma read_upper l : read_hex (upper_hex l) = l.
Proof.
  induction l as [|b l IH]; [done|]. cbn [upper_hex read_hex].
  assert (H : ∀ b, match digit_of (upper_digit (byte_to_Z b / 16)), digit_of (upper_digit (byte_to_Z b mod 16)) with
    | Some x, Some y => byte_of_Z (16 * x + y) = b | _, _ => False end).
  { clear. intros [[] [] [] [] [] [] [] []]; vm_compute; reflexivity. }
  specialize (H b). do 2 (destruct (digit_of _); [|done]). by rewrite H, IH.
Qed.
Lemma to_address_text a : length a = 20%nat → to_address (to_text a) = a.
Proof.
  intros Ha. unfold to_address. change (strip_0x (to_text a)) with (upper_hex a). rewrite read_upper. unfold fit. rewrite <-Ha.
  apply take_app_length.
Qed.
#[export] Instance addr : EthAddress := {|
  IsHexAddress s := (length (read_hex (strip_0x s)) =? 20)%nat;
  HexToAddress := to_address; Hex := to_text;
  length_HexToAddress s := length_fit 20 _; HexToAddress_Hex := to_address_text |}.
#[export] Instance conf : PoolConf := {| conf_rules := None; JobTimeout := 60 * second |}.
End ConcreteAddr.

Import Concrete.
Definition alice : string := ConcreteAddr.to_text (replicate 20 (byte_of_Z 171)).
Definition bob : string := ConcreteAddr.to_text (replicate 20 (byte_of_Z 188)).
Definition empty_storage (t : Time) : Storage := MkStorage ∅ ∅ ∅ ∅ t [].
(** Alice has failed four times in a row; her job and Bob's are pending, and only
    hers is late. *)
Definition late_pool : Pool :=
  MkPool {[ alice := {| w_Address := alice; w_Name := ""; consecutiveFails := 4; bannedUntilNanos := 0 |};
            bob := new_worker bob "bob" ]}
    {[ vote 1 := {| j_VoteID := vote 1; j_Address := alice; j_Timestamp := 0; j_Expiration := 60 * second |};
       vote 2 := {| j_VoteID := vote 2; j_Address := bob; j_Timestamp := 0; j_Expiration := 90 * second |} ]}
    [] false (empty_storage (70 * second)).
Section pool_witnesses.
#[local] Existing Instances env_mem ConcreteAddr.addr ConcreteAddr.conf.
Lemma checkTimeouts_spec_witness :
  closed late_pool = false ∧ jobs (exec checkTimeouts late_pool) !! vote 1 = None ∧
  ∃ p' l, checkTimeouts late_pool = (Ok (), p') ∧ FailedJobs p' = l ∧ fails p' alice = 4 + count_of alice l.
Proof.
  split; [done|]. split; [by vm_compute|].
  destruct (checkTimeouts_spec late_pool eq_refl) as (p' & l & H1 & _ & H2 & _ & H3 & _).
  exists p', l. split; [exact H1|]. split; [exact H2|]. exact (H3 alice).
Defined.
Definition busy_ops : list pool_op :=
  [PWorkerResult alice true; PBanTick; PCheckTimeouts; PStorage (empty_storage (600 * second)); PBanTick].
Lemma ban_lasts_witness :
  (IsWorkerAvailable alice (run_pool_ops busy_ops (exec ban_tick late_pool))).1 = Err ErrWorkerBanned.
Proof.
  destruct (ban_lasts late_pool alice
    {| w_Address := alice; w_Name := ""; consecutiveFails := 4; bannedUntilNanos := 0 |} busy_ops)
    as [H _]; [|done|done|done|done|done| |by rewrite H].
  - apply map_Forall_insert_2; [done|]. by apply map_Forall_singleton.
  - repeat constructor.
Defined.
End pool_witnesses.
