(* ===== verification/Curve.v ===== *)
(** * Curve points

    [src/crypto/ecc/curve.go]: the interface of elliptic curve points on which the
    encryption of ballots rests. Its implementations wrap gnark-crypto and iden3, so
    the operations are parameters with the laws of a commutative group, in which the
    generator has prime order; points off the generator's subgroup are allowed. The
    receivers that the methods write are results here. Then the arithmetic of
    scalars that the clients share, and a small concrete group. *)

From S2P Require Import Prelude Bytes.
From Stdlib Require Import Znumtheory.

(** [src/crypto/ecc/curve.go:13-91] Point *)
Class Curve := {
  point : Type;
  point_eq_dec :: EqDecision point;
  Order : Z;
  PZero : point;
  Generator : point;
  PAdd : point → point → point;
  PNeg : point → point;
  ScalarMult : point → Z → point;
  Marshal : point → bytes;
  coords : point → Z * Z;
  SetPoint : Z * Z → point;
  PAdd_assoc a b c : PAdd a (PAdd b c) = PAdd (PAdd a b) c;
  PAdd_comm a b : PAdd a b = PAdd b a;
  PAdd_0_l a : PAdd PZero a = a;
  PAdd_neg_r a : PAdd a (PNeg a) = PZero;
  ScalarMult_0 a : ScalarMult a 0 = PZero;
  ScalarMult_succ a n : ScalarMult a (n + 1) = PAdd (ScalarMult a n) a;
  Order_prime : prime Order;
  Generator_order n : ScalarMult Generator n = PZero ↔ (Order | n);
  Marshal_inj :: Inj (=) (=) Marshal;
  SetPoint_coords a : SetPoint (coords a) = a
}.

Section curve.
Context `{Curve}.
Implicit Types (a b c : point) (n m : Z).

Definition ScalarBaseMult (n : Z) : point := ScalarMult Generator n.

Lemma PAdd_0_r a : PAdd a PZero = a.
Proof. by rewrite PAdd_comm, PAdd_0_l. Qed.
Lemma PAdd_neg_l a : PAdd (PNeg a) a = PZero.
Proof. by rewrite PAdd_comm, PAdd_neg_r. Qed.
Lemma PAdd_cancel_r a b c : PAdd a c = PAdd b c → a = b.
Proof.
  intros Heq. apply (f_equal (λ x, PAdd x (PNeg c))) in Heq.
  by rewrite <-!PAdd_assoc, PAdd_neg_r, !PAdd_0_r in Heq.
Qed.
Lemma PAdd_cancel_l a b c : PAdd c a = PAdd c b → a = b.
Proof. rewrite !(PAdd_comm c). apply PAdd_cancel_r. Qed.
Lemma PAdd_swap a b c d : PAdd (PAdd a b) (PAdd c d) = PAdd (PAdd a c) (PAdd b d).
Proof. rewrite <-!PAdd_assoc. f_equal. by rewrite !PAdd_assoc, (PAdd_comm b). Qed.
Lemma PNeg_unique a b : PAdd a b = PZero → b = PNeg a.
Proof. intros Hab. apply (PAdd_cancel_l _ _ a). by rewrite Hab, PAdd_neg_r. Qed.
Lemma PNeg_PAdd a b : PNeg (PAdd a b) = PAdd (PNeg a) (PNeg b).
Proof. symmetry. apply PNeg_unique. by rewrite PAdd_swap, !PAdd_neg_r, PAdd_0_l. Qed.
Lemma PNeg_PNeg a : PNeg (PNeg a) = a.
Proof. symmetry. apply PNeg_unique, PAdd_neg_l. Qed.
Lemma PNeg_0 : PNeg PZero = PZero.
Proof. symmetry. apply PNeg_unique, PAdd_0_l. Qed.
(** Moving a summand to the other side. *)
Lemma PAdd_move a b c : PAdd a b = c → a = PAdd c (PNeg b).
Proof. intros <-. by rewrite <-PAdd_assoc, PAdd_neg_r, PAdd_0_r. Qed.
Lemma PAdd_sub a b : PAdd (PAdd a b) (PNeg b) = a.
Proof. by rewrite <-PAdd_assoc, PAdd_neg_r, PAdd_0_r. Qed.

(** ** Scalars act on points *)

Lemma smul_pred a n : ScalarMult a (n - 1) = PAdd (ScalarMult a n) (PNeg a).
Proof. apply PAdd_move. rewrite <-ScalarMult_succ. f_equal. lia. Qed.
Lemma smul_add a n m : ScalarMult a (n + m) = PAdd (ScalarMult a n) (ScalarMult a m).
Proof.
  revert m. apply Z.peano_ind.
  - by rewrite Z.add_0_r, ScalarMult_0, PAdd_0_r.
  - intros m IH. replace (n + Z.succ m) with ((n + m) + 1) by lia.
    replace (Z.succ m) with (m + 1) by lia. by rewrite !ScalarMult_succ, IH, PAdd_assoc.
  - intros m IH. replace (n + Z.pred m) with ((n + m) - 1) by lia.
    replace (Z.pred m) with (m - 1) by lia. by rewrite !smul_pred, IH, PAdd_assoc.
Qed.
Lemma smul_opp a n : ScalarMult a (- n) = PNeg (ScalarMult a n).
Proof. apply PNeg_unique. rewrite <-smul_add, Z.add_opp_diag_r. apply ScalarMult_0. Qed.
Lemma smul_sub a n m : ScalarMult a (n - m) = PAdd (ScalarMult a n) (PNeg (ScalarMult a m)).
Proof. by rewrite <-Z.add_opp_r, smul_add, smul_opp. Qed.
Lemma smul_1 a : ScalarMult a 1 = a.
Proof. replace 1 with (0 + 1) by lia. by rewrite ScalarMult_succ, ScalarMult_0, PAdd_0_l. Qed.
Lemma smul_mul a n m : ScalarMult (ScalarMult a n) m = ScalarMult a (n * m).
Proof.
  revert m. apply Z.peano_ind.
  - by rewrite Z.mul_0_r, !ScalarMult_0.
  - intros m IH. replace (Z.succ m) with (m + 1) by lia.
    rewrite ScalarMult_succ, IH, <-smul_add. f_equal. lia.
  - intros m IH. replace (Z.pred m) with (m - 1) by lia.
    rewrite smul_pred, IH, <-smul_sub. f_equal. lia.
Qed.
Lemma smul_PAdd a b n : ScalarMult (PAdd a b) n = PAdd (ScalarMult a n) (ScalarMult b n).
Proof.
  revert n. apply Z.peano_ind.
  - by rewrite !ScalarMult_0, PAdd_0_l.
  - intros n IH. replace (Z.succ n) with (n + 1) by lia. by rewrite !ScalarMult_succ, IH, PAdd_swap.
  - intros n IH. replace (Z.pred n) with (n - 1) by lia.
    by rewrite !smul_pred, IH, PNeg_PAdd, PAdd_swap.
Qed.
Lemma smul_PZero n : ScalarMult PZero n = PZero.
Proof. by rewrite <-(ScalarMult_0 PZero), smul_mul, Z.mul_0_l. Qed.
Lemma smul_PNeg a n : ScalarMult (PNeg a) n = PNeg (ScalarMult a n).
Proof. apply PNeg_unique. by rewrite <-smul_PAdd, PAdd_neg_r, smul_PZero. Qed.
Lemma smul_comm a n m : ScalarMult (ScalarMult a n) m = ScalarMult (ScalarMult a m) n.
Proof. by rewrite !smul_mul, Z.mul_comm. Qed.

(** ** The generator's subgroup *)

(** The points of the subgroup are killed by the order. *)
Definition in_subgroup (a : point) : Prop := ScalarMult a Order = PZero.

Lemma Order_pos : 1 < Order.
Proof. pose proof (prime_ge_2 _ Order_prime). lia. Qed.
Lemma smul_mod_eq a n m : in_subgroup a → n mod Order = m mod Order → ScalarMult a n = ScalarMult a m.
Proof.
  intros Ha Hnm. pose proof Order_pos as HO.
  assert (Hr : ∀ n, ScalarMult a n = ScalarMult a (n mod Order)).
  { intros k. rewrite (Z.div_mod k Order) at 1 by lia.
    by rewrite smul_add, <-smul_mul, Ha, smul_PZero, PAdd_0_l. }
  by rewrite (Hr n), (Hr m), Hnm.
Qed.
Lemma smul_mod a n : in_subgroup a → ScalarMult a (n mod Order) = ScalarMult a n.
Proof. intros Ha. apply smul_mod_eq; [done|]. pose proof Order_pos. apply Z.mod_mod. lia. Qed.
Lemma in_subgroup_Generator : in_subgroup Generator.
Proof. by apply Generator_order. Qed.
Lemma in_subgroup_smul a n : in_subgroup a → in_subgroup (ScalarMult a n).
Proof. unfold in_subgroup. intros Ha. by rewrite smul_comm, Ha, smul_PZero. Qed.
Lemma in_subgroup_PAdd a b : in_subgroup a → in_subgroup b → in_subgroup (PAdd a b).
Proof. unfold in_subgroup. intros Ha Hb. by rewrite smul_PAdd, Ha, Hb, PAdd_0_l. Qed.
Lemma in_subgroup_PNeg a : in_subgroup a → in_subgroup (PNeg a).
Proof. unfold in_subgroup. intros Ha. by rewrite smul_PNeg, Ha, PNeg_0. Qed.
Lemma in_subgroup_PZero : in_subgroup PZero.
Proof. apply smul_PZero. Qed.
Lemma base_eq n m : ScalarBaseMult n = ScalarBaseMult m ↔ n mod Order = m mod Order.
Proof.
  pose proof Order_pos as HO. split; [|apply smul_mod_eq, in_subgroup_Generator].
  unfold ScalarBaseMult. intros Heq. assert (Hz : ScalarMult Generator (n - m) = PZero).
  { by rewrite smul_sub, Heq, PAdd_neg_r. }
  apply Generator_order in Hz as [k Hk]. replace n with (m + k * Order) by lia.
  apply Z.mod_add. lia.
Qed.
Lemma base_inj n m : 0 ≤ n < Order → 0 ≤ m < Order → ScalarBaseMult n = ScalarBaseMult m → n = m.
Proof. intros Hn Hm Heq%base_eq. by rewrite !Z.mod_small in Heq. Qed.
End curve.

#[export] Hint Resolve in_subgroup_Generator in_subgroup_smul in_subgroup_PAdd in_subgroup_PNeg
  in_subgroup_PZero : subgroup.
(** Sums of points, commutative and without zeros. *)
Create HintDb points discriminated.
#[export] Hint Rewrite @PAdd_0_l @PAdd_0_r @PAdd_neg_l @PAdd_neg_r @PNeg_PNeg @PNeg_0 @ScalarMult_0
  @smul_PZero @smul_1 : points.

(** ** The integers modulo 101 *)

Module Concrete101.
Definition q : Z := 101.
Record Zq := MkZq { zq : Z; zq_ok : ((0 <=? zq) && (zq <? q)) = true }.
Lemma zq_eq (a b : Zq) : zq a = zq b → a = b.
Proof. destruct a, b; cbn; intros ->. f_equal. apply Eqdep_dec.UIP_dec, bool_dec. Qed.
Lemma mod_ok z : ((0 <=? z mod q) && (z mod q <? q)) = true.
Proof. pose proof (Z.mod_pos_bound z q ltac:(done)). apply andb_true_intro. split; [apply Z.leb_le|apply Z.ltb_lt]; lia. Qed.
Definition of_Z (z : Z) : Zq := MkZq (z mod q) (mod_ok z).
Lemma zq_range (a : Zq) : 0 ≤ zq a < q.
Proof. pose proof (zq_ok a) as Hz. apply andb_prop in Hz as [H1%Z.leb_le H2%Z.ltb_lt]. done. Qed.
Lemma of_Z_zq a : of_Z (zq a) = a.
Proof. apply zq_eq. cbn. apply Z.mod_small, zq_range. Qed.
#[export] Instance Zq_eq_dec : EqDecision Zq.
Proof.
  intros a b. destruct (decide (zq a = zq b)); [left; by apply zq_eq|right; congruence].
Defined.
Lemma of_Z_mod_l a b : of_Z (zq (of_Z a) + b) = of_Z (a + b).
Proof. apply zq_eq. cbn. by rewrite Z.add_mod_idemp_l. Qed.
Lemma of_Z_mod_r a b : of_Z (a + zq (of_Z b)) = of_Z (a + b).
Proof. apply zq_eq. cbn. by rewrite Z.add_mod_idemp_r. Qed.
Lemma prime_q : prime q.
Proof.
  apply prime_intro; [done|]. intros n Hn. apply Zgcd_1_rel_prime.
  assert (Hall : forallb (λ n, Z.gcd n q =? 1) (seqZ 1 100) = true) by by vm_compute.
  rewrite forallb_forall in Hall. apply Z.eqb_eq, Hall, list_elem_of_In, elem_of_seqZ. unfold q in Hn. lia.
Qed.
#[export] Program Instance curve : Curve := {|
  point := Zq; Order := q; PZero := of_Z 0; Generator := of_Z 1;
  PAdd a b := of_Z (zq a + zq b); PNeg a := of_Z (- zq a);
  ScalarMult a n := of_Z (zq a * n); Marshal a := [byte_of_Z (zq a)];
  coords a := (zq a, 1); SetPoint xy := of_Z xy.1;
  Order_prime := prime_q |}.
Next Obligation. intros a b c. cbv beta. by rewrite of_Z_mod_r, of_Z_mod_l, Z.add_assoc. Qed.
Next Obligation. intros a b. cbv beta. by rewrite Z.add_comm. Qed.
Next Obligation. intros a. cbn. apply of_Z_zq. Qed.
Next Obligation. intros a. cbv beta. by rewrite of_Z_mod_r, Z.add_opp_diag_r. Qed.
Next Obligation. intros a. cbv beta. by rewrite Z.mul_0_r. Qed.
Next Obligation. intros a n. cbv beta. rewrite of_Z_mod_l. f_equal. lia. Qed.
Next Obligation.
  intros n. cbv beta. change (zq (of_Z 1)) with 1. assert (H1 : 1 * n = n) by lia. rewrite H1. split.
  - intros Hz%(f_equal zq). cbn in Hz. by apply Z.mod_divide.
  - intros Hd. apply zq_eq. cbn. by apply Z.mod_divide in Hd.
Qed.
Next Obligation.
  intros a b [= Heq]. apply zq_eq. apply (f_equal byte_to_Z) in Heq.
  pose proof (zq_range a). pose proof (zq_range b). unfold q in *. by rewrite !byte_to_of_Z, !Z.mod_small in Heq by lia.
Qed.
Next Obligation. intros a. apply of_Z_zq. Qed.
End Concrete101.
