(* ===== verification/ElGamal.v ===== *)
(** * Encryption of ballots

    [src/crypto/elgamal]: exponential ElGamal over the points of [Curve], the
    ballots (eight ciphertexts) and their homomorphic sums, re-encryption,
    decryption by baby steps and giant steps, and the proof of correct decryption.

    The methods write their receiver; here they return it. A ballot's array is a
    list, and its pointers are not nil, as in every ballot made by [NewBallot].
    Randomness is an argument. *)

From S2P Require Import Prelude Bytes Spec Types Curve.
From Stdlib Require Import Znumtheory.

(** iden3's Poseidon hash, on which the derivation of nonces and challenges rests. *)
Class PoseidonHasher := poseidon_Hash : list Z → result Z.

Section elgamal.
Context `{Curve} `{Hash : PoseidonHasher}.

(** ** Ciphertexts *)

(** The ciphertext of [src/crypto/elgamal/ciphertext.go] as two points. *)
Record Cipher := MkCipher { c1 : point; c2 : point }.
#[export] Instance Cipher_eq_dec : EqDecision Cipher.
Proof. solve_decision. Defined.
(** [src/crypto/elgamal/ciphertext.go:38-40] *)
Definition NewCiphertext : Cipher := MkCipher PZero PZero.
(** [src/crypto/elgamal/elgamal.go:29-46] *)
Definition EncryptWithK (pubKey : point) (msg k : Z) : Cipher :=
  let m := msg mod Order in
  let s := ScalarMult pubKey k in
  MkCipher (ScalarBaseMult k) (PAdd (ScalarBaseMult m) s).
(** [src/crypto/elgamal/ciphertext.go:54-60] Encrypt: a nil [k] is an error *)
Definition Ciphertext_Encrypt (message : Z) (publicKey : point) (k : option Z) : result Cipher :=
  match k with
  | None => Err (ErrMsg "k cannot be nil")
  | Some k => Ok (EncryptWithK publicKey message k)
  end.
(** [src/crypto/elgamal/ciphertext.go:63-67] Add *)
Definition Ciphertext_Add (x y : Cipher) : Cipher := MkCipher (PAdd (c1 x) (c1 y)) (PAdd (c2 x) (c2 y)).
(** [src/crypto/elgamal/ciphertext.go:44-50] IsZero *)
Definition Ciphertext_IsZero (x : Cipher) : bool :=
  bool_decide (c1 x = PZero) && bool_decide (c2 x = PZero).
(** [src/crypto/elgamal/ballot.go:141-155] EncryptedZero, of one ciphertext *)
Definition EncryptedZero (publicKey : point) (k : Z) : Cipher :=
  MkCipher (ScalarBaseMult k) (PAdd (ScalarBaseMult 0) (ScalarMult publicKey k)).

(** ** Ballots *)

Definition Ballot : Type := list Cipher.
(** Arrays have eight entries. *)
Definition Ballot_wf (b : Ballot) : Prop := length b = FieldsPerBallot.
(** [src/crypto/elgamal/ballot.go:27-36] *)
Definition NewBallot : Ballot := replicate FieldsPerBallot NewCiphertext.
(** [src/crypto/elgamal/ballot.go:50-61] IsZero *)
Definition Ballot_IsZero (z : Ballot) : bool := forallb Ciphertext_IsZero z.
(** [src/crypto/elgamal/ballot.go:67-89] Encrypt: each field with the next nonce *)
Fixpoint encrypt_fields (publicKey : point) (lastK : Z) (message : list Z) : result Ballot :=
  match message with
  | [] => Ok []
  | m :: message =>
      match MultiPoseidon poseidon_Hash [lastK] with
      | Err e => Err e
      | Ok nextK =>
          match encrypt_fields publicKey nextK message with
          | Err e => Err e
          | Ok z => Ok (EncryptWithK publicKey m lastK :: z)
          end
      end
  end.
(** [src/crypto/elgamal/ballot.go:67-89] Encrypt; a nil [k] is drawn by the caller *)
Definition Ballot_Encrypt (message : list Z) (publicKey : point) (k : Z) : result Ballot :=
  match MultiPoseidon poseidon_Hash [k] with
  | Err e => Err e
  | Ok lastK => encrypt_fields publicKey lastK message
  end.
(** [src/crypto/elgamal/ballot.go:117-131] EncryptedZero *)
Fixpoint encrypted_zeros (publicKey : point) (lastK : Z) (n : nat) : result Ballot :=
  match n with
  | O => Ok []
  | S n =>
      match MultiPoseidon poseidon_Hash [lastK] with
      | Err e => Err e
      | Ok nextK =>
          match encrypted_zeros publicKey nextK n with
          | Err e => Err e
          | Ok z => Ok (EncryptedZero publicKey lastK :: z)
          end
      end
  end.
(** [src/crypto/elgamal/ballot.go:117-131] EncryptedZero *)
Definition Ballot_EncryptedZero (publicKey : point) (k : Z) : result Ballot :=
  encrypted_zeros publicKey k FieldsPerBallot.
(** [src/crypto/elgamal/ballot.go:158-163] Add *)
Definition Ballot_Add (x y : Ballot) : Ballot := zip_with Ciphertext_Add x y.
(** [src/crypto/elgamal/ballot.go:166-175] Neg *)
Definition Ballot_Neg (x : Ballot) : Ballot := (λ c, MkCipher (PNeg (c1 c)) (PNeg (c2 c))) <$> x.
(** [src/crypto/elgamal/ballot.go:95-113] Reencrypt, of a ballot on the key's curve *)
Definition Reencrypt (z : Ballot) (publicKey : point) (k : Z) : result (Ballot * Z) :=
  match MultiPoseidon poseidon_Hash [k] with
  | Err e => Err e
  | Ok reencryptionK =>
      match Ballot_EncryptedZero publicKey reencryptionK with
      | Err e => Err e
      | Ok encZero => Ok (Ballot_Add z encZero, reencryptionK)
      end
  end.
(** [src/crypto/elgamal/ballot.go:179-187] *)
Definition BigInts (z : Ballot) : list Z :=
  concat ((λ c, [(coords (c1 c)).1; (coords (c1 c)).2; (coords (c2 c)).1; (coords (c2 c)).2]) <$> z).
Fixpoint set_bigints (n : nat) (l : list Z) : Ballot :=
  match n, l with
  | S n, c1x :: c1y :: c2x :: c2y :: l => MkCipher (SetPoint (c1x, c1y)) (SetPoint (c2x, c2y)) :: set_bigints n l
  | _, _ => []
  end.
(** [src/crypto/elgamal/ballot.go:193-213] *)
Definition SetBigInts (l : list Z) : result Ballot :=
  if (length l =? FieldsPerBallot * 4)%nat then Ok (set_bigints FieldsPerBallot l)
  else Err (ErrMsg "expected 8*4 BigInts").

(** ** Keys and decryption *)

(** [src/crypto/elgamal/elgamal.go:49-62] GenerateKey: [d] is the scalar drawn below
    the order *)
Definition GenerateKey (d : Z) : point * Z :=
  let d := if d =? 0 then 1 else d in (ScalarMult Generator d, d).

(** [src/crypto/elgamal/elgamal.go:106-151] BabyStepGiantStepECC: the bound of the two
    loops, the square root rounded up *)
Definition bsgs_m (max : Z) : Z := let m := Z.sqrt max in if m * m <? max then m + 1 else m.
(** [src/crypto/elgamal/elgamal.go:106-151] BabyStepGiantStepECC: the baby steps from [j] *)
Fixpoint baby_steps (n : nat) (j : Z) (baby alpha : point) (table : gmap bytes Z) : gmap bytes Z :=
  match n with
  | O => table
  | S n => baby_steps n (j + 1) (PAdd baby alpha) alpha (<[Marshal baby := j]> table)
  end.
(** [src/crypto/elgamal/elgamal.go:106-151] BabyStepGiantStepECC: the giant steps from [i];
    the product and sum are 64-bit *)
Fixpoint giant_steps (n : nat) (i : Z) (giant c : point) (m max : Z) (table : gmap bytes Z) : option Z :=
  match n with
  | O => None
  | S n =>
      let next := giant_steps n (i + 1) (PAdd giant c) c m max table in
      match table !! Marshal giant with
      | Some j => let x := (i * m + j) mod two64 in if x <=? max then Some x else next
      | None => next
      end
  end.
(** [src/crypto/elgamal/elgamal.go:106-151]; [max] is a uint64 *)
Definition BabyStepGiantStepECC (beta alpha : point) (max : Z) : result Z :=
  let not_found := Err (ErrMsg "bsgs: discrete log not found in interval") in
  if max =? 0 then if bool_decide (beta = PZero) then Ok 0 else not_found
  else
    let m := bsgs_m max in
    let table := baby_steps (Z.to_nat m) 0 PZero alpha ∅ in
    let c := PNeg (ScalarMult alpha m) in
    match giant_steps (Z.to_nat m + 1) 0 beta c m max table with
    | Some x => Ok x
    | None => not_found
    end.
(** [src/crypto/elgamal/elgamal.go:69-98] *)
Definition Decrypt (privateKey : option Z) (c : Cipher) (maxMessage : Z) : result (point * Z) :=
  match privateKey with
  | None => Err (ErrMsg "Decrypt: empty or negative private key")
  | Some privateKey =>
      if privateKey <=? 0 then Err (ErrMsg "Decrypt: empty or negative private key")
      else
        let M := PAdd (c2 c) (PNeg (ScalarMult (c1 c) privateKey)) in
        match BabyStepGiantStepECC M Generator maxMessage with
        | Err e => Err e
        | Ok message => Ok (M, message)
        end
  end.
(** [src/crypto/elgamal/elgamal.go:161-168] *)
Definition CheckK (c : point) (k : Z) : bool := bool_decide (ScalarBaseMult k = c).

(** ** Proofs of decryption *)

(** [src/crypto/elgamal/proof.go:59-63] *)
Record DecryptionProof := { A1 : point; A2 : point; dp_Z : Z }.
(** [src/crypto/elgamal/proof.go:205-217] *)
Definition HashPointsToScalar (pts : list point) : result Z :=
  match MultiPoseidon poseidon_Hash (concat ((λ p, [(coords p).1; (coords p).2]) <$> pts)) with
  | Err e => Err (Wrap "failed to hash points" e)
  | Ok digest => Ok digest
  end.
(** [src/crypto/elgamal/proof.go:85-138] BuildDecryptionProof: [r] is the scalar drawn
    below the order *)
Definition BuildDecryptionProof (r privateKey : Z) (publicKey : point) (c : Cipher) (msg : Z)
    : result DecryptionProof :=
  let r := if r =? 0 then 1 else r in
  let A1 := ScalarBaseMult r in
  let A2 := ScalarMult (c1 c) r in
  let m := msg mod Order in
  let D := PAdd (c2 c) (PNeg (ScalarBaseMult m)) in
  match HashPointsToScalar [publicKey; publicKey; c1 c; D; A1; A2] with
  | Err e => Err e
  | Ok e => Ok {| A1 := A1; A2 := A2; dp_Z := (e * privateKey + r) mod Order |}
  end.
(** [src/crypto/elgamal/proof.go:142-201] *)
Definition VerifyDecryptionProof (publicKey : point) (c : Cipher) (msg : Z) (proof : DecryptionProof)
    : result () :=
  let m := msg mod Order in
  let D := PAdd (c2 c) (PNeg (ScalarBaseMult m)) in
  match HashPointsToScalar [publicKey; publicKey; c1 c; D; A1 proof; A2 proof] with
  | Err e => Err e
  | Ok e =>
      let left1 := ScalarBaseMult (dp_Z proof) in
      let right1 := PAdd (A1 proof) (ScalarMult publicKey e) in
      if negb (bool_decide (left1 = right1)) then Err (ErrMsg "invalid proof: first equation fails")
      else
        let left2 := ScalarMult (c1 c) (dp_Z proof) in
        let right2 := PAdd (A2 proof) (ScalarMult D e) in
        if negb (bool_decide (left2 = right2)) then Err (ErrMsg "invalid proof: second equation fails")
        else Ok ()
  end.
End elgamal.

(** ** Plaintexts *)

Section facts.
Context `{Curve} `{Hash : PoseidonHasher}.

(** The point a ciphertext hides from those without the key [d], additive. *)
Definition plain (d : Z) (c : Cipher) : point := PAdd (c2 c) (PNeg (ScalarMult (c1 c) d)).
Lemma plain_Add d x y : plain d (Ciphertext_Add x y) = PAdd (plain d x) (plain d y).
Proof. unfold plain. cbn. by rewrite smul_PAdd, PNeg_PAdd, PAdd_swap. Qed.
Lemma plain_Neg d x : plain d (MkCipher (PNeg (c1 x)) (PNeg (c2 x))) = PNeg (plain d x).
Proof. unfold plain. cbn. by rewrite PNeg_PAdd, smul_PNeg. Qed.
Lemma plain_new d : plain d NewCiphertext = PZero.
Proof. unfold plain. cbn. by autorewrite with points. Qed.
Lemma plain_mask d k M : plain d (MkCipher (ScalarBaseMult k) (PAdd M (ScalarMult (ScalarBaseMult d) k))) = M.
Proof. unfold plain, ScalarBaseMult. cbn. by rewrite smul_comm, PAdd_sub. Qed.
Lemma plain_encrypt d k m : plain d (EncryptWithK (ScalarBaseMult d) m k) = ScalarBaseMult m.
Proof.
  unfold EncryptWithK. rewrite plain_mask. apply base_eq. pose proof Order_pos. apply Z.mod_mod. lia.
Qed.
Lemma plain_zero d k : plain d (EncryptedZero (ScalarBaseMult d) k) = PZero.
Proof. unfold EncryptedZero. rewrite plain_mask. apply ScalarMult_0. Qed.

(** Ballots field by field. *)
Definition plains (d : Z) (b : Ballot) : list point := plain d <$> b.
Definition plains_Add (l k : list point) : list point := zip_with PAdd l k.
Lemma plains_Ballot_Add d (x y : Ballot) : plains d (Ballot_Add x y) = plains_Add (plains d x) (plains d y).
Proof.
  unfold plains, plains_Add, Ballot_Add. revert y. induction x as [|c x IH]; intros [|c' y]; cbn; try done.
  by rewrite plain_Add, IH.
Qed.
Lemma plains_Ballot_Neg d x : plains d (Ballot_Neg x) = PNeg <$> plains d x.
Proof. unfold plains, Ballot_Neg. rewrite <-!list_fmap_compose. apply list_fmap_ext. intros i c _. apply plain_Neg. Qed.
Lemma plains_new d : plains d NewBallot = replicate FieldsPerBallot PZero.
Proof. unfold plains, NewBallot. by rewrite fmap_replicate, plain_new. Qed.
Lemma encrypt_fields_plain d lastK ms z :
  encrypt_fields (ScalarBaseMult d) lastK ms = Ok z → plains d z = ScalarBaseMult <$> ms.
Proof.
  revert lastK z. induction ms as [|m ms IH]; intros lastK z Hz; cbn [encrypt_fields encrypted_zeros] in Hz; [by injection Hz as <-|].
  destruct (MultiPoseidon _ _) as [nextK|]; [|done].
  destruct (encrypt_fields _ nextK ms) as [z'|] eqn:E; [|done]. injection Hz as <-.
  unfold plains. cbn. by rewrite plain_encrypt, <-(IH _ _ E).
Qed.
Lemma encrypted_zeros_plain d lastK n z :
  encrypted_zeros (ScalarBaseMult d) lastK n = Ok z → plains d z = replicate n PZero.
Proof.
  revert lastK z. induction n as [|n IH]; intros lastK z Hz; cbn [encrypt_fields encrypted_zeros] in Hz; [by injection Hz as <-|].
  destruct (MultiPoseidon _ _) as [nextK|]; [|done].
  destruct (encrypted_zeros _ nextK n) as [z'|] eqn:E; [|done]. injection Hz as <-.
  unfold plains. cbn. by rewrite plain_zero, <-(IH _ _ E).
Qed.
Lemma plains_Add_zero l : plains_Add l (replicate (length l) PZero) = l.
Proof. unfold plains_Add. induction l as [|p l IH]; cbn; [done|]. by rewrite PAdd_0_r, IH. Qed.

(** Encrypting a ballot and re-encrypting it any number of times with the same
    key leaves each field's plaintext in place: whatever the nonces and the hash,
    the result has eight fields and hides the same points. *)
Theorem Reencrypt_plaintext d ms k k' z z' k'' :
  length ms = FieldsPerBallot →
  Ballot_Encrypt ms (ScalarBaseMult d) k = Ok z →
  Reencrypt z (ScalarBaseMult d) k' = Ok (z', k'') →
  Ballot_wf z' ∧ plains d z' = ScalarBaseMult <$> ms ∧ plains d z' = plains d z.
Proof.
  unfold Ballot_Encrypt, Reencrypt, Ballot_EncryptedZero. intros Hlen Hz Hz'.
  destruct (MultiPoseidon _ [k]) as [lastK|]; [|done]. apply encrypt_fields_plain in Hz.
  destruct (MultiPoseidon _ [k']) as [rK|]; [|done].
  destruct (encrypted_zeros _ rK FieldsPerBallot) as [e|] eqn:E; [|done]. injection Hz' as <- _.
  apply encrypted_zeros_plain in E. assert (Hp : plains d (Ballot_Add z e) = plains d z).
  { rewrite plains_Ballot_Add, E, Hz, <-Hlen, <-(length_fmap ScalarBaseMult ms). apply plains_Add_zero. }
  split; [|by rewrite Hp].
  unfold Ballot_wf. rewrite <-(length_fmap (plain d)). fold (plains d (Ballot_Add z e)).
  by rewrite Hp, Hz, length_fmap.
Qed.

(** ** Baby steps and giant steps *)

Lemma base_succ j : PAdd (ScalarBaseMult j) Generator = ScalarBaseMult (j + 1).
Proof. symmetry. apply ScalarMult_succ. Qed.
Lemma baby_steps_out n j table key :
  (∀ j', j ≤ j' < j + Z.of_nat n → Marshal (ScalarBaseMult j') ≠ key) →
  baby_steps n j (ScalarBaseMult j) Generator table !! key = table !! key.
Proof.
  revert j table. induction n as [|n IH]; intros j table Hj; cbn [baby_steps]; [done|].
  rewrite base_succ, IH.
  - apply lookup_insert_ne. apply Hj. lia.
  - intros j' Hj'. apply Hj. lia.
Qed.
Lemma baby_steps_in n j table j' :
  0 ≤ j → j + Z.of_nat n ≤ Order → j ≤ j' < j + Z.of_nat n →
  baby_steps n j (ScalarBaseMult j) Generator table !! Marshal (ScalarBaseMult j') = Some j'.
Proof.
  revert j table. induction n as [|n IH]; intros j table Hj Hn Hj'; [lia|]. cbn [baby_steps].
  rewrite base_succ. destruct (decide (j' = j)) as [->|Hne]; [|apply IH; lia].
  rewrite baby_steps_out; [apply lookup_insert_eq|].
  intros i Hi Heq%Marshal_inj. apply base_inj in Heq; lia.
Qed.
(** The table of [m] baby steps holds exactly the logarithms below [m]. *)
Lemma baby_table m key :
  0 ≤ m ≤ Order →
  match baby_steps (Z.to_nat m) 0 PZero Generator ∅ !! key with
  | Some j => 0 ≤ j < m ∧ key = Marshal (ScalarBaseMult j)
  | None => ∀ j, 0 ≤ j < m → key ≠ Marshal (ScalarBaseMult j)
  end.
Proof.
  intros Hm. rewrite <-(ScalarMult_0 Generator). fold (ScalarBaseMult 0).
  destruct (decide (Exists (λ j, key = Marshal (ScalarBaseMult j)) (seqZ 0 m))) as [He|He].
  - apply Exists_exists in He as (j & Hj%elem_of_seqZ & ->).
    rewrite baby_steps_in by lia. split; [lia|done].
  - assert (Hno : ∀ j, 0 ≤ j < m → key ≠ Marshal (ScalarBaseMult j)).
    { intros j Hj Heq. apply He, Exists_exists. exists j. split; [|done]. apply elem_of_seqZ. lia. }
    rewrite baby_steps_out; [by rewrite lookup_empty|]. intros j Hj Heq. symmetry in Heq. revert Heq. apply Hno. lia.
Qed.

Lemma bsgs_m_spec max : 0 < max → 0 < bsgs_m max ∧ max ≤ bsgs_m max * bsgs_m max ∧ (bsgs_m max - 1) * (bsgs_m max - 1) < max.
Proof.
  intros Hmax. unfold bsgs_m. pose proof (Z.sqrt_spec max ltac:(lia)) as Hs.
  assert (Hp : 0 < Z.sqrt max) by by apply Z.sqrt_pos.
  cbv zeta in Hs. set (s := Z.sqrt max) in *. replace (Z.succ s) with (s + 1) in Hs by lia.
  destruct (Z.ltb_spec (s * s) max).
  - replace (s + 1 - 1) with s by lia. lia.
  - split; [lia|]. split; [lia|]. nia.
Qed.

Lemma giant_steps_spec n i m max x0 :
  0 ≤ i → 0 < m ≤ Order → (i + Z.of_nat n) * m ≤ two64 → max < Order →
  match giant_steps n i (ScalarBaseMult (x0 - i * m)) (PNeg (ScalarBaseMult m)) m max
          (baby_steps (Z.to_nat m) 0 PZero Generator ∅) with
  | Some x => 0 ≤ x ≤ max ∧ ScalarBaseMult x = ScalarBaseMult x0
  | None => ∀ x, 0 ≤ x ≤ max → ScalarBaseMult x = ScalarBaseMult x0 → ¬ i ≤ x / m < i + Z.of_nat n
  end.
Proof.
  intros Hi Hm Hn Hmax. revert i Hi Hn. induction n as [|n IH]; intros i Hi Hn; cbn [giant_steps]; [lia|].
  assert (Hnext : PAdd (ScalarBaseMult (x0 - i * m)) (PNeg (ScalarBaseMult m)) = ScalarBaseMult (x0 - (i + 1) * m)).
  { unfold ScalarBaseMult. rewrite <-smul_sub. f_equal. lia. }
  rewrite Hnext. specialize (IH (i + 1) ltac:(lia) ltac:(lia)).
  set (next := giant_steps n _ _ _ _ _ _) in *.
  assert (Hskip : (∀ x, 0 ≤ x ≤ max → ScalarBaseMult x = ScalarBaseMult x0 → x / m ≠ i) →
    match next with
    | Some x => 0 ≤ x ≤ max ∧ ScalarBaseMult x = ScalarBaseMult x0
    | None => ∀ x, 0 ≤ x ≤ max → ScalarBaseMult x = ScalarBaseMult x0 → ¬ i ≤ x / m < i + Z.of_nat (S n)
    end).
  { intros Hs. destruct next as [y|]; [done|]. intros y Hy Hyx. specialize (IH y Hy Hyx). specialize (Hs y Hy Hyx). lia. }
  assert (Hat : ∀ x, ScalarBaseMult x = ScalarBaseMult x0 → x / m = i →
    ScalarBaseMult (x0 - i * m) = ScalarBaseMult (x mod m)).
  { intros y Hy Hd. replace (y mod m) with (y - i * m) by (rewrite Z.mod_eq, Hd by lia; lia).
    unfold ScalarBaseMult in *. by rewrite !smul_sub, Hy. }
  pose proof (baby_table m (Marshal (ScalarBaseMult (x0 - i * m))) ltac:(lia)) as Ht.
  destruct (_ !! Marshal (ScalarBaseMult (x0 - i * m))) as [j|].
  - destruct Ht as [Hj Heq%Marshal_inj]. rewrite (Z.mod_small (i * m + j)) by nia.
    assert (Hx : ScalarBaseMult (i * m + j) = ScalarBaseMult x0).
    { unfold ScalarBaseMult in *. rewrite smul_add, <-Heq, smul_sub, PAdd_assoc, (PAdd_comm (ScalarMult _ (i * m))).
      apply PAdd_sub. }
    destruct (Z.leb_spec (i * m + j) max) as [Hle|Hgt]; [split; [nia|done]|].
    apply Hskip. intros y Hy Hyx Hd. pose proof (Hat y Hyx Hd) as H'. rewrite Heq in H'.
    pose proof (Z.mod_pos_bound y m ltac:(lia)). apply base_inj in H'; [|lia..].
    rewrite (Z.div_mod y m), Hd in Hy by lia. lia.
  - apply Hskip. intros y Hy Hyx Hd. specialize (Ht (y mod m) (Z.mod_pos_bound y m ltac:(lia))).
    apply Ht. f_equal. by apply Hat.
Qed.

(** The search for a logarithm below the order, for bounds whose square root fits 32
    bits. *)
Lemma BabyStepGiantStepECC_spec x0 max :
  0 ≤ max < Order → max ≤ 4294967295 * 4294967295 →
  match BabyStepGiantStepECC (ScalarBaseMult x0) Generator max with
  | Ok x => 0 ≤ x ≤ max ∧ ScalarBaseMult x = ScalarBaseMult x0
  | Err _ => ∀ x, 0 ≤ x ≤ max → ScalarBaseMult x ≠ ScalarBaseMult x0
  end.
Proof.
  intros Hmax Hfit. unfold BabyStepGiantStepECC. destruct (Z.eqb_spec max 0) as [->|Hne].
  - rewrite <-(ScalarMult_0 Generator). fold (ScalarBaseMult 0). case_bool_decide as Hz.
    + by rewrite Hz.
    + intros x Hx Heq. apply Hz. by replace 0 with x by lia.
  - destruct (bsgs_m_spec max ltac:(lia)) as (Hm1 & Hm2 & Hm3). set (m := bsgs_m max) in *.
    assert (Hm : m ≤ 4294967295) by nia. assert (HmO : m ≤ Order).
    { destruct (Z.le_gt_cases m 1); [pose proof Order_pos; lia|]. assert (1 * (m - 1) ≤ (m - 1) * (m - 1)); [|lia].
      apply Z.mul_le_mono_nonneg_r; lia. }
    pose proof (giant_steps_spec (Z.to_nat m + 1) 0 m max x0) as Hg.
    rewrite Z.mul_0_l, Z.sub_0_r in Hg. specialize (Hg ltac:(lia) ltac:(lia)).
    assert (Hfit' : (0 + Z.of_nat (Z.to_nat m + 1)) * m ≤ two64).
    { replace (0 + Z.of_nat (Z.to_nat m + 1)) with (m + 1) by lia. unfold two64. nia. }
    specialize (Hg Hfit' ltac:(lia)). fold (ScalarBaseMult m). destruct (giant_steps _ _ _ _ _ _ _) as [x|]; [done|].
    intros x Hx Heq. apply (Hg x Hx Heq). split; [apply Z.div_pos; lia|].
    assert (x / m ≤ m) by (apply Z.div_le_upper_bound; nia). lia.
Qed.

Lemma BabyStepGiantStepECC_eq m maxMessage :
  0 ≤ m < Order → 0 ≤ maxMessage < Order → maxMessage ≤ 4294967295 * 4294967295 →
  BabyStepGiantStepECC (ScalarBaseMult m) Generator maxMessage =
  if m <=? maxMessage then Ok m else Err (ErrMsg "bsgs: discrete log not found in interval").
Proof.
  intros Hm Hmax Hfit. pose proof (BabyStepGiantStepECC_spec m maxMessage Hmax Hfit) as Hb.
  assert (Herr : ∀ e, BabyStepGiantStepECC (ScalarBaseMult m) Generator maxMessage = Err e →
    e = ErrMsg "bsgs: discrete log not found in interval").
  { unfold BabyStepGiantStepECC. intros e. destruct (_ =? 0); [case_bool_decide; congruence|].
    destruct (giant_steps _ _ _ _ _ _ _); congruence. }
  destruct (BabyStepGiantStepECC _ _ _) as [x|e].
  - destruct Hb as [Hx Heq%base_inj]; [|lia..]. subst x. by rewrite (proj2 (Z.leb_le _ _)) by lia.
  - rewrite (Herr e) by done. destruct (Z.leb_spec m maxMessage); [|done].
    exfalso. apply (Hb m); [lia|done].
Qed.

(** C26: decryption with the right key finds every message up to the bound it is
    given: if the ciphertext hides a message not above [maxMessage], that message and
    its point are returned; otherwise an error is. The bound has to be below the
    group's order and its square root within 32 bits. *)
Theorem Decrypt_spec d c m maxMessage :
  0 < d → plain d c = ScalarBaseMult m → 0 ≤ m < Order →
  0 ≤ maxMessage < Order → maxMessage ≤ 4294967295 * 4294967295 →
  Decrypt (Some d) c maxMessage =
  if m <=? maxMessage then Ok (ScalarBaseMult m, m)
  else Err (ErrMsg "bsgs: discrete log not found in interval").
Proof.
  intros Hd Hc Hm Hmax Hfit. unfold Decrypt. rewrite (proj2 (Z.leb_gt _ _) Hd). fold (plain d c).
  rewrite Hc, BabyStepGiantStepECC_eq by done. by destruct (m <=? maxMessage).
Qed.

(** ** Proofs of decryption *)

Lemma plain_shared d c m : plain d c = ScalarBaseMult m → PAdd (c2 c) (PNeg (ScalarBaseMult (m mod Order))) = ScalarMult (c1 c) d.
Proof.
  intros Hc. assert (Hm : ScalarBaseMult (m mod Order) = ScalarBaseMult m).
  { apply base_eq. pose proof Order_pos. apply Z.mod_mod. lia. }
  rewrite Hm, <-Hc. unfold plain. rewrite PNeg_PAdd, PNeg_PNeg, PAdd_assoc, PAdd_neg_r. apply PAdd_0_l.
Qed.

(** The owner of the key can prove a correct decryption: for a ciphertext whose
    first point is in the generator's subgroup and that hides [msg], every proof
    that is built is accepted, whatever was drawn. *)
Theorem decryption_proof_complete r d c msg proof :
  in_subgroup (c1 c) → plain d c = ScalarBaseMult msg →
  BuildDecryptionProof r d (ScalarBaseMult d) c msg = Ok proof →
  VerifyDecryptionProof (ScalarBaseMult d) c msg proof = Ok ().
Proof.
  intros Hsub Hc. unfold BuildDecryptionProof, VerifyDecryptionProof. rewrite (plain_shared d c msg Hc).
  set (r' := if r =? 0 then 1 else r).
  destruct (HashPointsToScalar _) as [e|] eqn:He; [|done]. intros [= <-]. cbn [A1 A2 dp_Z]. rewrite He.
  assert (Hz : ∀ a, in_subgroup a →
    ScalarMult a ((e * d + r') mod Order) = PAdd (ScalarMult a r') (ScalarMult (ScalarMult a d) e)).
  { intros a Ha. rewrite smul_mod, Z.add_comm, smul_add, smul_mul by done. do 2 f_equal. lia. }
  unfold ScalarBaseMult. rewrite (Hz Generator), (Hz (c1 c)) by eauto with subgroup.
  by rewrite !bool_decide_true.
Qed.

Lemma Order_inverse k : ¬ (Order | k) → ∃ u, (u * k) mod Order = 1.
Proof.
  intros Hk. assert (Hr : rel_prime Order k) by (apply prime_rel_prime; [apply Order_prime|done]).
  destruct (rel_prime_bezout _ _ Hr) as [u v Huv]. exists v. pose proof Order_pos.
  replace (v * k) with (1 + (- u) * Order) by lia. rewrite Z.mod_add by lia. apply Z.mod_small. lia.
Qed.
Lemma smul_cancel a b k : in_subgroup a → in_subgroup b → ¬ (Order | k) → ScalarMult a k = ScalarMult b k → a = b.
Proof.
  intros Ha Hb Hk Heq. destruct (Order_inverse k Hk) as [u Hu].
  assert (Hc : ∀ p, in_subgroup p → ScalarMult (ScalarMult p k) u = p).
  { intros p Hp. rewrite smul_mul, <-(smul_mod p (k * u)), Z.mul_comm, Hu by done. apply smul_1. }
  by rewrite <-(Hc a Ha), Heq, Hc.
Qed.
End facts.

Section soundness.
Context `{Curve}.
(** The challenge that the verifier computes with the hash [h]. *)
Definition challenge (h : PoseidonHasher) (publicKey : point) (c : Cipher) (msg : Z) (proof : DecryptionProof) : result Z :=
  HashPointsToScalar (Hash := h)
    [publicKey; publicKey; c1 c; PAdd (c2 c) (PNeg (ScalarBaseMult (msg mod Order))); A1 proof; A2 proof].
Lemma Verify_equations h publicKey c msg proof e :
  challenge h publicKey c msg proof = Ok e →
  VerifyDecryptionProof (Hash := h) publicKey c msg proof = Ok () →
  ScalarBaseMult (dp_Z proof) = PAdd (A1 proof) (ScalarMult publicKey e) ∧
  ScalarMult (c1 c) (dp_Z proof) =
    PAdd (A2 proof) (ScalarMult (PAdd (c2 c) (PNeg (ScalarBaseMult (msg mod Order)))) e).
Proof.
  unfold challenge, VerifyDecryptionProof. intros ->.
  case_bool_decide; cbn; [|done]. case_bool_decide; cbn; [|done]. done.
Qed.
Lemma responses_differ a p q s t e f :
  ScalarMult a s = PAdd p (ScalarMult q e) → ScalarMult a t = PAdd p (ScalarMult q f) →
  ScalarMult a (s - t) = ScalarMult q (e - f).
Proof. intros Hs Ht. by rewrite !smul_sub, Hs, Ht, PNeg_PAdd, PAdd_swap, PAdd_neg_r, PAdd_0_l. Qed.


(** ** Coordinates *)

Lemma set_bigints_BigInts z : set_bigints (length z) (BigInts z) = z.
Proof.
  unfold BigInts. induction z as [|[p q] z IH]; cbn; [done|].
  rewrite <-!surjective_pairing, !SetPoint_coords. f_equal. exact IH.
Qed.
Lemma length_BigInts z : length (BigInts z) = (length z * 4)%nat.
Proof. unfold BigInts. induction z as [|c z IH]; cbn; [done|]. cbn in IH. lia. Qed.
(** The coordinates of a ballot determine it: writing a ballot of eight fields as
    integers and reading it back gives the ballot. *)
Theorem SetBigInts_BigInts z : Ballot_wf z → SetBigInts (BigInts z) = Ok z.
Proof.
  unfold Ballot_wf. intros Hz. unfold SetBigInts. rewrite length_BigInts, Hz, Nat.eqb_refl.
  by rewrite <-Hz, set_bigints_BigInts.
Qed.
End soundness.

(** ** In a group of 101 elements *)

Section witnesses.
#[local] Existing Instance Concrete101.curve.
Definition sum_hash : PoseidonHasher := λ l, Ok (foldr Z.add 5 l).
Definition other_hash : PoseidonHasher := λ l, Ok (foldr Z.add 9 l).
#[local] Existing Instance sum_hash.
Definition key7 : point := ScalarBaseMult 7.
Definition ballot12 : Ballot := match Ballot_Encrypt (seqZ 12 8) key7 30 with Ok z => z | Err _ => [] end.
Definition reballot12 : Ballot := match Reencrypt ballot12 key7 44 with Ok (z, _) => z | Err _ => [] end.
Lemma Reencrypt_plaintext_witness :
  reballot12 ≠ ballot12 ∧ plains 7 reballot12 = ScalarBaseMult <$> seqZ 12 8.
Proof.
  split; [by vm_compute|].
  destruct (Reencrypt_plaintext 7 (seqZ 12 8) 30 44 ballot12 reballot12 49) as (_ & H & _); [by vm_compute..|exact H].
Defined.
Definition cipher20 : Cipher := EncryptWithK key7 20 33.
Lemma Decrypt_spec_witness :
  Decrypt (Some 7) cipher20 50 = Ok (ScalarBaseMult 20, 20) ∧
  Decrypt (Some 7) cipher20 19 = Err (ErrMsg "bsgs: discrete log not found in interval").
Proof.
  assert (Hp : plain 7 cipher20 = ScalarBaseMult 20) by apply plain_encrypt.
  split; [refine (eq_trans (Decrypt_spec 7 cipher20 20 50 _ Hp _ _ _) _)|
          refine (eq_trans (Decrypt_spec 7 cipher20 20 19 _ Hp _ _ _) _)];
    first [by vm_compute|split; by vm_compute].
Defined.
Definition proof20 (h : PoseidonHasher) : DecryptionProof :=
  match BuildDecryptionProof (Hash := h) 13 7 key7 cipher20 20 with
  | Ok p => p | Err _ => {| A1 := PZero; A2 := PZero; dp_Z := 0 |} end.
Lemma decryption_proof_complete_witness :
  VerifyDecryptionProof key7 cipher20 20 (proof20 sum_hash) = Ok ().
Proof.
  apply (decryption_proof_complete 13 7 cipher20 20); [|apply plain_encrypt|by vm_compute].
  unfold cipher20, EncryptWithK, ScalarBaseMult. cbn [c1]. eauto with subgroup.
Defined.
Lemma SetBigInts_BigInts_witness : SetBigInts (BigInts ballot12) = Ok ballot12.
Proof. apply (SetBigInts_BigInts ballot12). by vm_compute. Defined.
End witnesses.
