(* ===== verification/Dkg.v ===== *)
(** * Distributed keys and threshold decryption

    [src/crypto/elgamal/dkg]: each participant shares a random polynomial, checks
    the shares it receives against the commitments of the sender, and adds them up
    to its share of a private key nobody holds. Partial decryptions of a ciphertext
    combine with Lagrange coefficients. Randomness is an argument. Also the inverse
    modulo a number, [big.Int.ModInverse], by the extended Euclidean algorithm. *)

From S2P Require Import Prelude Bytes Spec Types Curve ElGamal.
From Stdlib Require Import Znumtheory Zdiv Setoid.

(** ** Modular inverses *)

(** Bezout coefficients; [fuel] bounds the number of divisions. *)
Fixpoint bezout (fuel : nat) (a b : Z) : Z * Z :=
  match fuel with
  | O => (1, 0)
  | S fuel =>
      if b =? 0 then (1, 0)
      else let '(x, y) := bezout fuel b (a mod b) in (y, x - a / b * y)
  end.
Definition bezout_fuel (a b : Z) : nat := Z.to_nat (Z.log2 a + Z.log2 b + 2).
(** [big.Int.ModInverse]: nil if there is none *)
Definition ModInverse (g n : Z) : option Z :=
  let g := g mod n in
  if Z.gcd g n =? 1 then Some ((bezout (bezout_fuel n g) n g).2 mod n) else None.

Lemma bezout_0 fuel a : bezout fuel a 0 = (1, 0).
Proof. by destruct fuel. Qed.
Lemma bezout_spec fuel a b :
  0 ≤ b < a → Z.log2 a + Z.log2 b + 1 < Z.of_nat fuel →
  (bezout fuel a b).1 * a + (bezout fuel a b).2 * b = Z.gcd a b.
Proof.
  revert a b. induction fuel as [|fuel IH]; intros a b Hab Hf.
  { pose proof (Z.log2_nonneg a). pose proof (Z.log2_nonneg b). lia. }
  destruct (Z.eq_dec b 0) as [->|Hb].
  { rewrite bezout_0, Z.gcd_0_r. cbn [fst snd]. lia. }
  cbn [bezout]. rewrite (proj2 (Z.eqb_neq _ _) Hb).
  pose proof (Z.mod_pos_bound a b ltac:(lia)) as Hr. pose proof (Z.div_mod a b Hb) as Hd.
  assert (Hg : Z.gcd a b = Z.gcd b (a mod b)) by (rewrite (Z.gcd_comm b), Z.gcd_mod, Z.gcd_comm by lia; done).
  rewrite Hg. assert (Hrec : (bezout fuel b (a mod b)).1 * b + (bezout fuel b (a mod b)).2 * (a mod b) = Z.gcd b (a mod b)).
  { destruct (Z.eq_dec (a mod b) 0) as [->|Hr0].
    - rewrite bezout_0, Z.gcd_0_r. cbn [fst snd]. lia.
    - apply IH; [done|]. assert (1 ≤ a / b) by (apply Z.div_le_lower_bound; lia).
      assert (Hm : 2 * (a mod b) ≤ a) by nia. apply Z.log2_le_mono in Hm. rewrite Z.log2_double in Hm by lia. lia. }
  destruct (bezout fuel b (a mod b)) as [x y]. cbn [fst snd] in *. rewrite <-Hrec.
  rewrite Hd at 1. ring.
Qed.
Lemma ModInverse_spec g n : 1 < n → Z.gcd g n = 1 → ∃ x, ModInverse g n = Some x ∧ (x * g) mod n = 1.
Proof.
  intros Hn Hg. unfold ModInverse. rewrite Z.gcd_mod, Z.gcd_comm, Hg by lia. cbn [Z.eqb Pos.eqb].
  eexists. split; [done|]. pose proof (Z.mod_pos_bound g n ltac:(lia)) as Hr.
  pose proof (bezout_spec (bezout_fuel n (g mod n)) n (g mod n) ltac:(lia)) as Hb.
  unfold bezout_fuel in Hb. pose proof (Z.log2_nonneg n). pose proof (Z.log2_nonneg (g mod n)).
  specialize (Hb ltac:(lia)). fold (bezout_fuel n (g mod n)) in Hb.
  destruct (bezout _ n (g mod n)) as [x y]. cbn [fst snd] in *.
  rewrite (Z.gcd_comm n), Z.gcd_mod, Z.gcd_comm, Hg in Hb by lia.
  rewrite Z.mul_mod_idemp_l by lia. rewrite <-(Z.mul_mod_idemp_r y g) by lia.
  replace (y * (g mod n)) with (1 + (- x) * n) by lia. rewrite Z.mod_add by lia. apply Z.mod_small. lia.
Qed.

(** ** Polynomials modulo a prime *)

(** Congruence, with its rewriting. *)
Definition cong (q a b : Z) : Prop := (q | a - b).
#[export] Instance cong_equiv q : Equivalence (cong q).
Proof.
  unfold cong. split.
  - intros a. rewrite Z.sub_diag. apply Z.divide_0_r.
  - intros a b [k Hk]. exists (- k). lia.
  - intros a b c [k Hk] [l Hl]. exists (k + l). lia.
Qed.
#[export] Instance cong_add q : Proper (cong q ==> cong q ==> cong q) Z.add.
Proof. intros a b [k Hk] c d [l Hl]. exists (k + l). lia. Qed.
#[export] Instance cong_sub q : Proper (cong q ==> cong q ==> cong q) Z.sub.
Proof. intros a b [k Hk] c d [l Hl]. exists (k - l). lia. Qed.
#[export] Instance cong_mul q : Proper (cong q ==> cong q ==> cong q) Z.mul.
Proof. intros a b [k Hk] c d [l Hl]. exists (k * c + b * l). nia. Qed.
Lemma cong_mod q a : q ≠ 0 → cong q (a mod q) a.
Proof. intros Hq. exists (- (a / q)). rewrite Z.mod_eq by done. lia. Qed.
Lemma cong_mod_eq q a b : q ≠ 0 → cong q a b ↔ a mod q = b mod q.
Proof.
  intros Hq. unfold cong. split.
  - intros [k Hk]. replace a with (b + k * q) by lia. by apply Z.mod_add.
  - intros Hab. apply Z.mod_divide; [done|]. by rewrite Zminus_mod, Hab, Z.sub_diag, Z.mod_0_l.
Qed.

Section polynomials.
Context (q : Z) (Hq : prime q).
Infix "≡" := (cong q) (at level 70).

(** The value at [x] of the polynomial with the coefficients [l], lowest first. *)
Fixpoint peval (l : list Z) (x : Z) : Z := match l with [] => 0 | a :: l => a + x * peval l x end.
(** Synthetic division by [x - r]. *)
Fixpoint pdiv (l : list Z) (r : Z) : list Z :=
  match l with [] => [] | a :: l => peval l r :: pdiv l r end.
Lemma pdiv_spec l r x : peval l x = peval l r + (x - r) * peval (pdiv l r) x.
Proof. induction l as [|a l IH]; cbn; [lia|]. rewrite IH at 1. ring. Qed.
Lemma peval_last_0 l r x : peval (pdiv l r) x = peval (removelast (pdiv l r)) x.
Proof.
  assert (H : ∀ l, ∃ k, pdiv l r = k ++ [0] ∨ l = [] ∧ k = []).
  { clear l. induction l as [|a l [k [IH|[-> ->]]]]; [by exists []; right| |].
    - exists (peval l r :: k). left. cbn. by rewrite IH.
    - exists []. by left. }
  destruct (H l) as [k [->|[-> _]]]; [|done]. rewrite removelast_last.
  induction k as [|a k IH]; cbn; [lia|]. by rewrite IH.
Qed.
Lemma length_pdiv l r : length (removelast (pdiv l r)) = pred (length l).
Proof.
  assert (H : length (pdiv l r) = length l) by (induction l; cbn; congruence).
  destruct (pdiv l r) as [|b k] eqn:E; [by rewrite <-H|].
  destruct (@exists_last _ (b :: k)) as [k' [c Hc]]; [done|]. rewrite Hc in *. rewrite removelast_last.
  rewrite <-H, length_app. cbn. lia.
Qed.
(** A polynomial with as many distinct roots as coefficients vanishes. *)
Lemma peval_roots n l rs :
  (length l ≤ n)%nat → length rs = n →
  (∀ r, r ∈ rs → peval l r ≡ 0) →
  (∀ i j r s, rs !! i = Some r → rs !! j = Some s → i ≠ j → ¬ r ≡ s) →
  ∀ x, peval l x ≡ 0.
Proof.
  revert l rs. induction n as [|n IH]; intros l rs Hl Hrs Hroots Hd x.
  { by destruct l; [|cbn in Hl; lia]. }
  destruct rs as [|r rs]; [done|]. cbn in Hrs. assert (Hr : peval l r ≡ 0) by (apply Hroots; left).
  rewrite (pdiv_spec l r x), peval_last_0. set (k := removelast (pdiv l r)).
  assert (Hk : ∀ y, peval k y ≡ 0).
  { apply (IH k rs); [unfold k; rewrite length_pdiv; lia|lia| |].
    - intros s Hs. pose proof (Hroots s ltac:(by right)) as Hs0.
      rewrite (pdiv_spec l r s), peval_last_0 in Hs0. fold k in Hs0. rewrite Hr in Hs0.
      unfold cong in Hs0. replace (0 + (s - r) * peval k s - 0) with ((s - r) * peval k s) in Hs0 by lia.
      apply prime_mult in Hs0 as [Hs0|Hs0]; [exfalso| |done].
      + apply list_elem_of_lookup in Hs as [i Hi]. apply (Hd (S i) 0%nat s r); done.
      + unfold cong. by rewrite Z.sub_0_r.
    - intros i j a b Ha Hb Hij. apply (Hd (S i) (S j)); [done..|lia]. }
  rewrite Hr, Hk. by rewrite Z.mul_0_r.
Qed.
End polynomials.

(** ** Participants *)

Section dkg.
Context `{Curve} `{Hash : PoseidonHasher}.

(** [src/crypto/elgamal/dkg/dkg.go:12-23] *)
Record Participant := {
  p_Ident : Z; Threshold : nat; Participants : list Z;
  SecretCoeffs : list Z; PublicCoeffs : list point;
  SecretShares : gmap Z Z; ReceivedShares : gmap Z Z;
  PrivateShare : Z; p_PublicKey : option point }.
(** [src/crypto/elgamal/dkg/dkg.go:26-28] *)
Record CPCommitment := { cm_A1 : point; cm_A2 : point }.
(** [src/crypto/elgamal/dkg/dkg.go:31-43] *)
Definition NewParticipant (id : Z) (threshold : nat) (participants : list Z) : Participant :=
  {| p_Ident := id; Threshold := threshold; Participants := participants; SecretCoeffs := [];
     PublicCoeffs := []; SecretShares := ∅; ReceivedShares := ∅; PrivateShare := 0; p_PublicKey := None |}.
(** [src/crypto/elgamal/dkg/dkg.go:45-62] GenerateSecretPolynomial: [coeffs] are the
    scalars drawn, one for each of the [Threshold] coefficients *)
Definition GenerateSecretPolynomial (coeffs : list Z) (p : Participant) : Participant :=
  let coeffs := take (Threshold p) coeffs in
  {| p_Ident := p_Ident p; Threshold := Threshold p; Participants := Participants p;
     SecretCoeffs := SecretCoeffs p ++ coeffs;
     PublicCoeffs := PublicCoeffs p ++ (ScalarMult Generator <$> coeffs);
     SecretShares := SecretShares p; ReceivedShares := ReceivedShares p;
     PrivateShare := PrivateShare p; p_PublicKey := p_PublicKey p |}.
(** [src/crypto/elgamal/dkg/dkg.go:74-88] evaluatePolynomial: the loop, from the sum and
    the power so far *)
Fixpoint eval_loop (x result xPower : Z) (coeffs : list Z) : Z :=
  match coeffs with
  | [] => result
  | coeff :: coeffs =>
      let term := (coeff * xPower) mod Order in
      eval_loop x ((result + term) mod Order) ((xPower * x) mod Order) coeffs
  end.
(** [src/crypto/elgamal/dkg/dkg.go:74-88] *)
Definition evaluatePolynomial (p : Participant) (x : Z) : Z := eval_loop x 0 1 (SecretCoeffs p).
(** [src/crypto/elgamal/dkg/dkg.go:65-71] *)
Definition ComputeShares (p : Participant) : Participant :=
  {| p_Ident := p_Ident p; Threshold := Threshold p; Participants := Participants p;
     SecretCoeffs := SecretCoeffs p; PublicCoeffs := PublicCoeffs p;
     SecretShares := foldl (λ m pid, <[pid := evaluatePolynomial p pid]> m) (SecretShares p) (Participants p);
     ReceivedShares := ReceivedShares p; PrivateShare := PrivateShare p; p_PublicKey := p_PublicKey p |}.
(** [src/crypto/elgamal/dkg/dkg.go:101-120] verifyShare: the sum of the commitments; the
    power is not reduced *)
Fixpoint commitment_sum (x xPower : Z) (rhs : point) (publicCoeffs : list point) : point :=
  match publicCoeffs with
  | [] => rhs
  | c :: cs => commitment_sum x (xPower * x) (PAdd rhs (ScalarMult c xPower)) cs
  end.
(** [src/crypto/elgamal/dkg/dkg.go:101-120] *)
Definition verifyShare (p : Participant) (share : Z) (publicCoeffs : list point) : bool :=
  bool_decide (ScalarBaseMult share = commitment_sum (p_Ident p) 1 PZero publicCoeffs).
(** [src/crypto/elgamal/dkg/dkg.go:91-98] *)
Definition ReceiveShare (fromID share : Z) (publicCoeffs : list point) (p : Participant) : result Participant :=
  if negb (verifyShare p share publicCoeffs) then Err (ErrMsg "invalid share from participant")
  else Ok {| p_Ident := p_Ident p; Threshold := Threshold p; Participants := Participants p;
             SecretCoeffs := SecretCoeffs p; PublicCoeffs := PublicCoeffs p;
             SecretShares := SecretShares p; ReceivedShares := <[fromID := share]> (ReceivedShares p);
             PrivateShare := PrivateShare p; p_PublicKey := p_PublicKey p |}.
(** [src/crypto/elgamal/dkg/dkg.go:123-130] AggregateShares; without a share of its own
    the program dereferences nil, [None] here *)
Definition AggregateShares (p : Participant) : option Participant :=
  own ← SecretShares p !! p_Ident p;
  Some {| p_Ident := p_Ident p; Threshold := Threshold p; Participants := Participants p;
          SecretCoeffs := SecretCoeffs p; PublicCoeffs := PublicCoeffs p;
          SecretShares := SecretShares p; ReceivedShares := ReceivedShares p;
          PrivateShare := foldl (λ acc share, (acc + share) mod Order) own (map_to_list (ReceivedShares p)).*2;
          p_PublicKey := p_PublicKey p |}.
(** [src/crypto/elgamal/dkg/dkg.go:133-139] AggregatePublicKey, from the constant terms
    of the commitments ([coeffs[0]]) *)
Definition AggregatePublicKey (constants : list point) : point := foldl PAdd PZero constants.

(** [src/crypto/elgamal/dkg/decrypt.go:12-17] *)
Definition ComputePartialDecryption (p : Participant) (c : point) : point := ScalarMult c (PrivateShare p).
(** [src/crypto/elgamal/dkg/decrypt.go:53-85] computeLagrangeCoefficients: numerator and
    denominator for [i] *)
Definition lagrange_fraction (participants : list Z) (mod' i : Z) : Z * Z :=
  foldl (λ '(num, den) j,
    if i =? j then (num, den)
    else ((num * ((- j) mod mod')) mod mod',
          (den * ((let d := i - j in if d <? 0 then d + mod' else d) mod mod')) mod mod'))
    (1, 1) participants.
(** [src/crypto/elgamal/dkg/decrypt.go:53-85] computeLagrangeCoefficients: the coefficient
    of [i] *)
Definition lagrange_coeff (participants : list Z) (mod' i : Z) : option Z :=
  let '(numerator, denominator) := lagrange_fraction participants mod' i in
  inv ← ModInverse denominator mod'; Some ((numerator * inv) mod mod').
(** [src/crypto/elgamal/dkg/decrypt.go:53-85] *)
Definition computeLagrangeCoefficients (participants : list Z) (mod' : Z) : result (gmap Z Z) :=
  foldl (λ acc i, match acc with
                  | Err e => Err e
                  | Ok coeffs =>
                      match lagrange_coeff participants mod' i with
                      | None => Err (ErrMsg "modular inverse does not exist")
                      | Some coeff => Ok (<[i := coeff]> coeffs)
                      end
                  end) (Ok ∅) participants.
(** [src/crypto/elgamal/dkg/decrypt.go:20-50] CombinePartialDecryptions; the maps have an
    entry for every participant *)
Definition CombinePartialDecryptions (c2 : point) (partialDecryptions : Z → point) (participants : list Z)
    (maxMessage : Z) : result Z :=
  match computeLagrangeCoefficients participants Order with
  | Err e => Err (Wrap "failed to compute Lagrange coefficients" e)
  | Ok lagrangeCoeffs =>
      let s := foldl (λ s id, PAdd s (ScalarMult (partialDecryptions id) (default 0 (lagrangeCoeffs !! id))))
                 PZero participants in
      let m := PAdd c2 (PNeg s) in
      match BabyStepGiantStepECC m Generator maxMessage with
      | Err e => Err (Wrap "failed to decrypt message" e)
      | Ok messageScalar => Ok messageScalar
      end
  end.

(** [src/crypto/elgamal/dkg/proof.go:12-23] BuildCommitment, of the nonce [r] *)
Definition BuildCommitment (r : Z) (c : point) : CPCommitment :=
  {| cm_A1 := ScalarBaseMult r; cm_A2 := ScalarMult c r |}.
(** [src/crypto/elgamal/dkg/proof.go:26-34] *)
Definition BuildPartialResponse (p : Participant) (r lambda e order : Z) : Z :=
  (lambda * PrivateShare p * e + r) mod order.
(** [src/crypto/elgamal/dkg/proof.go:38-62] *)
Definition AssembleDecryptionProof (commitments : list CPCommitment) (partZ : list Z) : DecryptionProof :=
  {| A1 := foldl (λ s c, PAdd s (cm_A1 c)) PZero commitments;
     A2 := foldl (λ s c, PAdd s (cm_A2 c)) PZero commitments;
     dp_Z := foldl Z.add 0 partZ mod Order |}.
End dkg.

(** ** Interpolation *)

Section interpolation.
Context (q : Z) (Hq : prime q).
Infix "≡" := (cong q) (at level 70).

Fixpoint ladd (k l : list Z) : list Z :=
  match k, l with a :: k, b :: l => (a + b) :: ladd k l | [], l => l | k, [] => k end.
Lemma peval_ladd k l x : peval (ladd k l) x = peval k x + peval l x.
Proof. revert l. induction k as [|a k IH]; intros [|b l]; cbn; try lia. rewrite IH. ring. Qed.
Lemma length_ladd k l : length (ladd k l) = max (length k) (length l).
Proof. revert l. induction k as [|a k IH]; intros [|b l]; cbn; try done. by rewrite IH. Qed.
Lemma peval_scale a l x : peval (Z.mul a <$> l) x = a * peval l x.
Proof. induction l as [|b l IH]; cbn; [lia|]. rewrite IH. ring. Qed.

(** Functions given by a polynomial of at most [n] coefficients. *)
Definition is_poly (n : nat) (f : Z → Z) : Prop := ∃ l, (length l ≤ n)%nat ∧ ∀ x, peval l x = f x.
Lemma is_poly_0 n : is_poly n (λ _, 0).
Proof. exists []. split; [cbn; lia|done]. Qed.
Lemma is_poly_add n f g : is_poly n f → is_poly n g → is_poly n (λ x, f x + g x).
Proof.
  intros (k & Hk & Hf) (l & Hl & Hg). exists (ladd k l). rewrite length_ladd. split; [lia|].
  intros x. by rewrite peval_ladd, Hf, Hg.
Qed.
Lemma is_poly_scale n a f : is_poly n f → is_poly n (λ x, a * f x).
Proof.
  intros (l & Hl & Hf). exists (Z.mul a <$> l). rewrite length_fmap. split; [done|].
  intros x. by rewrite peval_scale, Hf.
Qed.
Lemma is_poly_linear n a f : is_poly n f → is_poly (S n) (λ x, (x - a) * f x).
Proof.
  intros (l & Hl & Hf). exists (ladd (0 :: l) (Z.mul (- a) <$> l)).
  rewrite length_ladd, length_fmap. cbn [length]. split; [lia|].
  intros x. rewrite peval_ladd, peval_scale, <-Hf. cbn [peval]. ring.
Qed.

(** The product of [x - j] over the points other than [i]. *)
Fixpoint lprod (i : Z) (xs : list Z) (x : Z) : Z :=
  match xs with [] => 1 | j :: xs => if i =? j then lprod i xs x else (x - j) * lprod i xs x end.
Lemma lprod_poly_S i xs : is_poly (S (length xs)) (lprod i xs).
Proof.
  induction xs as [|j xs IH]; cbn [lprod length].
  - exists [1]. split; [cbn; lia|]. intros x. cbn. lia.
  - destruct (i =? j); [|by apply is_poly_linear]. destruct IH as (l & Hl & Hf). exists l. split; [lia|done].
Qed.
Lemma lprod_poly i xs : i ∈ xs → is_poly (length xs) (lprod i xs).
Proof.
  induction xs as [|j xs IH]; [by intros ?%not_elem_of_nil|]. cbn [lprod length]. intros Hi.
  destruct (Z.eqb_spec i j) as [->|Hne]; [apply lprod_poly_S|]. apply is_poly_linear, IH. set_solver.
Qed.
Lemma lprod_0 i k xs : k ∈ xs → i ≠ k → lprod i xs k = 0.
Proof.
  intros Hk Hik. induction xs as [|j xs IH]; [by apply not_elem_of_nil in Hk|]. cbn [lprod].
  apply elem_of_cons in Hk as [->|Hk].
  - rewrite (proj2 (Z.eqb_neq _ _) Hik). lia.
  - destruct (i =? j); rewrite IH by done; lia.
Qed.
(** The points are distinct modulo [q]. *)
Definition distinct (xs : list Z) : Prop := NoDup xs ∧ ∀ a b, a ∈ xs → b ∈ xs → a ≡ b → a = b.
Lemma lprod_self i xs : distinct xs → i ∈ xs → ¬ (q | lprod i xs i).
Proof.
  intros [_ Hd] Hi. assert (H : ∀ ys, ys ⊆ xs → ¬ (q | lprod i ys i)).
  { induction ys as [|j ys IH]; intros Hys; cbn [lprod].
    - intros Hdiv. apply Z.divide_1_r in Hdiv. pose proof (prime_ge_2 _ Hq). lia.
    - destruct (Z.eqb_spec i j) as [->|Hne]; [apply IH; set_solver|].
      intros [Hdiv|Hdiv]%prime_mult; [|by apply IH in Hdiv; [|set_solver]|done].
      apply Hne. apply (Hd i j); [done|apply Hys; left|exact Hdiv]. }
  by apply H.
Qed.

(** The sum of a function over a list. *)
Fixpoint zsum {A} (f : A → Z) (l : list A) : Z := match l with [] => 0 | a :: l => f a + zsum f l end.
Lemma zsum_poly {A} n (f : A → Z → Z) l :
  (∀ a, a ∈ l → is_poly n (f a)) → is_poly n (λ x, zsum (λ a, f a x) l).
Proof.
  induction l as [|a l IH]; intros Hf; cbn; [apply is_poly_0|].
  apply is_poly_add; [apply Hf; left|]. apply IH. intros b Hb. apply Hf. by right.
Qed.
Lemma zsum_single (f : Z → Z) k l : NoDup l → k ∈ l → (∀ i, i ∈ l → i ≠ k → f i = 0) → zsum f l = f k.
Proof.
  induction l as [|a l IH]; intros Hnd Hk Hf; [by apply not_elem_of_nil in Hk|].
  apply NoDup_cons in Hnd as [Ha Hnd]. cbn. apply elem_of_cons in Hk as [->|Hk].
  - assert (Hall : ∀ i, i ∈ l → f i = 0) by (intros i Hi; apply Hf; [by right|intros ->; contradiction]).
    assert (Hz : zsum f l = 0); [|lia]. clear -Hall. induction l as [|b l IH]; cbn; [done|].
    rewrite Hall by left. rewrite IH; [done|]. intros i Hi. apply Hall. by right.
  - rewrite (Hf a); [|by left|intros ->; contradiction]. rewrite IH; [lia|done..|].
    intros i Hi. apply Hf. by right.
Qed.
(** Interpolation at [xs]: a polynomial with no more coefficients than points. *)
Lemma lagrange l xs (c : Z → Z) :
  (length l ≤ length xs)%nat → distinct xs →
  (∀ i, i ∈ xs → c i * lprod i xs i ≡ 1) →
  ∀ x, zsum (λ i, c i * lprod i xs x * peval l i) xs ≡ peval l x.
Proof.
  intros Hl Hd Hc x. assert (Hp : is_poly (length xs) (λ x, zsum (λ i, c i * lprod i xs x * peval l i) xs + (-1) * peval l x)).
  { apply is_poly_add; [|apply is_poly_scale; by exists l].
    apply (zsum_poly _ (λ i x, c i * lprod i xs x * peval l i)). intros i Hi.
    destruct (is_poly_scale _ (c i * peval l i) _ (lprod_poly i xs Hi)) as (k & Hk & Hf).
    exists k. split; [done|]. intros y. rewrite Hf. ring. }
  destruct Hp as (k & Hk & Hf). assert (H0 : peval k x ≡ 0).
  { apply (peval_roots q Hq (length xs) k xs); [done..| |].
    - intros r Hr. rewrite Hf, (zsum_single _ r); [|apply Hd|done|].
      + rewrite (Hc r Hr). replace (1 * peval l r + -1 * peval l r) with 0 by lia. reflexivity.
      + intros i Hi Hir. rewrite lprod_0 by done. lia.
    - intros i j r s Hr Hs Hij Hrs. apply Hij.
      assert (r = s) as <- by (apply (proj2 Hd); [by eapply list_elem_of_lookup_2..|done]).
      by eapply NoDup_lookup; [apply (proj1 Hd)|..]. }
  rewrite Hf in H0. unfold cong in *. replace (_ - peval l x) with (zsum (λ i, c i * lprod i xs x * peval l i) xs + -1 * peval l x - 0) by lia. done.
Qed.
End interpolation.

(** ** What the protocol computes *)

Section facts.
Context `{Curve}.
#[local] Notation "a ≡ b" := (cong Order a b) (at level 70).
Lemma Order_ne : Order ≠ 0.
Proof. pose proof Order_pos. lia. Qed.
#[local] Hint Resolve Order_ne Order_prime : core.

Lemma eval_loop_spec x r pw cs : eval_loop x r pw cs ≡ r + pw * peval cs x.
Proof.
  revert r pw. induction cs as [|c cs IH]; intros r pw; cbn [eval_loop peval].
  - replace (r + pw * 0) with r by lia. reflexivity.
  - rewrite IH, !cong_mod by done. replace (r + pw * (c + x * peval cs x)) with (r + c * pw + pw * x * peval cs x) by ring.
    reflexivity.
Qed.
Lemma commitment_sum_spec x pw rhs cs :
  commitment_sum x pw rhs (ScalarMult Generator <$> cs) = PAdd rhs (ScalarBaseMult (pw * peval cs x)).
Proof.
  revert pw rhs. induction cs as [|c cs IH]; intros pw rhs; cbn [commitment_sum fmap list_fmap peval].
  - rewrite Z.mul_0_r. unfold ScalarBaseMult. by rewrite ScalarMult_0, PAdd_0_r.
  - rewrite IH, <-PAdd_assoc. f_equal. unfold ScalarBaseMult. rewrite smul_mul, <-smul_add. f_equal. ring.
Qed.

(** The check of a share against the sender's commitments accepts exactly the
    values, modulo the order, of the committed polynomial at the receiver. *)
Theorem verifyShare_spec p share cs :
  verifyShare p share (ScalarMult Generator <$> cs) = true ↔
  share mod Order = peval cs (p_Ident p) mod Order.
Proof.
  unfold verifyShare. rewrite bool_decide_eq_true, commitment_sum_spec, PAdd_0_l, Z.mul_1_l. apply base_eq.
Qed.

Lemma lagrange_fraction_spec i xs n d :
  let '(num, den) := foldl (λ '(num, den) j,
    if i =? j then (num, den)
    else ((num * ((- j) mod Order)) mod Order,
          (den * ((let d := i - j in if d <? 0 then d + Order else d) mod Order)) mod Order)) (n, d) xs in
  num ≡ n * lprod i xs 0 ∧ den ≡ d * lprod i xs i.
Proof.
  revert n d. induction xs as [|j xs IH]; intros n d; cbn [foldl lprod].
  { rewrite !Z.mul_1_r. split; reflexivity. }
  destruct (Z.eqb_spec i j) as [->|Hne]; [apply IH|].
  match goal with |- context [foldl ?f (?a, ?b) xs] => specialize (IH a b); destruct (foldl f (a, b) xs) as [num den] end.
  destruct IH as [IHn IHd]. rewrite IHn, IHd, !cong_mod by done. split.
  - replace (n * - j * lprod i xs 0) with (n * ((0 - j) * lprod i xs 0)) by ring. reflexivity.
  - assert (Hd : (let d0 := i - j in if d0 <? 0 then d0 + Order else d0) ≡ i - j).
    { cbv zeta. destruct (_ <? 0); [exists 1; lia|reflexivity]. }
    rewrite Hd. replace (d * (i - j) * lprod i xs i) with (d * ((i - j) * lprod i xs i)) by ring. reflexivity.
Qed.
Lemma lagrange_coeff_spec i xs :
  distinct Order xs → i ∈ xs →
  ∃ c lambda, lagrange_coeff xs Order i = Some lambda ∧ c * lprod i xs i ≡ 1 ∧ lambda ≡ c * lprod i xs 0.
Proof.
  intros Hd Hi. unfold lagrange_coeff, lagrange_fraction.
  pose proof (lagrange_fraction_spec i xs 1 1) as Hf. destruct (foldl _ (1, 1) xs) as [num den].
  destruct Hf as [Hn Hden]. rewrite Z.mul_1_l in Hn, Hden.
  destruct (ModInverse_spec den Order) as (inv & Hinv & H1); [apply Order_pos| |].
  { rewrite Z.gcd_comm. apply Zgcd_1_rel_prime, prime_rel_prime; [done|].
    intros [k Hk]. apply (lprod_self Order Order_prime i xs Hd Hi). destruct Hden as [l Hl]. exists (k - l). lia. }
  rewrite Hinv. cbn. eexists inv, _. split; [done|]. split.
  - rewrite <-Hden. apply cong_mod_eq; [done|]. rewrite H1. symmetry. apply Z.mod_small. pose proof Order_pos. lia.
  - rewrite cong_mod, Hn, Z.mul_comm by done. reflexivity.
Qed.
Lemma computeLagrangeCoefficients_spec xs :
  distinct Order xs →
  ∃ m : gmap Z Z, computeLagrangeCoefficients xs Order = Ok m ∧ ∀ i, i ∈ xs → m !! i = lagrange_coeff xs Order i.
Proof.
  intros Hd. unfold computeLagrangeCoefficients.
  assert (H' : ∀ ys (m : gmap Z Z), ys ⊆ xs → ∃ m' : gmap Z Z, foldl (λ acc i, match acc with
      | Ok coeffs => match lagrange_coeff xs Order i with
                     | Some coeff => Ok (<[i:=coeff]> coeffs)
                     | None => Err (ErrMsg "modular inverse does not exist") end
      | Err e => Err e end) (Ok m) ys = Ok m' ∧
    (∀ i, i ∈ ys → m' !! i = lagrange_coeff xs Order i) ∧ ∀ i, i ∉ ys → m' !! i = m !! i).
  { induction ys as [|y ys IH]; intros m Hys; cbn [foldl].
    { exists m. split; [done|]. split; [|done]. by intros i ?%not_elem_of_nil. }
    destruct (lagrange_coeff_spec y xs Hd) as (c & l & Hl & _); [apply Hys; left|]. rewrite Hl.
    destruct (IH (<[y:=l]> m)) as (m' & Hm' & Hin & Hout); [set_solver|]. exists m'. split; [done|]. split.
    - intros i Hi. destruct (decide (i ∈ ys)); [auto|]. apply elem_of_cons in Hi as [->|]; [|done].
      by rewrite Hout, lookup_insert_eq.
    - intros i [Hne Hi]%not_elem_of_cons. by rewrite Hout, lookup_insert_ne. }
  destruct (H' xs ∅) as (m & Hm & Hin & _); [done|]. exists m. eauto.
Qed.

(** Partial decryptions with shares on a polynomial, weighted and summed. *)
Lemma weighted_sum (c : point) (lam sh : Z → Z) xs acc :
  foldl (λ s id, PAdd s (ScalarMult (ScalarMult c (sh id)) (lam id))) acc xs =
  PAdd acc (ScalarMult c (zsum (λ i, lam i * sh i) xs)).
Proof.
  revert acc. induction xs as [|i xs IH]; intros acc; cbn [foldl zsum].
  - by rewrite ScalarMult_0, PAdd_0_r.
  - rewrite IH, smul_mul, <-PAdd_assoc, <-smul_add. do 3 f_equal. lia.
Qed.
Lemma zsum_cong {A} (f g : A → Z) l : (∀ a, a ∈ l → f a ≡ g a) → zsum f l ≡ zsum g l.
Proof.
  induction l as [|a l IH]; intros Hfg; cbn; [reflexivity|]. rewrite (Hfg a), IH; [reflexivity| |by left].
  intros b Hb. apply Hfg. by right.
Qed.
Lemma Combine_shares c pd xs l d max m :
  distinct Order xs → (length l ≤ length xs)%nat → in_subgroup (c1 c) →
  (∀ i, i ∈ xs → ∃ s, pd i = ScalarMult (c1 c) s ∧ s ≡ peval l i) → d ≡ peval l 0 →
  plain d c = ScalarBaseMult m → 0 ≤ m ≤ max → max < Order → max ≤ 4294967295 * 4294967295 →
  CombinePartialDecryptions (c2 c) pd xs max = Ok m.
Proof.
  intros Hd Hl Hsub Hpd Hd0 Hc Hm Hmax Hfit. unfold CombinePartialDecryptions.
  destruct (computeLagrangeCoefficients_spec xs Hd) as (cs & -> & Hcs).
  assert (Hsum : foldl (λ s id, PAdd s (ScalarMult (pd id) (default 0 (cs !! id)))) PZero xs = ScalarMult (c1 c) d).
  { assert (Hsh : ∃ sh, ∀ i, i ∈ xs → pd i = ScalarMult (c1 c) (sh i) ∧ sh i ≡ peval l i).
    { clear -Hpd. induction xs as [|x xs IH]; [exists (λ _, 0); by intros i ?%not_elem_of_nil|].
      destruct IH as [sh Hsh]; [intros i Hi; apply Hpd; by right|].
      destruct (Hpd x) as (s & Hs1 & Hs2); [by left|]. exists (λ i, if decide (i = x) then s else sh i).
      intros i Hi. destruct (decide (i = x)) as [->|Hne]; [done|]. apply Hsh. set_solver. }
    destruct Hsh as [sh Hsh]. transitivity (foldl (λ s id, PAdd s (ScalarMult (ScalarMult (c1 c) (sh id)) (default 0 (cs !! id)))) PZero xs).
    { assert (Hf : ∀ ys acc, ys ⊆ xs → foldl (λ s id, PAdd s (ScalarMult (pd id) (default 0 (cs !! id)))) acc ys =
        foldl (λ s id, PAdd s (ScalarMult (ScalarMult (c1 c) (sh id)) (default 0 (cs !! id)))) acc ys); [|by apply Hf].
      induction ys as [|y ys IH]; intros acc Hys; cbn; [done|]. rewrite (proj1 (Hsh y (Hys y ltac:(left)))).
      apply IH. set_solver. }
    rewrite weighted_sum, PAdd_0_l. apply smul_mod_eq; [done|]. apply cong_mod_eq; [done|]. rewrite Hd0.
    assert (Hex : ∃ k, ∀ i, i ∈ xs → k i * lprod i xs i ≡ 1 ∧ default 0 (cs !! i) ≡ k i * lprod i xs 0).
    { assert (Hex : ∀ ys, ys ⊆ xs → ∃ k, ∀ i, i ∈ ys → k i * lprod i xs i ≡ 1 ∧ default 0 (cs !! i) ≡ k i * lprod i xs 0); [|by apply Hex].
      induction ys as [|y ys IH]; intros Hys; [exists (λ _, 0); by intros i ?%not_elem_of_nil|].
      destruct IH as [k Hk]; [set_solver|].
      destruct (lagrange_coeff_spec y xs Hd) as (a & lam & Hlam & Ha1 & Ha2); [apply Hys; left|].
      exists (λ i, if decide (i = y) then a else k i). intros i Hi. destruct (decide (i = y)) as [->|Hne].
      - split; [done|]. rewrite Hcs, Hlam by (apply Hys; left). done.
      - apply Hk. set_solver. }
    destruct Hex as [k Hk].
    rewrite <-(lagrange Order Order_prime l xs k Hl Hd (λ i Hi, proj1 (Hk i Hi)) 0).
    apply zsum_cong. intros i Hi. by rewrite (proj2 (Hk i Hi)), (proj2 (Hsh i Hi)). }
  rewrite Hsum. fold (plain d c). rewrite Hc.
  assert (Hrange : 0 ≤ max < Order) by lia.
  pose proof (BabyStepGiantStepECC_spec m max Hrange Hfit) as Hb.
  destruct (BabyStepGiantStepECC _ _ _) as [x|e].
  - destruct Hb as [Hx Heq%base_inj]; [by subst|lia..].
  - exfalso. by apply (Hb m).
Qed.

(** *** The protocol of one participant *)

(** The shares of the others, [(from, share, commitments)] in the order received. *)
Definition receive_all (msgs : list (Z * Z * list point)) (p : Participant) : result Participant :=
  foldl (λ acc '(from, share, cs), match acc with Ok p => ReceiveShare from share cs p | Err e => Err e end) (Ok p) msgs.
(** A participant [i] with the polynomial [coeffs], from its creation to its share of the key. *)
Definition join (t : nat) (parts coeffs : list Z) (msgs : list (Z * Z * list point)) (i : Z) : result Participant :=
  match receive_all msgs (ComputeShares (GenerateSecretPolynomial coeffs (NewParticipant i t parts))) with
  | Err e => Err e
  | Ok p => match AggregateShares p with Some p => Ok p | None => Err (ErrMsg "panic") end
  end.
(** What a participant of the protocol sends. *)
Definition dealer (t : nat) (parts coeffs : list Z) (i : Z) : Participant :=
  ComputeShares (GenerateSecretPolynomial coeffs (NewParticipant i t parts)).

Lemma ComputeShares_lookup p i :
  i ∈ Participants p → SecretShares (ComputeShares p) !! i = Some (evaluatePolynomial p i).
Proof.
  cbn. generalize (SecretShares p). induction (Participants p) as [|j l IH]; intros m; [by intros ?%not_elem_of_nil|].
  cbn. intros Hi. destruct (decide (i ∈ l)) as [Hl|Hl]; [by apply IH|].
  apply elem_of_cons in Hi as [->|]; [|done]. clear IH. revert m. induction l as [|k l IH]; intros m; cbn.
  - apply lookup_insert_eq.
  - apply not_elem_of_cons in Hl as [Hk Hl]. rewrite insert_insert_ne by done. by apply IH.
Qed.
Lemma receive_all_spec msgs p p' :
  receive_all msgs p = Ok p' →
  p_Ident p' = p_Ident p ∧ SecretShares p' = SecretShares p ∧
  ReceivedShares p' = foldl (λ m '(j, s), <[j:=s]> m) (ReceivedShares p) msgs.*1 ∧
  ∀ j s cs, (j, s, cs) ∈ msgs → verifyShare p s cs = true.
Proof.
  revert p. induction msgs as [|[[j s] cs] msgs IH]; intros p; cbn.
  { intros [= <-]. split_and!; try done. by intros ??? ?%not_elem_of_nil. }
  fold (receive_all msgs). destruct (ReceiveShare j s cs p) as [q|e] eqn:E.
  - unfold receive_all in IH. intros Hq. unfold ReceiveShare in E. destruct (verifyShare p s cs) eqn:Hv; [|done].
    cbn in E. injection E as <-. destruct (IH _ Hq) as (H1 & H2 & H3 & H4). split_and!; try done.
    intros j' s' cs' [[= -> -> ->]|Hin]%elem_of_cons; [done|]. by apply (H4 j').
  - intros Hq. exfalso. clear -Hq. induction msgs as [|[[??]?] msgs IH]; [done|auto].
Qed.
Lemma foldl_insert_perm (l : list (Z * Z)) :
  NoDup l.*1 → map_to_list (foldl (λ (m : gmap Z Z) '(j, s), <[j:=s]> m) ∅ l) ≡ₚ l.
Proof.
  intros Hnd. assert (Heq : foldl (λ (m : gmap Z Z) '(j, s), <[j:=s]> m) ∅ l = list_to_map (reverse l)).
  { clear Hnd. induction l as [|[j s] l IH] using rev_ind; [done|]. rewrite foldl_snoc, reverse_snoc, IH. done. }
  rewrite Heq, map_to_list_to_map; [apply reverse_Permutation|]. rewrite fmap_reverse. by rewrite reverse_Permutation.
Qed.
Lemma zsum_perm {A} (f : A → Z) k l : k ≡ₚ l → zsum f k = zsum f l.
Proof. induction 1; cbn; lia. Qed.
Lemma zsum_fmap {A B} (g : A → B) (f : B → Z) l : zsum f (g <$> l) = zsum (λ a, f (g a)) l.
Proof. induction l as [|a l IH]; cbn; congruence. Qed.
Lemma aggregate_sum l own : foldl (λ acc share, (acc + share) mod Order) own l ≡ own + zsum id l.
Proof.
  revert own. induction l as [|a l IH]; intros own; cbn.
  - rewrite Z.add_0_r. reflexivity.
  - rewrite IH, cong_mod, Z.add_assoc by done. reflexivity.
Qed.
Lemma join_spec t parts coeffs msgs i p :
  i ∈ parts → length coeffs = t → NoDup msgs.*1.*1 → join t parts coeffs msgs i = Ok p →
  PrivateShare p ≡ peval coeffs i + zsum snd msgs.*1 ∧
  ∀ j s cs, (j, s, cs) ∈ msgs → ScalarBaseMult s = commitment_sum i 1 PZero cs.
Proof.
  intros Hi Ht Hnd. unfold join. fold (dealer t parts coeffs i).
  destruct (receive_all msgs _) as [p'|] eqn:E; [|done]. apply receive_all_spec in E as (Hid & Hs & Hr & Hv).
  unfold AggregateShares. rewrite Hid, Hs.
  assert (Hown : SecretShares (dealer t parts coeffs i) !! i = Some (eval_loop i 0 1 coeffs)).
  { unfold dealer. rewrite ComputeShares_lookup by done. unfold evaluatePolynomial. cbn.
    by rewrite take_ge by lia. }
  assert (Hid0 : p_Ident (dealer t parts coeffs i) = i) by done. rewrite Hid0, Hown. intros [= <-]. cbn [PrivateShare]. split.
  - rewrite aggregate_sum, eval_loop_spec, Hr, zsum_fmap.
    assert (Hz : zsum (λ a, id a.2) (map_to_list (foldl (λ m '(j, s), <[j:=s]> m) (∅ : gmap Z Z) msgs.*1)) = zsum snd msgs.*1)
      by (by apply zsum_perm, foldl_insert_perm).
    cbn in Hz |- *. rewrite Hz. replace (0 + 1 * peval coeffs i) with (peval coeffs i) by lia. reflexivity.
  - intros j s cs Hin. specialize (Hv j s cs Hin). unfold verifyShare in Hv. rewrite Hid0 in Hv.
    by apply bool_decide_eq_true in Hv.
Qed.

(** *** The polynomial of the key *)

Definition key_poly (polys : Z → list Z) (parts : list Z) : list Z := foldr (λ j l, ladd (polys j) l) [] parts.
Lemma key_poly_spec polys parts x : peval (key_poly polys parts) x = zsum (λ j, peval (polys j) x) parts.
Proof. induction parts as [|j l IH]; [done|]. cbn [zsum]. rewrite <-IH. apply peval_ladd. Qed.
Lemma length_key_poly polys parts t :
  (∀ j, j ∈ parts → length (polys j) = t) → (length (key_poly polys parts) ≤ t)%nat.
Proof.
  induction parts as [|j l IH]; intros Hl; [cbn; lia|].
  change (key_poly polys (j :: l)) with (ladd (polys j) (key_poly polys l)). rewrite length_ladd, (Hl j) by left.
  assert (length (key_poly polys l) ≤ t)%nat; [|lia]. apply IH. intros k Hk. apply Hl. by right.
Qed.
Lemma AggregatePublicKey_spec cs : AggregatePublicKey (ScalarMult Generator <$> cs) = ScalarBaseMult (zsum id cs).
Proof.
  unfold AggregatePublicKey, ScalarBaseMult. assert (H' : ∀ acc, foldl PAdd acc (ScalarMult Generator <$> cs) =
    PAdd acc (ScalarMult Generator (zsum id cs))); [|by rewrite H', PAdd_0_l].
  induction cs as [|c cs IH]; intros acc; cbn.
  - by rewrite ScalarMult_0, PAdd_0_r.
  - rewrite IH. cbn. by rewrite smul_add, PAdd_assoc.
Qed.
Lemma zsum_filter (f : Z → Z) i parts :
  NoDup parts → i ∈ parts → zsum f parts = f i + zsum f (filter (.≠ i) parts).
Proof.
  induction parts as [|j l IH]; [by intros _ ?%not_elem_of_nil|]. intros [Hj Hnd]%NoDup_cons Hi.
  cbn [zsum]. destruct (decide (j = i)) as [->|Hne].
  - rewrite filter_cons_False by (intros Hn; by apply Hn). f_equal.
    clear -Hj. induction l as [|k l IH]; [done|]. apply not_elem_of_cons in Hj as [Hk Hj].
    rewrite filter_cons_True by done. cbn. by rewrite <-IH.
  - apply elem_of_cons in Hi as [->|Hi]; [done|]. rewrite filter_cons_True by done. cbn. rewrite IH by done. lia.
Qed.

(** C24: a threshold of participants decrypts. Whatever the other participants send and
    in whatever order, if the participants [xs] completed the protocol with one share
    from each other participant against its commitments, and there are as many of them
    as the polynomials have coefficients, then their partial decryptions of a message
    encrypted with the aggregated public key combine to the message. *)
Theorem threshold_decryption t parts polys msgs ps xs m k max :
  NoDup parts → distinct Order xs → xs ⊆ parts → (t ≤ length xs)%nat →
  (∀ j, j ∈ parts → length (polys j) = t) →
  (∀ i, i ∈ xs → join t parts (polys i) (msgs i) i = Ok (ps i) ∧
    (msgs i).*1.*1 ≡ₚ filter (.≠ i) parts ∧
    ∀ j s cs, (j, s, cs) ∈ msgs i → cs = ScalarMult Generator <$> polys j) →
  0 ≤ m ≤ max → max < Order → max ≤ 4294967295 * 4294967295 →
  let pk := AggregatePublicKey ((λ j, ScalarMult Generator (hd 0 (polys j))) <$> parts) in
  let c := EncryptWithK pk m k in
  CombinePartialDecryptions (c2 c) (λ i, ComputePartialDecryption (ps i) (c1 c)) xs max = Ok m.
Proof.
  intros Hnd Hd Hsub Ht Hlen Hrun Hm Hmax Hfit pk c.
  set (d := zsum (λ j, hd 0 (polys j)) parts).
  assert (Hpk : pk = ScalarBaseMult d).
  { unfold pk, d. trans (AggregatePublicKey (ScalarMult Generator <$> ((λ j, hd 0 (polys j)) <$> parts))).
    - by rewrite <-list_fmap_compose.
    - by rewrite AggregatePublicKey_spec, zsum_fmap. }
  apply (Combine_shares c _ xs (key_poly polys parts) d); try done.
  - pose proof (length_key_poly polys parts t Hlen). lia.
  - unfold c, EncryptWithK, ScalarBaseMult. cbn. auto with subgroup.
  - intros i Hi. exists (PrivateShare (ps i)). split; [done|]. destruct (Hrun i Hi) as (Hj & Hp & Hcs).
    assert (Hip : i ∈ parts) by auto.
    destruct (join_spec t parts (polys i) (msgs i) i (ps i)) as [Hshare Hv];
      [done|by apply Hlen|rewrite Hp; by apply NoDup_filter|done|].
    rewrite Hshare, key_poly_spec, (zsum_filter _ i) by done.
    rewrite <-(zsum_perm _ _ _ Hp), !zsum_fmap.
    assert (Hz : zsum (λ a, a.1.2) (msgs i) ≡ zsum (λ a, peval (polys a.1.1) i) (msgs i)); [|by rewrite Hz].
    apply zsum_cong. intros [[j s] cs] Hin. cbn. specialize (Hv j s cs Hin). rewrite (Hcs j s cs Hin) in Hv.
    rewrite commitment_sum_spec, PAdd_0_l, Z.mul_1_l in Hv. by apply cong_mod_eq, base_eq.
  - rewrite key_poly_spec. apply zsum_cong. intros j _. destruct (polys j); cbn; [reflexivity|].
    rewrite Z.add_0_r. reflexivity.
  - unfold c. rewrite Hpk. apply plain_encrypt.
Qed.

(** *** A proof of decryption by several participants *)

Lemma foldl_PAdd {A} (f : A → Z) b (l : list A) acc :
  foldl PAdd acc ((λ a, ScalarMult b (f a)) <$> l) = PAdd acc (ScalarMult b (zsum f l)).
Proof.
  revert acc. induction l as [|a l IH]; intros acc; cbn.
  - by rewrite ScalarMult_0, PAdd_0_r.
  - rewrite IH. cbn. by rewrite smul_add, PAdd_assoc.
Qed.
Lemma foldl_add l acc : foldl Z.add acc l = acc + zsum id l.
Proof. revert acc. induction l as [|a l IH]; intros acc; cbn; [lia|]. rewrite IH. unfold id. lia. Qed.
Lemma zsum_linear {A} (f g : A → Z) e l : zsum (λ a, f a * e + g a) l = e * zsum f l + zsum g l.
Proof. induction l as [|a l IH]; cbn; lia. Qed.
Lemma foldl_points (f : CPCommitment → point) cs acc : foldl (λ s c, PAdd s (f c)) acc cs = foldl PAdd acc (f <$> cs).
Proof. revert acc. induction cs as [|c cs IH]; intros acc; cbn; [done|]. apply IH. Qed.

(** If the weighted shares add up to the key, the responses of the participants to one
    challenge, put together, are an accepted proof. *)
Lemma assembled_proof_accepted `{PoseidonHasher} c d msg e (ps : Z → Participant) (lam r : Z → Z) xs :
  in_subgroup (c1 c) → plain d c = ScalarBaseMult msg →
  zsum (λ i, lam i * PrivateShare (ps i)) xs ≡ d →
  let proof := AssembleDecryptionProof ((λ i, BuildCommitment (r i) (c1 c)) <$> xs)
    ((λ i, BuildPartialResponse (ps i) (r i) (lam i) e Order) <$> xs) in
  HashPointsToScalar [ScalarBaseMult d; ScalarBaseMult d; c1 c;
    PAdd (c2 c) (PNeg (ScalarBaseMult (msg mod Order))); A1 proof; A2 proof] = Ok e →
  VerifyDecryptionProof (ScalarBaseMult d) c msg proof = Ok ().
Proof.
  intros Hsub Hc Hd proof He. unfold VerifyDecryptionProof. rewrite He.
  rewrite (plain_shared d c msg Hc).
  assert (HA : A1 proof = ScalarBaseMult (zsum r xs) ∧ A2 proof = ScalarMult (c1 c) (zsum r xs)).
  { unfold proof, AssembleDecryptionProof. cbn [A1 A2]. rewrite !foldl_points, <-!list_fmap_compose.
    unfold ScalarBaseMult. split.
    - etransitivity; [exact (foldl_PAdd r Generator xs PZero)|apply PAdd_0_l].
    - etransitivity; [exact (foldl_PAdd r (c1 c) xs PZero)|apply PAdd_0_l]. }
  destruct HA as [-> ->].
  assert (Hz : dp_Z proof ≡ e * d + zsum r xs).
  { unfold proof, AssembleDecryptionProof. cbn [dp_Z]. rewrite cong_mod, foldl_add, zsum_fmap, Z.add_0_l by done.
    rewrite <-Hd, <-zsum_linear. apply zsum_cong. intros i _. unfold BuildPartialResponse, id.
    rewrite cong_mod by done. reflexivity. }
  assert (Hb : ∀ a, in_subgroup a → ScalarMult a (dp_Z proof) =
    PAdd (ScalarMult a (zsum r xs)) (ScalarMult (ScalarMult a d) e)).
  { intros a Ha. rewrite (smul_mod_eq a _ (zsum r xs + d * e)); [by rewrite smul_add, smul_mul|done|].
    apply cong_mod_eq; [done|]. rewrite Hz. replace (e * d + zsum r xs) with (zsum r xs + d * e) by ring. reflexivity. }
  unfold ScalarBaseMult. rewrite (Hb Generator), (Hb (c1 c)) by auto with subgroup.
  by rewrite !bool_decide_true.
Qed.
End facts.

(** ** Three participants, two of which decrypt *)

Section witnesses.
#[local] Existing Instance Concrete101.curve.
Definition poly3 (j : Z) : list Z := match j with 1 => [5; 7] | 2 => [11; 3] | _ => [2; 9] end.
Definition share_from (i j : Z) : Z * Z * list point :=
  (j, default 0 (SecretShares (dealer 2 [1; 2; 3] (poly3 j) j) !! i), ScalarMult Generator <$> poly3 j).
Definition msgs3 (i : Z) : list (Z * Z * list point) := share_from i <$> filter (.≠ i) [1; 2; 3].
Definition part3 (i : Z) : Participant :=
  match join 2 [1; 2; 3] (poly3 i) (msgs3 i) i with Ok p => p | Err _ => NewParticipant i 2 [] end.
Lemma cases3 (P : Z → Prop) : P 1 → P 3 → ∀ i, i ∈ [1; 3] → P i.
Proof. intros H1 H3 i [->|[->|Hi%elem_of_nil]%elem_of_cons]%elem_of_cons; done. Qed.
Lemma threshold_decryption_witness :
  let pk := AggregatePublicKey ((λ j, ScalarMult Generator (hd 0 (poly3 j))) <$> [1; 2; 3]) in
  let c := EncryptWithK pk 42 33 in
  CombinePartialDecryptions (c2 c) (λ i, ComputePartialDecryption (part3 i) (c1 c)) [1; 3] 50 = Ok 42.
Proof.
  apply (threshold_decryption 2 [1; 2; 3] poly3 msgs3 part3 [1; 3] 42 33 50).
  - apply (bool_decide_unpack _). by vm_compute.
  - split; [apply (bool_decide_unpack _); by vm_compute|]. intros a b Ha Hb [k Hk].
    unfold Order in Hk. cbn in Hk. unfold Concrete101.q in Hk. set_unfold. lia.
  - set_solver.
  - done.
  - intros j _. do 4 (destruct j as [|j|j]; try done; try destruct j as [j|j|]; try done).
  - apply cases3; (split; [by vm_compute|split; [by vm_compute|]]);
      intros j s cs Hin; by apply list_elem_of_fmap in Hin as (j' & [= -> _ ->] & _).
  - lia.
  - by vm_compute.
  - by vm_compute.
Defined.
End witnesses.
