(* ===== verification/StateTree.v ===== *)
(** * The state tree of a process

    [src/state/state.go], [merkleproof.go]: the Merkle tree that holds the
    configuration, the encrypted results, the ballots and the vote identifiers of a
    process. arbo's tree is a parameter with its map of keys to values as contract;
    a write transaction stages a tree, which its commit puts in the place of the
    committed one. The readers and writers of a tree are an interface
    ([arboTransitionTree]), which the state, its transactions and the batches implement. *)

From S2P Require Import Prelude Bytes Spec Types Curve ElGamal.

(** ** arbo *)

(** arbo's [GnarkVerifierProof]; [Fnc] is 0 in a proof of inclusion, 1 in one of
    exclusion. *)
Record GnarkVerifierProof := {
  gp_Root : Z; gp_Siblings : list Z; gp_Key : Z; gp_Value : Z;
  gp_OldKey : Z; gp_OldValue : Z; gp_IsOld0 : Z; gp_Fnc : Z }.

(** A tree of arbo at a root, with the values of its leaves. Reads find the keys of the
    tree, writes change the one key; writes and proofs can fail. *)
Class Arbo := {
  tree : Type;
  t_Get : tree → Z → result (list Z);
  t_Add : tree → Z → list Z → result tree;
  t_Update : tree → Z → list Z → result tree;
  t_Root : tree → result Z;
  t_SetRoot : tree → Z → result tree;
  t_RootExists : tree → Z → result ();
  t_Snapshot : tree → Z → result tree;
  t_Proof : tree → Z → result GnarkVerifierProof;
  t_Open : bytes → result tree;
  content : tree → gmap Z (list Z);
  t_Get_content t k :
    t_Get t k = match content t !! k with Some v => Ok v | None => Err ErrArboKeyNotFound end;
  t_Add_content t k v t' :
    t_Add t k v = Ok t' → content t !! k = None ∧ content t' = <[k := v]> (content t);
  t_Update_content t k v t' :
    t_Update t k v = Ok t' → is_Some (content t !! k) ∧ content t' = <[k := v]> (content t);
  t_Proof_Fnc t k p :
    t_Proof t k = Ok p →
    gp_Fnc p = (match content t !! k with Some _ => 0 | None => 1 end) ∧ t_Root t = Ok (gp_Root p);
}.

Section state.
Context `{Curve} `{Arbo} (ScalarField : Z).

(** ** The state and its transactions *)

(** [src/state/state.go:23-29] *)
Definition KeyProcessID : uint64 := U64 StateKeyProcessID.
(** [src/state/state.go:23-29] *)
Definition KeyBallotMode : uint64 := U64 StateKeyBallotMode.
(** [src/state/state.go:23-29] *)
Definition KeyEncryptionKey : uint64 := U64 StateKeyEncryptionKey.
(** [src/state/state.go:23-29] *)
Definition KeyResults : uint64 := U64 StateKeyResults.
(** [src/state/state.go:23-29] *)
Definition KeyCensusOrigin : uint64 := U64 StateKeyCensusOrigin.

(** [src/state/state.go:38-42] State: the committed tree; [s_fault] is the failure, if
    any, of the commits of its database *)
Record State := { s_tree : tree; s_processID : ProcessID; s_fault : option error }.
(** [src/state/state.go:143-146] stateTreeTx: a nil [tx] is a transaction that ended *)
Record stateTreeTx := { tx_state : State; tx_tx : option tree }.

Definition set_tree (t : tree) (s : State) : State :=
  {| s_tree := t; s_processID := s_processID s; s_fault := s_fault s |}.
Definition set_tx (tx : option tree) (x : stateTreeTx) : stateTreeTx := {| tx_state := tx_state x; tx_tx := tx |}.

(** [src/state/state.go:63-85] New *)
Definition New (fault : option error) (processID : ProcessID) : result State :=
  if negb (pid_MathBigInt processID <? ScalarField) then Err (ErrMsg "processID is not in field")
  else if negb (pid_IsValid processID) then Err (ErrMsg "processID is not valid")
  else match t_Open (pid_bytes processID) with
       | Err e => Err e
       | Ok t => Ok {| s_tree := t; s_processID := processID; s_fault := fault |}
       end.
(** [src/state/state.go:120-141] openTreeForRootCheck *)
Definition openTreeForRootCheck (processID : ProcessID) (root : option Z) : result (tree * Z) :=
  match root with
  | None => Err (ErrMsg "nil state root")
  | Some root =>
      if negb (pid_IsValid processID) then Err (ErrMsg "processID is not valid")
      else match t_Open (pid_bytes processID) with
           | Err e => Err (Wrap "could not open state" e)
           | Ok t => Ok (t, root)
           end
  end.
(** [src/state/state.go:88-105] LoadSnapshotOnRoot *)
Definition LoadSnapshotOnRoot (fault : option error) (processID : ProcessID) (root : option Z) : result State :=
  match openTreeForRootCheck processID root with
  | Err e => Err e
  | Ok (t, rootBytes) =>
      match t_RootExists t rootBytes with
      | Err e => Err (Wrap "could not find root in state" e)
      | Ok _ => match t_Snapshot t rootBytes with
                | Err e => Err (Wrap "could not snapshot state root" e)
                | Ok snapshot => Ok {| s_tree := snapshot; s_processID := processID; s_fault := fault |}
                end
      end
  end.
(** [src/state/state.go:109-118] RootExists *)
Definition RootExists (processID : ProcessID) (root : option Z) : result () :=
  match openTreeForRootCheck processID root with
  | Err e => Err e
  | Ok (t, rootBytes) =>
      match t_RootExists t rootBytes with
      | Err e => Err (Wrap "could not find root in state" e)
      | Ok _ => Ok ()
      end
  end.
(** [src/state/state.go:148-153] newTreeTx *)
Definition newTreeTx (s : State) : stateTreeTx := {| tx_state := s; tx_tx := Some (s_tree s) |}.
(** [src/state/state.go:155-168] stateTreeTx.commit *)
Definition commit (op : string) : SE stateTreeTx () := λ x,
  match tx_tx x with
  | None => (Err (ErrMsg "no active state transaction"), x)
  | Some t =>
      match s_fault (tx_state x) with
      | Some e => (Err (Wrap op e), set_tx None x)
      | None => (Ok (), {| tx_state := set_tree t (tx_state x); tx_tx := None |})
      end
  end.
(** [src/state/state.go:170-176] stateTreeTx.discard *)
Definition discard (x : stateTreeTx) : stateTreeTx := set_tx None x.
(** Run a transaction, with the deferred discard of the errors, on the state. *)
Definition in_tx {A} (m : SE stateTreeTx A) : SE State A := λ s,
  match m (newTreeTx s) with
  | (Ok a, x) => (Ok a, tx_state x)
  | (Err e, x) => (Err e, tx_state (discard x))
  end.

(** ** Readers and writers of a tree *)

(** [src/state/merkleproof.go:12-18] arboTransitionTree, with the readers
    [stateValueReader], [arboProofTree] and [arboRootReader] *)
Class arboTransitionTree (T : Type) := {
  getBigInt : Z → SE T (list Z);
  addBigInt : Z → list Z → SE T ();
  updateBigInt : Z → list Z → SE T ();
  generateGnarkVerifierProofBigInt : Z → SE T GnarkVerifierProof;
  RootAsBigInt : SE T Z }.

(** Read, or write, the tree in [x], if there is one. *)
Definition read {T A} (tr : T → option tree) (inactive : string) (f : tree → result A) : SE T A := λ x,
  match tr x with
  | None => (Err (ErrMsg inactive), x)
  | Some t => (f t, x)
  end.
Definition write {T} (tr : T → option tree) (put : tree → T → T) (inactive : string) (f : tree → result tree) : SE T () := λ x,
  match tr x with
  | None => (Err (ErrMsg inactive), x)
  | Some t => match f t with Ok t' => (Ok (), put t' x) | Err e => (Err e, x) end
  end.
Definition put_tx (t : tree) (x : stateTreeTx) : stateTreeTx := set_tx (Some t) x.

(** [src/state/state.go:178-180] State.getBigInt *)
Definition State_getBigInt (key : Z) : SE State (list Z) :=
  read (Some ∘ s_tree) "" (λ t, t_Get t key).
(** [src/state/state.go:182-184] State.addBigInt *)
Definition State_addBigInt (key : Z) (values : list Z) : SE State () :=
  write (Some ∘ s_tree) set_tree "" (λ t, t_Add t key values).
(** [src/state/state.go:186-188] State.updateBigInt *)
Definition State_updateBigInt (key : Z) (values : list Z) : SE State () :=
  write (Some ∘ s_tree) set_tree "" (λ t, t_Update t key values).
(** [src/state/state.go:190-192] State.generateGnarkVerifierProofBigInt *)
Definition State_generateProof (key : Z) : SE State GnarkVerifierProof :=
  read (Some ∘ s_tree) "" (λ t, t_Proof t key).
(** [src/state/state.go:194-199] stateTreeTx.getBigInt *)
Definition tx_getBigInt (key : Z) : SE stateTreeTx (list Z) :=
  read tx_tx "state transaction is not active" (λ t, t_Get t key).
(** [src/state/state.go:201-206] stateTreeTx.addBigInt *)
Definition tx_addBigInt (key : Z) (values : list Z) : SE stateTreeTx () :=
  write tx_tx put_tx "state transaction is not active" (λ t, t_Add t key values).
(** [src/state/state.go:208-213] stateTreeTx.updateBigInt *)
Definition tx_updateBigInt (key : Z) (values : list Z) : SE stateTreeTx () :=
  write tx_tx put_tx "state transaction is not active" (λ t, t_Update t key values).
(** [t_Root] with the error of the readers *)
Definition root_of (msg : string) (t : tree) : result Z :=
  match t_Root t with Ok root => Ok root | Err e => Err (Wrap msg e) end.
(** [src/state/state.go:215-224] stateTreeTx.RootAsBigInt *)
Definition tx_RootAsBigInt : SE stateTreeTx Z :=
  read tx_tx "state transaction is not active" (root_of "get state root").
(** [src/state/state.go:226-237] stateTreeTx.SetRootAsBigInt *)
Definition tx_SetRootAsBigInt (newRoot : option Z) : SE stateTreeTx () := λ x,
  match tx_tx x, newRoot with
  | None, _ => (Err (ErrMsg "state transaction is not active"), x)
  | _, None => (Err (ErrMsg "nil state root"), x)
  | Some t, Some root => match t_SetRoot t root with
                         | Err e => (Err (Wrap "set state root" e), x)
                         | Ok t' => (Ok (), set_tx (Some t') x)
                         end
  end.
(** [src/state/state.go:239-244] stateTreeTx.setResults, of results that are not nil *)
Definition setResults (results : Ballot) : SE stateTreeTx () :=
  tx_updateBigInt (u64Z KeyResults) (BigInts results).
(** [src/state/state.go:293-299] State.RootAsBigInt *)
Definition State_RootAsBigInt : SE State Z := read (Some ∘ s_tree) "" (root_of "get state root").
(** [src/state/state.go:303-312] State.SetRootAsBigInt *)
Definition State_SetRootAsBigInt (newRoot : option Z) : SE State () := λ s,
  match newRoot with
  | None => (Err (ErrMsg "nil state root"), s)
  | Some root => match t_SetRoot (s_tree s) root with
                 | Err e => (Err (Wrap "set state root" e), s)
                 | Ok t => (Ok (), set_tree t s)
                 end
  end.
(** [src/state/state.go:316-321] State.RootExists *)
Definition State_RootExists (root : option Z) (s : State) : result () :=
  match root with None => Err (ErrMsg "nil state root") | Some root => t_RootExists (s_tree s) root end.

#[export] Instance State_tree : arboTransitionTree State := {|
  getBigInt := State_getBigInt; addBigInt := State_addBigInt; updateBigInt := State_updateBigInt;
  generateGnarkVerifierProofBigInt := State_generateProof; RootAsBigInt := State_RootAsBigInt |}.
(** A transaction has no proofs in the program; those of its tree. *)
#[export] Instance stateTreeTx_tree : arboTransitionTree stateTreeTx := {|
  getBigInt := tx_getBigInt; addBigInt := tx_addBigInt; updateBigInt := tx_updateBigInt;
  generateGnarkVerifierProofBigInt key := read tx_tx "state transaction is not active" (λ t, t_Proof t key);
  RootAsBigInt := tx_RootAsBigInt |}.

(** ** Initialization and readers *)

(** [src/state/state.go:247-282] Initialize *)
Definition Initialize (censusOrigin ballotMode : Z) (encryptionKey : Z * Z) : SE State () := in_tx (
  got ← attempt (getBigInt (u64Z KeyProcessID));
  match got with
  | Ok _ => raise ErrStateAlreadyInitialized
  | Err e =>
      if negb (errors_Is e ErrArboKeyNotFound) then raise (Wrap "check state initialization" e)
      else
        pid ← gets (s_processID ∘ tx_state);
        wrapping "could not set process ID" (addBigInt (u64Z KeyProcessID) [pid_MathBigInt pid]);;
        wrapping "could not set ballot mode" (addBigInt (u64Z KeyBallotMode) [ballotMode]);;
        wrapping "could not set encryption key" (addBigInt (u64Z KeyEncryptionKey) [encryptionKey.1; encryptionKey.2]);;
        wrapping "could not set results" (addBigInt (u64Z KeyResults) (BigInts NewBallot));;
        wrapping "could not set census origin" (addBigInt (u64Z KeyCensusOrigin) [censusOrigin]);;
        commit "initialize state"
  end).
(** [src/state/state.go:334-343] State.ProcessID: zero if not set *)
Definition State_ProcessID (s : State) : Z := match eval (getBigInt (u64Z KeyProcessID)) s with Ok (v :: _) => v | _ => 0 end.
(** [src/state/state.go:346-355] State.CensusOrigin *)
Definition State_CensusOrigin (s : State) : Z := match eval (getBigInt (u64Z KeyCensusOrigin)) s with Ok (v :: _) => v | _ => 0 end.
(** [src/state/state.go:358-367] State.BallotMode *)
Definition State_BallotMode (s : State) : Z := match eval (getBigInt (u64Z KeyBallotMode)) s with Ok (v :: _) => v | _ => 0 end.
(** [src/circuits/types.go:42-49] EncryptionKey.Deserialize *)
Definition EncryptionKey_Deserialize (values : list Z) : result (Z * Z) :=
  match values with
  | [x; y] => Ok (x, y)
  | _ => Err (ErrMsg "invalid input length for EncryptionKey: expected 2 values")
  end.
(** [src/state/state.go:371-381] State.EncryptionKey: nil coordinates if not set *)
Definition State_EncryptionKey (s : State) : option (Z * Z) :=
  match EncryptionKey_Deserialize (match eval (getBigInt (u64Z KeyEncryptionKey)) s with Ok v => v | Err _ => [] end) with
  | Ok ek => Some ek
  | Err _ => None
  end.
(** [src/circuits/types.go:132-137] Process of the circuits *)
Record CircuitProcess := { cp_ID : Z; cp_CensusOrigin : Z; cp_BallotMode : Z; cp_EncryptionKey : option (Z * Z) }.
(** [src/state/state.go:324-331] State.Process *)
Definition State_Process (s : State) : CircuitProcess :=
  {| cp_ID := State_ProcessID s; cp_CensusOrigin := State_CensusOrigin s;
     cp_BallotMode := State_BallotMode s; cp_EncryptionKey := State_EncryptionKey s |}.
(** [src/state/state.go:388-394] resultsFromTree *)
Definition resultsFromTree `{arboTransitionTree T} : SE T Ballot :=
  v ← wrapping "failed to get results from state" (getBigInt (u64Z KeyResults));
  lift (SetBigInts v).
(** [src/state/state.go:384-386] State.Results *)
Definition Results (s : State) : result Ballot := eval resultsFromTree s.
(** [src/state/state.go:397-402] State.SetResults *)
Definition SetResults (results : option Ballot) : SE State () :=
  match results with
  | None => raise (ErrMsg "nil results")
  | Some results => updateBigInt (u64Z KeyResults) (BigInts results)
  end.

(** ** Proofs and transitions *)

(** [src/state/merkleproof.go:29-35] *)
Record ArboProof := { ap_Root : Z; ap_Siblings : list Z; ap_Key : Z; ap_Value : Z }.
(** [src/state/merkleproof.go:47-58] *)
Definition genArboProof `{arboTransitionTree T} (key : uint64) : SE T ArboProof :=
  proof ← generateGnarkVerifierProofBigInt (u64Z key);
  mret {| ap_Root := gp_Root proof; ap_Siblings := gp_Siblings proof;
          ap_Key := gp_Key proof; ap_Value := gp_Value proof |}.
(** [src/state/merkleproof.go:72-95] *)
Definition arboProofsFromAddOrUpdate `{arboTransitionTree T} (key : uint64) (v : list Z)
    : SE T (GnarkVerifierProof * GnarkVerifierProof) :=
  let k := u64Z key in
  mpBefore ← generateGnarkVerifierProofBigInt k;
  got ← attempt (getBigInt k);
  (match got with
   | Err e =>
       if negb (errors_Is e ErrArboKeyNotFound) then raise (Wrap "get key failed" e)
       else wrapping "add key failed" (addBigInt k v)
   | Ok _ => wrapping "update key failed" (updateBigInt k v)
   end);;
  mpAfter ← generateGnarkVerifierProofBigInt k;
  mret (mpBefore, mpAfter).
(** [src/state/merkleproof.go:98-112] *)
Record ArboTransition := {
  at_NewRoot : Z; at_Siblings : list Z; at_NewKey : Z; at_NewValue : Z;
  at_OldRoot : Z; at_OldKey : Z; at_OldValue : Z; at_IsOld0 : Z; at_Fnc0 : Z; at_Fnc1 : Z }.
(** [src/state/merkleproof.go:115-159] *)
Definition ArboTransitionFromArboProofPair (before after : GnarkVerifierProof) : ArboTransition :=
  let beforeIsInclusion := gp_Fnc before =? 0 in
  let afterIsInclusion := gp_Fnc after =? 0 in
  let '(fnc0, fnc1) :=
    match beforeIsInclusion, afterIsInclusion with
    | false, false => (0, 0)
    | true, true => (0, 1)
    | false, true => (1, 0)
    | true, false => (1, 1)
    end in
  {| at_Siblings := gp_Siblings before;
     at_OldRoot := gp_Root before;
     at_OldKey := if beforeIsInclusion then gp_Key before else gp_OldKey before;
     at_OldValue := if beforeIsInclusion then gp_Value before else gp_OldValue before;
     at_NewRoot := gp_Root after;
     at_NewKey := if afterIsInclusion then gp_Key after else gp_OldKey after;
     at_NewValue := if afterIsInclusion then gp_Value after else gp_OldValue after;
     at_IsOld0 := gp_IsOld0 before; at_Fnc0 := fnc0; at_Fnc1 := fnc1 |}.
(** [src/state/merkleproof.go:163-169] *)
Definition ArboTransitionFromAddOrUpdate `{arboTransitionTree T} (k : uint64) (v : list Z) : SE T ArboTransition :=
  p ← arboProofsFromAddOrUpdate k v;
  mret (ArboTransitionFromArboProofPair p.1 p.2).
(** [src/state/merkleproof.go:172-188] *)
Definition ArboTransitionFromNoop `{arboTransitionTree T} : SE T ArboTransition :=
  root ← RootAsBigInt;
  let mp := {| gp_Root := root; gp_Siblings := []; gp_Key := 0; gp_Value := 0;
               gp_OldKey := 0; gp_OldValue := 0; gp_IsOld0 := 0; gp_Fnc := 1 |} in
  mret (ArboTransitionFromArboProofPair mp mp).

(** ** What a transition does *)

(** The tree with the leaf [k], added or updated. *)
Definition put_leaf (t : tree) (k : Z) (v : list Z) : result tree :=
  match content t !! k with Some _ => t_Update t k v | None => t_Add t k v end.
Lemma put_leaf_content t k v t' : put_leaf t k v = Ok t' → content t' = <[k := v]> (content t).
Proof.
  unfold put_leaf. destruct (content t !! k); [by intros [_ ?]%t_Update_content|by intros [_ ?]%t_Add_content].
Qed.
(** The function codes of an update and of an insertion, as the circuit expects them. *)
Definition fnc_of (t : tree) (k : Z) : Z * Z := match content t !! k with Some _ => (0, 1) | None => (1, 0) end.

(** An implementation of the interface that reads and writes the tree [tr x]. *)
Class TreeView (T : Type) `{arboTransitionTree T} := {
  view : T → option tree;
  put_view : tree → T → T;
  view_put t x : view (put_view t x) = Some t;
  put_put t t' x : put_view t (put_view t' x) = put_view t x;
  put_same t x : view x = Some t → put_view t x = x;
  inactive : string;
  view_get k : getBigInt k = read view inactive (λ t, t_Get t k);
  view_add k v : addBigInt k v = write view put_view inactive (λ t, t_Add t k v);
  view_update k v : updateBigInt k v = write view put_view inactive (λ t, t_Update t k v);
  view_proof k : generateGnarkVerifierProofBigInt k = read view inactive (λ t, t_Proof t k);
  view_root x t : view x = Some t → ∃ msg, RootAsBigInt x = (root_of msg t, x) }.

Section view.
Context `{TreeView T}.
Lemma view_read {A} (f : tree → result A) x t :
  view x = Some t → read view inactive f x = (f t, x).
Proof. intros Hx. unfold read. by rewrite Hx. Qed.
Lemma view_write f x t :
  view x = Some t → write view put_view inactive f x =
    match f t with Ok t' => (Ok (), put_view t' x) | Err e => (Err e, x) end.
Proof. intros Hx. unfold write. by rewrite Hx. Qed.
Lemma attempt_get k x t :
  view x = Some t → attempt (getBigInt k) x = (Ok (t_Get t k), x).
Proof. intros Hx. unfold attempt. by rewrite view_get, (view_read _ _ _ Hx). Qed.

(** A transition of the leaf [k]: the roots before and after, and the codes of an insertion
    or an update. *)
Lemma AddOrUpdate_Ok k v x tr x' :
  ArboTransitionFromAddOrUpdate k v x = (Ok tr, x') →
  ∃ t t', view x = Some t ∧ put_leaf t (u64Z k) v = Ok t' ∧ x' = put_view t' x ∧
    t_Root t = Ok (at_OldRoot tr) ∧ t_Root t' = Ok (at_NewRoot tr) ∧
    (at_Fnc0 tr, at_Fnc1 tr) = fnc_of t (u64Z k).
Proof.
  unfold ArboTransitionFromAddOrUpdate, arboProofsFromAddOrUpdate.
  intros ([mb ma] & x2 & Hp & [= <- <-])%bind_inv_Ok. cbn [fst snd].
  apply bind_inv_Ok in Hp as (mb' & x1 & Hb & Hp). rewrite view_proof in Hb.
  destruct (view x) as [t|] eqn:Hx; [|unfold read in Hb; by rewrite Hx in Hb].
  rewrite (view_read _ _ _ Hx) in Hb. injection Hb as Hb <-.
  rewrite (bind_Ok _ _ _ _ _ (attempt_get _ _ _ Hx)), t_Get_content in Hp.
  apply bind_inv_Ok in Hp as ([] & x3 & Hw & Hp).
  assert (Hput : ∃ t', put_leaf t (u64Z k) v = Ok t' ∧ x3 = put_view t' x).
  { unfold put_leaf. destruct (content t !! u64Z k).
    - unfold wrapping in Hw. rewrite view_update, (view_write _ _ _ Hx) in Hw. destruct (t_Update _ _ _) as [t'|]; [|done].
      injection Hw as <-. by exists t'.
    - cbn [errors_Is] in Hw. rewrite bool_decide_true in Hw by done. cbn [negb] in Hw.
      unfold wrapping in Hw. rewrite view_add, (view_write _ _ _ Hx) in Hw. destruct (t_Add _ _ _) as [t'|]; [|done].
      injection Hw as <-. by exists t'. }
  destruct Hput as (t' & Hput & ->). exists t, t'.
  apply bind_inv_Ok in Hp as (ma' & x4 & Ha & [= <- <- <-]).
  rewrite view_proof, (view_read _ _ t') in Ha by apply view_put. injection Ha as Ha <-.
  apply t_Proof_Fnc in Hb as [Hfb Hrb], Ha as [Hfa Hra].
  rewrite (put_leaf_content _ _ _ _ Hput), lookup_insert_eq in Hfa.
  unfold ArboTransitionFromArboProofPair, fnc_of. rewrite Hfb, Hfa. destruct (content t !! u64Z k); done.
Qed.
Lemma Noop_Ok x tr x' :
  ArboTransitionFromNoop x = (Ok tr, x') →
  ∀ t, view x = Some t →
  x' = x ∧ t_Root t = Ok (at_OldRoot tr) ∧ at_NewRoot tr = at_OldRoot tr ∧ (at_Fnc0 tr, at_Fnc1 tr) = (0, 0).
Proof.
  unfold ArboTransitionFromNoop. intros (r & x1 & Hr & [= <- <-])%bind_inv_Ok t Hx.
  destruct (view_root x t Hx) as [msg Hm]. rewrite Hm in Hr. injection Hr as Hr <-.
  unfold root_of in Hr. destruct (t_Root t) as [root|]; [|done]. injection Hr as <-. done.
Qed.
End view.
End state.

(** ** Trees as maps

    An instance in which the root of a tree is a number that encodes its map. *)

Module MapTree.
Definition root (m : gmap Z (list Z)) : Z := Z.pos (encode m).
Definition of_root (r : Z) : result (gmap Z (list Z)) :=
  match decode (Z.to_pos r) with
  | Some m => if root m =? r then Ok m else Err (ErrMsg "root not found")
  | None => Err (ErrMsg "root not found")
  end.
Definition proof (m : gmap Z (list Z)) (k : Z) : GnarkVerifierProof :=
  {| gp_Root := root m; gp_Siblings := []; gp_Key := k; gp_Value := foldr Z.add 0 (default [] (m !! k));
     gp_OldKey := 0; gp_OldValue := 0; gp_IsOld0 := 1;
     gp_Fnc := match m !! k with Some _ => 0 | None => 1 end |}.
Definition get (m : gmap Z (list Z)) (k : Z) : result (list Z) :=
  match m !! k with Some v => Ok v | None => Err ErrArboKeyNotFound end.
Definition add (m : gmap Z (list Z)) (k : Z) (v : list Z) : result (gmap Z (list Z)) :=
  match m !! k with Some _ => Err (ErrMsg "key already exists") | None => Ok (<[k := v]> m) end.
Definition update (m : gmap Z (list Z)) (k : Z) (v : list Z) : result (gmap Z (list Z)) :=
  match m !! k with Some _ => Ok (<[k := v]> m) | None => Err ErrArboKeyNotFound end.
Definition exists_root (r : Z) : result () := match of_root r with Ok _ => Ok () | Err e => Err e end.
#[export] Program Instance arbo : Arbo := {|
  tree := gmap Z (list Z); t_Get := get; t_Add := add; t_Update := update;
  t_Root m := Ok (root m); t_SetRoot _ r := of_root r; t_RootExists _ r := exists_root r;
  t_Snapshot _ r := of_root r; t_Proof m k := Ok (proof m k); t_Open _ := Ok ∅; content m := m |}.
Next Obligation. done. Qed.
Next Obligation. intros m k v m'. unfold add. destruct (m !! k); [done|]. by intros [= <-]. Qed.
Next Obligation. intros m k v m'. unfold update. destruct (m !! k) eqn:E; [|done]. intros [= <-]. by split; [eexists|]. Qed.
Next Obligation. intros m k p [= <-]. done. Qed.
Lemma of_root_root m : of_root (root m) = Ok m.
Proof. unfold of_root, root. cbn [Z.to_pos]. by rewrite decode_encode, Z.eqb_refl. Qed.
End MapTree.
