(* ===== verification/StateVote.v ===== *)
(** * Votes in the state and in blobs

    [src/state/vote.go] and the encoding of [src/state/blobs.go]: the leaf of a ballot,
    the lookups by ballot index and vote identifier, and the blob that publishes a
    batch, which anyone can parse back. The commitments of EIP-4844 are a parameter;
    [src/types/blobs.go] and [src/crypto/blobs/blob.go] wrap it. *)

From S2P Require Import Prelude Bytes Spec Types Curve ElGamal StateTree.

(** go-ethereum's [kzg4844] and gnark's emulated limbs. *)
Class KZG := {
  BlobToCommitment : bytes → result bytes;
  kzg_ComputeCellProofs : bytes → result (list bytes);
  kzg_ComputeProof : bytes → bytes → result (bytes * bytes);
  emulated_Limbs : Z → list Z }.

Section vote.
Context `{Curve} `{Arbo} `{Hash : PoseidonHasher} `{KZG}.

(** [src/state/vote.go:84-92] Vote: nil pointers are [None] where the code allows them *)
Record Vote := {
  v_Address : option Z; v_BallotIndex : uint64; v_VoteID : uint64;
  v_Ballot : option Ballot; v_OverwrittenBallot : option Ballot;
  v_Weight : option Z; v_ReencryptedBallot : Ballot }.

(** ** Leaves *)

(** [src/state/vote.go:16-17] voteIDLeafValue *)
Definition voteIDLeafValue : Z := VoteIDLeafValue.
(** [src/state/vote.go:24-24] *)
Definition ballotTreeLeafBallotValueCount : nat := (FieldsPerBallot * 4)%nat.
(** [src/state/vote.go:32-44] *)
Definition TreeLeafValues (v : Vote) : list Z :=
  BigInts (v_ReencryptedBallot v) ++ [default 0 (v_Address v)] ++ [default 0 (v_Weight v)].
(** [src/state/vote.go:54-58] *)
Record BallotLeaf := { bl_Ballot : Ballot; bl_Address : Z; bl_Weight : Z }.
(** [src/state/vote.go:60-81] *)
Definition ballotLeafFromTreeLeafValues (values : list Z) : result BallotLeaf :=
  if (length values <? ballotTreeLeafBallotValueCount)%nat then Err (ErrMsg "expected at least 32 ballot values")
  else match SetBigInts (take ballotTreeLeafBallotValueCount values) with
       | Err e => Err e
       | Ok ballot =>
           Ok {| bl_Ballot := ballot;
                 bl_Address := default 0 (values !! ballotTreeLeafBallotValueCount);
                 bl_Weight := default 0 (values !! (ballotTreeLeafBallotValueCount + 1)%nat) |}
       end.
(** [src/state/vote.go:46-52] *)
Definition ballotFromTreeLeafValues (values : list Z) : result Ballot :=
  match ballotLeafFromTreeLeafValues values with Err e => Err e | Ok leaf => Ok (bl_Ballot leaf) end.
(** The error of a missing key, [ErrKeyNotFound] of the state. *)
Definition reader_error (e : error) : error :=
  if errors_Is e ErrArboKeyNotFound then Sentinel ErrStateKeyNotFound else e.
(** [src/state/vote.go:132-146] *)
Definition encryptedBallotFromTree `{arboTransitionTree T} (ballotIndex : uint64) : SE T Ballot :=
  got ← attempt (getBigInt (u64Z ballotIndex));
  match got with
  | Err e => raise (reader_error e)
  | Ok value => lift (ballotFromTreeLeafValues value)
  end.
(** [src/state/vote.go:159-168] *)
Definition ballotLeafFromTree `{arboTransitionTree T} (ballotIndex : uint64) : SE T BallotLeaf :=
  got ← attempt (getBigInt (u64Z ballotIndex));
  match got with
  | Err e => raise (reader_error e)
  | Ok value => lift (ballotLeafFromTreeLeafValues value)
  end.
(** [src/state/vote.go:124-126] State.EncryptedBallot *)
Definition State_EncryptedBallot (ballotIndex : uint64) (s : State) : result Ballot :=
  eval (encryptedBallotFromTree ballotIndex) s.
(** [src/state/vote.go:149-151] State.BallotLeaf *)
Definition State_BallotLeaf (ballotIndex : uint64) (s : State) : result BallotLeaf :=
  eval (ballotLeafFromTree ballotIndex) s.
(** [src/state/vote.go:171-178] ContainsVoteID *)
Definition ContainsVoteID (voteID : uint64) (s : State) : bool :=
  if negb (VoteID_Valid voteID) then false else is_Ok (eval (getBigInt (u64Z voteID)) s).
(** [src/state/vote.go:181-184] ContainsBallot *)
Definition ContainsBallot (ballotIndex : uint64) (s : State) : bool := is_Ok (eval (getBigInt (u64Z ballotIndex)) s).
(** [src/state/vote.go:190-196] IndexContainsBallot *)
Definition IndexContainsBallot (ScalarField : Z) (fault : option error) (processID : ProcessID) (ballotIndex : uint64)
    : result bool :=
  match New ScalarField fault processID with
  | Err e => Err (Wrap "could not open state" e)
  | Ok s => Ok (ContainsBallot ballotIndex s)
  end.

(** ** Blobs *)

(** [src/state/blobs.go:18-19] BlobTxBytesPerFieldElement *)
Definition BlobTxBytesPerFieldElement : nat := 32.
(** [src/state/blobs.go:18-19] BlobTxFieldElementsPerBlob *)
Definition BlobTxFieldElementsPerBlob : nat := 4096.
(** [src/types/blobs.go:26-26] *)
Definition BlobLength : nat := BlobTxFieldElementsPerBlob * BlobTxBytesPerFieldElement.
(** [src/state/blobs.go:23-27] *)
Record BlobData := { bd_Results : list Z; bd_VotersCount : Z; bd_Votes : list Vote }.

(** [src/state/blobs.go:32-54] the closure [push] of computeBlobEvalData: one more cell *)
Definition push (name : string) (bi : option Z) : SE (list bytes) () := λ cells,
  if (BlobTxFieldElementsPerBlob <=? length cells)%nat then (Err (ErrMsg "blob overflow"), cells)
  else match bi with
       | None => (Err (ErrMsg (name +:+ " is nil")), cells)
       | Some z =>
           if z <? 0 then (Err (ErrMsg (name +:+ " is negative")), cells)
           else if negb (z <? 256 ^ Z.of_nat BlobTxBytesPerFieldElement)
           then (Err (ErrMsg (name +:+ " exceeds 32 bytes")), cells)
           else (Ok (), cells ++ [be_split BlobTxBytesPerFieldElement z])
       end.
(** [src/state/blobs.go:69-87] the cells of one vote, in computeBlobEvalData *)
Definition push_vote (v : Vote) : SE (list bytes) () :=
  push "vote ID" (Some (u64Z (v_VoteID v)));;
  push "vote address" (v_Address v);;
  push "vote ballot index" (Some (u64Z (v_BallotIndex v)));;
  push "vote weight" (v_Weight v);;
  forM_ (λ p, push "reencrypted ballot coordinate" (Some p)) (BigInts (v_ReencryptedBallot v)).
(** [src/state/blobs.go:57-96] the blob of a batch, in computeBlobEvalData *)
Definition encode_blob (newResults : Ballot) (votersCount : Z) (votes : list Vote) : result bytes :=
  match (forM_ (λ p, push "results coordinate" (Some p)) (BigInts newResults);;
         push "voters count" (Some votersCount);;
         forM_ push_vote votes) [] with
  | (Err e, _) => Err e
  | (Ok _, cells) => Ok (fit BlobLength (concat cells))
  end.

(** [src/state/blobs.go:134-142] the closure [getCell] of ParseBlobData *)
Definition getCell (blob : bytes) (cellIndex : nat) : Z :=
  if (BlobTxFieldElementsPerBlob <=? cellIndex)%nat then 0
  else be_combine (take BlobTxBytesPerFieldElement (drop (cellIndex * BlobTxBytesPerFieldElement) blob)).
(** [src/state/blobs.go:162-216] the loop of ParseBlobData over the votes: [n] of them from [cellIndex] on *)
Fixpoint parse_votes (blob : bytes) (n cellIndex : nat) : result (list Vote) :=
  match n with
  | O => Ok []
  | S n =>
      let coordsPerBallot := (FieldsPerBallot * 4)%nat in
      if (BlobTxFieldElementsPerBlob <? cellIndex + 4 + coordsPerBallot)%nat
      then Err (ErrMsg "incomplete vote data in blob")
      else
        let ballotCoords := (λ j, getCell blob (cellIndex + 4 + j)) <$> seq 0 coordsPerBallot in
        match SetBigInts ballotCoords with
        | Err e => Err e
        | Ok ballot =>
            match BigIntToVoteID (Some (getCell blob cellIndex)) with
            | Err e => Err e
            | Ok voteID =>
                match BigIntToBallotIndex (Some (getCell blob (cellIndex + 2))) with
                | Err e => Err e
                | Ok ballotIndex =>
                    match parse_votes blob n (cellIndex + 4 + coordsPerBallot) with
                    | Err e => Err e
                    | Ok votes =>
                        Ok ({| v_Address := Some (getCell blob (cellIndex + 1)); v_BallotIndex := ballotIndex;
                               v_VoteID := voteID; v_Ballot := None; v_OverwrittenBallot := None;
                               v_Weight := Some (getCell blob (cellIndex + 3));
                               v_ReencryptedBallot := ballot |} :: votes)
                    end
                end
            end
        end
  end.
(** [src/state/blobs.go:120-219] *)
Definition ParseBlobData (blob : bytes) : result BlobData :=
  if negb (length blob =? BlobLength)%nat then Err (ErrMsg "unexpected blob length")
  else
    let coordsPerBallot := (FieldsPerBallot * 4)%nat in
    let results := getCell blob <$> seq 0 coordsPerBallot in
    let votersCount := getCell blob coordsPerBallot in
    if negb (votersCount <? two64) then Err (ErrMsg "invalid voters count in blob")
    else if Z.of_nat VotesPerBatch <? votersCount then Err (ErrMsg "too many votes in blob")
    else match parse_votes blob (Z.to_nat votersCount) (coordsPerBallot + 1) with
         | Err e => Err e
         | Ok votes => Ok {| bd_Results := results; bd_VotersCount := votersCount; bd_Votes := votes |}
         end.

(** ** Commitments *)

(** [src/types/blobs.go:353-359] split48bToLimbs *)
Definition ToLimbs (b : bytes) : list Z :=
  [be_combine (take 16 b); be_combine (take 16 (drop 16 b)); be_combine (take 16 (drop 32 b))].
(** [src/types/blobs.go:90-96] Blob.ComputeCommitment *)
Definition ComputeCommitment (blob : bytes) : result bytes := BlobToCommitment blob.
(** [src/types/blobs.go:99-105] Blob.ComputeCellProofs *)
Definition ComputeCellProofs (blob : bytes) : result (list bytes) := kzg_ComputeCellProofs blob.
(** [src/types/blobs.go:123-134] Blob.ComputeProof: the proof and the claimed value *)
Definition ComputeProof (blob : bytes) (point : Z) : result (bytes * Z) :=
  if negb (Z.abs point <? 256 ^ 32) then Err (ErrMsg "point does not fit in 32 bytes")
  else match kzg_ComputeProof blob (be_split 32 (Z.abs point)) with
       | Err e => Err e
       | Ok (proof, claim) => Ok (proof, be_combine claim)
       end.
(** [src/types/blobs.go:152-162] Blob.ComputeCommitmentAndCellProofs *)
Definition ComputeCommitmentAndCellProofs (blob : bytes) : result (bytes * list bytes) :=
  match ComputeCommitment blob with
  | Err e => Err (Wrap "commitment" e)
  | Ok commitment => match ComputeCellProofs blob with
                     | Err e => Err (Wrap "cell proofs" e)
                     | Ok proofs => Ok (commitment, proofs)
                     end
  end.
(** [src/crypto/ecc/format/emulated.go:44-53] *)
Definition SplitYForBn254FromBLS12381 (z : Z) : result (list Z) :=
  let limbs := emulated_Limbs z in
  if (length limbs =? 0)%nat then Err (Wrap "failed to split BLS12-381 Fr element into limbs" (ErrMsg "no limbs allocated"))
  else if negb (length limbs =? 4)%nat then Err (ErrMsg "expected 4 limbs for BLS12-381 Fr element")
  else Ok limbs.
(** [src/crypto/blobs/blob.go:17-35] BlobEvalData, without the copies for the circuit *)
Record BlobEvalData := {
  be_Commitment : bytes; be_CommitmentLimbs : list Z; be_Z : Z; be_Y : Z; be_Ylimbs : list Z;
  be_Blob : bytes; be_OpeningProof : bytes; be_ProofLimbs : list Z; be_CellProofs : list bytes }.
(** [src/crypto/blobs/blob.go:40-88] BlobEvalData.Set *)
Definition BlobEvalData_Set (blob : bytes) (z : Z) : result BlobEvalData :=
  match ComputeCommitmentAndCellProofs blob with
  | Err e => Err (Wrap "failed to compute" e)
  | Ok (commitment, cellProofs) =>
      match ComputeProof blob z with
      | Err e => Err e
      | Ok (proof, claim) =>
          match SplitYForBn254FromBLS12381 claim with
          | Err e => Err (Wrap "failed to split Y into limbs" e)
          | Ok Ylimbs =>
              Ok {| be_Commitment := commitment; be_CommitmentLimbs := ToLimbs commitment; be_Z := z; be_Y := claim;
                    be_Ylimbs := Ylimbs; be_Blob := blob; be_OpeningProof := proof; be_ProofLimbs := ToLimbs proof;
                    be_CellProofs := cellProofs |}
          end
      end
  end.
(** [src/crypto/blobs/blob.go:106-124] *)
Definition ComputeEvaluationPoint (processID rootHashBefore : Z) (commitment : bytes) : result Z :=
  MultiPoseidon poseidon_Hash ([processID; rootHashBefore] ++ ToLimbs commitment).
(** [src/types/blobs.go:261-266] BlobTxSidecar *)
Record BlobTxSidecar := { sc_Version : Z; sc_Blobs : list (option bytes); sc_Commitments : list bytes; sc_Proofs : list bytes }.
(** [src/crypto/blobs/blob.go:92-99] TxSidecar *)
Definition TxSidecar (b : BlobEvalData) : BlobTxSidecar :=
  {| sc_Version := 1; sc_Blobs := [Some (be_Blob b)]; sc_Commitments := [be_Commitment b]; sc_Proofs := be_CellProofs b |}.
(** [src/state/blobs.go:29-117] computeBlobEvalData of a batch of [s] *)
Definition computeBlobEvalData (processID : ProcessID) (rootHashBefore : Z) (newResults : Ballot)
    (votersCount : Z) (votes : list Vote) : result BlobEvalData :=
  match encode_blob newResults votersCount votes with
  | Err e => Err e
  | Ok blob =>
      match ComputeCommitment blob with
      | Err e => Err (Wrap "failed to compute commitment" e)
      | Ok commitment =>
          match ComputeEvaluationPoint (pid_MathBigInt processID) rootHashBefore commitment with
          | Err e => Err e
          | Ok z => match BlobEvalData_Set blob z with
                    | Err e => Err (Wrap "set blob eval data failed" e)
                    | Ok d => Ok d
                    end
          end
      end
  end.

(** ** The blob of a batch can be parsed *)

Definition cell_ok (z : Z) : Prop := 0 ≤ z < 256 ^ Z.of_nat BlobTxBytesPerFieldElement.
Definition cells_of (zs : list Z) : list bytes := be_split BlobTxBytesPerFieldElement <$> zs.
Definition vote_cells (v : Vote) : list Z :=
  [u64Z (v_VoteID v); default 0 (v_Address v); u64Z (v_BallotIndex v); default 0 (v_Weight v)] ++
  BigInts (v_ReencryptedBallot v).
Definition has_metadata (v : Vote) : Prop := is_Some (v_Address v) ∧ is_Some (v_Weight v).

Lemma push_Ok name bi cells r :
  push name bi cells = (Ok (), r) →
  ∃ z, bi = Some z ∧ cell_ok z ∧ (length cells < BlobTxFieldElementsPerBlob)%nat ∧ r = cells ++ cells_of [z].
Proof.
  unfold push. destruct (Nat.leb_spec BlobTxFieldElementsPerBlob (length cells)); [done|].
  destruct bi as [z|]; [|done]. destruct (Z.ltb_spec z 0); [done|].
  destruct (Z.ltb_spec z (256 ^ Z.of_nat BlobTxBytesPerFieldElement)); [|done]. intros [= <-]. by exists z.
Qed.
(** The cells pushed by a computation. *)
Definition pushes {A} (m : SE (list bytes) A) (zs : list Z) : Prop :=
  ∀ cells a r, m cells = (Ok a, r) →
    Forall cell_ok zs ∧ r = cells ++ cells_of zs ∧ (zs = [] ∨ (length r ≤ BlobTxFieldElementsPerBlob)%nat).
Lemma pushes_push name z : pushes (push name (Some z)) [z].
Proof.
  intros cells [] r (? & [= <-] & Hz & Hl & ->)%push_Ok. split_and!; [by apply Forall_singleton|done|].
  right. rewrite length_app. cbn. lia.
Qed.
Lemma pushes_bind {A B} (m : SE (list bytes) A) (k : A → SE (list bytes) B) xs ys :
  pushes m xs → (∀ a, pushes (k a) ys) → pushes (m ≫= k) (xs ++ ys).
Proof.
  intros Hm Hk cells b r (a & s & Ha & Hb)%bind_inv_Ok.
  apply Hm in Ha as (Hx & -> & Hlx). apply Hk in Hb as (Hy & -> & Hly). split_and!.
  - by apply Forall_app.
  - unfold cells_of. by rewrite fmap_app, app_assoc.
  - destruct Hly as [->|Hly]; [|by right]. rewrite app_nil_r. cbn. by rewrite app_nil_r.
Qed.
Lemma pushes_forM {A} (f : A → SE (list bytes) ()) (g : A → list Z) l :
  (∀ a, pushes (f a) (g a)) → pushes (forM_ f l) (concat (g <$> l)).
Proof.
  intros Hf. induction l as [|a l IH]; cbn.
  - intros cells [] r [= <-]. split_and!; [constructor| |by left]. cbn. by rewrite app_nil_r.
  - apply pushes_bind; [apply Hf|intros []; exact IH].
Qed.
Lemma concat_singletons {A} (l : list A) : concat ((λ x, [x]) <$> l) = l.
Proof. induction l as [|x l IH]; cbn; [done|]. by f_equal. Qed.
Lemma pushes_coords name z : pushes (forM_ (λ p, push name (Some p)) (BigInts z)) (BigInts z).
Proof.
  rewrite <-(concat_singletons (BigInts z)) at 2. apply pushes_forM. intros p. apply pushes_push.
Qed.
Lemma pushes_option name bi : pushes (push name bi) [default 0 bi].
Proof. destruct bi as [z|]; [apply pushes_push|]. intros cells [] r (? & [=] & _)%push_Ok. Qed.
Lemma pushes_vote v : pushes (push_vote v) (vote_cells v).
Proof.
  unfold push_vote, vote_cells.
  change ([u64Z (v_VoteID v); default 0 (v_Address v); u64Z (v_BallotIndex v); default 0 (v_Weight v)] ++ BigInts (v_ReencryptedBallot v))
    with ([u64Z (v_VoteID v)] ++ [default 0 (v_Address v)] ++ [u64Z (v_BallotIndex v)] ++ [default 0 (v_Weight v)] ++ BigInts (v_ReencryptedBallot v)).
  repeat (apply pushes_bind; [apply pushes_push || apply pushes_option|intros _]). apply pushes_coords.
Qed.
Lemma push_vote_metadata v cells a r : push_vote v cells = (Ok a, r) → has_metadata v.
Proof.
  unfold push_vote. intros (? & ? & _ & Hv)%bind_inv_Ok.
  apply bind_inv_Ok in Hv as ([] & ? & (z & Hz & _)%push_Ok & Hv).
  apply bind_inv_Ok in Hv as (? & ? & _ & Hv).
  apply bind_inv_Ok in Hv as ([] & ? & (w & Hw & _)%push_Ok & _). by split; [exists z|exists w].
Qed.
Lemma push_votes_metadata votes cells a r : forM_ push_vote votes cells = (Ok a, r) → Forall has_metadata votes.
Proof.
  revert cells. induction votes as [|v votes IH]; intros cells; [constructor|].
  cbn [forM_]. intros (? & ? & Hv%push_vote_metadata & Hvs%IH)%bind_inv_Ok. by constructor.
Qed.

(** All the numbers of a blob. *)
Definition blob_cells (newResults : Ballot) (votersCount : Z) (votes : list Vote) : list Z :=
  BigInts newResults ++ [votersCount] ++ concat (vote_cells <$> votes).
Lemma encode_blob_spec R n votes blob :
  encode_blob R n votes = Ok blob →
  let zs := blob_cells R n votes in
  Forall cell_ok zs ∧ Forall has_metadata votes ∧ (length zs ≤ BlobTxFieldElementsPerBlob)%nat ∧
  blob = fit BlobLength (concat (cells_of zs)).
Proof.
  unfold encode_blob. match goal with |- context [match ?m with _ => _ end] => destruct m as [[a|e] cells] eqn:E end; [|done].
  intros [= <-]. set (zs := blob_cells R n votes). assert (Hp : pushes (forM_ (λ p, push "results coordinate" (Some p)) (BigInts R);;
         push "voters count" (Some n);; forM_ push_vote votes) zs).
  { apply pushes_bind; [apply pushes_coords|intros _]. apply pushes_bind; [apply pushes_push|intros _].
    apply pushes_forM, pushes_vote. }
  destruct (Hp _ _ _ E) as (Hz & -> & Hl). split_and!; [done| | |done].
  - apply bind_inv_Ok in E as (? & ? & _ & E). apply bind_inv_Ok in E as (? & ? & _ & E).
    by eapply push_votes_metadata.
  - destruct Hl as [Hl|Hl]; [|cbn in Hl; unfold cells_of in Hl; by rewrite length_fmap in Hl].
    exfalso. apply (f_equal length) in Hl. unfold zs, blob_cells in Hl. rewrite !length_app in Hl. cbn in Hl. lia.
Qed.

Lemma concat_cells_lookup zs i z rest :
  zs !! i = Some z →
  take BlobTxBytesPerFieldElement (drop (i * BlobTxBytesPerFieldElement) (concat (cells_of zs) ++ rest)) =
  be_split BlobTxBytesPerFieldElement z.
Proof.
  revert i. induction zs as [|y zs IH]; intros [|i] Hz; [done..| |].
  - injection Hz as ->. cbn [cells_of fmap list_fmap concat]. rewrite Nat.mul_0_l, drop_0, <-app_assoc.
    by rewrite take_app_length' by (by rewrite length_be_split).
  - cbn [cells_of fmap list_fmap concat]. rewrite Nat.mul_succ_l, Nat.add_comm, <-drop_drop, <-(app_assoc (be_split _ _)).
    rewrite drop_app_length' by (by rewrite length_be_split). by apply IH.
Qed.
Lemma length_concat_cells zs : length (concat (cells_of zs)) = (length zs * BlobTxBytesPerFieldElement)%nat.
Proof. induction zs as [|z zs IH]; cbn [cells_of fmap list_fmap concat]; [done|]. rewrite length_app, length_be_split. cbn in IH |- *. unfold cells_of in IH. rewrite IH. lia. Qed.
Lemma getCell_blob zs i z :
  Forall cell_ok zs → (length zs ≤ BlobTxFieldElementsPerBlob)%nat → zs !! i = Some z →
  getCell (fit BlobLength (concat (cells_of zs))) i = z.
Proof.
  intros Hok Hl Hz. pose proof (lookup_lt_Some _ _ _ Hz) as Hi. unfold getCell.
  rewrite (proj2 (Nat.leb_gt _ _)) by lia.
  assert (Hfit : fit BlobLength (concat (cells_of zs)) =
    concat (cells_of zs) ++ replicate (BlobLength - length (concat (cells_of zs))) (byte_of_Z 0)).
  { unfold fit. rewrite take_app_ge by (rewrite length_concat_cells; unfold BlobLength; nia).
    by rewrite take_replicate, Nat.min_l by lia. }
  rewrite Hfit, (concat_cells_lookup _ _ z) by done. rewrite be_combine_split. apply Z.mod_small.
  rewrite Forall_forall in Hok. apply Hok. by eapply list_elem_of_lookup_2.
Qed.

(** A vote as the blob gives it back. *)
Definition published (v : Vote) : Vote :=
  {| v_Address := v_Address v; v_BallotIndex := v_BallotIndex v; v_VoteID := v_VoteID v; v_Ballot := None;
     v_OverwrittenBallot := None; v_Weight := v_Weight v; v_ReencryptedBallot := v_ReencryptedBallot v |}.
(** Identifiers in their ranges, and a ballot of eight fields. *)
Definition Vote_wf (v : Vote) : Prop :=
  Ballot_wf (v_ReencryptedBallot v) ∧ VoteID_Valid (v_VoteID v) = true ∧ BallotIndex_Valid (v_BallotIndex v) = true.

Lemma length_BigInts_wf z : Ballot_wf z → length (BigInts z) = (FieldsPerBallot * 4)%nat.
Proof. unfold Ballot_wf. rewrite length_BigInts. by intros ->. Qed.
Lemma SetBigInts_wf z : Ballot_wf z → SetBigInts (BigInts z) = Ok z.
Proof.
  intros Hz. unfold SetBigInts. rewrite length_BigInts_wf, Nat.eqb_refl by done.
  by rewrite <-Hz, set_bigints_BigInts.
Qed.
Lemma bigIntToStateKey_u64 (k : uint64) : bigIntToStateKey (Some (u64Z k)) = Ok k.
Proof.
  pose proof (u64Z_range k). unfold bigIntToStateKey.
  rewrite (proj2 (Z.ltb_ge _ _)), (proj2 (Z.ltb_lt _ _)) by lia. cbn. by rewrite U64_u64Z.
Qed.
Lemma length_vote_cells v : Ballot_wf (v_ReencryptedBallot v) → length (vote_cells v) = (4 + FieldsPerBallot * 4)%nat.
Proof. intros Hv. unfold vote_cells. by rewrite length_app, length_BigInts_wf. Qed.

Section parsing.
Context (blob : bytes) (zs : list Z).
Hypothesis (Hcell : ∀ i z, zs !! i = Some z → getCell blob i = z).
Lemma getCells pre mid post n :
  zs = pre ++ mid ++ post → length mid = n → (λ j, getCell blob (length pre + j)) <$> seq 0 n = mid.
Proof.
  intros Hzs <-. apply list_eq_same_length with (length mid); [done|by rewrite length_fmap, length_seq|].
  intros i x y _ Hx Hy. apply list_lookup_fmap_Some in Hx as (j & -> & [-> Hi]%lookup_seq).
  apply Hcell. rewrite Hzs, lookup_app_r by lia. rewrite lookup_app_l by lia. rewrite <-Hy. f_equal. lia.
Qed.
Lemma parse_votes_spec votes pre :
  zs = pre ++ concat (vote_cells <$> votes) → (length zs ≤ BlobTxFieldElementsPerBlob)%nat →
  Forall Vote_wf votes → Forall has_metadata votes →
  parse_votes blob (length votes) (length pre) = Ok (published <$> votes).
Proof.
  intros Hzs Hl Hwf Hmd. revert pre Hzs. induction votes as [|v votes IH]; intros pre Hzs; [done|].
  apply Forall_cons in Hwf as [(Hb & Hid & Hix) Hwf]. apply Forall_cons in Hmd as [[[a Ha] [w Hw]] Hmd].
  cbn [length fmap list_fmap concat parse_votes] in *. pose proof (length_vote_cells v Hb) as Hlv.
  assert (Hlen : (length pre + 4 + FieldsPerBallot * 4 ≤ length zs)%nat).
  { rewrite Hzs, !length_app, Hlv. lia. }
  rewrite (proj2 (Nat.ltb_ge _ _)) by lia.
  set (hd4 := [u64Z (v_VoteID v); a; u64Z (v_BallotIndex v); w]).
  assert (Hzs' : zs = pre ++ hd4 ++ BigInts (v_ReencryptedBallot v) ++ concat (vote_cells <$> votes)).
  { rewrite Hzs. unfold vote_cells at 1. by rewrite Ha, Hw, <-app_assoc. }
  assert (H4 : ∀ i z, hd4 !! i = Some z → getCell blob (length pre + i) = z).
  { intros i z Hz. apply Hcell. rewrite Hzs', lookup_app_r by lia.
    rewrite lookup_app_l by (apply lookup_lt_Some in Hz; lia). rewrite <-Hz. f_equal. lia. }
  assert (Hcs : (λ j, getCell blob (length pre + 4 + j)) <$> seq 0 (FieldsPerBallot * 4) = BigInts (v_ReencryptedBallot v)).
  { rewrite <-(getCells (pre ++ hd4) (BigInts (v_ReencryptedBallot v)) (concat (vote_cells <$> votes)) (FieldsPerBallot * 4)).
    - by rewrite length_app.
    - by rewrite <-app_assoc.
    - by apply length_BigInts_wf. }
  rewrite Hcs, SetBigInts_wf by done.
  rewrite <-(Nat.add_0_r (length pre)) at 1. rewrite (H4 0%nat _ eq_refl), (H4 1%nat _ eq_refl), (H4 2%nat _ eq_refl), (H4 3%nat _ eq_refl).
  unfold BigIntToVoteID, BigIntToBallotIndex. rewrite !bigIntToStateKey_u64, Hid, Hix.
  replace (length pre + 4 + FieldsPerBallot * 4)%nat with (length (pre ++ vote_cells v)) by (rewrite length_app, Hlv; lia).
  rewrite IH; [|done..|by rewrite Hzs, <-app_assoc]. do 2 f_equal. unfold published. by rewrite Ha, Hw.
Qed.
End parsing.

Lemma ParseBlobData_encode R votes blob :
  encode_blob R (Z.of_nat (length votes)) votes = Ok blob →
  Ballot_wf R → Forall Vote_wf votes → (length votes ≤ VotesPerBatch)%nat →
  ParseBlobData blob =
    Ok {| bd_Results := BigInts R; bd_VotersCount := Z.of_nat (length votes); bd_Votes := published <$> votes |}.
Proof.
  intros (Hok & Hmd & Hl & ->)%encode_blob_spec HR Hwf Hn. set (zs := blob_cells _ _ _) in *.
  assert (Hcell : ∀ i z, zs !! i = Some z → getCell (fit BlobLength (concat (cells_of zs))) i = z)
    by (intros i z Hz; by apply getCell_blob).
  set (blob := fit _ _) in *. unfold ParseBlobData. unfold blob at 1. rewrite length_fit, Nat.eqb_refl. cbn [negb].
  pose proof (length_BigInts_wf R HR) as HlR.
  assert (Hcount : getCell blob (FieldsPerBallot * 4) = Z.of_nat (length votes)).
  { apply Hcell. unfold zs, blob_cells. rewrite lookup_app_r by lia. by rewrite HlR, Nat.sub_diag. }
  rewrite Hcount. assert (Hn' : Z.of_nat (length votes) ≤ 60) by (unfold VotesPerBatch in Hn; lia).
  rewrite (proj2 (Z.ltb_lt _ _)) by (unfold two64; lia).
  rewrite (proj2 (Z.ltb_ge _ _)) by (unfold VotesPerBatch; lia). cbn [negb]. rewrite Nat2Z.id.
  rewrite <-(getCells blob zs Hcell [] (BigInts R) ([Z.of_nat (length votes)] ++ concat (vote_cells <$> votes)) (FieldsPerBallot * 4)) by done.
  replace (FieldsPerBallot * 4 + 1)%nat with (length (BigInts R ++ [Z.of_nat (length votes)]))
    by (rewrite length_app, HlR; done).
  rewrite (parse_votes_spec blob zs Hcell votes); [done| |done..].
  unfold zs, blob_cells. by rewrite <-app_assoc.
Qed.

Lemma computeBlobEvalData_blob pid root R n votes d :
  computeBlobEvalData pid root R n votes = Ok d → encode_blob R n votes = Ok (be_Blob d).
Proof.
  unfold computeBlobEvalData. destruct (encode_blob _ _ _) as [blob|]; [|done].
  destruct (ComputeCommitment blob); [|done]. destruct (ComputeEvaluationPoint _ _ _) as [z|]; [|done].
  unfold BlobEvalData_Set. destruct (ComputeCommitmentAndCellProofs blob) as [[??]|]; [|done].
  destruct (ComputeProof blob z) as [[??]|]; [|done].
  destruct (SplitYForBn254FromBLS12381 _); [|done]. by intros [= <-].
Qed.
End vote.
