(* ===== verification/StateBatch.v ===== *)
(** * Batches of votes on the state tree

    [src/state/batch.go] and [addVote] of [vote.go]: a batch collects votes against the
    tree of its transaction, sums the ballots that enter and those they replace, then
    stages the leaves, the proofs of each change and the new results. *)

From S2P Require Import Prelude Bytes Spec Types Curve ElGamal StateTree StateVote.

Section batch.
Context `{Curve} `{Arbo} `{Hash : PoseidonHasher} `{KZG}.

(** [src/state/state.go:46-51] *)
Record ProcessProofs := {
  pp_ID : ArboProof; pp_CensusOrigin : ArboProof; pp_BallotMode : ArboProof; pp_EncryptionKey : ArboProof }.
(** [src/state/state.go:55-59] *)
Record VotesProofs := {
  vp_Results : ArboTransition; vp_Ballot : list ArboTransition; vp_VoteID : list ArboTransition }.
(** [src/state/batch.go:18-38] *)
Record Batch := {
  b_state : State; b_tx : option tree; b_committed : bool; b_discarded : bool;
  oldResults : Ballot; newResults : Ballot; allBallotsSum : Ballot; overwrittenSum : Ballot;
  votersCount : Z; overwrittenVotesCount : Z; b_votes : list Vote;
  rootHashBefore : option Z; rootHashAfter : option Z;
  processProofs : option ProcessProofs; votesProofs : option VotesProofs;
  blobEvalData : option BlobEvalData }.

(** Changes of the tree's side of a batch. *)
Definition set_tree_side (st : State) (tx : option tree) (committed discarded : bool) (after : option Z) (b : Batch) : Batch :=
  {| b_state := st; b_tx := tx; b_committed := committed; b_discarded := discarded;
     oldResults := oldResults b; newResults := newResults b; allBallotsSum := allBallotsSum b;
     overwrittenSum := overwrittenSum b; votersCount := votersCount b;
     overwrittenVotesCount := overwrittenVotesCount b; b_votes := b_votes b;
     rootHashBefore := rootHashBefore b; rootHashAfter := after;
     processProofs := processProofs b; votesProofs := votesProofs b; blobEvalData := blobEvalData b |}.
Definition put_b_tx (t : tree) (b : Batch) : Batch :=
  set_tree_side (b_state b) (Some t) (b_committed b) (b_discarded b) (rootHashAfter b) b.
(** Changes of the counters, by a vote [v]. *)
Definition count_vote (v : Vote) (overwritten : Ballot) (n : Z) (b : Batch) : Batch :=
  {| b_state := b_state b; b_tx := b_tx b; b_committed := b_committed b; b_discarded := b_discarded b;
     oldResults := oldResults b; newResults := newResults b;
     allBallotsSum := Ballot_Add (allBallotsSum b) (v_ReencryptedBallot v);
     overwrittenSum := overwritten; votersCount := votersCount b + 1;
     overwrittenVotesCount := n; b_votes := b_votes b ++ [v];
     rootHashBefore := rootHashBefore b; rootHashAfter := rootHashAfter b;
     processProofs := processProofs b; votesProofs := votesProofs b; blobEvalData := blobEvalData b |}.
(** Changes of the results and proofs. *)
Definition set_prepared (before after : option Z) (old new : Ballot) (pp : option ProcessProofs) (vp : option VotesProofs)
    (d : option BlobEvalData) (b : Batch) : Batch :=
  {| b_state := b_state b; b_tx := b_tx b; b_committed := b_committed b; b_discarded := b_discarded b;
     oldResults := old; newResults := new; allBallotsSum := allBallotsSum b;
     overwrittenSum := overwrittenSum b; votersCount := votersCount b;
     overwrittenVotesCount := overwrittenVotesCount b; b_votes := b_votes b;
     rootHashBefore := before; rootHashAfter := after;
     processProofs := pp; votesProofs := vp; blobEvalData := d |}.

(** [src/state/batch.go:61-73] *)
Definition newBatch (s : State) : Batch :=
  {| b_state := s; b_tx := Some (s_tree s); b_committed := false; b_discarded := false;
     oldResults := NewBallot; newResults := NewBallot; allBallotsSum := NewBallot; overwrittenSum := NewBallot;
     votersCount := 0; overwrittenVotesCount := 0; b_votes := [];
     rootHashBefore := None; rootHashAfter := None;
     processProofs := None; votesProofs := None; blobEvalData := None |}.

(** [src/state/batch.go:120-125] Batch.getBigInt *)
Definition b_getBigInt (key : Z) : SE Batch (list Z) :=
  read b_tx "state batch transaction is not active" (λ t, t_Get t key).
(** [src/state/batch.go:127-132] Batch.addBigInt *)
Definition b_addBigInt (key : Z) (values : list Z) : SE Batch () :=
  write b_tx put_b_tx "state batch transaction is not active" (λ t, t_Add t key values).
(** [src/state/batch.go:134-139] Batch.updateBigInt *)
Definition b_updateBigInt (key : Z) (values : list Z) : SE Batch () :=
  write b_tx put_b_tx "state batch transaction is not active" (λ t, t_Update t key values).
(** [src/state/batch.go:141-146] Batch.generateGnarkVerifierProofBigInt *)
Definition b_generateProof (key : Z) : SE Batch GnarkVerifierProof :=
  read b_tx "state batch transaction is not active" (λ t, t_Proof t key).
(** [src/state/batch.go:150-171] Batch.RootAsBigInt *)
Definition b_RootAsBigInt : SE Batch Z := λ b,
  match b_tx b with
  | None =>
      if b_discarded b then (Err (ErrMsg "state batch was discarded"), b)
      else if negb (b_committed b) then (Err (ErrMsg "state batch transaction is not active"), b)
      else match rootHashAfter b with
           | None => (Err (ErrMsg "state batch root hash after is not available"), b)
           | Some root => (Ok root, b)
           end
  | Some t => (root_of "get state batch root" t, b)
  end.
#[export] Instance Batch_tree : arboTransitionTree Batch := {|
  getBigInt := b_getBigInt; addBigInt := b_addBigInt; updateBigInt := b_updateBigInt;
  generateGnarkVerifierProofBigInt := b_generateProof; RootAsBigInt := b_RootAsBigInt |}.

(** [src/state/batch.go:78-105] Batch.Commit, of a batch that is not nil *)
Definition Batch_Commit : SE Batch () := λ b,
  match b_tx b with
  | None =>
      if b_discarded b then (Err (ErrMsg "commit state batch: state batch was discarded"), b)
      else (Err (ErrMsg "commit state batch: no active state batch transaction"), b)
  | Some t =>
      match (match rootHashAfter b with
             | Some root => Ok root
             | None => match b_RootAsBigInt b with
                       | (Ok root, _) => Ok root
                       | (Err e, _) => Err (Wrap "commit state batch: get staged root" e)
                       end
             end) with
      | Err e => (Err e, b)
      | Ok after =>
          match s_fault (b_state b) with
          | Some e => (Err (Wrap "commit state batch" e),
                       set_tree_side (b_state b) None (b_committed b) (b_discarded b) (Some after) b)
          | None => (Ok (), set_tree_side (set_tree t (b_state b)) None true (b_discarded b) (Some after) b)
          end
      end
  end.
(** [src/state/batch.go:111-118] Batch.Discard *)
Definition Batch_Discard (b : Batch) : Batch :=
  match b_tx b with
  | None => b
  | Some _ => set_tree_side (b_state b) None (b_committed b) true (rootHashAfter b) b
  end.

Definition with_overwritten (o : Ballot) (v : Vote) : Vote :=
  {| v_Address := v_Address v; v_BallotIndex := v_BallotIndex v; v_VoteID := v_VoteID v; v_Ballot := v_Ballot v;
     v_OverwrittenBallot := Some o; v_Weight := v_Weight v; v_ReencryptedBallot := v_ReencryptedBallot v |}.
(** [src/state/vote.go:97-121] addVote; comparing with a nil number panics *)
Definition addVote (v : Vote) : SE Batch () := λ b,
  match b_tx b with
  | None => (Err (ErrMsg "need to start batch first"), b)
  | Some _ =>
      if (VotesPerBatch <=? length (b_votes b))%nat then (Err (ErrMsg "too many votes for this batch"), b)
      else match ballotLeafFromTree (v_BallotIndex v) b with
           | (Ok oldLeaf, _) =>
               match v_Address v, v_Weight v with
               | Some address, Some weight =>
                   if negb (bl_Address oldLeaf =? address) || negb (bl_Weight oldLeaf =? weight)
                   then (Err (ErrMsg "stored ballot leaf metadata mismatch for ballot index"), b)
                   else (Ok (), count_vote (with_overwritten (bl_Ballot oldLeaf) v)
                                  (Ballot_Add (overwrittenSum b) (bl_Ballot oldLeaf)) (overwrittenVotesCount b + 1) b)
               | _, _ => (Err (ErrMsg "panic"), b)
               end
           | (Err _, _) => (Ok (), count_vote (with_overwritten NewBallot v) (overwrittenSum b) (overwrittenVotesCount b) b)
           end
  end.

(** [src/state/batch.go:195-208] PaddedVotes *)
Definition PaddedVotes (b : Batch) : list Vote :=
  b_votes b ++ replicate (VotesPerBatch - length (b_votes b))
    {| v_Address := Some 0; v_BallotIndex := U64 0; v_VoteID := U64 0; v_Ballot := Some NewBallot;
       v_OverwrittenBallot := Some NewBallot; v_Weight := Some 0; v_ReencryptedBallot := NewBallot |}.

(** [src/state/batch.go:262-280] the loop of prepareTransitions over the slots of a batch: the
    transitions of the ballot and of the vote identifier *)
Fixpoint vote_transitions (votes : list Vote) (n : nat) : SE Batch (list (ArboTransition * ArboTransition)) :=
  match n with
  | O => mret []
  | S n =>
      p ← (match votes with
           | v :: _ =>
               ballot ← attempt (ArboTransitionFromAddOrUpdate (v_BallotIndex v) (TreeLeafValues v));
               voteID ← attempt (ArboTransitionFromAddOrUpdate (v_VoteID v) [voteIDLeafValue]);
               mret (ballot, voteID)
           | [] =>
               ballot ← attempt ArboTransitionFromNoop;
               voteID ← attempt ArboTransitionFromNoop;
               mret (ballot, voteID)
           end);
      ballot ← wrapping "could not get Ballot proof for index" (lift p.1);
      voteID ← wrapping "could not get VoteID proof for index" (lift p.2);
      rest ← vote_transitions (tail votes) n;
      mret ((ballot, voteID) :: rest)
  end.
(** [src/state/batch.go:233-303] prepareTransitions *)
Definition prepareTransitions : SE Batch () :=
  tx ← gets b_tx;
  match tx with
  | None => raise (ErrMsg "need to start batch first")
  | Some _ =>
      before ← RootAsBigInt;
      pid ← wrapping "could not get ID proof" (genArboProof KeyProcessID);
      origin ← wrapping "could not get CensusOrigin proof" (genArboProof KeyCensusOrigin);
      mode ← wrapping "could not get BallotMode proof" (genArboProof KeyBallotMode);
      key ← wrapping "could not get EncryptionKey proof" (genArboProof KeyEncryptionKey);
      votes ← gets b_votes;
      transitions ← vote_transitions votes VotesPerBatch;
      old ← wrapping "results not found in state" resultsFromTree;
      b ← get_state;
      let new := Ballot_Add (Ballot_Add old (allBallotsSum b)) (Ballot_Neg (overwrittenSum b)) in
      results ← wrapping "results" (ArboTransitionFromAddOrUpdate KeyResults (BigInts new));
      after ← wrapping "get root hash after" RootAsBigInt;
      d ← wrapping "blob eval data" (lift (computeBlobEvalData (s_processID (b_state b)) before new (votersCount b) votes));
      modify (set_prepared (Some before) (Some after) old new
        (Some {| pp_ID := pid; pp_CensusOrigin := origin; pp_BallotMode := mode; pp_EncryptionKey := key |})
        (Some {| vp_Results := results; vp_Ballot := transitions.*1; vp_VoteID := transitions.*2 |}) (Some d))
  end.
(** [src/state/batch.go:42-59] PrepareVotesBatch: the batch is discarded on errors *)
Definition PrepareVotesBatch (votes : list Vote) (s : State) : result Batch :=
  match (forM_ (λ v, wrapping "failed to add vote" (addVote v)) votes;;
         wrapping "failed to prepare batch transitions" prepareTransitions) (newBatch s) with
  | (Ok _, b) => Ok b
  | (Err e, _) => Err e
  end.
(** [src/state/state.go:284-290] AddVotesBatch *)
Definition AddVotesBatch (votes : list Vote) : SE State () := λ s,
  match PrepareVotesBatch votes s with
  | Err e => (Err e, s)
  | Ok b => let '(r, b') := Batch_Commit b in (r, b_state b')
  end.

Lemma put_b_tx_same t b : b_tx b = Some t → put_b_tx t b = b.
Proof. destruct b. cbn. by intros ->. Qed.
Lemma b_root b t : b_tx b = Some t → RootAsBigInt b = (root_of "get state batch root" t, b).
Proof. intros Hb. cbn. unfold b_RootAsBigInt. by rewrite Hb. Qed.
#[export] Program Instance Batch_view : TreeView Batch := {|
  view := b_tx; put_view := put_b_tx; inactive := "state batch transaction is not active" |}.
Next Obligation. done. Qed.
Next Obligation. done. Qed.
Next Obligation. intros t b. apply put_b_tx_same. Qed.
Next Obligation. done. Qed.
Next Obligation. done. Qed.
Next Obligation. done. Qed.
Next Obligation. done. Qed.
Next Obligation. intros b t Hb. exists "get state batch root"%string. cbn in *. unfold b_RootAsBigInt. by rewrite Hb. Qed.
End batch.
