(* ===== verification/Tally.v ===== *)
(** * The encrypted tally

    The results leaf of the state is the homomorphic sum of the ballots stored in the
    state, before and after every batch whose votes have different ballot indexes: what
    [addVote] and [prepareTransitions] ([src/state/vote.go], [src/state/batch.go])
    add and subtract is exactly the difference. Also the chain of the roots of a batch,
    which the circuit checks, and commits that fail. *)

From S2P Require Import Prelude Bytes Spec Types Curve ElGamal StateTree StateVote StateBatch.

(** ** Sums of ballots *)

Section ballots.
Context `{Curve}.
Lemma Ciphertext_Add_assoc x y z : Ciphertext_Add x (Ciphertext_Add y z) = Ciphertext_Add (Ciphertext_Add x y) z.
Proof. unfold Ciphertext_Add. cbn. by rewrite !PAdd_assoc. Qed.
Lemma Ciphertext_Add_comm x y : Ciphertext_Add x y = Ciphertext_Add y x.
Proof. unfold Ciphertext_Add. by rewrite (PAdd_comm (c1 x)), (PAdd_comm (c2 x)). Qed.
Lemma Ballot_Add_comm x y : Ballot_Add x y = Ballot_Add y x.
Proof.
  unfold Ballot_Add. revert y. induction x as [|c x IH]; intros [|d y]; cbn; try done.
  by rewrite IH, Ciphertext_Add_comm.
Qed.
Lemma Ballot_Add_assoc x y z : Ballot_Add x (Ballot_Add y z) = Ballot_Add (Ballot_Add x y) z.
Proof.
  unfold Ballot_Add. revert y z. induction x as [|c x IH]; intros [|d y] [|e z]; cbn; try done.
  by rewrite IH, Ciphertext_Add_assoc.
Qed.
Lemma Ballot_wf_Add x y : Ballot_wf x → Ballot_wf y → Ballot_wf (Ballot_Add x y).
Proof. unfold Ballot_wf, Ballot_Add. rewrite length_zip_with. lia. Qed.
Lemma Ballot_wf_Neg x : Ballot_wf x → Ballot_wf (Ballot_Neg x).
Proof. unfold Ballot_wf, Ballot_Neg. by rewrite length_fmap. Qed.
Lemma Ballot_wf_New : Ballot_wf NewBallot.
Proof. done. Qed.
Lemma Ballot_Add_0_r x : Ballot_wf x → Ballot_Add x NewBallot = x.
Proof.
  unfold Ballot_wf, NewBallot, Ballot_Add. intros <-. induction x as [|[p q] x IH]; cbn; [done|].
  rewrite IH. unfold Ciphertext_Add. cbn. by rewrite !PAdd_0_r.
Qed.
Lemma Ballot_Add_neg_r x : Ballot_wf x → Ballot_Add x (Ballot_Neg x) = NewBallot.
Proof.
  unfold Ballot_wf, NewBallot, Ballot_Add, Ballot_Neg. intros <-. induction x as [|[p q] x IH]; cbn; [done|].
  rewrite IH. unfold Ciphertext_Add. cbn. by rewrite !PAdd_neg_r.
Qed.
Lemma Ballot_Add_move x y z : Ballot_wf x → Ballot_wf y → Ballot_Add x y = z → x = Ballot_Add z (Ballot_Neg y).
Proof. intros Hx Hy <-. by rewrite <-Ballot_Add_assoc, Ballot_Add_neg_r, Ballot_Add_0_r. Qed.
Lemma Ballot_Add_swap x y z : Ballot_Add x (Ballot_Add y z) = Ballot_Add y (Ballot_Add x z).
Proof. by rewrite !Ballot_Add_assoc, (Ballot_Add_comm x). Qed.

Definition ballots_sum (l : list Ballot) : Ballot := foldr Ballot_Add NewBallot l.
Lemma ballots_sum_cons z l : ballots_sum (z :: l) = Ballot_Add z (ballots_sum l).
Proof. done. Qed.
Lemma ballots_sum_wf l : Forall Ballot_wf l → Ballot_wf (ballots_sum l).
Proof. induction 1; [apply Ballot_wf_New|by apply Ballot_wf_Add]. Qed.
Lemma foldl_ballots l acc : Ballot_wf acc → Forall Ballot_wf l → foldl Ballot_Add acc l = Ballot_Add acc (ballots_sum l).
Proof.
  intros Hacc Hl. revert acc Hacc. induction Hl as [|z l Hz _ IH]; intros acc Hacc; cbn.
  - by rewrite Ballot_Add_0_r.
  - rewrite IH by (by apply Ballot_wf_Add). by rewrite Ballot_Add_assoc.
Qed.
Lemma length_set_bigints n l : (n * 4 ≤ length l)%nat → length (set_bigints n l) = n.
Proof.
  revert l. induction n as [|n IH]; intros l Hl; [done|].
  destruct l as [|a [|b [|c [|d l]]]]; cbn in Hl; try lia. cbn [set_bigints length]. rewrite IH; lia.
Qed.
Lemma SetBigInts_Ok_wf l z : SetBigInts l = Ok z → Ballot_wf z.
Proof.
  unfold SetBigInts, Ballot_wf. destruct (Nat.eqb_spec (length l) (FieldsPerBallot * 4)) as [Hl|]; [|done].
  intros Heq. assert (Hz : z = set_bigints FieldsPerBallot l) by congruence. rewrite Hz. apply length_set_bigints. lia.
Qed.
End ballots.

Section tally.
Context `{Curve} `{Arbo} `{Hash : PoseidonHasher} `{KZG}.

(** ** The sum of the ballots of a tree *)

(** The ballot that a leaf counts for. *)
Definition leaf_ballot (v : list Z) : Ballot := match ballotFromTreeLeafValues v with Ok z => z | Err _ => NewBallot end.
Definition in_ballot_range (k : Z) : bool := (BallotMin <=? k) && (k <=? BallotMax).
Definition tally_step (k : Z) (v : list Z) (acc : Ballot) : Ballot :=
  if in_ballot_range k then Ballot_Add (leaf_ballot v) acc else acc.
Definition tally (m : gmap Z (list Z)) : Ballot := map_fold tally_step NewBallot m.
(** The results leaf is the tally. *)
Definition tally_inv (t : tree) : Prop := content t !! u64Z KeyResults = Some (BigInts (tally (content t))).

Lemma leaf_ballot_wf v : Ballot_wf (leaf_ballot v).
Proof.
  unfold leaf_ballot, ballotFromTreeLeafValues, ballotLeafFromTreeLeafValues.
  destruct (_ <? _)%nat; [done|]. destruct (SetBigInts _) as [z|] eqn:E; [|done]. by apply SetBigInts_Ok_wf in E.
Qed.
Lemma tally_step_comm j k v w acc : tally_step j v (tally_step k w acc) = tally_step k w (tally_step j v acc).
Proof. unfold tally_step. destruct (in_ballot_range j), (in_ballot_range k); [apply Ballot_Add_swap|done..]. Qed.
Lemma tally_wf m : Ballot_wf (tally m).
Proof.
  unfold tally. apply (map_fold_weak_ind (λ z _, Ballot_wf z)); [apply Ballot_wf_New|].
  intros k v m' z _ Hz. unfold tally_step. destruct (in_ballot_range k); [|done]. apply Ballot_wf_Add; [apply leaf_ballot_wf|done].
Qed.
Lemma tally_insert_fresh m k v : m !! k = None → tally (<[k := v]> m) = tally_step k v (tally m).
Proof. intros Hk. unfold tally. apply map_fold_insert_L; [|done]. intros. apply tally_step_comm. Qed.
Lemma tally_delete m k : tally m = match m !! k with Some v => tally_step k v (tally (delete k m)) | None => tally (delete k m) end.
Proof.
  destruct (m !! k) as [v|] eqn:Hk; [|by rewrite delete_id].
  rewrite <-(insert_delete_id m k v) at 1 by done. apply tally_insert_fresh. apply lookup_delete_eq.
Qed.
Lemma tally_insert_other m k v : in_ballot_range k = false → tally (<[k := v]> m) = tally m.
Proof.
  intros Hk. rewrite <-insert_delete_eq, tally_insert_fresh by apply lookup_delete_eq.
  rewrite (tally_delete m k). unfold tally_step. rewrite Hk. by destruct (m !! k).
Qed.
(** Writing a ballot adds it and takes away the one it replaces. *)
Definition old_ballot (m : gmap Z (list Z)) (k : Z) : Ballot := match m !! k with Some v => leaf_ballot v | None => NewBallot end.
Lemma tally_insert m k v :
  in_ballot_range k = true →
  Ballot_Add (tally (<[k := v]> m)) (old_ballot m k) = Ballot_Add (tally m) (leaf_ballot v).
Proof.
  intros Hk. rewrite <-insert_delete_eq, tally_insert_fresh by apply lookup_delete_eq.
  rewrite (tally_delete m k). unfold tally_step, old_ballot. rewrite Hk. destruct (m !! k) as [w|].
  - by rewrite <-Ballot_Add_assoc, (Ballot_Add_comm (leaf_ballot w)), Ballot_Add_comm.
  - rewrite Ballot_Add_0_r by (apply Ballot_wf_Add; [apply leaf_ballot_wf|apply tally_wf]). apply Ballot_Add_comm.
Qed.
Lemma leaf_ballot_TreeLeafValues v : Ballot_wf (v_ReencryptedBallot v) → leaf_ballot (TreeLeafValues v) = v_ReencryptedBallot v.
Proof.
  intros Hv. pose proof (length_BigInts_wf _ Hv) as Hl.
  unfold leaf_ballot, ballotFromTreeLeafValues, ballotLeafFromTreeLeafValues, TreeLeafValues, ballotTreeLeafBallotValueCount.
  rewrite (proj2 (Nat.ltb_ge _ _)) by (rewrite length_app, Hl; lia).
  by rewrite take_app_length' by done; rewrite SetBigInts_wf.
Qed.

(** ** The leaves of the votes *)

(** The tree after the transitions of the votes. *)
Fixpoint put_votes (t : tree) (votes : list Vote) : result tree :=
  match votes with
  | [] => Ok t
  | v :: votes =>
      match put_leaf t (u64Z (v_BallotIndex v)) (TreeLeafValues v) with
      | Err e => Err e
      | Ok t => match put_leaf t (u64Z (v_VoteID v)) [voteIDLeafValue] with
                | Err e => Err e
                | Ok t => put_votes t votes
                end
      end
  end.
Lemma ranges_of_keys v :
  Vote_wf v → in_ballot_range (u64Z (v_BallotIndex v)) = true ∧ in_ballot_range (u64Z (v_VoteID v)) = false ∧
  u64Z (v_BallotIndex v) ≠ u64Z KeyResults ∧ u64Z (v_VoteID v) ≠ u64Z KeyResults.
Proof.
  intros (_ & Hid & Hix). unfold VoteID_Valid, BallotIndex_Valid in *. split; [done|].
  assert (HK : u64Z KeyResults = 4) by done. rewrite HK.
  pose proof params_values as Hp. unfold in_ballot_range. apply andb_prop in Hid as [?%Z.leb_le ?%Z.leb_le], Hix as [?%Z.leb_le ?%Z.leb_le].
  unfold BallotMax in *. split; [|split]; [|unfold BallotMin, ConfigMax in *; cbn in *; lia|unfold VoteIDMin, VoteIDHashBits, MaxUint64, two64 in *; cbn in *; lia].
  apply andb_false_iff. right. apply Z.leb_gt. lia.
Qed.
Lemma put_votes_tally t votes t' :
  put_votes t votes = Ok t' → Forall Vote_wf votes → NoDup (v_BallotIndex <$> votes) →
  content t' !! u64Z KeyResults = content t !! u64Z KeyResults ∧
  Ballot_Add (tally (content t')) (ballots_sum ((λ v, old_ballot (content t) (u64Z (v_BallotIndex v))) <$> votes)) =
  Ballot_Add (tally (content t)) (ballots_sum (v_ReencryptedBallot <$> votes)).
Proof.
  revert t. induction votes as [|v votes IH]; intros t Hp Hwf Hnd.
  { injection Hp as ->. done. }
  apply Forall_cons in Hwf as [Hv Hwf].
  cbn [put_votes fmap list_fmap] in *. rewrite !ballots_sum_cons. apply NoDup_cons in Hnd as [Hni Hnd].
  destruct (put_leaf t _ _) as [t1|] eqn:E1; [|done]. destruct (put_leaf t1 _ _) as [t2|] eqn:E2; [|done].
  apply put_leaf_content in E1, E2. destruct (ranges_of_keys v Hv) as (Hix & Hid & Hne1 & Hne2).
  destruct (IH t2 Hp Hwf Hnd) as [Hres Htally]. rewrite E2, E1 in Hres, Htally. split.
  { rewrite Hres. by rewrite !lookup_insert_ne. }
  assert (Hold : (λ w, old_ballot (<[u64Z (v_VoteID v):=[voteIDLeafValue]]> (<[u64Z (v_BallotIndex v):=TreeLeafValues v]> (content t)))
      (u64Z (v_BallotIndex w))) <$> votes = (λ w, old_ballot (content t) (u64Z (v_BallotIndex w))) <$> votes).
  { apply list_fmap_ext. intros i w Hw. unfold old_ballot. rewrite !lookup_insert_ne; [done| |].
    - intros Heq%u64_eq. apply Hni. rewrite Heq. apply list_elem_of_fmap. exists w. split; [done|]. by eapply list_elem_of_lookup_2.
    - intros Heq. rewrite Forall_lookup in Hwf. destruct (ranges_of_keys w (Hwf i w Hw)) as (Hr & _). congruence. }
  rewrite Hold in Htally. rewrite tally_insert_other in Htally by done.
  pose proof (tally_insert (content t) (u64Z (v_BallotIndex v)) (TreeLeafValues v) Hix) as Hins.
  rewrite leaf_ballot_TreeLeafValues in Hins by apply Hv.
  rewrite Ballot_Add_swap, Htally, Ballot_Add_assoc, (Ballot_Add_comm (old_ballot _ _)), Hins. by rewrite <-Ballot_Add_assoc.
Qed.

(** ** The transitions of a batch *)

(** Transitions that lead from one root to another. *)
Fixpoint chain (r : Z) (trs : list ArboTransition) (r' : Z) : Prop :=
  match trs with [] => r = r' | tr :: trs => at_OldRoot tr = r ∧ chain (at_NewRoot tr) trs r' end.
Lemma chain_app r trs1 trs2 r'' r' : chain r trs1 r' → chain r' trs2 r'' → chain r (trs1 ++ trs2) r''.
Proof. revert r. induction trs1 as [|tr trs1 IH]; intros r; cbn; [by intros ->|]. intros [? ?] ?. eauto. Qed.
(** The transitions of the votes in the order in which they are made. *)
Definition in_order (trs : list (ArboTransition * ArboTransition)) : list ArboTransition :=
  concat ((λ p, [p.1; p.2]) <$> trs).

Lemma vote_transitions_Ok votes n b trs b' t r :
  b_tx b = Some t → t_Root t = Ok r → vote_transitions votes n b = (Ok trs, b') →
  ∃ t' r', put_votes t (take n votes) = Ok t' ∧ b' = put_b_tx t' b ∧ t_Root t' = Ok r' ∧
    chain r (in_order trs) r' ∧ length trs = n.
Proof.
  revert votes b trs t r. induction n as [|n IH]; intros votes b trs t r Hb Hr.
  { intros [= <- <-]. exists t, r. cbn. split_and!; [done| |done..]. by rewrite put_b_tx_same. }
  cbn [vote_transitions]. intros ([trb tri] & b1 & Hp & Hrest)%bind_inv_Ok.
  apply bind_inv_Ok in Hrest as (ballot & b2 & Hbal & Hrest). apply bind_inv_Ok in Hrest as (voteID & b3 & Hvid & Hrest).
  apply bind_inv_Ok in Hrest as (rest & b4 & Hrest & [= <- <-]).
  cbn [fst snd] in *. unfold wrapping, lift in Hbal, Hvid. destruct trb as [trb|]; [|done]. destruct tri as [tri|]; [|done].
  injection Hbal as <- <-. injection Hvid as <- <-.
  assert (Hstep : ∃ t1 r1, put_votes t (take 1 votes) = Ok t1 ∧ b1 = put_b_tx t1 b ∧ t_Root t1 = Ok r1 ∧ chain r [trb; tri] r1).
  { destruct votes as [|v votes]; apply bind_inv_Ok in Hp as (rb & b2 & Hb1 & Hp);
      apply bind_inv_Ok in Hp as (ri & b3 & Hb2 & [= -> -> ->]); unfold attempt in Hb1, Hb2.
    - destruct (ArboTransitionFromNoop b) as [r1 b1'] eqn:E1. injection Hb1 as -> ->.
      destruct (Noop_Ok (T := Batch) b trb b2 E1 t ltac:(exact Hb)) as (-> & Ha1 & Ha2 & _).
      destruct (ArboTransitionFromNoop b) as [r2 b2'] eqn:E2. injection Hb2 as -> ->.
      destruct (Noop_Ok (T := Batch) b tri b1 E2 t ltac:(exact Hb)) as (-> & Ha3 & Ha4 & _).
      exists t, r. cbn. rewrite put_b_tx_same by done. split_and!; try done; congruence.
    - destruct (ArboTransitionFromAddOrUpdate _ _ b) as [r1 b1'] eqn:E1. injection Hb1 as -> ->.
      destruct (ArboTransitionFromAddOrUpdate (v_VoteID v) _ b2) as [r2 b2'] eqn:E2. injection Hb2 as -> ->.
      apply (AddOrUpdate_Ok (T := Batch)) in E1 as (t0 & t1 & Ht0 & Hput1 & -> & Ho1 & Hn1 & _).
      apply (AddOrUpdate_Ok (T := Batch)) in E2 as (t1' & t2 & Ht1 & Hput2 & -> & Ho2 & Hn2 & _).
      cbn in Ht0, Ht1. assert (t0 = t) as -> by congruence. injection Ht1 as <-.
      exists t2, (at_NewRoot tri). cbn [take put_votes]. rewrite Hput1, Hput2. split_and!; try done. cbn. split_and!; congruence. }
  destruct Hstep as (t1 & r1 & Hput & -> & Hr1 & Hc1).
  destruct (IH (tail votes) (put_b_tx t1 b) rest t1 r1 eq_refl Hr1 Hrest) as (t' & r' & Hput' & -> & Hr' & Hc' & Hl).
  exists t', r'. split_and!; [|done|done|by apply (chain_app _ [trb; tri] _ _ r1)|cbn; by f_equal].
  destruct votes as [|v votes]; [injection Hput as ->; by rewrite take_nil in *|].
  cbn [take put_votes tail] in *. destruct (put_leaf t _ _); [|done]. destruct (put_leaf _ _ [voteIDLeafValue]); [|done]. by injection Hput as ->.
Qed.

Lemma genArboProof_same msg key b p b' : wrapping msg (genArboProof key) b = (Ok p, b') → b' = b.
Proof.
  unfold wrapping, genArboProof. cbn. unfold b_generateProof, read. run_simpl. destruct (b_tx b); [|done].
  destruct (t_Proof _ _); [|done]. by intros [= _ <-].
Qed.
Lemma resultsFromTree_Ok b t old b' :
  b_tx b = Some t → wrapping "results not found in state" resultsFromTree b = (Ok old, b') →
  b' = b ∧ ∃ v, content t !! u64Z KeyResults = Some v ∧ SetBigInts v = Ok old.
Proof.
  intros Hb. unfold wrapping, resultsFromTree. cbn [getBigInt Batch_tree]. unfold wrapping, b_getBigInt, read.
  unfold mbind, SE_bind. rewrite Hb, t_Get_content. destruct (content t !! _) as [v|]; [|done]. unfold lift.
  destruct (SetBigInts v) as [z|] eqn:E; [|done]. intros [= -> <-]. eauto.
Qed.
(** What [prepareTransitions] leaves: the staged tree, the results and the roots. *)
Lemma prepareTransitions_Ok b t b' :
  b_tx b = Some t → prepareTransitions b = (Ok (), b') →
  ∃ r t1 t2 r2 old vp d,
    let new := Ballot_Add (Ballot_Add old (allBallotsSum b)) (Ballot_Neg (overwrittenSum b)) in
    put_votes t (take VotesPerBatch (b_votes b)) = Ok t1 ∧
    (∃ v, content t1 !! u64Z KeyResults = Some v ∧ SetBigInts v = Ok old) ∧
    put_leaf t1 (u64Z KeyResults) (BigInts new) = Ok t2 ∧
    t_Root t = Ok r ∧ t_Root t2 = Ok r2 ∧
    chain r (in_order (zip (vp_Ballot vp) (vp_VoteID vp)) ++ [vp_Results vp]) r2 ∧
    computeBlobEvalData (s_processID (b_state b)) r new (votersCount b) (b_votes b) = Ok d ∧
    (∃ pp, b' = set_prepared (Some r) (Some r2) old new (Some pp) (Some vp) (Some d) (put_b_tx t2 b)).
Proof.
  intros Hb. unfold prepareTransitions. intros (tx & b0 & [= <- <-] & HP)%bind_inv_Ok. rewrite Hb in HP.
  apply bind_inv_Ok in HP as (r & b0 & Hr & HP). rewrite (b_root b t Hb) in Hr.
  injection Hr as Hr <-. unfold root_of in Hr. destruct (t_Root t) as [r0|] eqn:Hroot; [|done]. injection Hr as ->.
  do 4 (apply bind_inv_Ok in HP as (? & ? & ->%genArboProof_same & HP)).
  apply bind_inv_Ok in HP as (votes & b0 & [= <- <-] & HP).
  apply bind_inv_Ok in HP as (trs & b1 & Htrs & HP).
  destruct (vote_transitions_Ok _ _ _ _ _ _ _ Hb Hroot Htrs) as (t1 & r1 & Hput & -> & Hr1 & Hc & Hl).
  apply bind_inv_Ok in HP as (old & b1 & Hold & HP).
  destruct (resultsFromTree_Ok (put_b_tx t1 b) t1 _ _ ltac:(reflexivity) Hold) as [-> Hres].
  apply bind_inv_Ok in HP as (b1 & b2 & [= <- <-] & HP). cbv zeta in HP.
  apply bind_inv_Ok in HP as (tr & b1 & Htr & HP).
  unfold wrapping in Htr. destruct (ArboTransitionFromAddOrUpdate _ _ _) as [r2 b2] eqn:E. destruct r2 as [tr'|]; [|done].
  injection Htr as -> ->. apply (AddOrUpdate_Ok (T := Batch)) in E as (t1' & t2 & Ht1 & Hput2 & -> & Ho & Hn & _).
  cbn in Ht1. injection Ht1 as <-.
  apply bind_inv_Ok in HP as (after & b1 & Hafter & HP). unfold wrapping in Hafter.
  change (put_view t2 (put_b_tx t1 b)) with (put_b_tx t2 b) in *. rewrite (b_root (put_b_tx t2 b) t2) in Hafter by done.
  unfold root_of in Hafter. rewrite Hn in Hafter. injection Hafter as <- <-.
  apply bind_inv_Ok in HP as (d & b1 & Hd & HP). unfold wrapping, lift in Hd.
  destruct (computeBlobEvalData _ _ _ _ _) as [d'|] eqn:Ed; [|done]. injection Hd as -> <-.
  injection HP as <-. eexists r, t1, t2, (at_NewRoot tr), old, _, d. split_and!; try done; [|by eexists].
  cbn [vp_Ballot vp_VoteID vp_Results]. rewrite zip_fst_snd. apply (chain_app _ _ _ _ r1); [done|].
  split; [congruence|done].
Qed.

(** ** Adding votes *)

(** The ballot that a vote replaces. *)
Definition replaced (m : gmap Z (list Z)) (v : Vote) : Ballot := old_ballot m (u64Z (v_BallotIndex v)).
(** The batch [b] of the state [s] once [votes] are added. *)
Record added (s : State) (votes : list Vote) (b : Batch) : Prop := {
  add_state : b_state b = s;
  add_tx : b_tx b = Some (s_tree s);
  add_votes : b_votes b = (λ v, with_overwritten (replaced (content (s_tree s)) v) v) <$> votes;
  add_count : votersCount b = Z.of_nat (length votes);
  add_all : allBallotsSum b = foldl Ballot_Add NewBallot (v_ReencryptedBallot <$> votes);
  add_over : Ballot_wf (overwrittenSum b) ∧ overwrittenSum b = ballots_sum (replaced (content (s_tree s)) <$> votes);
  add_size : (length votes ≤ VotesPerBatch)%nat }.

Lemma ballotLeafFromTree_eq b t ix :
  b_tx b = Some t →
  ballotLeafFromTree ix b =
    (match content t !! u64Z ix with
     | Some v => ballotLeafFromTreeLeafValues v
     | None => Err ErrStateKeyNotFound
     end, b).
Proof.
  intros Hb. unfold ballotLeafFromTree. cbn [getBigInt Batch_tree]. unfold attempt, b_getBigInt, read, mbind, SE_bind.
  rewrite Hb, t_Get_content. by destruct (content t !! u64Z ix).
Qed.
Lemma ballots_sum_snoc l z : Forall Ballot_wf l → Ballot_wf z → ballots_sum (l ++ [z]) = Ballot_Add (ballots_sum l) z.
Proof.
  intros Hl Hz. induction Hl as [|y l Hy Hl IH].
  - change (Ballot_Add z NewBallot = Ballot_Add NewBallot z). apply Ballot_Add_comm.
  - rewrite <-app_comm_cons, !ballots_sum_cons, IH. apply Ballot_Add_assoc.
Qed.
Lemma replaced_wf m votes : Forall Ballot_wf (replaced m <$> votes).
Proof.
  apply Forall_fmap, Forall_forall. intros v _. cbn. unfold replaced, old_ballot.
  destruct (m !! _); [apply leaf_ballot_wf|done].
Qed.
Lemma addVote_Ok s votes b v a b' : added s votes b → addVote v b = (Ok a, b') → added s (votes ++ [v]) b'.
Proof.
  intros [Hs Htx Hv Hn Hall [Hwf Hov] Hsz]. unfold addVote. rewrite Htx.
  destruct (Nat.leb_spec VotesPerBatch (length (b_votes b))) as [|Hlt]; [done|].
  rewrite (ballotLeafFromTree_eq _ _ _ Htx). rewrite Hv, length_fmap in Hlt.
  pose proof (proj1 (Forall_singleton Ballot_wf _) (replaced_wf (content (s_tree s)) [v])) as Hwf1.
  assert (Hadd : ∀ n, added s (votes ++ [v]) (count_vote (with_overwritten (replaced (content (s_tree s)) v) v)
      (Ballot_Add (overwrittenSum b) (replaced (content (s_tree s)) v)) n b)).
  { intros n. split; cbn [b_state b_tx b_votes votersCount allBallotsSum overwrittenSum count_vote with_overwritten v_ReencryptedBallot].
    - done.
    - done.
    - by rewrite Hv, fmap_app.
    - rewrite Hn, length_app. cbn. lia.
    - by rewrite Hall, fmap_app, foldl_app.
    - split; [by apply Ballot_wf_Add|]. rewrite Hov, fmap_app. symmetry. apply ballots_sum_snoc; [apply replaced_wf|done].
    - rewrite length_app. cbn. lia. }
  assert (Hnone : ∀ n, replaced (content (s_tree s)) v = NewBallot →
    added s (votes ++ [v]) (count_vote (with_overwritten NewBallot v) (overwrittenSum b) n b)).
  { intros n Hr. specialize (Hadd n). rewrite Hr, Ballot_Add_0_r in Hadd by done. done. }
  unfold replaced, old_ballot, leaf_ballot, ballotFromTreeLeafValues in Hadd, Hnone.
  destruct (content (s_tree s) !! u64Z (v_BallotIndex v)) as [vals|]; [|intros [= <- <-]; by apply Hnone].
  destruct (ballotLeafFromTreeLeafValues vals) as [leaf|]; [|intros [= <- <-]; by apply Hnone].
  destruct (v_Address v), (v_Weight v); try done. destruct (_ || _); [done|]. intros [= <- <-]. apply Hadd.
Qed.
Lemma added_new s : added s [] (newBatch s).
Proof. split; try done. cbn. lia. Qed.
Lemma addVotes_Ok s votes0 votes b a b' :
  added s votes0 b → forM_ (λ v, wrapping "failed to add vote" (addVote v)) votes b = (Ok a, b') → added s (votes0 ++ votes) b'.
Proof.
  revert votes0 b. induction votes as [|v votes IH]; intros votes0 b Hb; cbn [forM_].
  { intros [= _ <-]. by rewrite app_nil_r. }
  intros ([] & b1 & Hv & Hvs)%bind_inv_Ok. unfold wrapping in Hv. destruct (addVote v b) as [r b1'] eqn:E.
  destruct r as [[]|]; [|done]. injection Hv as ->. apply (addVote_Ok s votes0) in E; [|done].
  rewrite cons_middle, app_assoc. by apply (IH (votes0 ++ [v]) b1).
Qed.
Lemma PrepareVotesBatch_Ok votes s b' :
  PrepareVotesBatch votes s = Ok b' → ∃ b, added s votes b ∧ prepareTransitions b = (Ok (), b').
Proof.
  unfold PrepareVotesBatch. match goal with |- context [match ?m with _ => _ end] => destruct m as [r b1] eqn:E end.
  destruct r as [u|]; [|done]. intros [= ->]. apply bind_inv_Ok in E as (u1 & b & Ha & Hp). exists b. split.
  - apply (addVotes_Ok s [] votes _ _ _ (added_new s) Ha).
  - unfold wrapping in Hp. destruct (prepareTransitions b) as [[[]|] b2]; [|done]. by injection Hp as _ ->.
Qed.
Lemma put_votes_overwritten f t votes : put_votes t ((λ v, with_overwritten (f v) v) <$> votes) = put_votes t votes.
Proof.
  revert t. induction votes as [|v votes IH]; intros t; [done|]. cbn [fmap list_fmap put_votes].
  change (v_BallotIndex (with_overwritten (f v) v)) with (v_BallotIndex v).
  change (TreeLeafValues (with_overwritten (f v) v)) with (TreeLeafValues v).
  change (v_VoteID (with_overwritten (f v) v)) with (v_VoteID v).
  destruct (put_leaf t _ _) as [t1|]; [|done]. destruct (put_leaf t1 _ _); [|done]. apply IH.
Qed.

(** What a prepared batch is: the tree it stages, with the votes' leaves and the results. *)
Lemma prepared_spec votes s b :
  PrepareVotesBatch votes s = Ok b →
  ∃ t1 t2 old,
    put_votes (s_tree s) votes = Ok t1 ∧
    (∃ v, content t1 !! u64Z KeyResults = Some v ∧ SetBigInts v = Ok old) ∧
    put_leaf t1 (u64Z KeyResults) (BigInts (newResults b)) = Ok t2 ∧
    newResults b = Ballot_Add (Ballot_Add old (foldl Ballot_Add NewBallot (v_ReencryptedBallot <$> votes)))
                     (Ballot_Neg (ballots_sum (replaced (content (s_tree s)) <$> votes))) ∧
    b_tx b = Some t2 ∧ b_state b = s ∧
    b_votes b = (λ v, with_overwritten (replaced (content (s_tree s)) v) v) <$> votes ∧
    (∃ r r2, rootHashBefore b = Some r ∧ rootHashAfter b = Some r2 ∧ t_Root (s_tree s) = Ok r ∧ t_Root t2 = Ok r2 ∧
      (∃ vp, votesProofs b = Some vp ∧ chain r (in_order (zip (vp_Ballot vp) (vp_VoteID vp)) ++ [vp_Results vp]) r2) ∧
      ∃ d, blobEvalData b = Some d ∧
        computeBlobEvalData (s_processID s) r (newResults b) (Z.of_nat (length votes)) (b_votes b) = Ok d) ∧
    (length votes ≤ VotesPerBatch)%nat.
Proof.
  intros (b0 & [Hs Htx Hv Hn Hall [Hwf Hov] Hsz] & Hp)%PrepareVotesBatch_Ok.
  destruct (prepareTransitions_Ok b0 _ _ Htx Hp) as (r & t1 & t2 & r2 & old & vp & d & Hput & Hold & Hres & Hr & Hr2 & Hc & Hblob & pp & ->).
  exists t1, t2, old. rewrite take_ge in Hput by (rewrite Hv, length_fmap; lia). rewrite Hv, put_votes_overwritten in Hput.
  rewrite Hall, Hov in *. cbn [newResults set_prepared b_tx put_b_tx set_tree_side b_state b_votes rootHashBefore rootHashAfter votesProofs blobEvalData].
  rewrite Hn, Hv, Hs in Hblob. split_and!; try done. exists r, r2. split_and!; try done; [by exists vp|].
  exists d. by rewrite Hv.
Qed.

(** A batch is a chain of root changes without a gap, in the order in which the circuit
    checks them: each vote's ballot and identifier, then the results; it starts at the root
    of the state and ends at the root that the batch announces and stages. *)
Theorem batch_roots_chain votes s b :
  PrepareVotesBatch votes s = Ok b →
  ∃ r r' vp t,
    t_Root (s_tree s) = Ok r ∧ rootHashBefore b = Some r ∧
    b_tx b = Some t ∧ t_Root t = Ok r' ∧ rootHashAfter b = Some r' ∧
    votesProofs b = Some vp ∧ chain r (in_order (zip (vp_Ballot vp) (vp_VoteID vp)) ++ [vp_Results vp]) r'.
Proof.
  intros (t1 & t2 & old & _ & _ & _ & _ & Htx & _ & _ & (r & r2 & Hb & Ha & Hr & Hr2 & (vp & Hvp & Hc) & _) & _)%prepared_spec.
  by exists r, r2, vp, t2.
Qed.

(** The results of a process are the homomorphic sum of the ballots in its state: if
    that holds before a batch of well-formed votes with different ballot indexes, it holds
    of the tree that the batch stages, whether the votes are new or replace others. *)
Lemma prepared_tally votes s b :
  tally_inv (s_tree s) → Forall Vote_wf votes → NoDup (v_BallotIndex <$> votes) →
  PrepareVotesBatch votes s = Ok b →
  ∃ t, b_tx b = Some t ∧ tally_inv t ∧ newResults b = tally (content t).
Proof.
  intros Hinv Hwf Hnd (t1 & t2 & old & Hput & (v & Hv & Hold) & Hres & Hnew & Htx & _)%prepared_spec.
  exists t2. split; [done|]. destruct (put_votes_tally _ _ _ Hput Hwf Hnd) as [Hk Htally].
  rewrite Hk, Hinv in Hv. injection Hv as <-. rewrite SetBigInts_wf in Hold by apply tally_wf. injection Hold as <-.
  assert (Hwfs : Forall Ballot_wf (v_ReencryptedBallot <$> votes)).
  { apply Forall_fmap. eapply Forall_impl; [exact Hwf|]. by intros w [? _]. }
  pose proof (replaced_wf (content (s_tree s)) votes) as Hwr.
  rewrite (foldl_ballots _ NewBallot), (Ballot_Add_comm NewBallot), Ballot_Add_0_r in Hnew by first [done|by apply ballots_sum_wf].
  assert (Hnew' : newResults b = tally (content t1)).
  { rewrite Hnew, <-Htally. symmetry. apply Ballot_Add_move; [apply tally_wf|by apply ballots_sum_wf|done]. }
  apply put_leaf_content in Hres.
  assert (Ht2 : tally (content t2) = tally (content t1)) by (rewrite Hres; by apply tally_insert_other).
  unfold tally_inv. rewrite Ht2, <-Hnew', Hres, lookup_insert_eq. done.
Qed.
End tally.

(** ** A batch of two votes, one of which replaces a ballot *)

Module ConcreteState.
#[export] Existing Instance Concrete101.curve.
#[export] Existing Instance MapTree.arbo.
#[export] Instance small_hash : PoseidonHasher := λ l, Ok (foldr Z.add 5 l mod 2 ^ 200).
#[export] Instance kzg : KZG := {|
  BlobToCommitment b := Ok (take 48 b);
  kzg_ComputeCellProofs b := Ok [take 48 b];
  kzg_ComputeProof b z := Ok (take 48 b, z);
  emulated_Limbs z := (λ i, z / 2 ^ (64 * i) mod 2 ^ 64) <$> [0; 1; 2; 3] |}.

(** Fetch the value of a result that is known to be one. *)
Definition ballot_of (m k : Z) : Ballot := match Ballot_Encrypt (seqZ m 8) key7 k with Ok z => z | Err _ => NewBallot end.
Definition vote_of (ix address m k : Z) : Vote :=
  {| v_Address := Some address; v_BallotIndex := U64 ix; v_VoteID := U64 (VoteIDMin + k);
     v_Ballot := None; v_OverwrittenBallot := None; v_Weight := Some 1; v_ReencryptedBallot := ballot_of m k |}.
Definition pid : ProcessID := pid_of_bytes (byte_of_Z <$> seqZ 1 31).
Definition empty_state : State := {| s_tree := (∅ : gmap Z (list Z)); s_processID := pid; s_fault := None |}.
Definition fresh : State := exec (Initialize 1 5 (7, 1)) empty_state.
Definition voted : State := exec (AddVotesBatch [vote_of 16 1001 3 40]) fresh.
Definition two_votes : list Vote := [vote_of 16 1001 5 41; vote_of 17 1002 2 42].
Definition two_votes_batch : Batch := match PrepareVotesBatch two_votes voted with Ok b => b | Err _ => newBatch voted end.
Lemma two_votes_ok : PrepareVotesBatch two_votes voted = Ok two_votes_batch.
Proof.
  assert (Hok : is_Ok (PrepareVotesBatch two_votes voted) = true) by by vm_compute.
  unfold two_votes_batch. by destruct (PrepareVotesBatch two_votes voted).
Qed.
Lemma two_votes_wf : Forall Vote_wf two_votes.
Proof. repeat constructor; by vm_compute. Qed.
End ConcreteState.
Import ConcreteState.
Lemma batch_roots_chain_witness : ∃ r, rootHashBefore two_votes_batch = Some r ∧ t_Root (s_tree voted) = Ok r.
Proof.
  destruct (batch_roots_chain two_votes voted two_votes_batch two_votes_ok) as (r & r' & vp & t & Hr & Hb & _).
  exists r. exact (conj Hb Hr).
Defined.
Lemma prepared_tally_example :
  ∃ t, b_tx two_votes_batch = Some t ∧ tally_inv t ∧ newResults two_votes_batch = tally (content t).
Proof.
  apply (prepared_tally two_votes voted two_votes_batch).
  - by vm_compute.
  - apply two_votes_wf.
  - apply (bool_decide_unpack _). by vm_compute.
  - apply two_votes_ok.
Defined.
(** The new ballots are counted once each, the replaced one no longer. *)
Example two_votes_results :
  BigInts (newResults two_votes_batch) = BigInts (Ballot_Add (ballot_of 5 41) (ballot_of 2 42)) ∧
  overwrittenVotesCount two_votes_batch = 1.
Proof. by vm_compute. Qed.
(** That the indexes are different is needed: [addVote] looks for a stored ballot in the
    tree before the batch, so of two votes of one voter in a batch the first stays counted
    although the second replaces it. *)
Definition same_voter : list Vote := [vote_of 16 1001 5 41; vote_of 16 1001 2 42].
Example same_voter_breaks_tally :
  match PrepareVotesBatch same_voter fresh with
  | Ok b => match b_tx b with
            | Some t => bool_decide (BigInts (newResults b) = BigInts (tally (content t)))
            | None => true
            end
  | Err _ => true
  end = false.
Proof. by vm_compute. Qed.
