(* ===== verification/StateRun.v ===== *)
(** * The life of a process state

    The tree that [Initialize] builds ([src/state/state.go]) and the batches that follow
    it: what holds of every state that a sequence of batches, failing ones included,
    can reach, and what the owner of the process key reads in the results. *)

From S2P Require Import Prelude Bytes Spec Types Curve ElGamal StateTree StateVote StateBatch Tally.

Section run.
Context `{Curve} `{Arbo} `{Hash : PoseidonHasher} `{KZG}.

(** ** Initialization *)

Lemma add_step msg k v x t t' :
  tx_tx x = Some t → t_Add t k v = Ok t' → wrapping msg (addBigInt k v) x = (Ok (), set_tx (Some t') x).
Proof.
  intros Hx Ht. unfold wrapping. cbn [addBigInt stateTreeTx_tree]. unfold tx_addBigInt, write. by rewrite Hx, Ht.
Qed.
Lemma add_inv msg k v x t a x' :
  tx_tx x = Some t → wrapping msg (addBigInt k v) x = (Ok a, x') → ∃ t', t_Add t k v = Ok t' ∧ x' = set_tx (Some t') x.
Proof.
  intros Hx. unfold wrapping. cbn [addBigInt stateTreeTx_tree]. unfold tx_addBigInt, write. rewrite Hx.
  destruct (t_Add t k v) as [t'|]; [|done]. intros [= _ <-]. by exists t'.
Qed.
(** The leaves of a new process. *)
Definition initial_content (pid : ProcessID) (origin mode : Z) (key : Z * Z) : gmap Z (list Z) :=
  <[StateKeyCensusOrigin := [origin]]> (<[StateKeyResults := BigInts NewBallot]>
    (<[StateKeyEncryptionKey := [key.1; key.2]]> (<[StateKeyBallotMode := [mode]]>
      {[StateKeyProcessID := [pid_MathBigInt pid]]}))).
Lemma Initialize_content origin mode key s s' :
  content (s_tree s) = ∅ → Initialize origin mode key s = (Ok (), s') →
  content (s_tree s') = initial_content (s_processID s) origin mode key ∧ s_processID s' = s_processID s ∧ s_fault s' = s_fault s.
Proof.
  intros Hempty. unfold Initialize, in_tx. match goal with |- context [match ?m with _ => _ end] => destruct m as [[u|e] x] eqn:E end; [|done].
  intros [= _ <-]. apply bind_inv_Ok in E as (got & x0 & Hg & E).
  unfold attempt in Hg. cbn [getBigInt stateTreeTx_tree] in Hg. unfold tx_getBigInt, read in Hg. cbn [tx_tx newTreeTx] in Hg.
  rewrite t_Get_content, Hempty, lookup_empty in Hg. injection Hg as <- <-. cbn [errors_Is] in E.
  rewrite bool_decide_true in E by done. cbn [negb] in E.
  apply bind_inv_Ok in E as (pid & x0 & [= <- <-] & E). cbn [compose tx_state newTreeTx] in E.
  apply bind_inv_Ok in E as (? & x1 & (t1 & Ht1 & ->)%(add_inv _ _ _ _ (s_tree s)) & E); [|done].
  apply bind_inv_Ok in E as (? & x1 & (t2 & Ht2 & ->)%(add_inv _ _ _ _ t1) & E); [|done].
  apply bind_inv_Ok in E as (? & x1 & (t3 & Ht3 & ->)%(add_inv _ _ _ _ t2) & E); [|done].
  apply bind_inv_Ok in E as (? & x1 & (t4 & Ht4 & ->)%(add_inv _ _ _ _ t3) & E); [|done].
  apply bind_inv_Ok in E as (? & x1 & (t5 & Ht5 & ->)%(add_inv _ _ _ _ t4) & E); [|done].
  unfold commit in E. cbn [tx_tx set_tx tx_state newTreeTx] in E. destruct (s_fault s) eqn:Hf; [done|]. injection E as _ <-.
  cbn [tx_state set_tree s_tree s_processID s_fault set_tx newTreeTx]. split; [|done].
  apply t_Add_content in Ht1 as [_ H1'], Ht2 as [_ H2'], Ht3 as [_ H3'], Ht4 as [_ H4'], Ht5 as [_ H5'].
  rewrite H5', H4', H3', H2', H1', Hempty. done.
Qed.
Lemma tally_empty : tally ∅ = NewBallot.
Proof. apply map_fold_empty. Qed.
Lemma tally_initial pid origin mode key : tally (initial_content pid origin mode key) = NewBallot.
Proof.
  unfold initial_content. rewrite <-insert_empty. rewrite !tally_insert_other by done. apply tally_empty.
Qed.

(** ** Batches *)

(** The invariant of the committed state. *)
Definition state_inv (s : State) : Prop := tally_inv (s_tree s).
(** A batch of votes that the aggregator can hand over: well-formed, one for each voter. *)
Definition batch_ok (votes : list Vote) : Prop := Forall Vote_wf votes ∧ NoDup (v_BallotIndex <$> votes).
(** The events of a state: batches, some of whose commits fail. *)
Inductive state_step : relation State :=
  | step_batch votes s : batch_ok votes → state_step s (exec (AddVotesBatch votes) s)
  | step_fault fault s : state_step s {| s_tree := s_tree s; s_processID := s_processID s; s_fault := fault |}.

Lemma Batch_Commit_state b r b' t :
  b_tx b = Some t → Batch_Commit b = (r, b') →
  match r with Ok _ => b_state b' = set_tree t (b_state b) | Err _ => b_state b' = b_state b end.
Proof.
  intros Ht. unfold Batch_Commit. rewrite Ht. destruct (match rootHashAfter b with Some _ => _ | None => _ end) as [after|e]; [|by intros [= <- <-]].
  destruct (s_fault (b_state b)); by intros [= <- <-].
Qed.
Lemma AddVotesBatch_state votes s r s' :
  AddVotesBatch votes s = (r, s') →
  match r with
  | Err _ => s' = s
  | Ok _ => ∃ b t, PrepareVotesBatch votes s = Ok b ∧ b_tx b = Some t ∧ s' = set_tree t s
  end.
Proof.
  unfold AddVotesBatch. destruct (PrepareVotesBatch votes s) as [b|e] eqn:E; [|by intros [= <- <-]].
  destruct (prepared_spec _ _ _ E) as (t1 & t2 & old & _ & _ & _ & _ & Htx & Hst & _).
  destruct (Batch_Commit b) as [r' b'] eqn:Ec. intros [= <- <-].
  pose proof (Batch_Commit_state _ _ _ _ Htx Ec) as Hc. rewrite Hst in Hc. destruct r'; [|done]. by exists b, t2.
Qed.
Lemma state_step_inv s s' : state_step s s' → state_inv s → state_inv s'.
Proof.
  intros [votes s0 [Hwf Hnd]|fault s0] Hinv; [|done]. unfold exec.
  destruct (AddVotesBatch votes s0) as [r s1] eqn:E. apply AddVotesBatch_state in E. cbn. destruct r; [|by subst].
  destruct E as (b & t & Hb & Ht & ->). destruct (prepared_tally _ _ _ Hinv Hwf Hnd Hb) as (t' & Ht' & Hinv' & _).
  unfold state_inv. cbn. congruence.
Qed.
(** C4: the results of a process are the homomorphic sum of the ballots in its state, in
    every state reached from its initialization by batches of well-formed votes with one vote for each
    voter, new or replacing another, whether or not their commits succeed. *)
Theorem results_are_tally origin mode key s s0 s' :
  content (s_tree s) = ∅ → Initialize origin mode key s = (Ok (), s0) → rtc state_step s0 s' →
  Results s' = Ok (tally (content (s_tree s'))).
Proof.
  intros Hempty (Hc & _)%Initialize_content Hrun; [|done].
  assert (Hinv : state_inv s').
  { assert (Hinv0 : state_inv s0).
    { unfold state_inv, tally_inv. rewrite Hc, tally_initial. unfold initial_content. by rewrite lookup_insert_ne, lookup_insert_eq. }
    clear Hc. induction Hrun as [|s0 s1 s2 Hstep _ IH]; [done|]. by apply IH, (state_step_inv s0). }
  unfold Results, resultsFromTree, eval. cbn [getBigInt State_tree]. unfold wrapping, State_getBigInt, read, mbind, SE_bind.
  cbn [compose]. rewrite t_Get_content, Hinv. unfold lift. cbn. by rewrite SetBigInts_wf by apply tally_wf.
Qed.
End run.

Import ConcreteState.
Lemma results_are_tally_witness :
  Results (exec (AddVotesBatch two_votes) voted) =
    Ok (tally (content (s_tree (exec (AddVotesBatch two_votes) voted)))) ∧
  Results voted = Ok (ballot_of 3 40).
Proof.
  assert (Hinit : Initialize 1 5 (7, 1) empty_state = (Ok (), fresh)).
  { assert (Hok : is_Ok (Initialize 1 5 (7, 1) empty_state).1 = true) by (vm_compute; reflexivity).
    unfold fresh, exec. destruct (Initialize 1 5 (7, 1) empty_state) as [[[]|e] s]; [reflexivity|discriminate Hok]. }
  split; [|vm_compute; reflexivity].
  apply (results_are_tally 1 5 (7, 1) empty_state fresh _ eq_refl Hinit).
  apply (rtc_l state_step _ voted).
  - apply (step_batch [vote_of 16 1001 3 40]). split; [repeat constructor; vm_compute; reflexivity|].
    apply (bool_decide_unpack _). vm_compute. exact I.
  - apply rtc_once, (step_batch two_votes). split; [exact two_votes_wf|].
    apply (bool_decide_unpack _). vm_compute. exact I.
Defined.
