(* ===== verification/Blobs.v ===== *)
(** * Evaluation of blobs

    [src/crypto/blobs]: the value of a blob's polynomial at a point, computed by the
    barycentric formula ([barycentric.go]) and checked in the circuit with quotients
    that the prover supplies ([evaluation.go], [hints.go]). Emulated field elements are
    integers modulo the prime of the field; the table of the roots of unity
    ([omega.go], generated) is a parameter here and compared in [Omega]. *)

From S2P Require Import Prelude Bytes Spec Types Curve StateVote Dkg.
From Stdlib Require Import Znumtheory Zdiv Setoid.

Section blobs.
Context (r : Z).

(** ** Native evaluation *)

(** [src/crypto/blobs/barycentric.go:183-189] blobCell *)
Definition blobCell (blob : bytes) (i : nat) : Z :=
  if (length blob / 32 <=? i)%nat then 0 else be_combine (take 32 (drop (i * 32) blob)).
(** [src/crypto/blobs/barycentric.go:193-201] bitReverse *)
Definition bitReverse (n : Z) (log2n : nat) : Z :=
  foldl (λ rev i, if Z.land (Z.shiftr n (Z.of_nat i)) 1 =? 1
                  then Z.lor rev (Z.shiftl 1 (Z.of_nat (log2n - 1 - i))) else rev) 0 (seq 0 log2n).
(** The powers of the generator, in natural order. *)
Fixpoint domain_roots (generator x : Z) (n : nat) : list Z :=
  match n with O => [] | S n => x :: domain_roots generator ((x * generator) mod r) n end.
Definition rootOfUnity : Z := 10238227357739495823651030575849232062558860180284477541189508159991286009131.
(** Powers modulo [r]. *)
Definition Exp (x n : Z) : Z := Z.iter n (λ acc, (acc * x) mod r) (1 mod r).
(** Repeated squaring: the power to [2^k]. *)
Fixpoint square_times (k : nat) (x : Z) : Z := match k with O => x | S k => square_times k ((x * x) mod r) end.
(** [src/crypto/blobs/barycentric.go:47-73] the domain in the order of the blob, in
    EvaluateBarycentricNative *)
Definition omega_domain : list Z :=
  let generator := square_times 20 (rootOfUnity mod r) in
  let domainRoots := domain_roots generator 1 4096 in
  (λ i, default 0 (domainRoots !! Z.to_nat (bitReverse (Z.of_nat i) 12))) <$> seq 0 4096.
(** [src/crypto/blobs/barycentric.go:109-148] the sum of the terms, in EvaluateBarycentricNative; a
    denominator without inverse is a nil dereference, [None] *)
Fixpoint bary_sum (z : Z) (sum : Z) (dw : list (Z * Z)) : option Z :=
  match dw with
  | [] => Some sum
  | (d, w) :: dw =>
      let d := d mod r in
      if d =? 0 then bary_sum z sum dw
      else
        let diff := (z - w) mod r in
        inv ← ModInverse diff r;
        let term := (d * w * inv) mod r in
        bary_sum z ((sum + term) mod r) dw
  end.
(** [src/crypto/blobs/barycentric.go:23-179] on the domain [omega], with [n] its size *)
Definition EvaluateBarycentric (omega : list Z) (blob : list Z) (z : Z) : option Z :=
  let n := Z.of_nat (length omega) in
  nInv ← ModInverse n r;
  match list_find (λ w, w = z) omega with
  | Some (k, _) => Some (default 0 (blob !! k) mod r)
  | None =>
      sum ← bary_sum z 0 (zip blob omega);
      let zPowN := (Exp z n - 1) mod r in
      let factor := (zPowN * nInv) mod r in
      Some ((sum * factor) mod r)
  end.
(** [src/crypto/blobs/barycentric.go:23-179] *)
Definition EvaluateBarycentricNative (blob : bytes) (z : Z) : option Z :=
  EvaluateBarycentric omega_domain (blobCell blob <$> seq 0 4096) z.

(** ** The check in the circuit *)

(** [src/crypto/blobs/hints.go:35-73] computeQuot: what an honest prover supplies, the quotients and
    the sum *)
Definition quot (Y Z' d w : Z) : Z :=
  let num := (d - Y) mod r in
  let den := (w - Z') mod r in
  if den =? 0 then 0 else match ModInverse den r with Some inv => (inv * num) mod r | None => 0 end.
(** [src/crypto/blobs/hints.go:35-73] *)
Definition computeQuot (Y Z' : Z) (d w : list Z) : list Z * Z :=
  let q := zip_with (quot Y Z') d w in
  (q, foldl (λ sum '(qi, wi), (sum + (qi * wi) mod r) mod r) 0 (zip q w)).
(** [src/crypto/blobs/evaluation.go:61-129] VerifyBarycentricEvaluation: the constraints of one
    index, and the value and flag of a hit on the domain *)
Definition index_constraints (z y : Z) (blob_i omega_i q_i : Z) : bool :=
  let denR := (omega_i - z) mod r in
  let isZero := denR =? 0 in
  let lhs := if isZero then 0 else (blob_i - y) mod r in
  let rhs := if isZero then 0 else (q_i mod r * denR) mod r in
  (lhs =? rhs) && ((if isZero then q_i mod r else 0) =? 0).
(** [src/crypto/blobs/evaluation.go:61-129] VerifyBarycentricEvaluation: the flag and the value of
    a hit *)
Definition hit_step (z : Z) (acc : bool * Z) (dw : Z * Z) : bool * Z :=
  let isZero := (dw.2 - z) mod r =? 0 in
  (acc.1 || isZero, if isZero then dw.1 mod r else acc.2).
(** [src/crypto/blobs/evaluation.go:61-129]; [outs] are the outputs of the hint, which the prover
    chooses: the quotients, then the number [S1] *)
Definition VerifyBarycentricEvaluation (omega : list Z) (z y : Z) (blob : list Z) (outs : list Z * Z) : bool :=
  let '(q, out_N) := outs in
  let S1 := out_N mod r in
  let '(anyZero, direct) := foldl (hit_step z) (false, 0) (zip blob omega) in
  (length q =? length omega)%nat &&
  forallb (λ x, x) (zip_with (λ '(d, w) qi, index_constraints z y d w qi) (zip blob omega) q) &&
  (S1 =? 0) &&
  ((if anyZero then direct else y) mod r =? y mod r).
End blobs.

(** ** What the check accepts *)

Section facts.
Context (r : Z) (Hr : prime r).
Infix "≡" := (cong r) (at level 70).
Lemma r_ne : r ≠ 0.
Proof. pose proof (prime_ge_2 _ Hr). lia. Qed.
#[local] Hint Resolve r_ne : core.

Lemma inverse_of w z : (w - z) mod r ≠ 0 → ∃ inv, ModInverse ((w - z) mod r) r = Some inv ∧ (inv * ((w - z) mod r)) mod r = 1.
Proof.
  intros Hne. pose proof (prime_ge_2 _ Hr). apply ModInverse_spec; [lia|].
  pose proof (Z.mod_pos_bound (w - z) r ltac:(lia)).
  rewrite Z.gcd_comm. apply Zgcd_1_rel_prime, rel_prime_sym, rel_prime_le_prime; [done|lia].
Qed.
(** The quotient of an honest prover satisfies the constraints of its index. *)
Lemma quot_constraints z y d w : index_constraints r z y d w (quot r y z d w) = true.
Proof.
  unfold index_constraints, quot. destruct (Z.eqb_spec ((w - z) mod r) 0) as [|Hne].
  { by rewrite Z.mod_0_l. }
  destruct (inverse_of w z Hne) as (inv & -> & Hinv). apply andb_true_iff. split; [|done]. apply Z.eqb_eq.
  apply (cong_mod_eq r _ _ r_ne). rewrite !cong_mod by done.
  assert (H1 : inv * ((w - z) mod r) ≡ 1).
  { apply cong_mod_eq; [done|]. rewrite Hinv. symmetry. apply Z.mod_small. pose proof (prime_ge_2 _ Hr). lia. }
  rewrite cong_mod in H1 by done. replace (inv * (d - y) * (w - z)) with (inv * (w - z) * (d - y)) by ring.
  rewrite H1, Z.mul_1_l. reflexivity.
Qed.
Lemma hit_none z dw acc :
  Forall (λ p, (p.2 - z) mod r ≠ 0) dw → foldl (hit_step r z) acc dw = acc.
Proof.
  intros Hdw. revert acc. induction Hdw as [|p dw Hp _ IH]; intros [b v]; [done|].
  cbn [foldl]. unfold hit_step at 2. rewrite (proj2 (Z.eqb_neq _ _) Hp), orb_false_r. apply IH.
Qed.
Lemma honest_quotients z y dw :
  forallb (λ x, x) (zip_with (λ '(d, w) qi, index_constraints r z y d w qi) dw
    ((λ '(d, w), quot r y z d w) <$> dw)) = true.
Proof.
  induction dw as [|[d w] dw IH]; cbn; [done|]. by rewrite quot_constraints.
Qed.

(** C39: the check does not bind the claimed value to the blob: off the domain, for every blob and
    every claimed value the prover can supply quotients and a sum that satisfy all the
    constraints. The number that should be the weighted sum of the quotients is an output
    of the hint that no constraint ties to the quotients. *)
Theorem barycentric_accepts_anything omega z y blob :
  length blob = length omega → Forall (λ w, (w - z) mod r ≠ 0) omega →
  ∃ outs, VerifyBarycentricEvaluation r omega z y blob outs = true.
Proof.
  intros Hl Hz. exists ((λ '(d, w), quot r y z d w) <$> zip blob omega, 0). unfold VerifyBarycentricEvaluation.
  rewrite hit_none; [|apply Forall_forall; intros [d w] Hin; rewrite Forall_forall in Hz; apply Hz; by apply elem_of_zip_r in Hin].
  rewrite length_fmap, length_zip_with_l_eq, Hl, Nat.eqb_refl, honest_quotients, Z.mod_0_l, !Z.eqb_refl by first [done|lia].
  done.
Qed.

(** The weighted sum that the comments describe. *)
Definition weighted_quotients (omega q : list Z) : Z := zsum (λ p, p.1 * p.2) (zip q omega).
Lemma index_constraints_cong z y d w q :
  (w - z) mod r ≠ 0 → index_constraints r z y d w q = true → d - y ≡ q * (w - z).
Proof.
  intros Hne. unfold index_constraints. rewrite (proj2 (Z.eqb_neq _ _) Hne).
  intros [Heq%Z.eqb_eq _]%andb_true_iff. apply (cong_mod_eq r _ _ r_ne) in Heq. by rewrite !cong_mod in Heq by done.
Qed.
(** Two accepted values differ by the difference of their weighted sums. *)
Lemma weighted_difference z y y' dw q q' :
  length q = length dw → length q' = length dw → Forall (λ p, (p.2 - z) mod r ≠ 0) dw →
  forallb (λ x, x) (zip_with (λ '(d, w) qi, index_constraints r z y d w qi) dw q) = true →
  forallb (λ x, x) (zip_with (λ '(d, w) qi, index_constraints r z y' d w qi) dw q') = true →
  zsum (λ p, p.1 * p.2) (zip q dw.*2) - zsum (λ p, p.1 * p.2) (zip q' dw.*2) ≡
  (y - y') * zsum (λ w, w * default 0 (ModInverse ((z - w) mod r) r)) dw.*2.
Proof.
  revert q q'. induction dw as [|[d w] dw IH]; intros [|q0 q] [|q0' q'] Hl Hl'; try done.
  { intros _ _ _. cbn. rewrite Z.mul_0_r. reflexivity. }
  cbn [fmap list_fmap zip zip_with forallb zsum snd fst]. intros [Hz Hzs]%Forall_cons [Hc Hcs]%andb_true_iff [Hc' Hcs']%andb_true_iff.
  cbn [snd] in Hz. pose proof (IH q q' ltac:(by injection Hl) ltac:(by injection Hl') Hzs Hcs Hcs') as IH'.
  apply index_constraints_cong in Hc, Hc'; [|done..].
  assert (Hzw : (z - w) mod r ≠ 0).
  { intros Heq. apply Hz. apply Z.mod_divide in Heq as [k Hk]; [|done]. apply Z.mod_divide; [done|]. exists (- k). lia. }
  destruct (inverse_of z w Hzw) as (inv & Hinv & H1). rewrite Hinv. cbn [from_option id].
  assert (Hinv1 : inv * (z - w) ≡ 1).
  { rewrite <-(cong_mod r (z - w)) by done. apply cong_mod_eq; [done|]. rewrite H1. symmetry. apply Z.mod_small. pose proof (prime_ge_2 _ Hr). lia. }
  assert (Hq : q0 - q0' ≡ (y - y') * inv).
  { assert (Hd : y - y' ≡ (q0 - q0') * (z - w)).
    { replace (y - y') with ((d - y') - (d - y)) by ring. rewrite Hc, Hc'. replace ((q0 - q0') * (z - w)) with (q0' * (w - z) - q0 * (w - z)) by ring. reflexivity. }
    rewrite Hd. replace ((q0 - q0') * (z - w) * inv) with ((q0 - q0') * (inv * (z - w))) by ring.
    rewrite Hinv1, Z.mul_1_r. reflexivity. }
  match goal with |- ?a + ?b - (?c + ?d0) ≡ _ => replace (a + b - (c + d0)) with ((q0 - q0') * w + (b - d0)) by ring end.
  rewrite Hq, IH'. match goal with |- ?a ≡ ?b => replace a with b by ring end. reflexivity.
Qed.
(** With the sum constrained, as the comments say, the blob determines the value. *)
Lemma constrained_sum_determines omega z y y' blob q q' :
  length blob = length omega → Forall (λ w, (w - z) mod r ≠ 0) omega →
  ¬ zsum (λ w, w * default 0 (ModInverse ((z - w) mod r) r)) omega ≡ 0 →
  VerifyBarycentricEvaluation r omega z y blob (q, weighted_quotients omega q) = true →
  VerifyBarycentricEvaluation r omega z y' blob (q', weighted_quotients omega q') = true → y ≡ y'.
Proof.
  intros Hl Hz Hw. unfold VerifyBarycentricEvaluation.
  rewrite hit_none; [|apply Forall_forall; intros [d w] Hin; rewrite Forall_forall in Hz; apply Hz; by apply elem_of_zip_r in Hin].
  intros [[[Hq%Nat.eqb_eq Hc]%andb_true_iff HS%Z.eqb_eq]%andb_true_iff _]%andb_true_iff
         [[[Hq'%Nat.eqb_eq Hc']%andb_true_iff HS'%Z.eqb_eq]%andb_true_iff _]%andb_true_iff.
  assert (Hom : (zip blob omega).*2 = omega) by (apply snd_zip; lia).
  assert (Hlz : length (zip blob omega) = length omega) by (rewrite length_zip_with_l_eq by lia; lia).
  pose proof (weighted_difference z y y' (zip blob omega) q q' ltac:(lia) ltac:(lia)) as Hd. rewrite Hom in Hd.
  specialize (Hd ltac:(apply Forall_forall; intros [d w] Hin; rewrite Forall_forall in Hz; apply Hz; by apply elem_of_zip_r in Hin) Hc Hc').
  fold (weighted_quotients omega q) (weighted_quotients omega q') in Hd.
  assert (H0 : weighted_quotients omega q - weighted_quotients omega q' ≡ 0).
  { apply Z.mod_divide in HS as [a Ha], HS' as [b Hb]; [|done..]. exists (a - b). lia. }
  rewrite H0 in Hd. destruct Hd as [k Hk].
  assert (Hdiv : (r | (y - y') * zsum (λ w, w * default 0 (ModInverse ((z - w) mod r) r)) omega)) by (exists (- k); lia).
  apply prime_mult in Hdiv as [Hdiv|Hdiv]; [done| |done]. exfalso. apply Hw. unfold cong. by rewrite Z.sub_0_r.
Qed.
End facts.

(** ** Four cells modulo 101 *)

Definition omega4 : list Z := [1; 100; 10; 91].
Definition blob4 : list Z := [3; 1; 4; 15].
(** The value of the blob's polynomial at 7 is 49, and 55 is accepted too. *)
Example value4 : EvaluateBarycentric 101 omega4 blob4 7 = Some 49.
Proof. by vm_compute. Qed.
Example honest4 : VerifyBarycentricEvaluation 101 omega4 7 49 blob4 (computeQuot 101 49 7 blob4 omega4) = true.
Proof. by vm_compute. Qed.
Lemma barycentric_accepts_anything_witness : ∃ outs, VerifyBarycentricEvaluation 101 omega4 7 55 blob4 outs = true.
Proof.
  apply (barycentric_accepts_anything 101 Concrete101.prime_q omega4 7 55 blob4); [done|].
  repeat constructor; by vm_compute.
Defined.
