(* ===== verification/Omega.v ===== *)
(** * The domain of the blob check in the circuit

    The table of [src/crypto/blobs/omega.go], which a program generated, and its comparison with the
    domain that the native evaluation computes. The comparison is by computation, with the binary
    integers of Bignums: their words are machine integers, so the 4096 products modulo the order of
    the field are quick to check again. *)

From Bignums Require Import BigN.BigN.
From S2P Require Import Prelude Bytes Blobs.

(** ** The table *)

(** [src/crypto/blobs/omega.go:5-132] rows 0 to 127 *)
Definition omega_rows_0 : list Z :=
  [0x1;
   0x73eda753299d7d483339d80809a1d80553bda402fffe5bfeffffffff00000000;
   0x8d51ccce760304d0ec030002760300000001000000000000;
   0x73eda753299d7d47a5e80b39939ed33467baa40089fb5bfefffeffff00000001;
   0x345766f603fa66e78c0625cd70d77ce2b38b21c28713b7007228fd3397743f7a;
   0x3f96405d25a31660a733b23a98ca5b22a032824078eaa4fe8dd702cb688bc087;
   0x1333b22e5ce11044babc5affca86bf658e74903694b04fd86037fe81ae99502e;
   0x60b9f524ccbc6d03787d7d083f1b189fc54913cc6b4e0c269fc8017d5166afd3;
   0x20b1ce9140267af9dd1c0af834cec32c17beb312f20b6f7653ea61d87742bcce;
   0x533bd8c1e977024e561dcd0fd4d314d93bfef0f00df2ec88ac159e2688bd4333;
   0x4f2c596e753e4fcc6e92a9c460afca4a1ef4e672ebc1e1bb95df4b360411fe73;
   0x24c14de4b45f2d7bc4a72e43a8f20dbb34c8bd90143c7a436a20b4c8fbee018e;
   0x1edc919ec91f38ac5ccd4631f16edba4967a6b6cfb0faca4807b811a823f728d;
   0x551115b4607e449bd66c91d61832fc60bd43389604eeaf5a7f847ee47dc08d74;
   0x38c7f2dd7e0c63fccabf643eda8951f257bc96af334c36bca1abb31fb37786b9;
   0x3b25b475ab91194b687a73c92f188612fc010d53ccb225425e544cdf4c887948;
   0x50e0903a157988bab4bcd40e22f55448bf6e88fb4c38fb8a360c60997369df4e;
   0x230d17191423f48d7e7d03f9e6ac83bc944f1b07b3c56074c9f39f658c9620b3;
   0x65f6c5837cb5fca206050b5832d1099726bc7f62d13a6e1c3ec50c9031a36ca3;
   0xdf6e1cface780a62d34ccafd6d0ce6e2d0124a02ec3ede2c13af36ece5c935e;
   0x2c7e0457c83a7d9c5aea51f540eb0c04963dc46688b5e11768cc0c58459f155b;
   0x476fa2fb6162ffabd84f8612c8b6cc00bd7fdf9c77487ae79733f3a6ba60eaa6;
   0x5303da18a9d30564a8f0cfd2438f018c01e943612401899720d4ed194fccfeb9;
   0x20e9cd3a7fca77e38a490835c612d67951d460a1dbfcd267df2b12e5b0330148;
   0x461237e58fcced486fa69d8e4e48506e3317ae6451bb89de69679532ae1234c;
   0x6f8c83d4d0a0ae73ac3f6e2f24bd52fe708c291cbae2a361196986abd51edcb5;
   0x47cb16caf96816fa3a95d2d4016e2bd45593d6ff6dab086ee5bcecc4e7773cb;
   0x6f70f5e67a06fbd88f907adac98af5480e6466930923ab7811a43132b1888c36;
   0x56f35bb8ed54ae00468b04010fa5c79f62a6d195014b641082e68bc0bc50a88f;
   0x1cfa4b9a3c48cf47ecaed406f9fc1065f116d26dfeb2f7ee7d19743e43af5772;
   0x1579b9c6e6797777851425ea12dcacdae7452d43f6d5756f51cb57e0e3035d15;
   0x5e73ed8c432405d0ae25b21df6c52b2a6c7876bf0928e68fae34a81e1cfca2ec;
   0x45af6345ec055e4d14a1e27164d8fdbd2d967f4be2f951558140d032f0a9ee53;
   0x2e3e440d3d981efb1e97f596a4c8da48262724b71d050aa97ebf2fcc0f5611ae;
   0x28eb300e9079af0b916f129332ba2dfc0bf20a6f5e1709899ddf46bac40ac8e4;
   0x4b0277449923ce3ca1cac574d6e7aa0947cb9993a1e752756220b9443bf5371d;
   0x5391ad6a79b61c1a71d544f7800a7e4ae4dc0ae311f00af48469ef4d246b6883;
   0x205bf9e8afe7612dc1649310899759ba6ee1991fee0e510a7b9610b1db94977e;
   0x44ed0520cdfb5d9d6c54cb86cdf73e91232e4312e6011bf5d941e9338fb466f7;
   0x2f00a2325ba21faac6e50c813baa9974308f60f019fd400926be16cb704b990a;
   0x54fa64fb4536c4fcf6ad66524f0376d9e412abf7f3a89e7acf065a270f3c324f;
   0x1ef34257e466b84b3c8c71b5ba9e612b6faaf80b0c55bd8430f9a5d7f0c3cdb2;
   0xe4840ac57f86f5e293b1d67bc8de5d9a12a70a615d0b8e4d2fc5e69ac5db47f;
   0x65a566a6d1a50dea09febaa04d13f22bb293335cea2da31a2d03a19553a24b82;
   0x58c400aba73798bfaf59d0fc7261da72911f590ef73ba2bdc0f1357a508e5e7b;
   0x1b29a6a78265e48883e0070b973ffd92c29e4af408c2b9413f0eca84af71a186;
   0x6358785206b5761a878d670fcb570ab3b802e4e461e72e18ddc3b03ea91bc267;
   0x10952f0122e8072dabac70f83e4acd519bbabf1e9e172de6223c4fc056e43d9a;
   0x53c78adc7bff16bae3ee1645113940cf46c3ebf43c92a949a4593e1acca2cb6c;
   0x20261c76ad9e668d4f4bc1c2f86897360cf9b80ec36bb2b55ba6c1e4335d3495;
   0x37d3508a14adf95959d7d47f20aa9f0259e74ba2b75ca477f44e14739932aa33;
   0x3c1a56c914ef83eed9620388e8f73902f9d6586048a1b7870bb1eb8b66cd55ce;
   0x5a50cc64ae610371dcd9ce528178852eaf9f1f01e2bbf0ac476e05bf67d4973c;
   0x199cdaee7b3c79d6566009b5882952d6a41e85011d426b52b891fa3f982b68c5;
   0x6e5703824bef73c976407b9926e20836d21ae51df978cc3878f4ee1de45ab2f2;
   0x596a3d0ddae097ebcf95c6ee2bfcfce81a2bee506858fc6870b11e11ba54d0f;
   0x36b79931cfdd8947f799cf20f675fde6a7493f160ce4cb729b4cb21179cfb0e;
   0x70822dc00c9fa4b3b3c03b15fa3a7826e94910119f300f47d64b34dde86304f3;
   0xafced2ec80a4115f20c57f6d7dc9533050664a566a603f98c15c05b1901cef2;
   0x68f0ba2461933c32412d801131c542d24eb73f5d9958580573ea3fa3e6fe310f;
   0x28c6d5fd4e2f04c5e7caaba64af676214ee20d3cfc83311c0727b36db1974ef4;
   0x4b26d155db6e78824b6f2c61beab61e404db96c6037b2ae2f8d84c914e68b10d;
   0xfe09ddec7fa8e98e4b5243a8bda7ca37836750f231bcd8672d73ebbe97445d5;
   0x640d097461a2eeaf4e84b3cd7dc75b61db872ef3dce28e788d28c143168bba2c;
   0x6898111413588742b7c68b4d7fdd60d098d0caac87f5713c5130c2c1660125be;
   0xb55963f1644f6057b734cba89c47734baecd9567808eac2aecf3d3d99feda43;
   0x30d2983de0110e23413ff88848100458b830a34e5e4c7a31a0927a327c751043;
   0x431b0f15498c6f24f1f9df7fc191d3ac9b8d00b4a1b1e1cd5f6d85cc838aefbe;
   0x510df5b7cb3dee5f01fe51c5b744878f5d1e0777f7ef73e32ef7664cb2440ed4;
   0x22dfb19b5e5f8ee9313b8642525d5075f69f9c8b080ee81bd10899b24dbbf12d;
   0x15ae1a173d90ba01c42ee040e5579a63af608393655b6d323eae9752b92f9726;
   0x5e3f8d3bec0cc3466f0af7c7244a3da1a45d206f9aa2eeccc15168ac46d068db;
   0x1a8f3ae1cc22ee66ae3320a20450eb9bbf136819ab9c98a27528d588439e5b12;
   0x595e6c715d7a8ee18506b7660550ec6994aa3be95461c35c8ad72a76bc61a4ef;
   0x35c60b00588ed2cf8b98c6ffcd682aa219b0deac619bda2d4000b0b3767c9928;
   0x3e279c52d10eaa78a7a111083c39ad633a0cc5569e6281d1bfff4f4b898366d9;
   0x58e6bb22f520df225302664820cb7fbf495392351a789a318d303a266992f63;
   0x6e5f3ba0fa4b6f560e09b1a3879520095f286adfae56d25be72cfc5c9966d09e;
   0x7144ace8a4aeb40b597e225a1da4156c0447df05ce549e034eb4bb5cc301906f;
   0x2a8fa6a84eec93cd9bbb5adebfdc2994f75c4fd31a9bdfbb14b44a23cfe6f92;
   0x5f2fa72e47136966a4512dec6b0a03377e7d9fd5726f6b40ed9fa5c032ec0a23;
   0x14be0024e28a13e18ee8aa1b9e97d4cdd540042d8d8ef0be12605a3ecd13f5de;
   0x22545f6ba59c3994a84b028e307c93637f3accee4e32febaa4f1f87d90884c5a;
   0x519947e7840143b38aeed579d92544a1d482d714b1cb5d445b0e07816f77b3a7;
   0x6c1cdf508052e8d9a67bb3d018ed258f039fa49ec41505c948af25b254d71df9;
   0x7d0c802a94a946e8cbe2437f0b4b276501dff643be95635b750da4cab28e208;
   0x5b759b0b4fa4971529805a2b04c50efc330af27f081250e5bddd6dacba0b1d06;
   0x18780c47d9f8e63309b97ddd04dcc90920b2b183f7ec0b194222925245f4e2fb;
   0x29048571ac60a4ce0468b4bb2b446edda9ffeee172f8ac74095e328eda2f8e5c;
   0x4ae921e17d3cd87a2ed1234cde5d6927a9bdb5218d05af8af6a1cd7025d071a5;
   0x1aa909b8f9797bc1d44db4c7e28c3f15cbfd4ee83f1b2499dbe21753938adf74;
   0x59449d9a302401865eec2340271598ef87c0551ac0e33765241de8ab6c75208d;
   0x581583626bca158c398677e14a8cb7e715fb82877b46d20d3f0ffba2ea149337;
   0x1bd823f0bdd367bbf9b36026bf15201e3dc2217b84b789f1c0f0045c15eb6cca;
   0x54b572b23615cf703897e487b9c664354af0a42ec0e52a48c009cf2b0763b3d5;
   0x1f3834a0f387add7faa1f3804fdb73d008ccffd43f1931b63ff630d3f89c4c2c;
   0x67add2940967b1a207e780cc7312dd5371bdbdcad82928c864e8c456229dfdef;
   0xc3fd4bf2035cba62b52573b968efab1e1ffe63827d533369b173ba8dd620212;
   0x5318150315161c3e6e8ba6f2374a655d9d4b0f40448ca04c44568101d845f71f;
   0x20d5925014876109c4ae3115d25772a7b67294c2bb71bbb2bba97efd27ba08e2;
   0x249a8bf565feb0f7bdf7f8f0d267d1ae2ae21a225b58e59f1d3e494f87fd6d91;
   0x4f531b5dc39ecc507541df17373a065728db89e0a4a5765fe2c1b6af78029270;
   0x6c4346355ac0cbecc13494e5cc0ae758c694a89651aca0ff810d9cff570736e9;
   0x7aa611dcedcb15b720543223d96f0ac8d28fb6cae51baff7ef262ffa8f8c918;
   0x1a9d03d7743e9a0675583bdb136e9f86e19486bb67912a2b440dab45cd1fac5b;
   0x5950a37bb55ee341bde19c2cf633387e72291d47986d31d3bbf254b932e053a6;
   0x1996fa8d52f970ba51420be43501370b166fb582ac74db12571ba2fccf28601b;
   0x5a56acc5d6a40c8de1f7cc23d4a0a0fa3d4dee80538980eca8e45d0230d79fe6;
   0x3336a05ea5c70ef50d10f88231dde2f6e18a65bc0f8e4d1ecdd815ee4d942bee;
   0x40b706f483d66e532628df85d7c3f50e72333e46f0700ee03227ea10b26bd413;
   0x59dc7a32e902f9e85187145dfaed82059556ab6223eff0406e175e44c490cbc0;
   0x1a112d20409a835fe1b2c3aa0eb455ffbe66f8a0dc0e6bbe91e8a1ba3b6f3441;
   0x60259040823a88e7b6a42eb341ff879cb04492b6f43bb51eca7dadda50f555e4;
   0x13c81712a762f4607c95a954c7a25068a379114c0bc2a6e035825224af0aaa1d;
   0x13562b7d27b4c23e09768a7087f0cc2629c85f7efbd6188bb08956f964517062;
   0x60977bd601e8bb0a29c34d9781b10bdf29f54484042843734f76a9059bae8f9f;
   0x16c359d76ca02af7f2f3e98766f8c9185cae4a21d39a23bee9dc91a650a90e49;
   0x5d2a4d7bbcfd52504045ee80a2a90eecf70f59e12c64384016236e58af56f1b8;
   0x2db7169d8ee087328d16baf2bdd5e94641c708b8b84ee699a565af7a806913be;
   0x463690b59abcf615a6231d154bcbeebf11f69b4a47af75655a9a50847f96ec43;
   0x61f273726e9409979c7943d6a33bc39345fb135ff413a356d5f57c79b59b2332;
   0x11fb33e0bb0973b096c09431666614720dc290a30beab8a82a0a83854a64dccf;
   0x3c9f59c69ed3df9941205e1bb9264c6a7c71082d2903a1ac633d3e92c7ca8ccf;
   0x374e4d8c8ac99daef21979ec507b8b9ad74c9bd5d6faba529cc2c16c38357332;
   0x1bcee4668304bec207238a67fd3278fde6409954448fd0a2dbcc4af4074489e8;
   0x581ec2eca698be862c164da00c6f5f076d7d0aaebb6e8b5c2433b50af8bb7619;
   0x1325b766f5943eadc0dcf3788fe23b2f533c9d94a870e33f9df832cfdf2062ef;
   0x60c7efec34093e9a725ce48f79bf9cd60081066e578d78bf6207cd2f20df9d12].
(** [src/crypto/blobs/omega.go:133-260] rows 128 to 255 *)
Definition omega_rows_1 : list Z :=
  [0x4f9b4098e2e9f12e6b368121ac0cf4ad0a0865a899e8deff4935bd2f817f694b;
   0x245266ba46b38c19c80356e65d94e35849b53e5a66157cffb6ca42cf7e8096b6;
   0x663d0aa154b7afb7604ccbce3186331764505ce32828420562b851e3d2a34df5;
   0xdb09cb1d4e5cd90d2ed0c39d81ba4edef6d471fd7d619f99d47ae1b2d5cb20c;
   0x5a0629432977ae6a072570e877993c3d7439e2b6fbd943d0adc24eba36b7578e;
   0x19e77e100025cede2c14671f92089bc7df83c14c0425182e523db144c948a873;
   0x4d3503442f2fb2879a8a9d78c4fed2b2bacc59c903893ca8829235424bc52016;
   0x26b8a40efa6dcac098af3a8f44a3055298f14a39fc751f567d6dcabcb43adfeb;
   0x533597adfcf78a922bf7a6f6d02f0612358469e061a1c6905718b817f3ccad48;
   0x20b80fa52ca5f2b6074231113972d1f31e393a229e5c956ea8e747e70c3352b9;
   0x4ba357052117e1e151ea52ef08f1e06c38275f891994324c998731ee0c78437a;
   0x284a504e08859b66e14f851900aff7991b964479e66a29b26678ce10f387bc87;
   0x42083f58561023a7fa481d537345cf6530dcd43dec9acd7108993b54226b7f93;
   0x31e567fad38d59a038f1bab4965c08a022e0cfc513638e8df766c4aadd94806e;
   0xc116d8cebced82bc53c32396daedbf90ab309ae850664dec3e268216bdc4a30;
   0x67dc39c63dcea51c6dfda5ce9bf2fc0c490a9a547af7f7203c1d97dd9423b5d1;
   0x443237284ec1415dde48a52a93151b352e10ed5bae398c9c164881d4baa8a72e;
   0x2fbb702adadc3bea54f132dd768cbcd025acb6a751c4cf62e9b77e2a455758d3;
   0x42a2e61a3a2a9b39fcf3ec5eda0ddb53a07fcad29e98164375352d72a0c9539a;
   0x314ac138ef72e20e3645eba92f93fcb1b33dd930616645bb8acad28c5f36ac67;
   0x485adb96249a23e969ac30e42135fbc42772c833e4cf3499ecbf5d6f01ea2fe8;
   0x2b92cbbd0503595ec98da723e86bdc412c4adbcf1b2f27651340a28ffe15d019;
   0x2b315ee4db709aa6e492ff0b0d05658b6f67b913ee947b92fef56114b49c75d;
   0x713a9164dbe6739dc4f0a81758d181ac9cc72871c1151445d010a9edb4b638a4;
   0x4e340f08c01d85df59b31745ff67db9e8b576cd5a085170dfba96832adfa9266;
   0x25b9984a697ff768d986c0c20a39fc66c866372d5f7944f1045697cc52056d9b;
   0x5daff883ceaa889c7f2b1554800870c74e0bf5a0bea3c2ee335ab15ecceb6a2d;
   0x163daecf5af2f4abb40ec2b38999673e05b1ae62415a9910cca54ea0331495d4;
   0x6743acd7204034884021f50f21b39e1d96ce26afb69019f7ee3b38a3813633f1;
   0xca9fa7c095d48bff317e2f8e7ee39e7bcef7d53496e420711c4c75b7ec9cc10;
   0x9594dd24ebf1658766f71f92679eccdd9a0eb428f0d8dccd165b2490ec7254e;
   0x6a945980dade66efbcca660ee327eb377a1cb8c070f0ce322e9a4db5f138dab3;
   0x3683287007cdc98e2e1a54f5ed6dac0e6e8df3051d69e220022193b333c3b855;
   0x3d6a7ee321cfb3ba051f83121c342bf6e52fb0fde29479defdde6c4bcc3c47ac;
   0x2fb2b48988b9dbae9a54b1f2bebcea8bcaafcb31434545d82efcfdaf4e265ab7;
   0x443af2c9a0e3a19998e526154ae4ed79890dd8d1bcb91626d103024fb1d9a54a;
   0x46aa7940ac524648faaf9f04b421b462f2730e303c173e1c090bcdd715521bb1;
   0x2d432e127d4b36ff388a3903558023a2614a95d2c3e71de2f6f43227eaade450;
   0x3dc45a6d7f643b5a2dee35b6cf12739eafa69d8f42e2c25b26dd05e4c4aec099;
   0x36294ce5aa3941ee054ba2513a8f6466a4170673bd1b99a3d922fa1a3b513f68;
   0x328f64192e295d851bd07fc9fc34abead93d29335383e69a148277eef8c0a297;
   0x415e4339fb741fc31769583e0d6d2c1a7a807acfac7a7564eb7d8810073f5d6a;
   0x2e95da59a33dcbf232a732ae1a3b0aef752c84f3154125602cabadec2fe322b8;
   0x4557ccf9865fb1560092a559ef66cd15de911f0feabd369ed3545212d01cdd49;
   0x3d0655665267f0974b35861cb1da153a8b7570b00fca5c9a520c8c4d748fb509;
   0x36e751ecd7358cb0e80451eb57c7c2cac8483352f033ff64adf373b18b704af8;
   0xaa7d2fce8520d1f5109fa0d7553d937a330977b7a8bfe99ca730e689c0bf9e;
   0x73432a235b185c763e293867324c9a71d98a9a8b48559c156358cf18763f4063;
   0x6ecab74a12568801be1e72f2066186fa644628b567af1bb4e3d5dbe0d2f73e41;
   0x522f0091746f546751b65160340510aef777b4d984f404a1c2a241e2d08c1c0;
   0x55e29e7e1c0691a3bae4d7a5261114f26f5f56946340fdfc3b2bcdccf1ec7b16;
   0x1e0b08d50d96eba478550062e390c312e45e4d6e9cbd5e02c4d432320e1384eb;
   0x6635214dfb1c37d97fb60b67a741a4eee401cd8bef1b22603e16064aa9a77770;
   0xdb886052e81456eb383cca0626033166fbbd67710e3399ec1e9f9b456588891;
   0x204329cbca5aa4231b2b2fbdb88c0832f1ab3ea313c630b6754ceec2fde25881;
   0x53aa7d875f42d925180ea84a5115cfd26212655fec382b488ab3113c021da780;
   0x55e9d3064ba6d18615e83527ce053b131c54e5045f96bdb5b46b6df596ba6ecf;
   0x1e03d44cddf6abc21d51a2e03b9c9cf23768befea0679e494b94920969459132;
   0x5c6214a479d7e1869cfafd436d7b412b0654642678ea64b7408a86452d1142b4;
   0x178b92aeafc59bc1963edac49c2696da4d693fdc8713f747bf7579b9d2eebd4d;
   0x255c117113c5d5a3e04369454396c3893c771d65b2ee56d3198a034b1e705c0e;
   0x4e9195e215d7a7a452f66ec2c60b147c1746869d4d10052be675fcb3e18fa3f3;
   0x3d0bbb72051a32b8635dba604a48d7ba10c93f37bda7b84b0c06f42c4fa19fd3;
   0x36e1ebe124834a8fcfdc1da7bf59004b42f464cb4256a3b3f3f90bd2b05e602e;
   0x6dee1bd32e1843bc1a3ef55558b56d6d427d52a475e8ce1152a4c44c49a49f1e;
   0x5ff8b7ffb85398c18fae2b2b0ec6a981140515e8a158dedad5b3bb2b65b60e3;
   0x1df57ca6fc96f67ff5389b96856be8b1404ef4c6bf3fe0c6c7ea608db8cd652c;
   0x55f82aac2d0686c83e013c718435ef54136eaf3c40be7b3838159f7147329ad5;
   0x5e6856c04012bb93b8a0671498f387398d38cc4f07468cebd78b1ef5748164e7;
   0x15855092e98ac1b47a9970f370ae50cbc684d7b3f8b7cf132874e1098b7e9b1a;
   0xa7975545a9dcb2faf33b868f0e27d4ed66041cee0c4bdac8586e7bf3217bc38;
   0x697431feceffb21884061f9f18bf5ab67d5d62341f399e527a79183fcde843c9;
   0x41185f69535823b4eea87dbd8b3e7293c08111d9b58068eda22cb0c0043581b8;
   0x32d547e9d645599344915a4a7e636571933c92294a7df3115dd34f3efbca7e49;
   0x64e32898a7c259a810a20368471f6635e801fb897d05b8538dfcd4912667f55f;
   0xf0a7eba81db23a02297d49fc28271cf6bbba87982f8a3ab72032b6dd9980aa2;
   0x18e17eef82a73dc4782fd931be0cba8ab06cbfc87f549eb20f15758baad3fcf4;
   0x5b0c2863a6f63f83bb09fed64b951d7aa350e43a80a9bd4cf0ea8a73552c030d;
   0x362f0e0589dd793aa51bfee012ab18ba9104a2294bb265301622dd5a6889a8e8;
   0x3dbe994d9fc0040d8e1dd927f6f6bf4ac2b901d9b44bf6cee9dd22a497765719;
   0x371883b64fd60550e6c6e2fafbc3c935b11b8dd0e729d15d3f10f3a9abb257e1;
   0x3cd5239cd9c777f74c72f50d0dde0ecfa2a2163218d48aa1c0ef0c55544da820;
   0x44057850ce28f03eea18ac2f59bed4eb36c59162052451257675b5beeb6153ca;
   0x2fe82f025b748d0949212bd8afe3031a1cf812a0fada0ad9898a4a40149eac37;
   0x688ba2e026f2459a189d7e4af45dab59380f5ffdc6ac2e316a9e3e795d08887;
   0x6d64ed25272e58ee91b000235a5bfd4fc03cae032393991be9561c176a2f777a;
   0x4c33b1110b25238c7d712874125035486178af6ba70b7705f1af8f454525fd66;
   0x27b9f6421e7859bbb5c8af93f751a2bcf244f49758f2e4f90e5070b9bada029b;
   0x5db4ced439e3c7897f5870bc08c40816613ec884963a020ab3e6eed5afa1109b;
   0x1638d87eefb9b5beb3e1674c00ddcfeef27edb7e69c459f44c191129505eef66;
   0x701e1cbced44b4c46145a561c41e22acfffa1a105df6b8a7429c1fa7a88c247;
   0x6cebc5875ac931fbed257db1ed5ff5da83be0261fa1ef0748bd63e0485773dba;
   0xc721336b5ca226c34c543b8647ce9de4c72266b93838c16cd4b696e7ea423f1;
   0x677b941c73d35adbfe74944fa524ee27074b7d976c7acfe832b49690815bdc10;
   0x54c0fcd83aa5a469524e3a763bb50b09946a4f579172314a0ff8423daf2fdb50;
   0x1f2caa7aeef7d8dee0eb9d91cdecccfbbf5354ab6e8c2ab4f007bdc150d024b1;
   0x832d7d20dac46ed6eae360ede81eba8db2feb30d6711c70e95f38660e9d1536;
   0x6bbacf811bf1365ac48ba1f92b1fec5c788db8d2298d3f8e16a0c798f162eacb;
   0x1a660e58dcdd8ce7f82295c732d111a2b20e24ef2f570c8a24438957b3e25619;
   0x598798fa4cbff0603b174240d6d0c662a1af7f13d0a74f74dbbc76a74c1da9e8;
   0x48778b55856bf49320c8b3bf4746e7abf6a33e0d6b4dc2d87ee857bf1f253512;
   0x2b761bfda43188b512712448c25af0595d1a65f594b099268117a83fe0dacaef;
   0x5e0b7bc7ac9a877903f012dba811a168181764ae9a77652c25c83bb50749f0af;
   0x15e22b8b7d02f5cf2f49c52c6190369d3ba63f546586f6d2da37c449f8b60f52;
   0x5d19702dd52769aebdb6bf288d790d89bdca8e5c4d2dc5ffd2878366fcec15ba;
   0x16d4372554761399758318df7c28ca7b95f315a6b2d095ff2d787c980313ea47;
   0x1d12dbf168716b60e5789556beff8edeb63d7e9803ec74e17a030cc2de5db52b;
   0x56dacb61c12c11e74dc142b14aa249269d80256afc11e71d85fcf33c21a24ad6;
   0x725d1642c7524b471810c6122bee51ba897d166d26d7d13fef678c866ccd32d7;
   0x1909110624b32011b2911f5ddb3864aca408d95d9268abf109873789332cd2a;
   0x622c315227033bb160f1e69f8f0320b08803788dd25be1b072994949fe8dda46;
   0x11c17601029a4196d247f1687a9eb754cbba2b752da27a4e8d66b6b5017225bb;
   0x241f2b04f3a711b74789f746a17afd9bde785fd8b3542a38a4a7a41d55234864;
   0x4fce7c4e35f66b90ebafe0c16826da697545442a4caa31c65b585be1aadcb79d;
   0x146d0fdde70e992d0cc516e3bb219c82aabff88c0b7e4246f003cd6e73efb611;
   0x5f809775428ee41b2674c1244e803b82a8fdab76f48019b80ffc32908c1049f0;
   0x7275b1d9346b1f74337b8c94b4e3a208e540e7eb01aad13b85caa34fd9b2b6ce;
   0x177f579f5325dd3ffbe4b7354be35fc6e7cbc17fe538ac37a355caf264d4933;
   0x5aefd9e4727786c36067482e2d9445f9ef679941d7e3344ac1f99b485bb67d21;
   0x18fdcd6eb725f684d2d28fd9dc0d920b64560ac1281b27b43e0664b6a44982e0;
   0x1c021c67b10780e18ea3e9254dbb27ead7da7cb26fe41c7fe6b19f0b5eadf9cb;
   0x57eb8aeb7895fc66a495eee2bbe6b01a7be32750901a3f7f194e60f3a1520636;
   0xad7742370737a124164b50a572c9c65eeafd9f0df88a27eefe8ef07b5048efa;
   0x6916332fb92a0335f1d522fdb2753b9f650dca122075b980101710f74afb7107;
   0xc50e1ec7a28bb857f5f1a3b50f2b7f30de4d06174139246cfaf4c817c13fe6;
   0x7328993461faf18fdb43e6645492ac8622df56fce8bd22da93050b36e83ec01b;
   0x5b3330fb21510ba3cb52d65ec3b820f17442551c91b1af3382fe7994226a7881;
   0x18ba7658084c71a467e701a945e9b713df7b4ee66e4caccb7d01866add958780].
(** [src/crypto/blobs/omega.go:261-388] rows 256 to 383 *)
Definition omega_rows_2 : list Z :=
  [0x95166525526a65439feec240d80689fd697168a3a6000fe4541b8ff2ee0434e;
   0x6a9c4100d476d6f3f93aebe3fc216f657d268d78c59e5b00babe46ffd11fbcb3;
   0x668db67ad287bb0f9589c90d5aa47634eaa07e9cbe5a10af2a5e7b785841a1da;
   0xd5ff0d85715c2389db00efaaefd61d0691d256641a44b4fd5a18486a7be5e27;
   0x243adc55e43f779e0eace99e48f3d3cad66c91b560c5b82c9b2ee1a0bf112931;
   0x4fb2cafd455e05aa248cee69c0ae043a7d51124d9f38a3d264d11e5e40eed6d0;
   0x336291a1889c6ab2045e7a34773491a611424f00b1a2b32fa0eaaaa3583a6b80;
   0x408b15b1a10112962edb5dd3926d465f427b55024e5ba8cf5f15555ba7c59481;
   0x69050931b15c62562ce4ba2c4bf31f353e0c078154d7c539a4c94125ad9dc176;
   0xae89e2178411af206551ddbbdaeb8d015b19c81ab2696c55b36bed952623e8b;
   0x4a42ca6312ad70d5e3ab4ed8e1c3483aa9ad324193961627372e26d5720949f;
   0x6f497aacf872a63ad4ff231a7b85a381a922d0dee6c4fa9c8c8d1d91a8df6b62;
   0x2a337af602a41b0e4a7055b0fa4b32af44df8723cf6834a9b16c92903c30681c;
   0x49ba2c5d26f96239e8c982570f56a5560ede1cdf309627554e936d6ec3cf97e5;
   0x1b61eeb1a28cdf1a91ecc533285f28b4ada005008f5fa2fe6cd888c85ca05ae9;
   0x588bb8a187109e2da14d12d4e142af50a61d9f02709eb90093277736a35fa518;
   0x2aaf444efe927bc8a141881064cd54d304ec083a342b6152dc6c5431b7a01194;
   0x493e63042b0b017f91f84ff7a4d483324ed19bc8cbd2faac2393abcd485fee6d;
   0x455ed6eec90f1e192c0cc5b558b3509c77bf1d8539e5c50b799bd1773c3aadf2;
   0x2e8ed064608e5f2f072d1252b0ee8768dbfe867dc61896f386642e87c3c5520f;
   0x58ad8edaee2eeaed1ac42c62e56cb955a34148b024d3ffa61cfd232fb7ac2d01;
   0x1b4018783b6e925b1875aba524351eafb07c5b52db2a5c58e302dccf4853d300;
   0x223a5f24ab69299e82782d7daff31189238bf3cd9093c0a2b6e7d38c824464d3;
   0x51b3482e7e3453a9b0c1aa8a59aec67c3031b0356f6a9b5c49182c727dbb9b2e;
   0x344b86f9eb22d5720a288c1ac768fd31dbd0cb7ff2325177578545b4e64baae6;
   0x3fa220593e7aa7d629114bed4238dad377ecd8830dcc0a87a87aba4a19b4551b;
   0x72bf096ad9987ad9cbf93d062b4fda502a49071f297def3c20da606ff4a3ba2b;
   0x12e9de85005026e67409b01de51fdb529749ce3d6806cc2df259f8f0b5c45d6;
   0x49e602082ceecbc03f01ab9eac85850baf9d3446b5219ed92c78c12b5913ffa2;
   0x2a07a54afcaeb187f4382c695d1c52f9a4206fbc4adcbd25d3873ed3a6ec005f;
   0x352c4f3eb4931089c5be3aa28cfc810120b7b50e5693aeb64287ce1144fcf019;
   0x3ec15814750a6cbe6d7b9d657ca557043305eef4a96aad48bd7831edbb030fe8;
   0x41ae33f624c17d074b024c21cfa230254030d9ac186fc5451f5753e3ccc4922e;
   0x323f735d04dc0040e8378be639ffa7e0138cca56e78e96b9e0a8ac1b333b6dd3;
   0x709701b7108f6c67604297e1df5b7fe9fe4de56daf67ef102318f1f6844036ac;
   0x356a59c190e10e0d2f740262a46581b556fbe9550966ceedce70e087bbfc955;
   0x57414d702f536f1aef56d22dab86198a12dc15bbb51c14b8bde69ad1be866e28;
   0x1cac59e2fa4a0e2d43e305da5e1bbe7b40e18e474ae247464219652d417991d9;
   0x54a9c54dedb0dd5c00f2b6fdeb2434990d148b46fc8a9536b994f7e88da69099;
   0x1f43e2053bec9fec3247210a1e7da36c46a918bc0373c6c8466b081672596f68;
   0x51ec7bd852e497f37956c16f3a78ae28eee0344c49d79b66f214cc49a9ca287b;
   0x22012b7ad6b8e554b9e31698cf2929dc64dd6fb6b626c0980deb33b55635d786;
   0xf798c4fc8876304b7701b97622a206b2e29e9208281d2988e92a08175236817;
   0x64741b0361161a437bc9bc70a777b79a2593bae27d7c8966716d5f7d8adc97ea;
   0x420a6d59e26f95d8df3b80de686838f4c02d67a18dc838277b51fa789fe811c1;
   0x31e339f9472de76f53fe5729a1399f1093903c61723623d784ae05866017ee40;
   0x2380f6f20aebd433bab579958add5d56398ce89ad3c4462f52172b7909c822f;
   0x71b597e408eec004f78e806eb0f4022ff024d57952c2179c0ade8d476f637dd2;
   0x17c1ec60d8a45e9d074f9aa0ec1140c136ad8bd407c8c41c02e2f94cd781d69e;
   0x5c2bbaf250f91eab2bea3d671d9097441d10182ef83597e2fd1d06b2287e2963;
   0x59a2bad21bb26cbe0156dd6f2d56b9c1920d246202280193fea7c33496a345f2;
   0x1a4aec810deb108a31e2fa98dc4b1e43c1b07fa0fdd65a6b01583cca695cba0f;
   0x16fd8c1a3548e372b5c82a603c67a3a3bab9bbd9b0a3590b2ee4c0317b41459b;
   0x5cf01b38f45499d57d71ada7cd3a34619903e8294f5b02f3d11b3fcd84beba66;
   0x179372419d80770cd6be007959cfa1c61bc58a0b042cd4dc35d1ae71abd0a54d;
   0x5c5a35118c1d063b5c7bd78eafd2363f37f819f7fbd18722ca2e518d542f5ab4;
   0x59ac8447f4db2f2599713674356834f476712f65dddcac5339a8f2d056a4027d;
   0x1a41230b34c24e2299c8a193d439a310dd4c749d2221afabc6570d2ea95bfd84;
   0xde550e339064cc77fc010ff1bb87e048620b99aa201e9b7554cb01f596606f;
   0x730f5244f60d187bbb3dd6f817e650250b5b986955de3d638aab34fd0a699f92;
   0x5cf3f7d7a6997c064a244131970ee26e597feef21aa1455b1985e5010d1e28f9;
   0x16f9af7b83040141e91596d67292f596fa3db510e55d16a3e67a1afdf2e1d708;
   0x6be4330063d404e1d74a7534d0a5cfbcafef0eef02e9618bbf1b369c0a8445b6;
   0x8097452c5c978665bef62d338fc0848a3ce9513fd14fa7340e4c962f57bba4b;
   0x5a7e2dcdcaf325db8a076a0804aaf03d6b42f05b2dd0efa96d4b3d6d88b9ec49;
   0x196f79855eaa576ca9326e0004f6e7c7e87ab3a7d22d6c5592b4c291774613b8;
   0x6c7a15d0bc7ed9cb8c826031662df9e760278442906cdcb997c7058ee0f32403;
   0x77391826d1ea37ca6b777d6a373de1df3961fc06f917f456838fa701f0cdbfe;
   0x4f0a66c29c0c4d935f8efca0709e9fdc0781b9b0030fff9b9dc2b95bda888cc3;
   0x24e340908d912fb4d3aadb67990338294c3bea52fcee5c63623d46a32577733e;
   0x2e8d1db2c4fc40430e536c4bf821b25948b13e62a6404a74daf6c1cc2b79b805;
   0x456089a064a13d0524e66bbc118025ac0b0c65a059be118a25093e32d48647fc;
   0x4c63bb8a5f91996cc7e207d405cec60f244ad0183cb4d23e3b9f40dc39226ef2;
   0x2789ebc8ca0be3db6b57d03403d311f62f72d3eac34989c0c460bf22c6dd910f;
   0x1a8dff0465d7945d6b0fd286dc1624d8de1d4b203d557fd3d0bd794485b1cd59;
   0x595fa84ec3c5e8eac82a05812d8bb32c75a058e2c2a8dc2b2f4286ba7a4e32a8;
   0x222d71b2bcbcebb0e07032ac4dd9f486557f4e7f70ec86ac05e2e6cb0db28404;
   0x51c035a06ce0919752c9a55bbbc7e37efe3e55838f11d552fa1d1933f24d7bfd;
   0x326898eed454988b6dee792e47fe9ebe9631d6a3b689584dd2f0f5e5e994ff3a;
   0x41850e645548e4bcc54b5ed9c1a33946bd8bcd5f497503b12d0f0a19166b00c7;
   0xa607ca7fee6f701be6bd1e602f93f1e7ad1a69ef390c21d4a865bf20d7fe4ff;
   0x698d2aab2ab6864674ce062206a898e6d8ebfd640c6d99e1b579a40cf2801b02;
   0x835edd0c55c21a756db007d73ddfd82b62a8e248a5873997ef4c4862dac48b;
   0x736a48761d47bb2dbdcc28003263f82d285afb20b758d4c56810b3b69d253b76;
   0x583940eb8f3ff496463dea24c6c2f0113dfbf6b6977f335ccc7ee15d01f39a0d;
   0x1bb466679a5d88b1ecfbede342dee7f415c1ad4c687f28a233811ea1fe0c65f4;
   0x529a9a0c8d46e5c1431b68c23ab353eb5aa998918baa4ee01f8dc38c14a70a7d;
   0x21530d469c569786f01e6f45ceee8419f9140b7174540d1ee0723c72eb58f584;
   0x63a1acd15cff4a085d468a777ba29478a8f5f8fb1cfd35bf416d25664132e681;
   0x104bfa81cc9e333fd5f34d908dff438caac7ab07e301263fbe92da98becd1980;
   0x59bd1d433b70d20df332844e948cea8ef0a148a069f07e83085c098a064e640d;
   0x1a308a0fee2cab3a400753b97514ed76631c5b62960ddd7bf7a3f674f9b19bf4;
   0x521f0cfc53f02ad2cff5e64aca06bfdc0323eed0b7541f7626cf66312dc75d4;
   0x6ecbb683645e7a9b063a79a35d016c07938b6515f4891a079d93099bed238a2d;
   0x7091e5c62447e6c5b903259bd01c07a2236d33f723b2c096edd01d1e9965d339;
   0x35bc18d055596827a36b26c3985d0633050700bdc4b9b68122fe2e0669a2cc8;
   0x46d5e64e6e329643ccb9d7408ba4ad4f77ced4862f3112b54a33b4ca4fa500d5;
   0x2d17c104bb6ae704668000c77dfd2ab5dbeecf7cd0cd4949b5cc4b34b05aff2c;
   0x1257c7495e0793b32f9ded387ed31cf4f1a7edc3eeb1ea0f3cd3d2e1c03a844c;
   0x6195e009cb95e995039beacf8acebb106215b63f114c71efc32c2d1d3fc57bb5;
   0x6d190c5a1acc4e039943b8c1f1c32bb124ca9f6f63c7ee570593110cdd147867;
   0x6d49af90ed12f4499f61f4617deac542ef304939c366da7fa6ceef222eb879a;
   0x49a98a70e4c6426c457a1f0b6f25f22f8ba3138bbc3a874b460e884790b8c345;
   0x2a441ce244d73adbedbfb8fc9a7be5d5c81a907743c3d4b3b9f177b76f473cbc;
   0x6c32ed13f5196adafec2c1e6f6956739571169992c0dfff849ad9eda3ab2596b;
   0x7baba3f3484126d34771621130c70cbfcac3a69d3f05c06b6526124c54da696;
   0x5356ac223b8b00a756b079736230d8d1e055a2ee5f896a4409af8f18266456c5;
   0x2096fb30ee127ca0dc895e94a770ff3373680114a074f1baf65070e6d99ba93c;
   0x5b37cd834da0dfe13d24b851b6e0e2940a2b4bfeb55dfba683a202b9605bdc7f;
   0x18b5d9cfdbfc9d66f6151fb652c0f571499258044aa060587c5dfd459fa42382;
   0x364c9145a9d644ccae7ba896e4494d8bb695ffdf3831c932ebf8ff080a52e66f;
   0x3da1160d7fc7387b84be2f7125588a799d27a423c7cc92cc140700f6f5ad1992;
   0x6b9515b1711e6667471e199a39130b996548acb6d790da51557c2f3467bd1ca;
   0x6d3455f8128b96e1bec7f66e6610a74bbd69193792854e59eaa83d0bb9842e37;
   0x5aeefa03ad3c8255023718eed874887b510352b62f3f203eb38d064ea8444127;
   0x18fead4f7c60faf33102bf19312d4f8a02ba514cd0bf3bc04c72f9b057bbbeda;
   0x4c75d3a13151f5da0c095cf1e33152987a6d63f8b28503442b436d7a469e3045;
   0x2777d3b1f84b876e27307b162670856cd950400a4d7958bad4bc9284b961cfbc;
   0x327c4af774526aa008078f5f1149b3a08b62f6b763e08ab37846d9e1c754b5dc;
   0x41715c5bb54b12a82b3248a8f8582464c85aad4b9c1dd14b87b9261d38ab4a25;
   0x898e30b5b7bc5bd438d2dbf46dd5590f9e5fdb63351c0ec536a984065c92adf;
   0x6b54c447ce21b78aefacaa48c2c4827459d7a64cccac9b12ac9567be9a36d522;
   0x6103370156cdae5227f2d34b0ee0bab27b2db53007db7808cb26d9489265bf28;
   0x12ea7051d2cfcef60b4704bcfac11d52d88feed2f822e3f634d926b66d9a40d9;
   0x67b748279a4d32928213bbd737bf0e62fae92a5ff656e571e252f6a3681e0665;
   0xc365f2b8f504ab5b1261c30d1e2c9a258d479a309a7768d1dad095b97e1f99c;
   0x3f80ec39741c1ee0841ec896cf8d6b71cc4a3619fc303084522303685af9251f;
   0x346cbb19b5815e67af1b0f713a146c9387736de903ce2b7aaddcfc96a506dae2].
(** [src/crypto/blobs/omega.go:389-516] rows 384 to 511 *)
Definition omega_rows_3 : list Z :=
  [0xb47f481668a98cc916653ef8ee10c316009b29d2aaa46f58fde839c9b10f95a;
   0x68a5b2d1c312e47ba1d384187ac0cbd3f3b3f165d554150970217c6264ef06a7;
   0x2669eabd406c3a9d1aaa8bc17630875b9a8d4f7d4f608b27831af13e1a684e43;
   0x4d83bc95e93142ab188f4c46937150a9b9305485b09dd0d77ce50ec0e597b1be;
   0x1e28f67c9a365f924184a3278cbac76cf65f59426e561ac3a0d046361160c87d;
   0x55c4b0d68f671db5f1b534e07ce710985d5e4ac091a8413b5f2fb9c8ee9f3784;
   0x698f1dab874c3d6a7726f871b0da235e08b504c88bc20bd7cd2b2f4c41dff3cb;
   0xa5e89a7a2513fddbc12df9658c7b4a74b089f3a743c502732d4d0b2be200c36;
   0x5dd7373ad66cee9842076ef74d0b719d555f34977fa341337055b514a4510f6a;
   0x1616701853308eaff1326910bc966667fe5e6f6b805b1acb8faa4aea5baef097;
   0x4aa10d96bee11ebb5204f44088385855a86c461ae56f072df424341daddcab5d;
   0x294c99bc6abc5e8ce134e3c781697fafab515de81a8f54d10bdbcbe1522354a4;
   0x6f8c17a81ec992dbd332c8edcb31b9c5320e8aaa2c0adab646add4de51661716;
   0x4618fab0ad3ea6c60070f1a3e701e4021af1958d3f38148b9522b20ae99e8eb;
   0x1064c4a1e86297dd1f72eaf592b1a5e37c966df282c99da1552407971d6a01b3;
   0x6388e2b1413ae56b13c6ed1276f03221d72736107d34be5daadbf867e295fe4e;
   0x4fc3c0bccf122cf17f89e05099b9346eb4df55fe0e814040452ccd3a84afddff;
   0x2429e6965a8b5056b3aff7b76fe8a3969ede4e04f17d1bbebad332c47b502202;
   0xc0eb7cf8d35960d07e1837d2ec951dce49025299f9d89f8b0a40e557f4b46ae;
   0x67deef839c67e73b2b58548adad886286f2d7ed96060d2064f5bf1a980b4b953;
   0x6f56ba9652521c23efdb2f0828054b7fb3627ca6b51d001a6f9d0064fac7137d;
   0x496ecbcd74b6124435ea8ffe19c8c85a05b275c4ae15be49062ff9a0538ec84;
   0x6c0ec12d8a6f82133cf6cd1d9efc7c146e57c9facced7b915f66134727f54889;
   0x7dee6259f2dfb34f6430aea6aa55bf0e565da083310e06da099ecb7d80ab778;
   0x510f51053381165e056f4fd9e2e5174451339834601eaf9df9b5ad7e3464f5a5;
   0x22de564df61c66ea2dca882e26bcc0c1028a0bce9fdfac61064a5280cb9b0a5c;
   0x22c36e5ee340acc503a56cc8813aa331a6ea1b243740a635ed1c6473b3e31cf7;
   0x512a38f4465cd0832f946b3f886734d3acd388dec8bdb5c912e39b8b4c1ce30a;
   0x6852d1a16317e2eef74564930e6096c055a5a037f31901964ec74d66ce5ce51d;
   0xb9ad5b1c6859a593bf47374fb414144fe1803cb0ce55a68b138b29831a31ae4;
   0x1be610c103e349beeebdfa4d46a48617eb5b9ca898999be0e41960cc8f7cf554;
   0x5807969225ba3389447bddbac2fd51ed6862075a6764c01e1be69f3270830aad;
   0x178c36685571ebe59efaac6d4efab2f7a2c9e646f0bc30f46b1ac0499b422b78;
   0x5c6170ead42b9162943f2b9abaa7250db0f3bdbc0f422b0a94e53fb564bdd489;
   0x3dfd92e90312698626747ffd80262ac35f468edeb6787ad5963a9c566e8bd6b5;
   0x35f0146a268b13c20cc5580a897bad41f47715244985e12969c563a89174294c;
   0x378feac8ef44b61d5e3ddfac65da256f88a1f0d04b158d7aa271966e405dcffd;
   0x3c5dbc8a3a58c72ad4fbf85ba3c7b295cb1bb332b4e8ce845d8e6990bfa23004;
   0x102b8c3a3826d76773a54de6e95a9de480719dedc145d3ee4580dba9fc46a574;
   0x63c21b18f176a5e0bf948a2120473a20d34c06153eb88810ba7f245503b95a8d;
   0x3b35bda65519ec38a6266415c4d6ced2286d85a7faf7c62885336974811c697a;
   0x38b7e9acd483910f8d1373f244cb09332b501e5b050695d67acc968a7ee39687;
   0x1907a56e80f82b2df675522e37ad4eca1c510ebfb4543a3efb350dbef02a116e;
   0x5ae601e4a8a5521a3cc485d9d1f4893b376c95434baa21c004caf2400fd5ee93;
   0x6d3d8e203415456536060cc57d5ad557ea1102eb66f6fce55e501a6aa6138595;
   0x6b01932f58837e2fd33cb428c4702ad69aca11799075f19a1afe59459ec7a6c;
   0x634fc0e6aaf7c2d906dbeaab1ad525575d7dea6029017fdc9dac7b409d585d19;
   0x109de66c7ea5ba6f2c5ded5ceeccb2adf63fb9a2d6fcdc22625384be62a7a2e8;
   0x5f20bee4fcf836297cc088f970ebac3ad33764a3ff5f912e67cf9ca3e9f5b1b1;
   0x14cce86e2ca5471eb6794f0e98b62bca80863f5f009ecad09830635b160a4e50;
   0x2e916831b2c665dce522dc0df640392d0a738f0e49608f7fec3894fdbbc5e597;
   0x455c3f2176d7176b4e16fbfa13619ed8494a14f4b69dcc7f13c76b01443a1a6a;
   0x48c649dce1168ed72eb22d78a01a149188b1cebef9a7dbaf187a081bc020c9e9;
   0x2b275d764886ee710487aa8f6987c373cb0bd5440656804fe785f7e33fdf3618;
   0x4b0f4567920d7fbdd5ad1e34af8ba8297e786c05f26d2d14072fff623d593acc;
   0x28de61eb978ffd8a5d8cb9d35a162fdbd54537fd0d912eeaf8d0009cc2a6c535;
   0x154d2412402056b9c587252e3f738f0291a08916e4882ed38e69d125b2613b98;
   0x5ea08340e97d268e6db2b2d9ca2e4902c21d1aec1b762d2b71962ed94d9ec469;
   0x4c5f3df3d2c48682ef7088ae62b6a01241a44a292b2e5b2982758592725b5677;
   0x278e695f56d8f6c543c94f59a6eb37f3121959d9d4d000d57d8a7a6c8da4a98a;
   0x2cb06e34562bbc52e204d5dce8844248493dc049317117871848f2442fea2cc8;
   0x473d391ed371c0f55135022b211d95bd0a7fe3b9ce8d4477e7b70dbad015d339;
   0x6c1bcba74f737371896fb6a2fbba8ee922d2201ed10a653f0612b0fb6cc1107c;
   0x7d1dbabda2a09d6a9ca21650de7491c30eb83e42ef3f6bff9ed4f03933eef85;
   0x2bddbb2eb5bc528c11781b3e716a0f505edf8a6e25303f2fd0c13b83274f45b0;
   0x480fec2473e12abc21c1bcc99837c8b4f4de1994dace1ccf2f3ec47bd8b0ba51;
   0x5b030683301968fdb44d3b688f8492460ad22b0908293b435d970e0b0666e0d8;
   0x18eaa0cff984144a7eec9c9f7a1d45bf48eb78f9f7d520bba268f1f3f9991f29;
   0x70009e36de006c054af1a2d79a24d27ae1c5922e39ae0bf92ae6e2c121bfc3c3;
   0x3ed091c4b9d1142e84835306f7d058a71f811d4c6505005d5191d3dde403c3e;
   0x1272e2fcb84cd789855a08d1b96d6c46b4e63a729649cca628f1221a8298a060;
   0x617ac4567150a5beaddfcf3650346bbe9ed7699069b48f58d70edde47d675fa1;
   0x58eaef9cfd0d5b9c3c011284ce2c0a5ae65fe456e0de774541fed1c1f077470a;
   0x1b02b7b62c9021abf738c5833b75cdaa6d5dbfac1f1fe4b9be012e3d0f88b8f7;
   0x192d8efcbc9ffba397e292677efe6e684b4e7bab3c93dde164936d794ecac754;
   0x5ac018566cfd81a49b5745a08aa3699d086f2857c36a7e1d9b6c9285b13538ad;
   0x75ded933c287503e05891c9ff9c3987d4f39aabdcbb7d0745a8d91e955983d1;
   0x6c8fb9bfed75084452e1463e0a059e7d7eca09572342def7ba5726e06aa67c30;
   0x527d5fb6453833c4c973f8fca82606c27d04d8e25880e9cee1d977e545af710b;
   0x2170479ce465498369c5df0b617bd142d6b8cb20a77d72301e268819ba508ef6;
   0x5d63d41c2b82dcc6b2dd9a95731e9ccfab9741e455322d312856121a533306a0;
   0x1689d336fe1aa081805c3d7296833b35a826621eaacc2ecdd7a9ede4acccf961;
   0x1df44aec85b8f956e027a83558a1fa00b99d89aade182224f825d2b60a32f87a;
   0x55f95c66a3e483f153122fd2b0ffde049a201a5821e639da07da2d48f5cd0787;
   0x1306f534d4599079c579b994cbef0c2ce92d7dae9287cd043df47cf236da17e9;
   0x60e6b21e5543ecce6dc01e733db2cbd86a9026546d768efac20b830cc925e818;
   0x3495e397c114f8f36fa873d6002f921fdacbb1bd356f80cdcf2c53214fca9316;
   0x3f57c3bb68888454c3916432097245e578f1f245ca8edb3130d3acddb0356ceb;
   0x1874b727404262a9c24956b7927d30eacb62629752f7b4ac743e6cd3f2d8b5e4;
   0x5b78f02be95b1a9e70f081507724a71a885b416bad06a7528bc1932b0d274a1d;
   0x38a2dbab8b1811260a0955d20478e946710cfc2a8e76963e1cfb5b8201d3c611;
   0x3b4acba79e856c22293082360528eebee2b0a7d87187c5c0e304a47cfe2c39f0;
   0x32e8823696c820865acd8b4a64b679a2e3501d116ae74916c40d56452b59c640;
   0x4105251c92d55cc1d86c4cbda4eb5e62706d86f1951712e83bf2a9b9d4a639c1;
   0xc02777daecfbc8bf776f0b322161a54eb9d714edf2c5d73e9fd3487793e0a1e;
   0x67eb2fd57acdc0bc3bc2e754e78bbdb0682032b420d1fe8b1602cb7786c1f5e3;
   0xdf4490a807026fab8427037d4aaef513a019a046396b882f67888351b3aed0;
   0x730e62c281967ad887b5b1048c572910401d8a62b9c4f076d098777bae4c5131;
   0x5e8542944aa32bee278a8c2e3d1fd8e115b7da58c5251abce7c952e4bd7af7d4;
   0x156864bedefa515a0baf4bd9cc81ff243e05c9aa3ad941421836ad1a4285082d;
   0x41970a68359a3f51e5084aaf8797a96f5eb169206b7f3154077d390dd7d05b42;
   0x32569ceaf4033df64e318d58820a2e95f50c3ae2947f2aaaf882c6f1282fa4bf;
   0x4f0285d44e308ee97c96515b1b38427a7c3c05a40dd7360af2be473f9f510696;
   0x24eb217edb6cee5eb6a386acee69958ad7819e5ef22725f40d41b8bf60aef96b;
   0x57d11b34b95dfdc7a5455416cfcec9c93fc01d3617a563363c520c2b1a297a42;
   0x1c1c8c1e703f7f808df483f139d30e3c13fd86cce858f8c8c3adf3d3e5d685bf;
   0x3337efc99d37fe721eb3867a7d42417bfdd04289be4d5845428c9fe880b696f2;
   0x40b5b7898c657ed61486518d8c5f968955ed617941b103b9bd7360167f49690f;
   0x260e873a1f951adfb6548e4a26c46cf637471747bfef212bcdcd38d6f117f52f;
   0x4ddf20190a0862687ce549bde2dd6b0f1c768cbb400f3ad33232c7280ee80ad2;
   0x45c6f7a2a21cae9a8382c4cf78190afc041bd60176f653694582bcb64c16195c;
   0x2e26afb08780ceadafb713389188cd094fa1ce0189080895ba7d4348b3e9e6a5;
   0x524f6ee71fba800af7b5bc01b47b0c0cc112d6dbc4da70eb9281ca5182004249;
   0x219e386c09e2fd3d3b841c065526cbf892aacd273b23eb136d7e35ad7dffbdb8;
   0x30e1bc58cb5eb5c44cc9ff4bf19abce5bbdd88120258390fcf4a24368337be6a;
   0x430beafa5e3ec783e66fd8bc18071b1f97e01bf0fda622ef30b5dbc87cc84197;
   0x2f73ce8ba2c48aa4894506e8611524fe2aa959dcb76fe5390c0871ffc19b100f;
   0x4479d8c786d8f2a3a9f4d11fa88cb30729144a26488e76c5f3f78dff3e64eff2;
   0x3d747fb3c3230d556d15603c30cffb92d173882ea6ce7aa9e15b2a94a295c9ad;
   0x3679279f667a6ff2c62477cbd8d1dc72824a1bd4592fe1551ea4d56a5d6a3654;
   0x6fbe46853ef9fa574485c4aa168e870ab3f7ba1663b31d0376fd4001b4f824c8;
   0x42f60cdeaa382f0eeb4135df31350fa9fc5e9ec9c4b3efb8902bffd4b07db39;
   0x474cf68db38f4a7b27a0943532cbc2db680119a77a9a472b1f0256b78db57e18;
   0x2ca0b0c5760e32cd0b9943d2d6d61529ebbc8a5b856414d3e0fda947724a81e9;
   0x4164d792bef1368d6e952e48357708336a1592642caef3e5a869ecf2cc0d850a;
   0x3288cfc06aac46bac4a4a9bfd42acfd1e9a8119ed34f68195796130c33f27af7;
   0x98bcb7ba7a1102bab1c2cbe2844a0ddd5ea563e74aa3185e99ab4b0ce6c0c7c;
   0x6a61dbd781fc6d1c881dab49e15d37277dd34dc48b542a7916654b4e3193f385].
(** [src/crypto/blobs/omega.go:517-644] rows 512 to 639 *)
Definition omega_rows_4 : list Z :=
  [0x325db5c3debf77a18f4de02c0f776af3ea437f9626fc085e3c28d666a5c2d854;
   0x418ff18f4ade05a6a3ebf7dbfa2a6d11697a246cd90253a0c3d729985a3d27ad;
   0x50c8f518291d3e252d00a5be2412a997b6042bde9573c4ad1ff95ac74f4dd55e;
   0x2324b23b00803f2306393249e58f2e6d9db978246a8a9751e006a537b0b22aa3;
   0x652461d6a24bc012a01a09222bf9650bd9d42ce812d4161a128568bfed36d2d6;
   0xec9457c8751bd35931fcee5dda872f979e9771aed2a45e4ed7a973f12c92d2b;
   0x33049a5b87438c07220bc79e6b495d459f4eea3f60d8ba48352b5233bf7ba901;
   0x40e90cf7a259f141112e10699e587abfb46eb9c39f25a1b6cad4adcb40845700;
   0x3ff0385ab3740f1d0a08b8806bf140116a67db8f3cd65da7c8f54ccb3906df6e;
   0x33fd6ef876296e2b29311f879db097f3e955c873c327fe57370ab333c6f92093;
   0x149f555d2abe285e02fca0c6b9bfafb5fd10f133fcb8fede5de6afb9568b79d7;
   0x5f4e51f5fedf54ea303d37414fe2284f56acb2cf03455d20a2195045a974862a;
   0x7f38cf482eda4eaeba7fb8a7fa58fc5d9b769a52be75f80a78adc4c393f40fb;
   0x6bfa1a5ea6afd85d4791dc7d89fc483f7a063a5dd416fc7e587523b2c6c0bf06;
   0x4b4f7d0f0c1d7fa06092d03a32cfcbe1a71d3d048e2bae51fb8bf031847f0368;
   0x289e2a441d7ffda7d2a707cdd6d20c23aca066fe71d2adad04740fcd7b80fc99;
   0x27a57fd1ffada9fb7ce80043e235fce4b6cfc07ba26779319d6862e69abec349;
   0x4c48278129efd34cb651d7c4276bdb209cede3875d96e2cd62979d1865413cb8;
   0x6c662f4b3bf7dd4a6b4b7925d178b97c2b9280b02b0f38389490a19470e8d1;
   0x73814123de61856ae8ce8c8ee3d05f4bd79211824fd34cc6c76b6f5d6b8f1730;
   0x1b070ed3d812e1900c2d1e5df0ba7ba08d626ce47a1970433653bbc394e0194f;
   0x58e6987f518a9bb8270cb9aa18e75c64c65b371e85e4ebbbc9ac443b6b1fe6b2;
   0x534ee70b5e0ee5d8a20cb37113cdf8a9afbf59d5e64bbfa343aac380bd084cf0;
   0x209ec047cb8e976f912d2496f5d3df5ba3fe4a2d19b29c5bbc553c7e42f7b311;
   0x8f60fd36013a65e8edf76cab18f8a37c7597b23df05312f8c2af61a8141cd2a;
   0x6af7977fc989d6e9a45a613d58124dcd8c6428df20f92acf73d509e47ebe32d7;
   0x315f300ff31bf898416efa2f23e851d93e18d8297cc221bdb5e7ec7507841320;
   0x428e7743368184aff1caddd8e5b9862c15a4cbd9833c3a414a181389f87bece1;
   0x1856723c0c73b43c6b58ce353a65ae24fb9cfa13c9e7075a60c85450b7b2f47;
   0x7268402f68d642046c844b24b5fb7d230403d461c35feb8959f37ab9f484d0ba;
   0x2e1d0a59d3076a69a11bab9cdb76c9aa344aa8865b38d3fe56375852f503eab6;
   0x45d09cf9569612de921e2c6b2e2b0e5b1f72fb7ca4c58800a9c8a7ac0afc154b;
   0x3bff36a53627e337d86327fa50db777aaf2f158931e7234f34277686b037a511;
   0x37ee70adf3759a105ad6b00db8c6608aa48e8e79ce1738afcbd889784fc85af0;
   0x3cd9854d6e4b49d1a48d5cc9eb4b326da65b11f7e8d7950307379aa242bef13a;
   0x37142205bb5233768eac7b3e1e56a597ad62920b1726c6fbf8c8655cbd410ec7;
   0x349a43d2741d83a4ffa6a4d8853dc711ed74c9b15c2f6c8157b9d269efd0d9fd;
   0x3f536380b57ff9a33393332f846410f36648da51a3ceef7da8462d95102f2604;
   0x4a34792481d33f84533665b7ea0775febc922dc33e3981ed211c46be69369843;
   0x29b92e2ea7ca3dc3e00372501f9a6206972b763fc1c4da11dee3b94096c967be;
   0x699aadb60d8a7bf7640ac08abd3c0874ce6fa92e866fdb2fb08e0577296c2a24;
   0xa52f99d1c130150cf2f177d4c65cf90854dfad4798e80cf4f71fa87d693d5dd;
   0x45cc0d36010c2912e9b9971968377e8f2310bc93086722d6faa75e2409644896;
   0x2e219a1d28915435498040eea16a597630ace76ff79739280558a1daf69bb76b;
   0x27f8599a73b32821076027ac452fa314e712974aa30cb0dbc3ad07b8488f216a;
   0x4bf54db8b5ea55272bd9b05bc47234f06cab0cb85cf1ab233c52f846b770de97;
   0x52a3b000d89ab17c3ca13436f849d0c5b707c23f803514299fe2121c20b86988;
   0x2149f7525102cbcbf698a3d11158073f9cb5e1c37fc947d5601dede2df479679;
   0x21f9b926e96be027edd2c44927ecd41b3a54efb0bc8d997ff0498fbd3aed65cf;
   0x51f3ee2c40319d20456713bee1b503ea1968b4524370c27f0fb67041c5129a32;
   0x38dd03f06c32134406419d72de2d04da5cc33eff3b2e005d15c92e1aac022f7a;
   0x3b10a362bd6b6a042cf83a952b74d32af6fa6503c4d05ba1ea36d1e453fdd087;
   0x575f025cc14be0ad31420245361de9b12f35e832d903d52910fc77c70f6789eb;
   0x1c8ea4f668519c9b01f7d5c2d383ee542487bbd026fa86d5ef038837f0987616;
   0x58b625e3c9a4ab06a671d938712e096896b7ab8507f3920122be1a8aba702c85;
   0x1b37816f5ff8d2418cc7fecf9873ce9cbd05f87df80ac9fddd41e574458fd37c;
   0x4e126f3cc7d42821defa95e48ec5f0df7f69be7aef4c8d1ef94c14f22139573f;
   0x25db381661c95526543f42237adbe725d453e58810b1cee006b3eb0cdec6a8c2;
   0x2adc5f70d71d12f4ac20bd03516e01a536743ad6e2d471f5c5266f7287443e47;
   0x491147e252806a5387191b04b833d6601d49692c1d29ea093ad9908c78bbc1ba;
   0x4d16856c0c995405fcbdc0f7c531d5529a2c25c55d44a0cda2c7312172f024d5;
   0x26d721e71d042942367c1710447002b2b9917e3da2b9bb315d38cedd8d0fdb2c;
   0x181c42b69828825b5da8aa10fae01e8c0c223e998d178fb680440e833ea39b55;
   0x5bd1649c9174faecd5912df70ec1b979479b656972e6cc487fbbf17bc15c64ac;
   0x2099eb7d5ee5004ffc6c81de8478b8e22010989d7476cf2bc1bf28a8007ab548;
   0x5353bbd5cab87cf836cd562985291f2333ad0b658b878cd33e40d756ff854ab9;
   0x24dbc9102a942d517007277851e8aec9ea96d79f8a3e8e0b93b28aebc303f074;
   0x4f11de42ff094ff6c332b08fb7b9293b6926cc6375bfcdf36c4d75133cfc0f8d;
   0x406e5bb263c0e75edaf8ea26346303cc91472415b0f60defaa8f3f7b31a9d713;
   0x337f4ba0c5dc95e95840ede1d53ed438c2767fed4f084e0f5570c083ce5628ee;
   0x42e0b7bf8e8c0fd7bcbd2b9d03b8b2db22c16ba307dd3aa0d0db6053a9a3e0;
   0x73aac69b6a0ef1385b7d1adc6c9e1f52789ae2975cf67ec45f2f249eac565c21;
   0xd36d0cbdf62af6ec9809d68741ff12a30d8f9f506885a4f1784febbb03b452f;
   0x66b6d6874a3acdd969b93a9f9581e6db22e4aa0df97601afe87b01434fc4bad2;
   0x2887076752b9400f5ae617b0fcc5dbf9ca657d647e701c3bc1294eb7f2f2f66d;
   0x4b669febd6e43d38d853c0570cdbfc0b8958269e818e3fc33ed6b1470d0d0994;
   0x68f0dab0be5128d795d19d03d8fd323cf7f3dc40acfe2b7256cfcec9c01c3ffe;
   0xafccca26b4c54709d683b0430a4a5c85bc9c7c25300308ca93031353fe3c003;
   0x13c8df77f041dc9735c1728a223969d1ee39c74778c695afde09673bab61e898;
   0x6024c7db395ba0b0fd78657de7686e336583dcbb8737c64f21f698c3549e1769;
   0x57dfa203d88e626925ff7d17d595046f3216c96bf3f6890a98d0402a397d3074;
   0x1c0e054f510f1adf0d3a5af0340cd39621a6da970c07d2f4672fbfd4c682cf8d;
   0x7073dd564bbe5d15ce91a6d6efc2c7ca96d286c9c7b2f3fd967bc7d5bce1a804;
   0x379c9fcdddf203264a8313119df103abceb1d39384b680169843829431e57fd;
   0x46cba723ff8c505df9d9a8301247105a2e540b9c586fcea58550848d0259347;
   0x6f80ece0e9a4b842539c3d85087d66ffb0d863493a775f14a7aaf7b62fda6cba;
   0x1128d6151fc5ce2e0c824958cba91b6f9797ac9b42b5bc323c3e9892b876b461;
   0x62c4d13e09d7af1a26b78eaf3df8bc95bc25f767bd489fccc3c1676c47894ba0;
   0x33dc7355217fce074c0bb60b247d0d6499e306b538773eb4b850d2a3eabf958f;
   0x401133fe081daf40e72e21fce524caa0b9da9d4dc7871d4a47af2d5b15406a72;
   0x546f8d40c2ef982f0174fd293ff31fa487d5081bd50bfe8c49ab063c9866233a;
   0x1f7e1a1266ade51931c4dadec9aeb860cbe89be72af25d72b654f9c26799dcc7;
   0x421a978bf9dde4f2a890bb7866fb5680a5d4dd6fb2dd1c1cec4a327b5d6681f3;
   0x31d30fc72fbf98558aa91c8fa2a68184ade8c6934d213fe213b5cd83a2997e0e;
   0x4e9c4fdd5553c2b935c9c3ce1c6e9f01346e6e574bb0264650613937dec903a;
   0x6f03e2555448411c9fdd3bcb27daee154076bd1d8b43599a9af9ec6b82136fc7;
   0xf12962daeacf09aac3e29a57a5f0d8ef967c6423a55ee21c6f641f5ca11dfc;
   0x72fc7df04eb2ae3e8875f56db1fbe72c6427279edc58fd1ce3909bdfa35ee205;
   0xa287d9f742f652cb5537e7ab5699d8e10a48d852fc35b7c3556faf3eba03702;
   0x69c529b3b56e181b7de6598d54383a774319167dd03b0082caa9050b145fc8ff;
   0x5c9825830d537d2afc0117e00180409d8d4ece6e79d374f7694d7d44aa42aaf2;
   0x175581d01c4a001d3738c02808219767c66ed594862ae70796b282ba55bd550f;
   0x2c94b52abbca218662fa4f9250a0361b14b02312ec12eeec6e8f66fbf9b79cc1;
   0x4758f2286dd35bc1d03f8875b901a1ea3f0d80f013eb6d129170990306486340;
   0x51cb08e682580ff68a3ffa39d11f26054306b58844f30ad2b5006d3e54988604;
   0x22229e6ca7456d51a8f9ddce3882b20010b6ee7abb0b512c4aff92c0ab6779fd;
   0x21a01c78170c4872ed5d290fa2d313f10c07e8ac00ccd608596a75b117ddfba0;
   0x524d8adb129134d545dcaef866cec41447b5bb56ff3185f6a6958a4de8220461;
   0x5b93dee51318c6e47085da8a68d064ea95309873a10967a45beb4be6840f3104;
   0x1859c86e1684b663c2b3fd7da0d1731abe8d0b8f5ef4f45aa414b4187bf0cefd;
   0x204e4c188b40510d4553ed07dd76774c146bccfd4eb9f5f9bac25779bd028d08;
   0x539f5b3a9e5d2c3aede5eb002c2b60b93f51d705b1446605453da88542fd72f9;
   0x17a9acabe5adc2561160383ee23ed3ba6d9cde21536c74fac14aa34c68accbfa;
   0x5c43faa743efbaf221d99fc92763044ae620c5e1ac91e7043eb55cb297533407;
   0xc587f61fc62e2a94bc3a5672aa39e42150e05ddcf13a22fbd9b29beb5d8cc55;
   0x679527f12d3a9a9ee77632a0defe39c33eaf9e2530eab9cf4264d6404a2733ac;
   0x5b3ccab5043cc4f48ad290c1186b578186375b2142604d30f4d7712a9f7e571c;
   0x18b0dc9e2560b853a8674746f1368083cd8648e1bd9e0ece0b288ed46081a8e5;
   0xd9930e7bfc55513a31b5c3e627cc6540d311f3cdb74b04dc26f175eaf57e2;
   0x73e00e2241ddb7f31f96bcabcb3f5b3effb072e3c322e74eb23d90e7a150a81f;
   0x1ef867bf56026f1264f3c71a7fc4285c1b0a9c3e533dc34f63482f5e6ac7f5ee;
   0x54f53f93d39b0e35ce4610ed89ddafa938b307c4acc098af9cb7d0a095380a13;
   0x34fea43cfc49003d2e82c238e01af647d6f4363b42e95eb239d9acde14fb20e2;
   0x3eef03162d547d0b04b715cf2986e1bd7cc96dc7bd14fd4cc6265320eb04df1f;
   0x5ae6399fdefa8ddc87f3c352e16c5500fb537def6e0f30f92345e2553f15b27d;
   0x19076db34aa2ef6bab4614b528358304586a261391ef2b05dcba1da9c0ea4d84;
   0xc4e8f3a988966e051b31982d33b68de072f5049b1d0e187821f241ffda547a5;
   0x679f181891141667e186be8536666f274c8e53b94e2d7a777de0dbdf025ab85c].
(** [src/crypto/blobs/omega.go:645-772] rows 640 to 767 *)
Definition omega_rows_5 : list Z :=
  [0x5a9433bf9e5c6e898b6d5abad78fbbc3110f2fa24cca7e118a23f8184f67be53;
   0x195973938b410ebea7cc7d4d32121c4242ae7460b333dded75dc07e6b09841ae;
   0x442acba700d5638da68d1e587fd67f193c58b769fd60bae85dd0ba3600c21ea9;
   0x2fc2dbac28c819ba8cacb9af89cb58ec1764ec99029da116a22f45c8ff3de158;
   0x3cc1b7446f10658c06ede0897762f302e949a4ab02e82f769ee500f647f7d43b;
   0x372bf00eba8d17bc2c4bf77e923ee5026a73ff57fd162c88611aff08b8082bc6;
   0xf9d687779a20ce0b1eeadb86ec0a240a1511800ae1cf2a898a5dc3fa6a50014;
   0x64503edbaffb7067814b2a4f9ae135c4b26c8c0251e16956675a23bf595affed;
   0x17f3b39452ab3a4709599704eba189b706a29e201b732f6dad4c4a46f5409741;
   0x5bf9f3bed6f2430129e041031e004e4e4d1b05e2e48b2c9152b3b5b80abf68c0;
   0xbd70d64d5746e14f108e29cdc4cf25ab08c90ec812879e1589db18082632470;
   0x681699ee54290f334230f56b2d54e5aaa33113167ed5e21da7624e7e7d9cdb91;
   0x46e352bba176b0cf4add1ac0d9aa0cc9d8e820d586118b4a5213a84b62a68904;
   0x2d0a54978826cc78e85cbd472ff7cb3b7ad5832d79ecd0b4adec57b39d5976fd;
   0x67434729896b3e93c2aeac62b2b1175d52285991341c908ed897ab600af26a9f;
   0xcaa6029a0323eb4708b2ba556f0c0a801954a71cbe1cb702768549ef50d9562;
   0x1b4d576fae62c2747e9d59a9016efb44e8ee64f977b0bc8213b864a44525e8e4;
   0x58a04fe37b3abad3b49c7e5f0832dcc06acf3f09884d9f7cec479b5abada171d;
   0x23d3249e0bfc4d51cc64d8b824c354c377bb530e72b7bfc3855fca21c045e849;
   0x501a82b51da12ff666d4ff4fe4de8341dc0250f48d469c3b7aa035dd3fba17b8;
   0x43f4787c92fb6003ec786b72669f55ce582849fa29e943275fe4524a3df9914;
   0x6fae5fcb606dc747f4725150e337e2a86e3b1f635d5fc7cc8a01bada5c2066ed;
   0x5c9db53f58ce81940a859ee7dfedce98f16b6f86bf14aefcc2338ad83cdfa657;
   0x174ff213d0cefbb428b4392029b4096c6252347c40e9ad023dcc7526c32059aa;
   0x3f6498eb85e702360db58e449ef2a892adcf47128786d2189831ce42c6138b3;
   0x6ff75dc4713f0d24d25e7f23bfb2ad7c28e0af91d785eedd767ce31ad39ec74e;
   0x3dde51a561f4691450c8d1e120be501af7f89acd6211e66705b59d4d67e78267;
   0x360f55adc7a91433e2710626e8e387ea5bc509359dec7597fa4a62b198187d9a;
   0x6f1be604e2122797b4fc5b308c0f64c4b15c622bba78e96e62ad6e618cd63fc9;
   0x4d1c14e478b55b07e3d7cd77d927340a26141d7458572909d52919d7329c038;
   0x15908f85d4bb9c9568fd174cc19863a83f7e9861925f3c85728b638faa490c47;
   0x5e5d17cd54e1e0b2ca3cc0bb4809745d143f0ba16d9f1f798d749c6f55b6f3ba;
   0x671e69a09d5aa6587cf3f6638899a0097e5cc1b32b2a1950ab93f25b2906d21a;
   0xccf3db28c42d6efb645e1a4810837fbd560e24fd4d442ae546c0da3d6f92de7;
   0x3da07cce960c7027f14b86bb7c12055e83c8f5dd633013028cfda586295ea84b;
   0x364d2a8493910d2041ee514c8d8fd2a6cff4ae259cce48fc73025a78d6a157b6;
   0x512626c472d9a268f3d2329d2bd130b8e771d0d9c1e612bd99b980c752953536;
   0x22c7808eb6c3dadf3f67a56addd0a74c6c4bd3293e18494166467f37ad6acacb;
   0xd82593fb2d1e4796f84312c4cd1ae75c2735dfec23461fb447108a871678206;
   0x666b4e1376cb98cec3b5a6dbbcd0298f914a46043dc9fa03bb8ef7568e987dfb;
   0x6d86d9b87eff068a96987520a4a84e531529130b18a08ed66bb7b793ab94d67d;
   0x666cd9aaa9e76bd9ca162e764f989b23e9490f7e75dcd289448486b546b2984;
   0x2f27b09858f43cef3ed6d55a6350721d79efd6b0570bf109d58a5af42d010ff9;
   0x44c5f6bad0a94058f46302ada65165e7d9cdcd52a8f26af52a75a50ad2fef008;
   0x23182fe0ca12c0b44b70ca6708f3104867977360b30175c52dbb2cf227158434;
   0x50d577725f8abc93e7c90da100aec7bcec2630a24cfce639d244d30cd8ea7bcd;
   0x6d52a535477e1384fba967880c356fda5d835c9ca817ed357b3354fe4df74d21;
   0x69b021de21f69c33790707ffd6c682af63a476657e66ec984ccab00b208b2e0;
   0x21c7cccb86887bc1090ea1eafe6cd3d6f062f50c1fa01a6ebf12d1967f5228c6;
   0x5225da87a31501872a2b361d0b35042e635aaef6e05e419040ed2e6880add73b;
   0x4b1289d9a062ba8ff6e0797726f231b176783e184f0f10da4ad463040bfa6b96;
   0x28db1d79893ac2b83c595e90e2afa653dd4565eab0ef4b24b52b9cfaf405946b;
   0x2164b49750ddb83253aa8f5c166504001b7fcbf22df21291ca782131084255da;
   0x5288f2bbd8bfc515df8f48abf33cd405383dd810d20c496d3587decdf7bdaa27;
   0x4f0efbbd7f20c3ced966ea577b468e20b9eea8827f4e9ec602b926b27753b127;
   0x24deab95aa7cb97959d2edb08e5b49e499cefb8080afbd38fd46d94c88ac4eda;
   0x4d21aa615b346f8ebad67ddc10c732ae8a933db67c24c70716d094756b66d63;
   0x6f1b8cad13ea364f478c702a489564da6b147027983c0f8e8e92f6b7a949929e;
   0xb7bdb65a3240463f4216b3d286b5f60eef79311d4603ebe660cb35a9fa42972;
   0x6871cbed867978e43f186ccae13678a464c610f12b9e1d4099f34ca4605bd68f;
   0x4751471ca69edd738a2bb3e93d180d6310afc701df2ef92f02a3555fc5ee25f7;
   0x2c9c603682fe9fd4a90e241ecc89caa2430ddd0120cf62cffd5caa9f3a11da0a;
   0x12c1c0e837c5ea1d5fd7929a9439bb000a83b10a7188a75be4d08b3a9bd95dc2;
   0x612be66af1d7932ad362456d75681d054939f2f88e75b4a31b2f74c46426a23f;
   0x5a03b1e6bfb9702607fd3c97042f2373a440d6987940175aa503ad6c44bc5ff8;
   0x19e9f56c69e40d222b3c9b710572b491af7ccd6a86be44a45afc5292bb43a009;
   0x5c0415d906203d93cbbee466fd2328979c55f6ffe871ea5ddbbc4e9b6615b8;
   0x7391a33d50975d0a9f6e1923a2a4b4dcbc214e0c0015ea14a22443b06499ea49;
   0x2c14e20c7f6c968c5058ca294459777599d30122c843684408d2342a11db2c67;
   0x47d8c546aa30e6bbe2e10ddec548608fb9eaa2e037baf3baf72dcbd4ee24d39a;
   0xc944b4b630bd746efffb256ee28750441cf9853c5492f70dbe2b6ae6a65e380;
   0x67595c07c691a601433a25b11b79630111ee0baf3ab52c8e241d4950959a1c81;
   0x585aeb7f91a0d0a7f1d0c3c19d09cf9306a240a2a069113c159a067743cae6c5;
   0x1b92bbd397fcaca0416914466c9808724d1b63605f954ac2ea65f987bc35193c;
   0x2e4ca53a04150fa19233a27cfafd0e6ca8c301f4f32087447899594a115b42ec;
   0x45a1021925886da6a106358b0ea4c998aafaa20e0cddd4ba8766a6b4eea4bd15;
   0x1c50bdc683722a25b401681bc0a21dae2eb12fefba555a4c968b0decdd5c8bff;
   0x579ce98ca62b53227f386fec48ffba57250c741345a901b26974f21222a37402;
   0x37a82ca691fde3753d113105a6f6224cabefb15e20ddffa892cbd498b8ae4748;
   0x3c457aac979f99d2f628a70262abb5b8a7cdf2a4df205c566d342b664751b8b9;
   0x6482b79237478ed134868d055a78d4d127de6c81def05707ddd48b53c0632b7f;
   0xf6aefc0f255ee76feb34b02af2903342bdf3781210e04f7222b74ab3f9cd482;
   0x1c1bc2b7e09e88cf54c6bcf61242906281905e68e892d76597534a53351aeb21;
   0x57d1e49b48fef478de731b11f75f47a2d22d459a176b849968acb5abcae514e0;
   0x2374b79d4996ad5169ae844074894dab483059b2dacb997091e05fa34880ee67;
   0x5078efb5e006cff6c98b53c795188a5a0b8d4a502532c28e6e1fa05bb77f119a;
   0x32af4cf83a91c028b44b584b898ea2487e81a6284dfcdcdb79aca024dfa3bea6;
   0x413e5a5aef0bbd1f7eee7fbc801335bcd53bfddab2017f2386535fda205c415b;
   0x4cf72e7f20b138794741d7afe1d1739af4e255d810db7c7ba57428937e370687;
   0x26f678d408ec44ceebf8005827d0646a5edb4e2aef22df835a8bd76b81c8f97a;
   0x19634e6452d677424619a91495c55a387a2a36904e65334d504798a56d84b81b;
   0x5a8a58eed6c70605ed202ef373dc7dccd9936d72b19928b1afb86759927b47e6;
   0x3754e9ac49520d3dc9997bf03a451a6630892679c5bf83b3bedbfaac558c8d18;
   0x3c98bda6e04b700a69a05c17cf5cbd9f23347d893a3ed84b41240552aa7372e9;
   0x526e1effcfc73d5c86252263d4232859d9f254f66ae5ee531c14292bf0255fd5;
   0x217f885359d63febad14b5a4357eafab79cb4f0c95186dabe3ebd6d30fdaa02c;
   0x6a6d36423bc3f0fae23f188a9a547b7d01e17e99d8256761f9a5ad12c1f3853f;
   0x9807110edd98c4d50fabf7d6f4d5c8851dc256927d8f49d065a52ec3e0c7ac2;
   0xe3d92d95a4ef11d7cddd189d0ec4d20a0306689091abed321eed5418571ac33;
   0x65b01479cf4e8c2ab65c067e38b58ae4b38d3d79f6e39d2bde112abd7a8e53ce;
   0x6efbba63f2b18adc6f2e9e0b45136d4f1c3d1d54f8f2982de43fdb36bf47bcc3;
   0x4f1ecef36ebf26bc40b39fcc48e6ab6378086ae070bc3d11bc024c840b8433e;
   0x50ee7b0015a2d0fe32712683cabe07344f902f381368c0b10a873d6c9d82cbdd;
   0x22ff2c5313faac4a00c8b1843ee3d0d1042d74caec959b4df578c292627d3424;
   0x2e62f2c40c622d5c14a79f3664b930f42dee61519e282a1877ab619f936cb9e1;
   0x458ab48f1d3b4fec1e9238d1a4e8a71125cf42b161d631e688549e5f6c934620;
   0x539a8ec3ef066195ec440a4e3fd2ea14cc4dccaecd1fbf5e4f8b0b094a83cb3;
   0x6eb3fe66eaad172ed475976325a4a96406f8c738132c60091b074f4e6b57c34e;
   0x16a80a61fb4687169578008f160eb02032ea27b86283f69cf28211eacc0710ff;
   0x5d459cf12e56f6319dc1d778f39327e520d37c4a9d7a65620d7dee1433f8ef02;
   0x4fb99444ba3d2df9d017f9d3a6beb55f1f53ec9a4a2ac078308183f53cba4097;
   0x2434130e6f604f4e6321de3462e322a63469b768b5d39b86cf7e7c09c345bf6a;
   0xd332ece77c82d2c0c03b16ef100307a6ed20df595f39f2afdc2fcf153ad903c;
   0x66ba7884b1d5501c2736269918a1a78ae4eb960d6a0abcd4023d030dac526fc5;
   0x21944f96d2ac9b3923c8d9e9259802f7d70ac6a330a41421f54ee691e0643777;
   0x525957bc56f0e20f0f70fe1ee409d50d7cb2dd5fcf5a47dd0ab1196d1f9bc88a;
   0x6e680dba5e260f57ac9e3e8ba3ed80a7500e3d52802ba363eb2b24461b367723;
   0x5859998cb776df0869b997c65b4575e03af66b07fd2b89b14d4dbb8e4c988de;
   0x47cd4bf2fd4556aba449afd09e0b523b9ac786c39e8d76c168070ff63089758b;
   0x2c205b602c58269c8ef028376b9685c9b8f61d3f6170e53d97f8f008cf768a76;
   0x61be2ec9ee1056d93f5bdf1610b8e02c025b740bab2ae626b3a288e56cbe6ba2;
   0x122f78893b8d266ef3ddf8f1f8e8f7d951622ff754d375d84c5d77199341945f;
   0x17171180e4201fdd09faded963276eda9cb2b4506b58821b9782d98e09dd2095;
   0x5cd695d2457d5d6b293ef92ea67a692ab70aefb294a5d9e3687d2670f622df6c;
   0x5deb7d907dfec3418f3e53c99a199f8fa559d09e36445b2c8d76f7be4ffbdf0c;
   0x160229c2ab9eba06a3fb843e6f883875ae63d364c9ba00d272890840b00420f5;
   0x568178ed18c25162b9575235ed65ee9b015abe13ab2a152efe228225b0b37c11;
   0x1d6c2e6610db2be579e285d21c3be96a5262e5ef54d446d001dd7dd94f4c83f0].
(** [src/crypto/blobs/omega.go:773-900] rows 768 to 895 *)
Definition omega_rows_6 : list Z :=
  [0x77fb7a1c70a28635fea4420d98de0ddffd8c7e12991d3593a7478c980a80dcd;
   0x6c6defb1629354e4d34f93e73013f72753e4dc21d66c88a5c58b87357f57f234;
   0x5cb376187ee6c6269fbef78669ab90d7d8be7f08f42eb31a40103db7fbe67596;
   0x173a313aaab6b721937ae0819ff6472d7aff24fa0bcfa8e4bfefc24704198a6b;
   0x1adebce4857298de5aa7436a8e41578bef1234f45f84b51a2458759b86aa9b46;
   0x590eea6ea42ae469d892949d7b60807964ab6f0ea079a6e4dba78a63795564bb;
   0x263d7142c749358132565e4a3f276dddcfe8cb30c74f3496a5de0a8cb929b435;
   0x4db03610625447c700e379bdca7a6a2783d4d8d238af27685a21f57246d64bcc;
   0xa7ade2bae7c6bb687328292c58f0914fcc06812fcc08500e1b3a80d3dc99e5a;
   0x6972c9277b211191ac0755754412cef056fd3bf0033dd6fe1e4c57f1c23661a7;
   0x1dca0a2862c6b0aa7e00857f06f8f13093c8b17cc28f5b5914730aa651dc14c6;
   0x56239d2ac6d6cc9db539528902a8e6d4bff4f2863d6f00a5eb8cf558ae23eb3b;
   0x37550e85c8adf888bf4821c2f7e1d5e5bb1230bc0e387e9558bd52e8fdf0f3fa;
   0x3c9898cd60ef84bf73f1b64511c0021f98ab7346f1c5dd69a742ad16020f0c07;
   0x1bbc2f2b1ea09b86b3e9ced3336c9ff439e24941616914e7ad110ef96d2c8b89;
   0x583178280afce1c17f500934d635381119db5ac19e95471752eef10592d37478;
   0x8a97b86edc1c02dfa201d28456bec63bb530ecbcf382bb730881f99cce2b05;
   0x73630f9abac161455397d635854b193f18087316430ad9438cf77e056331d4fc;
   0x56c8f0a1a79dc567185006d5ff757c19fea7275730b5b11515f4e3caddb042a0;
   0x1d24b6b181ffb7e11ae9d1320a2c5beb55167cabcf48aae9ea0b1c34224fbd61;
   0x5048cbcfbfa6e1cac504800176c799853b61b6a2481f0bc6f89b6e4cc3f8a8d9;
   0x23a4db8369f69b7d6e35580692da3e80185bed60b7df5038076491b23c075728;
   0x503ff5feecd35328814b1382cf67a22cc265dd758be92292d21af29fac91cf26;
   0x23adb1543cca2a1fb1eec4853a3a35d89157c68d7415396c2de50d5f536e30db;
   0x7145266275af949d1efef1ea963a619c6d1f5a7f98a0d41d2fb01e7994ae9e07;
   0x2a880f0b3ede8ab143ae61d73677668e69e4983675d87e1d04fe1856b5161fa;
   0x4e04d95c3d037697cca953c9a7d71357728d78320cf0b1dc0bf6682a1f324c98;
   0x25e8cdf6ec9a06b06690843e61cac4ade1302bd0f30daa22f40997d4e0cdb369;
   0x4571ba420ebae0ca2485088dcd0eedfd0fab429c42218eea9d1a8d0cdf05b3f5;
   0x2e7bed111ae29c7e0eb4cf7a3c92ea0844126166bddccd1462e572f220fa4c0c;
   0x3573c78bdc342aafc2989b69d7031f283b8a07f9f945e0a8a970b4f3f6820606;
   0x3e79dfc74d69529870a13c9e329eb8dd18339c0906b87b56568f4b0b097df9fb;
   0x34dfd46e142d366d1862d870c69ea23d3b17df56d813171c551a3d49cec26fff;
   0x3f0dd2e5157046db1ad6ff97430335c818a5c4ac27eb44e2aae5c2b5313d9002;
   0x3657493dd2c18195b3d4f002ab14fce7d771280f074d1440d341280e40f6ff69;
   0x3d965e1556dbfbb27f64e8055e8cdb1d7c4c7bf3f8b147be2cbed7f0bf090098;
   0x23f68a69cc191d70c9bffed16f4a90e9b97d5dfa3a479c8e611337171217a856;
   0x4ff71ce95d845fd76979d9369a57471b9a404608c5b6bf709eecc8e7ede857ab;
   0xec6e5ba74ab8f7b7943135dbd04ce91ce2297d77e27dabdc088bdd905a55f21;
   0x6526c198b4f1edccb9f6c4aa4c9d0973859b0c2b81d681413f774225fa5aa0e0;
   0x2214ff129029040c12f30d72abc32d15101780f66062d06efdbc5c8f8076051c;
   0x51d8a8409974793c2046ca955ddeaaf043a6230c9f9b8b900243a36f7f89fae5;
   0x2be55f9a2cb148576539d6e7048fb70e71ff74fc1738cfd4e640defe9c3d1988;
   0x480847b8fcec34f0ce000121051220f6e1be2f06e8c58c2a19bf210063c2e679;
   0x525151765816dd0870c5f64dfff44c0fe1fee0e9919be7eb242860ad1233361d;
   0x219c55dcd186a03fc273e1ba09ad8bf571bec3196e627413dbd79f51edccc9e4;
   0x2801f5bec7ef45efbf9de97916504aabd21d417ac2d72f8681deb3aea33c8449;
   0x4bebb19461ae3758739bee8ef3518d5981a062883d272c787e214c505cc37bb8;
   0x32d0fb8721c1baed95f9167176d30171d8ffd9cd43748cd07e797c34f167e1ae;
   0x411cabcc07dbc25a9d40c19692ced6937abdca35bc89cf2e818683ca0e981e53;
   0x3bbb5cf7ea7460e71bb5ebece92e50178a46efcbd5cbd25bcdea20340e865edc;
   0x38324a5b3f291c611783ec1b207387edc976b4372a3289a33215dfcaf179a125;
   0x39b764500bde4ae6b522fed010b950c90d1acd98fa4e19e15adb37a5ea82fe43;
   0x3a3643031dbf32617e16d937f8e8873c46a2d66a05b0421da524c859157d01be;
   0x707ccc7b13e9ecf1b6504cd2a95cc231baf97bf1fe6c26fcec89f106fb90245c;
   0x370dad815b390567ce98b35604515d398c428110192350213760ef8046fdba5;
   0x25d6efd47eb0b490fb4b5fe309008ffb30b40031a396daed1d58d36d2887248a;
   0x4e16b77eaaecc8b737ee782500a1480a2309a3d15c678111e2a72c91d778db77;
   0x3fd02ffe51ef6ac663a47e046c9d5d166cb896192a36d9e94f4e49f4db97e1d9;
   0x341d7754d7ae1281cf955a039d047aeee7050de9d5c78215b0b1b60a24681e28;
   0x393366ae43c4c3c56831575a9d83a15eb23c79d13bd65d4193ca2d1bc7fd9263;
   0x3aba40a4e5d8b982cb0880ad6c1e36a6a1812a31c427febd6c35d2e338026d9e;
   0x5fc42e85cd535086081a5545bd583161c88534756de28ddf9c097282f8518c00;
   0x142978cd5c4a2cc22b1f82c24c49a6a38b386f8d921bce1f63f68d7c07ae7401;
   0x753d5d6f7db3f4f0f669bb5886c3af4cb7ad52f8a5c627be96a0110191444de;
   0x6c99d17c31c23df923d33c5281359d108842ced375a1f9831695feeee6ebbb23;
   0x2b7382a49d6b5c74782c1cd532b1b61313fcbf4084f4f9b2c30b3c3647dd9723;
   0x487a24ae8c3220d3bb0dbb32d6f021f23fc0e4c27b09624c3cf4c3c8b82268de;
   0x403c2b3fd45a67f93cbcdfb94554c903565167b6e1c6e7094e396cf2c8808fc1;
   0x33b17c135543154ef67cf84ec44d0f01fd6c3c4c1e3774f5b1c6930c377f7040;
   0x2cfc9a8e6f552967166e1d63d16fa4191baad9d1e07e8ad1c6704a19b8498e4c;
   0x46f10cc4ba4853e11ccbbaa4383233ec3812ca311f7fd12d398fb5e547b671b5;
   0x18f151570dd9c749cd846dedf76d82d68ea6f095c3e393ea78bad60fe8295af1;
   0x5afc55fc1bc3b5fe65b56a1a1234552ec516b36d3c1ac814874529ef17d6a510;
   0x5c33a82ef937f7a8184e37dc8531cf3300d4799a1030031151641d355ed74859;
   0x17b9ff24306585a01aeba02b847008d252e92a68efce58edae9be2c9a128b7a8;
   0x2b70cfdf2f836149018debf684e68567f39183dce28ef8014fe8d6d7c4afe0a9;
   0x487cd773fa1a1bff31abec1184bb529d602c20261d6f63fdb01729273b501f58;
   0x34ff4ad5a9709b098e4630618320a9220e78921f813dbb183c71a7402ec2eed5;
   0x3eee5c7d802ce23ea4f3a7a686812ee3454511e37ec0a0e6c38e58bed13d112c;
   0x5765afb9f051dae05d758652dede4d953eb104627af5b12aeb15f8b2e0dc45d1;
   0x1c87f799394ba267d5c451b52ac38a70150c9fa08508aad414ea074c1f23ba30;
   0x97018e25537e45a543a827b37d2ebc611076c47c5c2c17969253d44de1e4d00;
   0x6a7d8e70d46598eddeff558cd1ceec3f42b637bb3a3b9a8596dac2ba21e1b301;
   0x4820124a85c2aa3222dad195f08db8c1031a77c155967b404f527ffbb148e55b;
   0x2bcd9508a3dad316105f067219141f4450a32c41aa67e0beb0ad80034eb71aa6;
   0x54a2b91dbc2c171b610f40689e8bdb7e85526ac238e5a0c5a70265e120dec41a;
   0x1f4aee356d71662cd22a979f6b15fc86ce6b3940c718bb3958fd9a1ddf213be7;
   0x5db5cfe5971c4e6c2818670f0f6e1efe30bc3f5982e5d13e52ac9853b184617d;
   0x1637d76d92812edc0b2170f8fa33b907230164a97d188ac0ad5367ab4e7b9e84;
   0x5edcb49f8ab5bb56e6d4fddaed19d920a7ea190ee72171b5bf96906be310d83a;
   0x1510f2b39ee7c1f14c64da2d1c87fee4abd38af418dcea4940696f931cef27c7;
   0x6fb241484cc523db20e2ed344c1f0d27dc1ca7fc06a7652dce89d9caeca2788e;
   0x43b660adcd8596d1256ead3bd82cadd77a0fc06f956f6d131762634135d8773;
   0x2f6bbc8be1039af2e00b5ea72b0ce3cc5124ee69f08086a145b0c011142f943c;
   0x4481eac74899e255532e7960de94f4390298b5990f7dd55dba4f3fedebd06bc5;
   0x20c6fe6e13f0c70ec64b7d75ada9bc94dc4e43d7d4c8cc800c599e831e62b8d6;
   0x5326a8e515acb6396cee5a925bf81b70776f602b2b358f7ef3a6617be19d472b;
   0x1acf14f60f00b7cfd56abdc480f96f516ea4cf29a5781cc8b8f0b1427b5e42f8;
   0x591e925d1a9cc5785dcf1a4388a868b3e518d4d95a863f36470f4ebc84a1bd09;
   0x46b339b5bc3017ffbab6734e04debb058b860ca3e0b0c8cd0d2607b31e34bf62;
   0x2d3a6d9d6d6d6548788364ba04c31cffc837975f1f4d9331f2d9f84be1cb409f;
   0x5dc73e710294f33c1a7756ed868ab15142aa0aa405432df6ef7fba47f56fb3d8;
   0x162668e227088a0c18c2811a831726b41113995efabb2e08108045b70a904c29;
   0x62b28418db7c8f6c07faa3df067d96a234e49f3bc59065cd5a9925b13969600f;
   0x113b233a4e20eddc2b3f3429032441631ed904c73a6df631a566da4dc6969ff2;
   0x6bd50bd90a98a833477c49bd9f429e322108f69bb5a34d7a4d4166e5018414f8;
   0x8189b7a1f04d514ebbd8e4a6a5f39d332b4ad674a5b0e84b2be9919fe7beb09;
   0x637a5f38c3c0928bc650a7b8aabc2c90b0858e55d4b05011c65654cc6e143494;
   0x1073481a65dceabc6ce9304f5ee5ab74a33815ad2b4e0bed39a9ab3291ebcb6d;
   0x7ce375f4d14b97ee1c87bd168b412c9dc56451a0f2e97031e3ac422a3bebfce;
   0x6c1f6ff3dc88c3c951715c36a0edc53b77675ee8f0cfc4fbe1c53bdc5c414033;
   0x731a6fbb53c9f81b01ac67d632538bc740203872ef16ad220269e1371ad9a322;
   0xd33797d5d3852d318d7031d74e4c3e139d6b9010e7aedcfd961ec7e5265cdf;
   0x44dfb14784ed9323b84e3224c2e800f6bf46ca8e879475036676bb13db1cfdd7;
   0x2f0df60ba4afea247aeba5e346b9d70e9476d9747869e6fb998944eb24e3022a;
   0x1189e357b3f96e6d94c1b71405e3140b1f3f2f1cdac0bdd61490fae57a7c33a7;
   0x6263c3fb75a40eda9e7820f403bec3fa347e74e6253d9e28eb6f05198583cc5a;
   0x6bbf623b190ab7ecc0e1424947746063b455ed36483309549cee4813c5113cae;
   0x82e45181092c55b725895bec22d77a19f67b6ccb7cb52aa6311b7eb3aeec353;
   0x3664860235a7434baffb53bd6eab1fa8011b0f77f0d55ea106e039f68e5ab3dd;
   0x3d892150f3f639fc833e844a9af6b85d52a2948b0f28fd5df91fc60871a54c24;
   0xeebdacf4627bc5be4665ae77a4160334de78026be2d5e7457717af258d76b50;
   0x6501cc83e375c0ec4ed37d208f6077d205d623dc41d0fd8aa88e850ca72894b1;
   0x43409cbef4cf3ede358ff43badf4f95a4a67bb8c3c1db6ea8505ca50e03d6419;
   0x30ad0a9434ce3e69fda9e3cc5bacdeab0955e876c3e0a5147afa35ae1fc29be8;
   0x6c0d330034910c6106697712ede6bda93f5f6b1fce35a767a42cef3b59936aca;
   0x7e07452f50c70e72cd060f51bbb1a5c145e38e331c8b4975bd310c3a66c9537].
(** [src/crypto/blobs/omega.go:901-1028] rows 896 to 1023 *)
Definition omega_rows_7 : list Z :=
  [0xd562071f73b29bb76665151b4cb89bba93a056f49df88978ecfab339e06cb5b;
   0x669786e13262538cbcd386b654d64e49aa839e93b61ed367713054cb61f934a6;
   0x5caacccb9468e3c4282dc4972a3cca5fbef2c4c46e3ffffcb692d0528f44414;
   0x6e22fa867056ef0bf0b6fbbe96fe0b5f57ce77b6b91a5bff3496d2f9d70bbbed;
   0x1055dd3a18e8bc717109bb87546c7be526881eea9a94f19f18bb67ac498bb306;
   0x6397ca1910b4c0d6c2301c80b5355c202d35851865696a5fe7449852b6744cfb;
   0x6fa19b9923940fc900b3afc1442ae9abafa7f2c626b2e4def707a2d2027625b3;
   0x44c0bba06096d7f32862846c576ee59a415b13cd94b772008f85d2cfd89da4e;
   0x4e6fc356d0de01d48ff79d5e980fce640910558d9aa509ab0e5ae9a70d5d061a;
   0x257de3fc58bf7b73a3423aa9719209a14aad4e7565595253f1a51657f2a2f9e7;
   0x31d639349820411f5fc93aca2333a367b123c188df7ce263b135c7a97914d377;
   0x42176e1e917d3c28d3709d3de66e349da299e27a2081799b4eca385586eb2c8a;
   0x4b5efe0d05b931869a29e30166d46cc7b66246eaafa91200119436ea05caedb2;
   0x288ea94623e44bc1990ff506a2cd6b3d9d5b5d18505549feee6bc914fa35124f;
   0x713d093fd8cc8c196a702485b38d5808f49d99175038716628f47d40e82d15bd;
   0x2b09e1350d0f12ec8c9b38256147ffc5f200aebafc5ea98d70b82be17d2ea44;
   0x566499ddf792e5371ad4958bc9e7000449eb780345d8d48e768d55926c7e753e;
   0x1d890d75320a98111865427c3fbad80109d22bffba2587708972aa6c93818ac3;
   0x726e3359a03f722a55433db658105171ca252bfa132081f9d0568f04b84b2a00;
   0x17f73f9895e0b1dddf69a51b191869389987808ecddda052fa970fa47b4d601;
   0x2f7509193ddd55abe3de5d7d83eacc3d554430904a87ce25144f897786ee3fb6;
   0x44789e39ebc0279c4f5b7a8a85b70bc7fe797372b5768dd9ebb076877911c04b;
   0x62ab2b3e89f62de6e60238fe7599d7ec10e4fb2dcb4d9f1a4a9ebdd727b87a2e;
   0x11427c149fa74f614d379f099408001942d8a8d534b0bce4b5614227d84785d3;
   0x3b69180a5114016f798c9348185b0382e2d620293ae0ef1d9da284bedb2f43d0;
   0x38848f48d8897bd8b9ad44bff146d48270e783d9c51d6ce1625d7b4024d0bc31;
   0x2eae852ff0a7b43ffbb7a8b0d7b33af34c6e4a6abf88d933719ae8985de5540a;
   0x453f222338f5c90837822f5731ee9d12074f5998407582cb8e651766a21aabf7;
   0x6934156b1645203e0188cbbb016cf2efe2cc886ec1f3ffe0d1b7b97da44a349a;
   0xab991e813585d0a31b10c4d0834e51570f11b943e0a5c1e2e4846815bb5cb67;
   0x61aa4a6827f60d795efd1735c252faeb40a3311e69461863c932b24d441a3598;
   0x12435ceb01a76fced43cc0d2474edd1a131a72e496b8439b36cd4db1bbe5ca69;
   0x110f92f702edb6d0f2507c5f193db6176b82345ac27d7e4868b67310ef09a9cb;
   0x62de145c26afc67740e95ba8f06421ede83b6fa83d80ddb697498cee10f65636;
   0x1a6858e0c574d4f3d63057d2ac2decc1c8db0f7c98858057112f96e2b0f9b3dd;
   0x59854e726428a8545d0980355d73eb438ae294866778dba7eed0691c4f064c24;
   0x169602a17e71df56bfb88204fb95d7509b8c7c2afe21b8d4c669d39e6258ef1e;
   0x5d57a4b1ab2b9df1738156030e0c00b4b83127d801dca32a39962c609da710e3;
   0x2a7518a877b7ab1d7cfa546e4bac4497c44b6eef836791e9f54098590590f97a;
   0x49788eaab1e5d22ab63f8399bdf5936d8f7235137c96ca150abf67a5fa6f0687;
   0x5928741f3f8e164dd0c49746d9253f440eda57a2483dd819a0521ef18aeb112b;
   0x1ac53333ea0f66fa627540c1307c98c144e34c60b7c083e55fade10d7514eed6;
   0x143993e8f9bde758fed2674d81d61358356d9efa01c14d946eb5dc3197a8ef92;
   0x5fb4136a2fdf95ef346770ba87cbc4ad1e500508fe3d0e6a914a23cd6857106f;
   0x34514bd44428726e555938660d5f1259af6b343de16bed11f7715c2b59ea6e61;
   0x3f9c5b7ee5750ad9dde09fa1fc42c5aba4526fc51e926eed088ea3d3a61591a0;
   0x4ba858f3343b72247e4ce45ae3b842b6bd7adea656c88ebe1c73198fced09ec;
   0x6f3321c3f659c625eb5509c25b6653d9e7e5f6189a91d3131e38ce660312f615;
   0x342f19f1fc6fe5a19f799a4ac31e134aad4396812497c58b3d6e0eb2267582d7;
   0x3fbe8d612d2d97a693c03dbd4683c4baa67a0d81db669673c291f14cd98a7d2a;
   0x6c00513188184d1e47fe7c0925272dc385330ac33976577896e7cd165be118af;
   0x7ed5621a1853029eb3b5bfee47aaa41ce8a993fc6880486691832e8a41ee752;
   0x395c9970ea51b0e6b23e7b35ed24a1e5c7b422e761321f21d09645fe30b61c23;
   0x3a910de23f4bcc6180fb5cd21c7d361f8c09811b9ecc3cdd2f69ba00cf49e3de;
   0x4a5affc2ee6b0313ed07699a98a0e391410b160cf2d6797490f41560b245b067;
   0x2992a7903b327a3446326e6d7100f47412b28df60d27e28a6f0bea9e4dba4f9a;
   0x2110b6b450e6f2baafc992e5de759fc13aaba6e2d7d140d91f7cc4829e8423a4;
   0x52dcf09ed8b68a8d837045222b2c38441911fd20282d1b25e0833b7c617bdc5d;
   0x13e9935af62d62298775e60c31411c7d36a01148af98688c508dd3077d60548f;
   0x600413f833701b1eabc3f1fbd860bb881d1d92ba5065f372af722cf7829fab72;
   0x445143d57eb232ec56fb40f6e0bf66906ec7276b0e0087cc7eb1318aca4306de;
   0x2f9c637daaeb4a5bdc3e971128e27174e4f67c97f1fdd432814ece7435bcf923;
   0x1629e4ce8328676baf6a10b22f3eda88c1eba7f573b3b0edb038298303139ae1;
   0x5dc3c284a67515dc83cfc755da62fd7c91d1fc0d8c4aab114fc7d67bfcec6520;
   0x30d14f1ed5f3daea6d94451f7d621398499bcab0951254eec1d795605c9454e1;
   0x431c583453a9a25dc5a592e88c3fc46d0a21d9526aec07103e286a9ea36bab20;
   0x83d6fb6de21ab8a003f81fccd9c6817e5015a142b676f214fde7e2d7a559fd3;
   0x6bb0379c4b7bd1be32fa560b3c056fed6ebc49eed496ecddb02181d185aa602e;
   0x6226a020a192f58550d8f5fae982ba3ffbb05750b0757d9b1b525693c4fdf276;
   0x11c70732880a87c2e260e20d201f1dc5580d4cb24f88de63e4ada96b3b020d8b;
   0x5593b1dca7fd1456679d9af60081e6149589c6d02e429124ca49ae2654cfed;
   0x739813a14cf58033dcd23a6d13a1561f3f281a3c2fd0196ddb35b650d9ab3014;
   0x35050c64c68dd203f81ab9316428dff763e5f85ddf3c1b5cb31a1acd9d26ce3c;
   0x3ee89aee630fab443b1f1ed6a578f80defd7aba520c240a24ce5e53162d931c5;
   0x40551ff3b932efd9f1ca45610bea15005aa559c25a323066982caeaed4863fd;
   0x6fe85553ee0a4e4a941d33b1f8e336b54e134e66da5b38f8967d351412b79c04;
   0x18aa54aa601bd20e14bc524e83f5dfdf0a7c55cac91b46847d77398fb0253409;
   0x5b4352a8c981ab3a1e7d85b985abf82649414e3836e3157a8288c66f4fdacbf8;
   0x18af53b4e3288a76fc3f7b8a3bd7c507c172ebfd53689d24efb99d766acb5fd5;
   0x5b3e539e4674f2d136fa5c7dcdca12fd924ab805ac95beda104662889534a02c;
   0x274d1e437926a687585966d8d7855d16d5fd1bdd35d3c9d1c6cbff4af2be3916;
   0x4ca0890fb076d6c0dae0712f321c7aee7dc08825ca2a922d393400b40d41c6eb;
   0x649cf70a9c158f6fb5fca7743791401f4bb77311aa5733c02e36541e5c44ddc4;
   0xf50b0488d87edd87d3d3093d21097e6080630f155a7283ed1c9abe0a3bb223d;
   0x47321c8e1645a812d561eb297d716c3f6ebec17bd32d28f964b877880b7bd162;
   0x2cbb8ac51357d5355dd7ecde8c306bc5e4fee2872cd133059b478876f4842e9f;
   0xb8bccb911dcb1ae544edf064df058b8a64b9abc640df6a92392180523c30faa;
   0x6861da9a17c0cb99deeaf901bbb17f4cad7209469bf06555dc6de7f9dc3cf057;
   0x16aafb15e4fc1addd4df8ea0dd402af30b43fba07004bb352fb97ddcbb685b7e;
   0x5d42ac3d44a1626a5e5a49672c61ad124879a8628ff9a0c9d04682224497a483;
   0x3095f0957745c50282acff8e98d64e22c956e2bbfada26463ad32c3398b4cb0a;
   0x4357b6bdb257b845b08cd87970cb89e28a66c147052435b8c52cd3cb674b34f7;
   0x2e819150327c8a8167c605fb4aa50a464231dfefa8056f0bb4ad409f0a9afc82;
   0x456c1602f720f2c6cb73d20cbefccdbf118bc41357f8ecf34b52bf5ff565037f;
   0x387290bdf40839f0ea8ca59fb662da9e1fe90e9f0a64c08bc2c919362a37a2f5;
   0x3b7b16953595435748ad3268533efd6733d49563f5999b733d36e6c8d5c85d0c;
   0x73d863d9876c3af1054103abfd750fa7e3071011023ca1f11813365f2e4dd33f;
   0x154379a23142572df8d45c0c2cc85d70b693f1fdc1ba0de7ecc99fd1b22cc2;
   0x30e64a3b47df5caa2bdad7b86e55e1c1cc694ee83ae27a47bed39a0919fadbc3;
   0x43075d17e1be209e075f004f9b4bf6438754551ac51be1b7412c65f5e605243e;
   0x3c1ec09602866dfdcaae5a41e711829dab5e55696d530d23c829d3b1ec72d08f;
   0x37cee6bd27170f4a688b7dc622905567a85f4e9992ab4edb37d62c4d138d2f72;
   0x719fb3275950a9f9c4441b6584b2104f8d288cf2ea23bfefa96caf3ac3f8ba22;
   0x24df42bd04cd34e6ef5bca284efc7b5c695171015da9c0f569350c43c0745df;
   0x5ebd7256e5b76cb3175f0352ab72b4f8748bc3b8285c996dbad4d376d1513768;
   0x153034fc43e610951bdad4b55e2f230cdf31e04ad7a1c291452b2c882eaec899;
   0x625d8c6cd36c4d58e020f6ea3ff00d743a894a39cb116c525af67e8ae5be1bb2;
   0x11901ae656312fef5318e11dc9b1ca91193459c934ecefaca50981741a41e44f;
   0x5977d5ae6d99265b8f18e758585cbb43c125e1a5766d24382bb250f695030649;
   0x1a75d1a4bc0456eca420f0afb1451cc19297c25d899137c6d44daf086afcf9b8;
   0x41dd0b039e7a6793034fce3be69716022a108a14b7c70a6ad26c4075ed336c51;
   0x32109c4f8b2315b52fea09cc230ac20329ad19ee483751942d93bf8912cc93b0;
   0x6b48672456cb0e4d663c27a5ae14f1c97c73d08bc76ccf5ba34807979b0215f8;
   0x8a5402ed2d26efaccfdb0625b8ce63bd749d37738918ca35cb7f86764fdea09;
   0x6a55d299fff47a28674a00d694f09259c6b194d22c9353d04f23e87d934f1f96;
   0x997d4b929a9031fcbefd73174b145ab8d0c0f30d36b082eb0dc17816cb0e06b;
   0x14609bbee3ad9bc81a5f72c6f875ee7602e60667a30dabcfb52e13c743b9975c;
   0x5f8d0b9445efe18018da6541112be98f50d79d9b5cf0b02f4ad1ec37bc4668a5;
   0x7a0985bbe50fcdf18c268a03833d98497ab86dadb989e51f0cbebe282c25f67;
   0x6c4d0ef76b4c80691a776f67d16dfe80bc121d282465bdad0f34141c7d3da09a;
   0x4eda2e7430a3a2a093042049534a4e9515da7702676dea396d79c4d11332d72d;
   0x251378def8f9daa7a035b7beb65789703de32d00989071c592863b2deccd28d4;
   0x3eaa22a7edcf8fa76606557aaa616f7f583fea587c4affedc04f2ce41153449c;
   0x354384ab3bcdeda0cd33828d5f406885fb7db9aa83b35c113fb0d31aeeacbb65;
   0x3bdf175965785290878d175aaf9256fc91d6197d6c736880f50cd1a8e4c2db19;
   0x380e8ff9c4252ab7abacc0ad5a0f8108c1e78a85938af37e0af32e561b3d24e8;
   0x2288dd06325810ac9f0db723ad6706b7b6d541ba86f98b53e4a9ecb7395b88da;
   0x5164ca4cf7456c9b942c20e45c3ad14d9ce862487904d0ab1b561347c6a47727].
(** [src/crypto/blobs/omega.go:1029-1156] rows 1024 to 1151 *)
Definition omega_rows_8 : list Z :=
  [0x6d031f1b5c49c83409f1ca610a08f16655ea6811be9c622d4a838b5d59cd79e5;
   0x6ea8837cd53b51429480da6ff98e69efdd33bf14161f9d1b57c74a1a632861c;
   0xd8bc39cc1085e035b0395f3cb50c203394e1e3ba38d57fa7de6ee5fb11c8691;
   0x6661e3b668951f44d83642143e5116021a6f85c75c7104048219119f4ee37970;
   0x62008ce61b57c643fab4ad0b6127b0bdf511bb5ed43415b6eaa3a247fac9045c;
   0x11ed1a6d0e45b70438852afca87a27475eabe8a42bca4648155c5db70536fba5;
   0x269e16bac381fe479a73369f5b7b9fbd6666edf951391e017027b8876a00b1dd;
   0x4d4f9098661b7f0098c6a168ae263847ed56b609aec53dfd8fd8477795ff4e24;
   0x70a1decdc861cdd2ba3c1894e10b47bb268d3bda72fe32ac556446a1e4c8b12c;
   0x34bc885613baf7578fdbf732896904a2d3068288d002952aa9bb95d1b374ed5;
   0x41af261192cf65c5eb82149a7ac5fda4ffc2aede9421fa9e20d9bfae30c1dd53;
   0x323e814196ce178247b7c36d8edbda6053faf5246bdc6160df264050cf3e22ae;
   0x650f26227262918465175978507ae3f87a39f3a6db6531cdca1cb78883b5501f;
   0xede8130b73aebc3ce227e8fb926f40cd983b05c24992a3135e348767c4aafe2;
   0x5d7acbf627e693d811320caaca8a58a05ac37dd45f1728e7f0d65f4eb1657ebb;
   0x1672db5d01b6e9702207cb5d3f177f64f8fa262ea0e733170f29a0b04e9a8146;
   0x32a63d8529f4a57d3684ca197cb9b2697ef0213a7d775a248c5cb6eb5617be18;
   0x414769cdffa8d7cafcb50dee8ce8259bd4cd82c8828701da73a34913a9e841e9;
   0xbb868771297c5f5cab5e5b78e6a8640e028b34e361f477916846a9d93c59012;
   0x68353edc1705b7526883f2507b3751c47394f0b4c9df1485e97b95616c3a6fef;
   0x53e324993436058950f7e263c54ee6a9b52fcc7b4c5132e44eade4f1a131233d;
   0x200a82b9f56777bee241f5a44452f15b9e8dd787b3ad291ab1521b0d5ecedcc4;
   0x118c6c675105ced67e07f5abd08cc0fb81e3b4dbe22b4392311d3304db643695;
   0x62613aebd897ae71b531e25c39151709d1d9ef271dd3186ccee2ccfa249bc96c;
   0x31579692bcbb22f340a207f615ad60750ff11efe066d096281a3dfb44cd7d165;
   0x429610c06ce25a54f297d011f3f4779043cc8504f991529c7e5c204ab3282e9c;
   0x5c6adb5b738776bd7f6723b1e2ff13929dcb69c52a4e2ed82c4a6de94c8bf96;
   0x6e26f99d726505dc5b4365cceb71e6cc29e0ed66ad5979117d3b59206b37406b;
   0x1987ae7241f1a002af8f5d5d7f44857a7fbdddcc8bf7cd9ed4857eba4432963c;
   0x5a65f8e0e7abdd4583aa7aaa8a5d528ad3ffc63674068e602b7a8144bbcd69c5;
   0x4e19ad7b8eb369ebc5844282de960e20ea403fec5dd82b2b02f99d83bd109f22;
   0x25d3f9d79aea135c6db595852b0bc9e4697d6416a22630d3fd06627b42ef60df;
   0x54d18c39463268f3eff98a4b7b39d85563667871334f5a17c81450fbaf4bac63;
   0x1f1c1b19e36b145443404dbc8e67ffaff0572b91ccaf01e737ebaf0350b4539e;
   0x73222b1650a62e0d01d8396db702f1cebee5f786d3627dca98b3217a2417eb91;
   0xcb7c3cd8f74f3b31619e9a529ee63694d7ac7c2c9bde34674cde84dbe81470;
   0x39df8dc193c234980989fd6dc601cf00dc14442a81d5dacf112f0e1c1ea12f87;
   0x3a0e199195db48b029afda9a43a0090477a95fd87e28812feed0f1e2e15ed07a;
   0xc2fc62efbed2b5cecef70db4531b7f32d921cee975fa0e584ce4ae1e892a3c5;
   0x67bde1242db051eb464a672cc4702012262b8714689ebb197b31b51d176d5c3c;
   0x5d2b73617687ce3861a1cbdaf40353ac4d80e62a591e130ddff868f0a741ce9b;
   0x16c233f1b315af0fd1980c2d159e8459063cbdd8a6e048f12007970e58be3166;
   0x4cc85e5d2d844e5ab78ecd7e8bbf2f114fbebbfef511cfe3de78900fcc779e4b;
   0x272548f5fc192eed7bab0a897de2a8f403fee8040aec8c1b21876fef338861b6;
   0x35f43da87aae9f28ef0fa6840d0fb03214fb644fa915d933a7364690463b8c5a;
   0x3df969aaaeeede1f442a3183fc9227d33ec23fb356e882cb58c9b96eb9c473a7;
   0x5a92d8a29031fa3b19ae5ba085ac0ef4a6291078c0516e965d1f8871ac8e55dd;
   0x195aceb0996b830d198b7c6783f5c910ad94938a3faced68a2e0778d5371aa24;
   0x3c6791d2ea1bb63a6725ce5bff1ee40056be569a3a31f165c75c815f425cadf6;
   0x378615803f81c70dcc1409ac0a82f404fcff4d68c5cc6a9938a37e9fbda3520b;
   0x7309187a05e3c16ef03e7c1f872a7e3d16d4e8f014ba143af233e178fcd9035e;
   0xe48ed923b9bbd942fb5be8827759c83ce8bb12eb4447c40dcc1e860326fca3;
   0x2a778dae310a1c6ed27159d1f41e8ecf3872c83deac35889a527d24cb6033b6d;
   0x497619a4f89360d960c87e36158349361b4adbc5153b03755ad82db249fcc494;
   0x4b19fe95f6cd1c5ae51f8b3c2f31b064caed383bd6c47164f0f4a28beafd4b05;
   0x28d3a8bd32d060ed4e1a4ccbda7027a088d06bc72939ea9a0f0b5d731502b4fc;
   0x55b0affd6163c6457b489fed890fd8e5bec2af4e8c17ec9b12d6d2603dee0fe2;
   0x1e3cf755c839b702b7f1381a8091ff1f94faf4b473e66f63ed292d9ec211f01f;
   0x1896e168decf4b8ed4289398be828829669902e6b674cd83c44a9dee0b94bba2;
   0x5b56c5ea4ace31b95f11446f4b1f4fdbed24a11c49898e7b3bb56210f46b445f;
   0x33f17722bad2894e16b2203d6eb58db41f4e45ae2b0e3452a4529d1d508d95fc;
   0x3ffc30306ecaf3fa1c87b7ca9aec4a51346f5e54d4f027ac5bad62e1af726a05;
   0x3467217231241ba8cb044aeeeef2e88ea437da9fd247b74cb41071ef7f2aea85;
   0x3f8685e0f879619f68358d191aaeef76af85c9632db6a4b24bef8e0f80d5157c;
   0x536410ac5d53a149416469b17618f6a0473f627cef182bf8f6139aa4696affcb;
   0x208996a6cc49dbfef1d56e569388e1650c7e418610e6300609ec655a96950036;
   0x11d4fc526f7aaa2242fa324ea12a7d5c517e981b72650bfeff3159bca6f143eb;
   0x6218ab00ba22d325f03fa5b968775aa9023f0be78d99500000cea642590ebc16;
   0x5848b0058ff22890469a4cefef1ddd319ed355e9996feaa77dfbd1f922488ad7;
   0x1ba4f74d99ab54b7ec9f8b181a83fad3b4ea4e19668e715782042e05ddb7752a;
   0x693f74aa326c7001fa831c8ac096dad4f971709889e0167d409fadc1390c215b;
   0xaae32a8f7310d4638b6bb7d490afd305a4c336a761e4581bf60523dc6f3dea6;
   0x76736a927134e53d5de7528fa90299f947f3c55e68a9ebe67f8591eaace97e5;
   0x6c8670aa028a2ef45d5b62df0f11ae65bf3e67ad1973bd409807a6e05531681c;
   0x56b3791051adf2dcf04d9abd55a75fca8d68c4e218d617df86a5774c5ddad45;
   0x6e826fc224829e1a6434fe5c34476208aae717b4de70fa810795a88a3a2252bc;
   0x130597cf9f1de049dea2d37f97aa42f19b7b2013f325133a921b388995bea7fd;
   0x60e80f838a7f9cfe5497048871f79513b84283ef0cd948c46de4c7756a415804;
   0x5d4210e56eefef4251ebd9d921306ed45a8ab8dd1277fe748ac4ce96c05922c8;
   0x16ab966dbaad8e05e14dfe2ee8716930f932eb25ed865d8a753b31683fa6dd39;
   0x6c4fee53953c53b0cfcf5e4fb20e3fa230a4f7342f02550b7dd369ee24a4b2c;
   0x6d28a86df049b80d263ce2230e80f40b30b3548fbd0e36ae4822c9601db5b4d5;
   0x3cd48ee592217168094228f05f9a5f7b17d50a297e01b9f76128ae4a4ec03cc;
   0x70205e64d07b6631b2a5b57903a8320da2405360681e405f89ed751a5b13fc35;
   0x1d2d0703b0d3a24c6f57d8c0bf34a21c9a15ef3ee3ffc51b88fd3eb853540a9b;
   0x56c0a04f78c9dafbc3e1ff474a6d35e8b9a7b4c41bfe96e37702c146acabf566;
   0x31264ac46b49ad06003051d8ebe9cfeefba0e87e3224359144dd54d2b5c75587;
   0x42c75c8ebe53d0423309862f1db80816581cbb84cdda266dbb22ab2c4a38aa7a;
   0x40bec59e71fd63b2bf1d7ff3348ecd758b8b986d29b33eb5f0def2eff45786de;
   0x332ee1b4b7a01995741c5814d5130a8fc8320b95d64b1d490f210d0f0ba87923;
   0x3b309b45fa34b0b61f0b2d8c094d64202099b19c7bca6174d7162d9719890f64;
   0x38bd0c0d2f68cc92142eaa7c005473e53323f2668433fa8a28e9d267e676f09d;
   0x2ec2059e6e34b922e5757ecbd6781b5e62d107902335e8b13bda35e579e11aaf;
   0x452ba1b4bb68c4254dc4593c3329bca6f0ec9c72dcc8734dc425ca19861ee552;
   0x191b494ae6fc135c86b8d15bf3d84bec669e3c15394e6e1b208b52545e33565a;
   0x5ad25e0842a169ebac8106ac15c98c18ed1f67edc6afede3df74adaaa1cca9a7;
   0x57ad9d381a6230d31aa9d7cb35b628a6c77d4b44384d28349ae50103d6566c65;
   0x1c400a1b0f3b4c751890003cd3ebaf5e8c4058bec7b133ca651afefb29a9939c;
   0x51628ca8ab8a88de4e6c5a7b26d84725a486f87457e8d83a3e453abe1c7e3711;
   0x228b1aaa7e12f469e4cd7d8ce2c990dfaf36ab8ea81583c4c1bac540e381c8f0;
   0x330bf540ec8a19daeeda67854d1fd03c74f1a3f8ee19dbd5ae0de328241583d7;
   0x40e1b2123d13636d445f7082bc8207c8decc000a11e4802951f21cd6dbea7c2a;
   0x1c129b28721e8abbc3e8f9d6b214dd63097f4a71e8149069d29f8a66433e17c6;
   0x57db0c2ab77ef28c6f50de31578cfaa24a3e599117e9cb952d607598bcc1e83b;
   0x2d3f56b1edc476b1082be230899d88c0b8a60a12a7fafe3326945a8982257a8c;
   0x46ae50a13bd906972b0df5d780044f449b1799f058035dcbd96ba5757dda8575;
   0x81d812e1d221ea3c3d27fdf06de69822aeb5269e06340da74ad6f23b8331b7d;
   0x6bd026250c7b5ea46f67582902c36e8328d251991f9b1b248b5290db47cce484;
   0x60c520bdebb8c529b77a75fbc3e63a6bd75d72906ae5974656402311a3c88c0d;
   0x132886953de4b81e7bbf620c45bb9d997c6031729518c4b8a9bfdced5c3773f4;
   0x5e0e051ba804583083d632fb1caac7277b8ae0d36eaa8ceeb0ec520770f54dd3;
   0x15dfa23781992517af63a50cecf710ddd832c32f9153cf104f13adf78f0ab22e;
   0x5990e9a156bfcdfe7a10eedb8e7072c9270ca1a6b232d5316951ae5ab0e6a4c;
   0x6e5498b9143180684b98c91a50bad0d8c14cd9e894db2eabe96ae51954f195b5;
   0x260d871fec91df9e50d66999b7f71ecb850f8c6a786fe9e866941a14b23a4155;
   0x4de020333d0b9da9e2636e6e51aab939ceae1798878e7216996be5ea4dc5beac;
   0xeac9f15f40745862c463c0f6c15f45234728f805725223905648a06d5bf4779;
   0x6541083d359637c206f39bf89d8be3b31f4b1482a8d939c5fa9b75f82a40b888;
   0x55099c93e92dfca58c7a298d7828572cab10938a76e2590378e47a78cb232a2;
   0x6e9d0d89eb0a9d7dda72356f321f5292890c9aca5890366ec871b857734dcd5f;
   0x1f23a2397a7ac4814435fb53a4ff017529e83b231555ac35ead6a82181c19293;
   0x54ca0519af22b8c6ef03dcb464a2d69029d568dfeaa8afc9152957dd7e3e6d6e;
   0x55698a349d98ba5804e0a5947115d93a2f6f49efba092206bec4af45a3dd836a;
   0x1e841d1e8c04c2f02e593273988bfecb244e5a1345f539f8413b50b95c227c97;
   0x6daa4d7122d117efeb680de72cff1690111b702ad51911966e554ba438256c09;
   0x64359e206cc655847d1ca20dca2c17542a233d82ae54a6891aab45ac7da93f8;
   0x47a45bf26247526e599fab5a4a1e19cff43bc1e33db1fabde67e9726e2110a9f;
   0x2c494b60c7562ad9d99a2cadbf83be355f81e21fc24c6141198168d81deef562].
(** [src/crypto/blobs/omega.go:1157-1284] rows 1152 to 1279 *)
Definition omega_rows_9 : list Z :=
  [0x35b92e6ad1aa805d875c182d7bfe77cc1792dc9c9ab9a192a42416165d386af9;
   0x3e3478e857f2fceaabddbfda8da360393c2ac7666544ba6c5bdbe9e8a2c79508;
   0x5d401beb3356e7eac8b5c49358e42cc261dbf9d401389e118356c2dfd4542a7e;
   0x16ad8b67f646955d6a841374b0bdab42f1e1aa2efec5bded7ca93d1f2babd583;
   0x4b57cc695696e15f33b6703722957141dcde093f86dc82aee638c24bfb618f3f;
   0x2895dae9d3069be8ff8367d0e70c66c376df9ac37921d95019c73db3049e70c2;
   0x1b0ab89955f3ac075693ab26c50bb8772e43cf43b8a4fea9a6910d41d80997d6;
   0x58e2eeb9d3a9d140dca62ce144961f8e2579d4bf47595d55596ef2bd27f6682b;
   0x4be86e3537a8223b30a23b5534d53e7afc6df74788bfddf547809a0593c52c29;
   0x2805391df1f55b0d02979cb2d4cc998a574facbb773e7e09b87f65f96c3ad3d8;
   0x3083d259c48b91eaa8064226f6054683bcecbebc0bb2bede8728abb983c104a2;
   0x4369d4f96511eb5d8b3395e1139c918196d0e546f44b9d2078d754457c3efb5f;
   0x728972a1f9cd89124eb06d927e27a3fd9ed37ff2a87babb380c6c92288db9ca6;
   0x16434b12fcff435e4896a758b7a3407b4ea24105782b04b7f3936dc7724635b;
   0xb9734796ea0382b31d08ef46443e548e53a7585c54ec264e3ee86325ff52f02;
   0x685672d9bafd451d01694913a55df2bc6e832e7d3aaf999a1c1179cca00ad0ff;
   0x668cd8489d9b1d2b7d981b5cc7400d058a83611805de11188d9fc12803667dbf;
   0xd60cf0a8c02601cb5a1bcab4261caffc93a42eafa204ae672603ed6fc998242;
   0x416425a27aaf423e560d8375b9f57ddb5f6ace9eee636cfea106cdd2093221c4;
   0x328981b0aeee3b09dd2c54924fac5a29f452d564119aef005ef9322cf6cdde3d;
   0x56237ea83b297acb4d4cac9a82e460d7a804da7679b1f2ab1d8a86c599c1125;
   0x6e8b6f68a5eae59b7e650d3e617391f7d93d565b98633cd44e275792a663eedc;
   0x6288ca7fe2354d973f2d66f302fd0a4109ac81ba0e9f27289accbc94269dcfed;
   0x1164dcd347682fb0f40c711506a4cdc44a112248f15f34d66533436ad9623014;
   0x6e17f19446ee388087b66e87e6421ad7f4aa925bcaf595931a976cec0c95430e;
   0x5d5b5bee2af44c7ab836980235fbd2d5f1311a73508c66be5689312f36abcf3;
   0x29f1f253594888ee9a00b7f8aae9ee446d7eebd047cbc2e51c5ec124a724f5d0;
   0x49fbb4ffd054f4599939200f5eb7e9c0e63eb832b8329919e3a13eda58db0a31;
   0x3f1a65e4d3674be8111f4ebbffa0ac1554c3721ea6c79959350ce6a6828af90a;
   0x34d3416e56363160221a894c0a012beffefa31e45936c2a5caf319587d7506f7;
   0x6323db61407a6cf482dcb6fbe1f248d57fc955e365e603ea58bb2d6aa83247db;
   0x10c9cbf1e9231053b05d210c27af8f2fd3f44e1f9a185814a744d29457cdb826;
   0x4043f65a022ccf82e082eced9e4db3705378a3d2d41320a58a91e7a363e4bf29;
   0x33a9b0f92770adc552b6eb1a6b542495004500302beb3b59756e185b9c1b40d8;
   0x1d4a204ab0d2a8638e24584004aba6faa251110b4d802457efc0e95192098448;
   0x56a3870878cad4e4a5157fc804f6310ab16c92f7b27e37a7103f16ad6df67bb9;
   0x24f717e3d47a499280db319a950d9b3877a76cbd7137e6f47e6e58015540096f;
   0x4ef68f6f552333b5b25ea66d74943cccdc1637458ec6750a8191a7fdaabff692;
   0x6694aeefe26d6d67ed111551f5aecd91b546cc3132ae68b8a5f2cc3b6ce6684c;
   0xd58f86347300fe04628c2b613f30a739e76d7d1cd4ff3465a0d33c3931997b5;
   0x5271e6ce8ff225aa86da51c04c9130a03f356ebb9037c6036cf0c644e1105fba;
   0x217bc08499ab579dac5f8647bd10a765148835476fc695fb930f39ba1eefa047;
   0x71bcbd4090207fe16c1f9ade683c154e8971972107f75956b53875e0be421d2a;
   0x230ea12997cfd66c71a3d29a165c2b6ca4c0ce1f80702a84ac78a1e41bde2d7;
   0x67d14302c5125319ab5b6b74743001585762cc3eb2ba6bc6f7b5e5dc5beed42f;
   0xc1c6450648b2a2e87de6c939571d6acfc5ad7c44d43f038084a1a22a4112bd2;
   0x6db9c18924c9ff6195534d6b669470a21f4ded5e86515588409b42a1c622af82;
   0x633e5ca04d37de69de68a9ca30d6763346fb6a479ad0676bf64bd5d39dd507f;
   0x49089fb0976b417260510ce0bd3d0820c3f940aaef199513b2942e1e96335b6e;
   0x2ae507a292323bd5d2e8cb274c64cfe48fc4635810e4c6eb4d6bd1e069cca493;
   0x31a4472aaaaaf10a84bbb7015543f8610599f96384bc107506288c5822ce5a85;
   0x424960287ef28c3dae7e2106b45ddfa44e23aa9f7b424b89f9d773a6dd31a57c;
   0x58bea48e895f4d79a04b607cacfddcb934380fc7606ef68763087e889370beba;
   0x1b2f02c4a03e2fce92ee778b5ca3fb4c1f85943b9f8f65779cf781766c8f4147;
   0x33d6583bb90996d418302d24d1f94820950d0e018ef12219eb96289ab55ac431;
   0x40174f177093e6741b09aae337a88fe4beb09601710d39e51469d7644aa53bd0;
   0x2bb20e3c672a9e17fe930bc21be24ae73d720ee1ef0d377d0671c39b05d1219c;
   0x483b9916c272df3034a6cc45edbf8d1e164b952110f12481f98e3c63fa2ede65;
   0x10f31c2179e9ba67fb96c016aa69f8fe7b8f937d589f241863fb1675b6ea931b;
   0x62fa8b31afb3c2e037a317f15f37df06d82e1085a75f37e69c04e98949156ce6;
   0x20d73e901ee55f3ead151e1a9ffea6d1e056e00d5f1e00882902252fc85dc59c;
   0x531668c30ab81e098624b9ed69a331337366c3f5a0e05b76d6fddacf37a23a65;
   0x17659056fb6c09d687252eb8459705938cbc23b54455eb4351ac2ebbbbf58f0f;
   0x5c8816fc2e317371ac14a94fc40ad271c701804dbba870bbae53d143440a70f2;
   0x5e2af74df5e016d7a53f6b08885f52e78493c6b06754a128dff1056cfd5ec865;
   0x15c2b00533bd66708dfa6cff8142851dcf29dd5298a9bad6200efa9202a1379c;
   0x48ae3d0053a77263e322f86bf6d0dc392441d2f6c7f8a9395717a8e61423c05b;
   0x2b3f6a52d5f60ae45016df9c12d0fbcc2f7bd10c3805b2c5a8e85718ebdc3fa6;
   0x31fc298eec226cfaea1765007c50fae425709eafc06c4ff19ad80a4b7b416ac5;
   0x41f17dc43d7b104d492273078d50dd212e4d05533f920c0d6527f5b384be953c;
   0x37890bdedfe0d19fff137b4c5c01b22f1a69099c2b782691822141c76792a203;
   0x3c649b7449bcaba834265cbbada025d639549a66d486356d7ddebe37986d5dfe;
   0x5a7f6776f189910ff3a606914c38247b2509b329fa1577ff554c99286208dfee;
   0x196e3fdc3813ec383f93d176bd69b38a2eb3f0d905e8e3ffaab366d69df72013;
   0x2e0cb0bff695f8bb1988ea48d61b0adbd724accfa767b8cf3d2cac8d90592e9c;
   0x45e0f6933307848d19b0edbf3386cd297c98f7335896a32fc2d353716fa6d165;
   0x65d9307fb2724e316afbbe1c20bf1996671c7ac41146f49ac18f962c2f958a43;
   0xe1476d3772b2f16c83e19ebe8e2be6eeca1293eeeb767643e7069d2d06a75be;
   0x5a6f1ed60f08ce06aadbb17ef22557b500cd5e72e6bcb06297c78f3489f706ea;
   0x197e887d1a94af41885e2689177c805052f045901941ab9c683870ca7608f917;
   0x37f50cb7e84409d6c970aa662616e8b847e6b7a3bfecde634244d4514c7912ad;
   0x3bf89a9b4159737169c92da1e38aef4d0bd6ec5f40117d9bbdbb2badb386ed54;
   0xf94585dfc3bb27bf4ec94f6914ed44415209b1c1b82cb497c47ca08d92d3855;
   0x64594ef52d61cacc3e4d4311785303c13e9d08e6e47b90b583b835f626d2c7ac;
   0x25f0c7e6d1ada8b1413bf7a2546e4b2a2c0c3761f18348336e42f959081acdf7;
   0x4dfcdf6c57efd496f1fde065b5338cdb27b16ca10e7b13cb91bd06a5f7e5320a;
   0x10e943d46fcb1be37348df13ad0c2a5b55bd040be90c1f098bdfa8f11646bfd6;
   0x6304637eb9d26164bff0f8f45c95ada9fe009ff716f23cf57420570de9b9402b;
   0x4fa4c6a057415d04ff53233bd8fbdd05861d9aa77779df363215065a4e6c2abd;
   0x2448e0b2d25c204333e6b4cc30a5faffcda0095b88847cc8cdeaf9a4b193d544;
   0x1debedbddad8c9ed9ccc28ba8ce12efb129cb31f0b9200b0648ac18a60c7b419;
   0x5601b9954ec4b35a966daf4d7cc0a90a4120f0e3f46c5b4e9b753e749f384be8;
   0x5a3ef5c94a9135d4738d8393fd1f618fcf2e713efdc506192c3fd2500d74ed6a;
   0x19aeb189df0c4773bfac54740c827675848f32c4023955e5d3c02daef28b1297;
   0x15f0a3738160674ee6d82b9f88354b2359019f2521aea11163fdb1347e6d3c9b;
   0x5dfd03dfa83d15f94c61ac68816c8ce1fabc04ddde4fbaed9c024eca8192c366;
   0x4354186ff76aea8fd621c79e7166b7c3ef92fda99d579539f60c1d8e32539eed;
   0x30998ee3323292b85d181069983b2041642aa65962a6c6c509f3e270cdac6114;
   0x690367d8299d6a032639726942cb41b3ab4724fc91e126a038f88846a27a42f1;
   0xaea3f7b000013450d00659ec6d69651a8767f066e1d355ec70777b85d85bd10;
   0x73b27f053989ebbecb783501b9ec0fc92236b2bbef5d95fb7d47e495b596c9e9;
   0x3b284df013918967c1a3064fb5c83c3186f14710a0c60382b81b694a693618;
   0x1ebab0cf321b5b87b7be0e951d31d980fb23ca83d927621d3100b451544eeb2;
   0x7201fc46367bc78fb7bdf71eb7ceba6d440b675ac26be5dd2ceff4b9eabb114f;
   0x503232372fc6312f124acc1f42547e59ea55d00501e227d8804bf625d398d145;
   0x23bb751bf9d74c1920ef0be8c74d59ab6967d3fdfe1c34267fb409d92c672ebc;
   0x597cebd48220fe6df7882f59ab9abc5a7179e352fd65140abe985536de528a4;
   0x6e55d895e17b6d6153c155126ee82c3faca605cdd0280abe54167aab921ad75d;
   0x313f7ef3b4556ef6d679aecad160dc25766468c1fc0bd98bc3f6e8b28be3db63;
   0x42ae285f75480e515cc0293d3840fbdfdd593b4103f282733c09174c741c249e;
   0xc052f1becd5cc2934506a82aac78647b913470f1ab3da1ef5d61e450be78a51;
   0x67e878373cc7b11efee96d855eda51bd9aaa5cf3e54a81e00a29e1b9f41875b0;
   0x131946dd8726ce03b8415b884acecaf444661c5aa57383f79b12c70a99339b94;
   0x60d46075a276af447af87c7fbed30d110f5787a85a8ad80764ed38f466cc646d;
   0xa712668128e4a2bc83ba98b6857538716ce5f9885b2f745bfa666b56d5a311a;
   0x697c80eb170f331c6afe2e7ca14a847e3cef446a7a4b64b94059994992a5cee7;
   0x6b6852d64d9b5c2fa87d62e7251e9f97276aed1a564c146832d3560d5be17df8;
   0x885547cdc0221188abc7520e483386e2c52b6e8a9b24796cd2ca9f1a41e8209;
   0x411b309990b78e6f19be2ed4aae8454f92d812068ac8f3657b45e33be2652de0;
   0x32d276b998e5eed9197ba9335eb992b5c0e591fc7535689984ba1cc31d9ad221;
   0x690319426e03b06186e1de604ed007c9b0bd51462129070533c31b718832f5e8;
   0xaea8e10bb99cce6ac57f9a7bad1d03ba30052bcded554f9cc3ce48d77cd0a19;
   0x547a8db0c855debd836ab3062d9fa9d8d955d8768e908ff925fd2d98cb6dbbee;
   0x1f7319a261479e8aafcf2501dc022e2c7a67cb8c716dcc05da02d26634924413;
   0x70fcc3152df73f24a32669617e74f15ae18e0ba527eca417365149025f015d1e;
   0x2f0e43dfba63e2390136ea68b2ce6aa722f985dd811b7e7c9aeb6fca0fea2e3;
   0x702f7b2aeb5230fa2c195afbea2192bd198275c394add2deae53a0e275fd0cf4;
   0x3be2c283e4b4c4e07207d0c1f8045483a3b2e3f6b50892051ac5f1c8a02f30d].
(** [src/crypto/blobs/omega.go:1285-1412] rows 1280 to 1407 *)
Definition omega_rows_10 : list Z :=
  [0x68f5b03ee8a9e0c240a6ba7523bd51940b3c3d1d51852439775462cfb15928e;
   0x6d5e4c4f3b12df3c0f2f6c60b76602ec1309e0312ae609bb688ab9d204ea6d73;
   0x1e33195598a28d8092bd18a7ee24d21612b5f0db0dd8f62428bf3d065323436;
   0x720a75bdd01354702a0e067d8abf8ae3f29244f54f20cc9cbd740c2e9acdcbcb;
   0x31b354eb6b36c54b9602ae7a61023ae7919df86f28195171f1fe341312f98924;
   0x423a5267be66b7fc9d37298da89f9d1dc21fab93d7e50a8d0e01cbebed0676dd;
   0x109aa4854293013e6b346b4a4b01e810da32e14ea5c65fd882f06ddfe57fb749;
   0x635302cde70a7c09c8056cbdbe9feff4798ac2b45a37fc267d0f921f1a8048b8;
   0x146733b9c1df4ffd1b118bfbe33bd251a0423c71ad2b0dfa572131cee36007fa;
   0x5f86739967be2d4b18284c0c266605b3b37b679152d34e04a8dece301c9ff807;
   0x218ae4da640bbaac82fcb1b1e258caf7f74312ad66d4b7e90d2b6da17aab81c3;
   0x5262c278c591c29bb03d265627490d0d5c7a91559929a415f2d4925d85547e3e;
   0x653abcb86c65c99f9735bdebf5628898ac7b3c07432c4bb846d7751759b82258;
   0xeb2ea9abd37b3a89c041a1c143f4f6ca74267fbbcd21046b9288ae7a647dda9;
   0x2313889f6574f553a2a6da1423fa9a8a789ce7c297ab8d54db615b721e6888d5;
   0x50da1eb3c42887f49092fdf3e5a73d7adb20bc406852ceaa249ea48ce197772c;
   0x54bc0e58e6c6cf02feb911dc3dad3a3bad73546ee70933efffe30ef5a9528edd;
   0x1f3198fa42d6ae453480c62bcbf49dc9a64a4f9418f5280f001cf10956ad7124;
   0x17e47b4eac93969def71980219544f4fd84b743731d6de69caf95626573b849e;
   0x5c092c047d09e6aa43c84005f04d88b57b722fcbce277d953506a9d8a8c47b63;
   0x70d4a9f46ae7f49b8041bad9d23de711f376809182ba32c095d44706ae689c0c;
   0x318fd5ebeb588acb2f81d2e3763f0f3604723717d44293e6a2bb8f8519763f5;
   0x292066fd2e6a621ba27d46e4e6ebaaab284311151b41f2e4a8b188dd1a6a4bf6;
   0x4acd4055fb331b2c90bc912322b62d5a2b7a92ede4bc691a574e7721e595b40b;
   0x4c465c392742ebcb8eda0f11c5920ab7945cb240f458a0411af937dd7884b5bd;
   0x27a74b1a025a917ca45fc8f6440fcd4dbf60f1c20ba5bbbde506c821877b4a44;
   0x6a5b7787223bc8fc5a52f2e3933f823d476b26bf3a5b9cedc4de75f89a010b97;
   0x9922fcc0761b44bd8e6e524766255c80c527d43c5a2bf113b218a0665fef46a;
   0x646efd20ce3f8b5ded02bf205d2103eac1906daf54262b5a6d913c8a21d61a14;
   0xf7eaa325b5df1ea463718e7ac80d41a922d3653abd830a4926ec374de29e5ed;
   0x4bae8a061c5504e40c9c6d744ce76f9570d3fa076900a2701dc2e8ce1a0001e5;
   0x283f1d4d0d487864269d6a93bcba686fe2e9a9fb96fdb98ee23d1730e5fffe1c;
   0x2b1f0b4a3128782aad8b75eeb88658b3d3841ffb42a9153d71f0aca0022c86e0;
   0x48ce9c08f875051d85ae6219511b7f5180398407bd5546c18e0f535efdd37921;
   0x4b21fea00f8d24bf97d28a6cca10529e21328f11d9cdf877394e8363ac674b29;
   0x28cba8b31a1058889b674d9b3f918567328b14f126306387c6b17c9b5398b4d8;
   0x5d2c146fc82c471d6006a526adeef61511535ba390e22a934f2887da7a4613ac;
   0x16c192e36171362ad33332e15bb2e1f0426a485f6f1c316bb0d7782485b9ec55;
   0x2fe548ccf85251fc944d705267aef07995e632049f8464426c8b9b2bf815aad7;
   0x44085e86314b2b4b9eec67b5a1f2e78bbdd771fe6079f7bc937464d307ea552a;
   0x729449b450f7e1001fbfe1fc8d8a0d5fe7e3f58397fa59ca7ee8c97459708936;
   0x1595d9ed8a59c481379f60b7c17caa56bd9ae7f680402348117368aa68f76cb;
   0x2d937ae3db865ba7714dcc8e32350736c29de328231391765bc4f547e17fae04;
   0x465a2c6f4e1721a0c1ec0b79d76cd0ce911fc0dadceaca88a43b0ab71e8051fd;
   0x1b04850021892f6b10f3be96e9d466989299e982481eb187c638ab874c146c0a;
   0x58e9225308144ddd224619711fcd716cc123ba80b7dfaa7739c75477b3eb93f7;
   0x262af1c7a7718e251607c0636d7990d68f22968828352a6e3f4bf52554d38e6f;
   0x4dc2b58b822bef231d3217a49c28472ec49b0d7ad7c93190c0b40ad9ab2c7192;
   0x2d95c9aafb60bcbac15b96d0a2f553f4e419d4b2a482d2fbc23c6ee8ac5a4aaf;
   0x4657dda82e3cc08d71de413766ac84106fa3cf505b7b89033dc3911653a5b552;
   0x3b8c1cea5e2d9df0734149137047b1786e9ac76eb653b8077d5feb370589ddcd;
   0x38618a68cb6fdf57bff88ef4995a268ce522dc9449aaa3f782a014c7fa762234;
   0x6efd532503b950c74c9db999b77bc95b136ea99bee92c793b2126ee2e55d5b7b;
   0x4f0542e25e42c80e69c1e6e52260eaa404efa67116b946b4ded911c1aa2a486;
   0x6e5f5b7f47d7e3dde00b481b539b58b5334abd405dd655c9caba576e317c51c0;
   0x58e4bd3e1c5996a532e8fecb6067f502072e6c2a22806353545a890ce83ae41;
   0xeaf019aedcb1f56b52853da3777fcc872231f19c71e8773da6453c4f956b91c;
   0x653ea5b83bd25df17e11842dd229db3ce19a84e938dfd48b259bac3a06a946e5;
   0x567a3a4b78ab5c819959f3c1dbce24dcb219668a6e56d866fa44b2cf5ea9ce3e;
   0x1d736d07b0f220c699dfe4462dd3b328a1a43d7891a7839805bb4d2fa15631c3;
   0x2c8eda607fd657b1ecc589fe94d902934c8fc3ecb74d2370818a195b4030b82d;
   0x475eccf2a9c7259646744e0974c8d572072de01648b1388e7e75e6a3bfcf47d4;
   0x19fa9d29782d7022884ec5a8cd2669f7cc8586ae1f584b84c709f7cddb49aefe;
   0x59f30a29b1700d25aaeb125f3c7b6e0d87381d54e0a6107a38f6083124b65103;
   0x4b0ec0dfcf0eae86c2b3ee68881b3131e897551d7eb479316903092c74d1b363;
   0x28dee6735a8ecec17085e99f8186a6d36b264ee58149e2cd96fcf6d28b2e4c9e;
   0x500c39d976a5cc746815ff2c5df25e4c4b8f79025062832db2e14ff671c966ca;
   0x23e16d79b2f7b0d3cb23d8dbabaf79b9082e2b00af9bd8d14d1eb0088e369937;
   0x3c749285f4b67ba0714fb14e35f116982e9d16dab72c6ea893501f19a2ae9b40;
   0x377914cd34e701a7c1ea26b9d3b0c16d25208d2848d1ed566cafe0e55d5164c1;
   0x5f25d3d2ca0f2c04501eff841f6ad00440376a86c53fbaa0e7b0f84cf1693a6c;
   0x14c7d3805f8e5143e31ad883ea3708011386397c3abea15e184f07b20e96c595;
   0x235ebefa63943b3c9fb623bd7d8f468827cfc741b88a6d90351e7a72117b4660;
   0x508ee858c609420b9383b44a8c12917d2beddcc14773ee6ecae1858cee84b9a1;
   0x6d9ca89d6917cf356fb52776257e47f6bd73d6ebd3f2d04ebd818c79e9b418c3;
   0x650feb5c085ae12c384b091e423900e9649cd172c0b8bb0427e7385164be73e;
   0x1c8951abf2ff1a7ac214f8af079281e8c2cbed26a10189725865f49cae84c1f0;
   0x576455a7369e62cd7124df59020f561c90f1b6dc5efcd28ca79a0b62517b3e11;
   0x2acbe5bdc2f376ef3fbfaf7cf36c98f23c5c2a2517ea29380d784d83532d58a4;
   0x4921c19566aa0658f37a288b16353f13176179dde81432c6f287b27bacd2a75d;
   0x3334a9395cb8d476fab39024f46a4961d90c396a9fa67ea67e2a604403076877;
   0x40b8fe19cce4a8d1388647e315378ea37ab16a986057dd5881d59fbafcf8978a;
   0x5f0ebf9e4612a7a04b853daeb5686a7f1f659be0bb7e781e96ab11c20e5ad151;
   0x14dee7b4e38ad5a7e7b49a5954396d8634580822447fe3e06954ee3cf1a52eb0;
   0x43527a8bca252472eb674a1a620890d7a534af14b61e0abe74a1f6718c130477;
   0x309b2cc75f7858d547d28deda799472dae88f4ee49e051408b5e098d73ecfb8a;
   0x3b18529d1d76d858cc6ba0596eae27c4e4986d4f948654a8ddccfd2991cb1cc7;
   0x38d554b60c26a4ef66ce37ae9af3b0406f2536b36b780756223302d56e34e33a;
   0x679ada04d5e74819262a96d0a5549b5f19da80dc7ef9f0f200b5775cb7c7f34;
   0x6d73f9b2dc3f08c6a0d72e9aff4c8e4f621ffbf5380ebcefdff4a889348380cd;
   0x532784efe7a91e54c20ba6c40efc806c858076a04042fa6a4ae23d4887732cc7;
   0x20c6226341f45ef3712e3143faa55798ce3d2d62bfbb6194b51dc2b6788cd33a;
   0x4ac446d16b0ded487a772571e97d5605eaad338dc96b53f06d9bd93caef95435;
   0x29296081be8f8fffb8c2b296202481ff691070753693080e926426c25106abcc;
   0x904620c501b6d5b34b1fe426ba069ee6f640ded94a2153f4f3cf1b82d878f30;
   0x6ae94546d9820fecfe87d9c59e016e16e45996156b5c46bfb0c30e46d27870d1;
   0x30a3b5ed3c6c5168d7a5b570137a2c4e8f3fcc8fbece3ff36832c0e6cf2383d0;
   0x4349f165ed312bdf5b942297f627abb6c47dd77341301c0b97cd3f1830dc7c31;
   0x43a13fa6331dc12669b74e8a5f93d55dda950b898168358f10a2ea8dd9532d0b;
   0x304c67acf67fbc21c982897daa0e02a7792898797e96266fef5d157126acd2f6;
   0x934dd9346337dff0ec770162a016a73c087dd867c2846dfcc3b7f324100ce0b;
   0x6ab8c9bfe369ff49247267f1dfa06d919335c67c83d6151f33c480ccbeff31f6;
   0x19ffd9b9e9bc0a45bca442260d0f5cc781ea948838d3a59e714fe5f9a319f08b;
   0x59edcd993fe17302769595e1fc927b3dd1d30f7ac72ab6608eb01a055ce60f76;
   0x14302a883802cf8d5e7aadc120761b215742eaa33c21a6c3f8e855b7ca48e223;
   0x5fbd7ccaf19aadbad4bf2a46e92bbce3fc7ab95fc3dcb53b0717aa4735b71dde;
   0x57e2521b43809c6f413f091a0442fe3b0aea26e3e861e9a6f03205e4801f0670;
   0x1c0b5537e61ce0d8f1faceee055ed9ca48d37d1f179c72580fcdfa1a7fe0f991;
   0x6c24b368c1bd3ec3d9a4667dbe97b7466b888aca5f2cf18937eb9c08a6bad0a5;
   0x7c8f3ea67e03e845995718a4b0a20bee8351938a0d16a75c81463f659452f5c;
   0x53ca37a8bdb046c980f6c206144132a757ca463738abfdcceae6f7f2c97f6ddc;
   0x20236faa6bed367eb2431601f560a55dfbf35dcbc7525e321519080c36809225;
   0x2c56f0818c66f93206930810c8ebd7cf6f33e248bb1c34f3d3daea56ba7f16a9;
   0x4796b6d19d3684162ca6cff740b60035e489c1ba44e2270b2c2515a84580e958;
   0x426e4ed170bf21bac2867ad9bd62474fc4fa342f2e54d35b3efaf03e1f4c23a5;
   0x317f5881b8de5b8d70b35d2e4c3f90b58ec36fd3d1a988a3c1050fc0e0b3dc5c;
   0x44f2cd54ee73a12d5a25364bab696dd707ee7464cc2693acc7f2b0c7f97d0157;
   0x2efad9fe3b29dc1ad914a1bc5e386a2e4bcf2f9e33d7c852380d4f370682feaa;
   0x2a3b2cf9a0599655f39dd358a82382f46609bb3a7eed94b5ee1cb6e72b82c6d1;
   0x49b27a598943e6f23f9c04af617e5510edb3e8c88110c74911e34917d47d3930;
   0x97556ee3af2ac38ca85bda4670d2c2307ded1798f001c83984bae2ba9e576ec;
   0x6a785064eeaad10f68b41a63a294abe24bded28970fe3f7b67b451d3561a8915;
   0x31e63112ac902e13ee36737d3869b662044dc75cbe09f501a0b24ec3dca1f2ce;
   0x420776407d0d4f344503648ad13821a34f6fdca641f466fd5f4db13b235e0d33;
   0x3e29363da95355ccf81be9d7b571ce05b1156add501a1c6937b11e308bf0abc8;
   0x35c47115804a277b3b1dee30543009ffa2a83925afe43f95c84ee1ce740f5439;
   0x25ad647da03f2b3cd52856ab58c24f30f6b50c83fd1f5c0dcd6dcd1e8a6d2938;
   0x4e4042d5895e520b5e11815cb0df88d45d08977f02defff1329232e07592d6c9].
(** [src/crypto/blobs/omega.go:1413-1540] rows 1408 to 1535 *)
Definition omega_rows_11 : list Z :=
  [0x14506dce2e5ec6630aa522414c846da37aa73479f853c1eb8d14b4edec527670;
   0x5f9d3984fb3eb6e52894b5c6bd1d6a61d9166f8907aa9a1372eb4b1113ad8991;
   0x413d95ea54b09d10987f4e2ce1b79388c1d15d8f0976f55e06f8ee5e9777964d;
   0x32b01168d4ece0379aba89db27ea447c91ec4673f68766a0f90711a0688869b4;
   0x5581518219806ce2d8c3dd1ccbc1b529ecb6afda9637ccb788a3d4bd18e66da6;
   0x1e6c55d1101d10655a75faeb3de022db6706f42869c68f47775c2b41e719925b;
   0x71495ee79ca9436b6c1feffb1c216f70a6991b24aa25db0e40861b826cace87f;
   0x2a4486b8cf439dcc719e80ced806894ad2488de55d880f0bf79e47c93531782;
   0x4537730aabeaf2707d3acaf7b7234937bfb90de5161d3aa0e4f9e5a6854836c;
   0x6f9a30227edece212b662b588e2fa371d7c21324ae9c8854f1b061a497ab7c95;
   0xfe680e1938cd09c9a3ae5427d8e18cb54514cd4e04272c008e2fb108e12e22a;
   0x640726719610acab98fef2c58c13bf39ff6c572e1fbbe93ef71d04ee71ed1dd7;
   0x3869449c6a67b9ed93981376c9cd141418ad623bf3402bd57a9634b25637c216;
   0x3b8462b6bf35c35a9fa1c4913fd4c3f13b1041c70cbe30298569cb4ca9c83deb;
   0x1c25bce2aa1625f8acb62f7f17837a2577c2dfa82313ad493a3e1a7aa260077d;
   0x57c7ea707f87574f8683a888f21e5ddfdbfac45adceaaeb5c5c1e5845d9ff884;
   0x6cbef3dd5bee9b24bd298bcb9b46025a181db465016aecf09e6f74084c8e85a6;
   0x72eb375cdaee22376104c3c6e5bd5ab3b9fef9dfe936f0e61908bf6b3717a5b;
   0xeba27101520c4b2e11d3393b8d009aa2c07ba425b194f3be868c32a5b94f4e5;
   0x65338043147cb895521ca47450d1ce5b27b5e9c0a4e50cc317973cd4a46b0b1c;
   0x507c3ea3f96c0440f88cd53e4cee2d698de5eebb2c61bfc76d8878e6c92c1964;
   0x237168af303179073aad02c9bcb3aa9bc5d7b547d39c9c379277871836d3e69d;
   0x4c10b92efbacec2085f75cd0394e7e1493caef2e1b379cbd65f21f6521b5ffe3;
   0x27dcee242df09127ad427b37d05359f0bff2b4d4e4c6bf419a0de099de4a001e;
   0x42ce85e3496a299b1a2b4aad24d743792b5a90d8902f34ee2ffffbac2e990b32;
   0x311f216fe03353ad190e8d5ae4ca948c2863132a6fcf2710d0000452d166f4cf;
   0x72af6e0bba848829e2af1b87209c0c0556b5b47bb725cda97ed4be029bd47ddd;
   0x13e39476f18f51e508abc80e905cbfffd07ef8748d88e55812b41fc642b8224;
   0x158b01cdf2ff819eb174b778fe8e29f4212bafd544a199a3fe213ce3f40c2fa1;
   0x5e62a585369dfba981c5208f0b13ae113291f42dbb5cc25b01dec31b0bf3d060;
   0x4b52310d4f00fee0175ca29996af2afe4ee7f96676286b47c433afe4d106b43d;
   0x289b7645da9c7e681bdd356e72f2ad0704d5aa9c89d5f0b73bcc501a2ef94bc4;
   0x586f72623392274a8b3b1472c4aac7b30cca2c4fd11289ccc9f8090ae9106aaf;
   0x1b7e34f0f60b55fda7fec39544f7105246f377b32eebd2323607f6f416ef9552;
   0x42cba2a0e40b14ad3ac082ec036858c652ddcb3aae11b4f6a83569dad6cd41e9;
   0x312204b24592689af879551c06397f3f00dfd8c851eca70857ca96242932be18;
   0x695383fc39549f77c4b5af9e6def1f5a2ea633eb2bd252b8f338d1145bbf0bd5;
   0xa9a2356f048ddd06e8428699bb2b8ab25177017d42c09460cc72eeaa440f42c;
   0x4f5b754e6966f69b3071acf3d7805a5c41cd97301b698d332256b524d8b89e8b;
   0x24923204c03686ad02c82b1432217da911f00cd2e494cecbdda94ada27476176;
   0x4fd7d7a8d381273c1b290213873ae175d785f998168289ca7f2423392adae5b9;
   0x2415cfaa561c560c1810d5f48266f68f7c37aa6ae97bd23480dbdcc5d5251a48;
   0x37f4e1a1f2cc7087dc66f4b808f364646b461c33c1a0f0b758be078a66b064a1;
   0x3bf8c5b136d10cc056d2e35000ae73a0e87787cf3e5d6b47a741f874994f9b60;
   0x1517149c0f9efc012a497e72294fe0d1b10344b217e61bd034fe540f385a129;
   0x729c360968a38d8820954020e70cd9f838ad6fb7de7ffa41fcb01abe0c7a5ed8;
   0x38b52c08ab0d493cb63fc62f04e5adaf87aa12dad03920b780c10f21710ecb97;
   0x3b387b4a7e90340b7cfa11d904bc2a55cc1391282fc53b477f3ef0dd8ef1346a;
   0x420b62ff5bf8d281fb472b23db94f42d8ec9785e4b1a161953a535350d483019;
   0x31e24453cda4aac637f2ace42e0ce3d7c4f42ba4b4e445e5ac5acac9f2b7cfe8;
   0x109e917dc58e99c00d615843aba8be67e6f91bc8feb9b112808f505c45cb015c;
   0x634f15d5640ee38825d87fc45df9199d6cc4883a0144aaec7f70afa2ba34fea5;
   0x6fb5723faf835210730c75680995aa200fa0b2c8a4a7bc2e69a5eae3e0a37475;
   0x43835137a1a2b37c02d62a0000c2de5441cf13a5b569fd0965a151b1f5c8b8c;
   0x80ec0eebcb1f4772ef461072f445e70e75cf9ee56a0d33e35042724c5b436bb;
   0x6bdee6646ceb88d104457700da5d79946c60aa14a95d88c0cafbd8da3a4bc946;
   0x60b71efd37f7f7e0769798bf3a5553980de4ef4d5372d2492e81ced8221f9f8a;
   0x13368855f1a58567bca23f48cf4c846d45d8b4b5ac8b89b5d17e3126dde06077;
   0x13b1feab6ca661472557041d93d5177942c6252dbf1b326892f4d9b3220826cd;
   0x603ba8a7bcf71c010de2d3ea75ccc08c10f77ed540e329966d0b264bddf7d934;
   0x5366e2b20f3384ec13ab948f2be0c4358d9b851d08727d4269878537a09ab251;
   0x2086c4a11a69f85c1f8e4378ddc113cfc6221ee5f78bdebc96787ac75f654db0;
   0x27cf62790c9ec5709483ded871817d0f5497fa6b553424bce61ba1af6202359a;
   0x4c1e44da1cfeb7d79eb5f92f98205af5ff25a997aaca374219e45e4f9dfdca67;
   0x6ddc17e308d1480c85fddad45ca496fc0cc62920e6caa9f8f2292b77ec6944b7;
   0x6118f7020cc353bad3bfd33acfd410946f77ae21933b2060dd6d4871396bb4a;
   0x48b39478a2d01333d6a928516c6c492af2cc6493ffad656f51eae331d45e4567;
   0x2b3a12da86cd6a145c90afb69d358eda60f13f6f0050f68fae151ccd2ba1ba9a;
   0x6304ef733c2089cf6b37fc2d2bce9a49f6a4b9a7d9b44f7d6609134c8fd05714;
   0x10e8b7dfed7cf378c801dbdaddd33dbb5d18ea5b264a0c8199f6ecb2702fa8ed;
   0x25eaaa852cf69d9898ecff7fc2e04b67ab01287aa8e28eee99c2146c444e519a;
   0x4e02fccdfca6dfaf9a4cd88846c18c9da8bc7b88571bcd10663deb92bbb1ae67;
   0x178371a09ca75e9ecf0144808af6112ecb6c05295b5fb41cb8d6b4ecef99c9e8;
   0x5c6a35b28cf61ea9643893877eabc6d688519ed9a49ea7e247294b1210663619;
   0x3cd12f7c6017a94f9b01da56279eb5d9e50dab4c4a2a63ad2369ef864781d95e;
   0x371c77d6c985d3f89837fdb1e203222b6eaff8b6b5d3f851dc961078b87e26a3;
   0x49559962d49e98f824a86f10b7e39f2849fbbf05605e22049088086fe345cf99;
   0x2a980df054fee4500e9168f751be38dd09c1e4fd9fa039fa6f77f78f1cba3068;
   0x52c773eb7bcba57289a774bf888a996f9c6ea85e98587c4a13068409bc82e244;
   0x21263367add1d7d5a992634881173e95b74efba467a5dfb4ecf97bf5437d1dbd;
   0x157122395c63dc1d8108a1f42d356142915a25c56a25116ef4661cf681ac890;
   0x7296952f93d73f865b294de8c6ce81f12aa801a6a95c0ae810b99e2f97e53771;
   0x5469c9de3a5deb69cc970bd5f2e6c815a4fa85c091fab993f2d6a61c264bba11;
   0x1f83dd74ef3f91de66a2cc3216bb0fefaec31e426e03a26b0d2959e2d9b445f0;
   0x54d9e9425e38ffcc78b5a5b93d41590f4b9cf7f79590474d5947ce0ad319cdc7;
   0x1f13be10cb647d7bba84324ecc607ef60820ac0b6a6e14b1a6b831f42ce6323a;
   0x6beae6dafe0adda151ded54695836adc05059903e0524868e55b60810a7f877b;
   0x802c0782b929fa6e15b02c1741e6d294eb80aff1fac13961aa49f7df5807886;
   0x2e0714ed7cb17771b59db72419438d24fde617879a72d893b66d13df0b850d61;
   0x45e69265acec05d67d9c20e3f05e4ae055d78c7b658b836b4992ec1ff47af2a0;
   0x62b34574e3442ee136aebb2396bd4f09d5e4824fbac5f8e7a21ac44df3477076;
   0x113a61de46594e66fc8b1ce472e488fb7dd921b3453863175de53bb10cb88f8b;
   0x1a1600c45b561179be483f87c82a93f63fb8ecee197d9af0e3712b897f88b4d1;
   0x59d7a68ece476bce74f198804177440f1404b714e680c10e1c8ed47580774b30;
   0x26c62ec1fc6138bd21f6d173aa046fe4ca94ef84e6b7b995a1041f9488f68dae;
   0x4d2778912d3c448b114306945f9d68208928b47e1946a2695efbe06a77097253;
   0x412985187afb65a3c87c53ce3f7a76569b6d56a1d006b6372fac4dd82e55e945;
   0x32c4223aaea217a46abd8439ca2761aeb8504d612ff7a5c7d053b226d1aa16bc;
   0x11b5a5933f9d639627bceabba9c13bcb9a63ef45ad4908e6f172f93272aef9c6;
   0x623801bfea0019b20b7ced4c5fe09c39b959b4bd52b553180e8d06cc8d51063b;
   0x628f4e82e0a4d4c5a66c4465ffe15f6be2435d45df81fc513e24cf88d26d14bd;
   0x115e58d048f8a8828ccd93a209c07899717a46bd207c5fadc1db30762d92eb44;
   0x25ff48feadc8d91349f2892deb1068f4245755762ed0dc2e1fda0410c4e4d674;
   0x4dee5e547bd4a434e9474eda1e916f112f664e8cd12d7fd0e025fbee3b1b298d;
   0x1273e8512409c3857773b21c8454d0d6c7976a04577e50444bc5e118fb425b35;
   0x6179bf020593b9c2bbc625eb854d072e8c2639fea8800bbab43a1ee604bda4cc;
   0x6da68d26543a3a60f8147ec78eec0ecf244fb65d28974f6792018eab205ac3e1;
   0x6471a2cd56342e73b2559407ab5c9362f6deda5d7670c976dfe7153dfa53c20;
   0xebb028e0bf569fd1c2b22c48fbf68ae2d98fe6b6879e3c225a29005376888d7;
   0x6532a4c51da8134b170eb54379e26f572624a5979784783cda5d6ff9c897772a;
   0x20c0c40edecaced7de301cf8986c4315655c491d95facfe2393b548d4204a51f;
   0x532ce3444ad2ae705509bb0f713594efee615ae56a038c1cc6c4ab71bdfb5ae2;
   0x348b0a3d1e68f810578306d723b212c53fad139cafdaa772d6e616c9c1421c9e;
   0x3f629d160b348537dbb6d130e5efc540141090665023b48c2919e9353ebde363;
   0x2e99140bc42b07da6b95d0e40b88b4ff01700a79da2ac3c6085f76ac583f79a0;
   0x455493476572756dc7a40723fe192306524d998925d39838f7a08952a7c08661;
   0x290a0ebca8a36a05a5b6c8dde49bad804f81818041738bf1e847f9433776feb1;
   0x4ae3989680fa13428d830f2a25062a85043c2282be8ad00d17b806bbc8890150;
   0xbd0686764a69972d87fb06401dd4ca805309e790e65064e32306af340c1db2d;
   0x681d3eebc4f6e3d55aba27a407c48b5d4e8d0589f19955b0cdcf950bbf3e24d4;
   0x1395dded4361edc32293b4da09077a31d3de5b52cfa56e5ef9702d02ce6b3081;
   0x6057c965e63b8f8510a6232e009a5dd37fdf48b03058eda0068fd2fc3194cf80;
   0xc0f110afa3cec1ecf530b2c40345efea53a7a3a30e164ebf89184cfc722bd9f;
   0x67de96482f60912963e6ccdbc96d7906ae8329c8cf1cf713076e7b2f38dd4262;
   0x205959b976e328f1826addffd2285db4e582c7aa2f50c6718c98f99408577a27;
   0x53944d99b2ba5456b0cefa0837797a506e3adc58d0ad958d7367066af7a885da;
   0x478301c7ef28e18206ab7288252332b3608fd7eef9244cb298fb4636446409e3;
   0x2c6aa58b3a749bc62c8e657fe47ea551f32dcc1406da0f4c6704b9c8bb9bf61e].
(** [src/crypto/blobs/omega.go:1541-1668] rows 1536 to 1663 *)
Definition omega_rows_12 : list Z :=
  [0x12a7a560942c6498c9107c1635743781d432aeceebd86026c4febf0b91c6806d;
   0x614601f2957118af6a295bf1d42da0837f8af5341425fbd83b0140f36e397f94;
   0x3c30509f02a10d5b316a6fe11176b0f9a81d7f2bc75be4ac1b670bcfcf1f849a;
   0x37bd56b426fc6fed01cf6826f82b270baba024d738a27752e498f42f30e07b67;
   0x2e9907f5cae1a195084571c7ab7696e4c1afa9321aff17c9004c5e11eb9505f9;
   0x45549f5d5ebbdbb32af466405e2b4120920dfad0e4ff4435ffb3a1ed146afa08;
   0x385205c46d5e39f3855c0d1a0fb582e60a292d24283ac6fa129eee3f986b8455;
   0x3b9ba18ebc3f4354adddcaedf9ec551f499476ded7c39504ed6111bf67947bac;
   0x3caac1f34621fa6d9a2287d5f9220e2fb7ff6d043f13d90de781a5b5ae382857;
   0x3742e55fe37b82da99175032107fc9d59bbe36fec0ea82f1187e5a4951c7d7aa;
   0x81fb07666086a21dc850dde1ba420a97836a4cdd6c52bf66dea2db07aecfb2c;
   0x6bcdf6dcc395132656b4ca29edfdb75bdb86ff35293930089215d24e851304d5;
   0x20d095fd98daca15ee47fe04bc7132137ecff89970e84a2fd43576dcf6601f6a;
   0x531d115590c2b33244f1da034d30a5f1d4edab698f1611cf2bca8922099fe097;
   0x25272d1b75a1ffc63094c7611bdd129b824bf510cf7c7c8c9e768704f04e2b80;
   0x4ec67a37b3fb7d8202a510a6edc4c569d171aef23081df72618978fa0fb1d481;
   0x2aef9895da559f7bcc1f97abceafe390c3c766da81eb5f3a10cba8cca132a4af;
   0x48fe0ebd4f47ddcc671a405c3af1f4748ff63d287e12fcc4ef3457325ecd5b52;
   0x721404249a2841514c8df7a0b2153271d077ccfd0e68f45d81c3ad1e35f68aa0;
   0x1d9a32e8f753bf6e6abe067578ca5938345d705f19567a17e3c52e0ca097561;
   0x1cc769b4cb4cf4fafbed3003ef8c3a813ee42b3486654278312cda878efea016;
   0x57263d9e5e50884d374ca8041a159d8414d978ce79991986ced3257771015feb;
   0x1e05a6db496e5b977354760383a269ab6edc08ba88d180d93188d4192bcfb84d;
   0x55e80077e02f21b0bfe5620485ff6e59e4e19b48772cdb25ce772be5d43047b4;
   0x56435272602dee9b726a2311ddae84a49a9617aa98504fbcdf57909bea0a2da4;
   0x1daa54e0c96f8eacc0cfb4f62bf35360b9278c5867ae0c4220a86f6315f5d25d;
   0x39630ca1fa1ca2ce7bd130433636e1f71974a072f75e1eafc6b7ae4cbe9918df;
   0x3a8a9ab12f80da79b768a7c4d36af60e3a49039008a03d4f394851b24166e722;
   0x58608e613f107412f75f355eb5219f4d290e4544b75517c16711866509b0117e;
   0x1b8d18f1ea8d09353bdaa2a9548038b82aaf5ebe48a9443d98ee7999f64fee83;
   0x3918cf9dbeeb7a113d432c185eaed417236b2362c6e3206af330c75237fd3287;
   0x3ad4d7b56ab20336f5f6abefaaf303ee305280a0391b3b940ccf38acc802cd7a;
   0x611b6f79972f279436a9109526def19bcfe6141c56e87705d1a4de431b14902;
   0x6ddbf05b902a8aceefcf46feb733e8eb96bf42c13a8fd48ea2e5b21ace4eb6ff;
   0xbf6a563d5b51c810b94291b65dd88b855771ac41ed853a25780bbfe03ec55d5;
   0x67f701ef53e860c727a5aeeca3c44f4cfe46893ee126085ca87f4400fc13aa2c;
   0x1b2773a1f676d8115d3e5f439eda2e7ab23ef3285a12e45cc86a0ebf672f9539;
   0x58c633b13326a536d5fb78c46ac7a98aa17eb0daa5eb77a23795f13f98d06ac8;
   0x2c638d23be8445a567589623fdf89c7c4c078bb4a345264200b56e295c87eb31;
   0x478a1a2f6b1937a2cbe141e40ba93b8907b6184e5cb935bcff4a91d5a37814d0;
   0x2ec43d89e044cc6c8191cc5fd4eb468731c428f8a2654518b52166440df9b688;
   0x452969c94958b0dbb1a80ba834b6917e21f97b0a5d9916e64ade99baf2064979;
   0x4cde410905166866b24236a3c7e932fe37356a0242c49b8fb3212df6a0e2db64;
   0x270f664a248714e180f7a16441b8a5071c883a00bd39c06f4cded2085f1d249d;
   0x5ee5903bb1db99afcd62607b6d2f5a7aed4a92da52332af0b26f1f6b19b802a2;
   0x1508171777c1e39865d7778c9c727d8a66731128adcb310e4d90e093e647fd5f;
   0x60b419bd16418157f24ce6e76cd2d04b7e34b261df65292e9ebf6443bba0f2ed;
   0x13398d96135bfbf040ecf1209ccf07b9d588f1a1209932d061409bbb445f0d14;
   0x4e3062bf4cb52ef4097fce3915c694a5c53654f0611097c6b6a28c1f1914c201;
   0x25bd4493dce84e5429ba09cef3db435f8e874f129eedc438495d73dfe6eb3e00;
   0x6be1b655d0e63d59e74dac8f8f64831f8ca053141f7d3d7cf9065e7bcadcfc19;
   0x80bf0fd58b73fee4bec2b787a3d54e5c71d50eee0811e8206f9a183352303e8;
   0x699e7bac5f90a18bb38f7e83bd6db078001211542079c63a04b57a388ce6c261;
   0xa4f2ba6ca0cdbbc7faa59844c34278d53ab92aedf8495c4fb4a85c673193da0;
   0x83493e4697b1d9ce0c431b6db18076ff90ee0c64f8b7ac1ff7ba2024a37b7bb;
   0x6bb9136ec0225fab5275a6512e89d0955aaec33cb072e13d00845dfcb5c84846;
   0x51e8879144d0fcd2fcc9670838442647e301fa182468ba7c595e445abe442dca;
   0x22051fc1e4cc8075367070ffd15db1bd70bba9eadb95a182a6a1bba441bbd237;
   0x51011540ac49fb06bbc6c6b9a9fc918afb9afd4618c5e1bc80afccf22a6f8a52;
   0x22ec92127d5382417773114e5fa5467a5822a6bce7387a427f50330cd59075af;
   0x349e30ea2e1c440d8b23d1f54cdf1fae7b1ee525b1ec67d1c5c9581135a7ab68;
   0x3f4f7668fb81393aa8160612bcc2b856d89ebedd4e11f42d3a36a7edca585499;
   0x5ebe29bc131a89602fe31e0bda03eafb9bae2ac8e1522fb525497b14298a9c76;
   0x152f7d971682f3e80356b9fc2f9ded09b80f793a1eac2c49dab684ead675638b;
   0x64a942d5471bc24662632562d7c80a53695b2f702a43d37b7ab8dac27f3e254c;
   0xf44647de281bb01d0d6b2a531d9cdb1ea627492d5ba88838547253c80c1dab5;
   0x3ea3bbcf1c263cfc2d486a35143271ee7d77c91e81814f8b58eef8ea01b32225;
   0x3549eb840d77404c05f16dd2f56f6616d645dae47e7d0c73a7110714fe4cdddc;
   0x28c1c09b9fa4dfb218819428c8056d1d397e33d54601da6d389208e6356979ab;
   0x4b2be6b789f89d961ab843df419c6ae81a3f702db9fc8191c76df718ca968656;
   0x690bd098fc0f8207b6faf0e0d74f7a1025a5905736c46ea4c5475b119e356265;
   0xae1d6ba2d8dfb407c3ee72732525df52e1813abc939ed5a3ab8a4ed61ca9d9c;
   0x45ebef4adbfcd69d77f7f625dacb9ddb3bc3720c7bf19f0c42aa886429513423;
   0x2e01b8084da0a6aabb41e1e22ed63a2a17fa31f6840cbcf2bd55779ad6aecbde;
   0x278fd6554ec4fbad86e639ebf267f538ddd1b9212b65bf214e921640c47a0a45;
   0x4c5dd0fddad8819aac539e1c1739e2cc75ebeae1d4989cddb16de9be3b85f5bc;
   0x2cbc2e4cd97518258238f206e24c0b1c2b0c31c44ac745f527c512ff22e85c3a;
   0x4731790650286522b100e6012755cce928b1723eb5371609d83aecffdd17a3c7;
   0x18562c5a3a4f9c6aeb6b7a036c657da4129989268429206117d51008e47afac8;
   0x5b977af8ef4de0dd47ce5e049d3c5a6141241adc7bd53b9de82aeff61b850539;
   0x21625df95918a808d3a4931256f1413ddf3c1bffa488ae4c91a9d99c561db4f3;
   0x528b4959d084d53f5f9544f5b2b096c7748188035b75adb26e562662a9e24b0e;
   0x4ae0202424aab720e62747593b3d0256ddfb570516b5e5cefc96ef08c768f7bb;
   0x290d872f04f2c6274d1290aece64d5ae75c24cfde9487630036910f638970846;
   0x5eeda9008ab58c52c373a0f84872096ba66d477b956af945571da68e63a7c767;
   0x14fffe529ee7f0f56fc6370fc12fce99ad505c876a9362b9a8e259709c58389a;
   0x668d35a347e2e5a7d5bf621e6cdc1ff837c5dd2ae9e83d223d69281ae1af9955;
   0xd6071afe1ba97a05d7a75e99cc5b80d1bf7c6d816161edcc296d7e41e5066ac;
   0x1dae73380eda1d3ba312905b71fb212d57ba0324468f865128736875d438f2d6;
   0x563f341b1ac3600c902747ac97a6b6d7fc03a0deb96ed5add78c97892bc70d2b;
   0xc40bdab877991b02c465a03f89c87977d5e326a7b6d1553fd517bb125e87aa6;
   0x67ace9a7a223eb9806f37e041105506dd65f7198849146ab02ae844dda17855b;
   0x4f00a961d2308993234e4002f9a199a5c35b47aa7fc702df407a3035875afd49;
   0x24ecfdf1576cf3b50feb980510003e5f90625c588037591fbf85cfc978a502b8;
   0x4111e8ad2baf59d5de4ac442c8ffc9599cfb9dc693cfbdcbd6d7b660f42ebdf7;
   0x32dbbea5fdee237254ef13c540a20eabb6c2063c6c2e9e332928499e0bd1420a;
   0x46bf80c524bd040ea27554f6cda2dd814314d71f3d115d480b10922f5983b2e8;
   0x2d2e268e04e0793990c483113bfefa8410a8cce3c2ecfeb6f4ef6dcfa67c4d19;
   0x57b4281fc9738b6acf6a3c9e3de03c4b9f8a4ccd5a8ffdaea479ce0adf737d2c;
   0x1c397f336029f1dd63cf9b69cbc19bb9b4335735a56e5e505b8631f4208c82d5;
   0x67d194e273230bc82fa52c43468bc2cb46fa9da9aea7b7a807f3949ff7497ac4;
   0xc1c1270b67a71800394abc4c316153a0cc306595156a456f80c6b5f08b6853d;
   0x4583506cf5b4ad5c5dfa071dbcb2f776a7f90efcf7889498c0fa84462b5be3f9;
   0x2e6a56e633e8cfebd53fd0ea4ceee08eabc495060875c7663f057bb8d4a41c08;
   0x678e020cfd306c1de084a51cd4d6f9f64b4bd6bd4ae9ab1cba6dbc0d400aabca;
   0xc5fa5462c6d112a52b532eb34cade0f0871cd45b514b0e2459243f1bff55437;
   0x63a06d07fcafce4a9a767be86caf30f381adc30be0afecd9400809b932c038e7;
   0x104d3a4b2cedaefd98c35c1f9cf2a711d20fe0f71f4e6f25bff7f645cd3fc71a;
   0x39dad6124eee8fcbbcf665d106968cdd39fe8d47e5eb3bac52f1982243ace47a;
   0x3a12d140daaeed7c76437237030b4b2819bf16bb1a132052ad0e67dcbc531b87;
   0x144b7e5763a2583ce605c2850effefc8c88b5ce291f218c9dd74958e6cca1c43;
   0x5fa228fbc5fb250b4d341582faa1e83c8b3247206e0c4335228b6a709335e3be;
   0x30f68fb393a3ab78c209cb769b65fa1ebe2e5e696f842cffe144608f74eaac1b;
   0x42f7179f95f9d1cf71300c916e3bdde6958f4599907a2eff1ebb9f6f8b1553e6;
   0x3e264da2acaeebdd573de9e05c005ca05ca5b8d3dda353e8a443e6dbbea71c3d;
   0x35c759b07cee916adbfbee27ada17b64f717eb2f225b08165bbc19234158e3c4;
   0xc7f40eea7b1a760a3c8fb7b4ca1b1ceb378b65b0a65311a96bd8776dcb3a3de;
   0x676e666481ebd5e78f70dc8cbd002636a044eda7f5992ae469427888234c5c23;
   0x5fdf8687719af42f436be5744d2fd476fdc89a891d9f52411e9aa243ff64fb7;
   0x6defaeeab283ce053f0319b0c4cedabde3e11a5a6e2466daee1655dac009b04a;
   0x16c4dcd7f3e6f15ec6c4f5b601e21ff0d9a76a4d12a65a59e004a8616ad310f0;
   0x5d28ca7b35b68be96c74e25207bfb8147a1639b5ed5801a51ffb579d952cef11;
   0x426940ff209302f1e88adcdbbfcc7732aa0467bb084c964790407b4446e144b0;
   0x31846654090a7a564aaefb2c49d560d2a9b93c47f7b1c5b76fbf84bab91ebb51;
   0xa1cf85ceb431b3e231aa97f1b81adbf247f89984e1f494bd58aa66bb4834fd9;
   0x69d0aef63e5a620a101f2e88ee202a462f3e1a6ab1df12b32a7559934b7cb028;
   0x68bf333f31a2b277845fe7e2ace6ee7a686e71b10378df567095602a91bfeb57;
   0xb2e7413f7facad0aed9f0255cbae98aeb4f3251fc857ca88f6a9fd46e4014aa].
(** [src/crypto/blobs/omega.go:1669-1796] rows 1664 to 1791 *)
Definition omega_rows_13 : list Z :=
  [0x6dd1919c9e42d245edfec475cd95fd90c72e12d4ef7b1bc1d048d5e4c8f92d5;
   0x6d108e395fb95023d459ebc0acc8782c474ac2d5b106aa42e2fb72a0b3706d2c;
   0x25074254d49cb10f9468da4449c73ffa3fa6caeec0019cce89f8a28c04b02908;
   0x4ee664fe5500cc389ed0fdc3bfda980b1416d9143ffcbf3076075d72fb4fd6f9;
   0x42799af535ae0e253b310b396831542a117678b48bb1db8fb4bd8e160157197c;
   0x31740c5df3ef6f22f808cccea17083db42472b4e744c806f4b4271e8fea8e685;
   0x4babd3cb28a3b5a16588627f08e73b1b20c281a93aef62e96137a691be2497f9;
   0x2841d38800f9c7a6cdb1758900ba9cea32fb2259c50ef9159ec8596d41db6808;
   0x1aecd18546fdbca8764eb4562d580122dbf4c10059af274ee2cc0434baf3e2fb;
   0x5900d5cde29fc09fbceb23b1dc49d6e277c8e302a64f34b01d33fbca450c1d06;
   0x1a4b40d594cfa384a9b31eb7a0574d1a1c2d6fb35a5cecb4467864c0e822f4f6;
   0x59a2667d94cdd9c38986b950694a8aeb3790344fa5a16f4ab9879b3e17dd0b0b;
   0x1a9fc9c6a859b493283d27539aa3079e7e0048cde3a189929b8c6581b7a57bb6;
   0x594ddd8c8143c8b50afcb0b46efed066d5bd5b351c5cd26c64739a7d485a844b;
   0x256e29d3d7d78713ff0e7a5f644cc3151a901f632ec9e7867e4f0728f664f220;
   0x4e7f7d7f51c5f634342b5da8a55514f0392d849fd134747881b0f8d6099b0de1;
   0x6528c598ec5b2425c7cd9306078735756a8f4de46dd12913aa9ae8a21f3d3b2a;
   0xec4e1ba3d4259226b6c4502021aa28fe92e561e922d32eb5565175ce0c2c4d7;
   0x207ff3850c2463a95f9cce23d45411857f13ba7565944c5b1543c85450272199;
   0x536db3ce1d79199ed39d09e4354dc67fd4a9e98d9a6a0fa3eabc37aaafd8de68;
   0x333c43f88c427dfaf9484c246f79adca1246eb57ea4ac470f442b205efee0514;
   0x40b1635a9d5aff4d39f18be39a282a3b4176b8ab15b3978e0bbd4df91011faed;
   0x83764dd8e54b387f9512866d3f7d41f14d2b436f50932afdcd4eae782b30688;
   0x6bb642759b48c9c039e8afa135aa03e63eeaefcc0af5294f232b15177d4cf979;
   0x1f199f73e4a877e46ea11c8dfdfe84358b99d9214c68d624dc714980be571087;
   0x54d407df44f50563c498bb7a0ba353cfc823cae1b39585da238eb67e41a8ef7a;
   0x4d0a373c48aa371fc73ef01e4237d0cd62399fcbaaa521a98ea8afae00d170ae;
   0x26e37016e0f346286bfae7e9c76a0737f184043755593a5571575050ff2e8f53;
   0x34ae23d941e9787714e54cb0055d4e79e0500eb02ee2d9b63e9fe4a0fd9609b0;
   0x3f3f8379e7b404d11e548b580444898b736d9552d11b8248c1601b5e0269f651;
   0xcc65126bd58cd82930f5e8f92bf19b8f0352480fa0142bbab3354b95ae621bc;
   0x6727562c6c44afc5a02a797876e2be4c63887f8205fd194354ccab45a519de45;
   0x368a1c067801129b35ed2aecb3a3c45a6762ded52fd700885ee20c0dd1b4a838;
   0x3d638b4cb19c6aacfd4cad1b55fe13aaec5ac52dd0275b76a11df3f12e4b57c9;
   0x6626b1192af8a686ae9351a4b09f45cf5266e7055dd8b9a9362010e8b6f2fca0;
   0xdc6f639fea4d6c184a68663590292360156bcfda225a255c9dfef16490d0361;
   0x42df1d92c648e00ac9797442364e2a520c829fa9756239065149e6b135daad43;
   0x310e89c063549d3d69c063c5d353adb3473b04598a9c22f8aeb6194dca2552be;
   0x5802e9a05d32ae0c342f0b767f189f73b8039c93ab01de8dc45d6a0ee42c235e;
   0x1beabdb2cc6acf3bff0acc918a8938919bba076f54fc7d713ba295f01bd3dca3;
   0x237a3834c2b60b8fa3fe5f9b3c8ae049607690dcfab6e9e6e915abaf97bc2d;
   0x73ca2d1af4dac73ca395d9a86e654d250a5d2d722303a5151916ea53506843d4;
   0x3a9dcd45c3e35c09548b704bd2ae612416f7e8d06558cc09c2361a9ef0904d55;
   0x394fda0d65ba213edeae67bc36f376e13cc5bb329aa58ff53dc9e5600f6fb2ac;
   0x70c955e541519389f820338273189ec513366ec9858bbf6c69998015cfb618f9;
   0x324516de84be9be3b19a48596893940408735397a729c9296667fe93049e708;
   0x2fd74c4e68daaf27eca0d4a90b42cef9db991a8549b179952dfc1c048b1eebba;
   0x44165b04c0c2ce204699035efe5f090b7824897db64ce269d203e3fa74e11447;
   0x6747d5b0ed096e4303bd342e46dae0b30aa6d581ed2c4bd1bfec4e31db595da;
   0x6d7929f81acce66402fe04c5253429fa231336aae12b9741e4013b1be24a6a27;
   0x1a241de08c44b05c5f9615ada1567cea0f81e1b366348d59d5008b415742cf2c;
   0x59c989729d58ccebd3a3c25a684b5b1b443bc24f99c9cea52aff74bda8bd30d5;
   0x2fce603dcb33a8f035c2af174b0de333ace75b2f9b862e777f2812860a5e7bf6;
   0x441f47155e69d457fd7728f0be93f4d1a6d648d364782d8780d7ed78f5a1840b;
   0x3d77152542076b192914da850aa8c1ca1b192102577134b3fe804b693688c917;
   0x3676922de796122f0a24fd82fef9163b38a48300a88d274b017fb495c97736ea;
   0x1266e4da84bd62fbae9aa110d4844095c6f4bccd99cb9046c44608878e56b18d;
   0x6186c278a4e01a4c849f36f7351d976f8cc8e7356632cbb83bb9f77771a94e74;
   0x72d2f7cf11927e6353a2ae829e2dd36e96311fa027a0f568823cb99f2c17bdcd;
   0x11aaf84180afee4df9729856b740496bd8c8462d85d66967dc3465fd3e84234;
   0x5ec01125fb8d170db8f63036640b7cfca45c255fec426d8cdc8023c433014b7a;
   0x152d962d2e10663a7a43a7d1a5965b08af617ea313bbee72237fdc3accfeb487;
   0x1c0afeb419a46ea5fcd501b9c2cf437010234cc83e129d05cac696b0e5c3fcac;
   0x57e2a89f0ff90ea23664d64e46d29495439a573ac1ebbef93539694e1a3c0355;
   0x1323d0588d6029adaf665203abefaf0457e716e0f033f72b72498848fbc00998;
   0x60c9d6fa9c3d539a83d386045db22900fbd68d220fca64d38db677b6043ff669;
   0x10f47473aec107d89fd3fc0a318afa7228a69c5cb7b5339c8b28202568c1191a;
   0x62f932df7adc756f9365dbfdd816dd932b1707a64849286274d7dfd9973ee6e7;
   0x4bab10fc1f1f45c512e78cf448f8beafff181f2d5d9e2a131245b9b503b948f7;
   0x284296570a7e378320524b13c0a9195554a584d5a26031ebedba4649fc46b70a;
   0x47e6c7d005315cea488effc435dd9245f1899c749fdaf665bc1548facb7b03c5;
   0x2c06df83246c205deaaad843d3c445bf6234078e6023659943eab7043484fc3c;
   0x1b6dff4f2394b51c1d27378dd579388bb1980680010107783cd0d52868bd62f1;
   0x587fa8040608c82c1612a07a34289f79a2259d82fefd5486c32f2ad697429d10;
   0xaa325d07b49a277db8a3197f6667f0a7c0fda5051a37d3acd0cf163f403c594;
   0x694a8182ae53dad057afa670133b58fad7adc9b2ae5adec432f30e9b0bfc3a6d;
   0x297692c2bf28e2003a96940c094299dc62c4daee200c52605c067d108a5ba95a;
   0x4a7714906a749b47f8a343fc005f3e28f0f8c914dff2099ea3f982ee75a456a7;
   0x2414d5e4479c8df0ecb3f50fb0f21337d1de75070be93e05f8f3ba3d42f36d2c;
   0x4fd8d16ee200ef574685e2f858afc4cd81df2efbf4151df9070c45c1bd0c92d5;
   0x4e23b15ea032d2eb3432303860656bc2ebf7bca4242070fcbc79729bfc181d87;
   0x25c9f5f4896aaa5cff07a7cfa93c6c4267c5e75edbddeb0243868d6303e7e27a;
   0x56bd91addd75800726e4c08df8991f67a05ef5e86046408143a898fb31c9c4ee;
   0x1d3015a54c27fd410c55177a1108b89db35eae1a9fb81b7dbc576703ce363b13;
   0x38ced8fd7bb9852f096506fcb28d9b7cf66e588415ecaa66b136effd3f67e4f0;
   0x3b1ece55ade3f81929d4d10b57143c885d4f4b7eea11b1984ec91001c0981b11;
   0x67dce75a382cbf2e02f0663c969124c6988f36cb9e84d1b1630642f16c936994;
   0xc10bff8f170be1a304971cb7310b33ebb2e6d3761798a4d9cf9bd0d936c966d;
   0x1403d069b7229003170842e6e017c538eac391a44d095efb7975e7721deb1be9;
   0x5fe9d6e9727aed451c319521298a12cc68fa125eb2f4fd03868a188ce214e418;
   0x1b19b6ddd5775cb0f1982c73f8102e9d6d51d7689baf0f40f6c18c8d1ea26560;
   0x58d3f0755426209741a1ab941191a967e66bcc9a644f4cbe093e7371e15d9aa1;
   0x346ef76f040b0a89bed4581761f087904eb10ea7a313f73e11fa377f6160c3e7;
   0x3f7eafe4259272be74657ff0a7b15075050c955b5cea64c0ee05c87f9e9f3c1a;
   0x4dd4c253a232e71502e1414cf60bcb7626d73d5d3d1ebf4c2b27692f9d97b929;
   0x2618e4ff876a9633305896bb13960c8f2ce666a5c2df9cb2d4d896cf626846d8;
   0x502a4efd72d699b6ad23b531fa5e728f4801ab792405734124e37d7512d665de;
   0x23c35855b6c6e391861622d60f4365760bbbf889dbf8e8bddb1c8289ed299a23;
   0x1b1474e27cad0a2c5df5679e2874a63c5104625fcd552eb47e4f18a74d8f0ffc;
   0x58d93270acf0731bd5447069e12d31c902b941a332a92d4a81b0e757b270f005;
   0x67d2af07783cd487ebc8683b74daafca98128954af94fd14686873f8ebe729d3;
   0xc1af84bb160a8c047716fcc94c7283abbab1aae50695eea97978c061418d62e;
   0x1e87b14019f2da1c4b94376b4bf82d9ec839c3bd751f2997989a8b21cb4b1481;
   0x5565f6130faaa32be7a5a09cbda9aa668b83e0458adf3267676574dd34b4eb80;
   0x41ee7e5dd2080df78bfe971e712d186e0a224e8044fb9b302d358051fe142663;
   0x31ff28f557956f50a73b40e99874bf97499b5582bb02c0ced2ca7fad01ebd99e;
   0x3fb04af099edb3d6b0bba73275b4fd222d266e7302d6261ee8604ef138481f67;
   0x343d5c628fafc971827e30d593ecdae32697358ffd2835e0179fb10dc7b7e09a;
   0x29a6396fe69b76655402529839aa08e182cd04d4f26b49a51297254297f78ee1;
   0x4a476de3430206e2df37856fcff7cf23d0f09f2e0d931259ed68dabc68087120;
   0x6730fdaea9b84859439bb05a2196d21ca99a0420135c1e74d004fced7127bbd0;
   0xcbca9a47fe534eeef9e27ade80b05e8aa239fe2eca23d8a2ffb03118ed84431;
   0x710a240d9f9006949ad4f83cf67b6dbbbc9389ca095aa500706ae67706c752d6;
   0x2e383458a0d76b39864dfcb13266a49972a1a38f6a3b6fe8f951987f938ad2b;
   0x3bc4ccabef53799b1e88e1d0d1f0dc5dc73128560305c8ef5a2396bbf9697fb6;
   0x3828daa73a4a03ad14b0f63737b0fba78c8c7bacfcf8930fa5dc69430696804b;
   0x61eda255a42715a228e1ce9a93987927717bdee41758cacac6c8da15682a43ad;
   0x120004fd857667a60a58096d76095edde241c51ee8a59134393725e997d5bc54;
   0x5f7ac5e63ebd7c87a1375287bdfc69b2e736460c54463cd8f3645a8d9dd0449e;
   0x1472e16ceae000c0920285804ba56e526c875df6abb81f260c9ba571622fbb63;
   0x34e9651a3c71c35b24f44b3cbdee5bb69ee527d3c618bd91111135e45e927581;
   0x3f044238ed2bb9ed0e458ccb4bb37c4eb4d87c2f39e59e6deeeeca1aa16d8a80;
   0x217be269c37d4d8412f381403b89980ee914bad0bf6f6300650f9beee20b5515;
   0x5271c4e966202fc4204656c7ce183ff66aa8e932408ef8fe9af064101df4aaec;
   0x9e97337cf2dbc5743ce881218684db954762a4c86bee8123a5f306e81360e77;
   0x6a04341b5a6fc0f0ef6b4ff5f1398a4bff4779b6793f73ecc5a0cf907ec9f18a;
   0x1f19dc87d269cdd4133553ee41427fca0f9937ed82cb4a9fc76cd46491730168;
   0x54d3cacb5733af7420048419c85f583b44246c157d33115f38932b9a6e8cfe99].
(** [src/crypto/blobs/omega.go:1797-1924] rows 1792 to 1919 *)
Definition omega_rows_14 : list Z :=
  [0x4c453d85d572d287a73bb732faaf08a75a56d7ccb64bbb09a91f10acaa57449b;
   0x27a869cd542aaac08bfe20d50ef2cf5df966cc3649b2a0f556e0ef5255a8bb66;
   0x30591640b859af326965abb4bbaf508f246f93db2578f813a18e4c1292f11cf2;
   0x439491127143ce15c9d42c534df287762f4e1027da8563eb5e71b3ec6d0ee30f;
   0x6c260c87494cf671479a275b158a6c0d0660ca413c1470f069cd62c92c7d3417;
   0x7c79acbe05086d6eb9fb0acf4176bf84d5cd9c1c3e9eb0e96329d35d382cbea;
   0x516928ea95e4e4c038654cd2bddea77d27b124828724cb9e6154c10541689b3b;
   0x22847e6893b89887fad48b354bc330882c0c7f8078d990609eab3ef9be9764c6;
   0x3525f9623fbe85bf577afaa3b0aa4366e4d65e0a886ccc459e92185783bbf588;
   0x3ec7adf0e9def788dbbedd6458f7949e6ee745f877918fb9616de7a77c440a79;
   0x166fd5d37bc89361ba87d73f16df38f51739b33948d004277c7c788388618a21;
   0x5d7dd17fadd4e9e678b200c8f2c29f103c83f0c9b72e57d78383877b779e75e0;
   0x2917191d96a87bdcf9bfabd2f4653021020184807cbb3ccd17563741f5395c61;
   0x4ad68e3592f5016b397a2c35153ca7e451bc1f8283431f31e8a9c8bd0ac6a3a0;
   0x6df1b24c47cd173318b38cd42c7775b82f70b480ff3c8ada180c9ea7df3e2e1c;
   0x5fbf506e1d066151a864b33dd2a624d244cef8200c1d124e7f3615720c1d1e5;
   0x33f7b65b78377562265e0e278de1545148e0618f7723728fadfafe11076f83fb;
   0x3ff5f0f7b16607e60cdbc9e07bc083b40add427388dae96f520501edf8907c06;
   0xff9fd30fb91fe1846ee4785af0c016f5ee5d866c41107068d880fd835f7e59c;
   0x63f3aa222e0b7f2fec4b90825a95d695f4d7cb9c3bed54f87277f026ca081a65;
   0x32a67eb308dc00235023c5a79a89d2bbdfb426361576c9da4906585ea02264ed;
   0x414728a020c17d24e31612606f18054974097dccea879224b6f9a7a05fdd9b14;
   0x100ddc7f753c1d55d80c7e16600602f704a8b71686c297c367949e884db344bf;
   0x63dfcad3b4615ff25b2d59f1a99bd50e4f14ecec793bc43b986b6176b24cbb42;
   0x2b297826ed24369781fc49d19b208571ffc575ec1a329a5541f33ede3b9f9399;
   0x48c42f2c3c7946b0b13d8e366e81529353f82e16e5cbc1a9be0cc120c4606c68;
   0x5dda56553e601b81d52738de72cd45e191d485c1f50cc769de0283afe1cb6584;
   0x161350fdeb3d61c65e129f2996d49223c1e91e410af1949521fd7c4f1e349a7d;
   0x1604ccf3a7b715b6346c4d279d010a3a41fe5a5c8cfa8db155697e920b8c870;
   0x728d5a83ef220beccff313358fd1c761af9dbe5d372eb323eaa96815df473791;
   0x15722cd7cfa083667322f2be809c88ff9b99795435ca67fef6cc5689c1f540e1;
   0x5e7b7a7b59fcf9e1c016e54989054f05b8242aaeca33f4000933a9753e0abf20;
   0x2fb58b74a34e54522dfa0d10e94de8286cba3d2b430423bbd2fee202f8577732;
   0x44381bde864f28f6053fcaf72053efdce70366d7bcfa38432d011dfc07a888cf;
   0x43ec67d41c98b8fa9829526ed6eec7578bdbc3b2b164561896ce8e2e452c03e9;
   0x30013f7f0d04c44d9b10859932b310adc7e1e0504e9a05e6693171d0bad3fc18;
   0x12adb18d510dd282977c9c840d057bc4a83a3bcba4e33b5f6e7f2a73337c97eb;
   0x613ff5c5d88faac59bbd3b83fc9c5c40ab8368375b1b209f9180d58bcc836816;
   0x32b8519305a6a34d00a54824fbd3c944df546f42d2f2136ab70c1a97d4a5a28b;
   0x413555c023f6d9fb32948fe30dce0ec0746934c02d0c489448f3e5672b5a5d76;
   0x2e17dbdc2c56cc7d4b28d83b2561c2568a565938c72e8dc88dd6a6cbf1ff3e4a;
   0x45d5cb76fd46b0cae810ffcce44015aec9674aca38cfce36722959330e00c1b7;
   0x193514671281b8a4b1b3a9be35f3271afe77ba8dbe3dfb062809456c05e23c98;
   0x5ab892ec171bc4a381862e49d3aeb0ea5545e97541c060f8d7f6ba92fa1dc369;
   0x4ed7861a7b23584626170d92377f7b5e791096f45046dd52a99f6a0d133d06aa;
   0x25162138ae7a25020d22ca75d2225ca6daad0d0eafb77eac566095f1ecc2f957;
   0x69f25fa125e49db89d2655af277ba7868ce1ab1e5b93f822d0b94eb237110d9f;
   0x9fb47b203b8df8f96138258e226307ec6dbf8e4a46a63dc2f46b14cc8eef262;
   0x6d5c4de5de9d149d0992379cc3665e3b806db8fecb665fa64c727ae95a4f1504;
   0x691596d4b0068ab29a7a06b463b79c9d34feb043497fc58b38d8515a5b0eafd;
   0x7079789160e7b8c0fe7473fe43df5ffa262eebd2d2d03301254d2facb9c65ec;
   0x6ce60fca138f01bc235290c82563e205b15ab545d2d158ceedab2d0434639a15;
   0x45de496805d716afcfe47a545cdc54986834fabfe22bf195070a40826b0a8a22;
   0x2e0f5deb23c6669863555db3acc5836ceb88a9431dd26a69f8f5bf7c94f575df;
   0x1f5fe13b38a0e39adb1535f05011c0f97d8e36a4f207ed7934afa23e4d664fb9;
   0x548dc617f0fc99ad5824a217b990170bd62f6d5e0df66e85cb505dc0b299b048;
   0x417223e39e3bddb85c5f7c6f1f39bb4a430efba3add1439fcda6025fcec5f85e;
   0x327b836f8b619f8fd6da5b98ea681cbb10aea85f522d185f3259fd9f313a07a3;
   0xfa3aeef6d281f2894bb176dc6c03beb750fd367a04217a99f8b35c4feecc72;
   0x72f36c6432cafb55a9ee26912d35d4469c6ca6cc85fa3a8466074ca2b011338f;
   0x2bd57c84cd1b601bec56a6760508dcf4933abeed94b4f1634be87dab9013c5e6;
   0x48182ace5c821d2c46e331920498fb10c082e5156b496a9bb41782536fec3a1b;
   0x6b7e2e08318aeeacb408378170769053cb8726c067a90bbe12024f89b257ee62;
   0x86f794af8128e9b7f31a086992b47b188367d4298555040edfdb0754da8119f;
   0x2969bc0e64c9d219a8d562efc8186a2d24d18fa289732f688a5ee031a9245ad3;
   0x4a83eb44c4d3ab2e8a64751841896dd82eec1460768b2c9675a11fcd56dba52e;
   0x9bb1b7bf18b694222c41c5896457592c9427c3d5132b42adb5bf0d17886f914;
   0x6a328bd7381214061075bbaf735c62728a7b27c5aecba7d424a40f2d877906ed;
   0x15ff0e4e224ed50ccd12172874ef649f75f4a328d6df60c441d4d6f8a6035ba1;
   0x5dee9905074ea83b6627c0df94b27365ddc900da291efb3abe2b290659fca460;
   0x4c30c05b04c9044fc6c5f0964c53353c4532eadeb2eaebb63bfd3383d2361246;
   0x27bce6f824d478f86c73e771bd4ea2c90e8ab9244d137048c402cc7b2dc9edbb;
   0x484d278c6eed86f45ec8092b13ec8a7ecde64e1a0d2e560d6e1499e715bda543;
   0x2ba07fc6baaff653d471cedcf5b54d8685d755e8f2d005f191eb6617ea425abe;
   0x1a2c7561de37d95e60cd66c57736477daaa2a69107b6a980b482447428fa23ee;
   0x59c131f14b65a3e9d26c7142926b9087a91afd71f847b27e4b7dbb8ad705dc13;
   0x242c78fad28e89573fde62c6b46b658a0f34a8335508915c9da5d0cc12724318;
   0x4fc12e58570ef3f0f35b75415536727b4488fbcfaaf5caa2625a2f32ed8dbce9;
   0x52763a0e0347179ccc16de33046dedfd4fd771dbf6e9599e6ae672da7b46fa2c;
   0x21776d45265665ab6722f9d50533ea0803e632270915026095198d2484b905d5;
   0x6e9851bd4c910d3fe33c91024f7a8e43e350f41a25187433d5401e0e3fd3cfc1;
   0x5555595dd0c70084ffd4705ba2749c1706cafe8dae5e7cb2abfe1f0c02c3040;
   0x4aa274da64baa96fb21ab194d4741dbd693136244c47d39006fed3cdaa0066;
   0x73a304de4f38c29ec387bd5674cd63e7965472ccdbb2142b6ff9012b3255ff9b;
   0x658411dd7971e55a4d99e7da903c25f117960d51bf6ae6f4e4ab5ac48f2bd9a6;
   0xe699575b02b97ede59ff02d7965b2143c2796b14093750a1b54a53a70d4265b;
   0x5d5fe6212869277b67c6ec8885a28cd25a60c1d07e6eeefc87b5eac39c929ac3;
   0x168dc132013455cccb72eb7f83ff4b32f95ce232818f6d02784a153b636d653e;
   0x3a40ac21cd03c9f223c6493f18cca8f69bddf56e2cd4099acf38136ebca02c29;
   0x39acfb315c99b3560f738ec8f0d52f0eb7dfae94d32a526430c7ec90435fd3d8;
   0x6af1912d964c2baf45393450556cb9253002b232af695bcf227fe83d53c1ddee;
   0x8fc162593515198ee00a3b7b4351ee023baf1d05095002fdd8017c1ac3e2213;
   0x1ccbc5389b8a77563adc60186611634372a642214f0552fce5dcbdb1a601c023;
   0x5721e21a8e1305f1f85d77efa39074c1e11761e1b0f909021a23424d59fe3fde;
   0x3adbef816bc349c995e8b12f9a81eaa16a62c16e272104bf004be4bfd097d114;
   0x3911b7d1bdda337e9d5126d86f1fed63e95ae294d8dd573fffb41b3f2f682eed;
   0x5f057bacf43b42c5ad0303a3834b35fc71e4c9e2213e75a9aea4435a94a73592;
   0x14e82ba635623a828636d4648656a208e1d8da20debfe655515bbca46b58ca6f;
   0x5dc7481c5fd3e525670a5d517f05737bdaaea472d254c55dee3ac1bc2e985d0e;
   0x16265f36c9c99822cc2f7ab68a9c6489790eff902da996a111c53e42d167a2f3;
   0x957f72b124899b39b47aca9f79b77ff2295714916b52a44a1d1b433c6d47388;
   0x6a95b0281754e39497f22b5e12066006312832b9e94931ba5e2e4bcb392b8c79;
   0x723da957470b3b35b9ebd8849e767d8f1a3dab9667fd8d6bc0b912fc6ebb6b4d;
   0x1affdfbe2924212794dff836b2b5a76397ff86c9800ce933f46ed02914494b4;
   0x4c9c5fb4f46a87242dcbdd1d919b4e16c61a6dd107013e8f532cb2e6d8d5aba7;
   0x2751479e3532f624056dfaea780689ee8da33631f8fd1d6facd34d18272a545a;
   0x43fb95170c6c7a701e40b397a45127173adefdd5e0a986ed1c437a27915897ce;
   0x2ff2123c1d3102d814f924706550b0ee18dea62d1f54d511e3bc85d76ea76833;
   0x3b35c0f1216b6c3e53e37f41765245dfb3bba69476fa5eda3561bfd6c71847fd;
   0x38b7e66208321109df5658c6934f9225a001fd6e8903fd24ca9e402838e7b804;
   0x28eaa41db4f4117fa6964523fbe0428afd1e4f3c2848bde33792a0704d7f3d5c;
   0x4b03033574a96bc88ca392e40dc1957a569f54c6d7b59e1bc86d5f8eb280c2a5;
   0x26cb06969e493afaf1cae603a9624c7f48499179728f96587b47364abb902a7f;
   0x4d22a0bc8b54424d416ef204603f8b860b7412898d6ec5a684b8c9b4446fd582;
   0x34e7c71899852062fc6ecc48d2fcc387962eab334af1e1da6d7b0ac353e2e894;
   0x3f05e03a90185ce536cb0bbf36a5147dbd8ef8cfb50c7a249284f53bac1d176d;
   0x9bf6941c2658187de20aaf30c6e820a8fbaaa75d37ac780d245d76b67f27d60;
   0x6a2e3e116737fbc055192d14fd3355fac402f98d2c83947e2dba2893980d82a1;
   0x2fc3d03359beb3ea94caca1076aabb329a4d58135e5084d45283c7e8f859236e;
   0x4429d71fcfdec95d9e6f0df792f71cd2b9704befa1add72aad7c381607a6dc93;
   0x21a4f72162824b43a150ed4182d6c5cc7110e5e09d4a435c9c77c878f2bb8464;
   0x5248b031c71b320491e8eac686cb1238e2acbe2262b418a2638837860d447b9d;
   0x714c51b3151c9ef8fa6d009cc1e058c1ff51d82b4bab62433c15d109a2b1351;
   0x6cd8e237f84bb358a39307fe3d83d27933c886804b43a5dacc3ea2ee65d4ecb0;
   0x6d8808d18af837ce39c12f6fd503a491da34ef3e831e2ed58ba307e4e30ab1d4;
   0x6659e819ea54579f978a898349e33737988b4c47ce02d29745cf81a1cf54e2d;
   0x40117d5317cd6abce54817f7fd9bdce46e336da7150fc15dddd56ac9a7dc56c7;
   0x33dc2a0011d0128b4df1c0100c05fb20e58a365beaee9aa1222a95355823a93a].
(** [src/crypto/blobs/omega.go:1925-2052] rows 1920 to 2047 *)
Definition omega_rows_15 : list Z :=
  [0x1ec1c5d21eec1555ed81ca1bbc982e79226ec9d66ed0d05112d7c36272dfa403;
   0x552be1810ab167f245b80dec4d09a98c314eda2c912d8baded283c9c8d205bfe;
   0x52ee1ac2f79b05e28225f2afe1f417c2c5fa8f9106dce56dec7ec96011f79a3c;
   0x20ff8c9032027765b113e55827adc0428dc31471f92176911381369eee0865c5;
   0x357ffa53f3c7787f73c5ee3d79f317d56d088b2b3a9aec775d554ddf3121ab7d;
   0x3e6dacff35d604c8bf73e9ca8faec02fe6b518d7c5636f87a2aab21fcede5484;
   0x11d99450acd956d2d3e5beb3e22dd68c4cab1d2a69326150035433bf5ab27518;
   0x621413027cc426755f54195427740179071286d896cbfaaefcabcc3fa54d8ae9;
   0x318608fa0da5731b7a4f6bf340fd338d21b422d75c3d666f868f9ace7f0c05ad;
   0x42679e591bf80a2cb8ea6c14c8a4a4783209812ba3c0f58f7970653080f3fa54;
   0x61f72ceae6375943e17d761d599629634fa13ca9ab7aec628d9e085dbcf627b3;
   0x11f67a684366240451bc61eab00baea2041c675954836f9c7261f7a14309d84e;
   0x1099107acd46e6ead73902c051a4f47a895a435445e20ad1603533d63a46811e;
   0x635496d85c56965d5c00d547b7fce38aca6360aeba1c512d9fcacc28c5b97ee3;
   0x39ae2868b33df772d83728a650fec1696a0f556c7dd965c9e662abd652bab712;
   0x3a3f7eea765f85d55b02af61b8a3169be9ae4e968224f635199d5428ad4548ef;
   0x7e3ae4dd751366cffd24594deb8870dde095888daa8cfdbbb8cc4d2edbd46d3;
   0x6c09f905524c46db336792732ae950f775b44b7a25558c2344733b2c1242b92e;
   0x414b193723dba47ad8cbb8d047f3a39b0c5aeccb05e4e36060803fc8de4668e8;
   0x32a28e1c05c1d8cd5a6e1f37c1ae346a4762b737fa19789e9f7fc03621b99719;
   0x2d210a90ca49d553e549f2ee40567332ca1853b4ee0a8f23056507ef2eaa6a09;
   0x46cc9cc25f53a7f44defe519c94b64d289a5504e11f3ccdbfa9af80fd15595f8;
   0x382ca98b3d9bb1a86d72e5e027b600ea162624f47a7cc3c3863217230f4471f9;
   0x3bc0fdc7ec01cb9fc5c6f227e1ebd71b3d977f0e8581983b79cde8dbf0bb8e08;
   0x1be421f3bb92f58d494135cedd7cc2a033833c9a0c4b5810f5b4c6b50487ae1f;
   0x5809855f6e0a87bae9f8a2392c251565203a6768f3b303ee0a4b3949fb7851e2;
   0x2803cabaccd26113e0b7a9efc26faa9532f382d2cf899e1c66a46ab4699489c6;
   0x4be9dc985ccb1c3452822e1847322d7020ca21303074bde2995b954a966b763b;
   0x21d088cd7576b823f47dfc583fe631a4396910d639aefe17754b6a53fddc4c94;
   0x521d1e85b426c5243ebbdbafc9bba6611a54932cc64f5de78ab495ab0223b36d;
   0x2f2b09516722769df28de6c16bb4bbee360d613cc36bfa358f848821e4356469;
   0x44c29e01c27b06aa40abf1469ded1c171db042c63c9261c9707b77dd1bca9b98;
   0x596efd9bbe2b455b567ce9424c694ca7ba75d2d8c194a702ae113bb568e33c3c;
   0x1a7ea9b76b7237ecdcbceec5bd388b5d9947d12a3e69b4fc51eec449971cc3c5;
   0xc903669f0b510aff120489b258ca13d29d67644ecb1ec23b5e2c92f7207066f;
   0x675d70e938e86c9842198f6ce41536c829e72dbe134c6fdb4a1d36cf8df8f992;
   0x1f92f5f496036dda75d6467e78880bd899c313287b50ee6ceb107d107792e331;
   0x545ab15e939a0f6dbd6391899119cc2cb9fa90da84ad6d9214ef82ee886d1cd0;
   0x3367c466e9f46b9b99b02b0d0da9e471ba0bd4e6a7e888998588ec8712bbb533;
   0x4085e2ec3fa911ac9989acfafbf7f39399b1cf1c5815d3657a771377ed444ace;
   0x66b4ea964384940530c5e2bc37a1533ac33be97480c55418f45dadfa7ab57531;
   0xd38bcbce618e9430273f54bd20084ca9081ba8e7f3907e60ba25204854a8ad0;
   0x6021fcbdae14d82de463155db41faca3dac2430643e8182d35323eec80747457;
   0x13cbaa957b88a51a4ed6c2aa55822b6178fb60fcbc1643d1cacdc1127f8b8baa;
   0x176936b466b8ceec2076b2987fe06886b8c7a2c8ab4cebe3229d28add06fa1a0;
   0x5c84709ec2e4ae5c12c3256f89c16f7e9af6013a54b1701bdd62d7512f905e61;
   0x679a192fb0cd079daf0f64a02464f057f6d8a879169dd8991a08d5e4e2e01343;
   0xc538e2378d075aa842a7367e53ce7ad5ce4fb89e9608365e5f72a1a1d1fecbe;
   0x19de37523e64d4ddbaddb9f90e7d697ab5485481194aefa65b28ed517d4354;
   0x73d3c91bd75f1873557efa4e10935a9bd9085bae7ee5110f59a4d711ae82bcad;
   0x6b2f76aca5cbffa191b659acf68394e8b7970eedd0930abc1f41e0a2ec24c764;
   0x8be30a683d17da6a1837e5b131e431c9c2695152f6b5142e0be1f5c13db389d;
   0x5fc0bccf1d2163b24879f55520eec3096cea426fe3382da5ccd6232e773a7be0;
   0x142cea840c7c1995eabfe2b2e8b314fbe6d361931cc62e593329dcd088c58421;
   0x44c1d11ff6f7fa6cbcbe9301f686e86bf95ded1899239a88898b0554d218a61c;
   0x2f2bd63332a582db767b4506131aef995a5fb6ea66dac1767674faaa2de759e5;
   0x54e65788394251987c11e63de35442f62662a1c1fa6e32aa1b529e40de1d7c4d;
   0x1f074fcaf05b2bafb727f1ca264d950f2d5b024105902954e4ad61be21e283b4;
   0x572612a22a888026f6f5faa93431d3930023483beb660aa3126c1c8e445a8a5b;
   0x1cc794b0ff14fd213c43dd5ed5700472539a5bc71498515bed93e370bba575a6;
   0x6800e95e089c5912926d173883e9142489d34a8629e2a390579464a37d34c01f;
   0xbecbdf521012435a0ccc0cf85b8c3e0c9ea597cd61bb86ea86b9b5b82cb3fe2;
   0x6c5c8d51514e6d3ba1fb1ad2f91bea10fe12f7a9a2ba4c6f2289841708c47e76;
   0x7911a01d84f100c913ebd351085edf455aaac595d440f8fdd767be7f73b818b;
   0x47d7ed8c43ec33b5e17e82746da5a2b0761084d1e459c2644faaa91388ae574d;
   0x2c15b9c6e5b1499251bb55939bfc3554ddad1f311ba4999ab05556eb7751a8b4;
   0x220bd339e9bdd168c902e32bba607579dcf9870d09b49934594ef32abcf775b9;
   0x51e1d4193fdfabdf6a36f4dc4f41628b76c41cf5f649c2caa6b10cd443088a48;
   0x10c26f47becfa9260ab9a24e417ab6e2aba5587cee31ba92218afc24fb3fb6d;
   0x72e1805eadb082b5d28e3de3258a2c9729034e7b311b4055dde7503cb04c0494;
   0x1f9959b150561c08ee82c31d8e145688a9b1101b4a6a67fce5fb1ba223a764f8;
   0x54544da1d947613f44b714ea7b8d817caa0c93e7b593f4021a04e45cdc589b09;
   0x61366a09c6e30dc4df9d916b36a30c540433e7e7f45b14fb3783b2614bebb0c2;
   0x12b73d4962ba6f83539c469cd2fecbb14f89bc1b0ba34703c87c4d9db4144f3f;
   0x645731fb8102066d8296d9a9c6a10e25123eb77e93fdfad62d5d0f5c33535fd6;
   0xf967557a89b76dab0a2fe5e4300c9e0417eec846c006128d2a2f0a2ccaca02b;
   0x53637d8c49ec4fb7f6900d91db7be189f18fd58359d39d07910b8b9b66684add;
   0x208a29c6dfb12d903ca9ca762e25f67b622dce7fa62abef76ef474639997b524;
   0x425676e29080b50f1cd896a4b3705edc8a5b9ae4008d73829ab0eaa775faa012;
   0x31973070991cc8391661416356317928c962091eff70e87c654f15578a055fef;
   0x5ea32871d8bbf1938804b57eba0c7f48b25415c7e32b57d8f14c6ea5a428c753;
   0x154a7ee150e18bb4ab3522894f9558bca1698e3b1cd304260eb391595bd738ae;
   0x2ec1c15b4cc4b5699059b96ae5d8e22ca0454cc072521a80dee4982fe73f0476;
   0x452be5f7dcd8c7dea2e01e9d23c8f5d8b37857428dac417e211b67cf18c0fb8b;
   0x585fd2c2aeff4f7c1033a694607d9089ee6a4174f9d391c3c1bc0e2e75444e71;
   0x1b8dd4907a9e2dcc23063173a924477b6553628e062aca3b3e43f1d08abbb190;
   0x2f419f9a7567a04fcef4eeac0deb62a9e2077fb2af5f3968498cb1c004d751da;
   0x44ac07b8b435dcf86444e95bfbb6755b71b62450509f2296b6734e3efb28ae27;
   0x4322c509aec45575756fdf33240b9eb8c27f4b22ee86c90c6e3bf01c498740f6;
   0x30cae2497ad927d2bdc9f8d4e596394c913e58e0117792f291c40fe2b678bf0b;
   0x4c1c0cdd9173bbfd3e8c95924f0548cbe562ff60cc15dea0c8e2dd3ed107d499;
   0x27d19a759829c14af4ad4275ba9c8f396e5aa4a233e87d5e371d22c02ef82b68;
   0x18963826c895df7f4b00e4140110a4aed7c9f9aa166bf26bc0797107b1cb3124;
   0x5b576f2c61079dc8e838f3f4089133567bf3aa58e99269933f868ef74e34cedd;
   0x21fae6b5bd56753f2c848ff6620f2d19a06b1f176bbbafe77f0e8114b6a0d047;
   0x51f2c09d6c47080906b54811a792aaebb35284eb9442ac1780f17eea495f2fba;
   0x6ab6d12f488a4f008dde048d37f34632d024dfe0eff265eeb9f443beec8e4a98;
   0x936d623e1132e47a55bd37ad1ae91d28398c422100bf610460bbc401371b569;
   0x9e95678784bdd314b69773fb25cf7808889389d045ecd85912bd03df9174127;
   0x6a0450dab151a016e7d060c85744e084cb346b65fb9f8e796ed42fc106e8beda;
   0x32f610012f49cbdbb0c057cfa5a042c808b2c43c2678b650937dff33b29a7067;
   0x40f79751fa53b16c827980386401953d4b0adfc6d985a5ae6c8200cb4d658f9a;
   0x420f04026adc48a1cb249422c0b1923c8489db099f5aa3d61cf9c8103c36f106;
   0x31dea350bec134a6681543e548f045c8cf33c8f960a3b828e30637eec3c90efb;
   0x6fbcb023314a82dbfe42fdcdc306e96f61131960517113c6aa3f1fa1135a9163;
   0x430f72ff852fa6c34f6da3a469aee95f2aa8aa2ae8d483855c0e05deca56e9e;
   0xfa5d15d1348757839ea78d5ebd557ac68a8dfb2d95d08eebad594175ea0777d;
   0x6447d5f6165507cff94f5f321dcc8058eb14c45026a15310452a6be7a15f8884;
   0x4a578e42eccf77a299af2a89d3d9a9503b49eae14ca61adfb5a74bbf196694f;
   0x6f482e6efad085ce099ee55f6c643d7050090554eb33fa5104a58b430e6996b2;
   0x52ff6a37e78478720ac2b9a3a71bc6dee6c57c7aae3c5d192fc39139d30accaa;
   0x20ee3d1b421904d628771e64628611266cf8278851c1fee5d03c6ec52cf53357;
   0x52dfb4226f2d37b4092596aa02af41df19bfe4d04bc3af5abd41931e6ad8fbc4;
   0x210df330ba7045942a14415e06f2962639fdbf32b43aaca442be6ce09527043d;
   0x1666b67b052567d36d907e855e18e24fe25d4c8253345fc0da9862bcfa4152a5;
   0x5d86f0d824781574c5a95982ab88f5b571605780acc9fc3e25679d4205bead5c;
   0x57e32f1ccbe3e2f477c805e7d68aa600332a6b489ba9d4071dd477a1a8fb9943;
   0x1c0a78365db99a53bb71d22033173205209338ba645487f7e22b885d570466be;
   0x4bf9bc560f4a92e069085360a46e5262e71ab551c326a152b58257bb2e5d71db;
   0x27f3eafd1a52ea67ca3184a7653385a26ca2eeb13cd7baac4a7da843d1a28e26;
   0x1998b301523084ffbb94572c1757cd807058997c0bcf1c7ec8ed5cac7b9d2bac;
   0x5a54f451d76cf84877a580dbf24a0a84e3650a86f42f3f803712a3528462d455;
   0x6452e2d253894999a00ad991d57396878bf85946a2dad3bd8b9c1884f38f043;
   0x6da879260464e8ae99392a6eec4a9e9cdafe1e6e95d0aec327463e76b0c70fbe;
   0x1b3392b5ba1dbfdb4e6157ba4c1415819b79d0abcc6b92776cfd5fd90654dc47;
   0x58ba149d6f7fbd6ce4d8804dbd8dc283b843d3573392c9879302a025f9ab23ba;
   0x1e8c7acb9966a71884d4224a351c246aaa68d3d308f6af752367d21449c614fb;
   0x55612c879036d62fae65b5bdd485b39aa954d02ff707ac89dc982deab639eb06].
(** [src/crypto/blobs/omega.go:2053-2180] rows 2048 to 2175 *)
Definition omega_rows_16 : list Z :=
  [0x564c0a11a0f704f4fc3e8acfe0f8245f0ad1347b378fbf96e206da11a5d36306;
   0x1da19d4188a6785336fb4d3828a9b3a648ec6f87c86e9c681df925ed5a2c9cfb;
   0x2bb68876214b5ea64b7394e9aacb5a271fad4b8238fb15a2cd5f7b9753dbc950;
   0x48371edd08521ea1e7c6431e5ed67dde34105880c703465c32a08467ac2436b1;
   0x1c39abee7c028923cc0affedaf37b5bb4e63fff9337fecd313c7c03ef17a2033;
   0x57b3fb64ad9af424672ed81a5a6a224a0559a409cc7e6f2bec383fc00e85dfce;
   0x605b8f5b87d7a05090eb099e349e17639b91a1faeb4b36d5cc2201b834e74a04;
   0x139217f7a1c5dcf7a24ece69d503c0a1b82c020814b3252933ddfe46cb18b5fd;
   0x6f3cb41966a5661788743c7818f06051da2df4d8921e8aff1867882e0b9cae8;
   0x6cf9dc11933326e6bab294408812d200361ac4b576dc734f0e79877c1f463519;
   0x3a097f1658569f752082ae264b6ae7cc8d5c5d4be5b92c7b5ab670793f534c85;
   0x39e4283cd146ddd312b729e1be36f038c66146b71a452f83a5498f85c0acb37c;
   0x5351f5a12bf093b927ab9acee22625ab946736009fa130119f9a06a539dcc7bd;
   0x209bb1b1fdace98f0b8e3d39277bb259bf566e02605d2bed6065f959c6233844;
   0x2146ac8524669b3262d47d6f3069a6b4a924c2fd6a62162b6b37d19f83bb87e0;
   0x52a6face0536e215d0655a98d9383150aa98e105959c45d394c82e5f7c447821;
   0x57e03ba7dfb14308007b0e472badec8d39a24a9bd470cd67ca0a0220aec02fa4;
   0x1c0d6bab49ec3a4032bec9c0ddf3eb781a1b59672b8d8e9735f5fdde513fd05d;
   0x1bab4708ac66bf63479ddf15c7b33589c3bf80d6881dc2190c850dd65aaaaefa;
   0x5842604a7d36bde4eb9bf8f241eea27b8ffe232c77e099e5f37af228a5555107;
   0x6584cef0ca52f27785009eb7e7ecdaa03d6c764f82602a7228bc1c0e7e3fdf5;
   0x6d955a641cf84e20bae9ce1c8b230a5b4fe6dc9e07d85957dd743e3e181c020c;
   0x688a00c1a3aeef45073c6cb1200432d36774957c1d2728744430911d2ef02d6c;
   0xb63a69185ee8e032bfd6b56e99da531ec490e86e2d7338abbcf6ee1d10fd295;
   0x3d3d9915614f3901e5434787eb246e5ceab39fb2d51ad78d473ea412a309a77c;
   0x36b00e3dc84e44464df690801e7d69a8690a04502ae38471b8c15bec5cf65885;
   0x200d208bd4a64316c3de999d9c5ccf89547203a676aa3fae360419ba7b4a732f;
   0x53e086c754f73a316f5b3e6a6d45087bff4ba05c89541c50c9fbe64484b58cd2;
   0x9c4e933af6252c6dc58e41cd427dbe5fcb18f70b1666477b49fff1eb1daf38;
   0x735158bfeea7581bc57449c63c5f5a46f3f28b0bf4e7f5b784b6000d14e250c9;
   0x67b3ffb392002a5b378787829b9e0abd134567cac5c777f44c56fb3866d3a809;
   0xc39a79f979d52ecfbb250856e03cd4840783c383a36e40ab3a904c6992c57f8;
   0x53d7abc5b7c03be4cc772df2b06be7d8d7dca0ae49bc978f29ebf33886000c8a;
   0x2015fb8d71dd416366c2aa155935f02c7be10354b641c46fd6140cc679fff377;
   0x596a9d4a6f36bb328011781ae2eb8338e5940867fad3080cff61da335d218c69;
   0x1a830a08ba66c215b3285fed26b654cc6e299b9b052b53f2009e25cba2de7398;
   0x4a41adb736656798954b937d9da775086a542b67f83c49199e3ccb8dd576b0f5;
   0x29abf99bf33815af9dee448a6bfa62fce969789b07c212e561c334712a894f0c;
   0x5b21da887f345f79f45562e9505e5e255d76cfa8688aad937936281d725764c6;
   0x18cbcccaaa691dce3ee4751eb94379dff646d45a9773ae6b86c9d7e18da89b3b;
   0x29d8340846157bd5c13b498f50314635caeafd87bcdafda8cb6a70e04f526a21;
   0x4a15734ae388017271fe8e78b97091cf88d2a67b43235e5634958f1eb0ad95e0;
   0x2250bf6ff47ecf4640000ffa7ee6b74af11da259503de1389ec8f2d00aa19cc2;
   0x519ce7e3351eae01f339c80d8abb20ba62a001a9afc07ac661370d2ef55e633f;
   0x592efcab3ad741ebc624a6bf28c35e847203dab19044e968a5e53cecd36dabb8;
   0x1abeaaa7eec63b5c6d153148e0de7980e1b9c9516fb972965a1ac3122c925449;
   0x9c65287a19abf3c4b844ced5de375e7cb9d5d562fb82e29d6e0934f96c7a283;
   0x6a2754cb8802be0be7b58b1aabbe621d882046acd0462dd5291f6caf69385d7e;
   0x10c65ec1c5949c07f55d7b47c3dbbb90a2726517ced91929d4910b491b0f88ae;
   0x632748916408e1403ddc5cc045c61c74b14b3eeb312542d52b6ef4b5e4f07753;
   0x394a2ddbb6673ea3ae29036141e291016e93ecc4fa926abf15507909d573d669;
   0x3aa3797773363ea48510d4a6c7bf4703e529b73e056bf13feaaf86f52a8c2998;
   0x6d5b559da0d834d894ef9b74b96b0020a5db8c0f19e4d5789314520692a107bf;
   0x69251b588c5486f9e4a3c935036d7e4ade217f3e61986866cebadf86d5ef842;
   0x4ed8d0cbecb1569285bfd4bf0aae06bd364ce9d6b7ae56c76a7878b810d6b679;
   0x2514d6873cec26b5ad7a0348fef3d1481d70ba2c4850053795878746ef294988;
   0x52a27e6ad59835800491be3e124c5646a59a7d5bdaf34775fa3f8e60a92902ec;
   0x214b28e8540547c82ea819c9f75581beae2326a7250b148905c0719e56d6fd15;
   0x3f00a88d3bb843f1e59a0efbb9fbdaac29930a3974130cf21f0bf5b12e2ad57b;
   0x34ecfec5ede539564d9fc90c4fa5fd592a2a99c98beb4f0ce0f40a4dd1d52a86;
   0x1327eaab319d871b6f8272abdf5878899b0ca2ec307a54e23de675002a1dc598;
   0x60c5bca7f7fff62cc3b7655c2a495f7bb8b10116cf84071cc2198afed5e23a69;
   0x681ccd295c0ef9e69f7e9ea74befd40aec7b78bbf9fcf6ac1a8ce009481b06f4;
   0xbd0da29cd8e836193bb3960bdb203fa67422b4706016552e5731ff5b7e4f90d;
   0x160fb4baeca30de2fa564db1db4df55ad5684c6a14b706e6a4e458d205940a65;
   0x5dddf2983cfa6f6538e38a562e53e2aa7e555798eb4755185b1ba72cfa6bf59c;
   0x2e7a75ece38b6b216509c259b1a0a550a2357125c09f65d2f6bc04f1ccc8a05b;
   0x4573316646121226ce3015ae580132b4b18832dd3f5ef62c0943fb0d33375fa6;
   0x316253137d74125bb90512b69f97c1abe021340434d0af3d0e2bce377d6c3748;
   0x428b543fac296aec7a34c5516a0a1659739c6ffecb2dacc1f1d431c78293c8b9;
   0x5b88fa066178e33c85eb74ae061ea0c95eb75ebf1fa6a848f2dcd7de352e7812;
   0x1864ad4cc8249a0bad4e635a0383373bf5064543e057b3b60d232820cad187ef;
   0x4736b5dc03165af6d7e53ad367a6de9eee7841ddfd61aa748afd27280b1d26d5;
   0x2cb6f177268722515b549d34a1faf96665456225029cb18a7502d8d6f4e2d92c;
   0x148a970f33b7a49db81d211727eccfa32ca3fca4c95e97ef62e4bc4334d24aa2;
   0x5f631043f5e5d8aa7b1cb6f0e1b508622719a75e369fc40f9d1b43bbcb2db55f;
   0x36e2b346b11ea91175e3dbeb28007ad97d1af71607b2c66dfea4a56081023372;
   0x3d0af40c787ed436bd55fc1ce1a15d2bd6a2acecf84b9591015b5a9e7efdcc8f;
   0x4e8f28e8851cb172fab2b64503252a7defd98e5d422c5d1b27ff824c52dca1d0;
   0x255e7e6aa480cbd5388721c3067cad8763e415a5bdd1fee3d8007db2ad235e31;
   0x5168be856f6bbf1c5d54f3a81142092b0947a42d475447363d44f03d6a565b97;
   0x2284e8cdba31be2bd5e4e45ff85fceda4a75ffd5b8aa14c8c2bb0fc195a9a46a;
   0x1f644c464e1891f0c3c83073895876816731d674997b53dae2b092cec051cab3;
   0x54895b0cdb84eb576f71a79480496183ec8bcd8e668308241d4f6d303fae354e;
   0x3d752c67e97367ce5c3e6671824479d465a86a543b84b81418e39ed00f0fb9e9;
   0x36787aeb402a1579d6fb7196875d5e30ee1539aec479a3eae71c612ef0f04618;
   0x3aa6cdaeaa9b7abf7cc0ce06072e27a5888378bf20f973c70da3b463586d4b7b;
   0x3946d9a47f020288b6790a020273b05fcb3a2b43df04e837f25c4b9ba792b486;
   0x369d2bac15e611d6564ae36561f30c5d45010585e07a712c0b6729335818e69a;
   0x3d507ba713b76b71dceef4a2a7aecba80ebc9e7d1f83ead2f498d6cba7e71967;
   0x27ad09f9fa970046d8d2e1418a37800c8aa526579d681c965a90ff08490bfddc;
   0x4c409d592f067d015a66f6c67f6a57f8c9187dab62963f68a56f00f6b6f40225;
   0x88a39c71e06fdf474e1e622995bbb22e203f88cbdc4471948cb801db257f24;
   0x736503b6b7bd0d68ebebb9a5e00c1c53259d647a3422178d6b7347fd24da80dd;
   0x70cf25d387914b42e95a8ce3dab9495f8d9640467b89b62bb3664bc5da730c0;
   0x6ce0b4f5f124689404a42f39cbf6436f5ae43ffe9845c09c44c99b42a258cf41;
   0x67228ab180b6121766d0fbf770c619f590cb1c4c78afeecd4318a4cc529de646;
   0xccb1ca1a8e76b30cc68dc1098dbbe0fc2f287b6874e6d31bce75b32ad6219bb;
   0x11311b7d643dcbb06052961d233134d2bdf232337ef6eba4549c3333d5cdae87;
   0x62bc8bd5c55fb197d2e741eae670a33295cb71cf8107705aab63cccb2a32517a;
   0x33f1faafbd50344cd931eb4e7d8227c6d9d2a6543bf0a923b8baa3c5f39511a9;
   0x3ffbaca36c4d48fb5a07ecb98c1fb03e79eafdaec40db2db47455c390c6aee58;
   0x56054930044f66d8675907d64a5c2feb971777ae6de43c3bcc3cf45503a26bf9;
   0x1de85e23254e166fcbe0d031bf45a819bca62c54921a1fc333c30ba9fc5d9408;
   0x40bdecc5a66647f9784a0b1a526c1fc017664eaa2d713a5c7b1b0deaf488dc0;
   0x6fe1c886cf3718c89bb53756647b160952473f185d274859384e4f2050b77241;
   0x57d6417472eed79049a3167cfffc90e27fadbc1a2c46fc2c8d7616ca9a1232dd;
   0x1c1765deb6aea5b7e996c18b09a54722d40fe7e8d3b75fd27289e93465edcd24;
   0x1e1a404b2b3e80406629c6836b11a80e95fa62bbbbd6b631a42d6916ba23404c;
   0x55d36707fe5efd07cd1011849e902ff6bdc341474427a5cd5bd296e845dcbfb5;
   0x630eaaa3d798d21e94dadff55c6cbfdb7fd481d0bb6911548cb29e5f68cdc81a;
   0x10defcaf5204ab299e5ef812ad351829d3e9223244954aaa734d619f973237e7;
   0x1fefaf53a7f8913c194caac36ab9b39ee1030f7af2e756bfa10792d623ec078b;
   0x53fdf7ff81a4ec0c19ed2d449ee8246672ba94880d17053f5ef86d28dc13f876;
   0x4b1d7518b9fd3554c0f19a67641063833cca4d3655b7f65a7a73df2ecd0e2030;
   0x28d0323a6fa047f372483da0a591748216f356ccaa4665a4858c20d032f1dfd1;
   0x48b52b4acc7c704c4f38a455be37d321bad3049773ed303c881867a03315f5d3;
   0x2b387c085d210cfbe40133b24b6a04e398ea9f6b8c112bc277e7985eccea0a2e;
   0x3c857b09d8722543e50d1ed404838c3942c2d66725116e6c0e39c5c0deac938d;
   0x37682c49512b58044e2cb934051e4bcc10facd9bdaeced92f1c63a3e21536c74;
   0x43bc6d9caec03381a9ee3c0868e70f5777c4f44254bfe3f098c01ebb90ee775e;
   0x303139b67add49c6894b9bffa0bac8addbf8afc0ab3e780e673fe1436f1188a3;
   0x5cb7a244819154424d60ebf9f5ac99f13ffddd235c7a98ac608be7900aae3100;
   0x1736050ea80c2905e5d8ec0e13f53e1413bfc6dfa383c3529f74186ef551cf01;
   0x5ac99daab2457724a2a6708e58d280c3154a0fd486334f79d808d5c0d3ae1f12;
   0x192409a87758062390936779b0cf57423e73942e79cb0c8527f72a3e2c51e0ef;
   0x12996498d3d08cd0b43f4591e262934f10ea8c83047a0348092bc156145ae3be;
   0x615442ba55ccf0777efa9276273f44b642d3177ffb8458b6f6d43ea8eba51c43].
(** [src/crypto/blobs/omega.go:2181-2308] rows 2176 to 2303 *)
Definition omega_rows_17 : list Z :=
  [0x15eda66cf5599656047e8cec0c7be22c07c9e71e9ad981f3f9bee777f505a670;
   0x5e0000e63443e6f22ebb4b1bfd25f5d94bf3bce46524da0b064118870afa5991;
   0x52c01521f33b59d5e1255a25981421ff14aa95c116471933d23a4a114812d636;
   0x212d92313662237252147de2718db6063f130e41e9b742cb2dc5b5edb7ed29cb;
   0x3042f39fdb8f4cc1ff72289a55de1ef66fd54a83f5ca1be3e25cfe9c39fa442b;
   0x43aab3b34e0e308633c7af6db3c3b90ee3e8597f0a34401b1da30162c605bbd6;
   0x18c6a3f774f19f1ff7a8b04d2828931d486df133f7321a25f20ce8d579e35cee;
   0x5b27035bb4abde283b9127bae17944e80b4fb2cf08cc41d90df31729861ca313;
   0x211de84cc460e97596051ddbd646a327cd0f9d3b81d8d23eded4a5f256a9c7fa;
   0x52cfbf06653c93d29d34ba2c335b34dd86ae06c77e2589c0212b5a0ca9563807;
   0x5d3d440f93c3062bad415ce2d67286aaff6d32c4bc785ddf8f84dcc764345e6f;
   0x16b0634395da771c85f87b25332f515a5450713e4385fe1f707b23379bcba192;
   0x2b01509b496b983f565de17858f422f2df65f7f950b8ea85342030e7ba39b3a6;
   0x48ec56b7e031e508dcdbf68fb0adb5127457ac09af457179cbdfcf1745c64c5b;
   0x4e05475dcfa943c0ac10e91b6361e98f4d0cf136ceac4b7be81282d9762849c5;
   0x25e85ff559f439878728eeeca63fee7606b0b2cc3152108317ed7d2589d7b63c;
   0x4f4892eb3eb00addf10be3c3f4a15ce3d9f5a38f02d0d9e3f6e035ff20282882;
   0x24a51467eaed726a422df44415007b2179c80073fd2d821b091fc9ffdfd7d77f;
   0x69de138145182f544c8a68d80bcba67af215abe4dc2aec8fda060609b2b47d85;
   0xa0f93d1e4854df3e6af6f2ffdd6318a61a7f81e23d36f6f25f9f9f54d4b827c;
   0x10c76f29f2073a63626669c7c06691d1611876aef7cc205e21ae42d827deca30;
   0x63263829379642e4d0d36e40493b4633f2a52d5408323ba0de51bd26d82135d1;
   0x5edb7da509b2c067c30ab0c323dcd93343d8e98cba8c851f53dbcceebb1aec4c;
   0x151229ae1feabce0702f2744e5c4fed20fe4ba764571d6dfac24331044e513b5;
   0x2f9ef7bdf6d2576613871ea55580a605e534466bd37b654e75fbe2738ef6ec21;
   0x444eaf9532cb25e21fb2b962b42131ff6e895d972c82f6b08a041d8b710913e0;
   0x22c0788108ad69a5b53f9e776978ee912de3d5c95963601cef87c9f995096338;
   0x512d2ed220f013a27dfa3990a028e97425d9ce39a69afbe2107836056af69cc9;
   0xa14ffc4e3af3f346bc2d29fe6ef3b600a52764195066cb368bf892d23cfbea;
   0x734c5756db628954ec7daade0b32e44f53187c9ee6adf533c974076c2dc30417;
   0x3e4bf7e46fad681a2e91cb91310e85e484e7644948035d564c122ce446b3b25c;
   0x35a1af6eb9f0152e04a80c76d8935220ced63fb9b7fafea8b3edd31ab94c4da5;
   0x1bdd083148cb1058349ee0fb910de629c0f2d9bfd5140d699cc42e43382e70a4;
   0x58109f21e0d26ceffe9af70c7893f1db92caca432aea4e95633bd1bbc7d18f5d;
   0x66e4bd7da7f332978a73656310ab4c6c08ff8a227dfd1dec38fa67bcd4f84471;
   0xd08e9d581aa4ab0a8c672a4f8f68b994abe19e082013e12c70598422b07bb90;
   0x1a74467880c3870fe5f29a8023d2eb1261dac5574c6b36285f26172cbdae7696;
   0x597960daa8d9f6384d473d87e5ceecf2f1e2deabb39325d6a0d9e8d24251896b;
   0x11e51db7d0376a78528b2ecd3ea8ae6c56092a39c6a48f459c533e348b6eff5f;
   0x6208899b596612cfe0aea93acaf92998fdb479c93959ccb963acc1ca749100a2;
   0x51e8db28617d36ba715ec5ec903e27b135209c683b1f1277f13eb4a91bb6a4f8;
   0x2204cc2ac820468dc1db121b7963b0541e9d079ac4df49870ec14b55e4495b09;
   0x493df5fcf2b2518e4d3d9ef4fd3ca74c1a39d9bec3468ebe119a0380eb0bbdd4;
   0x2aafb15636eb2bb9e5fc39130c6530b93983ca443cb7cd40ee65fc7e14f4422d;
   0x53b9633fec31a36e9a52920637cefbb3a0c036c97cdeccdb1309e8f8e477af4b;
   0x203444133d6bd9d998e74601d1d2dc51b2fd6d39831f8f23ecf617061b8850b6;
   0x17fa4d4c275307f975b7d7ce0cb29b36bcb83acfc8e1fc9f12f727121ee0964a;
   0x5bf35a07024a754ebd820039fcef3cce97056933371c5f5fed08d8ece11f69b7;
   0x72b620f7ffe182d1e66aa095c3e85fc91959be7af6c293cfd283f3b304941cef;
   0x137865b29bbfa764ccf377245b9783c3a63e588093bc82f2d7c0c4bfb6be312;
   0x116f040e1fdfca4b40f89ddd68b08bfde03249c8429f87e6844532496014769;
   0x72d6b712479f80a37f2a4e2a3316cf4575ba7f667bd4638097bbacda69feb898;
   0x690f64c674e3478a1a81fdfbfaf9e238199356da41aa6f8f02e7836bb3ab600d;
   0xade428cb4ba35be18b7da0c0ea7f5cd3a2a4d28be53ec6ffd187c934c549ff4;
   0x5e47fe13068acf76d38555ddf2b6be9f66cf83fe0ae1e6a534ea9661ff26117d;
   0x15a5a9402312add15fb4822a16eb1965ecee2004f51c7559cb15699d00d9ee84;
   0xa076c88e274f02c447c149769ccad950ad1740d605853de7454aa702a3c258;
   0x734d308a9b762e456ef216be93050d2c03108cc229f8d6c118bab557fd5c3da9;
   0x54ddb9661959f10d1a81eafd4497a5304aaec3d9a57ccd3297472f2054fecfd5;
   0x1f0feded10438c3b18b7ed0ac50a32d5090ee0295a818ecc68b8d0deab01302c;
   0x29e07e6d3b984ce333a79fcc2c033c1a9ed7652e15e99c4fa549c326bd5ec839;
   0x4a0d28e5ee053064ff92383bdd9e9beab4e63ed4ea14bfaf5ab63cd842a137c8;
   0x5882fac010dea4409740b7a0a0fd5378194c88ff93efa64a2f0a407c5295fb98;
   0x1b6aac9318bed9079bf9206768a4848d3a711b036c0eb5b4d0f5bf82ad6a0469;
   0x17723119b933616cdbe1801187d7696ce65e84d56af0f9ca4f7f8d52f0dc3992;
   0x5c7b7639706a1bdb575857f681ca6e986d5f1f2d950d6234b08072ac0f23c66f;
   0x7ca36ed69e2548982af2ca67090f30a511f60d0941e92cd6a0c566da29d6b4e;
   0x6c237065bfbb28beb08aab619910e4fb029e43326bdfc93195f3a9915d6294b3;
   0xa23aaa63a9561e15c725eab59b885b4dce983b035dd777461db389f0c72ef67;
   0x69c9fcacef081b66d6c7795cafe9525076d42052ca20e48a9e24c75ff38d109a;
   0x673d52872cea0502fba135f7b61b767f8b1026bb7cc4a92cb1a5916f0c03c77e;
   0xcb054cbfcb378453798a21053866185c8ad7d478339b2d24e5a6e8ff3fc3883;
   0x5c9c43de3052b6648a3783538c1c28ad2fcc96ca4f8ddbb2b42b0658a8edfb6b;
   0x17516374f94ac6e3a90254b47d85af5823f10d38b070804c4bd4f9a657120496;
   0x6b82f7d3c4edc935ffc2941254837a46d2f152a3c0f1c231ff49725a1870375c;
   0x86aaf7f64afb412337743f5b51e5dbe80cc515f3f0c99cd00b68da4e78fc8a5;
   0x706ead1a0314eff2961eaed1c485488a769f913cac2cc77977ee6e82bfd3a1f9;
   0x37efa3926888d559d1b2936451c8f7add1e12c653d194858811917c402c5e08;
   0x472389498b4a364c53f06d7099b29ccb042ae97a5238177d86f50a21463dd536;
   0x2cca1e099e5346fbdf496a976fef3b3a4f92ba88adc64481790af5ddb9c22acb;
   0x21e9a16e424912fc4b00c302811881c325b3b215b2a1cb8a7d5e2afb958221be;
   0x520405e4e7546a4be8391505888956422e09f1ed4d5c907482a1d5036a7dde43;
   0x62fa740ddd00e10d2b0611c4592c4332194e85ecd63f5c377a6298c0d8230e4f;
   0x10f333454c9c9c3b0833c643b07594d33a6f1e1629beffc7859d673e27dcf1b2;
   0x27b8f7a59a09cbe80551530ffb9aa031dde9678b025e60f28b161ada6afe9538;
   0x4c34afad8f93b1602de884f80e0737d375d43c77fd9ffb0c74e9e52495016ac9;
   0x4869fb4c9980bb944a5586179e02d5dc887ff15c409eef5bc3a92ef2ca3fd8cc;
   0x2b83ac06901cc1b3e8e451f06b9f0228cb3db2a6bf5f6ca33c56d10c35c02735;
   0x6104b392702c989dd317c3b03bc4cc00cc85709d15b42a3e0c14b9b4139f47cc;
   0x12e8f3c0b970e4aa60221457cddd0c0487383365ea4a31c0f3eb464aec60b835;
   0x278e9d954e4bc32d2071129882629c2840d0d4498d8b5ced307b71c0af325c62;
   0x4c5f09bddb51ba1b12c8c56f873f3bdd12eccfb97272ff11cf848e3e50cda39f;
   0x6b5e15da7d5d01b023f671701bbd40ca3b525b7e8ba1b24d98d86a7929758ccd;
   0x88f9178ac407b980f436697ede4973b186b4884745ca9b167279585d68a7334;
   0x6bcc7d213aed98fd4b3905264a3e4317e5908e545d34e2793c0867a94b248b6c;
   0x8212a31eeafe44ae800d2e1bf6394ed6e2d15aea2c97985c3f79855b4db7495;
   0x56f9ed38e13513aa7562ef27c3910418f9c94cff0b73a8b9be2ad0a5f63874ba;
   0x1cf3ba1a4868699dbdd6e8e04610d3ec59f45703f48ab34541d52f5909c78b47;
   0x2f18a592c8e79d78eb4ed97a2ea201b71136fe219d2f1ca32551d25163a57d86;
   0x44d501c060b5dfcf47eafe8ddaffd64e4286a5e162cf3f5bdaae2dad9c5a827b;
   0x42db577770c381e5cbe1a229495b4b99c7a4784e5cefc9be2e1b980e4cafe433;
   0x31124fdbb8d9fb62675835dec0468c6b8c192bb4a30e9240d1e467f0b3501bce;
   0x1c622a1ecf656d32a30763627a6886702eb3c2c92942824865084a31ecb924fa;
   0x578b7d345a381015903274a58f3951952509e139d6bbd9b69af7b5cd1346db07;
   0x56bf9cfd3370d6c944417a9fc1f8cfeb53d902f03551049f127d7c393e202c0;
   0x6e81ad8356666fdb9ef5c05e0d824b069e8013d3fca94bb50ed8283b6c1dfd41;
   0x1d2085b55ab26d8ac390432f293555e2ba4ba5d295058ca307a2b4097373ef5a;
   0x56cd219dceeb0fbd6fa994d8e06c82229971fe306af8cf5bf85d4bf58c8c10a7;
   0x19b8937f818d465e2b8a21cbde1084c7d2c2c4351645ca60d00d8e28e597ebb9;
   0x5a3513d3a81036ea07afb63c2b91533d80fadfcde9b8919e2ff271d61a681448;
   0x141fb6bfa3edb16c0360158fd6702a37e9449d265c117b30c24ac967f93d8b01;
   0x5fcdf09385afcbdc2fd9c2783331adcd6a7906dca3ece0ce3db5369706c27500;
   0x77ba01b180d7fc3a4c3b9f74a56ca05433651759b44053677b99f0eca393e84;
   0x6c720738118ffd848e761e10bf4b0e001087528d64ba56c8884660f035c6c17d;
   0x6b2319ddb92d997b13b0e0ff9f159f428e5c324df87197f007401cd383ea6433;
   0x8ca8d75706fe3cd1f88f7086a8c38c2c56171b5078cc40ef8bfe32b7c159bce;
   0x8b26b11dbd832ff1fb4c9583417520f25a3ed8c7d553c366294367b3eef0647;
   0x6b3b3c414dc54a4913850eafd58a85f62e19b67682a91fc89d6bc983c110f9ba;
   0x2365bb20340e48cb13a9b86723f41d63bd9f779c216532e9654dff9acfc27353;
   0x5087ec32f58f347d1f901fa0e5adbaa1961e2c66de9929159ab20064303d8cae;
   0x4e566365555433d7803a1a95d55fc375524badbde5b349d3512f0d5b5d19ba24;
   0x259743edd4494970b2ffbd72344214900171f6451a4b122baed0f2a3a2e645dd;
   0x4b0e6ef4daa39a3398ecd2bc6003abf49e0acf4a881882c49d95b848783baff6;
   0x28df385e4ef9e3149a4d054ba99e2c10b5b2d4b877e5d93a626a47b687c4500b;
   0x655b1798ccc9781075e48186a0f936f2f9ff7db1e208ca5762d37d2f50142c1d;
   0xe928fba5cd40537bd55568168a8a11259be26511df591a79d2c82cfafebd3e4;
   0x11f9b8a802a174ea379ba1457efc2e2881e4385aa59379304eb87f06f3052074;
   0x61f3eeab26fc085dfb9e36c28aa5a9dcd1d96ba85a6ae2ceb14780f80cfadf8d].
(** [src/crypto/blobs/omega.go:2309-2436] rows 2304 to 2431 *)
Definition omega_rows_18 : list Z :=
  [0x3a18ee91d8b9f540e171f160493e14feeec510028ee108633efbda071957818;
   0x704c186a0c11ddf42522b8f2050df6b564d15302d7104b78cc10425e8e6a87e9;
   0xc5e417cb0e82b9ffd191ef6acc3e59f9da7bbb5ec527557ba4fa14e54bbedf6;
   0x678f65d678b551a83620b9115cddf265b615e84d13abe6a745b05eb0ab44120b;
   0x35fc898d8eda40f85e2f7f8a626b1f2011c024153f96227a1683c9b2579ec673;
   0x3df11dc59ac33c4fd50a587da736b8e541fd7fedc0683984e97c364ca861398e;
   0x4a574d58a5b97c0d1ffa0fefe7651f7418e952a25430c3b9c15e92b69fb876f2;
   0x299659fa83e4013b133fc818223cb8913ad45160abcd98453ea16d486047890f;
   0x39b21570af1eaed89534129c442b9b50b0c16e47ee9344e623a5a02af7352846;
   0x3a3b91e27a7ece6f9e05c56bc5763cb4a2fc35bb116b1718dc5a5fd408cad7bb;
   0x3750f4786d303126047688651a184c8190c9ff6bc17ee0c0300dcd481613376a;
   0x3c9cb2dabc6d4c222ec34fa2ef898b83c2f3a4973e7f7b3ecff232b6e9ecc897;
   0xaf48bd6fa1e279cd00145595a25cf22fae47938602798ee2feabcab1eb5c580;
   0x68f91b7c2f7f55ab633892aeaf7c08e258d92aca9fd6c310d0154353e14a3a81;
   0x2335e506ed3420bd548b26494c5a621e7882450dbe073be8162efe65f1c2b990;
   0x50b7c24c3c695c8adeaeb1bebd4775e6db3b5ef541f72016e9d101990e3d4671;
   0x4c878a08974d8c1bf1ec877e19a187e39b1a903d8f52d2a90dff66838d9c7fbd;
   0x27661d4a924ff12c414d5089f0005021b8a313c570ab8955f200997b72638044;
   0x4e25a27be85055e8b203921cd6971c63e496c3746709260726d987fa9e3bbed3;
   0x25c804d7414d275f813645eb330abba16f26e08e98f535f7d926780461c4412e;
   0xd0300154a61744cbb7789c88db15913adbdee817f227e486819b9b9795c3e0f;
   0x66eaa73ddf3c08fb77c24e3f7bf07ef1a5ffb58180dbddb697e6464586a3c1f2;
   0x63ea867bd40a744e3d649126de0af18e8207a6e79adda5afa3109ba77f2518c7;
   0x100320d7559308f9f5d546e12b96e676d1b5fd1b6520b64f5cef645780dae73a;
   0x4514fdd66062acb5a269327c0efa5e5c8c5b78d7ad57b0f38547116436757283;
   0x2ed8a97cc93ad09290d0a58bfaa779a8c7622b2b52a6ab0b7ab8ee9ac98a8d7e;
   0x43c54f501ad75aad02dac68288140c42daa56f61a006515a17be1566d99a7483;
   0x302858030ec6229b305f1185818dcbc2791834a15ff80aa4e841ea9826658b7e;
   0x3951e82a30c630237655b39804b4c4a0e3065584e021791f1391419338a0badc;
   0x3a9bbf28f8d74d24bce4247004ed136470b74e7e1fdce2dfec6ebe6bc75f4525;
   0xc7c9d1eaf1c0b155b90729187a8961bf7f92ae474cef12d5145aca500592c77;
   0x67710a347a817232d7a9657681f941e95bc4791e8b2f6ad1aeba5359ffa6d38a;
   0x627c13ef0677dcd750c7a1520e7670256097eb526090f342f807dc397d6d14ee;
   0x117193642325a070e27236b5fb2b67dff325b8b09f6d68bc07f823c58292eb13;
   0x3922448b1d5cbea6dfc72166834e51227894ea7f998e3036d6bed2498a5d8638;
   0x3acb62c80c40bea15372b6a1865386e2db28b98366702bc829412db575a279c9;
   0x6912358697a1948bdde939ccba7d1a0b56ff614331a1c5ee416c0cec37d6d1e3;
   0xadb71cc91fbe8bc55509e3b4f24bdf9fcbe42bfce5c9610be93f312c8292e1e;
   0x5428e39b16faf7c46cc7ac221e46db195cf453443751352cd5ec27c20801dd0c;
   0x1fc4c3b812a28583c6722be5eb5afcebf6c950bec8ad26d22a13d83cf7fe22f5;
   0x1b03d94bd5ed9311a8d9ff5e4d8aea581755db26760dbddac00db50a8b455478;
   0x58e9ce0753afea368a5fd8a9bc16edad3c67c8dc89f09e243ff24af474baab89;
   0x62887c3942fa7cfd9aed68d099c5eb4e6249b65c7d1fed03f5b384a538296000;
   0x11652b19e6a3004a984c6f376fdbecb6f173eda682de6efb0a4c7b59c7d6a001;
   0x20b2d75572234819e092ac4898119b265f3a5b42deb5e4c1b66d42eea88ef658;
   0x533acffdb77a352e52a72bbf71903cdef48348c02148773d4992bd10577109a9;
   0x62a3ddfe267b290a0c6b6dbfa5a338e8779789fe6f5e6d87ec21011e1910e3f6;
   0x1149c9550322543e26ce6a4863fe9f1cdc261a04909fee7713defee0e6ef1c0b;
   0xaf2e1eeb4fc8bcd8ed5ffac85a790ec7a4759df07c81cf588e130df905786d7;
   0x68fac56474a0f17aa463d85b83fa4718d9764a23f8363f09771ecf1f6fa8792a;
   0x6086ba25714e3e69008fab821a3ee08d645186929cb753ce8a84298fd3ddf34c;
   0x1366ed2db84f3edf32aa2c85ef62f777ef6c1d7063470830757bd66f2c220cb5;
   0x3eee64ab3a29297f3027fbcec0f933fe6be7a0348b8faec254f0afb89d963fea;
   0x34ff42a7ef7453c90311dc3948a8a406e7d603ce746ead3cab0f50466269c017;
   0x49b8d4ceaa3502758601997f45fa4a4b003b845b65ff13ce04b81c740d89cb54;
   0x2a34d2847f687ad2ad383e88c3a78dba53821fa799ff4830fb47e38af27634ad;
   0x4b5f6c686f4d606c07c39a15c300ab83e5e365db905d5bbf2f11ec355270b1d7;
   0x288e3aeaba501cdc2b763df246a12c816dda3e276fa1003fd0ee13c9ad8f4e2a;
   0x6450ba317c9334f608b7a43373d7cd3962e2d540a29e52cd9cab5805fc609431;
   0xf9ced21ad0a48522a8233d495ca0acbf0dacec25d6009316354a7f9039f6bd0;
   0x6eb624db15ec7c17375f6988a630da22452b493a84dfb36896b6a5c9464cd413;
   0x537827813b10130fbda6e7f6370fde30e925ac87b1ea89669495a35b9b32bee;
   0x206486515fbcd4407b19ef363b2e5312579b4d224b0528c83d046a082716bcad;
   0x53892101c9e0a907b81fe8d1ce7384f2fc2256e0b4f93336c2fb95f6d8e94354;
   0x683df7216cd9a914d05c53c86f28bcf1f1eb12eb2761d20c77841793f2e1f3bd;
   0xbafb031bcc3d43362dd843f9a791b1361d29117d89c89f2887be86b0d1e0c44;
   0x3e2d6543cac258cb9e754890fcc13638938beb6ddae7129a65bf313b1012d3c3;
   0x35c0420f5edb247c94c48f770ce0a1ccc031b895251749649a40cec3efed2c3e;
   0x43a3a8a8ede82d0fb1e20890ceda6f1723edd3f0704fcd8f277505ba720effe1;
   0x3049feaa3bb550388157cf773ac768ee2fcfd0128fae8e6fd88afa448df10020;
   0x56cbae4c1953da0602d3749c19fa0c5093d1ce9ac4ad54c9e879678fda473b16;
   0x1d21f9071049a3423066636befa7cbb4bfebd5683b5107351786986f25b8c4eb;
   0xdbafd08c1065f9bee4333f2689c749b27a589adcd54196cf6b1a5c2e3dca6d2;
   0x6632aa4a68971dac44f6a415a105636a2c181a5532aa4292094e5a3c1c23592f;
   0x2c53d0072ac754cfe2a8f07114efb1bbae2f8dfa512822d59b3f666708cf6ab9;
   0x4799d74bfed628785090e796f4b22649a58e1608aed6392964c09997f7309548;
   0x4c37e6e12b03a3ac400f72460d090590dec31a16ae503a1dbb4d3aef9624f018;
   0x27b5c071fe99d99bf32a65c1fc98d27474fa89ec51ae21e144b2c50f69db0fe9;
   0x44450c57398282e4d2ba7b1aeab16b31878cd6fdc62b7832b8bc7c0276b4eb5c;
   0x2fa89afbf01afa63607f5ced1ef06cd3cc30cd0539d2e3cc474383fc894b14a5;
   0x469de64eb0a6f68528607cdf9e439ef7d256f9dc800d97f131c91d435c7c321f;
   0x2d4fc10478f686c30ad95b286b5e390d8166aa267ff0c40dce36e2bba383cde2;
   0xafd7b876a5c766a1e9f60b772f6f9d3e64b10df195a1e62c5f3a1fed8434f96;
   0x68f02bcbbf4106de149a775096aade316d729323e6a43d9c3a0c5e0027bcb06b;
   0x1f8c6ccf34bf27600b6ce3857940d09152fbd130f283c5b69e922efa201850aa;
   0x54613a83f4de55e827ccf4829061077400c1d2d20d7a9648616dd104dfe7af57;
   0x5306059ee3a1b642e96a613abae5c1d9bca6a757eea27f2fa9af23aa807c2be1;
   0x20e7a1b445fbc70549cf76cd4ebc162b9716fcab115bdccf5650dc547f83d420;
   0x4547b2024f06f16a517e48c887951e3cc8ec67bec93ed7b8fcc288eadc69885e;
   0x2ea5f550da968bdde1bb8f3f820cb9c88ad13c4436bf8446033d7714239677a3;
   0x20d45151c6756d96e98d0ff23a9eb5a0ae2257110db62c1989285663ad98ee1f;
   0x5319560163280fb149acc815cf032264a59b4cf1f2482fe576d7a99b526711e2;
   0x6cfe9e2545372c7b28f86f4786ee9532960edb74177d38a4ad4cd59e471baa4d;
   0x6ef092de46650cd0a4168c082b342d2bdaec88ee881235a52b32a60b8e455b4;
   0x439b9584c239f193a789079521925a487d412dab573abf941818f477fd67a800;
   0x305211ce67638bb48bb0d072e80f7dbcd67c7657a8c39c6ae7e70b8702985801;
   0x57ceca0f0381c911ddb1b93891f30630397f2231c95ebaaa709feba3bd78dc6b;
   0x1c1edd44261bb43655881ecf77aed1d51a3e81d1369fa1548f60145b42872396;
   0x2bd5cd1b39a42a351e4dedee0a80e57d26de10ef35c170a32825b20112cdd5e9;
   0x4817da37eff9531314ebea19ff20f2882cdf9313ca3ceb5bd7da4dfded322a18;
   0x2abe3177280da2870d25a01bec21dfa01edd1684a82174337180d4984f1ebc40;
   0x492f75dc018fdac1261437ec1d7ff86534e08d7e57dce7cb8e7f2b66b0e143c1;
   0xa71302ac56ea9dfeb1198dd3db79ebe103d7f2a56a5a89fc8a744a668a546f7;
   0x697c7728642ed36848283f2acbea3947438024d8a958b35f3758bb58975ab90a;
   0x682eb9bad3328e426f695c45a377ddfd7e052f439346a8b05b12288d994b4771;
   0xbbeed98566aef05c3d07bc26629fa07d5b874bf6cb7b34ea4edd77166b4b890;
   0x2257014d6c8e9858d2bbd398ad664ee592ba62b0c4e030ef1f583b87d6ade6f9;
   0x5196a605bd0ee4ef607e046f5c3b891fc10341523b1e2b0fe0a7c47729521908;
   0x3e616faab48860710a81440947ef47c0121e6561a1920b10c72391c8a1cc159;
   0x700790587e54f7412291c3c77522e389529bbdace5e53b4df38dc6e275e33ea8;
   0x520e1560147bf3b782cd30aa038c9c0d6a8aa947145e5a1fec90dd2dde7b5bef;
   0x21df91f315218990b06ca75e06153bf7e932fabbeba001df136f22d12184a412;
   0x6de15c422ae049929893a83fe0e494580429f6779cbe3cee50df9925dcf2a32c;
   0x60c4b10febd33b59aa62fc828bd43ad4f93ad8b63401f10af2066d9230d5cd5;
   0x6d2937a599bc3caad9f3d4cbc2d492945a1c29ca120a5e788da46467972393bf;
   0x6c46fad8fe1409d5946033c46cd4570f9a17a38edf3fd86725b9b9768dc6c42;
   0x15a80d6b5a03665f72c462365d4b3dd6b58bdc93a30df3b872ba7cd748c22385;
   0x5e4599e7cf9a16e8c07575d1ac569a2e9e31c76f5cf068468d458327b73ddc7c;
   0x539f6bbb0c03c90c1fc1bd3e89411619ec594d11234a23b7fd8eaaee8a4332e5;
   0x204e3b981d99b43c13781ac98060c1eb676456f1dcb438470271551075bccd1c;
   0x1fcf1bf270758c7cedda892c24b801fffabe36f366cdac04fe33f22717ae9a38;
   0x541e8b60b927f0cb455f4edbe4e9d60558ff6d0f9930affa01cc0dd7e85165c9;
   0x6d81b86c4fe25686801afb3bb037c2a2a3a2bc16d1f444dd3d8631f87a66bd9b;
   0x66beee6d9bb26c1b31edccc596a1562b01ae7ec2e0a1721c279ce0685994266;
   0x3b8b62c9a6820e51c2d5d0d5ef27c7e4d5429fc4b615dc88fbaeb3bdb102cf18;
   0x38624489831b6ef6706407321a7a10207e7b043e49e87f7604514c414efd30e9;
   0x708f49510f16df834c2564b0fa575d528f771c7881bf39e9792c9e792201cec;
   0x6ce4b2be18ac0f4ffe7781bcf9fc62302ac6323b77e26860686d36176ddfe315].
(** [src/crypto/blobs/omega.go:2437-2564] rows 2432 to 2559 *)
Definition omega_rows_19 : list Z :=
  [0xc66e71dd75bc2ecd64c8f0c367f618e97032279af1aaeba30316f6a5cbe727c;
   0x6786c0355241ba5b5ced48fbd3227676bcba818950e3ad44cfce9094a3418d85;
   0x5c5c4aebd7d15d91b9f6a3756239a7394f95285f31f3aad9c2b862b5a29aa404;
   0x17915c6751cc1fb679433492a76830cc04287ba3ce0ab1253d479d495d655bfd;
   0x1e97168e51f06071676c71539cd85de38c5e256b68b3e8a4cd3a2a932e00323d;
   0x555690c4d7ad1cd6cbcd66b46cc97a21c75f7e97974a735a32c5d56bd1ffcdc4;
   0x6080b672f7fb05252c5e0d6a5b267af07187e437986d307d92538c02aa2f6e16;
   0x136cf0e031a2782306dbca9dae7b5d14e235bfcb67912b816dac73fc55d091eb;
   0x5a31d166744e9433dbc0ece48bd069c4900c2482681b3eecc7d230d176d2502b;
   0x19bbd5ecb54ee9145778eb237dd16e40c3b17f8097e31d12382dcf2d892dafd6;
   0x11292a3b847f9576527c4feb08776b897186b8b99e949a02a08d6542914ee68a;
   0x62c47d17a51de7d1e0bd881d012a6c7be236eb496169c1fc5f729abc6eb11977;
   0x2545596e3a73a678b5b2804924315b52014dcb7d01ac2baaa6a808ecba9ac50b;
   0x4ea84de4ef29d6cf7d8757bee5707cb3526fd885fe5230545957f71245653af6;
   0x50300e33010313dbc8d859f57cc1de01feac76cc4049dd79650254e725ec2473;
   0x23bd9920289a696c6a617e128cdffa0355112d36bfb47e859afdab17da13db8e;
   0x1503f17cbc4b985729a80acaddf2df26ce998959ee6be9e2410139dd5d09fffd;
   0x5ee9b5d66d51e4f10991cd3d2baef8de85241aa91192721cbefec621a2f60004;
   0x2bf7104a66cf8ad94927833498c5a6b85671139ca7d67729c5bde460a2bdde47;
   0x47f69708c2cdf26eea1254d370dc314cfd4c90665827e4d53a421b9e5d4221ba;
   0x36a4a849a2a72f072104cea55f96f8dc558b90011d36f27ab1f8b0fada34ec97;
   0x3d48ff0986f64e4112350962aa0adf28fe321401e2c769844e074f0425cb136a;
   0x7390dc08604089a07e4077bf84d06c3ecfefe96b3eb765c50b865660e5468565;
   0x5ccb4ac95cf3a7b4f9604884d16bc683cdba97c146f639f479a99e1ab97a9c;
   0x442102f3870607e14fa3bbdd211d8337d4defcb7f945a2551e66a066094d7636;
   0x2fcca45fa2977566e3961c2ae88454cd7edea74b06b8b9a9e1995f98f6b289cb;
   0x1c36a7eef5328e8818fe26781cf3ff91375822b64e0b9b26373a682660761944;
   0x57b6ff64346aeec01a3bb18fecadd8741c65814cb1f2c0d8c8c597d89f89e6bd;
   0x5f25a76183551e88d8097dcb514c5654ddfb335a0dcf92b2fc5c7a8d9430e9cb;
   0x14c7fff1a6485ebf5b305a3cb85581b075c270a8f22ec94c03a385716bcf1636;
   0x6c1a2c9f639a3a5ab566a93088cd7eb1c431363172d494c26fb839a9faf8188e;
   0x7d37ab3c60342ed7dd32ed780d459538f8c6dd18d29c73c9047c6550507e773;
   0x48b057b15ac7081ca9b60f8f2c9fb54863aa1c87567b5903e83915b2035faea7;
   0x2b3d4fa1ced6752b8983c878dd0222bcf013877ba98302fb17c6ea4cfca0515a;
   0x211f5601643b2882d8a0074dfb20e2d164afbb716bbc387cca1310530cc044fa;
   0x52ce5151c56254c55a99d0ba0e80f533ef0de8919442238235ecefabf33fbb07;
   0x173a8f02f37c8d2455ee9f580df952703010e1a8f2f64bf41a2ef73c66cbb7c6;
   0x5cb318503620f023dd4b38affba8859523acc25a0d08100ae5d108c29934483b;
   0x143dde0653949e912e81c1c7698c577526a6122f655c997c2d3f94e98ca49bbb;
   0x5fafc94cd608deb704b81640a01580902d1791d39aa1c282d2c06b15735b6446;
   0x2055c3c3bed53d882ad9387c916f12854a1124d405bf7aabdf8d55151ef4f9ec;
   0x5397e38f6ac83fc008609f8b7832c58009ac7f2efa3ee1532072aae9e10b0615;
   0x6efcbfebc2782a92610f3e639653fe3c1c2c74299a10e7c95e09090a764f6390;
   0x4f0e767672552b5d22a99a4734dd9c937912fd965ed7435a1f6f6f489b09c71;
   0x6eef3dfdc5b94c147f938adf9e252d8003886bbc04a47c4088112f52fe2c4432;
   0x4fe695563e43133b3a64d286b7caa8550353846fb59dfbe77eed0ac01d3bbcf;
   0x30124b0ce3eea8ca794fdc040507aba85abd0f5c286ae03a2c5fd0ee29a61068;
   0x43db5c4645aed47db9e9fc04049a2c5cf90094a6d7937bc4d3a02f10d659ef99;
   0x11524bd9de921697a1e738e2f329ab8e0b36b7edd690eb355bbdd1528660c72d;
   0x629b5b794b0b66b091529f2516782c774886ec15296d70c9a4422eac799f38d4;
   0x32ec4f5a2a19f612bc5b54bb9d04899f77d72ad65f46d726783ee4e9030b121d;
   0x410157f8ff83873576de834c6c9d4e65dbe6792ca0b784d887c11b15fcf4ede4;
   0x5508adda3175e8ed6509386b35e64b9e42c38dc29ee64919bd5b0d2da1fdb04f;
   0x1ee4f978f827945ace309f9cd3bb8c6710fa1640611812e542a4f2d15e024fb2;
   0x166681191b6befa46edbc381958375eb7d8e7c5ddb1443d706f0db8c7121f9f3;
   0x5d87263a0e318da3c45e1486741e6219d62f27a524ea1827f90f24728ede060e;
   0x446d7330eb7307e28a976c40c41df52101362129fcf80f3a0c35fe1ecc54fea6;
   0x2f8034223e2a7565a8a26bc74583e2e4528782d903064cc4f3ca01e033ab015b;
   0x45ad5ad7346c2a74d501f59804e685491d896469b6669563c15ccddff613e6c3;
   0x2e404c7bf53152d35e37e27004bb52bc36343f994997c69b3ea3321f09ec193e;
   0x4c3aac36dbd7d8ed6f40d43527acf89d1671eca35d5272bc11b2b030ee121117;
   0x27b2fb1c4dc5a45ac3f903d2e1f4df683d4bb75fa2abe942ee4d4fce11edeeea;
   0x72637dd6b49f8d01590557dbc7ff3a72c502b20f5415c8edfd3888c1a912f735;
   0x18a297c74fdf046da34802c41a29d928ebaf1f3abe8931102c7773d56ed08cc;
   0x4f6e5a42aef9c0269ffb74496a8aa8d45f07af22564f84f8f83aecc92580b8aa;
   0x247f4d107aa3bd21933e63be9f172f30f4b5f4e0a9aed70607c51335da7f4757;
   0x17ca89e17d7aec42fb14952aba78db94629c70269bbd114690350f4e3f8df6a5;
   0x5c231d71ac229105382542dd4f28fc70f12133dc64414ab86fcaf0b0c072095c;
   0x5cc59fb480cf1962424ccc9781abb5d4bd5984f698b67a4f84e0147535fc4cc7;
   0x1728079ea8ce63e5f0ed0b7087f6223096641f0c6747e1af7b1feb89ca03b33a;
   0xbe1a29cc0a9b176bab082cf14139ca439cc3eb7bca53cba14e4436934073cf8;
   0x680c04b668f3cbd178895538f58e3b6119f1654b43591f44eb1bbc95cbf8c309;
   0x1c742f0427377bf2559ffc5a62719e22db577ec3fec64b94ffa0768034358069;
   0x5779784f02660155dd99dbada73039e27866253f0138106a005f897ecbca7f98;
   0x20608cfc63f4ce5809a7f4331ef665f6ff336422fb2484bea951fae8db934564;
   0x538d1a56c5a8aef02991e3d4eaab720e548a3fe004d9d74056ae0516246cba9d;
   0x1e1e5f739bcb6b817b150a3d799a20a5492fee58775d07250cdf6a3a35ecf57f;
   0x55cf47df8dd211c6b824cdca9007b7600a8db5aa88a154d9f32095c4ca130a82;
   0x43aa8c66cae96230cc8ca46d95273f8560acd165ded9ee4bee85bd9f44eadafc;
   0x30431aec5eb41b1766ad339a747a987ff310d29d21246db3117a425fbb152505;
   0xc3e4dfbddaa0f7018a5f6c9d6ee753c3aa62701b792b4b927428087510b4690;
   0x67af59574bf36dd81a93e13e32b362c919177d01486ba745d8bd7f77aef4b971;
   0x27db19512cc16fca078fe779deb9655e562bb8a6efad1e27f723ac02bc953aad;
   0x4c128e01fcdc0d7e2ba9f08e2ae872a6fd91eb5c10513dd708dc53fc436ac554;
   0x2a5f37ba404a0d987ba20ac46f869f0e034b2cfa769fd7090da3400381fcc74e;
   0x498e6f98e9536fafb797cd439a1b38f750727708895e84f5f25cbffb7e0338b3;
   0x641b676f45ec4c4be580c83d05f64c78194c63965a705ecf9e985c7e18ed3d94;
   0xfd23fe3e3b130fc4db90fcb03ab8b8d3a71406ca58dfd2f6167a380e712c26d;
   0x4d3db243df1e9853a678f914d4d20ec0cd40a5a6bee95b75b0a24612e823d13d;
   0x26aff50f4a7ee4f48cc0def334cfc944867cfe5c411500894f5db9ec17dc2ec4;
   0x4e7380a113e0de0bb589129ecd866e89ae486ab9c1d181d325a4c24c7ca7cc7;
   0x6f066f49185f6f6777e146de1cc9711cb8d91d5763e143e1cda5b3da3835833a;
   0x14da90308f169ce69e837a858ba1f4dbecdad8d7196fb3f65c1941863d1168cd;
   0x5f1317229a86e06194b65d827dffe32966e2cb2be68ea808a3e6be78c2ee9734;
   0x5b1b61262f282dcae92f7171df3b47edda74bd923dc36a592cc0d7becb4f8876;
   0x18d2462cfa754f7d4a0a66962a6690177948e670c23af1a5d33f284034b0778b;
   0x41013bf5a632c343afe3c67ccb9bc555d56d7db0e788ca47358d0356fe5c9dd1;
   0x32ec6b5d836aba048356118b3e0612af7e502652187591b7ca72fca801a36230;
   0x303b204b4d180e5fafaf710124fe64cc2f8478c058ba081aa9a5318b553b5055;
   0x43b28707dc856ee8838a6706e4a3733924392b42a74453e4565ace73aac4afac;
   0x1bb7ae5fdb8f2f3d6ddcbaedc9453e96d0dedeaa3d44c908d6481057712b62db;
   0x5835f8f34e0e4e0ac55d1d1a405c996e82dec558c2b992f629b7efa78ed49d26;
   0x6aeb6c09a50cc22023fa498ade54827584c6be59ee6c4978fab7b69fb529b7e3;
   0x9023b498490bb280f3f8e7d2b4d558fcef6e5a9119212860548495f4ad6481e;
   0x469817ee086c6e073fd463744dfe796c4c8f864a71161064a192553890378d77;
   0x2d558f6521310f40f3657493bba35e99072e1db88ee84b9a5e6daac66fc8728a;
   0xb2cd1f0e3ff52986368034091730c6b9d9a9969bef61c7030607eed4e106241;
   0x68c0d562459e2aafcfd1d4c7782ecb99b6230a9941083f8ecf9f8111b1ef9dc0;
   0x27f04f0408c123beba4f8ff3b7a8c1be7507e6d99ae9fb5cf3f5b54b4aec959;
   0x716ea262e9116b0c4794df08ce274be96c6d2595664fbc4930c0a4aa4b5136a8;
   0x2c3df33c820d1972523c36cb307c474c66d9ded9e5b846364876072015b5eb65;
   0x47afb416a79063d5e0fda13cd92590b8ece3c5291a4615c8b789f8deea4a149c;
   0x4171ad8e0aff72fddd5f394035f10efc55eb1be306684058ab89474dafefa2eb;
   0x327bf9c51e9e0a4a55da9ec7d3b0c908fdd2881ff9961ba65476b8b150105d16;
   0x2115c571ec70792379996efebe4f0acfa9254f5541ef7930a331a41b73f7abaa;
   0x52d7e1e13d2d0424b9a069094b52cd35aa9854adbe0ee2ce5cce5be38c085457;
   0x61733aa2adfa3d536b7641585985e553cb41f6fa66c6185499dc9307637db4e;
   0x6dd673a8febdd972fc8273f2840979b0170984935991fa79b66236ce89c824b3;
   0x597cfeed9f0db0a00b8ee40fc17a7860b4f9ceeec6dcc80182ea775599840a35;
   0x1a70a8658a8fcca827aaf3f848275fa49ec3d514392193fd7d1588a9667bf5cc;
   0x40a98700c692c174b22a86412d8ed07cee7c3afc63865e0d5abea05493f97fa6;
   0x33442052630abbd3810f51c6dc130788654169069c77fdf1a5415faa6c06805b;
   0x40d7d69266a9fcde925a42a6d3f34fed4c6fce9cfc06ce536b61e1f83655b4f5;
   0x3315d0c0c2f38069a0df956135ae8818074dd56603f78dab949e1e06c9aa4b0c;
   0x7f69ad5a4f61993a52471a84bb496a6c36da96883a873462ccc2c2cf47c63df;
   0x6bf70c7d84a763b48e15665fbded415e904ffa9a7c55e8b8d333d3d20b839c22;
   0x21b17ca455960f91959b712aca7c881bfecdadabd0b38af56c035d9eab203dbe;
   0x523c2aaed4076db69d9e66dd3f254fe954eff6572f4ad10993fca26054dfc243].
(** [src/crypto/blobs/omega.go:2565-2692] rows 2560 to 2687 *)
Definition omega_rows_20 : list Z :=
  [0x318644261676fcc9f3bc3df6273fd94bd1e00594924fb402d6cd14fd27e25700;
   0x4267632d1326807e3f7d9a11e261feb981dd9e6e6daea7fc2932eb01d81da901;
   0x68aac6b854445b5ea6798aa04ee79bdb410ee7d30e12b23d1ab447818017f222;
   0xb42e09ad55921e98cc04d67baba3c2a12aebc2ff1eba9c1e54bb87d7fe80ddf;
   0x306c1526811d79ccb36c6e20369d140fc1fea3e5c0c9365a897755321979df0f;
   0x4381922ca880037b7fcd69e7d304c3f591bf001d3f3525a47688aacce68620f2;
   0x6a7a3d4724f28a112be91e58eee71d4355749a7cd475fcba89e3a03ed602252d;
   0x9736a0c04aaf3370750b9af1ababac1fe4909862b885f44761c5fc029fddad4;
   0x72a96aa34cdcd1600752f686c03aab19790f1173523113cd28d02344081ebd9c;
   0x1443cafdcc0abe82be6e18149672cebdaae928fadcd4831d72fdcbaf7e14265;
   0x1f2d7b346cc7e5c436afd1adf36438b89119809deb59fb23d7cd720d549ab2eb;
   0x54c02c1ebcd59783fc8a065a163d9f4cc2a4236514a460db28328df1ab654d16;
   0x12642e03ec6552ab659ae7550d5fbfbdcb61c74f88aecaa3f8518c32a0f5203d;
   0x6189794f3d382a9ccd9ef0b2fc421847885bdcb3774f915b07ae73cc5f0adfc4;
   0x6cedd14a7eea8bf2615934146cd481131e0f7509eb12bf7a12d6b6c03800e954;
   0x6ffd608aab2f155d1e0a3f39ccd56f235ae2ef914eb9c84ed29493ec7ff16ad;
   0x50b39695b0958edb6e036992fd59a0415972f0c64c836900ff94c5632452fe;
   0x739cf3bc93ece7b957cbd49e76a47e651264311239b1d895ff006b399cdbad03;
   0x56d7ba9bb0ed7d9163545d0bf99fcaa39582918a1275e4859be951ce740d7fdb;
   0x1d15ecb778afffb6cfe57afc10020d61be3b1278ed8877796416ae308bf28026;
   0x292f7a5cdde8aca2e66faae39b39c088f71601a76229c1adfbecb0a04cff1fd5;
   0x4abe2cf64bb4d0a54cca2d246e68177c5ca7a25b9dd49a5104134f5eb300e02c;
   0x4bf24bfe667932157f92916e86d96b6930b612d30c081aabf34e05525f877021;
   0x27fb5b54c3244b32b3a7469982c86c9c2307912ff3f641530cb1faaca0788fe0;
   0x6e88e427c36951f6d473cff7407c6dcfb4d5ea380ce32e6b2dd42bd931d880fa;
   0x564c32b66342b515ec60810c9256a359ee7b9caf31b2d93d22bd425ce277f07;
   0x2cda58bad03c9dbd58155a83a8ea6c33900f84475022fe939470465bee013097;
   0x47134e985960df8adb247d8460b76bd1c3ae1fbbafdb5d6b6b8fb9a311fecf6a;
   0x5202d5284c1600d347aae07d7872a6391aa16ef813f31e5f83b68b581d21fd33;
   0x21ead22add877c74eb8ef78a912f31cc391c350aec0b3d9f7c4974a6e2de02ce;
   0x425b274c05b653d0979001b1a9c1802b6748051e0746d4d27634d53c101b484f;
   0x3192800723e729779ba9d6565fe057d9ec759ee4f8b7872c89cb2ac2efe4b7b2;
   0x6f0145cdf7a9ba4cf1bf9c0b78cfea72b98503100bf4f456b35f7bf5575c7b23;
   0x4ec618531f3c2fb417a3bfc90d1ed929a38a0f2f40967a84ca08409a8a384de;
   0x50620381d5637adbe052493f508ebbd64ef49d1fef18fe446a96b2f8aba94ca5;
   0x238ba3d1543a026c52e78ec8b9131c2f04c906e310e55dba95694d065456b35c;
   0x284b48d147f9e07b866b74814bbc6fc20ee70398715625d1fe45dab729efaea5;
   0x4ba25e81e1a39cccacce6386bde5684344d6a06a8ea8362d01ba2547d610515c;
   0xdd3540c98122505b6ecd0eb892cffb18443e19212b8aa4df3a5ad5791a994d8;
   0x661a5346918b58427c4d071c8074d853cf79c270ed45b1b10c5a52a76e566b29;
   0x695a78031812872bf13558bc3f0560e2d76bc6576070693cb7d4f57ca8e234d2;
   0xa932f50118af61c42047f4bca9c77227c51ddab9f8df2c2482b0a82571dcb2f;
   0x14bddb43a94f5b7bb38f39714deeb1ae8afe1703fe711c29b80e538fb0db8eac;
   0x5f2fcc0f804e21cc7faa9e96bbb32656c8bf8cff018d3fd547f1ac6f4f247155;
   0x347cc197a37224f76ca24d962e9700475f24660d2d313d631f591af96e8a7fee;
   0x3f70e5bb862b5850c6978a71db0ad7bdf4993df5d2cd1e9be0a6e50591758013;
   0x29a481307e7897487efc9679d3ae6717af88d41415a9d2b7905e2d22cc47814f;
   0x4a492622ab24e5ffb43d418e35f370eda434cfeeea5489476fa1d2dc33b87eb2;
   0xc3d962e55e3bd5fbe8f28ffbc2667540cf108e4ee1b6fb6162787b451688c10;
   0x67b01124d3b9bfe874aaaf084d7b70b146cc9b1e11e2ec48e9d8784aae9773f1;
   0x6a6be83969d643cbcec6ec3b08bdf75cb5206cf9748b83dd96d828215664721a;
   0x981bf19bfc7397c6472ebcd00e3e0a89e9d37098b72d8216927d7dda99b8de7;
   0x4ef48c88d24405c2e8c071ee884d75d3a444895d478fa9ddd1291c9619ff853a;
   0x24f91aca575977854a79661981546231af791aa5b86eb2212ed6e368e6007ac7;
   0xa9411bc8052d3e3f0c732b4b9a2d2ebd05a424237cbda19892e38be9f062611;
   0x69599596a94aa9644272a5534fff0519836361c0c83281e576d1c74060f9d9f0;
   0x6c45594fdeb2e307f3e1fb2deb76f3bb717d89921705901e5de06a0b012d0243;
   0x7a84e034aea9a403f57dcda1e2ae449e2401a70e8f8cbe0a21f95f3fed2fdbe;
   0x611b0481d07a7e9f35032fbef532789ce5a788bc6d17181423c79bd954755494;
   0x12d2a2d15922fea8fe36a849146f5f686e161b4692e743eadc386425ab8aab6d;
   0x5068b4cc459331ab514ca0d0085bb39e9d1653d1c1bc6e308ea22d6694856daa;
   0x2384f286e40a4b9ce1ed373801462466b6a750313e41edce715dd2986b7a9257;
   0x4f9d6abf41700b9842a65fa559497c8810054f3e075b729d81098d794dea5701;
   0x24503c93e82d71aff0937862b0585b7d43b854c4f8a2e9617ef67285b215a900;
   0x173674affe564b7a8b3844deac9ea564315057d57703f9a87e126235ecd43026;
   0x5cb732a32b4731cda80193295d0332a1226d4c2d88fa625681ed9dc9132bcfdb;
   0x6e6d1707ef01055ae713812af75c3ce340b47dbca9cae90afbe221bbe8b0070f;
   0x580904b3a9c77ed4c2656dd12459b2213092646563372f4041dde43174ff8f2;
   0x61f4bff09ddfad632d741d8ddfa5d583ef6f364ee6ca599e2a57e7c2e3829f5d;
   0x11f8e7628bbdcfe505c5ba7a29fc0281644e6db419340260d5a8183c1c7d60a4;
   0x4f5a7d686e321ed7e2bf66e7d85fbbf1040b303e3b187bfe2d29236b4aba2c30;
   0x249329eabb6b5e70507a712031421c144fb273c4c4e5e000d2d6dc93b545d3d1;
   0x1c5b1e8cce6557ae443ba5d28686f073a48af5568bee084eafc9284dc5c825b3;
   0x579288c65b382599eefe3235831ae791af32aeac741053b05036d7b13a37da4e;
   0x3b145d7839b1fcfcf9503d8f57a4d6614e7e09e82f1c3e9d4efb199435cf1951;
   0x38d949daefeb804b39e99a78b1fd01a4053f9a1ad0e21d61b104e66aca30e6b0;
   0x1cb99c8b5342ec1d44944d3f7324eb748055d107b1c203eab17bd0bb5bad1182;
   0x57340ac7d65a912aeea58ac8967cec90d367d2fb4e3c58144e842f43a452ee7f;
   0x3c33c0675265fa2dfc519755c087a32876cc98e5c7db5187d8c1d40bb10adc59;
   0x37b9e6ebd737831a36e840b2491a34dcdcf10b1d38230a77273e2bf34ef523a8;
   0x35c4208ddf82338cb12eca28a2ee1691e3c2ff3e383faedce4a93fcddb1211f4;
   0x3e2986c54a1b49bb820b0ddf66b3c1736ffaa4c4c7bead221b56c03124edee0d;
   0x40d65e069cf1ffd4b20beea0d3d2717cab770750a3295ce013845fe3e81af4a9;
   0x3317494c8cab7d73812de96735cf6688a8469cb25cd4ff1eec7ba01b17e50b58;
   0x3367c4e0a34ac8817ca0911d55cb9591274b6d768688f6163f7aef5a8d5a484b;
   0x4085e2728652b4c6b69946eab3d642742c72368c797565e8c08510a472a5b7b6;
   0x5d9256b81cdb2573eb5e4c7cc761dd45200454e65c549e730c28faecaf1e8d22;
   0x165b509b0cc257d447db8b8b423ffac033b94f1ca3a9bd8bf3d7051250e172df;
   0x52c211507fe896a5498eb71d7559be4c9951ee0472a016488c27b766a60882f9;
   0x212b9602a9b4e6a2e9ab20ea944819b8ba6bb5fe8d5e45b673d8489859f77d08;
   0x18f02f86c9d8d39011f0f8130ff3be0f88c5bca14681745c76d754972b0417a7;
   0x5afd77cc5fc4a9b82148dff4f9ae19f5caf7e761b97ce7a28928ab67d4fbe85a;
   0x41006fb41d42210a721065e2d58541d8ed638559361842718ac62a5b6e5ad517;
   0x32ed379f0c5b5c3dc1297225341c962c665a1ea9c9e6198d7539d5a391a52aea;
   0x24ee937ddeaca07bc012d70246b27dc0651950751921323a56171b04b937cdaf;
   0x4eff13d54af0dccc73270105c2ef5a44eea4538de6dd29c4a9e8e4fa46c83252;
   0x4b059c3f07698480401ec4aa8199861df12a319f1febe961d72e9ae3be101d4a;
   0x28e80b142233f8c7f31b135d880851e762937263e012729d28d1651b41efe2b7;
   0x1a0721978e244f9d146d95e0e0022b3e036741faefb9fa2d5aa8609bb6978a8a;
   0x59e685bb9b792dab1ecc4227299facc750566208104461d1a5579f6349687577;
   0x145da03c2eccc63b00e689f35ee7c4f1745ddc7c4867210129ed5dca288fdad;
   0x72a7cd4f66b0b0e4832b6f68d3b35bb63c77c63b3b77e9eeed612a225d770254;
   0x30c0e856ea5ac03fc0e50bf8399e8a372bb74b780ee14bd5ffd348ed4368ea6b;
   0x432cbefc3f42bd087254cc0fd0034dce2806588af11d1029002cb711bc971596;
   0x6dae9abcdc6fffbff88b8ccd41b6fe9072b180cc06183fdc238b0dcafb1476da;
   0x63f0c964d2d7d883aae4b3ac7ead974e10c2336f9e61c22dc74f23404eb8927;
   0x21391a344d6f5983ebaddafe1ce61a3e55a0aa4b47b65a9aa9b9e943288d1377;
   0x52b48d1edc2e23c4478bfd09ecbbbdc6fe1cf9b7b8480164564616bbd772ec8a;
   0x2b2c717dde8a10fab09cc8a6d690d6d975da2c1965bb0e4df3f081d760a857c1;
   0x48c135d54b136c4d829d0f613311012bdde377e99a434db10c0f7e279f57a840;
   0x68a3d903bc2a828e0a910beaf7801c3c4a4b18da6a0cb40d9f323ea3d74cb3ed;
   0xb49ce4f6d72faba28a8cc1d1221bbc909728b2895f1a7f160cdc15b28b34c14;
   0x4e584045701c2afdeb6b10d0ae8fdb6702dbfda03b545ae6d8953347b71b2763;
   0x2595670db981524a47cec7375b11fc9e50e1a662c4aa0118276accb748e4d89e;
   0x189b7b08d8f15ade18c576cea199d2fa829f1a50e3889f85141aa86a2a5ecfe;
   0x7263efa29c0e679a51ad809b1f883ad5ab93b25df1c5d206aebe55785d5a1303;
   0x207c0f09621ec698c303dcd2525aa8e1d5b6ef0eb662097c3848f25bc12e55e5;
   0x53719849c77eb6af7035fb35b7472f237e06b4f4499c5282c7b70da33ed1aa1c;
   0x34d03925f9b4c85b4d19a6dc30bd3cf9defee96131f8a2c92461b61f8c172710;
   0x3f1d6e2d2fe8b4ece620312bd8e49b0b74bebaa1ce05b935db9e49df73e8d8f1;
   0x56f5b91199af6c50c47d1bfcf63d8da28f141e3d346407c47189304e56429ad5;
   0x1cf7ee418fee10f76ebcbc0b13644a62c4a985c5cb9a543a8e76cfb0a9bd652c;
   0x42288ac912456e1d8865c216fafad6f9498bc773e8f76ec48f6d8cad9a860cd0;
   0x31c51c8a17580f2aaad415f10ea7010c0a31dc8f1706ed3a709273516579f331;
   0x1285e3491835bf37c77b9884e9951f09f50738e3b14d3321adc2f5fb7a0f9779;
   0x6167c40a1167be106bbe3f83200cb8fb5eb66b1f4eb128dd523d0a0385f06888;
   0x57f2e8be4df796d59f6c51b91a1bb80965ede3c44914fead6b72120c1df2a4b7;
   0x1bfabe94dba5e67293cd864eef861ffbedcfc03eb6e95d51948dedf2e20d5b4a].
(** [src/crypto/blobs/omega.go:2693-2820] rows 2688 to 2815 *)
Definition omega_rows_21 : list Z :=
  [0x4f11ac8c4cf028e96b55b53b85b3aaaf6502db433ead26c61eff4e410f51f541;
   0x24dbfac6dcad545ec7e422cc83ee2d55eebac8bfc1513538e100b1bdf0ae0ac0;
   0x337d7cbfb59eea4ac9eaecdc39624a74d6cdd406650e46c8d98b75fb7861f2ca;
   0x40702a9373fe92fd694eeb2bd03f8d907cefcffc9af0153626748a03879e0d37;
   0x20136ed642e8c59a514c846d5f0e44976da5bc30f24fec3acc3d6f4f809b0a53;
   0x53da387ce6b4b7ade1ed539aaa93936de617e7d20dae6fc433c290af7f64f5ae;
   0x70ba1a50f8bb8a7d92a4ae617d426c9358deb7a80902a9c5efdf3ccfe8e53a24;
   0x3338d0230e1f2caa09529a68c5f6b71fadeec5af6fbb2391020c32f171ac5dd;
   0x3c87ba432991de5065a9a51a6b3c1aee25682f007f22bb81fdd7ada825dfd8e9;
   0x3765ed10000b9ef7cd9032ed9e65bd172e55750280dba07d02285256da202718;
   0x665bab089b07419bb6f14d619c69d89866dc15430c03b1e93f800f008fb12ae6;
   0xd91fc4a8e963bac7c488aa66d37ff6cece18ebff3faaa15c07ff0fe704ed51b;
   0x4094817f573e38be9b763b9e8a078d875c9e920fb609ba358d5ceacfe1dffb42;
   0x335925d3d25f448997c39c697f9a4a7df71f11f349f4a1c972a3152f1e2004bf;
   0x5c5812ef8c4b82539a2ef0ffba882226295f4c56d978347b10decd73542a05fd;
   0x179594639d51faf4990ae7084f19b5df2a5e57ac26862783ef21328babd5fa04;
   0x16b09d33e7931ce4ecbc30602b356bce701a0584cc517b2805c42dc5891560a9;
   0x5d3d0a1f420a6063467da7a7de6c6c36e3a39e7e33ace0d6fa3bd23976ea9f58;
   0x4faf45839982795b2e6635a42125b2c691628e600a788e04ab750b85650ebd1b;
   0x243e61cf901b03ed04d3a263e87c253ec25b15a2f585cdfa548af4799af142e6;
   0x1a8e069a3f7275ed6f16b28321f60d75c35fd0a3184059075334c20cef94dd35;
   0x595fa0b8ea2b075ac4232584e7abca8f905dd35fe7be02f7accb3df2106b22cc;
   0x58d26fde6d9f8cf58100484127999969e65321e5ff1832016c9ec31e57800535;
   0x1b1b3774bbfdf052b2398fc6e2083e9b6d6a821d00e629fd93613ce0a87ffacc;
   0x4ad696482f24fb2a6806482acecf12318124e42aa8d5aec08ce356eec0b581c3;
   0x2917110afa78821dcb338fdd3ad2c5d3d298bfd85728ad3e731ca9103f4a7e3e;
   0x33241c7a1e79b28af076c80674fbea502b346f499430ac3e8834e343be816ade;
   0x40c98ad90b23cabd42c3100194a5edb5288934b96bcdafc077cb1cbb417e9523;
   0xb219fd78f51a8800de167d51cdd3323957918f034022d6713037f8b64415e9;
   0x733b8d55b0a862c0325bc18ab7d404d31a661273fcbe39288ecfc80649bbea18;
   0x6d6b28cf3247eb4450669afedabf51d50ff59be099efbbbf1e9ee7f422718376;
   0x6827e83f7559203e2d33d092ee2863043c80822660ea03fe161180add8e7c8b;
   0x1f39c92134ed8fe810bde4e31b054a62bd717496b394e228bde1fcdaa1e27c0c;
   0x54b3de31f4afed60227bf324ee9c8da2964c2f6c4c6979d6421e03245e1d83f5;
   0x5651e258d964b59394e25115d08b5a107a7d09d03af59770f1d0fcc7934e784a;
   0x1d9bc4fa5038c7b49e5786f239167df4d9409a32c508c48e0e2f03376cb187b7;
   0x4ca88ac099cc542dbc85d2e72f3dee770aaeb71ec0f716e68b025c69346bf09;
   0x6f231ea72000b80557717ad996adf91de312b89113eeea90974fda386cb940f8;
   0x184aa976934ab9259ff3085d4c741c88b33f0ed736ba61d95846912ad0cd72e8;
   0x5ba2fddc9652c4229346cfaabd2dbb7ca07e952bc943fa25a7b96ed42f328d19;
   0x62e0bb8260b46d2c51e40cbf75a7ee58fd62b291c828ec3ebaf26067815711fc;
   0x110cebd0c8e9101be155cb4893f9e9ac565af17137d56fc0450d9f977ea8ee05;
   0x5d20fae10609ac308c560763e9b339ee02f1944f8062e2362fd7908ad327998c;
   0x16ccac722393d117a6e3d0a41fee9e1750cc0fb37f9b79c8d0286f742cd86675;
   0x26052223c6d14ff1cf5fcb7416a05e18ff238124a0db2fb18fbde3dcc5b9f194;
   0x4de8852f62cc2d5663da0c93f30179ec549a22de5f232c4d70421c223a460e6d;
   0x4d09a75b010005d75274ac3b3a233330062f181b14aed10ff6e67eefaeab0cff;
   0x26e3fff8289d7770e0c52bcccf7ea4d54d8e8be7eb4f8aef0919810f5154f302;
   0x5087bd52dee2d5f7a21bae96e51a32d19d84f64a6ba25a938975fe3c072f5f5c;
   0x2365ea004abaa750911e29712487a533b638adb8945c016b768a01c2f8d0a0a5;
   0x1ebd08c778383129c0429531c4dd5df66d2ae0e11e73c3f16ca52fc81438540d;
   0x55309e8bb1654c1e72f742d644c47a0ee692c321e18a980d935ad036ebc7abf4;
   0xef4c7fe5a5827024c14c0e444da9cff88e7fa646df251b192383683e59ecc6a;
   0x64f8df54cf455645e7251723c4c73b05cad5a99e920c0a4d6dc7c97b1a613397;
   0x5a0c37718307eb1a9579e0bf9778e20bdceef0bcd91847d841253cc2a928d6be;
   0x19e16fe1a695922d9dbff7487228f5f976ceb34626e61426bedac33c56d72943;
   0x420e78afcd6fbd8fcad332db11efc5f13fa701b8e3a721e0fefce536fb906424;
   0x31df2ea35c2dbfb86866a52cf7b212141416a24a1c573a1e01031ac8046f9bdd;
   0x222035a38c635602c55fbb5a72a5dee0a82703973a98577b707f616b8ee5bc69;
   0x51cd71af9d3a27456dda1cad96fbf924ab96a06bc56604838f809e93711a4398;
   0x65313b64fc8a8d3697b57a95d72f49a7ecd426ce3bc379cebaa02908f78226c1;
   0xebc6bee2d12f0119b845d7232728e5d66e97d34c43ae230455fd6f6087dd940;
   0x66a7a940ed13adc86207c5cca3e248bbea1aee8a70a157bc3db5dce28b3ecf15;
   0xd45fe123c89cf7fd132123b65bf8f4969a2b5788f5d0442c24a231c74c130ec;
   0x12b840afc2350d54fc80dd3fde8f89eaed8d825a7d11480cdc99619927e24871;
   0x613566a367686ff336b8fac82b124e1a663021a882ed13f223669e65d81db790;
   0x17a874736ffd05944b37a5bdf5fc29b8e6d89d1cf521a52f9730ea6ccca6aa9;
   0x7273200bf29daceeee865dac2a421569c5501a3130ac41ac068cf15833359558;
   0x2982cad2981271db38af49782c25cc6a832ebb72dd507ad3e370ae5c9d88c367;
   0x4a6adc80918b0b6cfa8a8e8fdd7c0b9ad08ee89022ade12b1c8f51a262773c9a;
   0x238a50d0cd0a9c9ad02239843d3a7238d040bb9966258c7e444ef5bf9f9eaf5d;
   0x506356825c92e0ad63179e83cc6765cc837ce86999d8cf80bbb10a3f606150a4;
   0x3f5e4a15cbfaab68c4280ae7caa60cf1aad860053850eb383390d76bb3f42bd6;
   0x348f5d3d5da2d1df6f11cd203efbcb13a8e543fdc7ad70c6cc6f28934c0bd42b;
   0x69fcf7bd11fb6ad2133b0600858128f29baef4419c79da6004e08d670c53a44e;
   0x9f0af9617a212761ffed2078420af12b80eafc16384819efb1f7297f3ac5bb3;
   0x6927e05ec31861f5674bdaf8e72b8709a17f907f020a14b917b055c5dfbd2d5c;
   0xac5c6f466851b52cbedfd0f227650fbb23e1383fdf44745e84faa392042d2a5;
   0xba4cb2b258381423a47594a3ac9ba80edebc1bad8e840c2ad13f6bbb95ec8ec;
   0x6848dc280419fc05f8f27ebdced81d8465d1e24827161b3c52ec094346a13715;
   0x2bbf14ee8e4ee0069beb9bd9e5a49c95172b07db533eecf717c095e63014ae72;
   0x482e92649b4e9d41974e3c2e23fd3b703c929c27acbf6f07e83f6a18cfeb518f;
   0x77653b32e18eb883962e4267ad3b836c2fce3f1ae16e1352f27668740f423f4;
   0x6c77539ffb8491bff9d6f3e18ece1fce90c0c01151e77ac9d0d89977bf0bdc0d;
   0x2fac607ce8d23ffed09655e7bf9bbb56a00cb139b40f4c25efde2d1e3d91bdd7;
   0x444146d640cb3d4962a382204a061caeb3b0f2c94bef0fd91021d2e0c26e422a;
   0xe091da7c6d8816a814bffbf8d20cef1429056c4e381145f218592573596e4e9;
   0x65e489ab62c4fbddb1edd8487c810914112d4d3e1c7d479fde7a6da7ca691b18;
   0x23fbb26339d05091e20e765bc6522c3d4985d191ac75223523bb85f2da7f3e51;
   0x4ff1f4efefcd2cb6512b61ac434fabc80a37d271538939c9dc447a0c2580c1b0;
   0x12866dd7b2cf3c059a45ee2eabefd88d8d42dd56d39e955417d408cfe1efe0da;
   0x6167397b76ce414298f3e9d95db1ff77c67ac6ac2c5fc6aae82bf72f1e101f27;
   0x21c78734ba95974fe0a610e2a9cc4f55cf8ff68b2704622d8db3b98e4423fc50;
   0x5226201e6f07e5f85293c7255fd588af842dad77d8f9f9d1724c4670bbdc03b1;
   0x21fc6493ca6f7bafdd94ab18c034563548beba55b423887eb9775afe0580eb6;
   0x71cde109ecf6858d35608d567d9e92a1ff31b85da4bc237714688a4f1fa7f14b;
   0x547efc3367b27efadae203a5d04d12b33bddf65cfc1c7f198f6e446f0ba80111;
   0x1f6eab1fc1eafe4d5857d4623954c55217dfada603e1dce57091bb8ff457fef0;
   0x45e8ea46adb91f8909429055d788c6ef35b2111259c0e6827b9f2d0dfbe1fda0;
   0x2e04bd0c7be45dbf29f747b2321911161e0b92f0a63d757c8460d2f1041e0261;
   0x2e0f723488ddb269aa2a0bb898bac279dad451939d2efc7530d247f9f1b06a9d;
   0x45de351ea0bfcade890fcc4f70e7158b78e9526f62cf5f89cf2db8050e4f9564;
   0x24366f4e20fb2f20f36c5be4373da4ad3ecdfd800f910da40d61b57cc139d00a;
   0x4fb7380508a24e273fcd7c23d264335814efa682f06d4e5af29e4a823ec62ff7;
   0x45530d35a07976b6f22eeb847e6a4c2c5ad59732db132de9f70a3a4625a28a2;
   0x6f98767fcf95e5dcc416e94fc1bb33428e104a8fd24d2920608f5c5a9da5d75f;
   0x6e1166c481043d84ce7b5b9a58967a125aa83f0d64199428796ae7ed987e3031;
   0x5dc408ea8993fc364be7c6db10b5df2f91564f59be4c7d6869518116781cfd0;
   0x252a01672a864c45dae541d1fd7ab0cf3bfeec51f753cc687c69d6ae5df2c7e5;
   0x4ec3a5ebff173102585496360c27273617beb7b108aa8f9683962950a20d381c;
   0x6a784098bda9ad6a6469757c2498b0fd993737709114df79354b1b9355e6a54e;
   0x97566ba6bf3cfddced0628be5092707ba866c926ee97c85cab4e46baa195ab3;
   0x4fe3753bf1d2a62039f1517d74049b890e51ed8769fd01bf945fda78a7f367d9;
   0x240a321737cad727f948868a959d3c7c456bb67b96015a3f6ba02586580c9828;
   0x8cf3151de041923e02a79c24740b9cac23fe7cabd0b23e5bf705eba460abe55;
   0x6b1e76014b996424530f5e45c2611e3a917dbc3842f33819408fa144b9f541ac;
   0x2362be534af38fff28cbbe5b58d6539c1a66c55dea845e4933d0b97dedcbec39;
   0x508ae8ffdea9ed490a6e19acb0cb84693956dea51579fdb5cc2f4681123413c8;
   0x5ffd6a14aab731397177349c6cb97b7c51e74ce466f28a996afd86c991620276;
   0x13f03d3e7ee64c0ec1c2a36b9ce85c8901d6571e990bd165950279356e9dfd8b;
   0x3810fdacb64f6dcef359c6db5d8d487fc5fc885d40f73760387ca37368ee6036;
   0x3bdca9a6734e0f793fe0112cac148f858dc11ba5bf07249ec7835c8b97119fcb;
   0x6a97aa5aa0b483b385f66bd08a1d249b53e66d78cb626cc03ccda280ddf7c676;
   0x955fcf888e8f994ad436c377f84b369ffd7368a349bef3ec3325d7e2208398b;
   0x1c15bca65083b25f7ee89ab1508940ca94e73f7a50c5aaeb5db85ae6ebfcb38d;
   0x57d7eaacd919cae8b4513d56b918973abed66488af38b113a247a51814034c74;
   0x6b8b61b3e4c04bcf4cc051000148d5479a3041d38fa295c8677f529da0db3616;
   0x862459f44dd3178e6798708085902bdb98d622f705bc6369880ad615f24c9eb].
(** [src/crypto/blobs/omega.go:2821-2948] rows 2816 to 2943 *)
Definition omega_rows_22 : list Z :=
  [0x1a6f73141aa50ce8e0448856303668e32636ba5d59a1fdb3918b8ff2657cb799;
   0x597e343f0ef8705f52f54fb1d96b6f222d86e9a5a65c5e4b6e74700c9a834868;
   0xd424d647a8586116f35f254c16ac4e2e86ccba57529ef3a2e69b325f8c2d10e;
   0x66ab59eeaf17f736c403e5b3483713226b50d85d8ad46cc4d1964cd9073d2ef3;
   0x6858ce5eedbb83c74a15db11a3b554b5d3d6a430a0bc13faa1c38e986fed60b7;
   0xb94d8f43be1f980e923fcf665ec834f7fe6ffd25f4248045e3c716690129f4a;
   0x38e8ada1e5d0b6bf2aca0bb3f1eaef08ebbb69b1e997262c5f8b75eb59322015;
   0x3b04f9b143ccc689086fcc5417b6e8fc68023a51166735d2a0748a13a6cddfec;
   0x49b2adf904b0681b511569231f5f35c687b9c653a69df49edefa7c37d09c36a2;
   0x2a3af95a24ed152ce2246ee4ea42a23ecc03ddaf59606760210583c72f63c95f;
   0x633ff4657f7341d681f7a80461466d15fc544e0eef300ebb6922152d741da680;
   0x10adb2edaa2a3b71b1423003a85b6aef576955f410ce4d4396ddead18be25981;
   0x702f6468a2d46ee05d32b857f28457a44c3cb7a69485ca0129ceb6ef8030b2de;
   0x3be42ea86c90e67d6071fb0171d80610780ec5c6b7891fdd631490f7fcf4d23;
   0x5dc78d7a680f4f615969a24f8e2106f81a690adce0d4559ad0bab5f02b35aea3;
   0x162619d8c18e2de6d9d035b87b80d10d395499261f2a06642f454a0ed4ca515e;
   0x42faa436bbf70ebc9a481043f60ec7964fbf6566f761bbaaa58ea51a15cb2a93;
   0x30f3031c6da66e8b98f1c7c41393106f03fe3e9c089ca0545a715ae4ea34d56e;
   0x4d3d1824c50aa16fccd46c8c0a5d9be5273c61e635e16ea6e68378ad80a7bb00;
   0x26b08f2e6492dbd866656b7bff443c202c81421cca1ced58197c87517f584501;
   0x66233a3febc19c74e00c852874294fe1a032055cd6e43a26efe507326576562d;
   0xdca6d133ddbe0d3532d52df95788823b38b9ea6291a21d8101af8cc9a89a9d4;
   0x937e4e20eda21e3bc795bd8f25ded6ef3920cdabfd84a8600c41c7ed4c36731;
   0x6ab5c2711ac35b6476c07c2f1743ea96602b972840261178ff3be3802b3c98d0;
   0x3d18428cd15fec9829f4d52d022a11c056ca1d8869e45cb67ef2f5436db89ce5;
   0x36d564c6583d90b0094502db0777c644fcf3867a9619ff48810d0abb9247631c;
   0x1400e965ba4aab15753bb87fe847a6e84ac512d0ba6e3f20da7810f90a14ed63;
   0x5fecbded6f52d232bdfe1f88215a311d08f8913245901cde2587ef05f5eb129e;
   0x70a52fcbe3d8e169f25d115b2909df5faeb385262d0e06a7bf046f046933915c;
   0x348778745c49bde40dcc6ace097f8a5a50a1edcd2f0555740fb90fa96cc6ea5;
   0x3466b7a8f24647997c6daa193db1745c678d607f4ee699ae051d64216ef65230;
   0x3f86efaa375735aeb6cc2deecbf063a8ec304383b117c250fae29bdd9109add1;
   0x286263171cfd358f14986d8c2b99885009d5f7ce03dd2713a624911665fba78b;
   0x4b8b443c0ca047b91ea16a7bde084fb549e7ac34fc2134eb59db6ee89a045876;
   0x63a9d7c52f795ab5a3cbe846b833307b38fe70a1a000bdeededa81868d68b00a;
   0x1043cf8dfa2422928f6defc1516ea78a1abf33615ffd9e1021257e7872974ff7;
   0x2caa9ee4fed8c9defe5bf47c589849963e211b10f8f4244573cc1221781e0bc;
   0x7122fd64d9aff0aa435418c04418536befdb9251f06f19baa8c33edce87e1f45;
   0x43101c5a67a005fe6aef4b6396adfc608c377cbd2bf36fcc3ec268ec688da522;
   0x30dd8af8c1fd7749c84a8ca472f3dba4c7862745d40aec32c13d971297725adf;
   0x1e5712dd6a762ba5433ae5253027a86d6c258de8ab7c6bf6492d72265c8bb286;
   0x55969475bf2751a2effef2e2d97a2f97e798161a5481f008b6d28dd8a3744d7b;
   0x67248f91391224f82d1509ea7380eb432efc6245c2276cfe52b9e2e3d8e363f5;
   0xcc917c1f08b58500624ce1d9620ecc224c141bd3dd6ef00ad461d1b271c9c0c;
   0x2b9d2bbc74577df8687bcc2850f602ddf5ab98917739772b3fcea5a50aafcbdb;
   0x48507b96b545ff4fcabe0bdfb8abd5275e120b7188c4e4d3c0315a59f5503426;
   0x2787f00a1aaafd469e2d6961368dca247659749fab0ea4f5cad4d5192ef12ff5;
   0x4c65b7490ef28001950c6ea6d3140de0dd642f6354efb709352b2ae5d10ed00c;
   0x730c927973e027868355da437798fef908c74b9514983765d71e1882e1dd7f28;
   0xe114d9b5bd55c1afe3fdc49208d90c4af6586deb66249928e1e77c1e2280d9;
   0x668488e2477fbf79aba7460fd9c360ec14e18a0dbf32e81b22ac28512f733ac0;
   0xd691e70e21dbdce879291f82fde77193edc19f540cb73e3dd53d7add08cc541;
   0x5e133f6664ca78be793846d6244234b80d67f6c836862ed38368bc3ff9fe041d;
   0x15da67ecc4d30489ba019131e55fa34d4655ad3ac9782d2b7c9743bf0601fbe4;
   0x22daf6f4afb976d236fa3357bfa851e96195610ecb9899c53b6ead007648781c;
   0x5112b05e79e40675fc3fa4b049f9861bf22842f43465c239c49152fe89b787e5;
   0x50d0954412900ed54088745ec1f2c16631aa1b5e34bb77878b236035fa24c486;
   0x231d120f170d6e72f2b163a947af169f221388a4cb42e47774dc9fc905db3b7b;
   0x587084a58f018d4c9b113b0587c1e3580c8a241be93dc8974e02b11bd3a217c2;
   0x1b7d22ad9a9beffb98289d0281dff4ad47337fe716c09367b1fd4ee32c5de83f;
   0x6d9b7d36756abfa6e6de4760c9223ca35d8dba7176a3140438e61a2bdb947cfb;
   0x6522a1cb432bda14c5b90a7407f9b61f62fe991895b47fac719e5d3246b8306;
   0x28779d92ac58ff78ea09ac3f1bdf7069767a93ae34c98803cc138ce5decb272f;
   0x4b7609c07d447dcf49302bc8edc2679bdd431054cb34d3fb33ec73192134d8d2;
   0x14737c023d791f0bdc6832ada0a4abdbb2f0341a13b3565ad286345e7ac747d6;
   0x5f7a2b50ec245e3c56d1a55a68fd2c29a0cd6fe8ec4b05a42d79cba08538b82b;
   0x641b1ddc11c537cbfe3ed86585643677f44c4fa5f5263d07bfb59bd6f3e3410f;
   0xfd2897717d8457c34faffa2843da18d5f71545d0ad81ef7404a64280c1cbef2;
   0x675598ef059d3185cc257d69e121cd84b32144b16886b434df3737d784288d49;
   0xc980e6424004bc267145a9e28800a80a09c5f519777a7ca20c8c8277bd772b8;
   0x3affd402f8d47177c758c7a4112d4a8beadad8f147195417f8e3b085a77afbf2;
   0x38edd35030c90bd06be11063f8748d7968e2cb11b8e507e7071c4f795885040f;
   0x2dd3ec04bf19f89eb75b9bf5262d59807213b822085973279feb3060dee77336;
   0x4619bb4e6a8384a97bde3c12e3747e84e1a9ebe0f7a4e8d76014cf9e21188ccb;
   0x6ce397ca4d2c7b6a0c1945109c1f1e9c3ace316d93c6b00bb50855547902c03e;
   0x70a0f88dc7101de272092f76d82b96918ef72956c37abf34af7aaaa86fd3fc3;
   0x6fb05846cd4336b188de7c8b11604d8ff0694267eeda9311b9bc81d1e5f516e1;
   0x43d4f0c5c5a4696aa5b5b7cf8418a756354619b1123c8ed46437e2d1a0ae920;
   0x7dde28f29fa7cfa57c3839a0140d9f2bb24f213c919d43d562e491138e601de;
   0x6c0fc4c3ffa3004ddb76546e0860fe129898b1ef36e487c1a9d1b6edc719fe23;
   0x583af1287fe086b18251211dc7db0691466b7e5ff4d425ec22ae86624a026d8f;
   0x1bb2b62aa9bcf696b0e8b6ea41c6d1740d5225a30b2a3612dd51799cb5fd9272;
   0xd83e5fb6401d35e8b476c3d92001ca18680b253331456f274067e67d28a7bf9;
   0x6669c157c59ba9e9a7f26bca77a1bb63cd3cf1afccea050c8bf981972d758408;
   0x47b116f7a347bb978b3074eb9fb6094903d98dbcb16d6b2bc8c4f400030cd5c1;
   0x2c3c905b8655c1b0a809631c69ebcebc4fe416464e90f0d3373b0bfefcf32a40;
   0x6d89a5e3e36a9bf331e93cc37de09f5274b330e761da3be1436d1d98942671d5;
   0x664016f4632e15501509b448bc138b2df0a731b9e24201dbc92e2666bd98e2c;
   0x14ef2156aa8bb80679fa31d23cd3c210ae3fb3867287d861038cb90b5f9e2564;
   0x5efe85fc7f11c541b93fa635ccce15f4a57df07c8d76839dfc7346f3a061da9d;
   0x244b4698b9e42244abdd2198bdf7fde56232317a2cdbea65c58c12f0eb455e6b;
   0x4fa260ba6fb95b03875cb66f4ba9da1ff18b7288d32271993a73ed0e14baa196;
   0x138fa34e6b5142c7e48095cf2e1b9d09fa8ed195331b98672808faa3ccaafe7d;
   0x605e0404be4c3a804eb94238db863afb592ed26dcce2c397d7f7055b33550184;
   0x4348bafc2e8182867d9f8711636eb28e846ce50ce8631ddc37c974247e893e37;
   0x30a4ec56fb1bfac1b59a50f6a6332576cf50bef6179b3e22c8368bda8176c1ca;
   0xd5b4bc4b85d0584dfd6b5fa91067e76e4db3d1d363620c7059279cc46720e88;
   0x66925b8e714077c35363220d789b598e6ee266e5c9c83b37fa6d8632b98df179;
   0x29fbd4863b46a956c8dcee098ed888b0386ad7cae3c87627c98f6b3a48df5a28;
   0x49f1d2ccee56d3f16a5ce9fe7ac94f551b52cc381c35e5d7367094c4b720a5d9;
   0x5da91736abd6d04b4739c52b4fabaab4ddc9b512172293bb81396ff313d3bb80;
   0x1644901c7dc6acfcec0012dcb9f62d5075f3eef0e8dbc8437ec6900bec2c4481;
   0x3af58bcb0af58a52192a995975d7064454977a45ccd1f4913ff0793ba434977c;
   0x38f81b881ea7f2f61a0f3eae93cad1c0ff2629bd332c676dc00f86c35bcb6885;
   0x38bef630dea07dd87c170f9a2a01856a4ef2fb42e82a91c3aaf009278b4b454;
   0x7061b7f01bb3756aab78670e6701bfaeaece744ed17bb2e2c550ff6c874b4bad;
   0x321c059efabd9ae1387d443ddded77add3c8e73f1fb0956aac66e8dafc81fe1e;
   0x41d1a1b42edfe266fabc93ca2bb460577ff4bcc3e04dc69453991724037e01e3;
   0x605e11c874ac1ff523154d2355e4e41763933c1beda8052e1a0aa54ab584031;
   0x6de7c636a252bb48e1088335d44389c3dd8470414123dbac1e5f55aa54a7bfd0;
   0x2840af57ad62903dde30dfbc088a2d14cc434bad0898bac4640aa66581465d9a;
   0x4bacf7fb7c3aed0a5508f84c0117aaf0877a5855f765a13a9bf559997eb9a267;
   0x224d989cae69b749be1ba8e713c6bf63ca295c7dfe550262e424716d6fbaa2d;
   0x71c8cdc95eb6e1d397581d7998656c0f171b0e3b20190bd8d1bdb8e8290455d4;
   0x86c1cc9790e8f2c1db924e35b38caf6b5027b481a99f8d7f13eed8a7afc59cc;
   0x6b818a89b08eee1c1580b324ae690d0e9ebb28bae56463270ec112748503a635;
   0x4bf1aa61fc26cd5f4c7a8318ba28706e7c2f35aea290ac55b604c24be38ed2f2;
   0x27fbfcf12d76afe8e6bf54ef4f796796d78e6e545d6dafa949fb3db31c712d0f;
   0x527c5c08fdb7b5f58ca2789772dc1ee60044c8d9317399ddb4c3351d1f85a494;
   0x21714b4a2be5c752a6975f7096c5b91f5378db29ce8ac2214b3ccae1e07a5b6d;
   0x20c5a5fb219c39b3597fd7cdb7cb9ec359acd8c18fd788b79108eb0359f985a8;
   0x5328015808014394d9ba003a51d63941fa10cb417026d3476ef714fba6067a59;
   0x3ee36b1c12f87566ddd0bf944a8e6d750a336e8b0eaa01fdee91311271ee45a3;
   0x350a3c3716a507e155691873bf136a90498a3577f1545a01116eceec8e11ba5e;
   0x1ada75e2c927a7c9d2046ce027a513df740e3a4a2c1307877112e3fc3d4ace71;
   0x591331706075d57e61356b27e1fcc425dfaf69b8d3eb54778eed1c02c2b53190;
   0x5264fe392258bd3c57b360a745e7386083531d011069710c1aadbdf0d9becb26;
   0x2188a91a0744c00bdb867760c3ba9fa4d06a8701ef94eaf2e552420e264134db].
(** [src/crypto/blobs/omega.go:2949-3076] rows 2944 to 3071 *)
Definition omega_rows_23 : list Z :=
  [0x1dba8c85aab132d3f04ce0af0a60f99468e9187454698944ac775919154154c1;
   0x56331acd7eec4a7442ecf758ff40de70ead48b8eab94d2ba5388a6e5eabeab40;
   0x3e6070485191eb56fc775110f342bec6f36c1604b24820a3770340790d55dc4c;
   0x358d370ad80b91f136c286f7165f193e60518dfe4db63b5b88fcbf85f2aa23b5;
   0x4902ce32f7e962fa2b3e31afd97e204be3eafb428e38a30928c22245d72bb2a3;
   0x2aead92031b41a4e07fba6583023b7b96fd2a8c071c5b8f5d73dddb928d44d5e;
   0x173bd4e5faca74e951f07361d72a49f4b13a451584a96e0ef35f980490fcc053;
   0x5cb1d26d2ed3085ee14964a632778e10a2835eed7b54edf00ca067fa6f033fae;
   0x170c6d1eafc21e45b97be27adfc8bad8f12e15a71ff3bb6b1793eb9057fda39b;
   0x5ce13a3479db5f0279bdf58d29d91d2c628f8e5be00aa093e86c146ea8025c66;
   0x3dcd5543e381889b38beaaccd6ea72786b91a01cb11e1d388fbbb51771aacdbc;
   0x3620520f461bf4acfa7b2d3b32b7658ce82c03e64ee03ec670444ae78e553245;
   0x2579136e7973448a6e8452d09af6d4fe0b1b2c2bf57e2ffa8bff0d76e779efd8;
   0x4e7493e4b02a38bdc4b585376eab030748a277d70a802c047400f28818861029;
   0x79834a8111b5e6c4c02091f65cedfc07a965114af80d5f237b8489e744cdb6a;
   0x6c5572ab18821edbe737cee8a3d2f844d92752ee507d860cc847b7608bb32497;
   0x6c6a55b1570da586ba40c31e363e1506aae7ccd1f49218bcde0a39b54757baf4;
   0x78351a1d28fd7c178f914e9d363c2fea8d5d7310b6c434221f5c649b8a8450d;
   0x504df7e713a14f663701ec08b9515cc1d4d75a4c1d0a47bc8a57f67a92771886;
   0x239faf6c15fc2de1fc37ebff50507b437ee649b6e2f4144275a809846d88e77b;
   0x4f80089313ebbb63ab112c6e47f651c56b4a6f5157ee66feed092f02034b4427;
   0x246d9ec015b1c1e48828ab99c1ab863fe87334b1a80ff50012f6d0fcfcb4bbda;
   0xf2b9de0cb3644273fde5012c262290cdd960a2dbf6b89282bb928b6c2bc3afc;
   0x64c209725e673920f35b87f5473faef8762799d54092d2d6d446d7483d43c505;
   0x5a1ea99e4a437b505d95dfd1630242422ed8f900e407b7f428bce7e30c66a081;
   0x19cefdb4df5a01f7d5a3f836a69f95c324e4ab021bf6a40ad743181bf3995f80;
   0x41e469d70232147b3a090bcaa59c776b2b7d648cf9f44e1804ceeaa511f4fae9;
   0x32093d7c276b68ccf930cc3d6405609a28403f76060a0de6fb311559ee0b0518;
   0x4d5902ebc6464d846f98cb09f9865d83d025da2e047033fefbbcff900fcc827f;
   0x2694a46763572fc3c3a10cfe101b7a818397c9d4fb8e28000443006ef0337d82;
   0x1459bc8d78d3c3cc9173a7c9c3c994b807ee0ffdf718781e60b137ab482066e4;
   0x5f93eac5b0c9b97ba1c6303e45d8434d4bcf940508e5e3e09f4ec853b7df991d;
   0x9566d82f16d68853bf7bb74b643ac07c9525bc3d1cd03ba13854305ef54b104;
   0x6a9739d0383014c2f7421c93535e2bfd8a6b483f2e315844ec7abcf910ab4efd;
   0xbeb6a17ed37cedbd2dff79cd54a6ea0675e2f10a51b5409e93521dc76f14b89;
   0x68023d3b3c65ae6c6059e06b34576964ec5f74f25ae307f516cade22890eb478;
   0x6a707f1df880e7c227e024663dc027bae455735e16b82bb0a2073fb0e02a7667;
   0x97d2835311c95860b59b3a1cbe1b04a6f6830a4e946304e5df8c04e1fd5899a;
   0x13e7e0e87f964513f8ddba3c5316c7ec753c367ca1d1ffe6e2ae57afb246966b;
   0x6005c66aaa0738343a5c1dcbb68b1018de816d865e2c5c181d51a84f4db96996;
   0x401932d749c30d1dc4895811317d780782b3e11681c510a6dd5a6a3e91095dc7;
   0x33d4747bdfda702a6eb07ff6d8245ffdd109c2ec7e394b5822a595c06ef6a23a;
   0x32259c9a35f12409aee55906ba0e6f2ed2bd453fb132b4682cdfe9db0ff4374b;
   0x41c80ab8f3ac593e84547f014f9368d681005ec34ecba796d3201623f00bc8b6;
   0x2444f8a65c0009dce5d7361d5906eb273ac6f53956b47ef98c1e4633a1e79a90;
   0x4fa8aeaccd9d736b4d62a1eab09aecde18f6aec9a949dd0573e1b9cb5e186571;
   0x1875fe77b2223aa587ca2ddd92f73d486e73a69a942f840ad1d45960e9d626dc;
   0x5b77a8db777b42a2ab6faa2a76aa9abce549fd686bced7f42e2ba69e1629d925;
   0x18f18f1b04bfd10c7250976724baad776d880501279a899bcee868ce8587a13b;
   0x5afc183824ddac3bc0e940a0e4e72a8de6359f01d863d263311797307a785ec6;
   0x36d47cb97acb4245d1566d60c3a6ba5720b3d3b950311f02a824f0ba9a8f2963;
   0x3d192a99aed23b0261e36aa745fb1dae3309d049afcd3cfc57db0f446570d69e;
   0x56653e3e42733334ed43caff7cac4fa4848992a0b4aebe62c3176cafbba6ece2;
   0x1d886914e72a4a1345f60d088cf58860cf3411624b4f9d9c3ce8934f4459131f;
   0x72e045e320a61c7930dd4640b8259046fa3e333e731c6d86ea2f0310654c1c69;
   0x10d617008f760cf025c91c7517c47be597f70c48ce1ee7815d0fcee9ab3e398;
   0x5fc42ea688ce95690fb3e7765ded195901b4fac3c927f6e90d16741ca2ea19f3;
   0x142978aca0cee7df2385f091abb4beac5208a93f36d66515f2e98be25d15e60e;
   0x5f620c68a0cd2567ed61c7c501f9cc757c38250aebdfea19439e2c0f3fec014c;
   0x148b9aea88d057e045d8104307a80b8fd7857ef8141e71e5bc61d3efc013feb5;
   0x638173d2528c3d883247ea42471dd1c0ed315044d26ab11b7f5d7bffe0b305c8;
   0x106c3380d7113fc000f1edc5c2840644668c53be2d93aae380a283ff1f4cfa39;
   0x69027624f7423ea31f36512a3c42e181bd80ec4b796d3c1fa24716c0654b3fca;
   0xaeb312e325b3ea5140386ddcd5ef683963cb7b786911fdf5db8e93e9ab4c037;
   0x39dd4dce95290db96dbc6e981c87cc0d39d55c9043bd712ec2374a085a04cf77;
   0x3a10598494746f8ec57d696fed1a0bf819e84772bc40ead03dc8b5f6a5fb308a;
   0x6bd1b2cbafa33fb884780e7c68542c3f12bf7472dae4da3860bf9e6bf6e31812;
   0x81bf48779fa3d8faec1c98ba14dabc640fe2f90251981c69f406193091ce7ef;
   0x1c77cedb6916a28c6ca682e24066db3c86dd1b58249906be9ff079ce58af3199;
   0x5775d877c086dabbc6935525c93afcc8cce088aadb655540600f8630a750ce68;
   0x52f604f3b5c0b97878d28972a2a650511cb2c473d5eff1b216b4e9b27e7dd10b;
   0x20f7a25f73dcc3cfba674e9566fb87b4370adf8f2a0e6a4ce94b164c81822ef6;
   0x416b9112fa9f6cf5817199711eebb684418ad7d4ab3b17b51f1f8779e781781b;
   0x328216402efe1052b1c83e96eab621811232cc2e54c34449e0e07885187e87e6;
   0x1d1db4fd14ec51aeca9da4521c768d51ec388900a081efcebb6ed1c6d5c49f1c;
   0x56cff25614b12b99689c33b5ed2b4ab367851b025f7c6c3044912e382a3b60e5;
   0x6cdff594e8c1b0eaeb8fc60143a855ad127bc9af0716769144464acf1f36c0d2;
   0x70db1be40dbcc5d47aa1206c5f982584141da53f8e7e56dbbb9b52fe0c93f2f;
   0x32a73ce0bc31b687d449f891cf11c7f71e9c31869ce1406981ccf144abd15da6;
   0x41466a726d6bc6c05eefdf763a90100e3521727c631d1b957e330eba542ea25b;
   0x14692edb568a00aaae9ef31c7368529f7b3287e1eea50550f6cff67feb0214a3;
   0x5f847877d3137c9d849ae4eb96398565d88b1c21115956ae0930097f14fdeb5e;
   0x5ac1a5ee072d800a1ddf4a71f83fdd1ad21765e37219c59a01744eaf22f61cd5;
   0x192c0165226ffd3e155a8d961161faea81a63e1f8de49664fe8bb14fdd09e32c;
   0x57b428b7d9ee0088d8fd5273b9e4c23a8a9cafd3f14593be08db6cfdab4f5cbc;
   0x1c397e9b4faf7cbf5a3c85944fbd15cac920f42f0eb8c840f724930154b0a345;
   0x151ebde86d834a067c0302160fb86d4f841d9eb5efde33ed0116fc035b9ef1e4;
   0x5ecee96abc1a3341b736d5f1f9e96ab5cfa0054d10202811fee903fba4610e1d;
   0x34caebabeb3d7ef48c4988b6f7e98663fa6855f02b9c14d37b254b4c16aecf49;
   0x3f22bba73e5ffe53a6f04f5111b851a159554e12d462472b84dab4b2e95130b8;
   0x55be15e3ad0ea849dd9032a8990ebcab4018d3725a347a231aef389d1650159;
   0x6e91c5f4eecc92c39560d4dd8010ec3a9fbc16cbda5b145cce510c752e9afea8;
   0x16a65f789f1b1294ee932d062fe4dad38d291cf291adb45adf4f59597e92099f;
   0x5d4747da8a826ab344a6ab01d9bcfd31c69487106e50a7a420b0a6a5816df662;
   0x5d660bfd1bdf8a97e9ebe9b3a7f47018b56c7c3031e114547e10569404305b4e;
   0x16879b560dbdf2b0494dee5461ad67ec9e5127d2ce1d47aa81efa96afbcfa4b3;
   0x65d56ac519183e52453eabbc8a1e13a637d91b48dadb210c247b1a81979f35c0;
   0xe183c8e10853ef5edfb2c4b7f83c45f1be488ba25233af2db84e57d6860ca41;
   0x26dbde0c2c3ab91f997809bf4d6d1952faf9c0f86360276418f827bbe6225400;
   0x4d11c946fd62c42899c1ce48bc34beb258c3e30a9c9e349ae707d84319ddac01;
   0x6b810ed0b718d075007221b4e63392be4780d9b39a09327511be38f00fe0e15b;
   0x86c98827284acd332c7b653236e45470c3cca4f65f52989ee41c70ef01f1ea6;
   0x670604ef549725e3a992bf6d27f26ad9a037d5f8a16c4f0f051e1aa4af01a637;
   0xce7a263d506576489a7189ae1af6d2bb385ce0a5e920ceffae1e55a50fe59ca;
   0x1c8e11b3253731a2f1970b62d2eeb13eafd3148a4e36e3f07250f3cf33f08243;
   0x575f95a004664ba541a2cca536b326c6a3ea8f78b1c7780e8daf0c2fcc0f7dbe;
   0x10ec63d8ead24230b1313472e590e57dc9d921850e3e933c628e568582ec954a;
   0x6301437a3ecb3b178208a3952410f28789e4827df1bfc8c29d71a9797d136ab7;
   0x25e50c8b650b839487fbfdffef881252a8ca58916c4689cf7045743933f004c4;
   0x4e089ac7c491f9b3ab3dda081a19c5b2aaf34b7193b7d22f8fba8bc5cc0ffb3d;
   0x61293cd150debfd777dd0e7b4cd77e359098a02aabd7ff53948a74e7d72a06cd;
   0x12c46a81d8bebd70bb5cc98cbcca59cfc32503d854265cab6b758b1728d5f934;
   0x623329d913bae95cd300eb8ed538a67baf8d3c5d8e2ae3c2772ae3260559361e;
   0x11ba7d7a15e293eb6038ec7934693189a43067a571d3783c88d51cd8faa6c9e3;
   0x42c14d1e9a0e31c08c8b929e83caa601f17cb9e132d2958e4a821d18d001905b;
   0x312c5a348f8f4b87a6ae456985d732036240ea21cd2bc670b57de2e62ffe6fa6;
   0x6b906a5b221a98193db17c13a115ad244ab6a6109f87dc09a945ddfd3194d6d4;
   0x85d3cf80782e52ef5885bf4688c2ae10906fdf260767ff556ba2201ce6b292d;
   0x2dcc4132904aebad93d405cac07f33f025b409a53b4e735b3e20998093f034d1;
   0x462166209952919a9f65d23d4922a4152e099a5dc4afe8a3c1df667e6c0fcb30;
   0x40d8d7c469a307201e75fc005a4b76b707347967c3bc6e57d128b5e565be28ca;
   0x3314cf8ebffa762814c3dc07af56614e4c892a9b3c41eda72ed74a199a41d737;
   0x365fb54c8d72e98d795445bdfc60240f61e64499b0d7caec0b00709d16ad9a83;
   0x3d8df2069c2a93bab9e5924a0d41b3f5f1d75f694f269112f4ff8f61e952657e;
   0xaaf28c04a0ebb7cef135ae7b8e3362098d7a3987f769bcdcca9e87f5a7f1839;
   0x693e7e92df8ec1cb44267d2050bea1e4bae6006a8087c0313356177fa580e7c8;
   0x51c3ca3c7024fc860c906c9a837e1ef6c946526f56e933837b9a7281e045bece;
   0x2229dd16b97880c226a96b6d8623b90e8a775193a915287b84658d7d1fba4133].
(** [src/crypto/blobs/omega.go:3077-3204] rows 3072 to 3199 *)
Definition omega_rows_24 : list Z :=
  [0x36a0694837b9391d085fa60b9f017e70697bf2539257c17e7aad249861212753;
   0x3d4d3e0af1e4442b2ada31fc6aa05994ea41b1af6da69a808552db669eded8ae;
   0x54c8c186cf00b349406509fe76f63710de08ab2a2ad21968eec3c5de94bad69d;
   0x1f24e5cc5a9cc9fef2d4ce0992aba0f475b4f8d8d52c4296113c3a206b452964;
   0x3bbe95a692611ba92c8972a756f96cb36c944f00370ccf4f13fb91c643fb2d66;
   0x382f11ac973c619f06b06560b2a86b51e7295502c8f18cafec046e38bc04d29b;
   0x5026c9ed81babb1d1bd763ca4d6bdfd295272c6068d63114246a617ab5b1d7c1;
   0x23c6dd65a7e2c22b1762743dbc35f832be9677a297282aeadb959e844a4e2840;
   0x328eeff498b8905fcb05b3a6dd0acdcfa0951e797897dba86fdf5cf1dc0d5e2d;
   0x415eb75e90e4ece8683424612c970a35b3288589876680569020a30d23f2a1d4;
   0x565eec951e59e820a34667352ae9d5dc496c51f4dd49bc1edfaec8846128af8c;
   0x1d8ebabe0b4395278ff370d2deb802290a51520e22b49fe02051377a9ed75075;
   0x32f3b58e63be683db556ce006a3e0689cf564a7da1b902e56caf3d28aac9a3c4;
   0x40f9f1c4c5df150a7de30a079f63d17b846759855e4559199350c2d655365c3d;
   0x4500dc158b69f2a11da67680a3c4d0af46c813f4bdbc74d2b530d23b962f2a33;
   0x2eeccb3d9e338aa71593618765dd07560cf5900e4241e72c4acf2dc369d0d5ce;
   0x257efeb5f831eb4b4062055dbcce3169b15b041f5f9708988f8dae3158baa4f0;
   0x4e6ea89d316b91fcf2d7d2aa4cd3a69ba2629fe3a0675366707251cda7455b11;
   0x5111ddb0d6f819ff9a970fd511c11cc817d87eea1587a122a77fcdb6e01fc805;
   0x22dbc9a252a5634898a2c832f7e0bb3d3be52518ea76badc588032481fe037fc;
   0x36d55004d39bdc27c60b52058c6a5d992ccbb32eecd136f3bd36b91fbcc4d9b6;
   0x3d18574e5601a1206d2e86027d377a6c26f1f0d4132d250b42c946df433b264b;
   0x6ab5ced1d9e77067fa868a71c6f77de16d31775507138bf4d55710af424be9d8;
   0x937d8814fb60ce038b34d9642aa5a23e68c2cadf8ead00a2aa8ef4fbdb41629;
   0x26412e20bfe4966c7b20ecd45027f90dba22be3aea24e089a73c2d0794e42fd6;
   0x4dac793269b8e6dbb818eb33b979def7999ae5c815d97b7558c3d2f76b1bd02b;
   0x5797aa708ba0d9387fc2ea6188ea73aeba44e9ca24af3f23db594c625e551d2f;
   0x1c55fce29dfca40fb376eda680b764569978ba38db4f1cdb24a6b39ca1aae2d2;
   0x422e55f4c40d039d403ad68fd45a57b6061a389fbb63a04a5f354e65971de4d9;
   0x31bf515e659079aaf2ff01783547804f4da36b63449abbb4a0cab19968e21b28;
   0x33f633380951bff039cc3eca9b8f12386fb6cdeb0f626ed00651b1676d885461;
   0x3ff7741b204bbd57f96d993d6e12c5cce406d617f09bed2ef9ae4e979277aba0;
   0x7f709b0db598773f7ce184aa37ed63aa3da6ff3d514cd34f981d24464db09e3;
   0x6bf69da24e43f5d43b6bbfbd662301caafe3340f2ae98eca067e2dba9b24f61e;
   0x21ccbf2f35a097b959e1e80e2b91530396d1f0ef63638923521de4c4c32db9ab;
   0x5220e823f3fce58ed957eff9de108501bcebb3139c9ad2dbade21b3a3cd24656;
   0x71103cf7027be69cc607157d64fd6ad8aad4938d032e32e3680c16c5a25aa156;
   0x2dd6a5c272196ab6d32c28aa4a46d2ca8e91075fcd0291b97f3e9395da55eab;
   0x6f240ab5a536a2bc4ae3bc899b9f299d3d49f11bcd26167e652046ce1ccb0b04;
   0x4c99c9d8466da8be8561b7e6e02ae681673b2e732d845809adfb930e334f4fd;
   0x1d5e35c886192d15cdecb2b5626ba1982a86d07b2a764c768bf2bded30b49e55;
   0x568f718aa3845032654d2552a736366d2936d387d5880f88740d4211cf4b61ac;
   0x44a4674a258c9a5f5df0c9cf432b619672741dccc9d3b837864148660c5ff769;
   0x2f4940090410e2e8d5490e38c676766ee1498636362aa3c779beb798f3a00898;
   0x91ab2d557f9bc8f70459aa181f5b2c711f349c07945e5e0edb443dca4bddafd;
   0x6ad2f47dd1a3c0b8c2f43d6687ac253e41ca5a4286b8761e124bbc225b422504;
   0x705934fba2e3d54058c59b99b8084fe17100d055d2a9b0bc6d8a5054451ad0e3;
   0x394725786b9a807da743c6e51998823e2bcd3ad2d54ab429275afaabae52f1e;
   0x64a0e3137f39dc7cc1b70fdd68b0c23c3adf38bbada9907b5c19b4d0ea2cf552;
   0xf4cc43faa63a0cb7182c82aa0f115c918de6b475254cb83a3e64b2e15d30aaf;
   0x6c1f856912a85c660aad656ffeb6c2bf63f33e0433d82ab9c8eb3ce41f9b3865;
   0x7ce21ea16f520e2288c72980aeb1545efca65fecc2631453714c31ae064c79c;
   0x5505e1596b71f9bc589a263dde7e697951a761ed7f56302d96809abbf18276db;
   0x1ee7c5f9be2b838bda9fb1ca2b236e8c0216421580a82bd1697f65430e7d8926;
   0x349e099c42c3c3a0f3e1f8c910f610b39b4999895b894e7b3bcce44cd25431fe;
   0x3f4f9db6e6d9b9a73f57df3ef8abc751b8740a79a4750d83c4331bb22dabce03;
   0x5d09019e35705d3df95a130822cd786187ef365d8f564d8665d97d20da8a4880;
   0x16e4a5b4f42d200a39dfc4ffe6d45fa3cbce6da570a80e789a2682de2575b781;
   0x73cff0e9d4f0de132b3dd8b8c5ad4beab0bc1a689171d2cf978fe23164f37571;
   0x1db66954ac9f3507fbff4f43f48c1aa301899a6e8c892f68701dcd9b0c8a90;
   0x57cf0b24e9dfe12818744d82593f6f34d63ffb8f77520ffff2a23b550a4ab2db;
   0x1c1e9c2e3fbd9c201ac58a85b06268d07d7da87388ac4bff0d5dc4a9f5b54d26;
   0xab378749cc708a949a477553bc2f4fc33997826bfc8ad389e25e3fe6cef99eb;
   0x693a2ede8cd6749ee99560b2cddee30920242bdc4035aec661da1c0093106616;
   0x59dbde92b22d5da44740e70657943af37e586184211e1e67d4f1c280878dd156;
   0x1a11c8c077701fa3ebf8f101b20d9d11d565427edee03d972b0e3d7e78722eab;
   0x5f6ee4c927ff242f2211ffa4190c7122fcda463a8d1c74bd10369bd08096f25;
   0x6df6b906971d8b054118b80dc81110f323efff9f572c94b32efc9641f7f690dc;
   0x61b0ba6d9970e394849ed4fd6170ed5c48064b923b363ae2563bf5faa91ed24b;
   0x123cece5902c99b3ae9b030aa830eaa90bb75870c4c8211ca9c40a0456e12db6;
   0x5fe69a86ccaef3e24ca64c8224be01c20bac287e54e95f83e124da9b67220f6a;
   0x14070ccc5cee8965e6938b85e4e3d64348117b84ab14fc7b1edb256398ddf097;
   0x4ded01452a43350e9ccd0a8ad0d9ab6b1bbdc8bec4ca55090a1159e33226fddc;
   0x2600a60dff5a4839966ccd7d38c82c9a37ffdb443b3406f5f5eea61bcdd90225;
   0x3339fc8a65c7f929a997bfdd4f35e3ed225e1c54792bce639cc1766f87d12b83;
   0x40b3aac8c3d5841e89a2182aba6bf418315f87ae86d28d9b633e898f782ed47e;
   0x194a78efac810f398ebea89d164fda7eb5a43adf717e6f5462df3334e6f50603;
   0x5aa32e637d1c6e0ea47b2f6af351fd869e1969238e7fecaa9d20ccca190af9fe;
   0x47658a30a21a1e10ea55f945e2ab111301c24e588eeaf243b62ac02fe31ee32e;
   0x2c881d2287835f3748e3dec226f6c6f251fb55aa711369bb49d53fcf1ce11cd3;
   0x2f017540ddef6d67d1f5d35735e4bd5e3bc6c68d42f47a67560dced4fdd1fa58;
   0x44ec32124bae0fe0614404b0d3bd1aa717f6dd75bd09e197a9f2312a022e05a9;
   0x12ad5e2e8b0cfbfa61bd24d49a89618b24ca9e3b165ffd945b504b3bb34e64db;
   0x614049249e90814dd17cb3336f18767a2ef305c7e99e5e6aa4afb4c34cb19b26;
   0x2c07bb98eb7f7419a70793f2a8652ad8ed96f2f1c97a5e1a3a3e804ffc87763e;
   0x47e5ebba3e1e092e8c324415613cad2c6626b1113683fde4c5c17faf037889c3;
   0x2959aaff762d242c005f3353a3f16a497c140327f4c971e021cd8ea769a094a8;
   0x4a93fc53b370591c32daa4b465b06dbbd7a9a0db0b34ea1ede327157965f6b59;
   0x2c329afc610afa905bd996a93f88b570c40f71e5bc71e446fdc1747a63ca7ac3;
   0x47bb0c56c89282b7d760415eca1922948fae321d438c77b8023e8b849c35853e;
   0x472e989b5812a14b95b3455dc1fc4ccd45f4cfbb63e2c54e74aa45a97409d198;
   0x2cbf0eb7d18adbfc9d8692aa47a58b380dc8d4479c1b96b08b55ba558bf62e69;
   0x36e4c088a84a78536f2265c88b14e72ab393cc71925057864dbe0415c94990ca;
   0x3d08e6ca815304f4c417723f7e8cf0daa029d7916dae0478b241fbe936b66f37;
   0x2780afa0841de6392d45266b5073cdd55a84298ae8c5a849168f04747c6dd5f6;
   0x4c6cf7b2a57f970f05f4b19cb92e0a2ff9397a781738b3b5e970fb8a83922a0b;
   0xe2d98e3d7cffb2883fe05d75d187fb4483e0b597663520df89d77764e3c697d;
   0x65c00e6f51cd821faf3bd230ac8958510b7f98a9899b09f107628888b1c39684;
   0x53b2a5be459b5d08fae658577ea875bd8519ce40ca252a482fa108ef1d9fd883;
   0x203b0194e402203f38537fb08af96247cea3d5c235d931b6d05ef70fe260277e;
   0x2a8a732ccb933eb66f82430836ca2cb22d8e834b9d101cc30553818f08ec3792;
   0x496334265e0a3e91c3b794ffd2d7ab53262f20b762ee3f3bfaac7e6ff713c86f;
   0x2a8cf54a97840df560670b0af632fe115578c6d4d68ed7dca98bd685bd2aadb;
   0x7144d7fe80253c68dd3367575a3ea8243e661795b2956e8135674296a42d5526;
   0x25a81552c8b68e2f38b6e13590d0570de634d2b570c678cbc0cb94250c958ba6;
   0x4e45920060e6ef18fa82f6d278d180f76d88d14d8f37e3333f346bd9f36a745b;
   0x607e120f1f2bdbbd7a988914f8099e95c11184a5a8c9d0c61c94431cded59c35;
   0x136f95440a71a18ab8a14ef31198396f92ac1f5d57348b38e36bbce2212a63cc;
   0x2f2234b9a353074fe5db498087c0b30becd6fefe5e71e4af3ce5516b5b587650;
   0x44cb7299864a75f84d5e8e8781e124f966e6a504a18c774fc31aae93a4a789b1;
   0xffe177195db06ee6206cad3f8f8edd20f7afe2f33b2d29c01e3f791190a25d7;
   0x63ef8fe193c27659d1330d3410a8ea334442a5d3cc4b8962fe1c086de6f5da2a;
   0x37a1f3250b114352a07bbae292283242865406346f9e88c9af3e5868ce1e4fa4;
   0x3c4bb42e1e8c39f592be1d257779a5c2cd699dce905fd33550c1a79631e1b05d;
   0x556121267ce32c4122aea787e30b9f31d832052ccde9b4a9e6681bf64684319d;
   0x1e8c862cacba5107108b3080269638d37b8b9ed63214a7551997e408b97bce64;
   0x18a3c8ebc9a02da5d2bc85bcb435da3367297ee3889650ac76cad1646b4761b;
   0x72636ac46d037a6dd60e0fac3e5e7a621d4b0c14c774f6f4389352e8b94b89e6;
   0x6d4128fa32bbdcdfe1800790e64116d4ae254665e6c64ce581eae2c4dce4c189;
   0x6ac7e58f6e1a06851b9d0772360c130a5985d9d19380f197e151d3a231b3e78;
   0x678dbde858c524939b5eade1d86f47824ff3441dca163541a496c81e00ff1276;
   0xc5fe96ad0d858b497db2a263132908303ca5fe535e826bd5b6937e0ff00ed8b;
   0x4f8cee15d6617551bb90e37cb272360e41e51ebc10b57b63a5e9eab8152b4839;
   0x2460b93d533c07f677a8f48b572fa1f711d88546ef48e09b5a161546ead4b7c8;
   0x21bb90a3cef9da73ce6a4f2099a0af14fb22cebc18e0dfea53811fb238fd2814;
   0x523216af5aa3a2d464cf88e7700128f0589ad546e71d7c14ac7ee04cc702d7ed;
   0x61a27562b6a9a47cd994218dfd57859effa1af59c87e3c79575577ad3edf1cb;
   0x6dd37ffcfe32e30065a095ef29cc5fab63c3890d637678376a8aa8842c120e36].
(** [src/crypto/blobs/omega.go:3205-3332] rows 3200 to 3327 *)
Definition omega_rows_25 : list Z :=
  [0x12d828bbc7ee1bd43b6c686683ad41bf3382dfab906848c79c3c62b3f1e99da1;
   0x61157e9761af6173f7cd6fa185f49646203ac4576f96133763c39d4b0e166260;
   0x14b01de7a6c125e8339bd6dd4c22a7b59c55abba30f4c41cd573721eba4465da;
   0x5f3d896b82dc575fff9e012abd7f304fb767f848cf0997e22a8c8de045bb9a27;
   0x237a2c10967cc466405960131e7988212b2d52cdfd0b98891cc466c414f63fc0;
   0x50737b429320b8e1f2e077f4eb284fe42890513502f2c375e33b993aeb09c041;
   0x3282a8ec47f5c95bf245914235998e63d51c1e85d06fe60186a9252bd472f5c3;
   0x416afe66e1a7b3ec40f446c5d40849a17ea1857d2f8e75fd7956dad32b8d0a3e;
   0x47e3cb5137860e4d96b953a9110b8bc722020c89ecc0849375daa8809864b9c9;
   0x2c09dc01f2176efa9c80845ef8964c3e31bb9779133dd76b8a25577e679b4638;
   0x6841555589c733ab00def2f546ab11bdb3dc61fcccb02913fc394ee9057469b2;
   0xbac51fd9fd6499d325ae512c2f6c6479fe14206334e32eb03c6b115fa8b964f;
   0x60ae26d40fbaeeb2b594020b8675359421726e23ee95bde2252d6661602d7435;
   0x133f807f19e28e957da5d5fc832ca271324b35df11689e1cdad2999d9fd28bcc;
   0x1d345a11d5a09148a256aa11611dc01ba39a0662c6b842dae4bdeee08a005d23;
   0x56b94d4153fcebff90e32df6a88417e9b0239da0394619241b42111e75ffa2de;
   0xa2c2e90157bd61796b1028e1af5170f0bac53ac97accee001ed731a05753b82;
   0x69c178c31421a7309c88d579eeacc0f64811505668518d1efe128ce4fa8ac47f;
   0x441c1801a4e66be3bb20514a762a99af1cb6f5ee2e46bfbbca14e7c13bdd9bf7;
   0x2fd18f5184b71164781986bd93773e563706ae14d1b79c4335eb183dc422640a;
   0x10e48c89b8e828873394d984953e9c4dc3439ad148d806a7ccdf8183b63ed567;
   0x63091ac970b554c0ffa4fe8374633bb7907a0931b726555733207e7b49c12a9a;
   0x41c95c0d57961afe92b25ed1032a82f4453e07bd495b317f1e77078e4a922207;
   0x32244b45d2076249a0877937067755110e7f9c45b6a32a7fe188f870b56dddfa;
   0xae3ce3c4a3cd9a490a6c43e43461256623ab0758cbe037ad272322f2e9b1d0f;
   0x6909d916df60a3a3a29313c9c65bc5aef182f38d734058842d8dcdcfd164e2f2;
   0x3df7eb0960434809577da230e2c88260c466a99fb5f7bef1e6017af6230182b;
   0x700e28a2939948c79dc1fde4fb754fdf47773969049ee00fe19fe84f9dcfe7d6;
   0x5bb35fefa464baa254d980d9d59b1f65bd6ed968e5c09240096c2d089156eaed;
   0x183a47638538c2a5de60572e3406b89f964eca9a1a3dc9bef693d2f66ea91514;
   0x2254146d0722977916eed0bc549904aba0999c758ec8080ab8e9e36ceea971b7;
   0x519992e6227ae5cf1c4b074bb508d359b324078d713653f447161c9211568e4a;
   0x23c2130e3be6e721dff06413633821356e4d72814a2d66d08895e916b75c0586;
   0x502b9444edb69626534973f4a669b6cfe5703181b5d0f52e776a16e848a3fa7b;
   0x4b6eafacdf20a18221d002ebd6d577c87d4f3dcab708c5c68b54a44d5eb5f239;
   0x287ef7a64a7cdbc61169d51c32cc603cd66e663848f5963874ab5bb1a14a0dc8;
   0x674918c3495bb2a9b4c1265d710a862f5f3cd85a008ad190414dbdcb15d0dac0;
   0xca48e8fe041ca9e7e78b1aa989751d5f480cba8ff738a6ebeb24233ea2f2541;
   0x443cfacd0f29438dc279c735326262a715fc5bbb5fe6d85bf135c083512c9fe8;
   0x2fb0ac861a7439ba70c010d2d73f755e3dc14847a01783a30eca3f7baed36019;
   0x21bdc73dd7b7381292525534a336790988ddd69a355f5807ccd7ce20289e7057;
   0x522fe01551e64535a0e782d3666b5efbcadfcd68ca9f03f7332831ded7618faa;
   0x210f93133a3a6b7193b0142074a447361e2e72025de4a0c712a4159d38ee7edf;
   0x52de143fef6311d69f89c3e794fd90cf358f3200a219bb37ed5bea61c7118122;
   0x51698055f6f56ceef2a6ba04234203090d668bb61eabbf26efe8b7c5f4cdbb8a;
   0x228426fd32a8105940931e03e65fd4fc4657184ce1529cd8101748390b324477;
   0x15aaf563dca47733442fccebb3b272904a151dff81d368d532dbe75201147c74;
   0x5e42b1ef4cf90614ef0a0b1c55ef657509a886037e2af329cd2418acfeeb838d;
   0x528e1d7727add9dd135d2ad0956ba98d780a8dbfebab4f06748e13419b319c10;
   0x215f89dc01efa36b1fdcad3774362e77dbb3164314530cf88b71ecbd64ce63f1;
   0x39b5cffa24a5ed86e22b586a2e37e5b16a9f0e6768335b1d2b9a21f44b8839df;
   0x3a37d75904f78fc1510e7f9ddb69f253e91e959b97cb00e1d465de0ab477c622;
   0x465a1578dddc06904031a5b1f1d0e35a2de12f618a02f52636e22842492675f1;
   0x2d9391da4bc176b7f308325617d0f4ab25dc74a175fb66d8c91dd7bcb6d98a10;
   0x5e9fb132aace436810593938764cd2873cfc7593aacae8f0048c998c718b18fa;
   0x154df6207ecf39e022e09ecf9355057e16c12e6f5533730efb7366728e74e707;
   0x57654f4d80e421236231f3707b9d46a099855c98f03e4ec9bbc878488ea71ba8;
   0x1c885805a8b95c24d107e4978e049164ba38476a0fc00d35443787b67158e459;
   0x4c6b6964e2c2128178dec9a67d6bf69ab1a9e6457cbef76d1fccde66fc588d7d;
   0x27823dee46db6ac6ba5b0e618c35e16aa213bdbd833f6491e033219803a77284;
   0x4fe1958f86d2b38d13cebad18da8de97be0ab900fdd04ba0c27a1a12d0f2c7b4;
   0x240c11c3a2cac9bb1f6b1d367bf8f96d95b2eb02022e105e3d85e5ec2f0d384d;
   0x4ea331dc646483ada7ec9b7504f5c08d9afec709676525a283ae887be3b065d2;
   0x254a7576c538f99a8b4d3c9304ac1777b8bedcf99899365c7c5177831c4f9a2f;
   0x8ab794174efafe9bbb1da00479695453e6236400ce1a035463b81e35706dc93;
   0x6b422e11b4adcd5e7787fe07c20b42c0155b6dc2f31cbbc9b9c47e1ba8f9236e;
   0x3d52844c97b849b37e115e7879e5fe85deac3ff58faca4e3edadb1101621f8bf;
   0x369b230691e53394b528798f8fbbd97f7511640d7051b71b12524eeee9de0742;
   0x2b43cdffedfad78d5fe87ca61ae9abc08f7c85bcff563e231e8623e352e51c35;
   0x48a9d9533ba2a5bad3515b61eeb82c44c4411e4600a81ddbe179dc1bad1ae3cc;
   0x1cdbe9c4cef6cbefe6c9741d8956584aeea804027c23b9f95376802e91e05be8;
   0x5711bd8e5aa6b1584c7063ea804b7fba6515a00083daa205ac897fd06e1fa419;
   0x65c663512d6507eff7e74e36ebb406ab4a0e0cd54bd4aa61826d2d37f94a447f;
   0xe274401fc3875583b5289d11dedd15a09af972db429b19d7d92d2c706b5bb82;
   0xe39ce0a6cf41e04d1f37da3193dc2f7e11d8f59d2e0d8f517d1f555defa4965;
   0x65b3d948bca95f4361465a64f064150d72a014a92d1d8309e82e0aa92105b69c;
   0x10af9ddf450c9503f6d1e86fff13f87f5ae9debb01a73a7d2d2fd8f2b8879fa4;
   0x633e0973e490e8443c67ef980a8ddf85f8d3c547fe572181d2d0270c4778605d;
   0x52c8e06fd1d55ed610877582a2642dfdc982a869b076061adec6750f6279f487;
   0x2124c6e357c81e7222b26285673daa078a3afb994f8855e421398aef9d860b7a;
   0x6cfb0427dc1ed46b959d6213b9fb9ca34bcd0477f8b300e2e8072dcdffa22a4b;
   0x6f2a32b4d7ea8dc9d9c75f44fa63b6207f09f8b074b5b1c17f8d231005dd5b6;
   0x4ee57f60ea83e3914376d64225024337196e9b05922fb4ca4db6496c5f476610;
   0x250827f23f1999b6efc301c5e49f94ce3a4f08fd6dcea734b249b692a0b899f1;
   0x35eddb944f0c588276cb7f8865b7d9ba3ea62fc0089b634dbf2aac25d7d75fee;
   0x3dffcbbeda9124c5bc6e587fa3e9fe4b15177442f762f8b140d553d92828a013;
   0x53e109673fc03acedd09ac836e1ca7736a98290aa8b6ad53f2043aa3f401dfdc;
   0x200c9debe9dd427956302b849b853091e9257af85747aeab0dfbc55b0bfe2025;
   0x5239889ebec7d61b637217c82c971d9e4f647448c7b0afb7ec1c61775ab7abdd;
   0x21b41eb46ad5a72ccfc7c03fdd0aba6704592fba384dac4713e39e87a5485424;
   0x33b2ae5fde2b4f5827052bda8626455524fdccab18b6ef1df95145ce9d220f41;
   0x403af8f34b722df00c34ac2d837b92b02ebfd757e7476ce106aeba3062ddf0c0;
   0xc8d07e0704b0c97aead5c4e44e64375c348364c6d02ded0006ae02ab74add69;
   0x67609f72b95270b0848c7bb9c4bb948f90756db692fb7d2eff951fd448b52298;
   0x450a5e373ec8ee1bbc8c8f5360d1f7b0e50fa82de7378c5647041bcb6bd46fcc;
   0x2ee3491bead48f2c76ad48b4a8cfe0546eadfbd518c6cfa8b8fbe433942b9035;
   0x8d0a817449255ff6eb0398da5372b4151d7924989f5052ba483ec3b98206641;
   0x6b1cff3be50b2748c4899e7a646aacc401e611b9760956d35b7c13c367df99c0;
   0x493cdad728f81f15d7ed9ff23c94d4b3e1caad5df72cd49bbe86414d32e186de;
   0x2ab0cc7c00a55e325b4c3815cd0d035171f2f6a508d187634179beb1cd1e7923;
   0x1f0eded3eebc215ddeea461ee0cd7d94d61247f31227b7d49e32a2c19d55f8d3;
   0x54dec87f3ae15bea544f91e928d45a707dab5c0fedd6a42a61cd5d3d62aa072e;
   0x1ed281b92bda8a01a3a778c086ff4e1addc89075d67ed7e317050f884ca576b;
   0x72007f3796dfd4a818ff607c0131e323a5e11afba2966e80ce8faf067b35a896;
   0x1a6f4efb2363ab2f1ff78cb0023480e8f9cdb87cb712877e0bf60e7c63c2437b;
   0x597e58580639d21913424b58076d571c59efeb8648ebd480f409f1829c3dbc86;
   0x657cabbd11933f13d0bd028d2df1d8d2ead45c8361c9f7297117194176b34fcd;
   0xe70fb96180a3e34627cd57adbafff3268e9477f9e3464d58ee8e6bd894cb034;
   0x523d37b660a6007a671cd104321d3da423f77a7bafa8af3673a70628281b1030;
   0x21b06f9cc8f77ccdcc1d0703d7849a612fc629875055acc88c58f9d6d7e4efd1;
   0x30eda451b990fd38ff18af03ba072d922ea5adf88739a7bd9d7f8fd7d5e17d4c;
   0x43000301700c800f342129044f9aaa732517f60a78c4b441628070272a1e82b5;
   0x5b3b8cd22f924921ab164cf3cbcd563e6dd55f49d6b5a1fa4a715cef814e4239;
   0x18b21a80fa0b342688238b143dd481c6e5e844b92948ba04b58ea30f7eb1bdc8;
   0x1a1a446d71965b3a8e20c5aa738a332574aa756712f2bc015611aad4215f6c1d;
   0x59d362e5b807220da519125d9617a4dfdf132e9bed0b9ffda9ee552adea093e4;
   0x1c400d63de7126601d7386b1d14b886090df1a3727fd721d20a3252151ac98a0;
   0x57ad99ef4b2c56e815c6515638564fa4c2de89cbd800e9e1df5cdaddae536761;
   0x13738d54f1ac8eda45244257bc7eed74d0fb22b17b1b8fce193fef7af0333d31;
   0x607a19fe37f0ee6dee1595b04d22ea9082c2815184e2cc30e6c010840fccc2d0;
   0x34466cac58e7d4d227ece7306d1ad0f73bd94eb86ff1ed3c7833cda901f237d1;
   0x3fa73aa6d0b5a8760b4cf0d79c87070e17e4554a900c6ec287cc3255fe0dc830;
   0x43ce396f0bbba2006c10dffbc6e2ccfd1f0a0b6dc3344e9740aa98279de1d272;
   0x301f6de41de1db47c728f80c42bf0b0834b398953cca0d67bf5567d7621e2d8f;
   0x13a0ff19575c66a5d823a24eadcf440342774aacbd8e5410e990b7ea6099539;
   0x72b397619427b6ddd5b79de31ec4e3c51f962f58342576bdf166f48059f66ac8;
   0x6bbe608230bf89f522f30a822df80cebab98cfc228cdac64c0f4b12f26fbee10;
   0x82f46d0f8ddf3531046cd85dba9cb19a824d440d730af9a3f0b4ecfd90411f1].
(** [src/crypto/blobs/omega.go:3333-3460] rows 3328 to 3455 *)
Definition omega_rows_26 : list Z :=
  [0x4fdd14ad990c5d94abc61794fedbb7b37fcae5ba09e0c9e7936dad504dd20d8;
   0x6eefd608500cb76ee87d768eb9b41c8a1bc0f5a75f604f6086c92529fb22df29;
   0x313334ff56b12c0fe4d544102494ce8132dd2cd0d439bf99df86a7b583e6a7a;
   0x70da740334326a8734ec83c707588b1d408fd135f2bac00562079583a7c19587;
   0x8b1c77d512a5bc54b53c2020e1531be45012acc92ab4930bd516cd62ba82664;
   0x6b3bdfd5d8732182e7e61605fb8ca6470ebc79366d5312ce42ae9328d457d99d;
   0x29aa46f8c3bf1cc0a4b9f13d221641f726a0896f1080c1eee49d3bc9f665878a;
   0x4a43605a65de60878e7fe6cae78b960e2d1d1a93ef7d9a101b62c435099a7877;
   0x701c4ecf71c935ff0ddb58cba88e385eb453929cdf5d53f68046a0338d19eb21;
   0x3d15883b7d44749255e7f3c61139fa69f6a116620a108087fb95fcb72e614e0;
   0x60733df169bd66227d167a1aa89fd1bf924d116daf42538b08c8845e74a76e3c;
   0x137a6961bfe01725b6235ded61020645c170929550bc0873f7377ba08b5891c5;
   0x49282f32a44ea3b5e5353491392eb969f17ec84bcbd1676791088fac0c4f9032;
   0x2ac57820854ed9924e04a376d0731e9b623edbb7342cf4976ef77052f3b06fcf;
   0x28e0ab965ee2dd62dc7f696be9aa0ec9789fefa0239bcb3e8a28db7c68591369;
   0x4b0cfbbccaba9fe556ba6e9c1ff7c93bdb1db462dc6290c075d7248297a6ec98;
   0x6a85ee2957ec3250ae111cfbdc4970ab0db1df0d7f11055f353f8e344469d5db;
   0x967b929d1b14af78528bb0c2d58675a460bc4f580ed569fcac071cabb962a26;
   0x1ce31d09b8983f31effc399a99a0f0774bcaf14f19ed7d03a0f0d6fddf65ab78;
   0x570a8a4971053e16433d9e6d7000e78e07f2b2b3e610defb5f0f2901209a5489;
   0x407fde7ab1959c4bc6a2ed06d37f167a030eb926614be1a588cdfcb063137ed0;
   0x336dc8d87807e0fc6c96eb013622c18b50aeeadc9eb27a597732034e9cec8131;
   0x2ce45373bf1e91d9fef178082e44ecc0c77ea24c2e5ec8f8aa638667dde3590d;
   0x470953df6a7eeb6e34485fffdb5ceb448c3f01b6d19f9306559c7997221ca6f4;
   0x4a4cd1772f77e6a8eea341e88434f19304908be130f926723ad61f87d207308f;
   0x29a0d5dbfa25969f4496961f856ce6724f2d1821cf05358cc529e0772df8cf72;
   0x73636f9d1eeb0abdf3bac4d64a36538a64e8222d4428fff63a9a7c5389c73e8f;
   0x8a37b60ab2728a3f7f1331bf6b847aeed581d5bbd55c08c56583ab7638c172;
   0x367564469d1accc8fc62eef966d0253b7f931b5f8b6cbdcc7974730b5c3ba924;
   0x3d78430c8c82b07f36d6e90ea2d1b2c9d42a88a374919e32868b8cf3a3c456dd;
   0x71796cd186a4d1bf23bfab53572bc8e62a67e34e22abef508c9d7369401c9ce9;
   0x2743a81a2f8ab890f7a2cb4b2760f1f2955c0b4dd526cae73628c95bfe36318;
   0x2dc370e5bd7314ec89710171d3095acded523efd9a4034293bcb639a86de8161;
   0x462a366d6c2a685ba9c8d69636987d37666b650565be27d5c4349c6479217ea0;
   0xa0385025f6fc6b635ee1289a4af9cc708dc86cb3ee5aeda0dc44788191c6694;
   0x69ea2250ca2db691fd4bc57e64f23b3e4ae11d37c118ad24f23bb876e6e3996d;
   0x3a178d984cf2bbe3e84864fbbaf6ca1a19fb20b8ec99d14e44d969247a3b9ea0;
   0x39d619badcaac1644af1730c4eab0deb39c2834a13648ab0bb2696da85c46161;
   0x6e019c0f10c48a5ee2c04f5308e4117c293e4ce9b0b4d29e8ddb46c387d94289;
   0x5ec0b4418d8f2e9507988b500bdc6892a7f57194f4989607224b93b7826bd78;
   0xf196f733cc9941e4d1f292459f8fcb93b0843767d0372343f1f18f7ffc6877b;
   0x64d437dfecd3e929e61aaee3afa8db4c18b5608c82fae9cac0e0e70700397886;
   0x255bad7c3cd1771ded6b0d595d2df89be888b0025d0d21897a73822ebdcd10f4;
   0x4e91f9d6eccc062a45cecaaeac73df696b34f400a2f13a75858c7dd04232ef0d;
   0x3e5ff107893997a09e1935feb8328692f233a0cc91de22b00210a61427617e32;
   0x358db64ba063e5a79520a209516f5172618a03366e20394efdef59ead89e81cf;
   0x1fd56b7fc7d64506fd4c8ab2f0d9a0c2efaba4806747cbbb3ed3c6695778c414;
   0x54183bd361c7384135ed4d5518c837426411ff8298b69043c12c3995a8873bed;
   0x569ac8b8a6bed3ce2e4295f13884893e829793cdc553268fdb8c8c9df25f113f;
   0x1d52de9a82dea97a04f74216d11d4ec6d12610353aab356f247373610da0eec2;
   0x64302ec90d8645b8541c402b6099de87a648c725f84f95c141afaf92fc44c150;
   0xfbd788a1c17378fdf1d97dca907f97dad74dcdd07aec63dbe50506c03bb3eb1;
   0x2c4a5b2f0cdcb97b5ef4890c09efc1b9e83d298b3fdcee949d23158904db414e;
   0x47a34c241cc0c3ccd4454efbffb2164b6b807a77c0216d6a62dcea75fb24beb3;
   0x5ab7165bdc32edd97d8cc8889c8a29888154bc8d5e005d10a64eed6a5818a4bf;
   0x193690f74d6a8f6eb5ad0f7f6d17ae7cd268e775a1fdfeee59b11294a7e75b42;
   0x5e6882d48a57fa1bf0d2b13a179c1030855d543983bbd49126324200928abe0a;
   0x1585247e9f45832c426726cdf205c7d4ce604fc97c42876dd9cdbdfe6d7541f7;
   0x1c9a0e9ae069d4854261fc6d52cd9f472f4959e25753f8727e4cddf5bbcf9e2e;
   0x575398b84933a8c2f0d7db9ab6d438be24744a20a8aa638c81b32209443061d3;
   0x6a197060617002b139d9e55125fd6a0dafb52a4a4084049b64635a1fca37cd4;
   0x6d4c104d23867d1d1f9c39b2f742016478c2515e5bf61bb549b9ca5d035c832d;
   0x59ad115e1973082b57191cb038744d3fda46b757d37646ad5f6ed9d54ebc7dfd;
   0x1a4095f5102a751cdc20bb57d12d8ac57976ecab2c881551a0912629b1438204;
   0x4c297ba852c1b35fd6ee452a97c16ac3883a3fdb27ce4620c9037884585beeed;
   0x27c42baad6dbc9e85c4b92dd71e06d41cb836427d83015de36fc877aa7a41114;
   0x59a72d7256bac7644923c535f42197488e5007e38c90bf5a1406a9e74470eb1c;
   0x1a4679e0d2e2b5e3ea1612d2158040bcc56d9c1f736d9ca4ebf95617bb8f14e5;
   0xcc1dbac48ffd83b5b50fba542ee045f2d58596cd9180f6351eeda0bf1f9d15c;
   0x672bcba6e09da50cd7e8dc62c6b3d3a626654a9626e64c9bae1125f30e062ea5;
   0x4a078d1d32ee41ea7fa57c0bb07ba2861eda385259825e8ff7de74762844b59b;
   0x29e61a35f6af3b5db3945bfc5926357f34e36bb0a67bfd6f08218b88d7bb4a66;
   0x2646cb1b8029d0f4ea7520a9e1f45fed2663b19281ecf204a13c9090a5de344;
   0x71893aa1719ae038e49285fd6b829206815768e9d7df8cdeb5ec36f5f5a21cbd;
   0x5268b263946eb224cb0fea682711f56cf424c5b7c97a6d27d1881b7fb2a11e6;
   0x6ec71c2cf0569225e688d9618730b8ae847b57a78366b52c82e77e4704d5ee1b;
   0xef4b379c9183ffc813bcf1073aceca325bf61c5f3d0832796c52d21fbc61f0f;
   0x64f8f3d960853d4bb1fe08f795f4eb622dfe423d0c2dd8d7693ad2dd0439e0f2;
   0x445ea19828da9aab0564b5a8d1072ba42be3a6cd55d29c43736afc498dd8c1d1;
   0x2f8f05bb00c2e29d2dd5225f389aac6127d9fd35aa2bbfbb8c9503b572273e30;
   0x6bcbe8ee9237909732d4a06d7aa57eb71bead8a0448ecebabcdf1235752b0ef3;
   0x821be649765ecb10065379a8efc594e37d2cb62bb6f8d444320edc98ad4f10e;
   0x5ae6d9900b7ae25a95dfadf106e3f002de4119ad873614884d66efb4fed2279a;
   0x1906cdc31e229aed9d5a2a1702bde802757c8a5578c84776b299104a012dd867;
   0x62fb2f3fb51cf0a715d27b6251fc311c17b4f7967f7e42a5fda4841718420054;
   0x10f2781374808ca11d675ca5b7a5a6e93c08ac6c80801959025b7be7e7bdffad;
   0x58c3ba636d174692ad5a534045625d9514180e0e8b24f12309f239f760b82267;
   0x1b29ecefbc8636b585df84c7c43f7a703fa595f474d96adbf60dc6079f47dd9a;
   0xe7cc4a69476d9fc4bb6f34c1c58a0568ec7e8901137ff0153a93b55b4fea0eb;
   0x6570e2ac9526a34be782e4bbed4937aec4f5bb72eec65cfdac56c4a94b015f16;
   0x548e4cc8ec848f9932f96660e46b8b036272a5c3f51c283524eb6f79660ba729;
   0x1f5f5a8a3d18edaf004071a725364d01f14afe3f0ae233c9db14908599f458d8;
   0x45f448f2bdc1f969a35750fccdbd565adcb69e5da3889e1b2613fb0ba0d0c8b9;
   0x2df95e606bdb83de8fe2870b3be481aa770705a55c75bde3d9ec04f35f2f3748;
   0x6a92d3cae75d7dcbb02266098876489699eeae11e7bccf3f082cf84eeb77b539;
   0x95ad388423fff7c831771fe812b8f6eb9cef5f118418cbff7d307b014884ac8;
   0x140c71fcb801d5d5172aa6aa52827f4c0e9edcfa443aea1905a885cb88412fc6;
   0x5fe13556719ba7731c0f315db71f58b9451ec708bbc371e5fa577a3377bed03b;
   0x36597dc1d3176b166ae305e12c0d0f38452c95af5bc18faa930fa010bc171746;
   0x3d94299156861231c856d226dd94c8cd0e910e53a43ccc546cf05fee43e8e8bb;
   0x509e54744d4336448dd7a2cb1fe4cabc6085a508df2452feef976635fc779c0c;
   0x234f52dedc5a4703a562353ce9bd0d48f337fefa20da0900106899c9038863f5;
   0x7033de54f97535615e9a245b3b982d893b2a457ac1b1515e66caf0bfe0dc71bd;
   0x3b9c8fe302847e6d49fb3acce09aa7c18935e883e4d0aa099350f3f1f238e44;
   0x31d2de62396f17618541eba544010dc6e2e681ffa04fd14425cd201433440674;
   0x421ac8f0f02e65e6adf7ec62c5a0ca3e70d722035fae8abada32dfeaccbbf98d;
   0x63c3d7d00aa6d47ea06254fd521a05e75b52dc972de8dd1ae0ef5504d0804371;
   0x1029cf831ef6a8c992d7830ab787d21df86ac76bd2157ee41f10aafa2f7fbc90;
   0x203774a1cf96403463f289036f16b948584804de0259a52492093ce6634374ea;
   0x53b632b15a073d13cf474f049a8b1ebcfb759f24fda4b6da6df6c3189cbc8b17;
   0x5a8d83b623d916a3ad6c4c7ac3494271a80b4a6523f47a1ff8e0b04c3b1af356;
   0x1960239d05c466a485cd8b8d46589593abb2599ddc09e1df071f4fb2c4e50cab;
   0x21a2b52b913e7460fc8fc271fb692c97c43acd5edbf5700358a7bfe4303c5b1e;
   0x524af227985f08e736aa15960e38ab6d8f82d6a42408ebfba758401acfc3a4e3;
   0xd2f74e808084266d6dc71af08a18e5f03751f4f8dda18c726694b3c0708989b;
   0x66be326b21953ae15c5d6659010049a6504884b372244337d996b4c2f8f76766;
   0x3d4cb9b40807616a9227838f3a3ed300cf4d9b4898d2ec0030ad1815af2831cb;
   0x36a0ed9f21961bdda1125478cf630504847008ba672b6ffecf52e7e950d7ce36;
   0x676781febdfe94276a8aad8807a5d7050b5661caa9b88f7bc99c409c32cbe93c;
   0xc8625546b9ee920c8af2a8001fc0100486742385645cc833663bf62cd3416c5;
   0x3309518f26f7d15431ab14182ee5361144e1b8db4b0c6ea3ab3dcd74abc0acc5;
   0x40e455c402a5abf4018ec3efdabca1f40edbeb27b4f1ed5b54c2328a543f533c;
   0x64ccb3506e60a81f0394c93a42b5b72e9ef2afdb60852031c3f34a887d3c3e1;
   0x6da0dc1e22b772c643008b7465767c9269ce790549f609fbe3c0cb56782c3c20;
   0x695941db3bd37280e077b68e7eab756cb88cdb76a42676ccb187cd4b5130698f;
   0xa946577edca0ac752c221798af662989b30c88c5bd7e5324e7832b3aecf9672;
   0x4c846de1daf8905fb9f70b105865f3b1cfb80be01829aa6e6b4e1dd7a6e41adf;
   0x276939714ea4ece87942ccf7b13be45384059822e7d4b19094b1e227591be522].
(** [src/crypto/blobs/omega.go:3461-3588] rows 3456 to 3583 *)
Definition omega_rows_27 : list Z :=
  [0x3d3e0be46010a6b28fce2e90dce28a6db3cad3633089749adf4e63d01af609aa;
   0x36af9b6ec98cd695a36ba9772cbf4d979ff2d09fcf74e76420b19c2ee509f657;
   0x6281a2628ede060eab8f2d5800a8be3b0f3fe56d15f19fd9d3a88f9769d85682;
   0x116c04f09abf773987aaaab008f919ca447dbe95ea0cbc252c5770679627a97f;
   0x661d0e51924a73f486c6d515c6dbbd56d833b77d2d66205cd6436789acd58a6a;
   0xdd0990197530953ac7302f242c61aae7b89ec85d2983ba229bc9875532a7597;
   0x554678caa916b48f296454a57be9a3dd2bbd52b782f347dae0408970b4aab1a;
   0x6e993fc67f0c11ff40a392bdb1e33dc78101ced787cf278151fbf767f4b554e7;
   0x4ea94018a4fba9970315f7d6239cfdfbbe7fe07d8d824b70a6b05f18a33c32b1;
   0x2544673a84a1d3b13023e031e604da09953dc385727c108e594fa0e65cc3cd50;
   0x4c4743b8831183496fc9fedba1ca177ecf50bf4dbafd02920d87e416425a1f5b;
   0x27a6639aa68bf9fec36fd92c67d7c086846ce4b54501596cf2781be8bda5e0a6;
   0x5a43ae417d106a4752a779731a01e141a9c92782418d9a6f68d125f81344d2e;
   0x6e496c6f11cc76a3be0f6070d801b9f13921118adbe582580972ed9f7ecbb2d3;
   0x44e71f8538db87179f115b32fd34f9e257a9568098dc13297c139a093efa1190;
   0x2f0687cdf0c1f63094287cd50c6cde22fc144d82672248d583ec65f5c105ee71;
   0x1a560bc19af45832cd3e67ec475459da28db59a295eea1fad891f7ce48c338da;
   0x59979b918ea9251565fb701bc24d7e2b2ae24a606a0fba04276e0830b73cc727;
   0x483afd5789c0e146b081e9cf98bbfed9d67cc816a910521c8f7f77012d9d64d2;
   0x2bb2a9fb9fdc9c0182b7ee3870e5d92b7d40dbec56ee09e2708088fdd2629b2f;
   0x25b3b147452598293eb810c81a72553cb7c356be3d0f029aa409d9ee00585213;
   0x4e39f60be477e51ef481c73fef2f82c89bfa4d44c2ef59645bf62610ffa7adee;
   0x686fdd8280effb6326d76b58b9434f6ec5b871097a9f0c6f53f1742ce989b5a2;
   0xb7dc9d0a8ad81e50c626caf505e88968e0532f9855f4f8fac0e8bd216764a5f;
   0x46eaaf9519ca80d68d67bc688c2a21ffa81a129e137f0039c2fcba24fbaa6740;
   0x2d02f7be0fd2fc71a5d21b9f7d77b605aba39164ec7f5bc53d0345da045598c1;
   0x99ae1e4f08eb7ec1e23d4338ba1fdbc33077dddb5761a734e2a017e4ffb6836;
   0x6a52c56e390ec55c151603d47dffda4920b626254a88418bb1d5fe80b00497cb;
   0x3d4d772639e0f2e0bdf93ce28c12b17e9ac00f384e56df5ab098af553e858ddc;
   0x36a0302cefbc8a6775409b257d8f2686b8fd94cab1a77ca44f6750a9c17a7225;
   0x227ddb9969605428e20283d330193c8c22bbcd0457572ea4ba6f047a391e07cd;
   0x516fcbb9c03d291f51375434d9889b793101d6fea8a72d5a4590fb84c6e1f834;
   0x68c045bcd7037c97ac5bec5d064c7b2fa13d78a715d35e675f5607600ebe8e85;
   0xb2d6196529a00b086ddebab03555cd5b2802b5bea2afd97a0a9f89ef141717c;
   0x22e93931c4e8a3365aa19c692fd480ceff5255f97b2f5f8a3aab39c40d504e47;
   0x51046e2164b4da11d8983b9ed9cd5736546b4e0984cefc74c554c63af2afb1ba;
   0x6d8986ffd6389f469bbcecee7941985189e8628b87c4717f74298e4f1f6b05b8;
   0x66420535364de01977ceb1990603fb3c9d541777839ea7f8bd671afe094fa49;
   0x14763f3b319dd1b9a8cc0754083d8a76dec4b3dde8d99b1da59b819134b83579;
   0x5f776817f7ffab8e8a6dd0b401644d8e74f8f0251724c0e15a647e6dcb47ca88;
   0x44cbfcb9bed9a1d0c039e6a24828a4d1115e5d72ca14bf355b2c4072b03330aa;
   0x2f21aa996ac3db7772fff165c1793334425f469035e99cc9a4d3bf8c4fcccf57;
   0x4100474a16a937608616f4669de6d37aa6a6b76707616830fca70889363d0810;
   0x32ed600912f445e7ad22e3a16bbb048aad16ec9bf89cf3ce0358f775c9c2f7f1;
   0x5d4a4a3b69d18144f376ca920c31a41df2034ce5f2a0e16cc71a57258e59e205;
   0x16a35d17bfcbfc033fc30d75fd7033e761ba571d0d5d7a9238e5a8d971a61dfc;
   0x4f0ee8eccb401e43ab35fb17c2ef06e1ff479c06b64c620e54913a5fad66493e;
   0x24debe665e5d5f048803dcf046b2d123547607fc49b1f9f0ab6ec59f5299b6c3;
   0x1aa68d97e4ea5441615140b6e155e9ab768301162f9b026bdf8f0a899f9ee419;
   0x594719bb44b32906d1e89751284bee59dd3aa2ecd06359932070f57560611be8;
   0x1110ddace4e38717b5fc4d667f921f06b39c1028848c11d02b0801fe4d03f4b3;
   0x62dcc9a644b9f6307d3d8aa18a0fb8fea02193da7b724a2ed4f7fe00b2fc0b4e;
   0x6be23393fe4edec850a6b9493521aaddad3288fa993675c6b000ebfccd728a11;
   0x80b73bf2b4e9e7fe2931ebed4802d27a68b1b0866c7e6384fff1402328d75f0;
   0x5fe5763a14834a7853a33904d076ea499199a38673d1c784644f6e6d10cdb65;
   0x6def4fef885548a0adffa477bc9a6960baa409ca98c13f86b9bb09182ef3249c;
   0x3e126f3c81d65abe294532501559ab800950d9ce6be8ab7e9afd17ae1c79b3cc;
   0x35db3816a7c7228a09f4a5b7f4482c854a6cca349415b0806502e850e3864c35;
   0x5cae78639fbbfa1a19c8f6a5547ef0cb372086a26309099ab289450a2c8c785c;
   0x173f2eef89e1832e1970e162b522e73a1c9d1d609cf552644d76baf4d37387a5;
   0x5b39480ded0b0a2522ed236d0d4ec5e8bf726a6f11fd5d1e41a26186d0f7d95a;
   0x18b45f453c927323104cb49afc53121c944b3993ee00fee0be5d9e782f0826a7;
   0x683140f093ad57bc107ae64b724aae15f9ac9edb793129a56d2a3526d2c2e46a;
   0xbbc666295f0258c22bef1bc975729ef5a11052786cd325992d5cad82d3d1b97;
   0x5b3cf96ecc6b5153abf178d66922bda5cb6a7dd7ea6053089d718125b7898a67;
   0x18b0ade45d322bf487485f31a07f1a5f8853262b159e08f6628e7ed94876759a;
   0x33957857f96a44b11675db3747d3d791a7a04848fde48575abf74fde099c325f;
   0x40582efb303338971cc3fcd0c1ce0073ac1d5bba0219d6895408b020f663cda2;
   0x5bd06ea21fc2a195c87adc4b385e8304b669b1ce32ce51fbe4282ad9e2553334;
   0x181d38b109dadbb26abefbbcd14355009d53f234cd300a031bd7d5251daacccd;
   0x5995287edbd07e2b04b4c968ebc01526905f6c03f0f179646b0b935e5c78f259;
   0x1a587ed44dccff1d2e850e9f1de1c2dec35e37ff0f0ce29a94f46ca0a3870da8;
   0x5656b895c01840aecfda8e31c5ff0017395ed2cf19172e412e59452c2173c6ea;
   0x1d96eebd69853c99635f49d643a2d7ee1a5ed133e6e72dbdd1a6bad2de8c3917;
   0x654d07e606bceb10c1d6263b3c797138ff9dcb7f92ea6a9b8d444a5beec3aaaf;
   0xea09f6d22e092377163b1cccd2866cc541fd8836d13f16372bbb5a3113c5552;
   0x3a9e291981e1a6ffd922ef4010fd623046b9b3a0749e60cb8768c9f875b63680;
   0x394f7e39a7bbd6485a16e8c7f8a475d50d03f0628b5ffb33789736068a49c981;
   0x3ec2eb28f1112e24ae07a577ed5adb9833f2172bc7473892459629b66ba900be;
   0x352abc2a388c4f23853232901c46fc6d1fcb8cd738b7236cba69d6489456ff43;
   0x4a8aba428345abaac34c773123acc36bcc6c73629eb540ea3f9554aa5ac511e9;
   0x2962ed10a657d19d6fed60d6e5f51499875130a061491b14c06aab54a53aee18;
   0x57b595c67b9ea2efa1729a4994ac329b4cd2b29f89691c73686d7450c33d5a33;
   0x1c38118cadfeda5891c73dbe74f5a56a06eaf16376953f8b97928bae3cc2a5ce;
   0x192c264ed896f8869866cb67d02650f9740da05f62a2205a038764a74650d0c5;
   0x5ac18104510684c19ad30ca0397b870bdfb003a39d5c3ba4fc789b57b9af2f3c;
   0x724c45b7ef86f69047659707080c8273d807f2b8fe1b995c6f51caab160744d9;
   0x1a1619b3a1686b7ebd44101019555917bb5b14a01e2c2a290ae3553e9f8bb28;
   0x2031355dce7eaf368f76379c2c28653e10e6a93079ee7cccc934e486ecc125c0;
   0x53bc71f55b1ece11a3c3a06bdd7972c742d6fad2860fdf3236cb1b78133eda41;
   0x63bc9ae2c216552207600419c3f6115aebf79fc3d741bf226521696c6179297c;
   0x10310c70678728262bd9d3ee45abc6aa67c6043f28bc9cdc9ade96929e86d685;
   0x213e8f8601768ac3bbb9b61429944d0c24c4ded9ffbba24056e5deedda27244b;
   0x52af17cd2826f284778021f3e00d8af92ef8c5290042b9bea91a211125d8dbb6;
   0x44095064e14b100a32e73c0848a259cce0f518b492651ba347ad66c74d7bca64;
   0x2fe456ee48526d3e00529bffc0ff7e3872c88b4e6d99405bb8529937b284359d;
   0x1e851ce4194322964607884498bbcb8c7131564fda741ade70b774835f62ee3c;
   0x55688a6f105a5ab1ed324fc370e60c78e28c4db3258a41208f488b7ba09d11c5;
   0x4562e92d9ce55819bcfd2af02a07aa006ddec933364680fd1c931b0f7188c6e;
   0x6f9778c04fcf27c6976a055907015d654cdfb76fcc99f3ef2e36ce4e08e77393;
   0x54a55f24e19b3eee4df7efe5f71e0abf44960fc9c499955198e1e535f0666860;
   0x1f48482e48023e59e541e8221283cd460f2794393b64c6ad671e1ac90f9997a1;
   0x45df5ec81887c4f43e877567664189754e1bc63ba1f12ba86a96e7321bc04210;
   0x2e0e488b1115b853f4b262a0a3604e9005a1ddc75e0d3056956918cce43fbdf1;
   0x4293400e38958dc7f5783bcc2a7ca18b187c81ae1d87699d225d35c86477d58b;
   0x315a6744f107ef803dc19c3bdf25367a3b412254e276f261dda2ca369b882a76;
   0x11ea9743b4e0d46958698576f11c4a2e782611cec67dd54be518be27e7093f4e;
   0x6203100f74bca8dedad0529118858dd6db979234398086b31ae741d718f6c0b3;
   0x2ac9dcb7690555b9127b1606420ade2a860223751b720a0cf2dab1c8c4a189ff;
   0x4923ca9bc098278f20bec201c796f9dacdbb808de48c51f20d254e363b5e7602;
   0x1f1c6117fe37a234a60a47cec5cb1a85e6a5dd527cd71fb7976ac7f5f6c72a88;
   0x54d1463b2b65db138d2f903943d6bd7f6d17c6b083273c47689538090938d579;
   0x699cb61776734f89d0fc55508e07bb70988b12057546a348bd571c059c104014;
   0xa50f13bb32a2dbe623d82b77b9a1c94bb3291fd8ab7b8b642a8e3f963efbfed;
   0x54a1d3f9439750aa38a37afc68b0fafae29e8b72db6f1e2653fd29142d3819a2;
   0x1f4bd359e6062c9dfa965d0ba0f0dd0a711f1890248f3dd8ac02d6ead2c7e65f;
   0x7a055532c1abbaf9ef11dfefbb02e5e62d7c1a278ec608700a9be0299817ca4;
   0x6c4d51fffd82c1989448ba090df1a9a6f0e5e2608711fb77ff5641fc667e835d;
   0x3076428c158ed643f84e55b954bddacbef1fd547be4b6ce2b275fb29418f4c5d;
   0x437764c7140ea7043aeb824eb4e3fd39649dcebb41b2ef1c4d8a04d5be70b3a4;
   0x6a3eba2fd3948857eb766ca2207244f211c86ad30700ce774a3b8d2e0f596020;
   0x9aeed235608f4f047c36b65e92f931341f5392ff8fd8d87b5c472d0f0a69fe1;
   0x324ae0d6b37e59679e533b9248389fa8c1855177336fb60fdca2ca5cd99ce3c3;
   0x41a2c67c761f23e094e69c75c169385c9238528bcc8ea5ef235d35a226631c3e;
   0x1b23377e8099fa46465283e47a582918fea947be6ae0adca67112eaf34e9f6be;
   0x58ca6fd4a9038301ece754238f49aeec55145c44951dae3498eed14fcb160943;
   0x2bbee6471ba2107df5f9703e00bf2460a71d79c870ba25b6c9e1715651f94edb;
   0x482ec10c0dfb6cca3d4067ca08e2b3a4aca02a3a8f443648361e8ea8ae06b126].
(** [src/crypto/blobs/omega.go:3589-3716] rows 3584 to 3711 *)
Definition omega_rows_28 : list Z :=
  [0x344161caaccddcb331fc82977997ab4493180a97607b7b75ee0a9b7720fe18ea;
   0x3fac45887ccfa095013d5570900a2cc0c0a5996b9f82e08911f56487df01e717;
   0x17ae11970ddf05c3476edefa503afd9c0a7a4cdd8c345f311415ae6f648ca4c4;
   0x5c3f95bc1bbe7784ebcaf90db966da694943572573c9fccdebea518f9b735b3d;
   0x26c2da94c4d882d868bd470adc88c0ecd82431336dffbd3ff302032d443d58d3;
   0x4d2accbe64c4fa6fca7c90fd2d1917187b9972cf91fe9ebf0cfdfcd1bbc2a72e;
   0x4f5b0231915bdd4603e21d77f00f7c14ae8b73877a32f62bdfe96721a6cd7b3e;
   0x2492a5219841a0022f57ba9019925bf0a532307b85cb65d3201698dd593284c3;
   0x583ae4c6b3243876efd27177d6ce56ad87e566e43fbfb3adcaa4621ab46a4d30;
   0x1bb2c28c767944d14367669032d38157cbd83d1ec03ea851355b9de44b95b2d1;
   0x24ea9b8792f6512f934f79299c50142c3d7e23dd40142c5f9422d2c34101124c;
   0x4f030bcb96a72c189fea5ede6d51c3d9163f8025bfea2f9f6bdd2d3bbefeedb5;
   0x2066ca4e92bd0ad946fec5826cc03719dec9c0406a08f265cce2c30333b187f;
   0x71e73aae4071ac9a9ec9ebafe2d5d493b5d107fef95dccd8a331d3ceccc4e782;
   0x39651ab61fc3015bf5412a443f8e57f1487f3449b8bd93686beadab96405ae3a;
   0x3a888c9d09da7bec3df8adc3ca1380140b3e6fb94740c896941525459bfa51c7;
   0x24c2ead5a7d140e1e3fff1c4cd5cae127bd9c57133e56dfad3ea280c5f782f2b;
   0x4f2abc7d81cc3c664f39e6433c4529f2d7e3de91cc18ee042c15d7f2a087d0d6;
   0x7110118566730cb78c4efcd85ee6395889a7fbcbd8c1ce86f75167878ef4c2b7;
   0x2dd95cdc32a7090a6eadb2faabb9eacca15a837273c8d7808ae9877710b3d4a;
   0x6b7102ef837861bde2c7551f9dff194451ffcba3c12bc2b9ee90b3d11c2dd21;
   0x6d3697243165f72c550d62b60fc1e6710e9da748c3eb9fd36116f4c1ee3d22e0;
   0x519e8d3c8185d7d529293c2d54cc37eba5d017e31cf0cb08eef8f30684ce9026;
   0x224f1a16a817a5730a109bdab4d5a019aded8c1fe30d90f611070cf87b316fdb;
   0x2dfe9b7c85ec9ffed0759691f8350bcf777a986565c2a5d1c9be282a115f3af5;
   0x45ef0bd6a3b0dd4962c44176116ccc35dc430b9d9a3bb62d3641d7d4eea0c50c;
   0x6957a77bf4482596c40e6ea7ec15f1e470a9e37a3c78a6f03c5e8cd07ac27967;
   0xa95ffd7355557b16f2b69601d8be620e313c088c385b50ec3a1732e853d869a;
   0x5f55d3feed71abf08747974362d7998504da1d1c2ae95f6ed46bc78329689a4e;
   0x1497d3543c2bd157abf240c4a6ca3e804ee386e6d514fc902b94387bd69765b3;
   0x440733b32d96101f50bdf12f11ba2ba3f6dc7f318ce3896129a67c58c11af270;
   0x2fe6739ffc076d28e27be6d8f7e7ac615ce124d1731ad29dd65983a63ee50d91;
   0x6892fbfe7fba4f67c98d9a4ba421a74a5e277cbb3e7a777eeeb008d78b019434;
   0xb5aab54a9e32de069ac3dbc658030baf5962747c183e480114ff72774fe6bcd;
   0xbdf74a3e7e4ae661be49858d07f3e273d20997b1fdd66bd53ec18ed560e5c0c;
   0x680e32af41b8cee217553faf392299de169d0a87e020f541ac13e711a9f1a3f5;
   0x51d11d8cfff841ef8c787035f36a072656e792ae1b302effd0b0f21e5dd18de6;
   0x221c89c629a53b58a6c167d21637d0defcd61154e4ce2cff2f4f0de0a22e721b;
   0x491c3a3286fa30c54b3fe9256008c925531a01cc28fefe11f643be94ebcf7272;
   0x2ad16d20a2a34c82e7f9eee2a9990ee000a3a236d6ff5ded09bc416a14308d8f;
   0x3edc0a1474f2943817443ffa79edc2405a3fdeea97c6fe196470728429de50e2;
   0x35119d3eb4aae9101bf5980d8fb415c4f97dc51868375de59b8f8d7ad621af1f;
   0x37caf542a4cb0e56a928854e7f46c10779eaa5fd91eb8ad60697528e66468f8b;
   0x3c22b21084d26ef18a1152b98a5b16fdd9d2fe056e12d128f968ad7099b97076;
   0x3031bdcc7a762a7a1e2d45135ad7c1cf713924feb1eeca0f1045bd496c219a4;
   0x70ea8b7661f61aa0915703b6d3f45be85caa11b314df6f5e0efba42a693de65d;
   0x2bbf8eb4ab2df85240fdd323261f47b06d4daa4a99dbb5b03fbacc5e6dc71317;
   0x482e189e7e6f84f5f23c04e4e3829054e66ff9b86622a64ec04533a09238ecea;
   0x6bfba8bb5dc5e43d9aaa551e3cb295f1256af2a3df55476564cabfb80ccdf965;
   0x7f1fe97cbd7990a988f82e9ccef42142e52b15f20a914999b354046f332069c;
   0x65340a0c78d1f4e98c45d4e61e2afaf2e357cb9f5410cdb13e4972bf66f482c6;
   0xeb99d46b0cb885ea6f40321eb76dd127065d863abed8e4dc1b68d3f990b7d3b;
   0xcb45daa7c9b91da67e2903db4b232835647df7ab3dcb27be44ecf3b78cfad97;
   0x673949a8ad01eb6dcb5747ca54efa581fd75c4884c21a9831bb130c38730526a;
   0x21d1dc57672d00970d536c25c56fe7a60f335495b3e381a61803b5a2380d0d30;
   0x521bcafbc2707cb125e66be24431f05f448a4f6d4c1ada58e7fc4a5cc7f2f2d1;
   0x3ef1205c599f30a57bf990ec45bb4a8b69b619876811f53367d96ac4dec2a7c5;
   0x34fc86f6cffe4ca2b740471bc3e68d79ea078a7b97ec66cb9826953a213d583c;
   0x14b91f70aeb2ebcd2b0325dad02c36de2e41e2dc3cbcaa821d94f28bd2c67835;
   0x5f3487e27aea917b0836b22d3975a127257bc126c341b17ce26b0d732d3987cc;
   0x1654f69b92ab6fc454e75abe206844831d4afcc358f070656798b57cfe3321aa;
   0x5d98b0b796f20d83de527d49e93993823672a73fa70deb9998674a8201ccde57;
   0x3c1329fc62fee1ef3730c5466a640457feb646d5a9ae7de4fb27d64d21924534;
   0x37da7d56c69e9b58fc0912c19f3dd3ad55075d2d564fde1a04d829b1de6dbacd;
   0x45cb63ad8b42d73f52437581fc31b4cb3b89d821e1ae06b63c3d590cd42f742e;
   0x2e2243a59e5aa608e0f662860d70233a1833cbe11e505548c3c2a6f22bd08bd3;
   0x6e29475a4ded008f25944c39b09897e604d7c6c5de7c9c7598942eff1093543f;
   0x5c45ff8dbb07cb90da58bce5909401f4ee5dd3d2181bf89676bd0ffef6cabc2;
   0x31751d363d4b2f15805a9b50ec0d2d83c6ac5823be4c981f8af00971a8493ef2;
   0x42788a1cec524e32b2df3cb71d94aa818d114bdf41b1c3df750ff68d57b6c10f;
   0x67b081e948ae5bc5fe101b8c580f1b22429f60bd799619a78b235e378dc9fa7c;
   0xc3d2569e0ef21823529bc7bb192bce3111e43458668425774dca1c772360585;
   0x73d35dd7ff6f5999d3d22736d22e5d8107ee8492ee3da22ff3e3e1962f75a6b8;
   0x1a497b2a2e23ae5f67b0d137737a844bcf1f7011c0b9cf0c1c1e68d08a5949;
   0x4785b9a5d59ea6535f2fce20817a78d7c3cec740fed7840e6dbad9a23e72f81c;
   0x2c67edad53fed6f4d40a09e788275f2d8feedcc20126d7f09245265cc18d07e5;
   0x33f16824377d54128a64cca9517059cf6b069ac76165652518b66c7d8e84b7fb;
   0x3ffc3f2ef2202935a8d50b5eb8317e35e8b7093b9e98f6d9e7499381717b4806;
   0x5eac79afbe389bf399a8cb100ba938f0ea0ecd974f2a3b506efed909666fe227;
   0x15412da36b64e15499910cf7fdf89f1469aed66bb0d420ae910126f599901dda;
   0x5b59861b644b42c375aa55f89169d7ad93010631e01cbc9f572cb84cf2c5ba09;
   0x18942137c5523a84bd8f820f78380057c0bc9dd11fe19f5fa8d347b20d3a45f8;
   0x2aa4421b969856edaeada54c5497aad2cf036aeea430a057753ed7c94fb0eeb9;
   0x494965379305265a848c32bbb50a2d3284ba39145bcdbba78ac12835b04f1148;
   0x65f1a91f129e2638b0ee8a91eb8b9e25cb27f1e0971010d57a3c81696a211fdf;
   0xdfbfe3416ff570f824b4d761e1639df8895b22268ee4b2985c37e9595dee022;
   0x66ae26f9a1f2fb63a902b699f27a42bda3b6b627c983a9d2e73458ac79b074ee;
   0xd3f805987aa81e48a37216e17279547b006eddb367ab22c18cba752864f8b13;
   0x2b64e82a9d82d223e607676361fe30e3652345c5177d051a336503a91e97e5d7;
   0x4888bf288c1aab244d3270a4a7a3a721ee9a5e3de88156e4cc9afc55e1681a2a;
   0x5bf567c5369459aa472ce39066e706af49b5d08955ff9e20e0480ab0fd9a31fa;
   0x17f83f8df309239dec0cf477a2bad1560a07d379a9febdde1fb7f54e0265ce07;
   0x37154cbaa9097311544f0b99685cfd7fc221a614ccdb8d0356d6ec5ed1e118ad;
   0x3cd85a9880940a36deeacc6ea144da85919bfdee3322cefba92913a02e1ee754;
   0x158cd2acd3b1314f047d8c5e8e943d7b0f4004660ebbfc8136ef495f9fe8668d;
   0x5e60d4a655ec4bf92ebc4ba97b0d9a8a447d9f9cf1425f7dc910b69f60179974;
   0x39d6ed4d89397e65a1e265fc1fb2d6cb41ef7cb95c169e236f344925d273570b;
   0x3a16ba05a063fee29157720be9ef013a11ce2749a3e7bddb90cbb6d92d8ca8f6;
   0x6fd9725ed9887c0d76a737cfb9ec903271bfd8fb21c9bc312aafa84a8f32c4c3;
   0x41434f45015013abc92a0384fb547d2e1fdcb07de349fcdd55057b470cd3b3e;
   0x27fc888e1bc2c0f01f01546fd8631e66e8ac5555ad914c92614850e921b50b55;
   0x4bf11ec50ddabc5814388398313eb99e6b114ead526d0f6c9eb7af15de4af4ac;
   0xccdddc6facd3a427840b4f6a4b3ffe3c54fbc08c604c0bc827edff9f54ca63;
   0x7320c976b9f0a9a40bb5ccb89f5698071768a842739e0ff337d811ff60ab359e;
   0x5e8ffb376ec72a786796c6567f5b161232f4f876d5d1189994dd945218bdbbc2;
   0x155dac1bbad652cfcba311b18a46c1f320c8ab8c2a2d43656b226bace742443f;
   0x822946abc676c5ed913df0b62773d4fbd33fc05de37b96a5c092cddae2df4ca;
   0x6bcb12e86d3610e95a25f8fca72a9ab59689a7fd21c6a294a3f6d32151d20b37;
   0x5b5e3c12226705777b23957d3889bcbf4d9d80b5ada11a750907a4e8b7d58e6a;
   0x188f6b41073677d0b816428ad1181b460620234d525d4189f6f85b16482a7197;
   0x30c6386f0661f1a7f25ded5a7525beba19deb374606e7481ab9cb369c352cef9;
   0x43276ee4233b8ba040dbeaad947c194b39def08e9f8fe77d54634c953cad3108;
   0x736aa11049970467d95853e14bf970d3fc5b1a2164b6dd1896e6c704e507a68c;
   0x830642e00678e059e18426bda86731576289e19b477ee6691938fa1af85975;
   0x2db8554ad434a3a77303d14549438829dda0c3b85cc1625c18889dbb4c8fc93f;
   0x463552085568d9a0c03606c2c05e4fdb761ce04aa33cf9a2e7776243b37036c2;
   0x136d42dcd31ae38aaeeb020aab9a427042495a3f68e907e71bb3e6377c8ca828;
   0x60806476568299bd844ed5fd5e079595117449c397155417e44c19c7837357d9;
   0x16f842747c135aee51c1f421f069545a9603fca33ae80a7fc83b37a3b9e12e68;
   0x5cf564dead8a2259e177e3e6193883aabdb9a75fc516517f37c4c85b461ed199;
   0x2975d98628e0476857354101f90fd89fc12e14681c99205c3efbab2e58a9a902;
   0x4a77cdcd00bd35dfdc0497061091ff65928f8f9ae3653ba2c10454d0a75656ff;
   0x29a8c8a83119f25dcd4785621a77f020038b8205eb6bd64213c2c46305798d57;
   0x4a44deaaf8838aea65f252a5ef29e7e5503221fd149285bcec3d3b9bfa8672aa;
   0x622b65af92d4f70159b29ee57bf65f7f963a7975240c453467f53af052532623;
   0x11c241a396c88646d98739228dab7885bd832a8ddbf216ca980ac50eadacd9de;
   0x23a8f96b57d1fb5374dfde2f880fa03f1963e200e9d8e2e5305f74f884460d5a;
   0x5044ade7d1cb81f4be59f9d8819237c63a59c20216257919cfa08b067bb9f2a7].
(** [src/crypto/blobs/omega.go:3717-3844] rows 3712 to 3839 *)
Definition omega_rows_29 : list Z :=
  [0x1efec3a26d8d2d0b63363c75ac7b61fa06e6f3a7aa7aa027d5ef58fc555a6545;
   0x54eee3b0bc10503cd0039b925d26760b4cd6b05b5583bbd72a10a702aaa59abc;
   0x2a1690622d1b33952336df41aa60d8fd888cc4e59271bc254675e44de9acb089;
   0x49d716f0fc8249b31002f8c65f40ff07cb30df1d6d8c9fd9b98a1bb116534f78;
   0x251f4308610110d950309e5d6881371a445a4984bd3033326a314c573c060e79;
   0x4ece644ac89c6c6ee30939aaa120a0eb0f635a7e42ce28cc95ceb3a7c3f9f188;
   0x590d22db31ab8d36fc199e379693433fef6261dae436c20e1ae655f9c67cb4ee;
   0x1ae08477f7f1f011372039d0730e94c5645b42281bc799f0e519aa0539834b13;
   0x13e4d257d52cc247f82e1823a6a0a604df97df7b82540d7f520fa375ce78b879;
   0x6008d4fb5470bb003b0bbfe4630132007425c4877daa4e7fadf05c8931874788;
   0x6e7a18800771dd7f441b5c5cba7e08c60a27e28d07b063a01ddcc828594b2606;
   0x5738ed3222b9fc8ef1e7bab4f23cf3f4995c175f84df85ee22337d6a6b4d9fb;
   0xd69bef1ee380b4c3884583970d8ed1f28122a6bda001d781a1d628b12064a8f;
   0x6683e8613b6571fbfab57fce98c8eae62bab799725fe3e86e5e29d73edf9b572;
   0x5999efe5327bd2b34713d04cbf2d4046994109d826db2ff20301669f731697cb;
   0x1a53b76df721aa94ec2607bb4a7497beba7c9a2ad9232c0cfcfe995f8ce96836;
   0x4f161fd88f51bc49ee62c37382b0353690279b87d2e6b387fcf5fe3b045dd181;
   0x24d7877a9a4bc0fe44d7149486f1a2cec396087b2d17a877030a01c3fba22e80;
   0x3dbafef871d9d6648a833323701f1e4282b5d2af6411c8553712b61b70f50fdc;
   0x3632a85ab7c3a6e3a8b6a4e49982b9c2d107d1539bec93a9c8ed49e38f0af025;
   0x19e0a5269bf2095fdaa09ca8fc7421e5f715c80f017c9aa2a069d1dc9b7042bc;
   0x5a0d022c8dab73e858993b5f0d2db61f5ca7dbf3fe81c15c5f962e22648fbd45;
   0x53853b9eaedc5bb79b6f2492431540cb0862db18feb3e506f88c9f388c0677df;
   0x20686bb47ac1219097cab375c68c973a4b5ac8ea014a76f8077360c673f98822;
   0x3d7fd2474b10f54a9e3e5c6ba11db18f5c655490bf2eb5c842ba9cf6eeeeae9b;
   0x366dd50bde8c87fd94fb7b9c68842675f7584f7240cfa636bd45630811115166;
   0x1fb61375b8c0af7b737efcd5f01ebdb95cdbd2559a884245d72951864d8fa8da;
   0x543793dd70dccdccbfbadb3219831a4bf6e1d1ad657619b928d6ae78b2705727;
   0x1b154886f803ad1dad27b4014dedfaed145879432fea7a51222aedd803cfa5cb;
   0x58d85ecc3199d02a86122406bbb3dd183f652abfd013e1adddd51226fc305a36;
   0x17377214004ab09d69632374d00f8a2e91c99defc2a29159bca5d0ce219b4711;
   0x5cb6353f2952ccaac9d6b49339924dd6c1f406133d5bcaa5435a2f30de64b8f0;
   0x4f39f73cd3a330df9a39086a6948da85624901bbd26428fd3608266993cc1060;
   0x24b3b01655fa4c689900cf9da058fd7ff174a2472d9a3301c9f7d9956c33efa1;
   0x25eb63cbfdc3672250f2476c3902b234c3077d669930bd57b515ba906dbfc129;
   0x4e0243872bda1625e247909bd09f25d090b6269c66cd9ea74aea456e92403ed8;
   0x3d7c4dcd2085462924021dd09c3abc78e763a3ef0a0dc0eda56e5338c1cb228f;
   0x367159860918371f0f37ba376d671b8c6c5a0013f5f09b115a91acc63e34dd72;
   0x7369b650aa0b473d0bd9e6a77fb9d5d6ca17f78b09396083ed9be33e30f62aaa;
   0x83f1027f92360b275ff16089e8022e89a5ac77f6c4fb7b12641cc0cf09d557;
   0x46dfbb4b42cf1f3a9b0feb4704453bb48bb3ac610f977e33a5d11204dfbed99d;
   0x2d0dec07e6ce5e0d9829ecc1055c9c50c809f7a1f066ddcb5a2eedfa20412664;
   0x4f5b781a7c2239ae887a36503010401e3655ad625c181f556065bcd7a01c30f2;
   0x24922f38ad7b4399aabfa1b7d99197e71d67f6a0a3e63ca99f9a43275fe3cf0f;
   0x6dc9d29ba4c63ee76548d5a502b249e7f141edb4801671b387553452e7d61777;
   0x623d4b784d73e60cdf1026306ef8e1d627bb64e7fe7ea4b78aacbac1829e88a;
   0x3b642c1755de706dc08e3aa03315ca7a63c3fa6b12b3b74ec8b70acd9cf0d865;
   0x38897b3bd3bf0cda72ab9d67d68c0d8aeff9a997ed4aa4b03748f531630f279c;
   0x5e904b9f0b721eb1bf8908719fe1ec6949ef690241dfa3963ce8fa61277fed1a;
   0x155d5bb41e2b5e9673b0cf9669bfeb9c09ce3b00be1eb868c317059dd88012e7;
   0x4e36e3baa6b4f02c0689adb2f9082fb65fe791c9632c5ea306ce63b513ad4ce0;
   0x25b6c39882e88d1c2cb02a551099a84ef3d612399cd1fd5bf9319c49ec52b321;
   0x20022cf1d0e1dadb041561a5e218abee3e0cde3a17cbf71e5f622b1f50d9fdd2;
   0x53eb7a6158bba26d2f24766227892c1715b0c5c8e83264e0a09dd4dfaf26022f;
   0x2481eaa7d4663a5035d056852237c9d923537e43d8e58b2372f85bc98bc40e5a;
   0x4f6bbcab553742f7fd698182e76a0e2c306a25bf2718d0db8d07a435743bf1a7;
   0x1707ff7adae82fa6558f5be8e50b86a69647b2f144954b140bbd1890bb6705e7;
   0x5ce5a7d84eb54da1ddaa7c1f2496515ebd75f111bb6910eaf442e76e4498fa1a;
   0x5ff3134c2edfd8640e2f577d0ff387b8a5e680f5dafc6153a131aa10fd632e00;
   0x13fa9406fabda4e4250a808af9ae504cadd7230d2501faab5ece55ee029cd201;
   0x27d86b967a02c84b89d12a87006d579ea152d122bd538957e4cb00352c21f113;
   0x4c153bbcaf9ab4fca968ad8109348066b26ad2e042aad2a71b34ffc9d3de0eee;
   0x2c4a12f82c0988ef81ca254da703f317b76069bbc672bcd63fc6e7f37a5b26a1;
   0x47a3945afd93f458b16fb2ba629de4ed9c5d3a47398b9f28c039180b85a4d960;
   0x2f807745a6b893c3d980cdab38ca1760a550d70148336689facaa64d3610ad5;
   0x70f59fdecf31f40bf5a1cb2d5615368f49689692eb7b25966053559a2c9ef52c;
   0x2aa889b5205c01ad36eb0ad3b74e021decca0410a1c9a10a62c107092a653563;
   0x49451d9e09417b9afc4ecd345253d5e766f39ff25e34baf49d3ef8f5d59aca9e;
   0x155d891e1db52597a9c0b4d6e6ac40094a0607c9bc523c31742ddf5eef4d4eaa;
   0x5e901e350be857b08979233122f597fc09b79c3943ac1fcd8bd220a010b2b157;
   0x67f5989c317709ce3761dca398879864eedadda702f99ca6235747e7245ca8f3;
   0xbf80eb6f8267379fbd7fb64711a3fa064e2c65bfd04bf58dca8b817dba3570e;
   0x8ac7bac12ba0cc14923b1de5d054ff5cd26cb392f9cd37aa223717637b2a39a;
   0x6b412ba716e37086ea162629ac9c880f8696d8c9d06188845ddc8e88c84d5c67;
   0x4438a957448e60fb4ed489c94adbeee64acc5d3b6c2f14c021e5adbdd7b45b67;
   0x2fb4fdfbe50f1c4ce4654e3ebec5e91f08f146c793cf473ede1a5241284ba49a;
   0x178c4dfd3ba86f2050548384249ecf71c4bd422a206f6b6a21a0019cde8aa342;
   0x5c615955edf50e27e2e55483e50308938f0061d8df8ef094de5ffe6221755cbf;
   0x431e371b67e5b1e369b3acd7001093f4a1cc4b7382a961c6042cdc510b610c75;
   0x30cf7037c1b7cb64c9862b3109914410b1f1588f7d54fa38fbd323adf49ef38c;
   0x18bffe671be7bb3770be381d1d554a5b406fd201e8f5cc40a3afe5b2094fc128;
   0x5b2da8ec0db5c210c27b9feaec4c8daa134dd20117088fbe5c501a4cf6b03ed9;
   0x5514293af972bc06e684d71edb9b48c8fbf025db383b07030c5949b99fe0cf18;
   0x1ed97e18302ac1414cb500e92e068f3c57cd7e27c7c354fbf3a6b645601f30e9;
   0x3f8f9add509bfeb324c70882829c9548813562ca05a2228a61650d680b8a6595;
   0x345e0c75d9017e950e72cf85870542bcd2884138fa5c39749e9af296f4759a6c;
   0x1de86d8766a0943a502e6324c3508a3d5d6b3c313aa95aee82f6451c0ffd9e4b;
   0x560539cbc2fce90de30b74e346514dc7f65267d1c55501107d09bae2f00261b6;
   0x2cc7f72b923064c0be698f7263e18fd0b9654ce80fe96082a1e43aaa7b821ea8;
   0x4725b027976d188774d04895a5c048349a58571af014fb7c5e1bc554847de159;
   0x5e75e4d12bf37061256021f248c7908c5b54ae98f2436032489a67c9866dd8ad;
   0x1577c281fdaa0ce70dd9b615c0da4778f868f56a0dbafbccb765983579922754;
   0x347599a26cd1eb74403a1340a2d6a1bb648497fcc49d0aa40b429d38e35259ba;
   0x3f780db0bccb91d3f2ffc4c766cb3649ef390c063b61515af4bd62c61cada647;
   0x386cdd86f64b2b584cdc6ccbf204e899823be6ce0d94c6fa2af3b166edf32104;
   0x3b80c9cc335251efe65d6b3c179cef6bd181bd34f2699504d50c4e98120cdefd;
   0x19a3b81eac8a6b93f11de21f95fdc20639fe230845799344541d2d22e8741f95;
   0x5a49ef347d1311b4421bf5e873a415ff19bf80faba84c8baabe2d2dc178be06c;
   0x268a54602f81f7daddb4495985ce8faabcfe8d642079b117e2b984147df9fa0c;
   0x4d6352f2fa1b856d55858eae83d3485a96bf169edf84aae71d467bea820605f5;
   0x2455548cbf1cc89059674f9cea35a7984cac10045770c08b8c60ff7cd1cb44b7;
   0x4f9852c66a80b4b7d9d2886b1f6c306d071193fea88d9b73739f00822e34bb4a;
   0x70524966d963f03feefe5024fc878e21d53682e1dd8e09eea1bf6608e5f02061;
   0x39b5dec50398d08443b87e30d1a49e37e872121227052105e4099f61a0fdfa0;
   0x218af2bbe685dbe29aa1cac699a261938d2e052cb748d5c0c04adf434b4e09ff;
   0x5262b4974317a16598980d416fff7671c68f9ed648b5863e3fb520bbb4b1f602;
   0x271005a1a5d4698d5ee9e090bc999a02616d28a175fac82773be83cb00213581;
   0x4cdda1b183c913bad44ff7774d083e02f2507b618a0393d78c417c33ffdeca80;
   0x543a5a3fce4392a5b6641cef26ddbb1e10c71ad10f1cb57ed38797c866a2d324;
   0x1fb34d135b59eaa27cd5bb18e2c41ce742f68931f0e1a6802c786836995d2cdd;
   0xa3e7dc08530f7efe3a32515bfe90493603b0e7eef22839ee457f3a8335b7c95;
   0x69af2992a46c85584f96b2f249b8d371f382958410dbd8601ba80c56cca4836c;
   0x1478c1ce8fe57512b096e947760ffd71d2010d11ad78e67deb7dbe225750689c;
   0x5f74e58499b8083582a2eec09391da9381bc96f152857581148241dca8af9765;
   0xaabf8671d4058336373dcdb72a544f8c70d7b400461dcb7a69e3537d4ebbcf1;
   0x6941aeec0c5d2514cfc5fb2c96fc930c8cb028c2fb9c7f475961cac72b144310;
   0x4256bd71f2c2ea600d38d4f3d4ea6f549fbcb5780f8ed96932b18098666562a4;
   0x3196e9e136da92e82601031434b768b0b400ee8af06f8295cd4e7f66999a9d5d;
   0x3ed165fbd58c5a8755dc5938773609f0e38d17454846f3841f49d74735570ea;
   0x700090f36c44b79fbddc1274822e77664584d28eab79ecc6be0b628a8caa8f17;
   0x5b5b3d073a9c55cdd85ea2235bfe4d4804fcb916c626e0e9bc29f6173ab70b65;
   0x18926a4bef01277a5adb35e4ada38abd4ec0eaec39d77b1543d609e7c548f49c;
   0x4ae39c2994f61e115e9f0991476ba4f346c37b9a1dfaaf4193724cef26d4b27a;
   0x290a0b2994a75f36d49ace76c23633120cfa2868e203acbd6c8db30fd92b4d87;
   0x53fdd80ac1ce9fe1755c33da05a269c910377a276c1c5329c1018e5e8284261e;
   0x1fefcf4867cedd66bddda42e03ff6e3c438629db93e208d53efe71a07d7bd9e3;
   0x32fe904b30cf1672d3253aaf3beeedf70045dc24dbfdb880c6163bc865dd8bfa;
   0x40ef1707f8ce66d560149d58cdb2ea0e5377c7de2400a37e39e9c4369a227407].
(** [src/crypto/blobs/omega.go:3845-3972] rows 3840 to 3967 *)
Definition omega_rows_30 : list Z :=
  [0x1af7460aee018137df4643f06e17e34196ba16207a4ed9735b36b24c6dd788a9;
   0x58f661483b9bfc1053f394179b89f4c3bd038de285af828ba4c94db292287758;
   0x6fcb49a9f4f29b3a002bc0adb6fdc0f6645051b124a48d44acceb7bbce4cc395;
   0x4225da934aae20e330e175a52a4170eef6d5251db59ceba5331484331b33c6c;
   0x455815b057415a7e25cd2e9271b27153ddce6f23222f777c94bdd9d3ac706d2;
   0x6f9825f8242967a050dd051ee286b0f015e0bd10cddb648736b42261c538f92f;
   0x10b0a9919ec5166a85cf008f30e27fbec066373acc16d886ceddaf21e77fc517;
   0x633cfdc18ad866ddad6ad778d8bf584693576cc833e78378312250dd18803aea;
   0xd0914f3cf6874649b5de195f3b709f16fcf5dfbcdebe183e6e206d7bdffab49;
   0x66e4925f5a3508e397dbf67215eace13e3ee460732127a7b191df927420054b8;
   0x2032379a5ac72106a7f3d9eeeea2803ed8620e2e04af3cb774d607ae86c135cd;
   0x53bb6fb8ced65c418b45fe191aff57c67b5b95d4fb4f1f478b29f850793eca34;
   0x56dac42675dd613b3489b26bb21f6c258fbe8983b787f09a3fda16b703ae79d7;
   0x1d12e32cb3c01c0cfeb0259c57826bdfc3ff1a7f48766b64c025e947fc51862a;
   0x1ead9334769b3974daaf8d6debc056151e4e939154c03c580acc2b5ef5216f61;
   0x5540141eb30243d3588a4a9a1de181f0356f1071ab3e1fa6f533d4a00ade90a0;
   0x36c75347f1132f4d1e57fcce6b05f903806b31e32115dd92996c19a5568c67f4;
   0x3d26540b388a4dfb14e1db399e9bdf01d352721fdee87e6c6693e659a973980d;
   0x36f1bd04f7f6b469d3ddff14a41bbd9dd2f2bdccb70a6ef709cbca5b7a65aab2;
   0x3cfbea4e31a6c8de5f5bd8f365861a6780cae63648f3ed07f63435a3859a554f;
   0x4fd29469afda287a4012a1a3ae0c60acc966f13b1ab5685cd8cdc7146b807204;
   0x241b12e979c354cdf32736645b9577588a56b2c7e548f3a2273238ea947f8dfd;
   0x3b0387ce2ad498442d5e019288a337976e7853b66b61d5200372e53f548f8ce3;
   0x38ea1f84fec8e50405dbd67580fea06de545504c949c86defc8d1abfab70731e;
   0x56b5a63dfd84ffaec090ac87917778335b70bff3af461bc0ca31c421a753efa0;
   0x1d3801152c187d9972a92b80782a5fd1f84ce40f50b8403e35ce3bdd58ac1061;
   0x455e5d229a04387d9c5d5a214d0488f0efc5373ec9c8343b1e4ca4d8ce229e36;
   0x2e8f4a308f9944ca96dc7de6bc9d4f1463f86cc4363627c3e1b35b2631dd61cb;
   0x13dea72bf8109fde405a5c49fdd08245805dcdee102c3ba87f2f48f3eb5d88d3;
   0x600f0027318cdd69f2df7bbe0bd155bfd35fd614efd2205680d0b70b14a2772e;
   0x63218b9ab81f31622738fb770b6f7db0fdd2826073fe1c3d9541142e4bebfa33;
   0x10cc1bb8717e4be60c00dc90fe325a5455eb21a28c003fc16abeebd0b41405ce;
   0x230aed9f7c0b36665bc1b21db066728eec2655a4f2a71153bc164249c8f6ae4c;
   0x50e2b9b3ad9246e1d77825ea593b657667974e5e0d574aab43e9bdb5370951b5;
   0x1824d75bff8bc844cda745819c6a6919347c28ba9fd6add445358152fe9e30e;
   0x726b59dd69a4c0c3e65f63afefdb3173c075e1775600f121bbaca7e9d0161cf3;
   0x2cc2de70f6f89e7b9b7862421542c6ade1eccbd814da06896454b1247b57539e;
   0x472ac8e232a4decc97c175c5f45f115771d0d82aeb2455759bab4eda84a8ac63;
   0x44ddd97a1ce103e07e6e65b246bd53301594d9614b087f3c1980045ae4b78723;
   0x2f0fcdd90cbc7967b4cb7255c2e484d53e28caa1b4f5dcc2e67ffba41b4878de;
   0x3f3d3cb2c5f57ea5b26b1d49f27a08e55751fbc98b29ffba9c5a4354bbba58aa;
   0x34b06aa063a7fea280cebabe1727cf1ffc6ba83974d45c4463a5bcaa4445a757;
   0x593ae37eb8a506acf1f91c7b55db3a8be461db1d1b9c0b08cb773551758ecaa4;
   0x1ab2c3d470f8769b4140bb8cb3c69d796f5bc8e5e46250f63488caad8a71355d;
   0x5ec06690ae243ef976f6b24227dd5cb253444d8a302c8da96e37bfb94751e58e;
   0x152d40c27b793e4ebc4325c5e1c47b5300795678cfd1ce5591c84045b8ae1a73;
   0x2eb2a1529986e0edb5dd9e2d3dd12687a93dfdc600984107cda32780a77f8f5f;
   0x453b060090169c5a7d5c39dacbd0b17daa7fa63cff661af7325cd87e588070a2;
   0x5750ea05243f47f6f7db687fb68d902acb2489344a456b47cae21e3bd7150af7;
   0x1c9cbd4e055e35513b5e6f88531447da88991aceb5b8f0b7351de1c328eaf50a;
   0x4c36fcc67803f85a9d91f530887530a761ca05a65a819a818d65f283960c64f6;
   0x27b6aa8cb19984ed95a7e2d7812ca75df1f39e5ca57cc17d729a0d7b69f39b0b;
   0x7192a5fa42eabba5613a5c9f9b3231c3b65c3a002f47ebc42d07692bea45f396;
   0x25b0158e6b2c1a2d1ff7b686e6fa6419d616a02d0b6703ad2f896d315ba0c6b;
   0x165859ff4eddaac6fee6711ca11606eba0eceaad029bec7ce943f9b1660bb1a9;
   0x5d954d53dabfd281345366eb688bd119b2d0b955fd626f8216bc064d99f44e58;
   0x497087019792e16ae4979dbd6023b97478218f1dd4394b56b4953e423b9c04e0;
   0x2a7d2051920a9bdd4ea23a4aa97e1e90db9c14e52bc510a84b6ac1bcc463fb21;
   0x59ba624c06087cb6ad30ccd8f447ed080a37f73343b719ecede15ecd60b3df65;
   0x1a3345072395009186090b2f1559eafd4985accfbc474212121ea1319f4c209c;
   0x27462d2f2b315a015393dcc435c95bf3a467cc6e972110032c5ece8b055e8a9;
   0x7179448036ea67a81e009a3bc64542461977273c168c4afecd3a13164faa1758;
   0x43c84e5fe188f49e4f87f802ec2872f93ec2941dbdeb3eff86bbc2821a7c954d;
   0x302558f3481488a9e3b1e0051d79650c14fb0fe542131cff79443d7ce5836ab4;
   0x4b9b9106ee3a43fd12880e5eefdbae2ab65315b31507ceb8d2aa93f770b9c8e1;
   0x2852164c3b63394b20b1c9a919c629da9d6a8e4feaf68d462d556c078f463720;
   0x60c6aa51988e575837557c3b5ebdfea8e8cbd2211181fe944077e77ff3104df5;
   0x1326fd01910f25effbe45bccaae3d95c6af1d1e1ee7c5d6abf88187f0cefb20c;
   0x5f7cf61c4bca67ebd5e3fdd1c6dc2cea86e7ea60eb7cbec10bffa78086fdf997;
   0x1470b136ddd3155c5d55da3642c5ab1accd5b9a214819d3df400587e7902066a;
   0x8b5f91f5315f9552e1b95e6b724cde4eeade32f51e3b92db7b324b4eaa555a9;
   0x6b37ae33d68783f3051e4221527d0a20650fc0d3ae1aa2d1484cdb4a155aaa58;
   0x37027d7b53ab5425e3b013ebe22d4afdb4f8a4660d27320008b429fd878ffa9e;
   0x3ceb29d7d5f229224f89c41c27748d079ec4ff9cf2d729fef74bd60178700563;
   0x4d4cb1694de1defdc9b305be4031baafd7d3a1081b7dc34879cad7e40b802754;
   0x26a0f5e9dbbb9e4a6986d249c9701d557bea02fae48098b68635281af47fd8ad;
   0x4de281b1b3b9f48d763ed728d201436845bb4de382da6cec9b679276f6e92cd5;
   0x260b25a175e388babcfb00df37a0949d0e02561f7d23ef1264986d880916d32c;
   0x168e9cede62c18b938f1b083fb184c56efea794c0e0d6b46940f19dbc185b43;
   0x7284bd844b3abbbc9faabcffc9f0533fe4befc6e3f1d854a96bf0e6143e7a4be;
   0x446ac395d5f911b303cec6f905265aae1aadf465bebef8ccebfad58878130b3d;
   0x2f82e3bd53a46b952f6b110f047b7d57390faf9d413f633214052a7687ecf4c4;
   0x364f36fa2b47ddb5a73c6e65398047a509f1ddab1d4fa82932aebc0965a4202;
   0x7088b3e386e8ff6cd8c61121b609d38b031e86284e29617c6cd5143e69a5bdff;
   0x177b849c98537bacc5b2f69cad1dade64bc769faa4402f293c314964fd4408c9;
   0x5c7222b6914a019b6d86e16b5c842a1f07f63a085bbe2cd5c3ceb69a02bbf738;
   0x386479a31835c7e2ccb2e5196d0deb2ba579365f811d5769926a3c0cfe4005c3;
   0x3b892db01167b5656686f2ee9c93ecd9ae446da37ee104956d95c3f201bffa3e;
   0x6f87668413c019df4374af12eabf9828936df44639124f2ba81be6d8edda7638;
   0x46640cf15dd6368efc528f51ee23fdcc04fafbcc6ec0cd357e41926122589c9;
   0x354bb856c1b52cf9492d043c2e74cf231b43a907c09f060427d329827aa98fff;
   0x3ea1eefc67e8504eea0cd3cbdb2d08e23879fafb3f5f55fad82cd67c85567002;
   0x2770f53d6c54c0941a9861e5c72b0d523b9bf92bae7e7fe896a2d7f2d01187c;
   0x717697ff52d8313ef19051e9ad2f27303003e470451674007695d27fd2fee785;
   0x6801732533ddaf1a10b0beb4fee8a1769d1b0da0ac3997d798ff94a498f96017;
   0xbec342df5bfce2e228919530ab9368eb6a2966253c4c42767006b5a67069fea;
   0x2fff105c8329a6955caccf15dda0d8ad0326c30fdbf9ba3500c4ee9032afcc94;
   0x43ee96f6a673d6b2d68d08f22c00ff585096e0f32404a1c9ff3b116ecd50336d;
   0xcc26e8046dfa7d7b0dba6fd299e303d1d236a92397b76349a0f0a5f9fbb73b7;
   0x672b38d2e2bdd570825e310ae003a7c8369a3970c682e5ca65f0f59f60448c4a;
   0x4f3a7aa88f051d3d6e47e7481dbd70b7383b84c03955634d9dafd3593bc10665;
   0x24b32caa9a98600ac4f1f0bfebe4674e1b821f42c6a8f8b162502ca5c43ef99c;
   0x2b67b82069c37ab55ff8776e9d4b0001120a98ca924c9853cdf99d946705e265;
   0x4885ef32bfda0292d34160996c56d80441b30b386db1c3ab3206626a98fa1d9c;
   0x455ecd6afbf40e773e053844b1d7c4c0ec50631ef088678db03b789302413b7c;
   0x2e8ed9e82da96ed0f5349fc357ca1344676d40e40f75f4714fc4876bfdbec485;
   0xdb4ce9f04a28d115ecc4f16874611b1421279da43e3f45b1ede5de981ebf8f8;
   0x6638d8b424faf036d46d88f1825bc65411ab2a28bc1a67a3e121a2157e140709;
   0x5133e821190696fc5d6ecc9a8405e0562991e47e376c2e5b6ff7d691b3198b23;
   0x22b9bf321096e64bd5cb0b6d859bf7af2a2bbf84c8922da39008296d4ce674de;
   0x567910302a2f39be6d2099caa9324c56d8c528e11bb8f362bbb3efec893f294f;
   0x1d749722ff6e4389c6193e3d606f8bae7af87b21e445689c444c101276c0d6b2;
   0x76739e84003bec789aed56b517a468ead83c84ed265e50977e9c4587dfe508;
   0x737733b4a59d415bba9eeab1548a339c68e5677e12d7fdae688163b978201af9;
   0x643cef848d536f6afc0071a614f0a4770c235c660dcd47d87bf14d05ce8047ea;
   0xfb0b7ce9c4a0ddd37396661f4b1338e479a479cf2311426840eb2f9317fb817;
   0x24c9e117dc9238c29fb9c14a0e4d763a007f1ed0313f9e0fe150bea48f8d1dea;
   0x4f23c63b4d0b4485938016bdfb5461cb533e8532cebebdef1eaf415a7072e217;
   0x1d2de041d03cc117b367e019a72093178381791f3a6308454c51bb17349f0783;
   0x56bfc7115960bc307fd1f7ee628144edd03c2ae3c59b53b9b3ae44e7cb60f87e;
   0x55b6641539037f771f1b83b02e67527a4dc3ba13d252c0e88f18500f83965a8e;
   0x1e37433df099fdd1141e5457db3a858b05f9e9ef2dab9b1670e7afef7c69a573;
   0x27e4cdc36f88410f5d7bfef36de3b78345502a77ae6332fa6600254a7d754be;
   0x716f5a76f2a4f9373d621818d2c39c8d1f68a15b851828cf599ffdaa5828ab43;
   0x4f914a2297423679aee4b37190faa6c7d58d41cd7ab1753ea7303c63152c1640;
   0x245c5d30925b46ce8455249678a7313d7e306235854ce6c058cfc39bead3e9c1;
   0x37d246ae7297a21a8f4310cd2220399c8887cba345c1658b64271241619da532;
   0x3c1b60a4b705db2da3f6c73ae7819e68cb35d85fba3cf6739bd8edbd9e625acf].
(** [src/crypto/blobs/omega.go:3973-4100] rows 3968 to 4095 *)
Definition omega_rows_31 : list Z :=
  [0x258b1331dca429aad2f2eb5255c656c9022651d853c9eca95343e645167ee188;
   0x4e6294214cf9539d6046ecb5b3db813c5197522aac346f55acbc19b9e9811e79;
   0x3596e4164e07f2ab58063db3959fe0ef235390d0e60bdfb3b93907b7592ea586;
   0x3e56c33cdb958a9cdb339a547401f716306a133219f27c4b46c6f847a6d15a7b;
   0x381175e0a5e4145fb34bad5f4e9cfdb6f3b8b209e98b7e0f2fa61198c7de7bd4;
   0x3bdc317283b968e87fee2aa8bb04da4e6004f1f91672ddefd059ee663821842d;
   0x11d0812b15a0625c3583f1f0c36ae9d2f56e76cf4f775ba9242cce972bd82d65;
   0x621d262813fd1aebfdb5e6174636ee325e4f2d33b0870055dbd33167d427d29c;
   0x17bf5fa6f3c3db8efc130759d8cd8c1f9d7524de9c02b81cf5045a21462659cf;
   0x5c2e47ac35d9a1b93726d0ae30d44be5b6487f2463fba3e20afba5ddb9d9a632;
   0x28ffc2a34bbcc1de81c01f6a38e43c715066175e422e5e04509c353c559ce0e4;
   0x4aede4afdde0bb69b179b89dd0bd9b9403578ca4bdcffdfaaf63cac2aa631f1d;
   0x713f95c68591a521990ffbee982e626b47c17fed2efa16c0bf255236c073301f;
   0x2ae118ca40bd8269a29dc197173759a0bfc2415d104453e40daadc83f8ccfe2;
   0x64182b1236ce1f78bd6f986d418b46797f37692cb91745a591e0a5ec1dbb4517;
   0xfd57c40f2cf5dcf75ca3f9ac816918bd4863ad646e716596e1f5a12e244baea;
   0x5d2047fe2645c3ccca5cf55c4cee43e80b743adadff7878293e97ac2c7bf5f23;
   0x16cd5f550357b97b68dce2abbcb3941d484969282006d47c6c16853c3840a0de;
   0x6ae45d84c1e11520848c1259d579deff611f5b434515524094eb42b26bd7cec8;
   0x90949ce67bc6827aeadc5ae3427f905f29e48bfbae909be6b14bd4c94283139;
   0x4d4e4fe4101d764247b839b40665b9ab317a83f4b3620a8bc1ab543280174b65;
   0x269f576f19800705eb819e54033c1e5a2243200e4c9c51733e54abcc7fe8b49c;
   0x4f05479f6d036dbe156e6d5f1cd1d9583516e6f88f393313659ed34f1ba7c758;
   0x24e85fb3bc9a0f8a1dcb6aa8eccffead1ea6bd0a70c528eb9a612cafe45838a9;
   0x61dfae41472c7c0e590ce3fe74cee9cc36b4744f8cf411c654449ec24eff1d4a;
   0x120df911e2710139da2cf40994d2ee391d092fb3730a4a38abbb613cb100e2b7;
   0x3d49457a8a468be812b6b2973fbcaa7c771b7ec3a436588065b8118cdf67b4c8;
   0x36a461d89f56f16020832570c9e52d88dca2253f5bc8037e9a47ee7220984b39;
   0x46868dc1af53e39e07ae39bf50998fa4073412c9cd2a9b3731e9ab2413ce6403;
   0x2d6719917a4999aa2b8b9e48b90848614c89913932d3c0c7ce1654daec319bfe;
   0x3fb72f0c9a6585b33115765c3d23d4949e89c1bd2dd357cf20f00f1e8819ff37;
   0x343678468f37f795022461abcc7e0370b533e245d22b042fdf0ff0e077e600ca;
   0x25de557b73b7e48b242355a680b717f586dd464b1c886d78042cef5c92e33195;
   0x4e0f51d7b5e598bd0f16826188eac00fcce05db7e375ee86fbd310a26d1cce6c;
   0x54de602954fc0ca6ba46042c3d326406d9edf499ef3076be4475c4d42b7a4b38;
   0x1f0f4729d4a170a178f3d3dbcc6f73fe79cfaf6910cde540bb8a3b2ad485b4c9;
   0x5861f2d45a69922bb0a0d0c53a6b502beffcd31b702dd686c47e6812cda15c19;
   0x1b8bb47ecf33eb1c82990742cf3687d963c0d0e78fd085783b8197ec325ea3e8;
   0x4067f9f2176adc1d48e923008e61d9c58e8425612ae7e671237bffd304e4fe50;
   0x3385ad611232a12aea50b5077b3ffe3fc5397ea1d516758ddc84002bfb1b01b1;
   0x33558bcb55478df34740bade3183ade28ba411117fb1be0bb14f4f365c1b600;
   0x70b84e9674490468fec5cc5a26899d272b0362f1e803401e44eb0b0b9a3e4a01;
   0x63299424325317c08c97b1f14e6a7312cd9fcc4cdb6f0c10a87049c0b5897879;
   0x10c4132ef74a6587a6a22616bb3764f2861dd7b6248f4fee578fb63e4a768788;
   0x65eb090a68110f9092a633fc64cef521ba9f899703062de0d3baa1acb4e5b0f5;
   0xe029e48c18c6db7a093a40ba4d2e2e3991e1a6bfcf82e1e2c455e524b1a4f0c;
   0x573a0f2dbc497381f411d51f076e4466ded96ff2cd8b2f2e472cb619daac4bd2;
   0x1cb398256d5409c63f2802e90233939e74e4341032732cd0b8d349e52553b42f;
   0x6dbca3313c8414b9bdb48d3a72566086b0b84c544876a9c789aa8cb2686396ce;
   0x6310421ed19688e75854acd974b777ea30557aeb787b2377655734c979c6933;
   0x51a0ecb3aff7822dc90fd38cadbdeab57ee7613894a9b5c86333defbe1eafec8;
   0x224cba9f79a5fb1a6a2a047b5be3ed4fd4d642ca6b54a6369ccc21031e150139;
   0x8f3656984a80d04d77f485529026c165cbd99d6f7d72c9825c9330c166c32b6;
   0x6afa41e9a4f570435bba8fb2e09f6beef7000a2c08272f66da36ccf2e993cd4b;
   0x123666b749227bc79c2b526b533ce6736d00ac7d231f0dcc77f716ad84ec3f4e;
   0x61b7409be07b0180970e859cb664f191e6bcf785dcdf4e328808e9517b13c0b3;
   0x4ca470a52543032792c60337c3de194e2844df453062977b35a87e2790b1aa63;
   0x274936ae045a7a20a073d4d045c3beb72b78c4bdcf9bc483ca5781d76f4e559e;
   0x10c43f6e8235ecae3905159358e0d38ebb009c43f83b178b774638c79cf5dc1f;
   0x632967e4a7679099fa34c274b0c1047698bd07bf07c3447388b9c737630a23e2;
   0x51aecb3d2bb78a0443275a5062c289ae5a2a876351c2a2215759eb2f01eda387;
   0x223edc15fde5f343f0127db7a6df4e56f9931c9fae3bb9dda8a614cffe125c7a;
   0x52cbb5e368fea545ec1883b4b3c9abedbfa8a3a7f2912453021ed75861bf15b2;
   0x2121f16fc09ed8024721545355d82c179415005b0d6d37abfde128a69e40ea4f;
   0x48310fab03bda4f931faf27e04e17cf31b99bf3cadf47500466419f0acda4132;
   0x2bbc97a825dfd84f013ee58a04c05b123823e4c65209e6feb99be60e5325becf;
   0x3f5218dfadf4968e6c38c06e52f5b192282af33beac6f68086ebdd53f2e05b8c;
   0x349b8e737ba8e6b9c7011799b6ac26732b92b0c71537657e791422ab0d1fa475;
   0x3c407d758178f8009d3d7a7ff033103d20532ae018561e10623432bc97e66621;
   0x37ad29dda824854795fc5d88196ec7c8336a7922e7a83dee9dcbcd42681999e0;
   0x532740fa9e92971b3b44484802d2908ee15fdb8562ecaee38095506aaf2ed4e8;
   0x20c666588b0ae62cf7f58fc006cf4776725dc87d9d11ad1b7f6aaf9450d12b19;
   0x6c42433aacc79664fd54b05535ed75859c00587548157407cc2c1b551422388;
   0x6d29831f7ed103e1e3648d02b64300acf9fd9e7bab7d04be833d3e49aebddc79;
   0xb72e87fd6b51c9c4226a334d73bebcb2babf9af77e7e83655b9012175a8cc3b;
   0x687abed352e860abf11334d33265ec3a2811aa53881673c8aa46fedd8a5733c6;
   0x68e3edc455355287c6bf314728f76720641fbcdb53444abbab0181bccc152b72;
   0xb09b98ed4682ac06c7aa6c0e0aa70e4ef9de727acba114354fe7e4233ead48f;
   0x64a3c12baea83c091f5a39e548082c88075603226dcddca5147d1e72d2b5d06e;
   0xf49e6277af5413f13df9e22c199ab7d4c67a0e092307f59eb82e18c2d4a2f93;
   0x5a31ef6739da92bc569aa8da7c3ebc2a852ed8500386c76648c8e50cb39616ec;
   0x19bbb7ebefc2ea8bdc9f2f2d8d631bdace8ecbb2fc779498b7371af24c69e915;
   0x68022a8f2e2a85919ad23e75d282b2d3b6fe3a2e7b95c6469630cf3b08b533d4;
   0xbeb7cc3fb72f7b698679992371f25319cbf69d4846895b869cf30c3f74acc2d;
   0x23ced4cb52a34e3d7519670d09634336d4cae90dfb3c0064c6123fa45fb28c2e;
   0x501ed287d6fa2f0abe2070fb003e94ce7ef2baf504c25b9a39edc05aa04d73d3;
   0x6964e145a4a45855dd7ae283294477734f5ca0f385906331980144927341bf91;
   0xa88c60d84f924f255bef584e05d60920461030f7a6df8cd67febb6c8cbe4070;
   0x46cffb32f90ffda0d607ced8ce69bc11a9a47df0bc824e8ea22755dfe7bb9750;
   0x2d1dac20308d7fa75d32092f3b381bf3aa192612437c0d705dd8aa1f184468b1;
   0x79114461e4a1131fa3b366dda348f3893ec958cdc54a63cc7a96c1c03278845;
   0x6c5c930d0b536c1638fea19a2f6d48ccbfd10e7623a9b5c2385693e2fcd877bc;
   0x2b0fe3e21a204627ca43fa39cf3715caadb5abf8c3e544b7cec40dd9d4019abd;
   0x48ddc3710f7d372068f5ddce3a6ac23aa607f80a3c191747313bf2252bfe6544;
   0x688a56c300383c82d6ab35ba4d5db3f1f740722db5a2fdf30997af02bca933c9;
   0xb635090296540c55c8ea24dbc4424135c7d31d54a5b5e0bf66850fc4356cc38;
   0x4b12eb803c23772e9c6afb16ff55ea304f564fcbc247d6d6ac9cc344a8cfff5a;
   0x28dabbd2ed7a061996cedcf10a4bedd5046754373db6852853633cba573000a7;
   0x22a4665f2b83a6deb7fdceb13345570e65cdd1364d8cfacb93f88bc67b7b3721;
   0x514940f3fe19d6697b3c0956d65c80f6edefd2ccb27161336c0774388484c8e0;
   0x2d69cf43948b469bcd431486dfe074f0000e9d35b6ed76adf7713ef284c069ff;
   0x4683d80f951236ac65f6c38129c1631553af06cd4910e551088ec10c7b3f9602;
   0x2ffb70bfd3999432941131a1638c47aaf667d80e0380c9dd297e9abd55f848ed;
   0x43f236935603e9159f28a666a615905a5d55cbf4fc7d9221d6816541aa07b714;
   0x1d7fe7910a9571c7e580abd9bdea6630918032cefe4d368500c64cd40384f439;
   0x566dbfc21f080b804db92c2e4bb771d4c23d713401b12579ff39b32afc7b0bc8;
   0x6fc8d8bc987365098ce1593a825ad83ef5121d901c68c49123c031d18d8c2649;
   0x424ce96912a183ea6587ecd8746ffc65eab8672e395976ddc3fce2d7273d9b8;
   0x3414ab942a7f28f2aeb5acc56ef4dd0686e9d91c5935fd49f4b6cc71968e9630;
   0x3fd8fbbeff1e545584842b429aacfafeccd3cae6a6c85eb50b49338d697169d1;
   0x503dd11e6709e3150b19cc92362eeaac7940d3a6dad17cfb58253c958a750acb;
   0x23afd634c2939a3328200b75d372ed58da7cd05c252cdf03a7dac369758af536;
   0xe42032dedb0b892480e75bd26e4e2ccb325871b96c0742e75161473966a53f7;
   0x65aba4253becc4b5eb2b624ae2bcf538a0981ce7693de7d08ae9eb8b6995ac0a;
   0x3381baeda02a6ff092a7ec5a61b18bafed309054dce40022360156e8b623013e;
   0x406bec6589730d57a091ebada7f04c55668d13ae231a5bdcc9fea91649dcfec3;
   0x60a20a33a25ac40a26f8483151cc7c8088a9d4bab0b502dd86edbea447c942d5;
   0x134b9d1f8742b93e0c418fd6b7d55b84cb13cf484f4959217912415ab836bd2c;
   0x1fa4eb58904936dbdf2b8960761678b86c269bddbc2b9df4ce9a534745bfd613;
   0x5448bbfa9954466c540e4ea7938b5f4ce797082543d2be0a3165acb7ba4029ee;
   0x2c4cd3a3929c4bb36342213767f33397b9c4c8739d4475765bf0e8fec7a9af22;
   0x47a0d3af97013194cff7b6d0a1aea46d99f8db8f62b9e688a40f1700385650df;
   0xb04948861351141f0f5093f56be4518ad8c7a99da8938647073084001146f23;
   0x68e912cac8686c064244cec8b2e392eca63129692575239a8f8cf7befeeb90de;
   0x4f97a824ff74aa74280674d32da105c40dab88365b6035748de74346b283c145;
   0x2455ff2e2a28d2d40b336334dc00d24146121bcca49e268a7218bcb84d7c3ebc;
   0x3ad27efc6393c8cfe857780d4fc57e7f0376d28a9be629fb69e5dad127abcc9f;
   0x391b2856c609b4784ae25ffab9dc59865046d17864183203961a252dd8543362].

(** [src/crypto/blobs/omega.go:4-4101] the table is the rows in order *)
Definition omegaHex : list Z :=
  concat [omega_rows_0; omega_rows_1; omega_rows_2; omega_rows_3; omega_rows_4; omega_rows_5; omega_rows_6; omega_rows_7;
          omega_rows_8; omega_rows_9; omega_rows_10; omega_rows_11; omega_rows_12; omega_rows_13; omega_rows_14; omega_rows_15;
          omega_rows_16; omega_rows_17; omega_rows_18; omega_rows_19; omega_rows_20; omega_rows_21; omega_rows_22; omega_rows_23;
          omega_rows_24; omega_rows_25; omega_rows_26; omega_rows_27; omega_rows_28; omega_rows_29; omega_rows_30; omega_rows_31].

(** ** The native domain, computed *)

(** The order of BLS12-381's scalar field. *)
Definition bls12_381 : Z := 0x73eda753299d7d483339d80809a1d80553bda402fffe5bfeffffffff00000001.

Fixpoint roots_words (r generator x : BigN.t) (n : nat) : list Z :=
  match n with
  | O => []
  | S n => BigN.to_Z x :: roots_words r generator (BigN.modulo (BigN.mul x generator) r) n
  end.
Fixpoint square_words (r : BigN.t) (k : nat) (x : BigN.t) : BigN.t :=
  match k with O => x | S k => square_words r k (BigN.modulo (BigN.mul x x) r) end.

Lemma mul_words r x y z : BigN.to_Z x = z → BigN.to_Z (BigN.modulo (BigN.mul x y) r) = (z * BigN.to_Z y) mod BigN.to_Z r.
Proof. intros <-. by rewrite BigN.spec_modulo, BigN.spec_mul. Qed.
Lemma roots_words_spec r g x n :
  roots_words r g x n = domain_roots (BigN.to_Z r) (BigN.to_Z g) (BigN.to_Z x) n.
Proof. revert x. induction n as [|n IH]; intros x; simpl; [done|]. by rewrite IH, (mul_words r x g _ eq_refl). Qed.
Lemma square_words_spec r k x : BigN.to_Z (square_words r k x) = square_times (BigN.to_Z r) k (BigN.to_Z x).
Proof. revert x. induction k as [|k IH]; intros x; simpl; [done|]. by rewrite IH, (mul_words r x x _ eq_refl). Qed.

Definition domain_words (r root : BigN.t) : list Z :=
  let domainRoots := roots_words r (square_words r 20 (BigN.modulo root r)) 1%bigN 4096 in
  (λ i, default 0 (domainRoots !! Z.to_nat (bitReverse (Z.of_nat i) 12))) <$> seq 0 4096.
Definition words_of (z : Z) : BigN.t := BigN.of_N (Z.to_N z).
Lemma words_of_spec z : 0 ≤ z → BigN.to_Z (words_of z) = z.
Proof. intros Hz. unfold words_of. by rewrite BigN.spec_of_N, Z2N.id. Qed.
Lemma domain_words_spec r : 0 ≤ r → domain_words (words_of r) (words_of rootOfUnity) = omega_domain r.
Proof.
  intros Hr. unfold domain_words, omega_domain. rewrite roots_words_spec, square_words_spec, BigN.spec_modulo.
  by rewrite !words_of_spec by done.
Qed.
Definition table_eqb : list Z → list Z → bool :=
  fix eqb l k := match l, k with [], [] => true | x :: l, y :: k => (x =? y) && eqb l k | _, _ => false end.
Lemma table_eqb_eq l k : table_eqb l k = true → l = k.
Proof.
  revert k. induction l as [|x l IH]; intros [|y k]; simpl; try done.
  intros [->%Z.eqb_eq ->%IH]%andb_prop. done.
Qed.

(** C38: The circuit and the node evaluate over the same domain: the 4096 constants of the table are, in
    order, the powers of the root of unity in bit-reversed order that the native evaluation
    computes, so the constraints of the circuit are about the value that the node publishes. *)
Theorem circuit_domain_is_native : omegaHex = omega_domain bls12_381.
Proof. rewrite <- domain_words_spec by done. apply table_eqb_eq. vm_cast_no_check (eq_refl true). Qed.
