(* ===== verification/Gnark.v ===== *)
(** * Circuits

    The arithmetic of gnark circuits, over the field of the circuit, and the helpers of
    [src/circuits/helpers.go] and [src/census/gnark.go]. A value of the circuit is a
    field element; an assertion is a boolean, and a circuit is satisfied when all of
    them are true. gnark's boolean operations take bits, which every use here gives them.
    The gadgets of other packages are parameters: the Poseidon hash, the sparse Merkle
    tree, the census proofs, the recursive verifier. *)

From S2P Require Import Prelude Bytes Spec Types Census Curve ElGamal.

(** ** The field *)

(** Integers modulo [modulus]. *)
Class Field := {
  F : Type;
  F_dec :: EqDecision F;
  modulus : Z;
  F_of : Z → F;
  F_to : F → Z;
  modulus_gt : two64 < modulus;
  F_to_of z : F_to (F_of z) = z mod modulus;
  F_of_to a : F_of (F_to a) = a }.

Section api.
Context `{Field}.
#[export] Instance F_to_inj : Inj (=) (=) F_to.
Proof. intros a b Hab. by rewrite <-(F_of_to a), Hab, F_of_to. Qed.
#[export] Program Instance F_countable : Countable F :=
  inj_countable F_to (λ z, Some (F_of z)) _.
Next Obligation. intros a. cbn. by rewrite F_of_to. Qed.

Definition zero : F := F_of 0.
Definition one : F := F_of 1.
Definition api_Add (a b : F) : F := F_of (F_to a + F_to b).
Definition api_Sub (a b : F) : F := F_of (F_to a - F_to b).
Definition api_Mul (a b : F) : F := F_of (F_to a * F_to b).
Definition api_IsZero (a : F) : F := if bool_decide (a = zero) then one else zero.
Definition api_And (a b : F) : F := api_Mul a b.
Definition api_Or (a b : F) : F := api_Sub (api_Add a b) (api_Mul a b).
Definition api_Select (c a b : F) : F := api_Add (api_Mul c (api_Sub a b)) b.
Definition api_AssertIsEqual (a b : F) : bool := bool_decide (a = b).
Definition api_AssertIsLessOrEqual (a b : F) : bool := F_to a <=? F_to b.

(** [src/circuits/helpers.go:21-23] *)
Definition AssertIsEqualIf (condition i1 i2 : F) : bool := api_AssertIsEqual (api_Select condition i1 i2) i2.
(** [src/circuits/helpers.go:27-29] *)
Definition AssertTrueIf (condition mustBeTrue : F) : bool := AssertIsEqualIf condition mustBeTrue one.

(** [src/census/gnark.go:14-22] *)
Definition IsMerkleTreeCensusOrigin (origin : F) : F :=
  api_Or (api_Or (api_IsZero (api_Sub origin (F_of CensusOriginMerkleTreeOffchainStaticV1)))
                 (api_IsZero (api_Sub origin (F_of CensusOriginMerkleTreeOffchainDynamicV1))))
         (api_IsZero (api_Sub origin (F_of CensusOriginMerkleTreeOnchainDynamicV1))).
(** [src/census/gnark.go:28-30] *)
Definition IsCSPCensusOrigin (origin : F) : F :=
  api_IsZero (api_Sub origin (F_of CensusOriginCSPEdDSABabyJubJubV1)).
(** [src/census/gnark.go:34-39] *)
Definition IsValidCensusOrigin (origin : F) : F :=
  api_Or (IsMerkleTreeCensusOrigin origin) (IsCSPCensusOrigin origin).

(** ** Bits *)

Definition bit (b : bool) : F := if b then one else zero.
Lemma F_to_range a : 0 ≤ F_to a < modulus.
Proof. rewrite <-(F_of_to a), F_to_of. apply Z.mod_pos_bound. pose proof modulus_gt. unfold two64 in *. lia. Qed.
Lemma F_to_small z : 0 ≤ z < modulus → F_to (F_of z) = z.
Proof. intros Hz. by rewrite F_to_of, Z.mod_small. Qed.
Lemma F_of_small_inj a b : 0 ≤ a < modulus → 0 ≤ b < modulus → F_of a = F_of b → a = b.
Proof. intros Ha Hb Hab%(f_equal F_to). by rewrite !F_to_small in Hab. Qed.
Lemma F_of_mod z w : z mod modulus = w mod modulus → F_of z = F_of w.
Proof. intros Heq. apply F_to_inj. by rewrite !F_to_of. Qed.
Lemma modulus_gt1 : 60 < modulus.
Proof. pose proof modulus_gt. unfold two64 in *. lia. Qed.
Lemma F_to_zero : F_to zero = 0.
Proof. pose proof modulus_gt1. by apply F_to_small; lia. Qed.
Lemma F_to_one : F_to one = 1.
Proof. pose proof modulus_gt1. by apply F_to_small; lia. Qed.
Lemma F_to_bit b : F_to (bit b) = if b then 1 else 0.
Proof. destruct b; [apply F_to_one|apply F_to_zero]. Qed.
Lemma one_ne_zero : one ≠ zero.
Proof. intros Heq%(f_equal F_to). by rewrite F_to_one, F_to_zero in Heq. Qed.
Lemma bit_inj a b : bit a = bit b → a = b.
Proof. destruct a, b; cbn; try done; [|intros Heq; symmetry in Heq]; intros; exfalso; by apply one_ne_zero. Qed.
Lemma bit_one b : bit b = one ↔ b = true.
Proof. split; [apply (bit_inj b true)|by intros ->]. Qed.
Lemma IsZero_bit a : api_IsZero a = bit (bool_decide (a = zero)).
Proof. unfold api_IsZero. by case_bool_decide. Qed.
Lemma not_bit b : api_Sub one (bit b) = bit (negb b).
Proof. unfold api_Sub. rewrite F_to_one, F_to_bit. by destruct b. Qed.
Lemma and_bit a b : api_And (bit a) (bit b) = bit (a && b).
Proof. unfold api_And, api_Mul. rewrite !F_to_bit. by destruct a, b. Qed.
Lemma mul_bit a b : api_Mul (bit a) (bit b) = bit (a && b).
Proof. apply and_bit. Qed.
Lemma or_bit a b : api_Or (bit a) (bit b) = bit (a || b).
Proof.
  unfold api_Or, api_Add, api_Mul, api_Sub. pose proof modulus_gt1.
  rewrite !F_to_bit, !F_to_of. destruct a, b; cbn -[Z.modulo];
    rewrite ?(Z.mod_small 2), ?(Z.mod_small 1), ?(Z.mod_small 0) by lia; done.
Qed.
Lemma add_0_r a : api_Add a zero = a.
Proof. unfold api_Add. by rewrite F_to_zero, Z.add_0_r, F_of_to. Qed.
Lemma Select_bit c a b : api_Select (bit c) a b = if c then a else b.
Proof.
  unfold api_Select, api_Mul, api_Add, api_Sub. pose proof modulus_gt1. apply F_to_inj.
  rewrite !F_to_of, F_to_bit. destruct c.
  - rewrite Z.mul_1_l, Z.mod_mod, Z.add_mod_idemp_l by lia. replace (F_to a - F_to b + F_to b) with (F_to a) by lia.
    apply Z.mod_small, F_to_range.
  - rewrite Z.mul_0_l, Z.mod_0_l, Z.add_0_l by lia. apply Z.mod_small, F_to_range.
Qed.
Lemma sub_zero_iff a b : api_Sub a b = zero ↔ a = b.
Proof.
  unfold api_Sub. split.
  - intros Heq%(f_equal F_to). rewrite F_to_of, F_to_zero in Heq. apply F_to_inj.
    pose proof (F_to_range a). pose proof (F_to_range b). pose proof modulus_gt1 as Hm.
    assert (Hne : modulus ≠ 0) by lia. apply Z.mod_divide in Heq as [k Hk]; [|exact Hne].
    assert (k = 0) as -> by nia. lia.
  - intros ->. by rewrite Z.sub_diag.
Qed.
Lemma IsZero_sub a b : api_IsZero (api_Sub a b) = bit (bool_decide (a = b)).
Proof. rewrite IsZero_bit. f_equal. apply bool_decide_ext, sub_zero_iff. Qed.
Lemma AssertIsEqualIf_bit c a b : AssertIsEqualIf (bit c) a b = true ↔ (c = true → a = b).
Proof.
  unfold AssertIsEqualIf, api_AssertIsEqual. rewrite Select_bit, bool_decide_eq_true. destruct c; naive_solver.
Qed.
Lemma AssertTrueIf_bit c b : AssertTrueIf (bit c) (bit b) = true ↔ (c = true → b = true).
Proof. unfold AssertTrueIf. rewrite AssertIsEqualIf_bit. pose proof (bit_one b). naive_solver. Qed.
End api.
