(* ===== verification/TransitionCircuit.v ===== *)
(** * The circuit of the state transition

    [src/circuits/statetransition/statetransition.go], with the Merkle proofs of
    [src/circuits/merkleproof], the ballots of [src/circuits/types.go] and the voters'
    proofs of [src/crypto/csp/gnark.go]: the constraints that a contract verifies through a
    proof. Arrays are functions of the index; an error that the circuit reports makes it
    unsatisfiable. Points are points of the curve, as the gadgets of the curve take
    and give them. *)

From S2P Require Import Prelude Bytes Spec Types Curve ElGamal Gnark.

(** ** Gadgets of other packages *)

(** gnark-crypto-primitives' Poseidon and sparse Merkle tree, lean-imt's proofs, EdDSA, the
    Groth16 verifier in the circuit, and the compression of KZG points. A gadget that has a
    value gives it, or none if its constraints cannot be satisfied. *)
Class Gadgets `{Field} := {
  native_Hash : list F → option F;
  MultiHash : list F → option F;
  smt_Hash1 : F → F → F;
  smt_VerifierWithLeafHash : F → list F → F → F → bool;
  smt_ProcessorWithLeafHash : F → list F → F → F → F → F → F → F → F → option F;
  imt_MerkleProof : Type;
  imt_Leaf : imt_MerkleProof → F;
  imt_LeafIndex : imt_MerkleProof → F;
  imt_Verify : imt_MerkleProof → F → option F;
  imt_PackLeaf : F → F → F;
  eddsa_Signature : Type;
  eddsa_IsValid : F * F → eddsa_Signature → F → F;
  aggregator_Proof : Type;
  AssertProof : aggregator_Proof → list (list F) → bool;
  UnpackVarToScalar : F → list F }.

Section circuit.
Context `{Field} `{Curve} `{!Gadgets}.

(** ** Merkle proofs *)

(** [src/circuits/merkleproof/merkleproof.go:18-24] *)
Record MerkleProof := { mp_Root : F; mp_Siblings : list F; mp_Key : F; mp_LeafHash : F }.
(** [src/circuits/merkleproof/merkleproof.go:78-91] *)
Record MerkleTransition := {
  mt_NewRoot : F; mt_Siblings : list F; mt_NewKey : F; mt_NewLeafHash : F;
  mt_OldRoot : F; mt_OldKey : F; mt_OldLeafHash : F; mt_IsOld0 : F; mt_Fnc0 : F; mt_Fnc1 : F }.
(** [src/circuits/merkleproof/merkleproof.go:186-191] *)
Definition encodeLeafValue (values : list F) : option F :=
  match values with [v] => Some v | _ => MultiHash values end.
(** [src/circuits/merkleproof/merkleproof.go:45-58] MerkleProof.Verify *)
Definition MerkleProof_Verify (mp : MerkleProof) (root : F) : bool :=
  api_AssertIsEqual root (mp_Root mp) &&
  smt_VerifierWithLeafHash (mp_Root mp) (mp_Siblings mp) (mp_Key mp) (mp_LeafHash mp).
(** [src/circuits/merkleproof/merkleproof.go:64-71] MerkleProof.VerifyLeafHash *)
Definition VerifyLeafHash (mp : MerkleProof) (values : list F) : bool :=
  match encodeLeafValue values with
  | None => false
  | Some encodedValue => api_AssertIsEqual (mp_LeafHash mp) (smt_Hash1 (mp_Key mp) encodedValue)
  end.
(** [src/circuits/merkleproof/merkleproof.go:133-148] MerkleTransition.Verify: the new root *)
Definition MerkleTransition_Verify (mt : MerkleTransition) (oldRoot : F) : bool * F :=
  (api_AssertIsEqual oldRoot (mt_OldRoot mt) &&
   match smt_ProcessorWithLeafHash (mt_OldRoot mt) (mt_Siblings mt) (mt_OldKey mt) (mt_OldLeafHash mt) (mt_IsOld0 mt)
           (mt_NewKey mt) (mt_NewLeafHash mt) (mt_Fnc0 mt) (mt_Fnc1 mt) with
   | None => false
   | Some root => api_AssertIsEqual root (mt_NewRoot mt)
   end, mt_NewRoot mt).
(** [src/circuits/merkleproof/merkleproof.go:210-214] *)
Definition IsUpdate (mt : MerkleTransition) : F :=
  let fnc0IsZero := api_IsZero (mt_Fnc0 mt) in
  let fnc1IsOne := api_Sub one (api_IsZero (mt_Fnc1 mt)) in
  api_And fnc0IsZero fnc1IsOne.
(** [src/circuits/merkleproof/merkleproof.go:217-221] *)
Definition IsInsert (mt : MerkleTransition) : F :=
  let fnc0IsOne := api_Sub one (api_IsZero (mt_Fnc0 mt)) in
  let fnc1IsZero := api_IsZero (mt_Fnc1 mt) in
  api_And fnc1IsZero fnc0IsOne.
(** [src/circuits/merkleproof/merkleproof.go:224-226] *)
Definition IsInsertOrUpdate (mt : MerkleTransition) : F := api_Or (IsInsert mt) (IsUpdate mt).
(** [src/circuits/merkleproof/merkleproof.go:229-231] *)
Definition IsNoop (mt : MerkleTransition) : F := api_And (api_IsZero (mt_Fnc0 mt)) (api_IsZero (mt_Fnc1 mt)).
(** [src/circuits/merkleproof/merkleproof.go:168-181] *)
Definition verifyLeafHash (key leafHash skip : F) (values : list F) : bool :=
  match encodeLeafValue values with
  | None => false
  | Some encodedValue => api_AssertIsEqual leafHash (api_Select skip leafHash (smt_Hash1 key encodedValue))
  end.
(** [src/circuits/merkleproof/merkleproof.go:152-154] *)
Definition VerifyOldLeafHash (mt : MerkleTransition) (values : list F) : bool :=
  verifyLeafHash (mt_OldKey mt) (mt_OldLeafHash mt) (IsNoop mt) values.
(** [src/circuits/merkleproof/merkleproof.go:158-160] *)
Definition VerifyNewLeafHash (mt : MerkleTransition) (values : list F) : bool :=
  verifyLeafHash (mt_NewKey mt) (mt_NewLeafHash mt) (IsNoop mt) values.
(** [src/circuits/merkleproof/merkleproof.go:164-166] *)
Definition VerifyOverwrittenBallot (mt : MerkleTransition) (values : list F) : bool :=
  verifyLeafHash (mt_OldKey mt) (mt_OldLeafHash mt) (api_IsZero (IsUpdate mt)) values.
(** [src/circuits/merkleproof/merkleproof.go:199-202] *)
Definition verifyLeafKey (key skip value : F) : bool := api_AssertIsEqual key (api_Select skip key value).
(** [src/circuits/merkleproof/merkleproof.go:195-197] *)
Definition VerifyNewKey (mt : MerkleTransition) (value : F) : bool := verifyLeafKey (mt_NewKey mt) (IsNoop mt) value.

(** ** Ballots *)

(** The coordinates of a point, as values of the circuit. *)
Definition point_vars (p : point) : list F := [F_of (coords p).1; F_of (coords p).2].
(** [src/circuits/types.go:360-366] SerializeVars *)
Definition SerializeVars (z : Ballot) : list F :=
  concat ((λ c, point_vars (c1 c) ++ point_vars (c2 c)) <$> z).
(** [src/circuits/types.go:327-333] Ballot.IsEqual *)
Definition Ballot_IsEqual (z x : Ballot) : F :=
  foldl (λ res '(a, b), api_And res (bit (bool_decide (a = b)))) one (zip z x).
(** [src/circuits/types.go:336-341] Ballot.Select *)
Definition Ballot_Select (b : F) (i1 i2 : Ballot) : Ballot :=
  zip_with (λ x y, if bool_decide (b = one) then x else y) i1 i2.
(** [src/circuits/types.go:323-325] Ballot.AssertIsEqual *)
Definition Ballot_AssertIsEqual (z x : Ballot) : bool := api_AssertIsEqual (Ballot_IsEqual z x) one.
(** [src/circuits/types.go:498-505] *)
Definition NextK (k : F) : option F := native_Hash [k].
(** [src/circuits/types.go:291-302] Ballot.EncryptedZero: [n] fields from [lastK] on *)
Fixpoint Circuit_EncryptedZero (pubKey : point) (lastK : F) (n : nat) : option Ballot :=
  match n with
  | O => Some []
  | S n =>
      nextK ← NextK lastK;
      rest ← Circuit_EncryptedZero pubKey nextK n;
      Some (EncryptedZero pubKey (F_to lastK) :: rest)
  end.
(** [src/circuits/types.go:271-275] Ballot.Reencrypt *)
Definition Circuit_Reencrypt (z : Ballot) (encKey : F * F) (k : F) : option (Ballot * F) :=
  reencryptionK ← NextK k;
  encZero ← Circuit_EncryptedZero (SetPoint (F_to encKey.1, F_to encKey.2)) reencryptionK FieldsPerBallot;
  Some (Ballot_Add z encZero, reencryptionK).

(** ** The assignment *)

(** [src/circuits/types.go:132-137] Process, of values of the circuit *)
Record Circuit_Process := { pr_ID : F; pr_CensusOrigin : F; pr_BallotMode : F; pr_EncryptionKey : F * F }.
(** [src/circuits/statetransition/statetransition.go:97-102] Vote *)
Record CVote := {
  cv_Ballot : Ballot; cv_VoteID : F; cv_Address : F; cv_VoteWeight : F;
  cv_BallotIndex : F; cv_ReencryptedBallot : Ballot; cv_OverwrittenBallot : Ballot }.
(** [src/crypto/csp/gnark.go:21-25] *)
Record CSPProof := { csp_Signature : eddsa_Signature; csp_PublicKey : F * F; csp_VoterIndex : F }.
(** [src/circuits/statetransition/statetransition.go:25-58] *)
Record StateTransitionCircuit := {
  RootHashBefore : F; RootHashAfter : F; VotersCount : F; OverwrittenVotesCount : F; CensusRoot : F;
  MerkleProofs : nat → imt_MerkleProof; CSPProofs : nat → CSPProof;
  BlobCommitmentLimbs : list F; BlobProofLimbs : list F; BlobEvaluationResultY : list F;
  c_Process : Circuit_Process; Votes : nat → CVote;
  OldResults : Ballot; NewResults : Ballot; ReencryptionK : F;
  proof_ID : MerkleProof; proof_CensusOrigin : MerkleProof; proof_BallotMode : MerkleProof; proof_EncryptionKey : MerkleProof;
  proofs_Ballot : nat → MerkleTransition; proofs_VoteIDs : nat → MerkleTransition; proof_Results : MerkleTransition;
  AggregatorProof : aggregator_Proof }.
Implicit Types c : StateTransitionCircuit.

(** [src/circuits/statetransition/statetransition.go:104-106] *)
Definition ballotLeafValues (v : CVote) (ballot : Ballot) : list F :=
  SerializeVars ballot ++ [cv_Address v; cv_VoteWeight v].
(** [src/circuits/statetransition/statetransition.go:109-111] *)
Definition ReencryptedBallotLeafValues (v : CVote) : list F := ballotLeafValues v (cv_ReencryptedBallot v).
(** [src/circuits/statetransition/statetransition.go:114-116] *)
Definition OverwrittenBallotLeafValues (v : CVote) : list F := ballotLeafValues v (cv_OverwrittenBallot v).

(** The slots of a batch. *)
Definition slots : list nat := seq 0 VotesPerBatch.
(** [src/circuits/statetransition/statetransition.go:150-161] VoteMask: the [i]-th element *)
Fixpoint VoteMask (c : StateTransitionCircuit) (i : nat) : F :=
  match i with
  | O => api_Sub one (api_IsZero (VotersCount c))
  | S j => api_Mul (VoteMask c j) (api_Sub one (api_IsZero (api_Sub (VotersCount c) (F_of (Z.of_nat j + 1)))))
  end.

(** The factor [-1/f] of the reduced form, [src/crypto/ecc/format/twistededwards.go:14-29]. *)
Context (negScalingInvBig : F).
(** [src/crypto/ecc/format/twistededwards_gnark.go:11-14] *)
Definition FromRTEtoTEVar (x y : F) : F * F := (api_Mul x negScalingInvBig, y).
Definition te (p : F * F) : list F := [p.1; p.2].
(** [src/circuits/inputs.go:17-35] *)
Definition BallotHash (process : Circuit_Process) (vote : CVote) : list F :=
  [pr_ID process; pr_BallotMode process] ++
  te (FromRTEtoTEVar (pr_EncryptionKey process).1 (pr_EncryptionKey process).2) ++
  [cv_Address vote; cv_VoteID vote] ++
  concat ((λ ct, te (FromRTEtoTEVar (F_of (coords (c1 ct)).1) (F_of (coords (c1 ct)).2)) ++
                 te (FromRTEtoTEVar (F_of (coords (c2 ct)).1) (F_of (coords (c2 ct)).2))) <$> cv_Ballot vote) ++
  [cv_VoteWeight vote].
(** [src/circuits/statetransition/statetransition.go:166-170] *)
Definition paddedElement (limb : F) : list F := [limb; zero; zero; zero; zero; zero].
(** [src/circuits/statetransition/statetransition.go:178-188] *)
Definition inputsHashToElements (inputsHash : F) : list (list F) := paddedElement <$> UnpackVarToScalar inputsHash.
(** [src/circuits/statetransition/statetransition.go:194-201] *)
Definition proofInputsHash c (idx : nat) : option F := MultiHash (BallotHash (c_Process c) (Votes c idx)).
(** [src/circuits/statetransition/statetransition.go:214-235] *)
Definition CalculateAggregatorWitness c : option (list (list F)) :=
  hashes ← mapM (λ i, inputsHash ← proofInputsHash c i; Some (api_Select (VoteMask c i) inputsHash one)) slots;
  res ← MultiHash hashes;
  Some (paddedElement (VotersCount c) :: inputsHashToElements res).
(** [src/circuits/statetransition/statetransition.go:241-259] *)
Definition VerifyAggregatorProof c : bool :=
  match CalculateAggregatorWitness c with None => false | Some witness => AssertProof (AggregatorProof c) witness end.
(** [src/circuits/statetransition/statetransition.go:266-276] the loop of VerifyReencryptedVotes *)
Fixpoint reencrypted_votes c (lastK : F) (ixs : list nat) : bool :=
  match ixs with
  | [] => true
  | i :: ixs =>
      match Circuit_Reencrypt (cv_Ballot (Votes c i)) (pr_EncryptionKey (c_Process c)) lastK with
      | None => false
      | Some (reencryptedBallot, k) =>
          AssertTrueIf (VoteMask c i) (Ballot_IsEqual (cv_ReencryptedBallot (Votes c i)) reencryptedBallot) &&
          reencrypted_votes c k ixs
      end
  end.
(** [src/circuits/statetransition/statetransition.go:265-277] *)
Definition VerifyReencryptedVotes c : bool := reencrypted_votes c (ReencryptionK c) slots.
(** [src/circuits/statetransition/statetransition.go:281-286] *)
Definition VerifyProcessProofKeys c : bool :=
  api_AssertIsEqual (mp_Key (proof_ID c)) (F_of StateKeyProcessID) &&
  api_AssertIsEqual (mp_Key (proof_CensusOrigin c)) (F_of StateKeyCensusOrigin) &&
  api_AssertIsEqual (mp_Key (proof_BallotMode c)) (F_of StateKeyBallotMode) &&
  api_AssertIsEqual (mp_Key (proof_EncryptionKey c)) (F_of StateKeyEncryptionKey).
(** [src/circuits/statetransition/statetransition.go:292-297] *)
Definition VerifyProcessProofs c : bool :=
  MerkleProof_Verify (proof_ID c) (RootHashBefore c) && MerkleProof_Verify (proof_CensusOrigin c) (RootHashBefore c) &&
  MerkleProof_Verify (proof_BallotMode c) (RootHashBefore c) && MerkleProof_Verify (proof_EncryptionKey c) (RootHashBefore c).
(** [src/circuits/statetransition/statetransition.go:301-303] *)
Definition VerifyIsValidCensusOrigin c : bool := api_AssertIsEqual (IsValidCensusOrigin (pr_CensusOrigin (c_Process c))) one.
(** [src/circuits/statetransition/statetransition.go:310-321] *)
Definition VerifyMerkleTransitions c : bool :=
  forallb (λ i,
    let isReal := VoteMask c i in
    let isDummy := api_Sub one (VoteMask c i) in
    AssertTrueIf isReal (IsInsertOrUpdate (proofs_Ballot c i)) && AssertTrueIf isReal (IsInsert (proofs_VoteIDs c i)) &&
    AssertTrueIf isDummy (IsNoop (proofs_Ballot c i)) && AssertTrueIf isDummy (IsNoop (proofs_VoteIDs c i))) slots &&
  api_AssertIsEqual (IsUpdate (proof_Results c)) one.
(** [src/circuits/statetransition/statetransition.go:325-332] *)
Definition VerifyMerkleTransitionKeys c : bool :=
  VerifyNewKey (proof_Results c) (F_of StateKeyResults) &&
  forallb (λ i, VerifyNewKey (proofs_VoteIDs c i) (cv_VoteID (Votes c i)) &&
                VerifyNewKey (proofs_Ballot c i) (cv_BallotIndex (Votes c i))) slots.
(** [src/circuits/statetransition/statetransition.go:338-341] the loop of VerifyRootTransition *)
Definition root_step c (acc : bool * F) (i : nat) : bool * F :=
  let '(ok1, root1) := MerkleTransition_Verify (proofs_Ballot c i) acc.2 in
  let '(ok2, root2) := MerkleTransition_Verify (proofs_VoteIDs c i) root1 in
  (acc.1 && ok1 && ok2, root2).
(** [src/circuits/statetransition/statetransition.go:336-344] *)
Definition VerifyRootTransition c : bool :=
  let '(ok, root) := foldl (root_step c) (true, RootHashBefore c) slots in
  let '(ok', root') := MerkleTransition_Verify (proof_Results c) root in
  ok && ok' && api_AssertIsEqual root' (RootHashAfter c).
(** [src/circuits/statetransition/statetransition.go:351-396] *)
Definition VerifyLeafHashes c : bool :=
  VerifyLeafHash (proof_ID c) [pr_ID (c_Process c)] &&
  VerifyLeafHash (proof_CensusOrigin c) [pr_CensusOrigin (c_Process c)] &&
  VerifyLeafHash (proof_BallotMode c) [pr_BallotMode (c_Process c)] &&
  VerifyLeafHash (proof_EncryptionKey c) [(pr_EncryptionKey (c_Process c)).1; (pr_EncryptionKey (c_Process c)).2] &&
  forallb (λ i, VerifyNewLeafHash (proofs_Ballot c i) (ReencryptedBallotLeafValues (Votes c i)) &&
                VerifyOverwrittenBallot (proofs_Ballot c i) (OverwrittenBallotLeafValues (Votes c i)) &&
                VerifyNewLeafHash (proofs_VoteIDs c i) [F_of VoteIDLeafValue]) slots &&
  VerifyOldLeafHash (proof_Results c) (SerializeVars (OldResults c)) &&
  VerifyNewLeafHash (proof_Results c) (SerializeVars (NewResults c)).
(** [src/circuits/statetransition/statetransition.go:425-428] the range of the vote identifiers, in
    VerifyBlobs *)
Definition VoteID_ranges c : bool :=
  forallb (λ i, let voteID := api_Select (VoteMask c i) (cv_VoteID (Votes c i)) (F_of VoteIDMin) in
                api_AssertIsLessOrEqual (F_of VoteIDMin) voteID && api_AssertIsLessOrEqual voteID (F_of VoteIDMax)) slots.
(** [src/circuits/statetransition/statetransition.go:404-441] the cells of the blob that are not
    zeros, in VerifyBlobs *)
Definition circuit_blob c : list F :=
  (api_Mul one <$> SerializeVars (NewResults c)) ++ [VotersCount c] ++
  concat ((λ i, api_Mul (VoteMask c i) <$>
    ([cv_VoteID (Votes c i); cv_Address (Votes c i); cv_BallotIndex (Votes c i); cv_VoteWeight (Votes c i)] ++
     SerializeVars (cv_ReencryptedBallot (Votes c i)))) <$> slots).
(** [src/crypto/blobs/evaluation.go:147-201] the evaluation and opening proof of the blob, with the
    outputs of its hints *)
Context (VerifyFullBlobEvaluationBN254 : F → F → list F → list F → list F → list F → bool).
(** [src/circuits/statetransition/statetransition.go:400-459] *)
Definition VerifyBlobs c : bool :=
  VoteID_ranges c &&
  VerifyFullBlobEvaluationBN254 (pr_ID (c_Process c)) (RootHashBefore c) (BlobCommitmentLimbs c) (BlobProofLimbs c)
    (BlobEvaluationResultY c) (circuit_blob c ++ replicate (4096 - length (circuit_blob c)) zero).
(** [src/circuits/statetransition/statetransition.go:466-480] the sums and counts of VerifyBallots *)
Definition ballot_step c (acc : Ballot * Ballot * F * F) (i : nat) : Ballot * Ballot * F * F :=
  let '(sumOfAllBallots, sumOfOverwrittenBallots, votersCount, overwrittenVotesCount) := acc in
  let isInsertOrUpdate := IsInsertOrUpdate (proofs_Ballot c i) in
  let isUpdate := IsUpdate (proofs_Ballot c i) in
  (Ballot_Add sumOfAllBallots (Ballot_Select isInsertOrUpdate (cv_ReencryptedBallot (Votes c i)) NewBallot),
   Ballot_Add sumOfOverwrittenBallots (Ballot_Select isUpdate (cv_OverwrittenBallot (Votes c i)) NewBallot),
   api_Add votersCount isInsertOrUpdate, api_Add overwrittenVotesCount isUpdate).
(** [src/circuits/statetransition/statetransition.go:465-489] *)
Definition VerifyBallots c : bool :=
  let '(sumOfAllBallots, sumOfOverwrittenBallots, votersCount, overwrittenVotesCount) :=
    foldl (ballot_step c) (NewBallot, NewBallot, zero, zero) slots in
  let netBallots := Ballot_Add sumOfAllBallots (Ballot_Neg sumOfOverwrittenBallots) in
  Ballot_AssertIsEqual (NewResults c) (Ballot_Add (OldResults c) netBallots) &&
  api_AssertIsEqual (VotersCount c) votersCount && api_AssertIsEqual (OverwrittenVotesCount c) overwrittenVotesCount.
(** [src/circuits/statetransition/statetransition.go:539-542] BallotIndex: the range assertion, and the value *)
Definition Circuit_BallotIndex (voterIndex : F) : bool * F :=
  (api_AssertIsLessOrEqual voterIndex (F_of VoterIndexMax), api_Add (F_of BallotMin) voterIndex).
(** [src/circuits/statetransition/statetransition.go:495-515] *)
Definition VerifyMerkleCensusProofs c : bool :=
  let isMerkleTreeCensus := IsMerkleTreeCensusOrigin (pr_CensusOrigin (c_Process c)) in
  forallb (λ i,
    let vote := Votes c i in
    let proof := MerkleProofs c i in
    let shouldBeValid := api_And (VoteMask c i) isMerkleTreeCensus in
    AssertIsEqualIf shouldBeValid (imt_PackLeaf (cv_Address vote) (cv_VoteWeight vote)) (imt_Leaf proof) &&
    match imt_Verify proof (CensusRoot c) with
    | None => false
    | Some isValid =>
        AssertTrueIf shouldBeValid isValid &&
        let '(ok, ballotIndex) := Circuit_BallotIndex (imt_LeafIndex proof) in
        ok && AssertIsEqualIf shouldBeValid ballotIndex (cv_BallotIndex vote)
    end) slots.
(** [src/crypto/csp/gnark.go:70-85] isPubKeyValid *)
Definition isPubKeyValid (proof : CSPProof) (censusRoot : F) : option F :=
  h ← MultiHash [(csp_PublicKey proof).1; (csp_PublicKey proof).2];
  Some (bit (bool_decide (h = censusRoot))).
(** [src/crypto/csp/gnark.go:90-99] *)
Definition signatureMessage (voterIndex processID address weight : F) : option F :=
  MultiHash [voterIndex; processID; address; weight].
(** [src/crypto/csp/gnark.go:32-64] CSPProof.IsValid *)
Definition CSPProof_IsValid (proof : CSPProof) (censusRoot processID address weight : F) : option F :=
  validPubKey ← isPubKeyValid proof censusRoot;
  msg ← signatureMessage (csp_VoterIndex proof) processID address weight;
  Some (api_And validPubKey (eddsa_IsValid (csp_PublicKey proof) (csp_Signature proof) msg)).
(** [src/circuits/statetransition/statetransition.go:520-533] *)
Definition VerifyCSPCensusProofs c : bool :=
  let isCSPCensus := IsCSPCensusOrigin (pr_CensusOrigin (c_Process c)) in
  forallb (λ i,
    let vote := Votes c i in
    let proof := CSPProofs c i in
    let shouldBeValid := api_And (VoteMask c i) isCSPCensus in
    match CSPProof_IsValid proof (CensusRoot c) (pr_ID (c_Process c)) (cv_Address vote) (cv_VoteWeight vote) with
    | None => false
    | Some isValid =>
        AssertTrueIf shouldBeValid isValid &&
        let '(ok, ballotIndex) := Circuit_BallotIndex (csp_VoterIndex proof) in
        ok && AssertIsEqualIf shouldBeValid ballotIndex (cv_BallotIndex vote)
    end) slots.
(** [src/circuits/statetransition/statetransition.go:119-144] *)
Definition Define c : bool :=
  VerifyAggregatorProof c && VerifyProcessProofKeys c && VerifyProcessProofs c &&
  VerifyMerkleTransitionKeys c && VerifyMerkleTransitions c && VerifyRootTransition c &&
  VerifyLeafHashes c && VerifyIsValidCensusOrigin c && VerifyMerkleCensusProofs c && VerifyCSPCensusProofs c &&
  VerifyReencryptedVotes c && VerifyBallots c && VerifyBlobs c.
End circuit.
