(* ===== verification/StateApply.v ===== *)
(** * Following the chain of states

    [src/state/blobs.go], [transition_artifact.go]: a node that did not make a batch
    applies its blob. The state moves to the announced root or stays where it is, and
    the blob of a batch rebuilds exactly the tree that the batch staged. *)

From S2P Require Import Prelude Bytes Spec Types Curve ElGamal StateTree StateVote StateBatch Tally.

Section apply.
Context `{Curve} `{Arbo} `{Hash : PoseidonHasher} `{KZG}.

(** [src/state/blobs.go:283-328] applyBlobData: one vote *)
Definition apply_vote (vote : Vote) : SE stateTreeTx () :=
  got ← attempt (encryptedBallotFromTree (v_BallotIndex vote));
  (match got with
   | Err e =>
       if negb (errors_Is e ErrStateKeyNotFound) then raise (Wrap "failed to get vote with ballot index from tree" e)
       else wrapping "failed to add vote with address to tree"
              (addBigInt (u64Z (v_BallotIndex vote)) (TreeLeafValues vote))
   | Ok _ => wrapping "failed to update vote with address in tree"
               (updateBigInt (u64Z (v_BallotIndex vote)) (TreeLeafValues vote))
   end);;
  id ← attempt (getBigInt (u64Z (v_VoteID vote)));
  match id with
  | Ok _ => raise (ErrMsg "failed to add vote ID to tree: already exists")
  | Err e =>
      if negb (errors_Is e ErrArboKeyNotFound) then raise (Wrap "failed to check vote ID in tree" e)
      else wrapping "failed to add vote ID to tree" (addBigInt (u64Z (v_VoteID vote)) [voteIDLeafValue])
  end.
(** [src/state/blobs.go:283-328] *)
Definition applyBlobData (blobData : BlobData) : SE stateTreeTx () :=
  tx ← gets tx_tx;
  match tx with
  | None => raise (ErrMsg "need active state transaction")
  | Some _ =>
      forM_ apply_vote (bd_Votes blobData);;
      results ← lift (SetBigInts (bd_Results blobData));
      wrapping "failed to set results from blob" (setResults results)
  end.
(** [src/state/blobs.go:350-367] applyBlobSidecar: nil blobs are skipped *)
Definition applyBlobSidecar (sidecar : option BlobTxSidecar) : SE stateTreeTx () :=
  match sidecar with
  | None => raise (ErrMsg "nil blob sidecar")
  | Some sidecar =>
      forM_ (λ blob, match blob with
                     | None => mret ()
                     | Some blob =>
                         blobData ← wrapping "failed to parse blob sidecar" (lift (ParseBlobData blob));
                         wrapping "failed to apply blob sidecar" (applyBlobData blobData)
                     end) (sc_Blobs sidecar)
  end.
(** [src/state/blobs.go:222-242] *)
Definition ApplyBlobToState (blob : option bytes) : SE State () :=
  match blob with
  | None => raise (ErrMsg "nil blob")
  | Some blob =>
      blobData ← lift (ParseBlobData blob);
      in_tx (applyBlobData blobData;; commit "apply blob to state")
  end.
(** [src/state/blobs.go:331-348] *)
Definition ApplyBlobSidecar (sidecar : option BlobTxSidecar) : SE State () :=
  match sidecar with
  | None => raise (ErrMsg "nil blob sidecar")
  | Some _ => in_tx (applyBlobSidecar sidecar;; commit "apply blob sidecar")
  end.
(** [src/state/blobs.go:246-281] *)
Definition ApplyBlobSidecarFromRoot (rootBefore rootAfter : option Z) (sidecar : option BlobTxSidecar) : SE State () :=
  match rootBefore, rootAfter, sidecar with
  | None, _, _ => raise (ErrMsg "nil root before")
  | _, None, _ => raise (ErrMsg "nil root after")
  | _, _, None => raise (ErrMsg "nil blob sidecar")
  | Some _, Some after, Some _ => in_tx (
      wrapping "set root before blob sidecar" (tx_SetRootAsBigInt rootBefore);;
      wrapping "apply blob sidecar from root" (applyBlobSidecar sidecar);;
      stagedRoot ← wrapping "get restored state root" RootAsBigInt;
      if negb (stagedRoot =? after) then raise (ErrMsg "restored state root mismatch")
      else commit "apply blob sidecar from root")
  end.
(** [src/state/transition_artifact.go:15-23] *)
Record StateTransitionArtifact := {
  sa_ProcessID : ProcessID; sa_RootHashBefore : option Z; sa_RootHashAfter : option Z;
  sa_TxHash : option bytes; sa_BlobVersionHash : bytes; sa_BlobSidecar : option BlobTxSidecar; sa_BatchID : bytes }.
(** [src/state/transition_artifact.go:27-54] ApplyTransitionArtifact: the outcome and the
    state that was opened, if any *)
Definition ApplyTransitionArtifact (ScalarField : Z) (fault : option error) (artifact : option StateTransitionArtifact)
    : result () * option State :=
  match artifact with
  | None => (Err (ErrMsg "nil state transition artifact"), None)
  | Some a =>
      if bool_decide (sa_ProcessID a = pid_of_bytes []) then (Err (ErrMsg "state transition artifact has no processID"), None)
      else match sa_RootHashBefore a, sa_RootHashAfter a, sa_BlobSidecar a with
           | None, _, _ => (Err (ErrMsg "state transition artifact has no rootHashBefore"), None)
           | _, None, _ => (Err (ErrMsg "state transition artifact has no rootHashAfter"), None)
           | _, _, None => (Err (ErrMsg "state transition artifact has no blob sidecar"), None)
           | Some _, Some _, Some _ =>
               match New ScalarField fault (sa_ProcessID a) with
               | Err e => (Err (Wrap "failed to open state for process" e), None)
               | Ok st =>
                   let '(r, st') := ApplyBlobSidecarFromRoot (sa_RootHashBefore a) (sa_RootHashAfter a) (sa_BlobSidecar a) st in
                   (match r with Ok _ => Ok () | Err e => Err (Wrap "failed to restore state from transition artifact" e) end, Some st')
               end
           end
  end.

(** ** All or nothing *)

(** Inside a transaction the committed state does not change. *)
Lemma moves_read {A} (f : tree → result A) : moves (same tx_state) (read tx_tx "state transaction is not active" f).
Proof. intros x. unfold read. by destruct (tx_tx x). Qed.
Lemma moves_write f : moves (same tx_state) (write tx_tx put_tx "state transaction is not active" f).
Proof. intros x. unfold write. destruct (tx_tx x) as [t|]; [|done]. by destruct (f t). Qed.
Lemma moves_SetRoot r : moves (same tx_state) (tx_SetRootAsBigInt r).
Proof. intros x. unfold tx_SetRootAsBigInt. destruct (tx_tx x), r; try done. by destruct (t_SetRoot _ _). Qed.
#[local] Hint Resolve moves_read moves_write moves_SetRoot : moves.
Lemma moves_apply_vote v : moves (same tx_state) (apply_vote v).
Proof.
  unfold apply_vote, encryptedBallotFromTree. cbn [getBigInt addBigInt updateBigInt stateTreeTx_tree].
  unfold tx_getBigInt, tx_addBigInt, tx_updateBigInt. moves.
Qed.
#[local] Hint Resolve moves_apply_vote : moves.
Lemma moves_applyBlobData d : moves (same tx_state) (applyBlobData d).
Proof. unfold applyBlobData, setResults, tx_updateBigInt. moves. Qed.
#[local] Hint Resolve moves_applyBlobData : moves.
Lemma moves_applyBlobSidecar sc : moves (same tx_state) (applyBlobSidecar sc).
Proof. unfold applyBlobSidecar. moves. Qed.
Lemma commit_err op x e x' : commit op x = (Err e, x') → tx_state x' = tx_state x.
Proof. unfold commit. destruct (tx_tx x); [|by intros [= _ <-]]. destruct (s_fault _); by intros [= _ <-]. Qed.
Lemma commit_ok op x a x' : commit op x = (Ok a, x') → ∃ t, tx_tx x = Some t ∧ tx_state x' = set_tree t (tx_state x).
Proof. unfold commit. destruct (tx_tx x) as [t|]; [|done]. destruct (s_fault _); [done|]. intros [= <- <-]. by exists t. Qed.
(** Computations that leave the state alone unless they succeed. *)
Definition atomic {A} (m : SE stateTreeTx A) : Prop := ∀ x e x', m x = (Err e, x') → tx_state x' = tx_state x.
Lemma atomic_bind {A B} (m : SE stateTreeTx A) (k : A → SE stateTreeTx B) :
  moves (same tx_state) m → (∀ a, atomic (k a)) → atomic (m ≫= k).
Proof.
  intros Hm Hk x e x'. unfold mbind, SE_bind. specialize (Hm x). destruct (m x) as [[a|e'] x1]; cbn in Hm.
  - intros Hx%Hk. unfold same in Hm. congruence.
  - by intros [= _ <-].
Qed.
Lemma in_tx_err {A} (m : SE stateTreeTx A) s e s' : atomic m → in_tx m s = (Err e, s') → s' = s.
Proof.
  intros Hm. unfold in_tx. destruct (m (newTreeTx s)) as [[a|e'] x] eqn:E; [done|]. intros [= _ <-].
  by apply Hm in E.
Qed.
Lemma moves_tx_root msg : moves (same tx_state) (wrapping msg RootAsBigInt).
Proof. apply moves_wrapping. apply (moves_read (root_of "get state root")). Qed.
#[local] Hint Resolve moves_applyBlobSidecar moves_tx_root : moves.

(** Following a transition is all or nothing: the node's state ends at the announced
    root, or it is what it was before, whatever the sidecar holds and wherever applying it
    stops. *)
Theorem ApplyBlobSidecarFromRoot_atomic before after sidecar s r s' :
  ApplyBlobSidecarFromRoot before after sidecar s = (r, s') →
  match r with
  | Ok _ => ∃ root t, after = Some root ∧ t_Root t = Ok root ∧ s' = set_tree t s
  | Err _ => s' = s
  end.
Proof.
  unfold ApplyBlobSidecarFromRoot. destruct before as [b|]; [|by intros [= <- <-]].
  destruct after as [a|]; [|by intros [= <- <-]]. destruct sidecar as [sc|]; [|by intros [= <- <-]].
  intros Hrun. destruct r as [[]|e]; revert Hrun.
  - unfold in_tx. match goal with |- context [match ?m with _ => _ end] => destruct m as [[u|e] x] eqn:E end; [|done].
    intros [= _ <-]. apply bind_inv_Ok in E as (u1 & x1 & H1' & E). apply bind_inv_Ok in E as (u2 & x2 & H2' & E).
    apply bind_inv_Ok in E as (root & x3 & H3' & E).
    assert (Hst : tx_state x2 = s).
    { assert (Ha : tx_state x1 = s).
      { assert (Hm : moves (same tx_state) (wrapping "set root before blob sidecar" (tx_SetRootAsBigInt (Some b)))) by moves.
        specialize (Hm (newTreeTx s)). rewrite H1' in Hm. exact Hm. }
      assert (Hm : moves (same tx_state) (wrapping "apply blob sidecar from root" (applyBlobSidecar (Some sc)))) by moves.
      specialize (Hm x1). rewrite H2' in Hm. rewrite <-Ha. exact Hm. }
    unfold wrapping in H3'. cbn in H3'. unfold tx_RootAsBigInt, read in H3'. destruct (tx_tx x2) as [t|] eqn:Ht; [|done].
    unfold root_of in H3'. destruct (t_Root t) as [root'|] eqn:Hroot; [|done]. injection H3' as -> <-.
    destruct (Z.eqb_spec root a) as [->|]; [|done]. cbn [negb] in E.
    apply commit_ok in E as (t' & Ht' & ->). exists a, t'.
    rewrite Ht in Ht'. injection Ht' as <-. by rewrite Hst.
  - apply in_tx_err. repeat (apply atomic_bind; [moves|intros ?]).
    destruct (negb _); [by intros x e' x' [= _ <-]|]. intros x e' x'. apply commit_err.
Qed.

(** ** The blob of a batch *)

(** The ballots stored can be read. *)
Definition leaves_ok (m : gmap Z (list Z)) : Prop :=
  ∀ k v, in_ballot_range k = true → m !! k = Some v → is_Ok (ballotFromTreeLeafValues v) = true.
Lemma TreeLeafValues_readable v : Ballot_wf (v_ReencryptedBallot v) → ballotFromTreeLeafValues (TreeLeafValues v) = Ok (v_ReencryptedBallot v).
Proof.
  intros Hv. pose proof (length_BigInts_wf _ Hv) as Hl.
  unfold ballotFromTreeLeafValues, ballotLeafFromTreeLeafValues, TreeLeafValues, ballotTreeLeafBallotValueCount.
  rewrite (proj2 (Nat.ltb_ge _ _)) by (rewrite length_app, Hl; lia).
  by rewrite take_app_length' by done; rewrite SetBigInts_wf.
Qed.
Lemma TreeLeafValues_published v : TreeLeafValues (published v) = TreeLeafValues v.
Proof. done. Qed.

Lemma apply_vote_put x t v t1 t2 :
  tx_tx x = Some t → Vote_wf v → leaves_ok (content t) → content t !! u64Z (v_VoteID v) = None →
  put_leaf t (u64Z (v_BallotIndex v)) (TreeLeafValues v) = Ok t1 →
  put_leaf t1 (u64Z (v_VoteID v)) [voteIDLeafValue] = Ok t2 →
  apply_vote (published v) x = (Ok (), set_tx (Some t2) x).
Proof.
  intros Hx Hwf Hok Hid Hp1 Hp2. destruct (ranges_of_keys v Hwf) as (Hr & Hr' & _).
  assert (Hget : attempt (encryptedBallotFromTree (v_BallotIndex (published v))) x =
    (Ok (match content t !! u64Z (v_BallotIndex v) with
         | Some vals => ballotFromTreeLeafValues vals | None => Err ErrStateKeyNotFound end), x)).
  { unfold attempt, encryptedBallotFromTree. cbn [getBigInt stateTreeTx_tree]. unfold attempt, tx_getBigInt, read, mbind, SE_bind.
    rewrite Hx, t_Get_content. cbn [v_BallotIndex published]. destruct (content t !! u64Z (v_BallotIndex v)); reflexivity. }
  unfold apply_vote. rewrite (bind_Ok _ _ _ _ _ Hget).
  assert (Hw : (match (match content t !! u64Z (v_BallotIndex v) with
         | Some vals => ballotFromTreeLeafValues vals | None => Err ErrStateKeyNotFound end) with
       | Err e => if negb (errors_Is e ErrStateKeyNotFound) then raise (Wrap "failed to get vote with ballot index from tree" e)
           else wrapping "failed to add vote with address to tree" (addBigInt (u64Z (v_BallotIndex (published v))) (TreeLeafValues (published v)))
       | Ok _ => wrapping "failed to update vote with address in tree" (updateBigInt (u64Z (v_BallotIndex (published v))) (TreeLeafValues (published v)))
       end) x = (Ok (), set_tx (Some t1) x)).
  { rewrite TreeLeafValues_published. unfold put_leaf in Hp1. cbn [v_BallotIndex published].
    destruct (content t !! u64Z (v_BallotIndex v)) as [vals|] eqn:E.
    - specialize (Hok _ _ Hr E). destruct (ballotFromTreeLeafValues vals); [|done].
      unfold wrapping. cbn [updateBigInt stateTreeTx_tree]. unfold tx_updateBigInt, write. by rewrite Hx, Hp1.
    - cbn [errors_Is]. rewrite bool_decide_true by done. cbn [negb].
      unfold wrapping. cbn [addBigInt stateTreeTx_tree]. unfold tx_addBigInt, write. by rewrite Hx, Hp1. }
  rewrite (bind_Ok _ _ _ _ _ Hw). apply put_leaf_content in Hp1 as Hc1.
  assert (Hid1 : content t1 !! u64Z (v_VoteID v) = None).
  { rewrite Hc1, lookup_insert_ne; [done|]. intros Heq. rewrite Heq in Hr. congruence. }
  assert (Hget2 : attempt (getBigInt (u64Z (v_VoteID (published v)))) (set_tx (Some t1) x) = (Ok (Err ErrArboKeyNotFound), set_tx (Some t1) x)).
  { unfold attempt. cbn [getBigInt stateTreeTx_tree]. unfold tx_getBigInt, read. cbn [tx_tx set_tx]. by rewrite t_Get_content; cbn; rewrite Hid1. }
  rewrite (bind_Ok _ _ _ _ _ Hget2). cbn [errors_Is]. rewrite bool_decide_true by done. cbn [negb].
  unfold wrapping. cbn [addBigInt stateTreeTx_tree]. unfold tx_addBigInt, write. cbn [tx_tx set_tx].
  unfold put_leaf in Hp2. rewrite Hid1 in Hp2. cbn. by rewrite Hp2.
Qed.
Lemma leaves_ok_insert m k v : leaves_ok m → (in_ballot_range k = true → is_Ok (ballotFromTreeLeafValues v) = true) → leaves_ok (<[k := v]> m).
Proof.
  intros Hm Hk j w Hj [[<- <-]|[_ Hw]]%lookup_insert_Some; [by apply Hk|]. by apply (Hm j).
Qed.
Lemma apply_votes_put x t votes t' :
  tx_tx x = Some t → Forall Vote_wf votes → leaves_ok (content t) →
  NoDup (v_VoteID <$> votes) → (∀ v, v ∈ votes → content t !! u64Z (v_VoteID v) = None) →
  put_votes t votes = Ok t' →
  forM_ apply_vote (published <$> votes) x = (Ok (), set_tx (Some t') x).
Proof.
  intros Hx Hwf. revert x t Hx. induction votes as [|v votes IH]; intros x t Hx Hok Hnd Hid Hput.
  { injection Hput as ->. destruct x as [st tx]. cbn in *. by rewrite <-Hx. }
  apply Forall_cons in Hwf as [Hv Hwf]. cbn [fmap list_fmap] in *. apply NoDup_cons in Hnd as [Hni Hnd].
  cbn [put_votes] in Hput. destruct (put_leaf t _ _) as [t1|] eqn:E1; [|done]. destruct (put_leaf t1 _ _) as [t2|] eqn:E2; [|done].
  cbn [forM_ fmap list_fmap]. rewrite (bind_Ok _ _ _ _ _ (apply_vote_put x t v t1 t2 Hx Hv Hok (Hid v ltac:(left)) E1 E2)).
  apply put_leaf_content in E1, E2. destruct (ranges_of_keys v Hv) as (Hr & Hr' & _).
  rewrite (IH Hwf (set_tx (Some t2) x) t2); [done|done| |done| |done].
  - rewrite E2, E1. apply leaves_ok_insert; [apply leaves_ok_insert; [done|]|congruence].
    intros _. rewrite TreeLeafValues_readable; [done|apply Hv].
  - intros w Hw. rewrite E2, E1, !lookup_insert_ne; [apply Hid; by right| |].
    + intros Heq. rewrite Forall_forall in Hwf. destruct (ranges_of_keys w (Hwf w Hw)) as (_ & Hrw & _). congruence.
    + intros Heq%u64_eq. apply Hni. rewrite Heq. apply list_elem_of_fmap. by exists w.
Qed.

Lemma applyBlobData_put x t t1 t2 votes R old d :
  tx_tx x = Some t → Forall Vote_wf votes → leaves_ok (content t) → NoDup (v_VoteID <$> votes) →
  (∀ v, v ∈ votes → content t !! u64Z (v_VoteID v) = None) → Ballot_wf R →
  put_votes t votes = Ok t1 → content t1 !! u64Z KeyResults = Some old →
  put_leaf t1 (u64Z KeyResults) (BigInts R) = Ok t2 →
  bd_Results d = BigInts R → bd_Votes d = published <$> votes →
  applyBlobData d x = (Ok (), set_tx (Some t2) x).
Proof.
  intros Hx Hwf Hok Hnd Hid HR Hput Hold Hres HdR Hdv. unfold applyBlobData.
  rewrite (bind_Ok _ _ x (tx_tx x) x) by done. rewrite Hx, HdR, Hdv.
  rewrite (bind_Ok _ _ _ _ _ (apply_votes_put x t votes t1 Hx Hwf Hok Hnd Hid Hput)).
  rewrite SetBigInts_wf by done. rewrite (bind_Ok _ _ _ R (set_tx (Some t1) x)) by done.
  unfold wrapping, setResults, tx_updateBigInt, write. cbn [tx_tx set_tx].
  unfold put_leaf in Hres. rewrite Hold in Hres. by rewrite Hres.
Qed.
Lemma published_overwritten f (votes : list Vote) : published <$> ((λ v, with_overwritten (f v) v) <$> votes) = published <$> votes.
Proof. rewrite <-list_fmap_compose. by apply list_fmap_ext. Qed.

(** C7: every node ends in the same state: when a batch of well-formed votes with new
    vote identifiers is prepared on a readable state, its blob, applied by another node from the
    announced root, stages the same tree and passes the check of the announced new root. *)
Theorem replica_follows votes s b s' :
  PrepareVotesBatch votes s = Ok b →
  Forall Vote_wf votes → leaves_ok (content (s_tree s)) → NoDup (v_VoteID <$> votes) →
  (∀ v, v ∈ votes → content (s_tree s) !! u64Z (v_VoteID v) = None) →
  (∀ r, rootHashBefore b = Some r → t_SetRoot (s_tree s') r = Ok (s_tree s)) → s_fault s' = None →
  ∃ t, b_tx b = Some t ∧
    ApplyBlobSidecarFromRoot (rootHashBefore b) (rootHashAfter b) (TxSidecar <$> blobEvalData b) s' = (Ok (), set_tree t s').
Proof.
  intros Hb Hwf Hok Hnd Hid Hset Hfault.
  destruct (prepared_spec _ _ _ Hb) as (t1 & t2 & old & Hput & (v & Hv & Hold) & Hres & Hnew & Htx & Hst & Hvotes &
    (r & r2 & Hrb & Hra & Hr & Hr2 & _ & d & Hd & Hblob) & Hlen).
  exists t2. split; [done|]. rewrite Hrb, Hra, Hd. cbn [fmap option_fmap option_map]. specialize (Hset r Hrb).
  assert (HR : Ballot_wf (newResults b)).
  { rewrite Hnew. assert (Hwfs : Forall Ballot_wf (v_ReencryptedBallot <$> votes)).
    { apply Forall_fmap. eapply Forall_impl; [exact Hwf|]. by intros w [? _]. }
    apply Ballot_wf_Add; [|apply Ballot_wf_Neg, ballots_sum_wf, replaced_wf].
    apply Ballot_wf_Add; [by apply SetBigInts_Ok_wf in Hold|].
    rewrite foldl_ballots by done. apply Ballot_wf_Add; [done|by apply ballots_sum_wf]. }
  assert (Hparse : ParseBlobData (be_Blob d) = Ok {| bd_Results := BigInts (newResults b);
      bd_VotersCount := Z.of_nat (length votes); bd_Votes := published <$> votes |}).
  { apply computeBlobEvalData_blob in Hblob. rewrite <-(published_overwritten (replaced (content (s_tree s))) votes), <-Hvotes.
    assert (Hl : length votes = length (b_votes b)) by (by rewrite Hvotes, length_fmap). rewrite Hl in Hblob, Hlen |- *.
    apply ParseBlobData_encode; [done..| |done]. rewrite Hvotes. apply Forall_fmap. eapply Forall_impl; [exact Hwf|]. done. }
  unfold ApplyBlobSidecarFromRoot, in_tx.
  assert (H1' : wrapping "set root before blob sidecar" (tx_SetRootAsBigInt (Some r)) (newTreeTx s') =
    (Ok (), set_tx (Some (s_tree s)) (newTreeTx s'))).
  { unfold wrapping, tx_SetRootAsBigInt. cbn [tx_tx newTreeTx]. by rewrite Hset. }
  rewrite (bind_Ok _ _ _ _ _ H1'). set (x := set_tx (Some (s_tree s)) (newTreeTx s')).
  assert (H2' : wrapping "apply blob sidecar from root" (applyBlobSidecar (Some (TxSidecar d))) x = (Ok (), set_tx (Some t2) x)).
  { unfold wrapping, applyBlobSidecar, TxSidecar. cbn [sc_Blobs forM_].
    assert (Hp : wrapping "failed to parse blob sidecar" (lift (ParseBlobData (be_Blob d))) x =
      (Ok {| bd_Results := BigInts (newResults b); bd_VotersCount := Z.of_nat (length votes); bd_Votes := published <$> votes |}, x)).
    { unfold wrapping, lift. by rewrite Hparse. }
    match goal with |- context [(?m ≫= ?k) x] => rewrite (bind_Ok m k x () (set_tx (Some t2) x)); [done|] end.
    rewrite (bind_Ok _ _ _ _ _ Hp). unfold wrapping.
    rewrite (applyBlobData_put x (s_tree s) t1 t2 votes (newResults b) v); done. }
  rewrite (bind_Ok _ _ _ _ _ H2').
  assert (H3' : wrapping "get restored state root" RootAsBigInt (set_tx (Some t2) x) = (Ok r2, set_tx (Some t2) x)).
  { unfold wrapping. cbn [RootAsBigInt stateTreeTx_tree]. unfold tx_RootAsBigInt, read, root_of. cbn [tx_tx set_tx]. by rewrite Hr2. }
  rewrite (bind_Ok _ _ _ _ _ H3'), Z.eqb_refl. cbn [negb]. unfold commit. cbn. by rewrite Hfault.
Qed.
End apply.

(** ** The batch of two votes on another node *)

Import ConcreteState.
Definition two_votes_data : BlobEvalData :=
  match computeBlobEvalData pid 77 (ballot_of 5 41) (Z.of_nat (length two_votes)) two_votes with
  | Ok d => d
  | Err _ => {| be_Commitment := []; be_CommitmentLimbs := []; be_Z := 0; be_Y := 0; be_Ylimbs := []; be_Blob := [];
                be_OpeningProof := []; be_ProofLimbs := []; be_CellProofs := [] |}
  end.
Lemma two_votes_data_ok :
  computeBlobEvalData pid 77 (ballot_of 5 41) (Z.of_nat (length two_votes)) two_votes = Ok two_votes_data.
Proof.
  assert (Hok : is_Ok (computeBlobEvalData pid 77 (ballot_of 5 41) (Z.of_nat (length two_votes)) two_votes) = true) by by vm_compute.
  unfold two_votes_data. by destruct (computeBlobEvalData _ _ _ _ _).
Qed.
Definition other_node : State := {| s_tree := (∅ : gmap Z (list Z)); s_processID := pid; s_fault := None |}.
Lemma voted_leaves_ok : leaves_ok (content (s_tree voted)).
Proof.
  assert (Hall : map_Forall (λ k v, (if in_ballot_range k then is_Ok (ballotFromTreeLeafValues v) else true) = true) (s_tree voted : gmap Z (list Z))).
  { apply (bool_decide_unpack _). by vm_compute. }
  intros k v Hk Hv. specialize (Hall k v Hv). cbv beta in Hall. by rewrite Hk in Hall.
Qed.
Lemma replica_follows_witness :
  ∃ t, b_tx two_votes_batch = Some t ∧
    ApplyBlobSidecarFromRoot (rootHashBefore two_votes_batch) (rootHashAfter two_votes_batch)
      (TxSidecar <$> blobEvalData two_votes_batch) other_node = (Ok (), set_tree t other_node).
Proof.
  apply (replica_follows two_votes voted two_votes_batch other_node two_votes_ok two_votes_wf voted_leaves_ok).
  - apply (bool_decide_unpack _). by vm_compute.
  - intros v [->|[->|Hv%elem_of_nil]%elem_of_cons]%elem_of_cons; [by vm_compute..|done].
  - intros r Hr. destruct (PrepareVotesBatch_Ok _ _ _ two_votes_ok) as (b0 & [Hs Htx Hv Hn Hall Hov Hsz] & Hp).
    destruct (prepared_spec _ _ _ two_votes_ok) as (t1 & t2 & old & _ & _ & _ & _ & _ & _ & _ & (r1 & r2 & Hb1 & _ & Hroot & _) & _).
    rewrite Hb1 in Hr. injection Hr as ->. cbn [t_Root MapTree.arbo] in Hroot. injection Hroot as <-.
    apply MapTree.of_root_root.
  - done.
Defined.
Lemma ApplyBlobSidecarFromRoot_atomic_witness :
  (ApplyBlobSidecarFromRoot (Some 1) (Some 2) (Some (TxSidecar two_votes_data)) other_node).2 = other_node.
Proof.
  pose proof (ApplyBlobSidecarFromRoot_atomic (Some 1) (Some 2) (Some (TxSidecar two_votes_data)) other_node
    (ApplyBlobSidecarFromRoot (Some 1) (Some 2) (Some (TxSidecar two_votes_data)) other_node).1
    (ApplyBlobSidecarFromRoot (Some 1) (Some 2) (Some (TxSidecar two_votes_data)) other_node).2
    (surjective_pairing _)) as Hatomic.
  assert (Hr : is_Ok (ApplyBlobSidecarFromRoot (Some 1) (Some 2) (Some (TxSidecar two_votes_data)) other_node).1 = false) by by vm_compute.
  destruct (ApplyBlobSidecarFromRoot _ _ _ other_node) as [[u|e] s']; [done|exact Hatomic].
Defined.
