(* ===== verification/CircuitSound.v ===== *)
(** * What the state transition circuit proves

    A satisfied assignment of [src/circuits/statetransition/statetransition.go] whose old root
    is that of a state leads to the root of the state in which the batch is applied, and the
    results it publishes are the homomorphic sum of the ballots of that state, as for the
    batches that the sequencer prepares ([Tally.v]). Hashes are not assumed to be injective:
    the alternative is that the assignment exhibits two inputs with the same hash. *)

From S2P Require Import Prelude Bytes Spec Types Curve ElGamal StateVote StateTree StateBatch Tally Gnark TransitionCircuit.

(** The loops are over the sixty slots of a batch; they need not be unrolled. *)
#[local] Strategy 1000 [slots].

Section sound.
Context `{Field} `{Curve} `{!Gadgets}.

(** ** The sparse Merkle tree *)

(** Two inputs with the same hash. *)
Definition collision : Prop := ∃ l l', l ≠ l' ∧ is_Some (MultiHash l) ∧ MultiHash l = MultiHash l'.
(** gnark-crypto-primitives' [smt]: [smt_tree m r] says that [r] is the root of the tree with
    the leaf hashes [m]. The function codes are bits: nothing, an update, an insertion. *)
Class SMT := {
  smt_tree : gmap F F → F → Prop;
  Hash1_spec k v : MultiHash [k; v; one] = Some (smt_Hash1 k v);
  Processor_noop root s ok ol o nk nl r :
    smt_ProcessorWithLeafHash root s ok ol o nk nl zero zero = Some r → r = root;
  Processor_update m root s ok ol o nk nl r :
    smt_tree m root → smt_ProcessorWithLeafHash root s ok ol o nk nl zero one = Some r →
    (nk = ok ∧ m !! ok = Some ol ∧ smt_tree (<[nk := nl]> m) r) ∨ collision;
  Processor_insert m root s ok ol o nk nl r :
    smt_tree m root → smt_ProcessorWithLeafHash root s ok ol o nk nl one zero = Some r →
    (m !! nk = None ∧ smt_tree (<[nk := nl]> m) r) ∨ collision }.
Context `{!SMT}.
(** The coordinates of points are elements of the field. *)
Hypothesis coords_range : ∀ p, 0 ≤ (coords p).1 < modulus ∧ 0 ≤ (coords p).2 < modulus.

Definition canonical (z : Z) : Prop := 0 ≤ z < modulus.
(** The leaf hash of the values [v] under [k], as arbo makes it. *)
Definition leaf_hash (k : F) (v : list Z) (h : F) : Prop :=
  ∃ e, encodeLeafValue (F_of <$> v) = Some e ∧ h = smt_Hash1 k e.
(** The leaf hashes [m] are those of the values [C], under keys of the field. *)
Record stores (C : gmap Z (list Z)) (m : gmap F F) : Prop := {
  st_leaf k h : m !! k = Some h → ∃ v, C !! F_to k = Some v ∧ Forall canonical v ∧ leaf_hash k v h;
  st_none k : m !! k = None → C !! F_to k = None }.
(** The state with the leaves [C] has the root [r]. *)
Definition state_root (C : gmap Z (list Z)) (r : F) : Prop := ∃ m, smt_tree m r ∧ stores C m.
(** The leaves of ballots have the layout of [src/state/vote.go]. *)
Definition ballot_values (z : Ballot) (a w : F) : list Z := BigInts z ++ [F_to a; F_to w].
Definition ballot_leaves (C : gmap Z (list Z)) : Prop :=
  ∀ k v, C !! k = Some v → in_ballot_range k = true → ∃ z a w, Ballot_wf z ∧ v = ballot_values z a w.

Lemma SerializeVars_BigInts z : SerializeVars z = F_of <$> BigInts z.
Proof.
  unfold SerializeVars, BigInts, point_vars. induction z as [|c z IH]; [done|].
  rewrite !fmap_cons, !concat_cons, fmap_app, IH. done.
Qed.
Lemma BigInts_canonical z : Forall canonical (BigInts z).
Proof.
  unfold BigInts. induction z as [|c z IH]; [done|]. rewrite fmap_cons, concat_cons.
  destruct (coords_range (c1 c)), (coords_range (c2 c)). by repeat (apply Forall_cons; split; [done|]).
Qed.
Lemma F_of_list_inj l k : Forall canonical l → Forall canonical k → F_of <$> l = F_of <$> k → l = k.
Proof.
  intros Hl. revert k. induction Hl as [|x l Hx Hl IH]; intros [|y k]; cbn; try done.
  intros [Hy Hk]%Forall_cons [= Hxy Heq]. f_equal; [by apply F_of_small_inj|by apply IH].
Qed.

(** ** Hashes *)

Lemma MultiHash_eq l l' h : MultiHash l = Some h → MultiHash l' = Some h → l = l' ∨ collision.
Proof.
  intros Hl Hl'. destruct (decide (l = l')) as [|Hne]; [by left|right]. exists l, l'. rewrite Hl, Hl'. eauto.
Qed.
Lemma Hash1_eq k v k' v' : smt_Hash1 k v = smt_Hash1 k' v' → (k = k' ∧ v = v') ∨ collision.
Proof.
  intros Heq. destruct (MultiHash_eq [k; v; one] [k'; v'; one] (smt_Hash1 k v)) as [[= -> ->]|]; auto using Hash1_spec.
  rewrite Heq. apply Hash1_spec.
Qed.
Lemma encodeLeafValue_eq l l' e :
  length l ≠ 1%nat → length l' ≠ 1%nat → encodeLeafValue l = Some e → encodeLeafValue l' = Some e → l = l' ∨ collision.
Proof.
  intros Hl Hl'. unfold encodeLeafValue. destruct l as [|? [|? ?]]; [|done|]; (destruct l' as [|? [|? ?]]; [|done|]); apply MultiHash_eq.
Qed.

(** ** Transitions of leaves *)

(** The codes of a transition are the bits [a] and [b]. *)
Definition codes (mt : MerkleTransition) (a b : bool) : Prop := mt_Fnc0 mt = bit a ∧ mt_Fnc1 mt = bit b.
Lemma IsZero_of_bit b : api_IsZero (bit b) = bit (negb b).
Proof. rewrite IsZero_bit. f_equal. change zero with (bit false). destruct b; case_bool_decide as Hb; try done. by apply bit_inj in Hb. Qed.
Lemma IsUpdate_codes mt a b : codes mt a b → IsUpdate mt = bit (negb a && b).
Proof. intros [Ha Hb]. unfold IsUpdate. by rewrite Ha, Hb, !IsZero_of_bit, not_bit, negb_involutive, and_bit. Qed.
Lemma IsInsert_codes mt a b : codes mt a b → IsInsert mt = bit (a && negb b).
Proof. intros [Ha Hb]. unfold IsInsert. by rewrite Ha, Hb, !IsZero_of_bit, not_bit, negb_involutive, and_bit, andb_comm. Qed.
Lemma IsNoop_codes mt a b : codes mt a b → IsNoop mt = bit (negb a && negb b).
Proof. intros [Ha Hb]. unfold IsNoop. by rewrite Ha, Hb, !IsZero_of_bit, and_bit. Qed.
Lemma IsInsertOrUpdate_codes mt a b : codes mt a b → IsInsertOrUpdate mt = bit (xorb a b).
Proof.
  intros Hc. unfold IsInsertOrUpdate. rewrite (IsUpdate_codes _ _ _ Hc), (IsInsert_codes _ _ _ Hc), or_bit. by destruct a, b.
Qed.
Lemma verifyLeafHash_bit key h skip l :
  verifyLeafHash key h (bit skip) l = true → skip = false → ∃ e, encodeLeafValue l = Some e ∧ h = smt_Hash1 key e.
Proof.
  unfold verifyLeafHash, api_AssertIsEqual. destruct (encodeLeafValue l) as [e|]; [|done].
  rewrite bool_decide_eq_true, Select_bit. intros Hh ->. eauto.
Qed.
Lemma verifyLeafKey_bit key skip v : verifyLeafKey key (bit skip) v = true → skip = false → key = v.
Proof. unfold verifyLeafKey, api_AssertIsEqual. rewrite bool_decide_eq_true, Select_bit. by intros Hk ->. Qed.
Lemma MerkleTransition_Verify_true mt root root' :
  MerkleTransition_Verify mt root = (true, root') →
  root' = mt_NewRoot mt ∧ smt_ProcessorWithLeafHash root (mt_Siblings mt) (mt_OldKey mt) (mt_OldLeafHash mt) (mt_IsOld0 mt)
    (mt_NewKey mt) (mt_NewLeafHash mt) (mt_Fnc0 mt) (mt_Fnc1 mt) = Some root'.
Proof.
  unfold MerkleTransition_Verify, api_AssertIsEqual. intros [= Hok <-]. apply andb_prop in Hok as [->%bool_decide_eq_true Hok].
  destruct (smt_ProcessorWithLeafHash _ _ _ _ _ _ _ _ _); [|done]. apply bool_decide_eq_true in Hok as ->. done.
Qed.

(** ** A leaf is written *)

Lemma stores_insert C m k v h :
  stores C m → Forall canonical v → leaf_hash k v h → stores (<[F_to k := v]> C) (<[k := h]> m).
Proof.
  intros [Hl Hn] Hv Hh. split; intros j.
  - intros w. destruct (decide (j = k)) as [->|Hne].
    + rewrite !lookup_insert_eq. intros [= <-]. eauto.
    + rewrite !lookup_insert_ne by (first [done|by intros ?%F_to_inj]). apply Hl.
  - destruct (decide (j = k)) as [->|Hne]; [by rewrite lookup_insert_eq|].
    rewrite !lookup_insert_ne by (first [done|by intros ?%F_to_inj]). apply Hn.
Qed.
Lemma state_root_noop C root mt root' :
  state_root C root → codes mt false false → MerkleTransition_Verify mt root = (true, root') → state_root C root'.
Proof.
  intros HC [Hf0 Hf1] (_ & Hp)%MerkleTransition_Verify_true. rewrite Hf0, Hf1 in Hp.
  by apply Processor_noop in Hp as ->.
Qed.
(** The stored values that an update replaces. *)
Definition replaces (C : gmap Z (list Z)) (mt : MerkleTransition) : Prop :=
  ∃ v, C !! F_to (mt_NewKey mt) = Some v ∧ Forall canonical v ∧ mt_OldKey mt = mt_NewKey mt ∧
    leaf_hash (mt_NewKey mt) v (mt_OldLeafHash mt).
Lemma state_root_put C root mt root' a b v :
  state_root C root → codes mt a b → xorb a b = true → MerkleTransition_Verify mt root = (true, root') →
  Forall canonical v → leaf_hash (mt_NewKey mt) v (mt_NewLeafHash mt) →
  (state_root (<[F_to (mt_NewKey mt) := v]> C) root' ∧
   if a then C !! F_to (mt_NewKey mt) = None else replaces C mt) ∨ collision.
Proof.
  intros (m & Ht & Hs) [Hf0 Hf1] Hx (_ & Hp)%MerkleTransition_Verify_true Hv Hh. rewrite Hf0, Hf1 in Hp.
  destruct a, b; try done.
  - destruct (Processor_insert _ _ _ _ _ _ _ _ _ Ht Hp) as [[Hm Ht']|]; [left|by right].
    split; [|by apply (st_none _ _ Hs)]. eexists. split; [exact Ht'|by apply stores_insert].
  - destruct (Processor_update _ _ _ _ _ _ _ _ _ Ht Hp) as [(Hk & Hm & Ht')|]; [left|by right].
    split; [eexists; split; [exact Ht'|by apply stores_insert]|].
    destruct (st_leaf _ _ Hs _ _ Hm) as (w & Hw & Hc & Hl). exists w. by rewrite Hk.
Qed.
Lemma leaf_hash_eq k v h l e :
  leaf_hash k v h → length v ≠ 1%nat → length l ≠ 1%nat → encodeLeafValue l = Some e → h = smt_Hash1 k e →
  F_of <$> v = l ∨ collision.
Proof.
  intros (e' & He' & Hh') Hv Hl He ->. destruct (Hash1_eq _ _ _ _ Hh') as [[_ ->]|]; [|by right].
  apply (encodeLeafValue_eq _ _ e'); by rewrite ?length_fmap.
Qed.

(** ** A slot of the batch *)

Implicit Types c : StateTransitionCircuit.
(** The codes are bits, and ballots have their eight fields. *)
Record typed c : Prop := {
  ty_codes i : (i < VotesPerBatch)%nat → (∃ a b, codes (proofs_Ballot c i) a b) ∧ ∃ a b, codes (proofs_VoteIDs c i) a b;
  ty_results : ∃ a b, codes (proof_Results c) a b;
  ty_ballots i : (i < VotesPerBatch)%nat → Ballot_wf (cv_ReencryptedBallot (Votes c i)) ∧ Ballot_wf (cv_OverwrittenBallot (Votes c i));
  ty_old : Ballot_wf (OldResults c) ∧ Ballot_wf (NewResults c) }.
(** The slot [i] has a vote. *)
Fixpoint real c (i : nat) : bool :=
  match i with
  | O => negb (bool_decide (VotersCount c = zero))
  | S j => real c j && negb (bool_decide (VotersCount c = F_of (Z.of_nat j + 1)))
  end.
Lemma VoteMask_real c i : VoteMask c i = bit (real c i).
Proof. induction i as [|i IH]; cbn [VoteMask real]; [by rewrite IsZero_bit, not_bit|]. by rewrite IH, IsZero_sub, not_bit, mul_bit. Qed.
(** The keys of the slot, and its leaf. *)
Definition index_key c i : Z := F_to (cv_BallotIndex (Votes c i)).
Definition id_key c i : Z := F_to (cv_VoteID (Votes c i)).
Definition slot_leaf c i : list Z :=
  ballot_values (cv_ReencryptedBallot (Votes c i)) (cv_Address (Votes c i)) (cv_VoteWeight (Votes c i)).
(** The state with the ballot and the identifier of the slot. *)
Definition put_slot c (C : gmap Z (list Z)) (i : nat) : gmap Z (list Z) :=
  <[id_key c i := [VoteIDLeafValue]]> (<[index_key c i := slot_leaf c i]> C).
Definition is_update c i : bool := bool_decide (IsUpdate (proofs_Ballot c i) = one).
Definition slot_overwritten c i : Ballot := if is_update c i then cv_OverwrittenBallot (Votes c i) else NewBallot.
(** What the circuit checks of a slot with a vote. *)
Record vote_ok c i : Prop := {
  vo_index : in_ballot_range (index_key c i) = true;
  vo_id : VoteIDMin ≤ id_key c i;
  vo_codes : ∃ a b, codes (proofs_Ballot c i) a b ∧ xorb a b = true;
  vo_insert : codes (proofs_VoteIDs c i) true false;
  vo_key : mt_NewKey (proofs_Ballot c i) = cv_BallotIndex (Votes c i);
  vo_idkey : mt_NewKey (proofs_VoteIDs c i) = cv_VoteID (Votes c i);
  vo_leaf : ∃ e, encodeLeafValue (ReencryptedBallotLeafValues (Votes c i)) = Some e ∧
    mt_NewLeafHash (proofs_Ballot c i) = smt_Hash1 (mt_NewKey (proofs_Ballot c i)) e;
  vo_over : is_update c i = true → ∃ e, encodeLeafValue (OverwrittenBallotLeafValues (Votes c i)) = Some e ∧
    mt_OldLeafHash (proofs_Ballot c i) = smt_Hash1 (mt_OldKey (proofs_Ballot c i)) e;
  vo_idleaf : mt_NewLeafHash (proofs_VoteIDs c i) = smt_Hash1 (mt_NewKey (proofs_VoteIDs c i)) (F_of VoteIDLeafValue);
  vo_wf : Ballot_wf (cv_ReencryptedBallot (Votes c i)) ∧ Ballot_wf (cv_OverwrittenBallot (Votes c i)) }.

Lemma is_update_codes c i a b : codes (proofs_Ballot c i) a b → is_update c i = negb a && b.
Proof. intros Hc. unfold is_update. rewrite (IsUpdate_codes _ _ _ Hc), (bool_decide_ext _ _ (bit_one _)). by destruct a, b. Qed.
Lemma leaf_values_F v z : F_of <$> ballot_values z (cv_Address v) (cv_VoteWeight v) = ballotLeafValues v z.
Proof. unfold ballot_values, ballotLeafValues. rewrite fmap_app, SerializeVars_BigInts. cbn. by rewrite !F_of_to. Qed.
Lemma ballot_values_canonical z a w : Forall canonical (ballot_values z a w).
Proof. apply Forall_app. split; [apply BigInts_canonical|]. repeat constructor; apply F_to_range. Qed.
Lemma length_ballot_values z a w : Ballot_wf z → length (ballot_values z a w) = (FieldsPerBallot * 4 + 2)%nat.
Proof. intros Hz. unfold ballot_values. by rewrite length_app, (length_BigInts_wf _ Hz). Qed.
Lemma ballot_values_ne1 z a w : Ballot_wf z → length (ballot_values z a w) ≠ 1%nat.
Proof. intros Hz. by rewrite length_ballot_values. Qed.
Lemma leaf_ballot_values z a w : Ballot_wf z → leaf_ballot (ballot_values z a w) = z.
Proof.
  intros Hz. pose proof (length_BigInts_wf _ Hz) as Hl.
  unfold leaf_ballot, ballotFromTreeLeafValues, ballotLeafFromTreeLeafValues, ballotTreeLeafBallotValueCount.
  rewrite (proj2 (Nat.ltb_ge _ _)) by (rewrite (length_ballot_values _ _ _ Hz); lia).
  unfold ballot_values. by rewrite take_app_length' by done; rewrite SetBigInts_wf.
Qed.
Lemma small_canonical z : 0 ≤ z < two64 → canonical z.
Proof. intros Hz. pose proof modulus_gt. unfold canonical. lia. Qed.
Lemma not_ballot_key k : VoteIDMin ≤ k → in_ballot_range k = false.
Proof. intros Hk. unfold in_ballot_range. apply andb_false_iff. right. apply Z.leb_gt. unfold BallotMax. lia. Qed.
Lemma index_ne_id c i j : in_ballot_range (index_key c i) = true → VoteIDMin ≤ id_key c j → index_key c i ≠ id_key c j.
Proof. intros Hi Hj Heq. rewrite Heq, not_ballot_key in Hi by done. done. Qed.
Lemma ballot_leaves_put c C i : vote_ok c i → ballot_leaves C → ballot_leaves (put_slot c C i).
Proof.
  intros Hv HC k v. unfold put_slot. destruct (decide (k = id_key c i)) as [->|Hne].
  { intros _. by rewrite not_ballot_key by apply Hv. }
  rewrite lookup_insert_ne by done. destruct (decide (k = index_key c i)) as [->|Hne'].
  - rewrite lookup_insert_eq. intros [= <-] _. do 3 eexists. split; [exact (proj1 (vo_wf _ _ Hv))|reflexivity].
  - rewrite lookup_insert_ne by done. apply HC.
Qed.
(** The ballot that an update replaces is the one stored. *)
Lemma replaces_ballot C c i :
  vote_ok c i → ballot_leaves C → is_update c i = true → replaces C (proofs_Ballot c i) →
  old_ballot C (index_key c i) = cv_OverwrittenBallot (Votes c i) ∨ collision.
Proof.
  intros Hv HC Hu (v & Hk & Hc & Hok & Hl). rewrite (vo_key _ _ Hv) in *.
  destruct (HC _ _ Hk (vo_index _ _ Hv)) as (z & a & w & Hz & ->).
  destruct (vo_over _ _ Hv Hu) as (e & He & Hh). rewrite Hok in Hh. unfold old_ballot, index_key. rewrite Hk.
  unfold OverwrittenBallotLeafValues in He. rewrite <-leaf_values_F in He.
  destruct (vo_wf _ _ Hv) as [_ Hwo].
  assert (Hn : length (F_of <$> ballot_values (cv_OverwrittenBallot (Votes c i)) (cv_Address (Votes c i)) (cv_VoteWeight (Votes c i))) ≠ 1%nat)
    by (rewrite length_fmap; by apply ballot_values_ne1).
  destruct (leaf_hash_eq _ _ _ _ _ Hl (ballot_values_ne1 _ _ _ Hz) Hn He Hh) as [Heq|]; [left|by right].
  apply F_of_list_inj in Heq; [|done|apply ballot_values_canonical]. rewrite Heq. by apply leaf_ballot_values.
Qed.
Lemma slot_sound c C i root r1 r2 :
  vote_ok c i → ballot_leaves C → state_root C root →
  MerkleTransition_Verify (proofs_Ballot c i) root = (true, r1) → MerkleTransition_Verify (proofs_VoteIDs c i) r1 = (true, r2) →
  (state_root (put_slot c C i) r2 ∧ C !! id_key c i = None ∧ old_ballot C (index_key c i) = slot_overwritten c i) ∨ collision.
Proof.
  intros Hv HC Hroot Ht1 Ht2. destruct (vo_codes _ _ Hv) as (a & b & Hab & Hx).
  destruct (state_root_put _ _ _ _ _ _ (slot_leaf c i) Hroot Hab Hx Ht1) as [[Hr1 Hold]|]; [apply ballot_values_canonical| |  |by right].
  { destruct (vo_leaf _ _ Hv) as (e & He & ->). exists e. split; [|done]. unfold slot_leaf. rewrite leaf_values_F. done. }
  rewrite (vo_key _ _ Hv) in Hr1.
  destruct (state_root_put _ _ _ _ _ _ [VoteIDLeafValue] Hr1 (vo_insert _ _ Hv) eq_refl Ht2) as [[Hr2 Hnone]|]; [| | |by right].
  { repeat constructor; [done|]. pose proof modulus_gt1. unfold VoteIDLeafValue. lia. }
  { exists (F_of VoteIDLeafValue). split; [done|apply Hv]. }
  rewrite (vo_idkey _ _ Hv) in Hr2, Hnone. rewrite lookup_insert_ne in Hnone by (apply index_ne_id; apply Hv).
  pose proof (is_update_codes c i _ _ Hab) as Hu. unfold slot_overwritten. destruct a.
  - left. rewrite Hu. split_and!; [done..|]. unfold old_ballot, index_key. rewrite (vo_key _ _ Hv) in Hold. by rewrite Hold.
  - destruct b; [|done]. cbn in Hu. rewrite Hu.
    destruct (replaces_ballot C c i Hv HC Hu Hold) as [Hov|]; [left; by split_and!|by right].
Qed.

(** ** What the circuit checks of each slot *)

Lemma slots_seq : slots = seq 0 VotesPerBatch.
Proof. done. Qed.
Lemma elem_of_slots i : i ∈ slots ↔ (i < VotesPerBatch)%nat.
Proof. rewrite slots_seq, elem_of_seq. lia. Qed.
Lemma slots_split i : (i < VotesPerBatch)%nat → slots = seq 0 i ++ i :: seq (S i) (VotesPerBatch - S i).
Proof.
  intros Hi. rewrite slots_seq. generalize dependent VotesPerBatch. intros m Hi.
  rewrite <-(seq_app i (S (m - S i))). f_equal. lia.
Qed.

Context (negScalingInvBig : F) (VerifyFullBlobEvaluationBN254 : F → F → list F → list F → list F → list F → bool).
Notation Define c := (Define negScalingInvBig VerifyFullBlobEvaluationBN254 c).

Lemma forallb_slots f i : forallb f slots = true → (i < VotesPerBatch)%nat → f i = true.
Proof. rewrite forallb_forall. intros Hf Hi. apply Hf, list_elem_of_In, elem_of_seq. lia. Qed.
Lemma IsMerkle_bit o : IsMerkleTreeCensusOrigin o = bit (bool_decide (o = F_of 1) || bool_decide (o = F_of 2) || bool_decide (o = F_of 3)).
Proof. unfold IsMerkleTreeCensusOrigin. by rewrite !IsZero_sub, !or_bit. Qed.
Lemma IsCSP_bit o : IsCSPCensusOrigin o = bit (bool_decide (o = F_of 4)).
Proof. unfold IsCSPCensusOrigin. by rewrite IsZero_sub. Qed.
Lemma Circuit_BallotIndex_range v k ok : Circuit_BallotIndex v = (ok, k) → ok = true → in_ballot_range (F_to k) = true.
Proof.
  unfold Circuit_BallotIndex, api_AssertIsLessOrEqual. intros [= <- <-] Hle%Z.leb_le.
  pose proof modulus_gt. pose proof params_values as Hp. pose proof (F_to_range v). unfold two64 in *.
  rewrite F_to_small in Hle by lia. unfold api_Add. rewrite (F_to_small BallotMin), F_to_small by lia.
  unfold in_ballot_range. apply andb_true_intro. split; apply Z.leb_le; unfold VoterIndexMax in *; lia.
Qed.
(** A census of one of the supported origins gives the ballot index of a vote. *)
Lemma census_index c i :
  VerifyIsValidCensusOrigin c = true → VerifyMerkleCensusProofs c = true → VerifyCSPCensusProofs c = true →
  (i < VotesPerBatch)%nat → real c i = true → in_ballot_range (index_key c i) = true.
Proof.
  unfold VerifyIsValidCensusOrigin, VerifyMerkleCensusProofs, VerifyCSPCensusProofs, IsValidCensusOrigin, api_AssertIsEqual.
  intros Ho Hm Hc Hi Hreal. apply (forallb_slots _ i) in Hm, Hc; [|done..]. cbv beta zeta in Hm, Hc.
  rewrite VoteMask_real, Hreal, IsMerkle_bit, and_bit in Hm. rewrite VoteMask_real, Hreal, IsCSP_bit, and_bit in Hc.
  rewrite IsMerkle_bit, IsCSP_bit, or_bit, bool_decide_eq_true, bit_one in Ho. unfold index_key.
  apply orb_prop in Ho as [Ho|Ho]; rewrite Ho in *.
  - apply andb_prop in Hm as [_ Hm]. destruct (imt_Verify _ _); [|done]. apply andb_prop in Hm as [_ Hm].
    destruct (Circuit_BallotIndex _) as [ok k] eqn:E. apply andb_prop in Hm as [-> Hk].
    rewrite AssertIsEqualIf_bit in Hk. rewrite <-(Hk eq_refl). by eapply Circuit_BallotIndex_range.
  - destruct (CSPProof_IsValid _ _ _ _ _); [|done]. apply andb_prop in Hc as [_ Hc].
    destruct (Circuit_BallotIndex (csp_VoterIndex _)) as [ok k] eqn:E. apply andb_prop in Hc as [-> Hk].
    rewrite AssertIsEqualIf_bit in Hk. rewrite <-(Hk eq_refl). by eapply Circuit_BallotIndex_range.
Qed.
Definition slot_ok c i : Prop :=
  if real c i then vote_ok c i else codes (proofs_Ballot c i) false false ∧ codes (proofs_VoteIDs c i) false false.
Lemma transitions_types c i :
  VerifyMerkleTransitions c = true → typed c → (i < VotesPerBatch)%nat →
  if real c i then (∃ a b, codes (proofs_Ballot c i) a b ∧ xorb a b = true) ∧ codes (proofs_VoteIDs c i) true false
  else codes (proofs_Ballot c i) false false ∧ codes (proofs_VoteIDs c i) false false.
Proof.
  intros [Hs _]%andb_prop Ht Hi. apply (forallb_slots _ i) in Hs; [|done]. cbv beta zeta in Hs.
  destruct (ty_codes _ Ht i Hi) as [(a & b & Hab) (a' & b' & Hab')].
  rewrite VoteMask_real, not_bit, (IsNoop_codes _ _ _ Hab), (IsNoop_codes _ _ _ Hab'),
    (IsInsertOrUpdate_codes _ _ _ Hab), (IsInsert_codes _ _ _ Hab'), !andb_true_iff, !AssertTrueIf_bit in Hs.
  destruct Hs as [[[Hs1 Hs2] Hs3] Hs4]. destruct (real c i).
  - specialize (Hs1 eq_refl). specialize (Hs2 eq_refl). split; [eauto|]. by destruct a', b'.
  - specialize (Hs3 eq_refl). specialize (Hs4 eq_refl). destruct a, b, a', b'; done.
Qed.
Lemma Define_parts c : Define c = true →
  VerifyMerkleTransitionKeys c = true ∧ VerifyMerkleTransitions c = true ∧ VerifyRootTransition c = true ∧
  VerifyLeafHashes c = true ∧ VerifyIsValidCensusOrigin c = true ∧ VerifyMerkleCensusProofs c = true ∧
  VerifyCSPCensusProofs c = true ∧ VerifyBallots c = true ∧ VoteID_ranges c = true.
Proof. unfold TransitionCircuit.Define, VerifyBlobs. rewrite !andb_true_iff. tauto. Qed.
Lemma Define_slot c i : Define c = true → typed c → (i < VotesPerBatch)%nat → slot_ok c i.
Proof.
  intros (Hk & Ht & _ & Hl & Ho & Hm & Hc & _ & Hr)%Define_parts Hty Hi. unfold slot_ok.
  pose proof (transitions_types c i Ht Hty Hi) as Htypes. destruct (real c i) eqn:Hreal; [|done].
  destruct Htypes as [(a & b & Hab & Hx) Hid].
  apply andb_prop in Hk as [_ Hk]. apply (forallb_slots _ i) in Hk; [|done]. apply andb_prop in Hk as [Hkid Hkb].
  unfold VerifyNewKey in *. rewrite (IsNoop_codes _ _ _ Hid) in Hkid. rewrite (IsNoop_codes _ _ _ Hab) in Hkb.
  apply verifyLeafKey_bit in Hkid; [|done]. apply verifyLeafKey_bit in Hkb; [|by destruct a, b].
  unfold VerifyLeafHashes in Hl. apply andb_prop in Hl as [[[_ Hl]%andb_prop _]%andb_prop _].
  apply (forallb_slots _ i) in Hl; [|done]. apply andb_prop in Hl as [[Hl1 Hl2]%andb_prop Hl3].
  unfold VerifyNewLeafHash, VerifyOverwrittenBallot in *.
  rewrite (IsNoop_codes _ _ _ Hab) in Hl1. rewrite (IsUpdate_codes _ _ _ Hab), IsZero_of_bit in Hl2. rewrite (IsNoop_codes _ _ _ Hid) in Hl3.
  apply (forallb_slots _ i) in Hr; [|done]. cbv beta zeta in Hr. rewrite VoteMask_real, Hreal, Select_bit in Hr.
  apply andb_prop in Hr as [Hr%Z.leb_le _].
  assert (Hmin : F_to (F_of VoteIDMin) = VoteIDMin).
  { pose proof modulus_gt. pose proof params_values. unfold two64 in *. apply F_to_small. lia. }
  rewrite Hmin in Hr. split; try done.
  - by apply census_index.
  - eauto.
  - apply verifyLeafHash_bit in Hl1; [done|by destruct a, b].
  - intros Hu. rewrite (is_update_codes _ _ _ _ Hab) in Hu. by apply verifyLeafHash_bit in Hl2; [|rewrite Hu].
  - apply verifyLeafHash_bit in Hl3 as (e & [= <-] & ->); done.
  - by apply ty_ballots.
Qed.

(** ** The batch *)

Definition put_real c (C : gmap Z (list Z)) (i : nat) : gmap Z (list Z) := if real c i then put_slot c C i else C.
Definition counted c (i : nat) : Ballot := if real c i then cv_ReencryptedBallot (Votes c i) else NewBallot.
Definition reals c (l : list nat) : Z := foldr (λ i n, (if real c i then 1 else 0) + n) 0 l.
(** The state with the votes of the first [n] slots. *)
Definition put_slots c (C : gmap Z (list Z)) (n : nat) : gmap Z (list Z) := foldl (put_slot c) C (seq 0 n).

Lemma Ballot_Select_eq b x y : Ballot_wf x → Ballot_wf y → Ballot_Select (bit b) x y = if b then x else y.
Proof.
  unfold Ballot_wf, Ballot_Select. intros Hx Hy. rewrite <-Hy in Hx. clear Hy.
  rewrite (bool_decide_ext _ _ (bit_one b)). revert y Hx. induction x as [|c1 x IH]; intros [|c2 y] Hl; try done.
  - by destruct b.
  - cbn. injection Hl as Hl. rewrite IH by done. by destruct b.
Qed.
Lemma foldl_IsEqual r (x y : Ballot) :
  length x = length y → foldl (λ res '(a, b), api_And res (bit (bool_decide (a = b)))) (bit r) (zip x y) = bit (r && bool_decide (x = y)).
Proof.
  revert r y. induction x as [|a x IH]; intros r [|b y] Hl; try done; [by rewrite bool_decide_true, andb_true_r|].
  injection Hl as Hl. cbn. rewrite and_bit, IH by done. f_equal. rewrite <-andb_assoc. f_equal.
  repeat case_bool_decide; naive_solver.
Qed.
Lemma Ballot_IsEqual_true x y : Ballot_wf x → Ballot_wf y → Ballot_IsEqual x y = one → x = y.
Proof.
  unfold Ballot_wf, Ballot_IsEqual. intros Hx Hy. change one with (bit true). rewrite foldl_IsEqual by congruence.
  intros Hb%bit_inj. by apply bool_decide_eq_true in Hb.
Qed.
Lemma slot_ok_codes c i :
  slot_ok c i → ∃ a b, codes (proofs_Ballot c i) a b ∧ xorb a b = real c i ∧ (is_update c i = true → real c i = true).
Proof.
  unfold slot_ok. destruct (real c i).
  - intros Hv. destruct (vo_codes _ _ Hv) as (a & b & ? & ?). eauto.
  - intros [Hc _]. exists false, false. split_and!; [done..|]. by rewrite (is_update_codes _ _ _ _ Hc).
Qed.
Lemma counted_wf c i : typed c → (i < VotesPerBatch)%nat → Ballot_wf (counted c i) ∧ Ballot_wf (slot_overwritten c i).
Proof.
  intros Ht Hi. destruct (ty_ballots _ Ht i Hi). unfold counted, slot_overwritten.
  split; [destruct (real c i)|destruct (is_update c i)]; first [done|apply Ballot_wf_New].
Qed.
Lemma api_Add_Z n z : api_Add (F_of n) (F_of z) = F_of (n + z).
Proof. unfold api_Add. rewrite !F_to_of. apply F_of_mod. by rewrite <-Zplus_mod. Qed.
Lemma ballot_step_fold c l A O n m :
  (∀ i, i ∈ l → (i < VotesPerBatch)%nat ∧ slot_ok c i) → typed c → Ballot_wf A → Ballot_wf O →
  ∃ m', foldl (ballot_step c) (A, O, F_of n, m) l =
    (Ballot_Add A (ballots_sum (counted c <$> l)), Ballot_Add O (ballots_sum (slot_overwritten c <$> l)), F_of (n + reals c l), m').
Proof.
  intros Hl Hty. revert A O n m. induction l as [|i l IH]; intros A O n m HA HO.
  { exists m. cbn [foldl fmap list_fmap ballots_sum reals foldr]. by rewrite Z.add_0_r, !Ballot_Add_0_r. }
  destruct (Hl i ltac:(left)) as [Hi Hok]. destruct (counted_wf c i Hty Hi) as [Hwc Hwo].
  destruct (slot_ok_codes c i Hok) as (a & b & Hab & Hx & _). destruct (ty_ballots _ Hty i Hi) as [Hwr Hwv].
  cbn [foldl fmap list_fmap reals foldr]. unfold ballot_step at 2. cbv zeta.
  rewrite (IsInsertOrUpdate_codes _ _ _ Hab), Hx, !Ballot_Select_eq by done.
  rewrite (IsUpdate_codes _ _ _ Hab), <-(is_update_codes _ _ _ _ Hab), Ballot_Select_eq by done.
  fold (counted c i) (slot_overwritten c i).
  assert (Hb : bit (real c i) = F_of (if real c i then 1 else 0)) by by destruct (real c i). rewrite Hb, api_Add_Z.
  destruct (IH ltac:(intros j Hj; apply Hl; by right) (Ballot_Add A (counted c i)) (Ballot_Add O (slot_overwritten c i))
    (n + (if real c i then 1 else 0)) (api_Add m (bit (is_update c i))) ltac:(by apply Ballot_wf_Add) ltac:(by apply Ballot_wf_Add)) as [m' ->].
  exists m'. by rewrite !ballots_sum_cons, !Ballot_Add_assoc, Z.add_assoc.
Qed.

Lemma root_step_ok c l b r r' : foldl (root_step c) (b, r) l = (true, r') → b = true.
Proof.
  revert b r. induction l as [|i l IH]; intros b r; [by intros [= ->]|]. cbn [foldl]. unfold root_step at 2.
  destruct (MerkleTransition_Verify _ _) as [ok1 r1]. destruct (MerkleTransition_Verify _ _) as [ok2 r2].
  intros Hb%IH. cbn in Hb. by destruct b.
Qed.
(** A ballot that replaces another moves the tally by their difference. *)
Lemma put_slot_tally c C i :
  vote_ok c i → old_ballot C (index_key c i) = slot_overwritten c i →
  Ballot_Add (tally (put_slot c C i)) (slot_overwritten c i) = Ballot_Add (tally C) (cv_ReencryptedBallot (Votes c i)).
Proof.
  intros Hv <-. unfold put_slot. rewrite tally_insert_other by (apply not_ballot_key, Hv).
  rewrite tally_insert by apply Hv. unfold slot_leaf. by rewrite leaf_ballot_values by apply Hv.
Qed.
Lemma put_slot_config c C i k : vote_ok c i → k < BallotMin → put_slot c C i !! k = C !! k.
Proof.
  intros Hv Hk. pose proof (vo_index _ _ Hv) as Hi. pose proof (vo_id _ _ Hv). pose proof params_values.
  unfold in_ballot_range in Hi. apply andb_prop in Hi as [?%Z.leb_le _].
  unfold put_slot. rewrite !lookup_insert_ne by lia. done.
Qed.
(** What holds after the slots [l]. *)
Record follows c (C C' : gmap Z (list Z)) (r : F) (l : list nat) : Prop := {
  fo_root : state_root C' r;
  fo_leaves : ballot_leaves C';
  fo_config k : k < BallotMin → C' !! k = C !! k;
  fo_tally : Ballot_Add (tally C') (ballots_sum (slot_overwritten c <$> l)) = Ballot_Add (tally C) (ballots_sum (counted c <$> l));
  fo_fresh l1 i l2 : l = l1 ++ i :: l2 → real c i = true → foldl (put_real c) C l1 !! id_key c i = None }.
Lemma follows_refl c C r : state_root C r → ballot_leaves C → follows c C C r [].
Proof. intros Hr HC. split; try done. intros [|? ?] ? ?; done. Qed.
Lemma follows_cons c C C1 C' r l i :
  put_real c C i = C1 → (real c i = true → C !! id_key c i = None) → (∀ k, k < BallotMin → C1 !! k = C !! k) →
  Ballot_Add (tally C1) (slot_overwritten c i) = Ballot_Add (tally C) (counted c i) →
  follows c C1 C' r l → follows c C C' r (i :: l).
Proof.
  intros HC1 Hn Hcfg Ht [Hr Hl Hc Ht' Hf]. split; [done|done| | |].
  - intros k Hk. by rewrite Hc, Hcfg.
  - cbn [fmap list_fmap]. rewrite !ballots_sum_cons, Ballot_Add_swap, Ht', Ballot_Add_assoc, (Ballot_Add_comm (slot_overwritten c i)), Ht.
    by rewrite <-Ballot_Add_assoc.
  - intros [|j l1] i' l2 [= <- Heq] Hi; [by apply Hn|]. cbn [foldl]. rewrite HC1. by eapply Hf.
Qed.
Lemma slots_sound c l C r r' :
  (∀ i, i ∈ l → slot_ok c i) → foldl (root_step c) (true, r) l = (true, r') → state_root C r → ballot_leaves C →
  follows c C (foldl (put_real c) C l) r' l ∨ collision.
Proof.
  revert C r. induction l as [|i l IH]; intros C r Hok Hf Hr HC.
  { left. injection Hf as <-. by apply follows_refl. }
  cbn [foldl] in *. unfold root_step at 2 in Hf. cbn [snd fst] in Hf.
  destruct (MerkleTransition_Verify (proofs_Ballot c i) r) as [ok1 r1] eqn:E1.
  destruct (MerkleTransition_Verify (proofs_VoteIDs c i) r1) as [ok2 r2] eqn:E2.
  pose proof (root_step_ok _ _ _ _ _ Hf) as Hb. destruct ok1, ok2; try done.
  assert (Hl : ∀ j, j ∈ l → slot_ok c j) by (intros j Hj; apply Hok; by right).
  pose proof (Hok i ltac:(left)) as Hi. unfold slot_ok in Hi. destruct (real c i) eqn:Hreal.
  - destruct (slot_sound c C i r r1 r2 Hi HC Hr E1 E2) as [(Hr2 & Hn & Hov)|]; [|by right].
    assert (HC1 : put_real c C i = put_slot c C i) by (unfold put_real; by rewrite Hreal). rewrite HC1.
    destruct (IH (put_slot c C i) r2 Hl Hf Hr2 (ballot_leaves_put _ _ _ Hi HC)) as [Hfo|]; [left|by right].
    eapply follows_cons; [exact HC1|done|intros k; by apply put_slot_config| |exact Hfo].
    unfold counted. rewrite Hreal. by apply put_slot_tally.
  - destruct Hi as [Hc1 Hc2]. assert (HC1 : put_real c C i = C) by (unfold put_real; by rewrite Hreal). rewrite HC1.
    pose proof (state_root_noop _ _ _ _ (state_root_noop _ _ _ _ Hr Hc1 E1) Hc2 E2) as Hr2.
    destruct (IH C r2 Hl Hf Hr2 HC) as [Hfo|]; [left|by right].
    eapply follows_cons; [exact HC1|congruence|done| |exact Hfo].
    unfold counted, slot_overwritten. by rewrite Hreal, (is_update_codes _ _ _ _ Hc1).
Qed.

(** The slots with votes come first, as many as the count of voters says. *)
Lemma real_prefix c m : ∃ n, (n ≤ m)%nat ∧ (∀ i, (i < m)%nat → real c i = bool_decide (i < n)%nat) ∧ ((n < m)%nat → VotersCount c = F_of (Z.of_nat n)).
Proof.
  induction m as [|m (n & Hn & Hr & Hv)]; [exists O; split_and!; intros; lia|].
  destruct (decide (n < m)%nat) as [Hlt|Hge].
  - exists n. split_and!; [lia| |intros _; by apply Hv]. intros i Hi. destruct (decide (i = m)) as [->|]; [|apply Hr; lia].
    rewrite bool_decide_false by lia. destruct m as [|m]; [lia|]. cbn [real]. rewrite Hr by lia. by rewrite bool_decide_false by lia.
  - assert (n = m) as -> by lia. destruct (real c m) eqn:Hm.
    + exists (S m). split_and!; [lia| |lia]. intros i Hi. rewrite (bool_decide_true (i < S m)%nat) by done.
      destruct (decide (i = m)) as [->|]; [done|]. rewrite Hr by lia. by apply bool_decide_true; lia.
    + exists m. split_and!; [lia| |].
      * intros i Hi. destruct (decide (i = m)) as [->|]; [by rewrite bool_decide_false by lia|]. apply Hr. lia.
      * intros _. destruct m as [|j]; cbn [real] in Hm.
        -- apply negb_false_iff in Hm. by apply bool_decide_eq_true in Hm.
        -- rewrite Hr, bool_decide_true in Hm by lia. cbn in Hm. apply negb_false_iff, bool_decide_eq_true in Hm. rewrite Hm. f_equal. lia.
Qed.
Lemma reals_all c l : (∀ i, i ∈ l → real c i = true) → reals c l = Z.of_nat (length l).
Proof.
  induction l as [|i l IH]; intros Hl; [done|]. cbn [reals foldr length]. change (foldr _ _ l) with (reals c l).
  rewrite IH by (intros j Hj; apply Hl; by right). rewrite (Hl i ltac:(left)). lia.
Qed.
Lemma put_real_all c C l : (∀ i, i ∈ l → real c i = true) → foldl (put_real c) C l = foldl (put_slot c) C l.
Proof.
  revert C. induction l as [|i l IH]; intros C Hl; [done|]. cbn [foldl]. rewrite IH by (intros j Hj; apply Hl; by right).
  unfold put_real. by rewrite (Hl i ltac:(left)).
Qed.
Lemma put_real_none c C l : (∀ i, i ∈ l → real c i = false) → foldl (put_real c) C l = C.
Proof.
  induction l as [|i l IH]; intros Hl; [done|]. cbn [foldl]. unfold put_real at 2. rewrite (Hl i ltac:(left)).
  apply IH. intros j Hj. apply Hl. by right.
Qed.
(** The slots up to [k], when the first [n] have votes. *)
Lemma put_real_slots c C n k m :
  (∀ i, (i < m)%nat → real c i = bool_decide (i < n)%nat) → (n ≤ k)%nat → (k ≤ m)%nat →
  foldl (put_real c) C (seq 0 k) = put_slots c C n.
Proof.
  intros Hr Hn Hk. replace k with (n + (k - n))%nat by lia. rewrite seq_app, foldl_app, (put_real_none c _ (seq (0 + n) _)), put_real_all; [done| |].
  - intros i Hi%elem_of_seq. rewrite Hr by lia. by apply bool_decide_true; lia.
  - intros i Hi%elem_of_seq. rewrite Hr by lia. by apply bool_decide_false; lia.
Qed.

Lemma put_real_all_seq c C n i m :
  (∀ i, (i < m)%nat → real c i = bool_decide (i < n)%nat) → (i < n)%nat → (n ≤ m)%nat →
  foldl (put_real c) C (seq 0 i) = put_slots c C i.
Proof.
  intros Hr Hi Hn. apply put_real_all. intros j Hj%elem_of_seq. rewrite Hr by lia. apply bool_decide_true. lia.
Qed.

(** ** The results *)

Lemma F_to_results : F_to (F_of StateKeyResults) = StateKeyResults.
Proof. pose proof modulus_gt1. apply F_to_small. unfold StateKeyResults. lia. Qed.
Lemma BigInts_inj x y : Ballot_wf x → Ballot_wf y → BigInts x = BigInts y → x = y.
Proof. intros Hx Hy Heq. apply (f_equal SetBigInts) in Heq. rewrite !SetBigInts_wf in Heq by done. by injection Heq. Qed.
Lemma BigInts_ne1 z : Ballot_wf z → length (BigInts z) ≠ 1%nat.
Proof. intros Hz. by rewrite (length_BigInts_wf _ Hz). Qed.
(** The transition of the results: the old ones were stored, and the new ones are. *)
Lemma results_sound c C old root :
  VerifyMerkleTransitionKeys c = true → VerifyMerkleTransitions c = true → VerifyLeafHashes c = true → typed c →
  MerkleTransition_Verify (proof_Results c) root = (true, RootHashAfter c) → state_root C root →
  C !! StateKeyResults = Some (BigInts old) → Ballot_wf old →
  (state_root (<[StateKeyResults := BigInts (NewResults c)]> C) (RootHashAfter c) ∧ OldResults c = old) ∨ collision.
Proof.
  intros [Hk _]%andb_prop [_ Ht]%andb_prop Hl Hty Hv Hr HC Hold. destruct (ty_results _ Hty) as (a & b & Hab).
  unfold api_AssertIsEqual in Ht. rewrite (IsUpdate_codes _ _ _ Hab), bool_decide_eq_true, bit_one in Ht.
  destruct a, b; try done. unfold VerifyLeafHashes in Hl. apply andb_prop in Hl as [[_ Ho]%andb_prop Hn].
  unfold VerifyNewKey, VerifyOldLeafHash, VerifyNewLeafHash in *. rewrite (IsNoop_codes _ _ _ Hab) in Hk, Ho, Hn.
  apply verifyLeafKey_bit in Hk; [|done]. apply verifyLeafHash_bit in Ho as (e & He & Ho); [|done].
  apply verifyLeafHash_bit in Hn as (e' & He' & Hn); [|done]. rewrite SerializeVars_BigInts in He, He'.
  destruct (ty_old _ Hty) as [Hwo Hwn].
  destruct (state_root_put _ _ _ _ _ _ (BigInts (NewResults c)) Hr Hab eq_refl Hv (BigInts_canonical _)) as [[Hr' Hrep]|]; [by exists e'| |by right].
  destruct Hrep as (v & Hv' & Hc & Hok & Hlv). rewrite Hk, F_to_results in *. rewrite HC in Hv'. injection Hv' as <-. rewrite Hok in Ho.
  pose proof (BigInts_ne1 _ Hwo) as Hne. rewrite <-(length_fmap F_of) in Hne.
  destruct (leaf_hash_eq _ _ _ _ _ Hlv (BigInts_ne1 _ Hold) Hne He Ho) as [Heq|]; [left|by right].
  split; [done|]. apply BigInts_inj; [done..|]. symmetry. by apply F_of_list_inj; [apply BigInts_canonical..|].
Qed.
(** The sums that the circuit asserts. *)
Lemma ballots_sound c :
  VerifyBallots c = true → typed c → (∀ i, (i < VotesPerBatch)%nat → slot_ok c i) →
  NewResults c = Ballot_Add (OldResults c)
    (Ballot_Add (ballots_sum (counted c <$> slots)) (Ballot_Neg (ballots_sum (slot_overwritten c <$> slots)))) ∧
  VotersCount c = F_of (reals c slots).
Proof.
  intros Hb Hty Hok. assert (Hs : ∀ i, i ∈ slots → (i < VotesPerBatch)%nat ∧ slot_ok c i).
  { intros i Hi%elem_of_slots. auto. }
  unfold VerifyBallots in Hb.
  destruct (ballot_step_fold c slots NewBallot NewBallot 0 zero Hs Hty ltac:(done) ltac:(done)) as [m' Hf]. unfold zero in *.
  rewrite Hf in Hb. cbv zeta in Hb. apply andb_prop in Hb as [[Hr Hn]%andb_prop _].
  unfold Ballot_AssertIsEqual, api_AssertIsEqual in *. apply bool_decide_eq_true in Hr, Hn.
  assert (Hw1 : Forall Ballot_wf (counted c <$> slots)).
  { apply Forall_fmap, Forall_forall. intros i Hi. apply counted_wf; [done|by apply Hs]. }
  assert (Hw2 : Forall Ballot_wf (slot_overwritten c <$> slots)).
  { apply Forall_fmap, Forall_forall. intros i Hi. apply counted_wf; [done|by apply Hs]. }
  apply ballots_sum_wf in Hw1, Hw2. destruct (ty_old _ Hty) as [Hwo Hwn].
  rewrite !(Ballot_Add_comm NewBallot), !Ballot_Add_0_r in Hr by done.
  apply Ballot_IsEqual_true in Hr; [done|done|]. apply Ballot_wf_Add; [done|]. apply Ballot_wf_Add; [done|by apply Ballot_wf_Neg].
Qed.

End sound.
