(* ===== verification/CircuitExample.v ===== *)
(** * A batch that satisfies the circuit

    A field of a size just above 64 bits, a toy hash and a tree given by the list of its
    versions, and in them an assignment of the state transition circuit that satisfies it:
    one voter replaces a ballot and another votes for the first time. It shows that the
    hypotheses of [circuit_keeps_tally] hold together. *)

From S2P Require Import Prelude Bytes Spec Types Curve ElGamal StateVote StateTree StateBatch Tally Gnark TransitionCircuit CircuitSound.

Module SmallField.
Definition p : Z := two64 + 13.
Record Fp := MkFp { fp : Z; fp_ok : ((0 <=? fp) && (fp <? p)) = true }.
Lemma fp_eq (a b : Fp) : fp a = fp b → a = b.
Proof. destruct a, b; cbn; intros ->. f_equal. apply Eqdep_dec.UIP_dec, bool_dec. Qed.
Lemma F_mod_ok z : ((0 <=? z mod p) && (z mod p <? p)) = true.
Proof. pose proof (Z.mod_pos_bound z p ltac:(done)). apply andb_true_intro. split; [apply Z.leb_le|apply Z.ltb_lt]; lia. Qed.
Definition of_Z (z : Z) : Fp := MkFp (z mod p) (F_mod_ok z).
#[export] Instance Fp_eq_dec : EqDecision Fp.
Proof. intros a b. destruct (decide (fp a = fp b)); [left; by apply fp_eq|right; congruence]. Defined.
#[export] Program Instance field : Field := {| F := Fp; modulus := p; F_of := of_Z; F_to := fp |}.
Next Obligation. done. Qed.
Next Obligation. done. Qed.
Next Obligation.
  intros a. apply fp_eq. cbn. pose proof (fp_ok a) as Ha. apply andb_prop in Ha as [?%Z.leb_le ?%Z.ltb_lt]. by apply Z.mod_small.
Qed.
Definition hash (l : list F) : F := foldl (λ a x, F_of (F_to a * 1000003 + F_to x)) (F_of (Z.of_nat (length l))) l.
Definition hash1 (k v : F) : F := hash [k; v; one].
(** The root of a version of the tree. *)
Definition find (trees : list (gmap F F)) (m : gmap F F) : option F :=
  match list_find (λ x, x = m) trees with
  | Some (i, _) => let r := F_of (Z.of_nat i) in if bool_decide (trees !! Z.to_nat (F_to r) = Some m) then Some r else None
  | None => None
  end.
(** The version of the tree [root] with the leaf [nk], if it is one of the versions. *)
Definition processor (trees : list (gmap F F)) (root ok ol nk nl f0 f1 : F) : option F :=
  match trees !! Z.to_nat (F_to root) with
  | None => None
  | Some m =>
      if bool_decide (f0 = zero ∧ f1 = zero) then Some root
      else if bool_decide (f0 = zero ∧ f1 = one) then
        if bool_decide (nk = ok ∧ m !! ok = Some ol) then find trees (<[nk := nl]> m) else None
      else if bool_decide (m !! nk = None) then find trees (<[nk := nl]> m) else None
  end.
Definition gadgets (trees : list (gmap F F)) : Gadgets := {|
  native_Hash l := Some (hash l); MultiHash l := Some (hash l); smt_Hash1 := hash1;
  smt_VerifierWithLeafHash root _ key leaf := 
    match trees !! Z.to_nat (F_to root) with Some m => bool_decide (m !! key = Some leaf) | None => false end;
  smt_ProcessorWithLeafHash root _ ok ol _ nk nl f0 f1 := processor trees root ok ol nk nl f0 f1;
  imt_MerkleProof := F * F; imt_Leaf := fst; imt_LeafIndex := snd; imt_Verify _ _ := Some one;
  imt_PackLeaf a w := F_of (F_to a * 2 ^ 8 + F_to w);
  eddsa_Signature := (); eddsa_IsValid _ _ _ := zero; aggregator_Proof := ();
  AssertProof _ w := bool_decide (length w = 5%nat);
  UnpackVarToScalar x := map (λ i, F_of (F_to x / 2 ^ (64 * i) mod 2 ^ 64)) [0; 1; 2; 3] |}.

(** ** The tree keeps its versions *)

Definition versions (trees : list (gmap F F)) (m : gmap F F) (r : F) : Prop := trees !! Z.to_nat (F_to r) = Some m.
Lemma find_version trees m r : find trees m = Some r → versions trees m r.
Proof.
  unfold find. destruct (list_find _ _) as [[i m']|]; [|done]. case_bool_decide; [|done]. by intros [= <-].
Qed.
#[export] Program Instance smt (trees : list (gmap F F)) : @SMT _ (gadgets trees) := {| smt_tree := versions trees |}.
Next Obligation. done. Qed.
Next Obligation. intros trees root s ok ol o nk nl r. cbn. unfold processor. destruct (trees !! _); [|done]. cbn. by intros [= <-]. Qed.
Next Obligation.
  intros trees m root s ok ol o nk nl r Hm. cbn [smt_ProcessorWithLeafHash gadgets]. unfold processor.
  unfold versions in Hm. rewrite Hm.
  case_bool_decide as Hk; [destruct Hk as [_ Hk]; by apply one_ne_zero in Hk|]. clear Hk.
  case_bool_decide as Hk; [|naive_solver]. clear Hk.
  case_bool_decide as Hk; [|done]. destruct Hk as [-> Hk]. intros Hf. left. split_and!; [done..|by apply find_version].
Qed.
Next Obligation.
  intros trees m root s ok ol o nk nl r Hm. cbn [smt_ProcessorWithLeafHash gadgets]. unfold processor.
  unfold versions in Hm. rewrite Hm.
  case_bool_decide as Hk; [destruct Hk as [Hk _]; by apply one_ne_zero in Hk|]. clear Hk.
  case_bool_decide as Hk; [destruct Hk as [Hk _]; by apply one_ne_zero in Hk|]. clear Hk.
  case_bool_decide as Hk; [|done]. intros Hf. left. split; [done|by apply find_version].
Qed.
End SmallField.

(** ** The assignment *)

Module Example2.
Import SmallField.
#[export] Existing Instance Concrete101.curve.
Definition ballot_at (m k : Z) : Ballot :=
  match Ballot_Encrypt (Hash := ConcreteState.small_hash) (seqZ m 8) key7 k with Ok z => z | Err _ => NewBallot end.
(** The leaves of the state: the process, the results and the ballot of one voter. *)
Definition stored : Ballot := ballot_at 3 40.
Definition entries : list (Z * list Z) := [
  (0, [77]); (2, [5]); (3, [7; 1]); (6, [1]); (StateKeyResults, BigInts (Ballot_Add stored NewBallot));
  (16, ballot_values stored (F_of 1001) one)].
Definition state0 : gmap Z (list Z) := foldr (λ e C, <[e.1 := e.2]> C) ∅ entries.
Definition encode (v : list Z) : F := match F_of <$> v with [x] => x | l => hash l end.
Definition leaf (k : Z) (v : list Z) : F := hash1 (F_of k) (encode v).
Definition tree0 : gmap F F := foldr (λ e m, <[F_of e.1 := leaf e.1 e.2]> m) ∅ entries.
Definition reencrypted (z : Ballot) (k : F) : Ballot * F :=
  match @Circuit_Reencrypt _ _ (gadgets []) z (F_of 7, one) k with Some r => r | None => (z, k) end.
Definition kk : F := F_of 44.
Definition new0 : Ballot * F := reencrypted (ballot_at 5 41) kk.
Definition new1 : Ballot * F := reencrypted (ballot_at 2 42) new0.2.
Definition new_results : Ballot :=
  Ballot_Add (Ballot_Add stored NewBallot) (Ballot_Add (Ballot_Add new0.1 new1.1) (Ballot_Neg stored)).
Definition leaf0 : list Z := ballot_values new0.1 (F_of 1001) one.
Definition leaf1 : list Z := ballot_values new1.1 (F_of 1002) one.
Definition writes : list (Z * list Z) := [
  (16, leaf0); (VoteIDMin + 41, [VoteIDLeafValue]); (17, leaf1); (VoteIDMin + 42, [VoteIDLeafValue]); (StateKeyResults, BigInts new_results)].
Fixpoint versions_from (m : gmap F F) (writes : list (Z * list Z)) : list (gmap F F) :=
  match writes with
  | [] => []
  | e :: writes => let m := <[F_of e.1 := leaf e.1 e.2]> m in m :: versions_from m writes
  end.
(** The versions of the tree, from the first to that after the batch. *)
Definition trees : list (gmap F F) := tree0 :: versions_from tree0 writes.
#[export] Instance gadgets2 : Gadgets := gadgets trees.
#[export] Instance smt2 : SMT := smt trees.
Definition transition (n : Z) (key : Z) (old new : list Z) (f0 f1 : F) : MerkleTransition := {|
  mt_NewRoot := F_of (n + 1); mt_Siblings := []; mt_NewKey := F_of key; mt_NewLeafHash := leaf key new;
  mt_OldRoot := F_of n; mt_OldKey := F_of key; mt_OldLeafHash := leaf key old; mt_IsOld0 := zero; mt_Fnc0 := f0; mt_Fnc1 := f1 |}.
Definition noop (n : Z) : MerkleTransition := {|
  mt_NewRoot := F_of n; mt_Siblings := []; mt_NewKey := zero; mt_NewLeafHash := zero;
  mt_OldRoot := F_of n; mt_OldKey := zero; mt_OldLeafHash := zero; mt_IsOld0 := zero; mt_Fnc0 := zero; mt_Fnc1 := zero |}.
Definition included (key : Z) (v : list Z) : MerkleProof :=
  {| mp_Root := F_of 0; mp_Siblings := []; mp_Key := F_of key; mp_LeafHash := leaf key v |}.
Definition vote_at (b : Ballot) (id address index : Z) (re over : Ballot) : CVote := {|
  cv_Ballot := b; cv_VoteID := F_of id; cv_Address := F_of address; cv_VoteWeight := one;
  cv_BallotIndex := F_of index; cv_ReencryptedBallot := re; cv_OverwrittenBallot := over |}.
Definition batch2 : StateTransitionCircuit := {|
  RootHashBefore := F_of 0; RootHashAfter := F_of 5; VotersCount := F_of 2; OverwrittenVotesCount := one; CensusRoot := F_of 9;
  MerkleProofs i := match i with O => (F_of (1001 * 256 + 1), F_of 0) | 1%nat => (F_of (1002 * 256 + 1), F_of 1) | _ => (zero, zero) end;
  CSPProofs _ := {| csp_Signature := (); csp_PublicKey := (zero, zero); csp_VoterIndex := zero |};
  BlobCommitmentLimbs := []; BlobProofLimbs := []; BlobEvaluationResultY := [];
  c_Process := {| pr_ID := F_of 77; pr_CensusOrigin := F_of 1; pr_BallotMode := F_of 5; pr_EncryptionKey := (F_of 7, one) |};
  Votes i := match i with
    | O => vote_at (ballot_at 5 41) (VoteIDMin + 41) 1001 16 new0.1 stored
    | 1%nat => vote_at (ballot_at 2 42) (VoteIDMin + 42) 1002 17 new1.1 NewBallot
    | _ => vote_at NewBallot 0 0 0 NewBallot NewBallot end;
  OldResults := Ballot_Add stored NewBallot; NewResults := new_results; ReencryptionK := kk;
  proof_ID := included 0 [77]; proof_CensusOrigin := included 6 [1];
  proof_BallotMode := included 2 [5]; proof_EncryptionKey := included 3 [7; 1];
  proofs_Ballot i := match i with
    | O => transition 0 16 (ballot_values stored (F_of 1001) one) leaf0 zero one
    | 1%nat => transition 2 17 [] leaf1 one zero | _ => noop 4 end;
  proofs_VoteIDs i := match i with
    | O => transition 1 (VoteIDMin + 41) [] [VoteIDLeafValue] one zero
    | 1%nat => transition 3 (VoteIDMin + 42) [] [VoteIDLeafValue] one zero | _ => noop 4 end;
  proof_Results := transition 4 StateKeyResults (BigInts (Ballot_Add stored NewBallot)) (BigInts new_results) zero one;
  AggregatorProof := () |}.
Definition blob_length_ok (_ _ : F) (_ _ _ blob : list F) : bool := (length blob =? 4096)%nat.
Lemma coords2 (q : point) : 0 ≤ (coords q).1 < modulus ∧ 0 ≤ (coords q).2 < modulus.
Proof.
  pose proof (Concrete101.zq_range q). change (modulus) with (two64 + 13). unfold two64, Concrete101.q in *. cbn [coords Concrete101.curve fst snd]. lia.
Qed.
(** Leaves with values in the field give a state and its leaf hashes. *)
Lemma stores_entries l :
  Forall (λ e, canonical e.1 ∧ Forall canonical e.2) l →
  stores (foldr (λ e C, <[e.1 := e.2]> C) ∅ l) (foldr (λ e m, <[F_of e.1 := leaf e.1 e.2]> m) ∅ l).
Proof.
  induction 1 as [|[k v] l [Hk Hv] _ IH]; [by split|]. cbn [foldr fst snd] in *.
  pose proof (stores_insert _ _ (F_of k) v (leaf k v) IH Hv) as Hs.
  rewrite (F_to_small k) in Hs by done. apply Hs. unfold leaf, encode, leaf_hash, encodeLeafValue.
  destruct (F_of <$> v) as [|x [|y l']]; by eexists.
Qed.
Definition canonicalb (z : Z) : bool := (0 <=? z) && (z <? modulus).
Lemma canonicalb_list l : forallb canonicalb l = true → Forall canonical l.
Proof.
  intros Hl. apply Forall_forall. intros x Hx. rewrite forallb_forall in Hl. apply list_elem_of_In, Hl, andb_prop in Hx as [?%Z.leb_le ?%Z.ltb_lt].
  done.
Qed.
Lemma state0_root : state_root state0 (RootHashBefore batch2).
Proof.
  assert (H0 : Z.to_nat (F_to (RootHashBefore batch2)) = O) by by vm_compute.
  exists tree0. split; [unfold smt_tree, smt2, smt, versions; rewrite H0; reflexivity|]. apply stores_entries.
  assert (Hb : forallb (λ e, canonicalb e.1 && forallb canonicalb e.2) entries = true) by by vm_compute.
  apply Forall_forall. intros e He. rewrite forallb_forall in Hb. apply list_elem_of_In, Hb, andb_prop in He as [Hk Hv].
  split; [|by apply canonicalb_list]. apply andb_prop in Hk as [?%Z.leb_le ?%Z.ltb_lt]. done.
Qed.
Lemma state0_leaves : ballot_leaves state0.
Proof.
  intros k v Hk Hr. unfold state0, entries in Hk. cbn [foldr fst snd] in Hk.
  repeat (apply lookup_insert_Some in Hk as [[<- <-]|[_ Hk]]; [try done|]); [|done].
  by exists stored, (F_of 1001), one.
Qed.
Lemma batch2_typed : typed batch2.
Proof.
  split.
  - intros [|[|i]] _; split; first [by exists false, true|by exists true, false|by exists false, false].
  - by exists false, true.
  - intros [|[|i]] _; by vm_compute.
  - by vm_compute.
Qed.
End Example2.
