(* ===== verification/Signatures.v ===== *)
(** * Ethereum signatures

    [src/crypto/signatures/ethereum]: the signatures of votes and of workers' tokens, their
    65 bytes, and their verification by recovering the signer's address. go-ethereum's
    secp256k1 and Keccak are a parameter. *)

From S2P Require Import Prelude Bytes Spec Types.
From Stdlib Require Import Ascii.

(** What the code uses of go-ethereum's [crypto]: the order of the curve, signing, and the
    recovery of the signer's public key. A signature is 65 bytes: two scalars, the second in the
    lower half of the order, and a recovery identifier. *)
Class Ethcrypto := {
  eth_PublicKey : Type;
  eth_PrivateKey : Type;
  secp_N : Z;
  secp_N_range : 2 < secp_N < 2 ^ 256;
  secp_N_odd : Z.odd secp_N = true;
  Keccak256 : bytes → bytes;
  SigToPub : bytes → bytes → result eth_PublicKey;
  eth_Sign : bytes → eth_PrivateKey → result bytes;
  eth_Public : eth_PrivateKey → eth_PublicKey;
  PubkeyToAddress : eth_PublicKey → bytes;
  FromECDSAPub : eth_PublicKey → bytes;
  length_PubkeyToAddress p : length (PubkeyToAddress p) = 20%nat;
  eth_Sign_spec h k sg : eth_Sign h k = Ok sg →
    length sg = 65%nat ∧ 0 < be_combine (take 32 sg) < secp_N ∧
    0 < be_combine (take 32 (drop 32 sg)) ≤ secp_N / 2 ∧ byte_to_Z (nth 64 sg zero) ≤ 3 ∧
    SigToPub h sg = Ok (eth_Public k) }.

(** go-ethereum's length of a signature, [SignatureLength]. *)
Definition SignatureLength : nat := 65.
(** [src/crypto/signatures/ethereum/signature.go:21-21] *)
Definition SigningPrefix : string :=
  String (Ascii.ascii_of_nat 25) (String.append "Ethereum Signed Message:" (String (Ascii.ascii_of_nat 10) EmptyString)).
(** [src/crypto/signatures/ethereum/signature.go:23-23] *)
Definition HashLength : Z := 32.
(** [src/crypto/helpers.go:8-8] *)
Definition SignatureCircuitVariableLen : nat := 32.

(** [src/crypto/signatures/ethereum/signature.go:28-32] ECDSASignature *)
Record ECDSASignature := { sig_R : option Z; sig_S : option Z; recovery : byte }.

Section signatures.
Context `{Ethcrypto}.

(** [src/crypto/helpers.go:15-28] *)
Definition PadToSign (input : bytes) : bytes :=
  if (length input <? SignatureCircuitVariableLen)%nat
  then replicate (SignatureCircuitVariableLen - length input) zero ++ input
  else drop (length input - SignatureCircuitVariableLen) input.

(** [src/crypto/signatures/ethereum/signature.go:49-51] ECDSASignature.Valid *)
Definition sig_Valid (sig : ECDSASignature) : bool :=
  bool_decide (is_Some (sig_R sig)) && bool_decide (is_Some (sig_S sig)).
(** [src/crypto/signatures/ethereum/signature.go:57-72] ECDSASignature.Bytes: of scalars that fit 32 bytes *)
Definition sig_Bytes (sig : ECDSASignature) : bytes :=
  be_split 32 (default 0 (sig_R sig)) ++ be_split 32 (default 0 (sig_S sig)) ++ [recovery sig].
(** [src/crypto/signatures/ethereum/signature.go:76-108] ECDSASignature.SetBytes: nil for bytes that are refused *)
Definition SetBytes (signature : bytes) : option ECDSASignature :=
  if (length signature <? SignatureLength - 1)%nat then None
  else
    let R := be_combine (take 32 signature) in
    let S := be_combine (take 32 (drop 32 signature)) in
    if secp_N / 2 <? S then None
    else if (length signature =? SignatureLength)%nat then
      let v := byte_to_Z (nth 64 signature zero) in
      let v := if 27 <=? v then v - 27 else v in
      if 3 <? v then None
      else Some {| sig_R := Some R; sig_S := Some S; recovery := byte_of_Z v |}
    else Some {| sig_R := Some R; sig_S := Some S; recovery := zero |}.
(** [src/crypto/signatures/ethereum/signature.go:36-45] *)
Definition BytesToSignature (signature : bytes) : result ECDSASignature :=
  if (length signature <? SignatureLength - 1)%nat then Err (ErrMsg "signature length is less than 64")
  else match SetBytes signature with
       | None => Err (ErrMsg "wrong signature bytes")
       | Some sig => Ok sig
       end.

(** [src/crypto/signatures/ethereum/signer.go:95-97] *)
Definition HashRaw (data : bytes) : bytes := Keccak256 data.
(** [src/crypto/signatures/ethereum/signer.go:88-92] *)
Definition HashMessage (data : bytes) : bytes :=
  HashRaw (bytes_of_string SigningPrefix ++ bytes_of_string (pretty (Z.of_nat (length data))) ++ data).

(** [src/crypto/signatures/ethereum/signature.go:119-132] ECDSASignature.Verify *)
Definition sig_Verify (sig : ECDSASignature) (signedInput expectedAddress : bytes) : bool * option bytes :=
  if negb (sig_Valid sig) then (false, None)
  else match SigToPub (HashMessage signedInput) (sig_Bytes sig) with
       | Err _ => (false, None)
       | Ok pubKey =>
           if negb (bool_decide (PubkeyToAddress pubKey = expectedAddress)) then (false, None)
           else (true, Some (FromECDSAPub pubKey))
       end.
(** [src/crypto/signatures/ethereum/signature.go:112-114] ECDSASignature.VerifyVoteID *)
Definition VerifyVoteID (sig : ECDSASignature) (voteID : uint64) (expectedAddress : bytes) : bool * option bytes :=
  sig_Verify sig (PadToSign (VoteID_Bytes voteID)) expectedAddress.
(** [src/crypto/signatures/ethereum/signature.go:140-149] *)
Definition AddrFromSignature (message : bytes) (signature : option ECDSASignature) : result bytes :=
  match signature with
  | None => Err (ErrMsg "signature is nil")
  | Some signature =>
      if negb (sig_Valid signature) then Err (ErrMsg "signature is nil")
      else match SigToPub (HashMessage message) (sig_Bytes signature) with
           | Err e => Err (Wrap "sigToPub" e)
           | Ok pubKey => Ok (PubkeyToAddress pubKey)
           end
  end.

(** [src/crypto/signatures/ethereum/signer.go:22-24] Signer.Address *)
Definition Signer_Address (s : eth_PrivateKey) : bytes := PubkeyToAddress (eth_Public s).
(** [src/crypto/signatures/ethereum/signer.go:69-84] Sign: the check of gnark-crypto's [SetBytes] is that the
    scalars are below the order *)
Definition Sign (msg : bytes) (privKey : eth_PrivateKey) : result ECDSASignature :=
  match eth_Sign (HashMessage msg) privKey with
  | Err e => Err (Wrap "could not sign message" e)
  | Ok ethSignature =>
      let r := be_combine (take 32 ethSignature) in
      let s := be_combine (take 32 (drop 32 ethSignature)) in
      if (r =? 0) || (secp_N <=? r) || (s =? 0) || (secp_N <=? s)
      then Err (Wrap "could not set bytes" (ErrMsg "invalid scalar"))
      else Ok {| sig_R := Some r; sig_S := Some s; recovery := nth 64 ethSignature zero |}
  end.

(** ** What is signed is verified *)

(** The signatures that [SetBytes] gives: both scalars, the second one low. *)
Definition canonical (sig : ECDSASignature) : Prop := ∃ R S,
  sig_R sig = Some R ∧ sig_S sig = Some S ∧ 0 ≤ R < 2 ^ 256 ∧ 0 ≤ S ≤ secp_N / 2 ∧ byte_to_Z (recovery sig) ≤ 3.

Lemma HalfN_range : 0 < secp_N / 2 < 2 ^ 256.
Proof.
  pose proof secp_N_range. split; [apply Z.div_str_pos; lia|]. apply Z.div_lt_upper_bound; lia.
Qed.
Lemma be_combine_32 l : (32 ≤ length l)%nat → 0 ≤ be_combine (take 32 l) < 2 ^ 256.
Proof.
  intros Hl. pose proof (be_combine_range (take 32 l)) as Hr. rewrite length_take, Nat.min_l in Hr by done. exact Hr.
Qed.
Lemma be_combine_split_32 z : 0 ≤ z < 2 ^ 256 → be_combine (be_split 32 z) = z.
Proof. intros Hz. rewrite be_combine_split. by apply Z.mod_small. Qed.
Lemma recovery_byte v : byte_to_Z v ≤ 3 → (27 <=? byte_to_Z v) = false ∧ (3 <? byte_to_Z v) = false.
Proof. intros Hv. split; lia. Qed.
Lemma SetBytes_canonical b sig : SetBytes b = Some sig → canonical sig.
Proof.
  unfold SetBytes. destruct (Nat.ltb_spec (length b) (SignatureLength - 1)) as [|Hl]; [done|].
  unfold SignatureLength in *. destruct (Z.ltb_spec (secp_N / 2) (be_combine (take 32 (drop 32 b)))); [done|].
  assert (HR : 0 ≤ be_combine (take 32 b) < 2 ^ 256) by (apply be_combine_32; lia).
  assert (HS : 0 ≤ be_combine (take 32 (drop 32 b)) < 2 ^ 256) by (apply be_combine_32; rewrite length_drop; lia).
  set (v := byte_to_Z (nth 64 b zero)). pose proof (byte_to_Z_range (nth 64 b zero) : 0 ≤ v < 256).
  destruct (_ =? _)%nat.
  - destruct (Z.ltb_spec 3 (if 27 <=? v then v - 27 else v)) as [|Hv]; [done|]. intros [= <-].
    exists (be_combine (take 32 b)), (be_combine (take 32 (drop 32 b))). cbn [sig_R sig_S recovery].
    rewrite byte_to_of_Z, Z.mod_small; [split_and!; solve [done|lia]|].
    destruct (Z.leb_spec 27 v); lia.
  - intros [= <-]. exists (be_combine (take 32 b)), (be_combine (take 32 (drop 32 b))). cbn [sig_R sig_S recovery].
    split_and!; solve [done|lia].
Qed.
Lemma sig_Bytes_fields R S v : let b := sig_Bytes {| sig_R := Some R; sig_S := Some S; recovery := v |} in
  length b = 65%nat ∧ take 32 b = be_split 32 R ∧ take 32 (drop 32 b) = be_split 32 S ∧ nth 64 b zero = v.
Proof.
  cbv zeta. unfold sig_Bytes. cbn [sig_R sig_S recovery]. change (default 0 (Some R)) with R. change (default 0 (Some S)) with S.
  pose proof (length_be_split 32 R) as HR. pose proof (length_be_split 32 S) as HS. split_and!.
  - rewrite !length_app, HR, HS. done.
  - by rewrite take_app_le, take_ge by lia.
  - rewrite drop_app_ge, HR, Nat.sub_diag, drop_0, take_app_le, take_ge by lia. done.
  - rewrite app_nth2, HR, app_nth2, HS by lia. done.
Qed.
(** The bytes of such a signature are read back as it is. *)
Lemma SetBytes_Bytes sig : canonical sig → SetBytes (sig_Bytes sig) = Some sig.
Proof.
  destruct sig as [r s v]. intros (R & S & HR & HS & HRr & HSr & Hv). cbn in HR, HS, Hv. subst r s.
  destruct (sig_Bytes_fields R S v) as (Hl & H1 & H2 & H3). unfold SetBytes. rewrite Hl, H1, H2, H3.
  cbn [Nat.ltb Nat.leb SignatureLength Nat.sub Nat.eqb]. pose proof HalfN_range.
  rewrite !be_combine_split_32 by lia. destruct (Z.ltb_spec (secp_N / 2) S); [lia|].
  destruct (recovery_byte v Hv) as [-> ->]. by rewrite byte_of_to_Z.
Qed.
(** No signature has a second form: with the negated scalar its bytes are refused. *)
Theorem signature_not_malleable b sig S : SetBytes b = Some sig → sig_S sig = Some S →
  SetBytes (take 32 b ++ be_split 32 (secp_N - S) ++ drop 64 b) = None.
Proof.
  intros Hb HS. destruct (SetBytes_canonical b sig Hb) as (R & S' & _ & HS' & _ & HSr & _).
  assert (S' = S) as -> by congruence. assert (Hl : (64 ≤ length b)%nat).
  { revert Hb. unfold SetBytes. destruct (Nat.ltb_spec (length b) (SignatureLength - 1)); [done|]. unfold SignatureLength in *. lia. }
  unfold SetBytes. destruct (_ <? _)%nat; [done|]. pose proof secp_N_range as HN. pose proof secp_N_odd as Ho.
  assert (Ht : length (take 32 b) = 32%nat) by (rewrite length_take; lia).
  rewrite (drop_app_ge _ _ 32), Ht, Nat.sub_diag, drop_0 by lia.
  rewrite (take_app_le (be_split 32 _)), (take_ge (be_split 32 _)) by (by rewrite length_be_split).
  pose proof (Z.mul_div_le secp_N 2 eq_refl). rewrite be_combine_split_32 by lia. apply Zodd_bool_iff, Zodd_div2 in Ho. rewrite Z.div2_div in Ho.
  destruct (Z.ltb_spec (secp_N / 2) (secp_N - S)); [done|lia].
Qed.

Lemma split_65 sg : length sg = 65%nat →
  sg = be_split 32 (be_combine (take 32 sg)) ++ be_split 32 (be_combine (take 32 (drop 32 sg))) ++ [nth 64 sg zero].
Proof.
  intros Hl. assert (H1 : length (take 32 sg) = 32%nat) by (rewrite length_take; lia).
  assert (H2 : length (take 32 (drop 32 sg)) = 32%nat) by (rewrite length_take, length_drop; lia).
  pose proof (be_split_combine (take 32 sg)) as E1. pose proof (be_split_combine (take 32 (drop 32 sg))) as E2.
  rewrite H1 in E1. rewrite H2 in E2. rewrite E1, E2.
  rewrite <-(take_drop 32 sg) at 1. f_equal. rewrite <-(take_drop 32 (drop 32 sg)) at 1. f_equal.
  rewrite drop_drop. cbn [Nat.add]. destruct (drop 64 sg) as [|v [|]] eqn:Ed.
  - apply (f_equal length) in Ed. rewrite length_drop in Ed. cbn in Ed. lia.
  - f_equal. rewrite <-(take_drop 64 sg), Ed, app_nth2; rewrite length_take; [|lia]. by rewrite Nat.min_l, Nat.sub_diag by lia.
  - apply (f_equal length) in Ed. rewrite length_drop in Ed. cbn in Ed. lia.
Qed.
Lemma Sign_spec msg k sig : Sign msg k = Ok sig →
  canonical sig ∧ SigToPub (HashMessage msg) (sig_Bytes sig) = Ok (eth_Public k).
Proof.
  unfold Sign. destruct (eth_Sign _ k) as [sg|] eqn:Es; [|done].
  destruct (eth_Sign_spec _ _ _ Es) as (Hl & HR & HS & Hv & Hp). destruct (_ || _); [done|]. intros [= <-].
  pose proof secp_N_range. split.
  - eexists _, _. cbn. split_and!; done || lia.
  - unfold sig_Bytes. cbn [sig_R sig_S recovery]. rewrite <-Hp. f_equal. symmetry. by apply split_65.
Qed.
(** A signature verifies for the signer's address, for no other, and after a passage through
    its bytes. *)
Theorem signed_verifies msg k sig : Sign msg k = Ok sig →
  SetBytes (sig_Bytes sig) = Some sig ∧
  sig_Verify sig msg (Signer_Address k) = (true, Some (FromECDSAPub (eth_Public k))) ∧
  ∀ a, (sig_Verify sig msg a).1 = true → a = Signer_Address k.
Proof.
  intros Hs. destruct (Sign_spec msg k sig Hs) as [Hc Hp]. split; [by apply SetBytes_Bytes|].
  assert (Hv : sig_Valid sig = true).
  { destruct Hc as (R & S & HR & HS & _). unfold sig_Valid. rewrite HR, HS. by rewrite !bool_decide_true by done. }
  unfold sig_Verify. rewrite Hv, Hp. cbn [negb]. unfold Signer_Address. split.
  - by rewrite bool_decide_true.
  - intros a. by case_bool_decide.
Qed.
Lemma PadToSign_length input : length (PadToSign input) = SignatureCircuitVariableLen.
Proof.
  unfold PadToSign. destruct (Nat.ltb_spec (length input) SignatureCircuitVariableLen).
  - rewrite length_app, length_replicate. lia.
  - rewrite length_drop. lia.
Qed.
(** A verified signature of a vote: the public key it gives is the one of the address. *)
Lemma VerifyVoteID_inv sig v a pub : VerifyVoteID sig v a = (true, pub) →
  sig_Valid sig = true ∧ ∃ p, SigToPub (HashMessage (PadToSign (VoteID_Bytes v))) (sig_Bytes sig) = Ok p ∧
    PubkeyToAddress p = a ∧ pub = Some (FromECDSAPub p).
Proof.
  unfold VerifyVoteID, sig_Verify. destruct (sig_Valid sig); [|done]. cbn [negb].
  destruct (SigToPub _ _) as [p|]; [|done]. case_bool_decide as Ha; [|done]. intros [= <-]. eauto.
Qed.
End signatures.

(** ** A concrete scheme

    A signature is the number of the key and a digest of the hash; it is no more than an
    instance that satisfies the laws. *)

Module ConcreteEth.
Definition N : Z := 2 ^ 255 - 19.
Definition digest (h : bytes) : Z := 1 + be_combine h mod 1009.
Definition sign (h : bytes) (k : Z) : result bytes :=
  if (0 <=? k) && (k <? 2 ^ 160) then Ok (be_split 32 (1 + k) ++ be_split 32 (digest h) ++ [zero])
  else Err (ErrMsg "invalid key").
Definition recover (h sg : bytes) : result Z :=
  let k := be_combine (take 32 sg) - 1 in
  if (0 <=? k) && (k <? 2 ^ 160) && (be_combine (take 32 (drop 32 sg)) =? digest h) then Ok k
  else Err (ErrMsg "invalid signature").
Lemma digest_range h : 0 < digest h ≤ 1009.
Proof. unfold digest. pose proof (Z.mod_pos_bound (be_combine h) 1009 eq_refl). lia. Qed.
Lemma sign_spec h k sg : sign h k = Ok sg →
  length sg = 65%nat ∧ 0 < be_combine (take 32 sg) < N ∧
  0 < be_combine (take 32 (drop 32 sg)) ≤ N / 2 ∧ byte_to_Z (nth 64 sg zero) ≤ 3 ∧ recover h sg = Ok k.
Proof.
  unfold sign. destruct ((0 <=? k) && (k <? 2 ^ 160)) eqn:Hk; [|done]. intros Hs.
  assert (sg = be_split 32 (1 + k) ++ be_split 32 (digest h) ++ [zero]) as -> by congruence. clear Hs.
  pose proof (digest_range h) as Hd. pose proof (sig_Bytes_fields (1 + k) (digest h) zero) as Hf.
  unfold sig_Bytes in Hf. cbn [sig_R sig_S recovery] in Hf.
  change (default 0 (Some (1 + k))) with (1 + k) in Hf. change (default 0 (Some (digest h))) with (digest h) in Hf.
  cbv zeta in Hf. destruct Hf as (Hl & H1 & H2 & H3). unfold recover. rewrite H1, H2, H3.
  assert (Hr : 0 ≤ k < 2 ^ 160) by lia.
  assert (Hb1 : be_combine (be_split 32 (1 + k)) = 1 + k).
  { rewrite be_combine_split. apply Z.mod_small. change (256 ^ Z.of_nat 32) with (2 ^ 256). lia. }
  assert (Hb2 : be_combine (be_split 32 (digest h)) = digest h).
  { rewrite be_combine_split. apply Z.mod_small. change (256 ^ Z.of_nat 32) with (2 ^ 256). lia. }
  rewrite Hb1, Hb2. replace (1 + k - 1) with k by lia. rewrite Hk, Z.eqb_refl. cbn [andb].
  assert (HN : 2 ^ 160 < N ∧ 1009 ≤ N / 2) by (split; vm_compute; congruence).
  split; [exact Hl|]. split; [lia|]. split; [lia|]. split; [|reflexivity]. vm_compute. congruence.
Qed.
#[export] Instance eth : Ethcrypto := {|
  eth_PublicKey := Z; eth_PrivateKey := Z; secp_N := N;
  secp_N_range := conj eq_refl eq_refl; secp_N_odd := eq_refl;
  Keccak256 data := be_split 32 (be_combine data);
  SigToPub := recover; eth_Sign := sign; eth_Public := id;
  PubkeyToAddress := be_split 20; FromECDSAPub := be_split 65;
  length_PubkeyToAddress := length_be_split 20; eth_Sign_spec := sign_spec |}.
End ConcreteEth.
Section signature_witnesses.
#[local] Existing Instance ConcreteEth.eth.
Definition vote_message (n : Z) : bytes := PadToSign (VoteID_Bytes (U64 (VoteIDMin + n))).
Definition signed_by (k n : Z) : bytes :=
  match Sign (vote_message n) (k : eth_PrivateKey) with Ok sig => sig_Bytes sig | Err _ => [] end.
Example signature_of_7 :
  option_map (λ sig, VerifyVoteID sig (U64 (VoteIDMin + 41)) (be_split 20 7)) (SetBytes (signed_by 7 41)) =
  Some (true, Some (be_split 65 7)).
Proof. by vm_compute. Qed.
End signature_witnesses.
