(* ===== verification/VoteCircuits.v ===== *)
(** * The circuits of a vote and of a batch

    [src/circuits/voteverifier/vote_verifier.go] checks the signature and the ballot proof of one
    vote, [src/circuits/aggregator/aggregator.go] checks the proofs of the votes of a batch, and the
    circuit of the state transition checks the proof of the aggregator. The three are over
    three fields; an element of another field is a list of limbs. What the recursion adds up to is
    a theorem: every vote that a transition counts was signed by its address. *)

From S2P Require Import Prelude Bytes Spec Types Signatures Curve ElGamal Gnark TransitionCircuit CircuitSound StateVote StateTree StateBatch Tally CircuitExample.

(** The value of an emulated element. *)
Definition element_value `{Field} (limbs : list F) : Z := foldr (λ l z, F_to l + 2 ^ 64 * z) 0 limbs.

(** ** The vote *)

(** go-ethereum's length of an address. *)
Definition AddressLength : Z := 20.

(** The gadgets of gnark and gnark-crypto-primitives that the circuit uses. One that has a value gives it, or
    none if it fails; bytes are values of the circuit. *)
Class VoteGadgets `{Field} := {
  secp_AssertIsOnCurve : list F → list F → bool;
  secp_IsZero : list F → F;
  BytesFromString : string → nat → list F;
  UnpackVarToScalar_secp : F → option (list F);
  UnpackVarToScalar_bn254 : F → option (list F);
  BytesFromElement : list F → option (list F);
  SwapEndianness : list F → list F;
  Keccak256 : list F → option (list F);
  U8ToElem : list F → option (list F);
  ecdsa_Signature : Type;
  PublicKey_IsValid : list F * list F → list F → ecdsa_Signature → F;
  DeriveAddress : list F * list F → option F;
  PackScalarToVar : list F → option F;
  rangecheck_Check : F → Z → bool;
  circom_Proof : Type;
  circom_IsValidProof : circom_Proof → list (list F) → option F }.

Section vote.
Context `{Field} `{!VoteGadgets}.

(** [src/circuits/voteverifier/vote_verifier.go:69-85] VerifyVoteCircuit, without the verification key *)
Record VerifyVoteCircuit := {
  vv_IsValid : F; vv_BallotHash : list F; vv_Address : list F; vv_VoteID : F;
  vv_PublicKey : list F * list F; vv_Signature : ecdsa_Signature; vv_CircomProof : circom_Proof }.
(** [src/circuits/voteverifier/vote_verifier.go:151-166] *)
Definition assertValidSecp256k1PublicKey (pubKey : list F * list F) : bool :=
  secp_AssertIsOnCurve pubKey.1 pubKey.2 &&
  api_AssertIsEqual (api_And (secp_IsZero pubKey.1) (secp_IsZero pubKey.2)) zero.
(** [src/circuits/voteverifier/vote_verifier.go:97-125] the hash that is signed, in verifySigForAddress *)
Definition signed_hash (voteID : F) : option (list F) :=
  let prefix := BytesFromString (String.append SigningPrefix (pretty HashLength)) (String.length SigningPrefix + 2) in
  msgSecp256 ← UnpackVarToScalar_secp voteID;
  content ← BytesFromElement msgSecp256;
  hash ← Keccak256 (prefix ++ SwapEndianness content);
  U8ToElem (SwapEndianness hash).
(** [src/circuits/voteverifier/vote_verifier.go:93-149] *)
Definition verifySigForAddress (c : VerifyVoteCircuit) : bool :=
  assertValidSecp256k1PublicKey (vv_PublicKey c) &&
  match signed_hash (vv_VoteID c) with
  | None => false
  | Some emulatedHash =>
      let validSign := PublicKey_IsValid (vv_PublicKey c) emulatedHash (vv_Signature c) in
      AssertTrueIf (vv_IsValid c) validSign &&
      match DeriveAddress (vv_PublicKey c), PackScalarToVar (vv_Address c) with
      | Some derivedAddr, Some addressVar =>
          rangecheck_Check addressVar (AddressLength * 8) && AssertIsEqualIf (vv_IsValid c) derivedAddr addressVar
      | _, _ => false
      end
  end.
(** [src/circuits/voteverifier/vote_verifier.go:173-198] *)
Definition verifyCircomProof (c : VerifyVoteCircuit) : bool :=
  match UnpackVarToScalar_bn254 (vv_VoteID c) with
  | None => false
  | Some voteID =>
      match circom_IsValidProof (vv_CircomProof c) [vv_Address c; voteID; vv_BallotHash c] with
      | None => false
      | Some validProof => AssertTrueIf (vv_IsValid c) validProof
      end
  end.
(** [src/circuits/voteverifier/vote_verifier.go:200-206] VerifyVoteCircuit.Define *)
Definition VoteCircuit_Define (c : VerifyVoteCircuit) : bool := verifySigForAddress c && verifyCircomProof c.
(** The public inputs, in the order of the fields. *)
Definition vote_public (c : VerifyVoteCircuit) : list Z := F_to (vv_IsValid c) :: (F_to <$> vv_BallotHash c).
End vote.

(** ** The batch *)

Class AggregatorGadgets `{Field} := {
  AssertMultiHashEqual : list (list F) → list F → bool;
  vote_Proof : Type;
  AssertVoteProof : vote_Proof → list (list F) → bool }.

Section batch.
Context `{Field} `{!AggregatorGadgets}.

(** [src/circuits/aggregator/aggregator.go:19-25] AggregatorCircuit, without the verification key *)
Record AggregatorCircuit := {
  ag_VotersCount : F; ag_BatchHash : list F; ag_BallotHashes : nat → list F; ag_Proofs : nat → vote_Proof }.
(** [src/circuits/aggregator/aggregator.go:28-41] AggregatorCircuit.VoteMask: the [i]-th element *)
Fixpoint aggregator_mask (votersCount : F) (i : nat) : F :=
  match i with
  | O => api_Sub one (api_IsZero votersCount)
  | S j => api_Mul (aggregator_mask votersCount j) (api_Sub one (api_IsZero (api_Sub votersCount (F_of (Z.of_nat j + 1)))))
  end.
(** [src/circuits/aggregator/aggregator.go:29-30] the assertions of VoteMask *)
Definition count_in_range (votersCount : F) : bool :=
  api_AssertIsLessOrEqual zero votersCount && api_AssertIsLessOrEqual votersCount (F_of (Z.of_nat VotesPerBatch)).
(** [src/circuits/aggregator/aggregator.go:46-51] *)
Definition checkBatchHash (c : AggregatorCircuit) : bool :=
  AssertMultiHashEqual (ag_BallotHashes c <$> slots) (ag_BatchHash c).
(** [src/circuits/aggregator/aggregator.go:57-84] calculateWitnesses: the witness of the [i]-th slot *)
Definition calculateWitness (c : AggregatorCircuit) (i : nat) : list (list F) :=
  let isReal := aggregator_mask (ag_VotersCount c) i in
  [isReal; zero; zero; zero] ::
  imap (λ j inputsHashLimb, [api_Select isReal inputsHashLimb (if (j =? 0)%nat then one else zero); zero; zero; zero]) (ag_BallotHashes c i).
(** [src/circuits/aggregator/aggregator.go:89-107] *)
Definition checkProofs (c : AggregatorCircuit) : bool :=
  count_in_range (ag_VotersCount c) &&
  forallb (λ i, AssertVoteProof (ag_Proofs c i) (calculateWitness c i)) slots.
(** [src/circuits/aggregator/aggregator.go:109-113] AggregatorCircuit.Define *)
Definition AggregatorCircuit_Define (c : AggregatorCircuit) : bool := checkBatchHash c && checkProofs c.
(** The public inputs, in the order of the fields. *)
Definition aggregator_public (c : AggregatorCircuit) : list Z := F_to (ag_VotersCount c) :: (F_to <$> ag_BatchHash c).
End batch.

(** ** Masks and limbs *)

#[local] Strategy 1000 [slots].

(** The slot [i] of a batch of [n] votes has a vote. *)
Fixpoint real_slot (n : Z) (i : nat) : bool :=
  match i with O => negb (n =? 0) | S j => real_slot n j && negb (n =? Z.of_nat j + 1) end.
Section masks.
Context `{Field}.
Lemma eq_F_of x z : 0 ≤ z < modulus → bool_decide (x = F_of z) = (F_to x =? z).
Proof.
  intros Hz. destruct (Z.eqb_spec (F_to x) z) as [<-|Hne].
  - by rewrite bool_decide_eq_true, F_of_to.
  - apply bool_decide_eq_false. intros ->. by rewrite F_to_small in Hne.
Qed.
Lemma mask_step x i : (i < VotesPerBatch)%nat → api_Sub one (api_IsZero (api_Sub x (F_of (Z.of_nat i + 1)))) = bit (negb (F_to x =? Z.of_nat i + 1)).
Proof. intros Hi. pose proof modulus_gt1. unfold VotesPerBatch in Hi. rewrite IsZero_sub, not_bit, eq_F_of by lia. done. Qed.
Lemma mask_first x : api_Sub one (api_IsZero x) = bit (negb (F_to x =? 0)).
Proof. pose proof modulus_gt1. rewrite IsZero_bit, not_bit. unfold zero. by rewrite eq_F_of by lia. Qed.
Lemma aggregator_mask_real x i : (i < VotesPerBatch)%nat → aggregator_mask x i = bit (real_slot (F_to x) i).
Proof.
  induction i as [|i IH]; intros Hi; cbn [aggregator_mask real_slot]; [apply mask_first|].
  by rewrite IH, mask_step, mul_bit by lia.
Qed.
Lemma VoteMask_real_slot `{Curve} `{!Gadgets} c i : (i < VotesPerBatch)%nat → VoteMask c i = bit (real_slot (F_to (TransitionCircuit.VotersCount c)) i).
Proof.
  induction i as [|i IH]; intros Hi; cbn [VoteMask real_slot]; [apply mask_first|].
  by rewrite IH, mask_step, mul_bit by lia.
Qed.
(** The value depends on the values of the limbs only. *)
Definition limbs_value (l : list Z) : Z := foldr (λ x z, x + 2 ^ 64 * z) 0 l.
Lemma element_limbs e : element_value e = limbs_value (F_to <$> e).
Proof. unfold element_value, limbs_value. induction e as [|x e IH]; [done|]. cbn. by rewrite IH. Qed.
Lemma padded_value x : element_value [x; zero; zero; zero] = F_to x.
Proof. unfold element_value. cbn -[Z.mul Z.pow]. rewrite F_to_zero. lia. Qed.
Lemma padded6_value x : element_value (paddedElement x) = F_to x.
Proof. unfold element_value, paddedElement. cbn -[Z.mul Z.pow]. rewrite F_to_zero. lia. Qed.
Lemma Select_one a b : api_Select one a b = a.
Proof. apply (Select_bit true). Qed.
Lemma AssertIsEqualIf_one x y : AssertIsEqualIf one x y = true → x = y.
Proof. intros Hb. by apply (AssertIsEqualIf_bit true x y). Qed.
Lemma AssertTrueIf_one x : AssertTrueIf one x = true → x = one.
Proof. unfold AssertTrueIf. apply AssertIsEqualIf_one. Qed.
End masks.

(** ** The three circuits together *)

Section recursion.
Context {T A V : Field} `{Curve} `{GT : @Gadgets T} `{GA : @AggregatorGadgets A} `{GV : @VoteGadgets V}.
Context (negScalingInvBig : @F T).

(** What the circuits rely on. The verifier of a proof accepts only what some assignment of the circuit with the
    public inputs of the witness satisfies; that holds for the ballot proof as well, whose circuit ties its
    third public input to the address and the identifier of the vote. Hashes and packed elements have the
    values of the native ones. *)
Class Recursion := {
  V_le_T : @modulus V ≤ @modulus T;
  T_le_A : @modulus T ≤ @modulus A;
  aggregator_proof_sound p w : AssertProof p w = true →
    ∃ a : AggregatorCircuit, AggregatorCircuit_Define a = true ∧ aggregator_public a = (λ e, element_value e mod @modulus A) <$> w;
  vote_proof_sound p w : AssertVoteProof p w = true →
    ∃ v : VerifyVoteCircuit, VoteCircuit_Define v = true ∧ vote_public v = (λ e, element_value e mod @modulus V) <$> w;
  ballot_proof_sound p address voteID h : circom_IsValidProof p [address; voteID; h] = Some one →
    ∃ pre post : list (@F T), length pre = 4%nat ∧
      MultiHash (pre ++ [F_of (element_value address); F_of (element_value voteID)] ++ post) = Some (F_of (element_value h));
  MultiHashEqual_spec l h : AssertMultiHashEqual l h = true →
    Forall (Forall (λ x, F_to x < 2 ^ 64)) l ∧
    MultiHash ((λ e, F_of (element_value e) : @F T) <$> l) = Some (F_of (element_value h));
  Unpack_value (x : @F T) : element_value (UnpackVarToScalar x) = F_to x;
  Unpack_bn254_value (x : @F V) e : UnpackVarToScalar_bn254 x = Some e → element_value e = F_to x;
  Pack_value e (x : @F V) : PackScalarToVar e = Some x → F_to x = element_value e mod @modulus T }.
Context `{!Recursion}.

(** The vote [voteID] is signed by the key of [address]. *)
Definition vote_signed (voteID address : Z) : Prop :=
  ∃ (pk : list (@F V) * list (@F V)) sig (id a : @F V) hash,
    F_to id = voteID ∧ F_to a = address ∧ assertValidSecp256k1PublicKey pk = true ∧
    signed_hash id = Some hash ∧ PublicKey_IsValid pk hash sig = one ∧ DeriveAddress pk = Some a.
(** The ballot, its weight and the rest of what is hashed to [inputsHash] have a valid ballot proof. *)
Definition ballot_proved (inputsHash : @F T) : Prop :=
  ∃ p (address voteID h : list (@F V)), circom_IsValidProof p [address; voteID; h] = Some one ∧ F_of (element_value h) = inputsHash.
Lemma valid_vote v inputsHash :
  VoteCircuit_Define v = true → vv_IsValid v = one → F_of (element_value (vv_BallotHash v)) = inputsHash →
  ballot_proved inputsHash ∧
  ∃ (pre post : list (@F T)) address voteID, length pre = 4%nat ∧ MultiHash (pre ++ [address; voteID] ++ post) = Some inputsHash ∧
    vote_signed (F_to voteID) (F_to address).
Proof.
  unfold VoteCircuit_Define, verifySigForAddress, verifyCircomProof. intros [Hs Hc]%andb_prop Hv Hh. rewrite Hv in Hs, Hc.
  apply andb_prop in Hs as [Hpk Hs]. destruct (signed_hash (vv_VoteID v)) as [hash|] eqn:Ehash; [|done].
  apply andb_prop in Hs as [Hsig%AssertTrueIf_one Hs]. destruct (DeriveAddress _) as [a|] eqn:Ea; [|done].
  destruct (PackScalarToVar _) as [x|] eqn:Ex; [|done]. apply andb_prop in Hs as [_ ->%AssertIsEqualIf_one].
  destruct (UnpackVarToScalar_bn254 _) as [voteID|] eqn:Eu; [|done].
  destruct (circom_IsValidProof _ _) as [ok|] eqn:Ep; [|done]. apply AssertTrueIf_one in Hc as ->.
  split; [by eexists _, _, _, _|]. destruct (ballot_proof_sound _ _ _ _ Ep) as (pre & post & Hl & Hm).
  exists pre, post, (F_of (element_value (vv_Address v))), (F_of (element_value voteID)). split; [done|]. split; [by rewrite Hm, Hh|].
  exists (vv_PublicKey v), (vv_Signature v), (vv_VoteID v), x, hash. split_and!; try done.
  - rewrite F_to_of, (Unpack_bn254_value _ _ Eu). symmetry. apply Z.mod_small. pose proof (F_to_range (vv_VoteID v)). pose proof V_le_T. lia.
  - by rewrite F_to_of, (Pack_value _ _ Ex).
Qed.

Lemma limbs_kept {B C : Field} (e : list (@F B)) (e' : list (@F C)) :
  F_to <$> e' = F_to <$> e → element_value e' = element_value e.
Proof. intros He. by rewrite !element_limbs, He. Qed.
(** The proof of the batch: an assignment of the aggregator with the same votes. *)
Lemma batch_proved (c : StateTransitionCircuit) : VerifyAggregatorProof negScalingInvBig c = true →
  ∃ (a : AggregatorCircuit) hashes res, AggregatorCircuit_Define a = true ∧ F_to (ag_VotersCount a) = F_to (TransitionCircuit.VotersCount c) ∧
    element_value (ag_BatchHash a) = F_to res ∧
    mapM (λ i, inputsHash ← proofInputsHash negScalingInvBig c i; Some (api_Select (VoteMask c i) inputsHash one)) slots = Some hashes ∧
    MultiHash hashes = Some res.
Proof.
  unfold VerifyAggregatorProof, CalculateAggregatorWitness.
  destruct (mapM _ slots) as [hashes|] eqn:Eh; [|done]. cbn [mbind option_bind].
  destruct (MultiHash hashes) as [res|] eqn:Er; [|done]. cbn [mbind option_bind].
  intros (a & Ha & Hpub)%aggregator_proof_sound. exists a, hashes, res.
  assert (Hsmall : ∀ x : @F T, F_to x mod @modulus A = F_to x).
  { intros x. apply Z.mod_small. pose proof (F_to_range x). pose proof T_le_A. lia. }
  unfold aggregator_public, inputsHashToElements in Hpub. cbn [fmap list_fmap] in Hpub. pose proof (f_equal head Hpub) as Hn. apply (f_equal tail) in Hpub as Hb.
  cbn [head tail] in Hn, Hb. apply (inj Some) in Hn. rewrite padded6_value, Hsmall in Hn. split_and!; try done.
  rewrite <-(Unpack_value res). apply limbs_kept. etrans; [exact Hb|].
  change (list_fmap ?P ?Q ?f ?l) with (f <$> l). rewrite <-list_fmap_compose. apply list_fmap_ext. intros j x _. unfold compose. by rewrite padded6_value, Hsmall.
Qed.
(** The proof of a vote of the batch: an assignment of the vote's circuit with the hash of the slot. *)
Lemma slot_proved (a : AggregatorCircuit) i : AggregatorCircuit_Define a = true → (i < VotesPerBatch)%nat →
  real_slot (F_to (ag_VotersCount a)) i = true →
  ∃ v : VerifyVoteCircuit, VoteCircuit_Define v = true ∧ vv_IsValid v = one ∧
    element_value (vv_BallotHash v) = element_value (ag_BallotHashes a i).
Proof.
  intros [Hh Hp]%andb_prop Hi Hreal. apply MultiHashEqual_spec in Hh as [Hlimbs _].
  apply andb_prop in Hp as [_ Hp]. rewrite forallb_forall in Hp.
  assert (Hin : i ∈ slots) by (apply elem_of_seq; lia).
  apply list_elem_of_In in Hin as Hin'. apply Hp in Hin'. apply vote_proof_sound in Hin' as (v & Hv & Hpub). exists v.
  unfold vote_public, calculateWitness in Hpub. rewrite aggregator_mask_real, Hreal in Hpub by done.
  cbn [fmap list_fmap] in Hpub. pose proof (f_equal head Hpub) as Hval. apply (f_equal tail) in Hpub as Hhash.
  cbn [head tail] in Hval, Hhash. apply (inj Some) in Hval.
  pose proof (modulus_gt (Field := V)) as HV. unfold two64 in HV.
  split; [done|]. split.
  - apply F_to_inj. rewrite Hval, F_to_one. rewrite (padded_value (bit true)). cbn [bit]. rewrite F_to_one. apply Z.mod_small. lia.
  - apply limbs_kept. etrans; [exact Hhash|]. change (list_fmap ?P ?Q ?f ?l) with (f <$> l).
    rewrite fmap_imap. apply list_eq. intros j. rewrite list_lookup_imap, list_lookup_fmap.
    destruct (ag_BallotHashes a i !! j) as [x|] eqn:Ex; [|done]. cbn [fmap option_fmap option_map]. unfold compose. rewrite Select_bit, (padded_value x). f_equal. apply Z.mod_small.
    pose proof (F_to_range x). rewrite Forall_fmap, Forall_forall in Hlimbs. specialize (Hlimbs i Hin). cbn in Hlimbs.
    rewrite Forall_lookup in Hlimbs. specialize (Hlimbs j x Ex). lia.
Qed.

End recursion.

(** ** A batch of one vote *)

Module Example3.
Import SmallField.
#[export] Existing Instance field.
#[export] Existing Instance Concrete101.curve.
Definition limbs (x : F) : list F := [F_of (F_to x mod 2 ^ 64); F_of (F_to x / 2 ^ 64); zero; zero].
Definition circom_holds (pre post address voteID h : list F) : bool :=
  bool_decide (length pre = 4%nat) && bool_decide (hash (pre ++ [F_of (element_value address); F_of (element_value voteID)] ++ post) = F_of (element_value h)).
(** A key is an address; a signature is what is signed, followed by the key. *)
#[export] Instance vote_gadgets : VoteGadgets := {|
  secp_AssertIsOnCurve _ _ := true; secp_IsZero _ := zero; BytesFromString _ _ := [zero];
  UnpackVarToScalar_secp x := Some (limbs x); UnpackVarToScalar_bn254 x := Some (limbs x);
  BytesFromElement e := Some e; SwapEndianness := List.rev (A:=F); Keccak256 l := Some l; U8ToElem l := Some l;
  ecdsa_Signature := list F; PublicKey_IsValid pk h sig := bit (bool_decide (sig = h ++ pk.1));
  DeriveAddress pk := head pk.1; PackScalarToVar e := Some (F_of (element_value e));
  rangecheck_Check x n := F_to x <? 2 ^ n;
  circom_Proof := list F * list F;
  circom_IsValidProof p w := match w with [a; v; h] => Some (bit (circom_holds p.1 p.2 a v h)) | _ => None end |}.
Definition public_of (w : list (list F)) : list Z := (λ e, element_value e mod modulus) <$> w.
#[export] Instance aggregator_gadgets : AggregatorGadgets := {|
  AssertMultiHashEqual l h := forallb (forallb (λ x, F_to x <? 2 ^ 64)) l &&
    bool_decide (hash ((λ e, F_of (element_value e)) <$> l) = F_of (element_value h));
  vote_Proof := VerifyVoteCircuit;
  AssertVoteProof v w := VoteCircuit_Define v && bool_decide (vote_public v = public_of w) |}.
#[export] Instance gadgets3 : Gadgets := {|
  native_Hash l := Some (hash l); MultiHash l := Some (hash l); smt_Hash1 := hash1;
  smt_VerifierWithLeafHash _ _ _ _ := true; smt_ProcessorWithLeafHash _ _ _ _ _ _ _ _ _ := None;
  imt_MerkleProof := (); imt_Leaf _ := zero; imt_LeafIndex _ := zero; imt_Verify _ _ := Some one; imt_PackLeaf _ _ := zero;
  eddsa_Signature := (); eddsa_IsValid _ _ _ := zero; aggregator_Proof := AggregatorCircuit;
  AssertProof a w := AggregatorCircuit_Define a && bool_decide (aggregator_public a = public_of w);
  UnpackVarToScalar := limbs |}.
Lemma limbs_element x : element_value (limbs x) = F_to x.
Proof.
  unfold limbs, element_value. cbn [foldr]. rewrite F_to_zero. pose proof (F_to_range x) as Hx. change modulus with p in Hx. unfold p, two64 in Hx.
  pose proof (Z.mod_pos_bound (F_to x) (2 ^ 64) ltac:(lia)). pose proof (Z.div_pos (F_to x) (2 ^ 64) ltac:(lia) ltac:(lia)).
  pose proof (Z.div_lt_upper_bound (F_to x) (2 ^ 64) 2 ltac:(lia) ltac:(lia)). pose proof (Z.div_mod (F_to x) (2 ^ 64) ltac:(lia)).
  rewrite !F_to_small; [lia|change modulus with p; unfold p, two64; lia..].
Qed.
#[export] Instance recursion3 : Recursion (T:=field) (A:=field) (V:=field).
Proof.
  split; try done.
  - intros a w [Ha Hw]%andb_prop. exists a. apply bool_decide_eq_true in Hw. by split.
  - intros v w [Hv Hw]%andb_prop. exists v. apply bool_decide_eq_true in Hw. by split.
  - intros [pre post] a v h Hp. cbn in Hp. injection Hp as Hp. pose proof (proj1 (bit_one (circom_holds pre post a v h)) Hp) as Hb. apply andb_prop in Hb as [Hl Hh].
    apply bool_decide_eq_true in Hl, Hh. exists pre, post. split; [done|]. cbn [MultiHash gadgets3]. by rewrite Hh.
  - intros l h [Hl Hh]%andb_prop. apply bool_decide_eq_true in Hh. split; [|cbn [MultiHash gadgets3]; by rewrite <-Hh].
    apply Forall_forall. intros e He. rewrite forallb_forall in Hl. apply list_elem_of_In, Hl in He. apply Forall_forall. intros x Hx.
    rewrite forallb_forall in He. by apply list_elem_of_In, He, Z.ltb_lt in Hx.
  - exact limbs_element.
  - intros x e [= <-]. apply limbs_element.
  - by intros e x [= <-].
Qed.
Definition process3 : Circuit_Process := {| pr_ID := F_of 77; pr_CensusOrigin := F_of 1; pr_BallotMode := F_of 5; pr_EncryptionKey := (F_of 7, one) |}.
Definition vote3 (i : nat) : CVote :=
  match i with
  | O => Example2.vote_at (Example2.ballot_at 5 41) (VoteIDMin + 41) 1001 16 NewBallot NewBallot
  | _ => Example2.vote_at NewBallot 0 0 0 NewBallot NewBallot
  end.
Definition ballot_inputs : list F := BallotHash (F_of 3) process3 (vote3 0).
Definition signed3 : list F := match signed_hash (F_of (VoteIDMin + 41)) with Some h => h | None => [] end.
Definition proof3 : VerifyVoteCircuit := {|
  vv_IsValid := one; vv_BallotHash := limbs (hash ballot_inputs); vv_Address := limbs (F_of 1001); vv_VoteID := F_of (VoteIDMin + 41);
  vv_PublicKey := ([F_of 1001], []); vv_Signature := signed3 ++ [F_of 1001]; vv_CircomProof := (take 4 ballot_inputs, drop 6 ballot_inputs) |}.
Definition dummy3 : VerifyVoteCircuit := {|
  vv_IsValid := zero; vv_BallotHash := [one; zero; zero; zero]; vv_Address := limbs one; vv_VoteID := one;
  vv_PublicKey := ([one], []); vv_Signature := []; vv_CircomProof := ([], []) |}.
Definition aggregated3 : AggregatorCircuit := {|
  ag_VotersCount := one; ag_BatchHash := limbs (hash (hash ballot_inputs :: replicate 59 one));
  ag_BallotHashes i := match i with O => limbs (hash ballot_inputs) | _ => limbs one end;
  ag_Proofs i := match i with O => proof3 | _ => dummy3 end |}.
Definition noop3 : MerkleTransition := {|
  mt_NewRoot := zero; mt_Siblings := []; mt_NewKey := zero; mt_NewLeafHash := zero;
  mt_OldRoot := zero; mt_OldKey := zero; mt_OldLeafHash := zero; mt_IsOld0 := zero; mt_Fnc0 := zero; mt_Fnc1 := zero |}.
Definition unused3 : MerkleProof := {| mp_Root := zero; mp_Siblings := []; mp_Key := zero; mp_LeafHash := zero |}.
Definition batch3 : StateTransitionCircuit := {|
  RootHashBefore := zero; RootHashAfter := zero; TransitionCircuit.VotersCount := one; OverwrittenVotesCount := zero; CensusRoot := zero;
  MerkleProofs _ := (); CSPProofs _ := {| csp_Signature := (); csp_PublicKey := (zero, zero); csp_VoterIndex := zero |};
  BlobCommitmentLimbs := []; BlobProofLimbs := []; BlobEvaluationResultY := [];
  c_Process := process3; Votes := vote3; OldResults := NewBallot; NewResults := NewBallot; ReencryptionK := zero;
  proof_ID := unused3; proof_CensusOrigin := unused3; proof_BallotMode := unused3; proof_EncryptionKey := unused3;
  proofs_Ballot _ := noop3; proofs_VoteIDs _ := noop3; proof_Results := noop3; AggregatorProof := aggregated3 |}.
End Example3.
