(* ===== verification/Finalizer.v ===== *)
(** * The finalizer

    [src/sequencer/finalizer.go], with the assignment of the results circuit
    ([src/circuits/results/helpers.go]): an ended process is decrypted on the state root
    that the contract has, and its results are queued for publication. What is queued
    is the sum of the votes; a failure stores nothing. [finalize] runs under a lock, so a
    call is one step; the channel of requests is a queue. The state database, the contract,
    the prover and the scalars drawn are parameters. *)

From S2P Require Import Prelude Bytes DB Spec Types StorageTypes StorageBase Process Batches Curve ElGamal StateTree StateVote StateBatch Tally.

(** [src/sequencer/finalizer.go:27-27] *)
Definition maxPossibleResultCap : Z := 1000000000000.
(** [src/sequencer/finalizer.go:50-73] *)
Definition maxPossibleResult (process : option Process) : Z :=
  match process with
  | None => maxPossibleResultCap
  | Some process =>
      match p_VotersCount process with
      | None => 0
      | Some count =>
          if negb ((0 <=? count) && (count <? two64)) then maxPossibleResultCap
          else
            let maxValue := MaxValue (p_BallotMode process) in
            if (count =? 0) || (maxValue =? 0) then 0
            else if maxPossibleResultCap / count <? maxValue then maxPossibleResultCap
            else (maxValue * count) mod two64
      end
  end.

(** [src/sequencer/finalizer.go:32-44] finalizer: the cache of invalid processes, the
    requests that wait, and the storage *)
Record finalizer := { f_stg : Storage; invalidProcesses : gset ProcessID; OndemandCh : list ProcessID }.

Section finalizer.
Context `{Env : StorageEnv} `{Curve} `{Arbo} `{Hash : PoseidonHasher}.
(** The contract's root, and whether the network has blobs: functions that can be nil. *)
Context (getStateRoot : option (ProcessID → result (option Z))) (supportsBlobTxs : option (ProcessID → result bool)).
(** [state.HashFn] on the key, the value and a one. *)
Context (leafHash : Z → Z → result Z).
(** The scalar that the [i]-th proof of decryption draws. *)
Context (draw : nat → Z).

Definition on_stg {A} (m : M A) : SE finalizer A := λ f,
  let '(r, s) := m (f_stg f) in (r, {| f_stg := s; invalidProcesses := invalidProcesses f; OndemandCh := OndemandCh f |}).
Definition setProcessInvalid (pid : ProcessID) : SE finalizer () :=
  modify (λ f, {| f_stg := f_stg f; invalidProcesses := {[pid]} ∪ invalidProcesses f; OndemandCh := OndemandCh f |}).
Definition enqueue (pid : ProcessID) : SE finalizer () :=
  modify (λ f, {| f_stg := f_stg f; invalidProcesses := invalidProcesses f; OndemandCh := OndemandCh f ++ [pid] |}).
(** [if err != nil { setProcessInvalid(); return err }] *)
Definition or_invalid {A} (pid : ProcessID) (m : SE finalizer A) : SE finalizer A :=
  r ← attempt m;
  match r with Ok a => mret a | Err e => setProcessInvalid pid;; raise e end.

(** [src/sequencer/finalizer.go:251-261] *)
Definition shouldMarkMissingRootInvalid (pid : ProcessID) : bool * option error :=
  match supportsBlobTxs with
  | None => (true, None)
  | Some f => match f pid with
              | Err e => (false, Some (Wrap "determine blob support for process" e))
              | Ok supported => (negb supported, None)
              end
  end.
(** [src/sequencer/finalizer.go:206-248] one process of the list, in finalizeEnded *)
Definition finalize_ended_one (pid : ProcessID) : SE finalizer () :=
  invalid ← gets invalidProcesses;
  if bool_decide (pid ∈ invalid) then mret ()
  else
    r ← attempt (on_stg (Storage_Process pid));
    match r with
    | Err _ => mret ()
    | Ok process =>
        if bool_decide (p_Result process ≠ []) then mret ()
        else
          has ← attempt (on_stg (HasVerifiedResults pid));
          if bool_decide (has = Ok true) then mret ()
          else match RootExists pid (p_StateRoot process) with
               | Err _ => if (shouldMarkMissingRootInvalid pid).1 then setProcessInvalid pid else mret ()
               | Ok _ => enqueue pid
               end
    end.
(** [src/sequencer/finalizer.go:200-249] *)
Definition finalizeEnded : SE finalizer () :=
  r ← attempt (on_stg ListEndedProcessWithEncryptionKeys);
  match r with
  | Err _ => mret ()
  | Ok processIDs => forM_ finalize_ended_one processIDs
  end.

(** ** The assignment of the results circuit *)

(** [src/circuits/merkleproof/merkleproof.go:18-24] MerkleProof, of big integers *)
Record AssignedProof := { asp_Root : Z; asp_Siblings : list Z; asp_Key : Z; asp_LeafHash : Z }.
(** [src/circuits/results/results.go:23-31] ResultsVerifierCircuit, of big integers *)
Record ResultsAssignment := {
  ra_StateRoot : Z; ra_Results : list Z; ra_EncryptedResults : ElGamal.Ballot; ra_ResultsMerkleProof : AssignedProof;
  ra_DecryptionProofs : list DecryptionProof; ra_EncryptionKeyMerkleProof : AssignedProof;
  ra_EncryptionPublicKey : option (Z * Z) }.
(** [src/circuits/helpers.go:32-42] *)
Definition BigIntArrayToN (arr : list Z) (n : nat) : list Z := take n (arr ++ replicate n 0).
(** [src/circuits/merkleproof/merkleproof.go:236-242] *)
Definition padStateSiblings (unpackedSiblings : list Z) : list Z := BigIntArrayToN unpackedSiblings StateTreeMaxLevels.
(** [src/circuits/merkleproof/merkleproof.go:27-40] *)
Definition MerkleProofFromArboProof (p : ArboProof) : result AssignedProof :=
  match leafHash (ap_Key p) (ap_Value p) with
  | Err e => Err (Wrap "failed to hash leaf" e)
  | Ok h => Ok {| asp_Root := ap_Root p; asp_Siblings := padStateSiblings (ap_Siblings p);
                  asp_Key := ap_Key p; asp_LeafHash := h |}
  end.
(** [src/circuits/results/helpers.go:61-67] *)
Definition merkleProofFromKey (o : State) (key : uint64) : result AssignedProof :=
  match eval (genArboProof key) o with
  | Err e => Err (Wrap "failed to generate arbo proof" e)
  | Ok proof => MerkleProofFromArboProof proof
  end.
(** [src/circuits/results/helpers.go:16-59] *)
Definition GenerateAssignment (o : State) (results : list Z) (encryptedResults : ElGamal.Ballot)
    (decryptionProofs : list DecryptionProof) : result ResultsAssignment :=
  match eval RootAsBigInt o with
  | Err e => Err (Wrap "failed to get state root hash" e)
  | Ok root =>
      match merkleProofFromKey o KeyResults with
      | Err e => Err (Wrap "failed to transform results arbo proof to merkle proof" e)
      | Ok resultsProof =>
          match merkleProofFromKey o KeyEncryptionKey with
          | Err e => Err (Wrap "failed to transform encryption key arbo proof to merkle proof" e)
          | Ok keyProof =>
              Ok {| ra_StateRoot := root; ra_Results := results; ra_EncryptedResults := encryptedResults;
                    ra_ResultsMerkleProof := resultsProof; ra_DecryptionProofs := decryptionProofs;
                    ra_EncryptionKeyMerkleProof := keyProof;
                    ra_EncryptionPublicKey := cp_EncryptionKey (State_Process o) |}
          end
      end
  end.
(** gnark's prover, with the verification of its proof. *)
Context (ProveAndVerify : ResultsAssignment → result bytes).

(** ** Finalizing a process *)

(** [src/sequencer/finalizer.go:358-375] the fields from the [i]-th on are decrypted, each with its
    proof, in finalize *)
Fixpoint decrypt_fields (encryptionPubKey : point) (encryptionPrivKey maxResult : Z) (i : nat) (cts : list Cipher)
    : result (list (Z * DecryptionProof)) :=
  match cts with
  | [] => Ok []
  | ct :: cts =>
      match Decrypt (Some encryptionPrivKey) ct maxResult with
      | Err e => Err (Wrap "could not decrypt results accumulator" e)
      | Ok (_, result) =>
          match BuildDecryptionProof (draw i) encryptionPrivKey encryptionPubKey ct result with
          | Err e => Err (Wrap "could not build decryption proof for results accumulator" e)
          | Ok proof =>
              match decrypt_fields encryptionPubKey encryptionPrivKey maxResult (S i) cts with
              | Err e => Err e
              | Ok rest => Ok ((result, proof) :: rest)
              end
          end
      end
  end.
(** [src/sequencer/finalizer.go:422-446] setProcessResults: the results are not nil *)
Definition setProcessResults (pid : ProcessID) (res : VerifiedResults) : SE finalizer () :=
  wrapping "could not store verified results" (on_stg (PushVerifiedResults res)).
(** [src/sequencer/finalizer.go:295-321] the contract must have the root of the process, in finalize *)
Definition check_contract_root (pid : ProcessID) (process : Process) : SE finalizer () :=
  match getStateRoot with
  | None => mret ()
  | Some getStateRoot =>
      contractStateRoot ← or_invalid pid (wrapping "could not fetch contract state root" (lift (getStateRoot pid)));
      if bool_decide (contractStateRoot = p_StateRoot process) then mret ()
      else
        (if (shouldMarkMissingRootInvalid pid).1 then setProcessInvalid pid else mret ());;
        raise (ErrMsg "local state root mismatch with contract")
  end.
(** [src/sequencer/finalizer.go:323-331] both keys are needed, in finalize *)
Definition process_keys (pid : ProcessID) : SE finalizer (point * Z) :=
  or_invalid pid (
    keys ← wrapping "process encryption keys missing" (on_stg (ProcessEncryptionKeys pid));
    match keys with
    | (pub, Some priv) => mret (SetPoint pub, priv)
    | (_, None) => raise (ErrMsg "process encryption keys missing")
    end).
(** [src/sequencer/finalizer.go:333-414] the results of the state [st], decrypted, proved and queued,
    in finalize *)
Definition finalize_results (pid : ProcessID) (process : Process) (st : State) (pub : point) (priv : Z) : SE finalizer () :=
  stateRoot ← wrapping "could not get state root" (lift (eval RootAsBigInt st));
  if negb (bool_decide (p_StateRoot process = Some stateRoot)) then raise (ErrMsg "state root is not synced or mismatch")
  else
    enc ← wrapping "could not retrieve encrypted results accumulator" (lift (Results st));
    decrypted ← lift (decrypt_fields pub priv (maxPossibleResult (Some process)) 0 enc);
    assignment ← wrapping "could not generate assignment" (lift (GenerateAssignment st decrypted.*1 enc decrypted.*2));
    proof ← wrapping "could not generate proof" (lift (ProveAndVerify assignment));
    stateRootBI ← wrapping "could not get state root" (lift (eval RootAsBigInt st));
    wrapping "could not store results" (setProcessResults pid
      {| vr_ProcessID := pid; vr_Proof := proof;
         vr_Inputs := {| rv_StateRoot := Some stateRootBI; rv_Results := Some <$> decrypted.*1 |} |}).
(** [src/sequencer/finalizer.go:276-280] nothing is left to do for the process, in finalize *)
Definition is_finalized (process : Process) : bool :=
  bool_decide (p_Status process = ProcessStatusResults) || bool_decide (p_Status process = ProcessStatusCanceled) ||
  bool_decide (p_Result process ≠ []).
(** [src/sequencer/finalizer.go:266-415]; a stored process has its identifier *)
Definition finalize (pid : ProcessID) : SE finalizer () :=
  process ← on_stg (Storage_Process pid);
  if is_finalized process then mret ()
  else
    st ← or_invalid pid (lift (LoadSnapshotOnRoot None (default pid (p_ID process)) (p_StateRoot process)));
    check_contract_root pid process;;
    keys ← process_keys pid;
    or_invalid pid (finalize_results pid process st keys.1 keys.2).
(** [src/sequencer/finalizer.go:105-119] one request of the queue, in Start *)
Definition serve_request : SE finalizer () := λ f,
  match OndemandCh f with
  | [] => (Ok (), f)
  | pid :: rest =>
      let f := {| f_stg := f_stg f; invalidProcesses := invalidProcesses f; OndemandCh := rest |} in
      if bool_decide (pid ∈ invalidProcesses f) then (Ok (), f) else (Ok (), exec (finalize pid) f)
  end.
End finalizer.

(** ** The bound of the search *)

(** The bound of the search for a result is the largest sum that the counted voters can
    reach, capped: the product never wraps around, and an operation on it is never too long. *)
Theorem maxPossibleResult_spec p count :
  p_VotersCount p = Some count → 0 ≤ count < two64 → 0 ≤ MaxValue (p_BallotMode p) →
  maxPossibleResult (Some p) = Z.min (count * MaxValue (p_BallotMode p)) maxPossibleResultCap.
Proof.
  intros Hc Hr Hm. unfold maxPossibleResult. rewrite Hc.
  rewrite (proj2 (Z.leb_le _ _)), (proj2 (Z.ltb_lt _ _)) by lia. cbn [andb negb].
  set (v := MaxValue (p_BallotMode p)) in *. assert (Hcap : 0 < maxPossibleResultCap < two64) by done.
  destruct (Z.eqb_spec count 0) as [->|]; [cbn; lia|]. destruct (Z.eqb_spec v 0) as [->|]; [cbn; lia|]. cbn [orb].
  pose proof (Z.div_mod maxPossibleResultCap count ltac:(lia)). pose proof (Z.mod_pos_bound maxPossibleResultCap count ltac:(lia)).
  destruct (Z.ltb_spec (maxPossibleResultCap / count) v); [nia|]. rewrite Z.mod_small by nia. nia.
Qed.
Lemma maxPossibleResult_range p : 0 ≤ maxPossibleResult p.
Proof.
  unfold maxPossibleResult. destruct p as [p|]; [|done]. destruct (p_VotersCount p); [|done].
  repeat (case_match; [done|]). apply Z.mod_pos_bound. done.
Qed.
Lemma maxPossibleResult_cap p : (∀ q, p = Some q → 0 ≤ MaxValue (p_BallotMode q)) → maxPossibleResult p ≤ maxPossibleResultCap.
Proof.
  intros Hp. unfold maxPossibleResult. destruct p as [p|]; [|done]. specialize (Hp p eq_refl). destruct (p_VotersCount p) as [c|]; [|done].
  destruct ((0 <=? c) && (c <? two64)) eqn:Hc; cbn [negb]; [|done]. apply andb_prop in Hc as [?%Z.leb_le ?%Z.ltb_lt].
  set (v := MaxValue (p_BallotMode p)) in *. assert (Hcap : 0 < maxPossibleResultCap < two64) by done.
  destruct (Z.eqb_spec c 0); [done|]. destruct (Z.eqb_spec v 0); [done|]. cbn [orb].
  pose proof (Z.div_mod maxPossibleResultCap c ltac:(lia)). pose proof (Z.mod_pos_bound maxPossibleResultCap c ltac:(lia)).
  destruct (Z.ltb_spec (maxPossibleResultCap / c) v); [done|]. rewrite Z.mod_small by nia. nia.
Qed.

(** ** The sums of the votes *)

Section sums.
Context `{Curve}.
(** The ballots of [C] hide the fields that [votes] gives for their indexes. *)
Definition votes_hide (d : Z) (C : gmap Z (list Z)) (votes : Z → list Z) : Prop :=
  ∀ k v, C !! k = Some v → in_ballot_range k = true → plains d (leaf_ballot v) = ScalarBaseMult <$> votes k.
Definition sum_step (votes : Z → list Z) (k : Z) (v : list Z) (acc : list Z) : list Z :=
  if in_ballot_range k then zip_with Z.add (votes k) acc else acc.
(** The sum of each field over the ballots of [C]. *)
Definition field_sums (C : gmap Z (list Z)) (votes : Z → list Z) : list Z :=
  map_fold (sum_step votes) (replicate FieldsPerBallot 0) C.
Lemma plains_sum l k : plains_Add (ScalarBaseMult <$> l) (ScalarBaseMult <$> k) = ScalarBaseMult <$> zip_with Z.add l k.
Proof.
  unfold plains_Add. revert k. induction l as [|x l IH]; intros [|y k]; cbn; try done.
  rewrite IH. unfold ScalarBaseMult. by rewrite smul_add.
Qed.
Lemma tally_plains d C votes : votes_hide d C votes → plains d (tally C) = ScalarBaseMult <$> field_sums C votes.
Proof.
  intros Hv. unfold tally, field_sums. rewrite !map_fold_foldr.
  assert (Hl : Forall (λ kv, in_ballot_range kv.1 = true → plains d (leaf_ballot kv.2) = ScalarBaseMult <$> votes kv.1) (map_to_list C)).
  { apply Forall_forall. intros [k v] Hkv%elem_of_map_to_list. by apply Hv. }
  induction Hl as [|[k v] l Hk _ IH]; cbn [foldr uncurry fst snd] in *.
  - rewrite plains_new, fmap_replicate. unfold ScalarBaseMult. by rewrite ScalarMult_0.
  - unfold tally_step at 1, sum_step at 1. destruct (in_ballot_range k); [|done]. by rewrite plains_Ballot_Add, IH, Hk, plains_sum.
Qed.
End sums.

(** ** Finalizing *)

Section facts.
Context `{Env : StorageEnv} `{Curve} `{Arbo} `{Hash : PoseidonHasher}.
Context (getStateRoot : option (ProcessID → result (option Z))) (supportsBlobTxs : option (ProcessID → result bool)).
Context (leafHash : Z → Z → result Z) (draw : nat → Z) (ProveAndVerify : ResultsAssignment → result bytes).
Notation finalize := (finalize getStateRoot supportsBlobTxs leafHash draw ProveAndVerify).
Notation decrypt_fields := (decrypt_fields draw).

(** Readers of the storage. *)
Lemma on_stg_reads {A} (m : M A) f : moves (=) m → on_stg m f = (eval m (f_stg f), f).
Proof.
  intros Hm. specialize (Hm (f_stg f)). unfold on_stg, eval. destruct (m (f_stg f)) as [r s]. cbn in *. subst s. by destruct f.
Qed.
Lemma reads_Process pid : moves (=) (Storage_Process pid).
Proof. unfold Storage_Process, process. apply moves_getArtifact, _. Qed.
Lemma reads_keys pid : moves (=) (ProcessEncryptionKeys pid).
Proof. unfold ProcessEncryptionKeys, process, encryptionKeysUnsafe. repeat first [apply (moves_getArtifact _)|moves_step]. Qed.
Lemma reads_has pid : moves (=) (HasVerifiedResults pid).
Proof. unfold HasVerifiedResults. repeat first [apply (moves_rd_Get _)|moves_step]. Qed.

Lemma or_invalid_Ok {A} pid (m : SE finalizer A) f a f' : or_invalid pid m f = (Ok a, f') → m f = (Ok a, f').
Proof. unfold or_invalid, attempt, mbind, SE_bind. destruct (m f) as [[b|e] f1]; [by intros [= <- <-]|done]. Qed.
Lemma or_invalid_Err {A} pid (m : SE finalizer A) f e f' :
  or_invalid pid m f = (Err e, f') → ∃ f1, m f = (Err e, f1) ∧ f' = exec (setProcessInvalid pid) f1.
Proof. unfold or_invalid, attempt, mbind, SE_bind. destruct (m f) as [[b|e'] f1]; [done|]. intros [= <- <-]. by exists f1. Qed.

(** Decryption finds the plaintexts. *)
Lemma decrypt_fields_plain pub d max i cts ms l :
  decrypt_fields pub d max i cts = Ok l → 0 ≤ max ≤ maxPossibleResultCap → max < Order →
  plain d <$> cts = ScalarBaseMult <$> ms → Forall (λ m, 0 ≤ m < Order) ms → l.*1 = ms.
Proof.
  intros Hl Hmax Hcap. revert i ms l Hl. induction cts as [|ct cts IH]; intros i [|m ms] l Hl Hp Hms; cbn -[Decrypt] in *; try done.
  { by injection Hl as <-. }
  injection Hp as Hm Hp. apply Forall_cons in Hms as [Hr Hms].
  destruct (Decrypt _ _ _) as [[M r]|] eqn:Ed; [|done]. destruct (BuildDecryptionProof _ _ _ _ _); [|done].
  destruct (decrypt_fields _ _ _ _ cts) as [rest|] eqn:Er; [|done]. injection Hl as <-. cbn. f_equal; [|by eapply IH].
  unfold Decrypt in Ed. destruct (d <=? 0); [done|]. fold (plain d ct) in Ed.
  rewrite Hm, BabyStepGiantStepECC_eq in Ed by (unfold maxPossibleResultCap in *; lia). destruct (m <=? max); [|done]. by injection Ed as _ ->.
Qed.

(** What a successful finalization queues. *)
Lemma finalize_results_Ok pid p st pub d f f' :
  finalize_results leafHash draw ProveAndVerify pid p st pub d f = (Ok (), f') →
  ∃ root enc l proof,
    eval RootAsBigInt st = Ok root ∧ p_StateRoot p = Some root ∧ Results st = Ok enc ∧
    decrypt_fields pub d (maxPossibleResult (Some p)) 0 enc = Ok l ∧
    run (PushVerifiedResults {| vr_ProcessID := pid; vr_Proof := proof;
      vr_Inputs := {| rv_StateRoot := Some root; rv_Results := Some <$> l.*1 |} |}) (f_stg f) = (Ok (), f_stg f').
Proof.
  unfold finalize_results. intros (root & f1 & [= Hr <-]%wrapping_Ok & HF)%bind_inv_Ok.
  case_bool_decide as Hroot; cbn [negb] in HF; [|done].
  apply bind_inv_Ok in HF as (enc & f1 & [= He <-]%wrapping_Ok & HF).
  apply bind_inv_Ok in HF as (l & f1 & [= Hl <-] & HF).
  apply bind_inv_Ok in HF as (a & f1 & [= Ha <-]%wrapping_Ok & HF).
  apply bind_inv_Ok in HF as (proof & f1 & [= Hpr <-]%wrapping_Ok & HF).
  apply bind_inv_Ok in HF as (root' & f1 & [= Hr' <-]%wrapping_Ok & HF).
  assert (root' = root) as -> by congruence.
  exists root, enc, l, proof. split_and!; try done.
  apply wrapping_Ok in HF. unfold setProcessResults in HF. apply wrapping_Ok in HF. unfold on_stg in HF. unfold run.
  destruct (PushVerifiedResults _ (f_stg f)) as [r s]. injection HF as -> <-. done.
Qed.

Lemma check_contract_root_Ok pid p f f' :
  check_contract_root getStateRoot supportsBlobTxs pid p f = (Ok (), f') →
  f' = f ∧ ∀ g, getStateRoot = Some g → g pid = Ok (p_StateRoot p).
Proof.
  unfold check_contract_root. destruct getStateRoot as [g|]; [|by intros [= ->]].
  intros (root & f3 & [= Hg <-]%or_invalid_Ok%wrapping_Ok & Hc)%bind_inv_Ok.
  case_bool_decide as Hroot; [injection Hc as ->|by destruct (shouldMarkMissingRootInvalid _ _).1].
  split; [done|]. intros g' [= <-]. congruence.
Qed.
Lemma process_keys_Ok pid f pub d f' :
  process_keys pid f = (Ok (pub, d), f') → f' = f ∧ ∃ xy, eval (ProcessEncryptionKeys pid) (f_stg f) = Ok (xy, Some d).
Proof.
  intros Hk%or_invalid_Ok. apply bind_inv_Ok in Hk as ([pub' priv] & f3 & Hk%wrapping_Ok & Hk').
  rewrite (on_stg_reads _ _ (reads_keys pid)) in Hk. injection Hk as Hk <-. destruct priv; [|done].
  injection Hk' as _ -> <-. eauto.
Qed.

(** C5: the results that a process ends with are those of its votes. When a finalization
    succeeds on a process that had none, it read a state with the root of the process, which
    the contract has too, and queued verified results for that root; and if the state holds
    the tally of its ballots, which hide the given votes from the key of the process, then the
    results are the sums of the votes, field by field. *)
Theorem finalize_publishes_tally pid f f' p :
  maxPossibleResult (Some p) < Order → 0 ≤ MaxValue (p_BallotMode p) →
  finalize pid f = (Ok (), f') → eval (Storage_Process pid) (f_stg f) = Ok p → is_finalized p = false →
  ∃ st root pub d vr,
    LoadSnapshotOnRoot None (default pid (p_ID p)) (p_StateRoot p) = Ok st ∧
    eval RootAsBigInt st = Ok root ∧ p_StateRoot p = Some root ∧
    (∀ g, getStateRoot = Some g → g pid = Ok (Some root)) ∧
    eval (ProcessEncryptionKeys pid) (f_stg f) = Ok (pub, Some d) ∧
    vr_ProcessID vr = pid ∧ rv_StateRoot (vr_Inputs vr) = Some root ∧
    run (PushVerifiedResults vr) (f_stg f) = (Ok (), f_stg f') ∧
    ∀ votes, tally_inv (s_tree st) → votes_hide d (content (s_tree st)) votes →
      Forall (λ m, 0 ≤ m < Order) (field_sums (content (s_tree st)) votes) →
      rv_Results (vr_Inputs vr) = Some <$> field_sums (content (s_tree st)) votes.
Proof.
  intros Hcap Hmax Hf Hp Hfin. unfold Finalizer.finalize in Hf. apply bind_inv_Ok in Hf as (p' & f1 & Hp' & Hf).
  rewrite (on_stg_reads _ _ (reads_Process pid)), Hp in Hp'. injection Hp' as <- <-. rewrite Hfin in Hf.
  apply bind_inv_Ok in Hf as (st & f1 & [= Hst <-]%or_invalid_Ok & Hf).
  apply bind_inv_Ok in Hf as ([] & f1 & [-> Hcontract]%check_contract_root_Ok & Hf).
  apply bind_inv_Ok in Hf as ([pub d] & f2 & [-> [pub' Hk]]%process_keys_Ok & Hf%or_invalid_Ok).
  apply finalize_results_Ok in Hf as (root & enc & l & proof & Hr & Hroot & He & Hl & Hpush). cbn [fst snd] in *.
  exists st, root, pub', d. eexists. split_and!; [done..| |exact Hk| | |exact Hpush|]; [|done..|].
  { intros g Hg. rewrite <-Hroot. by apply Hcontract. }
  intros votes Hinv Hhide Hsums. cbn [rv_Results vr_Inputs]. f_equal.
  assert (Henc : enc = tally (content (s_tree st))).
  { unfold Results, resultsFromTree, eval in He. cbn [getBigInt State_tree] in He. unfold wrapping, State_getBigInt, read, mbind, SE_bind in He.
    cbn [compose] in He. rewrite t_Get_content, Hinv in He. unfold lift in He. cbn in He. rewrite SetBigInts_wf in He by apply tally_wf. by injection He. }
  eapply decrypt_fields_plain; [exact Hl| |done| |exact Hsums].
  - split; [apply maxPossibleResult_range|]. apply maxPossibleResult_cap. by intros q [= <-].
  - rewrite Henc. by apply tally_plains.
Qed.

(** ** Failures *)

Lemma push_Err vr s e s' : PushVerifiedResults vr s = (Err e, s') → unmoved s s'.
Proof.
  unfold PushVerifiedResults, wrapping, lift. run_simpl. destruct (EncodeArtifact vr) as [val|]; [|by intros [= _ <-]].
  rewrite attempt_rd_Get. destruct (db s !! _); [by intros [= _ <-]|].
  destruct (commit_Set_cases verifiedResultPrefix (pid_bytes (vr_ProcessID vr)) val s) as [(e' & s1 & -> & Hu)|(s1 & -> & _)]; [|done].
  by intros [= _ <-].
Qed.
Lemma finalize_results_Err pid p st pub d f e f' :
  finalize_results leafHash draw ProveAndVerify pid p st pub d f = (Err e, f') →
  unmoved (f_stg f) (f_stg f') ∧ OndemandCh f' = OndemandCh f ∧ invalidProcesses f' = invalidProcesses f.
Proof.
  unfold finalize_results, wrapping, lift, mbind, SE_bind.
  assert (Hsame : unmoved (f_stg f) (f_stg f) ∧ OndemandCh f = OndemandCh f ∧ invalidProcesses f = invalidProcesses f) by done.
  destruct (eval RootAsBigInt st) as [root|]; [|by intros [= _ <-]]. case_match; [by intros [= _ <-]|].
  destruct (Results st) as [enc|]; [|by intros [= _ <-]].
  destruct (decrypt_fields _ _ _ _ enc) as [l|]; [|by intros [= _ <-]].
  destruct (GenerateAssignment _ _ _ _ _) as [a|]; [|by intros [= _ <-]].
  destruct (ProveAndVerify a) as [proof|]; [|by intros [= _ <-]].
  unfold setProcessResults, wrapping, on_stg. destruct (PushVerifiedResults _ (f_stg f)) as [[[]|e'] s1] eqn:E; [done|].
  intros [= _ <-]. by apply push_Err in E.
Qed.
(** The process is remembered as invalid, and that is all. *)
Definition marked (pid : ProcessID) (f f' : finalizer) : Prop :=
  unmoved (f_stg f) (f_stg f') ∧ OndemandCh f' = OndemandCh f ∧ invalidProcesses f' = {[pid]} ∪ invalidProcesses f.
Lemma marked_set pid f f1 :
  unmoved (f_stg f) (f_stg f1) → OndemandCh f1 = OndemandCh f → invalidProcesses f1 = invalidProcesses f →
  marked pid f (exec (setProcessInvalid pid) f1).
Proof. intros Hu Ho Hi. unfold marked. cbn. by rewrite Hi. Qed.
Lemma marked_lift {A} pid (r : result A) f e f' : or_invalid pid (lift r) f = (Err e, f') → marked pid f f'.
Proof. intros (f1 & [= _ <-] & ->)%or_invalid_Err. by apply marked_set. Qed.
(** The contract has another root, which blobs may still bring here. *)
Definition behind (pid : ProcessID) (f : finalizer) : Prop :=
  ∃ p g root, eval (Storage_Process pid) (f_stg f) = Ok p ∧ getStateRoot = Some g ∧ g pid = Ok root ∧
    root ≠ p_StateRoot p ∧ (shouldMarkMissingRootInvalid supportsBlobTxs pid).1 = false.
Lemma check_contract_root_Err pid p f e f' :
  eval (Storage_Process pid) (f_stg f) = Ok p → check_contract_root getStateRoot supportsBlobTxs pid p f = (Err e, f') →
  marked pid f f' ∨ (f' = f ∧ behind pid f).
Proof.
  unfold check_contract_root, behind. intros Hp. destruct getStateRoot as [g|]; [|done].
  intros [Hw|(root & f1 & [= Hg <-]%or_invalid_Ok%wrapping_Ok & Hc)]%bind_inv_Err.
  - left. destruct (g pid) as [root|e0] eqn:Hg.
    + by apply or_invalid_Err in Hw as (f1 & ? & _).
    + apply or_invalid_Err in Hw as (f1 & [= _ <-] & ->). by apply marked_set.
  - case_bool_decide as Hroot; [done|]. destruct (shouldMarkMissingRootInvalid _ pid).1 eqn:Hs; injection Hc as _ <-.
    + left. by apply (marked_set pid f f).
    + right. split; [done|]. by exists p, g, root.
Qed.
Lemma process_keys_Err pid f e f' : process_keys pid f = (Err e, f') → marked pid f f'.
Proof.
  intros (f1 & Hk & ->)%or_invalid_Err. assert (f1 = f) as ->; [|by apply marked_set].
  revert Hk. unfold wrapping, mbind, SE_bind. rewrite (on_stg_reads _ _ (reads_keys pid)).
  destruct (eval _ _) as [[pub [priv|]]|]; by intros [= _ <-].
Qed.
(** A finalization that fails changes nothing in the storage and asks for nothing; the
    process is remembered as invalid, except when it could not be read or when the contract
    has another root and blobs may still bring the state up to date. *)
Theorem finalize_fails_clean pid f e f' :
  finalize pid f = (Err e, f') →
  marked pid f f' ∨ (f' = f ∧ (eval (Storage_Process pid) (f_stg f) = Err e ∨ behind pid f)).
Proof.
  unfold Finalizer.finalize. intros [Hp|(p & f1 & Hp & Hf)]%bind_inv_Err; rewrite (on_stg_reads _ _ (reads_Process pid)) in Hp.
  { injection Hp as Hp <-. auto. }
  injection Hp as Hp <-. destruct (is_finalized p); [done|].
  apply bind_inv_Err in Hf as [Hf|(st & f1 & [= _ <-]%or_invalid_Ok & Hf)]; [left; by eapply marked_lift|].
  apply bind_inv_Err in Hf as [Hf|([] & f1 & [-> _]%check_contract_root_Ok & Hf)].
  { apply (check_contract_root_Err pid p) in Hf as [?|[? ?]]; auto. }
  apply bind_inv_Err in Hf as [Hf|([pub d] & f1 & [-> _]%process_keys_Ok & Hf)]; [left; by eapply process_keys_Err|].
  apply or_invalid_Err in Hf as (f1 & (Hu & Ho & Hi)%finalize_results_Err & ->). left. by apply marked_set.
Qed.

(** ** What is asked for *)

(** A process that can be finalized: it has no results, published or waiting, and its root is
    known here. *)
Definition wants (s : Storage) (pid : ProcessID) : Prop :=
  ∃ p, eval (Storage_Process pid) s = Ok p ∧ p_Result p = [] ∧ eval (HasVerifiedResults pid) s ≠ Ok true ∧
    RootExists pid (p_StateRoot p) = Ok ().
Lemma reads_ended : moves (=) ListEndedProcessWithEncryptionKeys.
Proof.
  assert (He : ∀ l, moves (=) (ended_only l)).
  { intros l. induction l as [|pid l IH]; cbn [ended_only]; unfold process;
      repeat first [exact IH|apply (moves_getArtifact _)|moves_step]. }
  assert (Hk : ∀ l, moves (=) (with_keys l)).
  { intros l. induction l as [|pid l IH]; cbn [with_keys]; unfold process, encryptionKeysUnsafe;
      repeat first [exact IH|apply (moves_getArtifact _)|moves_step]. }
  unfold ListEndedProcessWithEncryptionKeys, listProcessesWithEncryptionKeys.
  repeat first [apply He|apply Hk|apply (moves_listArtifacts _)|moves_step].
Qed.
(** The invalid processes of [f'] that [f] did not have are none of those that are wanted. *)
Definition scanned (f f' : finalizer) (new : list ProcessID) : Prop :=
  f_stg f' = f_stg f ∧ OndemandCh f' = OndemandCh f ++ new ∧ invalidProcesses f ⊆ invalidProcesses f' ∧
  (∀ x, x ∈ invalidProcesses f' → x ∈ invalidProcesses f ∨ ¬ wants (f_stg f) x).
Lemma finalize_ended_one_spec pid f :
  ∃ new, scanned f (exec (finalize_ended_one supportsBlobTxs pid) f) new ∧
    (∀ x, x ∈ new ↔ x = pid ∧ pid ∉ invalidProcesses f ∧ wants (f_stg f) pid).
Proof.
  unfold finalize_ended_one, exec, mbind, SE_bind, gets, attempt.
  assert (Hnone : ¬ (pid ∉ invalidProcesses f ∧ wants (f_stg f) pid) → ∃ new, scanned f f new ∧
    (∀ x, x ∈ new ↔ x = pid ∧ pid ∉ invalidProcesses f ∧ wants (f_stg f) pid)).
  { intros Hno. exists []. split; [split_and!; [done|by rewrite app_nil_r|done|auto]|]. set_solver. }
  case_bool_decide as Hinv; [apply Hnone; by intros [? _]|].
  rewrite (on_stg_reads _ _ (reads_Process pid)). 
  destruct (eval (Storage_Process pid) (f_stg f)) as [p|] eqn:Hp; [|apply Hnone; intros (_ & p & ? & _); congruence].
  case_bool_decide as Hres; [apply Hnone; intros (_ & p' & ? & ? & _); congruence|].
  rewrite (on_stg_reads _ _ (reads_has pid)). case_bool_decide as Hhas; [apply Hnone; intros (_ & p' & _ & _ & ? & _); congruence|].
  destruct (RootExists pid (p_StateRoot p)) as [[]|e] eqn:Hroot.
  - exists [pid]. split; [by split_and!; auto|]. intros x. rewrite list_elem_of_singleton. split; [|by intros [-> _]].
    intros ->. split_and!; [done..|]. by exists p.
  - assert (Hno : ¬ wants (f_stg f) pid) by (intros (p' & Hp' & _ & _ & Hr); congruence).
    destruct (shouldMarkMissingRootInvalid _ pid).1; [|apply Hnone; by intros [_ ?]].
    exists []. split; [split_and!; [done|by rewrite app_nil_r|cbn; set_solver|]|].
    + intros x [->%elem_of_singleton|]%elem_of_union; auto.
    + intros x. rewrite elem_of_nil. split; [done|]. by intros (_ & _ & ?).
Qed.
Lemma finalize_ended_list l f :
  ∃ new, scanned f (exec (forM_ (finalize_ended_one supportsBlobTxs) l) f) new ∧
    (∀ x, x ∈ new ↔ x ∈ l ∧ x ∉ invalidProcesses f ∧ wants (f_stg f) x).
Proof.
  revert f. induction l as [|pid l IH]; intros f.
  { exists []. split; [split_and!; [done|by rewrite app_nil_r|done|auto]|]. set_solver. }
  destruct (finalize_ended_one_spec pid f) as (new1 & (Hs1 & Ho1 & Hi1 & Hx1) & Hn1).
  assert (Hrun : exec (forM_ (finalize_ended_one supportsBlobTxs) (pid :: l)) f =
    exec (forM_ (finalize_ended_one supportsBlobTxs) l) (exec (finalize_ended_one supportsBlobTxs pid) f)).
  { cbn [forM_]. unfold exec, mbind, SE_bind. destruct (finalize_ended_one supportsBlobTxs pid f) as [[u|e] f1] eqn:E; [done|].
    exfalso. revert E. unfold finalize_ended_one, mbind, SE_bind, gets, attempt. case_bool_decide; [done|].
    rewrite (on_stg_reads _ _ (reads_Process pid)). destruct (eval _ _) as [p|]; [|done]. case_bool_decide; [done|].
    rewrite (on_stg_reads _ _ (reads_has pid)). case_bool_decide; [done|]. destruct (RootExists _ _); [done|].
    by destruct (shouldMarkMissingRootInvalid _ pid).1. }
  destruct (IH (exec (finalize_ended_one supportsBlobTxs pid) f)) as (new2 & (Hs2 & Ho2 & Hi2 & Hx2) & Hn2).
  rewrite Hrun. exists (new1 ++ new2). rewrite Hs1 in *. split.
  - split_and!; [congruence|by rewrite Ho2, Ho1, app_assoc|set_solver|]. intros x [Hx|]%Hx2; auto.
  - intros x. rewrite elem_of_app, elem_of_cons, Hn1, Hn2. split.
    + intros [(-> & ? & ?)|(? & Hni & ?)]; [auto|]. split_and!; auto.
    + intros ([->|Hl] & Hni & Hw); [auto|]. destruct (decide (x = pid)) as [->|Hne]; [auto|]. right. split_and!; [done| |done].
      intros [?|?]%Hx1; auto.
Qed.
(** The periodic scan asks for exactly the ended processes with keys that are not
    remembered as invalid and can be finalized, and it leaves the storage as it is. *)
Theorem finalizeEnded_requests f l :
  eval ListEndedProcessWithEncryptionKeys (f_stg f) = Ok l →
  ∃ new, let f' := exec (finalizeEnded supportsBlobTxs) f in
    f_stg f' = f_stg f ∧ OndemandCh f' = OndemandCh f ++ new ∧ invalidProcesses f ⊆ invalidProcesses f' ∧
    (∀ pid, pid ∈ new ↔ pid ∈ l ∧ pid ∉ invalidProcesses f ∧ wants (f_stg f) pid).
Proof.
  intros Hl. destruct (finalize_ended_list l f) as (new & (Hs & Ho & Hi & _) & Hn). exists new.
  unfold finalizeEnded, exec, mbind, SE_bind, attempt. rewrite (on_stg_reads _ _ reads_ended), Hl. by split_and!.
Qed.
End facts.

(** ** A process with one vote *)

Module OneVote.
Import ConcreteState.
#[local] Existing Instance Concrete.env_mem.
Definition root1 : Z := MapTree.root (s_tree voted).
Definition ended1 : Process :=
  {| p_ID := Some Concrete.pid1; p_Status := ProcessStatusEnded; p_EncryptionKey := Some (coords key7);
     p_StateRoot := Some root1; p_Result := []; p_StartTime := 0; p_Duration := 1000 * second;
     p_BallotMode := Build_BallotMode 8 8 false 1 20 0 1280 0; p_Census := None; p_VotersCount := Some 1;
     p_OverwrittenVotesCount := None; p_MaxVoters := Some 10;
     p_SequencerStats := zeroSequencerStats; p_RegisteredForSequencing := true; p_Payload := [] |}.
Definition stg1 : Storage :=
  exec (setArtifact processPrefix (Some (pid_bytes Concrete.pid1)) ended1;;
        setEncryptionKeysUnsafe (coords key7) (Some 7)) (MkStorage ∅ ∅ ∅ ∅ 0 []).
Definition final1 : finalizer := {| f_stg := stg1; invalidProcesses := ∅; OndemandCh := [] |}.
Definition contract (root : Z) : option (ProcessID → result (option Z)) := Some (λ _, Ok (Some root)).
Definition leaf_hash1 (k v : Z) : result Z := Ok (k + v).
Definition run_finalize (root : Z) : SE finalizer () :=
  finalize (contract root) (Some (λ _, Ok true)) leaf_hash1 (λ i, Z.of_nat i + 5) (λ _, Ok []) Concrete.pid1.
Lemma is_Ok_exec {T} (m : SE T ()) s : is_Ok (m s).1 = true → m s = (Ok (), exec m s).
Proof. unfold exec. by destruct (m s) as [[[]|] ?]. Qed.
Lemma stored1 : eval (Storage_Process Concrete.pid1) stg1 = Ok ended1.
Proof. by vm_compute. Qed.
Lemma maxPossibleResult_spec_witness : maxPossibleResult (Some ended1) = 20.
Proof. apply (maxPossibleResult_spec ended1 1 eq_refl); by vm_compute. Defined.
(** The sums are those of the vote, and the results that wait are these. *)
Lemma finalize_publishes_tally_witness :
  ∃ vr, run (PushVerifiedResults vr) stg1 = (Ok (), f_stg (exec (run_finalize root1) final1)) ∧
    rv_Results (vr_Inputs vr) = Some <$> field_sums (s_tree voted : gmap Z (list Z)) (λ _, seqZ 3 8).
Proof.
  assert (Hmax : maxPossibleResult (Some ended1) < Order) by (vm_compute; reflexivity).
  assert (Hrun : is_Ok (run_finalize root1 final1).1 = true) by (vm_compute; reflexivity).
  destruct (finalize_publishes_tally (contract root1) (Some (λ _, Ok true)) leaf_hash1 (λ i, Z.of_nat i + 5) (λ _, Ok [])
    Concrete.pid1 final1 _ ended1 Hmax ltac:(by vm_compute) (is_Ok_exec _ _ Hrun) stored1 eq_refl)
    as (st & root & pub & d & vr & Hst & Hroot & Hp & _ & Hkeys & _ & _ & Hpush & Hvotes).
  exists vr. split; [exact Hpush|].
  assert (Hd : d = 7).
  { assert (He : eval (ProcessEncryptionKeys Concrete.pid1) stg1 = Ok (coords key7, Some 7)) by (vm_compute; reflexivity).
    change (f_stg final1) with stg1 in Hkeys. rewrite He in Hkeys. by injection Hkeys as _ ->. }
  assert (Htree : s_tree st = s_tree voted).
  { assert (Hl : LoadSnapshotOnRoot None Concrete.pid1 (Some root1) =
      Ok {| s_tree := s_tree voted; s_processID := Concrete.pid1; s_fault := None |}).
    { unfold LoadSnapshotOnRoot. change (openTreeForRootCheck Concrete.pid1 (Some root1)) with (Ok ((∅ : gmap Z (list Z)), root1) : result (tree * Z)).
      cbn [t_RootExists t_Snapshot MapTree.arbo]. unfold MapTree.exists_root, root1. by rewrite MapTree.of_root_root. }
    change (default Concrete.pid1 (p_ID ended1)) with Concrete.pid1 in Hst. change (p_StateRoot ended1) with (Some root1) in Hst.
    rewrite Hl in Hst. by injection Hst as <-. }
  rewrite Htree, Hd in Hvotes. apply Hvotes.
  - vm_compute. reflexivity.
  - assert (Hall : map_Forall (λ k v, (if in_ballot_range k then bool_decide (plains 7 (leaf_ballot v) = ScalarBaseMult <$> seqZ 3 8) else true) = true)
      (s_tree voted : gmap Z (list Z))).
    { apply (bool_decide_unpack _). vm_compute. exact I. }
    intros k v Hk Hr. specialize (Hall k v Hk). cbv beta in Hall. rewrite Hr in Hall. by apply bool_decide_eq_true in Hall.
  - apply (bool_decide_unpack _). vm_compute. exact I.
Defined.
(** The contract has another root: the request fails, and may be repeated. *)
Lemma finalize_fails_clean_witness :
  is_Ok (run_finalize (root1 + 1) final1).1 = false ∧ unmoved stg1 (f_stg (exec (run_finalize (root1 + 1)) final1)).
Proof.
  assert (Hrun : is_Ok (run_finalize (root1 + 1) final1).1 = false) by (vm_compute; reflexivity).
  assert (Hf : ∃ e, run_finalize (root1 + 1) final1 = (Err e, exec (run_finalize (root1 + 1)) final1)).
  { unfold exec. destruct (run_finalize (root1 + 1) final1) as [[u|e] f']; [discriminate Hrun|]. exists e. reflexivity. }
  split; [exact Hrun|]. destruct Hf as [e E]. generalize dependent (exec (run_finalize (root1 + 1)) final1). intros f' E.
  unfold run_finalize in E. destruct (finalize_fails_clean _ _ _ _ _ _ _ _ _ E) as [[Hu _]|[Hf _]]; [exact Hu|].
  rewrite Hf. exact (conj eq_refl (conj eq_refl eq_refl)).
Defined.
Lemma finalizeEnded_requests_witness :
  ∃ new, OndemandCh (exec (finalizeEnded (Some (λ _, Ok true))) final1) = new ∧ Concrete.pid1 ∈ new.
Proof.
  assert (Hl : eval ListEndedProcessWithEncryptionKeys stg1 = Ok [Concrete.pid1]) by (vm_compute; reflexivity).
  destruct (finalizeEnded_requests (Some (λ _, Ok true)) final1 [Concrete.pid1] Hl) as (new & _ & Ho & _ & Hn).
  assert (Hhas : eval (HasVerifiedResults Concrete.pid1) stg1 = Ok false) by (vm_compute; reflexivity).
  exists new. split; [exact Ho|]. apply Hn. split; [apply list_elem_of_singleton; reflexivity|]. split; [apply not_elem_of_empty|].
  exists ended1. split; [exact stored1|]. split; [reflexivity|]. change (f_stg final1) with stg1.
  split; [rewrite Hhas; intros Heq; discriminate Heq|].
  unfold RootExists. change (openTreeForRootCheck Concrete.pid1 (p_StateRoot ended1)) with (Ok ((∅ : gmap Z (list Z)), root1) : result (tree * Z)).
  cbn [t_RootExists MapTree.arbo]. unfold MapTree.exists_root, root1. by rewrite MapTree.of_root_root.
Defined.
End OneVote.
