(* ===== verification/ResultsCircuit.v ===== *)
(** * The circuit of the results

    [src/circuits/results/results.go]: the contract accepts the results of a process with a
    proof that they decrypt what the state has under its results key. With the circuit of
    the state transition, which keeps the tally under that key, accepted results are
    the sums of the votes. *)

From S2P Require Import Prelude Bytes Spec Types Curve ElGamal Gnark TransitionCircuit CircuitSound StateVote StateTree StateBatch Tally CircuitExample Finalizer.

(** gnark-crypto-primitives' proof of decryption in the circuit, and the commitment of gnark. *)
Class ResultsGadgets `{Field} `{Curve} := {
  elgamal_DecryptionProof : Type;
  DecryptionProof_Verify : elgamal_DecryptionProof → point → Cipher → F → bool;
  Commit : list F → F }.

Section results.
Context `{Field} `{Curve} `{!Gadgets} `{!ResultsGadgets}.

(** [src/circuits/results/results.go:23-31] ResultsVerifierCircuit *)
Record ResultsVerifierCircuit := {
  rc_StateRoot : F; rc_Results : nat → F; rc_EncryptedResults : Ballot; rc_ResultsMerkleProof : MerkleProof;
  rc_DecryptionProofs : nat → elgamal_DecryptionProof; rc_EncryptionKeyMerkleProof : MerkleProof; rc_EncryptionPublicKey : F * F }.
Implicit Types c : ResultsVerifierCircuit.
(** [src/circuits/types.go:38-40] EncryptionKey.Serialize *)
Definition EncryptionKey_Serialize (k : F * F) : list F := [k.1; k.2].
(** [src/circuits/results/results.go:45-57] *)
Definition forceCommitment c : bool := negb (api_AssertIsEqual (Commit (EncryptionKey_Serialize (rc_EncryptionPublicKey c))) zero).
(** [src/circuits/results/results.go:59-64] *)
Definition VerifyMerkleProofs c : bool :=
  MerkleProof_Verify (rc_ResultsMerkleProof c) (rc_StateRoot c) && MerkleProof_Verify (rc_EncryptionKeyMerkleProof c) (rc_StateRoot c).
(** [src/circuits/results/results.go:66-78] *)
Definition VerifyMerkleProofLeaves c : bool :=
  api_AssertIsEqual (mp_Key (rc_ResultsMerkleProof c)) (F_of StateKeyResults) &&
  api_AssertIsEqual (mp_Key (rc_EncryptionKeyMerkleProof c)) (F_of StateKeyEncryptionKey) &&
  VerifyLeafHash (rc_EncryptionKeyMerkleProof c) (EncryptionKey_Serialize (rc_EncryptionPublicKey c)) &&
  VerifyLeafHash (rc_ResultsMerkleProof c) (SerializeVars (rc_EncryptedResults c)).
(** The fields of a ballot. *)
Definition fields : list nat := seq 0 FieldsPerBallot.
(** [src/circuits/results/results.go:80-92] *)
Definition VerifyDecryptionProofs c : bool :=
  let pubKey := SetPoint (F_to (rc_EncryptionPublicKey c).1, F_to (rc_EncryptionPublicKey c).2) in
  forallb (λ i, match rc_EncryptedResults c !! i with
                | Some ct => DecryptionProof_Verify (rc_DecryptionProofs c i) pubKey ct (rc_Results c i)
                | None => false
                end) fields.
(** [src/circuits/results/results.go:94-101] *)
Definition ConstrainResultsRange c : bool :=
  let bjjOrderMinusOne := Order - 1 in
  forallb (λ i, api_AssertIsLessOrEqual (rc_Results c i) (F_of bjjOrderMinusOne)) fields.
(** [src/circuits/results/results.go:33-43] ResultsVerifierCircuit.Define *)
Definition ResultsCircuit_Define c : bool :=
  forceCommitment c && VerifyMerkleProofs c && VerifyMerkleProofLeaves c && VerifyDecryptionProofs c && ConstrainResultsRange c.
End results.

(** ** What the proof shows *)

Section sound.
Context `{HF : Field} `{HCu : Curve} `{HG : !Gadgets} `{HR : !ResultsGadgets} `{HS : !SMT}.
(** A proof of inclusion is right about the tree; a proof of decryption shows that the message is the plaintext
    under the private key of the public key. *)
Class ResultsSound := {
  Verifier_included m root s k l : smt_tree m root → smt_VerifierWithLeafHash root s k l = true → m !! k = Some l ∨ collision;
  DecryptionProof_sound p pub ct m : DecryptionProof_Verify p pub ct m = true →
    ∃ d, pub = ScalarBaseMult d ∧ plain d ct = ScalarBaseMult (F_to m) }.
Context `{!ResultsSound}.
Hypothesis coords_range : ∀ p, 0 ≤ (coords p).1 < modulus ∧ 0 ≤ (coords p).2 < modulus.
Hypothesis Order_le : Order ≤ modulus.
Implicit Types c : ResultsVerifierCircuit.

(** A leaf that is opened under a key of the state has the values of the state. *)
Lemma opened C root mp k v l :
  state_root C root → MerkleProof_Verify mp root = true → mp_Key mp = F_of k → 0 ≤ k < modulus → C !! k = Some v →
  VerifyLeafHash mp l = true → length v ≠ 1%nat → length l ≠ 1%nat → (F_of <$> v = l ∧ Forall canonical v) ∨ collision.
Proof.
  intros (m & Hm & Hs) [Hroot Hv]%andb_prop Hk Hrange HC Hl Hlv Hll. apply bool_decide_eq_true in Hroot. rewrite <-Hroot in Hv.
  destruct (Verifier_included _ _ _ _ _ Hm Hv) as [Hin|]; [|by right].
  destruct (st_leaf _ _ Hs _ _ Hin) as (w & Hw & Hcan & Hleaf). rewrite Hk, F_to_small, HC in Hw by done. injection Hw as <-.
  unfold VerifyLeafHash in Hl. destruct (encodeLeafValue l) as [e|] eqn:Ee; [|done]. apply bool_decide_eq_true in Hl.
  destruct (leaf_hash_eq _ _ _ _ _ Hleaf Hlv Hll Ee Hl) as [|]; [by left|by right].
Qed.
Lemma key_small k : 0 ≤ k < 60 → 0 ≤ k < modulus.
Proof. pose proof modulus_gt1. lia. Qed.
(** The two leaves, by the shape of the circuit. *)
Lemma results_Define_parts c : ResultsCircuit_Define c = true →
  (MerkleProof_Verify (rc_ResultsMerkleProof c) (rc_StateRoot c) = true ∧ mp_Key (rc_ResultsMerkleProof c) = F_of StateKeyResults ∧
   VerifyLeafHash (rc_ResultsMerkleProof c) (SerializeVars (rc_EncryptedResults c)) = true) ∧
  (MerkleProof_Verify (rc_EncryptionKeyMerkleProof c) (rc_StateRoot c) = true ∧
   mp_Key (rc_EncryptionKeyMerkleProof c) = F_of StateKeyEncryptionKey ∧
   VerifyLeafHash (rc_EncryptionKeyMerkleProof c) [(rc_EncryptionPublicKey c).1; (rc_EncryptionPublicKey c).2] = true) ∧
  VerifyDecryptionProofs c = true ∧ ConstrainResultsRange c = true.
Proof.
  intros [[[[_ [Hm1 Hm2]%andb_prop]%andb_prop [[[Hk1 Hk2]%andb_prop Hl2]%andb_prop Hl1]%andb_prop]%andb_prop Hd]%andb_prop Hr]%andb_prop.
  apply bool_decide_eq_true in Hk1, Hk2. done.
Qed.
Lemma results_opened c C : Ballot_wf (rc_EncryptedResults c) → ResultsCircuit_Define c = true → state_root C (rc_StateRoot c) →
  C !! StateKeyResults = Some (BigInts (tally C)) → rc_EncryptedResults c = tally C ∨ collision.
Proof.
  intros Hwf (Hres & _)%results_Define_parts HC Ht. destruct Hres as (Hm & Hk & Hl).
  assert (Hlen : ∀ z, Ballot_wf z → length (BigInts z) ≠ 1%nat) by (intros z Hz; rewrite length_BigInts, Hz; done).
  destruct (opened C _ _ _ _ _ HC Hm Hk (key_small StateKeyResults ltac:(unfold StateKeyResults; lia)) Ht Hl) as [[Heq _]|]; [..|by right].
  - apply Hlen, tally_wf.
  - rewrite SerializeVars_BigInts, length_fmap. by apply Hlen.
  - left. rewrite SerializeVars_BigInts in Heq. apply BigInts_inj; [done|apply tally_wf|]. symmetry.
    apply F_of_list_inj; [by apply BigInts_canonical..|done].
Qed.
Lemma key_opened c C x y : ResultsCircuit_Define c = true → state_root C (rc_StateRoot c) →
  C !! StateKeyEncryptionKey = Some [x; y] → (F_to (rc_EncryptionPublicKey c).1, F_to (rc_EncryptionPublicKey c).2) = (x, y) ∨ collision.
Proof.
  intros (_ & (Hm & Hk & Hl) & _)%results_Define_parts HC Hkey.
  destruct (opened C _ _ _ _ _ HC Hm Hk (key_small StateKeyEncryptionKey ltac:(unfold StateKeyEncryptionKey; lia)) Hkey Hl) as [[Heq Hcan]|]; [done..| |by right].
  left. apply Forall_cons in Hcan as [Hx [Hy _]%Forall_cons]. injection Heq as <- <-. by rewrite !F_to_small.
Qed.

End sound.

(** ** The results of a state with one ballot *)

Module Example4.
Import SmallField Example2.
#[export] Instance results_gadgets : ResultsGadgets := {|
  elgamal_DecryptionProof := Z;
  DecryptionProof_Verify d pub ct m := bool_decide (pub = ScalarBaseMult d) && bool_decide (plain d ct = ScalarBaseMult (F_to m));
  Commit _ := one |}.
#[export] Instance results_sound : ResultsSound (HG := gadgets2) (HS := smt2).
Proof.
  split.
  - intros m root s k l Hm Hv. left. unfold smt_VerifierWithLeafHash, gadgets2, gadgets in Hv. unfold smt_tree, smt2, smt, versions in Hm. rewrite Hm in Hv. by apply bool_decide_eq_true in Hv.
  - intros d pub ct m [Hp Hm]%andb_prop. apply bool_decide_eq_true in Hp, Hm. by exists d.
Qed.
Definition votes1 (_ : Z) : list Z := seqZ 3 8.
Definition results1 : ResultsVerifierCircuit := {|
  rc_StateRoot := F_of 0; rc_Results i := F_of (3 + Z.of_nat i); rc_EncryptedResults := Ballot_Add stored NewBallot;
  rc_ResultsMerkleProof := included StateKeyResults (BigInts (Ballot_Add stored NewBallot)); rc_DecryptionProofs _ := 7;
  rc_EncryptionKeyMerkleProof := included 3 [7; 1]; rc_EncryptionPublicKey := (F_of 7, F_of 1) |}.
End Example4.
