(* ===== verification/SequencerBase.v ===== *)
(** * The sequencer: its state and the processes it serves

    [src/sequencer/sequencer.go], [processidmap.go]: the registered processes, in memory
    and in the storage, and how a process is registered when it is ready and dropped
    when it is not. The contracts are a parameter; the clock is that of the storage.
    The maps are guarded by locks, so each operation is one step. *)

From S2P Require Import Prelude Bytes DB Spec Types StorageTypes StorageBase Process VoteStatus Stats Ballots.

(** ** The map of process identifiers *)

Module ProcessIDMap.
(** [src/sequencer/processidmap.go:13-17] ProcessIDMap *)
Record t := { data : gmap ProcessID Time; firstBallotTimes : gmap ProcessID Time }.
(** [src/sequencer/processidmap.go:20-25] *)
Definition NewProcessIDMap : t := {| data := ∅; firstBallotTimes := ∅ |}.
(** [src/sequencer/processidmap.go:30-47] ProcessIDMap.Add *)
Definition Add (now : Time) (pid : ProcessID) (p : t) : bool * t :=
  if negb (pid_IsValid pid) then (false, p)
  else match data p !! pid with
       | Some _ => (false, p)
       | None => (true, {| data := <[pid := now]> (data p); firstBallotTimes := firstBallotTimes p |})
       end.
(** [src/sequencer/processidmap.go:52-62] ProcessIDMap.Remove *)
Definition Remove (pid : ProcessID) (p : t) : bool * t :=
  if negb (pid_IsValid pid) then (false, p)
  else (true, {| data := delete pid (data p); firstBallotTimes := firstBallotTimes p |}).
(** [src/sequencer/processidmap.go:72-82] ProcessIDMap.Get *)
Definition Get (pid : ProcessID) (p : t) : option Time := if negb (pid_IsValid pid) then None else data p !! pid.
(** [src/sequencer/processidmap.go:65-68] ProcessIDMap.Exists *)
Definition Exists (pid : ProcessID) (p : t) : bool := bool_decide (is_Some (Get pid p)).
(** [src/sequencer/processidmap.go:111-120] ProcessIDMap.List, in any order *)
Definition List (p : t) : list ProcessID := (map_to_list (data p)).*1.
(** [src/sequencer/processidmap.go:123-128] ProcessIDMap.Len *)
Definition Len (p : t) : nat := size (data p).
(** [src/sequencer/processidmap.go:132-144] ProcessIDMap.SetFirstBallotTime *)
Definition SetFirstBallotTime (now : Time) (pid : ProcessID) (p : t) : t :=
  if negb (pid_IsValid pid) then p
  else match firstBallotTimes p !! pid with
       | Some _ => p
       | None => {| data := data p; firstBallotTimes := <[pid := now]> (firstBallotTimes p) |}
       end.
(** [src/sequencer/processidmap.go:148-158] ProcessIDMap.GetFirstBallotTime *)
Definition GetFirstBallotTime (pid : ProcessID) (p : t) : option Time :=
  if negb (pid_IsValid pid) then None else firstBallotTimes p !! pid.
(** [src/sequencer/processidmap.go:162-171] ProcessIDMap.ClearFirstBallotTime *)
Definition ClearFirstBallotTime (pid : ProcessID) (p : t) : t :=
  if negb (pid_IsValid pid) then p
  else {| data := data p; firstBallotTimes := delete pid (firstBallotTimes p) |}.
End ProcessIDMap.

(** ** The contracts *)

(** [src/web3/runtime.go:23-26] ProcessContractsResolver, and the calls of the contracts of a
    process that the sequencer makes. An upload is one of several attempts. *)
Class Web3 := {
  Contracts : Type;
  SupportsProcess : ProcessID → bool;
  ContractsForProcess : ProcessID → result (option Contracts);
  Contracts_StateRoot : Contracts → ProcessID → result (option Z);
  SupportBlobTxs : Contracts → bool;
  Contracts_ChainID : Contracts → Z;
  SetProcessResults : Contracts → ProcessID → bytes → bytes → nat → result ();
  SetProcessTransition : Contracts → ProcessID → bytes → bytes → option bytes → result () }.

(** [src/sequencer/sequencer.go:35-54] Sequencer *)
Record Sequencer := { q_stg : Storage; q_ids : ProcessIDMap.t }.

Section sequencer.
Context `{Env : StorageEnv} `{Web3}.

Definition on_stg {A} (m : M A) : SE Sequencer A := λ q,
  let '(r, s) := m (q_stg q) in (r, {| q_stg := s; q_ids := q_ids q |}).
Definition on_ids {A} (f : Time → ProcessIDMap.t → A * ProcessIDMap.t) : SE Sequencer A := λ q,
  let '(a, ids) := f (now (q_stg q)) (q_ids q) in (Ok a, {| q_stg := q_stg q; q_ids := ids |}).

(** [src/sequencer/sequencer.go:97-110] *)
Definition resolveContractsForProcess (pid : ProcessID) : result Contracts :=
  match ContractsForProcess pid with
  | Err e => Err (Wrap "resolve contracts for process" e)
  | Ok None => Err (ErrMsg "nil contracts")
  | Ok (Some c) => Ok c
  end.
(** [src/sequencer/sequencer.go:112-123] *)
Definition stateRootGetter (pid : ProcessID) : result (option Z) :=
  match resolveContractsForProcess pid with Err e => Err e | Ok c => Contracts_StateRoot c pid end.
(** [src/sequencer/sequencer.go:125-136] *)
Definition blobSupportGetter (pid : ProcessID) : result bool :=
  match resolveContractsForProcess pid with Err e => Err e | Ok c => Ok (SupportBlobTxs c) end.
(** [src/sequencer/sequencer.go:138-140] *)
Definition contractsForProcess (pid : ProcessID) : result Contracts := resolveContractsForProcess pid.

(** [src/sequencer/sequencer.go:326-328] *)
Definition ExistsProcessID (pid : ProcessID) : SE Sequencer bool := on_ids (λ _ ids, (ProcessIDMap.Exists pid ids, ids)).
Definition set_p_Registered (b : bool) (p : Process) : result Process :=
  Ok {| p_ID := p_ID p; p_Status := p_Status p; p_EncryptionKey := p_EncryptionKey p;
        p_StateRoot := p_StateRoot p; p_Result := p_Result p; p_StartTime := p_StartTime p;
        p_Duration := p_Duration p; p_BallotMode := p_BallotMode p; p_Census := p_Census p;
        p_VotersCount := p_VotersCount p; p_OverwrittenVotesCount := p_OverwrittenVotesCount p;
        p_MaxVoters := p_MaxVoters p; p_SequencerStats := p_SequencerStats p;
        p_RegisteredForSequencing := b; p_Payload := p_Payload p |}.
(** The flag in the storage, if the process is there; whether that worked. *)
Definition persist_registered (pid : ProcessID) (b : bool) : SE Sequencer bool :=
  stored ← attempt (on_stg (processExists pid));
  match stored with
  | Ok true => r ← attempt (on_stg (UpdateProcess pid [set_p_Registered b])); mret (is_Ok r)
  | _ => mret true
  end.
(** [src/sequencer/sequencer.go:277-298] *)
Definition AddProcessID (pid : ProcessID) : SE Sequencer () :=
  known ← ExistsProcessID pid;
  if (known : bool) then mret ()
  else
    persisted ← persist_registered pid true;
    if negb persisted then mret ()
    else _ ← on_ids (λ now, ProcessIDMap.Add now pid); mret ().
(** [src/sequencer/sequencer.go:302-323] *)
Definition DelProcessID (pid : ProcessID) : SE Sequencer () :=
  known ← ExistsProcessID pid;
  if negb known then mret ()
  else
    persisted ← persist_registered pid false;
    if negb persisted then mret ()
    else _ ← on_ids (λ _, ProcessIDMap.Remove pid); mret ().
(** [src/sequencer/sequencer.go:332-334] *)
Definition ActiveProcessIDs (q : Sequencer) : list ProcessID := ProcessIDMap.List (q_ids q).
(** [src/sequencer/sequencer.go:30-30] *)
Definition ParticipateInAllProcesses : bool := true.
(** [src/sequencer/sequencer.go:258-271] one process of the list, in checkAndRegisterProcesses *)
Definition check_process (pid : ProcessID) : SE Sequencer () :=
  r ← attempt (on_stg (Storage_Process pid));
  match r with
  | Err _ => mret ()
  | Ok proc =>
      known ← ExistsProcessID pid;
      if known && bool_decide (p_Status proc ≠ ProcessStatusReady) then DelProcessID pid
      else if ParticipateInAllProcesses && negb known && bool_decide (p_Status proc = ProcessStatusReady) then AddProcessID pid
      else mret ()
  end.
(** [src/sequencer/sequencer.go:251-272] *)
Definition checkAndRegisterProcesses : SE Sequencer () :=
  r ← attempt (on_stg ListProcesses);
  match r with Err _ => mret () | Ok pids => forM_ check_process pids end.
(** The callbacks of ForEach, for the processes of the map in the order that Go picks; each
    says whether to go on. *)
Fixpoint for_each (f : ProcessID → Time → SE Sequencer bool) (items : list (ProcessID * Time)) : SE Sequencer () :=
  match items with
  | [] => mret ()
  | (pid, t) :: items => continue ← f pid t; if (continue : bool) then for_each f items else mret ()
  end.
(** [src/sequencer/processidmap.go:87-108] ProcessIDMap.ForEach: over a copy of the map *)
Definition ForEach (f : ProcessID → Time → SE Sequencer bool) : SE Sequencer () :=
  items ← on_ids (λ _ ids, (map_to_list (ProcessIDMap.data ids), ids)); for_each f items.
End sequencer.
