(* ===== verification/SequencerBallots.v ===== *)
(** * The sequencer: the pending ballots

    [src/sequencer/ballot.go]: the loop that takes the pending ballots one by one,
    proves them and moves them to the verified queue, or drops them. The prover and the
    decoding of public keys are parameters. The loop runs until the queue has nothing
    to hand out, so it carries fuel; that it ends is a theorem. *)

From S2P Require Import Prelude Bytes DB Spec Types StorageTypes StorageBase Process VoteStatus Stats Ballots Voters SequencerBase.

(** [src/crypto/ecc/curves/curves.go:33-40] Curves *)
Definition Curves : list string := ["bjj_gnark"; "bn254"; "bjj_iden3"; "bls12377_te"]%string.
(** [src/crypto/ecc/curves/curves.go:42-44] IsValid *)
Definition curves_IsValid (curveType : string) : bool := bool_decide (curveType ∈ Curves).
(** [src/crypto/elgamal/ballot.go:40-47] Ballot.Valid: a decoded ciphertext has its points *)
Definition EncryptedBallot_Valid (z : EncryptedBallot) : bool := curves_IsValid (CurveType z).
(** [src/storage/types.go:95-112] Ballot.Valid: a decoded signature has its two scalars *)
Definition Ballot_Valid (b : Ballot) : bool :=
  if negb (pid_IsValid (b_ProcessID b)) || bool_decide (b_VoterWeight b = None) || bool_decide (b_Address b = None) ||
     bool_decide (b_BallotInputsHash b = None) || bool_decide (b_Signature b = None) || bool_decide (b_PubKey b = None)
  then false
  else match b_EncryptedBallot b with
       | None => false
       | Some e => EncryptedBallot_Valid e
       end.

Section ballots.
Context `{Env : StorageEnv} `{Web3}.
(** go-ethereum's decoding of a public key. *)
Context (UnmarshalPubkey : option bytes → result ()).
(** gnark's prover, with the verification of its proof: the opaque fields of the
    verified ballot, which are the new proof and the census proof of the ballot. *)
Context (ProveVote : Ballot → result bytes).

(** [src/sequencer/ballot.go:136-213] *)
Definition processBallot (b : Ballot) : SE Sequencer VerifiedBallot :=
  if negb (Ballot_Valid b) then raise (ErrMsg "invalid ballot structure")
  else
    isAcceptingVotes ← wrapping "failed to check if process is accepting votes"
                         (on_stg (ProcessIsAcceptingVotes (b_ProcessID b)));
    if negb isAcceptingVotes then raise (ErrMsg "process is not accepting votes")
    else
      _ ← wrapping "failed to decompress voter public key" (lift (UnmarshalPubkey (b_PubKey b)));
      proof ← wrapping "failed to generate proof" (lift (ProveVote b));
      mret {| vb_VoteID := b_VoteID b; vb_ProcessID := b_ProcessID b; vb_VoterWeight := b_VoterWeight b;
              vb_EncryptedBallot := b_EncryptedBallot b; vb_Address := b_Address b;
              vb_InputsHash := b_BallotInputsHash b; vb_Proofs := proof |}.
(** [src/sequencer/ballot.go:78-121] the ballot [b] under [key], in processAvailableBallots; whether it was
    verified *)
Definition process_available (b : Ballot) (key : uint64) : SE Sequencer bool :=
  if negb (SupportsProcess (b_ProcessID b)) then
    _ ← warn (on_stg (RemovePendingBallotsByProcess (b_ProcessID b))); mret false
  else
    registered ← ExistsProcessID (b_ProcessID b);
    if negb registered then mret false
    else
      r ← attempt (processBallot b);
      match r with
      | Err _ => _ ← warn (on_stg (RemovePendingBallot (b_ProcessID b) key)); mret false
      | Ok verifiedBallot =>
          m ← attempt (on_stg (MarkBallotVerified key (Some verifiedBallot)));
          mret (is_Ok m)
      end.
(** [src/sequencer/ballot.go:65-123] the loop of processAvailableBallots; [None] when the fuel is spent *)
Fixpoint process_ballots (fuel : nat) (processed : bool) : SE Sequencer (option bool) :=
  match fuel with
  | O => mret None
  | S fuel =>
      next ← attempt (on_stg NextPendingBallot);
      match next with
      | Err _ => mret (Some processed)
      | Ok (b, key) => verified ← process_available b key; process_ballots fuel (processed || verified)
      end
  end.
(** [src/sequencer/ballot.go:65-123] *)
Definition processAvailableBallots (fuel : nat) : SE Sequencer (option bool) := process_ballots fuel false.
End ballots.

(** ** What the loop does to the queue *)

Section shrinking.
Context `{Env : StorageEnv}.

(** The ballots that wait and that nobody has reserved. *)
Definition unreserved (d : kv) : list (bytes * bytes) :=
  List.filter (λ kv, negb (isReserved d ballotPrefix kv.1)) (prefixed_Iterate bk ballotPrefix [] d).
Lemma CountPendingBallots_unreserved s : CountPendingBallots s = (Ok (length (unreserved (db s))), s).
Proof. done. Qed.
Lemma elem_of_unreserved d k w : pending_wf d →
  (k, w) ∈ unreserved d ↔ d !! (ballotPrefix ++ k) = Some w ∧ isReserved d ballotPrefix k = false.
Proof.
  intros Hwf. unfold unreserved. rewrite list_elem_of_In, filter_In, <-list_elem_of_In, elem_of_pending by done.
  cbn [fst]. by rewrite negb_true_iff.
Qed.
Lemma NoDup_unreserved d : pending_wf d → NoDup (unreserved d).
Proof.
  intros Hwf. apply NoDup_ListNoDup, List.NoDup_filter, NoDup_ListNoDup.
  apply (NoDup_fmap_1 fst), NoDup_local. by apply pending_local.
Qed.

(** No failing commit shows up, ballots only leave the queue, and those that stay are
    reserved when they were. *)
Definition shrinks (s s' : Storage) : Prop := quiet s → quiet s' ∧ ∀ k w,
  db s' !! (ballotPrefix ++ k) = Some w → db s !! (ballotPrefix ++ k) = Some w ∧
  isReserved (db s') ballotPrefix k = isReserved (db s) ballotPrefix k.
#[export] Instance shrinks_preorder : PreOrder shrinks.
Proof.
  split; [by intros s Hq|]. intros a b c Hab Hbc Ha. destruct (Hab Ha) as [Hb H1]. destruct (Hbc Hb) as [Hc H2].
  split; [done|]. intros k w Hk. destruct (H2 k w Hk) as [Hk' ?]. destruct (H1 k w Hk') as [? ?]. split; [done|congruence].
Qed.
Lemma shrinks_wf s s' : quiet s → shrinks s s' → pending_wf (db s) → pending_wf (db s').
Proof. intros Hq Hs Hwf k val Hk. apply (Hwf k val), Hs, Hk. done. Qed.
Lemma shrinks_gone s s' k : quiet s → shrinks s s' → db s !! (ballotPrefix ++ k) = None → db s' !! (ballotPrefix ++ k) = None.
Proof. intros Hq Hs Hk. apply eq_None_not_Some. intros [w Hw]. apply Hs in Hw as [Hw _]; [congruence|done]. Qed.
Lemma shrinks_unreserved s s' : quiet s → shrinks s s' → pending_wf (db s) → unreserved (db s') ⊆+ unreserved (db s).
Proof.
  intros Hq Hs Hwf. pose proof (shrinks_wf s s' Hq Hs Hwf) as Hwf'. apply NoDup_submseteq; [by apply NoDup_unreserved|].
  intros [k w]. rewrite !elem_of_unreserved by done. intros [Hk Hr]. apply Hs in Hk as [Hk Hr']; [|done].
  by rewrite <-Hr'.
Qed.

(** Code that works elsewhere in the database. *)
Lemma shrinks_frame {A} ps (m : M A) :
  forallb (incompatible ballotPrefix) ps = true → forallb (incompatible (reservationDB ballotPrefix)) ps = true →
  moves (touches (spaces ps)) m → moves keeps_quiet m → moves shrinks m.
Proof.
  intros Hb Hr Ht Hk s Hq. split; [by apply Hk|]. intros k w.
  rewrite (Ht s) by (by apply spaces_no). intros ->. split; [done|]. unfold isReserved, prefixed_Get, prefixSlice.
  by rewrite (Ht s) by (by apply spaces_no).
Qed.
Lemma shrinks_stats pid us : moves shrinks (updateProcessStats pid us).
Proof.
  apply (shrinks_frame [processPrefix; statsPrefix]); [by vm_compute..| |apply moves_updateProcessStats_quiet].
  apply updateProcessStats_touches; in_list.
Qed.
Lemma shrinks_status pid v st : moves shrinks (setVoteIDStatus pid v st).
Proof.
  apply (shrinks_frame [voteIDStatusPrefix]); [by vm_compute..| |].
  - apply (moves_weaken (touches (λ k, k = status_key pid v))); [|apply setVoteIDStatus_touches].
    intros s s' Ht k Hk. apply Ht. intros ->. apply Hk. unfold status_key. apply spaces_in. in_list.
  - unfold setVoteIDStatus. repeat first [progress moves | apply moves_commit_quiet].
Qed.
Lemma shrinks_locks v pid a : moves shrinks (releaseLocks v pid a).
Proof. intros s Hq. split; [done|]. intros k w Hk. by split. Qed.

(** Leaving the queue: the reservation goes with the ballot. *)
Definition leaves (k : bytes) (s s' : Storage) : Prop := shrinks s s' ∧ db s' !! (ballotPrefix ++ k) = None.
Lemma leaves_shrinks k s1 s2 s3 : quiet s1 → leaves k s1 s2 → shrinks s2 s3 → leaves k s1 s3.
Proof.
  intros Hq [Hs Hk] Hs'. split; [by etrans|]. apply (shrinks_gone s2); [by apply Hs|done..].
Qed.
Lemma lookup_after_delete q k j s :
  incompatible q ballotPrefix = true ∨ q = ballotPrefix → incompatible q (reservationDB ballotPrefix) = true →
  q ++ j ≠ ballotPrefix ++ k → db (after_delete ballotPrefix k s) !! (q ++ j) = db s !! (q ++ j).
Proof.
  intros _ Hr Hne. unfold after_delete. cbn [db set_db]. rewrite !lookup_delete_ne; [done| |done].
  intros E. symmetry in E. revert E. by apply incompatible_app.
Qed.
Lemma leaves_after_delete k s : leaves k s (after_delete ballotPrefix k s).
Proof.
  split; [|cbn; apply lookup_delete_eq]. intros Hq. split; [done|]. intros j w Hj.
  assert (Hne : j ≠ k) by (intros ->; cbn in Hj; by rewrite lookup_delete_eq in Hj).
  assert (Hne' : ballotPrefix ++ j ≠ ballotPrefix ++ k) by (by intros ?%(inj (app _))).
  rewrite lookup_after_delete in Hj by (by (right + vm_compute)). split; [done|].
  unfold isReserved, prefixed_Get, prefixSlice, after_delete. cbn [db set_db].
  rewrite !lookup_delete_ne; [done|by intros ?%(inj (app _))|].
  intros E. revert E. apply incompatible_app. by vm_compute.
Qed.
Lemma removePendingBallot_leaves pid v s : quiet s →
  ∃ s', removePendingBallot pid v s = (Ok (), s') ∧ leaves (VoteID_Bytes v) s s'.
Proof.
  intros Hq. unfold removePendingBallot, wrapping, ignoring, mbind, SE_bind, warn.
  rewrite deleteReservation_quiet by done. cbn -[updateProcessStats]. rewrite deleteArtifact_quiet by done.
  eexists. split; [done|]. apply (leaves_shrinks _ _ (after_delete ballotPrefix (VoteID_Bytes v) s));
    [done|apply leaves_after_delete|apply (shrinks_stats pid _ (after_delete ballotPrefix (VoteID_Bytes v) s))].
Qed.
Lemma RemovePendingBallot_leaves pid v s : quiet s → leaves (VoteID_Bytes v) s (RemovePendingBallot pid v s).2.
Proof.
  intros Hq. unfold RemovePendingBallot. erewrite bind_Ok by apply attempt_rd_Get.
  destruct (removePendingBallot_leaves pid v s Hq) as (s1 & H1 & HL). erewrite bind_Ok by exact H1.
  apply (leaves_shrinks _ _ s1); [done..|]. cbv beta. to_moves.
  apply moves_bind; [apply _| |intros _; apply shrinks_status].
  repeat first [apply shrinks_locks | moves_step].
Qed.
Lemma remove_each_leaves pid v l s : quiet s →
  let r := forM_ (λ b, _ ← removePendingBallot pid (b_VoteID b);
                       releaseLocks (b_VoteID b) (b_ProcessID b) (b_Address b)) l s in
  shrinks s r.2 ∧ (v ∈ b_VoteID <$> l → leaves (VoteID_Bytes v) s r.2).
Proof.
  revert s. induction l as [|b l IH]; intros s Hq; cbn [forM_ fmap list_fmap].
  { split; [reflexivity|]. by intros ?%not_elem_of_nil. }
  destruct (removePendingBallot_leaves pid (b_VoteID b) s Hq) as (s1 & H1 & HL).
  set (s2 := (releaseLocks (b_VoteID b) (b_ProcessID b) (b_Address b) s1).2).
  assert (Hl2 : shrinks s1 s2) by apply shrinks_locks.
  assert (Hq1 : quiet s1) by (by apply HL). assert (Hq2 : quiet s2) by (by apply Hl2).
  destruct (IH s2 Hq2) as [H2 H3].
  assert (E : ∀ f : () → M (), ((_ ← removePendingBallot pid (b_VoteID b);
    releaseLocks (b_VoteID b) (b_ProcessID b) (b_Address b)) ≫= f) s = f () s2).
  { intros f. unfold mbind at 1, SE_bind at 1. by rewrite (bind_Ok _ _ _ _ _ H1). }
  rewrite E. split; [by etrans; [apply HL|]; etrans|].
  intros [->|Hv]%elem_of_cons.
  - apply (leaves_shrinks _ _ s1); [done..|]. by etrans.
  - destruct (H3 Hv) as [H4 H5]. split; [|done]. etrans; [apply HL|]. by etrans.
Qed.
Lemma RemovePendingBallotsByProcess_leaves pid s : quiet s → pending_wf (db s) →
  let r := RemovePendingBallotsByProcess pid s in
  shrinks s r.2 ∧ (∀ v b, pending (db s) v b → b_ProcessID b = pid → leaves (VoteID_Bytes v) s r.2).
Proof.
  intros Hq Hwf. unfold RemovePendingBallotsByProcess, gets. run_simpl. split.
  - exact (proj1 (remove_each_leaves pid (U64 0) _ s Hq)).
  - intros v b (val & Hv & Hb) Hpid. apply (proj2 (remove_each_leaves pid v _ s Hq)).
    destruct (Hwf _ _ Hv) as (b' & Hb' & Hk & _). assert (b' = b) as -> by congruence.
    apply (inj VoteID_Bytes) in Hk as ->. apply list_elem_of_fmap_2.
    unfold ballots_of. apply list_elem_of_omap. exists (VoteID_Bytes (b_VoteID b), val). split.
    + by apply elem_of_pending.
    + cbn [snd]. rewrite Hb. by rewrite decide_True.
Qed.
Lemma MarkBallotVerified_leaves v vb b s : quiet s → pending (db s) v b →
  let r := MarkBallotVerified v (Some vb) s in
  shrinks s r.2 ∧ (is_Ok (EncodeArtifact (set_vb_ProcessID (b_ProcessID b) vb)) = true → leaves (VoteID_Bytes v) s r.2).
Proof.
  intros Hq Hb. rewrite (MarkBallotVerified_quiet v vb b s Hq Hb).
  destruct (EncodeArtifact _) as [val|e]; [|by split]. cbv zeta.
  cut (leaves (VoteID_Bytes v) s (set_db (moved (b_ProcessID b) v val (db s)) s)).
  - intros HL. assert (HL' : ∀ m : M (), moves shrinks m → leaves (VoteID_Bytes v) s
      (m (set_db (moved (b_ProcessID b) v val (db s)) s)).2) by (intros m Hm; eapply leaves_shrinks; [done..|apply Hm]).
    cut (leaves (VoteID_Bytes v) s ((_ ← wrapping "failed to update process stats" (updateProcessStats (b_ProcessID b) verified_updates);
       setVoteIDStatus (b_ProcessID b) v VoteIDStatusVerified) (set_db (moved (b_ProcessID b) v val (db s)) s)).2).
    + intros HL2. by split; [apply HL2|].
    + apply HL'. apply moves_bind; [apply _|apply moves_wrapping, shrinks_stats|intros _; apply shrinks_status].
  - set (s1 := set_db (<[verifiedBallotPrefix ++ pid_bytes (b_ProcessID b) ++ VoteID_Bytes v := val]> (db s)) s).
    change (set_db _ s) with (after_delete ballotPrefix (VoteID_Bytes v) s1).
    destruct (leaves_after_delete (VoteID_Bytes v) s1) as [Hs Hk]. split; [|done]. etrans; [|exact Hs].
    assert (Hc : moves shrinks (commit (prefixed_Set verifiedBallotPrefix (pid_bytes (b_ProcessID b) ++ VoteID_Bytes v) val ∅))).
    { apply (shrinks_frame [verifiedBallotPrefix]); [by vm_compute..| |apply moves_commit_quiet]. apply commit_Set_touches. in_list. }
    specialize (Hc s). rewrite commit_quiet, apply_Set in Hc by done. exact Hc.
Qed.
End shrinking.

(** ** The loop ends, and empties the queue *)

Section loop.
Context `{Env : StorageEnv} `{Web3}.
Context (UnmarshalPubkey : option bytes → result ()) (ProveVote : Ballot → result bytes).
Notation processBallot := (processBallot UnmarshalPubkey ProveVote).
Notation process_available := (process_available UnmarshalPubkey ProveVote).
Notation process_ballots := (process_ballots UnmarshalPubkey ProveVote).
(** Every verified ballot can be encoded. *)
Definition ballots_encode : Prop := ∀ vb : VerifiedBallot, is_Ok (EncodeArtifact vb) = true.

Lemma on_stg_eq {A} (m : M A) q : on_stg m q = ((m (q_stg q)).1, {| q_stg := (m (q_stg q)).2; q_ids := q_ids q |}).
Proof. unfold on_stg. by destruct (m (q_stg q)). Qed.
Lemma seq_reads {A} (m : M A) : moves (=) m → moves (=) (on_stg m).
Proof. intros Hm q. rewrite on_stg_eq. cbn [snd]. rewrite <-(Hm (q_stg q)). by destruct q. Qed.
Lemma processBallot_reads b : moves (=) (processBallot b).
Proof.
  unfold SequencerBallots.processBallot.
  assert (Hr : moves (=) (on_stg (ProcessIsAcceptingVotes (b_ProcessID b)))).
  { apply seq_reads. unfold ProcessIsAcceptingVotes, process, processIsAcceptingVotes, processIsOnChainAlive.
    repeat first [apply (moves_getArtifact _)|moves_step]. }
  repeat first [exact Hr|moves_step].
Qed.
Lemma ExistsProcessID_eq pid q : ExistsProcessID pid q = (Ok (ProcessIDMap.Exists pid (q_ids q)), q).
Proof. by destruct q. Qed.

(** One ballot leaves the queue, or is left aside because its process is not registered. *)
Lemma process_available_step b v q :
  quiet (q_stg q) → pending_wf (db (q_stg q)) → pending (db (q_stg q)) v b → ballots_encode →
  ∃ x q', process_available b v q = (Ok x, q') ∧ q_ids q' = q_ids q ∧ shrinks (q_stg q) (q_stg q') ∧
    (leaves (VoteID_Bytes v) (q_stg q) (q_stg q') ∨
     SupportsProcess (b_ProcessID b) = true ∧ ProcessIDMap.Exists (b_ProcessID b) (q_ids q) = false).
Proof.
  intros Hq Hwf Hb Henc. unfold SequencerBallots.process_available.
  destruct (SupportsProcess (b_ProcessID b)) eqn:Hs; cbn [negb].
  - erewrite bind_Ok by apply ExistsProcessID_eq.
    destruct (ProcessIDMap.Exists (b_ProcessID b) (q_ids q)) eqn:Hx; cbn [negb].
    2:{ exists false, q. split_and!; [done..|by right]. }
    pose proof (processBallot_reads b q) as Hr. erewrite bind_Ok by apply attempt_eq.
    destruct (processBallot b q) as [[vb|e] q1]; cbn [fst snd] in *; subst q1.
    + destruct (MarkBallotVerified_leaves v vb b (q_stg q) Hq Hb) as [H1 H2].
      erewrite bind_Ok by apply attempt_eq. rewrite on_stg_eq. eexists _, _. split; [done|].
      split_and!; [done..|]. left. apply H2, Henc.
    + erewrite bind_Ok by apply warn_eq. rewrite on_stg_eq. eexists _, _. split; [done|].
      pose proof (RemovePendingBallot_leaves (b_ProcessID b) v (q_stg q) Hq) as HL.
      split_and!; [done|apply HL|by left].
  - erewrite bind_Ok by apply warn_eq. rewrite on_stg_eq. eexists _, _. split; [done|].
    destruct (RemovePendingBallotsByProcess_leaves (b_ProcessID b) (q_stg q) Hq Hwf) as [H1 H2].
    split_and!; [done..|]. left. by apply (H2 v b).
Qed.

Lemma NextPendingBallot_empty s e s' : pending_wf (db s) → quiet s → reservations_encode →
  NextPendingBallot s = (Err e, s') → s' = s ∧ unreserved (db s) = [].
Proof.
  intros Hwf Hq Henc. unfold NextPendingBallot, nextPendingBallot, gets, wrapping, lift, attempt, raise. run_simpl.
  destruct (List.find _ _) as [[k val]|] eqn:Hf.
  - apply find_some in Hf as [Hin%list_elem_of_In Hr%negb_true_iff]. apply elem_of_pending in Hin; [|done]. cbn [fst] in Hr.
    destruct (Hwf k val Hin) as (b & -> & -> & _). destruct (Henc (Unix (now s))) as [w Hw].
    by rewrite (setReservation_quiet _ _ w s Hq Hw Hr).
  - intros [= <- <-]. split; [done|]. apply elem_of_nil_inv. intros kv Hkv.
    apply list_elem_of_In, filter_In in Hkv as [Hin Hr]. by rewrite (find_none _ _ Hf kv Hin) in Hr.
Qed.
Lemma nextPendingBallot_quiet : moves keeps_quiet NextPendingBallot.
Proof.
  unfold NextPendingBallot, nextPendingBallot, setReservation.
  repeat first [apply moves_commit_quiet|moves_step].
Qed.
(** Handing out a ballot takes it from the unreserved ones. *)
Lemma NextPendingBallot_takes s b v s' : pending_wf (db s) → quiet s → NextPendingBallot s = (Ok (b, v), s') →
  quiet s' ∧ pending_wf (db s') ∧ pending (db s') v b ∧ (∀ j, db s' !! (ballotPrefix ++ j) = db s !! (ballotPrefix ++ j)) ∧
  (∀ u, isReserved (db s') ballotPrefix (VoteID_Bytes u) = true → u = v ∨ isReserved (db s) ballotPrefix (VoteID_Bytes u) = true) ∧
  (length (unreserved (db s')) < length (unreserved (db s)))%nat.
Proof.
  intros Hwf Hq Hn. pose proof (nextPendingBallot_quiet s) as Hq'.
  destruct (NextPendingBallot_reserves s b v s' Hn) as (Hr & w & Hd & Hl & -> & k & val & Hin & Hk & Hb).
  apply elem_of_pending in Hin; [|done]. destruct (Hwf k val Hin) as (b' & Hb' & -> & _). assert (b' = b) as -> by congruence.
  set (r := reservationDB ballotPrefix) in *.
  assert (He : ∀ j, db s' !! (ballotPrefix ++ j) = db s !! (ballotPrefix ++ j)).
  { intros j. rewrite Hd, lookup_insert_ne; [done|]. apply incompatible_app. by vm_compute. }
  assert (Hres : ∀ j, isReserved (db s') ballotPrefix j = bool_decide (j = VoteID_Bytes (b_VoteID b)) || isReserved (db s) ballotPrefix j).
  { intros j. unfold isReserved, prefixed_Get, prefixSlice. fold r. rewrite Hd.
    destruct (decide (j = VoteID_Bytes (b_VoteID b))) as [->|Hj].
    - rewrite lookup_insert_eq, (bool_decide_true (_ = _)) by done. cbn [orb]. apply bool_decide_eq_true. eauto.
    - rewrite lookup_insert_ne, (bool_decide_false (j = _)) by (done || by intros ?%(inj (app _))). done. }
  assert (Hwf' : pending_wf (db s')) by (intros j x; rewrite He; apply Hwf).
  split_and!; [by rewrite Hn in Hq'; apply Hq'|done|exists val; by rewrite He|done| |].
  - intros u. rewrite Hres. intros [Hu%bool_decide_eq_true|Hu]%orb_prop; [left; by apply (inj VoteID_Bytes)|by right].
  - apply (submseteq_length ((VoteID_Bytes (b_VoteID b), val) :: unreserved (db s')) _), NoDup_submseteq.
    + apply NoDup_cons. split; [|by apply NoDup_unreserved]. rewrite (elem_of_unreserved _ (VoteID_Bytes (b_VoteID b)) val) by done.
      intros [_ Hx]. by rewrite Hres, bool_decide_true in Hx.
    + intros x [->|Hx]%elem_of_cons; [by apply elem_of_unreserved|].
      destruct x as [j x]. apply elem_of_unreserved in Hx as [Hx Hj]; [|done]. rewrite He in Hx.
      apply elem_of_unreserved; [done|]. split; [done|]. rewrite Hres in Hj. by apply orb_false_iff in Hj as [_ ?].
Qed.

Lemma process_ballots_spec fuel acc q :
  quiet (q_stg q) → pending_wf (db (q_stg q)) → reservations_encode → ballots_encode →
  (length (unreserved (db (q_stg q))) < fuel)%nat →
  ∃ r q', process_ballots fuel acc q = (Ok (Some r), q') ∧ q_ids q' = q_ids q ∧ quiet (q_stg q') ∧
    (∀ k w, db (q_stg q') !! (ballotPrefix ++ k) = Some w → db (q_stg q) !! (ballotPrefix ++ k) = Some w) ∧
    unreserved (db (q_stg q')) = [] ∧
    ∀ v b, pending (db (q_stg q')) v b → isReserved (db (q_stg q)) ballotPrefix (VoteID_Bytes v) = true ∨
      SupportsProcess (b_ProcessID b) = true ∧ ProcessIDMap.Exists (b_ProcessID b) (q_ids q) = false.
Proof.
  intros Hq Hwf Hr Henc. revert acc q Hq Hwf. induction fuel as [|fuel IH]; intros acc q Hq Hwf Hf; [lia|].
  cbn [SequencerBallots.process_ballots]. erewrite bind_Ok by apply attempt_eq. rewrite on_stg_eq. cbn [fst snd].
  destruct (NextPendingBallot (q_stg q)) as [[[b v]|e] s1] eqn:Hn; cbn [fst snd].
  - destruct (NextPendingBallot_takes _ _ _ _ Hwf Hq Hn) as (Hq1 & Hwf1 & Hb & He & Hres & Hlen).
    set (q1 := {| q_stg := s1; q_ids := q_ids q |}).
    destruct (process_available_step b v q1 Hq1 Hwf1 Hb Henc) as (x & q2 & Hx & Hi2 & Hs2 & Hcase).
    erewrite bind_Ok by exact Hx.
    assert (Hq2 : quiet (q_stg q2)) by (by apply Hs2).
    assert (Hwf2 : pending_wf (db (q_stg q2))) by (by eapply (shrinks_wf s1)).
    pose proof (submseteq_length _ _ (shrinks_unreserved _ _ Hq1 Hs2 Hwf1)) as Hlen2. cbn in Hlen2.
    destruct (IH (acc || x) q2 Hq2 Hwf2) as (r & q' & E & Hi & Hq' & Hs & Hu & Hleft); [lia|].
    exists r, q'. rewrite Hi, Hi2 in *. split_and!; [done..| |done|].
    { intros k w Hk%Hs. apply Hs2 in Hk as [Hk _]; [|done]. by rewrite <-He. }
    intros u c Hc. destruct (Hleft u c Hc) as [Hc'|]; [|by right].
    destruct Hc as (val & Hval & Hdec). apply Hs in Hval. destruct (Hs2 Hq1) as [_ Hs2']. destruct (Hs2' _ _ Hval) as [Hval1 Hk].
    destruct (decide (u = v)) as [->|Hne].
    + destruct Hcase as [[_ Hgone]|Hcase]; [by rewrite Hgone in Hval|]. right.
      destruct Hb as (val' & Hval' & Hdec').
      assert (c = b) as -> by (change (q_stg q1) with s1 in Hval1; congruence). exact Hcase.
    + left. rewrite Hk in Hc'. by destruct (Hres u Hc') as [->|].
  - destruct (NextPendingBallot_empty _ _ _ Hwf Hq Hr Hn) as [-> Hu].
    exists acc, {| q_stg := q_stg q; q_ids := q_ids q |}. split_and!; [done..|].
    intros v b (val & Hval & Hb). left. change (db (q_stg q) !! (ballotPrefix ++ VoteID_Bytes v) = Some val) in Hval.
    destruct (isReserved (db (q_stg q)) ballotPrefix (VoteID_Bytes v)) eqn:Hx; [done|].
    assert (Hin : (VoteID_Bytes v, val) ∈ unreserved (db (q_stg q))) by (by apply elem_of_unreserved).
    rewrite Hu in Hin. by apply not_elem_of_nil in Hin.
Qed.

(** C13: the loop over the pending ballots ends: without failing commits, fuel for one more round
    than there are unreserved ballots is enough, whatever the prover and the contracts answer. It
    leaves no unreserved ballot, takes in no new one, and the ballots that are still in the queue were
    reserved before or belong to a supported process that is not registered: every other
    ballot was verified or dropped. *)
Theorem processAvailableBallots_drains fuel n q :
  quiet (q_stg q) → pending_wf (db (q_stg q)) → reservations_encode → ballots_encode →
  (CountPendingBallots (q_stg q)).1 = Ok n → (n < fuel)%nat →
  ∃ processed q', run (processAvailableBallots UnmarshalPubkey ProveVote fuel) q = (Ok (Some processed), q') ∧
    (CountPendingBallots (q_stg q')).1 = Ok 0%nat ∧
    ∀ v b, pending (db (q_stg q')) v b →
      pending (db (q_stg q)) v b ∧
      (isReserved (db (q_stg q)) ballotPrefix (VoteID_Bytes v) = true ∨
       SupportsProcess (b_ProcessID b) = true ∧ ProcessIDMap.Exists (b_ProcessID b) (q_ids q) = false).
Proof.
  rewrite CountPendingBallots_unreserved. intros Hq Hwf Hr Henc [= <-] Hf.
  destruct (process_ballots_spec fuel false q Hq Hwf Hr Henc Hf) as (r & q' & E & _ & _ & Hs & Hu & Hleft).
  exists r, q'. split_and!; [done|by rewrite CountPendingBallots_unreserved, Hu|].
  intros v b Hb. split; [|by apply Hleft]. destruct Hb as (val & Hval%Hs & Hd). by exists val.
Qed.
End loop.

(** ** At a concrete store *)

Import Concrete.
#[local] Existing Instance env_pebble.

(** A network whose contracts are always there. *)
Definition web3_up : Web3 :=
  {| Contracts := unit; SupportsProcess _ := true; ContractsForProcess _ := Ok (Some tt);
     Contracts_StateRoot _ _ := Ok (Some 0); SupportBlobTxs _ := true; Contracts_ChainID _ := 1; SetProcessResults _ _ _ _ _ := Ok tt;
     SetProcessTransition _ _ _ _ _ := Ok tt |}.
#[local] Existing Instance web3_up.
(** The first process is registered; a ballot of the second one waits as well. *)
Definition two_processes : Sequencer :=
  {| q_stg := set_db (<[ballotPrefix ++ VoteID_Bytes (vote 7) := enc (ballot pid2 7 102)]> (db two_pending)) two_pending;
     q_ids := (ProcessIDMap.Add 0 pid1 ProcessIDMap.NewProcessIDMap).2 |}.
Lemma processAvailableBallots_drains_witness :
  (CountPendingBallots (q_stg two_processes)).1 = Ok 3%nat ∧
  ∃ processed q', run (processAvailableBallots (λ _, Ok tt) (λ _, Ok []) 4) two_processes = (Ok (Some processed), q') ∧
    (CountPendingBallots (q_stg q')).1 = Ok 0%nat.
Proof.
  assert (Hn : (CountPendingBallots (q_stg two_processes)).1 = Ok 3%nat) by (by vm_compute).
  split; [exact Hn|].
  destruct (processAvailableBallots_drains (λ _, Ok tt) (λ _, Ok []) 4 3 two_processes eq_refl
    ltac:(apply pending_wf_by; by vm_compute) reservations_encode_concrete ltac:(intros vb; reflexivity) Hn ltac:(lia))
    as (r & q' & H1 & H2 & _). exists r, q'. exact (conj H1 H2).
Defined.
