(* ===== verification/SequencerOnchain.v ===== *)
(** * The sequencer: transitions and results to the chain

    [src/sequencer/onchain.go]: the loop over the verified results, and for each
    registered process the transition that is sent to the contract and the callback when
    the transaction is mined or fails. The proofs and their inputs are turned into
    calldata by go-ethereum, parameters as the contracts are; the trees of the states
    live in the database of the storage, behind an interface. *)

From S2P Require Import Prelude Bytes DB Spec Types StorageTypes StorageBase Process VoteStatus Stats Ballots Batches Pipeline Voters SequencerBase SequencerBallots.

(** The calldata of the contracts (go-ethereum's ABI). *)
Class Solidity := {
  SolidityProof : Type;
  FromGnarkProof : bytes → result SolidityProof;
  Proof_ABIEncode : SolidityProof → result bytes;
  Results_ABIEncode : ResultsVerifierProofInputs → result bytes;
  Transition_ABIEncode : StateTransitionBatchProofInputs → result bytes;
  (* what a stored sidecar holds: its version, its blobs, its cell proofs *)
  Sidecar_view : bytes → Z * Z * Z }.

(** What [src/state] promises for promoting a root: it works on the keys of the states. *)
Class StatePromotion `{StateStore} := {
  state_RootExists : kv → ProcessID → Z → result ();
  state_ApplyTransitionArtifact : TransitionArtifact → kv → result () * kv;
  state_Apply_frame a d k : ¬ state_keys k → (state_ApplyTransitionArtifact a d).2 !! k = d !! k }.

(** [src/types/blobs.go:257-257] *)
Definition BlobTxSidecarVersion1 : Z := 1.
(** [src/types/blobs.go:29-29] *)
Definition CellProofsPerBlob : Z := 128.
(** [src/sequencer/onchain.go:27-27] *)
Definition maxResultsUploadRetries : nat := 3.

Section onchain.
Context `{Env : StorageEnv} `{Web3} `{Solidity} `{!StatePromotion}.

(** ** Results *)

(** [src/sequencer/onchain.go:353-380] the attempts of the upload, in processResultsOnChain; whether one worked *)
Fixpoint upload_results (c : Contracts) (pid : ProcessID) (abiProof abiInputs : bytes) (i n : nat) : bool :=
  match n with
  | O => false
  | S n =>
      match SetProcessResults c pid abiProof abiInputs i with
      | Err _ => upload_results c pid abiProof abiInputs (S i) n
      | Ok _ => true
      end
  end.
(** [src/sequencer/onchain.go:301-326] the calldata of a result, in processResultsOnChain *)
Definition results_calldata (res : VerifiedResults) : result (bytes * bytes) :=
  match FromGnarkProof (vr_Proof res) with
  | Err e => Err e
  | Ok p => match Proof_ABIEncode p with
            | Err e => Err e
            | Ok abiProof => match Results_ABIEncode (vr_Inputs res) with
                             | Err e => Err e
                             | Ok abiInputs => Ok (abiProof, abiInputs)
                             end
            end
  end.
(** [src/sequencer/onchain.go:289-395] one result of the queue, in processResultsOnChain; whether the loop
    goes on *)
Definition result_on_chain (res : VerifiedResults) : SE Sequencer bool :=
  let pid := vr_ProcessID res in
  if negb (SupportsProcess pid) then
    r ← attempt (on_stg (MarkVerifiedResultsDone pid)); mret (is_Ok r)
  else match results_calldata res with
  | Err _ => _ ← warn (on_stg (MarkVerifiedResultsDone pid)); mret true
  | Ok (abiProof, abiInputs) =>
      match contractsForProcess pid with
      | Err _ => mret true
      | Ok c =>
          let uploadSuccess := upload_results c pid abiProof abiInputs 0 maxResultsUploadRetries in
          _ ← warn (on_stg (MarkVerifiedResultsDone pid)); mret true
      end
  end.
(** [src/sequencer/onchain.go:280-396] the fuel counts the rounds of the loop; [None] when it is spent *)
Fixpoint processResultsOnChain (fuel : nat) : SE Sequencer (option ()) :=
  match fuel with
  | O => mret None
  | S fuel =>
      next ← attempt (on_stg NextVerifiedResults);
      match next with
      | Err _ => mret (Some ())
      | Ok res => go_on ← result_on_chain res; if (go_on : bool) then processResultsOnChain fuel else mret (Some ())
      end
  end.

(** ** Transitions *)

(** [src/sequencer/onchain.go:135-203]; the simulation of the call is only logged *)
Definition pushTransitionToContract (c : Contracts) (pid : ProcessID) (proof : SolidityProof)
    (inputs : StateTransitionBatchProofInputs) (blobSidecar : bytes) : result () :=
  match Proof_ABIEncode proof with
  | Err e => Err (Wrap "failed to encode proof" e)
  | Ok abiProof =>
      match Transition_ABIEncode inputs with
      | Err e => Err (Wrap "failed to encode inputs" e)
      | Ok abiInputs =>
          let '(version, blobs, proofs) := Sidecar_view blobSidecar in
          let send sidecar :=
            match SetProcessTransition c pid abiProof abiInputs sidecar with
            | Err e => Err (Wrap "failed to set process transition" e) | Ok _ => Ok () end in
          if SupportBlobTxs c then
            if negb (version =? BlobTxSidecarVersion1) then Err (ErrMsg "unexpected blob sidecar version")
            else if negb (proofs =? blobs * CellProofsPerBlob) then Err (ErrMsg "incorrect number of cell proofs")
            else send (Some blobSidecar)
          else send None
      end
  end.
(** [src/sequencer/onchain.go:66-132] the step of processTransitionOnChain, the callback for one process; a stored batch has its
    root. The loop always goes on. *)
Definition transition_on_chain (pid : ProcessID) (_ : Time) : SE Sequencer bool :=
  if negb (SupportsProcess pid) then mret true
  else match contractsForProcess pid with
  | Err _ => mret true
  | Ok c =>
      next ← attempt (on_stg (NextStateTransitionBatch pid));
      match next with
      | Err _ => mret true
      | Ok (batch, batchID) =>
          match Contracts_StateRoot c pid with
          | Err _ | Ok None => mret true
          | Ok (Some remoteStateRoot) =>
              if bool_decide (RootHashBefore (stb_Inputs batch) ≠ Some remoteStateRoot) then
                _ ← warn (on_stg (MarkStateTransitionBatchOutdated batchID)); mret true
              else match FromGnarkProof (stb_Proof batch) with
              | Err _ => mret true
              | Ok proof =>
                  match pushTransitionToContract c pid proof (stb_Inputs batch) (stb_Blob batch) with
                  | Err _ => _ ← warn (on_stg (MarkStateTransitionBatchFailed batchID pid)); mret true
                  | Ok _ => mret true
                  end
              end
          end
      end
  end.
(** [src/sequencer/onchain.go:64-131] *)
Definition processTransitionOnChain : SE Sequencer () := ForEach transition_on_chain.

(** [src/sequencer/onchain.go:251-276] *)
Definition promoteCommittedStateFromTransition (pid : ProcessID) (rootHashAfter : option Z) : M () :=
  match rootHashAfter with
  | None => raise (ErrMsg "nil rootHashAfter")
  | Some root =>
      d ← gets db;
      match state_RootExists d pid root with
      | Ok _ =>
          _ ← wrapping "failed to open state for process" (on_state (state_New pid));
          wrapping "failed to promote confirmed root" (on_state (state_SetRootAsBigInt pid root))
      | Err _ =>
          artifact ← wrapping "failed to get state transition artifact for root" (GetStateTransitionArtifact pid (Some root));
          on_state (state_ApplyTransitionArtifact artifact)
      end
  end.
(** [src/sequencer/onchain.go:208-249] pushStateTransitionCallback: the callback, with the outcome of the
    transaction; the mark of the pending transaction goes on every path *)
Definition pushStateTransitionCallback (pid : ProcessID) (batchID : bytes) (rootHashAfter : option Z) (err : option error)
    : SE Sequencer () :=
  _ ← match err with
      | Some _ => warn (on_stg (MarkStateTransitionBatchFailed batchID pid))
      | None =>
          promoted ← attempt (on_stg (promoteCommittedStateFromTransition pid rootHashAfter));
          match promoted with
          | Err _ => warn (on_stg (MarkStateTransitionBatchFailed batchID pid))
          | Ok _ =>
              done ← attempt (on_stg (MarkStateTransitionBatchDone batchID pid));
              match done with
              | Err _ => mret ()
              | Ok _ => _ ← on_ids (λ now, ProcessIDMap.Add now pid); mret ()
              end
          end
      end;
  warn (on_stg (PrunePendingTx StateTransitionTx pid)).
End onchain.

(** ** The loop over the results *)

Section results.
Context `{Env : StorageEnv} `{Web3} `{Solidity}.

(** The results that wait, in the order the loop meets them. *)
Definition result_queue (d : kv) : list (bytes * bytes) := prefixed_Iterate bk verifiedResultPrefix [] d.
(** Every entry is a result under its own process, whose identifier does not spell the prefix. *)
Definition results_wf (d : kv) : Prop := ∀ k val, d !! (verifiedResultPrefix ++ k) = Some val →
  ∃ res, DecodeArtifact val = Ok res ∧ k = pid_bytes (vr_ProcessID res) ∧ HasPrefix k verifiedResultPrefix = false.
Definition queued (d : kv) (res : VerifiedResults) : Prop :=
  ∃ val, d !! (verifiedResultPrefix ++ pid_bytes (vr_ProcessID res)) = Some val ∧ DecodeArtifact val = Ok res.
(** A result that can be sent, of a supported process whose contracts cannot be resolved. *)
Definition unresolved (res : VerifiedResults) : Prop :=
  SupportsProcess (vr_ProcessID res) = true ∧ is_Ok (results_calldata res) = true ∧ is_Ok (contractsForProcess (vr_ProcessID res)) = false.

Lemma results_local d : results_wf d → ∀ r, is_Some (d !! (verifiedResultPrefix ++ r)) → HasPrefix r verifiedResultPrefix = false.
Proof. intros Hwf r [val Hr]. by destruct (Hwf r val Hr) as (res & _ & _ & ?). Qed.
Lemma elem_of_result_queue d k val : results_wf d → (k, val) ∈ result_queue d ↔ d !! (verifiedResultPrefix ++ k) = Some val.
Proof. intros Hwf. by apply prefixed_Iterate_local, results_local. Qed.
Definition without (res : VerifiedResults) (q : Sequencer) : Sequencer :=
  {| q_stg := set_db (delete (verifiedResultPrefix ++ pid_bytes (vr_ProcessID res)) (db (q_stg q))) (q_stg q); q_ids := q_ids q |}.
Lemma without_smaller res q : results_wf (db (q_stg q)) → queued (db (q_stg q)) res →
  results_wf (db (q_stg (without res q))) ∧
  (length (result_queue (db (q_stg (without res q)))) < length (result_queue (db (q_stg q))))%nat ∧
  ∀ r, queued (db (q_stg (without res q))) r → queued (db (q_stg q)) r.
Proof.
  intros Hwf (val & Hval & Hres). set (key := verifiedResultPrefix ++ pid_bytes (vr_ProcessID res)) in *.
  assert (Hsub : ∀ k w, db (q_stg (without res q)) !! k = Some w → db (q_stg q) !! k = Some w ∧ k ≠ key).
  { intros k w. cbn. fold key. rewrite lookup_delete_Some. by intros [? ?]. }
  assert (Hwf' : results_wf (db (q_stg (without res q)))) by (intros k w [Hk _]%Hsub; by apply (Hwf k w)).
  split_and!; [done| |intros r (w & [Hw _]%Hsub & Hd); by exists w].
  apply (submseteq_length ((pid_bytes (vr_ProcessID res), val) :: _)), NoDup_submseteq.
  - apply NoDup_cons. split; [|by apply (NoDup_fmap_1 fst), NoDup_local, results_local].
    rewrite elem_of_result_queue by done. by intros [_ ?]%Hsub.
  - intros [k w] [[= -> ->]|Hk]%elem_of_cons; apply elem_of_result_queue; try done.
    apply elem_of_result_queue in Hk; [|done]. by apply Hsub.
Qed.
Lemma mark_results_done res q : quiet (q_stg q) → on_stg (MarkVerifiedResultsDone (vr_ProcessID res)) q = (Ok (), without res q).
Proof. intros Hq. unfold on_stg, MarkVerifiedResultsDone. by rewrite commit_quiet, apply_Delete by done. Qed.

(** One round takes the result out of the queue, unless its contracts cannot be resolved. *)
Lemma result_on_chain_step res q : quiet (q_stg q) →
  result_on_chain res q = (Ok true, without res q) ∨ unresolved res ∧ result_on_chain res q = (Ok true, q).
Proof.
  intros Hq. unfold result_on_chain, unresolved. pose proof (mark_results_done res q Hq) as Hm.
  destruct (SupportsProcess _); cbn [negb].
  - destruct (results_calldata res) as [[p i]|e]; [destruct (contractsForProcess _)|].
    + left. unfold mbind, SE_bind, warn. by rewrite Hm.
    + by right.
    + left. unfold mbind, SE_bind, warn. by rewrite Hm.
  - left. unfold attempt, mbind, SE_bind. by rewrite Hm.
Qed.
Lemma next_result q : results_wf (db (q_stg q)) →
  (result_queue (db (q_stg q)) = [] ∧ on_stg NextVerifiedResults q = (Err ErrNoMoreElements, q)) ∨
  (∃ res, queued (db (q_stg q)) res ∧ on_stg NextVerifiedResults q = (Ok res, q)).
Proof.
  intros Hwf. rewrite on_stg_eq. unfold NextVerifiedResults, gets, raise, wrapping, lift. run_simpl. fold (result_queue (db (q_stg q))).
  destruct (result_queue (db (q_stg q))) as [|[k val] l] eqn:Hl; [left; by destruct q|right].
  assert (Hin : (k, val) ∈ result_queue (db (q_stg q))) by (rewrite Hl; left).
  apply elem_of_result_queue in Hin; [|done]. destruct (Hwf k val Hin) as (res & Hd & -> & _).
  exists res. split; [by exists val|]. rewrite Hd. by destruct q.
Qed.
Lemma stuck_for_ever res q : on_stg NextVerifiedResults q = (Ok res, q) → result_on_chain res q = (Ok true, q) →
  ∀ fuel, processResultsOnChain fuel q = (Ok None, q).
Proof.
  intros Hn Hr fuel. induction fuel as [|fuel IH]; [done|]. cbn [processResultsOnChain].
  erewrite bind_Ok by (unfold attempt; by rewrite Hn). cbn. erewrite bind_Ok by exact Hr. exact IH.
Qed.

(** C16: the loop over the verified results, without failing commits, either ends with an empty queue,
    and fuel for one more round than there are results is enough; or some queued result can be
    turned into a call, its process is supported and its contracts cannot be resolved: such a result stays
    at the head of the queue, and the loop never ends. *)
Theorem processResultsOnChain_ends fuel q :
  quiet (q_stg q) → results_wf (db (q_stg q)) → (length (result_queue (db (q_stg q))) < fuel)%nat →
  (∃ q', run (processResultsOnChain fuel) q = (Ok (Some ()), q') ∧ result_queue (db (q_stg q')) = []) ∨
  (∃ res, queued (db (q_stg q)) res ∧ unresolved res ∧ ∀ fuel', eval (processResultsOnChain fuel') q = Ok None).
Proof.
  unfold run, eval. revert q. induction fuel as [|fuel IH]; intros q Hq Hwf Hf; [lia|].
  destruct (next_result q Hwf) as [[He Hn]|(res & Hin & Hn)].
  { left. exists q. cbn [processResultsOnChain]. erewrite bind_Ok by (unfold attempt; by rewrite Hn). done. }
  destruct (result_on_chain_step res q Hq) as [Hr|[Hu Hr]].
  2:{ right. exists res. split_and!; [done..|]. intros f. by rewrite (stuck_for_ever res). }
  destruct (without_smaller res q Hwf Hin) as (Hwf' & Hlen & Hsub).
  assert (Hstep : ∀ f, processResultsOnChain (S f) q = processResultsOnChain f (without res q)).
  { intros f. cbn [processResultsOnChain]. erewrite bind_Ok by (unfold attempt; by rewrite Hn). cbn. by erewrite bind_Ok by exact Hr. }
  destruct (IH (without res q)) as [(q' & E & Hempty)|(r & Hr1 & Hu & Hstuck)]; [done|done|lia| |].
  - left. exists q'. by rewrite Hstep.
  - right. exists r. split_and!; [by apply Hsub|done|]. intros [|f]; [done|]. rewrite Hstep. apply Hstuck.
Qed.
End results.

(** ** At a concrete store *)

Module Results1.
Import Concrete.
#[local] Existing Instance env_pebble.
#[export] Instance solidity : Solidity := {|
  SolidityProof := bytes; FromGnarkProof p := Ok p; Proof_ABIEncode p := Ok p; Results_ABIEncode _ := Ok [];
  Transition_ABIEncode _ := Ok []; Sidecar_view _ := (1, 1, 128) |}.
(** A network whose contracts are not there. *)
Definition web3_down : Web3 :=
  {| Contracts := unit; SupportsProcess _ := true; ContractsForProcess _ := Ok None;
     Contracts_StateRoot _ _ := Ok (Some 0); SupportBlobTxs _ := true; Contracts_ChainID _ := 1;
     SetProcessResults _ _ _ _ _ := Ok tt; SetProcessTransition _ _ _ _ _ := Ok tt |}.
Definition results1 : VerifiedResults :=
  {| vr_ProcessID := pid1; vr_Proof := []; vr_Inputs := {| rv_StateRoot := Some 1; rv_Results := [Some 3] |} |}.
Definition one_result : Sequencer :=
  {| q_stg := MkStorage {[verifiedResultPrefix ++ pid_bytes pid1 := enc results1]} ∅ ∅ ∅ (70 * second) [];
     q_ids := ProcessIDMap.NewProcessIDMap |}.
Lemma one_result_wf : results_wf (db (q_stg one_result)).
Proof.
  intros k val Hk. cbn [one_result q_stg db] in Hk. apply lookup_singleton_Some in Hk as [Hk <-].
  apply (inj (app _)) in Hk as <-. exists results1. split_and!; by vm_compute.
Qed.
(** With the contracts the queue is emptied; without them the loop never ends. *)
Lemma processResultsOnChain_ends_witness :
  (∃ q', run (processResultsOnChain (H:=web3_up) 2) one_result = (Ok (Some ()), q') ∧ result_queue (db (q_stg q')) = []) ∧
  ∀ fuel, eval (processResultsOnChain (H:=web3_down) fuel) one_result = Ok None.
Proof.
  split.
  - destruct (processResultsOnChain_ends (H:=web3_up) 2 one_result eq_refl one_result_wf ltac:(apply Nat.ltb_lt; by vm_compute))
      as [H|(res & _ & (_ & _ & H) & _)]; [exact H|discriminate H].
  - destruct (processResultsOnChain_ends (H:=web3_down) 2 one_result eq_refl one_result_wf ltac:(apply Nat.ltb_lt; by vm_compute))
      as [(q' & H & _)|(res & _ & _ & H)]; [|exact H].
    exfalso. apply (f_equal fst) in H. revert H. by vm_compute.
Defined.
End Results1.
