(* ===== verification/SequencerTransitions.v ===== *)
(** * The sequencer: state transitions

    [src/sequencer/statetransition.go] with [currentProcessState] of [helpers.go] and the
    assignment of [src/circuits/statetransition/inputs.go]: an aggregated batch becomes a
    new state of the process and a transition that waits to be sent. The states are those of
    [StateTree] and [StateBatch], kept in the database behind an interface; the census,
    the prover and the random scalar are parameters. The lock that keeps the workloads apart makes
    one process of the loop one step. *)

From S2P Require Import Prelude Bytes DB Spec Types Census StorageTypes StorageBase Process VoteStatus Stats Ballots Batches Curve ElGamal StateTree StateVote StateBatch Tally Pipeline Voters Finalizer SequencerBase SequencerBallots SequencerOnchain.

(** ** The assignment of the circuit *)

(** [src/circuits/merkleproof/merkleproof.go:78-91] MerkleTransition, of big integers *)
Record AssignedTransition := {
  ast_NewRoot : Z; ast_Siblings : list Z; ast_NewKey : Z; ast_NewLeafHash : Z;
  ast_OldRoot : Z; ast_OldKey : Z; ast_OldLeafHash : Z; ast_IsOld0 : Z; ast_Fnc0 : Z; ast_Fnc1 : Z }.
(** The census proofs are those of the circuits of third parties; [Merkle] and [CSP] are their types. *)
Section assignment.
Context `{Curve} `{Arbo} {Merkle CSP : Type}.
(** [state.HashFn] on the key, the value and a one. *)
Context (leafHash : Z → Z → result Z).

(** [src/circuits/statetransition/statetransition.go:97-102] Vote, of big integers *)
Record AssignedVote := {
  asv_Ballot : ElGamal.Ballot; asv_ReencryptedBallot : ElGamal.Ballot; asv_OverwrittenBallot : ElGamal.Ballot;
  asv_Address : Z; asv_BallotIndex : Z; asv_VoteWeight : Z; asv_VoteID : Z }.
(** [src/circuits/statetransition/statetransition.go:79-82] CensusProofs *)
Record CensusProofs := { MerkleProofs : list Merkle; CSPProofs : list CSP }.
(** [src/circuits/statetransition/statetransition.go:25-58] StateTransitionCircuit, of big integers, without the inner
    proof and its key *)
Record TransitionAssignment := {
  sta_CensusRoot : Z; sta_CensusProofs : CensusProofs; sta_ReencryptionK : Z;
  sta_RootHashBefore : option Z; sta_RootHashAfter : option Z; sta_Process : CircuitProcess;
  sta_VotersCount : Z; sta_OverwrittenVotesCount : Z; sta_OldResults : ElGamal.Ballot; sta_NewResults : ElGamal.Ballot;
  sta_Blob : BlobEvalData; sta_Votes : list AssignedVote;
  sta_ProcessProofs : list AssignedProof; sta_Ballot : list AssignedTransition; sta_VoteIDs : list AssignedTransition;
  sta_Results : AssignedTransition }.

(** [src/circuits/merkleproof/merkleproof.go:99-124] *)
Definition MerkleTransitionFromArboTransition (p : ArboTransition) : result AssignedTransition :=
  match leafHash (at_OldKey p) (at_OldValue p) with
  | Err e => Err e
  | Ok oldLeafHash =>
      match leafHash (at_NewKey p) (at_NewValue p) with
      | Err e => Err e
      | Ok newLeafHash =>
          Ok {| ast_NewRoot := at_NewRoot p; ast_Siblings := padStateSiblings (at_Siblings p); ast_NewKey := at_NewKey p;
                ast_NewLeafHash := newLeafHash; ast_OldRoot := at_OldRoot p; ast_OldKey := at_OldKey p;
                ast_OldLeafHash := oldLeafHash; ast_IsOld0 := at_IsOld0 p; ast_Fnc0 := at_Fnc0 p; ast_Fnc1 := at_Fnc1 p |}
      end
  end.
(** The conversions of a list, up to the first failure. *)
Fixpoint convert_all {A B} (msg : string) (f : A → result B) (l : list A) : result (list B) :=
  match l with
  | [] => Ok []
  | a :: l => match f a with
              | Err e => Err (Wrap msg e)
              | Ok b => match convert_all msg f l with Err e => Err e | Ok bs => Ok (b :: bs) end
              end
  end.
(** [src/circuits/statetransition/inputs.go:63-71] one slot of the votes, in GenerateAssignment *)
Definition assign_vote (v : Vote) : AssignedVote :=
  {| asv_Ballot := default NewBallot (v_Ballot v); asv_ReencryptedBallot := v_ReencryptedBallot v;
     asv_OverwrittenBallot := default NewBallot (v_OverwrittenBallot v); asv_Address := default 0 (v_Address v);
     asv_BallotIndex := u64Z (v_BallotIndex v); asv_VoteWeight := default 0 (v_Weight v); asv_VoteID := u64Z (v_VoteID v) |}.
(** [src/circuits/statetransition/inputs.go:30-118] GenerateAssignment, of a batch that was prepared *)
Definition GenerateAssignment (batch : Batch) (censusRoot : Z) (proofs : CensusProofs) (kSeed : Z) : result TransitionAssignment :=
  match processProofs batch, votesProofs batch, blobEvalData batch with
  | Some pp, Some vp, Some blob =>
      match convert_all "could not get process proof" (MerkleProofFromArboProof leafHash)
              [pp_ID pp; pp_CensusOrigin pp; pp_BallotMode pp; pp_EncryptionKey pp] with
      | Err e => Err e
      | Ok processProofs =>
          match convert_all "could not get Ballot proof" MerkleTransitionFromArboTransition (vp_Ballot vp),
                convert_all "could not get VoteID proof" MerkleTransitionFromArboTransition (vp_VoteID vp),
                MerkleTransitionFromArboTransition (vp_Results vp) with
          | Ok ballots, Ok voteIDs, Ok results =>
              Ok {| sta_CensusRoot := censusRoot; sta_CensusProofs := proofs; sta_ReencryptionK := kSeed;
                    sta_RootHashBefore := rootHashBefore batch; sta_RootHashAfter := rootHashAfter batch;
                    sta_Process := State_Process (b_state batch);
                    sta_VotersCount := votersCount batch; sta_OverwrittenVotesCount := overwrittenVotesCount batch;
                    sta_OldResults := oldResults batch; sta_NewResults := newResults batch;
                    sta_Blob := blob; sta_Votes := assign_vote <$> PaddedVotes batch;
                    sta_ProcessProofs := processProofs; sta_Ballot := ballots; sta_VoteIDs := voteIDs;
                    sta_Results := results |}
          | Err e, _, _ | _, Err e, _ => Err e
          | _, _, Err e => Err (Wrap "could not get Results proof" e)
          end
      end
  | _, _, _ => Err (ErrMsg "nil pointer dereference")
  end.
End assignment.
Arguments CensusProofs : clear implicits.
Arguments TransitionAssignment {_} _ _.

(** ** What the loop relies on *)

(** The trees of the states in the database: opening one, and the commit of a new version. *)
Class StateTrees `{Curve} `{Arbo} := {
  state_load : kv → ProcessID → result State;
  state_save : State → kv → kv;
  state_save_frame st d k : ¬ state_keys k → state_save st d !! k = d !! k }.
(** The proofs of the census trees, of third parties. *)
Class Censuses `{CensusDB} := {
  Merkle : Type; CSP : Type;
  tree_Root : CensusTree → option Z;
  tree_GenerateProof : CensusTree → option Z → result Merkle;
  DummyMerkleProof : Merkle;
  DummyCSPProof : CSP;
  CensusProofToCSPProof : bytes → result CSP;
  (* the census proof of an aggregated ballot: the voter's index, if there is a proof *)
  VoterIndex : bytes → option uint64;
  CensusRoot_Z : Census → Z }.

(** ** Building the transition *)

Section transitions.
Context `{Env : StorageEnv} `{Web3} `{Solidity} `{Curve} `{Arbo} `{Hash : PoseidonHasher} `{KZG} `{!StateTrees} `{Censuses}.
Context (leafHash : Z → Z → result Z).
(** gnark's prover, with the verification of its proof; the last argument is the inner proof. *)
Context (ProveTransition : TransitionAssignment Merkle CSP → bytes → result bytes).
(** The scalar that a call draws. *)
Context (RandomK : result Z).
(** The bytes of a stored sidecar and of a stored artifact. *)
Context (sidecar_bytes : BlobTxSidecar → bytes) (artifact_payload : BlobTxSidecar → bytes → bytes).

(** [src/sequencer/helpers.go:15-59] *)
Definition currentProcessState (pid : ProcessID) : SE Sequencer State :=
  process ← wrapping "failed to get process metadata" (on_stg (Storage_Process pid));
  isAcceptingVotes ← wrapping "failed to check if process is accepting votes" (on_stg (ProcessIsAcceptingVotes pid));
  if negb isAcceptingVotes then raise (ErrMsg "process is not accepting votes")
  else
    _ ← wrapping "failed to load state" (on_stg (on_state (state_New pid)));
    packedBallotMode ← wrapping "failed to pack ballot mode" (lift (Pack (p_BallotMode process)));
    match p_Census process, p_EncryptionKey process with
    | Some census, Some key =>
        _ ← wrapping "failed to init state" (ignoring ErrStateAlreadyInitialized
              (on_stg (on_state (state_Initialize pid (c_CensusOrigin census) packedBallotMode key))));
        st ← on_stg (d ← gets db; lift (state_load d pid));
        _ ← wrapping "failed to get current root" (lift (eval RootAsBigInt st));
        mret st
    | _, _ => raise (ErrMsg "nil pointer dereference")
    end.

(** The points of a stored ballot. *)
Definition ballot_points (e : EncryptedBallot) : ElGamal.Ballot :=
  (λ c, MkCipher (SetPoint (C1 c)) (SetPoint (C2 c))) <$> Ciphertexts e.
(** [src/sequencer/statetransition.go:311-332] the votes in order, each reencrypted with the scalar that the one
    before it leaves, in reencryptVotes *)
Fixpoint reencrypt_all (encryptionKey : point) (lastK : Z) (votes : list AggregatorBallot) : result (list Vote) :=
  match votes with
  | [] => Ok []
  | v :: votes =>
      match VoterIndex (ab_CensusProof v), ab_EncryptedBallot v with
      | None, _ => Err (ErrMsg "missing census proof for vote index")
      | _, None => Err (ErrMsg "nil pointer dereference")
      | Some voterIndex, Some e =>
          let b := ballot_points e in
          match Reencrypt b encryptionKey lastK with
          | Err e => Err (Wrap "failed to reencrypt ballot" e)
          | Ok (reencryptedBallot, lastK) =>
              match CalculateBallotIndex voterIndex with
              | Err e => Err e
              | Ok index =>
                  match reencrypt_all encryptionKey lastK votes with
                  | Err e => Err e
                  | Ok rest =>
                      Ok ({| v_Address := ab_Address v; v_BallotIndex := index; v_VoteID := ab_VoteID v; v_Ballot := Some b;
                             v_OverwrittenBallot := None; v_Weight := ab_Weight v;
                             v_ReencryptedBallot := reencryptedBallot |} :: rest)
                  end
              end
          end
      end
  end.
(** [src/sequencer/statetransition.go:298-334] *)
Definition reencryptVotes (pid : ProcessID) (votes : list AggregatorBallot) : SE Sequencer (list Vote * Z) :=
  kSeed ← wrapping "failed to generate random k" (lift RandomK);
  keys ← wrapping "failed to get encryption key" (on_stg (ProcessEncryptionKeys pid));
  reencryptedVotes ← lift (reencrypt_all (SetPoint keys.1) kSeed votes);
  mret (reencryptedVotes, kSeed).

(** The [n] slots of the batch from the ballots in front; the others get the dummy. *)
Fixpoint fill_slots {A B} (prove : A → result B) (dummy : B) (msg : string) (l : list A) (n : nat) : result (list B) :=
  match n with
  | O => Ok []
  | S n =>
      match l with
      | [] => Ok (replicate (S n) dummy)
      | a :: l => match prove a with
                  | Err e => Err (Wrap msg e)
                  | Ok b => match fill_slots prove dummy msg l n with Err e => Err e | Ok bs => Ok (b :: bs) end
                  end
      end
  end.
(** [src/sequencer/statetransition.go:371-443]; the root of a tree without one is nil *)
Definition processCensusProofs (pid : ProcessID) (votes : list Vote) (censusProofs : list bytes)
    : SE Sequencer (option Z * CensusProofs Merkle CSP) :=
  process ← wrapping "failed to get process metadata" (on_stg (Storage_Process pid));
  match p_Census process with
  | None => raise (ErrMsg "nil pointer dereference")
  | Some census =>
      if IsMerkleTree (c_CensusOrigin census) then
        chainID ← (if c_CensusOrigin census =? CensusOriginMerkleTreeOnchainDynamicV1
                   then contracts ← wrapping "failed to resolve contracts for process" (lift (contractsForProcess pid));
                        mret (Contracts_ChainID contracts)
                   else mret 0);
        censusRef ← wrapping "failed to load census for process" (lift (LoadCensus chainID (Some census)));
        match censusRef with
        | None => raise (ErrMsg "nil pointer dereference")
        | Some censusTree =>
            merkleProofs ← lift (fill_slots (λ v, tree_GenerateProof censusTree (v_Address v)) DummyMerkleProof
                                   "error generating census proof for address" votes VotesPerBatch);
            mret (tree_Root censusTree, {| MerkleProofs := merkleProofs; CSPProofs := replicate VotesPerBatch DummyCSPProof |})
        end
      else if IsCSP (c_CensusOrigin census) then
        cspProofs ← lift (fill_slots CensusProofToCSPProof DummyCSPProof "error transforming census proof for address"
                            (take (length votes) censusProofs) VotesPerBatch);
        mret (Some (CensusRoot_Z census), {| MerkleProofs := replicate VotesPerBatch DummyMerkleProof; CSPProofs := cspProofs |})
      else raise (ErrMsg "unsupported census origin")
  end.
(** [src/sequencer/statetransition.go:336-369]; the batch is discarded on errors *)
Definition stateBatchToAssignment (st : State) (votes : list Vote) (censusRoot : Z) (proofs : CensusProofs Merkle CSP) (kSeed : Z)
    : result (TransitionAssignment Merkle CSP * Batch) :=
  match PrepareVotesBatch votes st with
  | Err e => Err (Wrap "failed to prepare votes batch in state" e)
  | Ok batch => match GenerateAssignment leafHash batch censusRoot proofs kSeed with
                | Err e => Err (Wrap "failed to generate assignment" e)
                | Ok assignment => Ok (assignment, batch)
                end
  end.
(** [src/sequencer/statetransition.go:222-257]; the new version of the tree is stored by the commit *)
Definition processStateTransitionBatch (st : State) (censusRoot : Z) (proofs : CensusProofs Merkle CSP) (votes : list Vote)
    (kSeed : Z) (innerProof : bytes) : SE Sequencer (bytes * Batch) :=
  ab ← wrapping "failed to generate assignment" (lift (stateBatchToAssignment st votes censusRoot proofs kSeed));
  proof ← wrapping "failed to generate proof" (lift (ProveTransition ab.1 innerProof));
  match Batch_Commit ab.2 with
  | (Err e, _) => raise (Wrap "failed to commit state transition batch" e)
  | (Ok _, batch) =>
      _ ← on_stg (modify (λ s, set_db (state_save (b_state batch) (db s)) s));
      mret (proof, batch)
  end.
(** [src/sequencer/statetransition.go:211-220] *)
Definition buildStateTransitionBatchProofInputs (batch : Batch) (censusRoot : Z) : StateTransitionBatchProofInputs :=
  {| RootHashBefore := rootHashBefore batch; RootHashAfter := rootHashAfter batch; VotersCount := votersCount batch;
     OverwrittenVotesCount := overwrittenVotesCount batch; in_CensusRoot := Some censusRoot;
     BlobCommitmentLimbs := match blobEvalData batch with Some d => Some <$> be_CommitmentLimbs d | None => [] end |}.

(** ** The loop *)

(** [src/sequencer/statetransition.go:205-209] *)
Definition markAggregatorBatchFailed (batchID : bytes) : SE Sequencer () := warn (on_stg (MarkAggregatorBatchFailed batchID)).
(** [src/sequencer/statetransition.go:155-202] the transition is queued, in processPendingTransitions *)
Definition queue_transition (pid : ProcessID) (batch : AggregatorBallotBatch) (batchID proof : bytes) (stateBatch : Batch)
    (censusRoot : Z) (blobSidecar : BlobTxSidecar) : SE Sequencer () :=
  _ ← warn (on_stg (SetPendingTx StateTransitionTx (abb_ProcessID batch)));
  pending ← attempt (on_stg (MarkAggregatorBatchPending batch));
  match pending with
  | Err _ => mret ()
  | Ok _ =>
      pushed ← attempt (on_stg (PushStateTransitionBatch
        {| stb_ProcessID := abb_ProcessID batch; stb_Proof := proof; stb_Ballots := abb_Ballots batch;
           stb_Inputs := buildStateTransitionBatchProofInputs stateBatch censusRoot;
           stb_Blob := sidecar_bytes blobSidecar; stb_BatchID := batchID |}));
      match pushed with
      | Err _ => markAggregatorBatchFailed batchID
      | Ok _ =>
          recorded ← attempt (on_stg (PushStateTransitionArtifact (Some
            {| ta_ProcessID := abb_ProcessID batch; ta_RootHashBefore := rootHashBefore stateBatch;
               ta_RootHashAfter := rootHashAfter stateBatch; ta_Payload := artifact_payload blobSidecar batchID |})));
          match recorded with
          | Err _ => markAggregatorBatchFailed batchID
          | Ok _ =>
              done ← attempt (on_stg (MarkAggregatorBatchDone batchID));
              match done with
              | Err _ => mret ()
              | Ok _ => _ ← on_ids (λ now, ProcessIDMap.Add now pid); mret ()
              end
          end
      end
  end.
(** [src/sequencer/statetransition.go:84-146] the batch is proved, in processPendingTransitions; an error fails the batch *)
Definition build_transition (pid : ProcessID) (batch : AggregatorBallotBatch) : SE Sequencer (bytes * Batch * Z * BlobTxSidecar) :=
  processState ← currentProcessState pid;
  votes ← reencryptVotes (abb_ProcessID batch) (abb_Ballots batch);
  census ← processCensusProofs (abb_ProcessID batch) votes.1 (ab_CensusProof <$> abb_Ballots batch);
  match census.1 with
  | None => raise (ErrMsg "nil pointer dereference")
  | Some censusRoot =>
      pb ← processStateTransitionBatch processState censusRoot census.2 votes.1 votes.2 (abb_Proof batch);
      match rootHashBefore pb.2, rootHashAfter pb.2, blobEvalData pb.2 with
      | Some before, Some after, Some d =>
          if (before =? after) && negb (length votes.1 =? 0)%nat then raise (ErrMsg "state root unchanged after adding votes")
          else mret (pb.1, pb.2, censusRoot, TxSidecar d)
      | _, _, _ => raise (ErrMsg "nil pointer dereference")
      end
  end.
(** [src/sequencer/statetransition.go:50-82] the step of processPendingTransitions, the callback for one process; the loop
    always goes on *)
Definition process_transition (pid : ProcessID) (_ : Time) : SE Sequencer bool :=
  if negb (SupportsProcess pid) then mret true
  else
    busy ← on_stg (HasPendingTx StateTransitionTx pid);
    if (busy : bool) then mret true
    else
      next ← attempt (on_stg (NextAggregatorBatch pid));
      match next with
      | Err _ => mret true
      | Ok (batch, batchID) =>
          match abb_Ballots batch with
          | [] => _ ← markAggregatorBatchFailed batchID; mret true
          | _ =>
              built ← attempt (build_transition pid batch);
              _ ← match built with
                  | Err _ => markAggregatorBatchFailed batchID
                  | Ok (proof, stateBatch, censusRoot, sidecar) =>
                      queue_transition pid batch batchID proof stateBatch censusRoot sidecar
                  end;
              mret true
          end
      end.
(** [src/sequencer/statetransition.go:48-203] *)
Definition processPendingTransitions : SE Sequencer () := ForEach process_transition.
End transitions.
