(* ===== verification/InFlight.v ===== *)
(** * The sequencer: transitions in flight

    How the mark of a pending transaction, the batch kept aside and the queue of
    transitions of a process go together in [SequencerTransitions] and [SequencerOnchain]: while no
    commit fails a marked process always has a transition in the queue, and the callback of its
    transaction frees the process; after one failing commit a process can stay marked with
    nothing in the queue, and nothing ever serves it again. *)

From S2P Require Import Prelude Bytes DB Spec Types Census StorageTypes StorageBase Process VoteStatus Stats Ballots Batches Curve ElGamal StateTree StateVote StateBatch Pipeline Voters SequencerBase SequencerBallots SequencerOnchain SequencerTransitions.

(** ** Operations that leave some key spaces alone *)

Definition away (ps : list bytes) (q : bytes) : bool := forallb (λ p, incompatible p q) ps.
(** No failing commit shows up, and the entries under the prefixes [ps] stay. *)
Definition alone (ps : list bytes) : relation Storage := λ s s', quiet s →
  quiet s' ∧ ∀ p k, p ∈ ps → db s' !! (p ++ k) = db s !! (p ++ k).
#[export] Instance alone_preorder ps : PreOrder (alone ps).
Proof.
  split; [by intros s Hq|]. intros a b c Hab Hbc Ha. destruct (Hab Ha) as [Hb H1]. destruct (Hbc Hb) as [Hc H2].
  split; [done|]. intros p k Hp. by rewrite H2, H1.
Qed.

Section alone.
Context `{Env : StorageEnv} (ps : list bytes).

Lemma alone_frame {A} qs (m : M A) :
  forallb (away ps) qs = true → moves (touches (spaces qs)) m → moves keeps_quiet m → moves (alone ps) m.
Proof.
  intros Hqs Ht Hk s Hq. split; [by apply Hk|]. intros p k Hp. apply (Ht s), spaces_no.
  apply forallb_forall. intros q Hq'. rewrite forallb_forall in Hqs. specialize (Hqs q Hq'). unfold away in Hqs.
  rewrite forallb_forall in Hqs. apply Hqs. by apply list_elem_of_In.
Qed.
Lemma alone_one {A} q (m : M A) : away ps q = true → moves (touches (spaces [q])) m → moves keeps_quiet m → moves (alone ps) m.
Proof. intros Hq. apply alone_frame. cbn. by rewrite Hq. Qed.
#[local] Existing Instance Committal_quiet.
Lemma alone_commit_Set q k v : away ps q = true → moves (alone ps) (StorageBase.commit (prefixed_Set q k v ∅)).
Proof. intros Hq. eapply alone_one; [exact Hq|apply commit_Set_touches; in_list|apply moves_commit_quiet]. Qed.
Lemma alone_commit_Delete q k : away ps q = true → moves (alone ps) (StorageBase.commit (prefixed_Delete q k ∅)).
Proof. intros Hq. eapply alone_one; [exact Hq|apply commit_Delete_touches; in_list|apply moves_commit_quiet]. Qed.
Lemma alone_setArtifact `{Codec A} q k (a : A) : away ps q = true → moves (alone ps) (setArtifact q k a).
Proof. intros Hq. eapply alone_one; [exact Hq|apply moves_setArtifact_touches; in_list|apply moves_setArtifact; apply _]. Qed.
Lemma alone_deleteArtifact q k : away ps q = true → moves (alone ps) (deleteArtifact q k).
Proof. intros Hq. eapply alone_one; [exact Hq|apply moves_deleteArtifact_touches; in_list|apply moves_deleteArtifact; apply _]. Qed.
Lemma alone_setReservation q k : away ps (reservationDB q) = true → moves (alone ps) (setReservation q k).
Proof. intros Hq. eapply alone_one; [exact Hq|apply moves_setReservation_touches; in_list|apply moves_setReservation; apply _]. Qed.
Lemma alone_deleteReservation q k : away ps (reservationDB q) = true → moves (alone ps) (deleteReservation q k).
Proof. intros Hq. eapply alone_one; [exact Hq|apply moves_deleteReservation_touches; in_list|apply moves_deleteReservation; apply _]. Qed.
Lemma alone_status pid v st : away ps voteIDStatusPrefix = true → moves (alone ps) (setVoteIDStatus pid v st).
Proof.
  intros Hq. eapply alone_one; [exact Hq|apply moves_setVoteIDStatus_touches; in_list|].
  unfold setVoteIDStatus. repeat first [progress moves | apply moves_commit_quiet].
Qed.
Lemma alone_done pid vs : away ps voteIDStatusPrefix = true → moves (alone ps) (markVoteIDsDone pid vs).
Proof. intros Hq. eapply alone_one; [exact Hq|apply done_touches|]. apply moves_commit_quiet. Qed.
Lemma alone_stats pid us : away ps processPrefix = true → away ps statsPrefix = true → moves (alone ps) (updateProcessStats pid us).
Proof.
  intros Hp Hs. apply (alone_frame [processPrefix; statsPrefix]); [cbn; by rewrite Hp, Hs| |apply moves_updateProcessStats_quiet].
  apply updateProcessStats_touches; in_list.
Qed.
Lemma alone_on_state f : away ps stateDBprefix = true → (∀ d k, ¬ state_keys k → (f d).2 !! k = d !! k) → moves (alone ps) (on_state f).
Proof.
  intros Hq Hf. eapply alone_one; [exact Hq| |intros s; unfold on_state, keeps_quiet; by destruct (f (db s))].
  intros s k Hk. unfold on_state. specialize (Hf (db s) k). destruct (f (db s)) as [r d].
  apply Hf. intros Hs. apply Hk. exists stateDBprefix. split; [by left|exact Hs].
Qed.
Lemma alone_modify f : (∀ s, db (f s) = db s ∧ faults (f s) = faults s) → moves (alone ps) (modify f).
Proof. intros Hf s Hq. destruct (Hf s) as [Hd Hfs]. cbn [modify snd]. split; [unfold quiet in *; by rewrite Hfs|]. intros p k _. by rewrite Hd. Qed.
End alone.

(** The leaves, when the prefixes are concrete. *)
Ltac alone_leaf := solve
  [ apply alone_modify; intros; done
  | first [apply moves_rd_Get | apply moves_getArtifact | apply moves_listArtifacts | apply moves_pendingAggregatorBatch | apply moves_process]; apply _
  | first [apply alone_commit_Set | apply alone_commit_Delete | apply alone_setArtifact | apply alone_deleteArtifact
          | apply alone_setReservation | apply alone_deleteReservation | apply alone_status | apply alone_done | apply alone_stats]; by vm_compute ].
#[local] Hint Extern 2 (moves (alone _) _) => alone_leaf : moves.

(** ** The state of a process in flight *)

Definition mark_prefix : bytes := pendingTxPrefix ++ StateTransitionTx.
Definition flight_prefixes : list bytes := [mark_prefix; pendingAggregBatchPrefix; stateTransitionPrefix].

Section ops.
Context `{Env : StorageEnv}.

(** A marked process has a transition in the queue; an unmarked one has no batch kept aside. *)
Definition in_flight (pid : ProcessID) (d : kv) : Prop :=
  match d !! (mark_prefix ++ pid_bytes pid) with
  | None => d !! (pendingAggregBatchPrefix ++ pid_bytes pid) = None
  | Some v => DecodeArtifact v = Ok true ∧ ∃ k val, d !! (stateTransitionPrefix ++ pid_bytes pid ++ k) = Some val
  end.
Definition marked (d : kv) (pid : ProcessID) : bool :=
  match d !! (mark_prefix ++ pid_bytes pid) with
  | Some v => match DecodeArtifact v with Ok b => b | Err _ => false end
  | None => false
  end.

Lemma pendingTxs_eq pid s : pendingTxs StateTransitionTx pid s =
  (match db s !! (mark_prefix ++ pid_bytes pid) with
   | None => Ok false
   | Some v => match DecodeArtifact v with Ok b => Ok b | Err e => Err (Wrap "could not decode artifact" e) end
   end, s).
Proof.
  unfold pendingTxs. erewrite bind_Ok by apply attempt_eq. rewrite getArtifact_eq. fold mark_prefix. cbn [fst snd].
  destruct (db s !! _) as [v|]; [|done]. by destruct (DecodeArtifact v).
Qed.
Lemma HasPendingTx_eq pid s : HasPendingTx StateTransitionTx pid s = (Ok (marked (db s) pid), s).
Proof.
  unfold HasPendingTx, marked. erewrite bind_Ok by apply attempt_eq. rewrite pendingTxs_eq. cbn [fst snd].
  destruct (db s !! _) as [v|]; [|done]. by destruct (DecodeArtifact v).
Qed.
Lemma in_flight_alone pid s s' : alone flight_prefixes s s' → quiet s → in_flight pid (db s) → in_flight pid (db s').
Proof.
  intros Ha [_ H]%Ha. unfold in_flight. rewrite !H by (unfold flight_prefixes; in_list).
  destruct (db s !! _) as [v|]; [|done]. intros (Hv & k & val & Hk). split; [done|]. exists k, val.
  rewrite H; [done|]. unfold flight_prefixes. in_list.
Qed.

Lemma alone_pushAggregatorBatch abb : moves (alone flight_prefixes) (pushAggregatorBatch abb).
Proof. unfold pushAggregatorBatch. moves. Qed.
Lemma alone_MarkAggregatorBatchFailed k : moves (alone flight_prefixes) (MarkAggregatorBatchFailed k).
Proof. unfold MarkAggregatorBatchFailed, failAggregated, releaseVoteID, voteIDStatus. moves. Qed.
Lemma alone_NextAggregatorBatch pid : moves (alone flight_prefixes) (NextAggregatorBatch pid).
Proof. unfold NextAggregatorBatch. moves. Qed.
Lemma alone_MarkAggregatorBatchDone k : moves (alone flight_prefixes) (MarkAggregatorBatchDone k).
Proof. unfold MarkAggregatorBatchDone, removeEntry. moves. Qed.
Lemma alone_PushArtifact a : moves (alone flight_prefixes) (PushStateTransitionArtifact a).
Proof. unfold PushStateTransitionArtifact, pushStateTransitionArtifact. moves. Qed.
End ops.

(** ** A process of the loop *)

Section steps.
Context `{Env : StorageEnv} `{Web3} `{Solidity} `{!StatePromotion} `{Curve} `{Arbo} `{Hash : PoseidonHasher} `{KZG} `{!StateTrees} `{Censuses}.
Context (leafHash : Z → Z → result Z) (ProveTransition : TransitionAssignment Merkle CSP → bytes → result bytes).
Context (RandomK : result Z) (sidecar_bytes : BlobTxSidecar → bytes) (artifact_payload : BlobTxSidecar → bytes → bytes).
Notation build_transition := (build_transition leafHash ProveTransition RandomK).
Notation queue_transition := (queue_transition sidecar_bytes artifact_payload).
Notation process_transition := (process_transition leafHash ProveTransition RandomK sidecar_bytes artifact_payload).

Definition on_storage (R : relation Storage) : relation Sequencer := λ q q', R (q_stg q) (q_stg q').
#[local] Instance on_storage_preorder R `{!PreOrder R} : PreOrder (on_storage R).
Proof. split; [intros q; unfold on_storage; reflexivity|]. intros a b c. unfold on_storage. apply transitivity. Qed.
Lemma moves_on_storage {A} R (m : M A) : moves R m → moves (on_storage R) (on_stg m).
Proof. intros Hm q. rewrite on_stg_eq. apply Hm. Qed.
Lemma moves_on_ids {A} R `{!PreOrder R} (f : Time → ProcessIDMap.t → A * ProcessIDMap.t) : moves (on_storage R) (on_ids f).
Proof. intros q. unfold on_ids. destruct (f _ _). unfold on_storage. cbn. reflexivity. Qed.
Notation calm := (alone flight_prefixes).
Notation calm_seq := (on_storage calm).

Lemma alone_currentProcessState ps pid : away ps stateDBprefix = true → moves (on_storage (alone ps)) (currentProcessState pid).
Proof.
  intros Hps. unfold currentProcessState.
  assert (Hs : ∀ f, (∀ d k, ¬ state_keys k → (f d).2 !! k = d !! k) → moves (on_storage (alone ps)) (on_stg (on_state f))).
  { intros f Hf. apply moves_on_storage, alone_on_state; done. }
  repeat first [ apply Hs; first [apply state_New_frame | apply state_Initialize_frame]
    | apply moves_on_storage; unfold Storage_Process, ProcessIsAcceptingVotes, processIsAcceptingVotes, processIsOnChainAlive; solve [moves]
    | moves_step ].
Qed.
Lemma calm_currentProcessState pid : moves calm_seq (currentProcessState pid).
Proof. apply alone_currentProcessState. by vm_compute. Qed.
Lemma calm_state_save st : moves calm (modify (λ s, set_db (state_save st (db s)) s)).
Proof.
  intros s Hq. cbn [modify snd]. split; [done|]. intros p k Hp. cbn [db set_db]. apply state_save_frame.
  unfold state_keys. intros Hk. revert Hk. apply not_true_iff_false. revert Hp. unfold flight_prefixes. intros Hp.
  apply (incompatible_no p (bytes_of_string "st_") k).
  repeat (apply elem_of_cons in Hp as [->|Hp]; [by vm_compute|]). by apply not_elem_of_nil in Hp.
Qed.
Lemma calm_build pid batch : moves calm_seq (build_transition pid batch).
Proof.
  unfold SequencerTransitions.build_transition, reencryptVotes, processCensusProofs, processStateTransitionBatch.
  repeat first [ apply calm_currentProcessState
    | apply moves_on_storage; unfold Storage_Process, ProcessEncryptionKeys, encryptionKeysUnsafe; solve [moves]
    | apply moves_on_storage, calm_state_save | moves_step ].
Qed.

(** The records of a transition can be encoded. *)
Definition flight_encode : Prop :=
  is_Ok (EncodeArtifact true) = true ∧ (∀ b : AggregatorBallotBatch, is_Ok (EncodeArtifact b) = true) ∧
  ∀ stb : StateTransitionBatch, is_Ok (EncodeArtifact stb) = true.
Lemma encoded `{Codec A} (a : A) : is_Ok (EncodeArtifact a) = true → ∃ v, EncodeArtifact a = Ok v.
Proof. destruct (EncodeArtifact a) as [v|]; [eauto|done]. Qed.

Lemma PushStateTransitionBatch_pushed stb s : quiet s → is_Ok (EncodeArtifact stb) = true →
  ∃ k val, calm (set_db (<[stateTransitionPrefix ++ pid_bytes (stb_ProcessID stb) ++ k := val]> (db s)) s)
             (PushStateTransitionBatch stb s).2.
Proof.
  intros Hq [val Hval]%encoded. exists (hashKey val), val. unfold PushStateTransitionBatch.
  erewrite bind_Ok by (unfold wrapping, lift; rewrite Hval; reflexivity). cbv zeta. erewrite bind_Ok by (apply commit_quiet; exact Hq).
  rewrite apply_Set. set (s1 := set_db _ s). clearbody s1. generalize s1. clear s1. intros s1. to_moves. moves.
Qed.
Lemma SetPendingTx_sets pid s : quiet s → is_Ok (EncodeArtifact true) = true → db s !! (mark_prefix ++ pid_bytes pid) = None →
  ∃ v, DecodeArtifact v = Ok true ∧ SetPendingTx StateTransitionTx pid s = (Ok (), set_db (<[mark_prefix ++ pid_bytes pid := v]> (db s)) s).
Proof.
  intros Hq [v Hv]%encoded Hm. exists v. split; [by apply codec_roundtrip in Hv|]. unfold SetPendingTx.
  erewrite bind_Ok by (rewrite pendingTxs_eq, Hm; reflexivity). by apply setArtifact_quiet.
Qed.
Lemma MarkAggregatorBatchPending_keeps batch s : quiet s → is_Ok (EncodeArtifact batch) = true →
  db s !! (pendingAggregBatchPrefix ++ pid_bytes (abb_ProcessID batch)) = None →
  ∃ v, MarkAggregatorBatchPending batch s =
    (Ok (), set_db (<[pendingAggregBatchPrefix ++ pid_bytes (abb_ProcessID batch) := v]> (db s)) s).
Proof.
  intros Hq [v Hv]%encoded Hs. exists v. unfold MarkAggregatorBatchPending, wrapping, lift.
  erewrite bind_Ok by (rewrite Hv; reflexivity). cbv zeta. erewrite bind_Ok by apply attempt_rd_Get. rewrite Hs.
  by rewrite commit_quiet, apply_Set by done.
Qed.

Lemma calm_markFailed k : moves calm_seq (markAggregatorBatchFailed k).
Proof. unfold markAggregatorBatchFailed. apply moves_warn, moves_on_storage, alone_MarkAggregatorBatchFailed. Qed.
(** Queueing a transition puts the process in flight, and no other process changes. *)
Lemma queue_transition_in_flight pid batch batchID proof b root sidecar q :
  quiet (q_stg q) → flight_encode → abb_ProcessID batch = pid →
  db (q_stg q) !! (mark_prefix ++ pid_bytes pid) = None → db (q_stg q) !! (pendingAggregBatchPrefix ++ pid_bytes pid) = None →
  let q' := exec (queue_transition pid batch batchID proof b root sidecar) q in
  quiet (q_stg q') ∧ in_flight pid (db (q_stg q')) ∧
  ∀ pid', pid' ≠ pid → in_flight pid' (db (q_stg q)) → in_flight pid' (db (q_stg q')).
Proof.
  intros Hq (He1 & He2 & He3) <- Hm Hs. cbv zeta. unfold SequencerTransitions.queue_transition, exec.
  set (stb := {| stb_ProcessID := abb_ProcessID batch |}).
  set (pid := abb_ProcessID batch) in *.
  destruct (SetPendingTx_sets pid (q_stg q) Hq He1 Hm) as (v & Hv & E1). erewrite bind_Ok by apply warn_eq.
  rewrite on_stg_eq, E1. cbn [fst snd q_stg q_ids].
  set (s1 := set_db _ (q_stg q)).
  assert (Hs1 : db s1 !! (pendingAggregBatchPrefix ++ pid_bytes pid) = None).
  { unfold s1. cbn [db set_db]. rewrite lookup_insert_ne; [done|]. apply incompatible_app. by vm_compute. }
  destruct (MarkAggregatorBatchPending_keeps batch s1 Hq (He2 batch) Hs1) as (w & E2). fold pid in E2.
  erewrite bind_Ok by apply attempt_eq. rewrite on_stg_eq. cbn [fst snd q_stg q_ids]. rewrite E2. cbn [fst snd].
  set (s2 := set_db _ s1). destruct (PushStateTransitionBatch_pushed stb s2 Hq (He3 stb)) as (k & val & Hc).
  change (stb_ProcessID stb) with pid in Hc.
  erewrite bind_Ok by apply attempt_eq. rewrite on_stg_eq. cbn [fst snd q_stg q_ids].
  destruct (PushStateTransitionBatch stb s2) as [r s3]. cbn [fst snd] in *.
  match goal with |- context [(?m {| q_stg := s3; q_ids := _ |}).2] => assert (Hm' : moves calm_seq m) end.
  { destruct r; repeat first [apply calm_markFailed | apply moves_on_storage; first [apply alone_PushArtifact | apply alone_MarkAggregatorBatchDone]
      | apply moves_on_ids; apply _ | moves_step]. }
  specialize (Hm' {| q_stg := s3; q_ids := q_ids q |}). unfold on_storage in Hm'. cbn [q_stg] in Hm'.
  match goal with |- context [(?m {| q_stg := s3; q_ids := _ |}).2] => set (q' := (m {| q_stg := s3; q_ids := q_ids q |}).2) in * end.
  assert (Ha : calm (set_db (<[stateTransitionPrefix ++ pid_bytes pid ++ k := val]> (db s2)) s2) (q_stg q')) by (by etrans).
  clear Hc Hm' E1 E2. split_and!; [by apply Ha| |].
  - eapply in_flight_alone; [exact Ha|exact Hq|]. unfold in_flight, s2, s1. cbn [db set_db].
    rewrite !lookup_insert_ne by (apply incompatible_app; by vm_compute). rewrite lookup_insert_eq. split; [exact Hv|].
    exists k, val. by rewrite lookup_insert_eq.
  - intros pid' Hne Hf. eapply in_flight_alone; [exact Ha|exact Hq|]. revert Hf. unfold in_flight, s2, s1. cbn [db set_db].
    assert (Hk : ∀ p, p ++ pid_bytes pid ≠ p ++ pid_bytes pid') by (intros p ?%(inj (app p))%(inj pid_bytes); by subst).
    rewrite !(lookup_insert_ne _ _ (mark_prefix ++ pid_bytes pid')) by first [apply Hk | apply incompatible_app; by vm_compute].
    rewrite !(lookup_insert_ne _ _ (pendingAggregBatchPrefix ++ pid_bytes pid')) by first [apply Hk | apply incompatible_app; by vm_compute].
    destruct (db (q_stg q) !! (mark_prefix ++ pid_bytes pid')) as [x|]; [|done]. intros (Hx & j & y & Hj). split; [done|].
    destruct (decide (stateTransitionPrefix ++ pid_bytes pid ++ k = stateTransitionPrefix ++ pid_bytes pid' ++ j)) as [E|Hne'].
    + exists j, val. by rewrite E, lookup_insert_eq.
    + exists j, y. rewrite !lookup_insert_ne; [done|apply incompatible_app; by vm_compute..|done].
Qed.

(** The aggregated batches under a process are its own. *)
Definition own_batches (pid : ProcessID) (d : kv) : Prop := ∀ k val b,
  (k, val) ∈ prefixed_Iterate bk aggregBatchPrefix (pid_bytes pid) d → DecodeArtifact val = Ok b → abb_ProcessID b = pid.
Lemma NextAggregatorBatch_own pid s b k s' : own_batches pid (db s) → NextAggregatorBatch pid s = (Ok (b, k), s') → abb_ProcessID b = pid.
Proof.
  intros Hown. unfold NextAggregatorBatch, gets, wrapping, lift, attempt. run_simpl.
  destruct (List.find _ _) as [[k0 val]|] eqn:Hf; [|done].
  apply find_some in Hf as [Hin%list_elem_of_In _]. destruct (DecodeArtifact val) as [b'|e] eqn:Hb; [|done].
  destruct (setReservation _ _ _) as [[?|?] s1]; [|done]. intros [= <- _ _]. by eapply Hown.
Qed.
Lemma unmarked_free pid d : in_flight pid d → marked d pid = false →
  d !! (mark_prefix ++ pid_bytes pid) = None ∧ d !! (pendingAggregBatchPrefix ++ pid_bytes pid) = None.
Proof. unfold in_flight, marked. destruct (d !! (mark_prefix ++ _)) as [v|]; [|done]. by intros [-> _]. Qed.

(** C14: while no commit fails, the loop keeps every process in flight or free: a process that is marked
    as waiting for a transaction has a transition in the queue to be sent, and one that is not marked
    has no batch kept aside. This holds for the process that the loop works on and for
    all the others, whatever the census, the prover and the contracts answer. *)
Theorem process_transition_in_flight pid t q :
  quiet (q_stg q) → flight_encode → own_batches pid (db (q_stg q)) → in_flight pid (db (q_stg q)) →
  let q' := exec (process_transition pid t) q in
  quiet (q_stg q') ∧ ∀ pid', in_flight pid' (db (q_stg q)) → in_flight pid' (db (q_stg q')).
Proof.
  intros Hq He Hown Hfl. cbv zeta. unfold exec, SequencerTransitions.process_transition.
  destruct (SupportsProcess pid); cbn [negb]; [|done].
  erewrite bind_Ok by (rewrite on_stg_eq, HasPendingTx_eq; reflexivity). cbn [fst snd].
  destruct (marked (db (q_stg q)) pid) eqn:Hm; [done|].
  destruct (unmarked_free pid _ Hfl Hm) as [Hmark Hslot].
  erewrite bind_Ok by apply attempt_eq. rewrite on_stg_eq. cbn [fst snd q_stg q_ids].
  pose proof (alone_NextAggregatorBatch pid (q_stg q)) as Hn.
  destruct (NextAggregatorBatch pid (q_stg q)) as [[[batch batchID]|e] s1] eqn:En; cbn [fst snd] in *.
  2:{ split; [by apply Hn|]. intros pid' H'. by eapply in_flight_alone. }
  apply NextAggregatorBatch_own in En; [|exact Hown].
  assert (Hcalm : ∀ q', calm_seq {| q_stg := s1; q_ids := q_ids q |} q' →
    quiet (q_stg q') ∧ ∀ pid', in_flight pid' (db (q_stg q)) → in_flight pid' (db (q_stg q'))).
  { intros q' Hc. unfold on_storage in Hc. cbn [q_stg] in Hc. assert (Ha : calm (q_stg q) (q_stg q')) by (by etrans).
    split; [by apply Ha|]. intros pid' H'. by eapply in_flight_alone. }
  destruct (abb_Ballots batch) as [|b l].
  { apply Hcalm. to_moves. apply moves_bind; [apply _|apply calm_markFailed|intros; moves_step]. }
  erewrite bind_Ok by apply attempt_eq. set (q1 := {| q_stg := s1; q_ids := _ |}) in *.
  pose proof (calm_build pid batch q1) as Hbuild.
  destruct (build_transition pid batch q1) as [[[[[proof sb] root] sidecar]|e] q2]; cbn [fst snd] in *.
  - destruct (Hcalm q2 Hbuild) as [Hq2 Hf2]. unfold on_storage in Hbuild. cbn [q1 q_stg] in Hbuild.
    assert (Ha : calm (q_stg q) (q_stg q2)) by (by etrans). destruct (Ha Hq) as [_ Hl].
    destruct (queue_transition_in_flight pid batch batchID proof sb root sidecar q2) as (Hq3 & Hf3 & Ho3);
      [done..|by rewrite Hl by (unfold flight_prefixes; in_list)|by rewrite Hl by (unfold flight_prefixes; in_list)|].
    unfold exec in *. match goal with |- context [(?m ≫= ?f) q2] => assert (E : ((m ≫= f) q2).2 = (m q2).2) end.
    { unfold mbind, SE_bind. by destruct (queue_transition _ _ _ _ _ _ _ q2) as [[]]. }
    rewrite E. split; [exact Hq3|]. intros pid' H'. destruct (decide (pid' = pid)) as [->|]; [done|]. by apply Ho3, Hf2.
  - apply Hcalm. etrans; [exact Hbuild|]. to_moves. apply moves_bind; [apply _|apply calm_markFailed|intros; moves_step].
Qed.

(** ** The callback *)

Notation slot pid := (pendingAggregBatchPrefix ++ pid_bytes pid).
Lemma calm_errors pid bs : moves calm (markBallotsError pid bs).
Proof. unfold markBallotsError. moves. Qed.
Lemma calm_filterSettled pid f bs : moves calm (filterSettled pid f bs).
Proof. induction bs as [|b bs IH]; cbn [filterSettled]; [moves|]. destruct (f _); repeat first [exact IH | progress moves]. Qed.
#[local] Hint Resolve calm_errors calm_filterSettled alone_pushAggregatorBatch : moves.
Lemma release_slot pid s : quiet s → releasePendingAggregatorBatch pid s = (Ok (), set_db (delete (slot pid) (db s)) s).
Proof. intros Hq. unfold releasePendingAggregatorBatch. by rewrite commit_quiet, apply_Delete. Qed.
Lemma retry_frees stb pid pb s : quiet s →
  let s' := (retryPendingBatch stb pid pb s).2 in quiet s' ∧ db s' !! slot pid = None.
Proof.
  intros Hq. cbv zeta. unfold retryPendingBatch. erewrite bind_Ok by (unfold wrapping; by rewrite release_slot).
  cbv zeta. match goal with |- context [(?m (set_db ?d s)).2] => assert (Hm : moves calm m) end.
  { unfold processIsAcceptingVotes, processIsOnChainAlive. moves. }
  destruct (Hm (set_db (delete (slot pid) (db s)) s) Hq) as [Hq' Hl]. split; [exact Hq'|].
  rewrite Hl by (unfold flight_prefixes; in_list). apply lookup_delete_eq.
Qed.
Lemma fail_frees pid k s raw (stb : StateTransitionBatch) :
  quiet s → db s !! (stateTransitionPrefix ++ k) = Some raw → DecodeArtifact raw = Ok stb →
  (∀ v, db s !! slot pid = Some v → is_Ok (DecodeArtifact (A:=AggregatorBallotBatch) v) = true) →
  let s' := (MarkStateTransitionBatchFailed k pid s).2 in
  quiet s' ∧ db s' !! (stateTransitionPrefix ++ k) = None ∧ db s' !! slot pid = None.
Proof.
  intros Hq Hraw Hstb Hslot. cbv zeta. unfold MarkStateTransitionBatchFailed.
  erewrite bind_Ok by apply attempt_rd_Get. rewrite Hraw. cbv beta iota. rewrite (bind_Ok _ _ s stb s) by (unfold wrapping, lift; by rewrite Hstb).
  set (rm := match RootHashAfter (stb_Inputs stb) with None => _ | Some root => _ end).
  assert (Hrm : ∃ s1, rm s = (Ok (), s1) ∧ calm s s1).
  { unfold rm. destruct (RootHashAfter _) as [root|]; [|by exists s]. unfold removeStateTransitionArtifact, wrapping, ignoring.
    eexists. rewrite deleteArtifact_quiet by done. split; [done|].
    pose proof (alone_deleteArtifact flight_prefixes stateTransitionArtifactPrefix (stateTransitionArtifactKey (stb_ProcessID stb) (Some root)) ltac:(by vm_compute) s) as Hd.
    by rewrite deleteArtifact_quiet in Hd. }
  destruct Hrm as (s1 & E1 & Hc1). erewrite bind_Ok by exact E1. destruct (Hc1 Hq) as [Hq1 Hl1].
  erewrite bind_Ok by apply attempt_eq.
  match goal with |- context [(?m s1).2] => assert (Hm : quiet (m s1).2 ∧ db (m s1).2 !! slot pid = None) end.
  { erewrite bind_Ok by apply attempt_eq. unfold pendingAggregatorBatch. erewrite !(bind_Ok _ _ s1) by apply attempt_rd_Get.
    rewrite Hl1 by (unfold flight_prefixes; in_list). destruct (db s !! slot pid) as [v|] eqn:Hv.
    - specialize (Hslot v eq_refl). unfold wrapping, lift. destruct (DecodeArtifact v) as [pb|]; [|done]. cbn [fst snd]. by apply retry_frees.
    - cbn [fst snd raise errors_Is]. rewrite bool_decide_true by done. cbn [fst snd negb].
      destruct (calm_errors pid (stb_Ballots stb) s1 Hq1) as [Hq2 Hl2]. split; [exact Hq2|].
      rewrite Hl2, Hl1 by (unfold flight_prefixes; in_list). exact Hv. }
  match goal with |- context [(?m s1).2] => set (s2 := (m s1).2) in *; generalize (m s1).1; intros r end. destruct Hm as [Hq2 Hs2].
  erewrite bind_Ok by apply warn_eq. rewrite removeStateTransitionBatch_quiet by done. cbn [snd].
  erewrite bind_Ok by apply warn_eq. unfold prunePendingTx. rewrite deleteArtifact_quiet by done. cbn [snd lift db set_db].
  split_and!; [exact Hq2| |].
  - rewrite lookup_delete_ne by (apply incompatible_app; by vm_compute). apply lookup_delete_eq.
  - rewrite !lookup_delete_ne by (apply incompatible_app; by vm_compute). exact Hs2.
Qed.
Lemma done_frees pid k s : quiet s →
  let s' := (MarkStateTransitionBatchDone k pid s).2 in
  quiet s' ∧ db s' !! (stateTransitionPrefix ++ k) = None ∧ db s' !! slot pid = None.
Proof.
  intros Hq. cbv zeta. unfold MarkStateTransitionBatchDone. erewrite bind_Ok by apply attempt_rd_Get.
  match goal with |- context [(?m ≫= _) s] => set (first := m); assert (Hm : ∃ s1, m s = (Ok (), s1) ∧ calm s s1) end.
  { destruct (db s !! (stateTransitionPrefix ++ k)) as [raw|]; [|by exists s].
    destruct (DecodeArtifact raw) as [stb|]; [|by exists s].
    erewrite bind_Ok by apply forM_releaseVoteID. eexists. split; [apply warn_eq|].
    etrans; [|apply alone_done; by vm_compute]. intros _. by split. }
  destruct Hm as (s1 & E1 & Hc1). erewrite bind_Ok by exact E1. destruct (Hc1 Hq) as [Hq1 _]. clear first E1 Hc1.
  erewrite bind_Ok by (apply removeStateTransitionBatch_quiet; exact Hq1).
  erewrite bind_Ok by (unfold wrapping, ignoring; by rewrite release_slot).
  match goal with |- context [warn ?m ?s] => assert (Hm : moves calm (warn m)) by (apply moves_warn, alone_stats; by vm_compute);
    destruct (Hm s Hq1) as [Hq2 Hl] end.
  split_and!; [exact Hq2| |]; rewrite Hl by (unfold flight_prefixes; in_list); cbn [db set_db].
  - rewrite lookup_delete_ne by (apply incompatible_app; by vm_compute). apply lookup_delete_eq.
  - apply lookup_delete_eq.
Qed.
Lemma calm_promote pid root : moves calm (promoteCommittedStateFromTransition pid root).
Proof.
  unfold promoteCommittedStateFromTransition, GetStateTransitionArtifact, getStateTransitionArtifact.
  repeat first [apply alone_on_state; [by vm_compute|first [apply state_New_frame|apply state_SetRoot_frame|apply state_Apply_frame]] | progress moves].
Qed.

(** C15: when a transaction is mined or fails, its process is free again, while no commit fails: whatever the
    outcome and whatever goes wrong with the state, the transition is no longer in the queue, no batch is kept
    aside and the process is not marked, so that the loop can serve it. *)
Theorem callback_frees_process pid batchID root err q raw (stb : StateTransitionBatch) :
  quiet (q_stg q) → db (q_stg q) !! (stateTransitionPrefix ++ batchID) = Some raw → DecodeArtifact raw = Ok stb →
  (∀ v, db (q_stg q) !! (pendingAggregBatchPrefix ++ pid_bytes pid) = Some v →
     is_Ok (DecodeArtifact (A:=AggregatorBallotBatch) v) = true) →
  let q' := exec (pushStateTransitionCallback pid batchID root err) q in
  quiet (q_stg q') ∧ db (q_stg q') !! (stateTransitionPrefix ++ batchID) = None ∧
  in_flight pid (db (q_stg q')) ∧ eval (HasPendingTx StateTransitionTx pid) (q_stg q') = Ok false.
Proof.
  intros Hq Hraw Hstb Hslot. cbv zeta. unfold pushStateTransitionCallback, exec.
  match goal with |- context [(?m ≫= _) q] => set (outcome := m);
    assert (Hm : ∃ q1, outcome q = (Ok (), q1) ∧ quiet (q_stg q1) ∧ db (q_stg q1) !! (stateTransitionPrefix ++ batchID) = None ∧ db (q_stg q1) !! slot pid = None) end.
  { assert (Hfail : ∀ q1, calm (q_stg q) (q_stg q1) → ∃ q2, warn (on_stg (MarkStateTransitionBatchFailed batchID pid)) q1 = (Ok (), q2) ∧
      quiet (q_stg q2) ∧ db (q_stg q2) !! (stateTransitionPrefix ++ batchID) = None ∧ db (q_stg q2) !! slot pid = None).
    { intros q1 Hc. destruct (Hc Hq) as [Hq1 Hl]. eexists. split; [apply warn_eq|]. rewrite on_stg_eq. cbn [snd q_stg].
      apply (fail_frees pid batchID (q_stg q1) raw stb); [done|rewrite Hl by (unfold flight_prefixes; in_list); done|done|].
      rewrite Hl by (unfold flight_prefixes; in_list). exact Hslot. }
    unfold outcome. destruct err as [e|]; [by apply Hfail|]. erewrite bind_Ok by apply attempt_eq. rewrite on_stg_eq. cbn [fst snd].
    pose proof (calm_promote pid root (q_stg q)) as Hp. set (q1 := {| q_stg := _; q_ids := q_ids q |}).
    destruct (promoteCommittedStateFromTransition pid root (q_stg q)).1 as [[]|e]; [|by apply Hfail].
    destruct (Hp Hq) as [Hq1 _]. destruct (done_frees pid batchID (q_stg q1) Hq1) as (H1' & H2' & H3').
    erewrite bind_Ok by apply attempt_eq. rewrite on_stg_eq. cbn [fst snd].
    destruct (MarkStateTransitionBatchDone batchID pid (q_stg q1)).1 as [[]|e]; [|by eexists].
    unfold mbind, SE_bind, on_ids. destruct (ProcessIDMap.Add _ _ _) as [x ids]. by eexists. }
  destruct Hm as (q1 & E1 & Hq1 & Hb & Hs). erewrite bind_Ok by exact E1. rewrite warn_eq, on_stg_eq. cbn [snd q_stg].
  unfold PrunePendingTx, prunePendingTx. fold mark_prefix. rewrite deleteArtifact_quiet by done. cbn [snd].
  unfold eval. rewrite HasPendingTx_eq. unfold in_flight, marked. cbn [db set_db fst]. rewrite lookup_delete_eq.
  rewrite !lookup_delete_ne by (apply incompatible_app; by vm_compute). done.
Qed.

(** ** A process that nothing serves *)

(** The process is marked and nothing of it is in the queue of transitions. *)
Definition abandoned (pid : ProcessID) (d : kv) : Prop :=
  marked d pid = true ∧ ∀ r, d !! (stateTransitionPrefix ++ pid_bytes pid ++ r) = None.
Lemma abandoned_skipped pid t q : abandoned pid (db (q_stg q)) → q_stg (exec (process_transition pid t) q) = q_stg q.
Proof.
  intros [Hm _]. unfold exec, SequencerTransitions.process_transition. destruct (SupportsProcess pid); cbn [negb]; [|done].
  erewrite bind_Ok by (rewrite on_stg_eq, HasPendingTx_eq; reflexivity). cbn [fst snd]. by rewrite Hm.
Qed.
Lemma abandoned_unsent pid t q : abandoned pid (db (q_stg q)) → q_stg (exec (transition_on_chain pid t) q) = q_stg q.
Proof.
  intros [_ Hq]. unfold exec, transition_on_chain. destruct (SupportsProcess pid); cbn [negb]; [|done].
  destruct (contractsForProcess pid) as [c|]; [|done]. erewrite bind_Ok by apply attempt_eq. rewrite on_stg_eq.
  assert (E : prefixed_Iterate bk stateTransitionPrefix (pid_bytes pid) (db (q_stg q)) = []).
  { apply elem_of_nil_inv. intros [k v] (r & Hr & _)%elem_of_prefixed_Iterate. by rewrite Hq in Hr. }
  unfold NextStateTransitionBatch, gets. run_simpl. by rewrite E.
Qed.

Lemma SetPendingTx_commits pid s v fs :
  faults s = false :: fs → EncodeArtifact true = Ok v → db s !! (mark_prefix ++ pid_bytes pid) = None →
  ∃ s', SetPendingTx StateTransitionTx pid s = (Ok (), s') ∧ db s' = <[mark_prefix ++ pid_bytes pid := v]> (db s) ∧ faults s' = fs.
Proof.
  intros Hf Hv Hm. unfold SetPendingTx. rewrite (bind_Ok _ _ s false s) by (by rewrite pendingTxs_eq, Hm).
  unfold setArtifact. rewrite (bind_Ok _ _ s v s) by (unfold lift; by rewrite Hv). cbv zeta. fold mark_prefix.
  unfold StorageBase.commit. rewrite Hf, apply_Set. by eexists.
Qed.
Lemma MarkAggregatorBatchPending_refused batch s fs : faults s = true :: fs →
  ∃ e s', MarkAggregatorBatchPending batch s = (Err e, s') ∧ db s' = db s.
Proof.
  intros Hf. unfold MarkAggregatorBatchPending, wrapping, lift. unfold mbind at 1, SE_bind at 1.
  destruct (EncodeArtifact batch) as [v|e]; [|by eexists _, _]. erewrite bind_Ok by apply attempt_rd_Get.
  destruct (db s !! _); [by eexists _, _|]. unfold StorageBase.commit. rewrite Hf. by eexists _, _.
Qed.

(** C29: one failing commit can cost a process its service: when the batch of a proved transition cannot be kept aside,
    the process stays marked as waiting for a transaction although no transition of it is in the queue; from
    then on neither the loop that builds transitions nor the one that sends them does anything for
    the process, and there is no transaction whose callback would clear the mark. *)
Theorem failed_queueing_abandons batch batchID proof b root sidecar q fs :
  let pid := abb_ProcessID batch in
  faults (q_stg q) = false :: true :: fs → is_Ok (EncodeArtifact true) = true →
  in_flight pid (db (q_stg q)) → (∀ r, db (q_stg q) !! (stateTransitionPrefix ++ pid_bytes pid ++ r) = None) →
  let q' := exec (queue_transition pid batch batchID proof b root sidecar) q in
  eval (HasPendingTx StateTransitionTx pid) (q_stg q') = Ok true ∧
  ∀ t q1, q_stg q1 = q_stg q' →
    q_stg (exec (process_transition pid t) q1) = q_stg q' ∧ q_stg (exec (transition_on_chain pid t) q1) = q_stg q'.
Proof.
  cbv zeta. set (pid := abb_ProcessID batch). intros Hf [v Hv]%encoded Hfl Hnone.
  set (q' := exec _ q). cut (abandoned pid (db (q_stg q'))).
  { intros Ha. split; [unfold eval; rewrite HasPendingTx_eq; cbn [fst]; by rewrite (proj1 Ha)|]. intros t q1 E.
    rewrite abandoned_skipped, abandoned_unsent by (by rewrite E). done. }
  assert (Hm : db (q_stg q) !! (mark_prefix ++ pid_bytes pid) = None).
  { unfold in_flight in Hfl. destruct (db (q_stg q) !! (mark_prefix ++ pid_bytes pid)); [|done].
    destruct Hfl as (_ & k & val & Hk). by rewrite Hnone in Hk. }
  cut (db (q_stg q') = <[mark_prefix ++ pid_bytes pid := v]> (db (q_stg q))).
  { intros Hd. unfold abandoned, marked. rewrite Hd, lookup_insert_eq. apply codec_roundtrip in Hv as Hdec. rewrite Hdec.
    split; [done|]. intros r. rewrite lookup_insert_ne; [apply Hnone|]. apply incompatible_app. by vm_compute. }
  unfold q', exec, SequencerTransitions.queue_transition. fold pid. erewrite bind_Ok by apply warn_eq. rewrite on_stg_eq.
  cbn [fst snd q_stg q_ids]. destruct (SetPendingTx_commits pid (q_stg q) v (true :: fs) Hf Hv Hm) as (s1 & -> & Hd1 & Hf1). cbn [snd].
  destruct (MarkAggregatorBatchPending_refused batch s1 fs Hf1) as (e & s2 & E2 & Hd2).
  erewrite bind_Ok by apply attempt_eq. rewrite on_stg_eq. cbn [fst snd q_stg q_ids]. rewrite E2. cbn [fst snd mret SE_ret q_stg].
  by rewrite Hd2.
Qed.
End steps.

(** ** At a concrete store *)

Module Example1.
Import Concrete.
#[local] Existing Instance env_pebble.
#[local] Existing Instance web3_up.
#[export] Instance solidity : Solidity := {|
  SolidityProof := bytes; FromGnarkProof p := Ok p; Proof_ABIEncode p := Ok p; Results_ABIEncode _ := Ok [];
  Transition_ABIEncode _ := Ok []; Sidecar_view _ := (1, 1, 128) |}.
#[export] Instance promotion : StatePromotion := {|
  state_RootExists _ _ _ := Ok tt; state_ApplyTransitionArtifact _ d := (Ok tt, d); state_Apply_frame _ _ _ _ := eq_refl |}.
Import Tally.ConcreteState.
#[export] Instance trees : StateTrees := {| state_load _ _ := Ok fresh; state_save _ d := d; state_save_frame _ _ _ _ := eq_refl |}.
#[export] Instance census_db : CensusDB := {| CensusTree := unit; LoadByScopedAddress _ _ := Ok tt; LoadByRoot _ := Ok tt |}.
#[export] Instance censuses : Censuses := {|
  Merkle := unit; CSP := unit; tree_Root _ := Some 1;
  tree_GenerateProof _ _ := Ok tt; DummyMerkleProof := tt; DummyCSPProof := tt; CensusProofToCSPProof _ := Ok tt;
  VoterIndex _ := Some (U64 0); CensusRoot_Z _ := 1 |}.
Notation pid1 := Concrete.pid1.
(** An aggregated batch waits, and then a transition is in the queue with its batch kept aside. *)
Definition queued_batch : AggregatorBallotBatch := batch pid1 [aggregated 6 101] 0 0.
Definition waiting (fs : list bool) : Sequencer :=
  {| q_stg := MkStorage (<[processPrefix ++ pid_bytes pid1 := enc process1]>
       {[aggregBatchPrefix ++ pid_bytes pid1 ++ [byte_of_Z 1] := enc queued_batch]}) ∅ ∅ ∅ (70 * second) fs;
     q_ids := ProcessIDMap.NewProcessIDMap |}.
Definition key1 : bytes := pid_bytes pid1 ++ [byte_of_Z 1].
Definition sent : Sequencer :=
  {| q_stg := MkStorage (<[stateTransitionPrefix ++ key1 := enc (transition pid1 [aggregated 6 101])]>
       (<[pendingAggregBatchPrefix ++ pid_bytes pid1 := enc queued_batch]>
        {[mark_prefix ++ pid_bytes pid1 := enc true]})) ∅ ∅ ∅ (70 * second) [];
     q_ids := ProcessIDMap.NewProcessIDMap |}.
Lemma flight_encode_concrete : flight_encode.
Proof. by split. Qed.
Notation step := (process_transition (λ k v, Ok (k + v)) (λ _ _, Ok []) (Ok 5) (λ _, []) (λ _ _, [])).
Lemma process_transition_in_flight_witness :
  in_flight pid1 (db (q_stg (waiting []))) ∧ in_flight pid1 (db (q_stg (exec (step pid1 0) (waiting [])))).
Proof.
  assert (Hf : in_flight pid1 (db (q_stg (waiting [])))) by (by vm_compute).
  assert (Ho : own_batches pid1 (db (q_stg (waiting [])))).
  { intros k val b Hin. assert (E : prefixed_Iterate bk aggregBatchPrefix (pid_bytes pid1) (db (q_stg (waiting []))) = [([byte_of_Z 1], enc queued_batch)]) by (by vm_compute).
    rewrite E in Hin. apply list_elem_of_singleton in Hin as [= -> ->]. intros Hb.
    assert (Hd : Ok b = Ok queued_batch) by (rewrite <-Hb; by vm_compute). by injection Hd as ->. }
  split; [exact Hf|].
  exact (proj2 (process_transition_in_flight (λ k v, Ok (k + v)) (λ _ _, Ok []) (Ok 5) (λ _, []) (λ _ _, []) pid1 0 (waiting []) eq_refl
    flight_encode_concrete Ho Hf) pid1 Hf).
Defined.
Lemma callback_frees_process_witness :
  in_flight pid1 (db (q_stg sent)) ∧ eval (HasPendingTx StateTransitionTx pid1) (q_stg sent) = Ok true ∧
  eval (HasPendingTx StateTransitionTx pid1) (q_stg (exec (pushStateTransitionCallback pid1 key1 (Some 1) None) sent)) = Ok false.
Proof.
  split; [split; [by vm_compute|exists [byte_of_Z 1], (enc (transition pid1 [aggregated 6 101])); by vm_compute]|].
  split; [by vm_compute|].
  refine (proj2 (proj2 (proj2 (callback_frees_process pid1 key1 (Some 1) None sent (enc (transition pid1 [aggregated 6 101]))
    (transition pid1 [aggregated 6 101]) eq_refl _ _ _)))); [by vm_compute|by vm_compute|].
  intros v Hv. assert (E : db (q_stg sent) !! (pendingAggregBatchPrefix ++ pid_bytes pid1) = Some (enc queued_batch)) by (by vm_compute).
  rewrite E in Hv. injection Hv as <-. by vm_compute.
Defined.
Lemma failed_queueing_abandons_witness :
  let q' := exec (queue_transition (λ _, []) (λ _ _, []) pid1 queued_batch key1 [] (newBatch fresh) 1 (TxSidecar
    {| be_Commitment := []; be_CommitmentLimbs := []; be_Z := 0; be_Y := 0; be_Ylimbs := []; be_Blob := []; be_OpeningProof := [];
       be_ProofLimbs := []; be_CellProofs := [] |})) (waiting [false; true]) in
  eval (HasPendingTx StateTransitionTx pid1) (q_stg q') = Ok true ∧ q_stg (exec (step pid1 0) q') = q_stg q'.
Proof.
  cbv zeta. match goal with |- context [exec (queue_transition ?a0 ?b0 ?pid0 ?batch0 ?k0 ?p0 ?sb0 ?r0 ?sc0) ?q0] =>
    destruct (failed_queueing_abandons (Env:=env_pebble) (λ k v, Ok (k + v)) (λ _ _, Ok []) (Ok 5) a0 b0 batch0 k0 p0 sb0 r0 sc0 q0 [] eq_refl eq_refl) as [Hm Hs] end.
  - by vm_compute.
  - intros r. cbn [waiting q_stg db]. rewrite !lookup_insert_ne by (apply incompatible_app; by vm_compute).
    apply lookup_singleton_ne. apply incompatible_app. by vm_compute.
  - split; [exact Hm|]. exact (proj1 (Hs 0 _ eq_refl)).
Defined.
End Example1.
