(* ===== verification/SequencerAggregate.v ===== *)
(** * The sequencer: the aggregation of verified ballots

    [src/sequencer/aggregate.go], with the inputs and the assignment of
    [src/circuits/aggregator]: the loop that waits until a process has a full batch or its
    time window is over, pulls verified ballots, keeps those that can be aggregated, has them
    proved and queues the batch. gnark's proofs and the prover are parameters. The storage
    and the process state are behind the two interfaces of the source. *)

From S2P Require Import Prelude Bytes DB Spec Types Census StorageTypes StorageBase Process VoteStatus Stats Ballots Batches Curve ElGamal StateTree StateVote StateBatch Pipeline Voters Finalizer SequencerBase SequencerBallots SequencerOnchain SequencerTransitions InFlight.

(** ** The interfaces *)

(** [src/sequencer/aggregate.go:27-30] aggregationStorage *)
Class aggregationStorage (S : Type) := {
  ag_MarkVerifiedBallotsFailed : list bytes → SE S ();
  ag_ReleaseVerifiedBallotReservations : list bytes → SE S () }.
(** [src/sequencer/aggregate.go:22-25] aggregationProcessState *)
Class aggregationProcessState (P : Type) := {
  ag_ContainsVoteID : uint64 → P → bool;
  ag_ContainsBallot : uint64 → P → bool }.
(** The proofs of third parties in the opaque fields of a verified ballot: the proof, if there
    is one, and the census proof, which stays as it is. *)
Class VoteProofs := {
  VoteProof : Type; RecursionProof : Type;
  vb_Proof : VerifiedBallot → option VoteProof;
  vb_CensusProof : VerifiedBallot → bytes;
  Ar_IsInSubGroup : VoteProof → bool; Krs_IsInSubGroup : VoteProof → bool; Bs_IsInSubGroup : VoteProof → bool;
  ValueOfProof : VoteProof → result RecursionProof;
  voteVerifier_Verify : VoteProof → list Z → result ();
  (* the limbs of an emulated element *)
  emulated_ValueOf : Z → list Z }.

(** ** Collecting the inputs *)

Section collect.
Context `{Censuses} `{VoteProofs} {S P : Type} `{!aggregationStorage S} `{!aggregationProcessState P}.

(** [src/circuits/aggregator/inputs.go:15-22] AggregatorInputs, without the slots that are not filled *)
Record AggregatorInputs := {
  ai_Proofs : list RecursionProof; ai_ProofsInputHash : list (list Z);
  ai_AggBallots : list AggregatorBallot; ai_VerifiedBallots : list VerifiedBallot;
  ai_ProcessedKeys : list bytes; ai_ProofsInputsHashInputs : list Z }.
Definition no_inputs : AggregatorInputs :=
  {| ai_Proofs := []; ai_ProofsInputHash := []; ai_AggBallots := []; ai_VerifiedBallots := [];
     ai_ProcessedKeys := []; ai_ProofsInputsHashInputs := [] |}.

Context (processState : P) (maxVotersReached : bool) (proofToRecursion : VoteProof → result RecursionProof)
        (verifyVoteVerifierProof : option (VerifiedBallot → result ())).

(** What the loop says of a ballot; some of the branches ask first whether the ballot has a key. *)
Inductive verdict :=
  | RejectIfKey
  | Reject
  | Accept (b : VerifiedBallot) (proof : VoteProof) (inputsHash : Z)
  | Panics (e : error).
(** [src/sequencer/aggregate.go:56-281] the checks of a ballot, in collectAggregationBatchInputs *)
Definition check_ballot (b : option VerifiedBallot) : verdict :=
  match b with
  | None => RejectIfKey
  | Some b =>
      if u64Z (vb_VoteID b) =? 0 then RejectIfKey
      else if bool_decide (vb_Address b = None) then RejectIfKey
      else if ag_ContainsVoteID (vb_VoteID b) processState then Reject
      else
        match (if maxVotersReached
               then match VoterIndex (vb_CensusProof b) with
                    | None => Err (ErrMsg "nil pointer dereference")
                    | Some voterIndex => match CalculateBallotIndex voterIndex with
                                         | Err e => Err e
                                         | Ok index => Ok (ag_ContainsBallot index processState)
                                         end
                    end
               else Ok true) with
        | Err e => Panics e
        | Ok false => Reject
        | Ok true =>
            match vb_Proof b, vb_InputsHash b with
            | None, _ | _, None => Reject
            | Some proof, Some inputsHash =>
                if negb (Ar_IsInSubGroup proof) || negb (Krs_IsInSubGroup proof) || negb (Bs_IsInSubGroup proof) then Reject
                else match verifyVoteVerifierProof with
                     | None => Accept b proof inputsHash
                     | Some verify => match verify b with Err _ => Reject | Ok _ => Accept b proof inputsHash end
                     end
            end
        end
  end.
(** [src/sequencer/aggregate.go:139-153] a ballot that is skipped, in collectAggregationBatchInputs and the other
    branches that reject one: it fails, or at least its reservation goes *)
Definition skip_ballot (key : bytes) : SE S () :=
  r ← attempt (ag_MarkVerifiedBallotsFailed [key]);
  match r with
  | Err _ => warn (ag_ReleaseVerifiedBallotReservations [key])
  | Ok _ => mret ()
  end.
(** [src/sequencer/aggregate.go:326-332] the entry of a ballot in the batch, in collectAggregationBatchInputs *)
Definition aggregator_ballot (b : VerifiedBallot) : AggregatorBallot :=
  {| ab_VoteID := vb_VoteID b; ab_Address := vb_Address b; ab_Weight := vb_VoterWeight b;
     ab_EncryptedBallot := vb_EncryptedBallot b; ab_CensusProof := vb_CensusProof b |}.
(** [src/sequencer/aggregate.go:321-334] a ballot joins the batch, in collectAggregationBatchInputs *)
Definition add_input (b : VerifiedBallot) (key : bytes) (proof : RecursionProof) (inputsHash : Z) (ai : AggregatorInputs) : AggregatorInputs :=
  {| ai_Proofs := ai_Proofs ai ++ [proof]; ai_ProofsInputHash := ai_ProofsInputHash ai ++ [emulated_ValueOf inputsHash];
     ai_AggBallots := ai_AggBallots ai ++ [aggregator_ballot b]; ai_VerifiedBallots := ai_VerifiedBallots ai ++ [b];
     ai_ProcessedKeys := ai_ProcessedKeys ai ++ [key];
     ai_ProofsInputsHashInputs := ai_ProofsInputsHashInputs ai ++ [inputsHash] |}.
(** [src/sequencer/aggregate.go:55-345] the loop of collectAggregationBatchInputs, over the ballots and the keys that are left *)
Fixpoint collect_inputs (ballots : list (option VerifiedBallot)) (keys : list bytes) (ai : AggregatorInputs) : SE S AggregatorInputs :=
  let index_panic := raise (ErrMsg "index out of range") in
  match ballots with
  | [] => mret ai
  | b :: ballots =>
      match check_ballot b with
      | Panics e => raise e
      | RejectIfKey => match keys with
                       | [] => collect_inputs ballots [] ai
                       | key :: keys => _ ← skip_ballot key; collect_inputs ballots keys ai
                       end
      | Reject => match keys with
                  | [] => index_panic
                  | key :: keys => _ ← skip_ballot key; collect_inputs ballots keys ai
                  end
      | Accept b proof inputsHash =>
          if (VotesPerBatch <=? length (ai_AggBallots ai))%nat then
            _ ← warn (ag_ReleaseVerifiedBallotReservations keys); mret ai
          else match keys with
               | [] => index_panic
               | key :: keys =>
                   match proofToRecursion proof with
                   | Err _ => _ ← skip_ballot key; collect_inputs ballots keys ai
                   | Ok proof =>
                       let ai := add_input b key proof inputsHash ai in
                       if (VotesPerBatch <=? length (ai_AggBallots ai))%nat then
                         _ ← warn (ag_ReleaseVerifiedBallotReservations keys); mret ai
                       else collect_inputs ballots keys ai
                   end
               end
      end
  end.
(** [src/sequencer/aggregate.go:37-355] *)
Definition collectAggregationBatchInputs (ballots : list (option VerifiedBallot)) (keys : list bytes) : SE S AggregatorInputs :=
  collect_inputs ballots keys no_inputs.
End collect.
Arguments AggregatorInputs {_}.

(** ** The assignment of the aggregator's circuit *)

Section assignment.
Context `{Hash : PoseidonHasher} `{VoteProofs}.

(** [src/circuits/aggregator/aggregator.go:19-25] AggregatorCircuit, without the verification key *)
Record AggregatorAssignment := {
  ac_VotersCount : nat; ac_BatchHash : list Z; ac_BallotHashes : list (list Z); ac_Proofs : list RecursionProof }.
(** [src/circuits/aggregator/inputs.go:25-36] InputsHash *)
Definition InputsHash (ai : AggregatorInputs) : result Z :=
  let hashes := ai_ProofsInputsHashInputs ai in
  MultiPoseidon poseidon_Hash (hashes ++ replicate (VotesPerBatch - length hashes) 1).
(** [src/circuits/aggregator/helpers.go:19-33] FillWithDummy *)
Definition FillWithDummy (fromIdx : nat) (dummyProof : VoteProof) (a : AggregatorAssignment) : result AggregatorAssignment :=
  match ValueOfProof dummyProof with
  | Err e => Err (Wrap "dummy proof value error" e)
  | Ok recursiveDummyProof =>
      Ok {| ac_VotersCount := ac_VotersCount a; ac_BatchHash := ac_BatchHash a;
            ac_BallotHashes := take fromIdx (ac_BallotHashes a) ++ replicate (VotesPerBatch - fromIdx) [1; 0; 0; 0];
            ac_Proofs := take fromIdx (ac_Proofs a) ++ replicate (VotesPerBatch - fromIdx) recursiveDummyProof |}
  end.
End assignment.
Arguments AggregatorAssignment {_}.

(** ** The loop *)

(** The storage and the process states of the program. *)
#[export] Instance storage_aggregation `{StorageEnv} : aggregationStorage Storage :=
  {| ag_MarkVerifiedBallotsFailed := MarkVerifiedBallotsFailed;
     ag_ReleaseVerifiedBallotReservations := ReleaseVerifiedBallotReservations |}.
#[export] Instance state_aggregation `{Curve} `{Arbo} : aggregationProcessState State :=
  {| ag_ContainsVoteID := ContainsVoteID; ag_ContainsBallot := ContainsBallot |}.

Section aggregation.
Context `{Env : StorageEnv} `{Web3} `{Curve} `{Arbo} `{Hash : PoseidonHasher} `{!StateTrees} `{Censuses} `{VoteProofs}.
(** The aggregator's prover, with the verification of its proof: nothing if the proof is of another curve. *)
Context (ProveAggregate : AggregatorAssignment → result (option bytes)).
Context (voteVerifierDummyProof : VoteProof) (batchTimeWindow : Z).

(** [src/sequencer/aggregate.go:503-519] verifyVoteVerifierProof, in aggregateBatch *)
Definition verifyVoteVerifierProof (vb : VerifiedBallot) : result () :=
  match vb_Proof vb, vb_InputsHash vb with
  | None, _ => Err (ErrMsg "missing proof")
  | _, None => Err (ErrMsg "missing inputs hash")
  | Some proof, Some inputsHash => voteVerifier_Verify proof (emulated_ValueOf inputsHash)
  end.
(** [src/sequencer/aggregate.go:546-572] the assignment of the circuit, in aggregateBatch; when the dummies fail the
    ballots are released *)
Definition aggregator_assignment (ai : AggregatorInputs) : SE Sequencer AggregatorAssignment :=
  inputsHash ← wrapping "failed to calculate inputs hash" (lift (InputsHash ai));
  let n := length (ai_AggBallots ai) in
  let assignment := {| ac_VotersCount := n; ac_BatchHash := emulated_ValueOf inputsHash;
                       ac_BallotHashes := ai_ProofsInputHash ai; ac_Proofs := ai_Proofs ai |} in
  if (n <? VotesPerBatch)%nat then
    match FillWithDummy n voteVerifierDummyProof assignment with
    | Err e => _ ← warn (on_stg (ReleaseVerifiedBallotReservations (ai_ProcessedKeys ai)));
               raise (Wrap "failed to fill with dummy proofs" e)
    | Ok assignment => mret assignment
    end
  else mret assignment.
(** [src/sequencer/aggregate.go:578-639] the proof, in aggregateBatch; when there is none the ballots are released *)
Definition aggregate_proof (ai : AggregatorInputs) (assignment : AggregatorAssignment) : SE Sequencer bytes :=
  match ProveAggregate assignment with
  | Err e =>
      let invalidKeys := snd <$> List.filter (λ bk, negb (is_Ok (verifyVoteVerifierProof bk.1)))
                                   (zip (ai_VerifiedBallots ai) (ai_ProcessedKeys ai)) in
      _ ← match invalidKeys with
          | [] => mret ()
          | _ => warn (on_stg (MarkVerifiedBallotsFailed invalidKeys))
          end;
      _ ← warn (on_stg (ReleaseVerifiedBallotReservations (ai_ProcessedKeys ai)));
      raise (Wrap "failed to generate aggregate proof" e)
  | Ok None =>
      _ ← warn (on_stg (ReleaseVerifiedBallotReservations (ai_ProcessedKeys ai)));
      raise (ErrMsg "unexpected aggregate proof type")
  | Ok (Some proof) => mret proof
  end.
(** [src/sequencer/aggregate.go:641-667] the batch is queued, in aggregateBatch *)
Definition queue_aggregate (pid : ProcessID) (ai : AggregatorInputs) (proof : bytes) : SE Sequencer () :=
  pushed ← attempt (on_stg (PushAggregatorBatch
    {| abb_ProcessID := pid; abb_Proof := proof; abb_Ballots := ai_AggBallots ai; abb_Attempts := 0; abb_LastAttemptTime := zeroTime |}));
  match pushed with
  | Err e => _ ← warn (on_stg (ReleaseVerifiedBallotReservations (ai_ProcessedKeys ai)));
             raise (Wrap "failed to push ballot batch" e)
  | Ok _ =>
      done ← attempt (on_stg (MarkVerifiedBallotsDone (ai_ProcessedKeys ai)));
      match done with
      | Err e => _ ← warn (on_stg (MarkVerifiedBallotsFailed (ai_ProcessedKeys ai)));
                 raise (Wrap "failed to mark verified ballots as done" e)
      | Ok _ => mret ()
      end
  end.
(** [src/sequencer/aggregate.go:521-667] what aggregateBatch does with the ballots that it pulled *)
Definition aggregate_pulled (pid : ProcessID) (maxVotersReached : bool) (st : State) (ballots : list VerifiedBallot) (keys : list bytes)
    : SE Sequencer () :=
  ai ← on_stg (collectAggregationBatchInputs st maxVotersReached ValueOfProof (Some verifyVoteVerifierProof) (Some <$> ballots) keys);
  match ai_AggBallots ai with
  | [] => mret ()
  | _ =>
      assignment ← aggregator_assignment ai;
      proof ← aggregate_proof ai assignment;
      queue_aggregate pid ai proof
  end.
(** [src/sequencer/aggregate.go:446-668] *)
Definition aggregateBatch (pid : ProcessID) : SE Sequencer () :=
  if negb (pid_IsValid pid) then raise (ErrMsg "invalid process ID")
  else if negb (SupportsProcess pid) then raise (ErrMsg "process not supported")
  else
    isAcceptingVotes ← wrapping "failed to check if process is accepting votes" (on_stg (ProcessIsAcceptingVotes pid));
    if negb isAcceptingVotes then raise (ErrMsg "process is not accepting votes")
    else
      maxVotersReached ← wrapping "failed to check if process max voters reached" (on_stg (ProcessMaxVotersReached pid));
      pulled ← wrapping "failed to pull verified ballots" (on_stg (PullVerifiedBallots pid (Z.of_nat (VotesPerBatch * 2))));
      match pulled.1 with
      | [] => mret ()
      | _ =>
          if bool_decide (NoDup (address_String ∘ vb_Address <$> pulled.1)) then
            st ← wrapping "failed to get latest process state" (currentProcessState pid);
            aggregate_pulled pid maxVotersReached st pulled.1 pulled.2
          else raise (ErrMsg "duplicate address in batch of process")
      end.
(** [src/sequencer/aggregate.go:424-436] *)
Definition processAndUpdateBatch (pid : ProcessID) : SE Sequencer bool :=
  r ← attempt (aggregateBatch pid);
  match r with
  | Err _ => mret true
  | Ok _ => _ ← on_ids (λ _ ids, ((), ProcessIDMap.ClearFirstBallotTime pid ids)); mret true
  end.
(** [src/sequencer/aggregate.go:388-419] one process of the loop, in processPendingBatches *)
Definition pending_batch (pid : ProcessID) (lastUpdate : Time) : SE Sequencer bool :=
  ballotCount ← on_stg (CountVerifiedBallots pid);
  if (ballotCount =? 0)%nat then mret true
  else if (VotesPerBatch <=? ballotCount)%nat then processAndUpdateBatch pid
  else
    firstBallotTime ← on_ids (λ _ ids, (ProcessIDMap.GetFirstBallotTime pid ids, ids));
    match firstBallotTime with
    | None => _ ← on_ids (λ now ids, ((), ProcessIDMap.SetFirstBallotTime now pid ids)); mret true
    | Some firstBallotTime =>
        t ← on_stg (gets now);
        if t - firstBallotTime <=? batchTimeWindow then mret true else processAndUpdateBatch pid
    end.
(** [src/sequencer/aggregate.go:386-420] *)
Definition processPendingBatches : SE Sequencer () := ForEach pending_batch.
End aggregation.

(** ** What is collected *)

Section collected.
Context `{Censuses} `{VoteProofs} {S P : Type} `{!aggregationStorage S} `{!aggregationProcessState P}.
Context (processState : P) (maxVotersReached : bool) (proofToRecursion : VoteProof → result RecursionProof)
        (verifyVoteVerifierProof : option (VerifiedBallot → result ())).
Notation check_ballot := (check_ballot processState maxVotersReached verifyVoteVerifierProof).
Notation collect_inputs := (collect_inputs processState maxVotersReached proofToRecursion verifyVoteVerifierProof).

(** The proof and the hash with which a ballot joins a batch, if it passes every check. *)
Definition usable (b : VerifiedBallot) : option (RecursionProof * Z) :=
  match check_ballot (Some b) with
  | Accept _ proof inputsHash => match proofToRecursion proof with Ok rp => Some (rp, inputsHash) | Err _ => None end
  | _ => None
  end.
Definition picks (l : list (VerifiedBallot * bytes)) : list (VerifiedBallot * bytes * (RecursionProof * Z)) :=
  omap (λ bk, (λ u, (bk, u)) <$> usable bk.1) l.
Definition skips (l : list (VerifiedBallot * bytes)) : list (VerifiedBallot * bytes) :=
  filter (λ bk, usable bk.1 = None) l.
Definition inputs_of (l : list (VerifiedBallot * bytes * (RecursionProof * Z))) : AggregatorInputs :=
  {| ai_Proofs := (λ x, x.2.1) <$> l; ai_ProofsInputHash := (λ x, emulated_ValueOf x.2.2) <$> l;
     ai_AggBallots := (λ x, aggregator_ballot x.1.1) <$> l; ai_VerifiedBallots := (λ x, x.1.1) <$> l;
     ai_ProcessedKeys := (λ x, x.1.2) <$> l; ai_ProofsInputsHashInputs := (λ x, x.2.2) <$> l |}.
Lemma inputs_of_snoc l x : inputs_of (l ++ [x]) = add_input x.1.1 x.1.2 x.2.1 x.2.2 (inputs_of l).
Proof. unfold inputs_of, add_input. cbn. by rewrite !fmap_app. Qed.
Lemma skip_ballot_Ok k (s : S) : skip_ballot k s = (Ok (), exec (skip_ballot k) s).
Proof. apply run_eq. unfold eval, skip_ballot. erewrite bind_Ok by apply attempt_eq. by destruct (_ s).1. Qed.
Lemma check_Accept b b' p h : check_ballot (Some b) = Accept b' p h → b' = b.
Proof.
  unfold check_ballot. intros Hc. repeat case_match; congruence.
Qed.
Lemma usable_check b : check_ballot (Some b) = (match usable b with
  | Some (rp, h) => match check_ballot (Some b) with Accept _ p _ => Accept b p h | v => v end
  | None => check_ballot (Some b) end).
Proof.
  unfold usable. destruct (check_ballot (Some b)) as [| |b' p h|] eqn:E; try done. apply check_Accept in E as ->.
  by destruct (proofToRecursion p).
Qed.

(** The end of the loop: what is left over is released when the batch is full. *)
Definition release_rest (full : bool) (l : list (VerifiedBallot * bytes)) : SE S () :=
  if full then warn (ag_ReleaseVerifiedBallotReservations l.*2) else mret ().
Lemma collect_inputs_spec l acc (s : S) :
  Forall (λ bk, ∀ e, check_ballot (Some bk.1) ≠ Panics e) l → (length acc < VotesPerBatch)%nat →
  ∃ l1 l2, l = l1 ++ l2 ∧
    let full := (VotesPerBatch <=? length (acc ++ picks l1))%nat in
    (length (acc ++ picks l1) ≤ VotesPerBatch)%nat ∧ (full = false → l2 = []) ∧
    collect_inputs (Some <$> l.*1) l.*2 (inputs_of acc) s =
      (Ok (inputs_of (acc ++ picks l1)), exec (_ ← forM_ (λ bk, skip_ballot bk.2) (skips l1); release_rest full l2) s).
Proof.
  revert acc s. induction l as [|[b k] l IH]; intros acc s Hp Hacc.
  { exists [], []. cbv zeta. change (picks []) with (@nil (VerifiedBallot * bytes * (RecursionProof * Z))). rewrite (app_nil_r acc).
    unfold release_rest. destruct (Nat.leb_spec VotesPerBatch (length acc)); [lia|]. split_and!; [done|lia|done|done]. }
  apply Forall_cons in Hp as [Hb Hp]. cbn [fst] in Hb.
  assert (Hskip : usable b = None → ∃ l1 l2, (b, k) :: l = l1 ++ l2 ∧
    let full := (VotesPerBatch <=? length (acc ++ picks l1))%nat in
    (length (acc ++ picks l1) ≤ VotesPerBatch)%nat ∧ (full = false → l2 = []) ∧
    (_ ← skip_ballot k; collect_inputs (Some <$> l.*1) l.*2 (inputs_of acc)) s =
      (Ok (inputs_of (acc ++ picks l1)), exec (_ ← forM_ (λ bk, skip_ballot bk.2) (skips l1); release_rest full l2) s)).
  { intros Hu. destruct (IH acc (exec (skip_ballot k) s) Hp Hacc) as (l1 & l2 & -> & Hle & Hf & Hrun).
    exists ((b, k) :: l1), l2. unfold picks, skips in *. rewrite filter_cons_True by exact Hu. cbn [omap list_omap fst]. rewrite Hu.
    cbn [fmap option_fmap option_map]. cbv zeta. split_and!; try done.
    rewrite (bind_Ok _ _ _ _ _ (skip_ballot_Ok k s)). etrans; [exact Hrun|]. f_equal. cbn [forM_].
    unfold exec, mbind, SE_bind. cbn [snd]. by rewrite (skip_ballot_Ok k s). }
  cbn [fmap list_fmap fst snd SequencerAggregate.collect_inputs]. change (list_fmap _ _ fst l) with l.*1.
  pose proof (usable_check b) as Hc. unfold usable in Hskip, Hc. unfold usable in Hskip.
  destruct (check_ballot (Some b)) as [| |b' p h|e] eqn:E; [by apply Hskip|by apply Hskip| |by destruct (Hb e)].
  pose proof (check_Accept _ _ _ _ E) as ->.
  destruct (Nat.leb_spec VotesPerBatch (length (ai_AggBallots (inputs_of acc)))) as [Hl|_].
  { cbn in Hl. rewrite length_fmap in Hl. lia. }
  destruct (proofToRecursion p) as [rp|e] eqn:Erp; [|by apply Hskip]. cbv zeta.
  assert (Hu : usable b = Some (rp, h)) by (unfold usable; by rewrite E, Erp).
  change (add_input b k rp h (inputs_of acc)) with
    (add_input ((b, k), (rp, h)).1.1 ((b, k), (rp, h)).1.2 ((b, k), (rp, h)).2.1 ((b, k), (rp, h)).2.2 (inputs_of acc)).
  rewrite <-inputs_of_snoc.
  assert (Hpick : ∀ l1, picks ((b, k) :: l1) = ((b, k), (rp, h)) :: picks l1).
  { intros l1. unfold picks. cbn [omap list_omap fst]. by rewrite Hu. }
  assert (Hsk : ∀ l1, skips ((b, k) :: l1) = skips l1).
  { intros l1. unfold skips. apply filter_cons_False. cbn [fst]. by rewrite Hu. }
  assert (Hlen : length (ai_AggBallots (inputs_of (acc ++ [((b, k), (rp, h))]))) = (length acc + 1)%nat).
  { cbn. by rewrite length_fmap, length_app. }
  rewrite Hlen. destruct (Nat.leb_spec VotesPerBatch (length acc + 1)) as [Hfull|Hmore].
  - exists [(b, k)], l. cbv zeta. rewrite Hpick, Hsk. cbn [picks omap list_omap]. rewrite length_app. cbn [length].
    split_and!; [done|lia| |].
    + destruct (Nat.leb_spec VotesPerBatch (length acc + 1)); [done|lia].
    + destruct (Nat.leb_spec VotesPerBatch (length acc + 1)); [|lia]. reflexivity.
  - destruct (IH (acc ++ [((b, k), (rp, h))]) s Hp) as (l1 & l2 & -> & Hle & Hf & Hrun); [clear IH; rewrite length_app; cbn [length]; lia|].
    exists ((b, k) :: l1), l2. cbv zeta. rewrite Hpick, Hsk, cons_middle, app_assoc. split_and!; try done.
Qed.

(** Of the pulled ballots the loop takes those that pass every check, in order, until the batch is
    full; it fails the others that it meets (or releases them when that does not work), releases what it
    does not come to, and the inputs are those of the ballots that it took. A storage that
    fails changes nothing of that. *)
Theorem collectAggregationBatchInputs_spec (l : list (VerifiedBallot * bytes)) (s : S) :
  Forall (λ bk, ∀ e, check_ballot (Some bk.1) ≠ Panics e) l →
  ∃ l1 l2, l = l1 ++ l2 ∧
    let full := (VotesPerBatch <=? length (picks l1))%nat in
    (length (picks l1) ≤ VotesPerBatch)%nat ∧ (full = false → l2 = []) ∧
    collectAggregationBatchInputs processState maxVotersReached proofToRecursion verifyVoteVerifierProof (Some <$> l.*1) l.*2 s =
      (Ok (inputs_of (picks l1)), exec (_ ← forM_ (λ bk, skip_ballot bk.2) (skips l1); release_rest full l2) s).
Proof. intros Hp. apply (collect_inputs_spec l [] s Hp). cbn [length]. unfold VotesPerBatch. lia. Qed.
End collected.

(** ** What becomes of the pulled ballots *)

Section settled.
Context `{Env : StorageEnv}.
Definition verified_spaces : list bytes := [verifiedBallotPrefix; reservationDB verifiedBallotPrefix].
(** No failing commit shows up, and of the verified ballots and their reservations those under [es] and
    [rs] go. *)
Definition drops (es rs : list bytes) (s s' : Storage) : Prop := quiet s' ∧
  (∀ k, db s' !! (verifiedBallotPrefix ++ k) = if bool_decide (k ∈ es) then None else db s !! (verifiedBallotPrefix ++ k)) ∧
  (∀ k, db s' !! (reservationDB verifiedBallotPrefix ++ k) =
        if bool_decide (k ∈ rs) then None else db s !! (reservationDB verifiedBallotPrefix ++ k)).
Lemma drops_alone s s' : alone verified_spaces s s' → quiet s → drops [] [] s s'.
Proof.
  intros Ha Hq. destruct (Ha Hq) as [Hq' H]. split; [done|].
  split; intros k; rewrite H; try done; unfold verified_spaces; in_list.
Qed.
Lemma drops_trans es1 rs1 es2 rs2 s1 s2 s3 :
  drops es1 rs1 s1 s2 → drops es2 rs2 s2 s3 → drops (es1 ++ es2) (rs1 ++ rs2) s1 s3.
Proof.
  intros (_ & E1 & R1) (Hq & E2 & R2). split; [done|].
  split; intros k; rewrite ?E2, ?R2, ?E1, ?R1; repeat case_bool_decide; try done; exfalso; set_solver.
Qed.
Lemma drops_alone_l es rs s1 s2 s3 : quiet s1 → alone verified_spaces s1 s2 → drops es rs s2 s3 → drops es rs s1 s3.
Proof. intros Hq Ha Hd. exact (drops_trans [] [] es rs _ _ _ (drops_alone _ _ Ha Hq) Hd). Qed.
Lemma drops_alone_r es rs s1 s2 s3 : drops es rs s1 s2 → alone verified_spaces s2 s3 → drops es rs s1 s3.
Proof.
  intros Hd Ha. rewrite <-(app_nil_r es), <-(app_nil_r rs). eapply drops_trans; [done|]. apply drops_alone; [done|apply Hd].
Qed.
Lemma drops_reservation k s : quiet s → drops [] [k] s (set_db (delete (reservationDB verifiedBallotPrefix ++ k) (db s)) s).
Proof.
  intros Hq. split; [done|]. cbn [db set_db]. split; intros k'.
  - apply lookup_delete_ne. by apply incompatible_app.
  - case_bool_decide as Hk; [apply list_elem_of_singleton in Hk as ->; apply lookup_delete_eq|].
    apply lookup_delete_ne. intros ?%app_inv_head. set_solver.
Qed.
Lemma drops_entry k s : quiet s → drops [k] [] s (set_db (delete (verifiedBallotPrefix ++ k) (db s)) s).
Proof.
  intros Hq. split; [done|]. cbn [db set_db]. split; intros k'.
  - case_bool_decide as Hk; [apply list_elem_of_singleton in Hk as ->; apply lookup_delete_eq|].
    apply lookup_delete_ne. intros ?%app_inv_head. set_solver.
  - apply lookup_delete_ne. by apply incompatible_app.
Qed.

(** The operations on keys of the queue. *)
Lemma Release_drops ks s : quiet s → ∃ s', ReleaseVerifiedBallotReservations ks s = (Ok (), s') ∧ drops [] ks s s'.
Proof.
  revert s. induction ks as [|k ks IH]; intros s Hq.
  { exists s. split; [done|]. split; [done|]. by split. }
  destruct (IH (set_db (delete (reservationDB verifiedBallotPrefix ++ k) (db s)) s)) as (s' & Hr & Hd); [by apply quiet_set_db|].
  exists s'. split.
  - unfold ReleaseVerifiedBallotReservations in *. cbn [forM_]. erewrite bind_Ok; [exact Hr|].
    unfold wrapping, ignoring. by rewrite deleteReservation_quiet.
  - exact (drops_trans [] [k] [] ks _ _ _ (drops_reservation k s Hq) Hd).
Qed.
Lemma removeVerified_drops k s : quiet s → ∃ s', removeVerifiedBallot k s = (Ok (), s') ∧ drops [k] [k] s s'.
Proof.
  intros Hq. eexists. split.
  - unfold removeVerifiedBallot, wrapping, ignoring. erewrite bind_Ok by (rewrite deleteReservation_quiet by done; reflexivity).
    rewrite deleteArtifact_quiet by done. reflexivity.
  - apply (drops_trans [] [k] [k] [] _ _ _ (drops_reservation k s Hq)). apply drops_entry. by apply quiet_set_db.
Qed.
Lemma alone_releaseLocks v pid a : moves (alone verified_spaces) (releaseLocks v pid a).
Proof. intros s Hq. rewrite releaseLocks_eq. by split. Qed.
Lemma Done_drops ks s : quiet s → ∃ s', MarkVerifiedBallotsDone ks s = (Ok (), s') ∧ drops ks ks s s'.
Proof.
  revert s. induction ks as [|k ks IH]; intros s Hq.
  { exists s. split; [done|]. split; [done|]. by split. }
  unfold MarkVerifiedBallotsDone in *. cbn [forM_].
  assert (Hone : ∃ s1, (r ← attempt (getArtifact (A:=VerifiedBallot) verifiedBallotPrefix (Some k));
    _ ← releaseVerified (match r with Ok b => Some b | Err _ => None end); removeVerifiedBallot k) s = (Ok (), s1) ∧ drops [k] [k] s s1).
  { erewrite bind_Ok by apply attempt_eq. rewrite getArtifact_eq. cbn [fst snd].
    set (m := match _ with Ok b => Some b | Err _ => None end).
    assert (Hl : ∃ s0, releaseVerified m s = (Ok (), s0) ∧ alone verified_spaces s s0).
    { destruct m as [vb|]; [|by exists s]. cbn [releaseVerified]. eexists. split; [apply releaseLocks_eq|].
      apply (alone_releaseLocks (vb_VoteID vb) (vb_ProcessID vb) (vb_Address vb)). }
    destruct Hl as (s0 & Hl & Ha). erewrite bind_Ok by exact Hl.
    destruct (removeVerified_drops k s0) as (s1 & Hr & Hd); [by apply Ha|]. exists s1. split; [done|]. by eapply drops_alone_l. }
  destruct Hone as (s1 & H1 & Hd1). destruct (IH s1) as (s2 & H2 & Hd2); [apply Hd1|].
  exists s2. split; [by rewrite (bind_Ok _ _ _ _ _ H1)|]. exact (drops_trans [k] [k] ks ks _ _ _ Hd1 Hd2).
Qed.
End settled.

#[local] Hint Extern 2 (moves (alone _) _) => alone_leaf : moves.

Section collected_runs.
Context `{Env : StorageEnv} `{Cdb : CensusDB} `{Cen : !Censuses} `{Vp : VoteProofs} {P : Type} `{Ps : !aggregationProcessState P}.
(** The pulled ballots, as the storage has them. *)
Definition stored (d : kv) (bk : VerifiedBallot * bytes) : Prop :=
  ∃ v, d !! (verifiedBallotPrefix ++ bk.2) = Some v ∧ DecodeArtifact v = Ok bk.1.
Lemma stored_drops es rs s s' bk : drops es rs s s' → bk.2 ∉ es → stored (db s) bk → stored (db s') bk.
Proof.
  intros (_ & He & _) Hk (v & Hv & Hd). exists v. split; [|done]. rewrite He. by rewrite bool_decide_eq_false_2.
Qed.
Lemma status_quiet pid v st s : quiet s → ∃ s', setVoteIDStatus pid v st s = (Ok (), s') ∧ alone verified_spaces s s'.
Proof.
  intros Hq. pose proof (alone_status verified_spaces pid v st eq_refl s) as Ha.
  unfold setVoteIDStatus, gets in *. unfold mbind, SE_bind in *. cbn in *.
  destruct (is_done _); [by exists s|]. rewrite commit_quiet in * by done. eauto.
Qed.
Lemma Failed_drops bk s : quiet s → stored (db s) bk →
  ∃ s', MarkVerifiedBallotsFailed [bk.2] s = (Ok (), s') ∧ drops [bk.2] [bk.2] s s'.
Proof.
  intros Hq (v & Hv & Hd). unfold MarkVerifiedBallotsFailed. cbn [foldM].
  assert (Hone : ∃ acc s1, failVerifiedBallot [] bk.2 s = (Ok acc, s1) ∧ drops [bk.2] [bk.2] s s1).
  { unfold failVerifiedBallot. erewrite bind_Ok by apply attempt_eq. rewrite getArtifact_eq, Hv, Hd. cbn [fst snd].
    assert (Hread : moves (=) (voteIDStatus (vb_ProcessID bk.1) (vb_VoteID bk.1))) by (unfold voteIDStatus;
      repeat first [moves_step | apply moves_rd_Get; apply _ | apply moves_process; apply _]).
    erewrite bind_Ok by apply attempt_eq. rewrite <-(Hread s).
    destruct (status_quiet (vb_ProcessID bk.1) (vb_VoteID bk.1) VoteIDStatusError s Hq) as (s1 & H1 & Ha1).
    erewrite bind_Ok by (unfold wrapping; rewrite H1; reflexivity).
    destruct (removeVerified_drops bk.2 s1) as (s2 & H2 & Hd2); [by apply Ha1|].
    erewrite bind_Ok by (unfold wrapping; rewrite H2; reflexivity).
    erewrite bind_Ok by apply releaseLocks_eq. do 2 eexists. split; [reflexivity|].
    eapply drops_alone_l; [exact Hq|exact Ha1|]. eapply drops_alone_r; [exact Hd2|].
    apply (alone_releaseLocks (vb_VoteID bk.1) (vb_ProcessID bk.1) (vb_Address bk.1)). }
  destruct Hone as (acc & s1 & H1 & Hd1). erewrite bind_Ok by (erewrite bind_Ok by exact H1; reflexivity).
  assert (Hl : ∀ l s, ∃ s', forM_ (λ pn : ProcessID * Z, warn (updateProcessStats pn.1
    [{| upd_TypeStats := TypeStatsVerifiedVotes; upd_Delta := - pn.2 |};
     {| upd_TypeStats := TypeStatsCurrentBatchSize; upd_Delta := - pn.2 |}])) l s = (Ok (), s') ∧ alone verified_spaces s s').
  { intros l. induction l as [|pn l IH]; intros s0; [by exists s0|]. cbn [forM_]. erewrite bind_Ok by apply warn_eq.
    destruct (IH (updateProcessStats pn.1 [{| upd_TypeStats := TypeStatsVerifiedVotes; upd_Delta := - pn.2 |};
      {| upd_TypeStats := TypeStatsCurrentBatchSize; upd_Delta := - pn.2 |}] s0).2) as (s' & Hs & Ha). exists s'. split; [exact Hs|].
    etrans; [|exact Ha]. apply alone_stats; by vm_compute. }
  destruct (Hl acc s1) as (s' & -> & Ha). exists s'. split; [done|]. by eapply drops_alone_r.
Qed.
Lemma skip_drops bk s : quiet s → stored (db s) bk → drops [bk.2] [bk.2] s (exec (skip_ballot bk.2) s).
Proof.
  intros Hq Hst. destruct (Failed_drops bk s Hq Hst) as (s' & Hf & Hd). unfold exec, skip_ballot.
  erewrite bind_Ok by apply attempt_eq. cbn [ag_MarkVerifiedBallotsFailed storage_aggregation]. by rewrite Hf.
Qed.
Lemma skips_drop l s : quiet s → NoDup l.*2 → Forall (stored (db s)) l →
  drops l.*2 l.*2 s (exec (forM_ (λ bk, skip_ballot bk.2) l) s) ∧ eval (forM_ (λ bk, skip_ballot bk.2) l) s = Ok ().
Proof.
  revert s. induction l as [|bk l IH]; intros s Hq Hnd Hst.
  { split; [|done]. split; [done|]. by split. }
  cbn [fmap list_fmap] in Hnd. apply NoDup_cons in Hnd as [Hk Hnd]. apply Forall_cons in Hst as [Hb Hst].
  pose proof (skip_drops bk s Hq Hb) as Hd. unfold exec, eval in *. cbn [forM_].
  rewrite (bind_Ok _ _ _ _ _ (skip_ballot_Ok bk.2 s)). unfold exec in *. destruct (IH (skip_ballot bk.2 s).2) as [Hr He].
  - apply Hd.
  - done.
  - apply Forall_forall. intros bk' Hin. rewrite Forall_forall in Hst. eapply stored_drops; [exact Hd| |by apply Hst].
    intros Hin'%list_elem_of_singleton. apply Hk. rewrite <-Hin'. by apply list_elem_of_fmap_2.
  - split; [|exact He]. exact (drops_trans [bk.2] [bk.2] l.*2 l.*2 _ _ _ Hd Hr).
Qed.

Lemma NoDup_fmap_dfilter {A B} (f : A → B) (Q : A → Prop) `{∀ x, Decision (Q x)} l : NoDup (f <$> l) → NoDup (f <$> filter Q l).
Proof.
  induction l as [|x l IH]; [done|]. intros [Hx Hl]%NoDup_cons. destruct (decide (Q x)) as [Hq|Hq].
  - rewrite filter_cons_True by done. apply NoDup_cons. split; [|by apply IH]. intros (y & Hy & [_ Hin]%list_elem_of_filter)%list_elem_of_fmap.
    apply Hx. rewrite Hy. by apply list_elem_of_fmap_2.
  - rewrite filter_cons_False by done. by apply IH.
Qed.
(** The run of the loop over what was pulled. *)
Lemma collect_drops (st : P) max pr vf (l : list (VerifiedBallot * bytes)) s :
  quiet s → NoDup l.*2 → Forall (stored (db s)) l → Forall (λ bk, ∀ e, check_ballot st max vf (Some bk.1) ≠ Panics e) l →
  ∃ l1 l2 s', l = l1 ++ l2 ∧ (length (picks st max pr vf l1) ≤ VotesPerBatch)%nat ∧
    collectAggregationBatchInputs st max pr vf (Some <$> l.*1) l.*2 s = (Ok (inputs_of (picks st max pr vf l1)), s') ∧
    drops (skips st max pr vf l1).*2 ((skips st max pr vf l1).*2 ++ l2.*2) s s'.
Proof.
  intros Hq Hnd Hst Hp. destruct (collect_inputs_spec st max pr vf l [] s Hp) as (l1 & l2 & -> & Hle & Hf & Hrun);
    [cbn [length]; unfold VotesPerBatch; lia|].
  cbn [app] in *. exists l1, l2. eexists. split; [done|]. split; [done|]. split; [exact Hrun|].
  destruct (skips_drop (skips st max pr vf l1) s Hq) as [Hd He].
  { apply NoDup_fmap_dfilter. rewrite fmap_app in Hnd. by apply NoDup_app in Hnd as [? _]. }
  { apply Forall_forall. intros bk [_ Hin]%list_elem_of_filter. rewrite Forall_forall in Hst. apply Hst. set_solver. }
  unfold exec, eval in *. destruct (forM_ (λ bk, skip_ballot bk.2) (skips st max pr vf l1) s) as [r s1] eqn:Efm.
  cbn [fst snd] in *. subst r. rewrite (bind_Ok _ _ _ _ _ Efm). rewrite <-(app_nil_r (skips _ _ _ _ _).*2) at 1.
  eapply drops_trans; [exact Hd|]. unfold release_rest. destruct (_ <=? _)%nat.
  - cbn [warn snd]. destruct (Release_drops l2.*2 s1) as (s2 & Hr & Hd2); [apply Hd|].
    cbn [ag_ReleaseVerifiedBallotReservations storage_aggregation]. by rewrite Hr.
  - rewrite (Hf eq_refl). destruct Hd as [Hq1 _]. split; [done|]. by split.
Qed.
End collected_runs.

Section batches.
Context `{Env : StorageEnv} `{Web3} `{Curve} `{Arbo} `{Hash : PoseidonHasher} `{!StateTrees} `{Censuses} `{VoteProofs}.
Context (ProveAggregate : AggregatorAssignment → result (option bytes)).
Context (voteVerifierDummyProof : VoteProof).
Notation aggregator_assignment := (aggregator_assignment voteVerifierDummyProof).
Notation aggregate_proof := (aggregate_proof ProveAggregate).
Notation aggregate_pulled := (aggregate_pulled ProveAggregate voteVerifierDummyProof).
Notation aggregateBatch := (aggregateBatch ProveAggregate voteVerifierDummyProof).

(** The batch is in the queue under its hash. *)
Definition batch_queued (pid : ProcessID) (ballots : list AggregatorBallot) (d : kv) : Prop :=
  ∃ abb val, abb_ProcessID abb = pid ∧ abb_Ballots abb = ballots ∧ EncodeArtifact abb = Ok val ∧
    d !! (aggregBatchPrefix ++ pid_bytes pid ++ hashKey val) = Some val.
Lemma push_queues abb s s' : quiet s → pushAggregatorBatch abb s = (Ok (), s') →
  batch_queued (abb_ProcessID abb) (abb_Ballots abb) (db s') ∧ alone verified_spaces s s'.
Proof.
  intros Hq Hp. split.
  - unfold pushAggregatorBatch in Hp.
    apply bind_inv_Ok in Hp as (val & s0 & Hv & Hp). unfold wrapping, lift in Hv.
    destruct (EncodeArtifact abb) as [val'|e] eqn:Henc; [|done]. injection Hv as -> <-. cbv zeta in Hp.
    rewrite (bind_Ok _ _ s _ _ (commit_quiet _ s Hq)), apply_Set in Hp. set (s1 := set_db _ s) in Hp.
    assert (Ha : alone [aggregBatchPrefix] s1 s').
    { change s' with ((Ok (), s') : result () * Storage).2. rewrite <-Hp. to_moves. moves. }
    exists abb, val. split_and!; try done. destruct (Ha (quiet_set_db _ _ Hq)) as [_ Hk]. rewrite Hk by in_list.
    unfold s1. cbn [db set_db]. by rewrite lookup_insert_eq.
  - change s' with ((Ok (), s') : result () * Storage).2. rewrite <-Hp. to_moves. unfold pushAggregatorBatch. moves.
Qed.
Lemma alone_push abb : moves (alone verified_spaces) (pushAggregatorBatch abb).
Proof. unfold pushAggregatorBatch. moves. Qed.
Lemma batch_queued_alone pid bs s s' : alone [aggregBatchPrefix] s s' → quiet s → batch_queued pid bs (db s) → batch_queued pid bs (db s').
Proof. intros Ha Hq (abb & val & Hb). exists abb, val. destruct (Ha Hq) as [_ Hk]. rewrite Hk by in_list. done. Qed.
Lemma alone_batch_Done ks : moves (alone [aggregBatchPrefix]) (MarkVerifiedBallotsDone ks).
Proof.
  unfold MarkVerifiedBallotsDone, removeVerifiedBallot, releaseVerified, releaseLocks, releaseVoteID, releaseAddress, deleteAddressInfo.
  moves.
Qed.

Definition on_verified es rs (q q' : Sequencer) : Prop := drops es rs (q_stg q) (q_stg q').
Lemma release_seq ks q : quiet (q_stg q) → ∃ q', warn (on_stg (ReleaseVerifiedBallotReservations ks)) q = (Ok (), q') ∧ on_verified [] ks q q'.
Proof.
  intros Hq. destruct (Release_drops ks (q_stg q) Hq) as (s' & Hr & Hd). eexists. rewrite warn_eq, on_stg_eq, Hr. by split.
Qed.
Lemma queue_aggregate_run pid ai proof q r q' : quiet (q_stg q) → queue_aggregate pid ai proof q = (r, q') →
  match r with
  | Ok _ => on_verified (ai_ProcessedKeys ai) (ai_ProcessedKeys ai) q q' ∧ batch_queued pid (ai_AggBallots ai) (db (q_stg q'))
  | Err _ => on_verified [] (ai_ProcessedKeys ai) q q'
  end.
Proof.
  intros Hq. unfold queue_aggregate. set (abb := {| abb_ProcessID := pid |}).
  erewrite bind_Ok by apply attempt_eq. rewrite on_stg_eq. unfold PushAggregatorBatch. cbn [fst snd].
  destruct (pushAggregatorBatch abb (q_stg q)) as [[[]|e] s1] eqn:Ep; cbn [fst snd].
  - destruct (push_queues abb _ _ Hq Ep) as [Hb Ha]. pose proof (proj1 (Ha Hq)) as Hq1.
    erewrite bind_Ok by apply attempt_eq. rewrite on_stg_eq. cbn [fst snd q_stg].
    destruct (Done_drops (ai_ProcessedKeys ai) s1 Hq1) as (s2 & Hd & Hdr). pose proof (alone_batch_Done (ai_ProcessedKeys ai) s1) as Hb2.
    rewrite Hd in *. cbn [fst snd] in *. intros [= <- <-]. split; [exact (drops_alone_l _ _ _ _ _ Hq Ha Hdr)|].
    cbn [q_stg]. exact (batch_queued_alone pid _ s1 s2 Hb2 Hq1 Hb).
  - assert (Ha : alone verified_spaces (q_stg q) s1) by (pose proof (alone_push abb (q_stg q)) as Ha; by rewrite Ep in Ha).
    destruct (release_seq (ai_ProcessedKeys ai) {| q_stg := s1; q_ids := q_ids q |}) as (q2 & Hr & Hd); [by apply Ha|].
    rewrite (bind_Ok _ _ _ _ _ Hr). intros [= <- <-]. by eapply drops_alone_l.
Qed.

Lemma aggregator_assignment_run ai q r q' : quiet (q_stg q) → aggregator_assignment ai q = (r, q') →
  match r with
  | Ok _ => q' = q
  | Err _ => ∃ rs, on_verified [] rs q q' ∧ (is_Ok (InputsHash ai) = true → rs = ai_ProcessedKeys ai)
  end.
Proof.
  intros Hq. unfold SequencerAggregate.aggregator_assignment. destruct (InputsHash ai) as [h|e] eqn:Eh.
  2:{ erewrite bind_Err by (unfold wrapping, lift; reflexivity). intros [= <- <-]. exists []. split; [|done].
      split; [done|]. by split. }
  erewrite bind_Ok by (unfold wrapping, lift; reflexivity). cbv zeta.
  destruct (_ <? VotesPerBatch)%nat; [|by intros [= <- <-]].
  destruct (FillWithDummy _ _ _) as [a|e]; [by intros [= <- <-]|].
  destruct (release_seq (ai_ProcessedKeys ai) q Hq) as (q2 & Hr & Hd). rewrite (bind_Ok _ _ _ _ _ Hr).
  intros [= <- <-]. exists (ai_ProcessedKeys ai). by split.
Qed.
Lemma aggregate_proof_run ai a q r q' : quiet (q_stg q) →
  Forall (λ b, is_Ok (verifyVoteVerifierProof b) = true) (ai_VerifiedBallots ai) → aggregate_proof ai a q = (r, q') →
  match r with Ok _ => q' = q | Err _ => on_verified [] (ai_ProcessedKeys ai) q q' end.
Proof.
  intros Hq Hv. unfold SequencerAggregate.aggregate_proof.
  destruct (release_seq (ai_ProcessedKeys ai) q Hq) as (q2 & Hr & Hd).
  destruct (ProveAggregate a) as [[proof|]|e]; [by intros [= <- <-]| |].
  - rewrite (bind_Ok _ _ _ _ _ Hr). by intros [= <- <-].
  - assert (Hf : List.filter (λ bk, negb (is_Ok (verifyVoteVerifierProof bk.1)))
      (zip (ai_VerifiedBallots ai) (ai_ProcessedKeys ai)) = []).
    { generalize (ai_ProcessedKeys ai). induction Hv as [|b bs Hb _ IH]; [done|].
      intros [|k ks]; [done|]. cbn. rewrite Hb. apply IH. }
    rewrite Hf. cbn [fmap list_fmap].
    rewrite (bind_Ok _ _ q () q) by done. rewrite (bind_Ok _ _ _ _ _ Hr). by intros [= <- <-].
Qed.
Notation usable_in st max := (usable st max ValueOfProof (Some verifyVoteVerifierProof)).
Notation picks_in st max := (picks st max ValueOfProof (Some verifyVoteVerifierProof)).
Notation skips_in st max := (skips st max ValueOfProof (Some verifyVoteVerifierProof)).
Lemma usable_verified (st : State) max b u : usable_in st max b = Some u → is_Ok (verifyVoteVerifierProof b) = true.
Proof.
  unfold usable, check_ballot. intros Hu. repeat case_match; try done.
Qed.
Lemma picks_usable (st : State) max l : Forall (λ x, usable_in st max x.1.1 = Some x.2) (picks_in st max l).
Proof.
  apply Forall_forall. intros x (bk & Hin & Hx)%list_elem_of_omap. destruct (usable_in st max bk.1) as [u|] eqn:E; [|done].
  injection Hx as <-. exact E.
Qed.
Lemma picks_skips (st : State) max l : l ≡ₚ (picks_in st max l).*1 ++ skips_in st max l.
Proof.
  induction l as [|bk l IH]; [done|]. unfold picks, skips in *. cbn [omap list_omap].
  destruct (usable_in st max bk.1) as [u|] eqn:E.
  - rewrite filter_cons_False by (by rewrite E). cbn. by constructor.
  - rewrite filter_cons_True by done. cbn. rewrite <-Permutation_middle. by constructor.
Qed.
Lemma on_verified_trans es1 rs1 es2 rs2 q1 q2 q3 :
  on_verified es1 rs1 q1 q2 → on_verified es2 rs2 q2 q3 → on_verified (es1 ++ es2) (rs1 ++ rs2) q1 q3.
Proof. apply drops_trans. Qed.
Lemma aggregate_pulled_run pid max (st : State) l q r q' :
  quiet (q_stg q) → NoDup l.*2 → Forall (stored (db (q_stg q))) l →
  Forall (λ bk, ∀ e, check_ballot st max (Some verifyVoteVerifierProof) (Some bk.1) ≠ Panics e) l →
  aggregate_pulled pid max st l.*1 l.*2 q = (r, q') →
  ∃ l1 l2, l = l1 ++ l2 ∧ (length (picks_in st max l1) ≤ VotesPerBatch)%nat ∧
    let picked := (picks_in st max l1).*1 in let failed := skips_in st max l1 in
    match r with
    | Ok _ => on_verified (failed.*2 ++ picked.*2) ((failed.*2 ++ l2.*2) ++ picked.*2) q q' ∧
              (picked ≠ [] → batch_queued pid (aggregator_ballot <$> picked.*1) (db (q_stg q')))
    | Err _ => ∃ rs, on_verified failed.*2 ((failed.*2 ++ l2.*2) ++ rs) q q' ∧
               (is_Ok (InputsHash (inputs_of (picks_in st max l1))) = true → rs = picked.*2)
    end.
Proof.
  intros Hq Hnd Hst Hp. destruct (collect_drops st max ValueOfProof (Some verifyVoteVerifierProof) l (q_stg q) Hq Hnd Hst Hp)
    as (l1 & l2 & s1 & -> & Hle & Hrun & Hd). unfold SequencerAggregate.aggregate_pulled.
  erewrite bind_Ok by (rewrite on_stg_eq, Hrun; reflexivity). cbn [snd]. set (q1 := {| q_stg := s1; q_ids := q_ids q |}).
  set (ai := inputs_of (picks_in st max l1)).
  assert (Hd1 : on_verified (skips_in st max l1).*2 ((skips_in st max l1).*2 ++ l2.*2) q q1) by exact Hd.
  assert (Hkeys : ai_ProcessedKeys ai = (picks_in st max l1).*1.*2) by (cbn; by rewrite <-list_fmap_compose).
  assert (Haggs : ai_AggBallots ai = aggregator_ballot <$> (picks_in st max l1).*1.*1) by (cbn; by rewrite <-!list_fmap_compose).
  assert (Hver : Forall (λ b, is_Ok (verifyVoteVerifierProof b) = true) (ai_VerifiedBallots ai)).
  { cbn. apply Forall_fmap. eapply Forall_impl; [apply picks_usable|]. intros x. apply usable_verified. }
  assert (Hq1 : quiet (q_stg q1)) by apply Hd.
  intros Hr. exists l1, l2. split; [done|]. split; [done|]. cbv zeta. rewrite <-Hkeys, <-Haggs. fold ai. clearbody ai.
  destruct (ai_AggBallots ai) as [|a0 al] eqn:Ea.
  { injection Hr as <- <-. assert ((picks_in st max l1).*1 = []) as E.
    { symmetry in Haggs. by apply fmap_nil_inv, fmap_nil_inv in Haggs. }
    rewrite Hkeys, E. cbn [fmap list_fmap]. rewrite !app_nil_r. by split. }
  rewrite <-Ea in *. clear Ea a0 al. unfold mbind, SE_bind in Hr.
  destruct (aggregator_assignment ai q1) as [[a|e] q2] eqn:E2; pose proof (aggregator_assignment_run _ _ _ _ Hq1 E2) as Hr2.
  2:{ injection Hr as <- <-. destruct Hr2 as (rs & Hrs & Hi). exists rs. split; [|done].
      rewrite <-(app_nil_r (skips_in st max l1).*2) at 1. by eapply on_verified_trans. }
  cbv iota in Hr2. subst q2. destruct (aggregate_proof ai a q1) as [[proof|e] q2] eqn:E3; pose proof (aggregate_proof_run _ _ _ _ _ Hq1 Hver E3) as Hr3.
  2:{ injection Hr as <- <-. exists (ai_ProcessedKeys ai). split; [|done].
      rewrite <-(app_nil_r (skips_in st max l1).*2) at 1. by eapply on_verified_trans. }
  cbv iota in Hr3. subst q2. pose proof (queue_aggregate_run _ _ _ _ _ _ Hq1 Hr) as H4'. destruct r as [[]|e].
  - destruct H4' as [H4' Hb]. split; [by eapply on_verified_trans|done].
  - exists (ai_ProcessedKeys ai). split; [|done].
    rewrite <-(app_nil_r (skips_in st max l1).*2) at 1. by eapply on_verified_trans.
Qed.

(** The verified ballots that a call pulls, with their keys. *)
Definition pulled_ballots (pid : ProcessID) (d : kv) : list (VerifiedBallot * bytes) :=
  (λ kv, (kv.2, kv.1)) <$> selection pid (Z.of_nat (VotesPerBatch * 2)) d.
(** The census index of a ballot can be turned into a key of the state. *)
Definition indexed (bk : VerifiedBallot * bytes) : Prop :=
  ∃ i ix, VoterIndex (vb_CensusProof bk.1) = Some i ∧ CalculateBallotIndex i = Ok ix.
Lemma indexed_check (st : State) max vf bk e : indexed bk → check_ballot st max vf (Some bk.1) ≠ Panics e.
Proof. intros (i & ix & Hi & Hx) Hc. unfold check_ballot in Hc. rewrite Hi, Hx in Hc. repeat case_match; congruence. Qed.
Lemma pulled_facts pid d : local_keys verifiedBallotPrefix pid d →
  NoDup (pulled_ballots pid d).*2 ∧ Forall (stored d) (pulled_ballots pid d) ∧ Forall (λ bk, isReserved d verifiedBallotPrefix bk.2 = false) (pulled_ballots pid d) ∧
  NoDup (address_String ∘ vb_Address <$> (pulled_ballots pid d).*1).
Proof.
  intros Hloc. destruct (selection_spec pid (Z.of_nat (VotesPerBatch * 2)) d Hloc) as [am [_ Ha _ Hk Hin _]].
  unfold pulled_ballots. rewrite <-!list_fmap_compose. split_and!.
  - done.
  - apply Forall_fmap, Forall_forall. intros [k vb] Hkv. destruct (Hin k vb Hkv) as (_ & v & Hv & Hd).
    apply elem_of_view in Hv as [Hv _]; [|done]. by exists v.
  - apply Forall_fmap, Forall_forall. intros [k vb] Hkv. by apply (Hin k vb).
  - done.
Qed.

Ltac reads_only := repeat first [moves_step | apply moves_rd_Get; apply _ | apply moves_process; apply _].
Lemma pull_step pid q : quiet (q_stg q) → reservations_encode → local_keys verifiedBallotPrefix pid (db (q_stg q)) →
  let l := pulled_ballots pid (db (q_stg q)) in
  PullVerifiedBallots pid (Z.of_nat (VotesPerBatch * 2)) (q_stg q) = (Err ErrNotFound, q_stg q) ∨
  l ≠ [] ∧ ∃ s1, PullVerifiedBallots pid (Z.of_nat (VotesPerBatch * 2)) (q_stg q) = (Ok (l.*1, l.*2), s1) ∧ quiet s1 ∧
       ∀ k, db s1 !! (verifiedBallotPrefix ++ k) = db (q_stg q) !! (verifiedBallotPrefix ++ k).
Proof.
  intros Hq Henc Hloc. pose proof (PullVerifiedBallots_run pid (Z.of_nat (VotesPerBatch * 2)) (q_stg q) Hq Henc Hloc ltac:(by vm_compute)) as Hpull.
  cbv zeta in *. unfold pulled_ballots. set (sel := selection pid _ _) in *. rewrite <-!list_fmap_compose.
  destruct (decide (sel = [])) as [_|Hsel]; [by left|]. right. destruct Hpull as (s1 & Hpull & _ & _ & Ht).
  split; [by intros ?%fmap_nil_inv|]. exists s1. split; [exact Hpull|]. split.
  - pose proof (sr_PullVerifiedBallots keeps pid (Z.of_nat (VotesPerBatch * 2)) (q_stg q) Hq) as Hk. rewrite Hpull in Hk. apply Hk.
  - intros k. apply Ht. intros (k' & _ & Hk). symmetry in Hk. revert Hk. by apply incompatible_app.
Qed.
Lemma read_step {A B} msg (m : M A) (f : A → SE Sequencer B) q r q' : moves (=) m → (wrapping msg (on_stg m) ≫= f) q = (r, q') →
  (∃ e, r = Err e ∧ q' = q) ∨ ∃ a, f a q = (r, q').
Proof.
  intros Hm. unfold mbind, SE_bind, wrapping. rewrite on_stg_eq. specialize (Hm (q_stg q)). rewrite <-Hm.
  destruct q as [s ids]. cbn [q_stg q_ids]. destruct (m s).1 as [a|e]; [eauto|]. intros [= <- <-]. left. eauto.
Qed.

(** What a call has done with the ballots [l] when it returns [r]: they split into those that join the batch, those
    that fail its checks and the rest. Without an error the batch is queued with exactly the first; the first two
    have left the queue of verified ballots, the rest is there as before, and none of [l] is reserved. With an
    error only ballots that fail the checks have left the queue. *)
Definition entry (d : kv) (k : bytes) : option bytes := d !! (verifiedBallotPrefix ++ k).
Definition settled_by (pid : ProcessID) (l : list (VerifiedBallot * bytes)) (d d' : kv) (r : result ()) : Prop :=
  match r with
  | Ok _ => ∃ st max picked failed rest, l ≡ₚ picked ++ failed ++ rest ∧ (length picked ≤ VotesPerBatch)%nat ∧
      Forall (λ bk, is_Some (usable_in st max bk.1)) picked ∧ Forall (λ bk, usable_in st max bk.1 = None) failed ∧
      (picked ≠ [] → batch_queued pid (aggregator_ballot <$> picked.*1) d') ∧
      (∀ k, entry d' k = if bool_decide (k ∈ failed.*2 ++ picked.*2) then None else entry d k) ∧
      ∀ bk, bk ∈ l → isReserved d' verifiedBallotPrefix bk.2 = false
  | Err _ => ∃ failed, (∀ bk, bk ∈ failed → bk ∈ l ∧ ∃ st max, usable_in st max bk.1 = None) ∧
      ∀ k, entry d' k = if bool_decide (k ∈ failed.*2) then None else entry d k
  end.
Lemma settled_early pid l d d' e : (∀ k, entry d' k = entry d k) → settled_by pid l d d' (Err e).
Proof. intros Hs. exists []. split; [set_solver|]. intros k. by rewrite Hs. Qed.
Lemma settled_entry pid l d0 d d' r : (∀ k, entry d k = entry d0 k) → settled_by pid l d d' r → settled_by pid l d0 d' r.
Proof.
  intros Hs. unfold settled_by. destruct r as [[]|e].
  - intros (st & max & p & f & rest & Hl & Hn & Hp & Hf & Hb & Hk & Hr). exists st, max, p, f, rest. split_and!; try done.
    intros k. by rewrite Hk, Hs.
  - intros (f & Hf & Hk). exists f. split; [done|]. intros k. by rewrite Hk, Hs.
Qed.
Lemma aggregate_pulled_settles pid max (st : State) l q r q' :
  quiet (q_stg q) → NoDup l.*2 → Forall (stored (db (q_stg q))) l → Forall indexed l →
  aggregate_pulled pid max st l.*1 l.*2 q = (r, q') → settled_by pid l (db (q_stg q)) (db (q_stg q')) r.
Proof.
  intros Hq Hnd Hst Hidx Hr. apply aggregate_pulled_run in Hr as (l1 & l2 & -> & Hle & Hr); try done.
  2:{ eapply Forall_impl; [exact Hidx|]. intros bk Hbk e. by apply indexed_check. }
  assert (Hperm : l1 ++ l2 ≡ₚ (picks_in st max l1).*1 ++ skips_in st max l1 ++ l2).
  { rewrite app_assoc. f_equiv. apply picks_skips. }
  cbv zeta in Hr. destruct r as [[]|e].
  - destruct Hr as [(_ & He & Hres) Hb]. exists st, max, (picks_in st max l1).*1, (skips_in st max l1), l2. split_and!; try done.
    + by rewrite length_fmap.
    + apply Forall_fmap. eapply Forall_impl; [apply picks_usable|]. intros x Hx. cbn. by rewrite Hx.
    + apply Forall_forall. by intros bk [Hbk _]%list_elem_of_filter.
    + intros bk Hin. unfold isReserved, prefixed_Get, prefixSlice. apply bool_decide_eq_false_2.
      rewrite Hres, bool_decide_eq_true_2; [apply is_Some_None|].
      rewrite Hperm in Hin. rewrite !elem_of_app in *. destruct Hin as [?|[?|?]]; [right|left; left|left; right]; by apply list_elem_of_fmap_2.
  - destruct Hr as (rs & (_ & He & _) & _). exists (skips_in st max l1). split; [|done].
    intros bk Hbk. split; [rewrite Hperm; set_solver|]. exists st, max. by apply list_elem_of_filter in Hbk as [? _].
Qed.

End batches.

(** ** At a concrete store *)

Module Aggregate1.
Import Concrete Tally.ConcreteState Example1.
#[local] Existing Instance env_pebble.
#[local] Existing Instance web3_up.
(** A proof is valid unless it is empty. *)
#[export] Instance proofs : VoteProofs := {|
  VoteProof := bytes; RecursionProof := bytes; vb_Proof b := Some (vb_Proofs b); vb_CensusProof _ := [];
  Ar_IsInSubGroup _ := true; Krs_IsInSubGroup _ := true; Bs_IsInSubGroup _ := true; ValueOfProof p := Ok p;
  voteVerifier_Verify p _ := match p with [] => Err (ErrMsg "invalid proof") | _ => Ok tt end;
  emulated_ValueOf z := [z; 0; 0; 0] |}.
Definition proved (b : VerifiedBallot) : VerifiedBallot :=
  {| vb_VoteID := vb_VoteID b; vb_ProcessID := vb_ProcessID b; vb_VoterWeight := vb_VoterWeight b;
     vb_EncryptedBallot := vb_EncryptedBallot b; vb_Address := vb_Address b; vb_InputsHash := Some 7;
     vb_Proofs := [byte_of_Z 1] |}.
Definition process2 : Process :=
  {| p_ID := Some pid1; p_Status := ProcessStatusReady; p_EncryptionKey := Some (3, 4);
     p_StateRoot := Some 11; p_Result := []; p_StartTime := 0; p_Duration := 1000 * second;
     p_BallotMode := Build_BallotMode 5 5 false 2 16 0 1280 5;
     p_Census := Some {| c_CensusOrigin := 1; c_CensusRoot := []; c_CensusURI := ""; c_Payload := [] |};
     p_VotersCount := None; p_OverwrittenVotesCount := None; p_MaxVoters := Some 10;
     p_SequencerStats := zeroSequencerStats; p_RegisteredForSequencing := true; p_Payload := [] |}.
(** Two verified ballots, the second without a valid proof. *)
Definition store1 : Sequencer :=
  {| q_stg := MkStorage (<[processPrefix ++ pid_bytes pid1 := enc process2]>
       (<[verifiedBallotPrefix ++ pid_bytes pid1 ++ VoteID_Bytes (vote 5) := enc (proved (verified pid1 5 100))]>
        {[verifiedBallotPrefix ++ pid_bytes pid1 ++ VoteID_Bytes (vote 6) := enc (verified pid1 6 101)]}))
       ∅ ∅ ∅ (70 * second) [];
     q_ids := ProcessIDMap.NewProcessIDMap |}.
Notation aggregate := (aggregateBatch (λ _, Ok (Some [])) [byte_of_Z 1]).
Definition pulled1 : list (VerifiedBallot * bytes) :=
  [(proved (verified pid1 5 100), pid_bytes pid1 ++ VoteID_Bytes (vote 5)); (verified pid1 6 101, pid_bytes pid1 ++ VoteID_Bytes (vote 6))].
Lemma collectAggregationBatchInputs_spec_witness :
  eval (collectAggregationBatchInputs fresh false ValueOfProof (Some verifyVoteVerifierProof) (Some <$> pulled1.*1) pulled1.*2) (q_stg store1) =
    Ok (inputs_of [((proved (verified pid1 5 100), pid_bytes pid1 ++ VoteID_Bytes (vote 5)), ([byte_of_Z 1], 7))]).
Proof.
  destruct (collectAggregationBatchInputs_spec fresh false ValueOfProof (Some verifyVoteVerifierProof) pulled1 (q_stg store1))
    as (l1 & l2 & Hl & Hlen & Hf & Hrun).
  - repeat constructor; intros e; by vm_compute.
  - cut (l2 = []).
    { intros ->. rewrite app_nil_r in Hl. subst l1. unfold eval. rewrite Hrun. by vm_compute. }
    apply Hf. destruct l1 as [|a [|b [|c l1]]]; [..|done]; [by vm_compute|injection Hl as <- _|injection Hl as <- <- _]; by vm_compute.
Defined.
End Aggregate1.
