(* ===== verification/AuthToken.v ===== *)
(** * Workers' tokens

    [src/workers/authtoken.go]: a token is a signature of a message that names the sequencer and a
    time, followed by that time as text. The texts of times are those of Go's [time] package for the
    layout of the source, with nine digits of the second; a [Time] is the number of nanoseconds
    since 1970. *)

From S2P Require Import Prelude Bytes Spec Types Hex StorageTypes Workers Signatures.
From Stdlib Require Import Ascii.

(** ** Dates and their texts *)

(** The day of a date since 1970, and the date of a day, in the Gregorian calendar. The years start
    in March and [146097] days make four centuries. *)
Definition day_of_date (y m d : Z) : Z :=
  let y := if m <=? 2 then y - 1 else y in
  let doy := (153 * (if 2 <? m then m - 3 else m + 9) + 2) / 5 + d - 1 in
  y / 400 * 146097 + (y mod 400 * 365 + y mod 400 / 4 - y mod 400 / 100 + doy) - 719468.
(** The year of a day of the four centuries, and the rest of the date. *)
Definition year_of_era (doe : Z) : Z := (doe - doe / 1460 + doe / 36524 - doe / 146096) / 365.
Definition year_start (yoe : Z) : Z := 365 * yoe + yoe / 4 - yoe / 100.
Definition month_day (doy : Z) : Z * Z :=
  let mp := (5 * doy + 2) / 153 in
  (if mp <? 10 then mp + 3 else mp - 9, doy - (153 * mp + 2) / 5 + 1).
Definition date_of_day (z : Z) : Z * Z * Z :=
  let doe := (z + 719468) mod 146097 in
  let yoe := year_of_era doe in
  let '(m, d) := month_day (doe - year_start yoe) in
  (yoe + (z + 719468) / 146097 * 400 + (if m <=? 2 then 1 else 0), m, d).
Definition isLeap (y : Z) : bool := (y mod 4 =? 0) && (negb (y mod 100 =? 0) || (y mod 400 =? 0)).
Definition daysIn (m y : Z) : Z :=
  if m =? 2 then (if isLeap y then 29 else 28)
  else if (m =? 4) || (m =? 6) || (m =? 9) || (m =? 11) then 30 else 31.

Definition digit (n : Z) : ascii := byte_of_Z (48 + n).
Definition isDigit (c : ascii) : bool := bool_decide (is_Some (decimal_value c)).
(** [n] in exactly [w] digits, and Go's [appendInt], which pads with zeros. *)
Fixpoint fixed_digits (w : nat) (n : Z) : bytes :=
  match w with O => [] | S w => fixed_digits w (n / 10) ++ [digit (n mod 10)] end.
Definition appendInt (x : Z) (width : nat) : bytes :=
  if x <? 0 then bytes_of_string (pretty x)
  else if 10 ^ Z.of_nat width <=? x then bytes_of_string (pretty x) else fixed_digits width x.
(** [t.UTC().Format(timestampFormat)] *)
Definition format_time (t : Time) : bytes :=
  let s := t / 1000000000 in
  let '(y, m, d) := date_of_day (s / 86400) in
  let r := s mod 86400 in
  appendInt y 4 ++ ["-"%char] ++ appendInt m 2 ++ ["-"%char] ++ appendInt d 2 ++ ["T"%char] ++
  appendInt (r / 3600) 2 ++ [":"%char] ++ appendInt (r mod 3600 / 60) 2 ++ [":"%char] ++ appendInt (r mod 60) 2 ++
  ["."%char] ++ fixed_digits 9 (t mod 1000000000) ++ ["Z"%char].

Fixpoint digits_value (acc : Z) (l : bytes) : option Z :=
  match l with [] => Some acc | c :: l => d ← decimal_value c; digits_value (10 * acc + d) l end.
(** Go's [atoi]: digits, with a sign or without. *)
Definition atoi (s : bytes) : option Z :=
  match s with
  | "-"%char :: l => Z.opp <$> digits_value 0 l
  | "+"%char :: l => digits_value 0 l
  | l => digits_value 0 l
  end.
(** Go's [getnum]: two digits, or one unless [fixed]. *)
Definition getnum (s : bytes) (fixed : bool) : option (Z * bytes) :=
  match s with
  | a :: s' =>
      x ← decimal_value a;
      match s' with
      | b :: s'' =>
          match decimal_value b with Some y => Some (10 * x + y, s'') | None => if fixed then None else Some (x, s') end
      | [] => if fixed then None else Some (x, s')
      end
  | [] => None
  end.
(** [skip] of one character of the layout. *)
Definition skip (c : ascii) (s : bytes) : option bytes :=
  match s with a :: s => if bool_decide (a = c) then Some s else None | [] => None end.
(** A number in a range. *)
Definition within (lo hi x : Z) : option () := if (lo <=? x) && (x <=? hi) then Some tt else None.
Definition check (b : bool) : option () := if b then Some tt else None.
(** The zone, in seconds: Z, or a sign and two numbers; twenty-four hours and sixty minutes pass. *)
Definition parse_zone (s : bytes) : option (Z * bytes) :=
  match s with
  | "Z"%char :: s => Some (0, s)
  | sg :: h1 :: h2 :: ":"%char :: m1 :: m2 :: s =>
      '(hr, _) ← getnum [h1; h2] true; '(mm, _) ← getnum [m1; m2] true;
      _ ← within 0 24 hr; _ ← within 0 60 mm;
      if bool_decide (sg = "+"%char) then Some ((hr * 60 + mm) * 60, s)
      else if bool_decide (sg = "-"%char) then Some (- ((hr * 60 + mm) * 60), s) else None
  | _ => None
  end.
(** [time.Parse(timestampFormat, s)]: the hour may have one digit, and the fraction is nine characters that
    [atoi] reads as a number that is not negative *)
Definition parse_time (s : bytes) : option Time :=
  let p := take 4 s in let s := drop 4 s in
  _ ← check (length p =? 4)%nat; _ ← check (from_option isDigit false (head p)); year ← atoi p;
  s ← skip "-" s; '(month, s) ← getnum s true; _ ← within 1 12 month;
  s ← skip "-" s; '(day, s) ← getnum s true;
  s ← skip "T" s; '(hour, s) ← getnum s false; _ ← within 0 23 hour;
  s ← skip ":" s; '(minute, s) ← getnum s true; _ ← within 0 59 minute;
  s ← skip ":" s; '(sec, s) ← getnum s true; _ ← within 0 59 sec;
  _ ← check (match s with c :: _ => bool_decide (c = ".") || bool_decide (c = ",") | [] => false end%char);
  let p := take 9 (drop 1 s) in let s := drop 10 s in
  _ ← check (length p =? 9)%nat; nsec ← atoi p; _ ← check (0 <=? nsec);
  '(zone, s) ← parse_zone s; _ ← check (length s =? 0)%nat;
  _ ← within 1 (daysIn month year) day;
  Some (((day_of_date year month day * 86400 + hour * 3600 + minute * 60 + sec) - zone) * 1000000000 + nsec).

(** ** src/workers/authtoken.go *)

(** [src/workers/authtoken.go:13-13] timestampFormat: only its length is data *)
Definition timestampFormat : string := "2006-01-02T15:04:05.000000000Z07:00".
(** [src/workers/authtoken.go:14-14] workerSignMessage, in its two parts *)
Definition workerSignMessage : string * string := ("Authorizing worker in sequencer '", "' at ")%string.
(** [src/workers/authtoken.go:16-16] signatureLen *)
Definition signatureLen : nat := 65.
(** [src/workers/authtoken.go:17-17] timestampLen *)
Definition timestampLen : nat := String.length timestampFormat.
(** [src/workers/authtoken.go:18-18] tokenLen *)
Definition tokenLen : nat := signatureLen + timestampLen.

Section token.
Context `{Eth : Ethcrypto} `{Addr : EthAddress}.

(** [src/workers/authtoken.go:37-41] *)
Definition TimestampToSufix (t : Time) : bytes :=
  let text := take timestampLen (format_time t) in
  text ++ replicate (timestampLen - length text) zero.
(** [src/workers/authtoken.go:26-30] *)
Definition WorkerAuthTokenData (sequencerAddress : bytes) (timestamp : Time) : bytes * bytes * bytes :=
  let t := format_time timestamp in
  (bytes_of_string workerSignMessage.1 ++ bytes_of_string (Hex sequencerAddress) ++ bytes_of_string workerSignMessage.2 ++ t,
   t, TimestampToSufix timestamp).
(** [bytes.TrimRight] of zero bytes. *)
Fixpoint drop_zeros (s : bytes) : bytes :=
  match s with c :: l => if bool_decide (c = zero) then drop_zeros l else s | [] => [] end.
Definition trim_zeros (s : bytes) : bytes := reverse (drop_zeros (reverse s)).
(** [src/workers/authtoken.go:46-67] *)
Definition DecodeWorkerAuthToken (bToken : bytes) : result (ECDSASignature * Time) :=
  if negb (length bToken =? tokenLen)%nat then Err (ErrMsg "invalid worker token length")
  else match parse_time (trim_zeros (drop signatureLen bToken)) with
       | None => Err (ErrMsg "failed to parse worker token timestamp")
       | Some timestamp =>
           match BytesToSignature (take signatureLen bToken) with
           | Err e => Err (Wrap "failed to parse worker token signature" e)
           | Ok signature => Ok (signature, timestamp)
           end
       end.
(** [src/workers/authtoken.go:74-88] *)
Definition EncodeWorkerAuthToken (signature : option ECDSASignature) (timestamp : Time) : result bytes :=
  match signature with
  | None => Err (ErrMsg "signature cannot be nil")
  | Some signature =>
      if negb (length (sig_Bytes signature) =? signatureLen)%nat then Err (ErrMsg "invalid signature length")
      else Ok (sig_Bytes signature ++ TimestampToSufix timestamp)
  end.
(** [src/workers/authtoken.go:97-105] *)
Definition VerifyWorkerToken (bToken workerAddr seqAddr : bytes) : result (bool * Time) :=
  match DecodeWorkerAuthToken bToken with
  | Err e => Err (Wrap "failed to decode worker token" e)
  | Ok (signature, timestamp) =>
      let '(signMessage, _, _) := WorkerAuthTokenData seqAddr timestamp in
      Ok ((sig_Verify signature signMessage workerAddr).1, timestamp)
  end.
(** [src/workers/authtoken.go:109-116] *)
Definition VerifyWorkerHexToken (hexToken strWorkerAddr : string) (seqAddr : bytes) : result (bool * Time) :=
  let workerAddr := HexToAddress strWorkerAddr in
  match HexStringToHexBytes (bytes_of_string hexToken) with
  | Err e => Err (Wrap "failed to decode worker token" e)
  | Ok token => VerifyWorkerToken token workerAddr seqAddr
  end.
End token.

(** ** Dates *)

#[local] Ltac div_lia := Z.to_euclidean_division_equations; lia.

Fixpoint all_below (n : nat) (z : Z) (f : Z → bool) : bool :=
  match n with O => true | S n => f z && all_below n (z + 1) f end.
Lemma all_below_spec n z f : all_below n z f = true → ∀ x, z ≤ x < z + Z.of_nat n → f x = true.
Proof.
  revert z. induction n as [|n IH]; intros z; cbn [all_below]; [lia|]. intros [H1 H2]%andb_prop x Hx.
  destruct (decide (x = z)) as [->|]; [done|]. apply (IH (z + 1) H2). lia.
Qed.
(** The years of the four centuries: the day after the last, the year of the first and last days, and
    their lengths; and the days of a year. *)
Definition year_end (y : Z) : Z := if y =? 399 then 146097 else year_start (y + 1).
Definition year_ok (y : Z) : bool :=
  (year_of_era (year_start y) =? y) && (year_of_era (year_end y - 1) =? y) && (year_start y <? year_end y) &&
  ((year_end y - year_start y =? 365) || ((year_end y - year_start y =? 366) && isLeap (y + 1))).
Definition doy_ok (doy : Z) : bool :=
  let '(m, d) := month_day doy in
  (1 <=? m) && (m <=? 12) && (1 <=? d) && (if doy =? 365 then (m =? 2) && (d =? 29) else d <=? daysIn m 1) &&
  ((153 * (if 2 <? m then m - 3 else m + 9) + 2) / 5 + d - 1 =? doy).
Lemma years_ok : all_below 400 0 year_ok = true.
Proof. by vm_compute. Qed.
Lemma doys_ok : all_below 366 0 doy_ok = true.
Proof. by vm_compute. Qed.
Lemma year_of_era_step x : 0 ≤ x < 146096 → year_of_era x ≤ year_of_era (x + 1).
Proof. intros Hx. unfold year_of_era. apply Z.div_le_mono; [done|]. div_lia. Qed.
Lemma year_of_era_mono x y : 0 ≤ x ≤ y → y < 146097 → year_of_era x ≤ year_of_era y.
Proof.
  intros [Hx Hxy] Hy. replace y with (x + Z.of_nat (Z.to_nat (y - x))) in * by lia. clear Hxy.
  induction (Z.to_nat (y - x)) as [|n IH]; [by rewrite Z.add_0_r|]. rewrite Nat2Z.inj_succ in *.
  etrans; [apply IH; lia|]. replace (x + Z.succ (Z.of_nat n)) with (x + Z.of_nat n + 1) by lia. apply year_of_era_step. lia.
Qed.
Lemma find_year doe : 0 ≤ doe < 146097 → ∃ y, 0 ≤ y < 400 ∧ year_start y ≤ doe < year_end y.
Proof.
  intros Hd. assert (H : ∀ n : nat, (n ≤ 400)%nat → doe < (if decide (n = 400%nat) then 146097 else year_start (Z.of_nat n)) →
    ∃ y, 0 ≤ y < 400 ∧ year_start y ≤ doe < year_end y); [|apply (H 400%nat); [done|rewrite decide_True by done; lia]].
  induction n as [|n IH]; intros Hn Hlt.
  { rewrite decide_False in Hlt by done. change (year_start (Z.of_nat 0)) with 0 in Hlt. lia. }
  destruct (decide (doe < year_start (Z.of_nat n))) as [Hl|Hl].
  - apply IH; [lia|]. destruct (decide (n = 400%nat)); [lia|done].
  - exists (Z.of_nat n). split; [lia|]. split; [lia|]. unfold year_end.
    destruct (Z.eqb_spec (Z.of_nat n) 399); destruct (decide (S n = 400%nat)); try lia.
    by replace (Z.of_nat n + 1) with (Z.of_nat (S n)) by lia.
Qed.
(** The year of a day of the four centuries. *)
Lemma year_of_era_spec doe : 0 ≤ doe < 146097 → let y := year_of_era doe in
  0 ≤ y < 400 ∧ 0 ≤ doe - year_start y ≤ 365 ∧ (doe - year_start y = 365 → isLeap (y + 1) = true).
Proof.
  intros Hd. destruct (find_year doe Hd) as (y & Hy & Hs & He). pose proof (all_below_spec _ _ _ years_ok y Hy) as H.
  unfold year_ok in H. apply andb_prop in H as [H Hlen]. apply andb_prop in H as [H Hlt]. apply andb_prop in H as [H1 H2].
  apply Z.eqb_eq in H1, H2. apply Z.ltb_lt in Hlt.
  assert (Hpos : 0 ≤ year_start y) by (unfold year_start; div_lia).
  assert (Hend : year_end y ≤ 146097) by (unfold year_end, year_start; destruct (Z.eqb_spec y 399); div_lia).
  assert (E : year_of_era doe = y).
  { apply Z.le_antisymm; [rewrite <-H2|rewrite <-H1]; apply year_of_era_mono; lia. }
  rewrite E. split; [done|]. apply orb_prop in Hlen as [Hl%Z.eqb_eq|[Hl%Z.eqb_eq Hleap]%andb_prop]; split; try lia. done.
Qed.
Lemma isLeap_era y k : isLeap (y + k * 400) = isLeap y.
Proof.
  unfold isLeap. replace (y + k * 400) with (y + (k * 100) * 4) at 1 by lia. rewrite Z.mod_add by done.
  replace (y + k * 400) with (y + (k * 4) * 100) at 1 by lia. by rewrite !Z.mod_add.
Qed.
Lemma day_of_date_era y m d k : day_of_date (y + k * 400) m d = day_of_date y m d + k * 146097.
Proof.
  unfold day_of_date. destruct (m <=? 2).
  - replace (y + k * 400 - 1) with ((y - 1) + k * 400) by lia. rewrite Z.mod_add, Z.div_add by done. lia.
  - rewrite Z.mod_add, Z.div_add by done. lia.
Qed.
(** A day is the day of its date, which is a date of the calendar. *)
Lemma date_roundtrip z : let '(y, m, d) := date_of_day z in
  day_of_date y m d = z ∧ 1 ≤ m ≤ 12 ∧ 1 ≤ d ≤ daysIn m y.
Proof.
  unfold date_of_day. set (doe := (z + 719468) mod 146097). set (era := (z + 719468) / 146097).
  assert (Hdoe : 0 ≤ doe < 146097) by (by apply Z.mod_pos_bound).
  destruct (year_of_era_spec doe Hdoe) as (Hy & Hdoy & Hleap). set (y := year_of_era doe) in *.
  set (doy := doe - year_start y) in *. pose proof (all_below_spec _ _ _ doys_ok doy ltac:(lia)) as H.
  unfold doy_ok in H. destruct (month_day doy) as [m d]. apply andb_prop in H as [H Hday]. apply andb_prop in H as [H Hd2].
  apply andb_prop in H as [H Hd1]. apply andb_prop in H as [Hm1 Hm2]. apply Z.eqb_eq in Hday.
  replace (y + era * 400 + (if m <=? 2 then 1 else 0)) with (y + (if m <=? 2 then 1 else 0) + era * 400) by lia.
  pose proof (Z_div_mod_eq_full (z + 719468) 146097) as Hz. fold doe era in Hz. rewrite day_of_date_era. split_and!; try lia.
  - unfold day_of_date. replace (if m <=? 2 then y + (if m <=? 2 then 1 else 0) - 1 else y + (if m <=? 2 then 1 else 0)) with y
      by (destruct (m <=? 2); lia).
    rewrite Hday, (Z.mod_small y), (Z.div_small y) by lia. fold (year_start y). unfold doy, year_start. lia.
  - unfold daysIn. rewrite isLeap_era. destruct (Z.eqb_spec doy 365) as [E|].
    + apply andb_prop in Hd2 as [->%Z.eqb_eq ->%Z.eqb_eq]. cbn. by rewrite Hleap.
    + unfold daysIn in Hd2. destruct (m =? 2) eqn:E2; [|lia]. change (isLeap 1) with false in Hd2. cbv iota in Hd2. apply Z.leb_le in Hd2. clear Hleap. destruct (isLeap _); lia.
Qed.

(** ** Numbers *)

Lemma digit_value n : 0 ≤ n < 10 → decimal_value (digit n) = Some n.
Proof.
  intros Hn. unfold decimal_value, digit. rewrite byte_to_of_Z, Z.mod_small by lia.
  destruct (Z.leb_spec 48 (48 + n)); [|lia]. destruct (Z.leb_spec (48 + n) 57); [|lia]. cbn. f_equal. lia.
Qed.
Lemma length_fixed w n : length (fixed_digits w n) = w.
Proof. revert n. induction w as [|w IH]; intros n; cbn; [done|]. rewrite length_app, IH. cbn. lia. Qed.
Lemma digits_value_snoc l c acc : digits_value acc (l ++ [c]) = (v ← digits_value acc l; d ← decimal_value c; Some (10 * v + d)).
Proof.
  revert acc. induction l as [|x l IH]; intros acc; cbn; [by destruct (decimal_value c)|]. destruct (decimal_value x); [apply IH|done].
Qed.
Lemma fixed_value w n : 0 ≤ n < 10 ^ Z.of_nat w → digits_value 0 (fixed_digits w n) = Some n.
Proof.
  revert n. induction w as [|w IH]; intros n Hn; [cbn in *; f_equal; lia|]. cbn [fixed_digits].
  assert (H10 : 10 ^ Z.of_nat (S w) = 10 * 10 ^ Z.of_nat w) by (rewrite Nat2Z.inj_succ, Z.pow_succ_r; lia).
  rewrite digits_value_snoc, IH.
  - cbn. rewrite digit_value by (by apply Z.mod_pos_bound). cbn. f_equal. pose proof (Z_div_mod_eq_full n 10). lia.
  - split; [apply Z.div_pos; lia|]. apply Z.div_lt_upper_bound; lia.
Qed.
Lemma fixed_digits_only w n c : c ∈ fixed_digits w n → ∃ x, 0 ≤ x < 10 ∧ c = digit x.
Proof.
  revert n. induction w as [|w IH]; intros n; cbn; [by intros ?%not_elem_of_nil|].
  intros [Hc|Hc%list_elem_of_singleton]%elem_of_app; [by eapply IH|]. exists (n mod 10). split; [by apply Z.mod_pos_bound|done].
Qed.
Lemma atoi_fixed w n : 0 ≤ n < 10 ^ Z.of_nat w → atoi (fixed_digits w n) = Some n.
Proof.
  intros Hn. rewrite <-(fixed_value w n Hn). destruct (fixed_digits w n) as [|c l] eqn:E; [done|].
  destruct (fixed_digits_only w n c) as (x & Hx & ->); [rewrite E; left|].
  assert (x = 0 ∨ x = 1 ∨ x = 2 ∨ x = 3 ∨ x = 4 ∨ x = 5 ∨ x = 6 ∨ x = 7 ∨ x = 8 ∨ x = 9) as Hc by lia.
  by repeat (destruct Hc as [->|Hc]); [..|subst].
Qed.
Lemma getnum_fixed n b s : 0 ≤ n < 100 → getnum (fixed_digits 2 n ++ s) b = Some (n, s).
Proof.
  intros Hn. cbn. rewrite digit_value by (apply Z.mod_pos_bound; done). cbn.
  rewrite digit_value by (by apply Z.mod_pos_bound). pose proof (Z_div_mod_eq_full n 10) as E.
  rewrite (Z.mod_small (n / 10)); [cbn; by rewrite <-E|]. split; [apply Z.div_pos; lia|apply Z.div_lt_upper_bound; lia].
Qed.
Lemma appendInt_fixed x w : 0 ≤ x < 10 ^ Z.of_nat w → appendInt x w = fixed_digits w x.
Proof. intros Hx. unfold appendInt. destruct (Z.ltb_spec x 0); [lia|]. destruct (Z.leb_spec (10 ^ Z.of_nat w) x); [lia|done]. Qed.
Lemma within_ok lo hi x : lo ≤ x ≤ hi → within lo hi x = Some tt.
Proof. intros Hx. unfold within. destruct (Z.leb_spec lo x); [|lia]. destruct (Z.leb_spec x hi); [done|lia]. Qed.
Lemma head_fixed n : isDigit (digit (n / 10 / 10 / 10 mod 10)) = true.
Proof. unfold isDigit. by rewrite digit_value by (by apply Z.mod_pos_bound). Qed.

Lemma skip_char c s : skip c ([c] ++ s) = Some s.
Proof. unfold skip. cbn. by rewrite bool_decide_true. Qed.
Lemma take_fixed w n s : take w (fixed_digits w n ++ s) = fixed_digits w n.
Proof. by rewrite take_app_le, take_ge by (by rewrite length_fixed). Qed.
Lemma drop_fixed w n s : drop w (fixed_digits w n ++ s) = s.
Proof. by rewrite drop_app_ge, length_fixed, Nat.sub_diag, drop_0 by (by rewrite length_fixed). Qed.

(** The times whose year has four digits. *)
Definition four_digit_year (t : Time) : Prop := 0 ≤ (date_of_day (t / 1000000000 / 86400)).1.1 < 10000.
(** Such a time is read back from its text. *)
Lemma parse_format t : four_digit_year t → parse_time (format_time t) = Some t.
Proof.
  unfold four_digit_year, format_time. set (s := t / 1000000000). pose proof (date_roundtrip (s / 86400)) as Hd.
  destruct (date_of_day (s / 86400)) as [[y m] d]. destruct Hd as (Hday & Hm & Hdd). cbn [fst]. intros Hy.
  assert (Hd31 : d ≤ 31) by (unfold daysIn in Hdd; repeat case_match; lia).
  pose proof (Z.mod_pos_bound s 86400 eq_refl) as Hr. pose proof (Z.mod_pos_bound t 1000000000 eq_refl) as Hns.
  set (r := s mod 86400) in *. set (ns := t mod 1000000000) in *.
  pose proof (Z.mod_pos_bound r 60 eq_refl) as Hsec.
  assert (Hh : 0 ≤ r / 3600 ≤ 23) by div_lia. assert (Hmin : 0 ≤ r mod 3600 / 60 ≤ 59) by div_lia.
  rewrite !appendInt_fixed by (cbn; lia). unfold parse_time.
  rewrite take_fixed, drop_fixed, length_fixed, atoi_fixed by (cbn; lia).
  replace (from_option isDigit false (head (fixed_digits 4 y))) with true by (symmetry; apply head_fixed).
  cbn [check Nat.eqb mbind option_bind].
  repeat (first [rewrite skip_char|rewrite getnum_fixed by lia|rewrite within_ok by lia]; cbn [check Nat.eqb mbind option_bind]).
  change (drop 1 (["."%char] ++ fixed_digits 9 ns ++ ["Z"%char])) with (fixed_digits 9 ns ++ ["Z"%char]).
  change (drop 10 (["."%char] ++ fixed_digits 9 ns ++ ["Z"%char])) with (drop 9 (fixed_digits 9 ns ++ ["Z"%char])).
  rewrite take_fixed, drop_fixed, length_fixed, atoi_fixed by (cbn; lia).
  change (match ["."%char] ++ fixed_digits 9 ns ++ ["Z"%char] with c :: _ => _ | [] => false end) with true.
  cbn [check Nat.eqb mbind option_bind]. destruct (Z.leb_spec 0 ns); [|lia].
  cbn [check mbind option_bind parse_zone length Nat.eqb]. f_equal. rewrite Hday.
  pose proof (Z_div_mod_eq_full t 1000000000) as E1. pose proof (Z_div_mod_eq_full s 86400) as E2. fold s ns in E1. fold r in E2.
  assert (r / 3600 * 3600 + r mod 3600 / 60 * 60 + r mod 60 = r) by div_lia. lia.
Qed.
Lemma length_format t : four_digit_year t → length (format_time t) = 30%nat ∧ last (format_time t) = Some "Z"%char.
Proof.
  unfold four_digit_year, format_time. pose proof (date_roundtrip (t / 1000000000 / 86400)) as Hd.
  destruct (date_of_day (t / 1000000000 / 86400)) as [[y m] d]. destruct Hd as (_ & Hm & Hdd). cbn [fst]. intros Hy.
  assert (Hd31 : d ≤ 31) by (unfold daysIn in Hdd; repeat case_match; lia).
  set (r := t / 1000000000 mod 86400). assert (Hr : 0 ≤ r < 86400) by (by apply Z.mod_pos_bound).
  assert (0 ≤ r / 3600 ≤ 23) by div_lia. assert (0 ≤ r mod 3600 / 60 ≤ 59) by div_lia. assert (0 ≤ r mod 60 < 60) by (by apply Z.mod_pos_bound).
  rewrite !appendInt_fixed by (cbn; lia). split; [rewrite !length_app, !length_fixed; done|].
  by rewrite !app_assoc, last_snoc.
Qed.

(** ** Tokens *)

Section tokens.
Context `{Eth : Ethcrypto} `{Addr : EthAddress}.

(** The suffix of a token gives its time back. *)
Lemma suffix_parse t : four_digit_year t → length (TimestampToSufix t) = timestampLen ∧
  parse_time (trim_zeros (TimestampToSufix t)) = Some t.
Proof.
  intros Ht. destruct (length_format t Ht) as [Hl Hz]. unfold TimestampToSufix. rewrite take_ge by (rewrite Hl; cbn; lia).
  rewrite length_app, length_replicate, Hl. split; [done|]. rewrite <-(parse_format t Ht). f_equal.
  unfold trim_zeros. rewrite reverse_app. cbn [Nat.sub timestampLen String.length timestampFormat replicate].
  change (reverse [zero; zero; zero; zero; zero]) with [zero; zero; zero; zero; zero]. cbn [app drop_zeros].
  apply last_Some in Hz as [l ->]. rewrite reverse_snoc. cbn [drop_zeros]. rewrite !bool_decide_true by done.
  rewrite bool_decide_false by done. by rewrite reverse_cons, reverse_involutive.
Qed.
Lemma length_sig_Bytes sig : canonical sig → length (sig_Bytes sig) = signatureLen.
Proof. intros (R & S & HR & HS & _). destruct sig as [r s v]. cbn in HR, HS. subst. apply sig_Bytes_fields. Qed.
(** What a token encodes is decoded from it. *)
Lemma token_roundtrip sig t : canonical sig → four_digit_year t → ∃ token,
  EncodeWorkerAuthToken (Some sig) t = Ok token ∧ DecodeWorkerAuthToken token = Ok (sig, t).
Proof.
  intros Hc Ht. pose proof (length_sig_Bytes sig Hc) as Hl. destruct (suffix_parse t Ht) as [Hsl Hp].
  unfold EncodeWorkerAuthToken. rewrite Hl, Nat.eqb_refl. eexists. split; [done|]. unfold DecodeWorkerAuthToken.
  rewrite length_app, Hl, Hsl. cbn [negb Nat.eqb]. change (signatureLen + timestampLen =? tokenLen)%nat with true. cbn [negb].
  rewrite drop_app_ge, Hl, Nat.sub_diag, drop_0, Hp by lia. rewrite take_app_le, take_ge by lia.
  unfold BytesToSignature. rewrite Hl. change (signatureLen <? SignatureLength - 1)%nat with false. by rewrite SetBytes_Bytes.
Qed.

(** A worker's token is accepted for the worker and the sequencer it was made for: the token made
    of a signature of the sequencer's message at a time is decoded to that signature and time and
    verifies for the signer's address, and for no other. Whatever token verifies carries a
    signature, by the address, of the message of this sequencer at the token's time. *)
Theorem token_authorizes k seqAddr t sig :
  Sign (WorkerAuthTokenData seqAddr t).1.1 k = Ok sig → four_digit_year t →
  (∃ token, EncodeWorkerAuthToken (Some sig) t = Ok token ∧ DecodeWorkerAuthToken token = Ok (sig, t) ∧
     ∀ a, VerifyWorkerToken token a seqAddr = Ok (bool_decide (a = Signer_Address k), t)) ∧
  ∀ token a t', VerifyWorkerToken token a seqAddr = Ok (true, t') → ∃ sig' key,
    DecodeWorkerAuthToken token = Ok (sig', t') ∧ PubkeyToAddress key = a ∧
    SigToPub (HashMessage (WorkerAuthTokenData seqAddr t').1.1) (sig_Bytes sig') = Ok key.
Proof.
  intros Hs Ht. destruct (Sign_spec _ _ _ Hs) as [Hc Hp]. split.
  - destruct (token_roundtrip sig t Hc Ht) as (token & He & Hd). exists token. split_and!; [done..|]. intros a.
    unfold VerifyWorkerToken. rewrite Hd. destruct (WorkerAuthTokenData seqAddr t) as [[msg ?] ?]. cbn [fst] in Hp |- *.
    do 2 f_equal. unfold sig_Verify.
    assert (Hv : sig_Valid sig = true).
    { destruct Hc as (R & S & HR & HS & _). unfold sig_Valid. rewrite HR, HS. by rewrite !bool_decide_true. }
    rewrite Hv, Hp. cbn [negb]. unfold Signer_Address. destruct (decide (a = PubkeyToAddress (eth_Public k))) as [->|Hne].
    + by rewrite !bool_decide_true.
    + rewrite !(bool_decide_false (_ = _)) by congruence. done.
  - intros token a t'. unfold VerifyWorkerToken. destruct (DecodeWorkerAuthToken token) as [[sig' t'']|]; [|done].
    destruct (WorkerAuthTokenData seqAddr t'') as [[msg ?] ?] eqn:Em. unfold sig_Verify. destruct (sig_Valid sig'); [|done].
    cbn [negb]. destruct (SigToPub (HashMessage msg) _) as [key|] eqn:Hk; [|done].
    destruct (decide (PubkeyToAddress key = a)) as [Ha|]; [|by rewrite bool_decide_false].
    rewrite bool_decide_true by done. intros [= <-].
    exists sig', key. rewrite Em. done.
Qed.
End tokens.

(** ** A worker of a sequencer *)

Module TokenExample.
#[local] Existing Instance ConcreteEth.eth.
#[local] Existing Instance ConcreteAddr.addr.
(** The sequencer is key 9 and the worker is key 7, some time in 2025. *)
Definition noon : Time := 1750000000123456789.
Definition message : bytes := (WorkerAuthTokenData (be_split 20 9) noon).1.1.
Example noon_text : format_time noon = bytes_of_string "2025-06-15T15:06:40.123456789Z".
Proof. by vm_compute. Qed.
Definition worker_key : @eth_PrivateKey ConcreteEth.eth := (7 : Z).
Definition signature7 : ECDSASignature :=
  match Sign message worker_key with Ok sig => sig | Err _ => {| sig_R := None; sig_S := None; recovery := zero |} end.
Lemma token_authorizes_witness : ∃ token, EncodeWorkerAuthToken (Some signature7) noon = Ok token ∧
  VerifyWorkerToken token (be_split 20 7) (be_split 20 9) = Ok (true, noon).
Proof.
  destruct (token_authorizes worker_key (be_split 20 9) noon signature7) as [(token & He & _ & Hv) _];
    [by vm_compute|by vm_compute|]. exists token. split; [exact He|]. rewrite Hv. by vm_compute.
Defined.
End TokenExample.
