(* ===== verification/Runtime.v ===== *)
(** * Networks: which contracts a process belongs to

    [src/web3/runtime.go] and [ProcessIDVersion] of [src/types/process_id.go]: a process
    identifier carries four bytes of a hash of its chain and contract; the router of the
    node maps them back to the network. *)

From S2P Require Import Prelude Bytes Spec Types Signatures SequencerBase.

(** What is known of the contracts of a network: their chain, and the address of the
    process registry when the addresses are loaded. *)
Class Networks := {
  network : Type;
  network_ChainID : network → Z;
  ProcessRegistry : network → option bytes }.

Section runtime.
Context `{Ethcrypto} `{Networks}.

(** [src/types/process_id.go:132-144] *)
Definition ProcessIDVersion (chainID : Z) (contractAddr : bytes) : bytes :=
  let sum := Keccak256 (be_split 4 chainID ++ fit 20 contractAddr) in
  fit 4 (drop (length sum - 4) sum).
(** [src/web3/process.go:92-95] Contracts.ValidVersion *)
Definition ValidVersion (c : network) (pid : ProcessID) : bool :=
  bool_decide (pid_Version pid = ProcessIDVersion (network_ChainID c) (default [] (ProcessRegistry c))).

(** [src/web3/runtime.go:36-42] NetworkRuntime, without its name and its transaction manager *)
Record NetworkRuntime := { nr_ChainID : Z; nr_ProcessIDVersion : bytes; nr_Contracts : option network }.
(** [src/web3/runtime.go:14-14] *)
Definition maxProcessIDChainID : Z := 2 ^ 32 - 1.
(** [src/web3/runtime.go:56-82] *)
Definition NewNetworkRuntime (contracts : option network) : result NetworkRuntime :=
  match contracts with
  | None => Err (ErrMsg "contracts is required")
  | Some c =>
      match ProcessRegistry c with
      | None => Err (ErrMsg "contracts addresses are required")
      | Some processRegistry =>
          if bool_decide (processRegistry = replicate 20 (byte_of_Z 0)) then Err (ErrMsg "process registry address is required")
          else if maxProcessIDChainID <? network_ChainID c then Err (ErrMsg "chain ID exceeds ProcessIDVersion limit")
          else Ok {| nr_ChainID := network_ChainID c;
                     nr_ProcessIDVersion := ProcessIDVersion (network_ChainID c) processRegistry;
                     nr_Contracts := Some c |}
      end
  end.

(** [src/web3/runtime.go:85-88] RuntimeRouter *)
Record RuntimeRouter := { rr_runtimes : list NetworkRuntime; runtimeByVersion : gmap bytes NetworkRuntime }.
(** [src/web3/runtime.go:99-117] the loop of NewRuntimeRouter *)
Fixpoint add_runtimes (router : RuntimeRouter) (runtimes : list (option NetworkRuntime)) : result RuntimeRouter :=
  match runtimes with
  | [] => Ok router
  | None :: _ => Err (ErrMsg "runtime cannot be nil")
  | Some runtime :: rest =>
      match nr_Contracts runtime with
      | None => Err (ErrMsg "runtime contracts cannot be nil")
      | Some _ =>
          match runtimeByVersion router !! nr_ProcessIDVersion runtime with
          | Some _ => Err (ErrMsg "duplicate ProcessIDVersion")
          | None => add_runtimes {| rr_runtimes := rr_runtimes router ++ [runtime];
                                    runtimeByVersion := <[nr_ProcessIDVersion runtime := runtime]> (runtimeByVersion router) |} rest
          end
      end
  end.
(** [src/web3/runtime.go:92-118] *)
Definition NewRuntimeRouter (runtimes : list (option NetworkRuntime)) : result RuntimeRouter :=
  add_runtimes {| rr_runtimes := []; runtimeByVersion := ∅ |} runtimes.
(** [src/web3/runtime.go:122-128] *)
Definition runtimeForVersion (r : RuntimeRouter) (version : bytes) : option NetworkRuntime := runtimeByVersion r !! version.
(** [src/web3/runtime.go:132-138] RuntimeRouter.SupportsProcess *)
Definition Router_SupportsProcess (r : RuntimeRouter) (pid : ProcessID) : bool :=
  if negb (pid_IsValid pid) then false else bool_decide (is_Some (runtimeForVersion r (pid_Version pid))).
(** [src/web3/runtime.go:142-151] *)
Definition RuntimeForProcess (r : RuntimeRouter) (pid : ProcessID) : result NetworkRuntime :=
  if negb (pid_IsValid pid) then Err (ErrMsg "invalid process ID")
  else match runtimeForVersion r (pid_Version pid) with
       | None => Err (ErrMsg "runtime not found for process version")
       | Some runtime => Ok runtime
       end.
(** [src/web3/runtime.go:155-161] RuntimeRouter.ContractsForProcess *)
Definition Router_ContractsForProcess (r : RuntimeRouter) (pid : ProcessID) : result (option network) :=
  match RuntimeForProcess r pid with Err e => Err e | Ok runtime => Ok (nr_Contracts runtime) end.
(** [src/web3/runtime.go:175-182] *)
Definition VersionForChainID (r : RuntimeRouter) (chainID : Z) : option bytes :=
  nr_ProcessIDVersion <$> List.find (λ runtime, nr_ChainID runtime =? chainID) (rr_runtimes r).

(** ** The router *)

(** The networks of a node, and the runtimes built for them. *)
Definition networks_of : list network → list NetworkRuntime → Prop := Forall2 (λ c n, NewNetworkRuntime (Some c) = Ok n).

Lemma add_runtimes_spec runtimes r0 r : add_runtimes r0 runtimes = Ok r →
  ∃ l, runtimes = Some <$> l ∧ rr_runtimes r = rr_runtimes r0 ++ l ∧
    Forall (λ n, is_Some (nr_Contracts n)) l ∧ NoDup (nr_ProcessIDVersion <$> l) ∧
    (∀ n, n ∈ l → runtimeByVersion r0 !! nr_ProcessIDVersion n = None) ∧
    ∀ v n, runtimeByVersion r !! v = Some n ↔ runtimeByVersion r0 !! v = Some n ∨ (n ∈ l ∧ nr_ProcessIDVersion n = v).
Proof.
  revert r0. induction runtimes as [|[n|] rest IH]; intros r0; cbn [add_runtimes]; [| |done].
  - intros [= <-]. exists []. rewrite app_nil_r. split_and!; try done; [constructor|set_solver|]. intros v n. set_solver.
  - destruct (nr_Contracts n) as [c|] eqn:Hc; [|done].
    destruct (runtimeByVersion r0 !! nr_ProcessIDVersion n) eqn:Hv; [done|].
    intros (l & -> & Hr & Hcs & Hnd & Hnew & Hlk)%IH. cbn [rr_runtimes runtimeByVersion] in *. exists (n :: l).
    assert (Hn : nr_ProcessIDVersion n ∉ nr_ProcessIDVersion <$> l).
    { intros (m & Hm & Hin)%list_elem_of_fmap. specialize (Hnew m Hin). rewrite <-Hm, lookup_insert_eq in Hnew. done. }
    split_and!.
    + done.
    + by rewrite Hr, <-app_assoc.
    + constructor; [by eexists|done].
    + cbn. by constructor.
    + intros m [->|Hm]%elem_of_cons; [done|]. specialize (Hnew m Hm). by apply lookup_insert_None in Hnew as [? _].
    + intros v m. rewrite Hlk, lookup_insert_Some, elem_of_cons. split.
      * intros [[[<- <-]|[_ ?]]|[? ?]]; auto.
      * intros [Hm|[[->|Hm] <-]]; [|by left; left|by right]. left. right. split; [|done]. intros <-. congruence.
Qed.

(** The router over the networks of a node knows every network by its version, which no
    two of them share. *)
Lemma NewRuntimeRouter_spec cs ns r :
  networks_of cs ns → NewRuntimeRouter (Some <$> ns) = Ok r →
  rr_runtimes r = ns ∧ NoDup (nr_ProcessIDVersion <$> ns) ∧
  ∀ v n, runtimeForVersion r v = Some n ↔ n ∈ ns ∧ nr_ProcessIDVersion n = v.
Proof.
  intros _ (l & El & Hr & _ & Hnd & _ & Hlk)%add_runtimes_spec.
  assert (l = ns) as ->. { symmetry. apply (inj (fmap Some)). exact El. }
  split_and!; [done..|]. intros v n. unfold runtimeForVersion. rewrite Hlk. cbn. rewrite lookup_empty. naive_solver.
Qed.
Lemma NewNetworkRuntime_inv c n : NewNetworkRuntime (Some c) = Ok n →
  nr_Contracts n = Some c ∧ nr_ChainID n = network_ChainID c ∧ network_ChainID c ≤ maxProcessIDChainID ∧
  nr_ProcessIDVersion n = ProcessIDVersion (network_ChainID c) (default [] (ProcessRegistry c)).
Proof.
  unfold NewNetworkRuntime. destruct (ProcessRegistry c) as [a|]; [|done]. case_bool_decide; [done|].
  destruct (Z.ltb_spec maxProcessIDChainID (network_ChainID c)); [done|]. intros [= <-]. done.
Qed.
Lemma built_networks cs ns : networks_of cs ns → ∀ n, n ∈ ns ↔ ∃ c, c ∈ cs ∧ NewNetworkRuntime (Some c) = Ok n.
Proof.
  intros Hcs n. split.
  - intros [i Hi]%list_elem_of_lookup. destruct (Forall2_lookup_r _ _ _ _ _ Hcs Hi) as (c & Hc & Hn).
    exists c. split; [by eapply list_elem_of_lookup_2|done].
  - intros (c & [i Hi]%list_elem_of_lookup & Hn). destruct (Forall2_lookup_l _ _ _ _ _ Hcs Hi) as (m & Hm & Hn').
    assert (m = n) as <- by congruence. by eapply list_elem_of_lookup_2.
Qed.

(** A process is served by exactly the network it was created on: an identifier
    with the version of a network of the node is routed to the contracts of that
    network, and what an identifier is routed to has its version. *)
Theorem process_is_routed cs ns r pid :
  networks_of cs ns → NewRuntimeRouter (Some <$> ns) = Ok r → pid_IsValid pid = true →
  (∀ c, c ∈ cs → ValidVersion c pid = true →
     Router_SupportsProcess r pid = true ∧ Router_ContractsForProcess r pid = Ok (Some c)) ∧
  (∀ oc, Router_ContractsForProcess r pid = Ok oc →
     Router_SupportsProcess r pid = true ∧ ∃ c, oc = Some c ∧ c ∈ cs ∧ ValidVersion c pid = true) ∧
  (Router_SupportsProcess r pid = false → ∃ e, Router_ContractsForProcess r pid = Err e).
Proof.
  intros Hns Hr Hpid. destruct (NewRuntimeRouter_spec cs ns r Hns Hr) as (_ & Hnd & Hlk).
  unfold Router_ContractsForProcess, RuntimeForProcess, Router_SupportsProcess. rewrite Hpid. cbn [negb]. split_and!.
  - intros c Hc Hv%bool_decide_eq_true. assert (Hex : ∃ n, NewNetworkRuntime (Some c) = Ok n).
    { apply list_elem_of_lookup in Hc as [i Hi]. destruct (Forall2_lookup_l _ _ _ _ _ Hns Hi) as (n & _ & Hn). eauto. }
    destruct Hex as [n Hn]. destruct (NewNetworkRuntime_inv c n Hn) as (HC & _ & _ & HV).
    assert (E : runtimeForVersion r (pid_Version pid) = Some n).
    { apply Hlk. split; [apply (built_networks cs ns Hns); eauto|]. congruence. }
    rewrite E. split; [by apply bool_decide_eq_true; eexists|by rewrite HC].
  - intros oc. destruct (runtimeForVersion r (pid_Version pid)) as [n|] eqn:E; [|done]. intros [= <-].
    split; [by apply bool_decide_eq_true; eexists|]. apply Hlk in E as [Hin HV].
    apply (built_networks cs ns Hns) in Hin as (c & Hc & Hn). destruct (NewNetworkRuntime_inv c n Hn) as (HC & _ & _ & HV').
    exists c. split_and!; [done..|]. apply bool_decide_eq_true. congruence.
  - intros Hs%bool_decide_eq_false. destruct (runtimeForVersion r (pid_Version pid)) as [n|]; [|eauto].
    by destruct Hs.
Qed.
End runtime.

Module Networks2.
#[export] Existing Instance ConcreteEth.eth.
(** Two networks, by their chain and the address of their registry. *)
#[export] Instance networks : Networks := {|
  network := Z * bytes; network_ChainID := fst; ProcessRegistry c := Some c.2 |}.
Definition mainnet : network := (1, replicate 20 (byte_of_Z 7)).
Definition sidechain : network := (100, replicate 20 (byte_of_Z 9)).
Definition built : list NetworkRuntime := omap (λ c, match NewNetworkRuntime (Some c) with Ok n => Some n | Err _ => None end) [mainnet; sidechain].
Definition router : RuntimeRouter := match NewRuntimeRouter (Some <$> built) with Ok r => r | Err _ => {| rr_runtimes := []; runtimeByVersion := ∅ |} end.
Definition on_sidechain : ProcessID := NewProcessID (replicate 20 (byte_of_Z 171)) (ProcessIDVersion 100 (replicate 20 (byte_of_Z 9))) (U64 5).
Lemma process_is_routed_witness :
  Router_SupportsProcess router on_sidechain = true ∧ Router_ContractsForProcess router on_sidechain = Ok (Some sidechain).
Proof.
  destruct (process_is_routed [mainnet; sidechain] built router on_sidechain) as (H & _ & _);
    [by repeat constructor|by vm_compute|by vm_compute|]. apply H; [|by vm_compute]. right. left.
Defined.
End Networks2.
