(* ===== verification/Csp.v ===== *)
(** * Credential service providers

    [src/crypto/csp/csp.go] and [src/crypto/csp/eddsa]: the providers that sign the membership of voters
    with EdDSA over Baby Jubjub, and the check of what they sign.
    iden3's curve and its texts are a parameter; what the code makes of the texts, decimal numbers
    read from their hexadecimal digits, is not. *)

From S2P Require Import Prelude Bytes Spec Types Hex Census Curve ElGamal.
From Stdlib Require Import Ascii.

(** ** Texts of keys and signatures *)

(** [big.Int.SetString(s, 10)] *)
Definition big_SetString10 (s : bytes) : option Z :=
  match s with
  | "-"%char :: s => Z.opp <$> parse_decimal s
  | "+"%char :: s => parse_decimal s
  | s => parse_decimal s
  end.

(** [src/crypto/csp/eddsa/compressed.go:19-29] CompressedBytes.SetCompressed: [big.Int.Bytes] is of the absolute value *)
Definition SetCompressed (b : bytes) : result bytes :=
  match b with
  | [] => Err (ErrMsg "bytes provided are empty")
  | _ => match big_SetString10 (HexBytes_Hex b) with
         | None => Err (ErrMsg "error converting bytes to big int")
         | Some biBytes => Ok (big_Bytes (Z.abs biBytes))
         end
  end.
(** [src/crypto/csp/eddsa/compressed.go:33-36] CompressedBytes.SetBytes *)
Definition Compressed_SetBytes (b : bytes) : result bytes := Ok b.
(** [src/crypto/csp/eddsa/compressed.go:46-58] CompressedBytes.Decompress *)
Definition Decompress (c : bytes) : result bytes :=
  match c with
  | [] => Err (ErrMsg "bytes provided are empty")
  | _ => match HexStringToHexBytes (bytes_of_string (pretty (be_combine c))) with
         | Err e => Err (Wrap "error decoding bytes text" e)
         | Ok decodedBytes => Ok decodedBytes
         end
  end.

(** What the code uses of iden3's [babyjub]: keys, signatures, and their texts, which are
    lower-case hexadecimal. *)
Class BabyJub := {
  bjj_PrivateKey : Type; bjj_PublicKey : Type; bjj_Signature : Type;
  bjj_Public : bjj_PrivateKey → bjj_PublicKey;
  bjj_X : bjj_PublicKey → Z; bjj_Y : bjj_PublicKey → Z;
  SignPoseidon : bjj_PrivateKey → Z → bjj_Signature;
  VerifyPoseidon : bjj_PublicKey → Z → bjj_Signature → bool;
  PublicKey_MarshalText : bjj_PublicKey → bytes;
  PublicKey_UnmarshalText : bytes → result bjj_PublicKey;
  Signature_MarshalText : bjj_Signature → bytes;
  DecompressSig : bytes → result bjj_Signature;
  VerifyPoseidon_Sign k m : VerifyPoseidon (bjj_Public k) m (SignPoseidon k m) = true;
  PublicKey_text p : PublicKey_MarshalText p ≠ [] ∧ Forall plain_digit (PublicKey_MarshalText p);
  PublicKey_roundtrip p : PublicKey_UnmarshalText (PublicKey_MarshalText p) = Ok p;
  Signature_text s : Signature_MarshalText s ≠ [] ∧ Forall plain_digit (Signature_MarshalText s);
  Signature_roundtrip s : DecompressSig (Signature_MarshalText s) = Ok s }.

Section csp.
Context `{BabyJub} `{Hash : PoseidonHasher} (ScalarField : Z).

(** [src/crypto/csp/eddsa/compressed.go:61-67] *)
Definition CompressSignature (sig : bjj_Signature) : result bytes := SetCompressed (Signature_MarshalText sig).
(** [src/crypto/csp/eddsa/compressed.go:71-85] *)
Definition DecompressSignature (signature : bytes) : result bjj_Signature :=
  match Compressed_SetBytes signature with
  | Err e => Err (Wrap "error setting compressed bytes" e)
  | Ok compressed =>
      match Decompress compressed with
      | Err e => Err (Wrap "error decompressing signature" e)
      | Ok decompressed => match DecompressSig decompressed with
                           | Err e => Err (Wrap "error unmarshaling signature" e)
                           | Ok sig => Ok sig
                           end
      end
  end.
(** [src/crypto/csp/eddsa/compressed.go:89-99] *)
Definition CompressedPublicKey (pubKey : bjj_PublicKey) : result bytes := SetCompressed (PublicKey_MarshalText pubKey).
(** [src/crypto/csp/eddsa/compressed.go:103-117] *)
Definition DecompressPublicKey (pubKey : bytes) : result bjj_PublicKey :=
  match Compressed_SetBytes pubKey with
  | Err e => Err (Wrap "error setting compressed bytes" e)
  | Ok compressed =>
      match Decompress compressed with
      | Err e => Err (Wrap "error decompressing public key" e)
      | Ok decompressed => match PublicKey_UnmarshalText decompressed with
                           | Err e => Err (Wrap "error unmarshaling public key" e)
                           | Ok pk => Ok pk
                           end
      end
  end.

(** ** The provider *)

(** The checks of an index function and of a message. *)
Definition valid_weight (weight : option Z) : bool :=
  match weight with None => false | Some w => (0 <? w) && (w <? ScalarField) end.
(** [src/crypto/csp/eddsa/babyjubjub_eddsa.go:253-274] DefaultCSPIndexFn: an error is a panic *)
Definition DefaultCSPIndexFn (pid : ProcessID) (address : bytes) (weight : option Z) : result uint64 :=
  if negb (pid_IsValid pid) then Err (ErrMsg "invalid process ID")
  else if bool_decide (address = zeroAddress) then Err (ErrMsg "invalid address")
  else if negb (valid_weight weight) then Err (ErrMsg "invalid weight")
  else match poseidon_Hash [pid_MathBigInt pid; be_combine address; default 0 weight] with
       | Err e => Err e
       | Ok bigHash => Ok (U64 (bigHash mod VoterIndexMax))
       end.

(** [src/crypto/csp/eddsa/babyjubjub_eddsa.go:16-20] BabyJubJubEdDSA, over the default hash *)
Record BabyJubJubEdDSA := { privKey : bjj_PrivateKey; indexFn : ProcessID → bytes → option Z → result uint64 }.

(** [src/crypto/csp/eddsa/babyjubjub_eddsa.go:193-225] *)
Definition signatureMessage (voterIndex : uint64) (pid : ProcessID) (address : bytes) (weight : option Z) : result bytes :=
  if negb (pid_IsValid pid) then Err (ErrMsg "invalid process ID")
  else if bool_decide (BytesToAddress address = zeroAddress) then Err (ErrMsg "invalid address")
  else if negb (valid_weight weight) then Err (ErrMsg "invalid weight")
  else match poseidon_Hash [u64Z voterIndex; pid_MathBigInt pid; be_combine address; default 0 weight] with
       | Err e => Err (Wrap "error hashing signature message" e)
       | Ok message => Ok (big_Bytes message)
       end.
(** [src/crypto/csp/eddsa/babyjubjub_eddsa.go:229-247] *)
Definition sign (c : BabyJubJubEdDSA) (voterIndex : uint64) (pid : ProcessID) (address : bytes) (weight : option Z) : result bytes :=
  match signatureMessage voterIndex pid address weight with
  | Err e => Err (Wrap "error composing signature message" e)
  | Ok message =>
      match CompressSignature (SignPoseidon (privKey c) (be_combine message)) with
      | Err e => Err (Wrap "error compressing signature" e)
      | Ok compressedSignature => Ok compressedSignature
      end
  end.
(** [src/crypto/csp/eddsa/babyjubjub_eddsa.go:178-188] BabyJubJubEdDSA.root *)
Definition csp_root (c : BabyJubJubEdDSA) : result bytes :=
  let pubKey := bjj_Public (privKey c) in
  match poseidon_Hash [bjj_X pubKey; bjj_Y pubKey] with
  | Err e => Err (Wrap "error hashing public key" e)
  | Ok hashedPubKey => Ok (NormalizedCensusRoot (big_Bytes hashedPubKey))
  end.
(** [src/crypto/csp/eddsa/babyjubjub_eddsa.go:102-133] GenerateProof *)
Definition GenerateProof (c : BabyJubJubEdDSA) (pid : ProcessID) (address : bytes) (weight : option Z) : result CensusProof :=
  match indexFn c pid address weight with
  | Err e => Err e
  | Ok voterIndex =>
      match sign c voterIndex pid address weight with
      | Err e => Err e
      | Ok signature =>
          match csp_root c with
          | Err e => Err (Wrap "error computing census root" e)
          | Ok censusRoot =>
              match CompressedPublicKey (bjj_Public (privKey c)) with
              | Err e => Err (Wrap "error marshaling public key" e)
              | Ok publicKey =>
                  Ok {| pf_CensusOrigin := CensusOriginCSPEdDSABabyJubJubV1; pf_Root := Some censusRoot;
                        pf_Address := Some address; pf_Weight := weight; pf_VoterIndex := voterIndex;
                        pf_Siblings := []; pf_Value := []; pf_PathBits := U64 0; pf_ProcessID := pid;
                        pf_PublicKey := Some publicKey; pf_Signature := Some signature |}
              end
          end
      end
  end.
(** [src/crypto/csp/eddsa/babyjubjub_eddsa.go:140-171] VerifyProof: it uses nothing of the provider *)
Definition VerifyProof (proof : CensusProof) : result () :=
  if negb (pid_IsValid (pf_ProcessID proof)) then Err (ErrMsg "process ID is nil")
  else if negb (pf_CensusOrigin proof =? CensusOriginCSPEdDSABabyJubJubV1) then Err (ErrMsg "proof origin mismatch")
  else match DecompressPublicKey (default [] (pf_PublicKey proof)) with
       | Err e => Err (Wrap "error getting public key from census proof" e)
       | Ok pubKey =>
           match signatureMessage (pf_VoterIndex proof) (pf_ProcessID proof) (default [] (pf_Address proof)) (pf_Weight proof) with
           | Err e => Err (Wrap "error composing signature message" e)
           | Ok message =>
               match DecompressSignature (default [] (pf_Signature proof)) with
               | Err e => Err (Wrap "error decompressing signature" e)
               | Ok signature =>
                   if VerifyPoseidon pubKey (be_combine message) signature then Ok ()
                   else Err (ErrMsg "signature verification failed")
               end
           end
       end.
(** [src/crypto/csp/csp.go:61-74] *)
Definition VerifyCensusProof (proof : CensusProof) : result () :=
  if pf_CensusOrigin proof =? CensusOriginCSPEdDSABabyJubJubV1 then VerifyProof proof
  else Err (ErrMsg "unsupported census origin").
End csp.

(** ** Texts survive the passage through a number *)

Lemma pretty_go_snoc n d s : (0 < n)%N → (d < 10)%N → pretty_N_go (10 * n + d) s = pretty_N_go n (String (pretty_N_char d) s).
Proof.
  intros Hn Hd. replace (10 * n + d)%N with (d + n * 10)%N by lia. rewrite pretty_N_go_step by lia.
  rewrite N.div_add, N.Div0.mod_add, (N.div_small d), (N.mod_small d), N.add_0_l by done. done.
Qed.
Lemma decimal_char c d : decimal_value c = Some d → 0 ≤ d < 10 ∧ pretty_N_char (Z.to_N d) = c.
Proof.
  assert (H : ∀ c, match decimal_value c with Some d => (0 <=? d) && (d <? 10) && bool_decide (pretty_N_char (Z.to_N d) = c) = true | None => True end).
  { clear. intros [[] [] [] [] [] [] [] []]; by vm_compute. }
  intros Hd. specialize (H c). rewrite Hd in H. apply andb_prop in H as [H1 H2%bool_decide_eq_true]. split; [lia|done].
Qed.
(** Digits that follow a positive number, printed after it. *)
Lemma print_parsed l s : ∀ n v, 0 < n →
  foldl (λ acc c, v ← acc; d ← decimal_value c; Some (10 * v + d)) (Some n) l = Some v →
  0 < v ∧ pretty_N_go (Z.to_N v) s = pretty_N_go (Z.to_N n) (String.append (String.string_of_list_ascii l) s).
Proof.
  induction l as [|c l IH]; intros n v Hn; cbn [foldl mbind option_bind String.string_of_list_ascii String.append].
  { intros [= <-]. done. }
  destruct (decimal_value c) as [d|] eqn:Hd; cbn [mbind option_bind].
  2:{ assert (E : ∀ l, foldl (λ acc c, v ← acc; d ← decimal_value c; Some (10 * v + d)) None l = None) by (clear; by induction l).
      by rewrite E. }
  apply decimal_char in Hd as [Hr Hc]. intros Hv. destruct (IH (10 * n + d) v) as [H1 ->]; [lia|exact Hv|]. split; [done|].
  rewrite Z2N.inj_add, Z2N.inj_mul by lia. rewrite pretty_go_snoc by lia. by rewrite Hc.
Qed.
Lemma parse_print c d l v : decimal_value c = Some d → 0 < d → parse_decimal (c :: l) = Some v →
  0 < v ∧ bytes_of_string (pretty v) = c :: l.
Proof.
  intros Hd Hpos. unfold parse_decimal. cbn [foldl mbind option_bind]. rewrite Hd. cbn [mbind option_bind].
  replace (10 * 0 + d) with d by lia. intros Hv. destruct (print_parsed l "" d v Hpos Hv) as [Hv0 Hp]. split; [done|].
  destruct v as [|v|v]; [lia| |lia]. unfold pretty, pretty_Z. cbn [Z.to_N] in Hp. unfold pretty, pretty_positive, pretty, pretty_N.
  rewrite decide_False by done. rewrite Hp. destruct (decimal_char _ _ Hd) as [Hr Hc].
  rewrite pretty_N_go_step by lia. rewrite N.div_small, pretty_N_go_0, N.mod_small, Hc by lia.
  unfold bytes_of_string. cbn. f_equal. clear. induction l as [|a l IH]; [done|]. exact (f_equal (cons a) IH).
Qed.

(** A text of hexadecimal digits, as their hexadecimal digits: a decimal number that keeps them. *)
Lemma hexed_digits t : Forall plain_digit t → Forall (λ c, is_Some (decimal_value c)) (hex_text t).
Proof.
  intros Ht. induction Ht as [|c t Hc Ht IH]; [constructor|]. rewrite hex_text_cons.
  assert (H : ∀ c, plain_digit c → is_Some (decimal_value (hex_digit (byte_to_Z c / 16))) ∧ is_Some (decimal_value (hex_digit (byte_to_Z c mod 16)))).
  { clear. intros [[] [] [] [] [] [] [] []]; unfold plain_digit; vm_compute; intros H; try (split; by eexists); by destruct H as [[]|[]]. }
  destruct (H c Hc). by repeat constructor.
Qed.
Lemma hexed_head c : plain_digit c → ∃ d, decimal_value (hex_digit (byte_to_Z c / 16)) = Some d ∧ 0 < d.
Proof.
  destruct c as [[] [] [] [] [] [] [] []]; unfold plain_digit; vm_compute; intros H; try (eexists; by split); by destruct H as [[]|[]].
Qed.
Lemma parse_digits l : ∀ n, Forall (λ c, is_Some (decimal_value c)) l →
  ∃ v, foldl (λ acc c, v ← acc; d ← decimal_value c; Some (10 * v + d)) (Some n) l = Some v.
Proof.
  induction l as [|c l IH]; intros n Hl; [by eexists|]. apply Forall_cons in Hl as [[d Hd] Hl].
  cbn [foldl mbind option_bind]. rewrite Hd. cbn [mbind option_bind]. by apply IH.
Qed.
Lemma compress_roundtrip t : t ≠ [] → Forall plain_digit t → ∃ c, SetCompressed t = Ok c ∧ Decompress c = Ok t.
Proof.
  intros Hne Ht. unfold SetCompressed. destruct t as [|a t]; [done|]. unfold HexBytes_Hex. rewrite hex_text_cons.
  set (h := hex_digit (byte_to_Z a / 16)). set (l := hex_digit (byte_to_Z a mod 16) :: hex_text t).
  assert (Hl : Forall (λ c, is_Some (decimal_value c)) (h :: l)) by (apply (hexed_digits (a :: t)); done).
  apply Forall_cons in Hl as [_ Hl]. apply Forall_cons in Ht as [Ha Ht]. destruct (hexed_head a Ha) as (d & Hd & Hpos). fold h in Hd.
  assert (Hv : ∃ v, parse_decimal (h :: l) = Some v).
  { unfold parse_decimal. cbn [foldl mbind option_bind]. rewrite Hd. cbn [mbind option_bind]. by apply parse_digits. }
  destruct Hv as [v Hv]. destruct (parse_print h d l v Hd Hpos Hv) as [Hv0 Hp].
  assert (Hs : big_SetString10 (h :: l) = Some v).
  { unfold big_SetString10. rewrite <-Hv. destruct h as [[] [] [] [] [] [] [] []]; done. }
  rewrite Hs, Z.abs_eq by lia. eexists. split; [done|]. pose proof (big_Bytes_SetBytes v ltac:(lia)) as Hb.
  unfold Decompress. destruct (big_Bytes v) as [|b bs] eqn:E; [unfold be_combine in Hb; cbn in Hb; lia|].
  rewrite Hb, Hp. unfold HexStringToHexBytes. subst h l. rewrite <-hex_text_cons, TrimHex_plain by apply hex_text_plain.
  by rewrite hex_Decode_text.
Qed.

(** ** What a verified proof says *)

Section csp_facts.
Context `{BabyJub} `{Hash : PoseidonHasher} (ScalarField : Z).

Lemma signature_roundtrip s : ∃ b, CompressSignature s = Ok b ∧ DecompressSignature b = Ok s.
Proof.
  destruct (Signature_text s) as [Hne Ht]. destruct (compress_roundtrip _ Hne Ht) as (b & Hb & Hd).
  exists b. split; [done|]. unfold DecompressSignature, Compressed_SetBytes. by rewrite Hd, Signature_roundtrip.
Qed.
Lemma public_key_roundtrip p : ∃ b, CompressedPublicKey p = Ok b ∧ DecompressPublicKey b = Ok p.
Proof.
  destruct (PublicKey_text p) as [Hne Ht]. destruct (compress_roundtrip _ Hne Ht) as (b & Hb & Hd).
  exists b. split; [done|]. unfold DecompressPublicKey, Compressed_SetBytes. by rewrite Hd, PublicKey_roundtrip.
Qed.
Lemma DefaultCSPIndexFn_valid pid a w v : DefaultCSPIndexFn ScalarField pid a w = Ok v →
  VoterIndex_Valid v = true ∧ u64Z v < VoterIndexMax ∧ pid_IsValid pid = true ∧ a ≠ zeroAddress ∧ valid_weight ScalarField w = true.
Proof.
  unfold DefaultCSPIndexFn. destruct (pid_IsValid pid); [|done]. cbn [negb]. case_bool_decide; [done|].
  destruct (valid_weight ScalarField w); [|done]. cbn [negb]. destruct (poseidon_Hash _) as [h|]; [|done]. intros [= <-].
  assert (Hr : 0 ≤ h mod VoterIndexMax < VoterIndexMax) by (by apply Z.mod_pos_bound).
  assert (VoterIndexMax < two64) by done. unfold VoterIndex_Valid. rewrite u64Z_U64 by lia.
  split_and!; [apply Z.leb_le; lia|lia|done..].
Qed.

(** What a verified proof says: somebody, whose public key is in the proof, signed the index, the
    process, the address and the weight of the proof, and the weight is positive. *)
Lemma VerifyProof_Ok proof : VerifyProof ScalarField proof = Ok () →
  pf_CensusOrigin proof = CensusOriginCSPEdDSABabyJubJubV1 ∧ valid_weight ScalarField (pf_Weight proof) = true ∧
  ∃ pubKey signature message,
    DecompressPublicKey (default [] (pf_PublicKey proof)) = Ok pubKey ∧
    DecompressSignature (default [] (pf_Signature proof)) = Ok signature ∧
    poseidon_Hash [u64Z (pf_VoterIndex proof); pid_MathBigInt (pf_ProcessID proof);
                   be_combine (default [] (pf_Address proof)); default 0 (pf_Weight proof)] = Ok message ∧
    VerifyPoseidon pubKey (be_combine (big_Bytes message)) signature = true.
Proof.
  unfold VerifyProof. destruct (pid_IsValid _) eqn:Hp; [|done]. cbn [negb].
  destruct (Z.eqb_spec (pf_CensusOrigin proof) CensusOriginCSPEdDSABabyJubJubV1) as [Ho|]; [|done]. cbn [negb].
  destruct (DecompressPublicKey _) as [pk|] eqn:Hk; [|done]. unfold signatureMessage. rewrite Hp. cbn [negb].
  case_bool_decide; [done|]. destruct (valid_weight _ _) eqn:Hw; [|done]. cbn [negb].
  destruct (poseidon_Hash _) as [m|] eqn:Hm; [|done]. destruct (DecompressSignature _) as [sg|] eqn:Hs; [|done].
  destruct (VerifyPoseidon pk _ sg) eqn:Hv; [|done]. intros _. eauto 10.
Qed.

(** The proof that a provider makes is well-formed and is accepted, whoever the provider is: the
    check reads the key from the proof and never looks at the root of a census. *)
Theorem csp_proof_verifies k pid a w proof :
  length a = 20%nat → GenerateProof ScalarField {| privKey := k; indexFn := DefaultCSPIndexFn ScalarField |} pid a w = Ok proof →
  VerifyCensusProof ScalarField proof = Ok () ∧ CensusProof_Valid proof = true ∧
  pf_Weight proof = w ∧ pf_Address proof = Some a ∧ pf_ProcessID proof = pid ∧ valid_weight ScalarField w = true ∧
  ∀ root pid', VerifyCensusProof ScalarField {| pf_CensusOrigin := pf_CensusOrigin proof; pf_Root := root;
    pf_Address := pf_Address proof; pf_Weight := pf_Weight proof; pf_VoterIndex := pf_VoterIndex proof;
    pf_Siblings := pf_Siblings proof; pf_Value := pf_Value proof; pf_PathBits := pid'; pf_ProcessID := pf_ProcessID proof;
    pf_PublicKey := pf_PublicKey proof; pf_Signature := pf_Signature proof |} = Ok ().
Proof.
  intros Ha. unfold GenerateProof. cbn [indexFn].
  destruct (DefaultCSPIndexFn _ pid a w) as [v|] eqn:Hv; [|done]. destruct (DefaultCSPIndexFn_valid _ _ _ _ Hv) as (Hvv & _ & Hp & Hz & Hw).
  unfold sign, signatureMessage. rewrite Hp, Hw. cbn [negb]. case_bool_decide as Ha0; [done|].
  destruct (poseidon_Hash [u64Z v; _; _; _]) as [m|] eqn:Hm; [|done].
  cbn [privKey]. destruct (signature_roundtrip (SignPoseidon k (be_combine (big_Bytes m)))) as (sg & Hsg & Hds). rewrite Hsg.
  destruct (csp_root _) as [root|]; [|done]. destruct (public_key_roundtrip (bjj_Public k)) as (pk & Hpk & Hdp). rewrite Hpk.
  intros [= <-]. cbn [pf_Weight pf_Address pf_ProcessID pf_CensusOrigin pf_VoterIndex pf_PublicKey pf_Signature].
  assert (H0 : ∀ root pid', VerifyCensusProof ScalarField {| pf_CensusOrigin := CensusOriginCSPEdDSABabyJubJubV1; pf_Root := root;
    pf_Address := Some a; pf_Weight := w; pf_VoterIndex := v; pf_Siblings := []; pf_Value := []; pf_PathBits := pid';
    pf_ProcessID := pid; pf_PublicKey := Some pk; pf_Signature := Some sg |} = Ok ()).
  { intros r q. unfold VerifyCensusProof, VerifyProof, signatureMessage.
    cbn [pf_CensusOrigin pf_PublicKey pf_Signature pf_VoterIndex pf_Address pf_Weight pf_ProcessID from_option id].
    rewrite Hp, Hdp, !Z.eqb_refl. cbn [negb]. rewrite bool_decide_false, Hw, Hm, Hds by done. cbn [negb]. by rewrite VerifyPoseidon_Sign. }
  split_and!; try done; try apply H0. unfold CensusProof_Valid. cbn. by rewrite Hp, Hvv.
Qed.
End csp_facts.

(** ** A concrete scheme *)

Module ConcreteCsp.
(** A public key is a number; a signature, the key and the message. *)
Definition text_of (l : list Z) : bytes := hex_text (concat (be_split 32 <$> l)).
Definition numbers_of (n : nat) (t : bytes) : result (list Z) :=
  match hex_DecodeString t with
  | Err e => Err e
  | Ok l => if (length l =? 32 * n)%nat then Ok ((λ i, be_combine (take 32 (drop (32 * i) l))) <$> seq 0 n) else Err (ErrMsg "malformed")
  end.
Record number := { value : Z; value_ok : (0 <=? value) && (value <? 2 ^ 256) = true }.
Lemma number_eq a b : value a = value b → a = b.
Proof. destruct a as [x Hx], b as [y Hy]. cbn. intros <-. f_equal. apply Eqdep_dec.UIP_dec, bool_dec. Qed.
Definition to_number (z : Z) : number := {| value := z mod 2 ^ 256; value_ok := ltac:(
  pose proof (Z.mod_pos_bound z (2 ^ 256) eq_refl); apply andb_true_intro; split; [apply Z.leb_le|apply Z.ltb_lt]; lia) |}.
Lemma to_value n : to_number (value n) = n.
Proof.
  apply number_eq. cbn [to_number value]. destruct n as [z Hz]. cbn [value]. apply andb_prop in Hz as [H1%Z.leb_le H2%Z.ltb_lt].
  by apply Z.mod_small.
Qed.
Lemma text_ok l : l ≠ [] → text_of l ≠ [] ∧ Forall plain_digit (text_of l).
Proof.
  intros Hl. split; [|apply hex_text_plain]. intros E. apply (f_equal length) in E. unfold text_of in E.
  rewrite length_hex_text in E. destruct l as [|z l]; [done|]. rewrite fmap_cons in E. cbn [concat] in E.
  rewrite length_app, length_be_split in E. cbn in E. lia.
Qed.
Definition read_number (t : bytes) : result number :=
  match numbers_of 1 t with Ok [x] => Ok (to_number x) | _ => Err (ErrMsg "malformed") end.
Definition read_pair (t : bytes) : result (number * number) :=
  match numbers_of 2 t with Ok [x; y] => Ok (to_number x, to_number y) | _ => Err (ErrMsg "malformed") end.
Lemma read_be n : be_combine (be_split 32 (value n)) = value n.
Proof.
  rewrite be_combine_split. destruct n as [z Hz]. cbn [value]. apply andb_prop in Hz as [H1%Z.leb_le H2%Z.ltb_lt].
  by apply Z.mod_small.
Qed.
Lemma read_number_text n : read_number (text_of [value n]) = Ok n.
Proof.
  unfold read_number, numbers_of, text_of. rewrite hex_Decode_text. cbn [fmap list_fmap concat]. rewrite app_nil_r, length_be_split.
  cbn [Nat.mul Nat.add Nat.eqb seq fmap list_fmap]. rewrite drop_0, take_ge by (by rewrite length_be_split).
  by rewrite read_be, to_value.
Qed.
Lemma read_pair_text p : read_pair (text_of [value p.1; value p.2]) = Ok p.
Proof.
  unfold read_pair, numbers_of, text_of. rewrite hex_Decode_text. cbn [fmap list_fmap concat]. rewrite app_nil_r, length_app, !length_be_split.
  cbn [Nat.mul Nat.add Nat.eqb seq fmap list_fmap]. rewrite drop_0, take_app_le, take_ge, drop_app_ge by (by rewrite length_be_split).
  rewrite length_be_split, Nat.sub_diag, drop_0, take_ge by (by rewrite length_be_split). rewrite !read_be, !to_value. by destruct p.
Qed.
#[export] Instance bjj : BabyJub := {|
  bjj_PrivateKey := number; bjj_PublicKey := number; bjj_Signature := number * number;
  bjj_Public := id; bjj_X := value; bjj_Y := value;
  SignPoseidon k m := (k, to_number m);
  VerifyPoseidon p m s := bool_decide (value (s.1) = value p) && bool_decide (value (s.2) = m mod 2 ^ 256);
  PublicKey_MarshalText p := text_of [value p]; PublicKey_UnmarshalText := read_number;
  Signature_MarshalText s := text_of [value s.1; value s.2]; DecompressSig := read_pair;
  VerifyPoseidon_Sign k m := ltac:(cbn [fst snd id]; by rewrite !bool_decide_true);
  PublicKey_text p := text_ok [value p] ltac:(done); PublicKey_roundtrip := read_number_text;
  Signature_text s := text_ok [value s.1; value s.2] ltac:(done); Signature_roundtrip := read_pair_text |}.
#[export] Instance hasher : PoseidonHasher := λ l, Ok (foldr (λ x z, (x + 31 * z) mod 1000003) 7 l).
Definition field : Z := 21888242871839275222246405745257275088548364400416034343698204186575808495617.
Definition pid5 : ProcessID := NewProcessID (replicate 20 (byte_of_Z 171)) (replicate 4 (byte_of_Z 9)) (U64 5).
Definition anybody : bjj_PrivateKey := to_number 424242.
Definition proof5 : CensusProof :=
  match GenerateProof field {| privKey := anybody; indexFn := DefaultCSPIndexFn field |} pid5 (be_split 20 7) (Some 1000000) with
  | Ok p => p | Err _ => {| pf_CensusOrigin := 0; pf_Root := None; pf_Address := None; pf_Weight := None; pf_VoterIndex := U64 0;
      pf_Siblings := []; pf_Value := []; pf_PathBits := U64 0; pf_ProcessID := pid5; pf_PublicKey := None; pf_Signature := None |}
  end.
Lemma csp_proof_verifies_witness : VerifyCensusProof field proof5 = Ok () ∧ pf_Weight proof5 = Some 1000000.
Proof.
  destruct (csp_proof_verifies field anybody pid5 (be_split 20 7) (Some 1000000) proof5) as (H1 & _ & H2 & _);
    [by vm_compute|by vm_compute|]. by split.
Defined.
End ConcreteCsp.
