(* ===== verification/BallotInputs.v ===== *)
(** * The public inputs of a ballot

    [src/crypto/ecc/format/twistededwards.go], the conversions of [src/crypto/elgamal/ballot.go] between
    the two forms of the curve, [src/circuits/ballotproof/inputs.go] and
    [src/api/ballotproof_verifier.go]: the hash that binds a ballot to its process, address, vote and
    weight, and the check of the voter's proof against it. The points are those of the stored
    ballots: two coordinates, reduced modulo the scalar field of BN254. *)

From S2P Require Import Prelude Bytes Spec Types Hex Curve ElGamal SequencerBallots.

(** The order of BN254's scalar field. *)
Definition bn254 : Z := 21888242871839275222246405745257275088548364400416034343698204186575808495617.

(** ** The two forms of the curve *)

(** [src/crypto/ecc/format/twistededwards.go:15-15] *)
Definition scalingFactor : Z := 6360561867910373094066688120553762416144456282423235903351243436111059670888.
(** [src/crypto/ecc/format/twistededwards.go:24-24] the negated factor, in init *)
Definition negScalingFactor : Z := (- scalingFactor) mod bn254.
(** [src/crypto/ecc/format/twistededwards.go:25-25] its inverse, in init *)
Definition negScalingInv : Z := 1911982854305225074381251344103329931637610209014896889891168275855466657090.
(** [src/crypto/ecc/format/twistededwards.go:36-47] *)
Definition FromRTEtoTE (p : Point) : Point := ((p.1 mod bn254 * negScalingInv) mod bn254, p.2).
(** [src/crypto/ecc/format/twistededwards.go:54-63] *)
Definition FromTEtoRTE (p : Point) : Point := ((p.1 mod bn254 * negScalingFactor) mod bn254, p.2).
(** [src/crypto/ecc/bjj_gnark/babyjubjub.go:187-192] BJJ.SetPoint: coordinates become elements of the field *)
Definition SetPoint (p : Point) : Point := (p.1 mod bn254, p.2 mod bn254).

Definition map_points (f : Point → Point) (c : Ciphertext) : Ciphertext := {| C1 := f (C1 c); C2 := f (C2 c) |}.
(** [src/crypto/elgamal/ballot.go:179-187] Ballot.BigInts *)
Definition Ballot_BigInts (z : EncryptedBallot) : list Z :=
  concat ((λ c, [(C1 c).1; (C1 c).2; (C2 c).1; (C2 c).2]) <$> Ciphertexts z).
(** [src/crypto/elgamal/ballot.go:288-300] Ballot.FromRTEtoTE *)
Definition Ballot_FromRTEtoTE (z : EncryptedBallot) : option EncryptedBallot :=
  if negb (curves_IsValid (CurveType z)) then None
  else Some {| CurveType := CurveType z; Ciphertexts := map_points (SetPoint ∘ FromRTEtoTE) <$> Ciphertexts z |}.
(** [src/crypto/elgamal/ballot.go:305-316] Ballot.FromTEtoRTE *)
Definition Ballot_FromTEtoRTE (z : EncryptedBallot) : EncryptedBallot :=
  {| CurveType := "bjj_gnark"; Ciphertexts := map_points (SetPoint ∘ FromTEtoRTE) <$> Ciphertexts z |}.

(** ** The hash *)

Section hash.
Context `{Hash : PoseidonHasher}.

(** [src/types/big.go:164-170] BigInt.IsInField: not of nil *)
Definition IsInField (i : option Z) : bool := match i with None => false | Some iv => (0 <=? iv) && (iv <? bn254) end.
(** The checks that the two hashes make first. *)
Definition check_inputs_in_field (pid : ProcessID) (address : bytes) (voteID : uint64) (weight : option Z) : result () :=
  if negb (u64Z voteID <? bn254) then Err (ErrMsg "voteID is not in the scalar field")
  else if negb (IsInField weight) then Err (ErrMsg "weight is not in the scalar field")
  else if negb (IsInField (Some (HexBytes_BigInt address))) then Err (ErrMsg "address is not in the scalar field")
  else if negb (IsInField (Some (pid_MathBigInt pid))) then Err (ErrMsg "processID is not in the scalar field")
  else Ok ().
(** [src/spec/ballotinputs.go:11-22] *)
Definition BallotInputsHashRTE (pid : ProcessID) (ballotMode : BallotMode) (encryptionKey : Point) (address : bytes)
    (voteID : uint64) (ballot : list Z) (weight : option Z) : result Z :=
  ballotInputsHash poseidon_Hash (Some (pid_MathBigInt pid)) ballotMode (Some encryptionKey.1) (Some encryptionKey.2)
    (Some (HexBytes_BigInt address)) voteID (Some <$> ballot) weight.
(** [src/circuits/ballotproof/inputs.go:110-150] *)
Definition BallotInputsHashIden3 (pid : ProcessID) (ballotMode : BallotMode) (encryptionKey : Point) (address : bytes)
    (voteID : uint64) (ballot : EncryptedBallot) (weight : option Z) : result Z :=
  match check_inputs_in_field pid address voteID weight with
  | Err e => Err e
  | Ok _ => BallotInputsHashRTE pid ballotMode (FromRTEtoTE encryptionKey) address voteID (Ballot_BigInts ballot) weight
  end.
(** [src/circuits/ballotproof/inputs.go:68-108]; the conversion of a ballot of another curve is nil *)
Definition BallotInputsHashGnark (pid : ProcessID) (ballotMode : BallotMode) (encryptionKey : Point) (address : bytes)
    (voteID : uint64) (ballot : EncryptedBallot) (weight : option Z) : result Z :=
  match check_inputs_in_field pid address voteID weight with
  | Err e => Err e
  | Ok _ =>
      match Ballot_FromRTEtoTE ballot with
      | None => Err (ErrMsg "nil pointer dereference")
      | Some te => BallotInputsHashRTE pid ballotMode (FromRTEtoTE encryptionKey) address voteID (Ballot_BigInts te) weight
      end
  end.
End hash.

(** ** The proof of a ballot *)

(** The circom proofs of voters: their type, the verification key of the program's artifact, and
    gnark's verification of a proof with its public signals, which gives the proof that the node
    stores. *)
Class CircomProofs := {
  CircomProof : Type;
  RecursionProof : Type;
  RawVerifyingKey : result bytes;
  VerifyAndConvertToRecursion : bytes → CircomProof → list string → result RecursionProof }.

(** [src/api/ballotproof_verifier.go:26-56] VerifyBallotProof; the key, once loaded, is kept *)
Definition VerifyBallotProof `{CircomProofs} (address : bytes) (voteID : uint64) (inputsHash : option Z)
    (proof : option CircomProof) : result RecursionProof :=
  match inputsHash, proof with
  | None, _ => Err (ErrMsg "ballot inputs hash is required")
  | _, None => Err (ErrMsg "ballot proof is required")
  | Some inputsHash, Some proof =>
      if negb (IsInField (Some (HexBytes_BigInt address))) then Err (ErrMsg "address is not in the scalar field")
      else match RawVerifyingKey with
           | Err e => Err (Wrap "load ballot proof verification key" e)
           | Ok rawBallotProofVK =>
               match VerifyAndConvertToRecursion rawBallotProofVK proof
                       [pretty (HexBytes_BigInt address); pretty (u64Z voteID); pretty inputsHash] with
               | Err e => Err (Wrap "verify and convert ballot proof" e)
               | Ok verifiedProof => Ok verifiedProof
               end
           end
  end.

(** ** The hash of the two forms *)

Definition reduced (p : Point) : Prop := 0 ≤ p.1 < bn254 ∧ 0 ≤ p.2 < bn254.
Definition reduced_ballot (z : EncryptedBallot) : Prop := Forall (λ c, reduced (C1 c) ∧ reduced (C2 c)) (Ciphertexts z).

Lemma negScaling_inverse : (negScalingFactor * negScalingInv) mod bn254 = 1.
Proof. by vm_compute. Qed.
Lemma mod_unscale x f g : (f * g) mod bn254 = 1 → 0 ≤ x < bn254 → ((x mod bn254 * f) mod bn254 mod bn254 * g) mod bn254 = x.
Proof.
  intros Hfg Hx. rewrite Z.mod_mod, Z.mul_mod_idemp_l by done. rewrite (Z.mod_small x) by done.
  rewrite <-Z.mul_assoc, <-Z.mul_mod_idemp_r, Hfg, Z.mul_1_r by done. by apply Z.mod_small.
Qed.
Lemma RTE_of_TE p : reduced p → FromRTEtoTE (FromTEtoRTE p) = p.
Proof.
  destruct p as [x y]. intros [Hx _]. unfold FromRTEtoTE, FromTEtoRTE. cbn [fst snd]. f_equal.
  apply mod_unscale; [apply negScaling_inverse|done].
Qed.
Lemma TE_of_RTE p : reduced p → FromTEtoRTE (FromRTEtoTE p) = p.
Proof.
  destruct p as [x y]. intros [Hx _]. unfold FromRTEtoTE, FromTEtoRTE. cbn [fst snd]. f_equal.
  apply mod_unscale; [rewrite Z.mul_comm; apply negScaling_inverse|done].
Qed.
Lemma SetPoint_reduced p : reduced p → SetPoint p = p.
Proof. destruct p as [x y]. intros [Hx Hy]. unfold SetPoint. cbn. by rewrite !Z.mod_small. Qed.
Lemma FromTEtoRTE_reduced p : reduced p → reduced (FromTEtoRTE p).
Proof. intros [_ Hy]. split; [apply Z.mod_pos_bound; done|done]. Qed.
Lemma convert_back z : reduced_ballot z → Ballot_FromRTEtoTE (Ballot_FromTEtoRTE z) = Some {| CurveType := "bjj_gnark"; Ciphertexts := Ciphertexts z |}.
Proof.
  intros Hz. unfold Ballot_FromRTEtoTE, Ballot_FromTEtoRTE. cbn [CurveType Ciphertexts].
  change (curves_IsValid "bjj_gnark") with true. cbn [negb]. do 2 f_equal. rewrite <-list_fmap_compose.
  rewrite <-(list_fmap_id (Ciphertexts z)) at 2. apply list_fmap_ext. intros i c Hi.
  unfold reduced_ballot in Hz. rewrite Forall_lookup in Hz. destruct (Hz i c Hi) as [H1 H2]. destruct c as [p q]. cbn in H1, H2.
  unfold map_points, compose. cbn [C1 C2 id].
  by rewrite !(SetPoint_reduced (FromTEtoRTE _)), !RTE_of_TE, !SetPoint_reduced by (try apply FromTEtoRTE_reduced; done).
Qed.

(** What the node checks is what the circuits prove: the inputs hash that the API computes from the
    ballot that a voter sends, in the form of circom, is the one of the converted ballot that it
    stores, in the form of gnark, whose conversion back the circuits hash. *)
Theorem inputs_hash_of_stored_ballot `{Hash : PoseidonHasher} pid bm key address v z w : reduced_ballot z →
  BallotInputsHashGnark pid bm key address v (Ballot_FromTEtoRTE z) w = BallotInputsHashIden3 pid bm key address v z w.
Proof.
  intros Hz. unfold BallotInputsHashGnark, BallotInputsHashIden3. destruct (check_inputs_in_field pid address v w); [|done].
  by rewrite convert_back.
Qed.

Module InputsExample.
#[local] Instance small_hasher : PoseidonHasher := λ l, Ok (foldr (λ x z, (x + 31 * z) mod 1000003) 7 l).
Definition pid7 : ProcessID := NewProcessID (replicate 20 (byte_of_Z 171)) (replicate 4 (byte_of_Z 9)) (U64 7).
Definition ballot7 : EncryptedBallot := {| CurveType := "bjj_iden3"; Ciphertexts := [{| C1 := (1, 2); C2 := (3, 4) |}] |}.
Definition mode7 : BallotMode := Build_BallotMode 5 5 false 2 16 0 1280 5.
Lemma inputs_hash_of_stored_ballot_witness :
  is_Ok (BallotInputsHashIden3 pid7 mode7 (3, 4) (be_split 20 7) (U64 VoteIDMin) ballot7 (Some 10)) = true ∧
  BallotInputsHashGnark pid7 mode7 (3, 4) (be_split 20 7) (U64 VoteIDMin) (Ballot_FromTEtoRTE ballot7) (Some 10) =
  BallotInputsHashIden3 pid7 mode7 (3, 4) (be_split 20 7) (U64 VoteIDMin) ballot7 (Some 10).
Proof.
  split; [by vm_compute|]. apply (inputs_hash_of_stored_ballot pid7 mode7 (3, 4) (be_split 20 7) (U64 VoteIDMin) ballot7 (Some 10)).
  repeat constructor; by vm_compute.
Defined.
End InputsExample.
