(* ===== verification/Api.v ===== *)
(** * The HTTP API: votes and processes

    [src/api/vote.go], [src/api/process.go], [src/api/errors.go] and [errors_definition.go]. A handler maps
    the decoded request and the storage to a response and the storage it leaves; decoding JSON,
    the routing of requests and the writing of bodies are not modelled. The texts that follow an error's
    code in a response are left out. A nil dereference is the answer of the router's recoverer. *)

From S2P Require Import Prelude Bytes DB Spec Types Hex Census StorageTypes StorageBase Process VoteStatus Stats Ballots Curve ElGamal StateTree StateVote SequencerBallots SequencerTransitions Signatures Runtime Csp BallotInputs.

(** ** Responses *)

(** [src/api/errors.go:13-17] Error: its message, its code and the status of the response *)
Record Error := MkError { e_Err : string; Code : Z; HTTPstatus : Z }.
(** [src/api/errors_definition.go:28-28] *)
Definition ErrResourceNotFound : Error := MkError "resource not found" 40001 404.
(** [src/api/errors_definition.go:29-29] *)
Definition ErrMalformedBody : Error := MkError "malformed JSON body" 40004 400.
(** [src/api/errors_definition.go:30-30] *)
Definition ErrInvalidSignature : Error := MkError "invalid signature" 40005 400.
(** [src/api/errors_definition.go:31-31] *)
Definition ErrMalformedProcessID : Error := MkError "malformed process ID" 40006 400.
(** [src/api/errors_definition.go:32-32] *)
Definition ErrProcessNotFound : Error := MkError "process not found" 40007 404.
(** [src/api/errors_definition.go:33-33] *)
Definition ErrInvalidCensusProof : Error := MkError "invalid census proof" 40008 400.
(** [src/api/errors_definition.go:34-34] *)
Definition ErrInvalidBallotProof : Error := MkError "invalid ballot proof" 40009 400.
(** [src/api/errors_definition.go:38-38] *)
Definition ErrInvalidBallotInputsHash : Error := MkError "invalid ballot inputs hash" 40013 400.
(** [src/api/errors_definition.go:40-40] *)
Definition ErrMalformedParam : Error := MkError "malformed parameter" 40015 400.
(** [src/api/errors_definition.go:42-42] *)
Definition ErrMalformedAddress : Error := MkError "malformed address" 40017 400.
(** [src/api/errors_definition.go:43-43] *)
Definition ErrBallotAlreadySubmitted : Error := MkError "ballot already submitted" 40018 400.
(** [src/api/errors_definition.go:44-44] *)
Definition ErrBallotAlreadyProcessing : Error := MkError "ballot is already processing" 40019 409.
(** [src/api/errors_definition.go:45-45] *)
Definition ErrProcessNotAcceptingVotes : Error := MkError "process is not accepting votes" 40020 400.
(** [src/api/errors_definition.go:47-47] *)
Definition ErrAddressAlreadyProcessing : Error := MkError "address already has a vote being processed" 40028 409.
(** [src/api/errors_definition.go:48-48] *)
Definition ErrProcessMaxVotersReached : Error := MkError "process has reached the maximum number of voters allowed" 40029 400.
(** [src/api/errors_definition.go:51-51] *)
Definition ErrInvalidChainID : Error := MkError "chain ID not supported or invalid" 40032 400.
(** [src/api/errors_definition.go:61-61] *)
Definition ErrGenericInternalServerError : Error := MkError "internal server error" 50002 500.

(** How a handler refuses: an error, the router's 404, the recoverer's 500, or nothing to do (204). *)
Inductive Refusal := Fail (e : Error) | NotFound404 | Panicked | NoContent.
(** What it answers: a body with status 200, or a refusal. *)
Inductive Response (B : Type) := Reply (body : B) | Refused (r : Refusal).
Arguments Reply {_} _.
Arguments Refused {_} _.
(** The status line of a response. *)
Definition status {B} (r : Response B) : Z :=
  match r with
  | Reply _ => 200 | Refused (Fail e) => HTTPstatus e | Refused NotFound404 => 404 | Refused Panicked => 500
  | Refused NoContent => 204
  end.

(** A handler ends with its first refusal. *)
Definition Handler (S A : Type) : Type := S → (Refusal + A) * S.
#[export] Instance Handler_ret {S} : MRet (Handler S) := λ A a s, (inr a, s).
#[export] Instance Handler_bind {S} : MBind (Handler S) := λ A C f m s,
  match m s with (inr a, s') => f a s' | (inl r, s') => (inl r, s') end.
Section handler.
Context {S : Type}.
Definition refuse {A} (r : Refusal) : Handler S A := λ s, (inl r, s).
(** A guard: refuse with [r] unless [b]. *)
Definition require (b : bool) (r : Refusal) : Handler S () := if b then mret () else refuse r.
(** [if err != nil { ... return }] *)
Definition or_refuse {A} (m : SE S A) (f : error → Refusal) : Handler S A := λ s,
  match m s with (Ok a, s') => (inr a, s') | (Err e, s') => (inl (f e), s') end.
(** A nil pointer that is dereferenced. *)
Definition deref {A} (o : option A) : Handler S A := match o with Some a => mret a | None => refuse Panicked end.
(** The response of a handler whose last value is the body of a reply. *)
Definition serve {A} (h : Handler S A) (s : S) : Response A * S :=
  match h s with (inl r, s') => (Refused r, s') | (inr b, s') => (Reply b, s') end.
End handler.
Definition fail (e : Error) : error → Refusal := λ _, Fail e.

(** [src/api/types.go:18-27] Vote: the decoded body of a request; nil fields are [None] *)
Record Vote `{CircomProofs} := {
  rq_ProcessID : ProcessID; rq_CensusProof : CensusProof; rq_Ballot : option EncryptedBallot;
  rq_BallotProof : option CircomProof; rq_BallotInputsHash : option Z; rq_Address : option bytes;
  rq_Signature : option bytes; rq_VoteID : uint64 }.

(** The trees of third parties: the index and the weight of an address, or its weight alone, or
    everybody; and the opaque field of a stored ballot that keeps its two proofs. *)
Class CensusQueries `{CensusDB} `{CircomProofs} := {
  Tree_GenerateProof : CensusTree → bytes → result (uint64 * Z);
  Tree_GetWeight : CensusTree → bytes → option Z;
  Tree_DumpAll : CensusTree → result (list (bytes * Z));
  pack_proofs : RecursionProof → CensusProof → bytes }.

(** The snapshot of a state at a root, in the database. *)
Class StateSnapshots `{Curve} `{Arbo} := { state_snapshot : kv → ProcessID → option Z → result State }.

Section api.
Context `{Env : StorageEnv} `{Eth : Ethcrypto} `{Nets : Networks} `{Cv : Curve} `{Ab : Arbo} `{Trees : !StateTrees} `{Snaps : !StateSnapshots}.
Context `{Bjj : BabyJub} `{Hash : PoseidonHasher} `{Cdb : CensusDB} `{Circom : CircomProofs} `{Queries : !CensusQueries}.
(** The networks that the node serves. *)
Context (runtimes : RuntimeRouter).

(** ** POST /votes *)

(** [src/state/vote.go:190-196] IndexContainsBallot over the node's database *)
Definition index_contains_ballot (pid : ProcessID) (ballotIndex : uint64) : M bool :=
  _ ← wrapping "could not open state" (on_state (state_New pid));
  st ← wrapping "could not open state" (d ← gets db; lift (state_load d pid));
  mret (ContainsBallot ballotIndex st).
Definition set_origin_index (origin : Z) (index : uint64) (cp : CensusProof) : CensusProof :=
  {| pf_CensusOrigin := origin; pf_Root := pf_Root cp; pf_Address := pf_Address cp; pf_Weight := pf_Weight cp;
     pf_VoterIndex := index; pf_Siblings := pf_Siblings cp; pf_Value := pf_Value cp; pf_PathBits := pf_PathBits cp;
     pf_ProcessID := pf_ProcessID cp; pf_PublicKey := pf_PublicKey cp; pf_Signature := pf_Signature cp |}.

(** The chain of the network of a process. *)
Definition chain_of (pid : ProcessID) : Handler Storage Z :=
  runtime ← or_refuse (lift (RuntimeForProcess runtimes pid)) (fail ErrGenericInternalServerError);
  contracts ← deref (nr_Contracts runtime);
  mret (network_ChainID contracts).
(** [src/api/vote.go:211-225] the sanity checks of newVote: the ballot, the hash, the address and the signature *)
Definition sanity_checks (vote : Vote) : Handler Storage (EncryptedBallot * Z * bytes * bytes) :=
  match rq_Ballot vote, rq_BallotInputsHash vote, rq_Address vote, rq_Signature vote with
  | Some ballot, Some hash, Some address, Some signature =>
      _ ← require (length address =? 20)%nat (Fail ErrMalformedBody);
      _ ← require (EncryptedBallot_Valid ballot) (Fail ErrMalformedBody);
      mret (ballot, hash, BytesToAddress address, signature)
  | _, _, _, _ => refuse (Fail ErrMalformedBody)
  end.
(** [src/api/vote.go:265-303] the census proof of newVote: the proof that is kept, and the voter's weight *)
Definition census_weight (vote : Vote) (census : Census) (address : bytes) (proof : CensusProof)
    : Handler Storage (CensusProof * option Z) :=
  if IsMerkleTree (c_CensusOrigin census) then
    chainID ← chain_of (rq_ProcessID vote);
    censusRef ← or_refuse (lift (LoadCensus chainID (Some census))) (fail ErrGenericInternalServerError);
    match censusRef with
    | None => refuse (Fail ErrMalformedParam)
    | Some tree =>
        found ← or_refuse (lift (Tree_GenerateProof tree address)) (fail ErrInvalidCensusProof);
        mret (set_origin_index (pf_CensusOrigin proof) found.1 proof, Some found.2)
    end
  else if IsCSP (c_CensusOrigin census) then
    _ ← or_refuse (lift (VerifyCensusProof bn254 proof)) (fail ErrInvalidCensusProof);
    mret (proof, pf_Weight proof)
  else refuse (Fail ErrInvalidCensusProof).
(** [src/api/vote.go:304-320] the limit on voters, in newVote *)
Definition check_max_voters (pid storedPid : ProcessID) (voterIndex : uint64) : Handler Storage () :=
  ballotIndex ← or_refuse (lift (CalculateBallotIndex voterIndex)) (λ _, Panicked);
  isOverwrite ← or_refuse (index_contains_ballot storedPid ballotIndex) (fail ErrGenericInternalServerError);
  if isOverwrite : bool then mret ()
  else
    maxVotersReached ← or_refuse (ProcessMaxVotersReached pid) (fail ErrGenericInternalServerError);
    require (negb maxVotersReached) (Fail ErrProcessMaxVotersReached).
(** [src/api/vote.go:379-394] the answer to a refused push, in newVote *)
Definition push_error (e : error) : Refusal :=
  if errors_Is e ErroBallotAlreadyExists then Fail ErrBallotAlreadySubmitted
  else if errors_Is e ErrNullifierProcessing then Fail ErrBallotAlreadyProcessing
  else if errors_Is e ErrAddressProcessing then Fail ErrAddressAlreadyProcessing
  else Fail ErrGenericInternalServerError.
(** [src/api/vote.go:211-375] the checks of newVote, and the ballot that passes them *)
Definition build_ballot (vote : Vote) : Handler Storage StorageTypes.Ballot :=
  '(ballot, hash, address, signatureBytes) ← sanity_checks vote;
  _ ← require (pid_IsValid (rq_ProcessID vote)) (Fail ErrMalformedProcessID);
  _ ← require (Router_SupportsProcess runtimes (rq_ProcessID vote)) NotFound404;
  process ← or_refuse (Storage_Process (rq_ProcessID vote)) (fail ErrResourceNotFound);
  census ← deref (p_Census process);
  let censusProof := set_origin_index (c_CensusOrigin census) (pf_VoterIndex (rq_CensusProof vote)) (rq_CensusProof vote) in
  _ ← require (CensusOrigin_Valid (pf_CensusOrigin censusProof)) (Fail ErrMalformedBody);
  _ ← require (CensusProof_Valid censusProof) (Fail ErrMalformedBody);
  ok ← or_refuse (ProcessIsAcceptingVotes (rq_ProcessID vote)) (fail ErrProcessNotAcceptingVotes);
  _ ← require ok (Fail ErrProcessNotAcceptingVotes);
  '(censusProof, voterWeight) ← census_weight vote census address censusProof;
  storedPid ← deref (p_ID process);
  _ ← check_max_voters (rq_ProcessID vote) storedPid (pf_VoterIndex censusProof);
  signature ← match SetBytes signatureBytes with Some sig => mret sig | None => refuse (Fail ErrMalformedBody) end;
  let '(signatureOk, pubkey) := VerifyVoteID signature (rq_VoteID vote) address in
  _ ← require signatureOk (Fail ErrInvalidSignature);
  encryptionKey ← deref (p_EncryptionKey process);
  ballotInputsHash ← or_refuse (lift (BallotInputsHashIden3 (rq_ProcessID vote) (p_BallotMode process) (SetPoint encryptionKey)
                                         address (rq_VoteID vote) ballot voterWeight)) (fail ErrGenericInternalServerError);
  _ ← require (hash =? ballotInputsHash) (Fail ErrInvalidBallotInputsHash);
  proof ← or_refuse (lift (VerifyBallotProof address (rq_VoteID vote) (Some hash) (rq_BallotProof vote))) (fail ErrInvalidBallotProof);
  mret {| b_ProcessID := rq_ProcessID vote; b_VoterWeight := voterWeight; b_EncryptedBallot := Some (Ballot_FromTEtoRTE ballot);
          b_Address := Some (HexBytes_BigInt address); b_BallotInputsHash := Some hash; b_Proofs := pack_proofs proof censusProof;
          b_Signature := Some (sig_Bytes signature); b_PubKey := pubkey; b_VoteID := rq_VoteID vote |}.
(** [src/api/vote.go:185-397] newVote, of the decoded request *)
Definition newVote (vote : Vote) : Storage → Response () * Storage := serve (
  ballot ← build_ballot vote;
  or_refuse (PushPendingBallot ballot) push_error).

(** ** GET /votes *)

(** [src/api/vote.go:26-61] *)
Definition voteStatus (processParam voteParam : bytes) : Storage → Response string * Storage := serve (
  pid ← or_refuse (lift (HexStringToProcessID processParam)) (fail ErrMalformedProcessID);
  voteID ← or_refuse (lift (HexStringToVoteID voteParam)) (fail ErrMalformedBody);
  status ← or_refuse (VoteIDStatus pid voteID)
             (λ e, if errors_Is e ErrNotFound then Fail ErrResourceNotFound else Fail ErrGenericInternalServerError);
  let status := if status =? VoteIDStatusDone then VoteIDStatusProcessed else status in
  mret (VoteIDStatusName status)).
(** The lookup of a process that tells a missing one apart; the comparison of the error is with [==]. *)
Definition process_or_404 (pid : ProcessID) : Handler Storage Process :=
  or_refuse (Storage_Process pid)
    (λ e, if bool_decide (e = Sentinel ErrNotFound) then Fail ErrProcessNotFound else Fail ErrGenericInternalServerError).
(** The answer to a ballot that cannot be read. *)
Definition ballot_error (e : error) : Refusal :=
  if errors_Is e ErrStateKeyNotFound then Fail ErrResourceNotFound else Fail ErrGenericInternalServerError.
(** [src/api/vote.go:66-142] *)
Definition voteByAddress (processParam addressParam : bytes) : Storage → Response ElGamal.Ballot * Storage := serve (
  pid ← or_refuse (lift (HexStringToProcessID processParam)) (fail ErrMalformedProcessID);
  address ← or_refuse (lift (HexStringToHexBytes addressParam)) (fail ErrMalformedAddress);
  process ← process_or_404 pid;
  census ← deref (p_Census process);
  _ ← require (IsMerkleTree (c_CensusOrigin census)) (Fail ErrResourceNotFound);
  chainID ← chain_of pid;
  censusRef ← or_refuse (lift (LoadCensus chainID (Some census))) (fail ErrGenericInternalServerError);
  match censusRef with
  | None => refuse (Fail ErrMalformedParam)
  | Some tree =>
      found ← or_refuse (lift (Tree_GenerateProof tree (BytesToAddress address))) (fail ErrResourceNotFound);
      ballotIndex ← or_refuse (lift (CalculateBallotIndex found.1)) (λ _, Panicked);
      storedPid ← deref (p_ID process);
      st ← or_refuse (d ← gets db; lift (state_snapshot d storedPid (p_StateRoot process))) (fail ErrProcessNotFound);
      or_refuse (lift (State_EncryptedBallot ballotIndex st)) ballot_error
  end).
(** [src/api/vote.go:147-181] *)
Definition ballotByIndex (processParam indexParam : bytes) : Storage → Response ElGamal.Ballot * Storage := serve (
  pid ← or_refuse (lift (HexStringToProcessID processParam)) (fail ErrMalformedProcessID);
  ballotIndex ← or_refuse (lift (HexStringToBallotIndex indexParam)) (fail ErrMalformedParam);
  st ← or_refuse (_ ← on_state (state_New pid); d ← gets db; lift (state_load d pid)) (fail ErrProcessNotFound);
  or_refuse (lift (State_EncryptedBallot ballotIndex st)) ballot_error).

(** ** /processes *)

(** [src/api/process.go:25-47] *)
Definition processEncryptionKeys (generated : result (Z * Z * Z)) : Storage → Response Point * Storage := serve (
  '(publicKey, _) ← or_refuse (GenerateProcessEncryptionKeys generated) (fail ErrGenericInternalServerError);
  mret publicKey).
(** [src/api/types.go:105-108] ProcessResponse *)
Record ProcessResponse := { pr_Process : Process; IsAcceptingVotes : bool }.
(** [src/api/process.go:51-72] API.process *)
Definition API_process (processParam : bytes) : Storage → Response ProcessResponse * Storage := serve (
  pid ← or_refuse (lift (HexStringToProcessID processParam)) (fail ErrMalformedProcessID);
  proc ← or_refuse (Storage_Process pid) (fail ErrProcessNotFound);
  accepting ← or_refuse (attempt (ProcessIsAcceptingVotes pid)) (λ _, Panicked);
  mret {| pr_Process := proc; IsAcceptingVotes := match accepting with Ok b => b | Err _ => false end |}).
(** [strconv.ParseUint(s, 10, 64)] without its error: the largest number when the value is out of range,
    else zero. *)
Definition ParseUint10 (s : bytes) : Z :=
  match parse_decimal s with None => 0 | Some v => if two64 <=? v then two64 - 1 else v end.
(** [src/api/process.go:76-104] *)
Definition processList (chainParam : bytes) : Storage → Response (list ProcessID) * Storage := serve (
  processes ← or_refuse ListProcesses (fail ErrGenericInternalServerError);
  let chainID := ParseUint10 chainParam in
  if chainID =? 0 then mret processes
  else match VersionForChainID runtimes chainID with
       | None => refuse (Fail ErrInvalidChainID)
       | Some version => mret (List.filter (λ p, bool_decide (pid_Version p = version)) processes)
       end).
(** The census of a process, for the two requests about participants. *)
Definition participants_tree (pid : ProcessID) (process : Process) : Handler Storage CensusTree :=
  chainID ← chain_of pid;
  censusRef ← or_refuse (lift (LoadCensus chainID (p_Census process))) (fail ErrGenericInternalServerError);
  match censusRef with None => refuse (Fail ErrMalformedParam) | Some tree => mret tree end.
(** [src/api/process.go:173-231]; the text of the address is read as go-ethereum does, see [address] *)
Definition processParticipant (processParam address : bytes) : Storage → Response (bytes * Z) * Storage := serve (
  pid ← or_refuse (lift (HexStringToProcessID processParam)) (fail ErrMalformedProcessID);
  process ← process_or_404 pid;
  _ ← require (negb (bool_decide (address = zeroAddress))) (Fail ErrMalformedParam);
  tree ← participants_tree pid process;
  match Tree_GetWeight tree address with
  | None => refuse (Fail ErrResourceNotFound)
  | Some weight => _ ← require (negb (weight =? 0)) (Fail ErrResourceNotFound); mret (address, weight)
  end).
(** [src/api/process.go:235-287] *)
Definition processParticipants (processParam : bytes) : Storage → Response (list (bytes * Z)) * Storage := serve (
  pid ← or_refuse (lift (HexStringToProcessID processParam)) (fail ErrMalformedProcessID);
  process ← process_or_404 pid;
  tree ← participants_tree pid process;
  or_refuse (lift (Tree_DumpAll tree)) (fail ErrGenericInternalServerError)).
End api.

(** ** Handlers *)

(** Every run of a handler moves the state along [R]. *)
Definition hmoves {S A} (R : relation S) (h : Handler S A) : Prop := ∀ s, R s (h s).2.
Section handlers.
Context {S : Type} (R : relation S) `{!PreOrder R}.
Lemma hmoves_ret {A} (a : A) : hmoves R (mret a : Handler S A).
Proof. intros s. reflexivity. Qed.
Lemma hmoves_bind {A C} (m : Handler S A) (f : A → Handler S C) : hmoves R m → (∀ a, hmoves R (f a)) → hmoves R (m ≫= f).
Proof.
  intros Hm Hf s. unfold mbind, Handler_bind. specialize (Hm s). destruct (m s) as [[r|a] s']; cbn in *; [done|].
  etrans; [done|]. apply Hf.
Qed.
Lemma hmoves_refuse {A} r : hmoves R (refuse r : Handler S A).
Proof. intros s. reflexivity. Qed.
Lemma hmoves_require b r : hmoves R (require b r : Handler S ()).
Proof. destruct b; intros s; cbn; reflexivity. Qed.
Lemma hmoves_deref {A} o : hmoves R (deref o : Handler S A).
Proof. destruct o; intros s; cbn; reflexivity. Qed.
Lemma hmoves_or_refuse {A} (m : SE S A) f : moves R m → hmoves R (or_refuse m f : Handler S A).
Proof. intros Hm s. unfold or_refuse. specialize (Hm s). by destruct (m s) as [[a|e] s']. Qed.
End handlers.
Ltac hmoves_step :=
  lazymatch goal with
  | |- hmoves _ (mret _) => apply hmoves_ret; apply _
  | |- hmoves _ (_ ≫= _) => apply hmoves_bind; [apply _| |intros ?]
  | |- hmoves _ (refuse _) => apply hmoves_refuse; apply _
  | |- hmoves _ (require _ _) => apply hmoves_require; apply _
  | |- hmoves _ (deref _) => apply hmoves_deref; apply _
  | |- hmoves _ (or_refuse _ _) => apply hmoves_or_refuse; moves
  | |- hmoves _ (match ?x with _ => _ end) => destruct x
  end.
Ltac hmoves := repeat (first [solve [eauto 3 with moves] | hmoves_step]); try done.

(** What a handler that went on has passed. *)
Section passed.
Context {S : Type}.
Lemma bind_inr {A C} (m : Handler S A) (f : A → Handler S C) s c s' : (m ≫= f) s = (inr c, s') →
  ∃ a s1, m s = (inr a, s1) ∧ f a s1 = (inr c, s').
Proof. unfold mbind, Handler_bind. destruct (m s) as [[r|a] s1]; [done|]. eauto. Qed.
Lemma require_inr b r (s : S) a s' : (require b r : Handler S ()) s = (inr a, s') → b = true ∧ s' = s.
Proof. destruct b; [|done]. intros H. injection H as _ <-. done. Qed.
Lemma deref_inr {A} (o : option A) (s : S) a s' : (deref o : Handler S A) s = (inr a, s') → o = Some a ∧ s' = s.
Proof. destruct o; [|done]. intros H. injection H as <- <-. done. Qed.
Lemma or_refuse_inr {A} (m : SE S A) f s a s' : (or_refuse m f : Handler S A) s = (inr a, s') → m s = (Ok a, s').
Proof. unfold or_refuse. destruct (m s) as [[x|e] s1]; [|done]. intros H. by injection H as <- <-. Qed.
Lemma lift_inr {A} (r : result A) f s a s' : (or_refuse (lift r) f : Handler S A) s = (inr a, s') → r = Ok a ∧ s' = s.
Proof. intros H%or_refuse_inr. by injection H as -> ->. Qed.
Lemma ret_inr {A} (a a' : A) (s s' : S) : (mret a : Handler S A) s = (inr a', s') → a' = a ∧ s' = s.
Proof. intros H. by injection H as <- <-. Qed.
End passed.
Ltac passed H :=
  let a := fresh "a" in let s := fresh "s" in
  lazymatch type of H with
  | require _ _ _ = _ => apply require_inr in H as [H ->]
  | deref _ _ = _ => apply deref_inr in H as [H ->]
  | or_refuse (lift _) _ _ = _ => apply lift_inr in H as [H ->]
  | mret _ _ = _ => apply ret_inr in H as [-> ->]
  | or_refuse _ _ _ = _ => apply or_refuse_inr in H
  end.
Tactic Notation "next_check" hyp(H) ident(a) ident(H1) := apply bind_inr in H as (a & ? & H1 & H); try passed H1; cbv beta in H.

(** ** What is queued has been verified *)

Section votes.
Context `{Env : StorageEnv} `{Eth : Ethcrypto} `{Nets : Networks} `{Cv : Curve} `{Ab : Arbo} `{Trees : !StateTrees} `{Snaps : !StateSnapshots}.
Context `{Bjj : BabyJub} `{Hash : PoseidonHasher} `{Cdb : CensusDB} `{Circom : CircomProofs} `{Queries : !CensusQueries}.
Context (runtimes : RuntimeRouter).

(** The checks leave the storage as it is, but for the keys of the state trees. *)
Definition checks : relation Storage := λ s s', locks s' = locks s ∧ ∀ k, ¬ state_keys k → db s' !! k = db s !! k.
#[export] Instance checks_preorder : PreOrder checks.
Proof.
  split; [done|]. intros x y z (L1 & K1) (L2 & K2). split; [congruence|]. intros k Hk. by rewrite K2, K1.
Qed.
Lemma checks_on_state f : (∀ d k, ¬ state_keys k → (f d).2 !! k = d !! k) → moves checks (on_state f).
Proof. intros Hf s. unfold on_state. specialize (Hf (db s)). destruct (f (db s)) as [r d]. done. Qed.
Lemma checks_index pid i : moves checks (index_contains_ballot pid i).
Proof. unfold index_contains_ballot. moves. apply checks_on_state. intros. by apply state_New_frame. Qed.
Lemma checks_process pid : moves checks (process pid).
Proof. unfold process. apply moves_getArtifact, _. Qed.
#[local] Hint Resolve checks_process checks_index : moves.
Lemma checks_accepting pid : moves checks (ProcessIsAcceptingVotes pid).
Proof. unfold ProcessIsAcceptingVotes, processIsAcceptingVotes, processIsOnChainAlive. moves. Qed.
Lemma checks_max pid : moves checks (ProcessMaxVotersReached pid).
Proof. unfold ProcessMaxVotersReached. moves. Qed.
#[local] Hint Resolve checks_accepting checks_max : moves.
Lemma checks_build vote : hmoves checks (build_ballot runtimes vote).
Proof.
  unfold build_ballot, sanity_checks, census_weight, check_max_voters, chain_of, Storage_Process. hmoves.
Qed.

(** The requirements on a vote, as the queue can rely on them. *)
Section verified.
Context (vote : Vote) (s : Storage) (p : Process) (address : bytes).
Let pid := rq_ProcessID vote.
(** The process is stored, is run by this node, is registered and its votes are open. *)
Definition process_open : Prop :=
  (process pid s).1 = Ok p ∧ pid_IsValid pid = true ∧ Router_SupportsProcess runtimes pid = true ∧
  p_Status p = ProcessStatusReady ∧ p_RegisteredForSequencing p = true ∧ is_Some (p_StateRoot p) ∧
  now s ≤ p_StartTime p + p_Duration p.
(** The voter's index and weight come from the stored tree of the census, or from a signed proof. *)
Definition in_census (index : uint64) (weight : option Z) : Prop := ∃ census, p_Census p = Some census ∧
  (IsMerkleTree (c_CensusOrigin census) = true ∧ (∃ runtime contracts tree w,
     RuntimeForProcess runtimes pid = Ok runtime ∧ nr_Contracts runtime = Some contracts ∧
     LoadCensus (network_ChainID contracts) (Some census) = Ok (Some tree) ∧
     Tree_GenerateProof tree address = Ok (index, w) ∧ weight = Some w) ∨
   c_CensusOrigin census = CensusOriginCSPEdDSABabyJubJubV1 ∧ index = pf_VoterIndex (rq_CensusProof vote) ∧
     weight = pf_Weight (rq_CensusProof vote) ∧
     VerifyCensusProof bn254 (set_origin_index (c_CensusOrigin census) index (rq_CensusProof vote)) = Ok ()).
(** The voter overwrites a ballot, or the process has room for another voter. *)
Definition has_room (index : uint64) : Prop := ∃ storedPid i,
  p_ID p = Some storedPid ∧ CalculateBallotIndex index = Ok i ∧
  ((index_contains_ballot storedPid i s).1 = Ok true ∨
   ∃ m, p_MaxVoters p = Some m ∧ ∀ c, p_VotersCount p = Some c → u64Z (U64 c) < u64Z (U64 m)).
(** The vote is signed by the address, whose key is stored with it. *)
Definition signed_by_address (b : StorageTypes.Ballot) : Prop := ∃ text sg key,
  rq_Signature vote = Some text ∧ SetBytes text = Some sg ∧ b_Signature b = Some (sig_Bytes sg) ∧
  SigToPub (HashMessage (PadToSign (VoteID_Bytes (rq_VoteID vote)))) (sig_Bytes sg) = Ok key ∧
  PubkeyToAddress key = address ∧ b_PubKey b = Some (FromECDSAPub key).
(** The voter's proof is for the hash of exactly these inputs. *)
Definition proved (ballot : EncryptedBallot) (b : StorageTypes.Ballot) : Prop := ∃ key hash vk proof rec,
  p_EncryptionKey p = Some key ∧ b_BallotInputsHash b = Some hash ∧ rq_BallotInputsHash vote = Some hash ∧
  BallotInputsHashIden3 pid (p_BallotMode p) (SetPoint key) address (rq_VoteID vote) ballot (b_VoterWeight b) = Ok hash ∧
  RawVerifyingKey = Ok vk ∧ rq_BallotProof vote = Some proof ∧
  VerifyAndConvertToRecursion vk proof
    [pretty (HexBytes_BigInt address); pretty (u64Z (rq_VoteID vote)); pretty hash] = Ok rec.
End verified.
Definition verified (vote : Vote) (s : Storage) (b : StorageTypes.Ballot) : Prop := ∃ p address ballot index,
  rq_Address vote = Some address ∧ length address = 20%nat ∧ rq_Ballot vote = Some ballot ∧ EncryptedBallot_Valid ballot = true ∧
  b_ProcessID b = rq_ProcessID vote ∧ b_VoteID b = rq_VoteID vote ∧ b_Address b = Some (HexBytes_BigInt address) ∧
  b_EncryptedBallot b = Some (Ballot_FromTEtoRTE ballot) ∧
  process_open vote s p ∧ in_census vote p address index (b_VoterWeight b) ∧ has_room s p index ∧
  signed_by_address vote address b ∧ proved vote p address ballot b.

Lemma reads_eq {A} (m : M A) s r s' : moves (=) m → m s = (r, s') → s' = s ∧ (m s).1 = r.
Proof. intros Hm Hr. specialize (Hm s). rewrite Hr in *. done. Qed.
Lemma reads_process pid : moves (=) (process pid).
Proof. unfold process. apply moves_getArtifact, _. Qed.
Lemma accepting_inv pid s b s' : ProcessIsAcceptingVotes pid s = (Ok b, s') → s' = s ∧ ∃ p, (process pid s).1 = Ok p ∧
  p_Status p = ProcessStatusReady ∧ p_RegisteredForSequencing p = true ∧ is_Some (p_StateRoot p) ∧
  now s ≤ p_StartTime p + p_Duration p.
Proof.
  unfold ProcessIsAcceptingVotes, wrapping. intros Hr. unfold mbind at 1, SE_bind at 1 in Hr.
  destruct (process pid s) as [[p|e] s1] eqn:Hp; [|done]. destruct (reads_eq _ _ _ _ (reads_process pid) Hp) as [-> _].
  revert Hr. unfold processIsAcceptingVotes, processIsOnChainAlive, gets. run_simpl.
  destruct (p_StateRoot p) eqn:Hroot; [|done]. destruct (Z.ltb_spec (p_StartTime p + p_Duration p) (now s)); [done|].
  case_bool_decide as Hst; [done|]. cbn. destruct (p_RegisteredForSequencing p) eqn:Hreg; [|done]. cbn. intros [= _ <-].
  split; [done|]. exists p. split_and!; [done| |done|by eexists|done].
  destruct (decide (p_Status p = ProcessStatusReady)); [done|]. by destruct Hst.
Qed.
Lemma max_inv pid s s' : ProcessMaxVotersReached pid s = (Ok false, s') → s' = s ∧ ∃ p m, (process pid s).1 = Ok p ∧
  p_MaxVoters p = Some m ∧ ∀ c, p_VotersCount p = Some c → u64Z (U64 c) < u64Z (U64 m).
Proof.
  unfold ProcessMaxVotersReached, wrapping, processMaxVotersReached, lift. unfold mbind, SE_bind.
  destruct (process pid s) as [[p|e] s1] eqn:Hp; [|done]. destruct (reads_eq _ _ _ _ (reads_process pid) Hp) as [-> _].
  destruct (p_MaxVoters p) as [m|] eqn:Hm; [|done]. destruct (_ =? 0); [done|].
  destruct (p_VotersCount p) as [c|] eqn:Hc.
  - intros [= Hle%Z.leb_gt <-]. split; [done|]. exists p, m. split_and!; [done..|]. intros c' Hc'. replace c' with c by congruence. exact Hle.
  - intros [= <-]. split; [done|]. exists p, m. split_and!; [done..|]. intros ? ?. congruence.
Qed.

Lemma room_inv pid storedPid index s s' p :
  check_max_voters pid storedPid index s = (inr (), s') → (process pid s).1 = Ok p →
  p_ID p = Some storedPid → has_room s p index.
Proof.
  unfold check_max_voters. intros H Hp Hid. next_check H i Hi. next_check H over Ho. 
  exists storedPid, i. split_and!; [done..|]. destruct over; [left; by rewrite Ho|right].
  next_check H full Hm. apply require_inr in H as [Hf _]. destruct full; [done|].
  apply max_inv in Hm as [-> (p' & m & Hp' & Hm & Hc)].
  pose proof (checks_index storedPid i s) as Hk. rewrite Ho in Hk. destruct Hk as [_ Hk].
  assert (p' = p) as ->; [|by exists m]. enough (Ok p' = Ok p) by congruence. rewrite <-Hp, <-Hp'. unfold process. rewrite !getArtifact_eq, Hk; [done|]. by unfold state_keys.
Qed.
Lemma sanity_inv vote s ballot hash address sg s' :
  (sanity_checks vote : Handler Storage _) s = (inr (ballot, hash, address, sg), s') →
  s' = s ∧ rq_Ballot vote = Some ballot ∧ EncryptedBallot_Valid ballot = true ∧ rq_BallotInputsHash vote = Some hash ∧
  rq_Address vote = Some address ∧ length address = 20%nat ∧ rq_Signature vote = Some sg.
Proof.
  unfold sanity_checks. destruct (rq_Ballot vote) as [z|]; [|done]. destruct (rq_BallotInputsHash vote) as [h|]; [|done].
  destruct (rq_Address vote) as [a|]; [|done]. destruct (rq_Signature vote) as [t|]; [|done]. intros H.
  next_check H u Hl. next_check H u' Hv. apply Nat.eqb_eq in Hl.
  assert (Ea : BytesToAddress a = a).
  { unfold BytesToAddress, LeftPad. by rewrite Hl, Nat.sub_diag, drop_0, Hl, Nat.sub_diag. }
  rewrite Ea in H. apply ret_inr in H as [[= -> -> -> ->] ->]. done.
Qed.
Lemma census_inv vote p census address proof proof' weight s s' :
  (census_weight runtimes vote census address proof : Handler Storage _) s = (inr (proof', weight), s') →
  p_Census p = Some census → proof = set_origin_index (c_CensusOrigin census) (pf_VoterIndex (rq_CensusProof vote)) (rq_CensusProof vote) →
  s' = s ∧ in_census vote p address (pf_VoterIndex proof') weight.
Proof.
  unfold census_weight, chain_of. intros H Hc ->. destruct (IsMerkleTree _) eqn:Hm.
  - next_check H chain Hch. next_check Hch rt Hrt. next_check Hch con Hcon. passed Hch. 
    next_check H ref Href. destruct ref as [tree|]; [|done]. next_check H found Hf. apply ret_inr in H as [[= -> ->] ->].
    split; [done|]. exists census. split; [done|]. left. split; [done|].
    exists rt, con, tree, found.2. by destruct found.
  - destruct (IsCSP _) eqn:Ho; [|done]. next_check H u Hv. apply ret_inr in H as [[= -> ->] ->].
    split; [done|]. exists census. split; [done|]. right. destruct u. split_and!; try done. by apply Z.eqb_eq.
Qed.
Lemma proof_inv address v h proof rec : VerifyBallotProof address v (Some h) proof = Ok rec → ∃ vk pr,
  RawVerifyingKey = Ok vk ∧ proof = Some pr ∧
  VerifyAndConvertToRecursion vk pr [pretty (HexBytes_BigInt address); pretty (u64Z v); pretty h] = Ok rec.
Proof.
  unfold VerifyBallotProof. destruct proof as [pr|]; [|done]. destruct (negb _); [done|].
  destruct RawVerifyingKey as [vk|]; [|done]. destruct (VerifyAndConvertToRecursion _ _ _) as [r|] eqn:Hr; [|done].
  intros [= ->]. eauto.
Qed.
(** A ballot that passes the checks of newVote is verified. *)
Lemma build_verified vote s b s1 : build_ballot runtimes vote s = (inr b, s1) → verified vote s b ∧ checks s s1.
Proof.
  intros Hb. pose proof (checks_build vote s) as Hch. rewrite Hb in Hch. split; [|exact Hch]. clear Hch. revert Hb.
  unfold build_ballot, Storage_Process. intros H. next_check H in1 Hs. destruct in1 as [[[ballot hash] address] text].
  apply sanity_inv in Hs as (-> & Hz & Hzv & Hh & Ha & Hal & Ht).
  next_check H u1 Hpid. next_check H u2 Hsup. next_check H p Hp. destruct (reads_eq _ _ _ _ (reads_process _) Hp) as [-> Hp'].
  next_check H census Hc. next_check H u3 Hv1. next_check H u4 Hv2. next_check H ok Hacc.
  apply accepting_inv in Hacc as (-> & p' & Hp2 & Hst & Hreg & Hroot & Hnow).
  assert (p' = p) as -> by congruence. next_check H u5 Hok. next_check H in2 Hcen. destruct in2 as [proof' weight].
  destruct (census_inv _ _ _ _ _ _ _ _ _ Hcen Hc eq_refl) as [-> Hin]. next_check H stored Hst2.
  next_check H u6 Hroom. destruct u6. pose proof (room_inv _ _ _ _ _ _ Hroom Hp' Hst2) as Hhas. clear Hroom.
  next_check H sg Hsg. destruct (SetBytes text) as [sg'|] eqn:Hset; [|done]. passed Hsg.
  destruct (VerifyVoteID sg' _ address) as [ok2 pubkey] eqn:Hver. next_check H u7 Hok2. subst ok2.
  next_check H key Hkey. next_check H hash' Hhash. next_check H u8 Heq. apply Z.eqb_eq in Heq as ->.
  next_check H rec Hrec. passed H. destruct (proof_inv _ _ _ _ _ Hrec) as (vk & pr & Hvk & Hpr & Hverif).
  destruct (VerifyVoteID_inv _ _ _ _ Hver) as (_ & pk & Hrecov & Hpk & ->).
  exists p, address, ballot, (pf_VoterIndex proof'). cbn [b_ProcessID b_VoteID b_Address b_EncryptedBallot b_VoterWeight].
  split_and!; try done.
  - exists text, sg', pk. done.
  - exists key, hash', vk, pr, rec. done.
Qed.

(** What a run of newVote comes to. *)
Lemma newVote_run vote s : let '(r, s') := newVote runtimes vote s in
  (∃ b s1, verified vote s b ∧ checks s s1 ∧ db s1 !! (ballotPrefix ++ VoteID_Bytes (b_VoteID b)) = None ∧
     b_VoteID b ∉ processingVoteIDs s ∧ lock_key (b_ProcessID b) (b_Address b) ∉ processingAddresses s ∧
     accepted b s s' ∧ touches (pushed_keys b) s1 s' ∧ (r = Reply () ∨ ∃ e, r = Refused (push_error e))) ∨
  (r ≠ Reply () ∧ checks s s').
Proof.
  unfold newVote, serve, mbind, Handler_bind. pose proof (checks_build vote s) as Hch.
  destruct (build_ballot runtimes vote s) as [[r|b] s1] eqn:Hb; cbn [snd] in Hch.
  { by right. }
  destruct (build_verified vote s b s1 Hb) as [Hv _]. unfold or_refuse. pose proof (PushPendingBallot_cases b s1) as Hp.
  destruct (PushPendingBallot b s1) as [r s']. destruct Hp as [Hp Ht]. pose proof Hch as [Hl Hk].
  destruct Hp as [[(Hf1 & Hf2 & Hf3) Ha]|([e ->] & Hd & Hlk)].
  - unfold locks in Hl. injection Hl as E1 E2 E3. rewrite E1 in Hf1. rewrite E2 in Hf2.
    unfold accepted in *. rewrite E1, E2, E3 in Ha.
    destruct r as [[]|e]; left; exists b, s1; refine (conj Hv (conj Hch (conj Hf3 (conj Hf1 (conj Hf2 (conj Ha (conj Ht _))))))); eauto.
  - right. split; [done|]. split; [congruence|]. intros k Hk'. by rewrite Hd, Hk.
Qed.


(** A voter has one vote in process at a time: after a vote is queued, a vote with the same
    identifier, or of the same address in the same process, is refused and changes nothing
    of the queues and the locks. *)
Theorem newVote_one_in_process vote vote' s s1 address :
  newVote runtimes vote s = (Reply (), s1) → rq_Address vote = Some address →
  rq_VoteID vote' = rq_VoteID vote ∨ (rq_ProcessID vote' = rq_ProcessID vote ∧ rq_Address vote' = Some address) →
  let '(r, s2) := newVote runtimes vote' s1 in r ≠ Reply () ∧ checks s1 s2.
Proof.
  intros H1 Ha Hsame. pose proof (newVote_run vote s) as H. rewrite H1 in H.
  destruct H as [(b & _ & Hv & _ & _ & _ & _ & (_ & Hl1 & Hl2 & _) & _)|[[]]]; [|done].
  pose proof (newVote_run vote' s1) as H. destruct (newVote runtimes vote' s1) as [r s2].
  destruct H as [(b' & _ & Hv' & _ & _ & Hf1 & Hf2 & _)|H]; [exfalso|done].
  destruct Hv as (p & a & z & i & Ha1 & _ & _ & _ & Hp & Hi & Hb & _).
  destruct Hv' as (p' & a' & z' & i' & Ha2 & _ & _ & _ & Hp' & Hi' & Hb' & _).
  destruct Hsame as [E|[Ep Ea]].
  - apply Hf1. rewrite Hl1, Hi', E, Hi. set_solver.
  - apply Hf2. rewrite Hl2, Hp', Hb', Ep, Hp, Hb. replace a' with a by congruence. set_solver.
Qed.
End votes.

(** ** At a concrete node *)

Module ApiExample.
Import Concrete.
#[local] Existing Instance env_pebble.
#[local] Existing Instance ConcreteEth.eth.
#[local] Existing Instance Networks2.networks.
#[local] Existing Instance ConcreteCsp.bjj.
#[local] Existing Instance ConcreteCsp.hasher.
Import Tally.ConcreteState.
#[export] Instance trees : StateTrees := {| state_load _ _ := Ok fresh; state_save _ d := d; state_save_frame _ _ _ _ := eq_refl |}.
#[export] Instance census_db : CensusDB := {| CensusTree := unit; LoadByScopedAddress _ _ := Ok tt; LoadByRoot _ := Ok tt |}.
#[export] Instance circom : CircomProofs := {|
  CircomProof := list string; RecursionProof := unit; RawVerifyingKey := Ok [];
  VerifyAndConvertToRecursion _ p public := if bool_decide (p = public) then Ok tt else Err (ErrMsg "invalid proof") |}.
#[export] Instance queries : CensusQueries := {|
  Tree_GenerateProof _ _ := Ok (U64 3, 10); Tree_GetWeight _ _ := Some 10; Tree_DumpAll _ := Ok []; pack_proofs _ _ := [] |}.
Definition pid := Networks2.on_sidechain.
(** A process whose census is the provider with the root [1]. *)
Definition csp_process : Process :=
  {| p_ID := Some pid; p_Status := ProcessStatusReady; p_EncryptionKey := Some (3, 4); p_StateRoot := Some 11; p_Result := [];
     p_StartTime := 0; p_Duration := 1000 * second; p_BallotMode := Build_BallotMode 5 5 false 2 16 0 1280 5;
     p_Census := Some {| c_CensusOrigin := CensusOriginCSPEdDSABabyJubJubV1; c_CensusRoot := [byte_of_Z 1]; c_CensusURI := ""; c_Payload := [] |};
     p_VotersCount := None; p_OverwrittenVotesCount := None; p_MaxVoters := Some 10; p_SequencerStats := zeroSequencerStats;
     p_RegisteredForSequencing := true; p_Payload := [] |}.
Definition node : Storage := MkStorage {[processPrefix ++ pid_bytes pid := enc csp_process]} ∅ ∅ ∅ (70 * second) [].
Definition encrypted : EncryptedBallot :=
  {| CurveType := "bjj_iden3"; Ciphertexts := [{| C1 := (1, 2); C2 := (3, 4) |}] |}.
(** The proof of membership is signed with a key that anybody can make. *)
Definition forged : CensusProof :=
  match Csp.GenerateProof bn254 {| privKey := ConcreteCsp.anybody; indexFn := DefaultCSPIndexFn bn254 |} pid (be_split 20 7) (Some 1000000) with
  | Ok p => p | Err _ => ConcreteCsp.proof5 end.
Definition hash_of (n : Z) : Z :=
  match BallotInputsHashIden3 pid (p_BallotMode csp_process) (3, 4) (be_split 20 7) (U64 (VoteIDMin + n)) encrypted (Some 1000000) with
  | Ok h => h | Err _ => 0 end.
Definition signed_vote (n : Z) : Vote :=
  {| rq_ProcessID := pid; rq_CensusProof := forged; rq_Ballot := Some encrypted;
     rq_BallotProof := Some [pretty 7; pretty (VoteIDMin + n); pretty (hash_of n)]; rq_BallotInputsHash := Some (hash_of n);
     rq_Address := Some (be_split 20 7); rq_Signature := Some (signed_by 7 n); rq_VoteID := U64 (VoteIDMin + n) |}.
Notation post := (newVote Networks2.router).
(** The vote is queued: nothing compares the key that signed its census proof with the census. *)
Example forged_vote_queued : (post (signed_vote 41) node).1 = Reply ().
Proof. vm_compute. reflexivity. Qed.
Definition after_41 : Storage := (post (signed_vote 41) node).2.
Lemma newVote_one_in_process_witness :
  post (signed_vote 41) node = (Reply (), after_41) ∧ (post (signed_vote 42) after_41).1 ≠ Reply ().
Proof.
  assert (Hpair : ∀ (x : Response () * Storage) r, x.1 = r → x = (r, x.2)) by (by intros [? ?] ? <-).
  pose proof (Hpair _ _ forged_vote_queued) as H. change (post (signed_vote 41) node).2 with after_41 in H.
  pose proof (newVote_one_in_process Networks2.router (signed_vote 41) (signed_vote 42) node after_41 (be_split 20 7)
    H eq_refl (or_intror (conj eq_refl eq_refl))) as Hr.
  split; [exact H|]. destruct (post (signed_vote 42) after_41) as [r s2]. exact (proj1 Hr).
Defined.
End ApiExample.
