(* ===== verification/ApiWorkers.v ===== *)
(** * The HTTP API: workers

    [src/api/workers.go] over the worker pool: the authentication of a request by its token, the
    hand-out of a pending ballot to a worker, and the submission of its proof. The state is
    the [Pool], with the storage in it. *)

From S2P Require Import Prelude Bytes DB Spec Types Hex Census StorageTypes StorageBase Process VoteStatus Stats Ballots Workers Voters Signatures AuthToken Api.

(** [src/api/errors_definition.go:50-50] *)
Definition ErrRequestBodyTooLarge : Error := MkError "request body too large" 40031 413.
(** [src/api/errors_definition.go:53-53] *)
Definition ErrWorkerNotAvailable : Error := MkError "worker not available" 40022 400.
(** [src/api/errors_definition.go:54-54] *)
Definition ErrMalformedWorkerInfo : Error := MkError "malformed worker info" 40023 400.
(** [src/api/errors_definition.go:55-55] *)
Definition ErrInvalidWorkerAuthtoken : Error := MkError "invalid worker authentication token" 40024 401.
(** [src/api/errors_definition.go:56-56] *)
Definition ErrExpiredWorkerAuthtoken : Error := MkError "expired worker authentication token" 40025 401.
(** [src/api/errors_definition.go:58-58] the API's ErrWorkerBanned *)
Definition Api_ErrWorkerBanned : Error := MkError "worker is banned" 40027 403.

(** What the endpoints use of other packages: the reading of a UUID, the proofs of workers - that of
    a submission, its verification against the hash of a ballot, and the opaque field of a
    verified ballot that keeps it with the ballot's own census proof. *)
Class WorkerProofs := {
  uuid_Parse : string → result bytes;
  WorkerProof : Type;
  submitted_Proof : VerifiedBallot → option WorkerProof;
  voteVerifier_Verify : WorkerProof → option Z → result ();
  with_census_proof : WorkerProof → StorageTypes.Ballot → bytes }.

(** The configuration of the endpoints: the sequencer's key and identifier, and the life of tokens. *)
Record WorkersApi `{Ethcrypto} := {
  sequencerSigner : eth_PrivateKey; sequencerUUID : option bytes; workersAuthtokenExpiration : Z }.
(** The parameters of a request: the UUID of its path and those of its query. *)
Record WorkerRequest := { wr_uuid : string; wr_address : string; wr_token : string; wr_name : string }.
(** [src/api/types.go:79-84] WorkerJobResponse *)
Record WorkerJobResponse := { wj_VoteID : uint64; wj_Address : string; wj_SuccessCount : Z; wj_FailedCount : Z }.
(** [src/api/types.go:71-76] WorkerAuthDataResponse *)
Record WorkerAuthDataResponse := { Message : bytes; wa_Signature : bytes; CreatedAt : bytes; AuthTokenSuffix : bytes }.

(** [src/api/workers.go:24-24] *)
Definition uuidTextLen : nat := 36.
(** [1 << 20], the most bytes of a submission *)
Definition max_body : Z := 1048576.
(** [time.Time.Sub]: the difference, between the least and the largest duration. *)
Definition time_Sub (t u : Time) : Z := Z.max (- 2 ^ 63) (Z.min (2 ^ 63 - 1) (t - u)).

Section workers_api.
Context `{Env : StorageEnv} `{Eth : Ethcrypto} `{Addr : EthAddress} `{Conf : PoolConf} `{Proofs : WorkerProofs}.
Context (api : WorkersApi).

(** [src/api/workers.go:164-178] *)
Definition matchesSequencerUUID (uuid : string) : bool :=
  match sequencerUUID api with
  | None => false
  | Some sequencerUUID =>
      if negb (String.length uuid =? uuidTextLen)%nat then false
      else match uuid_Parse uuid with Err _ => false | Ok parsed => bool_decide (parsed = sequencerUUID) end
  end.
(** [src/api/workers.go:112-162] *)
Definition authWorkerFromRequest (r : WorkerRequest) : Handler Pool bytes :=
  _ ← require (matchesSequencerUUID (wr_uuid r)) (Fail ErrResourceNotFound);
  _ ← require (bool_decide (wr_address r ≠ "")) (Fail ErrMalformedWorkerInfo);
  _ ← require (bool_decide (wr_token r ≠ "")) (Fail ErrMalformedWorkerInfo);
  verified ← or_refuse (lift (VerifyWorkerHexToken (wr_token r) (wr_address r) (Signer_Address (sequencerSigner api))))
               (fail ErrMalformedWorkerInfo);
  _ ← require verified.1 (Fail ErrInvalidWorkerAuthtoken);
  t ← or_refuse time_Now (λ _, Panicked);
  _ ← require (negb (workersAuthtokenExpiration api <? time_Sub t verified.2)) (Fail ErrExpiredWorkerAuthtoken);
  workerName ← (if bool_decide (wr_name r = "") then or_refuse (lift (WorkerNameFromAddress (wr_address r))) (fail ErrMalformedWorkerInfo)
                else mret (wr_name r));
  _ ← or_refuse (AddWorker (wr_address r) workerName) (λ _, Panicked);
  mret (HexToAddress (wr_address r)).
(** [src/api/workers.go:182-214]; without a jobs manager the list is empty *)
Definition workersList : Pool → Response (list WorkerInfo) * Pool := serve (
  workerStats ← or_refuse ListWorkerStats (fail ErrGenericInternalServerError);
  mret ((λ worker, {| wi_Address := ""; wi_Name := wi_Name worker; wi_SuccessCount := wi_SuccessCount worker;
                      wi_FailedCount := wi_FailedCount worker |}) <$> workerStats)).
(** [src/api/workers.go:221-238] *)
Definition workersTokenData : Pool → Response WorkerAuthDataResponse * Pool := serve (
  t ← or_refuse time_Now (λ _, Panicked);
  let '(msg, createdAt, authTokenSuffix) := WorkerAuthTokenData (Signer_Address (sequencerSigner api)) t in
  signature ← or_refuse (lift (Sign msg (sequencerSigner api))) (fail ErrGenericInternalServerError);
  mret {| Message := msg; wa_Signature := sig_Bytes signature; CreatedAt := createdAt; AuthTokenSuffix := authTokenSuffix |}).
(** The answer to a worker that is not available. *)
Definition unavailable (e : error) : Refusal :=
  if errors_Is e ErrWorkerBanned then Fail Api_ErrWorkerBanned else Fail ErrWorkerNotAvailable.
(** The answer when no ballot is handed out. *)
Definition no_ballot (e : error) : Refusal :=
  if errors_Is e ErrNoMoreElements then NoContent else Fail ErrGenericInternalServerError.
(** [src/api/workers.go:241-295] *)
Definition workersNewJob (r : WorkerRequest) : Pool → Response bytes * Pool := serve (
  workerAddr ← authWorkerFromRequest r;
  available ← or_refuse (IsWorkerAvailable (Hex workerAddr)) unavailable;
  _ ← require available (Fail ErrWorkerNotAvailable);
  '(ballot, voteID) ← or_refuse (on_stg NextPendingBallot) no_ballot;
  _ ← or_refuse (RegisterJob (Hex workerAddr) voteID) (fail ErrGenericInternalServerError);
  or_refuse (lift (EncodeArtifact ballot)) (fail ErrGenericInternalServerError)).
(** [src/api/workers.go:367-376] the verified ballot of a proof, in workersSubmitJob *)
Definition verified_ballot (ballot : StorageTypes.Ballot) (proof : WorkerProof) : VerifiedBallot :=
  {| vb_VoteID := b_VoteID ballot; vb_ProcessID := b_ProcessID ballot; vb_VoterWeight := b_VoterWeight ballot;
     vb_EncryptedBallot := b_EncryptedBallot ballot; vb_Address := b_Address ballot;
     vb_InputsHash := b_BallotInputsHash ballot; vb_Proofs := with_census_proof proof ballot |}.
(** [src/api/workers.go:307-365] the checks of workersSubmitJob: the stored ballot and the proof of it *)
Definition check_submission (r : WorkerRequest) (body : bytes) : Handler Pool (StorageTypes.Ballot * WorkerProof) :=
  workerAddr ← authWorkerFromRequest r;
  _ ← require (Z.of_nat (length body) <=? max_body) (Fail ErrRequestBodyTooLarge);
  workerVerifiedBallot ← or_refuse (lift (DecodeArtifact (A:=VerifiedBallot) body)) (fail ErrMalformedBody);
  match submitted_Proof workerVerifiedBallot with
  | None => refuse (Fail ErrMalformedBody)
  | Some proof =>
      _ ← require (negb (u64Z (vb_VoteID workerVerifiedBallot) =? 0)) (Fail ErrMalformedBody);
      _ ← or_refuse (Job (Hex workerAddr) (vb_VoteID workerVerifiedBallot)) (fail ErrGenericInternalServerError);
      ballot ← or_refuse (on_stg (Storage_Ballot (vb_VoteID workerVerifiedBallot))) (fail ErrResourceNotFound);
      _ ← or_refuse (lift (voteVerifier_Verify proof (b_BallotInputsHash ballot))) (fail ErrGenericInternalServerError);
      mret (ballot, proof)
  end.
(** [src/api/workers.go:298-415] *)
Definition workersSubmitJob (r : WorkerRequest) (body : bytes) : Pool → Response WorkerJobResponse * Pool := serve (
  '(ballot, proof) ← check_submission r body;
  _ ← or_refuse (on_stg (MarkBallotVerified (b_VoteID ballot) (Some (verified_ballot ballot proof)))) (fail ErrGenericInternalServerError);
  job ← or_refuse (CompleteJob (b_VoteID ballot) true) (λ _, Panicked);
  match job with
  | None => refuse (Fail ErrResourceNotFound)
  | Some job =>
      stats ← or_refuse (WorkerManager_WorkerStats (j_Address job)) (fail ErrGenericInternalServerError);
      mret {| wj_VoteID := b_VoteID ballot; wj_Address := j_Address job; wj_SuccessCount := wi_SuccessCount stats;
              wj_FailedCount := wi_FailedCount stats |}
  end).
(** [src/api/workers.go:78-110] startWorkersMonitor: the job that failed first *)
Definition workers_monitor : SE Pool () :=
  failed ← gets FailedJobs;
  match failed with
  | [] => mret ()
  | failedJob :: rest =>
      _ ← modify (set_FailedJobs (λ _, rest));
      warn (on_stg (ReleasePendingBallotReservation (j_VoteID failedJob)))
  end.
End workers_api.

(** ** Who is a worker *)

#[local] Arguments IsBanned : simpl never.

Section workers_facts.
Context `{Env : StorageEnv} `{Eth : Ethcrypto} `{Addr : EthAddress} `{Conf : PoolConf} `{Proofs : WorkerProofs}.
Context (api : WorkersApi).

(** A request of the holder of [addr]: its token has a signature by the address of the message of this
    sequencer, and is not expired at [t]. *)
Definition authentic (t : Time) (r : WorkerRequest) (addr : bytes) : Prop :=
  matchesSequencerUUID api (wr_uuid r) = true ∧ addr = HexToAddress (wr_address r) ∧ ∃ token ts,
  HexStringToHexBytes (bytes_of_string (wr_token r)) = Ok token ∧
  VerifyWorkerToken token addr (Signer_Address (sequencerSigner api)) = Ok (true, ts) ∧
  time_Sub t ts ≤ workersAuthtokenExpiration api.
(** Only the worker of the text of the address may be new, or get its name. *)
Definition only_adds (r : WorkerRequest) (p p' : Pool) : Prop :=
  stg p' = stg p ∧ jobs p' = jobs p ∧ FailedJobs p' = FailedJobs p ∧ closed p' = closed p ∧
  is_Some (workers p' !! wr_address r) ∧
  ∀ a, a ≠ wr_address r → workers p' !! a = workers p !! a.

Lemma AddWorker_adds a n p : let p' := exec (AddWorker a n) p in
  is_Ok (eval (AddWorker a n) p) = true ∧
  stg p' = stg p ∧ jobs p' = jobs p ∧ FailedJobs p' = FailedJobs p ∧ closed p' = closed p ∧ is_Some (workers p' !! a) ∧
  ∀ a', a' ≠ a → workers p' !! a' = workers p !! a'.
Proof.
  unfold AddWorker, exec, eval, GetWorker, gets, modify. run_simpl. destruct (workers p !! a) as [w|] eqn:Hw.
  - destruct (_ && _); cbn; (split_and!; try done; rewrite ?Hw, ?lookup_insert_eq; eauto; intros; by rewrite lookup_insert_ne).
  - cbn. split_and!; try done; rewrite ?lookup_insert_eq; eauto. intros. by rewrite lookup_insert_ne.
Qed.
(** A request that passes is authentic; the check changes at most the map of workers. *)
Lemma auth_inv r p addr p1 : authWorkerFromRequest api r p = (inr addr, p1) →
  authentic (now (stg p)) r addr ∧ only_adds r p p1.
Proof.
  unfold authWorkerFromRequest. intros H. next_check H u1 Hu. next_check H u2 Ha. next_check H u3 Ht. next_check H ver Hv.
  next_check H u4 Hok. next_check H t Hnow. next_check H u5 Hexp. next_check H nm Hnm. next_check H w Hw. passed H.
  unfold time_Now, gets in Hnow. injection Hnow as <- ->.
  assert (x0 = x) as ->. { destruct (bool_decide (wr_name r = "")); by passed Hnm. }
  pose proof (AddWorker_adds (wr_address r) nm x) as Hadd. unfold exec, eval in Hadd. rewrite Hw in Hadd. cbn [fst snd] in Hadd.
  destruct Hadd as (_ & H1 & H2 & H3 & H4 & H5 & H6). split; [|done].
  split; [done|]. split; [done|]. unfold VerifyWorkerHexToken in Hv.
  destruct (HexStringToHexBytes _) as [token|] eqn:Ht'; [|done]. destruct ver as [ok ts]. cbn [fst] in Hok. subst ok.
  exists token, ts. split_and!; [done..|]. apply negb_true_iff, Z.ltb_ge in Hexp. exact Hexp.
Qed.
Lemma RegisterJob_inv a v p job p' : RegisterJob a v p = (Ok job, p') → ∃ w, workers p !! a = Some w ∧
  IsBanned (Some rules) (now (stg p)) w = false ∧
  job = {| j_VoteID := v; j_Address := w_Address w; j_Timestamp := now (stg p); j_Expiration := now (stg p) + JobTimeout |} ∧
  p' = set_jobs <[v := job]> p.
Proof.
  unfold RegisterJob, GetWorker, time_Now, gets, modify, raise. run_simpl. destruct (workers p !! a) as [w|]; [|done].
  destruct (IsBanned (Some rules) (now (stg p)) w) eqn:Hb; [done|]. intros [= <- <-]. eauto.
Qed.
Lemma available_inv a p b p' : IsWorkerAvailable a p = (Ok b, p') → b = true ∧ p' = p ∧ ∀ w, workers p !! a = Some w →
  IsBanned (Some rules) (now (stg p)) w = false ∧ ∀ v job, jobs p !! v = Some job → j_Address job ≠ w_Address w.
Proof.
  unfold IsWorkerAvailable, GetWorker, time_Now, gets, raise. run_simpl. destruct (workers p !! a) as [w|]; [|by intros [= <- <-]].
  destruct (IsBanned (Some rules) (now (stg p)) w) eqn:Hb; [done|]. destruct (existsb _ _) eqn:He; [done|]. intros [= <- <-]. split_and!; [done..|].
  intros ? [= <-]. split; [done|]. intros v job Hj Ha.
  assert (existsb (λ kj, bool_decide (j_Address kj.2 = w_Address w)) (map_to_list (jobs p)) = true); [|congruence].
  apply existsb_exists. exists (v, job). split; [by apply list_elem_of_In, elem_of_map_to_list|]. cbn. by apply bool_decide_eq_true.
Qed.
Lemma on_stg_inr {A} (m : M A) f p a p' : (or_refuse (on_stg m) f : Handler Pool A) p = (inr a, p') →
  ∃ s, m (stg p) = (Ok a, s) ∧ p' = set_stg s p.
Proof. intros H%or_refuse_inr. unfold on_stg in H. destruct (m (stg p)) as [r s]. injection H as -> <-. eauto. Qed.

(** A ballot goes to one authentic worker. When a job is answered with a ballot, the request is of the
    holder of the address; nobody had the ballot reserved and it is reserved now; the worker is not
    banned and had no other job, and has this one until the timeout. *)
Theorem workersNewJob_assigns r p data p' : workersNewJob api r p = (Reply data, p') →
  let addr := HexToAddress (wr_address r) in
  ∃ b v w, authentic (now (stg p)) r addr ∧ v = b_VoteID b ∧ EncodeArtifact b = Ok data ∧
    (∃ k val, (k, val) ∈ prefixed_Iterate bk ballotPrefix [] (db (stg p)) ∧ DecodeArtifact val = Ok b) ∧
    isReserved (db (stg p)) ballotPrefix (VoteID_Bytes v) = false ∧
    isReserved (db (stg p')) ballotPrefix (VoteID_Bytes v) = true ∧
    workers p' !! Hex addr = Some w ∧ IsBanned (Some rules) (now (stg p)) w = false ∧
    (∀ v' job, jobs p !! v' = Some job → j_Address job ≠ w_Address w) ∧
    jobs p' = <[v := {| j_VoteID := v; j_Address := w_Address w; j_Timestamp := now (stg p');
                        j_Expiration := now (stg p') + JobTimeout |}]> (jobs p).
Proof.
  cbv zeta. unfold workersNewJob, serve.
  match goal with |- context [match ?h p with _ => _ end] => destruct (h p) as [[ref|data'] p2] eqn:H end; [done|]. intros [= -> ->].
  next_check H addr Ha. destruct (auth_inv _ _ _ _ Ha) as [Hau (Hs & Hj & _ & _ & Hw1 & Hw2)].
  assert (addr = HexToAddress (wr_address r)) as -> by apply Hau. next_check H av Hav.
  apply available_inv in Hav as (-> & -> & Hav). next_check H u Hu. apply bind_inr in H as ([b v] & p3 & Hn & H).
  apply on_stg_inr in Hn as (s & Hn & ->). next_check H job Hr. apply RegisterJob_inv in Hr as (w & Hw & Hb & -> & ->).
  passed H. cbn [stg set_stg set_jobs] in *. cbn [workers jobs set_stg set_jobs] in *. rewrite Hs in Hn.
  destruct (NextPendingBallot_reserves _ _ _ _ Hn) as (Hr1 & rec & Hd & _ & Hv & k & val & Hin & _ & Hdec).
  destruct (Hav w Hw) as [Hnb Hfree]. exists b, v, w. split_and!; try done.
  - by exists k, val.
  - rewrite Hd. apply isReserved_insert.
  - by rewrite <-Hs.
  - intros v' job Hjob. apply (Hfree v'). by rewrite Hj.
  - by rewrite Hj.
Qed.

(** A ballot can be lost for the queue until the node restarts. The worker of a request is kept under
    the text of its address as it was sent, but the job is registered for the checksummed text: a new
    worker that writes its address otherwise is refused after the ballot was reserved, and there
    is no job whose timeout would release the reservation. *)
Theorem unchecksummed_worker_strands_ballot r p addr p1 b v s :
  authWorkerFromRequest api r p = (inr addr, p1) →
  wr_address r ≠ Hex addr → workers p !! Hex addr = None → NextPendingBallot (stg p) = (Ok (b, v), s) →
  ∃ p', workersNewJob api r p = (Refused (Fail ErrGenericInternalServerError), p') ∧ stg p' = s ∧
    isReserved (db s) ballotPrefix (VoteID_Bytes v) = true ∧ jobs p' = jobs p ∧ FailedJobs p' = FailedJobs p ∧
    workers p' !! Hex addr = None.
Proof.
  intros Ha Hne Hw Hn. destruct (auth_inv _ _ _ _ Ha) as [_ (Hs & Hj & Hf & _ & _ & Hw2)].
  assert (Hw' : workers p1 !! Hex addr = None) by (by rewrite Hw2).
  assert (Hav : IsWorkerAvailable (Hex addr) p1 = (Ok true, p1)).
  { unfold IsWorkerAvailable, GetWorker, gets. run_simpl. by rewrite Hw'. }
  exists (set_stg s p1). destruct (NextPendingBallot_reserves _ _ _ _ Hn) as (_ & rec & Hd & _). split_and!; try done.
  - unfold workersNewJob, serve, mbind, Handler_bind. rewrite Ha. unfold or_refuse at 1. rewrite Hav. cbn [require mret Handler_ret].
    unfold or_refuse at 1, on_stg. rewrite Hs, Hn. unfold or_refuse at 1, RegisterJob, GetWorker, gets. run_simpl.
    by rewrite Hw'.
  - rewrite Hd. apply isReserved_insert.
Qed.

(** ** Submissions *)

(** A ballot that was marked as verified is out of the queue and among the verified ones. *)
Lemma MarkBallotVerified_done v vb b s s' : MarkBallotVerified v (Some vb) s = (Ok (), s') → pending (db s) v b →
  (∃ val, EncodeArtifact (set_vb_ProcessID (b_ProcessID b) vb) = Ok val ∧
     db s' !! (verifiedBallotPrefix ++ pid_bytes (b_ProcessID b) ++ VoteID_Bytes v) = Some val) ∧
  db s' !! (ballotPrefix ++ VoteID_Bytes v) = None ∧ isReserved (db s') ballotPrefix (VoteID_Bytes v) = false.
Proof.
  intros H (old & Hold & Hdec). revert H. unfold MarkBallotVerified, attempt, mbind, SE_bind.
  rewrite getArtifact_eq, Hold, Hdec. unfold mret, SE_ret, wrapping, lift, ignoring.
  destruct (EncodeArtifact _) as [val|e] eqn:He; [|done].
  destruct (commit_Set_cases verifiedBallotPrefix (pid_bytes (b_ProcessID b) ++ VoteID_Bytes v) val s)
    as [(e & s1 & -> & _)|(s1 & -> & Hd1 & _)]; [done|].
  unfold deleteReservation, deleteArtifact.
  destruct (commit_Delete_cases (reservationDB ballotPrefix) (VoteID_Bytes v) s1) as [(e & s2 & E2 & _)|(s2 & -> & Hd2 & _)].
  { rewrite E2. unfold commit in E2. destruct (faults s1) as [|[] ?]; [done| |done]. injection E2 as <- <-. done. }
  destruct (commit_Delete_cases ballotPrefix (VoteID_Bytes v) s2) as [(e & s3 & E3 & _)|(s3 & -> & Hd3 & _)].
  { rewrite E3. unfold commit in E3. destruct (faults s2) as [|[] ?]; [done| |done]. injection E3 as <- <-. done. }
  pose proof (updateProcessStats_touches [voteIDStatusPrefix; processPrefix; statsPrefix] (b_ProcessID b) verified_updates
    ltac:(in_list) ltac:(in_list) s3) as Ht. unfold verified_updates in Ht. cbn [app].
  destruct (updateProcessStats _ _ s3) as [[u|e] s4]; [|done]. cbn [snd] in Ht. intros Hst.
  pose proof (setVoteIDStatus_touches (b_ProcessID b) v VoteIDStatusVerified s4) as Hf. rewrite Hst in Hf. cbn [snd] in Hf.
  assert (Hdb : ∀ k, ¬ spaces [voteIDStatusPrefix; processPrefix; statsPrefix] k → db s' !! k = db s3 !! k).
  { intros k Hk. rewrite Hf, Ht; [done|done|]. intros ->. apply Hk. unfold status_key. apply spaces_in. in_list. }
  split_and!.
  - exists val. split; [done|]. rewrite Hdb by (apply spaces_no; by vm_compute).
    rewrite Hd3, Hd2, Hd1, !lookup_delete_ne by (apply incompatible_app; by vm_compute). apply lookup_insert_eq.
  - rewrite Hdb by (apply spaces_no; by vm_compute). rewrite Hd3. apply lookup_delete_eq.
  - apply bool_decide_eq_false. unfold prefixed_Get, prefixSlice. rewrite Hdb by (apply spaces_no; by vm_compute).
    rewrite Hd3, Hd2, lookup_delete_ne by (apply incompatible_app; by vm_compute). rewrite lookup_delete_eq. by intros [? ?].
Qed.

(** What a submission has to pass. *)
Definition checked_submission (r : WorkerRequest) (p : Pool) (b : StorageTypes.Ballot) (proof : WorkerProof) (job : WorkerJob) : Prop :=
  authentic (now (stg p)) r (HexToAddress (wr_address r)) ∧
  jobs p !! b_VoteID b = Some job ∧ j_Address job = Hex (HexToAddress (wr_address r)) ∧
  pending (db (stg p)) (b_VoteID b) b ∧ voteVerifier_Verify proof (b_BallotInputsHash b) = Ok ().
Lemma check_submission_inv r body p b proof p1 : pending_wf (db (stg p)) →
  check_submission api r body p = (inr (b, proof), p1) →
  only_adds r p p1 ∧ ∃ job, checked_submission r p b proof job.
Proof.
  intros Hwf. unfold check_submission. intros H. next_check H addr Ha. destruct (auth_inv _ _ _ _ Ha) as [Hau Honly].
  assert (addr = HexToAddress (wr_address r)) as -> by apply Hau. next_check H u1 Hlen. next_check H wvb Hdec.
  destruct (submitted_Proof wvb) as [pr|] eqn:Hpr; [|done]. next_check H u2 Hv0. next_check H job Hjob.
  unfold Job, gets, raise in Hjob. revert Hjob. run_simpl. destruct (jobs _ !! _) as [job'|] eqn:Hj; [|done].
  case_bool_decide as Haddr; [done|]. intros [= -> <-]. apply bind_inr in H as (b' & p2 & Hb & H).
  apply on_stg_inr in Hb as (s & Hb & ->). next_check H u3 Hver. apply ret_inr in H as [[= -> ->] ->]. destruct u3.
  destruct Honly as (Hs & Hjs & Hrest). match type of Hs with stg ?q = _ => rename q into p1 end.
  assert (Hst : s = stg p1 ∧ pending (db (stg p)) (vb_VoteID wvb) b').
  { revert Hb. unfold Storage_Ballot. erewrite bind_Ok by apply attempt_rd_Get. rewrite Hs.
    destruct (db (stg p) !! _) as [val|] eqn:Hval; [|done]. unfold wrapping, lift. destruct (DecodeArtifact val) as [bb|] eqn:Hd; [|done].
    intros [= <- <-]. split; [done|]. by exists val. }
  destruct Hst as [-> Hpend]. assert (Hid : b_VoteID b' = vb_VoteID wvb).
  { destruct Hpend as (val & Hval & Hd). destruct (Hwf _ _ Hval) as (b2 & Hd2 & Hk & _). assert (b2 = b') as -> by congruence.
    symmetry. by apply VoteID_Bytes_inj. }
  split; [done|]. exists job. unfold checked_submission. rewrite Hid. split_and!; try done. by rewrite <-Hjs.
Qed.

(** The checks touch nothing but the map of workers. *)
Definition untouched : relation Pool := same (λ p, (stg p, jobs p, FailedJobs p)).
#[export] Instance untouched_preorder : PreOrder untouched := same_preorder _.
Lemma untouched_AddWorker a n : moves untouched (AddWorker a n).
Proof. intros p. destruct (AddWorker_adds a n p) as (_ & H1 & H2 & H3 & _). unfold untouched, same, exec in *. by rewrite H1, H2, H3. Qed.
Lemma untouched_ballot v : moves untouched (on_stg (Storage_Ballot v)).
Proof.
  apply moves_on_stg. intros p. unfold exec, Storage_Ballot. erewrite bind_Ok by apply attempt_rd_Get.
  destruct (db (stg p) !! _) as [val|]; [|by destruct p]. unfold wrapping, lift. by destruct (DecodeArtifact val), p.
Qed.
#[local] Hint Resolve untouched_AddWorker untouched_ballot : moves.
Lemma untouched_check r body : hmoves untouched (check_submission api r body).
Proof. unfold check_submission, authWorkerFromRequest, time_Now, Job. hmoves. Qed.
Lemma CompleteJob_done v q job : jobs q !! v = Some job → ∃ q', CompleteJob v true q = (Ok (Some job), q') ∧
  touches (spaces [workerStatsPrefix]) (stg q) (stg q') ∧ jobs q' = delete v (jobs q) ∧ fails q' (j_Address job) = 0.
Proof.
  intros Hj. unfold CompleteJob, gets, warn, modify. run_simpl. rewrite Hj. cbn.
  destruct (WorkerResult_eq (j_Address job) true q) as (r & s & Hw & Hs). rewrite Hw. cbn. eexists. split; [done|]. cbn. split_and!.
  - pose proof (worker_count_touches true (j_Address job) (stg q)) as H. by rewrite <-Hs in H.
  - done.
  - unfold fails. cbn. by rewrite lookup_insert_eq.
Qed.
Lemma WorkerStats_reads a q i q' : WorkerManager_WorkerStats a q = (Ok i, q') → q' = q ∧ wi_Address i = a.
Proof.
  unfold WorkerManager_WorkerStats, GetWorker, gets, raise, on_stg. run_simpl. destruct (workers q !! a) as [w|]; [|done].
  unfold Storage_WorkerStats, getWorkerStatsUnsafe. rewrite getArtifact_or_eq. intros [= <- <-]. by destruct q.
Qed.
(** C22: Only proofs of assigned ballots are taken. A submission that is answered with 200 has been checked:
    the request is of the worker that has the job of the ballot, and the proof verifies for the hash
    of the ballot that the node stored. The verified ballot has every field of the stored one and
    only the proof of the worker; the ballot has left the queue, its reservation is gone, and the
    job is done. A submission that fails a check leaves the storage, the jobs and the failed jobs
    as they are. *)
Theorem workersSubmitJob_spec r body p resp p' : pending_wf (db (stg p)) →
  workersSubmitJob api r body p = (resp, p') →
  (untouched p p' ∧ ∃ ref, resp = Refused ref) ∨
  ∃ b proof job, checked_submission r p b proof job ∧ ∀ reply, resp = Reply reply →
    (∃ val, EncodeArtifact (verified_ballot b proof) = Ok val ∧
       db (stg p') !! (verifiedBallotPrefix ++ pid_bytes (b_ProcessID b) ++ VoteID_Bytes (b_VoteID b)) = Some val) ∧
    db (stg p') !! (ballotPrefix ++ VoteID_Bytes (b_VoteID b)) = None ∧
    isReserved (db (stg p')) ballotPrefix (VoteID_Bytes (b_VoteID b)) = false ∧
    jobs p' = delete (b_VoteID b) (jobs p) ∧ fails p' (j_Address job) = 0 ∧
    wj_VoteID reply = b_VoteID b ∧ wj_Address reply = j_Address job.
Proof.
  intros Hwf. unfold workersSubmitJob, serve, mbind, Handler_bind.
  destruct (check_submission api r body p) as [[ref|[b proof]] p1] eqn:Hc.
  { intros [= <- <-]. left. split; [|eauto]. pose proof (untouched_check r body p) as H. by rewrite Hc in H. }
  intros H. right. destruct (check_submission_inv _ _ _ _ _ _ Hwf Hc) as [(Hs & Hj & _) (job & Hck)].
  exists b, proof, job. split; [done|]. intros reply ->. destruct Hck as (_ & Hjob & _ & Hpend & _).
  unfold or_refuse at 1, on_stg in H. rewrite Hs in H.
  destruct (MarkBallotVerified _ _ (stg p)) as [[[]|e] s] eqn:Hm; [|done].
  destruct (MarkBallotVerified_done _ _ _ _ _ Hm Hpend) as (Hver & Hgone & Hfree).
  unfold or_refuse at 1 in H. destruct (CompleteJob_done (b_VoteID b) (set_stg s p1) job) as (q & Hq & Ht & Hjq & Hfq).
  { cbn. by rewrite Hj. }
  rewrite Hq in H. unfold or_refuse in H. destruct (WorkerManager_WorkerStats _ q) as [[i|e] q'] eqn:Hi; [|done].
  apply WorkerStats_reads in Hi as [-> Hi]. injection H as <- <-. cbn [stg set_stg wj_VoteID wj_Address] in *. 
  rewrite !(Ht (verifiedBallotPrefix ++ _)), !(Ht (ballotPrefix ++ _)) by (apply spaces_no; by vm_compute).
  split_and!; try done.
  - revert Hfree. unfold isReserved, prefixed_Get, prefixSlice. by rewrite (Ht (reservationDB _ ++ _)) by (apply spaces_no; by vm_compute).
  - rewrite Hjq. cbn. by rewrite Hj.
Qed.
End workers_facts.

(** ** A sequencer and a worker *)

Module ApiWorkersExample.
Import Concrete TokenExample.
#[local] Existing Instances env_mem ConcreteAddr.addr ConcreteAddr.conf ConcreteEth.eth.
(** A proof is the decimal text of the hash it proves. *)
#[export] Instance proofs : WorkerProofs := {|
  uuid_Parse s := Ok (bytes_of_string s); WorkerProof := bytes; submitted_Proof vb := Some (vb_Proofs vb);
  voteVerifier_Verify p h := if bool_decide (p = bytes_of_string (pretty (default 0 h))) then Ok tt else Err (ErrMsg "invalid proof");
  with_census_proof p b := p ++ b_Proofs b |}.
Definition uuid : string := "0f0e0d0c-0b0a-0908-0706-050403020100".
Definition api : WorkersApi :=
  {| sequencerSigner := (9 : Z) : @eth_PrivateKey ConcreteEth.eth; sequencerUUID := Some (bytes_of_string uuid);
     workersAuthtokenExpiration := 3600 * second |}.
Definition token7 : bytes := match EncodeWorkerAuthToken (Some signature7) noon with Ok t => t | Err _ => [] end.
Definition request (address : string) : WorkerRequest :=
  {| wr_uuid := uuid; wr_address := address; wr_token := String.string_of_list_ascii (HexBytes_Hex token7); wr_name := "w" |}.
Definition worker7 : bytes := be_split 20 7.
(** The ballot of a voter waits, a second after the token was made. *)
Definition waiting_ballot : StorageTypes.Ballot :=
  {| b_ProcessID := pid1; b_VoterWeight := Some 1; b_EncryptedBallot := None; b_Address := Some 101;
     b_BallotInputsHash := Some 77; b_Proofs := []; b_Signature := None; b_PubKey := None; b_VoteID := vote 1 |}.
Definition queue : Pool :=
  NewJobsManager (MkStorage {[ballotPrefix ++ VoteID_Bytes (vote 1) := enc (A:=StorageTypes.Ballot) waiting_ballot;
                              processPrefix ++ pid_bytes pid1 := enc process1]} ∅ ∅ ∅ (noon + second) []).
Definition busy : Pool := (workersNewJob api (request (Hex worker7)) queue).2.
Definition submission : bytes := enc (A:=VerifiedBallot) (verified_ballot waiting_ballot (bytes_of_string "77")).
Example job_and_submission :
  (workersNewJob api (request (Hex worker7)) queue).1 = Reply (enc (A:=StorageTypes.Ballot) waiting_ballot) ∧
  (workersSubmitJob api (request (Hex worker7)) submission busy).1 =
  Reply {| wj_VoteID := vote 1; wj_Address := Hex worker7; wj_SuccessCount := 1; wj_FailedCount := 0 |}.
Proof. split; by vm_compute. Qed.
Lemma answer {A} (x : A * Pool) (a : A) : x.1 = a → x = (a, x.2).
Proof. by destruct x; cbn; intros ->. Qed.
Lemma busy_run : workersNewJob api (request (Hex worker7)) queue = (Reply (enc (A:=StorageTypes.Ballot) waiting_ballot), busy).
Proof. exact (answer (workersNewJob api (request (Hex worker7)) queue) _ (proj1 job_and_submission)). Qed.
Lemma workersNewJob_assigns_witness : ∃ v w,
  isReserved (db (stg queue)) ballotPrefix (VoteID_Bytes v) = false ∧
  isReserved (db (stg busy)) ballotPrefix (VoteID_Bytes v) = true ∧ workers busy !! Hex worker7 = Some w.
Proof.
  pose proof busy_run as Ha.
  destruct (workersNewJob_assigns api _ _ _ _ Ha) as (b & v & w & _ & _ & _ & _ & H1 & H2 & H3 & _).
  exists v, w. split; [exact H1|]. split; [exact H2|]. revert H3.
  replace (HexToAddress (wr_address (request (Hex worker7)))) with worker7 by (by vm_compute). intros H3. exact H3.
Defined.
(** The same address without its prefix. *)
Definition plain7 : string := ConcreteAddr.upper_hex worker7.
Lemma unchecksummed_worker_strands_ballot_witness : ∃ p',
  workersNewJob api (request plain7) queue = (Refused (Fail ErrGenericInternalServerError), p') ∧
  isReserved (db (stg p')) ballotPrefix (VoteID_Bytes (vote 1)) = true ∧ jobs p' = ∅.
Proof.
  destruct (unchecksummed_worker_strands_ballot api (request plain7) queue worker7
    (authWorkerFromRequest api (request plain7) queue).2 waiting_ballot (vote 1) (exec NextPendingBallot (stg queue)))
    as (p' & H1 & H2 & H3 & H4 & _); [apply answer; by vm_compute|by vm_compute|by vm_compute| |].
  - apply run_eq. by vm_compute.
  - exists p'. split; [exact H1|]. rewrite H2. split; [exact H3|exact H4].
Defined.
Definition accepted_reply : WorkerJobResponse :=
  {| wj_VoteID := vote 1; wj_Address := Hex worker7; wj_SuccessCount := 1; wj_FailedCount := 0 |}.
Lemma workersSubmitJob_spec_witness : pending_wf (db (stg busy)) ∧
  ∃ b proof job, checked_submission api (request (Hex worker7)) busy b proof job ∧ b_VoteID b = vote 1 ∧
    jobs (workersSubmitJob api (request (Hex worker7)) submission busy).2 = delete (b_VoteID b) (jobs busy).
Proof.
  assert (Hwf : pending_wf (db (stg busy))) by (apply pending_wf_by; by vm_compute). split; [exact Hwf|].
  pose proof (answer (workersSubmitJob api (request (Hex worker7)) submission busy) (Reply accepted_reply) (proj2 job_and_submission)) as Ha.
  destruct (workersSubmitJob_spec api (request (Hex worker7)) submission busy _ _ Hwf Ha) as [[_ [ref Hr]]|(b & pr & job & H & Hrep)].
  - discriminate Hr.
  - exists b, pr, job. destruct (Hrep accepted_reply eq_refl) as (_ & _ & _ & Hj & _ & Hv & _).
    split; [exact H|]. split; [symmetry; exact Hv|exact Hj].
Defined.
End ApiWorkersExample.
