(* ===== verification/Censusdb.v ===== *)
(** * The database of censuses

    [src/census/censusdb/censusdb.go], [reference.go]: the references of the censuses, in memory and in
    the key-value database, under keys made of an identifier, a root or the contract on a chain, and
    the Merkle tree of each. The trees of lean-imt are a parameter: a tree is a handle, opened over a
    directory or over a prefix of the database, and its operations act on a world that has the
    directories, the database and the memory of the open trees. A reference is shared by pointer, so
    it lives on a heap. A directory whose removal was started in the background is in a list until it
    is removed. Reading the database does not fail; a commit may. *)

From S2P Require Import Prelude Bytes DB Spec Types Hex Census.

(** ** Keys *)

(** [src/census/censusdb/censusdb.go:26-26] *)
Definition censusDBprefix : string := "cs_".
(** [src/census/censusdb/censusdb.go:27-27] *)
Definition censusDBWorkingOnQueries : bytes := bytes_of_string "cw_".
(** [src/census/censusdb/censusdb.go:28-28] *)
Definition censusDBRootPrefix : bytes := bytes_of_string "cr_".
(** [src/census/censusdb/censusdb.go:29-29] *)
Definition censusDBAddrPrefix : bytes := bytes_of_string "ca_".
(** [src/census/censusdb/censusdb.go:30-30] *)
Definition censusDBTreePrefix : bytes := bytes_of_string "ct_".

(** google/uuid: the identifier of a text in the name space of objects, and its order of bytes. *)
Class UUIDs := NewSHA1 : bytes → bytes.
(** [os.TempDir] *)
Class TempDir := os_TempDir : string.

(** [src/census/censusdb/censusdb.go:720-722] *)
Definition censusIDDBPrefix (censusID : bytes) : bytes := censusDBWorkingOnQueries ++ censusID.
(** [src/census/censusdb/censusdb.go:727-729] *)
Definition rootDBPrefix (root : bytes) : bytes := censusDBRootPrefix ++ LeftTrim root.
(** [src/census/censusdb/censusdb.go:737-745] *)
Definition scopedAddressKey (chainID : uint64) (address : bytes) : bytes := be_split 8 (u64Z chainID) ++ address.
(** [src/census/censusdb/censusdb.go:733-735] *)
Definition scopedAddressDBPrefix (chainID : uint64) (address : bytes) : bytes :=
  censusDBAddrPrefix ++ scopedAddressKey chainID address.
(** [src/census/censusdb/censusdb.go:749-751] *)
Definition censusTreeDBPrefix (censusID : bytes) : bytes := censusDBTreePrefix ++ censusID.
(** [src/census/censusdb/censusdb.go:708-710] *)
Definition rootToCensusID `{UUIDs} (root : bytes) : bytes := NewSHA1 (LeftTrim root).
(** [src/census/censusdb/censusdb.go:714-716] *)
Definition scopedAddressToCensusID `{UUIDs} (chainID : uint64) (address : bytes) : bytes :=
  NewSHA1 (scopedAddressKey chainID address).
(** [src/census/censusdb/censusdb.go:700-703] *)
Definition censusPrefix `{TempDir} (censusID : bytes) : string :=
  os_TempDir +:+ "/" +:+ censusDBprefix +:+ hex_EncodeToString censusID.
(** [src/census/censusdb/censusdb.go:69-71] *)
Definition rootKey (root : bytes) : bytes := HexBytes_String root.

(** [src/census/censusdb/censusdb.go:755-766] packSiblings; [FillBytes] panics on a number of more than 32 bytes *)
Fixpoint packSiblings (siblings : list Z) : result bytes :=
  match siblings with
  | [] => Ok []
  | s :: siblings =>
      if 256 ^ 32 <=? Z.abs s then Err (ErrMsg "math/big: buffer too small to fit value")
      else match packSiblings siblings with Err e => Err e | Ok packed => Ok (be_split 32 (Z.abs s) ++ packed) end
  end.
(** [src/census/censusdb/censusdb.go:770-780] unpackSiblings: the bytes that do not fill a sibling are left *)
Definition unpackSiblings (packed : bytes) : list Z :=
  (λ i, be_combine (take 32 (drop (i * 32) packed))) <$> seq 0 (length packed / 32).
(** [src/census/censusdb/censusdb.go:206-218] CensusDB.TrunkKey *)
Definition TrunkKey (key : bytes) : bytes :=
  if (length key <? 20)%nat then key ++ replicate (20 - length key) (byte_of_Z 0)
  else if (20 <? length key)%nat then take 20 key else key.

(** ** The trees of lean-imt *)

Record CensusEvent := { ev_Address : bytes; ev_PrevWeight : Z; ev_NewWeight : Z }.
Record IMTProof := {
  ip_Root : Z; ip_Address : bytes; ip_Weight : Z; ip_AddressIndex : uint64; ip_PathBits : uint64; ip_Siblings : list Z }.
Record MerkleProof := { mp_Root : Z; mp_Leaf : Z; mp_PathBits : uint64; mp_Siblings : list Z }.
(** A directory, the memory of the open trees and that of a new process, a handle, a decoded dump and its
    root, if it has one. *)
Class LeanTypes := { Dir : Type; Mem : Type; no_trees : Mem; Tree : Type; Dump : Type; dump_Root : Dump → option Z }.
(** What the trees and the references share: the directories, the database, the memory. *)
Record IMTWorld `{LeanTypes} := { w_disk : gmap string Dir; w_db : kv; w_mem : Mem }.
Definition set_disk `{LeanTypes} (d : gmap string Dir) (w : IMTWorld) : IMTWorld :=
  {| w_disk := d; w_db := w_db w; w_mem := w_mem w |}.
Definition set_db `{LeanTypes} (d : kv) (w : IMTWorld) : IMTWorld :=
  {| w_disk := w_disk w; w_db := d; w_mem := w_mem w |}.
(** The references of the database are as they were; only the keys of trees may change. *)
Definition keeps_refs `{LeanTypes} : relation IMTWorld :=
  λ w w', ∀ k, HasPrefix k censusDBTreePrefix = false → w_db w' !! k = w_db w !! k.
(** The operations of the trees; a tree writes to the database below the prefix it was opened with. *)
Class LeanIMT `{LeanTypes} := {
  NewCensusIMTWithPebble : string → SE IMTWorld Tree;
  NewCensusIMT : bytes → SE IMTWorld Tree;
  tree_Root : Tree → IMTWorld → option Z;
  tree_Size : Tree → IMTWorld → Z;
  tree_GenerateProof : Tree → bytes → IMTWorld → result IMTProof;
  tree_Add : Tree → bytes → Z → SE IMTWorld ();
  tree_AddBulk : Tree → list (bytes * Z) → SE IMTWorld ();
  tree_ApplyEvents : Tree → list CensusEvent → SE IMTWorld ();
  tree_Import : Tree → Z → bytes → SE IMTWorld ();
  tree_ImportAll : Tree → Dump → SE IMTWorld ();
  tree_Sync : Tree → SE IMTWorld ();
  tree_Close : Tree → SE IMTWorld ();
  json_Unmarshal : bytes → result Dump;
  VerifyProofWith : MerkleProof → bool;
  open_keeps path : moves keeps_refs (NewCensusIMTWithPebble path);
  open_db_keeps id : moves keeps_refs (NewCensusIMT (censusTreeDBPrefix id));
  add_keeps t a z : moves keeps_refs (tree_Add t a z);
  bulk_keeps t l : moves keeps_refs (tree_AddBulk t l);
  events_keeps t l : moves keeps_refs (tree_ApplyEvents t l);
  import_keeps t root data : moves keeps_refs (tree_Import t root data);
  import_all_keeps t d : moves keeps_refs (tree_ImportAll t d);
  sync_keeps t : moves keeps_refs (tree_Sync t);
  close_keeps t : moves keeps_refs (tree_Close t) }.
(** [encoding/gob] on the exported fields of a reference. *)
Class RefCodec := {
  gob_Encode : bytes * string * Time → result bytes;
  gob_Decode : bytes → result (bytes * string * Time);
  gob_roundtrip x b : gob_Encode x = Ok b → gob_Decode b = Ok x }.

Section censusdb.
Context `{LeanIMT} `{UUIDs} `{TempDir} `{RefCodec}.

(** ** State *)

(** [src/census/censusdb/reference.go:18-28] CensusRef; the channel is that of the database *)
Record CensusRef := {
  r_ID : bytes; r_HashType : string; r_LastUsed : Time; r_currentRoot : bytes; r_tree : option Tree }.
(** [src/census/censusdb/censusdb.go:76-83] CensusDB, with the world, the references, the clock, the outcomes
    of the commits to come (a failure is [true]) and the removals that run in the background *)
Record CensusDB := {
  c_world : IMTWorld; c_now : Time; c_faults : list bool; c_refs : list CensusRef;
  loadedCensus : gmap bytes nat; rootIndex : gmap bytes bytes; updateRootChan : list (bytes * bytes);
  c_removals : list string }.
Definition set_world (w : IMTWorld) (c : CensusDB) : CensusDB :=
  {| c_world := w; c_now := c_now c; c_faults := c_faults c; c_refs := c_refs c; loadedCensus := loadedCensus c;
     rootIndex := rootIndex c; updateRootChan := updateRootChan c; c_removals := c_removals c |}.
Definition set_faults (l : list bool) (c : CensusDB) : CensusDB :=
  {| c_world := c_world c; c_now := c_now c; c_faults := l; c_refs := c_refs c; loadedCensus := loadedCensus c;
     rootIndex := rootIndex c; updateRootChan := updateRootChan c; c_removals := c_removals c |}.
Definition set_refs (l : list CensusRef) (c : CensusDB) : CensusDB :=
  {| c_world := c_world c; c_now := c_now c; c_faults := c_faults c; c_refs := l; loadedCensus := loadedCensus c;
     rootIndex := rootIndex c; updateRootChan := updateRootChan c; c_removals := c_removals c |}.
Definition set_loaded (m : gmap bytes nat) (c : CensusDB) : CensusDB :=
  {| c_world := c_world c; c_now := c_now c; c_faults := c_faults c; c_refs := c_refs c; loadedCensus := m;
     rootIndex := rootIndex c; updateRootChan := updateRootChan c; c_removals := c_removals c |}.
Definition set_index (m : gmap bytes bytes) (c : CensusDB) : CensusDB :=
  {| c_world := c_world c; c_now := c_now c; c_faults := c_faults c; c_refs := c_refs c; loadedCensus := loadedCensus c;
     rootIndex := m; updateRootChan := updateRootChan c; c_removals := c_removals c |}.
Definition set_requests (l : list (bytes * bytes)) (c : CensusDB) : CensusDB :=
  {| c_world := c_world c; c_now := c_now c; c_faults := c_faults c; c_refs := c_refs c; loadedCensus := loadedCensus c;
     rootIndex := rootIndex c; updateRootChan := l; c_removals := c_removals c |}.
Definition set_removals (l : list string) (c : CensusDB) : CensusDB :=
  {| c_world := c_world c; c_now := c_now c; c_faults := c_faults c; c_refs := c_refs c; loadedCensus := loadedCensus c;
     rootIndex := rootIndex c; updateRootChan := updateRootChan c; c_removals := l |}.
Notation M := (SE CensusDB).
(** [src/census/censusdb/censusdb.go:87-108] NewCensusDB; the worker of the channel is [take_request] *)
Definition NewCensusDB (w : IMTWorld) (now : Time) (faults : list bool) : CensusDB :=
  {| c_world := w; c_now := now; c_faults := faults; c_refs := []; loadedCensus := ∅; rootIndex := ∅;
     updateRootChan := []; c_removals := [] |}.
(** The node stops and starts again: the directories and the database stay. *)
Definition restart (c : CensusDB) : CensusDB :=
  NewCensusDB {| w_disk := w_disk (c_world c); w_db := w_db (c_world c); w_mem := no_trees |} (c_now c) (c_faults c).

Definition in_world {A} (m : SE IMTWorld A) : M A := λ c, let '(r, w) := m (c_world c) in (r, set_world w c).
(** [os.RemoveAll] and [os.Rename] on directories that have contents. *)
Definition os_RemoveAll (path : string) : SE IMTWorld () := λ w, (Ok (), set_disk (delete path (w_disk w)) w).
Definition os_Rename (oldpath newpath : string) : SE IMTWorld () := λ w,
  match w_disk w !! oldpath, w_disk w !! newpath with
  | Some d, None => (Ok (), set_disk (<[newpath := d]> (delete oldpath (w_disk w))) w)
  | _, _ => (Err (ErrMsg "rename"), w)
  end.
(** What is behind a pointer. *)
Definition load_ref (p : nat) : M CensusRef := λ c,
  match c_refs c !! p with Some ref => (Ok ref, c) | None => (Err (ErrMsg "nil pointer dereference"), c) end.
Definition update_ref (p : nat) (f : CensusRef → CensusRef) : M () := modify (λ c, set_refs (alter f p (c_refs c)) c).
Definition the_tree (ref : CensusRef) : M Tree :=
  lift (match r_tree ref with Some t => Ok t | None => Err (ErrMsg "nil pointer dereference") end).
Definition with_root (root : bytes) (ref : CensusRef) : CensusRef :=
  {| r_ID := r_ID ref; r_HashType := r_HashType ref; r_LastUsed := r_LastUsed ref; r_currentRoot := root; r_tree := r_tree ref |}.
Definition with_tree (t : Tree) (ref : CensusRef) : CensusRef :=
  {| r_ID := r_ID ref; r_HashType := r_HashType ref; r_LastUsed := r_LastUsed ref; r_currentRoot := r_currentRoot ref; r_tree := Some t |}.
Definition tree_root (t : Tree) : M (option Z) := gets (λ c, tree_Root t (c_world c)).
Definition db_Get (key : bytes) (c : CensusDB) : option bytes := w_db (c_world c) !! key.
(** The commit of a transaction that was filled with the writes. *)
Definition db_Commit (ws : writes) : M () := λ c,
  match c_faults c with
  | true :: faults => (Err (ErrMsg "commit failed"), set_faults faults c)
  | false :: faults => (Ok (), set_faults faults (set_world (set_db (apply_writes ws (w_db (c_world c))) (c_world c)) c))
  | [] => (Ok (), set_world (set_db (apply_writes ws (w_db (c_world c))) (c_world c)) c)
  end.

(** ** References are made, looked up and loaded *)

(** [src/census/censusdb/censusdb.go:191-202] CensusDB.writeReferenceWithPrefix *)
Definition writeReferenceWithPrefix (ref : CensusRef) (key : bytes) : M () :=
  b ← lift (gob_Encode (r_ID ref, r_HashType ref, r_LastUsed ref));
  db_Commit {[key := Some b]}.
(** The reference goes to the heap and to the two maps; a root that is in the index stays there. *)
Definition enter (censusID : bytes) (ref : CensusRef) : M nat := λ c,
  let p := length (c_refs c) in
  let rk := rootKey (r_currentRoot ref) in
  (Ok p, set_index (match rootIndex c !! rk with Some _ => rootIndex c | None => <[rk := censusID]> (rootIndex c) end)
           (set_loaded (<[censusID := p]> (loadedCensus c)) (set_refs (c_refs c ++ [ref]) c))).
(** [src/census/censusdb/censusdb.go:132-188] CensusDB.newCensus *)
Definition newCensus (censusID key : bytes) (tree : option Tree) : M nat :=
  c ← get_state;
  if bool_decide (is_Some (loadedCensus c !! censusID)) then raise ErrCensusAlreadyExists
  else if bool_decide (is_Some (db_Get key c)) then raise ErrCensusAlreadyExists
  else
    t ← match tree with
        | Some t => mret t
        | None => wrapping "failed to create census tree" (in_world (NewCensusIMTWithPebble (censusPrefix censusID)))
        end;
    root ← tree_root t;
    let ref := {| r_ID := censusID; r_HashType := "poseidon"; r_LastUsed := c_now c;
                  r_currentRoot := big_Bytes (default 0 root); r_tree := Some t |} in
    wrapping "failed to write census reference to db" (writeReferenceWithPrefix ref key);;
    enter censusID ref.
(** [src/census/censusdb/censusdb.go:113-115] CensusDB.New *)
Definition New (censusID : bytes) : M nat := newCensus censusID (censusIDDBPrefix censusID) None.
(** [src/census/censusdb/censusdb.go:119-121] CensusDB.NewByRoot *)
Definition NewByRoot (root : bytes) : M nat := newCensus (rootToCensusID root) (rootDBPrefix root) None.
(** [src/census/censusdb/censusdb.go:126-128] CensusDB.NewByScopedAddress *)
Definition NewByScopedAddress (chainID : uint64) (address : bytes) : M nat :=
  newCensus (scopedAddressToCensusID chainID address) (scopedAddressDBPrefix chainID address) None.

Definition exists_under (censusID key : bytes) (c : CensusDB) : bool :=
  bool_decide (is_Some (loadedCensus c !! censusID)) || bool_decide (is_Some (db_Get key c)).
(** [src/census/censusdb/censusdb.go:226-236] CensusDB.Exists *)
Definition Exists (censusID : bytes) : CensusDB → bool := exists_under censusID (censusIDDBPrefix censusID).
(** [src/census/censusdb/censusdb.go:239-250] CensusDB.ExistsByRoot *)
Definition ExistsByRoot (root : bytes) : CensusDB → bool := exists_under (rootToCensusID root) (rootDBPrefix root).
(** [src/census/censusdb/censusdb.go:254-265] CensusDB.ExistsByScopedAddress *)
Definition ExistsByScopedAddress (chainID : uint64) (address : bytes) : CensusDB → bool :=
  exists_under (scopedAddressToCensusID chainID address) (scopedAddressDBPrefix chainID address).

(** [src/census/censusdb/censusdb.go:286-339] CensusDB.loadCensusRef *)
Definition loadCensusRef (censusID key : bytes) : M nat :=
  c ← get_state;
  match loadedCensus c !! censusID with
  | Some p => mret p
  | None =>
      match db_Get key c with
      | None => raise (Wrap "" ErrCensusNotFound)
      | Some b =>
          '(id, hashType, _) ← lift (gob_Decode b);
          t ← in_world (NewCensusIMTWithPebble (censusPrefix censusID));
          root ← tree_root t;
          let ref := {| r_ID := id; r_HashType := hashType; r_LastUsed := c_now c;
                        r_currentRoot := big_Bytes (default 0 root); r_tree := Some t |} in
          writeReferenceWithPrefix ref key;;
          enter censusID ref
      end
  end.
(** [src/census/censusdb/censusdb.go:268-270] CensusDB.Load *)
Definition Load (censusID : bytes) : M nat := loadCensusRef censusID (censusIDDBPrefix censusID).
(** [src/census/censusdb/censusdb.go:274-276] CensusDB.LoadByRoot *)
Definition LoadByRoot (root : bytes) : M nat := loadCensusRef (rootToCensusID root) (rootDBPrefix root).
(** [src/census/censusdb/censusdb.go:280-282] CensusDB.LoadByScopedAddress *)
Definition LoadByScopedAddress (chainID : uint64) (address : bytes) : M nat :=
  loadCensusRef (scopedAddressToCensusID chainID address) (scopedAddressDBPrefix chainID address).

(** ** References are removed *)

(** [src/census/censusdb/censusdb.go:364-371] a loaded census leaves the maps and its tree is closed, in
    delCensus, CleanupWorkingCensus and PurgeWorkingCensuses *)
Definition unload (censusID : bytes) : M () :=
  c ← get_state;
  match loadedCensus c !! censusID with
  | None => mret ()
  | Some p =>
      ref ← load_ref p;
      modify (λ c, set_loaded (delete censusID (loadedCensus c)) (set_index (delete (rootKey (r_currentRoot ref)) (rootIndex c)) c));;
      match r_tree ref with Some t => warn (in_world (tree_Close t)) | None => mret () end
  end.
(** The removal of a directory starts in the background. *)
Definition remove_later (censusID : bytes) : M () :=
  modify (λ c, set_removals (c_removals c ++ [censusPrefix censusID]) c).
(** A removal that was started is done. *)
Definition run_removal (i : nat) : M () :=
  c ← get_state;
  match c_removals c !! i with
  | None => mret ()
  | Some path => modify (set_removals (delete i (c_removals c)));; warn (in_world (os_RemoveAll path))
  end.
(** [src/census/censusdb/censusdb.go:353-383] CensusDB.delCensus *)
Definition delCensus (censusID key : bytes) : M () :=
  db_Commit {[key := None]};; unload censusID;; remove_later censusID.
(** [src/census/censusdb/censusdb.go:342-345] CensusDB.Del *)
Definition Del (censusID : bytes) : M () := delCensus censusID (censusDBWorkingOnQueries ++ censusID).
(** [src/census/censusdb/censusdb.go:349-351] CensusDB.DelByScopedAddress *)
Definition DelByScopedAddress (chainID : uint64) (address : bytes) : M () :=
  delCensus (scopedAddressToCensusID chainID address) (scopedAddressDBPrefix chainID address).
(** [src/census/censusdb/censusdb.go:387-419] CensusDB.CleanupWorkingCensus *)
Definition CleanupWorkingCensus (censusID : bytes) : M () :=
  db_Commit {[censusIDDBPrefix censusID := None]};; unload censusID;; in_world (os_RemoveAll (censusPrefix censusID)).
(** The working censuses that were last used before a time. *)
Definition stale_ids (cutoff : Time) (c : CensusDB) : list bytes :=
  omap (λ '(_, value), match gob_Decode value with
                       | Ok (id, _, lastUsed) => if lastUsed <? cutoff then Some id else None
                       | Err _ => None
                       end) (entries censusDBWorkingOnQueries (w_db (c_world c))).
(** [src/census/censusdb/censusdb.go:595-671] CensusDB.PurgeWorkingCensuses *)
Definition PurgeWorkingCensuses (maxAge : Z) : M Z :=
  c ← get_state;
  let ids := stale_ids (c_now c - maxAge) c in
  if bool_decide (ids = []) then mret 0
  else
    wrapping "failed to commit purge"
      (db_Commit (list_to_map ((λ id, (censusIDDBPrefix id, None)) <$> ids)));;
    forM_ unload ids;;
    forM_ remove_later ids;;
    mret (Z.of_nat (length ids)).

(** ** Roots that change *)

(** [src/census/censusdb/censusdb.go:675-697] CensusDB.updateRoot *)
Definition updateRoot (censusID newRoot : bytes) : M () :=
  c ← get_state;
  match loadedCensus c !! censusID with
  | None => raise ErrCensusNotFound
  | Some p =>
      ref ← load_ref p;
      let oldKey := rootKey (r_currentRoot ref) in
      let newKey := rootKey newRoot in
      if bool_decide (oldKey = newKey) then mret ()
      else update_ref p (with_root newRoot);;
           modify (λ c, set_index (<[newKey := censusID]> (delete oldKey (rootIndex c))) c)
  end.
(** [src/census/censusdb/censusdb.go:97-100] the worker takes one request, in NewCensusDB *)
Definition take_request : M () := λ c,
  match updateRootChan c with
  | [] => (Ok (), c)
  | (censusID, newRoot) :: requests => warn (updateRoot censusID newRoot) (set_requests requests c)
  end.
(** A request for the worker; a full channel drops it. *)
Definition request_root (censusID newRoot : bytes) : M () := modify (λ c,
  if (length (updateRootChan c) <? 100)%nat then set_requests (updateRootChan c ++ [(censusID, newRoot)]) c else c).
(** The new root of a tree that was written. *)
Definition record_root (p : nat) (t : Tree) : M () :=
  root ← tree_root t;
  match root with
  | None => mret ()
  | Some root => update_ref p (with_root (big_Bytes root));; ref ← load_ref p; request_root (r_ID ref) (big_Bytes root)
  end.
(** [src/census/censusdb/reference.go:44-79] CensusRef.Insert *)
Definition Insert (p : nat) (key value : bytes) : M () :=
  ref ← load_ref p;
  if negb (length key =? 20)%nat then raise (ErrMsg "key must be exactly 20 bytes (Ethereum address length)")
  else t ← the_tree ref; in_world (tree_Add t (BytesToAddress key) (be_combine value));; record_root p t.
(** [src/census/censusdb/reference.go:82-126] CensusRef.InsertBatch *)
Definition InsertBatch (p : nat) (keys values : list bytes) : M () :=
  ref ← load_ref p;
  if negb (length keys =? length values)%nat then raise (ErrMsg "keys and values must have same length")
  else if negb (forallb (λ key : bytes, length key =? 20)%nat keys) then raise (ErrMsg "key must be 20 bytes")
  else t ← the_tree ref;
       in_world (tree_AddBulk t (zip (BytesToAddress <$> keys) (be_combine <$> values)));; record_root p t.
(** [src/census/censusdb/reference.go:145-152] CensusRef.Root *)
Definition Root (p : nat) : M bytes :=
  ref ← load_ref p; t ← the_tree ref; root ← tree_root t;
  mret match root with Some root => big_Bytes root | None => [] end.
(** [src/census/censusdb/reference.go:155-159] CensusRef.Size *)
Definition Size (p : nat) : M Z :=
  ref ← load_ref p; t ← the_tree ref; gets (λ c, tree_Size t (c_world c)).
(** [src/census/censusdb/reference.go:194-199] CensusRef.ApplyEvents *)
Definition ApplyEvents (p : nat) (events : list CensusEvent) : M () :=
  ref ← load_ref p; t ← the_tree ref; in_world (tree_ApplyEvents t events).

(** ** A working census is published *)

(** [src/census/censusdb/censusdb.go:491-509] the working census is forgotten, in PublishCensus *)
Definition forget_working (originCensusID root : bytes) (destinationRef : CensusRef) : M () :=
  wrapping "failed to commit working census cleanup" (db_Commit {[censusIDDBPrefix originCensusID := None]});;
  modify (λ c, set_index (<[rootKey root := r_ID destinationRef]> (rootIndex c))
                 (set_loaded (delete originCensusID (loadedCensus c)) c)).
(** [src/census/censusdb/censusdb.go:422-518] CensusDB.PublishCensus *)
Definition PublishCensus (originCensusID : bytes) (q : nat) : M () :=
  p ← Load originCensusID;
  workingRef ← load_ref p;
  workingTree ← the_tree workingRef;
  found ← tree_root workingTree;
  match found with
  | None => raise (ErrMsg "working census has no root")
  | Some root =>
      wrapping "failed to sync working census" (in_world (tree_Sync workingTree));;
      wrapping "failed to close working tree" (in_world (tree_Close workingTree));;
      destinationRef ← load_ref q;
      destTree ← the_tree destinationRef;
      let destPath := censusPrefix (r_ID destinationRef) in
      wrapping "failed to close destination tree" (in_world (tree_Close destTree));;
      wrapping "failed to remove destination directory" (in_world (os_RemoveAll destPath));;
      wrapping "failed to move census data" (in_world (os_Rename (censusPrefix originCensusID) destPath));;
      destTree ← wrapping "failed to reopen destination tree" (in_world (NewCensusIMTWithPebble destPath));
      update_ref q (with_tree destTree);;
      destRoot ← tree_root destTree;
      if bool_decide (destRoot = Some root) then
        update_ref q (with_root (big_Bytes root));;
        forget_working originCensusID (big_Bytes root) destinationRef
      else raise (ErrMsg "root mismatch after publish")
  end.

(** ** Proofs of membership *)

(** The leaf of a voter: the address above the 88 bits of the weight. *)
Definition packed_leaf (address : bytes) (weight : Z) : Z := Z.lor (Z.shiftl (be_combine address) 88) weight.
(** The proof that is handed out for an address. *)
Definition census_proof (addr : bytes) (leaf : Z) (siblings : bytes) (proof : IMTProof) : CensusProof :=
  {| pf_CensusOrigin := 0; pf_Root := Some (big_Bytes (ip_Root proof)); pf_Address := Some addr;
     pf_Weight := Some (ip_Weight proof); pf_VoterIndex := ip_AddressIndex proof; pf_Siblings := siblings;
     pf_Value := big_Bytes leaf; pf_PathBits := ip_PathBits proof; pf_ProcessID := pid_of_bytes [];
     pf_PublicKey := None; pf_Signature := None |}.
(** [src/census/censusdb/censusdb.go:549-582] CensusDB.ProofByRoot *)
Definition ProofByRoot (root leafKey : bytes) : M CensusProof :=
  p ← wrapping "no census found with the provided root" (LoadByRoot root);
  ref ← load_ref p;
  if negb (length leafKey =? 20)%nat then raise (ErrMsg "invalid key length: expected 20 bytes")
  else
    let addr := BytesToAddress leafKey in
    t ← the_tree ref;
    w ← gets c_world;
    proof ← lift (tree_GenerateProof t addr w);
    siblings ← lift (packSiblings (ip_Siblings proof));
    mret (census_proof addr (packed_leaf addr (ip_Weight proof)) siblings proof).
(** [src/census/censusdb/reference.go:164-191] CensusRef.GenProof *)
Definition GenProof (p : nat) (key : bytes) : M CensusProof :=
  ref ← load_ref p;
  if negb (length key =? 20)%nat then raise (ErrMsg "key must be 20 bytes")
  else
    let addr := BytesToAddress key in
    t ← the_tree ref;
    w ← gets c_world;
    proof ← lift (tree_GenerateProof t addr w);
    siblings ← lift (packSiblings (ip_Siblings proof));
    mret (census_proof addr (packed_leaf (ip_Address proof) (ip_Weight proof)) siblings proof).
(** [src/census/censusdb/censusdb.go:521-546] CensusDB.VerifyProof *)
Definition CensusDB_VerifyProof (proof : option CensusProof) : bool :=
  match proof with
  | None => false
  | Some proof =>
      match pf_Weight proof with
      | Some weight => packed_leaf (BytesToAddress (default [] (pf_Address proof))) weight =? be_combine (pf_Value proof)
      | None => true
      end &&
      VerifyProofWith {| mp_Root := be_combine (default [] (pf_Root proof)); mp_Leaf := be_combine (pf_Value proof);
                         mp_PathBits := pf_PathBits proof; mp_Siblings := unpackSiblings (pf_Siblings proof) |}
  end.
(** [src/census/censusdb/reference.go:203-217] VerifyProof *)
Definition VerifyProof (value root siblings : bytes) (pathBits : uint64) : bool :=
  VerifyProofWith {| mp_Root := be_combine root; mp_Leaf := be_combine value; mp_PathBits := pathBits;
                     mp_Siblings := unpackSiblings siblings |}.
(** [src/census/censusdb/censusdb.go:585-592] CensusDB.SizeByRoot *)
Definition SizeByRoot (root : bytes) : M Z :=
  p ← wrapping "no census found with the provided root" (LoadByRoot root); Size p.

(** ** Imports *)

(** [src/census/censusdb/censusdb.go:787-813] CensusDB.Import *)
Definition Import (root reader : bytes) : M nat :=
  c ← get_state;
  if ExistsByRoot root c then LoadByRoot root
  else
    let censusID := rootToCensusID root in
    tree ← wrapping "failed to create census tree" (in_world (NewCensusIMT (censusTreeDBPrefix censusID)));
    wrapping "failed to import census dump into tree" (in_world (tree_Import tree (be_combine root) reader));;
    wrapping "failed to sync census tree after import" (in_world (tree_Sync tree));;
    r ← attempt (newCensus censusID (rootDBPrefix root) (Some tree));
    match r with
    | Ok p => mret p
    | Err e => if errors_Is e ErrCensusAlreadyExists then LoadByRoot root else raise e
    end.
(** An existing census of a contract is replaced. *)
Definition replace_scoped (chainID : uint64) (address : bytes) : M () :=
  c ← get_state;
  if ExistsByScopedAddress chainID address c then wrapping "failed to replace scoped census" (DelByScopedAddress chainID address)
  else mret ().
(** [src/census/censusdb/censusdb.go:818-838] CensusDB.ImportByScopedAddress *)
Definition ImportByScopedAddress (chainID : uint64) (address root reader : bytes) : M nat :=
  replace_scoped chainID address;;
  let censusID := scopedAddressToCensusID chainID address in
  tree ← wrapping "failed to create census tree" (in_world (NewCensusIMT (censusTreeDBPrefix censusID)));
  wrapping "failed to import census dump into tree" (in_world (tree_Import tree (be_combine root) reader));;
  wrapping "failed to sync census tree after import" (in_world (tree_Sync tree));;
  newCensus censusID (scopedAddressDBPrefix chainID address) (Some tree).
(** The root of a decoded dump; one without a root is refused. *)
Definition decode_dump (data : bytes) : M (Dump * bytes) :=
  dump ← wrapping "failed to unmarshal census dump" (lift (json_Unmarshal data));
  match dump_Root dump with
  | None => raise (ErrMsg "census dump root is nil")
  | Some root => mret (dump, big_Bytes root)
  end.
(** [src/census/censusdb/censusdb.go:845-887] CensusDB.ImportAll *)
Definition ImportAll (data : bytes) : M nat :=
  '(dump, censusRoot) ← decode_dump data;
  c ← get_state;
  if ExistsByRoot censusRoot c then LoadByRoot censusRoot
  else
    let censusID := rootToCensusID censusRoot in
    tree ← wrapping "failed to create census tree" (in_world (NewCensusIMTWithPebble (censusPrefix censusID)));
    wrapping "failed to import census dump into tree" (in_world (tree_ImportAll tree dump));;
    r ← attempt (newCensus censusID (rootDBPrefix censusRoot) (Some tree));
    match r with
    | Ok p => mret p
    | Err e =>
        if errors_Is e ErrCensusAlreadyExists then warn (in_world (tree_Close tree));; LoadByRoot censusRoot else raise e
    end.
(** [src/census/censusdb/censusdb.go:892-919] CensusDB.ImportAllByScopedAddress *)
Definition ImportAllByScopedAddress (chainID : uint64) (address data : bytes) : M nat :=
  '(dump, _) ← decode_dump data;
  replace_scoped chainID address;;
  let censusID := scopedAddressToCensusID chainID address in
  tree ← wrapping "failed to create census tree" (in_world (NewCensusIMTWithPebble (censusPrefix censusID)));
  wrapping "failed to import census dump into tree" (in_world (tree_ImportAll tree dump));;
  newCensus censusID (scopedAddressDBPrefix chainID address) (Some tree).
(** The events go into a new census, whose root must be the expected one. *)
Definition apply_expected (p : nat) (events : list CensusEvent) (expectedRoot : bytes) : M nat :=
  wrapping "failed to apply census events" (ApplyEvents p events);;
  finalRoot ← Root p;
  if bool_decide (finalRoot = expectedRoot) then mret p else raise (ErrMsg "final root mismatch after applying events").
(** [src/census/censusdb/censusdb.go:924-943] CensusDB.ImportEvents *)
Definition ImportEvents (root : bytes) (events : list CensusEvent) : M nat :=
  p ← wrapping "failed to create census tree" (NewByRoot root); apply_expected p events root.
(** [src/census/censusdb/censusdb.go:949-967] CensusDB.ImportEventsByScopedAddress *)
Definition ImportEventsByScopedAddress (chainID : uint64) (address expectedRoot : bytes) (events : list CensusEvent) : M nat :=
  p ← wrapping "failed to create census tree" (NewByScopedAddress chainID address); apply_expected p events expectedRoot.

(** ** Siblings and leaves *)

Lemma unpack_cons a rest : length a = 32%nat → unpackSiblings (a ++ rest) = be_combine a :: unpackSiblings rest.
Proof.
  intros Ha. unfold unpackSiblings. rewrite length_app, Ha.
  replace ((32 + length rest) / 32)%nat with (S (length rest / 32)) by (rewrite <-(Nat.div_add_l 1 32) by done; f_equal; lia).
  rewrite <-cons_seq, fmap_cons, <-fmap_S_seq, <-list_fmap_compose. cbn [Nat.mul]. rewrite drop_0, take_app_length' by done. f_equal.
  apply list_fmap_ext. intros _ i _. unfold compose. do 2 f_equal.
  replace (S i * 32)%nat with (length a + i * 32)%nat by lia. by rewrite drop_app_add.
Qed.
Lemma unpack_pack siblings packed : packSiblings siblings = Ok packed → unpackSiblings packed = Z.abs <$> siblings.
Proof.
  revert packed. induction siblings as [|s siblings IH]; intros packed; cbn [packSiblings]; [by intros [= <-]|].
  destruct (Z.leb_spec (256 ^ 32) (Z.abs s)); [done|]. remember (be_split 32 (Z.abs s)) as b eqn:Hb.
  destruct (packSiblings siblings) as [rest|]; [|done]. intros [= <-].
  rewrite unpack_cons by (subst b; apply length_be_split). rewrite (IH rest) by done. rewrite fmap_cons. f_equal.
  rewrite Hb, be_combine_split. apply Z.mod_small. change (Z.of_nat 32) with 32. lia.
Qed.
Lemma packed_leaf_add address weight : 0 ≤ weight < 2 ^ 88 → packed_leaf address weight = weight + be_combine address * 2 ^ 88.
Proof. intros Hw. unfold packed_leaf. rewrite Z.lor_comm. apply lor_shiftl_add; [done|done|]. apply be_combine_range. Qed.
Lemma packed_leaf_inj a1 w1 a2 w2 : 0 ≤ w1 < 2 ^ 88 → 0 ≤ w2 < 2 ^ 88 → length a1 = length a2 →
  packed_leaf a1 w1 = packed_leaf a2 w2 → a1 = a2 ∧ w1 = w2.
Proof.
  intros H1' H2' Hl. rewrite !packed_leaf_add by done. intros Heq. assert (w1 = w2 ∧ be_combine a1 = be_combine a2) as [-> Ha] by lia.
  split; [|done]. rewrite <-(be_split_combine a1), <-(be_split_combine a2). by rewrite Ha, Hl.
Qed.
Lemma length_LeftPad n b : (length b ≤ n)%nat → length (LeftPad n b) = n.
Proof. intros Hb. unfold LeftPad. destruct (Nat.leb_spec n (length b)); [lia|]. rewrite length_app, length_replicate. lia. Qed.
Lemma length_BytesToAddress b : length (BytesToAddress b) = 20%nat.
Proof. unfold BytesToAddress. apply length_LeftPad. rewrite length_drop. lia. Qed.
Lemma BytesToAddress_20 b : length b = 20%nat → BytesToAddress b = b.
Proof. intros Hb. unfold BytesToAddress, LeftPad. rewrite Hb. simpl. by rewrite drop_0, Hb. Qed.

(** ** The references *)

(** The keys that a census can be stored under. *)
Inductive key_of : bytes → bytes → Prop :=
  | key_working id : key_of id (censusIDDBPrefix id)
  | key_root root : key_of (rootToCensusID root) (rootDBPrefix root)
  | key_scoped chainID address : key_of (scopedAddressToCensusID chainID address) (scopedAddressDBPrefix chainID address).
(** What is stored under a key of a census names it. *)
Definition names_db (d : kv) : Prop := ∀ id key v, key_of id key → d !! key = Some v → ∃ h t, gob_Decode v = Ok (id, h, t).
(** Every loaded census has a reference of its name, and, if it is not being removed, is stored. *)
Definition loaded_stored (removed : list bytes) (c : CensusDB) : Prop :=
  names_db (w_db (c_world c)) ∧
  (∀ id p, loadedCensus c !! id = Some p → ∃ ref, c_refs c !! p = Some ref ∧ r_ID ref = id) ∧
  (∀ id, is_Some (loadedCensus c !! id) → id ∉ removed → ∃ key, key_of id key ∧ is_Some (w_db (c_world c) !! key)).
Definition keeps_stored (X : list bytes) : relation CensusDB := λ c c', loaded_stored X c → loaded_stored X c'.
#[local] Instance keeps_stored_preorder X : PreOrder (keeps_stored X).
Proof. split; [by intros c ?|]. intros a b c H1' H2' Ha. auto. Qed.

(** The identifier in a key, or of which the rest of the key is the text. *)
Definition id_of_key (key : bytes) : bytes :=
  if bool_decide (key !! 1%nat = Some (byte_of_Z 119)) then drop 3 key else NewSHA1 (drop 3 key).
Lemma key_of_id id key : key_of id key → id = id_of_key key.
Proof. by destruct 1. Qed.
Lemma key_of_inj id1 id2 key : key_of id1 key → key_of id2 key → id1 = id2.
Proof. intros ->%key_of_id ->%key_of_id. done. Qed.
Lemma key_of_no_tree id key : key_of id key → HasPrefix key censusDBTreePrefix = false.
Proof.
  intros Hk. destruct (HasPrefix key censusDBTreePrefix) eqn:Hp; [|done].
  apply HasPrefix_spec in Hp as [r ->]. by inversion Hk.
Qed.

Lemma in_world_stored {A} (m : SE IMTWorld A) X : moves keeps_refs m → moves (keeps_stored X) (in_world m).
Proof.
  intros Hm c (Hn & Hl & Hs). unfold in_world. specialize (Hm (c_world c)). destruct (m (c_world c)) as [r w]. cbn in Hm |- *.
  split_and!.
  - intros id key v Hk Hv. apply (Hn id key v Hk). by rewrite <-(Hm key (key_of_no_tree _ _ Hk)).
  - exact Hl.
  - intros id Hid HX. destruct (Hs id Hid HX) as (key & Hk & Hv). exists key. split; [done|].
    cbn. by rewrite (Hm key (key_of_no_tree _ _ Hk)).
Qed.
Lemma RemoveAll_keeps path : moves keeps_refs (os_RemoveAll path).
Proof. intros w k _. done. Qed.
Lemma Rename_keeps a b : moves keeps_refs (os_Rename a b).
Proof. intros w k _. unfold os_Rename. by repeat case_match. Qed.
Lemma set_removals_stored X f : moves (keeps_stored X) (modify (λ c, set_removals (f c) c)).
Proof. intros c Hc. exact Hc. Qed.
Lemma set_index_stored X f : moves (keeps_stored X) (modify (λ c, set_index (f c) c)).
Proof. intros c Hc. exact Hc. Qed.
Lemma update_ref_stored X p f : (∀ ref, r_ID (f ref) = r_ID ref) → moves (keeps_stored X) (update_ref p f).
Proof.
  intros Hf c (Hn & Hl & Hs). split_and!; [exact Hn| |exact Hs]. intros id q Hq. destruct (Hl id q Hq) as (ref & Hr & Hid). cbn.
  destruct (decide (q = p)) as [->|Hne].
  - exists (f ref). rewrite list_lookup_alter_eq, Hr. split; [done|]. by rewrite Hf.
  - exists ref. by rewrite list_lookup_alter_ne by done.
Qed.
Lemma load_ref_stored X p : moves (keeps_stored X) (load_ref p).
Proof. intros c ?. unfold load_ref. by destruct (c_refs c !! p). Qed.
Lemma the_tree_stored X ref : moves (keeps_stored X) (the_tree ref).
Proof. apply moves_lift, _. Qed.
Lemma tree_root_stored X t : moves (keeps_stored X) (tree_root t).
Proof. apply moves_gets, _. Qed.

(** A commit that removes keys leaves a gap for the censuses of these keys. *)
Lemma delete_commit_stored (ids : list bytes) (ws : writes) r c :
  (∀ key, ws !! key = None ∨ ws !! key = Some None ∧ ∃ id, id ∈ ids ∧ key_of id key) →
  loaded_stored [] c → loaded_stored (match (db_Commit ws c).1 with Ok _ => ids | Err _ => r end) (db_Commit ws c).2.
Proof.
  intros Hws (Hn & Hl & Hs).
  assert (Hdone : loaded_stored ids (set_world (set_db (apply_writes ws (w_db (c_world c))) (c_world c)) c)).
  { split_and!; [|exact Hl|].
    - intros id key v Hk. cbn. rewrite lookup_apply_writes. destruct (Hws key) as [->|(-> & _)]; [|done]. by apply Hn.
    - intros id Hid Hnot. destruct (Hs id Hid ltac:(by apply not_elem_of_nil)) as (key & Hk & Hv). exists key. split; [done|].
      cbn. rewrite lookup_apply_writes. destruct (Hws key) as [->|(_ & id' & Hid' & Hk')]; [done|].
      by rewrite (key_of_inj _ _ _ Hk Hk') in Hnot. }
  unfold db_Commit. destruct (c_faults c) as [|[] l]; [exact Hdone| |exact Hdone].
  split_and!; [exact Hn|exact Hl|]. intros id Hid _. apply (Hs id Hid). apply not_elem_of_nil.
Qed.
(** A census that leaves the maps no longer needs to be stored. *)
Lemma unload_stored id X c : loaded_stored (id :: X) c → loaded_stored X (unload id c).2 ∧ (unload id c).1 = Ok ().
Proof.
  intros (Hn & Hl & Hs). unfold unload, mbind, SE_bind. cbn [get_state]. destruct (loadedCensus c !! id) as [p|] eqn:Hp.
  - destruct (Hl id p Hp) as (ref & Hr & Hid). unfold load_ref. rewrite Hr. cbn.
    assert (Hdel : loaded_stored X (set_loaded (delete id (loadedCensus c)) (set_index (delete (rootKey (r_currentRoot ref)) (rootIndex c)) c))).
    { split_and!; [exact Hn| |]; cbn.
      - intros id' p' Hp'. apply lookup_delete_Some in Hp' as [_ Hp']. exact (Hl id' p' Hp').
      - intros id' [p' Hp'] HX. apply lookup_delete_Some in Hp' as [Hne Hp']. apply Hs; [by eexists|].
        by intros [->|?]%elem_of_cons. }
    destruct (r_tree ref) as [t|]; [|done]. split; [|done].
    apply (in_world_stored (tree_Close t) X (close_keeps t)). exact Hdel.
  - split; [|done]. split_and!; [exact Hn|exact Hl|]. intros id' Hid' HX. apply Hs; [done|].
    apply not_elem_of_cons. split; [|done]. intros Heq. subst id'. destruct Hid' as [x Hx]. assert (Hno : None = Some x) by exact (eq_trans (eq_sym Hp) Hx). done.
Qed.
Lemma unload_all_stored ids c : loaded_stored ids c → loaded_stored [] (forM_ unload ids c).2 ∧ (forM_ unload ids c).1 = Ok ().
Proof.
  revert c. induction ids as [|id ids IH]; intros c Hc; [done|]. apply unload_stored in Hc as [Hc Hr]. cbn [forM_].
  rewrite (bind_Ok _ _ c () (unload id c).2); [by apply IH|]. rewrite <-Hr. apply surjective_pairing.
Qed.
(** A commit of removals and the unloading of their censuses. *)
Lemma removal_stored ids ws (m : M ()) c :
  (∀ key, ws !! key = None ∨ ws !! key = Some None ∧ ∃ id, id ∈ ids ∧ key_of id key) →
  (∀ c, loaded_stored ids c → loaded_stored [] (m c).2) →
  loaded_stored [] c → loaded_stored [] ((db_Commit ws ≫= λ _, m) c).2.
Proof.
  intros Hws Hm Hc. pose proof (delete_commit_stored ids ws [] c Hws Hc) as Hd.
  unfold mbind, SE_bind. destruct (db_Commit ws c) as [[u|e] c']; [by apply Hm|exact Hd].
Qed.
Lemma single_key id key key' : key_of id key →
  ({[key := None]} : writes) !! key' = None ∨ ({[key := None]} : writes) !! key' = Some None ∧ ∃ id', id' ∈ [id] ∧ key_of id' key'.
Proof.
  intros Hk. destruct (decide (key = key')) as [<-|Hne].
  - right. rewrite lookup_singleton_eq. split; [done|]. exists id. split; [apply list_elem_of_singleton; done|done].
  - left. by rewrite lookup_singleton_ne.
Qed.
Lemma delCensus_stored id key : key_of id key → moves (keeps_stored []) (delCensus id key).
Proof.
  intros Hk c Hc. unfold delCensus. apply (removal_stored [id]); [intros k; by apply single_key| |exact Hc].
  intros c' Hc'. apply unload_stored in Hc' as [Hc' Hr].
  rewrite (bind_Ok _ _ c' () (unload id c').2); [exact Hc'|]. rewrite <-Hr. apply surjective_pairing.
Qed.
Lemma CleanupWorkingCensus_stored id : moves (keeps_stored []) (CleanupWorkingCensus id).
Proof.
  intros c Hc. unfold CleanupWorkingCensus. apply (removal_stored [id]); [intros k; apply single_key; constructor| |exact Hc].
  intros c' Hc'. apply unload_stored in Hc' as [Hc' Hr].
  rewrite (bind_Ok _ _ c' () (unload id c').2); [|rewrite <-Hr; apply surjective_pairing].
  by apply (in_world_stored _ [] (RemoveAll_keeps _)).
Qed.
Lemma removals_of_ids ids key :
  (list_to_map ((λ id, (censusIDDBPrefix id, None)) <$> ids) : writes) !! key = None ∨
  (list_to_map ((λ id, (censusIDDBPrefix id, None)) <$> ids) : writes) !! key = Some None ∧ ∃ id, id ∈ ids ∧ key_of id key.
Proof.
  destruct (list_to_map _ !! key) as [o|] eqn:Hk; [right|by left].
  apply elem_of_list_to_map_2 in Hk. apply list_elem_of_fmap in Hk as (id & [= -> ->] & Hid).
  split; [done|]. exists id. split; [done|constructor].
Qed.
Lemma forM_moves_stored X {A} (f : A → M ()) l : (∀ a, moves (keeps_stored X) (f a)) → moves (keeps_stored X) (forM_ f l).
Proof. intros Hf. apply moves_forM_; [apply _|]. done. Qed.
Lemma PurgeWorkingCensuses_stored maxAge : moves (keeps_stored []) (PurgeWorkingCensuses maxAge).
Proof.
  intros c Hc. unfold PurgeWorkingCensuses. unfold mbind at 1, SE_bind at 1. cbn [get_state].
  set (ids := stale_ids (c_now c - maxAge) c). case_bool_decide; [exact Hc|].
  assert (Hd := delete_commit_stored ids _ [] c (removals_of_ids ids) Hc). unfold wrapping, mbind, SE_bind.
  destruct (db_Commit _ c) as [[u|e] c']; [|exact Hd]. cbn in Hd. destruct (unload_all_stored ids c' Hd) as [Hu Hr].
  destruct (forM_ unload ids c') as [r c'']. cbn in Hu, Hr. subst r.
  pose proof (forM_moves_stored [] remove_later ids (λ id, set_removals_stored [] (λ c, c_removals c ++ [censusPrefix id])) c'' Hu) as Hf.
  by destruct (forM_ remove_later ids c'') as [[?|?] ?].
Qed.

Lemma write_stored id key ref c : key_of id key → r_ID ref = id → loaded_stored [] c →
  let '(r, c') := writeReferenceWithPrefix ref key c in
  loaded_stored [] c' ∧ (is_Ok r = true → is_Some (w_db (c_world c') !! key)).
Proof.
  intros Hk Hid (Hn & Hl & Hs). unfold writeReferenceWithPrefix, mbind, SE_bind, lift.
  destruct (gob_Encode _) as [b|e] eqn:Hb; [|done]. apply gob_roundtrip in Hb. rewrite Hid in Hb.
  assert (Hdone : loaded_stored [] (set_world (set_db (apply_writes {[key := Some b]} (w_db (c_world c))) (c_world c)) c) ∧
    is_Some (apply_writes {[key := Some b]} (w_db (c_world c)) !! key)).
  { split; [split_and!; [|exact Hl|]|].
    - intros id' key' v Hk'. cbn. rewrite lookup_apply_writes. destruct (decide (key = key')) as [<-|Hne].
      + rewrite lookup_singleton_eq. intros [= <-]. rewrite (key_of_inj _ _ _ Hk' Hk). eauto.
      + rewrite lookup_singleton_ne by done. by apply Hn.
    - intros id' Hid' HX. destruct (Hs id' Hid' HX) as (key' & Hk' & Hv). exists key'. split; [done|]. cbn.
      rewrite lookup_apply_writes. destruct (decide (key = key')) as [<-|Hne]; [by rewrite lookup_singleton_eq|].
      by rewrite lookup_singleton_ne.
    - rewrite lookup_apply_writes, lookup_singleton_eq. by eexists. }
  unfold db_Commit. destruct (c_faults c) as [|[] l]; cbn; [naive_solver| |naive_solver]. done.
Qed.
Lemma enter_stored id key ref c : key_of id key → r_ID ref = id → is_Some (w_db (c_world c) !! key) →
  loaded_stored [] c → loaded_stored [] (enter id ref c).2.
Proof.
  intros Hk Hid Hv (Hn & Hl & Hs). split_and!; [exact Hn| |]; cbn.
  - intros id' p Hp. destruct (decide (id = id')) as [<-|Hne].
    + rewrite lookup_insert_eq in Hp. injection Hp as <-. exists ref. by rewrite list_lookup_middle.
    + rewrite lookup_insert_ne in Hp by done. destruct (Hl id' p Hp) as (ref' & Hr & Hid'). exists ref'.
      split; [|done]. by apply lookup_app_l_Some.
  - intros id' Hid' HX. destruct (decide (id = id')) as [<-|Hne]; [by exists key|].
    rewrite lookup_insert_ne in Hid' by done. by apply Hs.
Qed.
Lemma write_enter_stored id key ref (f : M () → M ()) c :
  (∀ m c, (f m c).2 = (m c).2 ∧ is_Ok (f m c).1 = is_Ok (m c).1) → key_of id key → r_ID ref = id → loaded_stored [] c →
  loaded_stored [] ((f (writeReferenceWithPrefix ref key) ≫= λ _, enter id ref) c).2.
Proof.
  intros Hf Hk Hid Hc. pose proof (write_stored id key ref c Hk Hid Hc) as Hw.
  destruct (Hf (writeReferenceWithPrefix ref key) c) as [Hf1 Hf2]. unfold mbind, SE_bind.
  destruct (f _ c) as [r c1]. destruct (writeReferenceWithPrefix ref key c) as [r' c']. cbn in Hf1, Hf2. subst c1.
  destruct Hw as [Hc' Hsome]. destruct r as [u|e]; [|exact Hc']. apply (enter_stored id key); [done|done| |done].
  apply Hsome. by rewrite <-Hf2.
Qed.
Lemma newCensus_stored id key tree : key_of id key → moves (keeps_stored []) (newCensus id key tree).
Proof.
  intros Hk c Hc. unfold newCensus. unfold mbind at 1, SE_bind at 1. cbn [get_state].
  case_bool_decide; [exact Hc|]. case_bool_decide; [exact Hc|]. unfold mbind at 1, SE_bind at 1.
  set (m := match tree with Some t => mret t | None => _ end).
  assert (Hm : moves (keeps_stored []) m).
  { subst m. destruct tree; [apply moves_ret, _|]. apply moves_wrapping, in_world_stored, open_keeps. }
  specialize (Hm c Hc). destruct (m c) as [[t|e] c1]; [|exact Hm]. cbn in Hm.
  unfold mbind at 1, SE_bind at 1. cbn [tree_root gets].
  apply (write_enter_stored id key _ (wrapping _)); [|done|done|exact Hm].
  intros m' c'. unfold wrapping. by destruct (m' c') as [[]].
Qed.
Lemma loadCensusRef_stored id key : key_of id key → moves (keeps_stored []) (loadCensusRef id key).
Proof.
  intros Hk c Hc. unfold loadCensusRef. unfold mbind at 1, SE_bind at 1. cbn [get_state].
  destruct (loadedCensus c !! id) as [p|]; [exact Hc|]. destruct (db_Get key c) as [b|] eqn:Hb; [|exact Hc].
  destruct (Hc) as (Hn & _ & _). destruct (Hn id key b Hk Hb) as (h & t & Hd).
  unfold mbind at 1, SE_bind at 1, lift. rewrite Hd. unfold mbind at 1, SE_bind at 1.
  pose proof (in_world_stored _ [] (open_keeps (censusPrefix id)) c Hc) as Hw.
  destruct (in_world _ c) as [[tr|e] c1]; [|exact Hw]. unfold mbind at 1, SE_bind at 1. cbn [tree_root gets].
  apply (write_enter_stored id key _ (λ m, m)); [done|done|done|exact Hw].
Qed.

(** The other operations are made of these. *)
Lemma world_op_stored {A} (m : SE IMTWorld A) : moves keeps_refs m → moves (keeps_stored []) (in_world m).
Proof. apply in_world_stored. Qed.
Lemma with_root_stored p root : moves (keeps_stored []) (update_ref p (with_root root)).
Proof. by apply update_ref_stored. Qed.
Lemma with_tree_stored p t : moves (keeps_stored []) (update_ref p (with_tree t)).
Proof. by apply update_ref_stored. Qed.
Lemma request_root_stored id root : moves (keeps_stored []) (request_root id root).
Proof. intros c Hc. unfold request_root, modify. cbn [snd]. by destruct (length (updateRootChan c) <? 100)%nat. Qed.
#[local] Hint Resolve world_op_stored open_keeps open_db_keeps add_keeps bulk_keeps events_keeps import_keeps import_all_keeps
  sync_keeps close_keeps RemoveAll_keeps Rename_keeps with_root_stored with_tree_stored request_root_stored load_ref_stored
  set_index_stored set_removals_stored : moves.
Lemma New_stored id : moves (keeps_stored []) (New id).
Proof. apply newCensus_stored. constructor. Qed.
Lemma NewByRoot_stored root : moves (keeps_stored []) (NewByRoot root).
Proof. apply newCensus_stored. constructor. Qed.
Lemma NewByScopedAddress_stored chainID address : moves (keeps_stored []) (NewByScopedAddress chainID address).
Proof. apply newCensus_stored. constructor. Qed.
Lemma Load_stored id : moves (keeps_stored []) (Load id).
Proof. apply loadCensusRef_stored. constructor. Qed.
Lemma LoadByRoot_stored root : moves (keeps_stored []) (LoadByRoot root).
Proof. apply loadCensusRef_stored. constructor. Qed.
Lemma LoadByScopedAddress_stored chainID address : moves (keeps_stored []) (LoadByScopedAddress chainID address).
Proof. apply loadCensusRef_stored. constructor. Qed.
Lemma new_root_stored root tree : moves (keeps_stored []) (newCensus (rootToCensusID root) (rootDBPrefix root) tree).
Proof. apply newCensus_stored. constructor. Qed.
Lemma new_scoped_stored chainID address tree :
  moves (keeps_stored []) (newCensus (scopedAddressToCensusID chainID address) (scopedAddressDBPrefix chainID address) tree).
Proof. apply newCensus_stored. constructor. Qed.
Lemma DelByScopedAddress_stored chainID address : moves (keeps_stored []) (DelByScopedAddress chainID address).
Proof. apply delCensus_stored. constructor. Qed.
Lemma updateRoot_stored id root : moves (keeps_stored []) (updateRoot id root).
Proof. unfold updateRoot. moves. Qed.
#[local] Hint Resolve New_stored NewByRoot_stored NewByScopedAddress_stored Load_stored LoadByRoot_stored LoadByScopedAddress_stored
  new_root_stored new_scoped_stored DelByScopedAddress_stored updateRoot_stored : moves.
Lemma take_request_stored : moves (keeps_stored []) take_request.
Proof. intros c Hc. unfold take_request. destruct (updateRootChan c) as [|[id root] l]; [exact Hc|]. by apply updateRoot_stored. Qed.
Lemma run_removal_stored i : moves (keeps_stored []) (run_removal i).
Proof. unfold run_removal. moves. Qed.
Lemma record_root_stored p t : moves (keeps_stored []) (record_root p t).
Proof. unfold record_root, tree_root. moves. Qed.
Lemma Root_stored p : moves (keeps_stored []) (Root p).
Proof. unfold Root, the_tree, tree_root. moves. Qed.
#[local] Hint Resolve record_root_stored Root_stored : moves.
Lemma Insert_stored p key value : moves (keeps_stored []) (Insert p key value).
Proof. unfold Insert, the_tree. moves. Qed.
Lemma InsertBatch_stored p keys values : moves (keeps_stored []) (InsertBatch p keys values).
Proof. unfold InsertBatch, the_tree. moves. Qed.
Lemma ApplyEvents_stored p events : moves (keeps_stored []) (ApplyEvents p events).
Proof. unfold ApplyEvents, the_tree. moves. Qed.
#[local] Hint Resolve ApplyEvents_stored : moves.
Lemma ProofByRoot_stored root key : moves (keeps_stored []) (ProofByRoot root key).
Proof. unfold ProofByRoot, the_tree. moves. Qed.
Lemma Import_stored root data : moves (keeps_stored []) (Import root data).
Proof. unfold Import. moves. Qed.
Lemma replace_scoped_stored chainID address : moves (keeps_stored []) (replace_scoped chainID address).
Proof. unfold replace_scoped. moves. Qed.
#[local] Hint Resolve replace_scoped_stored : moves.
Lemma ImportByScopedAddress_stored chainID address root data : moves (keeps_stored []) (ImportByScopedAddress chainID address root data).
Proof. unfold ImportByScopedAddress. moves. Qed.
Lemma ImportAll_stored data : moves (keeps_stored []) (ImportAll data).
Proof. unfold ImportAll, decode_dump. moves. Qed.
Lemma ImportAllByScopedAddress_stored chainID address data : moves (keeps_stored []) (ImportAllByScopedAddress chainID address data).
Proof. unfold ImportAllByScopedAddress, decode_dump. moves. Qed.
Lemma ImportEvents_stored root events : moves (keeps_stored []) (ImportEvents root events).
Proof. unfold ImportEvents, apply_expected. moves. Qed.
Lemma ImportEventsByScopedAddress_stored chainID address root events :
  moves (keeps_stored []) (ImportEventsByScopedAddress chainID address root events).
Proof. unfold ImportEventsByScopedAddress, apply_expected. moves. Qed.
Lemma wrapping_bind_state {A B} msg (m : M A) (f : A → M B) c : ((wrapping msg m ≫= f) c).2 = ((m ≫= f) c).2.
Proof. unfold wrapping, mbind, SE_bind. by destruct (m c) as [[]]. Qed.
Lemma forget_working_stored id root ref : moves (keeps_stored []) (forget_working id root ref).
Proof.
  intros c Hc. unfold forget_working. rewrite wrapping_bind_state.
  apply (removal_stored [id]); [intros k; apply single_key; constructor| |exact Hc].
  intros c' (Hn & Hl & Hs). split_and!; [exact Hn| |]; cbn.
  - intros id' p Hp. apply lookup_delete_Some in Hp as [_ Hp]. exact (Hl id' p Hp).
  - intros id' [p Hp] _. apply lookup_delete_Some in Hp as [Hne Hp]. apply Hs; [by eexists|]. by intros ->%list_elem_of_singleton.
Qed.
#[local] Hint Resolve forget_working_stored : moves.
Lemma PublishCensus_stored id q : moves (keeps_stored []) (PublishCensus id q).
Proof. unfold PublishCensus, the_tree, tree_root. moves. Qed.

(** ** The life of the database *)

(** What the node asks of the database. *)
Inductive census_step : CensusDB → CensusDB → Prop :=
  | step_New id c : census_step c (New id c).2
  | step_NewByRoot root c : census_step c (NewByRoot root c).2
  | step_NewByScopedAddress chainID address c : census_step c (NewByScopedAddress chainID address c).2
  | step_Load id c : census_step c (Load id c).2
  | step_LoadByRoot root c : census_step c (LoadByRoot root c).2
  | step_LoadByScopedAddress chainID address c : census_step c (LoadByScopedAddress chainID address c).2
  | step_Del id c : census_step c (Del id c).2
  | step_DelByScopedAddress chainID address c : census_step c (DelByScopedAddress chainID address c).2
  | step_CleanupWorkingCensus id c : census_step c (CleanupWorkingCensus id c).2
  | step_PurgeWorkingCensuses maxAge c : census_step c (PurgeWorkingCensuses maxAge c).2
  | step_PublishCensus id q c : census_step c (PublishCensus id q c).2
  | step_Insert p key value c : census_step c (Insert p key value c).2
  | step_InsertBatch p keys values c : census_step c (InsertBatch p keys values c).2
  | step_ApplyEvents p events c : census_step c (ApplyEvents p events c).2
  | step_ProofByRoot root key c : census_step c (ProofByRoot root key c).2
  | step_Import root data c : census_step c (Import root data c).2
  | step_ImportByScopedAddress chainID address root data c : census_step c (ImportByScopedAddress chainID address root data c).2
  | step_ImportAll data c : census_step c (ImportAll data c).2
  | step_ImportAllByScopedAddress chainID address data c : census_step c (ImportAllByScopedAddress chainID address data c).2
  | step_ImportEvents root events c : census_step c (ImportEvents root events c).2
  | step_ImportEventsByScopedAddress chainID address root events c :
      census_step c (ImportEventsByScopedAddress chainID address root events c).2
  | step_request c : census_step c (take_request c).2
  | step_removal i c : census_step c (run_removal i c).2
  | step_restart c : census_step c (restart c).

Lemma Del_stored id : moves (keeps_stored []) (Del id).
Proof. apply delCensus_stored. constructor. Qed.
#[local] Hint Resolve Del_stored CleanupWorkingCensus_stored PurgeWorkingCensuses_stored PublishCensus_stored Insert_stored
  InsertBatch_stored ProofByRoot_stored Import_stored ImportByScopedAddress_stored ImportAll_stored ImportAllByScopedAddress_stored
  ImportEvents_stored ImportEventsByScopedAddress_stored take_request_stored run_removal_stored : moves.
Lemma census_step_stored c c' : census_step c c' → keeps_stored [] c c'.
Proof.
  destruct 1; try lazymatch goal with |- keeps_stored _ ?c (?m ?c).2 =>
    let Hm := fresh in assert (Hm : moves (keeps_stored []) m) by auto 1 with moves nocore; exact (Hm c) end.
  intros (Hn & _ & _). split_and!; [exact Hn| |]; cbn; intros ? *; rewrite lookup_empty; [done|by intros []].
Qed.

(** C12: Whatever is asked of the database, however commits fail, removals end and the node restarts: a census
    that is loaded has a reference of its identifier, and the database holds, under one of the keys of that
    census, a reference that names it, so what is loaded is found again after a restart. *)
Theorem loaded_censuses_are_stored w now faults c :
  names_db (w_db w) → rtc census_step (NewCensusDB w now faults) c → ∀ id p, loadedCensus c !! id = Some p →
  ∃ ref key v h t, c_refs c !! p = Some ref ∧ r_ID ref = id ∧ key_of id key ∧ w_db (c_world c) !! key = Some v ∧
    gob_Decode v = Ok (id, h, t).
Proof.
  intros Hw Hr id p Hp.
  assert (Hc : loaded_stored [] c).
  { assert (H0' : loaded_stored [] (NewCensusDB w now faults)).
    { split_and!; [exact Hw| |]; cbn; intros ? *; rewrite lookup_empty; [done|by intros []]. }
    revert H0'. induction Hr as [c|c1 c2 c3 Hs _ IH]; [done|]. intros Ha. apply (IH Hp). by apply (census_step_stored c1). }
  destruct Hc as (Hn & Hl & Hs). destruct (Hl id p Hp) as (ref & Href & Hid).
  destruct (Hs id (mk_is_Some _ _ Hp) (not_elem_of_nil _)) as (key & Hk & v & Hv). destruct (Hn id key v Hk Hv) as (h & t & Hd).
  by exists ref, key, v, h, t.
Qed.

(** ** Proofs of membership *)

(** C19: If the proofs of the trees verify, so do the proofs that the database makes of them: what it hands out for
    an address is a proof of that address which [VerifyProof] accepts. And the leaf binds the voter: a proof
    with the same leaf that is accepted with a weight of 88 bits is of the same address and the same weight. *)
Theorem generated_proof_verifies root leafKey c proof c' :
  (∀ t a w ip, tree_GenerateProof t a w = Ok ip → 0 ≤ ip_Root ip ∧ 0 ≤ ip_Weight ip ∧ Forall (Z.le 0) (ip_Siblings ip) ∧
     VerifyProofWith {| mp_Root := ip_Root ip; mp_Leaf := packed_leaf a (ip_Weight ip); mp_PathBits := ip_PathBits ip;
                        mp_Siblings := ip_Siblings ip |} = true) →
  ProofByRoot root leafKey c = (Ok proof, c') →
  pf_Address proof = Some leafKey ∧ CensusDB_VerifyProof (Some proof) = true ∧
  ∀ other w w', pf_Value other = pf_Value proof → CensusDB_VerifyProof (Some other) = true →
    pf_Weight proof = Some w → pf_Weight other = Some w' → w < 2 ^ 88 → 0 ≤ w' < 2 ^ 88 →
    BytesToAddress (default [] (pf_Address other)) = leafKey ∧ w' = w.
Proof.
  intros Htree Hp. unfold ProofByRoot in Hp. apply bind_inv_Ok in Hp as (p & c1 & _ & Hp). apply bind_inv_Ok in Hp as (ref & c2 & _ & Hp).
  destruct (Nat.eqb_spec (length leafKey) 20) as [Hlen|]; [|done]. cbn [negb] in Hp. rewrite BytesToAddress_20 in Hp by done.
  apply bind_inv_Ok in Hp as (t & c3 & _ & Hp). apply bind_inv_Ok in Hp as (w0 & c4 & _ & Hp).
  apply bind_inv_Ok in Hp as (ip & c5 & Hip & Hp). apply bind_inv_Ok in Hp as (siblings & c6 & Hsib & Hp).
  injection Hip as Hip _. injection Hsib as Hsib _. injection Hp as <- _. destruct (Htree t leafKey w0 ip Hip) as (Hr & Hw & Hs & Hv).
  assert (Hleaf : be_combine (big_Bytes (packed_leaf leafKey (ip_Weight ip))) = packed_leaf leafKey (ip_Weight ip)).
  { apply big_Bytes_SetBytes. unfold packed_leaf. rewrite Z.lor_nonneg, Z.shiftl_nonneg. split; [apply be_combine_range|done]. }
  split_and!; [done| |].
  - unfold CensusDB_VerifyProof. cbn [census_proof pf_Weight pf_Address pf_Value pf_Root pf_PathBits pf_Siblings from_option id].
    rewrite BytesToAddress_20, Hleaf, Z.eqb_refl, big_Bytes_SetBytes, (unpack_pack _ _ Hsib) by done.
    assert (Habs : Z.abs <$> ip_Siblings ip = ip_Siblings ip).
    { clear -Hs. induction Hs as [|z l Hz _ IH]; [done|]. rewrite fmap_cons, IH, Z.abs_eq by done. done. }
    rewrite Habs. exact Hv.
  - intros other w w' Hval Hok Hpw How Hsmall Hw'. cbn in Hval, Hpw. injection Hpw as <-. unfold CensusDB_VerifyProof in Hok. rewrite How in Hok.
    apply andb_prop in Hok as [Hok _]. apply Z.eqb_eq in Hok. rewrite Hval, Hleaf in Hok.
    apply packed_leaf_inj in Hok as [-> ->]; [done|done|lia|]. by rewrite length_BytesToAddress.
Qed.

(** ** Imports and restarts *)

Lemma LoadByRoot_new_tree root c v h t0 tr w' : loadedCensus c !! rootToCensusID root = None → c_faults c = [] →
  db_Get (rootDBPrefix root) c = Some v → gob_Decode v = Ok (rootToCensusID root, h, t0) →
  (∀ x, ∃ b, gob_Encode x = Ok b) → NewCensusIMTWithPebble (censusPrefix (rootToCensusID root)) (c_world c) = (Ok tr, w') →
  ∃ p c2 ref d, LoadByRoot root c = (Ok p, c2) ∧ c_refs c2 !! p = Some ref ∧ r_tree ref = Some tr ∧ c_world c2 = set_db d w'.
Proof.
  intros Hl Hf Hv Hd Henc Ho. unfold LoadByRoot, loadCensusRef. unfold mbind at 1, SE_bind at 1. cbn [get_state]. rewrite Hl, Hv.
  unfold mbind at 1, SE_bind at 1, lift. rewrite Hd. unfold mbind at 1, SE_bind at 1, in_world. rewrite Ho.
  unfold mbind at 1, SE_bind at 1, tree_root, gets. unfold mbind, SE_bind, writeReferenceWithPrefix, lift. cbn [r_ID r_HashType r_LastUsed].
  destruct (Henc (rootToCensusID root, h, c_now c)) as [b Hb]. unfold mbind, SE_bind. rewrite Hb. unfold db_Commit. cbn [c_faults set_world].
  rewrite Hf. eexists _, _, _, _. split; [reflexivity|]. cbn. split; [by apply list_lookup_middle|]. done.
Qed.
Lemma newCensus_Ok id key t c p c1 : newCensus id key (Some t) c = (Ok p, c1) →
  loadedCensus c1 !! id = Some p ∧ (∃ b, db_Get key c1 = Some b ∧ gob_Decode b = Ok (id, "poseidon"%string, c_now c)) ∧
  (∃ ref, c_refs c1 !! p = Some ref ∧ r_tree ref = Some t) ∧ w_disk (c_world c1) = w_disk (c_world c) ∧ c_removals c1 = c_removals c.
Proof.
  unfold newCensus. intros Hn. apply bind_inv_Ok in Hn as (c0 & c0' & [= <- <-] & Hn). case_bool_decide; [done|]. case_bool_decide; [done|].
  apply bind_inv_Ok in Hn as (t' & c2 & [= <- <-] & Hn). apply bind_inv_Ok in Hn as (root & c2 & [= <- <-] & Hn).
  apply bind_inv_Ok in Hn as (u & c2 & Hw & Hn). unfold enter in Hn. injection Hn as <- <-.
  unfold wrapping in Hw. destruct (writeReferenceWithPrefix _ _ c) as [[[]|e] c3] eqn:Hwr; [|done]. injection Hw as _ ->.
  unfold writeReferenceWithPrefix, mbind, SE_bind, lift in Hwr. destruct (gob_Encode _) as [b|e] eqn:Hb; [|done]. apply gob_roundtrip in Hb.
  assert (Hc : w_db (c_world c2) = apply_writes {[key := Some b]} (w_db (c_world c)) ∧ w_disk (c_world c2) = w_disk (c_world c) ∧
    c_removals c2 = c_removals c).
  { unfold db_Commit in Hwr. destruct (c_faults c) as [|[] l]; [|done|]; injection Hwr as <-; done. }
  destruct Hc as (Hdb & Hdisk & Hrem). split_and!; cbn.
  - by rewrite lookup_insert_eq.
  - exists b. split; [|exact Hb]. unfold db_Get. cbn. by rewrite Hdb, lookup_apply_writes, lookup_singleton_eq.
  - eexists. by rewrite list_lookup_middle.
  - done.
  - done.
Qed.

(** What an import of a census that is not there ends with. *)
Lemma newCensus_exists id key t c e c' : (∀ x, ∃ b, gob_Encode x = Ok b) → exists_under id key c = false →
  newCensus id key (Some t) c = (Err e, c') → errors_Is e ErrCensusAlreadyExists = false.
Proof.
  intros Henc [Hl Hd]%orb_false_iff. apply bool_decide_eq_false in Hl, Hd. unfold newCensus. intros Hn.
  unfold mbind at 1, SE_bind at 1 in Hn. cbn [get_state] in Hn. rewrite !bool_decide_eq_false_2 in Hn by done.
  unfold mbind at 1, SE_bind at 1, mret, SE_ret in Hn. unfold mbind at 1, SE_bind at 1, tree_root, gets in Hn.
  unfold mbind, SE_bind, wrapping, writeReferenceWithPrefix, lift, mbind in Hn. cbn [r_ID r_HashType r_LastUsed] in Hn.
  destruct (Henc (id, "poseidon"%string, c_now c)) as [b Hb]. unfold SE_bind in Hn. rewrite Hb in Hn. unfold db_Commit in Hn.
  destruct (c_faults c) as [|[] l]; cbn in Hn; by simplify_eq.
Qed.
Lemma in_world_exists {A} (m : SE IMTWorld A) id key c : key_of id key → moves keeps_refs m →
  exists_under id key (in_world m c).2 = exists_under id key c.
Proof.
  intros Hk Hm. unfold in_world, exists_under, db_Get. specialize (Hm (c_world c)). destruct (m (c_world c)) as [r w]. cbn in Hm |- *.
  by rewrite (Hm key (key_of_no_tree _ _ Hk)).
Qed.
Lemma Import_new root data c p c1 : (∀ x, ∃ b, gob_Encode x = Ok b) → ExistsByRoot root c = false → Import root data c = (Ok p, c1) →
  ∃ t c4, newCensus (rootToCensusID root) (rootDBPrefix root) (Some t) c4 = (Ok p, c1).
Proof.
  intros Henc Hex Himp. unfold Import in Himp. apply bind_inv_Ok in Himp as (c0 & c0' & [= <- <-] & Himp). rewrite Hex in Himp.
  apply bind_inv_Ok in Himp as (tr & c2 & H2'%wrapping_Ok & Himp). apply bind_inv_Ok in Himp as ([] & c3 & H3'%wrapping_Ok & Himp).
  apply bind_inv_Ok in Himp as ([] & c4 & H4'%wrapping_Ok & Himp).
  apply bind_inv_Ok in Himp as (r & c5 & Hnew & Himp). exists tr, c4. rewrite attempt_eq in Hnew. injection Hnew as Hr Hc5.
  assert (Hex4 : ExistsByRoot root c4 = false).
  { unfold ExistsByRoot in *. pose proof (key_root root) as Hk.
    rewrite <-(in_world_exists _ _ _ c Hk (open_db_keeps (rootToCensusID root))), H2' in Hex. cbn [snd] in Hex.
    rewrite <-(in_world_exists _ _ _ c2 Hk (import_keeps tr (be_combine root) data)), H3' in Hex. cbn [snd] in Hex.
    by rewrite <-(in_world_exists _ _ _ c3 Hk (sync_keeps tr)), H4' in Hex. }
  destruct (newCensus _ _ _ c4) as [[p0|e] c6] eqn:Hn; cbn in Hr, Hc5; subst r c5; [by injection Himp as <- <-|].
  by rewrite (newCensus_exists _ _ _ _ _ _ Henc Hex4 Hn) in Himp.
Qed.

(** C30: A census that was imported from a stream of lines is empty after a restart, and stays so: its tree was
    written below a prefix of the database, but a stored reference is loaded with the tree of a directory,
    which nobody wrote. Since the reference is there, importing the census again changes nothing. *)
Theorem import_lost_on_restart root data c p c1 :
  (∀ x, ∃ b, gob_Encode x = Ok b) →
  (∀ path w, w_disk w !! path = None → ∃ t w', NewCensusIMTWithPebble path w = (Ok t, w') ∧ ∀ d, tree_Root t (set_db d w') = None) →
  ExistsByRoot root c = false → Import root data c = (Ok p, c1) →
  w_disk (c_world c1) !! censusPrefix (rootToCensusID root) = None → c_faults c1 = [] →
  ExistsByRoot root (restart c1) = true ∧
  ∃ p' c2, LoadByRoot root (restart c1) = (Ok p', c2) ∧ Import root data (restart c1) = (Ok p', c2) ∧ (Root p' c2).1 = Ok [].
Proof.
  intros Henc Hopen Hex Himp Hdisk Hf.
  apply Import_new in Himp as (tr0 & c4 & Hn); [|done|done]. apply newCensus_Ok in Hn as (_ & (b & Hb & Hd) & _).
  assert (Hexr : ExistsByRoot root (restart c1) = true).
  { unfold ExistsByRoot, exists_under. apply orb_true_iff. right. apply bool_decide_eq_true. exists b. exact Hb. }
  split; [exact Hexr|].
  destruct (Hopen (censusPrefix (rootToCensusID root)) (c_world (restart c1)) Hdisk) as (tr & w' & Ho & Hroot).
  destruct (LoadByRoot_new_tree root (restart c1) b _ _ tr w' (lookup_empty _) Hf Hb Hd Henc Ho) as (p' & c2 & ref & d & Hload & Href & Htr & Hw).
  exists p', c2. split; [exact Hload|]. split.
  - unfold Import. unfold mbind, SE_bind. cbn [get_state]. rewrite Hexr. exact Hload.
  - unfold Root, the_tree, tree_root. unfold mbind, SE_bind, load_ref, lift, gets. rewrite Href, Htr, Hw, Hroot. done.
Qed.

(** ** Replaced censuses *)

Lemma run_removal_eq i path c : c_removals c !! i = Some path → run_removal i c =
  (Ok (), set_world (set_disk (delete path (w_disk (c_world c))) (c_world c)) (set_removals (delete i (c_removals c)) c)).
Proof. intros Hi. unfold run_removal, mbind, SE_bind. cbn [get_state]. by rewrite Hi. Qed.
(** A census of a contract that is replaced loses its new tree as well: the removal of the old directory
    runs in the background, and when it ends it has removed the directory that the new tree was
    opened in, which has the same path. *)
Theorem replaced_census_is_removed chainID address data c p c1 :
  ExistsByScopedAddress chainID address c = true → c_removals c = [] →
  ImportAllByScopedAddress chainID address data c = (Ok p, c1) →
  let path := censusPrefix (scopedAddressToCensusID chainID address) in
  (∃ ref t w w', c_refs c1 !! p = Some ref ∧ r_tree ref = Some t ∧ NewCensusIMTWithPebble path w = (Ok t, w')) ∧
  c_removals c1 = [path] ∧
  loadedCensus (run_removal 0 c1).2 = loadedCensus c1 ∧ w_disk (c_world (run_removal 0 c1).2) !! path = None.
Proof.
  intros Hex Hrem Himp path. unfold ImportAllByScopedAddress in Himp.
  apply bind_inv_Ok in Himp as ([dump root] & c2 & Hdump & Himp).
  assert (c2 = c) as ->.
  { unfold decode_dump, wrapping, lift, mbind, SE_bind in Hdump. destruct (json_Unmarshal data) as [d|]; [|done].
    destruct (dump_Root d); [|done]. by injection Hdump as _ _ <-. }
  apply bind_inv_Ok in Himp as ([] & c3 & Hrep & Himp). unfold replace_scoped in Hrep.
  apply bind_inv_Ok in Hrep as (c0 & c0' & [= <- <-] & Hrep). rewrite Hex in Hrep. apply wrapping_Ok in Hrep.
  assert (Hr3 : c_removals c3 = [path]).
  { unfold DelByScopedAddress, delCensus in Hrep. apply bind_inv_Ok in Hrep as ([] & c4 & Hc4 & Hrep).
    apply bind_inv_Ok in Hrep as ([] & c5 & Hc5 & Hrep). injection Hrep as <-. cbn.
    assert (Hs : moves (same c_removals) (db_Commit {[scopedAddressDBPrefix chainID address := None]})).
    { intros c'. unfold db_Commit. by destruct (c_faults c') as [|[] ?]. }
    assert (Hu : moves (same c_removals) (unload (scopedAddressToCensusID chainID address))).
    { unfold unload. moves.
      - intros c'. unfold load_ref. by destruct (c_refs c' !! _).
      - intros c'. unfold in_world. by destruct (tree_Close _ _). }
    specialize (Hs c). rewrite Hc4 in Hs. specialize (Hu c4). rewrite Hc5 in Hu. assert (Hs' : c_removals c4 = c_removals c) by exact Hs.
    assert (Hu' : c_removals c5 = c_removals c4) by exact Hu. by rewrite Hu', Hs', Hrem. }
  apply bind_inv_Ok in Himp as (t & c4 & Ho%wrapping_Ok & Himp). apply bind_inv_Ok in Himp as ([] & c5 & Hi%wrapping_Ok & Hn).
  unfold in_world in Ho. destruct (NewCensusIMTWithPebble _ _) as [r w'] eqn:Hopen. injection Ho as -> <-.
  unfold in_world in Hi. destruct (tree_ImportAll _ _ _) as [r w2]. injection Hi as -> <-.
  apply newCensus_Ok in Hn as (Hl & _ & (ref & Href & Htr) & _ & Hr). cbn in Hr. rewrite Hr3 in Hr.
  split; [by exists ref, t, (c_world c3), w'|]. split; [exact Hr|].
  rewrite (run_removal_eq 0 path c1) by by rewrite Hr. split; [done|]. apply lookup_delete_eq.
Qed.

(** ** Publication *)

(** A published census has moved: after the working census was published, the destination has a tree that
    was opened with exactly the root the working census had, records that root and is found by it in
    the index, and the working census is neither loaded nor stored any more. *)
Theorem publish_moves_census id q c c' : PublishCensus id q c = (Ok (), c') →
  ∃ p c1 ref t root, Load id c = (Ok p, c1) ∧ c_refs c1 !! p = Some ref ∧ r_tree ref = Some t ∧
    tree_Root t (c_world c1) = Some root ∧
  ∃ dref t' w w', c_refs c' !! q = Some dref ∧ r_tree dref = Some t' ∧ r_currentRoot dref = big_Bytes root ∧
    NewCensusIMTWithPebble (censusPrefix (r_ID dref)) w = (Ok t', w') ∧ tree_Root t' w' = Some root ∧
    rootIndex c' !! rootKey (big_Bytes root) = Some (r_ID dref) ∧
    loadedCensus c' !! id = None ∧ db_Get (censusIDDBPrefix id) c' = None.
Proof.
  unfold PublishCensus. intros Hp. apply bind_inv_Ok in Hp as (p & c1 & Hload & Hp). apply bind_inv_Ok in Hp as (ref & c2 & Href & Hp).
  unfold load_ref in Href. destruct (c_refs c1 !! p) as [ref0|] eqn:Hr; [|done]. injection Href as -> <-.
  apply bind_inv_Ok in Hp as (t & c2 & Ht & Hp). unfold the_tree, lift in Ht. destruct (r_tree ref) as [t0|] eqn:Htr; [|done].
  injection Ht as -> <-. apply bind_inv_Ok in Hp as (o & c2 & Ho & Hp). injection Ho as <- <-.
  destruct (tree_Root t (c_world c1)) as [root|] eqn:Hroot; [|done].
  exists p, c1, ref, t, root. split_and!; [done..|].
  apply bind_inv_Ok in Hp as ([] & c3 & _ & Hp). apply bind_inv_Ok in Hp as ([] & c4 & _ & Hp).
  apply bind_inv_Ok in Hp as (dref & c5 & Hd & Hp). unfold load_ref in Hd.
  destruct (c_refs c4 !! q) as [dref0|] eqn:Hq; [|done]. injection Hd as -> <-.
  apply bind_inv_Ok in Hp as (dt & c5 & Hdt & Hp). unfold the_tree, lift in Hdt. destruct (r_tree dref); [|done]. injection Hdt as -> <-.
  apply bind_inv_Ok in Hp as ([] & c5 & H5%wrapping_Ok & Hp). apply bind_inv_Ok in Hp as ([] & c6 & H6%wrapping_Ok & Hp).
  apply bind_inv_Ok in Hp as ([] & c7 & H7%wrapping_Ok & Hp). apply bind_inv_Ok in Hp as (t' & c8 & H8%wrapping_Ok & Hp).
  assert (Hrefs : ∀ A (m : SE IMTWorld A) a x x', in_world m x = (Ok a, x') → c_refs x' = c_refs x).
  { intros A m a x x'. unfold in_world. destruct (m _) as [r w]. by intros [= _ <-]. }
  assert (Hq8 : c_refs c8 !! q = Some dref).
  { by rewrite (Hrefs _ _ _ _ _ H8), (Hrefs _ _ _ _ _ H7), (Hrefs _ _ _ _ _ H6), (Hrefs _ _ _ _ _ H5). }
  unfold in_world in H8. destruct (NewCensusIMTWithPebble _ _) as [r w'] eqn:Hopen. injection H8 as -> <-.
  apply bind_inv_Ok in Hp as ([] & c9 & H9 & Hp). injection H9 as <-. apply bind_inv_Ok in Hp as (droot & c9 & Hdr & Hp).
  injection Hdr as <- <-. case_bool_decide as Heq; [|done]. cbn in Heq.
  apply bind_inv_Ok in Hp as ([] & c9 & H9 & Hp). injection H9 as <-.
  unfold forget_working in Hp. apply bind_inv_Ok in Hp as ([] & c9 & Hcom%wrapping_Ok & Hp). injection Hp as <-.
  exists (with_root (big_Bytes root) (with_tree t' dref)), t', (c_world c7), w'.
  assert (Hc9 : c_refs c9 !! q = Some (with_root (big_Bytes root) (with_tree t' dref)) ∧ db_Get (censusIDDBPrefix id) c9 = None).
  { unfold db_Commit in Hcom. cbn in Hcom, Hq8.
    assert (Hgone : ∀ d : kv, apply_writes {[censusIDDBPrefix id := None]} d !! censusIDDBPrefix id = None).
    { intros d. by rewrite lookup_apply_writes, lookup_singleton_eq. }
    destruct (c_faults c7) as [|[] l]; [|done|]; injection Hcom as <-; (split; [|apply Hgone]);
      cbn [c_refs set_world set_faults set_refs]; by rewrite !list_lookup_alter_eq, Hq8. }
  destruct Hc9 as [Hr9 Hdb]. split_and!; cbn; [exact Hr9|done|done|exact Hopen|exact Heq| | |exact Hdb].
  - by rewrite lookup_insert_eq.
  - by rewrite lookup_delete_eq.
Qed.

(** ** The index of roots *)

(** The index of roots does not follow an insertion: when the worker takes the request, the reference already
    has the new root, and the index stays as it was. *)
Lemma insert_keeps_index p key value c c1 : updateRootChan c = [] →
  (∀ ref, c_refs c !! p = Some ref → loadedCensus c !! r_ID ref = Some p) →
  Insert p key value c = (Ok (), c1) → rootIndex (take_request c1).2 = rootIndex c.
Proof.
  intros Hq Hself Hi. unfold Insert in Hi. apply bind_inv_Ok in Hi as (ref & c2 & Href & Hi). unfold load_ref in Href.
  destruct (c_refs c !! p) as [ref0|] eqn:Hr; [|done]. injection Href as -> <-. destruct (negb _); [done|].
  apply bind_inv_Ok in Hi as (t & c2 & Ht & Hi). unfold the_tree, lift in Ht. destruct (r_tree ref); [|done]. injection Ht as -> <-.
  apply bind_inv_Ok in Hi as ([] & c2 & Ha & Hi). unfold in_world in Ha. destruct (tree_Add _ _ _ _) as [r w]. injection Ha as -> <-.
  unfold record_root in Hi. apply bind_inv_Ok in Hi as (o & c2 & Ho & Hi). injection Ho as <- <-.
  destruct (tree_Root t _) as [root|]; [|injection Hi as <-; unfold take_request; cbn; by rewrite Hq].
  apply bind_inv_Ok in Hi as ([] & c2 & Hu & Hi). injection Hu as <-. apply bind_inv_Ok in Hi as (ref' & c2 & Hl & Hi).
  unfold load_ref in Hl. cbn in Hl. rewrite list_lookup_alter_eq, Hr in Hl. cbn in Hl. injection Hl as <- <-.
  unfold request_root, modify in Hi. cbn [updateRootChan set_refs set_world] in Hi. rewrite Hq in Hi. cbn in Hi. injection Hi as <-.
  unfold take_request. cbn [updateRootChan set_requests app]. unfold warn, updateRoot. cbn [snd].
  unfold mbind, SE_bind. cbn [get_state loadedCensus set_requests set_refs set_world]. rewrite (Hself ref eq_refl).
  unfold load_ref. cbn [c_refs set_requests set_refs set_world]. rewrite list_lookup_alter_eq, Hr. cbn [fmap option_fmap option_map].
  rewrite bool_decide_eq_true_2 by done. done.
Qed.

(** ** The storage's lookup of a census *)

(** The database behind the interface that the storage looks censuses up through; a census is its pointer, and
    the address of its contract is read from the record. *)
Definition stored_censuses (address_of : Census → bytes) (c : CensusDB) : Census.CensusDB :=
  {| Census.CensusTree := nat;
     Census.LoadByScopedAddress := λ chainID census, (LoadByScopedAddress (U64 chainID) (address_of census) c).1;
     Census.LoadByRoot := λ census, (LoadByRoot (c_CensusRoot census) c).1 |}.
(** An imported census is what the storage finds for a process with its root. *)
Lemma imported_census_found address_of root data c p c1 chainID census : (∀ x, ∃ b, gob_Encode x = Ok b) →
  ExistsByRoot root c = false → Import root data c = (Ok p, c1) →
  c_CensusRoot census = root → c_CensusOrigin census = CensusOriginMerkleTreeOffchainStaticV1 →
  LoadCensus (H := stored_censuses address_of c1) chainID (Some census) = Ok (Some p).
Proof.
  intros Henc Hex (t & c4 & (Hl & _)%newCensus_Ok)%Import_new Hroot Horigin; [|done|done].
  unfold LoadCensus. rewrite Horigin. cbn. unfold LoadByRoot, loadCensusRef, mbind, SE_bind. cbn [get_state]. by rewrite Hroot, Hl.
Qed.
End censusdb.

(** ** A small tree *)

Module CensusExample.
(** The voters of a tree by their address; a tree is a directory, or a part of the database below a prefix. *)
#[export] Instance types : LeanTypes :=
  {| Dir := kv; Mem := unit; no_trees := tt; Tree := string + bytes; Dump := option Z * list (bytes * Z); dump_Root := fst |}.
Definition leaves (t : string + bytes) (w : IMTWorld) : list (bytes * bytes) :=
  match t with
  | inl path => map_to_list (default ∅ (w_disk w !! path))
  | inr id => entries (censusTreeDBPrefix id) (w_db w)
  end.
Definition leaf_sum (t : string + bytes) (w : IMTWorld) : Z :=
  foldr (λ l z, be_combine l.1 + be_combine l.2 + z) 1 (leaves t w).
Definition add (t : string + bytes) (address : bytes) (weight : Z) (w : IMTWorld) : IMTWorld :=
  match t with
  | inl path => set_disk (<[path := <[address := big_Bytes weight]> (default ∅ (w_disk w !! path))]> (w_disk w)) w
  | inr id => set_db (<[censusTreeDBPrefix id ++ address := big_Bytes weight]> (w_db w)) w
  end.
Definition find_leaf (t : string + bytes) (address : bytes) (w : IMTWorld) : option bytes :=
  match t with
  | inl path => default ∅ (w_disk w !! path) !! address
  | inr id => w_db w !! (censusTreeDBPrefix id ++ address)
  end.
Definition modulus : Z := 256 ^ 32.
Definition prove (t : string + bytes) (address : bytes) (w : IMTWorld) : result IMTProof :=
  match find_leaf t address w with
  | None => Err (ErrMsg "address not found")
  | Some v =>
      let root := leaf_sum t w mod modulus in
      Ok {| ip_Root := root; ip_Address := address; ip_Weight := be_combine v; ip_AddressIndex := U64 0; ip_PathBits := U64 0;
            ip_Siblings := [(root - packed_leaf address (be_combine v)) mod modulus] |}
  end.
Definition verify (p : MerkleProof) : bool := (mp_Leaf p + foldr Z.add 0 (mp_Siblings p)) mod modulus =? mp_Root p.
Definition adds (t : string + bytes) (l : list (bytes * Z)) (w : IMTWorld) : IMTWorld := foldl (λ w l, add t l.1 l.2 w) w l.

Definition open_dir (path : string) (w : IMTWorld) : IMTWorld :=
  match w_disk w !! path with Some _ => w | None => set_disk (<[path := ∅]> (w_disk w)) w end.
Lemma add_refs t a z w : keeps_refs w (add t a z w).
Proof.
  intros k Hk. destruct t as [path|id]; [done|]. unfold add, set_db. cbn [w_db]. apply lookup_insert_ne. intros <-.
  unfold censusTreeDBPrefix in Hk. rewrite <-app_assoc in Hk. by rewrite HasPrefix_app in Hk.
Qed.
Lemma adds_refs t l w : keeps_refs w (adds t l w).
Proof.
  revert w. induction l as [|[a z] l IH]; intros w k Hk; [done|].
  exact (eq_trans (IH (add t a z w) k Hk) (add_refs t a z w k Hk)).
Qed.
#[export] Program Instance imt : LeanIMT := {|
  NewCensusIMTWithPebble path := λ w, (Ok (inl path), open_dir path w);
  NewCensusIMT prefix := λ w, (Ok (inr (drop 3 prefix)), w);
  tree_Root t w := if bool_decide (leaves t w = []) then None else Some (leaf_sum t w mod modulus);
  tree_Size t w := Z.of_nat (length (leaves t w));
  tree_GenerateProof := prove;
  tree_Add t a z := λ w, (Ok (), add t a z w);
  tree_AddBulk t l := λ w, (Ok (), adds t l w);
  tree_ApplyEvents t l := λ w, (Ok (), adds t ((λ e, (ev_Address e, ev_NewWeight e)) <$> l) w);
  tree_Import t root data := λ w, (Ok (), add t (take 20 data) (be_combine (drop 20 data)) w);
  tree_ImportAll t d := λ w, (Ok (), adds t d.2 w);
  tree_Sync t := λ w, (Ok (), w); tree_Close t := λ w, (Ok (), w);
  json_Unmarshal data := Ok (Some 7, [(take 20 data, be_combine (drop 20 data))]);
  VerifyProofWith := verify |}.
Next Obligation. intros path w k Hk. cbn. unfold open_dir. by destruct (w_disk w !! path). Qed.
Next Obligation. done. Qed.
Next Obligation. intros t a z w. apply add_refs. Qed.
Next Obligation. intros t l w. apply adds_refs. Qed.
Next Obligation. intros t l w. apply adds_refs. Qed.
Next Obligation. intros t root data w. apply add_refs. Qed.
Next Obligation. intros t d w. apply adds_refs. Qed.
Next Obligation. done. Qed.
Next Obligation. done. Qed.
#[export] Instance uuids : UUIDs := λ text, be_split 16 (be_combine text).
#[export] Instance temp_dir : TempDir := "/tmp"%string.
Definition gob_read (b : bytes) : result (bytes * string * Time) :=
  match decode (Z.to_pos (be_combine b)) with Some x => Ok x | None => Err (ErrMsg "gob") end.
#[export] Program Instance codec : RefCodec := {|
  gob_Encode x := Ok (big_Bytes (Z.pos (encode x)));
  gob_Decode := gob_read |}.
Next Obligation.
  intros x b [= <-]. unfold gob_read. rewrite big_Bytes_SetBytes by done. cbn [Z.to_pos]. by rewrite decode_encode.
Qed.

(** A census of one voter is imported. *)
Definition world0 : IMTWorld := {| w_disk := ∅; w_db := ∅; w_mem := tt |}.
Definition census_root : bytes := byte_of_Z <$> [9; 8].
Definition voter : bytes := byte_of_Z <$> seqZ 1 20.
Definition empty_db : CensusDB := NewCensusDB world0 5 [].
Definition imported : CensusDB := (Import census_root (voter ++ [byte_of_Z 3]) empty_db).2.
Lemma names_nothing : names_db (w_db world0).
Proof. intros id key v _ Hv. assert (Hn : (∅ : kv) !! key = Some v) by exact Hv. by rewrite lookup_empty in Hn. Qed.
Lemma imported_ok : Import census_root (voter ++ [byte_of_Z 3]) empty_db = (Ok 0%nat, imported).
Proof. refine (run_eq _ _ (Ok 0%nat) _). by vm_compute. Qed.
Lemma loaded_censuses_are_stored_witness : ∃ ref key v h t, c_refs imported !! 0%nat = Some ref ∧ r_ID ref = rootToCensusID census_root ∧
  key_of (rootToCensusID census_root) key ∧ w_db (c_world imported) !! key = Some v ∧ gob_Decode v = Ok (rootToCensusID census_root, h, t).
Proof.
  apply (loaded_censuses_are_stored world0 5 [] imported names_nothing).
  - apply rtc_once, (step_Import census_root (voter ++ [byte_of_Z 3]) empty_db).
  - by vm_compute.
Defined.
Lemma prove_verifies t a w ip : tree_GenerateProof t a w = Ok ip → 0 ≤ ip_Root ip ∧ 0 ≤ ip_Weight ip ∧ Forall (Z.le 0) (ip_Siblings ip) ∧
  VerifyProofWith {| mp_Root := ip_Root ip; mp_Leaf := packed_leaf a (ip_Weight ip); mp_PathBits := ip_PathBits ip;
                     mp_Siblings := ip_Siblings ip |} = true.
Proof.
  cbn. unfold prove. destruct (find_leaf t a w) as [v|]; [|done]. intros [= <-]. cbn -[modulus packed_leaf].
  assert (Hm : 0 < modulus) by done. split_and!; [by apply Z.mod_pos_bound|apply be_combine_range|repeat constructor; by apply Z.mod_pos_bound|].
  unfold verify. cbn -[modulus packed_leaf]. apply Z.eqb_eq. rewrite Z.add_0_r, Z.add_mod_idemp_r by done.
  rewrite Zplus_minus. by apply Z.mod_mod.
Qed.
Lemma generated_proof_verifies_witness : ∃ proof, eval (ProofByRoot census_root voter) imported = Ok proof ∧
  pf_Weight proof = Some 3 ∧ pf_Address proof = Some voter ∧ CensusDB_VerifyProof (Some proof) = true.
Proof.
  assert (Hp : ∃ proof, eval (ProofByRoot census_root voter) imported = Ok proof ∧ pf_Weight proof = Some 3).
  { eexists. split; [vm_compute; reflexivity|reflexivity]. }
  destruct Hp as (proof & Hp & Hw). exists proof. split; [exact Hp|]. split; [exact Hw|].
  destruct (generated_proof_verifies census_root voter imported proof (exec (ProofByRoot census_root voter) imported) prove_verifies
    (run_eq _ _ _ Hp)) as (Ha & Hv & _).
  exact (conj Ha Hv).
Defined.
Lemma new_directory path (w : IMTWorld) : w_disk w !! path = None →
  ∃ t w', NewCensusIMTWithPebble path w = (Ok t, w') ∧ ∀ d, tree_Root t (set_db d w') = None.
Proof. intros Hp. cbn. unfold open_dir. rewrite Hp. eexists _, _. split; [done|]. intros d. cbn.
  rewrite lookup_insert_eq. cbn. by rewrite map_to_list_empty.
Qed.
Lemma encodes (x : bytes * string * Time) : ∃ b, gob_Encode x = Ok b.
Proof. by eexists. Qed.
Lemma import_lost_on_restart_witness : (Root 0 imported).1 ≠ Ok [] ∧
  ∃ p' c2, Import census_root (voter ++ [byte_of_Z 3]) (restart imported) = (Ok p', c2) ∧ (Root p' c2).1 = Ok [].
Proof.
  split; [by vm_compute|].
  destruct (import_lost_on_restart census_root (voter ++ [byte_of_Z 3]) empty_db 0 imported encodes new_directory
    ltac:(by vm_compute) imported_ok ltac:(by vm_compute) ltac:(by vm_compute)) as (_ & p' & c2 & _ & Hi & Hr).
  exists p', c2. exact (conj Hi Hr).
Defined.

(** The census of a contract is imported twice. *)
Definition contract : bytes := byte_of_Z <$> seqZ 30 20.
Definition once : CensusDB := (ImportAllByScopedAddress (U64 1) contract (voter ++ [byte_of_Z 3]) empty_db).2.
Definition twice : CensusDB := (ImportAllByScopedAddress (U64 1) contract (voter ++ [byte_of_Z 4]) once).2.
Lemma twice_ok : ImportAllByScopedAddress (U64 1) contract (voter ++ [byte_of_Z 4]) once = (Ok 1%nat, twice).
Proof. refine (run_eq _ _ (Ok 1%nat) _). by vm_compute. Qed.
Lemma replaced_census_is_removed_witness : (Size 1 twice).1 = Ok 1 ∧
  w_disk (c_world (run_removal 0 twice).2) !! censusPrefix (scopedAddressToCensusID (U64 1) contract) = None.
Proof.
  split; [by vm_compute|].
  apply (replaced_census_is_removed (U64 1) contract (voter ++ [byte_of_Z 4]) once 1 twice); [by vm_compute|by vm_compute|exact twice_ok].
Defined.

(** A working census gets a voter and is published under its root. *)
Definition working : bytes := be_split 16 77.
Definition voted_in : CensusDB := exec (Insert 0 voter [byte_of_Z 2]) (exec (New working) empty_db).
Definition with_destination : CensusDB := exec (NewByRoot census_root) voted_in.
Definition published : CensusDB := exec (PublishCensus working 1) with_destination.
Lemma published_ok : PublishCensus working 1 with_destination = (Ok (), published).
Proof. refine (run_eq _ _ (Ok ()) _). by vm_compute. Qed.
Lemma publish_moves_census_witness : (Size 1 with_destination).1 = Ok 0 ∧ (Size 1 published).1 = Ok 1 ∧
  loadedCensus published !! working = None.
Proof.
  split_and!; [by vm_compute..|].
  destruct (publish_moves_census working 1 with_destination published published_ok)
    as (p & c1 & ref & t & root & _ & _ & _ & _ & dref & t' & w & w' & _ & _ & _ & _ & _ & _ & Hl & _).
  exact Hl.
Defined.
End CensusExample.
