(* ===== verification/CensusImport.v ===== *)
(** * The import of censuses

    [src/census]: the importer that chooses a plugin by the address of a census, the plugin that
    downloads a dump in JSON, and the plugin that asks a GraphQL server for the changes of weights,
    page by page. What the servers answer during one import is a parameter, as is the decoding of
    JSON; a body is read without errors, and no context ends. *)

From S2P Require Import Prelude Bytes DB Spec Types Hex Census Workers Csp Censusdb.

(** ** What is asked of servers *)

Record Response := { StatusCode : Z; ContentType : string; Body : bytes }.
(** [src/census/graphql.go:58-64] *)
Record graphqlResponseData := { Account_ID : string; PreviousWeight : bytes; NewWeight : bytes }.
(** The answers: to a GET, and to the query for a page; the decoding of JSON: the rest after a value, the
    errors and the data of an answer, the events of the data; and the address of the contract of a census. *)
Class CensusNet := {
  http_Get : string → result Response;
  http_Post : string → Z → Z → result Response;
  json_Decode : bytes → result bytes;
  json_response : bytes → result (list string * bytes);
  json_events : bytes → result (list graphqlResponseData);
  ContractAddress : Census → bytes }.
Definition zero_address : bytes := replicate 20 (byte_of_Z 0).
Definition StatusOK : Z := 200.
(** [strings.TrimPrefix] *)
Definition strings_TrimPrefix (s p : string) : string :=
  if String.prefix p s then String.substring (String.length p) (String.length s - String.length p) s else s.

Section import.
Context `{LeanIMT} `{UUIDs} `{TempDir} `{RefCodec} `{EthAddress} `{CensusNet}.
Notation M := (SE CensusDB).

(** ** Dumps in JSON *)

(** [src/census/json.go:18-30] JSONFormat *)
Inductive JSONFormat := JSONL | JSONArray | UnknownJSON.
(** [src/census/json.go:33-42] JSONFormat.String *)
Definition JSONFormat_String (format : JSONFormat) : string :=
  match format with JSONL => "jsonl" | JSONArray => "json" | UnknownJSON => "unknown" end.
(** [src/census/json.go:54-56] jsonImporter.ValidURI *)
Definition json_ValidURI (targetURI : string) : bool := String.prefix "http://" targetURI || String.prefix "https://" targetURI.
(** [src/census/json.go:97-122] *)
Definition requestRawDump (targetURL : string) : result Response :=
  match http_Get targetURL with
  | Err e => Err (Wrap "failed to download JSON dump" e)
  | Ok res => if StatusCode res =? StatusOK then Ok res
              else Err (ErrMsg ("failed to download JSON dump: status code " +:+ pretty (StatusCode res)))
  end.
(** [src/census/json.go:128-159] jsonReader: what is read to look at it is read again *)
Definition jsonReader (res : Response) : result (bytes * JSONFormat) :=
  let contentType := strings_ToLower (ContentType res) in
  if strings_Contains contentType "ndjson" || strings_Contains contentType "jsonl" then Ok (Body res, JSONL)
  else if strings_Contains contentType "application/json" then Ok (Body res, JSONArray)
  else match json_Decode (Body res) with
       | Err e => Err (Wrap "failed to decode JSON response" e)
       | Ok rest => Ok (Body res, match json_Decode rest with Ok _ => JSONL | Err _ => JSONArray end)
       end.
Definition onchain_dynamic (census : Census) : bool := c_CensusOrigin census =? CensusOriginMerkleTreeOnchainDynamicV1.
(** [src/census/json.go:164-209] *)
Definition importJSONDump (format : JSONFormat) (chainID : uint64) (census : Census) (data : bytes) : M Z :=
  let expectedRoot := c_CensusRoot census in
  match format with
  | JSONL =>
      p ← wrapping "failed to import jsonl census dump"
            (if onchain_dynamic census then ImportByScopedAddress chainID (ContractAddress census) expectedRoot data
             else Import expectedRoot data);
      Size p
  | JSONArray =>
      p ← wrapping "failed to import json census dump"
            (if onchain_dynamic census then ImportAllByScopedAddress chainID (ContractAddress census) data
             else ImportAll data);
      root ← Root p;
      if bool_decide (root = expectedRoot) then Size p else raise (ErrMsg "imported census root mismatch")
  | UnknownJSON => raise (ErrMsg "unknown JSON format: unknown")
  end.
(** [src/census/json.go:61-92] jsonImporter.ImportCensus *)
Definition json_ImportCensus (chainID : uint64) (census : Census) (_ : Z) : M Z :=
  res ← wrapping "failed to download JSON dump" (lift (requestRawDump (c_CensusURI census)));
  '(data, format) ← wrapping "failed to download census merkle tree" (lift (jsonReader res));
  wrapping "failed to import census merkle tree" (importJSONDump format chainID census data).

(** ** Events of a GraphQL server *)

(** [src/census/graphql.go:69-90] graphqlResponseData.toGraphQLEvent *)
Definition toGraphQLEvent (e : graphqlResponseData) : result CensusEvent :=
  let addr := HexToAddress (Account_ID e) in
  if bool_decide (addr = zero_address) then Err (ErrMsg "invalid account address")
  else match big_SetString10 (PreviousWeight e) with
       | None => Err (ErrMsg "invalid previous weight")
       | Some prevWeight =>
           match big_SetString10 (NewWeight e) with
           | None => Err (ErrMsg "invalid new weight")
           | Some newWeight => Ok {| ev_Address := addr; ev_PrevWeight := prevWeight; ev_NewWeight := newWeight |}
           end
       end.
(** [src/census/graphql.go:93-97] *)
Record GraphQLImporterConfig := { PageSize : Z; QueryTimeout : Z; Insecure : bool }.
(** [src/census/graphql.go:41-45] *)
Definition defaultConfig : GraphQLImporterConfig := {| PageSize := 1000; QueryTimeout := 30 * second; Insecure := false |}.
(** [src/census/graphql.go:101-116] GraphQLImporter; it fills the configuration that it was given *)
Definition GraphQLImporter (config : option GraphQLImporterConfig) : GraphQLImporterConfig :=
  let config := default defaultConfig config in
  {| PageSize := if PageSize config <=? 0 then PageSize defaultConfig else PageSize config;
     QueryTimeout := if QueryTimeout config <=? 0 then QueryTimeout defaultConfig else QueryTimeout config;
     Insecure := Insecure config |}.
(** [src/census/graphql.go:128-130] graphqlImporter.ValidURI *)
Definition graphql_ValidURI (targetURI : string) : bool := String.prefix "graphql://" targetURI.
(** [src/census/graphql.go:183-192] *)
Definition endpointFromURI (targetURI : string) (insecure : bool) : result string :=
  if negb (String.prefix "graphql://" targetURI) then Err (ErrMsg "invalid GraphQL URI")
  else Ok ((if insecure then "http://" else "https://") +:+ strings_TrimPrefix targetURI "graphql://").
(** [src/census/graphql.go:292-298] the events of a page, in queryEvents *)
Fixpoint page_events (l : list graphqlResponseData) : result (list CensusEvent) :=
  match l with
  | [] => Ok []
  | item :: l => match toGraphQLEvent item with
                 | Err e => Err (Wrap "error converting event" e)
                 | Ok event => match page_events l with Err e => Err e | Ok events => Ok (event :: events) end
                 end
  end.
(** [src/census/graphql.go:241-302] one page, in queryEvents: how many events it has, and the events *)
Definition query_page (url : string) (first skip : Z) : result (nat * list CensusEvent) :=
  match http_Post url first skip with
  | Err e => Err (Wrap "error executing request" e)
  | Ok res =>
      if negb (StatusCode res =? StatusOK) then Err (ErrMsg ("non-200 response: " +:+ pretty (StatusCode res)))
      else match json_response (Body res) with
           | Err e => Err (Wrap "error decoding response" e)
           | Ok ([], data) =>
               match json_events data with
               | Err e => Err (Wrap "error unmarshaling data" e)
               | Ok l => match page_events l with Err e => Err e | Ok events => Ok (length l, events) end
               end
           | Ok (_, _) => Err (ErrMsg "graphql errors")
           end
  end.
(** [src/census/graphql.go:216-312] queryEvents, with fuel for the pages *)
Fixpoint queryEvents (fuel : nat) (url : string) (skip pageSize : Z) (results : list CensusEvent) : result (list CensusEvent) :=
  match fuel with
  | O => Err (ErrMsg "out of fuel")
  | S fuel =>
      match query_page url pageSize skip with
      | Err e => Err e
      | Ok (receivedEvents, events) =>
          if Z.of_nat receivedEvents <? pageSize then Ok (results ++ events)
          else queryEvents fuel url (skip + pageSize) pageSize (results ++ events)
      end
  end.
(** [src/census/graphql.go:135-179] graphqlImporter.ImportCensus *)
Definition graphql_ImportCensus (fuel : nat) (d : GraphQLImporterConfig) (chainID : uint64) (census : Census) (processedElements : Z) : M Z :=
  endpoint ← wrapping "invalid GraphQL URI" (lift (endpointFromURI (c_CensusURI census) (Insecure d)));
  events ← wrapping "failed to query GraphQL events" (lift (queryEvents fuel endpoint processedElements (PageSize d) []));
  if bool_decide (events = []) then mret processedElements
  else
    c ← get_state;
    (if negb (ExistsByScopedAddress chainID (ContractAddress census) c) then
       _ ← wrapping "failed to import census from events"
             (ImportEventsByScopedAddress chainID (ContractAddress census) (c_CensusRoot census) events);
       mret ()
     else
       p ← wrapping "failed to load census by address" (LoadByScopedAddress chainID (ContractAddress census));
       wrapping "failed to update census from events" (ApplyEvents p events);;
       finalRoot ← Root p;
       if bool_decide (finalRoot = c_CensusRoot census) then mret ()
       else raise (ErrMsg "final root mismatch after applying events"));;
    mret (processedElements + Z.of_nat (length events)).

(** ** The importer *)

(** [src/census/importer.go:19-22] ImporterPlugin *)
Record ImporterPlugin := { pl_ValidURI : string → bool; pl_ImportCensus : uint64 → Census → Z → M Z }.
(** [src/census/json.go:45-47] *)
Definition JSONImporter : ImporterPlugin := {| pl_ValidURI := json_ValidURI; pl_ImportCensus := json_ImportCensus |}.
Definition graphql_plugin (fuel : nat) (d : GraphQLImporterConfig) : ImporterPlugin :=
  {| pl_ValidURI := graphql_ValidURI; pl_ImportCensus := graphql_ImportCensus fuel d |}.
(** [src/census/importer.go:49-87] CensusImporter.ImportCensus *)
Definition ImportCensus (plugins : list ImporterPlugin) (chainID : uint64) (census : option Census) (processedElements : Z) : M Z :=
  match census with
  | None => raise (ErrMsg "census is nil")
  | Some census =>
      if negb (CensusOrigin_Valid (c_CensusOrigin census)) then raise (ErrMsg "invalid census origin")
      else if IsMerkleTree (c_CensusOrigin census) then
        if onchain_dynamic census && (u64Z chainID =? 0) then raise (ErrMsg "chain ID is required for dynamic on-chain census import")
        else
          c ← get_state;
          if ExistsByRoot (c_CensusRoot census) c then mret processedElements
          else match List.find (λ plugin, pl_ValidURI plugin (c_CensusURI census)) plugins with
               | Some plugin => pl_ImportCensus plugin chainID census processedElements
               | None => raise (ErrMsg "no importer plugin found for census URI")
               end
      else if IsCSP (c_CensusOrigin census) then mret 0
      else raise (ErrMsg "unsupported census origin")
  end.

(** ** The events of all pages *)

(** The server has a list of events and answers each page from it. *)
Definition serves (url : string) (all : list graphqlResponseData) : Prop := ∀ first skip, 0 < first → 0 ≤ skip →
  ∃ res data, http_Post url first skip = Ok res ∧ StatusCode res = StatusOK ∧ json_response (Body res) = Ok ([], data) ∧
    json_events data = Ok (take (Z.to_nat first) (drop (Z.to_nat skip) all)).

Lemma page_events_app l k events : page_events (l ++ k) = Ok events →
  ∃ e1 e2, page_events l = Ok e1 ∧ page_events k = Ok e2 ∧ events = e1 ++ e2.
Proof.
  revert events. induction l as [|item l IH]; intros events; simpl; [by exists [], events|].
  destruct (toGraphQLEvent item) as [e|]; [|done]. destruct (page_events (l ++ k)) as [es|] eqn:Hes; [|done]. intros [= <-].
  destruct (IH es eq_refl) as (e1 & e2 & -> & He2 & ->). by exists (e :: e1), e2.
Qed.
Lemma query_page_served url all first skip events : serves url all → 0 < first → 0 ≤ skip →
  page_events (take (Z.to_nat first) (drop (Z.to_nat skip) all)) = Ok events →
  query_page url first skip = Ok (length (take (Z.to_nat first) (drop (Z.to_nat skip) all)), events).
Proof.
  intros Hs Hf Hk He. destruct (Hs first skip Hf Hk) as (res & data & Hpost & Hstatus & Hres & Hev).
  unfold query_page. rewrite Hpost, Hstatus, Z.eqb_refl. simpl. by rewrite Hres, Hev, He.
Qed.
Lemma queryEvents_served fuel url all pageSize skip results events : serves url all → 0 < pageSize → 0 ≤ skip →
  (length (drop (Z.to_nat skip) all) < fuel * Z.to_nat pageSize)%nat → page_events (drop (Z.to_nat skip) all) = Ok events →
  queryEvents fuel url skip pageSize results = Ok (results ++ events).
Proof.
  intros Hs Hp. revert skip results events. induction fuel as [|fuel IH]; intros skip results events Hk Hlen He; [lia|].
  rewrite <-(take_drop (Z.to_nat pageSize) (drop (Z.to_nat skip) all)) in He.
  destruct (page_events_app _ _ _ He) as (e1 & e2 & He1 & He2 & ->). cbn [queryEvents].
  rewrite (query_page_served _ _ _ _ _ Hs Hp Hk He1). rewrite drop_drop in He2.
  destruct (Z.ltb_spec (Z.of_nat (length (take (Z.to_nat pageSize) (drop (Z.to_nat skip) all)))) pageSize) as [Hlt|Hge].
  - assert (e2 = []) as ->; [|by rewrite app_nil_r].
    rewrite drop_ge in He2 by (rewrite length_take, length_drop in *; lia). by injection He2 as <-.
  - rewrite app_assoc. apply IH; [lia| |].
    + rewrite !length_drop, length_take, length_drop in *. lia.
    + by replace (Z.to_nat (skip + pageSize)) with (Z.to_nat skip + Z.to_nat pageSize)%nat by lia.
Qed.

(** C32: The pages of a query are read to the end. If the server answers every page from one list of events, the
    import asks for pages until one is not full, at most one more than the list fills, and gets all the
    events from the given one on, each once and in their order. *)
Theorem queryEvents_complete fuel url all pageSize from events : serves url all → 0 < pageSize → 0 ≤ from →
  page_events (drop (Z.to_nat from) all) = Ok events → (length all / Z.to_nat pageSize < fuel)%nat →
  queryEvents fuel url from pageSize [] = Ok events.
Proof.
  intros Hs Hp Hf He Hfuel. rewrite (queryEvents_served fuel url all pageSize from [] events); [done|done|done|done| |done].
  rewrite length_drop. pose proof (Nat.mod_upper_bound (length all) (Z.to_nat pageSize) ltac:(lia)).
  pose proof (Nat.div_mod_eq (length all) (Z.to_nat pageSize)). nia.
Qed.

(** ** Roots of 32 bytes *)

Lemma big_Bytes_head z b l : 0 ≤ z → big_Bytes z = b :: l → byte_to_Z b ≠ 0.
Proof.
  intros Hz Hb Hb0. pose proof (big_Bytes_SetBytes z Hz) as Hv. rewrite Hb, be_combine_cons, Hb0 in Hv.
  assert (Hl : length (big_Bytes z) = byte_len z) by (unfold big_Bytes; apply length_be_split). rewrite Hb in Hl. simpl in Hl.
  pose proof (be_combine_range l) as [_ Hr]. unfold byte_len in Hl. case_bool_decide as Hz0; [lia|].
  pose proof (Z.log2_spec z ltac:(lia)) as [Hlow _]. change 256 with (2 ^ 8) in Hr. rewrite <-Z.pow_mul_r in Hr by lia.
  assert (Hlen : Z.of_nat (length l) = Z.log2 z / 8).
  { assert (0 ≤ Z.log2 z / 8) by (apply Z.div_pos; [apply Z.log2_nonneg|lia]). lia. }
  rewrite Hlen in Hr. assert (Hdiv : 8 * (Z.log2 z / 8) ≤ Z.log2 z) by (apply Z.mul_div_le; lia).
  pose proof (Z.pow_le_mono_r 2 _ _ ltac:(lia) Hdiv). lia.
Qed.
Lemma LeftTrim_idem b : LeftTrim (LeftTrim b) = LeftTrim b.
Proof. induction b as [|c b IH]; [done|]. simpl. destruct (byte_to_Z c =? 0) eqn:Hc; [done|]. simpl. by rewrite Hc. Qed.
Lemma enter_Ok id ref c p c1 : enter id ref c = (Ok p, c1) → loadedCensus c1 !! id = Some p.
Proof. unfold enter. intros [= <- <-]. cbn. by rewrite lookup_insert_eq. Qed.
Lemma newCensus_loaded id key tree c p c1 : newCensus id key tree c = (Ok p, c1) → loadedCensus c1 !! id = Some p.
Proof.
  unfold newCensus. intros Hn. apply bind_inv_Ok in Hn as (c0 & c2 & _ & Hn). case_bool_decide; [done|]. case_bool_decide; [done|].
  apply bind_inv_Ok in Hn as (t & c3 & _ & Hn). apply bind_inv_Ok in Hn as (root & c4 & _ & Hn).
  apply bind_inv_Ok in Hn as (u & c5 & _ & Hn). by apply enter_Ok in Hn.
Qed.
Lemma loadCensusRef_loaded id key c p c1 : loadCensusRef id key c = (Ok p, c1) → loadedCensus c1 !! id = Some p.
Proof.
  unfold loadCensusRef. intros Hn. apply bind_inv_Ok in Hn as (c0 & c2 & [= <- <-] & Hn).
  destruct (loadedCensus c !! id) as [q|] eqn:Hq; [by injection Hn as <- <-|]. destruct (db_Get key c); [|done].
  apply bind_inv_Ok in Hn as ([[id' h] t0] & c2 & _ & Hn). apply bind_inv_Ok in Hn as (t & c3 & _ & Hn).
  apply bind_inv_Ok in Hn as (root & c4 & _ & Hn). apply bind_inv_Ok in Hn as (u & c5 & _ & Hn). by apply enter_Ok in Hn.
Qed.
Lemma ImportAll_loaded data c p c1 dump root c0 : ImportAll data c = (Ok p, c1) → decode_dump data c = (Ok (dump, root), c0) →
  loadedCensus c1 !! rootToCensusID root = Some p.
Proof.
  unfold ImportAll. intros Hi Hd. apply bind_inv_Ok in Hi as ([dump' root'] & c2 & Hd' & Hi). rewrite Hd' in Hd. injection Hd as -> -> _.
  apply bind_inv_Ok in Hi as (c3 & c4 & _ & Hi). destruct (ExistsByRoot root c3); [by apply loadCensusRef_loaded in Hi|].
  apply bind_inv_Ok in Hi as (t & c5 & _ & Hi). apply bind_inv_Ok in Hi as ([] & c6 & _ & Hi). apply bind_inv_Ok in Hi as (r & c7 & Hr & Hi).
  rewrite attempt_eq in Hr. injection Hr as <- <-. destruct (newCensus _ _ _ c6) as [[q|e] c8] eqn:Hn; cbn in Hi.
  - injection Hi as <- <-. by apply newCensus_loaded in Hn.
  - destruct (errors_Is e ErrCensusAlreadyExists); [|done]. apply bind_inv_Ok in Hi as ([] & c9 & _ & Hi). by apply loadCensusRef_loaded in Hi.
Qed.
Lemma Root_reads p c : ∃ r, Root p c = (r, c) ∧
  (∀ root, r = Ok root → root = [] ∨ ∃ t z, tree_Root t (c_world c) = Some z ∧ root = big_Bytes z).
Proof.
  unfold Root, the_tree, tree_root, mbind, SE_bind, load_ref, lift, gets. destruct (c_refs c !! p) as [ref|]; [|by eexists].
  destruct (r_tree ref) as [t|]; [|by eexists]. eexists. split; [reflexivity|]. intros root [= <-].
  destruct (tree_Root t (c_world c)) as [z|] eqn:Hz; [right; by exists t, z|by left].
Qed.

(** A census whose root starts with a zero byte is refused once and accepted without a look the next
    time. The root of the imported tree has no leading zeros and the announced root of 32 bytes has them, so
    the comparison after the import of a dump fails although the dump is the right one; and since the
    census is stored by then, the next import finds it and answers that there is nothing to do. *)
Theorem padded_root_refused_once plugins chainID census data c p c1 l dump c0 processed :
  (∀ t w z, tree_Root t w = Some z → 0 ≤ z) →
  c_CensusRoot census = byte_of_Z 0 :: l → onchain_dynamic census = false →
  CensusOrigin_Valid (c_CensusOrigin census) = true → IsMerkleTree (c_CensusOrigin census) = true →
  decode_dump data c = (Ok (dump, LeftTrim (c_CensusRoot census)), c0) → ImportAll data c = (Ok p, c1) →
  (∃ e, importJSONDump JSONArray chainID census data c = (Err e, c1)) ∧
  ImportCensus plugins chainID (Some census) processed c1 = (Ok processed, c1).
Proof.
  intros Hpos Hroot Hdyn Hvalid Hmerkle Hdump Himp. split.
  - unfold importJSONDump. rewrite Hdyn. rewrite (bind_Ok _ _ c p c1) by (unfold wrapping; by rewrite Himp).
    destruct (Root_reads p c1) as (r & Hr & Hform). destruct r as [root|e]; [|exists e; by rewrite (bind_Err _ _ _ _ _ Hr)].
    rewrite (bind_Ok _ _ _ _ _ Hr). rewrite bool_decide_eq_false_2; [by eexists|]. rewrite Hroot.
    intros ->. destruct (Hform _ eq_refl) as [|(t & z & Hz & Hb)]; [done|].
    by apply (big_Bytes_head z (byte_of_Z 0) l (Hpos _ _ _ Hz) (eq_sym Hb)).
  - unfold ImportCensus. rewrite Hvalid, Hmerkle, Hdyn. cbn [negb andb]. unfold mbind, SE_bind. cbn [get_state].
    assert (Hex : ExistsByRoot (c_CensusRoot census) c1 = true); [|by rewrite Hex].
    pose proof (ImportAll_loaded _ _ _ _ _ _ _ Himp Hdump) as Hl. unfold rootToCensusID in Hl. rewrite LeftTrim_idem in Hl.
    unfold ExistsByRoot, exists_under, rootToCensusID. rewrite Hl. done.
Qed.

(** ** Imports of events that fail *)

Lemma in_world_loaded {A} (m : SE IMTWorld A) c : loadedCensus (in_world m c).2 = loadedCensus c.
Proof. unfold in_world. by destruct (m (c_world c)). Qed.

(** An import of events that fails leaves its census behind: when the events do not lead to the announced root
    or cannot be applied, the new census of the contract stays, with what was applied, and the next
    attempt applies the events to it again instead of to an empty tree. *)
Theorem failed_event_import_stays chainID address root events c p c1 e c' :
  NewByScopedAddress chainID address c = (Ok p, c1) → ImportEventsByScopedAddress chainID address root events c = (Err e, c') →
  ExistsByScopedAddress chainID address c' = true ∧ LoadByScopedAddress chainID address c' = (Ok p, c') ∧
  ∀ fuel d census from endpoint, ContractAddress census = address → endpointFromURI (c_CensusURI census) (Insecure d) = Ok endpoint →
    queryEvents fuel endpoint from (PageSize d) [] = Ok events → events ≠ [] →
    c_world (graphql_ImportCensus fuel d chainID census from c').2 = c_world (ApplyEvents p events c').2.
Proof.
  intros Hnew Himp.
  assert (Hl : loadedCensus c1 !! scopedAddressToCensusID chainID address = Some p).
  { unfold NewByScopedAddress in Hnew. by apply newCensus_loaded in Hnew. }
  assert (Hl' : loadedCensus c' !! scopedAddressToCensusID chainID address = Some p).
  { unfold ImportEventsByScopedAddress in Himp. rewrite (bind_Ok _ _ c p c1) in Himp by (unfold wrapping; by rewrite Hnew).
    assert (Hm : moves (same loadedCensus) (apply_expected p events root)); [|specialize (Hm c1); rewrite Himp in Hm; by rewrite <-Hl; f_equal].
    unfold apply_expected, ApplyEvents, Root, the_tree, tree_root. moves;
      try (intros s; unfold load_ref; by destruct (c_refs s !! p)). intros s. apply in_world_loaded. }
  assert (Hex : ExistsByScopedAddress chainID address c' = true) by (unfold ExistsByScopedAddress, exists_under; by rewrite Hl').
  assert (Hload : LoadByScopedAddress chainID address c' = (Ok p, c')).
  { unfold LoadByScopedAddress, loadCensusRef, mbind, SE_bind. cbn [get_state]. by rewrite Hl'. }
  split_and!; [done|done|]. intros fuel d census from endpoint Haddr Hend Hq Hne. unfold graphql_ImportCensus.
  rewrite (bind_Ok _ _ c' endpoint c') by (unfold wrapping, lift; by rewrite Hend).
  rewrite (bind_Ok _ _ c' events c') by (unfold wrapping, lift; by rewrite Hq). rewrite bool_decide_eq_false_2 by done.
  rewrite (bind_Ok _ _ c' c' c') by done. rewrite Haddr, Hex. cbn [negb].
  unfold mbind, SE_bind, wrapping. rewrite Hload. destruct (ApplyEvents p events c') as [[[]|e'] c2]; [|done].
  destruct (Root_reads p c2) as (r & Hr & _). rewrite Hr. destruct r as [root'|]; [|done]. by case_bool_decide.
Qed.
End import.

(** ** A server of five events *)

Module ImportExample.
Import CensusExample.
#[local] Existing Instance ConcreteAddr.addr.
Definition event (n : Z) : graphqlResponseData :=
  {| Account_ID := ConcreteAddr.to_text (replicate 20 (byte_of_Z n)); PreviousWeight := bytes_of_string "0";
     NewWeight := bytes_of_string "12" |}.
Definition all_events : list graphqlResponseData := event <$> [171; 172; 173; 174; 175].
(** A body tells how many events were asked for, and from where. *)
Definition page (first skip : Z) : result Response :=
  Ok {| StatusCode := 200; ContentType := ""; Body := big_Bytes (Z.pos (encode (first, skip))) |}.
Definition events_of (data : bytes) : result (list graphqlResponseData) :=
  match decode (Z.to_pos (be_combine data)) with
  | Some (first, skip) => Ok (take (Z.to_nat first) (drop (Z.to_nat skip) all_events))
  | None => Err (ErrMsg "unexpected data")
  end.
#[export] Instance net : CensusNet := {|
  http_Get _ := Err (ErrMsg "not found"); http_Post _ := page;
  json_Decode data := Err (ErrMsg "EOF"); json_response body := Ok ([], body); json_events := events_of;
  ContractAddress _ := contract |}.
Lemma server url : serves url all_events.
Proof.
  intros first skip Hf Hk. eexists _, (big_Bytes (Z.pos (encode (first, skip)))). split_and!; [reflexivity|done|done|].
  cbn [json_events net]. unfold events_of. rewrite big_Bytes_SetBytes by done. cbn [Z.to_pos]. by rewrite decode_encode.
Qed.
Definition the_events : list CensusEvent :=
  (λ n, {| ev_Address := replicate 20 (byte_of_Z n); ev_PrevWeight := 0; ev_NewWeight := 12 |}) <$> [172; 173; 174; 175].
Lemma queryEvents_complete_witness : queryEvents 3 "https://census" 1 2 [] = Ok the_events.
Proof.
  apply (queryEvents_complete 3 "https://census" all_events 2 1 the_events (server _)); [done|done|by vm_compute|by apply Nat.ltb_lt].
Defined.

(** A census of one voter whose root is announced with a zero in front. *)
Definition dump_data : bytes := voter ++ [byte_of_Z 3].
Definition padded : Census := {| c_CensusOrigin := 1; c_CensusRoot := byte_of_Z <$> [0; 7]; c_CensusURI := ""; c_Payload := [] |}.
Definition dumped : CensusDB := exec (ImportAll dump_data) empty_db.
Lemma dumped_ok : ImportAll dump_data empty_db = (Ok 0%nat, dumped).
Proof. refine (run_eq _ _ (Ok 0%nat) _). by vm_compute. Qed.
Lemma roots_positive (t : Tree) w z : tree_Root t w = Some z → 0 ≤ z.
Proof. cbn. case_bool_decide; [done|]. intros [= <-]. by apply Z.mod_pos_bound. Qed.
Lemma decoded : decode_dump dump_data empty_db = (Ok ((Some 7, [(voter, 3)]), LeftTrim (c_CensusRoot padded)), empty_db).
Proof. by vm_compute. Qed.
Lemma padded_root_refused_once_witness : (∃ e, importJSONDump JSONArray (U64 0) padded dump_data empty_db = (Err e, dumped)) ∧
  ImportCensus [] (U64 0) (Some padded) 0 dumped = (Ok 0, dumped).
Proof.
  exact (padded_root_refused_once [] (U64 0) padded dump_data empty_db 0 dumped [byte_of_Z 7] _ empty_db 0 roots_positive eq_refl eq_refl
    eq_refl eq_refl decoded dumped_ok).
Defined.

(** The events of a contract do not lead to the announced root. *)
Definition created : CensusDB := exec (NewByScopedAddress (U64 1) contract) empty_db.
Definition mismatched : CensusDB := exec (ImportEventsByScopedAddress (U64 1) contract [] the_events) empty_db.
Lemma created_ok : NewByScopedAddress (U64 1) contract empty_db = (Ok 0%nat, created).
Proof. refine (run_eq _ _ (Ok 0%nat) _). by vm_compute. Qed.
Lemma mismatched_err : ImportEventsByScopedAddress (U64 1) contract [] the_events empty_db =
  (Err (ErrMsg "final root mismatch after applying events"), mismatched).
Proof. refine (run_eq _ _ (Err _) _). by vm_compute. Qed.
Lemma failed_event_import_stays_witness : (Size 0 mismatched).1 = Ok 4 ∧ LoadByScopedAddress (U64 1) contract mismatched = (Ok 0%nat, mismatched).
Proof.
  split; [by vm_compute|].
  destruct (failed_event_import_stays (U64 1) contract [] the_events empty_db 0 created _ mismatched created_ok mismatched_err) as (_ & Hl & _).
  exact Hl.
Defined.
End ImportExample.
