(* ===== verification/EndpointPool.v ===== *)
(** * The pool of RPC endpoints

    [src/web3/rpc/web3_iter.go], [web3_pool.go], [web3_client.go]: the endpoints of a chain, in turn and
    with a rest for those that fail, and the call that is tried on one endpoint after another. An
    endpoint stands for its connection; what a call to it does is a parameter, and so is the time.
    The lists are guarded by a lock, so each operation of the iterator is one step. *)

From S2P Require Import Prelude.

Definition Time := Z. (* nanoseconds *)
Definition Second : Z := 1000000000.

(** ** Errors that no retry mends *)

(** [src/web3/rpc/web3_client.go:36-38] *)
Definition permanentTxErrorPatterns : list string := ["execution reverted"%string].
(** [src/web3/rpc/web3_client.go:44-46] *)
Definition permanentRPCErrorPatterns : list string := ["blob transaction invalid tx RLP length"%string].
(** A nil error matches nothing. *)
Definition matches (patterns : list string) (err : option error) : bool :=
  match err with
  | None => false
  | Some e => existsb (strings_Contains (strings_ToLower (error_Error e))) patterns
  end.
(** [src/web3/rpc/web3_client.go:50-61] IsPermanentTxError *)
Definition IsPermanentTxError (err : option error) : bool := matches permanentTxErrorPatterns err.
(** [src/web3/rpc/web3_client.go:65-76] IsPermanentRPCError *)
Definition IsPermanentRPCError (err : option error) : bool := matches permanentRPCErrorPatterns err.

(** ** The endpoints of a chain *)

(** [src/web3/rpc/web3_iter.go:13-13] *)
Definition endpointCooldownDuration : Z := 5 * 60 * Second.
(** [src/web3/rpc/web3_iter.go:19-25] Web3Endpoint; the zero time is [None] *)
Record Web3Endpoint := {
  ep_ChainID : Z; ep_URI : string; ep_IsArchive : bool; ep_disabledAt : option Time }.
Definition set_disabledAt (t : option Time) (e : Web3Endpoint) : Web3Endpoint :=
  {| ep_ChainID := ep_ChainID e; ep_URI := ep_URI e; ep_IsArchive := ep_IsArchive e; ep_disabledAt := t |}.

Module Web3Iterator.
(** [src/web3/rpc/web3_iter.go:30-35] Web3Iterator *)
Record t := { nextIndex : nat; available : list Web3Endpoint; disabled : list Web3Endpoint }.
(** [src/web3/rpc/web3_iter.go:38-46] NewWeb3Iterator *)
Definition NewWeb3Iterator (endpoints : list Web3Endpoint) : t :=
  {| nextIndex := 0; available := endpoints; disabled := [] |}.
(** [src/web3/rpc/web3_iter.go:49-53] Web3Iterator.Available *)
Definition Available (w3pp : t) : nat := length (available w3pp).
(** [src/web3/rpc/web3_iter.go:56-60] Web3Iterator.Disabled *)
Definition Disabled (w3pp : t) : nat := length (disabled w3pp).
(** [src/web3/rpc/web3_iter.go:64-68] Web3Iterator.Add *)
Definition Add (endpoint : list Web3Endpoint) (w3pp : t) : t :=
  {| nextIndex := nextIndex w3pp; available := available w3pp ++ endpoint; disabled := disabled w3pp |}.

(** The rest of an endpoint is over; from the zero time it is long over. *)
Definition rested (now : Time) (e : Web3Endpoint) : bool :=
  match ep_disabledAt e with Some t => endpointCooldownDuration <=? now - t | None => true end.
(** [src/web3/rpc/web3_iter.go:103-124] Web3Iterator.checkCooldowns *)
Definition checkCooldowns (now : Time) (w3pp : t) : t :=
  {| nextIndex := nextIndex w3pp;
     available := available w3pp ++ (set_disabledAt None <$> filter (λ e, rested now e = true) (disabled w3pp));
     disabled := filter (λ e, rested now e = false) (disabled w3pp) |}.
(** [src/web3/rpc/web3_iter.go:73-99] Web3Iterator.Next *)
Definition Next (now : Time) (w3pp : t) : result Web3Endpoint * t :=
  let w3pp := checkCooldowns now w3pp in
  let l := length (available w3pp) in
  if bool_decide (l = 0%nat) then (Err (ErrMsg "no registered endpoints"), w3pp)
  else match available w3pp !! nextIndex w3pp with
       | None => (Err (ErrMsg "index out of range"), w3pp) (* a panic; [Next_in_range] excludes it *)
       | Some currentEndpoint =>
           let next := S (nextIndex w3pp) in
           (Ok currentEndpoint,
            {| nextIndex := if (l <=? next)%nat then 0%nat else next;
               available := available w3pp; disabled := disabled w3pp |})
       end.
(** [src/web3/rpc/web3_iter.go:129-176] Web3Iterator.Disable *)
Definition Disable (now : Time) (uri : string) (w3pp : t) : t :=
  match list_find (λ e, ep_URI e = uri) (available w3pp) with
  | None => w3pp
  | Some (index, disabledEndpoint) =>
      let available' := delete index (available w3pp) in
      let disabled' := disabled w3pp ++ [set_disabledAt (Some now) disabledEndpoint] in
      let next := if bool_decide (nextIndex w3pp = index) then S (nextIndex w3pp)
                  else if (index <? nextIndex w3pp)%nat then pred (nextIndex w3pp) else nextIndex w3pp in
      if bool_decide (available' = []) then
        {| nextIndex := 0; available := set_disabledAt None <$> disabled'; disabled := [] |}
      else
        {| nextIndex := if (length available' <=? next)%nat then 0%nat else next;
           available := available'; disabled := disabled' |}
  end.
End Web3Iterator.
Import Web3Iterator.

(** ** The pool *)

(** Web3Pool: the iterator of each chain. *)
Notation Web3Pool := (gmap Z Web3Iterator.t).
(** [src/web3/rpc/web3_pool.go:97-131] AddEndpoint, given what the connection told about the node *)
Definition AddEndpoint (endpoint : Web3Endpoint) (nm : Web3Pool) : Web3Pool :=
  match nm !! ep_ChainID endpoint with
  | None => <[ep_ChainID endpoint := NewWeb3Iterator [endpoint]]> nm
  | Some it => <[ep_ChainID endpoint := Add [endpoint] it]> nm
  end.
(** [src/web3/rpc/web3_pool.go:136-141] Web3Pool.Endpoint *)
Definition Endpoint (now : Time) (chainID : Z) (nm : Web3Pool) : result Web3Endpoint * Web3Pool :=
  match nm !! chainID with
  | Some endpoints => let '(r, it) := Next now endpoints in (r, <[chainID := it]> nm)
  | None => (Err (ErrMsg "no endpoint found for chainID"), nm)
  end.
(** [src/web3/rpc/web3_pool.go:145-167] Web3Pool.DisableEndpoint *)
Definition DisableEndpoint (now : Time) (chainID : Z) (uri : string) (nm : Web3Pool) : Web3Pool :=
  match nm !! chainID with Some endpoints => <[chainID := Disable now uri endpoints]> nm | None => nm end.
(** [src/web3/rpc/web3_pool.go:171-180] Web3Pool.NumberOfEndpoints *)
Definition NumberOfEndpoints (chainID : Z) (onlyAvailable : bool) (nm : Web3Pool) : nat :=
  match nm !! chainID with
  | Some endpoints => (Available endpoints + (if onlyAvailable then 0 else Disabled endpoints))%nat
  | None => 0%nat
  end.

(** ** Calls *)

(** [src/web3/rpc/web3_client.go:22-22] *)
Definition defaultRetries : nat := 2.
(** [src/web3/rpc/web3_client.go:24-24] *)
Definition defaultRetrySleep : Z := 200 * 1000000.

(** The world outside the pool: the time, a pause, and the code and data that go-ethereum finds in an
    error of a node. *)
Class Outside := {
  World : Type; clock : World → Time; Sleep : Z → World → World; ParseError : error → string }.

Section calls.
Context `{Outside} {T : Type} (fn : string → SE World T).

(** How the tries on one endpoint end; the error is the last one. *)
Inductive tries := Answered (res : T) | TxRefused (err : error) | EndpointFailed (lastErr : error).
(** [src/web3/rpc/web3_client.go:345-386] the tries on one endpoint, in retrySwitchingEndpoints *)
Fixpoint try_endpoint (uri : string) (lastErr : error) (more : nat) (w : World) : tries * World :=
  match more with
  | O => (EndpointFailed lastErr, w)
  | S more =>
      match fn uri w with
      | (Ok res, w) => (Answered res, w)
      | (Err err, w) =>
          let lastErr := Wrap (ParseError err) err in
          if IsPermanentTxError (Some err) then (TxRefused err, w)
          else if IsPermanentRPCError (Some err) then (EndpointFailed lastErr, w)
          else try_endpoint uri lastErr more (match more with O => w | S _ => Sleep defaultRetrySleep w end)
      end
  end.

(** [src/web3/rpc/web3_client.go:329-403] the endpoints in turn, in retrySwitchingEndpoints *)
Fixpoint switch_endpoints (chainID : Z) (triedEndpoints : list string) (lastErr : error) (more : nat) :
    SE (Web3Pool * World) T := λ '(nm, w),
  match more with
  | O => (Err (Wrap "all endpoints exhausted for chainID" lastErr), (nm, w))
  | S more =>
      match Endpoint (clock w) chainID nm with
      | (Err err, nm) => (Err (Wrap "error getting endpoint for chainID" err), (nm, w))
      | (Ok endpoint, nm) =>
          if bool_decide (ep_URI endpoint ∈ triedEndpoints)
          then (Err (Wrap "endpoint rotation failed for chainID" lastErr), (nm, w))
          else
            match try_endpoint (ep_URI endpoint) lastErr defaultRetries w with
            | (Answered res, w) => (Ok res, (nm, w))
            | (TxRefused err, w) =>
                (Err (Wrap "RPC call failed with permanent error, not retrying" err), (nm, w))
            | (EndpointFailed lastErr, w) =>
                switch_endpoints chainID (ep_URI endpoint :: triedEndpoints) lastErr more
                  (DisableEndpoint (clock w) chainID (ep_URI endpoint) nm, w)
            end
      end
  end.
(** [src/web3/rpc/web3_client.go:315-405] retrySwitchingEndpoints *)
Definition retrySwitchingEndpoints (chainID : Z) : SE (Web3Pool * World) T := λ '(nm, w),
  let totalEndpoints := NumberOfEndpoints chainID false nm in
  if bool_decide (totalEndpoints = 0%nat) then (Err (ErrMsg "no endpoints available for chainID"), (nm, w))
  else switch_endpoints chainID [] (ErrMsg "nil") totalEndpoints (nm, w).

(** What it promises: the call on each endpoint of a queue in turn until one answers, or refuses the
    transaction for good. *)
Fixpoint first_answer (queue : list string) (lastErr : error) (w : World) : result T * World :=
  match queue with
  | [] => (Err (Wrap "all endpoints exhausted for chainID" lastErr), w)
  | uri :: queue =>
      match try_endpoint uri lastErr defaultRetries w with
      | (Answered res, w) => (Ok res, w)
      | (TxRefused err, w) => (Err (Wrap "RPC call failed with permanent error, not retrying" err), w)
      | (EndpointFailed lastErr, w) => first_answer queue lastErr w
      end
  end.
End calls.

(** ** The iterator *)

Definition uris (l : list Web3Endpoint) : list string := ep_URI <$> l.
(** The index is that of an endpoint, and the endpoints do not all rest. *)
Definition index_ok (it : Web3Iterator.t) : Prop :=
  (nextIndex it = 0%nat ∨ (nextIndex it < length (available it))%nat) ∧ (available it = [] → disabled it = []).

#[export] Instance uris_Permutation : Proper ((≡ₚ) ==> (≡ₚ)) uris.
Proof. intros l k H. by apply fmap_Permutation. Qed.
Lemma uris_app l k : uris (l ++ k) = uris l ++ uris k.
Proof. apply fmap_app. Qed.
Lemma uris_set t l : uris (set_disabledAt t <$> l) = uris l.
Proof. unfold uris. rewrite <- list_fmap_compose. by apply list_fmap_ext. Qed.
Lemma filter_split (l : list Web3Endpoint) (f : Web3Endpoint → bool) :
  filter (λ e, f e = true) l ++ filter (λ e, f e = false) l ≡ₚ l.
Proof.
  induction l as [|e l IH]; [done|]. rewrite !filter_cons. destruct (f e); simpl.
  - by rewrite IH.
  - by rewrite <- Permutation_middle, IH.
Qed.
Lemma checkCooldowns_uris now it :
  uris (available (checkCooldowns now it) ++ disabled (checkCooldowns now it)) ≡ₚ uris (available it ++ disabled it).
Proof.
  simpl. rewrite !uris_app, uris_set, <- app_assoc. f_equiv. rewrite <- uris_app. apply fmap_Permutation, filter_split.
Qed.
Lemma checkCooldowns_ok now it : index_ok it → index_ok (checkCooldowns now it).
Proof.
  intros [Hi Hd]. split; simpl.
  - rewrite length_app. destruct Hi; [by left|right; lia].
  - intros [Ha _]%app_nil. by rewrite (Hd Ha).
Qed.
(** The answer of [Next] on the iterator that the end of rests left. *)
Lemma Next_ok now it : index_ok it → available (checkCooldowns now it) ≠ [] →
  ∃ e, available (checkCooldowns now it) !! nextIndex it = Some e ∧
    Next now it = (Ok e, {| nextIndex := if (length (available (checkCooldowns now it)) <=? S (nextIndex it))%nat
                                         then 0%nat else S (nextIndex it);
                            available := available (checkCooldowns now it);
                            disabled := disabled (checkCooldowns now it) |}).
Proof.
  intros [Hi _]%(checkCooldowns_ok now) Hne. destruct (lookup_lt_is_Some_2 (available (checkCooldowns now it)) (nextIndex it)) as [e He].
  { destruct Hi as [Hi|Hi]; simpl in *; [|exact Hi].
    rewrite Hi. simpl in Hne. destruct (available it ++ _); [done|simpl; lia]. }
  exists e. split; [done|]. unfold Next. rewrite bool_decide_eq_false_2 by (by intros ?%length_zero_iff_nil).
  change (nextIndex (checkCooldowns now it)) with (nextIndex it). by rewrite He.
Qed.
Lemma Next_empty now it : available (checkCooldowns now it) = [] → Next now it = (Err (ErrMsg "no registered endpoints"), checkCooldowns now it).
Proof. intros Ha. unfold Next. by rewrite Ha. Qed.
Lemma Next_keeps now it : index_ok it →
  index_ok (Next now it).2 ∧ uris (available (Next now it).2 ++ disabled (Next now it).2) ≡ₚ uris (available it ++ disabled it).
Proof.
  intros Hok. destruct (decide (available (checkCooldowns now it) = [])) as [He|He].
  - rewrite Next_empty by done. split; [by apply checkCooldowns_ok|apply checkCooldowns_uris].
  - destruct (Next_ok now it Hok He) as (e & _ & ->). pose proof (checkCooldowns_ok now it Hok) as [_ Hd].
    split; [split; [|done]|apply checkCooldowns_uris]. cbn [nextIndex available].
    case_match eqn:Hl; [by left|right]. by apply Nat.leb_gt in Hl.
Qed.

(** [Disable] on an endpoint that is available. *)
Lemma Disable_found (l : list Web3Endpoint) i e : NoDup (uris l) → l !! i = Some e →
  list_find (λ e', ep_URI e' = ep_URI e) l = Some (i, e).
Proof.
  intros Hnd Hi. apply list_find_Some. split_and!; [done..|]. intros j y Hj Hlt Hy.
  assert (j = i); [|lia]. apply (NoDup_lookup _ _ _ (ep_URI e) Hnd); unfold uris; rewrite list_lookup_fmap, ?Hj, ?Hi; simpl; congruence.
Qed.
Lemma delete_uris (l : list Web3Endpoint) i e : l !! i = Some e → ep_URI e :: uris (delete i l) ≡ₚ uris l.
Proof. intros Hi. unfold uris. rewrite <- fmap_cons. apply fmap_Permutation. symmetry. by apply delete_Permutation. Qed.
Lemma Disable_keeps now uri it : index_ok it →
  index_ok (Disable now uri it) ∧
  uris (available (Disable now uri it) ++ disabled (Disable now uri it)) ≡ₚ uris (available it ++ disabled it).
Proof.
  intros [Hi Hd]. unfold Disable. destruct (list_find _ _) as [[i e]|] eqn:Hf; [|done].
  apply list_find_Some in Hf as (He & Hu & _). pose proof (delete_uris _ _ _ He) as Hp.
  set (a := delete i (available it)) in *. case_bool_decide as Ha; cbn [available disabled nextIndex].
  - split; [split; [by left|done]|]. rewrite app_nil_r, uris_set, !uris_app. rewrite <- Hp, Ha. simpl.
    by rewrite Permutation_app_comm.
  - split; [split; [|done]|].
    + case_match eqn:Hl; [by left|right]. by apply Nat.leb_gt.
    + rewrite !uris_app, <- Hp, (Permutation_app_comm (uris (disabled it))). symmetry. apply Permutation_middle.
Qed.

(** What happens to the iterator of a chain, from its first endpoints on. *)
Inductive reached : list Web3Endpoint → Web3Iterator.t → Prop :=
  | reached_new es : reached es (NewWeb3Iterator es)
  | reached_add es new it : reached es it → reached (es ++ new) (Add new it)
  | reached_next es now it : reached es it → reached es (Next now it).2
  | reached_disable es now uri it : reached es it → reached es (Disable now uri it).
Lemma reached_ok es it : reached es it → index_ok it ∧ uris (available it ++ disabled it) ≡ₚ uris es.
Proof.
  induction 1 as [es|es new it _ [[Hi Hd] IH]|es now it _ [Hok IH]|es now uri it _ [Hok IH]].
  - split; [split; [by left|done]|]. simpl. by rewrite app_nil_r.
  - split; [split; simpl|simpl].
    + rewrite length_app. destruct Hi; [by left|right; lia].
    + intros [Ha _]%app_nil. by apply Hd.
    + rewrite (uris_app es), <- IH, !uris_app, <- !app_assoc. f_equiv. apply Permutation_app_comm.
  - destruct (Next_keeps now it Hok) as [??]. split; [done|]. by etrans.
  - destruct (Disable_keeps now uri it Hok) as [??]. split; [done|]. by etrans.
Qed.

(** Whatever was added to a chain, asked for and disabled, at any times: the endpoints are those
    that were added, each once, at rest or not; and if there is any, [Next] answers with one, its index
    is never out of range and the list it reads from is never empty. *)
Theorem registered_endpoint_found es it now : reached es it →
  uris (available it ++ disabled it) ≡ₚ uris es ∧
  (es ≠ [] → ∃ e it', Next now it = (Ok e, it') ∧ ep_URI e ∈ uris es ∧ e ∈ available it').
Proof.
  intros [Hok Hp]%reached_ok. split; [done|]. intros Hes.
  destruct (decide (available (checkCooldowns now it) = [])) as [He|He].
  - exfalso. pose proof (checkCooldowns_ok now it Hok) as [_ Hd]. specialize (Hd He).
    pose proof (checkCooldowns_uris now it) as Hu. rewrite He, Hd, Hp in Hu. apply Permutation_nil_l in Hu.
    by destruct es.
  - destruct (Next_ok now it Hok He) as (e & Hl & ->). eexists _, _. split_and!; [done| |].
    + rewrite <- Hp, <- (checkCooldowns_uris now it), uris_app. apply elem_of_app. left.
      apply list_elem_of_fmap_2. by eapply list_elem_of_lookup_2.
    + by eapply list_elem_of_lookup_2.
Qed.

(** ** The iterator is a queue

    While no rest ends, the endpoints stand in a queue: those still to come in this round, those of the
    next round, those at rest. Taking one and disabling it moves it from the head to the end, also when
    it was the last available one and all come back. *)

Definition queue (it : Web3Iterator.t) : list Web3Endpoint :=
  drop (nextIndex it) (available it) ++ take (nextIndex it) (available it) ++ disabled it.
(** No rest ends before [horizon]. *)
Definition resting_until (horizon : Time) (it : Web3Iterator.t) : Prop :=
  Forall (λ e, ∃ t, ep_disabledAt e = Some t ∧ horizon < t + endpointCooldownDuration) (disabled it).

Lemma queue_perm it : queue it ≡ₚ available it ++ disabled it.
Proof.
  unfold queue. rewrite app_assoc, (Permutation_app_comm (drop _ _)), take_drop. done.
Qed.
Lemma checkCooldowns_resting horizon now it : resting_until horizon it → now ≤ horizon → checkCooldowns now it = it.
Proof.
  intros Hr Hn. assert (Hf : Forall (λ e, rested now e = false) (disabled it)).
  { eapply Forall_impl; [exact Hr|]. intros e (t & Ht & Hlt). unfold rested. rewrite Ht. apply Z.leb_gt. lia. }
  assert (filter (λ e, rested now e = true) (disabled it) = [] ∧
          filter (λ e, rested now e = false) (disabled it) = disabled it) as [Ht Hfl].
  { induction Hf as [|e l He _ [IH1 IH2]]; [done|]. by rewrite !filter_cons, He, IH1, IH2. }
  unfold checkCooldowns. rewrite Ht, Hfl. simpl. rewrite app_nil_r. by destruct it.
Qed.
Lemma resting_Disable horizon t uri it : resting_until horizon it → horizon < t + endpointCooldownDuration →
  resting_until horizon (Disable t uri it).
Proof.
  intros Hr Ht. unfold Disable. destruct (list_find _ _) as [[i e]|]; [|done]. case_bool_decide; [by apply Forall_nil|].
  apply Forall_app. split; [done|]. apply Forall_singleton. by exists t.
Qed.
Lemma Next_Disable now it e q horizon :
  index_ok it → resting_until horizon it → now ≤ horizon → NoDup (uris (queue it)) → queue it = e :: q →
  ∃ it', Next now it = (Ok e, it') ∧ index_ok it' ∧ resting_until horizon it' ∧
    ∀ t, uris (queue (Disable t (ep_URI e) it')) = uris q ++ [ep_URI e].
Proof.
  intros Hok Hr Hn Hnd Hq. pose proof (checkCooldowns_resting _ _ _ Hr Hn) as Hc.
  assert (Ha : available it ≠ []).
  { intros Ha. unfold queue in Hq. destruct Hok as [_ Hd]. rewrite Ha, (Hd Ha), drop_nil, take_nil in Hq. done. }
  destruct (Next_ok now it Hok) as (e' & He & HN); [by rewrite Hc|]. pose proof (Next_keeps now it Hok) as [Hok' _].
  rewrite Hc in He, HN. set (n := nextIndex it) in *. set (a := available it) in *.
  pose proof (lookup_lt_Some _ _ _ He) as Hlt. unfold queue in Hq. fold n a in Hq.
  rewrite (drop_S _ _ _ He) in Hq. simpl in Hq. injection Hq as -> Hq. eexists. split; [exact HN|].
  split; [by rewrite HN in Hok'|]. split; [done|]. intros t.
  assert (Hna : NoDup (uris a)).
  { rewrite queue_perm, uris_app in Hnd. by apply NoDup_app in Hnd as [? _]. }
  unfold Disable. cbn [available nextIndex disabled]. rewrite (Disable_found a n e Hna He).
  rewrite delete_take_drop, <- Hq. case_bool_decide as Hemp.
  - apply app_nil in Hemp as [Ht Hd]. unfold queue. cbn [available nextIndex disabled]. rewrite Ht, Hd, drop_0, app_nil_r, uris_set, uris_app. done.
  - assert (Hl : length (take n a ++ drop (S n) a) = pred (length a)) by (rewrite length_app, length_take, length_drop; lia).
    destruct (Nat.leb_spec (length a) (S n)) as [Hw|Hw].
    + rewrite (drop_ge a) by done. rewrite app_nil_r in *. rewrite (drop_ge a), app_nil_r in Hemp, Hl by done.
      rewrite bool_decide_eq_false_2 by (intros <-; by rewrite take_0 in Hemp). simpl.
      unfold queue. destruct (take n a) eqn:Et; [done|]. cbn [available nextIndex disabled length Nat.leb].
      rewrite drop_0, take_0, !uris_app, <- app_assoc. done.
    + rewrite bool_decide_eq_false_2 by lia. rewrite (proj2 (Nat.ltb_lt _ _)) by lia. cbn [pred].
      rewrite (proj2 (Nat.leb_gt _ _)) by lia. unfold queue. cbn [available nextIndex disabled].
      rewrite drop_app_length', take_app_length' by (rewrite length_take; lia). rewrite !uris_app, <- !app_assoc. done.
Qed.

(** ** A call tries the queue *)

Section refinement.
Context `{Outside} {T : Type} (fn : string → SE World T).
(** The call takes less time than a rest: it starts at [start] and ends before [horizon]. *)
Context (calm : World → Prop) (start horizon : Time).
Context (Hshort : horizon < start + endpointCooldownDuration).
Context (Hclock : ∀ w, calm w → start ≤ clock w ≤ horizon).
Context (Hcalls : ∀ uri w, calm w → calm (fn uri w).2) (Hsleep : ∀ d w, calm w → calm (Sleep d w)).

Lemma try_endpoint_calm uri lastErr more w : calm w → calm (try_endpoint fn uri lastErr more w).2.
Proof.
  revert lastErr w. induction more as [|more IH]; intros lastErr w Hw; [done|]. simpl.
  specialize (Hcalls uri w Hw). destruct (fn uri w) as [[res|err] w']; [done|].
  repeat case_match; try done; apply IH; auto.
Qed.

Lemma switch_first_answer chainID tried lastErr more nm w it todo done_ :
  nm !! chainID = Some it → index_ok it → resting_until horizon it → calm w →
  NoDup (uris (queue it)) → uris (queue it) = todo ++ done_ → length todo = more → (∀ u, u ∈ tried ↔ u ∈ done_) →
  let '(r, (nm', w')) := switch_endpoints fn chainID tried lastErr more (nm, w) in
  (r, w') = first_answer fn todo lastErr w ∧
  ∃ it', nm' = <[chainID := it']> nm ∧ index_ok it' ∧ uris (queue it') ≡ₚ uris (queue it).
Proof.
  revert tried lastErr nm w it todo done_. induction more as [|more IH]; intros tried lastErr nm w it todo done_ Hnm Hok Hr Hw Hnd Hq Hl Ht.
  { destruct todo; [|done]. simpl. split; [done|]. exists it. by rewrite insert_id. }
  destruct todo as [|u todo]; [done|]. injection Hl as Hl. destruct (queue it) as [|e q] eqn:Eq; [done|].
  injection Hq as <- Hq. simpl in Hnd. pose proof Hnd as [Hu _]%NoDup_cons.
  destruct (Next_Disable (clock w) it e q horizon Hok Hr) as (it1 & HN & Hok1 & Hr1 & HD);
    [by apply Hclock|by rewrite Eq|done|].
  pose proof (Next_keeps (clock w) it Hok) as [_ Hp1]. rewrite HN, <- !queue_perm, Eq in Hp1. simpl in Hp1.
  cbn [switch_endpoints uris fmap list_fmap app first_answer]. unfold Endpoint. rewrite Hnm, HN. rewrite bool_decide_eq_false_2.
  2:{ rewrite Ht. intros Hin. apply Hu. fold (uris q). rewrite Hq. set_solver. }
  pose proof (try_endpoint_calm (ep_URI e) lastErr defaultRetries w Hw) as Hw'.
  destruct (try_endpoint fn (ep_URI e) lastErr defaultRetries w) as [[res|err|lastErr'] w'].
  1,2: simpl; split; [done|]; exists it1; by rewrite Hp1.
  unfold DisableEndpoint. rewrite lookup_insert_eq, insert_insert_eq. simpl in Hw'.
  pose proof (Disable_keeps (clock w') (ep_URI e) it1 Hok1) as [Hok2 _].
  specialize (IH (ep_URI e :: tried) lastErr' (<[chainID := Disable (clock w') (ep_URI e) it1]> nm) w'
    (Disable (clock w') (ep_URI e) it1) todo (done_ ++ [ep_URI e])).
  destruct (switch_endpoints _ _ _ _ _ _) as [r [nm' w'']].
  destruct IH as [-> (it' & -> & Hok' & Hp')]; try done.
  - by rewrite lookup_insert_eq.
  - apply resting_Disable; [done|]. specialize (Hclock w' Hw'). lia.
  - rewrite HD. fold (uris q) in Hnd. by rewrite (Permutation_app_comm (uris q)).
  - by rewrite HD, Hq, app_assoc.
  - intros u. rewrite elem_of_cons, elem_of_app, list_elem_of_singleton, Ht. tauto.
  - split; [done|]. exists it'. rewrite insert_insert_eq. split_and!; [done..|]. rewrite Hp', HD. simpl.
    by rewrite (Permutation_app_comm (uris q)).
Qed.

End refinement.

Module EndpointExample.
Local Open Scope string_scope.
Definition ep (uri : string) : Web3Endpoint :=
  {| ep_ChainID := 1; ep_URI := uri; ep_IsArchive := false; ep_disabledAt := None |}.
Definition it : Web3Iterator.t := (Next 0 (NewWeb3Iterator [ep "a"; ep "b"; ep "c"])).2.
(** Time stands still; only the third endpoint answers. *)
#[local] Instance outside : Outside := { World := (); clock := λ _, 0; Sleep := λ _ w, w; ParseError := λ _, "" }.
Definition call (uri : string) : SE World Z := if bool_decide (uri = "a") then mret 7 else raise (ErrMsg "timeout").

Lemma registered_endpoint_found_witness :
  uris (available it ++ disabled it) ≡ₚ uris [ep "a"; ep "b"; ep "c"] ∧
  ([ep "a"; ep "b"; ep "c"] ≠ [] → ∃ e it', Next 0 it = (Ok e, it') ∧ ep_URI e ∈ uris [ep "a"; ep "b"; ep "c"] ∧ e ∈ available it').
Proof. apply registered_endpoint_found. apply reached_next, reached_new. Defined.
(** The turn is that of the second one; the first one answers after two have failed and rest. *)
Example it_queue : uris (queue it) = ["b"; "c"; "a"].
Proof. reflexivity. Qed.
Example third_answers : (retrySwitchingEndpoints call 1 (<[1 := it]> ∅, ())).1 = Ok 7.
Proof. vm_compute. reflexivity. Qed.
(** An endpoint that another caller disables when its turn comes takes the next one's turn with it. *)
Example Disable_skips_one : let it := Disable 0 "a" (NewWeb3Iterator [ep "a"; ep "b"; ep "c"]) in
  ep_URI <$> (available it !! nextIndex it) = Some "c".
Proof. reflexivity. Qed.
End EndpointExample.
