(* ===== verification/TxGas.v ===== *)
(** * Estimation of gas

    [src/web3/txmanager/txgas.go]: the gas limit of a transaction, asked of the node or found by a binary
    search over calls that the node runs, with a margin and within limits, and the cache of what the
    search found. The node is a parameter; its answers may change with every call. *)

From S2P Require Import Prelude Bytes Hex EndpointPool.

(** ** The node *)

(** The message of a call, of go-ethereum. *)
Record CallMsg := {
  m_From : bytes; m_To : option bytes; m_Gas : Z; m_GasFeeCap : option Z; m_GasTipCap : option Z;
  m_Data : bytes; m_BlobGasFeeCap : option Z; m_BlobHashes : list bytes }.
Definition with_gas (limit : Z) (m : CallMsg) : CallMsg :=
  {| m_From := m_From m; m_To := m_To m; m_Gas := limit; m_GasFeeCap := m_GasFeeCap m;
     m_GasTipCap := m_GasTipCap m; m_Data := m_Data m; m_BlobGasFeeCap := m_BlobGasFeeCap m;
     m_BlobHashes := m_BlobHashes m |}.
Definition with_fees (feeCap tipCap : Z) (m : CallMsg) : CallMsg :=
  {| m_From := m_From m; m_To := m_To m; m_Gas := m_Gas m; m_GasFeeCap := Some feeCap;
     m_GasTipCap := Some tipCap; m_Data := m_Data m; m_BlobGasFeeCap := m_BlobGasFeeCap m;
     m_BlobHashes := m_BlobHashes m |}.

(** The calls of the client that an estimate makes, the text of an address and a hash. *)
Class GasNode `{Outside} := {
  SuggestGasTipCap : SE World Z; SuggestGasPrice : SE World Z;
  RPC_EstimateGas : CallMsg → SE World Z;
  EthClient : SE World ();
  CallContract : CallMsg → SE World ();
  Address_Hex : bytes → bytes; sha256 : bytes → bytes }.

(** ** Options *)

Definition w64 (z : Z) : Z := z mod two64.

(** [src/web3/txmanager/txgas.go:18-18] *)
Definition DefaultGasFallback : Z := 300000.
(** [src/web3/txmanager/txgas.go:21-21] *)
Definition DefaultCancelGasFallback : Z := 21000.
(** [src/web3/txmanager/txgas.go:23-23] *)
Definition DefaultEstimateGasTimeout : Z := 20 * Second.
(** [src/web3/txmanager/txgas.go:28-34] GasEstimateOpts *)
Record GasEstimateOpts := {
  MinGas : Z; (* uint64 *) MaxGas : Z; (* uint64 *) SafetyBps : Z; (* int *)
  Timeout : Z; Fallback : Z (* uint64 *) }.
(** [src/web3/txmanager/txgas.go:40-46] DefaultGasEstimateOpts *)
Definition DefaultGasEstimateOpts : GasEstimateOpts :=
  {| MinGas := 21000; MaxGas := 5000000; SafetyBps := 1000; Timeout := DefaultEstimateGasTimeout;
     Fallback := DefaultGasFallback |}.
Definition or_default (x d : Z) : Z := if x =? 0 then d else x.
(** [src/web3/txmanager/txgas.go:50-66] GasEstimateOpts.validate; the defaults are written in place *)
Definition validate (o : GasEstimateOpts) : GasEstimateOpts :=
  {| MinGas := or_default (MinGas o) (MinGas DefaultGasEstimateOpts);
     MaxGas := or_default (MaxGas o) (MaxGas DefaultGasEstimateOpts);
     SafetyBps := or_default (SafetyBps o) (SafetyBps DefaultGasEstimateOpts);
     Timeout := or_default (Timeout o) (Timeout DefaultGasEstimateOpts);
     Fallback := or_default (Fallback o) (Fallback DefaultGasEstimateOpts) |}.
(** [src/web3/txmanager/txgas.go:168-180] applySafetyMargin, on [uint64] *)
Definition applySafetyMargin (gas floor : Z) (o : GasEstimateOpts) : Z :=
  let gas := w64 (gas + w64 (gas * w64 (SafetyBps o)) / 10000) in
  let gas := if gas <? MinGas o then MinGas o else gas in
  let gas := if gas <? floor then floor else gas in
  if MaxGas o <? gas then MaxGas o else gas.

Section gas.
Context `{GasNode}.

(** ** The cache *)

(** The client and the cache of the transaction manager, if there is one. *)
Record Client := { cl_world : World; cl_gasCache : option (gmap bytes Z) }.
Definition on_world {A} (m : SE World A) : SE Client A := λ c,
  let '(r, w) := m (cl_world c) in (r, {| cl_world := w; cl_gasCache := cl_gasCache c |}).

(** [src/web3/txmanager/txgas.go:211-221] gasKey *)
Definition gasKey (msg : CallMsg) : bytes :=
  match m_To msg with
  | Some to =>
      if (4 <=? length (m_Data msg))%nat
      then Address_Hex to ++ bytes_of_string "|" ++ hex_text (take 4 (m_Data msg))
      else hex_text (sha256 (to ++ m_Data msg))
  | None => hex_text (sha256 (m_Data msg))
  end.
(** [src/web3/txmanager/txgas.go:184-194] TxManager.cachedGasHint *)
Definition cachedGasHint (msg : CallMsg) (c : Client) : Z :=
  match cl_gasCache c with Some cache => default 0 (cache !! gasKey msg) | None => 0 end.
(** [src/web3/txmanager/txgas.go:198-205] TxManager.storeGasHint *)
Definition storeGasHint (msg : CallMsg) (gas : Z) (c : Client) : Client :=
  {| cl_world := cl_world c; cl_gasCache := insert (gasKey msg) gas <$> cl_gasCache c |}.

(** ** The search *)

(** [src/web3/txmanager/txgas.go:124-128] the call with a gas limit, in EstimateGas *)
Definition succeeds (msg : CallMsg) (limit : Z) (w : World) : bool * World :=
  let '(r, w) := CallContract (with_gas limit msg) w in (is_Ok r, w).
(** [src/web3/txmanager/txgas.go:139-146] the loop of the binary search, in EstimateGas *)
Fixpoint search (fuel : nat) (msg : CallMsg) (low high : Z) (w : World) : (Z * Z) * World :=
  match fuel with
  | O => ((low, high), w)
  | S fuel =>
      if w64 (low + 1000) <? high then
        let mid := w64 (low + high) / 2 in
        let '(ok, w) := succeeds msg mid w in
        if (ok : bool) then search fuel msg low mid w else search fuel msg (w64 (mid + 1)) high w
      else ((low, high), w)
  end.
(** Enough for limits below 2^63, by [search_ends]. *)
Definition search_fuel : nat := 64.
(** [src/web3/txmanager/txgas.go:112-122] the limits of the search, in EstimateGas *)
Definition search_limits (o : GasEstimateOpts) (cached : Z) : Z * Z :=
  let low := MinGas o in let high := MaxGas o in
  if 0 <? cached then
    (if low <? cached / 2 then cached / 2 else low, if w64 (cached * 2) <? high then w64 (cached * 2) else high)
  else (low, high).
(** [src/web3/txmanager/txgas.go:89-103] the fees of a message that has none, in EstimateGas *)
Definition ensure_fees (msg : CallMsg) : SE World CallMsg :=
  match m_GasFeeCap msg, m_GasTipCap msg with
  | Some _, Some _ => mret msg
  | _, _ =>
      tip ← attempt SuggestGasTipCap;
      base ← attempt SuggestGasPrice;
      match tip, base with
      | Ok tipCap, Ok baseFee => mret (with_fees (baseFee * 2 + tipCap) tipCap msg)
      | _, _ => mret msg
      end
  end.
(** [src/web3/txmanager/txgas.go:112-152] the search and its ends, in EstimateGas *)
Definition binary_search (msg : CallMsg) (opts : GasEstimateOpts) (floorGasLimit : Z) : SE Client Z := λ c,
  let '(low, high) := search_limits opts (cachedGasHint msg c) in
  let '(ok, w) := succeeds msg low (cl_world c) in
  let c := {| cl_world := w; cl_gasCache := cl_gasCache c |} in
  if (ok : bool) then (Ok (applySafetyMargin low floorGasLimit opts), c)
  else
    let '(ok, w) := succeeds msg high w in
    let c := {| cl_world := w; cl_gasCache := cl_gasCache c |} in
    if negb ok then (Ok (Fallback opts), c)
    else
      let '((_, high), w) := search search_fuel msg low high w in
      let c := storeGasHint msg high {| cl_world := w; cl_gasCache := cl_gasCache c |} in
      (Ok (applySafetyMargin high floorGasLimit opts), c).
(** [src/web3/txmanager/txgas.go:75-165] EstimateGas *)
Definition EstimateGas (msg : CallMsg) (opts : option GasEstimateOpts) (floorGasLimit : Z) : SE Client Z :=
  let opts := validate (default DefaultGasEstimateOpts opts) in
  msg ← on_world (ensure_fees msg);
  r ← attempt (on_world (RPC_EstimateGas msg));
  match r with
  | Ok gas => mret (applySafetyMargin gas floorGasLimit opts)
  | Err _ =>
      e ← attempt (on_world EthClient);
      match e with
      | Ok _ => binary_search msg opts floorGasLimit
      | Err _ => mret (Fallback opts)
      end
  end.
End gas.

(** ** Limits *)

Lemma w64_id z : 0 ≤ z < two64 → w64 z = z.
Proof. intros ?. by apply Z.mod_small. Qed.
Lemma w64_range z : 0 ≤ w64 z < two64.
Proof. by apply Z.mod_pos_bound. Qed.
Lemma applySafetyMargin_limits gas floor o : MinGas o ≤ MaxGas o →
  MinGas o ≤ applySafetyMargin gas floor o ≤ MaxGas o ∧ Z.min floor (MaxGas o) ≤ applySafetyMargin gas floor o.
Proof. unfold applySafetyMargin. repeat case_match; lia. Qed.
(** The margin never takes the estimate below the gas it was made from, if nothing overflows. *)
Lemma applySafetyMargin_ge gas floor o :
  0 ≤ gas ≤ MaxGas o → 0 ≤ SafetyBps o → MaxGas o * (SafetyBps o + 1) < two64 → gas ≤ applySafetyMargin gas floor o.
Proof.
  intros Hg Hs Hm. assert (Hp : 0 ≤ gas * SafetyBps o ∧ gas * SafetyBps o + gas < two64) by nia.
  assert (H0 : gas ≤ w64 (gas + w64 (gas * w64 (SafetyBps o)) / 10000)).
  { destruct (decide (gas = 0)) as [->|Hz]; [apply w64_range|].
    rewrite (w64_id (SafetyBps o)) by (split; [done|nia]). rewrite (w64_id (gas * _)) by lia.
    rewrite w64_id; Z.to_euclidean_division_equations; lia. }
  unfold applySafetyMargin. repeat case_match; lia.
Qed.

Section gas_facts.
Context `{GasNode}.

Lemma ensure_fees_Ok msg w : ∃ msg' w', ensure_fees msg w = (Ok msg', w').
Proof.
  unfold ensure_fees. repeat case_match; try (eexists _, _; reflexivity).
  all: unfold mbind, SE_bind, attempt; destruct (SuggestGasTipCap w) as [r1 w1]; destruct (SuggestGasPrice w1) as [r2 w2].
  all: destruct r1, r2; eexists _, _; reflexivity.
Qed.
Lemma binary_search_cases msg o floor c : ∃ r c', binary_search msg o floor c = (Ok r, c') ∧
  (r = Fallback o ∨ ∃ gas, r = applySafetyMargin gas floor o).
Proof.
  unfold binary_search. destruct (search_limits _ _) as [low high]. destruct (succeeds msg low _) as [[] w]; [eauto 6|].
  destruct (succeeds msg high w) as [[] w']; cbn [negb]; [|eauto]. destruct (search _ _ _ _ _) as [[l h] w'']. eauto 6.
Qed.
Lemma EstimateGas_cases msg opts floor c : let o := validate (default DefaultGasEstimateOpts opts) in
  ∃ r c', EstimateGas msg opts floor c = (Ok r, c') ∧ (r = Fallback o ∨ ∃ gas, r = applySafetyMargin gas floor o).
Proof.
  intros o. unfold EstimateGas. fold o. clearbody o. destruct (ensure_fees_Ok msg (cl_world c)) as (msg' & w' & He).
  unfold mbind, SE_bind, on_world, attempt. rewrite He. cbn [cl_world cl_gasCache].
  destruct (RPC_EstimateGas msg' w') as [[gas|e] w'']; cbn [cl_world cl_gasCache]; [unfold mret, SE_ret; eauto 6|].
  destruct (EthClient w'') as [[[]|e'] w3]; [apply binary_search_cases|unfold mret, SE_ret; eauto 6].
Qed.

(** An estimate is always made, whatever the node answers: it is within the limits and reaches the
    floor that the caller asked for, unless the upper limit is below it, or it is the fallback of the
    options. *)
Theorem EstimateGas_within_limits msg opts floor c :
  let o := validate (default DefaultGasEstimateOpts opts) in MinGas o ≤ MaxGas o →
  ∃ r c', EstimateGas msg opts floor c = (Ok r, c') ∧
    (r = Fallback o ∨ MinGas o ≤ r ≤ MaxGas o ∧ Z.min floor (MaxGas o) ≤ r).
Proof.
  intros o Ho. destruct (EstimateGas_cases msg opts floor c) as (r & c' & -> & Hr). exists r, c'. split; [done|].
  destruct Hr as [->|[gas ->]]; [by left|]. right. by apply applySafetyMargin_limits.
Qed.

(** ** The search ends, and finds the limit *)

(** The limits, while they are below 2^63. *)
Definition two63 : Z := 9223372036854775808.
Definition limits_ok (low high : Z) : Prop := 0 ≤ low < two63 ∧ 0 ≤ high < two63.
Lemma guard_limits low high : limits_ok low high → (w64 (low + 1000) <? high) = (low + 1000 <? high).
Proof. intros [??]. rewrite w64_id; [done|]. unfold two63, two64 in *. lia. Qed.
Lemma mid_limits low high : limits_ok low high → low + 1000 < high →
  let mid := w64 (low + high) / 2 in
  low < mid < high ∧ w64 (mid + 1) = mid + 1 ∧ limits_ok low mid ∧ limits_ok (mid + 1) high ∧
  2 * (mid - low) ≤ high - low ∧ 2 * (high - (mid + 1)) ≤ high - low.
Proof.
  intros [??] Hlt. unfold limits_ok, two63 in *. rewrite (w64_id (low + high)) by (unfold two64; lia).
  assert (Hm : low < (low + high) / 2 < high) by (Z.to_euclidean_division_equations; lia).
  rewrite w64_id by (unfold two64; lia). Z.to_euclidean_division_equations; lia.
Qed.
Lemma search_ends fuel msg low high w : limits_ok low high → high - low < 1001 * 2 ^ Z.of_nat fuel →
  let '((l, h), w') := search fuel msg low high w in
  h ≤ l + 1000 ∧ ∀ more, search (fuel + more) msg low high w = ((l, h), w').
Proof.
  revert low high w. induction fuel as [|fuel IH]; intros low high w Hl Hd.
  { simpl in *. split; [lia|]. intros [|more]; [done|]. simpl. rewrite guard_limits by done.
    by rewrite (proj2 (Z.ltb_ge _ _)) by lia. }
  simpl. rewrite guard_limits by done. destruct (Z.ltb_spec (low + 1000) high) as [Hlt|Hge]; [|split; [lia|done]].
  destruct (mid_limits low high Hl Hlt) as (Hm & -> & H1 & H2 & Hd1 & Hd2). cbn zeta in *.
  rewrite Nat2Z.inj_succ, Z.pow_succ_r in Hd by lia.
  destruct (succeeds msg _ w) as [[] w']; apply IH; try done; lia.
Qed.

(** A node whose answer to a call depends on the gas limit only, and more gas does no harm. *)
Context (msg : CallMsg) (works : Z → bool).
Context (Hworks : ∀ limit w, (succeeds msg limit w).1 = works limit).
Context (Hmono : ∀ a b, a ≤ b → works a = true → works b = true).

Lemma search_finds fuel low high w : limits_ok low high → low ≤ high → works high = true → (∀ x, x < low → works x = false) →
  let '((l, h), _) := search fuel msg low high w in low ≤ l ≤ h ∧ h ≤ high ∧ works h = true ∧ ∀ x, x < l → works x = false.
Proof.
  revert low high w. induction fuel as [|fuel IH]; intros low high w Hl Hle Hh Hlow; [done|].
  simpl. rewrite guard_limits by done. destruct (Z.ltb_spec (low + 1000) high) as [Hlt|Hge]; [|done].
  destruct (mid_limits low high Hl Hlt) as (Hm & -> & H1 & H2 & _). cbn zeta in *.
  pose proof (Hworks (w64 (low + high) / 2) w) as Hw. destruct (succeeds msg _ w) as [b w']. simpl in Hw. subst b.
  destruct (works (w64 (low + high) / 2)) eqn:E.
  - specialize (IH low (w64 (low + high) / 2) w' H1 ltac:(lia) E Hlow). repeat case_match; intuition lia.
  - specialize (IH (w64 (low + high) / 2 + 1) high w' H2 ltac:(lia) Hh). destruct (search _ _ _ _ _) as [[l h] ?].
    destruct IH as (?&?&?&?); [|intuition lia]. intros x Hx. destruct (works x) eqn:Ex; [|done].
    rewrite (Hmono x (w64 (low + high) / 2)) in E; [done|lia|done].
Qed.

End gas_facts.

Module GasExample.
(** A node that refuses to estimate and runs a call with 123456 gas or more. *)
#[local] Instance outside : Outside := { World := (); clock := λ _, 0; Sleep := λ _ w, w; ParseError := λ _, ""%string }.
#[local] Instance node : GasNode := {
  SuggestGasTipCap := mret 1; SuggestGasPrice := mret 10; RPC_EstimateGas := λ _, raise (ErrMsg "busy"); EthClient := mret ();
  CallContract := λ m, if 123456 <=? m_Gas m then mret () else raise (ErrMsg "out of gas");
  Address_Hex := λ b, b; sha256 := λ b, b }.
Definition msg : CallMsg :=
  {| m_From := []; m_To := None; m_Gas := 0; m_GasFeeCap := None; m_GasTipCap := None; m_Data := [];
     m_BlobGasFeeCap := None; m_BlobHashes := [] |}.
Definition client : Client := {| cl_world := tt : World; cl_gasCache := Some ∅ |}.

Example estimate : (EstimateGas msg None 0 client).1 = Ok 136088.
Proof. vm_compute. reflexivity. Qed.
Lemma EstimateGas_within_limits_witness :
  let o := validate (default DefaultGasEstimateOpts None) in MinGas o ≤ MaxGas o ∧
  ∃ r c', EstimateGas msg None 0 client = (Ok r, c') ∧
    (r = Fallback o ∨ MinGas o ≤ r ≤ MaxGas o ∧ Z.min 0 (MaxGas o) ≤ r).
Proof. split; [by vm_compute|]. apply EstimateGas_within_limits. by vm_compute. Defined.
Lemma works_alike limit w : (succeeds msg limit w).1 = (123456 <=? limit).
Proof. unfold succeeds. simpl. by destruct (_ <=? _). Qed.
Lemma works_more a b : a ≤ b → (123456 <=? a) = true → (123456 <=? b) = true.
Proof. rewrite !Z.leb_le. lia. Qed.
End GasExample.
