(* ===== verification/TxManager.v ===== *)
(** * The transaction manager

    [src/web3/txmanager]: the nonce that the manager expects, the transactions it sent and follows, and
    what it does with one that is not mined in time: a higher price, then a cancellation; and how a send
    recovers when the node refuses the nonce. The pending transactions are records on a heap that the
    map of nonces points to. The node, the signer and the time are parameters; every method holds the
    lock of the manager, so each is one step. *)

From S2P Require Import Prelude Bytes Hex EndpointPool TxGas.

(** ** Transactions *)

(** A transaction of go-ethereum, of the types that the manager tells apart; [S] is the sidecar. *)
Inductive TxKind (S : Type) :=
  | LegacyTx | DynamicFeeTx | BlobTx (blobFeeCap : Z) (blobHashes : list bytes) (sidecar : option S).
Arguments LegacyTx {_}.
Arguments DynamicFeeTx {_}.
Arguments BlobTx {_} _ _ _.
Record Tx (S : Type) := {
  tx_Kind : TxKind S; tx_Nonce : Z; tx_Gas : Z; tx_GasFeeCap : Z; tx_GasTipCap : Z;
  tx_To : bytes; tx_Data : bytes; tx_Value : Z; tx_Signature : option bytes }.
Arguments tx_Kind {_} _.
Arguments tx_Nonce {_} _.
Arguments tx_Gas {_} _.
Arguments tx_GasFeeCap {_} _.
Arguments tx_GasTipCap {_} _.
Arguments tx_To {_} _.
Arguments tx_Data {_} _.
Arguments tx_Value {_} _.
Arguments tx_Signature {_} _.
Arguments Build_Tx {_} _ _ _ _ _ _ _ _ _.

(** The calls of the node, the hash and the signature of a transaction, and the order in which a map
    is ranged over, which Go leaves open. *)
Class TxNode `{GasNode} := {
  Sidecar : Type; BlobHashes : Sidecar → list bytes;
  Tx_Hash : Tx Sidecar → bytes;
  SignTx : Z → Tx Sidecar → result bytes;
  signer_Address : bytes;
  NonceAt : SE World Z; PendingNonceAt : SE World Z;
  SendTransaction : Tx Sidecar → SE World ();
  TransactionReceipt : bytes → SE World Z; (* the status *)
  RandomBytes : World → bytes * World;
  range : gmap Z nat → list (Z * nat);
  range_perm m : range m ≡ₚ map_to_list m }.

(** [src/web3/txmanager/txmanager.go:21-36] *)
Definition defaultMaxRetries : Z := 10.
Definition defaultMaxPendingTime : Z := 5 * 60 * Second.
Definition defaultFeeIncreasePercent : Z := 50.
Definition defaultMaxGasPriceGwei : Z := 300.
Definition defaultMonitorInterval : Z := 30 * Second.
Definition defaultSimpleTxTimeout : Z := 20 * Second.
Definition sleepForNonceCache : Z := 500 * 1000000.
(** [src/web3/txmanager/txmanager.go:38-47] Config *)
Record Config := {
  MaxPendingTime : Z; MaxRetries : Z; FeeIncreasePercent : Z; MaxGasPriceGwei : Z; (* in wei *)
  MonitorInterval : Z; ChainID : Z; SimpleTxTimeout : Z; cfg_GasEstimateOpts : option GasEstimateOpts }.
(** [src/web3/txmanager/txmanager.go:50-61] DefaultConfig *)
Definition DefaultConfig (chainID : Z) : Config :=
  {| MaxPendingTime := defaultMaxPendingTime; MaxRetries := defaultMaxRetries;
     FeeIncreasePercent := defaultFeeIncreasePercent; MaxGasPriceGwei := defaultMaxGasPriceGwei * 1000000000;
     MonitorInterval := defaultMonitorInterval; ChainID := chainID; SimpleTxTimeout := defaultSimpleTxTimeout;
     cfg_GasEstimateOpts := Some DefaultGasEstimateOpts |}.

(** [src/web3/txmanager/txnonce.go:10-19] isNonceError; nil is not one *)
Definition isNonceError (err : option error) : bool :=
  match err with
  | None => false
  | Some e => let errMsg := error_Error e in
      strings_Contains errMsg "nonce too low" || strings_Contains errMsg "nonce too high" ||
      strings_Contains errMsg "already known"
  end.

Section txmanager.
Context `{TxNode}.

(** [src/web3/txmanager/txmanager.go:65-97] PendingTransaction *)
Record PendingTransaction := {
  ID : bytes; Hash : bytes; Nonce : Z; Timestamp : Time; RetryCount : Z; IsBlob : bool;
  OriginalGasPrice : Z; OriginalBlobFee : option Z; OriginalGasLimit : Z;
  To : bytes; Data : bytes; Value : Z; ptx_BlobHashes : list bytes; BlobSidecar : option Sidecar;
  LastError : option error }.
(** [src/web3/txmanager/txmanager.go:100-124] TxManager *)
Record TxManager := {
  tm_client : Client;
  nextNonce : Z; lastConfirmedNonce : Z; nonceInitialized : bool;
  tm_heap : list PendingTransaction; pendingTxs : gmap Z nat;
  config : Config }.

Definition set_client (c : Client) (tm : TxManager) : TxManager :=
  {| tm_client := c; nextNonce := nextNonce tm; lastConfirmedNonce := lastConfirmedNonce tm;
     nonceInitialized := nonceInitialized tm; tm_heap := tm_heap tm; pendingTxs := pendingTxs tm; config := config tm |}.
Definition set_nonces (next last : Z) (tm : TxManager) : TxManager :=
  {| tm_client := tm_client tm; nextNonce := next; lastConfirmedNonce := last;
     nonceInitialized := nonceInitialized tm; tm_heap := tm_heap tm; pendingTxs := pendingTxs tm; config := config tm |}.
Definition set_tracked (heap : list PendingTransaction) (pending : gmap Z nat) (tm : TxManager) : TxManager :=
  {| tm_client := tm_client tm; nextNonce := nextNonce tm; lastConfirmedNonce := lastConfirmedNonce tm;
     nonceInitialized := nonceInitialized tm; tm_heap := heap; pendingTxs := pending; config := config tm |}.
Definition on_client {A} (m : SE Client A) : SE TxManager A := λ tm,
  let '(r, c) := m (tm_client tm) in (r, set_client c tm).
Definition on_node {A} (m : SE World A) : SE TxManager A := on_client (on_world m).
Definition time_Now : SE TxManager Time := gets (λ tm, clock (cl_world (tm_client tm))).
Definition time_Sleep (d : Z) : SE TxManager () := on_node (λ w, (Ok (), Sleep d w)).
(** The record that a pointer stands for; the pointers of the map are never nil. *)
Definition load (ptr : nat) : SE TxManager PendingTransaction := λ tm,
  match tm_heap tm !! ptr with Some ptx => (Ok ptx, tm) | None => (Err (ErrMsg "nil pending transaction"), tm) end.
Definition store (ptr : nat) (ptx : PendingTransaction) : SE TxManager () :=
  modify (λ tm, set_tracked (<[ptr := ptx]> (tm_heap tm)) (pendingTxs tm) tm).
Definition untrack (nonce : Z) : SE TxManager () :=
  modify (λ tm, set_tracked (tm_heap tm) (delete nonce (pendingTxs tm)) tm).

(** [src/web3/txmanager/txmanager.go:128-150] New, for a client that was found *)
Definition New (w : World) (cfg : Config) : result TxManager * World :=
  match EthClient w with
  | (Err e, w) => (Err (Wrap "failed to get eth client" e), w)
  | (Ok _, w) =>
      match NonceAt w with
      | (Err e, w) => (Err (Wrap "failed to get on-chain nonce" e), w)
      | (Ok nonce, w) =>
          (Ok {| tm_client := {| cl_world := w; cl_gasCache := Some ∅ |}; nextNonce := nonce; lastConfirmedNonce := nonce;
                 nonceInitialized := true; tm_heap := []; pendingTxs := ∅; config := cfg |}, w)
      end
  end.

(** ** Nonces *)

(** [src/web3/txmanager/txnonce.go:22-33] TxManager.updateNonceTracking *)
Definition updateNonceTracking (confirmedNonce : Z) : SE TxManager () :=
  untrack confirmedNonce;;
  modify (λ tm,
    let last := if lastConfirmedNonce tm <=? confirmedNonce then w64 (confirmedNonce + 1) else lastConfirmedNonce tm in
    set_nonces (if nextNonce tm <? last then last else nextNonce tm) last tm).
(** [src/web3/txmanager/txnonce.go:38-53] TxManager.lastOnChainNonce *)
Definition lastOnChainNonce : SE TxManager Z :=
  _ ← wrapping "failed to get eth client" (on_node EthClient);
  lastNonce ← wrapping "failed to get on-chain nonce" (on_node NonceAt);
  pending ← attempt (on_node PendingNonceAt);
  mret (match pending with Ok p => if lastNonce <? p then p else lastNonce | Err _ => lastNonce end).

(** ** Transactions are built *)

(** [src/web3/txmanager/txmanager.go:433-440] TxManager.signTx *)
Definition signTx (tx : Tx Sidecar) : SE TxManager (Tx Sidecar) :=
  tm ← get_state;
  sig ← wrapping "failed to sign transaction" (lift (SignTx (ChainID (config tm)) tx));
  mret {| tx_Kind := tx_Kind tx; tx_Nonce := tx_Nonce tx; tx_Gas := tx_Gas tx; tx_GasFeeCap := tx_GasFeeCap tx;
          tx_GasTipCap := tx_GasTipCap tx; tx_To := tx_To tx; tx_Data := tx_Data tx; tx_Value := tx_Value tx;
          tx_Signature := Some sig |}.
(** The blob part: the fee, the hashes and the sidecar of a blob transaction. *)
Definition blob_part (ptx : PendingTransaction) (blobFee : option Z) : result (option (Z * list bytes * Sidecar)) :=
  match blobFee with
  | None => Ok None
  | Some fee =>
      match BlobSidecar ptx with
      | Some sidecar => Ok (Some (fee, BlobHashes sidecar, sidecar))
      | None => Err (ErrMsg "nil sidecar") (* a panic; no caller gives a fee without a sidecar *)
      end
  end.
(** [src/web3/txmanager/txmanager.go:340-414] TxManager.buildTx *)
Definition buildTx (ptx : PendingTransaction) (gasFeeCap blobFee : option Z) : SE TxManager (Tx Sidecar) :=
  tipCap ← wrapping "failed to get tip cap" (on_node SuggestGasTipCap);
  feeCap ← match gasFeeCap with
           | Some cap => mret cap
           | None =>
               baseFee ← wrapping "failed to get base fee" (on_node SuggestGasPrice);
               mret (baseFee * 2 + tipCap)
           end;
  blob ← lift (blob_part ptx blobFee);
  let estimateMsg := {| m_From := signer_Address; m_To := Some (To ptx); m_Gas := 0; m_GasFeeCap := Some feeCap;
    m_GasTipCap := Some tipCap; m_Data := Data ptx; m_BlobGasFeeCap := blobFee;
    m_BlobHashes := match blob with Some (_, hashes, _) => hashes | None => [] end |} in
  tm ← get_state;
  gasLimit ← wrapping "failed to estimate gas"
    (on_client (EstimateGas estimateMsg (cfg_GasEstimateOpts (config tm)) (OriginalGasLimit ptx)));
  let tx := {| tx_Kind := match blob with Some (fee, hashes, sidecar) => BlobTx fee hashes (Some sidecar) | None => DynamicFeeTx end;
               tx_Nonce := Nonce ptx; tx_Gas := gasLimit; tx_GasFeeCap := feeCap; tx_GasTipCap := tipCap;
               tx_To := To ptx; tx_Data := Data ptx; tx_Value := Value ptx; tx_Signature := None |} in
  wrapping "failed to sign transaction" (signTx tx).
(** A record with the parameters of a transaction to build, and nothing else. *)
Definition to_build (nonce : Z) (to data : bytes) : PendingTransaction :=
  {| ID := []; Hash := []; Nonce := nonce; Timestamp := 0; RetryCount := 0; IsBlob := false; OriginalGasPrice := 0;
     OriginalBlobFee := None; OriginalGasLimit := 0; To := to; Data := data; Value := 0; ptx_BlobHashes := [];
     BlobSidecar := None; LastError := None |}.
(** [src/web3/txmanager/txmanager.go:186-197] TxManager.BuildDynamicFeeTx *)
Definition BuildDynamicFeeTx (to data : bytes) (nonce : Z) : SE TxManager (Tx Sidecar) :=
  buildTx (to_build nonce to data) None None.

(** ** Status *)

(** [src/web3/txmanager/txmanager.go:418-430] TxManager.txReceipt *)
Definition txReceipt (hash : bytes) : SE TxManager Z :=
  _ ← wrapping "failed to get eth client" (on_node EthClient);
  wrapping "failed to get transaction receipt" (on_node (TransactionReceipt hash)).
(** [src/web3/txmanager/txmanager.go:203-217] TxManager.CheckTxStatusByHash *)
Definition CheckTxStatusByHash (hash : bytes) : SE TxManager bool :=
  receipt ← attempt (txReceipt hash);
  match receipt with
  | Err err => if errors_Is err EthNotFound then mret false else raise err
  | Ok status => if negb (status =? 1) then raise (ErrMsg "transaction reverted") else mret true
  end.
(** [src/web3/txmanager/txmanager.go:232-241] TxManager.PendingTx *)
Definition PendingTx (id : bytes) (tm : TxManager) : option PendingTransaction :=
  '(_, (_, ptx)) ← list_find (λ '(_, ptx), ID ptx = id)
    (omap (λ '(nonce, ptr), pair nonce <$> tm_heap tm !! ptr) (range (pendingTxs tm)));
  Some ptx.
(** [src/web3/txmanager/txmanager.go:221-227] TxManager.CheckTxStatusByID *)
Definition CheckTxStatusByID (id : bytes) : SE TxManager bool :=
  tm ← get_state;
  match PendingTx id tm with
  | None => raise (ErrMsg "transaction not found")
  | Some ptx => CheckTxStatusByHash (Hash ptx)
  end.

(** ** Tracking *)

(** [src/web3/txmanager/txsend.go:112-146] TxManager.trackTx *)
Definition trackTx (id : bytes) (tx : Tx Sidecar) : SE TxManager () :=
  now ← time_Now;
  let '(isBlob, blobFee, hashes) :=
    match tx_Kind tx with BlobTx fee hashes _ => (true, Some fee, hashes) | _ => (false, None, []) end in
  let ptx := {| ID := id; Hash := Tx_Hash tx; Nonce := tx_Nonce tx; Timestamp := now; RetryCount := 0;
                IsBlob := isBlob; OriginalGasPrice := tx_GasFeeCap tx; OriginalBlobFee := blobFee;
                OriginalGasLimit := tx_Gas tx; To := tx_To tx; Data := tx_Data tx; Value := tx_Value tx;
                ptx_BlobHashes := hashes; BlobSidecar := None; LastError := None |} in
  modify (λ tm, set_tracked (tm_heap tm ++ [ptx]) (<[tx_Nonce tx := length (tm_heap tm)]> (pendingTxs tm)) tm).
Definition set_BlobSidecar (sidecar : Sidecar) (p : PendingTransaction) : PendingTransaction :=
  {| ID := ID p; Hash := Hash p; Nonce := Nonce p; Timestamp := Timestamp p; RetryCount := RetryCount p;
     IsBlob := IsBlob p; OriginalGasPrice := OriginalGasPrice p; OriginalBlobFee := OriginalBlobFee p;
     OriginalGasLimit := OriginalGasLimit p; To := To p; Data := Data p; Value := Value p;
     ptx_BlobHashes := ptx_BlobHashes p; BlobSidecar := Some sidecar; LastError := LastError p |}.
(** [src/web3/txmanager/txsend.go:85-107] TxManager.TrackBlobTxWithSidecar *)
Definition TrackBlobTxWithSidecar (tx : Tx Sidecar) : SE TxManager () :=
  match tx_Kind tx with
  | BlobTx _ _ sidecar =>
      tm ← get_state;
      match pendingTxs tm !! tx_Nonce tx with
      | None => raise (ErrMsg "transaction not tracked, call SendTransactionWithFallback first")
      | Some ptr =>
          match sidecar with
          | None => raise (ErrMsg "transaction has no blob sidecar")
          | Some sidecar => ptx ← load ptr; store ptr (set_BlobSidecar sidecar ptx)
          end
      end
  | _ => raise (ErrMsg "transaction is not a blob transaction")
  end.

(** ** Replacement *)

(** A record whose transaction was replaced. *)
Definition replaced (hash : bytes) (now : Time) (retries price : Z) (blobFee : option Z) (p : PendingTransaction) : PendingTransaction :=
  {| ID := ID p; Hash := hash; Nonce := Nonce p; Timestamp := now; RetryCount := retries;
     IsBlob := IsBlob p; OriginalGasPrice := price; OriginalBlobFee := blobFee;
     OriginalGasLimit := OriginalGasLimit p; To := To p; Data := Data p; Value := Value p;
     ptx_BlobHashes := ptx_BlobHashes p; BlobSidecar := BlobSidecar p; LastError := LastError p |}.
Definition set_LastError (err : error) (p : PendingTransaction) : PendingTransaction :=
  {| ID := ID p; Hash := Hash p; Nonce := Nonce p; Timestamp := Timestamp p; RetryCount := RetryCount p;
     IsBlob := IsBlob p; OriginalGasPrice := OriginalGasPrice p; OriginalBlobFee := OriginalBlobFee p;
     OriginalGasLimit := OriginalGasLimit p; To := To p; Data := Data p; Value := Value p;
     ptx_BlobHashes := ptx_BlobHashes p; BlobSidecar := BlobSidecar p; LastError := Some err |}.
(** A replacement is sent; [sent] follows if the node took it. A nonce that the node has passed needs
    none. *)
Definition send_replacement (msg : string) (nonce : Z) (tx : Tx Sidecar) (sent : SE TxManager ()) : SE TxManager () :=
  r ← attempt (on_node (SendTransaction tx));
  match r with
  | Err err => if isNonceError (Some err) then updateNonceTracking nonce else raise (Wrap msg err)
  | Ok _ => sent
  end.
(** [src/web3/txmanager/txsend.go:289-320] TxManager.cancelTx *)
Definition cancelTx (ptr : nat) : SE TxManager () :=
  ptx ← load ptr;
  if IsBlob ptx then raise (ErrMsg "cannot cancel blob transaction")
  else
    let gasPrice := OriginalGasPrice ptx * 2 in
    signed ← wrapping "failed to sign cancel tx" (buildTx (to_build (Nonce ptx) signer_Address []) (Some gasPrice) None);
    send_replacement "failed to send cancel tx" (Nonce ptx) signed (
      now ← time_Now;
      store ptr (replaced (Tx_Hash signed) now (RetryCount ptx) (OriginalGasPrice ptx) (OriginalBlobFee ptx) ptx)).
(** [src/web3/txmanager/txsend.go:226-233] the new price, in speedUpTx *)
Definition increased (cfg : Config) (fee : Z) : Z := fee * (100 + FeeIncreasePercent cfg) / 100.
Definition new_price (cfg : Config) (price : Z) : Z :=
  let p := increased cfg price in if MaxGasPriceGwei cfg <? p then MaxGasPriceGwei cfg else p.
(** [src/web3/txmanager/txsend.go:191-214] a transaction that can never succeed is given up, in speedUpTx *)
Definition abandon_old (ptr : nat) (ptx : PendingTransaction) (lastError : error) : SE TxManager () :=
  (if IsBlob ptx then mret () else warn (cancelTx ptr));;
  untrack (Nonce ptx);;
  raise (Wrap "transaction permanently failed" lastError).
(** [src/web3/txmanager/txsend.go:226-283] the replacement, in speedUpTx *)
Definition speed_up (ptr : nat) (ptx : PendingTransaction) : SE TxManager () :=
  tm ← get_state;
  let newGasPrice := new_price (config tm) (OriginalGasPrice ptx) in
  let newBlobFee := increased (config tm) <$> OriginalBlobFee ptx in
  newTx ← (if IsBlob ptx then
             match BlobSidecar ptx with
             | None => raise (ErrMsg "blob transaction stuck without recovery option")
             | Some _ => wrapping "cannot rebuild blob transaction" (buildTx ptx (Some newGasPrice) newBlobFee)
             end
           else wrapping "failed to rebuild transaction" (buildTx ptx (Some newGasPrice) None));
  send_replacement "failed to send replacement" (Nonce ptx) newTx (
    now ← time_Now;
    store ptr (replaced (Tx_Hash newTx) now (RetryCount ptx + 1) newGasPrice
                 (if IsBlob ptx then newBlobFee else OriginalBlobFee ptx) ptx)).
(** [src/web3/txmanager/txsend.go:190-283] TxManager.speedUpTx *)
Definition speedUpTx (ptr : nat) : SE TxManager () :=
  ptx ← load ptr;
  tm ← get_state;
  if IsPermanentTxError (LastError ptx) then abandon_old ptr ptx (default (ErrMsg "") (LastError ptx))
  else if MaxRetries (config tm) <=? RetryCount ptx then cancelTx ptr
  else
    onChainNonce ← wrapping "failed to get last on-chain nonce" lastOnChainNonce;
    if Nonce ptx <? onChainNonce then updateNonceTracking (Nonce ptx) else speed_up ptr ptx.

(** [src/web3/txmanager/txsend.go:153-182] one transaction of the range, in handleStuckTxs; an entry that
    was deleted before its turn has none *)
Definition handle_stuck (entry : Z * nat) : SE TxManager () :=
  let '(nonce, ptr) := entry in
  tm ← get_state;
  if bool_decide (pendingTxs tm !! nonce ≠ Some ptr) then mret ()
  else
    ptx ← load ptr;
    now ← time_Now;
    if now - Timestamp ptx <? MaxPendingTime (config tm) then mret ()
    else
      mined ← attempt (CheckTxStatusByHash (Hash ptx));
      match mined with
      | Ok true => updateNonceTracking nonce
      | Ok false => warn (speedUpTx ptr)
      | Err err => store ptr (set_LastError err ptx);; warn (speedUpTx ptr)
      end.
(** [src/web3/txmanager/txsend.go:152-185] TxManager.handleStuckTxs *)
Definition handleStuckTxs : SE TxManager () :=
  tm ← get_state;
  forM_ handle_stuck (range (pendingTxs tm)).

(** ** Sending *)

(** What makes a transaction for a nonce; it may ask the node. *)
Definition Builder := Z → SE Client (Tx Sidecar).

(** [src/web3/txmanager/txsend.go:342-349] the first pending nonce from the one on chain, in
    recoverTxFromNonceGap *)
Definition lowestStuckNonce (onChainNonce next : Z) (pending : gmap Z nat) : Z :=
  match list_find (λ n, is_Some (pending !! n)) (seqZ onChainNonce (next - onChainNonce)) with
  | Some (_, nonce) => nonce
  | None => onChainNonce
  end.
(** [src/web3/txmanager/txsend.go:377-402] the attempts to send, in recoverTxFromNonceGap; [err] is the
    error of the builder, which is nil *)
Fixpoint resend (attempts : nat) (first : bool) (id : bytes) (tx : Tx Sidecar) (err : option error) (sendErr : error) :
    SE TxManager bytes :=
  match attempts with
  | O => raise (Wrap "failed to send transaction after nonce recovery after 3 attempts" sendErr)
  | S attempts =>
      (if first then mret () else time_Sleep Second);;
      r ← attempt (on_node (SendTransaction tx));
      match r with
      | Err sendErr =>
          if IsPermanentTxError err
          then raise (Wrap "permanent error sending transaction after nonce recovery" sendErr)
          else resend attempts false id tx err sendErr
      | Ok _ =>
          trackTx id tx;;
          modify (λ tm, set_nonces (w64 (nextNonce tm + 1)) (lastConfirmedNonce tm) tm);;
          mret (Tx_Hash tx)
      end
  end.
(** [src/web3/txmanager/txsend.go:361-402] no transaction is stuck: the nonces are those of the chain and the
    transaction is built again, in recoverTxFromNonceGap *)
Definition rebuild_and_send (id : bytes) (txBuilder : Builder) (onChainNonce : Z) : SE TxManager bytes :=
  modify (set_nonces onChainNonce onChainNonce);;
  time_Sleep sleepForNonceCache;;
  tx ← wrapping "failed to rebuild transaction with corrected nonce" (on_client (txBuilder onChainNonce));
  if negb (tx_Nonce tx =? onChainNonce) then raise (ErrMsg "built transaction has incorrect nonce")
  else resend (Z.to_nat defaultMaxRetries) true id tx None (ErrMsg "nil").
(** [src/web3/txmanager/txsend.go:325-403] TxManager.recoverTxFromNonceGap *)
Definition recoverTxFromNonceGap (id : bytes) (txBuilder : Builder) : SE TxManager bytes :=
  onChainNonce ← wrapping "failed to get on-chain nonce" lastOnChainNonce;
  modify (λ tm, set_tracked (tm_heap tm) (filter (λ '(nonce, _), onChainNonce ≤ nonce) (pendingTxs tm)) tm);;
  tm ← get_state;
  match pendingTxs tm !! lowestStuckNonce onChainNonce (nextNonce tm) (pendingTxs tm) with
  | Some ptr => warn (speedUpTx ptr);; ptx ← load ptr; mret (Hash ptx)
  | None => rebuild_and_send id txBuilder onChainNonce
  end.
(** [src/web3/txmanager/txsend.go:22-80] TxManager.SendTx *)
Definition SendTx (txBuilder : Builder) : SE TxManager (bytes * bytes) :=
  tm ← get_state;
  if negb (nonceInitialized tm) then raise (ErrMsg "transaction manager not initialized")
  else
    id ← on_node (λ w, let '(id, w) := RandomBytes w in (Ok id, w));
    warn handleStuckTxs;;
    pending ← attempt (on_node PendingNonceAt);
    nonce ← gets (λ tm, match pending with Ok n => n | Err _ => nextNonce tm end);
    tx ← wrapping "failed to build transaction" (on_client (txBuilder nonce));
    sent ← attempt (on_node (SendTransaction tx));
    match sent with
    | Err err =>
        if isNonceError (Some err) then
          hash ← wrapping "failed to recover from nonce gap" (recoverTxFromNonceGap id txBuilder);
          mret (id, hash)
        else raise (Wrap "failed to send transaction" err)
    | Ok _ =>
        trackTx id tx;;
        modify (λ tm, set_nonces (w64 (nextNonce tm + 1)) (lastConfirmedNonce tm) tm);;
        mret (id, Tx_Hash tx)
    end.
End txmanager.

(** ** What the node has seen

    The transactions that the node accepted, in any world; it forgets none, and one that it takes
    without an error is among them. *)

Definition keeps `{TxNode} {A} (Accepted : World → Tx Sidecar → Prop) (m : SE World A) : Prop :=
  ∀ w tx, Accepted w tx → Accepted (m w).2 tx.
Class NodeRecord `{TxNode} := {
  Accepted : World → Tx Sidecar → Prop;
  tip_keeps : keeps Accepted SuggestGasTipCap; price_keeps : keeps Accepted SuggestGasPrice;
  estimate_keeps m : keeps Accepted (RPC_EstimateGas m); client_keeps : keeps Accepted EthClient;
  call_keeps m : keeps Accepted (CallContract m); nonce_keeps : keeps Accepted NonceAt;
  pending_keeps : keeps Accepted PendingNonceAt; send_keeps tx : keeps Accepted (SendTransaction tx);
  receipt_keeps h : keeps Accepted (TransactionReceipt h);
  sleep_keeps d w tx : Accepted w tx → Accepted (Sleep d w) tx;
  random_keeps w tx : Accepted w tx → Accepted (RandomBytes w).2 tx;
  send_accepts tx w w' : SendTransaction tx w = (Ok (), w') → Accepted w' tx }.

Section invariant.
Context `{NodeRecord}.

Definition seen (tm : TxManager) (tx : Tx Sidecar) : Prop := Accepted (cl_world (tm_client tm)) tx.
(** A step that only asks the node. *)
Definition asks : relation TxManager := λ tm tm',
  tm' = set_client (tm_client tm') tm ∧ ∀ tx, seen tm tx → seen tm' tx.
#[export] Instance asks_preorder : PreOrder asks.
Proof.
  split; [intros tm; split; [by destruct tm|done]|]. intros a b c [Hb Hab] [Hc Hbc]. split; [rewrite Hc at 1; by rewrite Hb at 1|]. intros tx Htx. by apply Hbc, Hab.
Qed.

(** The client alone, for the gas estimate. *)
Definition client_asks : relation Client := λ c c', ∀ tx, Accepted (cl_world c) tx → Accepted (cl_world c') tx.
#[export] Instance client_asks_preorder : PreOrder client_asks.
Proof. split; [by intros c tx|]. intros a b c Hab Hbc tx Htx. by apply Hbc, Hab. Qed.

Lemma on_world_asks {A} (m : SE World A) : keeps Accepted m → moves client_asks (on_world m).
Proof. intros Hm c tx Htx. unfold on_world. specialize (Hm _ _ Htx). by destruct (m _). Qed.
Lemma on_client_asks {A} (m : SE Client A) : moves client_asks m → moves asks (on_client m).
Proof. intros Hm tm. specialize (Hm (tm_client tm)). unfold on_client. by destruct (m _). Qed.
Lemma on_node_asks {A} (m : SE World A) : keeps Accepted m → moves asks (on_node m).
Proof. intros ?. by apply on_client_asks, on_world_asks. Qed.
Lemma time_Now_asks : moves asks time_Now.
Proof. intros tm. reflexivity. Qed.
Lemma time_Sleep_asks d : moves asks (time_Sleep d).
Proof. apply on_node_asks. intros w tx. apply sleep_keeps. Qed.
End invariant.
#[export] Hint Resolve tip_keeps price_keeps estimate_keeps client_keeps call_keeps nonce_keeps pending_keeps
  send_keeps receipt_keeps : moves.
#[export] Hint Resolve on_world_asks on_client_asks on_node_asks time_Now_asks time_Sleep_asks : moves.

Section asking.
Context `{NodeRecord}.

(** *** What only asks the node *)

Lemma succeeds_asks msg limit w tx : Accepted w tx → Accepted (succeeds msg limit w).2 tx.
Proof. unfold succeeds. intros Htx%(call_keeps (with_gas limit msg)). by destruct (CallContract _ w). Qed.
Lemma search_asks fuel msg low high w tx : Accepted w tx → Accepted (search fuel msg low high w).2 tx.
Proof.
  revert low high w. induction fuel as [|fuel IH]; intros low high w Hw; [done|]. cbn [search].
  case_match; [|done]. apply (succeeds_asks msg (w64 (low + high) / 2)) in Hw.
  destruct (succeeds _ _ w) as [[] w']; by apply IH.
Qed.
Lemma binary_search_asks msg o floor : moves client_asks (binary_search msg o floor).
Proof.
  intros c tx Hc. unfold binary_search. destruct (search_limits _ _) as [low high].
  apply (succeeds_asks msg low) in Hc. destruct (succeeds msg low _) as [[] w]; [done|].
  apply (succeeds_asks msg high) in Hc. destruct (succeeds msg high _) as [[] w']; cbn [negb]; [|done].
  apply (search_asks search_fuel msg low high) in Hc. by destruct (search _ _ _ _ _) as [[l h] w''].
Qed.
Lemma ensure_fees_asks msg : keeps Accepted (ensure_fees msg).
Proof.
  intros w tx Hw. unfold ensure_fees, mbind, SE_bind, attempt.
  pose proof (tip_keeps w tx Hw) as Ht. pose proof (price_keeps (SuggestGasTipCap w).2 tx Ht) as Hp.
  destruct (m_GasFeeCap msg), (m_GasTipCap msg); [done|..].
  all: destruct (SuggestGasTipCap w) as [[] w1]; simpl in *; destruct (SuggestGasPrice w1) as [[] w2]; done.
Qed.
Lemma EstimateGas_asks msg opts floor : moves client_asks (EstimateGas msg opts floor).
Proof.
  unfold EstimateGas. pose proof ensure_fees_asks. pose proof binary_search_asks. moves.
Qed.
Lemma buildTx_asks ptx cap fee : moves asks (buildTx ptx cap fee).
Proof. pose proof EstimateGas_asks. unfold buildTx, signTx. moves. Qed.
Lemma lastOnChainNonce_asks : moves asks lastOnChainNonce.
Proof. unfold lastOnChainNonce. moves. Qed.
Lemma CheckTxStatusByHash_asks h : moves asks (CheckTxStatusByHash h).
Proof. unfold CheckTxStatusByHash, txReceipt. moves. Qed.
End asking.
#[export] Hint Resolve EstimateGas_asks buildTx_asks lastOnChainNonce_asks CheckTxStatusByHash_asks : moves.

(** ** The invariant *)

Section tracked.
Context `{NodeRecord}.

(** A record tracked under a nonce is of that nonce, its hash is that of a transaction with that nonce
    which the node accepted, it has a blob fee if it is a blob transaction, it was not replaced more
    often than allowed, and a replacement does not offer more than the highest price. *)
Definition record_ok (cfg : Config) (sent : Tx Sidecar → Prop) (nonce : Z) (p : PendingTransaction) : Prop :=
  Nonce p = nonce ∧ (IsBlob p = true ↔ is_Some (OriginalBlobFee p)) ∧
  0 ≤ RetryCount p ≤ Z.max 0 (MaxRetries cfg) ∧ (0 < RetryCount p → OriginalGasPrice p ≤ MaxGasPriceGwei cfg) ∧
  ∃ tx, sent tx ∧ Tx_Hash tx = Hash p ∧ tx_Nonce tx = nonce.
Definition tracked_ok (tm : TxManager) : Prop := ∀ nonce ptr, pendingTxs tm !! nonce = Some ptr →
  ∃ p, tm_heap tm !! ptr = Some p ∧ record_ok (config tm) (seen tm) nonce p.
(** A step keeps it, the options, and what the node has seen. *)
Definition sound_step : relation TxManager := λ tm tm',
  config tm' = config tm ∧ (∀ tx, seen tm tx → seen tm' tx) ∧ (tracked_ok tm → tracked_ok tm').
#[export] Instance sound_step_preorder : PreOrder sound_step.
Proof.
  unfold sound_step. split; [done|]. intros a b c (Hc1 & Hs1 & Ht1) (Hc2 & Hs2 & Ht2). split_and!; [congruence|auto..].
Qed.
Lemma record_ok_mono cfg (s s' : Tx Sidecar → Prop) n p : (∀ tx, s tx → s' tx) → record_ok cfg s n p → record_ok cfg s' n p.
Proof. unfold record_ok. naive_solver. Qed.
Lemma asks_sound tm tm' : asks tm tm' → sound_step tm tm'.
Proof.
  intros [Heq Hs]. split_and!; [by rewrite Heq|done|]. intros Ht n ptr Hn.
  destruct (Ht n ptr) as (p & Hp & Hr); [by rewrite Heq in Hn|]. exists p. rewrite Heq. split; [done|].
  by eapply record_ok_mono.
Qed.
Lemma moves_asks {A} (m : SE TxManager A) : moves asks m → moves sound_step m.
Proof. intros Hm tm. apply asks_sound, Hm. Qed.

(** A change of the tracking, given that every entry left is sound. *)
Lemma set_tracked_sound tm heap pending : (∀ nonce ptr, tracked_ok tm → pending !! nonce = Some ptr →
    ∃ p, heap !! ptr = Some p ∧ record_ok (config tm) (seen tm) nonce p) → sound_step tm (set_tracked heap pending tm).
Proof. intros Hp. split_and!; [done|done|]. intros Ht n ptr Hn. by apply Hp. Qed.
Lemma untrack_sound nonce : moves sound_step (untrack nonce).
Proof. intros tm. apply set_tracked_sound. intros n ptr Ht [_ Hn]%lookup_delete_Some. by apply Ht. Qed.
Lemma set_nonces_sound tm next last : sound_step tm (set_nonces next last tm).
Proof. done. Qed.
Lemma updateNonceTracking_sound nonce : moves sound_step (updateNonceTracking nonce).
Proof. pose proof untrack_sound. unfold updateNonceTracking. moves. Qed.
Lemma store_sound tm ptr p p' : tm_heap tm !! ptr = Some p →
  (∀ n, record_ok (config tm) (seen tm) n p → record_ok (config tm) (seen tm) n p') → sound_step tm (store ptr p' tm).2.
Proof.
  intros Hp Hr. apply set_tracked_sound. intros n q Ht Hq. destruct (Ht n q Hq) as (x & Hx & Hok).
  destruct (decide (q = ptr)) as [->|Hne]; [|exists x; by rewrite list_lookup_insert_ne by done].
  exists p'. rewrite list_lookup_insert_eq by (by eapply lookup_lt_Some). split; [done|].
  apply Hr. by simplify_eq.
Qed.
Lemma trackTx_sound id tx tm : seen tm tx → sound_step tm (trackTx id tx tm).2.
Proof.
  intros Htx. unfold trackTx, mbind, SE_bind, time_Now, gets.
  destruct (match tx_Kind tx with LegacyTx => _ | _ => _ end) as [[b f] h] eqn:Ek. apply set_tracked_sound.
  intros n ptr Ht Hn. apply lookup_insert_Some in Hn as [[<- <-]|[Hne Hn]].
  - eexists. rewrite lookup_app_r, Nat.sub_diag by done. split; [done|]. split; [done|].
    split; [|split; [simpl; lia|split; [simpl; lia|by exists tx]]].
    destruct (tx_Kind tx); injection Ek as <- <- <-; simpl; split; try done; by intros [].
  - destruct (Ht n ptr Hn) as (p & Hp & Hr). exists p. split; [|done]. by apply lookup_app_l_Some.
Qed.

(** *** Replacement *)

Lemma signTx_nonce tx tm tx' tm' : signTx tx tm = (Ok tx', tm') → tx_Nonce tx' = tx_Nonce tx.
Proof. unfold signTx, wrapping, lift. run_simpl. destruct (SignTx _ tx); [|done]. by intros [= <- <-]. Qed.
Lemma signTx_fields tx tm tx' tm' : signTx tx tm = (Ok tx', tm') → tx_To tx' = tx_To tx ∧ tx_Data tx' = tx_Data tx ∧ tx_Value tx' = tx_Value tx.
Proof. unfold signTx, wrapping, lift. run_simpl. destruct (SignTx _ tx); [|done]. by intros [= <- <-]. Qed.
(** What is built is what the record says. *)
Lemma buildTx_signs ptx cap fee tm tx tm' : buildTx ptx cap fee tm = (Ok tx, tm') →
  ∃ tx0 tm0, signTx tx0 tm0 = (Ok tx, tm') ∧ tx_Nonce tx0 = Nonce ptx ∧ tx_To tx0 = To ptx ∧ tx_Data tx0 = Data ptx ∧ tx_Value tx0 = Value ptx.
Proof.
  unfold buildTx. intros (tip & ? & _ & Hb)%bind_inv_Ok. apply bind_inv_Ok in Hb as (feeCap & ? & _ & Hb).
  apply bind_inv_Ok in Hb as (blob & ? & _ & Hb). apply bind_inv_Ok in Hb as (? & ? & _ & Hb).
  apply bind_inv_Ok in Hb as (gas & ? & _ & Hb). apply wrapping_Ok in Hb. eexists _, _. by split.
Qed.
Lemma buildTx_nonce ptx cap fee tm tx tm' : buildTx ptx cap fee tm = (Ok tx, tm') → tx_Nonce tx = Nonce ptx.
Proof. intros (tx0 & tm0 & ->%signTx_nonce & -> & _)%buildTx_signs. done. Qed.
(** What a replacement keeps of the record: the nonce, whether there is a blob fee; it stays within the
    limits. *)
Definition replaces (cfg : Config) (p p' : PendingTransaction) (tx : Tx Sidecar) : Prop :=
  Nonce p' = Nonce p ∧ IsBlob p' = IsBlob p ∧ (is_Some (OriginalBlobFee p') ↔ is_Some (OriginalBlobFee p)) ∧
  (0 ≤ RetryCount p → RetryCount p ≤ Z.max 0 (MaxRetries cfg) → 0 ≤ RetryCount p' ≤ Z.max 0 (MaxRetries cfg)) ∧
  ((0 < RetryCount p → OriginalGasPrice p ≤ MaxGasPriceGwei cfg) → 0 < RetryCount p' → OriginalGasPrice p' ≤ MaxGasPriceGwei cfg) ∧
  Hash p' = Tx_Hash tx.
Lemma replaces_ok cfg (sent : Tx Sidecar → Prop) p p' tx n : replaces cfg p p' tx → sent tx → tx_Nonce tx = Nonce p →
  record_ok cfg sent n p → record_ok cfg sent n p'.
Proof.
  intros (Hn & Hb & Hf & Hr & Hg & Hh) Hs Htx (<- & Hbf & [??] & Hp & _). split; [done|]. rewrite Hb, Hf.
  split; [done|]. split; [auto|]. split; [auto|]. by exists tx.
Qed.
Lemma send_replacement_sound msg tx ptr p f tm : tm_heap tm !! ptr = Some p → tx_Nonce tx = Nonce p →
  (∀ now, replaces (config tm) p (f now) tx) →
  sound_step tm (send_replacement msg (Nonce p) tx (now ← time_Now; store ptr (f now)) tm).2.
Proof.
  intros Hp Hn Hf. unfold send_replacement, attempt, mbind, SE_bind.
  pose proof (on_node_asks _ (send_keeps tx) tm) as Hk.
  destruct (on_node (SendTransaction tx) tm) as [[[]|e] tm1] eqn:Es; simpl in Hk.
  - etrans; [by apply asks_sound|]. destruct Hk as [Heq Hk]. unfold time_Now, gets. apply (store_sound _ _ p).
    + by rewrite Heq.
    + intros n. apply (replaces_ok _ _ _ _ tx); [rewrite Heq; apply Hf| |done].
      unfold on_node, on_client, on_world in Es. destruct (SendTransaction tx _) as [r w] eqn:Ew.
      injection Es as -> <-. by eapply send_accepts.
  - etrans; [by apply asks_sound|]. case_match; [apply updateNonceTracking_sound|done].
Qed.
(** A step that starts where the record was loaded. *)
Lemma after_asks {A B} (m : SE TxManager A) (k : A → SE TxManager B) tm ptr p : moves asks m → tm_heap tm !! ptr = Some p →
  (∀ a tm', m tm = (Ok a, tm') → config tm' = config tm → tm_heap tm' !! ptr = Some p → sound_step tm' (k a tm').2) →
  sound_step tm ((m ≫= k) tm).2.
Proof.
  intros Hm Hp Hk. specialize (Hm tm). unfold mbind, SE_bind. destruct (m tm) as [[a|e] tm'] eqn:Em; simpl in *.
  - etrans; [by apply asks_sound|]. destruct Hm as [Heq _]. apply Hk; [done|by rewrite Heq|by rewrite Heq].
  - by apply asks_sound.
Qed.
Lemma load_sound {A} ptr (k : PendingTransaction → SE TxManager A) tm :
  (∀ p, tm_heap tm !! ptr = Some p → sound_step tm (k p tm).2) → sound_step tm ((load ptr ≫= k) tm).2.
Proof. intros Hk. unfold load, mbind, SE_bind. destruct (tm_heap tm !! ptr); [by apply Hk|done]. Qed.

Lemma cancelTx_sound ptr : moves sound_step (cancelTx ptr).
Proof.
  intros tm. unfold cancelTx. apply load_sound. intros p Hp. destruct (IsBlob p); [done|].
  apply (after_asks _ _ _ ptr p); [moves|done|]. intros tx tm' Htx%wrapping_Ok%buildTx_nonce Hc Hp'.
  by apply send_replacement_sound.
Qed.
Lemma speed_up_sound ptr p tm : tm_heap tm !! ptr = Some p → RetryCount p < MaxRetries (config tm) →
  sound_step tm (speed_up ptr p tm).2.
Proof.
  intros Hp Hr. unfold speed_up. apply (after_asks _ _ _ ptr p); [moves|done|]. intros ? ? [= <- <-] _ _.
  apply (after_asks _ _ _ ptr p); [moves; repeat case_match; moves|done|]. intros tx tm' Htx Hc Hp'.
  apply send_replacement_sound; [done| |].
  - revert Htx. repeat case_match; try done; intros Htx%wrapping_Ok%buildTx_nonce; done.
  - intros now. rewrite Hc. split; [done|]. split; [done|]. split; [|split; [simpl; lia|split; [|done]]].
    + simpl. case_match; [|done]. by rewrite fmap_is_Some.
    + intros _ _. simpl. unfold new_price.
      destruct (Z.ltb_spec (MaxGasPriceGwei (config tm)) (increased (config tm) (OriginalGasPrice p))); lia.
Qed.
Lemma abandon_old_sound ptr p e : moves sound_step (abandon_old ptr p e).
Proof. pose proof cancelTx_sound. pose proof untrack_sound. unfold abandon_old. moves. Qed.
Lemma get_state_asks : moves asks get_state.
Proof. intros tm. reflexivity. Qed.
Lemma speedUpTx_sound ptr : moves sound_step (speedUpTx ptr).
Proof.
  intros tm. unfold speedUpTx. apply load_sound. intros p Hp.
  apply (after_asks _ _ _ ptr p get_state_asks Hp). intros ? ? [= <- <-] _ _.
  case_match; [apply abandon_old_sound|]. case_match eqn:Hr; [apply cancelTx_sound|]. apply Z.leb_gt in Hr.
  apply (after_asks _ _ _ ptr p); [moves|done|]. intros n tm' _ Hc Hp'.
  case_match; [apply updateNonceTracking_sound|]. apply speed_up_sound; [done|]. by rewrite Hc.
Qed.

(** *** The methods *)

Lemma handle_stuck_sound entry : moves sound_step (handle_stuck entry).
Proof.
  destruct entry as [nonce ptr]. intros tm. unfold handle_stuck. unfold mbind at 1, SE_bind at 1, get_state at 1.
  case_bool_decide; [done|]. apply load_sound. intros p Hp.
  apply (after_asks _ _ _ ptr p time_Now_asks Hp). intros now tm1 _ _ Hp1. case_match; [done|].
  apply (after_asks _ _ _ ptr p); [moves|done|]. intros mined tm2 _ _ Hp2.
  assert (Hs : sound_step tm2 (warn (speedUpTx ptr) tm2).2) by apply speedUpTx_sound.
  destruct mined as [[]|err]; [apply updateNonceTracking_sound|done|].
  etrans; [by apply (store_sound _ ptr p (set_LastError err p))|]. apply speedUpTx_sound.
Qed.
Lemma handleStuckTxs_sound : moves sound_step handleStuckTxs.
Proof. pose proof handle_stuck_sound. unfold handleStuckTxs. moves. Qed.
(** A send whose success the next step relies on. *)
Lemma send_sound {A} tx (k : result () → SE TxManager A) : (∀ e, moves sound_step (k (Err e))) →
  (∀ tm, seen tm tx → sound_step tm (k (Ok ()) tm).2) → moves sound_step (attempt (on_node (SendTransaction tx)) ≫= k).
Proof.
  intros He Hk tm. unfold attempt, mbind, SE_bind. pose proof (on_node_asks _ (send_keeps tx) tm) as Hs.
  destruct (on_node (SendTransaction tx) tm) as [[[]|e] tm'] eqn:Es; (etrans; [by apply asks_sound|]); [|apply He].
  apply Hk. unfold on_node, on_client, on_world in Es. destruct (SendTransaction tx _) as [r w] eqn:Ew.
  injection Es as -> <-. by eapply send_accepts.
Qed.
(** The transaction is tracked and the next nonce is the next one. *)
Lemma track_and_count {A} id tx tm (a : A) : seen tm tx → sound_step tm
  ((trackTx id tx;; modify (λ tm, set_nonces (w64 (nextNonce tm + 1)) (lastConfirmedNonce tm) tm);; mret a) tm).2.
Proof.
  intros Htx. assert (Ht : trackTx id tx tm = (Ok (), (trackTx id tx tm).2)).
  { unfold trackTx, time_Now, gets, mbind, SE_bind. by destruct (tx_Kind tx). }
  rewrite (bind_Ok _ _ _ _ _ Ht). etrans; [by apply (trackTx_sound id tx)|]. apply set_nonces_sound.
Qed.
Lemma resend_sound n first id tx err e : moves sound_step (resend n first id tx err e).
Proof.
  revert first e.
  induction n as [|n IH]; intros first e; [intros tm; done|]. cbn [resend]. apply (moves_bind sound_step).
  - destruct first; [intros tm; done|]. apply moves_asks, time_Sleep_asks.
  - intros _. apply send_sound; [|intros tm Htx; by apply track_and_count]. intros e'. case_match; [intros tm; done|apply IH].
Qed.
Context (txBuilder : Builder) (Hbuilder : ∀ nonce, moves client_asks (txBuilder nonce)).
Lemma builder_sound msg nonce : moves sound_step (wrapping msg (on_client (txBuilder nonce))).
Proof. apply moves_asks. pose proof Hbuilder. moves. Qed.
Lemma rebuild_and_send_sound id n : moves sound_step (rebuild_and_send id txBuilder n).
Proof.
  unfold rebuild_and_send. apply (moves_bind sound_step); [intros tm; apply set_nonces_sound|]. intros _.
  apply (moves_bind sound_step); [apply moves_asks, time_Sleep_asks|]. intros _.
  apply (moves_bind sound_step); [apply builder_sound|]. intros tx. case_match; [intros tm; done|apply resend_sound].
Qed.
Lemma recoverTxFromNonceGap_sound id : moves sound_step (recoverTxFromNonceGap id txBuilder).
Proof.
  unfold recoverTxFromNonceGap. apply (moves_bind sound_step); [apply moves_asks; moves|]. intros n.
  apply (moves_bind sound_step).
  { intros tm. apply set_tracked_sound. intros m ptr Ht [Hm _]%map_lookup_filter_Some. by apply Ht. }
  intros _ tm. unfold mbind at 1, SE_bind at 1, get_state. case_match; [|apply rebuild_and_send_sound].
  etrans; [apply speedUpTx_sound|]. apply load_sound. intros p _. done.
Qed.
Lemma SendTx_sound : moves sound_step (SendTx txBuilder).
Proof.
  intros tm. unfold SendTx. unfold mbind at 1, SE_bind at 1, get_state. case_match; [done|].
  to_moves. apply (moves_bind sound_step).
  { apply moves_asks, on_node_asks. intros w tx Hw. apply random_keeps in Hw. by destruct (RandomBytes w). }
  intros id. apply (moves_bind sound_step); [apply (moves_warn sound_step), handleStuckTxs_sound|]. intros _.
  apply (moves_bind sound_step); [apply moves_asks; moves|]. intros pending.
  apply (moves_bind sound_step); [intros s; done|]. intros nonce.
  apply (moves_bind sound_step); [apply builder_sound|]. intros tx.
  apply send_sound; [|intros s Htx; by apply track_and_count]. intros e. case_match; [|intros s; done].
  apply (moves_bind sound_step); [apply (moves_wrapping sound_step), recoverTxFromNonceGap_sound|]. intros h s. done.
Qed.
Lemma TrackBlobTxWithSidecar_sound tx : moves sound_step (TrackBlobTxWithSidecar tx).
Proof.
  intros tm. unfold TrackBlobTxWithSidecar. destruct (tx_Kind tx) as [| |fee hashes sidecar]; [done..|].
  unfold mbind at 1, SE_bind at 1, get_state. case_match; [|done]. destruct sidecar; [|done].
  apply load_sound. intros p Hp. by apply (store_sound _ _ p).
Qed.
End tracked.

(** What happens to a manager: its methods, in any order, and time, in which the node accepts more. *)
Inductive manager_step `{NodeRecord} : relation TxManager :=
  | step_SendTx tm txBuilder : (∀ nonce, moves client_asks (txBuilder nonce)) → manager_step tm (SendTx txBuilder tm).2
  | step_handleStuckTxs tm : manager_step tm (handleStuckTxs tm).2
  | step_TrackBlobTxWithSidecar tm tx : manager_step tm (TrackBlobTxWithSidecar tx tm).2
  | step_CheckTxStatusByHash tm h : manager_step tm (CheckTxStatusByHash h tm).2
  | step_world tm c : client_asks (tm_client tm) c → manager_step tm (set_client c tm).


(** ** Two promises that are not kept *)

Section surprises.
Context `{TxNode}.

(** A pointer stays one. *)
Definition heap_grows : relation TxManager := λ tm tm', (length (tm_heap tm) ≤ length (tm_heap tm'))%nat.
#[export] Instance heap_grows_preorder : PreOrder heap_grows.
Proof. unfold heap_grows. split; [intros tm; cbn; lia|]. intros a b c ??. cbn in *. lia. Qed.
Lemma on_client_heap {A} (m : SE Client A) : moves heap_grows (on_client m).
Proof. intros tm. unfold on_client. destruct (m _). unfold heap_grows. simpl. lia. Qed.
Lemma on_node_heap {A} (m : SE World A) : moves heap_grows (on_node m).
Proof. apply on_client_heap. Qed.
Lemma store_heap ptr p : moves heap_grows (store ptr p).
Proof. intros tm. unfold heap_grows, store. simpl. rewrite length_insert. lia. Qed.
Lemma load_heap ptr : moves heap_grows (load ptr).
Proof. intros tm. unfold load. case_match; reflexivity. Qed.
Lemma untrack_heap n : moves heap_grows (untrack n).
Proof. intros tm. unfold heap_grows. simpl. lia. Qed.
Lemma updateNonceTracking_heap n : moves heap_grows (updateNonceTracking n).
Proof. intros tm. unfold heap_grows. simpl. lia. Qed.
#[local] Hint Resolve on_client_heap on_node_heap store_heap load_heap untrack_heap updateNonceTracking_heap : moves.
Lemma speedUpTx_heap ptr : moves heap_grows (speedUpTx ptr).
Proof.
  assert (Hb : ∀ p c f, moves heap_grows (buildTx p c f)) by (intros p c f; unfold buildTx, signTx; moves).
  assert (Hs : ∀ msg n tx k, moves heap_grows k → moves heap_grows (send_replacement msg n tx k))
    by (intros msg n tx k Hk; unfold send_replacement; moves).
  assert (Hc : moves heap_grows (cancelTx ptr)).
  { unfold cancelTx. moves. apply Hs. unfold time_Now. moves. }
  unfold speedUpTx, abandon_old, lastOnChainNonce, speed_up. moves. apply Hs. unfold time_Now. moves.
Qed.

(** C31: When the node refuses the nonce of a transaction and an earlier one is still pending from the
    nonce on chain on, the recovery answers without an error, and neither what it does nor what it
    answers depends on the transaction that was to be sent: that one is never built for the new nonce,
    sent or tracked, and the hash is the other one's. *)
Theorem nonce_recovery_ignores_request id txBuilder tm n tm1 ptr :
  lastOnChainNonce tm = (Ok n, tm1) →
  let pending := filter (λ '(nonce, _), n ≤ nonce) (pendingTxs tm1) in
  pending !! lowestStuckNonce n (nextNonce tm1) pending = Some ptr → (ptr < length (tm_heap tm1))%nat →
  ∃ p tm', recoverTxFromNonceGap id txBuilder tm = (Ok (Hash p), tm') ∧ tm_heap tm' !! ptr = Some p ∧
    ∀ id' txBuilder', recoverTxFromNonceGap id' txBuilder' tm = (Ok (Hash p), tm').
Proof.
  intros Hn pending Hp Hptr. set (tm2 := set_tracked (tm_heap tm1) pending tm1).
  assert (Hrun : ∀ i b, recoverTxFromNonceGap i b tm = (warn (speedUpTx ptr);; ptx ← load ptr; mret (Hash ptx)) tm2).
  { intros i b. unfold recoverTxFromNonceGap. rewrite (bind_Ok _ _ _ n tm1) by (unfold wrapping; by rewrite Hn).
    unfold mbind at 1, SE_bind at 1, modify. cbn [pendingTxs]. unfold mbind at 1, SE_bind at 1, get_state.
    change (pendingTxs (set_tracked _ _ _)) with pending. change (nextNonce (set_tracked _ _ _)) with (nextNonce tm1).
    by rewrite Hp. }
  pose proof (speedUpTx_heap ptr tm2) as Hg. unfold heap_grows in Hg. simpl in Hg.
  destruct (lookup_lt_is_Some_2 (tm_heap (speedUpTx ptr tm2).2) ptr) as [p Hh]; [lia|].
  exists p, (speedUpTx ptr tm2).2. assert (Hres : ∀ i b, recoverTxFromNonceGap i b tm = (Ok (Hash p), (speedUpTx ptr tm2).2)).
  { intros i b. rewrite Hrun. unfold warn, load, mbind, SE_bind. by rewrite Hh. }
  done.
Qed.

Lemma PendingTx_unique tm n ptr p : pendingTxs tm !! n = Some ptr → tm_heap tm !! ptr = Some p →
  (∀ n' ptr' p', pendingTxs tm !! n' = Some ptr' → tm_heap tm !! ptr' = Some p' → ID p' = ID p → p' = p) →
  PendingTx (ID p) tm = Some p.
Proof.
  intros Hn Hp Hu. unfold PendingTx. set (l := omap _ (range (pendingTxs tm))).
  assert (Hin : ∀ m x, (m, x) ∈ l ↔ ∃ q, pendingTxs tm !! m = Some q ∧ tm_heap tm !! q = Some x).
  { intros m x. unfold l. rewrite list_elem_of_omap. split.
    - intros ([m' q] & Hq & Hx). rewrite range_perm, elem_of_map_to_list in Hq.
      apply fmap_Some in Hx as (y & Hy & [= -> ->]). eauto.
    - intros (q & Hq & Hx). exists (m, q). rewrite range_perm, elem_of_map_to_list. split; [done|]. by rewrite Hx. }
  destruct (list_find _ l) as [[i [m x]]|] eqn:Hf; simpl.
  - apply list_find_Some in Hf as (Hl & Hid & _). apply list_elem_of_lookup_2, Hin in Hl as (q & Hq & Hx). f_equal. eauto.
  - exfalso. apply list_find_None in Hf. rewrite Forall_forall in Hf. apply (Hf (n, p)); [|done]. apply Hin. eauto.
Qed.

(** Only the client changes. *)
Definition client_only : relation TxManager := λ tm tm', tm' = set_client (tm_client tm') tm.
#[export] Instance client_only_preorder : PreOrder client_only.
Proof. unfold client_only. split; [by intros []|]. intros a b c Hb Hc. cbn in *. rewrite Hc at 1. by rewrite Hb at 1. Qed.
Lemma on_client_only {A} (m : SE Client A) : moves client_only (on_client m).
Proof. intros tm. unfold on_client. by destruct (m _). Qed.
Lemma buildTx_only p c f : moves client_only (buildTx p c f).
Proof.
  pose proof (λ A, @on_client_only A) as Hc. assert (Hn : ∀ A (m : SE World A), moves client_only (on_node m)) by (intros; apply Hc).
  unfold buildTx, signTx. moves.
Qed.

(** A transaction that was cancelled is asked for by its identifier as if the cancellation were it:
    after a cancellation that the node took, the status under the identifier is that of the transaction
    which the manager sent to itself, with no data, so the caller is told that its transaction succeeded
    when the cancellation did. *)
Theorem cancelled_transaction_reported_by_id tm tm' ptr p :
  tm_heap tm !! ptr = Some p → cancelTx ptr tm = (Ok (), tm') → pendingTxs tm' !! Nonce p = Some ptr →
  (∀ n' ptr' p', pendingTxs tm' !! n' = Some ptr' → tm_heap tm' !! ptr' = Some p' → ID p' = ID p → ptr' = ptr) →
  ∃ tx, tx_To tx = signer_Address ∧ tx_Data tx = [] ∧ tx_Value tx = 0 ∧ tx_Nonce tx = Nonce p ∧
    CheckTxStatusByID (ID p) tm' = CheckTxStatusByHash (Tx_Hash tx) tm'.
Proof.
  intros Hp Hc Hn Hu. unfold cancelTx in Hc. rewrite (bind_Ok _ _ _ p tm) in Hc by (unfold load; by rewrite Hp).
  destruct (IsBlob p); [done|]. apply bind_inv_Ok in Hc as (tx & tm1 & Hbuild%wrapping_Ok & Hs).
  pose proof (buildTx_nonce _ _ _ _ _ _ Hbuild) as Hnonce. pose proof Hbuild as (tx0 & tm0 & Hsig & _ & Ht & Hd & Hv)%buildTx_signs.
  apply signTx_fields in Hsig as (Ht' & Hd' & Hv').
  exists tx. rewrite Ht', Hd', Hv', Ht, Hd, Hv. split_and!; [done..|].
  pose proof (buildTx_only (to_build (Nonce p) signer_Address []) (Some (OriginalGasPrice p * 2)) None tm) as Ho1.
  rewrite Hbuild in Ho1. simpl in Ho1.
  unfold send_replacement, attempt, mbind, SE_bind in Hs. pose proof (on_client_only (on_world (SendTransaction tx)) tm1) as Ho2.
  change (on_client (on_world (SendTransaction tx))) with (on_node (SendTransaction tx)) in Ho2.
  destruct (on_node (SendTransaction tx) tm1) as [[[]|e] tm2]; simpl in Ho2.
  - injection Hs as Hs. set (p' := replaced _ _ _ _ _ p) in Hs.
    assert (Hx : tm_heap tm' !! ptr = Some p').
    { rewrite <- Hs. simpl. rewrite list_lookup_insert_eq; [done|]. rewrite Ho2, Ho1. by eapply lookup_lt_Some. }
    unfold CheckTxStatusByID. unfold mbind, SE_bind, get_state.
    change (ID p) with (ID p'). rewrite (PendingTx_unique tm' (Nonce p) ptr p' Hn Hx); [done|].
    intros n' q x Hq Hx' Hid. rewrite (Hu n' q x Hq Hx' Hid) in Hx'. congruence.
  - case_match; [|done]. injection Hs as Hs. exfalso. rewrite <- Hs in Hn. simpl in Hn.
    by rewrite lookup_delete_eq in Hn.
Qed.
End surprises.

Module TxExample.
(** A chain: the time, the next answers to a send, and what was accepted. The node has 7 confirmed
    transactions of the signer and does not tell the pending nonce. *)
Definition chain : Type := Z * list (result ()) * list (Tx ()).
Definition accepted (w : chain) (tx : Tx ()) : Prop := tx ∈ w.2.
Definition send (tx : Tx ()) : SE chain () := λ '(t, script, sent),
  match script with
  | Err e :: script => (Err e, (t, script, sent))
  | _ => (Ok (), (t, tail script, tx :: sent))
  end.
#[local] Instance outside : Outside := {
  World := chain; clock := λ w, w.1.1; Sleep := λ d '(t, script, sent), (t + d, script, sent); ParseError := λ _, ""%string }.
#[local] Instance gas_node : GasNode := {
  SuggestGasTipCap := mret 1; SuggestGasPrice := mret 10; RPC_EstimateGas := λ _, mret 50000; EthClient := mret ();
  CallContract := λ _, mret (); Address_Hex := λ b, b; sha256 := λ b, b }.
#[local] Instance tx_node : TxNode := {
  Sidecar := (); BlobHashes := λ _, []; Tx_Hash := λ tx, be_split 8 (tx_Nonce tx) ++ be_split 8 (tx_GasFeeCap tx);
  SignTx := λ _ _, Ok []; signer_Address := be_split 20 77; NonceAt := mret 7; PendingNonceAt := raise (ErrMsg "timeout");
  SendTransaction := send; TransactionReceipt := λ _, mret 1; RandomBytes := λ w, (be_split 32 (Z.of_nat (length w.2)), w);
  range := map_to_list; range_perm := λ m, Permutation_refl _ }.
#[local] Instance node_record : NodeRecord.
Proof.
  refine (@Build_NodeRecord outside gas_node tx_node accepted _ _ _ _ _ _ _ _ _ _ _ _).
  all: unfold keeps, accepted; try (intros; done).
  - intros tx [[t [|[|e] s]] l] x; simpl; set_solver.
  - by intros d [[t s] l].
  - intros tx [[t [|[|e] s]] l] w'; simpl; intros [= <-]; set_solver.
Defined.

Definition genesis (script : list (result ())) : World := (1000, script, []).
Definition to : bytes := be_split 20 5.
Definition request (data : bytes) : Builder := λ nonce c,
  let '(r, tm) := BuildDynamicFeeTx to data nonce
    {| tm_client := c; nextNonce := 0; lastConfirmedNonce := 0; nonceInitialized := true; tm_heap := [];
       pendingTxs := ∅; config := DefaultConfig 1 |} in (r, tm_client tm).
Definition start (script : list (result ())) : TxManager :=
  match (New (genesis script) (DefaultConfig 1)).1 with Ok tm => tm | Err _ =>
    {| tm_client := {| cl_world := genesis []; cl_gasCache := None |}; nextNonce := 0; lastConfirmedNonce := 0;
       nonceInitialized := false; tm_heap := []; pendingTxs := ∅; config := DefaultConfig 1 |} end.

(** The first transaction is taken; the second one is refused as too high, and the recovery speeds up the
    first one. *)
Definition gap : list (result ()) := [Ok (); Err (ErrMsg "nonce too high"); Ok ()].
Definition first_sent : TxManager := (SendTx (request (be_split 2 1)) (start gap)).2.
Definition second_sent : result (bytes * bytes) * TxManager := SendTx (request (be_split 2 2)) first_sent.
(** The second send succeeds, but under its identifier nothing is tracked, and its data was never sent. *)
Example second_send_lost : match second_sent with
  | (Ok (id, _), tm) => bool_decide (PendingTx id tm = None) &&
      bool_decide ((tx_Data <$> (cl_world (tm_client tm)).2) = [be_split 2 1; be_split 2 1])
  | _ => false end = true.
Proof. vm_compute. reflexivity. Qed.

Lemma request_asks data nonce : moves client_asks (request data nonce).
Proof.
  intros c tx Hc. unfold request. match goal with |- context [BuildDynamicFeeTx to data nonce ?s] => set (tm := s) end.
  pose proof (buildTx_asks (to_build nonce to data) None None tm) as [_ Hs]. specialize (Hs tx Hc).
  unfold BuildDynamicFeeTx. by destruct (buildTx _ _ _ tm).
Qed.
Lemma first_is_tracked : pendingTxs first_sent !! 7 = Some 0%nat.
Proof. vm_compute. reflexivity. Qed.
Lemma starts script : New (genesis script) (DefaultConfig 1) = (Ok (start script), genesis script).
Proof. reflexivity. Qed.

Lemma chain_nonce tm : lastOnChainNonce tm = (Ok 7, tm).
Proof. by destruct tm as [[]]. Qed.
Lemma one_sent : length (tm_heap first_sent) = 1%nat.
Proof. vm_compute. reflexivity. Qed.
Lemma first_is_stuck : filter (λ '(nonce, _), 7 ≤ nonce) (pendingTxs first_sent) !! lowestStuckNonce 7 (nextNonce first_sent)
  (filter (λ '(nonce, _), 7 ≤ nonce) (pendingTxs first_sent)) = Some 0%nat.
Proof. vm_compute. reflexivity. Qed.
Lemma nonce_recovery_ignores_request_witness : ∃ p tm', recoverTxFromNonceGap [] (request []) first_sent = (Ok (Hash p), tm') ∧
  tm_heap tm' !! 0%nat = Some p ∧ ∀ id' txBuilder', recoverTxFromNonceGap id' txBuilder' first_sent = (Ok (Hash p), tm').
Proof.
  apply (nonce_recovery_ignores_request [] (request []) first_sent 7 first_sent 0%nat (chain_nonce _) first_is_stuck).
  rewrite one_sent. lia.
Defined.

(** The one transaction is cancelled. *)
Definition sent_once : TxManager := (SendTx (request (be_split 2 1)) (start [])).2.
Definition cancelled : TxManager := exec (cancelTx 0) sent_once.
Definition only : PendingTransaction := default (to_build 0 [] []) (tm_heap sent_once !! 0%nat).
Lemma only_sent : tm_heap sent_once !! 0%nat = Some only.
Proof.
  unfold only. destruct (tm_heap sent_once !! 0%nat) eqn:E; [done|]. apply lookup_ge_None in E.
  assert (length (tm_heap sent_once) = 1%nat) by (vm_compute; reflexivity). lia.
Qed.
Lemma cancel_taken : cancelTx 0 sent_once = (Ok (), cancelled).
Proof. refine (run_eq (cancelTx 0) sent_once (Ok ()) _). vm_compute. reflexivity. Qed.
Lemma only_nonce : Nonce only = 7.
Proof. vm_compute. reflexivity. Qed.
Lemma cancelled_pending : pendingTxs cancelled !! 7 = Some 0%nat.
Proof. vm_compute. reflexivity. Qed.
Lemma only_pending n q : pendingTxs cancelled !! n = Some q → q = 0%nat.
Proof.
  assert (Hp : pendingTxs cancelled = {[7 := 0%nat]}) by (apply (bool_decide_unpack _); vm_compute; exact I).
  rewrite Hp. by intros [_ <-]%lookup_singleton_Some.
Qed.
Lemma cancelled_transaction_reported_by_id_witness : ∃ tx, tx_To tx = signer_Address ∧ tx_Data tx = [] ∧ tx_Value tx = 0 ∧
  tx_Nonce tx = Nonce only ∧ CheckTxStatusByID (ID only) cancelled = CheckTxStatusByHash (Tx_Hash tx) cancelled.
Proof.
  apply (cancelled_transaction_reported_by_id sent_once cancelled 0%nat only only_sent cancel_taken).
  - rewrite only_nonce. apply cancelled_pending.
  - intros n' ptr' p' Hn _ _. by apply only_pending in Hn.
Defined.
(** The caller is told that its transaction succeeded. *)
Example cancelled_succeeds : (CheckTxStatusByID (ID only) cancelled).1 = Ok true.
Proof. vm_compute. reflexivity. Qed.
End TxExample.
