(* ===== verification/CensusDownloader.v ===== *)
(** * The downloads of censuses

    [src/service/census_service.go]: the queue of censuses to import, what is known of each download, the
    attempts, the censuses that live on a chain and are looked at again, and the waiters. A census is a
    record on a heap that the queue and the maps point to, since its root is written in place. The
    importer, the contracts and the order of a map are parameters; the downloads run beside the other
    methods, so one attempt is one step. *)

From S2P Require Import Prelude Bytes Spec Types Hex Census EndpointPool.

(** ** Configuration *)

(** [src/service/census_service.go:28-36] CensusDownloaderConfig *)
Record CensusDownloaderConfig := {
  CleanUpInterval : Z; OnchainCheckInterval : Z; Expiration : Z; Cooldown : Z; AttemptTimeout : Z;
  Attempts : Z; ConcurrentDownloads : Z }.
(** [src/service/census_service.go:39-47] DefaultCensusDownloaderConfig *)
Definition DefaultCensusDownloaderConfig : CensusDownloaderConfig :=
  {| CleanUpInterval := 5 * Second; OnchainCheckInterval := 5 * Second; Attempts := 5; AttemptTimeout := 30 * Second;
     Expiration := 120 * Second; Cooldown := 5 * Second; ConcurrentDownloads := 4 |}.
(** [src/service/census_service.go:294-299] CensusDownloader.attempts *)
Definition attempts (config : CensusDownloaderConfig) : Z := if Attempts config <=? 0 then 1 else Attempts config.
(** [src/service/census_service.go:303-308] CensusDownloader.concurrentDownloads *)
Definition concurrentDownloads (config : CensusDownloaderConfig) : Z :=
  if ConcurrentDownloads config <=? 0 then 1 else ConcurrentDownloads config.
(** [src/service/census_service.go:386-396] CensusDownloader.waitTimeout *)
Definition waitTimeout (config : CensusDownloaderConfig) : Z :=
  Second + (if 0 <? AttemptTimeout config then attempts config * AttemptTimeout config else 0) +
  (if (0 <? Cooldown config) && (1 <? attempts config) then (attempts config - 1) * Cooldown config else 0).

(** ** State *)

(** A census by its pointer. *)
(** [src/service/census_service.go:63-68] internalCensus *)
Record internalCensus := { ic_Census : nat; ic_ProcessedElements : Z; ic_ProcessID : ProcessID; ic_ChainID : Z }.
(** [src/service/census_service.go:51-59] DownloadStatus; the zero time is [None] *)
Record DownloadStatus := {
  ds_census : nat; ds_chainID : Z; ds_Complete : bool; ds_Attempts : Z; ds_LastErr : option error;
  ds_Terminal : bool; ds_lastUpdated : option Time }.

(** What the downloader calls: the importer, which tells how many elements it has processed and whether it
    failed, the stored censuses, the contracts of a process, by their chain, the root in a census contract,
    the address in a census, and the order of a map. *)
Class CensusWorld := {
  ImportWorld : Type;
  ImportCensus : Z → Census → Z → ImportWorld → (Z * option error) * ImportWorld;
  CensusLoads : ImportWorld → Z → Census → bool;
  CensusContracts : ImportWorld → ProcessID → result Z;
  FetchOnchainCensusRoot : ImportWorld → Z → bytes → result bytes;
  ContractAddress : Census → bytes;
  range_onchain : gmap bytes internalCensus → list (bytes * internalCensus);
  range_onchain_perm m : range_onchain m ≡ₚ map_to_list m }.

Section downloader.
Context `{CensusWorld} (config : CensusDownloaderConfig).

(** [src/service/census_service.go:73-85] CensusDownloader; the queue is what was sent and not yet received *)
Record CensusDownloader := {
  cd_world : ImportWorld; cd_now : Time; cd_started : bool;
  cd_heap : list Census; cd_queue : list internalCensus;
  censusStatus : gmap bytes DownloadStatus; onchainCensuses : gmap bytes internalCensus }.

Definition set_heap (h : list Census) (cd : CensusDownloader) : CensusDownloader :=
  {| cd_world := cd_world cd; cd_now := cd_now cd; cd_started := cd_started cd; cd_heap := h; cd_queue := cd_queue cd;
     censusStatus := censusStatus cd; onchainCensuses := onchainCensuses cd |}.
Definition set_queue (q : list internalCensus) (cd : CensusDownloader) : CensusDownloader :=
  {| cd_world := cd_world cd; cd_now := cd_now cd; cd_started := cd_started cd; cd_heap := cd_heap cd; cd_queue := q;
     censusStatus := censusStatus cd; onchainCensuses := onchainCensuses cd |}.
Definition set_status (m : gmap bytes DownloadStatus) (cd : CensusDownloader) : CensusDownloader :=
  {| cd_world := cd_world cd; cd_now := cd_now cd; cd_started := cd_started cd; cd_heap := cd_heap cd; cd_queue := cd_queue cd;
     censusStatus := m; onchainCensuses := onchainCensuses cd |}.
Definition set_onchain (m : gmap bytes internalCensus) (cd : CensusDownloader) : CensusDownloader :=
  {| cd_world := cd_world cd; cd_now := cd_now cd; cd_started := cd_started cd; cd_heap := cd_heap cd; cd_queue := cd_queue cd;
     censusStatus := censusStatus cd; onchainCensuses := m |}.
Definition set_world (w : ImportWorld) (cd : CensusDownloader) : CensusDownloader :=
  {| cd_world := w; cd_now := cd_now cd; cd_started := cd_started cd; cd_heap := cd_heap cd; cd_queue := cd_queue cd;
     censusStatus := censusStatus cd; onchainCensuses := onchainCensuses cd |}.
(** The census behind a pointer; a nil pointer is dereferenced with a panic. *)
Definition load_census (ptr : nat) : SE CensusDownloader Census := λ cd,
  match cd_heap cd !! ptr with Some c => (Ok c, cd) | None => (Err (ErrMsg "nil pointer dereference"), cd) end.
Definition set_CensusRoot (root : bytes) (c : Census) : Census :=
  {| c_CensusOrigin := c_CensusOrigin c; c_CensusRoot := root; c_CensusURI := c_CensusURI c; c_Payload := c_Payload c |}.
Definition write_root (ptr : nat) (root : bytes) : SE CensusDownloader () :=
  modify (λ cd, set_heap (alter (set_CensusRoot root) ptr (cd_heap cd)) cd).

(** ** Keys *)

Definition dynamic (c : Census) : bool := c_CensusOrigin c =? CensusOriginMerkleTreeOnchainDynamicV1.
(** [src/service/census_service.go:596-600] dynamicOnchainCensusKey *)
Definition dynamicOnchainCensusKey (chainID : Z) (address : bytes) : bytes := be_split 8 chainID ++ address.
(** [src/service/census_service.go:574-582] censusKey *)
Definition censusKey (census : Census) (chainID : Z) : bytes :=
  if dynamic census then dynamicOnchainCensusKey chainID (ContractAddress census)
  else HexBytes_String (c_CensusRoot census).
(** [src/service/census_service.go:584-594] CensusDownloader.chainIDForCensus *)
Definition chainIDForCensus (processID : ProcessID) (census : Census) : SE CensusDownloader Z := λ cd,
  if negb (dynamic census) then (Ok 0, cd) else (CensusContracts (cd_world cd) processID, cd).
(** [src/service/census_service.go:545-552] isTerminalDownloadError; nil is not *)
Definition isTerminalDownloadError (err : option error) : bool :=
  match err with
  | None => false
  | Some e => strings_Contains (error_Error e) "status code 404" || strings_Contains (error_Error e) "non-200 response: 404"
  end.

(** ** The status of a download *)

(** [src/service/census_service.go:400-413] CensusDownloader.addPendingCensus *)
Definition addPendingCensus (ic : internalCensus) : SE CensusDownloader bool :=
  c ← load_census (ic_Census ic);
  cd ← get_state;
  let key := censusKey c (ic_ChainID ic) in
  match censusStatus cd !! key with
  | Some _ => mret false
  | None =>
      modify (λ cd, set_status (<[key := {| ds_census := ic_Census ic; ds_chainID := ic_ChainID ic; ds_Complete := false;
        ds_Attempts := 0; ds_LastErr := None; ds_Terminal := false; ds_lastUpdated := None |}]> (censusStatus cd)) cd);;
      mret true
  end.
(** [src/service/census_service.go:453-468] the status after one more attempt, in updateInternalStatus *)
Definition attempted (now : Time) (err : option error) (status : DownloadStatus) : DownloadStatus :=
  let n := ds_Attempts status + 1 in
  {| ds_census := ds_census status; ds_chainID := ds_chainID status;
     ds_Complete := bool_decide (err = None); ds_Attempts := n;
     ds_LastErr := match err with
                   | Some e =>
                       if isTerminalDownloadError err then Some (Wrap "terminal census download failure" e)
                       else if n <? attempts config then err else Some (Wrap "maximum attempts reached" e)
                   | None => if n <? attempts config then None else ds_LastErr status
                   end;
     ds_Terminal := isTerminalDownloadError err; ds_lastUpdated := Some now |}.
(** [src/service/census_service.go:438-468] CensusDownloader.updateInternalStatus *)
Definition updateInternalStatus (ic : internalCensus) (err : option error) : SE CensusDownloader () :=
  c ← load_census (ic_Census ic);
  (if dynamic c then
     modify (λ cd, let key := dynamicOnchainCensusKey (ic_ChainID ic) (ContractAddress c) in
       match onchainCensuses cd !! key with
       | Some current =>
           if ic_ProcessedElements current <? ic_ProcessedElements ic
           then set_onchain (<[key := ic]> (onchainCensuses cd)) cd else cd
       | None => cd
       end)
   else mret ());;
  modify (λ cd, set_status (alter (attempted (cd_now cd) err) (censusKey c (ic_ChainID ic)) (censusStatus cd)) cd).
(** [src/service/census_service.go:566-568] CensusDownloader.cleanUpStatusUnsafe *)
Definition cleanUpStatusUnsafe (chainID : Z) (census : nat) : SE CensusDownloader () :=
  c ← load_census census;
  modify (λ cd, set_status (delete (censusKey c chainID) (censusStatus cd)) cd).
(** [src/service/census_service.go:557-561] CensusDownloader.CleanUp *)
Definition CleanUp := cleanUpStatusUnsafe.
(** The status has not changed for too long; the zero time is long ago. *)
Definition expired (now : Time) (status : DownloadStatus) : bool :=
  match ds_lastUpdated status with None => true | Some t => t + Expiration config <? now end.
(** [src/service/census_service.go:528-541] CensusDownloader.cleanUpPendingCensuses *)
Definition cleanUpPendingCensuses : SE CensusDownloader () :=
  cd ← get_state;
  forM_ (λ status, if ds_Terminal status then mret ()
                   else if expired (cd_now cd) status then cleanUpStatusUnsafe (ds_chainID status) (ds_census status)
                   else mret ()) (map_to_list (censusStatus cd)).*2.

(** ** Downloads *)

Definition zero_address : bytes := replicate 20 (byte_of_Z 0).
(** [src/service/census_service.go:415-434] CensusDownloader.addOnchainCensus: the root is written through the
    pointer, a nil one when it was not found *)
Definition addOnchainCensus (ic : internalCensus) : SE CensusDownloader internalCensus :=
  c ← load_census (ic_Census ic);
  if bool_decide (ContractAddress c = zero_address) then raise (ErrMsg "invalid on-chain census contract address")
  else
    cd ← get_state;
    chainID ← lift (CensusContracts (cd_world cd) (ic_ProcessID ic));
    let ic := {| ic_Census := ic_Census ic; ic_ProcessedElements := ic_ProcessedElements ic;
                 ic_ProcessID := ic_ProcessID ic; ic_ChainID := chainID |} in
    match FetchOnchainCensusRoot (cd_world cd) chainID (ContractAddress c) with
    | Err e => write_root (ic_Census ic) [];; raise (Wrap "failed to fetch on-chain census root" e)
    | Ok root =>
        write_root (ic_Census ic) root;;
        modify (λ cd, set_onchain (<[dynamicOnchainCensusKey chainID (ContractAddress c) := ic]> (onchainCensuses cd)) cd);;
        mret ic
    end.
(** A send on the queue; the sender waits while it is full. *)
Definition enqueue (ic : internalCensus) : SE CensusDownloader () := modify (λ cd, set_queue (cd_queue cd ++ [ic]) cd).
(** [src/service/census_service.go:182-211] CensusDownloader.DownloadCensus *)
Definition DownloadCensus (processID : ProcessID) (censusInfo : nat) : SE CensusDownloader bytes :=
  cd ← get_state;
  if negb (cd_started cd) then raise (ErrMsg "census downloader unavailable: not started")
  else
    let ic := {| ic_Census := censusInfo; ic_ProcessedElements := 0; ic_ProcessID := processID; ic_ChainID := 0 |} in
    c ← load_census censusInfo;
    ic ← (if dynamic c then wrapping "failed to add on-chain census" (addOnchainCensus ic) else mret ic);
    enqueue ic;;
    c ← load_census (ic_Census ic);
    mret (c_CensusRoot c).
(** [src/service/census_service.go:218-224] CensusDownloader.DownloadCensusStatus *)
Definition DownloadCensusStatus (processID : ProcessID) (census : nat) : SE CensusDownloader (option DownloadStatus) :=
  c ← load_census census;
  r ← attempt (chainIDForCensus processID c);
  match r with
  | Err _ => mret None
  | Ok chainID => gets (λ cd, censusStatus cd !! censusKey c chainID)
  end.

(** [src/service/census_service.go:317-329] one attempt: the elements processed, and the error *)
Definition import_attempt (ic : internalCensus) : SE CensusDownloader (Z * option error) :=
  c ← load_census (ic_Census ic);
  cd ← get_state;
  let '((processed, importErr), w) := ImportCensus (ic_ChainID ic) c (ic_ProcessedElements ic) (cd_world cd) in
  modify (set_world w);;
  updateInternalStatus {| ic_Census := ic_Census ic; ic_ProcessedElements := processed; ic_ProcessID := ic_ProcessID ic;
                          ic_ChainID := ic_ChainID ic |} importErr;;
  mret (processed, importErr).
(** [src/service/census_service.go:315-361] the attempts, in processCensusDownload *)
Fixpoint download_attempts (left_ : nat) (ic : internalCensus) (importErr : option error) : SE CensusDownloader (option error) :=
  match left_ with
  | O => mret importErr
  | S left_ =>
      r ← import_attempt ic;
      let '(processed, importErr) := r in
      if bool_decide (importErr = None) || isTerminalDownloadError importErr then mret importErr
      else download_attempts left_ {| ic_Census := ic_Census ic; ic_ProcessedElements := processed;
                                      ic_ProcessID := ic_ProcessID ic; ic_ChainID := ic_ChainID ic |} importErr
  end.
(** [src/service/census_service.go:314-361] CensusDownloader.processCensusDownload *)
Definition processCensusDownload (ic : internalCensus) : SE CensusDownloader (option error) :=
  download_attempts (Z.to_nat (attempts config)) ic None.
(** [src/service/census_service.go:145-160] a worker takes a census from the queue, in Start *)
Definition worker : SE CensusDownloader () := λ cd,
  match cd_queue cd with
  | [] => (Ok (), cd)
  | ic :: queue =>
      (new ← addPendingCensus ic;
       if (new : bool) then _ ← processCensusDownload ic; mret () else mret ()) (set_queue queue cd)
  end.

(** ** Censuses on a chain *)

(** [src/service/census_service.go:479-514] one census of the range, in checkOnchainCensuses; an error is a
    panic, of the message about a census that was not returned *)
Definition check_onchain (ic : internalCensus) : SE CensusDownloader () :=
  status ← DownloadCensusStatus (ic_ProcessID ic) (ic_Census ic);
  if match status with Some st => negb (ds_Complete st) | None => false end then mret ()
  else
    c ← load_census (ic_Census ic);
    let oldRoot := c_CensusRoot c in
    r ← attempt (addOnchainCensus ic);
    match r with
    | Err _ => raise (ErrMsg "nil pointer dereference")
    | Ok ic =>
        c ← load_census (ic_Census ic);
        if bool_decide (c_CensusRoot c = oldRoot) then mret ()
        else CleanUp (ic_ChainID ic) (ic_Census ic);; enqueue ic
    end.
(** [src/service/census_service.go:473-515] CensusDownloader.checkOnchainCensuses *)
Definition checkOnchainCensuses : SE CensusDownloader () :=
  cd ← get_state;
  if negb (cd_started cd) then mret () else forM_ check_onchain (range_onchain (onchainCensuses cd)).*2.

(** ** Waiting *)

(** [src/service/census_service.go:255-279] one look of a waiter, in OnCensusDownloaded: what the callback is
    called with, if it is *)
Definition poll (chainID : Z) (census : nat) : SE CensusDownloader (option (option error)) :=
  c ← load_census census;
  cd ← get_state;
  if CensusLoads (cd_world cd) chainID c then mret (Some None)
  else match censusStatus cd !! censusKey c chainID with
       | None => mret None
       | Some status =>
           match ds_LastErr status with
           | Some e =>
               if ds_Terminal status then mret (Some (Some e))
               else if attempts config <=? ds_Attempts status then mret (Some (Some e))
               else if ds_Complete status then _ ← CleanUp (ds_chainID status) (ds_census status); mret (Some None)
               else mret None
           | None =>
               if ds_Complete status then _ ← CleanUp (ds_chainID status) (ds_census status); mret (Some None) else mret None
           end
       end.
End downloader.

(** ** Attempts *)

Section facts.
Context `{CensusWorld} (config : CensusDownloaderConfig).

Lemma load_census_eq ptr c cd : cd_heap cd !! ptr = Some c → load_census ptr cd = (Ok c, cd).
Proof. unfold load_census. by intros ->. Qed.

(** What an attempt leaves of a download that is known. *)
Lemma import_attempt_spec ic c st cd : cd_heap cd !! ic_Census ic = Some c →
  censusStatus cd !! censusKey c (ic_ChainID ic) = Some st →
  ∃ processed err cd', import_attempt config ic cd = (Ok (processed, err), cd') ∧ cd_heap cd' = cd_heap cd ∧
    censusStatus cd' !! censusKey c (ic_ChainID ic) = Some (attempted config (cd_now cd) err st) ∧ cd_now cd' = cd_now cd.
Proof.
  intros Hc Hst. unfold import_attempt. rewrite (bind_Ok _ _ _ _ _ (load_census_eq _ _ _ Hc)).
  unfold mbind at 1, SE_bind at 1, get_state.
  destruct (ImportCensus _ _ _ (cd_world cd)) as [[processed err] w]. exists processed, err.
  unfold updateInternalStatus, mbind, SE_bind, modify. cbn [ic_Census ic_ChainID].
  rewrite (load_census_eq (ic_Census ic) c) by done.
  assert (Ha : ∀ m : gmap bytes DownloadStatus, m = censusStatus cd →
    alter (attempted config (cd_now cd) err) (censusKey c (ic_ChainID ic)) m !! censusKey c (ic_ChainID ic) = Some (attempted config (cd_now cd) err st)).
  { intros m ->. rewrite lookup_alter_eq, Hst. done. }
  destruct (dynamic c); [|eexists; split; [reflexivity|]; split_and!; [done|by apply Ha|done]].
  destruct (onchainCensuses _ !! _) as [cur|]; [destruct (ic_ProcessedElements cur <? _)|];
    (eexists; split; [reflexivity|]; split_and!; [done|by apply Ha|done]).
Qed.

(** A download ends: it makes at least one and at most the configured number of attempts, stops at the
    first that succeeds or can never succeed, and otherwise makes all of them; and the status that is kept
    under the key of the census counts the attempts and says how the last one ended. *)
Theorem processCensusDownload_ends ic c st cd : cd_heap cd !! ic_Census ic = Some c →
  censusStatus cd !! censusKey c (ic_ChainID ic) = Some st →
  ∃ err cd' st' n, processCensusDownload config ic cd = (Ok err, cd') ∧ 1 ≤ n ≤ attempts config ∧
    censusStatus cd' !! censusKey c (ic_ChainID ic) = Some st' ∧ ds_Attempts st' = ds_Attempts st + n ∧
    ds_Complete st' = bool_decide (err = None) ∧ ds_Terminal st' = isTerminalDownloadError err ∧
    ds_lastUpdated st' = Some (cd_now cd) ∧ (err ≠ None → isTerminalDownloadError err = false → n = attempts config).
Proof.
  intros Hc Hst. unfold processCensusDownload.
  assert (Hpos : 1 ≤ attempts config) by (unfold attempts; case_match; lia).
  assert (Hgen : ∀ k ic st cd prev, cd_heap cd !! ic_Census ic = Some c → (1 ≤ k)%nat →
    censusStatus cd !! censusKey c (ic_ChainID ic) = Some st → ∃ err cd' st' n,
    download_attempts config k ic prev cd = (Ok err, cd') ∧ 1 ≤ n ≤ Z.of_nat k ∧
    censusStatus cd' !! censusKey c (ic_ChainID ic) = Some st' ∧ ds_Attempts st' = ds_Attempts st + n ∧
    ds_Complete st' = bool_decide (err = None) ∧ ds_Terminal st' = isTerminalDownloadError err ∧
    ds_lastUpdated st' = Some (cd_now cd) ∧ (err ≠ None → isTerminalDownloadError err = false → n = Z.of_nat k)).
  { clear. intros k. induction k as [|k IH]; intros ic st cd prev Hc Hk Hst; [lia|].
    destruct (import_attempt_spec ic c st cd Hc Hst) as (processed & err & cd1 & Hi & Hh & Hst1 & Hnow).
    cbn [download_attempts]. rewrite (bind_Ok _ _ _ _ _ Hi).
    destruct (bool_decide (err = None) || isTerminalDownloadError err) eqn:Hstop.
    { exists err, cd1, (attempted config (cd_now cd) err st), 1. split_and!; try done; [lia|].
      intros He Ht. rewrite bool_decide_eq_false_2, Ht in Hstop by done. done. }
    apply orb_false_iff in Hstop as [Hne Ht]. destruct k as [|k].
    { exists err, cd1, (attempted config (cd_now cd) err st), 1. split_and!; done. }
    destruct (IH {| ic_Census := ic_Census ic; ic_ProcessedElements := processed; ic_ProcessID := ic_ProcessID ic; ic_ChainID := ic_ChainID ic |}
      (attempted config (cd_now cd) err st) cd1 err) as (err' & cd2 & st2 & n & Hd & Hn & H1 & H2 & H3 & H4 & H5 & H6).
    - cbn [ic_Census]. by rewrite Hh.
    - lia.
    - done.
    - exists err', cd2, st2, (n + 1). rewrite Hd. split; [done|]. split; [lia|]. split; [done|].
      split; [rewrite H2; simpl; lia|]. split; [done|]. split; [done|]. split; [by rewrite H5, Hnow|].
      intros ??. rewrite (H6 ltac:(done) ltac:(done)). lia. }
  destruct (Hgen (Z.to_nat (attempts config)) ic st cd None Hc ltac:(lia) Hst) as (err & cd' & st' & n & ?).
  exists err, cd', st', n. rewrite Z2Nat.id in * by lia. done.
Qed.

(** ** A root that cannot be fetched *)

(** If the root of a census on a chain cannot be fetched when it is looked at again, the look ends in a
    panic, and the root that was known has been erased from the census that the process refers to. *)
Theorem onchain_fetch_failure_panics ic c chainID e cd : cd_heap cd !! ic_Census ic = Some c →
  dynamic c = true → ContractAddress c ≠ zero_address → CensusContracts (cd_world cd) (ic_ProcessID ic) = Ok chainID →
  FetchOnchainCensusRoot (cd_world cd) chainID (ContractAddress c) = Err e →
  (∀ st, censusStatus cd !! censusKey c chainID = Some st → ds_Complete st = true) →
  ∃ cd', check_onchain ic cd = (Err (ErrMsg "nil pointer dereference"), cd') ∧
    cd_heap cd' !! ic_Census ic = Some (set_CensusRoot [] c).
Proof.
  intros Hc Hd Ha Hchain Hf Hst. unfold check_onchain.
  assert (Hs : DownloadCensusStatus (ic_ProcessID ic) (ic_Census ic) cd = (Ok (censusStatus cd !! censusKey c chainID), cd)).
  { unfold DownloadCensusStatus. rewrite (bind_Ok _ _ _ _ _ (load_census_eq _ _ _ Hc)).
    unfold attempt, chainIDForCensus, mbind, SE_bind. by rewrite Hd, Hchain. }
  rewrite (bind_Ok _ _ _ _ _ Hs). replace (match _ !! _ with Some st => _ | None => _ end) with false.
  2:{ destruct (censusStatus cd !! _) eqn:E; [|done]. by rewrite (Hst _ eq_refl). }
  rewrite (bind_Ok _ _ _ _ _ (load_census_eq _ _ _ Hc)).
  assert (Hadd : addOnchainCensus ic cd = (Err (Wrap "failed to fetch on-chain census root" e),
    set_heap (alter (set_CensusRoot []) (ic_Census ic) (cd_heap cd)) cd)).
  { unfold addOnchainCensus. rewrite (bind_Ok _ _ _ _ _ (load_census_eq _ _ _ Hc)), bool_decide_eq_false_2 by done.
    unfold mbind, SE_bind, get_state, lift. rewrite Hchain. by rewrite Hf. }
  eexists. unfold attempt, mbind, SE_bind. rewrite Hadd. split; [reflexivity|].
  cbn [cd_heap set_heap]. by rewrite list_lookup_alter_eq, Hc.
Qed.

(** ** A download that is forgotten *)

Lemma cleanUpStatusUnsafe_eq chainID ptr c cd : cd_heap cd !! ptr = Some c →
  cleanUpStatusUnsafe chainID ptr cd = (Ok (), set_status (delete (censusKey c chainID) (censusStatus cd)) cd).
Proof. intros Hc. unfold cleanUpStatusUnsafe. by rewrite (bind_Ok _ _ _ _ _ (load_census_eq _ _ _ Hc)). Qed.
(** The statuses of a list are looked at, with their censuses still there. *)
Lemma clean_list now l cd : Forall (λ st, is_Some (cd_heap cd !! ds_census st)) l →
  ∃ m, forM_ (λ status, if ds_Terminal status then mret ()
                        else if expired config now status then cleanUpStatusUnsafe (ds_chainID status) (ds_census status)
                        else mret ()) l cd = (Ok (), set_status m cd) ∧ m ⊆ censusStatus cd ∧
    ∀ st c, st ∈ l → ds_Terminal st = false → expired config now st = true → cd_heap cd !! ds_census st = Some c →
      m !! censusKey c (ds_chainID st) = None.
Proof.
  revert cd. induction l as [|st l IH]; intros cd Hl.
  { exists (censusStatus cd). split; [by destruct cd|]. split; [done|]. intros st c Hst. by apply not_elem_of_nil in Hst. }
  apply Forall_cons in Hl as [[c Hc] Hl]. cbn [forM_].
  assert (Hstep : ∃ m1, (if ds_Terminal st then mret ()
      else if expired config now st then cleanUpStatusUnsafe (ds_chainID st) (ds_census st) else mret ()) cd = (Ok (), set_status m1 cd) ∧
    m1 ⊆ censusStatus cd ∧ (ds_Terminal st = false → expired config now st = true → m1 !! censusKey c (ds_chainID st) = None)).
  { destruct (ds_Terminal st); [exists (censusStatus cd); split; [by destruct cd|done]|].
    destruct (expired config now st); [|exists (censusStatus cd); split; [by destruct cd|done]].
    exists (delete (censusKey c (ds_chainID st)) (censusStatus cd)). split; [by apply cleanUpStatusUnsafe_eq|].
    split; [apply delete_subseteq|]. intros _ _. apply lookup_delete_eq. }
  destruct Hstep as (m1 & Hrun & Hm1 & Hst). rewrite (bind_Ok _ _ _ _ _ Hrun). destruct (IH (set_status m1 cd)) as (m & -> & Hm & Hrest); [done|].
  exists m. cbn [censusStatus set_status] in *. split; [done|]. split; [by etrans|].
  intros st' c' [->|Hin]%elem_of_cons Ht He Hc'; [|by apply Hrest].
  rewrite Hc in Hc'. injection Hc' as <-. destruct (m !! _) as [x|] eqn:Ex; [|done].
  pose proof (lookup_weaken _ _ _ _ Ex Hm) as Hx. by rewrite Hst in Hx.
Qed.

(** A download that has just begun is forgotten by the next clean-up, whenever that is: its status has no
    time yet and counts as expired, so nothing of how the attempts end is recorded, and the same census is
    accepted for download again while the first download runs. *)
Theorem begun_download_is_forgotten ic c cd cd1 now : cd_heap cd !! ic_Census ic = Some c →
  (∀ k st, censusStatus cd !! k = Some st → is_Some (cd_heap cd !! ds_census st)) →
  addPendingCensus ic cd = (Ok true, cd1) →
  ∃ cd2 cd3, cleanUpPendingCensuses config {| cd_world := cd_world cd1; cd_now := now; cd_started := cd_started cd1;
      cd_heap := cd_heap cd1; cd_queue := cd_queue cd1; censusStatus := censusStatus cd1; onchainCensuses := onchainCensuses cd1 |} = (Ok (), cd2) ∧
    censusStatus cd2 !! censusKey c (ic_ChainID ic) = None ∧
    (∀ err, censusStatus (updateInternalStatus config ic err cd2).2 !! censusKey c (ic_ChainID ic) = None) ∧
    addPendingCensus ic cd2 = (Ok true, cd3).
Proof.
  intros Hc Hheap Hadd. unfold addPendingCensus in Hadd. rewrite (bind_Ok _ _ _ _ _ (load_census_eq _ _ _ Hc)) in Hadd.
  unfold mbind at 1, SE_bind at 1, get_state in Hadd. set (key := censusKey c (ic_ChainID ic)) in *.
  destruct (censusStatus cd !! key) eqn:Ek; [done|]. injection Hadd as <-. cbn [set_status cd_world cd_started cd_heap cd_queue censusStatus onchainCensuses].
  set (st := {| ds_census := _ |}). set (cd1 := {| cd_world := _; cd_now := now |}).
  destruct (clean_list now (map_to_list (censusStatus cd1)).*2 cd1) as (m & Hm & Hsub & Hgone).
  { apply Forall_forall. intros x ([k y] & -> & Hin)%list_elem_of_fmap. apply elem_of_map_to_list in Hin. cbn [censusStatus cd1] in Hin.
    apply lookup_insert_Some in Hin as [[<- <-]|[_ Hy]]; [by eexists|by eapply Hheap]. }
  assert (Hnone : m !! key = None).
  { apply (Hgone st c); try done. apply list_elem_of_fmap. exists (key, st). split; [done|].
    apply elem_of_map_to_list. apply lookup_insert_eq. }
  exists (set_status m cd1). eexists. split; [exact Hm|]. split; [done|]. split.
  - intros err. unfold updateInternalStatus. rewrite (bind_Ok _ _ _ _ _ (load_census_eq (ic_Census ic) c (set_status m cd1) Hc)).
    unfold mbind, SE_bind, modify. fold key. destruct (dynamic c).
    + simpl. rewrite lookup_alter_eq. repeat case_match; simpl; by rewrite Hnone.
    + simpl. by rewrite lookup_alter_eq, Hnone.
  - unfold addPendingCensus. rewrite (bind_Ok _ _ _ _ _ (load_census_eq (ic_Census ic) c (set_status m cd1) Hc)).
    unfold mbind at 1, SE_bind at 1, get_state. fold key. cbn [censusStatus set_status]. rewrite Hnone. reflexivity.
Qed.
End facts.

Module DownloadExample.
(** The next outcomes of the importer; no contract can be read. *)
#[local] Instance world : CensusWorld := {
  ImportWorld := list (option error);
  ImportCensus := λ _ _ n w, ((n, default None (head w)), tail w);
  CensusLoads := λ _ _ _, false; CensusContracts := λ _ _, Ok 1;
  FetchOnchainCensusRoot := λ _ _ _, Err (ErrMsg "timeout");
  ContractAddress := λ _, be_split 20 5;
  range_onchain := map_to_list; range_onchain_perm := λ m, Permutation_refl _ }.
Definition config := DefaultCensusDownloaderConfig.
Definition offchain : Census := {| c_CensusOrigin := 1; c_CensusRoot := be_split 2 9; c_CensusURI := ""; c_Payload := [] |}.
Definition onchain : Census := {| c_CensusOrigin := 3; c_CensusRoot := be_split 2 9; c_CensusURI := ""; c_Payload := [] |}.
Definition ic : internalCensus := {| ic_Census := 0; ic_ProcessedElements := 0; ic_ProcessID := pid_of_bytes []; ic_ChainID := 0 |}.
Definition downloader (script : list (option error)) (c : Census) : CensusDownloader :=
  {| cd_world := script; cd_now := 1000; cd_started := true; cd_heap := [c]; cd_queue := []; censusStatus := ∅; onchainCensuses := ∅ |}.
Definition begun (script : list (option error)) : CensusDownloader := (addPendingCensus ic (downloader script offchain)).2.
Definition fresh : DownloadStatus :=
  {| ds_census := 0; ds_chainID := 0; ds_Complete := false; ds_Attempts := 0; ds_LastErr := None; ds_Terminal := false; ds_lastUpdated := None |}.
Lemma begun_status script : censusStatus (begun script) !! censusKey offchain 0 = Some fresh.
Proof. apply lookup_insert_eq. Qed.

(** Two attempts fail and the third succeeds. *)
Definition third : list (option error) := [Some (ErrMsg "timeout"); Some (ErrMsg "timeout"); None].
Lemma processCensusDownload_ends_witness : ∃ err cd' st' n, processCensusDownload config ic (begun third) = (Ok err, cd') ∧
  1 ≤ n ≤ attempts config ∧ censusStatus cd' !! censusKey offchain 0 = Some st' ∧ ds_Attempts st' = ds_Attempts fresh + n ∧
  ds_Complete st' = bool_decide (err = None) ∧ ds_Terminal st' = isTerminalDownloadError err ∧
  ds_lastUpdated st' = Some 1000 ∧ (err ≠ None → isTerminalDownloadError err = false → n = attempts config).
Proof. exact (processCensusDownload_ends config ic offchain fresh (begun third) eq_refl (begun_status third)). Defined.
(** A download whose last attempt succeeds keeps the error of the one before. *)
Example last_attempt_keeps_error : let st := attempted config 1000 None
    {| ds_census := 0; ds_chainID := 0; ds_Complete := false; ds_Attempts := 4; ds_LastErr := Some (ErrMsg "timeout");
       ds_Terminal := false; ds_lastUpdated := None |} in ds_Complete st = true ∧ ds_LastErr st = Some (ErrMsg "timeout").
Proof. split; reflexivity. Qed.

Lemma onchain_fetch_failure_panics_witness : ∃ cd', check_onchain ic (downloader [] onchain) = (Err (ErrMsg "nil pointer dereference"), cd') ∧
  cd_heap cd' !! 0%nat = Some (set_CensusRoot [] onchain).
Proof.
  apply (onchain_fetch_failure_panics ic onchain 1 (ErrMsg "timeout")); try reflexivity; [|done].
  apply (bool_decide_unpack _). vm_compute. exact I.
Defined.
Lemma begun_download_is_forgotten_witness : let cd1 := begun [] in
  ∃ cd2 cd3, cleanUpPendingCensuses config {| cd_world := cd_world cd1; cd_now := 1001; cd_started := cd_started cd1;
      cd_heap := cd_heap cd1; cd_queue := cd_queue cd1; censusStatus := censusStatus cd1; onchainCensuses := onchainCensuses cd1 |} = (Ok (), cd2) ∧
    censusStatus cd2 !! censusKey offchain 0 = None ∧
    (∀ err, censusStatus (updateInternalStatus config ic err cd2).2 !! censusKey offchain 0 = None) ∧
    addPendingCensus ic cd2 = (Ok true, cd3).
Proof.
  apply (begun_download_is_forgotten config ic offchain (downloader [] offchain)); [reflexivity| |reflexivity].
  intros k st Hk. cbn [downloader censusStatus] in Hk. by apply lookup_empty_Some in Hk.
Defined.
End DownloadExample.
