(* ===== verification/ProcessMonitor.v ===== *)
(** * The monitor of processes

    [src/service/process_monitor.go]: what the node stores of the events of a contract: a new process, a
    change of its status, of its state root, of its number of voters or of its census. A process that is
    active is stored only after its census was imported; the wait is a state of its own, and what it waits
    for comes as an event. What the contract and the downloader answer at a step is an argument of the
    step. *)

From S2P Require Import Prelude Bytes DB Spec Types StorageTypes StorageBase Process VoteStatus Stats Ballots Batches Cleanup Pipeline Census.

(** ** Events *)

(** [src/types/web3.go:16-18] NewProcess; the process may be nil *)
Record NewProcessChange := { np_Process : option Process }.
(** [src/types/web3.go:22-25] StatusChange *)
Record StatusChange := { OldStatus : ProcessStatus; NewStatus : ProcessStatus }.
(** [src/types/web3.go:31-37] StateRootChange *)
Record StateRootChange := {
  OldStateRoot : option Z; NewStateRoot : option Z; NewVotersCount : option Z;
  NewOverwrittenVotesCount : option Z; TxHash : option bytes }.
(** [src/types/web3.go:41-43] MaxVotersChange *)
Record MaxVotersChange := { NewMaxVoters : option Z }.
(** [src/types/web3.go:47-50] CensusRootChange *)
Record CensusRootChange := { NewCensusRoot : bytes; NewCensusURI : string }.
(** [src/types/web3.go:57-64] ProcessWithChanges *)
Record ProcessWithChanges := {
  u_ProcessID : ProcessID; u_NewProcess : option NewProcessChange; u_StatusChange : option StatusChange;
  u_StateRootChange : option StateRootChange; u_MaxVotersChange : option MaxVotersChange;
  u_CensusRootChange : option CensusRootChange }.

(** What the contract says of a process, and how a download of its census starts: the root it was resolved
    to. *)
Record View := {
  v_Process : ProcessID → result Process; v_DownloadCensus : ProcessID → Census → result bytes }.

Section monitor.
Context `{Env : StorageEnv}.

(** What is waited for: the census of a process that is to be stored, or a new census of one that is. *)
Inductive Wait :=
  | WaitNew (process : Process) (census : Census)
  | WaitCensus (pid : ProcessID) (newRoot : bytes) (newURI : string).
(** [src/service/process_monitor.go:18-27] ProcessMonitor: the storage, the processes that the contracts
    know, the waits, and the updates that the state synchronization was told of. [accepts] is the version
    check of the contracts. *)
Record ProcessMonitor := {
  pm_storage : Storage; pm_known : gset ProcessID; pm_waits : list Wait; pm_notified : list ProcessWithChanges }.
Context (accepts : ProcessID → bool) (processIDVersion : bytes) (with_statesync : bool).

Definition on_storage {A} (m : M A) : SE ProcessMonitor A := λ pm,
  let '(r, s) := m (pm_storage pm) in
  (r, {| pm_storage := s; pm_known := pm_known pm; pm_waits := pm_waits pm; pm_notified := pm_notified pm |}).
Definition wait_for (w : Wait) : SE ProcessMonitor () := modify (λ pm,
  {| pm_storage := pm_storage pm; pm_known := pm_known pm; pm_waits := pm_waits pm ++ [w]; pm_notified := pm_notified pm |}).
Definition RegisterKnownProcess (pid : ProcessID) : SE ProcessMonitor () := modify (λ pm,
  {| pm_storage := pm_storage pm; pm_known := {[pid]} ∪ pm_known pm; pm_waits := pm_waits pm; pm_notified := pm_notified pm |}).
(** The queue of the state synchronization holds a hundred updates, and drops what comes when it is full. *)
Definition Notify (u : ProcessWithChanges) : SE ProcessMonitor () := modify (λ pm,
  if (length (pm_notified pm) <? 100)%nat
  then {| pm_storage := pm_storage pm; pm_known := pm_known pm; pm_waits := pm_waits pm; pm_notified := pm_notified pm ++ [u] |}
  else pm).

(** [src/service/process_monitor.go:229-231] ProcessMonitor.ownsProcess *)
Definition ownsProcess (pid : ProcessID) : bool := pid_IsValid pid && bool_decide (pid_Version pid = processIDVersion).

(** ** Start *)

(** [src/service/process_monitor.go:159-215] one process, in syncActiveProcessesFromBlockchain *)
Definition sync_process (view : View) (pid : ProcessID) : SE ProcessMonitor () :=
  if negb (accepts pid) || negb (ownsProcess pid) then mret ()
  else
    alive ← attempt (on_storage (ProcessIsOnChainAlive pid));
    match alive, v_Process view pid with
    | Ok true, Ok onchain =>
        stored ← attempt (on_storage (Storage_Process pid));
        match stored with
        | Err _ => mret ()
        | Ok local =>
            if BigInt_Equal (p_StateRoot local) (p_StateRoot onchain) &&
               BigInt_Equal (p_VotersCount local) (p_VotersCount onchain) &&
               BigInt_Equal (p_OverwrittenVotesCount local) (p_OverwrittenVotesCount onchain)
            then mret ()
            else warn (on_storage (UpdateProcess pid [ProcessUpdateCallbackSetStateRoot
                   (p_StateRoot onchain) (p_VotersCount onchain) (p_OverwrittenVotesCount onchain)]))
        end
    | _, _ => mret ()
    end.
(** [src/service/process_monitor.go:151-227] ProcessMonitor.syncActiveProcessesFromBlockchain *)
Definition syncActiveProcessesFromBlockchain (view : View) : SE ProcessMonitor () :=
  processIDs ← wrapping "failed to list processes" (on_storage ListProcesses);
  forM_ (sync_process view) processIDs.
(** [src/service/process_monitor.go:110-146] ProcessMonitor.initializeKnownProcesses *)
Definition initializeKnownProcesses (view : View) : SE ProcessMonitor () :=
  processIDs ← wrapping "failed to list processes" (on_storage ListProcesses);
  forM_ (λ pid, if accepts pid && ownsProcess pid then RegisterKnownProcess pid else mret ()) processIDs;;
  warn (syncActiveProcessesFromBlockchain view).

(** ** Events *)

(** The census of a process, replaced. *)
Definition set_Census (c : Census) (p : Process) : Process :=
  {| p_ID := p_ID p; p_Status := p_Status p; p_EncryptionKey := p_EncryptionKey p;
     p_StateRoot := p_StateRoot p; p_Result := p_Result p; p_StartTime := p_StartTime p;
     p_Duration := p_Duration p; p_BallotMode := p_BallotMode p; p_Census := Some c;
     p_VotersCount := p_VotersCount p; p_OverwrittenVotesCount := p_OverwrittenVotesCount p;
     p_MaxVoters := p_MaxVoters p; p_SequencerStats := p_SequencerStats p;
     p_RegisteredForSequencing := p_RegisteredForSequencing p; p_Payload := p_Payload p |}.
Definition with_root (root : bytes) (c : Census) : Census :=
  {| c_CensusOrigin := c_CensusOrigin c; c_CensusRoot := root; c_CensusURI := c_CensusURI c; c_Payload := c_Payload c |}.
(** [src/service/process_monitor.go:324-333] processSetup, in newProcessCallback *)
Definition processSetup (p : Process) : SE ProcessMonitor () := warn (on_storage (NewProcess (Some p))).
(** [src/service/process_monitor.go:278-377] ProcessMonitor.newProcessCallback *)
Definition newProcessCallback (view : View) (change : NewProcessChange) : SE ProcessMonitor () :=
  match np_Process change with
  | None => mret ()
  | Some process =>
      match p_ID process with
      | None => mret ()
      | Some pid =>
          if negb (accepts pid) || negb (ownsProcess pid) then mret ()
          else
            stored ← attempt (on_storage (Storage_Process pid));
            if is_Ok stored then mret ()
            else
              let finished := match v_Process view pid with
                              | Ok latest => bool_decide (p_Status latest = ProcessStatusResults) ||
                                             bool_decide (p_Status latest = ProcessStatusCanceled)
                              | Err _ => false end in
              if finished then mret ()
              else match p_Census process with
                   | None => mret ()
                   | Some census =>
                       now ← gets (λ pm, now (pm_storage pm));
                       if Process_IsActive now (Some process) then
                         match v_DownloadCensus view pid census with
                         | Err _ => mret ()
                         | Ok resolvedRoot => wait_for (WaitNew process (with_root resolvedRoot census))
                         end
                       else processSetup process
                   end
      end
  end.
(** [src/service/process_monitor.go:379-422] ProcessMonitor.statusChangeCallback *)
Definition statusChangeCallback (view : View) (pid : ProcessID) (change : StatusChange) : SE ProcessMonitor () :=
  if bool_decide (NewStatus change = ProcessStatusResults) then
    match v_Process view pid with
    | Err _ => mret ()
    | Ok process =>
        if bool_decide (p_Result process = []) then mret ()
        else
          r ← attempt (on_storage (UpdateProcess pid [ProcessUpdateCallbackFinalization (p_Result process)]));
          match r with
          | Err _ => mret ()
          | Ok _ => warn (on_storage (CleanProcessStaleVotes pid))
          end
    end
  else warn (on_storage (UpdateProcess pid [ProcessUpdateCallbackSetStatus (NewStatus change)])).
(** [src/service/process_monitor.go:424-443] ProcessMonitor.stateRootChangeCallback *)
Definition stateRootChangeCallback (u : ProcessWithChanges) (change : StateRootChange) : SE ProcessMonitor () :=
  r ← attempt (on_storage (UpdateProcess (u_ProcessID u) [ProcessUpdateCallbackSetStateRoot
         (NewStateRoot change) (NewVotersCount change) (NewOverwrittenVotesCount change)]));
  match r with
  | Err _ => mret ()
  | Ok _ => if with_statesync then Notify u else mret ()
  end.
(** [src/service/process_monitor.go:445-457] ProcessMonitor.maxVotersChangeCallback *)
Definition maxVotersChangeCallback (pid : ProcessID) (change : MaxVotersChange) : SE ProcessMonitor () :=
  warn (on_storage (UpdateProcess pid [ProcessUpdateCallbackSetMaxVoters (NewMaxVoters change)])).
(** [src/service/process_monitor.go:459-521] ProcessMonitor.censusRootChangeCallback; a stored process without
    a census is a nil dereference *)
Definition censusRootChangeCallback (view : View) (pid : ProcessID) (change : CensusRootChange) : SE ProcessMonitor () :=
  stored ← attempt (on_storage (Storage_Process pid));
  match stored with
  | Err _ => mret ()
  | Ok process =>
      match p_Census process with
      | None => raise (ErrMsg "nil pointer dereference")
      | Some census =>
          let newCensus := {| c_CensusOrigin := c_CensusOrigin census; c_CensusRoot := NewCensusRoot change;
                              c_CensusURI := NewCensusURI change; c_Payload := c_Payload census |} in
          match v_DownloadCensus view pid newCensus with
          | Err _ => mret ()
          | Ok _ => wait_for (WaitCensus pid (NewCensusRoot change) (NewCensusURI change))
          end
      end
  end.
(** [src/service/process_monitor.go:239-273] one update of the channel, in monitorProcesses *)
Definition handle_update (view : View) (u : ProcessWithChanges) : SE ProcessMonitor () :=
  if negb (accepts (u_ProcessID u)) || negb (ownsProcess (u_ProcessID u)) then mret ()
  else match u_NewProcess u, u_StatusChange u, u_StateRootChange u, u_MaxVotersChange u, u_CensusRootChange u with
       | Some change, _, _, _, _ => newProcessCallback view change
       | None, Some change, _, _, _ => statusChangeCallback view (u_ProcessID u) change
       | None, None, Some change, _, _ => stateRootChangeCallback u change
       | None, None, None, Some change, _ => maxVotersChangeCallback (u_ProcessID u) change
       | None, None, None, None, Some change => censusRootChangeCallback view (u_ProcessID u) change
       | None, None, None, None, None => mret ()
       end.

(** ** The end of a wait *)

(** [src/service/process_monitor.go:357-371] the callback of a wait, in newProcessCallback; that in
    censusRootChangeCallback is its second case; with how the download ended *)
Definition census_downloaded (w : Wait) (err : option error) : SE ProcessMonitor () :=
  match err with
  | Some _ => mret ()
  | None =>
      match w with
      | WaitNew process census => processSetup (set_Census census process)
      | WaitCensus pid newRoot newURI =>
          warn (on_storage (UpdateProcess pid [ProcessUpdateCallbackSetCensusRoot newRoot newURI]))
      end
  end.
(** The wait at a position ends. *)
Definition end_wait (i : nat) (err : option error) : SE ProcessMonitor () := λ pm,
  match pm_waits pm !! i with
  | None => (Ok (), pm)
  | Some w => census_downloaded w err {| pm_storage := pm_storage pm; pm_known := pm_known pm;
                pm_waits := delete i (pm_waits pm); pm_notified := pm_notified pm |}
  end.
End monitor.

(** ** The storage is used through its operations *)

Section operations.
Context `{Env : StorageEnv} (accepts : ProcessID → bool) (processIDVersion : bytes) (with_statesync : bool).

Definition by_operations : relation ProcessMonitor := λ pm pm', ∃ os, pm_storage pm' = run_ops os (pm_storage pm).
#[export] Instance by_operations_preorder : PreOrder by_operations.
Proof.
  split; [intros pm; by exists []|]. intros a b c [os1 H1] [os2 H2]. exists (os1 ++ os2).
  rewrite H2, H1. unfold run_ops. by rewrite foldl_app.
Qed.
Lemma by_read {A} (m : M A) : moves (=) m → moves by_operations (on_storage m).
Proof. intros Hm pm. specialize (Hm (pm_storage pm)). unfold on_storage. destruct (m _) as [r s]. exists []. by rewrite Hm. Qed.
Lemma by_op {A} (m : M A) o : (∀ s, run_op o s = exec m s) → moves by_operations (on_storage m).
Proof.
  intros Ho pm. exists [o]. unfold run_ops. simpl. rewrite Ho. unfold on_storage, exec. by destruct (m _).
Qed.
Lemma by_UpdateProcess pid fs : moves by_operations (on_storage (UpdateProcess pid fs)).
Proof. by apply (by_op _ (OpUpdateProcess pid fs)). Qed.
Lemma by_NewProcess p : moves by_operations (on_storage (NewProcess p)).
Proof. by apply (by_op _ (OpNewProcess p)). Qed.
Lemma by_Clean pid : moves by_operations (on_storage (CleanProcessStaleVotes pid)).
Proof. by apply (by_op _ (OpCleanProcessStaleVotes pid)). Qed.
Lemma by_same (f : ProcessMonitor → ProcessMonitor) : (∀ pm, pm_storage (f pm) = pm_storage pm) → ∀ pm, by_operations pm (f pm).
Proof. intros Hf pm. exists []. by rewrite Hf. Qed.
Lemma reads_Storage_Process pid : moves (=) (Storage_Process pid).
Proof. intros s. unfold Storage_Process. by rewrite process_eq. Qed.
Lemma reads_ListProcesses : moves (=) ListProcesses.
Proof. unfold ListProcesses. moves. Qed.
Lemma reads_alive pid : moves (=) (ProcessIsOnChainAlive pid).
Proof. pose proof reads_Storage_Process. unfold ProcessIsOnChainAlive, processIsOnChainAlive. moves. Qed.

Lemma by_wait w : moves by_operations (wait_for w).
Proof. intros pm. by exists []. Qed.
Lemma by_register pid : moves by_operations (RegisterKnownProcess pid).
Proof. intros pm. by exists []. Qed.
Lemma by_Notify u : moves by_operations (Notify u).
Proof. intros pm. exists []. unfold Notify, modify. simpl. by destruct (_ <? _)%nat. Qed.
#[local] Hint Resolve by_read by_UpdateProcess by_NewProcess by_Clean by_wait by_register by_Notify
  reads_Storage_Process reads_ListProcesses reads_alive : moves.
Lemma sync_process_by view pid : moves by_operations (sync_process accepts processIDVersion view pid).
Proof. unfold sync_process. moves. Qed.
Lemma handle_update_by view u : moves by_operations (handle_update accepts processIDVersion with_statesync view u).
Proof.
  unfold handle_update, newProcessCallback, statusChangeCallback, stateRootChangeCallback, maxVotersChangeCallback,
    censusRootChangeCallback, processSetup. moves.
Qed.
Lemma initialize_by view : moves by_operations (initializeKnownProcesses accepts processIDVersion view).
Proof. pose proof sync_process_by. unfold initializeKnownProcesses, syncActiveProcessesFromBlockchain. moves. Qed.
Lemma end_wait_by i err : moves by_operations (end_wait i err).
Proof.
  intros pm. unfold end_wait. destruct (pm_waits pm !! i) as [w|]; [|by exists []]. set (pm' := {| pm_storage := _ |}).
  assert (Hm : moves by_operations (census_downloaded w err)) by (unfold census_downloaded, processSetup; moves).
  destruct (Hm pm') as [os Hos]. by exists os.
Qed.

(** The monitor at work: its start, the updates it receives and the ends of waits, in any order and with
    any answers. *)
Inductive monitor_step : relation ProcessMonitor :=
  | step_start pm view : monitor_step pm (initializeKnownProcesses accepts processIDVersion view pm).2
  | step_update pm view u : monitor_step pm (handle_update accepts processIDVersion with_statesync view u pm).2
  | step_end_wait pm i err : monitor_step pm (end_wait i err pm).2.

(** Whatever events the monitor receives, in whatever order downloads end, it changes the storage only as
    a sequence of the storage's own operations does, so every property of the storage that its operations
    keep holds of a node that follows the chain. *)
Theorem monitor_runs_operations pm pm' : rtc monitor_step pm pm' → ∃ os, pm_storage pm' = run_ops os (pm_storage pm).
Proof.
  intros Hr. assert (Ho : by_operations pm pm'); [|exact Ho].
  induction Hr as [pm|pm pm1 pm2 Hstep _ IH]; [reflexivity|]. trans pm1; [|exact IH]. destruct Hstep.
  - apply initialize_by.
  - apply handle_update_by.
  - apply end_wait_by.
Qed.
End operations.

(** ** What a process waits for, and what it misses *)

Section order.
Context `{Env : StorageEnv} (accepts : ProcessID → bool) (processIDVersion : bytes) (with_statesync : bool).

Lemma on_storage_read {A} (m : M A) pm r : m (pm_storage pm) = (r, pm_storage pm) → on_storage m pm = (r, pm).
Proof. intros Hm. unfold on_storage. rewrite Hm. by destruct pm. Qed.
Lemma attempt_read {A} (m : M A) pm r : m (pm_storage pm) = (r, pm_storage pm) → attempt (on_storage m) pm = (Ok r, pm).
Proof. intros Hm. unfold attempt. by rewrite (on_storage_read m pm r Hm). Qed.

(** The event of an active process never stores it: nothing is stored until the import of its census has
    ended, and nothing if the import failed. *)
Theorem active_process_waits_for_census view p change pm : np_Process change = Some p →
  Process_IsActive (now (pm_storage pm)) (Some p) = true →
  pm_storage (newProcessCallback accepts processIDVersion view change pm).2 = pm_storage pm ∧
  ∀ w, w ∈ pm_waits (newProcessCallback accepts processIDVersion view change pm).2 → w ∈ pm_waits pm ∨
    ∃ pid census root, w = WaitNew p (with_root root census) ∧ p_ID p = Some pid ∧ p_Census p = Some census ∧
      v_DownloadCensus view pid census = Ok root ∧
      ∀ i pm1 e, pm_waits pm1 !! i = Some w → pm_storage (end_wait i (Some e) pm1).2 = pm_storage pm1.
Proof.
  intros Hp Hactive. unfold newProcessCallback. rewrite Hp. destruct (p_ID p) as [pid|] eqn:Hid; [|by auto].
  case_match; [split; [done|]; intros; by left|]. rewrite (bind_Ok _ _ _ _ _ (attempt_read _ pm _ (process_eq pid (pm_storage pm)))).
  case_match; [split; [done|]; intros; by left|].
  destruct (match v_Process view pid with Ok _ => _ | Err _ => _ end); [split; [done|]; intros; by left|].
  destruct (p_Census p) as [census|] eqn:Hcensus; [|by auto].
  unfold mbind, SE_bind, gets. rewrite Hactive. destruct (v_DownloadCensus view pid census) as [root|e] eqn:Hd; [|by auto].
  split; [done|]. intros w [Hw|Hw%list_elem_of_singleton]%elem_of_app; [by left|]. right. exists pid, census, root.
  split_and!; try done. intros i pm1 e Hi. unfold end_wait. by rewrite Hi.
Qed.

Lemma process_reads pid s : process pid s = ((process pid s).1, s).
Proof. by rewrite process_eq. Qed.
(** A new process that was stored is stored as it came. *)
Lemma NewProcess_stores p pid s s' : p_ID p = Some pid → NewProcess (Some p) s = (Ok (), s') →
  ∃ v, EncodeArtifact p = Ok v ∧ db s' !! (processPrefix ++ pid_bytes pid) = Some v.
Proof.
  intros Hid. unfold NewProcess. rewrite Hid. intros (r & s1 & _ & Hb)%bind_inv_Ok.
  destruct r as [?|e]; [done|]. case_match; [done|]. apply bind_inv_Ok in Hb as ([] & s2 & _ & Hb).
  destruct (p_EncryptionKey p); [|done]. destruct (p_Census p); [|done].
  apply bind_inv_Ok in Hb as ([] & s3 & _ & Hb). apply bind_inv_Ok in Hb as (packed & s4 & _ & Hb).
  apply bind_inv_Ok in Hb as ([] & s5 & _ & Hb). destruct (p_StateRoot p); [|done].
  apply bind_inv_Ok in Hb as ([] & s6 & _ & Hb).
  destruct (setArtifact_cases processPrefix (pid_bytes pid) p s6) as [(e' & s'' & Hset & _)|(v & s'' & Hv & Hset & Hdb & _)].
  - by rewrite Hset in Hb.
  - rewrite Hset in Hb. injection Hb as <-. exists v. split; [done|]. by rewrite Hdb, lookup_insert_eq.
Qed.


(** The look at the chain at the start adopts a new state root, with the counts that came with it, for
    each process of the node that is alive; but counts that differ under the same root are not adopted: what
    is stored is then what was stored before. *)
Theorem sync_adopts_roots view pid pm p onchain root : accepts pid = true → ownsProcess processIDVersion pid = true →
  (process pid (pm_storage pm)).1 = Ok p → ProcessIsOnChainAlive pid (pm_storage pm) = (Ok true, pm_storage pm) →
  v_Process view pid = Ok onchain → p_StateRoot onchain = Some root →
  let s' := pm_storage (sync_process accepts processIDVersion view pid pm).2 in
  db s' = db (pm_storage pm) ∨
  ∃ p', (process pid s').1 = Ok (norm p') ∧ p_StateRoot p' = Some root ∧
    (p_StateRoot p = Some root → p' = p) ∧
    (p_StateRoot p ≠ Some root → p_VotersCount p' = from_option Some (p_VotersCount p) (p_VotersCount onchain) ∧
       p_OverwrittenVotesCount p' = from_option Some (p_OverwrittenVotesCount p) (p_OverwrittenVotesCount onchain)).
Proof.
  intros Ha Ho Hp Halive Hv Hroot s'. unfold s', sync_process. rewrite Ha, Ho. cbn [negb orb].
  rewrite (bind_Ok _ _ _ _ _ (attempt_read _ pm _ Halive)), Hv.
  assert (Hstored : Storage_Process pid (pm_storage pm) = (Ok p, pm_storage pm)).
  { unfold Storage_Process. by rewrite process_reads, Hp. }
  rewrite (bind_Ok _ _ _ _ _ (attempt_read _ pm _ Hstored)). case_match; [by left|].
  set (f := ProcessUpdateCallbackSetStateRoot (p_StateRoot onchain) (p_VotersCount onchain) (p_OverwrittenVotesCount onchain)).
  pose proof (UpdateProcess_atomic pid [f] (pm_storage pm)) as Hup. unfold warn, on_storage.
  destruct (UpdateProcess pid [f] (pm_storage pm)) as [[[]|e] s1]; destruct Hup as [_ Hup]; [|by left].
  right. destruct Hup as (p0 & p' & v & Hp0 & Happly & _ & _ & Hs1). assert (p0 = p) as -> by congruence.
  simpl in Happly. destruct (f p) as [q|] eqn:Hf; [|done]. injection Happly as <-. exists q. split; [done|].
  unfold f in Hf. rewrite Hroot in Hf.
  destruct (SetStateRoot_spec root (p_VotersCount onchain) (p_OverwrittenVotesCount onchain) p) as (q' & Hq & H1 & H2 & _ & H4).
  assert (q' = q) as -> by congruence. split; [done|]. split; [done|]. intros Hne.
  destruct (p_StateRoot p) as [old|] eqn:Hold; [by apply (H4 old); [|congruence]|].
  unfold ProcessIsOnChainAlive, wrapping, mbind, SE_bind in Halive. rewrite process_reads, Hp in Halive. unfold processIsOnChainAlive in Halive. run_simpl. by rewrite Hold in Halive.
Qed.
End order.

Module MonitorExample.
Import Concrete.
#[local] Existing Instance env_pebble.
Definition census1 : Census := {| c_CensusOrigin := 1; c_CensusRoot := [byte_of_Z 9]; c_CensusURI := ""; c_Payload := [] |}.
Definition announced : Process := set_Census census1 process1.
Definition version : bytes := replicate 4 (byte_of_Z 2).
Definition view (p : Process) : View := {| v_Process := λ _, Ok p; v_DownloadCensus := λ _ c, Ok (c_CensusRoot c) |}.
Definition monitor (d : kv) : ProcessMonitor :=
  {| pm_storage := MkStorage d ∅ ∅ ∅ (70 * second) []; pm_known := ∅; pm_waits := []; pm_notified := [] |}.
Definition update (n : option NewProcessChange) (st : option StatusChange) : ProcessWithChanges :=
  {| u_ProcessID := pid1; u_NewProcess := n; u_StatusChange := st; u_StateRootChange := None; u_MaxVotersChange := None; u_CensusRootChange := None |}.
Definition creation : NewProcessChange := {| np_Process := Some announced |}.
Definition handle (u : ProcessWithChanges) (pm : ProcessMonitor) : ProcessMonitor :=
  (handle_update (λ _, true) version true (view announced) u pm).2.

(** The process is announced, cancelled while its census is imported, and stored as ready. *)
Definition cancelled_while_waiting : ProcessMonitor :=
  (end_wait 0 None (handle (update None (Some {| OldStatus := ProcessStatusReady; NewStatus := ProcessStatusCanceled |}))
    (handle (update (Some creation) None) (monitor ∅)))).2.
Example stored_as_ready : match (process pid1 (pm_storage cancelled_while_waiting)).1 with
  | Ok p => bool_decide (p_Status p = ProcessStatusReady) | Err _ => false end = true.
Proof. vm_compute. reflexivity. Qed.

Lemma monitor_runs_operations_witness : ∃ os, pm_storage cancelled_while_waiting = run_ops os (pm_storage (monitor ∅)).
Proof.
  apply (monitor_runs_operations (λ _, true) version true). eapply rtc_l; [apply step_update|].
  eapply rtc_l; [apply step_update|]. eapply rtc_l; [apply step_end_wait|]. apply rtc_refl.
Defined.
Lemma active_process_waits_for_census_witness :
  pm_storage (newProcessCallback (λ _, true) version (view announced) creation (monitor ∅)).2 = pm_storage (monitor ∅) ∧
  ∀ w, w ∈ pm_waits (newProcessCallback (λ _, true) version (view announced) creation (monitor ∅)).2 → w ∈ [] ∨
    ∃ pid census root, w = WaitNew announced (with_root root census) ∧ p_ID announced = Some pid ∧ p_Census announced = Some census ∧
      v_DownloadCensus (view announced) pid census = Ok root ∧
      ∀ i pm1 e, pm_waits pm1 !! i = Some w → pm_storage (end_wait i (Some e) pm1).2 = pm_storage pm1.
Proof. apply (active_process_waits_for_census (λ _, true) version (view announced) announced); reflexivity. Defined.

(** The chain has counted three votes under the root that is stored. *)
Definition onchain : Process := set_root_and_counts (Some 11) (Some 3) (Some 0) process1.
Definition synced : kv := {[processPrefix ++ pid_bytes pid1 := enc process1]}.
Lemma synced_process : (process pid1 (pm_storage (monitor synced))).1 = Ok process1.
Proof. vm_compute. reflexivity. Qed.
Lemma synced_alive : ProcessIsOnChainAlive pid1 (pm_storage (monitor synced)) = (Ok true, pm_storage (monitor synced)).
Proof. refine (run_eq (ProcessIsOnChainAlive pid1) (pm_storage (monitor synced)) (Ok true) _). vm_compute. reflexivity. Qed.
Lemma sync_adopts_roots_witness :
  let s' := pm_storage (sync_process (λ _, true) version (view onchain) pid1 (monitor synced)).2 in
  db s' = synced ∨
  ∃ p', (process pid1 s').1 = Ok (norm p') ∧ p_StateRoot p' = Some 11 ∧ (p_StateRoot process1 = Some 11 → p' = process1) ∧
    (p_StateRoot process1 ≠ Some 11 → p_VotersCount p' = Some 3 ∧ p_OverwrittenVotesCount p' = Some 0).
Proof.
  apply (sync_adopts_roots (λ _, true) version (view onchain) pid1 (monitor synced) process1 onchain 11 eq_refl eq_refl synced_process synced_alive eq_refl eq_refl).
Defined.
End MonitorExample.
