(* ===== verification/ContractEvents.v ===== *)
(** * The events of the contract

    [src/web3/event_filters.go], [process.go], [contracts.go], [types.go] and [blobs.go]: what the node reads
    of the contract of processes. The watch asks at every tick for the events of the blocks that it has not
    seen, with one filter per kind of event, and announces what they say to the monitor of the processes;
    the blobs of a transaction are fetched from the consensus layer. The Ethereum node and the bindings of
    the contract are parameters. *)

From S2P Require Import Prelude Bytes Spec Types Census StorageTypes EndpointPool ProcessMonitor.

(** ** What the node answers *)

(** An event as the bindings hand it out: the block and the transaction of its log, and its fields. *)
Record Log (E : Type) := { Raw_BlockNumber : Z; Raw_TxHash : bytes; Event : E }.
Arguments Raw_BlockNumber {E}. Arguments Raw_TxHash {E}. Arguments Event {E}.
Record StatusChanged := { sc_ProcessId : ProcessID; sc_OldStatus : ProcessStatus; sc_NewStatus : ProcessStatus }.
Record StateTransitioned := {
  st_ProcessId : ProcessID; st_OldStateRoot : Z; st_NewStateRoot : Z; st_NewVotersCount : Z;
  st_NewOverwrittenVotesCount : Z }.
Record MaxVotersChanged := { mv_ProcessId : ProcessID; mv_MaxVoters : Z }.
Record CensusUpdated := { cu_ProcessId : ProcessID; cu_CensusRoot : bytes; cu_CensusURI : string }.
(** A process in the contract: the numbers are 256 bits wide, the status is one of its enumeration. *)
Record DAVINCITypesProcess := {
  cp_Status : ProcessStatus; cp_OrganizationId : bytes; cp_EncryptionKey : Z * Z; cp_LatestStateRoot : Z;
  cp_StartTime : Z; cp_Duration : Z; cp_MaxVoters : Z; cp_VotersCount : Z; cp_OverwrittenVotesCount : Z;
  cp_MetadataURI : string; cp_BallotMode : BallotMode; cp_CensusOrigin : Z; cp_CensusRoot : bytes;
  cp_CensusURI : string; cp_ContractAddress : bytes; cp_Result : list Z }.

(** The calls of the node that the watch makes. The filters take the first and the last block of the range
    and, except for creations, the processes whose events are wanted. *)
Class ContractNode `{Outside} := {
  BlockNumber : SE World Z;
  GetProcess : option Z → ProcessID → SE World DAVINCITypesProcess;
  FilterProcessCreated : Z → Z → SE World (list (Log ProcessID));
  FilterProcessStatusChanged : Z → Z → list ProcessID → SE World (list (Log StatusChanged));
  FilterProcessStateTransitioned : Z → Z → list ProcessID → SE World (list (Log StateTransitioned));
  FilterProcessMaxVotersChanged : Z → Z → list ProcessID → SE World (list (Log MaxVotersChanged));
  FilterCensusUpdated : Z → Z → list ProcessID → SE World (list (Log CensusUpdated)) }.

(** ** Processes *)

(** [int64(x)] of a [uint64], and [x.Uint64()] of a [big.Int] that is not negative. *)
Definition int64 (z : Z) : Z := (z + 2 ^ 63) mod 2 ^ 64 - 2 ^ 63.
Definition Uint64 (z : Z) : Z := z mod 2 ^ 64.
(** How the fields of a process and of a census that the node never reads are carried. *)
Class Payloads := { process_payload : bytes → string → bytes; census_payload : bytes → bytes }.

(** [src/web3/types.go:63-111] contractProcess2Process *)
Definition contractProcess2Process `{Payloads} (p : DAVINCITypesProcess) : result Process :=
  let bm := cp_BallotMode p in
  if negb (CensusOrigin_Valid (cp_CensusOrigin p)) then Err (ErrMsg "invalid census origin")
  else Ok {|
    p_ID := None; p_Status := cp_Status p; p_EncryptionKey := Some (cp_EncryptionKey p);
    p_StateRoot := Some (cp_LatestStateRoot p); p_Result := cp_Result p;
    p_StartTime := int64 (Uint64 (cp_StartTime p)) * second;
    p_Duration := int64 (int64 (Uint64 (cp_Duration p)) * second);
    p_BallotMode := {|
      NumFields := NumFields bm; GroupSize := GroupSize bm; UniqueValues := UniqueValues bm; CostExponent := CostExponent bm;
      MaxValue := Uint64 (MaxValue bm); MinValue := Uint64 (MinValue bm);
      MaxValueSum := Uint64 (MaxValueSum bm); MinValueSum := Uint64 (MinValueSum bm) |};
    p_Census := Some {| c_CensusOrigin := cp_CensusOrigin p; c_CensusRoot := cp_CensusRoot p;
                        c_CensusURI := cp_CensusURI p; c_Payload := census_payload (cp_ContractAddress p) |};
    p_VotersCount := Some (cp_VotersCount p); p_OverwrittenVotesCount := Some (cp_OverwrittenVotesCount p);
    p_MaxVoters := Some (cp_MaxVoters p); p_SequencerStats := zeroSequencerStats; p_RegisteredForSequencing := false;
    p_Payload := process_payload (cp_OrganizationId p) (cp_MetadataURI p) |}.

(** Its identifier is what was asked for. *)
Definition with_ID (pid : ProcessID) (p : Process) : Process :=
  {| p_ID := Some pid; p_Status := p_Status p; p_EncryptionKey := p_EncryptionKey p;
     p_StateRoot := p_StateRoot p; p_Result := p_Result p; p_StartTime := p_StartTime p;
     p_Duration := p_Duration p; p_BallotMode := p_BallotMode p; p_Census := p_Census p;
     p_VotersCount := p_VotersCount p; p_OverwrittenVotesCount := p_OverwrittenVotesCount p;
     p_MaxVoters := p_MaxVoters p; p_SequencerStats := p_SequencerStats p;
     p_RegisteredForSequencing := p_RegisteredForSequencing p; p_Payload := p_Payload p |}.

Section contracts.
Context `{ContractNode} `{!Payloads}.

(** ** The state of the watch *)

(** [src/web3/contracts.go:78-104] Contracts: its world, the processes it knows, the current block as it last
    saw it, the last block whose changes were announced, and what was sent on the channel. *)
Record Contracts := {
  c_world : World; c_knownProcesses : gset ProcessID; c_currentBlock : Z; c_currentBlockLastUpdate : Time;
  c_lastWatchProcessChangesBlock : Z; c_updatedProcChan : list ProcessWithChanges }.

Definition on_world {A} (m : SE World A) : SE Contracts A := λ c,
  let '(r, w) := m (c_world c) in
  (r, {| c_world := w; c_knownProcesses := c_knownProcesses c; c_currentBlock := c_currentBlock c;
         c_currentBlockLastUpdate := c_currentBlockLastUpdate c;
         c_lastWatchProcessChangesBlock := c_lastWatchProcessChangesBlock c; c_updatedProcChan := c_updatedProcChan c |}).
Definition set_known (known : gset ProcessID) (c : Contracts) : Contracts :=
  {| c_world := c_world c; c_knownProcesses := known; c_currentBlock := c_currentBlock c;
     c_currentBlockLastUpdate := c_currentBlockLastUpdate c;
     c_lastWatchProcessChangesBlock := c_lastWatchProcessChangesBlock c; c_updatedProcChan := c_updatedProcChan c |}.
Definition set_current (block : Z) (t : Time) (c : Contracts) : Contracts :=
  {| c_world := c_world c; c_knownProcesses := c_knownProcesses c; c_currentBlock := block;
     c_currentBlockLastUpdate := t;
     c_lastWatchProcessChangesBlock := c_lastWatchProcessChangesBlock c; c_updatedProcChan := c_updatedProcChan c |}.
Definition set_last (block : Z) (c : Contracts) : Contracts :=
  {| c_world := c_world c; c_knownProcesses := c_knownProcesses c; c_currentBlock := c_currentBlock c;
     c_currentBlockLastUpdate := c_currentBlockLastUpdate c;
     c_lastWatchProcessChangesBlock := block; c_updatedProcChan := c_updatedProcChan c |}.
(** A send on the channel; the monitor of the processes receives it. *)
Definition emit (u : ProcessWithChanges) : SE Contracts () := modify (λ c,
  {| c_world := c_world c; c_knownProcesses := c_knownProcesses c; c_currentBlock := c_currentBlock c;
     c_currentBlockLastUpdate := c_currentBlockLastUpdate c;
     c_lastWatchProcessChangesBlock := c_lastWatchProcessChangesBlock c; c_updatedProcChan := c_updatedProcChan c ++ [u] |}).

(** [src/web3/contracts.go:47-48] *)
Definition maxPastBlocksToWatch : Z := 9990.
(** [src/web3/contracts.go:50-51] *)
Definition currentBlockIntervalUpdate : Z := 5 * second.
(** [src/web3/contracts.go:147-170] the state of the watch that New builds at a block *)
Definition initial (lastBlock : Z) (w : World) : Contracts :=
  let startBlock := Z.max (int64 lastBlock - maxPastBlocksToWatch) 0 in
  {| c_world := w; c_knownProcesses := ∅; c_currentBlock := lastBlock; c_currentBlockLastUpdate := clock w;
     c_lastWatchProcessChangesBlock := startBlock; c_updatedProcChan := [] |}.

(** [src/web3/contracts.go:195-212] Contracts.CurrentBlock *)
Definition CurrentBlock : SE Contracts Z :=
  now ← gets (λ c : Contracts, clock (c_world c));
  stale ← gets (λ c : Contracts, c_currentBlockLastUpdate c + currentBlockIntervalUpdate <? now);
  if (stale : bool) then
    answer ← attempt (on_world BlockNumber);
    match answer with
    | Err _ => gets c_currentBlock
    | Ok block => modify (set_current block now);; gets c_currentBlock
    end
  else gets c_currentBlock.

(** [src/web3/contracts.go:655-662] Contracts.RegisterKnownProcess *)
Definition RegisterKnownProcess (pid : ProcessID) : SE Contracts () := modify (λ c, set_known ({[pid]} ∪ c_knownProcesses c) c).
(** [src/web3/contracts.go:664-675] Contracts.RegisterUnknownProcess *)
Definition RegisterUnknownProcess (pid : ProcessID) : SE Contracts bool :=
  known ← gets c_knownProcesses;
  if bool_decide (pid ∈ known) then mret false
  else modify (λ c, set_known ({[pid]} ∪ c_knownProcesses c) c);; mret true.
(** [src/web3/contracts.go:677-687] Contracts.knownPIDs *)
Definition knownPIDs : SE Contracts (list ProcessID) := gets (λ c, elements (c_knownProcesses c)).

(** [src/web3/process.go:65-85] Contracts.processAtBlock *)
Definition processAtBlock (pid : ProcessID) (blockNumber : option Z) : SE Contracts Process :=
  p ← wrapping "failed to get process" (on_world (GetProcess blockNumber pid));
  process ← lift (contractProcess2Process p);
  mret (with_ID pid process).
(** [src/web3/process.go:54-56] Contracts.Process *)
Definition Contracts_Process (pid : ProcessID) : SE Contracts Process := processAtBlock pid None.
(** [src/web3/process.go:60-63] Contracts.ProcessAtBlock *)
Definition ProcessAtBlock (pid : ProcessID) (blockNumber : Z) : SE Contracts Process := processAtBlock pid (Some blockNumber).
(** [src/web3/process.go:117-123] Contracts.StateRoot *)
Definition Contracts_StateRoot (pid : ProcessID) : SE Contracts (option Z) :=
  process ← wrapping "failed to get process" (Contracts_Process pid);
  mret (p_StateRoot process).
End contracts.

(** ** The updates *)

(** [src/web3/event_filters.go:43-48] the update for a creation *)
Definition creation_update (pid : ProcessID) (process : Process) : ProcessWithChanges :=
  {| u_ProcessID := pid; u_NewProcess := Some {| np_Process := Some process |}; u_StatusChange := None;
     u_StateRootChange := None; u_MaxVotersChange := None; u_CensusRootChange := None |}.
(** [src/web3/event_filters.go:60-66] the update for a change of status *)
Definition status_update (log : Log StatusChanged) : ProcessWithChanges :=
  {| u_ProcessID := sc_ProcessId (Event log); u_NewProcess := None;
     u_StatusChange := Some {| OldStatus := sc_OldStatus (Event log); NewStatus := sc_NewStatus (Event log) |};
     u_StateRootChange := None; u_MaxVotersChange := None; u_CensusRootChange := None |}.
(** [src/web3/event_filters.go:78-87] the update for a state transition *)
Definition root_update (log : Log StateTransitioned) : ProcessWithChanges :=
  {| u_ProcessID := st_ProcessId (Event log); u_NewProcess := None; u_StatusChange := None;
     u_StateRootChange := Some {|
       OldStateRoot := Some (st_OldStateRoot (Event log)); NewStateRoot := Some (st_NewStateRoot (Event log));
       NewVotersCount := Some (st_NewVotersCount (Event log));
       NewOverwrittenVotesCount := Some (st_NewOverwrittenVotesCount (Event log)); TxHash := Some (Raw_TxHash log) |};
     u_MaxVotersChange := None; u_CensusRootChange := None |}.
(** [src/web3/event_filters.go:99-104] the update for the number of voters *)
Definition max_voters_update (log : Log MaxVotersChanged) : ProcessWithChanges :=
  {| u_ProcessID := mv_ProcessId (Event log); u_NewProcess := None; u_StatusChange := None; u_StateRootChange := None;
     u_MaxVotersChange := Some {| NewMaxVoters := Some (mv_MaxVoters (Event log)) |}; u_CensusRootChange := None |}.
(** [src/web3/event_filters.go:116-122] the update for a census *)
Definition census_update (log : Log CensusUpdated) : ProcessWithChanges :=
  {| u_ProcessID := cu_ProcessId (Event log); u_NewProcess := None; u_StatusChange := None; u_StateRootChange := None;
     u_MaxVotersChange := None;
     u_CensusRootChange := Some {| NewCensusRoot := cu_CensusRoot (Event log); NewCensusURI := cu_CensusURI (Event log) |} |}.

(** ** The filters *)

Section filters.
Context `{ContractNode} `{!Payloads}.

(** [src/web3/event_filters.go:29-49] one event, in NewProcessFilter *)
Definition announce_creation (log : Log ProcessID) : SE Contracts () :=
  process ← attempt (ProcessAtBlock (Event log) (Raw_BlockNumber log));
  match process with
  | Err _ => mret ()
  | Ok process =>
      new ← RegisterUnknownProcess (Event log);
      if (new : bool) then emit (creation_update (Event log) process) else mret ()
  end.
(** [src/web3/event_filters.go:24-51] Contracts.NewProcessFilter *)
Definition NewProcessFilter (start end_ : Z) : SE Contracts () :=
  iter ← wrapping "failed to filter process created events" (on_world (FilterProcessCreated start end_));
  forM_ announce_creation iter.
(** [src/web3/event_filters.go:54-69] Contracts.ProcessStatusFilter *)
Definition ProcessStatusFilter (start end_ : Z) : SE Contracts () :=
  pids ← knownPIDs;
  iter ← wrapping "failed to filter status change updated events" (on_world (FilterProcessStatusChanged start end_ pids));
  forM_ (λ log, emit (status_update log)) iter.
(** [src/web3/event_filters.go:72-90] Contracts.ProcessStateRootFilter *)
Definition ProcessStateRootFilter (start end_ : Z) : SE Contracts () :=
  pids ← knownPIDs;
  iter ← wrapping "failed to filter state root updated events" (on_world (FilterProcessStateTransitioned start end_ pids));
  forM_ (λ log, emit (root_update log)) iter.
(** [src/web3/event_filters.go:93-107] Contracts.ProcessMaxVotersFilter *)
Definition ProcessMaxVotersFilter (start end_ : Z) : SE Contracts () :=
  pids ← knownPIDs;
  iter ← wrapping "failed to filter max voters updated events" (on_world (FilterProcessMaxVotersChanged start end_ pids));
  forM_ (λ log, emit (max_voters_update log)) iter.
(** [src/web3/event_filters.go:110-125] Contracts.ProcessCensusRootFilter *)
Definition ProcessCensusRootFilter (start end_ : Z) : SE Contracts () :=
  pids ← knownPIDs;
  iter ← wrapping "failed to filter census updated events" (on_world (FilterCensusUpdated start end_ pids));
  forM_ (λ log, emit (census_update log)) iter.
(** [src/web3/event_filters.go:13-21] Contracts.ProcessUpdatesFilters *)
Definition ProcessUpdatesFilters : list (Z → Z → SE Contracts ()) :=
  [NewProcessFilter; ProcessStatusFilter; ProcessStateRootFilter; ProcessMaxVotersFilter; ProcessCensusRootFilter].

(** ** The watch *)

(** [src/web3/process.go:402-412] the tries of one filter, in MonitorProcessUpdates; the last error *)
Fixpoint try_filter (filter : SE Contracts ()) (retries : nat) (filterErr : option error) : SE Contracts (option error) :=
  match retries with
  | O => mret filterErr
  | S retries =>
      r ← attempt filter;
      match r with
      | Ok _ => mret None
      | Err err => try_filter filter retries (Some err)
      end
  end.
(** [src/web3/process.go:398-419] the filters in turn, up to one that fails, in MonitorProcessUpdates *)
Fixpoint apply_filters (start end_ : Z) (retries : nat) (filters : list (Z → Z → SE Contracts ())) : SE Contracts (option error) :=
  match filters with
  | [] => mret None
  | filter :: filters =>
      filterErr ← try_filter (filter start end_) retries None;
      match filterErr with
      | Some err => mret (Some err)
      | None => apply_filters start end_ retries filters
      end
  end.
(** [src/web3/process.go:382-429] one tick, in MonitorProcessUpdates *)
Definition tick (retries : nat) (filters : list (Z → Z → SE Contracts ())) : SE Contracts () :=
  end_ ← CurrentBlock;
  start ← gets c_lastWatchProcessChangesBlock;
  if end_ <=? start then mret ()
  else
    filterErr ← apply_filters start end_ retries filters;
    match filterErr with
    | Some _ => mret ()
    | None => modify (set_last end_)
    end.

(** What happens to the watch: a tick, the registration of a stored process, or the world moves by itself
    between two of them. *)
Inductive WatchStep := Tick | Registered (pid : ProcessID) | Passed (world : World).
Definition watch_step (retries : nat) (step : WatchStep) (c : Contracts) : Contracts :=
  match step with
  | Tick => (tick retries ProcessUpdatesFilters c).2
  | Registered pid => (RegisterKnownProcess pid c).2
  | Passed w => (on_world (λ _, (Ok (), w)) c).2
  end.
(** [src/web3/process.go:367-433] Contracts.MonitorProcessUpdates, with what else happens meanwhile *)
Definition MonitorProcessUpdates (retries : nat) (steps : list WatchStep) (c : Contracts) : Contracts :=
  foldl (flip (watch_step retries)) c steps.
End filters.

(** ** A creation is announced once *)

(** The processes whose creation was announced. *)
Definition announced (updates : list ProcessWithChanges) : list ProcessID :=
  omap (λ u, match u_NewProcess u with Some _ => Some (u_ProcessID u) | None => None end) updates.
Lemma announced_snoc l u : announced (l ++ [u]) = announced l ++ announced [u].
Proof. apply omap_app. Qed.
Lemma announced_mono l k pid : (∀ u, u ∈ l → u ∈ k) → pid ∈ announced l → pid ∈ announced k.
Proof. intros Hsub (u & Hu & Hpid)%list_elem_of_omap. apply list_elem_of_omap. exists u. auto. Qed.

Section frames.
Context `{ContractNode} `{!Payloads}.

Lemma try_filter_moves R `{!PreOrder R} (f : SE Contracts ()) n e : moves R f → moves R (try_filter f n e).
Proof. intros Hf. revert e. induction n as [|n IH]; intros e; simpl; moves. Qed.
Lemma apply_filters_moves R `{!PreOrder R} start end_ n fs :
  Forall (λ f, moves R (f start end_)) fs → moves R (apply_filters start end_ n fs).
Proof. induction 1 as [|f fs Hf Hfs IH]; simpl; [moves|]. pose proof (try_filter_moves R (f start end_) n None Hf). moves. Qed.
Lemma on_world_fields {A} (m : SE World A) c : let c' := (on_world m c).2 in
  c_knownProcesses c' = c_knownProcesses c ∧ c_updatedProcChan c' = c_updatedProcChan c ∧
  c_lastWatchProcessChangesBlock c' = c_lastWatchProcessChangesBlock c.
Proof. unfold on_world. by destruct (m (c_world c)). Qed.

(** A relation that calls of the node, announcements of changes, first announcements and the moves of the two
    blocks respect is respected by a tick. *)
Context (R : relation Contracts) `{!PreOrder R}.
Context (Rworld : ∀ A (m : SE World A), moves R (on_world m)) (Remit : ∀ u, u_NewProcess u = None → moves R (emit u)).
Context (Rnew : ∀ pid p, moves R (new ← RegisterUnknownProcess pid; if (new : bool) then emit (creation_update pid p) else mret ())).
Context (Rcurrent : ∀ b t c, R c (set_current b t c)) (Rlast : ∀ b c, R c (set_last b c)).
#[local] Hint Resolve Rworld Rcurrent Rlast : moves.
Lemma announce_creation_moves log : moves R (announce_creation log).
Proof using All.
  unfold announce_creation, ProcessAtBlock. apply moves_bind; [apply _|apply moves_attempt; unfold processAtBlock; moves|].
  intros [p|e]; [apply Rnew|moves].
Qed.
Lemma tick_moves n : moves R (tick n ProcessUpdatesFilters).
Proof using All.
  assert (∀ s e, Forall (λ f, moves R (f s e)) ProcessUpdatesFilters) as Hfs.
  { intros s e. pose proof announce_creation_moves. pose proof (λ l, Remit (status_update l) eq_refl).
    pose proof (λ l, Remit (root_update l) eq_refl). pose proof (λ l, Remit (max_voters_update l) eq_refl).
    pose proof (λ l, Remit (census_update l) eq_refl).
    unfold ProcessUpdatesFilters, NewProcessFilter, ProcessStatusFilter, ProcessStateRootFilter, ProcessMaxVotersFilter, ProcessCensusRootFilter, knownPIDs.
    rewrite !Forall_cons, Forall_nil. split_and!; moves. }
  unfold tick, CurrentBlock. apply moves_bind; [apply _|moves; auto|]. intros e. apply moves_bind; [apply _|moves|].
  intros s. pose proof (apply_filters_moves R s e n _ (Hfs s e)). moves; auto.
Qed.
End frames.

Section once.
Context `{ContractNode} `{!Payloads}.

Definition once (c : Contracts) : Prop :=
  NoDup (announced (c_updatedProcChan c)) ∧ ∀ pid, pid ∈ announced (c_updatedProcChan c) → pid ∈ c_knownProcesses c.
Definition keeps_once (c c' : Contracts) : Prop := once c → once c'.
#[local] Instance keeps_once_po : PreOrder keeps_once.
Proof. split; [intros c Hc; exact Hc|intros c1 c2 c3 H12 H23 Hc; auto]. Qed.
Lemma announce_new_once pid p :
  moves keeps_once (new ← RegisterUnknownProcess pid; if (new : bool) then emit (creation_update pid p) else mret ()).
Proof.
  intros c. unfold RegisterUnknownProcess, mbind, SE_bind, gets, modify, emit. cbn [snd fst].
  case_bool_decide as Hin; [by intros Hc|]. intros [Hnd Hsub]. unfold once, mret, SE_ret. cbn -[announced]. rewrite announced_snoc. split.
  - apply NoDup_app. split; [done|]. split; [|apply NoDup_singleton]. intros q Hq ->%list_elem_of_singleton. auto.
  - intros q [Hq| ->%list_elem_of_singleton]%elem_of_app; set_solver.
Qed.
Lemma tick_once n : moves keeps_once (tick n ProcessUpdatesFilters).
Proof.
  apply tick_moves; [apply _| | |apply announce_new_once|intros; intros Hc; exact Hc..].
  - intros A m c. pose proof (on_world_fields m c) as (Hk & Hu & _). unfold keeps_once, once. by rewrite Hk, Hu.
  - intros u Hu c. unfold keeps_once, once; simpl. rewrite announced_snoc. unfold announced at 2 4; simpl. by rewrite Hu, !app_nil_r.
Qed.

(** C1: However the node answers, whichever calls fail and whichever processes are registered meanwhile, the
    creation of a process is announced at most once, and a process that was announced is known. *)
Theorem creation_announced_once retries steps lastBlock w :
  let c := MonitorProcessUpdates retries steps (initial lastBlock w) in
  NoDup (announced (c_updatedProcChan c)) ∧ ∀ pid, pid ∈ announced (c_updatedProcChan c) → pid ∈ c_knownProcesses c.
Proof.
  cut (∀ c, once c → once (MonitorProcessUpdates retries steps c)).
  { intros Hc. apply Hc. split; [constructor|]. cbn. intros pid Hpid. by apply not_elem_of_nil in Hpid. }
  unfold MonitorProcessUpdates. induction steps as [|[|pid|w'] steps IH]; intros c Hc; simpl; [done|apply IH..].
  - by apply tick_once.
  - destruct Hc as [Hnd Hsub]. split; [done|]. simpl. set_solver.
  - done.
Qed.

(** Whoever becomes known in a tick was announced. *)
Definition sourced (c c' : Contracts) : Prop :=
  (∀ u, u ∈ c_updatedProcChan c → u ∈ c_updatedProcChan c') ∧
  ∀ pid, pid ∈ c_knownProcesses c' → pid ∈ c_knownProcesses c ∨ pid ∈ announced (c_updatedProcChan c').
#[local] Instance sourced_po : PreOrder sourced.
Proof.
  split; [intros c; split; auto|]. intros c1 c2 c3 [Hu Hk] [Hu' Hk']. split; [auto|].
  intros pid [[Hpid|Hpid]%Hk|Hpid]%Hk'; [by left|right; by eapply announced_mono|by right].
Qed.
Lemma tick_sourced n : moves sourced (tick n ProcessUpdatesFilters).
Proof.
  apply tick_moves; [apply _| | | |intros; split; auto..].
  - intros A m c. pose proof (on_world_fields m c) as (Hk & Hu & _). unfold sourced. rewrite Hk, Hu. auto.
  - intros u Hu c. split; [|by left]. intros v Hv. simpl. apply elem_of_app. by left.
  - intros pid p c. unfold RegisterUnknownProcess, mbind, SE_bind, gets, modify, emit. cbn [snd fst].
    case_bool_decide as Hin; [done|]. unfold sourced, mret, SE_ret. cbn -[announced]. rewrite announced_snoc. split; [set_solver|].
    intros q [->%elem_of_singleton|Hq]%elem_of_union; [right|by left]. apply elem_of_app. right. by apply list_elem_of_singleton.
Qed.
End once.

(** ** Every change is announced *)

(** What happened in the contract. *)
Record Chain := {
  ch_created : list (Log ProcessID); ch_status : list (Log StatusChanged); ch_root : list (Log StateTransitioned);
  ch_voters : list (Log MaxVotersChanged); ch_census : list (Log CensusUpdated) }.
(** Its changes, a list per filter: the block, the process, and what should be announced. *)
Definition change_parts (chain : Chain) : list (list (Z * ProcessID * ProcessWithChanges)) :=
  [(λ log, (Raw_BlockNumber log, sc_ProcessId (Event log), status_update log)) <$> ch_status chain;
   (λ log, (Raw_BlockNumber log, st_ProcessId (Event log), root_update log)) <$> ch_root chain;
   (λ log, (Raw_BlockNumber log, mv_ProcessId (Event log), max_voters_update log)) <$> ch_voters chain;
   (λ log, (Raw_BlockNumber log, cu_ProcessId (Event log), census_update log)) <$> ch_census chain].
Definition changes (chain : Chain) : list (Z * ProcessID * ProcessWithChanges) := concat (change_parts chain).

(** A filter that answers has all the events of the range that concern the processes asked for. It may refuse
    at any time. *)
Definition answers_all `{Outside} {E} (honest : World → Prop) (pid_of : E → ProcessID) (logs : list (Log E))
    (ask : Z → Z → list ProcessID → SE World (list (Log E))) : Prop :=
  (∀ start end_ pids w, honest w → honest (ask start end_ pids w).2) ∧
  ∀ start end_ pids w l, honest w → (ask start end_ pids w).1 = Ok l →
    ∀ log, log ∈ logs → start ≤ Raw_BlockNumber log ≤ end_ → pid_of (Event log) ∈ pids → log ∈ l.
(** A node that follows the chain; [honest] says which of its states do, and its own calls keep them. *)
Class HonestNode `{ContractNode} (chain : Chain) (honest : World → Prop) := {
  honest_block w : honest w → honest (BlockNumber w).2;
  honest_get b pid w : honest w → honest (GetProcess b pid w).2;
  honest_created start end_ w : honest w → honest (FilterProcessCreated start end_ w).2;
  created_all start end_ w l : honest w → (FilterProcessCreated start end_ w).1 = Ok l →
    ∀ log, log ∈ ch_created chain → start ≤ Raw_BlockNumber log ≤ end_ → log ∈ l;
  created_only start end_ w l : honest w → (FilterProcessCreated start end_ w).1 = Ok l →
    ∀ log, log ∈ l → log ∈ ch_created chain ∧ start ≤ Raw_BlockNumber log ≤ end_;
  status_all : answers_all honest sc_ProcessId (ch_status chain) FilterProcessStatusChanged;
  root_all : answers_all honest st_ProcessId (ch_root chain) FilterProcessStateTransitioned;
  voters_all : answers_all honest mv_ProcessId (ch_voters chain) FilterProcessMaxVotersChanged;
  census_all : answers_all honest cu_ProcessId (ch_census chain) FilterCensusUpdated }.
(** The processes of the chain can be read at the block of their creation. *)
Definition processes_readable `{ContractNode} (chain : Chain) (honest : World → Prop) : Prop :=
  ∀ log w, log ∈ ch_created chain → honest w → ∃ p,
    (GetProcess (Some (Raw_BlockNumber log)) (Event log) w).1 = Ok p ∧ CensusOrigin_Valid (cp_CensusOrigin p) = true.

Section complete.
Context `{ContractNode} `{!Payloads} (chain : Chain) (honest : World → Prop) `{!HonestNode chain honest}.

Definition grows (c c' : Contracts) : Prop :=
  (honest (c_world c) → honest (c_world c')) ∧
  c_lastWatchProcessChangesBlock c' = c_lastWatchProcessChangesBlock c ∧
  c_knownProcesses c ⊆ c_knownProcesses c' ∧ ∀ u, u ∈ c_updatedProcChan c → u ∈ c_updatedProcChan c'.
#[local] Instance grows_po : PreOrder grows.
Proof.
  split; [by intros c|]. intros c1 c2 c3 (Ha & Hb & Hc & Hd) (He & Hf & Hg & Hh). split_and!; [auto|congruence|set_solver|auto].
Qed.
Lemma on_world_grows {A} (m : SE World A) : (∀ w, honest w → honest (m w).2) → moves grows (on_world m).
Proof. intros Hm c. unfold on_world, grows. specialize (Hm (c_world c)). destruct (m (c_world c)); simpl in *. split_and!; auto. Qed.
Lemma emit_grows u : moves grows (emit u).
Proof. intros c. unfold grows, emit, modify; simpl. split_and!; auto. intros. apply elem_of_app. by left. Qed.
Lemma known_grows pid : moves grows (modify (λ c, set_known ({[pid]} ∪ c_knownProcesses c) c)).
Proof. intros c. unfold grows, modify; simpl. split_and!; auto. set_solver. Qed.
#[local] Hint Resolve emit_grows : moves.
Lemma announce_creation_grows log : moves grows (announce_creation log).
Proof.
  pose proof (λ pid, on_world_grows (GetProcess (Some (Raw_BlockNumber log)) pid) (honest_get _ _)).
  pose proof (known_grows (Event log)).
  unfold announce_creation, ProcessAtBlock, processAtBlock, RegisterUnknownProcess. moves.
Qed.

(** A filter that reports the changes of a part of the chain. *)
Definition change_filter {E} (msg : string) (ask : Z → Z → list ProcessID → SE World (list (Log E)))
    (upd : Log E → ProcessWithChanges) (start end_ : Z) : SE Contracts () :=
  pids ← knownPIDs;
  iter ← wrapping msg (on_world (ask start end_ pids));
  forM_ (λ log, emit (upd log)) iter.
Definition delivers (part : list (Z * ProcessID * ProcessWithChanges)) (f : Z → Z → SE Contracts ()) : Prop :=
  ∀ start end_, moves grows (f start end_) ∧ ∀ c c', honest (c_world c) → f start end_ c = (Ok (), c') →
    ∀ b pid u, (b, pid, u) ∈ part → start ≤ b ≤ end_ → pid ∈ c_knownProcesses c → u ∈ c_updatedProcChan c'.
Lemma forM_emit {E} (upd : Log E → ProcessWithChanges) l c log :
  log ∈ l → upd log ∈ c_updatedProcChan (forM_ (λ log, emit (upd log)) l c).2.
Proof.
  revert c. induction l as [|x l IH]; intros c Hin; [by apply not_elem_of_nil in Hin|]. simpl. unfold mbind, SE_bind, emit at 1, modify.
  apply elem_of_cons in Hin as [->|Hin]; [|by apply IH].
  assert (moves grows (forM_ (λ log, emit (upd log)) l)) as Hm by moves. apply Hm. simpl. set_solver.
Qed.
Lemma on_world_Ok {A} (m : SE World A) c a c' : on_world m c = (Ok a, c') → (m (c_world c)).1 = Ok a.
Proof. unfold on_world. destruct (m (c_world c)). by intros [= -> _]. Qed.
Lemma change_filter_delivers {E} msg pid_of (logs : list (Log E)) ask upd : answers_all honest pid_of logs ask →
  delivers ((λ log, (Raw_BlockNumber log, pid_of (Event log), upd log)) <$> logs) (change_filter msg ask upd).
Proof.
  intros [Hkeep Hall] start end_. split.
  - pose proof (λ pids, on_world_grows (ask start end_ pids) (Hkeep start end_ pids)). unfold change_filter, knownPIDs. moves.
  - intros c c' Hh Hrun b pid u (log & [= -> -> ->] & Hlog)%list_elem_of_fmap Hb Hpid. unfold change_filter in Hrun.
    apply bind_inv_Ok in Hrun as (pids & c1 & [= <- <-] & Hrun).
    apply bind_inv_Ok in Hrun as (iter & c2 & Hask%wrapping_Ok & Hrun). apply on_world_Ok in Hask.
    assert (c' = (forM_ (λ log, emit (upd log)) iter c2).2) as -> by by rewrite Hrun.
    apply forM_emit. apply (Hall _ _ _ _ _ Hh Hask log Hlog Hb). by apply elem_of_elements.
Qed.
(** The filters of changes, and what each reports. *)
Lemma filters_deliver : Forall2 delivers (change_parts chain)
  [ProcessStatusFilter; ProcessStateRootFilter; ProcessMaxVotersFilter; ProcessCensusRootFilter].
Proof.
  repeat apply Forall2_cons_2; [..|apply Forall2_nil_2]; apply change_filter_delivers; apply _ || eauto using status_all, root_all, voters_all, census_all.
Qed.

Lemma try_filter_None (f : SE Contracts ()) n e c c' : moves grows f → n ≠ 0%nat →
  try_filter f n e c = (Ok None, c') → ∃ c1, grows c c1 ∧ f c1 = (Ok (), c').
Proof.
  intros Hf. revert e c. induction n as [|n IH]; intros e c Hn; [done|]. simpl. unfold attempt, mbind, SE_bind.
  pose proof (Hf c) as Hg. destruct (f c) as [[[]|err] c1] eqn:Hfc; simpl in *; [intros [= <-]; exists c; by split|].
  destruct n as [|n]; [done|]. intros (c2 & Hg2 & Hf2)%IH; [|done]. exists c2. split; [by etrans|done].
Qed.
Lemma apply_filters_None f fs start end_ n c c' : moves grows (f start end_) → n ≠ 0%nat →
  apply_filters start end_ n (f :: fs) c = (Ok None, c') →
  ∃ c1 c2, grows c c1 ∧ f start end_ c1 = (Ok (), c2) ∧ grows c1 c2 ∧ apply_filters start end_ n fs c2 = (Ok None, c').
Proof.
  intros Hf Hn. simpl. intros ([e|] & c2 & Htry & Hrest)%bind_inv_Ok; [done|].
  apply try_filter_None in Htry as (c1 & Hg & Hrun); [|done..]. exists c1, c2. split_and!; [done|done| |done].
  pose proof (Hf c1) as Hg1. by rewrite Hrun in Hg1.
Qed.
Lemma delivers_grow start end_ parts fs : Forall2 delivers parts fs → Forall (λ f, moves grows (f start end_)) fs.
Proof. intros Hd. eapply Forall2_Forall_r; [exact Hd|]. apply Forall_forall. intros part _ f Hf. apply Hf. Qed.
Lemma apply_delivers n fs parts start end_ c c' : n ≠ 0%nat → Forall2 delivers parts fs → honest (c_world c) →
  apply_filters start end_ n fs c = (Ok None, c') →
  ∀ b pid u, (b, pid, u) ∈ concat parts → start ≤ b ≤ end_ → pid ∈ c_knownProcesses c → u ∈ c_updatedProcChan c'.
Proof.
  intros Hn Hfs. revert c. induction Hfs as [|part f parts fs Hf Hfs IH]; intros c Hh Hrun b pid u; [by intros ?%not_elem_of_nil|].
  destruct (Hf start end_) as [Hm Hd].
  apply apply_filters_None in Hrun as (c1 & c2 & Hg & Hrun & Hg2 & Hrest); [|done..].
  pose proof (apply_filters_moves grows start end_ n fs (delivers_grow start end_ _ _ Hfs) c2) as Hg3. rewrite Hrest in Hg3. simpl in Hg3.
  assert (grows c c2) as Hgc by (by etrans). simpl. intros [Hpart|Hparts]%elem_of_app Hb Hpid.
  - apply Hg3. apply (Hd c1 c2 (proj1 Hg Hh) Hrun b pid u Hpart Hb). by apply Hg.
  - apply (IH c2 (proj1 Hgc Hh) Hrest b pid u Hparts Hb). by apply Hgc.
Qed.

Lemma NewProcessFilter_grows start end_ : moves grows (NewProcessFilter start end_).
Proof.
  pose proof announce_creation_grows. pose proof (on_world_grows _ (honest_created start end_)). unfold NewProcessFilter. moves.
Qed.
Lemma filters_grow start end_ : Forall (λ f, moves grows (f start end_)) ProcessUpdatesFilters.
Proof. apply Forall_cons. split; [apply NewProcessFilter_grows|]. eapply delivers_grow, filters_deliver. Qed.
Lemma announce_creation_knows log c : processes_readable chain honest → honest (c_world c) → log ∈ ch_created chain →
  ∃ c', announce_creation log c = (Ok (), c') ∧ Event log ∈ c_knownProcesses c'.
Proof.
  intros Hread Hh Hlog. destruct (Hread log (c_world c) Hlog Hh) as (p & Hget & Horigin).
  unfold announce_creation, ProcessAtBlock, processAtBlock, wrapping, attempt, on_world, mbind, SE_bind, lift.
  destruct (GetProcess _ _ (c_world c)) as [r w'] eqn:Hg. simpl in Hget. subst r. unfold contractProcess2Process. rewrite Horigin.
  unfold RegisterUnknownProcess, gets, modify, emit, mbind, SE_bind. cbn -[elem_of]. case_bool_decide as Hin; cbn; (eexists; split; [reflexivity|]); cbn; [exact Hin|set_solver].
Qed.
Lemma announce_creations_know l c log : processes_readable chain honest → honest (c_world c) →
  (∀ x, x ∈ l → x ∈ ch_created chain) → log ∈ l → Event log ∈ c_knownProcesses (forM_ announce_creation l c).2.
Proof.
  intros Hread. revert c. induction l as [|x l IH]; intros c Hh Hsub Hin; [by apply not_elem_of_nil in Hin|].
  destruct (announce_creation_knows x c Hread Hh (Hsub x ltac:(set_solver))) as (c1 & Hx & Hknown).
  pose proof (announce_creation_grows x c) as Hg. rewrite Hx in Hg. simpl in Hg. simpl. rewrite (bind_Ok _ _ _ _ _ Hx).
  apply elem_of_cons in Hin as [->|Hin]; [|apply IH; [by apply Hg|set_solver|done]].
  pose proof announce_creation_grows. assert (moves grows (forM_ announce_creation l)) as Hm by moves. by apply Hm.
Qed.
Lemma NewProcessFilter_knows start end_ c c' log : processes_readable chain honest → honest (c_world c) →
  NewProcessFilter start end_ c = (Ok (), c') → log ∈ ch_created chain → start ≤ Raw_BlockNumber log ≤ end_ →
  Event log ∈ c_knownProcesses c'.
Proof.
  intros Hread Hh Hrun Hlog Hb. unfold NewProcessFilter in Hrun. apply bind_inv_Ok in Hrun as (iter & c1 & Hask%wrapping_Ok & Hrun).
  pose proof (on_world_grows _ (honest_created start end_) c) as Hg. rewrite Hask in Hg. apply on_world_Ok in Hask.
  assert (c' = (forM_ announce_creation iter c1).2) as -> by by rewrite Hrun.
  apply announce_creations_know; [done|by apply Hg| |by eapply created_all]. intros x Hx. by eapply created_only.
Qed.

(** A tick leaves the last block, or goes on to a later one and has then announced all of the blocks between. *)
Definition caught_up (c c' : Contracts) : Prop :=
  c_lastWatchProcessChangesBlock c < c_lastWatchProcessChangesBlock c' ∧
  (∀ log, log ∈ ch_created chain → c_lastWatchProcessChangesBlock c ≤ Raw_BlockNumber log ≤ c_lastWatchProcessChangesBlock c' →
    Event log ∈ c_knownProcesses c') ∧
  ∀ b pid u, (b, pid, u) ∈ changes chain → c_lastWatchProcessChangesBlock c ≤ b ≤ c_lastWatchProcessChangesBlock c' →
    (pid ∈ c_knownProcesses c ∨ ∃ log, log ∈ ch_created chain ∧ Event log = pid ∧ c_lastWatchProcessChangesBlock c ≤ Raw_BlockNumber log ≤ b) →
    u ∈ c_updatedProcChan c'.
Lemma CurrentBlock_grows : moves grows CurrentBlock.
Proof. pose proof (on_world_grows _ honest_block). unfold CurrentBlock. moves. Qed.
Definition extends (c c' : Contracts) : Prop :=
  (honest (c_world c) → honest (c_world c')) ∧ c_knownProcesses c ⊆ c_knownProcesses c' ∧
  (∀ u, u ∈ c_updatedProcChan c → u ∈ c_updatedProcChan c').
Lemma tick_catches_up n c : n ≠ 0%nat → processes_readable chain honest → honest (c_world c) →
  let c' := (tick n ProcessUpdatesFilters c).2 in
  extends c c' ∧ (c_lastWatchProcessChangesBlock c' = c_lastWatchProcessChangesBlock c ∨ caught_up c c').
Proof.
  intros Hn Hread Hh. unfold tick. pose proof (CurrentBlock_grows c) as Hg. unfold mbind, SE_bind, gets.
  destruct (CurrentBlock c) as [[end_|e] c1] eqn:Hc; simpl in Hg; [|by destruct Hg as (?&?&?&?); split; [|left]].
  destruct Hg as (Hg1 & Hg2 & Hg3 & Hg4). rewrite Hg2. set (start := c_lastWatchProcessChangesBlock c) in *.
  destruct (Z.leb_spec end_ start) as [Hle|Hlt]; [by split; [|left]|].
  assert (moves grows (apply_filters start end_ n ProcessUpdatesFilters)) as Hm.
  { apply apply_filters_moves; [apply _|apply filters_grow]. }
  pose proof (Hm c1) as (Ha1 & Ha2 & Ha3 & Ha4). remember ProcessUpdatesFilters as fs eqn:Hfs.
  destruct (apply_filters start end_ n fs c1) as [[[e|]|e] c2] eqn:Hrun; simpl in *;
    (split; [split_and!; [auto|set_solver|auto]|]); [left; congruence| |left; congruence].
  right. rewrite Hfs in Hrun. apply apply_filters_None in Hrun as (c3 & c4 & Hb & Hnew & Hb4 & Hrest); [|apply NewProcessFilter_grows|done].
  assert (honest (c_world c3)) as Hh3 by (apply Hb; auto). assert (honest (c_world c4)) as Hh4 by (apply Hb4; auto).
  pose proof (apply_filters_moves grows start end_ n _ (delivers_grow start end_ _ _ filters_deliver) c4) as Hc4.
  rewrite Hrest in Hc4. simpl in Hc4.
  assert (∀ log, log ∈ ch_created chain → start ≤ Raw_BlockNumber log ≤ end_ → Event log ∈ c_knownProcesses c4) as Hk4.
  { intros log Hlog Hrange. exact (NewProcessFilter_knows start end_ c3 c4 log Hread Hh3 Hnew Hlog Hrange). }
  split_and!; cbn [c_lastWatchProcessChangesBlock set_last]; fold start.
  - done.
  - intros log Hlog Hrange. apply Hc4. auto.
  - intros b pid u Hu Hrange Hpid. refine (apply_delivers n _ _ start end_ c4 c2 Hn filters_deliver Hh4 Hrest b pid u Hu Hrange _).
    destruct Hpid as [Hpid|(log & Hlog & <- & Hblk)]; [|apply Hk4; [done|lia]]. apply Hb4, Hb. set_solver.
Qed.

(** What holds between the start of a watch and any later moment. *)
Definition watched (c0 c : Contracts) : Prop :=
  c_lastWatchProcessChangesBlock c0 ≤ c_lastWatchProcessChangesBlock c ∧ c_knownProcesses c0 ⊆ c_knownProcesses c ∧
  (∀ log, log ∈ ch_created chain → c_lastWatchProcessChangesBlock c0 < Raw_BlockNumber log ≤ c_lastWatchProcessChangesBlock c →
    Event log ∈ c_knownProcesses c) ∧
  ∀ b pid u, (b, pid, u) ∈ changes chain → c_lastWatchProcessChangesBlock c0 < b ≤ c_lastWatchProcessChangesBlock c →
    (pid ∈ c_knownProcesses c0 ∨ ∃ log, log ∈ ch_created chain ∧ Event log = pid ∧ c_lastWatchProcessChangesBlock c0 < Raw_BlockNumber log ≤ b) →
    u ∈ c_updatedProcChan c.
Lemma watched_extends c0 c c' : watched c0 c → extends c c' → c_lastWatchProcessChangesBlock c' = c_lastWatchProcessChangesBlock c →
  watched c0 c'.
Proof.
  intros (Hlast & Hknown & Hcr & Hch) (_ & Hk & Hu) Heq. unfold watched. rewrite Heq. split_and!; [done|set_solver| |].
  - intros log Hlog Hb. apply Hk. auto.
  - intros b pid u Hin Hb Hpid. apply Hu. eauto.
Qed.
Lemma watched_catches_up c0 c c' : watched c0 c → extends c c' → caught_up c c' → watched c0 c'.
Proof.
  intros (Hlast & Hknown & Hcr & Hch) (_ & Hk & Hu) (Hlt & Hcr' & Hch').
  set (last := c_lastWatchProcessChangesBlock c) in *. split_and!; [lia|set_solver| |].
  - intros log Hlog Hb. destruct (Z.le_gt_cases (Raw_BlockNumber log) last); [apply Hk, Hcr|apply Hcr']; auto with lia.
  - intros b pid u Hin Hb Hpid. destruct (Z.le_gt_cases b last) as [Hle|Hgt]; [apply Hu; eapply Hch; eauto with lia|].
    apply (Hch' b pid u Hin); [lia|]. destruct Hpid as [Hpid|(log & Hlog & <- & Hblk)]; [left; set_solver|].
    destruct (Z.le_gt_cases (Raw_BlockNumber log) last); [left; apply Hcr; auto with lia|right]. exists log. split_and!; auto with lia.
Qed.
Lemma watch_keeps_watched n steps c0 c : n ≠ 0%nat → processes_readable chain honest → (∀ w, Passed w ∈ steps → honest w) →
  honest (c_world c) → watched c0 c → watched c0 (MonitorProcessUpdates n steps c).
Proof.
  intros Hn Hread. unfold MonitorProcessUpdates. revert c.
  induction steps as [|[|pid|w] steps IH]; intros c Hw Hh Hc; simpl; [done|apply IH; [set_solver| |]..].
  - by destruct (tick_catches_up n c Hn Hread Hh) as [(Hkeep & _) _]; apply Hkeep.
  - destruct (tick_catches_up n c Hn Hread Hh) as [Hext [Heq|Hup]]; [by eapply watched_extends|by eapply watched_catches_up].
  - done.
  - apply (watched_extends c0 c); [done| |done]. split_and!; simpl; [done|set_solver|done].
  - apply Hw. set_solver.
  - apply (watched_extends c0 c); [done| |done]. split_and!; simpl; [intros _; apply Hw; set_solver|done|done].
Qed.
Lemma watch_sourced n steps c pid : pid ∈ c_knownProcesses (MonitorProcessUpdates n steps c) →
  pid ∈ c_knownProcesses c ∨ Registered pid ∈ steps ∨ pid ∈ announced (c_updatedProcChan (MonitorProcessUpdates n steps c)).
Proof.
  assert (∀ steps c u, u ∈ c_updatedProcChan c → u ∈ c_updatedProcChan (MonitorProcessUpdates n steps c)) as Hkeep.
  { clear. unfold MonitorProcessUpdates. induction steps as [|[|q|w] steps IH]; intros c u Hu; simpl; [done|apply IH..]; [|done..].
    by apply (tick_sourced n c). }
  revert c. induction steps as [|step steps IH]; intros c Hpid; [by left|].
  destruct (IH (watch_step n step c) Hpid) as [Hk|[Hr|Ha]]; [|right; left; set_solver|right; by right].
  destruct step as [|q|w]; simpl in Hk; [|set_solver|by left].
  apply (tick_sourced n c) in Hk as [Hk|Hk]; [by left|]. right; right. eapply announced_mono; [|exact Hk]. intros u Hu. exact (Hkeep steps _ u Hu).
Qed.

(** C2: While the node follows the chain, though its calls may fail, every change of a process between the
    first block of the watch and the last that it has seen is announced, if the process was known at the start
    or was created in these blocks before; and every process created in them is known, and was announced unless
    it was known at the start or registered meanwhile. Refused filters only delay: the range is asked again. *)
Theorem watched_changes_announced retries steps c : retries ≠ 0%nat → processes_readable chain honest →
  honest (c_world c) → (∀ w, Passed w ∈ steps → honest w) →
  let c' := MonitorProcessUpdates retries steps c in
  let seen b := c_lastWatchProcessChangesBlock c < b ≤ c_lastWatchProcessChangesBlock c' in
  (∀ b pid u, (b, pid, u) ∈ changes chain → seen b →
    (pid ∈ c_knownProcesses c ∨ ∃ log, log ∈ ch_created chain ∧ Event log = pid ∧ c_lastWatchProcessChangesBlock c < Raw_BlockNumber log ≤ b) →
    u ∈ c_updatedProcChan c') ∧
  (∀ log, log ∈ ch_created chain → seen (Raw_BlockNumber log) →
    Event log ∈ c_knownProcesses c' ∧
    (Event log ∈ c_knownProcesses c ∨ Registered (Event log) ∈ steps ∨ Event log ∈ announced (c_updatedProcChan c'))).
Proof.
  intros Hn Hread Hh Hw c' seen. destruct (watch_keeps_watched retries steps c c Hn Hread Hw Hh) as (_ & _ & Hcr & Hch).
  { split_and!; [lia|done|intros; lia|intros; lia]. }
  split; [exact Hch|]. intros log Hlog Hseen. split; [by apply Hcr|]. apply watch_sourced. by apply Hcr.
Qed.

(** ** A creation that was passed over *)

Section skipped.
Context (pid : ProcessID) (before : list ProcessID).
(** The process is unknown, and was announced only if it had been before. *)
Definition unknown (c : Contracts) : Prop :=
  honest (c_world c) ∧ pid ∉ c_knownProcesses c ∧ (pid ∈ announced (c_updatedProcChan c) → pid ∈ before).
Definition keeps_unknown (c c' : Contracts) : Prop := unknown c → unknown c'.
#[local] Instance keeps_unknown_po : PreOrder keeps_unknown.
Proof. split; [intros c Hc; exact Hc|intros c1 c2 c3 H12 H23 Hc; auto]. Qed.
Lemma on_world_unknown {A} (m : SE World A) : (∀ w, honest w → honest (m w).2) → moves keeps_unknown (on_world m).
Proof.
  intros Hm c (Hh & Hk & Ha). pose proof (on_world_fields m c) as (Hk' & Ha' & _). unfold unknown. rewrite Hk', Ha'.
  split; [|done]. specialize (Hm _ Hh). unfold on_world. by destruct (m (c_world c)).
Qed.
Lemma emit_unknown u : u_NewProcess u = None → moves keeps_unknown (emit u).
Proof.
  intros Hu c (Hh & Hk & Ha). split; [done|]. split; [done|]. simpl. rewrite announced_snoc. unfold announced at 2; simpl. rewrite Hu.
  by rewrite app_nil_r.
Qed.
Lemma announce_creation_unknown log : Event log ≠ pid → moves keeps_unknown (announce_creation log).
Proof.
  intros Hne. pose proof (λ b q, on_world_unknown (GetProcess b q) (honest_get b q)).
  unfold announce_creation, ProcessAtBlock. apply moves_bind; [apply _|apply moves_attempt; unfold processAtBlock; moves|].
  intros [p|e]; [|moves]. intros c (Hh & Hk & Ha). unfold RegisterUnknownProcess, mbind, SE_bind, gets, modify, emit. cbn [snd fst].
  case_bool_decide; [done|]. unfold unknown, mret, SE_ret. cbn -[announced]. rewrite announced_snoc. split_and!; [done|set_solver|].
  intros [Hin|Hin%list_elem_of_singleton]%elem_of_app; [auto|by destruct Hne].
Qed.
Lemma change_filter_unknown {E} msg pid_of (logs : list (Log E)) ask upd start end_ : answers_all honest pid_of logs ask →
  (∀ l, u_NewProcess (upd l) = None) → moves keeps_unknown (change_filter msg ask upd start end_).
Proof.
  intros [Hkeep _] Hupd. pose proof (λ pids, on_world_unknown (ask start end_ pids) (Hkeep start end_ pids)).
  pose proof (λ l, emit_unknown (upd l) (Hupd l)). unfold change_filter, knownPIDs. moves.
Qed.
Lemma NewProcessFilter_unknown start end_ : (∀ log, log ∈ ch_created chain → Event log = pid → Raw_BlockNumber log < start) →
  moves keeps_unknown (NewProcessFilter start end_).
Proof.
  intros Hpast c Hc. unfold NewProcessFilter. pose proof (on_world_unknown _ (honest_created start end_) c Hc) as Hc1.
  unfold mbind, SE_bind, wrapping. destruct (on_world (FilterProcessCreated start end_) c) as [[iter|e] c1] eqn:Hask; [|done].
  apply on_world_Ok in Hask. refine (moves_forM_ keeps_unknown announce_creation iter _ c1 Hc1). intros log Hlog.
  apply announce_creation_unknown. intros Heq. destruct (created_only _ _ _ _ (proj1 Hc) Hask log Hlog) as [Hin Hb].
  specialize (Hpast log Hin Heq). lia.
Qed.
Lemma filters_unknown start end_ : (∀ log, log ∈ ch_created chain → Event log = pid → Raw_BlockNumber log < start) →
  Forall (λ f, moves keeps_unknown (f start end_)) ProcessUpdatesFilters.
Proof.
  intros Hpast. apply Forall_cons. split; [by apply NewProcessFilter_unknown|].
  rewrite !Forall_cons, Forall_nil. split_and!; [..|done]; eapply change_filter_unknown; eauto using status_all, root_all, voters_all, census_all.
Qed.
Lemma tick_unknown n c : (∀ log, log ∈ ch_created chain → Event log = pid → Raw_BlockNumber log < c_lastWatchProcessChangesBlock c) →
  keeps_unknown c (tick n ProcessUpdatesFilters c).2 ∧
  c_lastWatchProcessChangesBlock c ≤ c_lastWatchProcessChangesBlock (tick n ProcessUpdatesFilters c).2.
Proof.
  intros Hpast. assert (moves keeps_unknown CurrentBlock) as Hcur.
  { pose proof (on_world_unknown _ honest_block). unfold CurrentBlock. moves; intros Hc; exact Hc. }
  specialize (Hcur c). pose proof (CurrentBlock_grows c) as (_ & Hlast & _). unfold tick, mbind, SE_bind, gets.
  destruct (CurrentBlock c) as [[end_|e] c1]; simpl in Hcur, Hlast; [|split; [done|simpl; lia]]. rewrite Hlast.
  set (start := c_lastWatchProcessChangesBlock c) in *. destruct (Z.leb_spec end_ start) as [Hle|Hlt]; [split; [done|simpl; lia]|].
  pose proof (apply_filters_moves keeps_unknown start end_ n _ (filters_unknown start end_ Hpast) c1) as Hf.
  assert (c_lastWatchProcessChangesBlock (apply_filters start end_ n ProcessUpdatesFilters c1).2 = start) as Hl.
  { destruct (apply_filters_moves grows start end_ n _ (filters_grow start end_) c1) as (_ & Hl & _). congruence. }
  remember ProcessUpdatesFilters as fs eqn:Hfs. destruct (apply_filters start end_ n fs c1) as [[[e|]|e] c2]; simpl in *;
    (split; [intros Hc; by apply Hf, Hcur|lia]).
Qed.
End skipped.

(** C3: If the watch has gone past the blocks in which a process was created and does not know it, because the
    process could not be read when its creation was seen, it stays unknown and is not announced, however often
    the node answers afterwards. Only a registration, or a new watch, makes it known. *)
Theorem skipped_process_stays_unknown retries steps c pid : honest (c_world c) → (∀ w, Passed w ∈ steps → honest w) →
  pid ∉ c_knownProcesses c → Registered pid ∉ steps →
  (∀ log, log ∈ ch_created chain → Event log = pid → Raw_BlockNumber log < c_lastWatchProcessChangesBlock c) →
  let c' := MonitorProcessUpdates retries steps c in
  pid ∉ c_knownProcesses c' ∧ (pid ∈ announced (c_updatedProcChan c') → pid ∈ announced (c_updatedProcChan c)).
Proof.
  intros Hh Hw Hk Hreg Hpast. cut (unknown pid (announced (c_updatedProcChan c)) (MonitorProcessUpdates retries steps c)); [by intros (_ & ?)|].
  assert (unknown pid (announced (c_updatedProcChan c)) c) as Hu by done. revert Hu. generalize (announced (c_updatedProcChan c)) as before.
  clear Hk Hh. revert c Hpast. unfold MonitorProcessUpdates.
  induction steps as [|[|q|w] steps IH]; intros c Hpast before Hu; simpl; [done|apply IH..]; try set_solver.
  - intros log Hlog Heq. specialize (Hpast log Hlog Heq) as Hblk. destruct (tick_unknown pid before retries c Hpast) as [_ Hle]. lia.
  - by apply tick_unknown.
  - destruct Hu as (Hh & Hk & Ha). split_and!; [done|set_solver|done].
  - destruct Hu as (Hh & Hk & Ha). split_and!; [apply Hw; set_solver|done|done].
Qed.
End complete.

(** ** The blobs of a transaction *)

(** [src/types/blobs.go:213-218] BlobSidecar *)
Record BlobSidecar := { bs_Index : Z; bs_Blob : bytes; bs_Commitment : bytes; bs_Proof : bytes }.
(** What is used of a receipt, a transaction and a header. *)
Record Receipt := { r_BlockHash : bytes }.
Record MinedTx := { mt_Type : Z; mt_BlobHashes : list bytes }.
Record Header := { h_ParentBeaconRoot : option bytes }.
(** The nodes of the two layers, the hash of a commitment, and whether the caller gave up. *)
Class BeaconNode `{Outside} := {
  TransactionReceipt : bytes → SE World Receipt;
  TransactionByHash : bytes → SE World MinedTx;
  HeaderByHash : bytes → SE World Header;
  beacon_client : SE World ();
  BeaconBlockHeader : bytes → SE World Z; (* the slot of a root *)
  BlobSidecars : Z → SE World (list BlobSidecar); (* of a slot *)
  CalcBlobHashV1 : bytes → bytes;
  ctx_Done : World → bool }.

Section blobs.
Context `{BeaconNode}.

Definition BlobTxType : Z := 3.
(** [src/web3/blobs.go:26-26] *)
Definition defaultRetries : nat := 5.
(** [src/web3/blobs.go:29-29] *)
Definition defaultRetrySleep : Z := 10 * second.
(** [src/types/blobs.go:241-244] BlobSidecar.VersionedBlobHash *)
Definition VersionedBlobHash (bs : BlobSidecar) : bytes := CalcBlobHashV1 (bs_Commitment bs).
(** [src/web3/blobs.go:162-182] Contracts.TransactionAndBlockHeader *)
Definition TransactionAndBlockHeader (txHash : bytes) : SE World (MinedTx * Header) :=
  receipt ← wrapping "tx receipt" (TransactionReceipt txHash);
  if bool_decide (r_BlockHash receipt = replicate 32 (byte_of_Z 0)) then raise (ErrMsg "tx not mined yet")
  else
    tx ← wrapping "tx" (TransactionByHash txHash);
    blockHeader ← wrapping "header by hash" (HeaderByHash (r_BlockHash receipt));
    mret (tx, blockHeader).
(** [src/web3/blobs.go:186-228] Contracts.BlobSidecarsOfBlock *)
Definition BlobSidecarsOfBlock (parentBeaconRoot : bytes) : SE World (list BlobSidecar) :=
  _ ← wrapping "beacon client" beacon_client;
  parentSlot ← wrapping "beacon headers" (BeaconBlockHeader parentBeaconRoot);
  let slot := parentSlot + 1 in
  wrapping "blob sidecars" (BlobSidecars slot).
(** [src/web3/blobs.go:248-266] the tries, in BlobsByTxHash *)
Fixpoint fetch_sidecars (parentBeaconRoot : bytes) (retry : Z) (more : nat) (err : error) : SE World (list BlobSidecar) :=
  match more with
  | O => raise (Wrap "fetch blob sidecars failed after retries" err)
  | S more =>
      (if retry >? 0 then modify (Sleep (Z.shiftl defaultRetrySleep (retry - 1))) else mret ());;
      cancelled ← gets (λ w, (retry >? 0) && ctx_Done w);
      if (cancelled : bool) then raise (ErrMsg "context canceled")
      else
        sidecars ← attempt (BlobSidecarsOfBlock parentBeaconRoot);
        match sidecars with
        | Ok sidecars => mret sidecars
        | Err err => fetch_sidecars parentBeaconRoot (retry + 1) more err
        end
  end.
(** [src/web3/blobs.go:233-277] Contracts.BlobsByTxHash *)
Definition BlobsByTxHash (txHash : bytes) : SE World (list BlobSidecar) :=
  found ← wrapping "tx parent beacon root" (TransactionAndBlockHeader txHash);
  let '(tx, blockHeader) := found in
  if negb (bool_decide (mt_Type tx = BlobTxType)) then raise (ErrMsg "not a blob tx")
  else
    match h_ParentBeaconRoot blockHeader with
    | None => raise (ErrMsg "parent beacon root missing (EL client too old?)")
    | Some parentBeaconRoot =>
        sidecars ← fetch_sidecars parentBeaconRoot 0 defaultRetries (ErrMsg "");
        mret (filter (λ sc, VersionedBlobHash sc ∈ mt_BlobHashes tx) sidecars)
    end.
End blobs.

Section slots.
Context `{BeaconNode}.
(** The blocks of the consensus layer, by slot: a slot may have been missed. The nodes answer each call, and
    the caller waits. *)
Context (at_slot : Z → option (list BlobSidecar)) (not_found : error).
Context (Hclient : ∀ w, beacon_client w = (Ok (), w)).
Context (Hslots : ∀ slot w, BlobSidecars slot w = (from_option Ok (Err not_found) (at_slot slot), w)).
Context (Hwaits : ∀ w, ctx_Done w = false).

Lemma fetch_found parent parentSlot sidecars w : (∀ w, BeaconBlockHeader parent w = (Ok parentSlot, w)) →
  at_slot (parentSlot + 1) = Some sidecars → (fetch_sidecars parent 0 defaultRetries (ErrMsg "") w).1 = Ok sidecars.
Proof.
  intros Hheader Hat. cbn. unfold mbind, SE_bind, attempt, BlobSidecarsOfBlock, wrapping, mbind, SE_bind. cbn.
  by rewrite Hclient, Hheader, Hslots, Hat.
Qed.
Lemma fetch_missing parent parentSlot retry more e w : (∀ w, BeaconBlockHeader parent w = (Ok parentSlot, w)) →
  at_slot (parentSlot + 1) = None → ∃ e', (fetch_sidecars parent retry more e w).1 = Err e'.
Proof.
  intros Hheader Hat. revert retry e w. induction more as [|more IH]; intros retry e w; [by eexists|]. simpl.
  assert (∀ w, BlobSidecarsOfBlock parent w = (Err (Wrap "blob sidecars" not_found), w)) as Hblock.
  { intros w'. unfold BlobSidecarsOfBlock, wrapping, mbind, SE_bind. by rewrite Hclient, Hheader, Hslots, Hat. }
  unfold attempt, mbind, SE_bind, gets, modify. destruct (retry >? 0); simpl; rewrite ?Hwaits, Hblock; apply IH.
Qed.

(** C4: The blobs of a mined blob transaction are, among the blobs of its block, those that it names, provided
    that its block is in the slot right after its parent's. If the proposer of that slot missed it, so that the
    block of the transaction is in a later slot, the blobs are looked for in the empty slot and every try
    fails. *)
Theorem BlobsByTxHash_spec txHash tx block parent parentSlot slot sidecars w :
  (∀ w, TransactionReceipt txHash w = (Ok {| r_BlockHash := block |}, w)) → block ≠ replicate 32 (byte_of_Z 0) →
  (∀ w, TransactionByHash txHash w = (Ok tx, w)) → mt_Type tx = BlobTxType →
  (∀ w, HeaderByHash block w = (Ok {| h_ParentBeaconRoot := Some parent |}, w)) →
  (∀ w, BeaconBlockHeader parent w = (Ok parentSlot, w)) →
  parentSlot < slot → at_slot slot = Some sidecars → (∀ s, parentSlot < s < slot → at_slot s = None) →
  (slot = parentSlot + 1 → (BlobsByTxHash txHash w).1 = Ok (filter (λ sc, VersionedBlobHash sc ∈ mt_BlobHashes tx) sidecars)) ∧
  (parentSlot + 1 < slot → is_Ok (BlobsByTxHash txHash w).1 = false).
Proof using Hclient Hslots Hwaits.
  intros Hreceipt Hmined Htx Htype Hheader Hparent Hlt Hat Hmissed. unfold BlobsByTxHash.
  rewrite (bind_Ok _ _ _ (tx, {| h_ParentBeaconRoot := Some parent |}) w).
  2: { unfold TransactionAndBlockHeader, wrapping, mbind, SE_bind. rewrite Hreceipt. cbn. rewrite bool_decide_false by done.
       by rewrite Htx, Hheader. }
  rewrite bool_decide_true by done. cbn [negb h_ParentBeaconRoot]. unfold mbind, SE_bind. split.
  - intros ->. pose proof (fetch_found parent parentSlot sidecars w Hparent Hat) as Hf. by destruct (fetch_sidecars _ _ _ _ w) as [[]]; simplify_eq/=.
  - intros Hlate. destruct (fetch_missing parent parentSlot 0 defaultRetries (ErrMsg "") w Hparent (Hmissed (parentSlot + 1) ltac:(lia))) as [e' Hf].
    by destruct (fetch_sidecars _ _ _ _ w) as [[]]; simplify_eq/=.
Qed.
End slots.

Module EventsExample.
Import Concrete.
(** A node at a head block, which may refuse the next query of events, and may be unable to read processes. *)
Record Node := { x_now : Time; x_head : Z; x_refuse : bool; x_dark : bool }.
#[local] Instance outside_node : Outside := {|
  World := Node; clock := x_now; ParseError := λ _, ""%string;
  Sleep := λ d w, {| x_now := x_now w + d; x_head := x_head w; x_refuse := x_refuse w; x_dark := x_dark w |} |}.
Definition query {A} (r : A) : SE Node A := λ w,
  if x_refuse w then (Err (ErrMsg "rate limited"), {| x_now := x_now w; x_head := x_head w; x_refuse := false; x_dark := x_dark w |})
  else (Ok r, w).
Definition in_range {E} (start end_ : Z) (logs : list (Log E)) : list (Log E) :=
  filter (λ log, start ≤ Raw_BlockNumber log ≤ end_) logs.
(** No process asked for means that all are wanted. *)
Definition of_pids {E} (pid_of : E → ProcessID) (pids : list ProcessID) (logs : list (Log E)) : list (Log E) :=
  filter (λ log, pids = [] ∨ pid_of (Event log) ∈ pids) logs.
Definition at_block {E} (b : Z) (e : E) : Log E := {| Raw_BlockNumber := b; Raw_TxHash := []; Event := e |}.
Definition chain1 : Chain := {|
  ch_created := [at_block 5 pid1];
  ch_status := [at_block 6 {| sc_ProcessId := pid1; sc_OldStatus := ProcessStatusReady; sc_NewStatus := ProcessStatusEnded |}];
  ch_root := [at_block 7 {| st_ProcessId := pid1; st_OldStateRoot := 1; st_NewStateRoot := 2; st_NewVotersCount := 3; st_NewOverwrittenVotesCount := 0 |}];
  ch_voters := [at_block 9 {| mv_ProcessId := pid1; mv_MaxVoters := 10 |}];
  ch_census := [at_block 9 {| cu_ProcessId := pid1; cu_CensusRoot := []; cu_CensusURI := "" |}] |}.
Definition onchain1 : DAVINCITypesProcess := {|
  cp_Status := ProcessStatusReady; cp_OrganizationId := []; cp_EncryptionKey := (1, 2); cp_LatestStateRoot := 1;
  cp_StartTime := 10; cp_Duration := 60; cp_MaxVoters := 5; cp_VotersCount := 0; cp_OverwrittenVotesCount := 0;
  cp_MetadataURI := ""; cp_BallotMode := p_BallotMode process1; cp_CensusOrigin := 1; cp_CensusRoot := [];
  cp_CensusURI := ""; cp_ContractAddress := []; cp_Result := [] |}.
#[local] Instance contract_node : ContractNode := @Build_ContractNode outside_node
  (λ w, (Ok (x_head w), w))
  (λ _ _ w, (if x_dark w then Err (ErrMsg "timeout") else Ok onchain1, w))
  (λ s e, query (in_range s e (ch_created chain1)))
  (λ s e pids, query (of_pids sc_ProcessId pids (in_range s e (ch_status chain1))))
  (λ s e pids, query (of_pids st_ProcessId pids (in_range s e (ch_root chain1))))
  (λ s e pids, query (of_pids mv_ProcessId pids (in_range s e (ch_voters chain1))))
  (λ s e pids, query (of_pids cu_ProcessId pids (in_range s e (ch_census chain1)))).
#[local] Instance payloads : Payloads := {| process_payload := λ _ _, []; census_payload := λ _, [] |}.

Lemma query_dark {A} (r : A) w : x_dark (query r w).2 = x_dark w.
Proof. unfold query. by destruct (x_refuse w). Qed.
Lemma query_Ok {A} (r a : A) w : (query r w).1 = Ok a → a = r.
Proof. unfold query. destruct (x_refuse w); simpl; [done|]. by intros [= ->]. Qed.
Lemma query_all {E} (honest : Node → Prop) pid_of (logs : list (Log E)) :
  (∀ w w', x_dark w = x_dark w' → honest w → honest w') →
  answers_all honest pid_of logs (λ s e pids, query (of_pids pid_of pids (in_range s e logs))).
Proof.
  intros Hdark. split.
  - intros s e pids w Hw. apply (Hdark w); [by rewrite query_dark|done].
  - intros s e pids w l Hw ->%query_Ok log Hlog Hb Hpid. apply list_elem_of_filter. split; [by right|]. by apply list_elem_of_filter.
Qed.
Lemma honest_node (honest : Node → Prop) : (∀ w w', x_dark w = x_dark w' → honest w → honest w') → HonestNode chain1 honest.
Proof.
  intros Hdark. split; try (by apply query_all); simpl.
  - done.
  - done.
  - intros s e w Hw. apply (Hdark w); [by rewrite query_dark|done].
  - intros s e w l Hw ->%query_Ok log Hlog Hb. by apply list_elem_of_filter.
  - intros s e w l Hw ->%query_Ok log [Hb Hlog]%list_elem_of_filter. done.
Qed.

(** The second query is refused, once; the chain goes on, and the rest is announced at the next tick. *)
Definition calm : Node := {| x_now := 0; x_head := 0; x_refuse := false; x_dark := false |}.
Definition fresh : @Contracts outside_node := @initial outside_node 0 calm.
Definition at_head (t b : Z) (refuse dark : bool) : WatchStep :=
  @Passed outside_node {| x_now := t * second; x_head := b; x_refuse := refuse; x_dark := dark |}.
Definition two_ticks : list WatchStep := [at_head 10 6 true false; Tick; at_head 20 9 false false; Tick].
Example two_ticks_announce : let c := MonitorProcessUpdates 3 two_ticks fresh in
  (c_lastWatchProcessChangesBlock c, length (c_updatedProcChan c)) = (9, 6%nat).
Proof. vm_compute. reflexivity. Qed.

Definition bright : @World outside_node → Prop := λ w, x_dark w = false.
#[local] Instance bright_node : HonestNode chain1 bright.
Proof. apply honest_node. unfold bright. intros w w' Hd Hw. by rewrite <-Hd. Qed.
Lemma bright_readable : processes_readable chain1 bright.
Proof. intros log w _ Hw. exists onchain1. split; [|done]. simpl. unfold bright in Hw. by rewrite Hw. Qed.
Lemma bright_ticks w : @Passed outside_node w ∈ two_ticks → bright w.
Proof. unfold two_ticks, at_head. rewrite !elem_of_cons, elem_of_nil. intros [[= ->]|[|[[= ->]|[|]]]]; done. Qed.
Lemma watched_changes_announced_witness :
  max_voters_update (at_block 9 {| mv_ProcessId := pid1; mv_MaxVoters := 10 |}) ∈
    c_updatedProcChan (MonitorProcessUpdates 3 two_ticks fresh).
Proof.
  apply (proj1 (watched_changes_announced chain1 bright 3 two_ticks fresh ltac:(done) bright_readable eq_refl bright_ticks) 9 pid1).
  - unfold changes, change_parts. simpl. set_solver.
  - vm_compute. split; [reflexivity|discriminate].
  - right. exists (at_block 5 pid1). split; [apply list_elem_of_singleton; reflexivity|]. split; [reflexivity|]. vm_compute. split; [reflexivity|discriminate].
Defined.

(** The process cannot be read when its creation is seen, and ever after the node answers. *)
Definition any_node : @World outside_node → Prop := λ _, True.
#[local] Instance any_node_honest : HonestNode chain1 any_node.
Proof. apply honest_node. done. Qed.
Definition passed_over : @Contracts outside_node := MonitorProcessUpdates 3 [at_head 10 6 false true; Tick] fresh.
Definition bright_days : list WatchStep := [at_head 20 9 false false; Tick; at_head 30 12 false false; Tick].
Lemma skipped_process_stays_unknown_witness :
  let c' := MonitorProcessUpdates 3 bright_days passed_over in
  pid1 ∉ c_knownProcesses c' ∧ (pid1 ∈ announced (c_updatedProcChan c') → pid1 ∈ announced (c_updatedProcChan passed_over)).
Proof.
  apply (skipped_process_stays_unknown chain1 any_node 3 bright_days passed_over pid1); [done|done| | |].
  - assert (c_knownProcesses passed_over = ∅) as -> by (vm_compute; reflexivity). set_solver.
  - unfold bright_days, at_head. rewrite !elem_of_cons, elem_of_nil. by intros [|[|[|[|]]]].
  - intros log ->%list_elem_of_singleton _. vm_compute. reflexivity.
Defined.

(** Blocks in slots 8 and 9, and one in slot 11 after a missed slot. *)
Definition sidecar (i : Z) : BlobSidecar := {| bs_Index := i; bs_Blob := []; bs_Commitment := [byte_of_Z i]; bs_Proof := [] |}.
Definition slots (s : Z) : option (list BlobSidecar) :=
  if bool_decide (s = 8) then Some [] else if bool_decide (s = 9) then Some [sidecar 1; sidecar 2] else if bool_decide (s = 11) then Some [sidecar 3] else None.
Definition block_of (txHash : bytes) : Z := if bool_decide (txHash = []) then 9 else 11.
#[local] Instance beacon_node : BeaconNode := @Build_BeaconNode outside_node
  (λ h w, (Ok {| r_BlockHash := [byte_of_Z (block_of h)] |}, w))
  (λ h w, (Ok {| mt_Type := 3; mt_BlobHashes := if bool_decide (h = []) then [[byte_of_Z 2]] else [[byte_of_Z 3]] |}, w))
  (λ b w, (Ok {| h_ParentBeaconRoot := Some b |}, w))
  (λ w, (Ok (), w))
  (λ b w, (Ok (if bool_decide (b = [byte_of_Z 9]) then 8 else 9), w))
  (λ s w, (from_option Ok (Err (ErrMsg "not found")) (slots s), w))
  (λ c, c) (λ _, false).
Lemma BlobsByTxHash_spec_witness :
  (BlobsByTxHash [] calm).1 = Ok [sidecar 2] ∧ is_Ok (BlobsByTxHash [byte_of_Z 1] calm).1 = false.
Proof.
  split.
  - refine (proj1 (@BlobsByTxHash_spec outside_node beacon_node slots (ErrMsg "not found") _ _ _ [] {| mt_Type := 3; mt_BlobHashes := [[byte_of_Z 2]] |}
      [byte_of_Z 9] [byte_of_Z 9] 8 9 [sidecar 1; sidecar 2] calm _ _ _ _ _ _ _ _ _) eq_refl); try reflexivity; try done. lia.
  - apply (proj2 (@BlobsByTxHash_spec outside_node beacon_node slots (ErrMsg "not found") (λ w, eq_refl) (λ s w, eq_refl) (λ w, eq_refl) [byte_of_Z 1]
      {| mt_Type := 3; mt_BlobHashes := [[byte_of_Z 3]] |} [byte_of_Z 11] [byte_of_Z 11] 9 11 [sidecar 3] calm (λ w, eq_refl)
      ltac:(done) (λ w, eq_refl) eq_refl (λ w, eq_refl) (λ w, eq_refl) ltac:(lia) eq_refl
      ltac:(intros s Hs; assert (s = 10) as -> by lia; reflexivity))). lia.
Defined.
End EventsExample.
