(* ===== verification/StateSync.v ===== *)
(** * The synchronization of states

    [src/service/state_sync.go]: the queue of updates of state roots, the queue of each process and its
    worker, and what a worker does with an update: move the root if the new state is there, or rebuild the
    new state from the blobs of its transaction. *)

From S2P Require Import Prelude Bytes Spec Types Curve ElGamal StateTree StateVote StateBatch Tally StateApply.

(** ** The queues *)

(** An update: the process, the roots and the transaction. *)
Record Notification := {
  n_ProcessID : ProcessID; n_OldStateRoot : option Z; n_NewStateRoot : option Z; n_TxHash : option bytes }.
(** [src/service/state_sync.go:17-24] StateSync; the queue of a worker ([stateSyncWorker], lines 26-29) is that of its
    process *)
Record StateSync := { ss_queue : list Notification; ss_workers : gmap ProcessID (list Notification) }.
Definition queue_capacity : nat := 100.
(** [src/service/state_sync.go:32-43] NewStateSync *)
Definition NewStateSync : StateSync := {| ss_queue := []; ss_workers := ∅ |}.
(** [src/service/state_sync.go:70-77] StateSync.Notify: a full queue drops the update *)
Definition Notify (process : Notification) (ss : StateSync) : StateSync :=
  if (length (ss_queue ss) <? queue_capacity)%nat
  then {| ss_queue := ss_queue ss ++ [process]; ss_workers := ss_workers ss |} else ss.
(** [src/service/state_sync.go:191-198] StateSync.getOrCreateWorker: the queue of the process *)
Definition getOrCreateWorker (processID : ProcessID) (ss : StateSync) : list Notification :=
  default [] (ss_workers ss !! processID).
(** [src/service/state_sync.go:240-247] stateSyncWorker.enqueue *)
Definition enqueue (process : Notification) (worker : list Notification) : result () * list Notification :=
  if (length worker <? queue_capacity)%nat then (Ok (), worker ++ [process])
  else (Err (ErrMsg "statesync queue for process is full"), worker).
(** [src/service/state_sync.go:187-189] StateSync.enqueueInWorker *)
Definition enqueueInWorker (process : Notification) (ss : StateSync) : result () * StateSync :=
  let '(r, worker) := enqueue process (getOrCreateWorker (n_ProcessID process) ss) in
  (r, {| ss_queue := ss_queue ss; ss_workers := <[n_ProcessID process := worker]> (ss_workers ss) |}).
(** [src/service/state_sync.go:82-91] one update of the queue, in consumeQueue *)
Definition consume (ss : StateSync) : StateSync :=
  match ss_queue ss with
  | [] => ss
  | process :: queue => (enqueueInWorker process {| ss_queue := queue; ss_workers := ss_workers ss |}).2
  end.
(** [src/service/state_sync.go:224-228] the update that the worker of a process takes next, in run *)
Definition take_next (processID : ProcessID) (ss : StateSync) : option Notification * StateSync :=
  match ss_workers ss !! processID with
  | Some (process :: queue) =>
      (Some process, {| ss_queue := ss_queue ss; ss_workers := <[processID := queue]> (ss_workers ss) |})
  | _ => (None, ss)
  end.

(** ** The order of the updates *)

(** What happens to the queues: an update is announced, handed to its worker, or taken by it. *)
Inductive QueueStep := Announced (process : Notification) | Consumed | Taken (processID : ProcessID).
(** A step, with the updates announced and the updates taken so far. *)
Definition queue_step (step : QueueStep) (run : list Notification * list Notification * StateSync) :
    list Notification * list Notification * StateSync :=
  let '(announced, taken, ss) := run in
  match step with
  | Announced process => (announced ++ [process], taken, Notify process ss)
  | Consumed => (announced, taken, consume ss)
  | Taken processID =>
      let '(process, ss') := take_next processID ss in (announced, taken ++ option_list process, ss')
  end.
Definition run_queues (steps : list QueueStep) : list Notification * list Notification * StateSync :=
  foldl (flip queue_step) ([], [], NewStateSync) steps.
(** The updates of a process. *)
Definition of_process (processID : ProcessID) (l : list Notification) : list Notification :=
  filter (λ n, n_ProcessID n = processID) l.
(** Taken, then in the queue of the worker, then in the common queue: in the order announced. *)
Definition ordered (run : list Notification * list Notification * StateSync) : Prop :=
  let '(announced, taken, ss) := run in
  ∀ pid, Forall (λ n, n_ProcessID n = pid) (getOrCreateWorker pid ss) ∧
    (of_process pid taken ++ getOrCreateWorker pid ss ++ of_process pid (ss_queue ss)) `sublist_of` of_process pid announced.

Lemma of_process_app pid l k : of_process pid (l ++ k) = of_process pid l ++ of_process pid k.
Proof. apply filter_app. Qed.
Lemma of_process_same n : of_process (n_ProcessID n) [n] = [n].
Proof. unfold of_process. rewrite filter_cons_True by done. done. Qed.
Lemma of_process_other pid n : n_ProcessID n ≠ pid → of_process pid [n] = [].
Proof. intros Hn. unfold of_process. rewrite filter_cons_False by done. done. Qed.
Lemma worker_insert pid p w q m : getOrCreateWorker pid {| ss_queue := q; ss_workers := <[p := w]> m |} =
  if bool_decide (p = pid) then w else default [] (m !! pid).
Proof. unfold getOrCreateWorker; simpl. case_bool_decide; [subst; by rewrite lookup_insert_eq|by rewrite lookup_insert_ne]. Qed.

Lemma queue_step_ordered step run : ordered run → ordered (queue_step step run).
Proof.
  destruct run as [[announced taken] ss]. intros Hord. destruct step as [n| |p]; simpl.
  - intros pid. destruct (Hord pid) as [Hw Hsub]. unfold Notify. rewrite of_process_app.
    destruct (_ <? _)%nat; (split; [done|]).
    + change (getOrCreateWorker pid {| ss_queue := ss_queue ss ++ [n]; ss_workers := ss_workers ss |}) with (getOrCreateWorker pid ss).
      simpl. rewrite of_process_app, !app_assoc. apply sublist_app; [by rewrite <-app_assoc|done].
    + by apply sublist_inserts_r.
  - unfold consume. destruct (ss_queue ss) as [|n queue] eqn:Hq; [exact Hord|].
    intros pid. destruct (Hord pid) as [Hw Hsub]. unfold enqueueInWorker, enqueue. rewrite Hq in Hsub.
    change (n :: queue) with ([n] ++ queue) in Hsub. rewrite of_process_app in Hsub.
    change (getOrCreateWorker (n_ProcessID n) {| ss_queue := queue; ss_workers := ss_workers ss |})
      with (getOrCreateWorker (n_ProcessID n) ss).
    destruct (_ <? _)%nat; cbn [snd]; rewrite worker_insert; case_bool_decide as Heq; cbn [ss_queue ss_workers].
    + subst pid. rewrite of_process_same in Hsub. split; [apply Forall_app_2; [done|by constructor]|]. by rewrite <-(app_assoc _ [n]).
    + split; [done|]. by rewrite of_process_other in Hsub by done.
    + subst pid. split; [done|]. etrans; [|exact Hsub].
      apply sublist_app; [done|]. apply sublist_app; [done|]. by apply sublist_inserts_l.
    + split; [done|]. by rewrite of_process_other in Hsub by done.
  - unfold take_next. destruct (ss_workers ss !! p) as [[|n queue]|] eqn:Hp; cbn [option_list]; rewrite ?app_nil_r; [exact Hord| |exact Hord].
    intros pid. destruct (Hord pid) as [Hw Hsub]. rewrite worker_insert. cbn [ss_queue ss_workers]. rewrite of_process_app.
    case_bool_decide as Heq.
    + subst pid. unfold getOrCreateWorker in Hw, Hsub. rewrite Hp in Hw, Hsub. simpl in Hw, Hsub.
      apply Forall_cons in Hw as [<- Hw]. split; [done|]. rewrite of_process_same.
      by rewrite <-app_assoc.
    + split; [done|]. destruct (Hord p) as [Hwp _]. unfold getOrCreateWorker in Hwp. rewrite Hp in Hwp.
      apply Forall_cons in Hwp as [Hn _]. change (option_list (Some n)) with [n]. rewrite of_process_other by congruence. by rewrite app_nil_r.
Qed.

(** C23: However announcements, the dispatcher and the workers interleave, the updates of a process that its
    worker has taken, followed by those waiting for it, are updates announced for that process, in the order in
    which they were announced and none of them twice: a full queue may drop updates and never reorders them. *)
Theorem updates_in_order steps processID :
  let '(announced, taken, ss) := run_queues steps in
  (of_process processID taken ++ getOrCreateWorker processID ss ++ of_process processID (ss_queue ss))
    `sublist_of` of_process processID announced.
Proof.
  assert (Hord : ordered (run_queues steps)).
  { unfold run_queues. assert (Hinit : ordered ([], [], NewStateSync)).
    { intros pid. by split; [constructor|]. }
    revert Hinit. generalize ([] : list Notification, [] : list Notification, NewStateSync).
    induction steps as [|step steps IH]; intros run Hrun; [done|]. apply IH. by apply queue_step_ordered. }
  destruct (run_queues steps) as [[announced taken] ss]. apply Hord.
Qed.

(** ** An update is applied *)

(** Where the blobs of a transaction come from; a sidecar or its blob may be nil. *)
Definition BlobFetcher : Type := bytes → result (list (option (option bytes))).
(** [src/service/state_sync.go:207-220] resolveBlobFetcherForProcess *)
Definition resolveBlobFetcherForProcess (resolver : option (ProcessID → result (option BlobFetcher))) (processID : ProcessID) :
    result BlobFetcher :=
  match resolver with
  | None => Err (ErrMsg "blob fetcher resolver is not configured")
  | Some resolve =>
      match resolve processID with
      | Err e => Err (Wrap "resolve blob fetcher for process" e)
      | Ok None => Err (ErrMsg "resolve blob fetcher for process: nil blob fetcher")
      | Ok (Some blobFetcher) => Ok blobFetcher
      end
  end.

Section apply.
Context `{Curve} `{Arbo} `{Hash : PoseidonHasher} `{KZG} (ScalarField : Z) (fault : option error).

(** [src/service/state_sync.go:171-185] StateSync.promoteConfirmedStateRoot: the outcome, and the state that was
    opened, if any *)
Definition promoteConfirmedStateRoot (process : Notification) : result () * option State :=
  match New ScalarField fault (n_ProcessID process) with
  | Err e => (Err (Wrap "failed to open state for process" e), None)
  | Ok st =>
      let '(r, st') := State_SetRootAsBigInt (n_NewStateRoot process) st in
      (match r with Ok _ => Ok () | Err e => Err (Wrap "failed to promote confirmed root" e) end, Some st')
  end.
(** [src/service/state_sync.go:125-160] the blobs are applied, in fetchBlobAndApply *)
Definition apply_blobs (process : Notification) (blobs : list (option (option bytes))) : result () * option State :=
  let sidecar := {| sc_Version := 0; sc_Blobs := Some <$> omap (λ b, b ≫= id) blobs; sc_Commitments := []; sc_Proofs := [] |} in
  if bool_decide (sc_Blobs sidecar = []) then (Err (ErrMsg "no usable blobs found for tx"), None)
  else match New ScalarField fault (n_ProcessID process) with
       | Err e => (Err (Wrap "failed to open state for process" e), None)
       | Ok st =>
           match ApplyBlobSidecarFromRoot (n_OldStateRoot process) (n_NewStateRoot process) (Some sidecar) st with
           | (Err e, st') => (Err (Wrap "failed to apply blob data to state" e), Some st')
           | (Ok _, st') =>
               match (State_RootAsBigInt st').1 with
               | Err e => (Err (Wrap "failed to calculate new state root" e), Some st')
               | Ok newRoot =>
                   if bool_decide (n_NewStateRoot process = Some newRoot) then (Ok (), Some st')
                   else (Err (ErrMsg "state root mismatch"), Some st')
               end
           end
       end.
(** [src/service/state_sync.go:96-169] StateSync.fetchBlobAndApply *)
Definition fetchBlobAndApply (resolver : option (ProcessID → result (option BlobFetcher))) (process : Notification) :
    result () * option State :=
  match RootExists (n_ProcessID process) (n_NewStateRoot process) with
  | Ok _ => promoteConfirmedStateRoot process
  | Err _ =>
      match resolveBlobFetcherForProcess resolver (n_ProcessID process) with
      | Err e => (Err e, None)
      | Ok blobFetcher =>
          match n_TxHash process with
          | None => (Err (ErrMsg "nil pointer dereference"), None)
          | Some txHash =>
              match blobFetcher txHash with
              | Err e => (Err (Wrap "failed to fetch blobs for tx" e), None)
              | Ok [] => (Err (ErrMsg "no blobs found for tx"), None)
              | Ok blobs => apply_blobs process blobs
              end
          end
      end
  end.

(** C20: To follow an update is all or nothing: after it, the state of the process is at the announced root,
    if the tree that was asked for a root that exists gives that root, or it is as it was opened, whatever
    the blobs hold and wherever it stops. *)
Theorem fetchBlobAndApply_atomic resolver process r st' :
  (∀ t root t', t_SetRoot t root = Ok t' → t_Root t' = Ok root) →
  fetchBlobAndApply resolver process = (r, Some st') →
  ∃ st, New ScalarField fault (n_ProcessID process) = Ok st ∧
    match r with
    | Ok _ => ∃ root t, n_NewStateRoot process = Some root ∧ t_Root t = Ok root ∧ st' = set_tree t st
    | Err _ => st' = st
    end.
Proof.
  intros Hset. unfold fetchBlobAndApply. destruct (RootExists _ _) as [_|_].
  - unfold promoteConfirmedStateRoot. destruct (New _ _ _) as [st|e]; [|done]. unfold State_SetRootAsBigInt.
    destruct (n_NewStateRoot process) as [root|]; [|intros [= <- <-]; by exists st].
    destruct (t_SetRoot (s_tree st) root) as [t|e] eqn:Ht; intros [= <- <-]; exists st; (split; [done|]); [|done].
    exists root, t. eauto.
  - destruct (resolveBlobFetcherForProcess _ _) as [fetch|e]; [|done]. destruct (n_TxHash process) as [h|]; [|done].
    destruct (fetch h) as [[|b bs]|e]; [done| |done]. unfold apply_blobs. case_bool_decide; [done|].
    destruct (New _ _ _) as [st|e]; [|done].
    destruct (ApplyBlobSidecarFromRoot _ _ _ st) as [r1 st1] eqn:Ha. apply ApplyBlobSidecarFromRoot_atomic in Ha.
    destruct r1 as [u|e]; [|intros [= <- <-]; by exists st]. destruct Ha as (root & t & Hnew & Ht & ->).
    assert (Hroot : (State_RootAsBigInt (set_tree t st)).1 = Ok root).
    { unfold State_RootAsBigInt, read, root_of. simpl. by rewrite Ht. }
    rewrite Hroot, Hnew, bool_decide_eq_true_2 by done. intros [= <- <-]. exists st. split; [done|]. by exists root, t.
Qed.
End apply.

(** ** An update of the voted process *)

Module SyncExample.
Import ConcreteState.
(** The root of the empty tree is there. *)
Definition known : Notification :=
  {| n_ProcessID := pid; n_OldStateRoot := Some 1; n_NewStateRoot := Some (MapTree.root ∅); n_TxHash := None |}.
(** Another root is not, and the blob does not lead to it. *)
Definition strayed : Notification :=
  {| n_ProcessID := pid; n_OldStateRoot := Some (MapTree.root ∅); n_NewStateRoot := Some 0; n_TxHash := Some [] |}.
Definition fetcher : option (ProcessID → result (option BlobFetcher)) :=
  Some (λ _, Ok (Some (λ _, Ok [Some (Some (be_Blob two_votes_data)); None]))).
Definition field : Z := 2 ^ 254.
Lemma set_root_root (t : gmap Z (list Z)) root (t' : gmap Z (list Z)) : t_SetRoot t root = Ok t' → t_Root t' = Ok root.
Proof.
  cbn. unfold MapTree.of_root. destruct (decode _) as [m|]; [|done].
  destruct (Z.eqb_spec (MapTree.root m) root) as [<-|]; [|done]. by intros [= <-].
Qed.
Lemma known_promoted : ∃ st, fetchBlobAndApply field None None known = (Ok (), Some st).
Proof.
  unfold fetchBlobAndApply, RootExists, openTreeForRootCheck. cbn [n_NewStateRoot known n_ProcessID].
  assert (Hv : pid_IsValid pid = true) by by vm_compute.
  assert (Hr : MapTree.of_root (MapTree.root ∅) = Ok ∅) by apply MapTree.of_root_root.
  rewrite Hv. cbn. unfold MapTree.exists_root. rewrite Hr. unfold promoteConfirmedStateRoot, New.
  assert (Hf : (pid_MathBigInt pid <? field) = true) by by vm_compute.
  cbn [n_ProcessID known]. rewrite Hf, Hv. cbn. rewrite Hr. by eexists.
Qed.
Lemma fetchBlobAndApply_atomic_witness :
  ∃ st, New field None pid = Ok st ∧ ∃ t st', t_Root t = Ok (MapTree.root ∅) ∧ st' = set_tree t st.
Proof.
  destruct known_promoted as [st' Hrun].
  destruct (fetchBlobAndApply_atomic field None None known (Ok ()) st' set_root_root Hrun)
    as (st & Hnew & root & t & [= <-] & Ht & ->).
  exists st. split; [exact Hnew|]. by exists t, (set_tree t st).
Defined.
(** The blob is fetched and applied, its votes do not lead to the announced root, and the state stays. *)
Definition tree_after (r : result () * option State) : bool * option (gmap Z (list Z)) :=
  (is_Ok r.1, match r.2 with Some st => Some (s_tree st) | None => None end).
Example strayed_update_undone : tree_after (fetchBlobAndApply field None fetcher strayed) = (false, Some ∅).
Proof. by vm_compute. Qed.
End SyncExample.
